(* ===== verification/_CoqProject ===== *)
-Q . S2P
Prelude.v
Kstring.v
Screen.v
Console.v
ConsoleInv.v
ConsoleKeys.v
ConsoleEdit.v
ConsoleSpec.v
ConsoleUndo.v
ConsoleTab.v
ConsoleBoot.v
Kbd.v
Mem.v
Kalloc.v
Vm.v
VmSpec.v
VmMap.v
VmUser.v
VmKernel.v
VmFork.v
VmCopy.v
VmDemo.v
Spinlock.v
Proc.v
ProcStep.v
ProcInv.v
ProcEff.v
ProcThm.v
Pipe.v
PipeSpec.v
Ulib.v
Grep.v
Sh.v
ShSpec.v
ShThm.v
Bio.v
BioSpec.v
Ide.v
IdeSpec.v
IdeThm.v
Log.v
LogCopy.v
LogSpec.v
LogTx.v
LogThm.v
Fs.v
FsBlock.v
FsLog.v
FsBitmap.v
FsMap.v
FsFile.v
FsTrunc.v
FsCache.v
FsDir.v
FsPath.v
FsThm.v
FsTree.v
FsRefs.v
File.v
FileInv.v
FileRefs.v
Sysfile.v
SysfileThm.v
SysfileMem.v
SysfileDemo.v
Mkfs.v
MkfsSpec.v
MkfsInv.v
MkfsThm.v
MkfsRead.v
Exec.v
ExecMem.v
ExecSpec.v
ExecThm.v
ExecMkfs.v
Boot.v
FindSum.v
Umalloc.v
UmallocSpec.v
Uprog.v
