(* ===== verification/Prelude.v ===== *)
(** * Verification of an xv6 kernel with a line-editing console

    The program is xv6 for the x86, a small Unix in C, whose console has been
    extended by a line editor (cursor, selection, clipboard, undo, command
    completion), with its user programs, one of them new (find_sum).  This
    library translates it into definitions that run, and proves theorems
    about them.  C functions keep their names; [src/] names are given with
    each component.

    ** How code is translated

    C integers are [Z], with the conversions of the code written out ([u32],
    [i32], [u8], ...); signed overflow, a null pointer or an index outside
    an array is an outcome, [Undef].  Stateful code is in the monad
    [M S A := S -> outcome S A] of this file, an outcome being [Ok a s],
    [Panic msg] (the code's panic()), [Undef what] or [Blocked s] (the call
    has to sleep, or the fuel of a loop has run out).  Loops are [for_up],
    [for_down], [for_step], [search] (a loop with an early return) or
    fixpoints on fuel.  Pages, buffers, inodes, files and processes are
    indices or addresses, not values: code that shares an object shares it
    in the model.  A critical section under a spin lock is one step; a
    routine that sleeps is cut where it sleeps.

    Theorems on what a routine does are about [wp], which holds only if the
    routine returns [Ok]: they show that it neither panics, nor runs out of
    bounds, nor goes on for ever.  [wlp], which says nothing about calls that
    do not return, is used for invariants of whole systems ([Proc*],
    [FsRefs], [File*], [Sysfile*]) only.  Fuel is a bound computed from the
    state (bytes left, blocks in the heap, size of the file, pages to copy),
    and each theorem with [wp] shows that it is enough.

    ** The parts, and where they are

    - This file: integers, the monad and its rules, arrays, byte order.
    - Console.  [Kstring], [Mem]: string.c on characters and on memory.
      [Screen]: the CGA screen, cprintf and the output side of console.c,
      uart.c.  [Console]: the input side, every key a definition.
      [ConsoleInv], [ConsoleKeys], [ConsoleEdit]: the editor's invariant and
      what each key does.  [ConsoleSpec], [ConsoleUndo], [ConsoleTab]: the
      theorems; [ConsoleBoot]: runs from the state after boot.  [Kbd]: kbd.c
      and kbd.h, from scan codes to the console's interrupt.
    - Memory.  [Kalloc]: kalloc.c, its list threaded through the free pages.
      [Vm]: vm.c, page tables in byte memory.  [VmSpec], [VmMap], [VmUser],
      [VmKernel], [VmFork], [VmCopy]: address spaces as partial maps, and
      each routine on them; [VmDemo]: the memory of the first process, and
      an instance.
    - Processes.  [Spinlock]: spinlock.c.  [Proc]: proc.c, with scheduler,
      sched, sleep and wait cut at the switch.  [ProcStep]: the step relation
      of a machine of any number of processors.  [ProcInv], [ProcEff]: the
      invariants and that every routine keeps them.  [ProcThm]: the theorems.
    - Pipes.  [Pipe]: pipe.c as steps of readers and writers; [PipeSpec].
    - Disk.  [Bio], [BioSpec]: bio.c, sleeplock.c, memide.c, the
      cache as a doubly linked list.  [Log], [LogCopy], [LogSpec],
      [LogTx], [LogThm]: log.c, commit and recovery; a disk keeps
      the sequence of its writes, and a crash is a prefix of it.  [Ide]:
      ide.c and the controller behind its ports.  [IdeSpec], [IdeThm]: the
      request queue, and runs of processes, disk and interrupts.
    - File system.  [Fs]: fs.c over a class [Blocks] of operations on
      blocks.  [FsBlock]: the laws the file system relies on, the class
      [BlockLaws]; [FsLog]: bio.c and log.c satisfy them.  [FsBitmap],
      [FsMap], [FsFile], [FsTrunc], [FsCache], [FsDir], [FsPath]: blocks, the
      block map, files, the inode cache, directories, paths.  [FsThm],
      [FsTree]: the theorems, and a small file system.
    - System calls.  [File]: file.c and pipealloc(), the state of a system
      call.  [Sysfile]: sysfile.c, and the fetching of arguments in
      syscall.c.  [FsRefs], [FileInv], [FileRefs]: the accounts of
      references.  [SysfileThm], [SysfileMem]: the theorems.  [SysfileDemo]:
      a disk is booted and a process makes calls on it.
    - Disk images.  [Mkfs]: mkfs.c.  [MkfsSpec], [MkfsInv]: what its routines
      do to the image.  [MkfsThm], [MkfsRead]: the image it makes, and the
      kernel started from that image.
    - Programs.  [Exec]: exec.c, loaduvm() and sys_exec().  [ExecMem]: the
      new address space while it is built.  [ExecSpec]: what a process becomes,
      as a function of the bytes of the file and the arguments, and that exec()
      follows it.  [ExecThm]: the theorems; [ExecMkfs]: programs on a disk
      that mkfs made.
    - Starting.  [Boot]: bootmain.c, over the controller of [Ide] with physical
      memory, and mp.c, the tables that describe the processors.
    - User programs.  [Ulib]: ulib.c.  [Grep]: grep.c.  [Sh], [ShSpec],
      [ShThm]: the parser of sh.c.  [FindSum]: find_sum.c.  [Umalloc],
      [UmallocSpec]: umalloc.c.  [Uprog]: printf.c, and wc(), cat() and the
      loop of echo on a process's input and output; the negation of the least
      int in printint() is taken to wrap.
    ** What is shown

    - Console: the keys but TAB and ^Z refine an abstract line editor with a
      cursor, a selection and a clipboard, as long as the ring has room; no
      keys but TAB run out of bounds or panic; the line whose keys are pressed
      on a US keyboard is what is read, from scan codes to the reader; ^Z
      undoes typing; ^V inserts the clipboard, also when the ring is full; TAB
      completes to the longest common prefix; reads consume the pending input
      as a queue.  All of it as long as the ring's indices, which are kept in
      ints, stay below 2^31.
    - Memory: the page allocator is a stack; kinit frees every page once;
      allocuvm, deallocuvm, copyuvm, setupkvm and copyout do to an address
      space what they say, and give back every page when they fail; a copy
      has the bytes and the flags of the original.
    - Processes: in every reachable state the table is consistent (process
      ids, states, who runs where, who holds the lock); wait() misses no
      exit(); the scheduler passes over no one for long; locks exclude.
    - Pipes: first in, first out, in every interleaving; no lost wakeup, but
      for a killed writer.
    - Disk: the buffer cache is a list in order of use; a transaction is
      atomic whichever of its writes is the last before a crash, recovery
      included.  The driver ide.c serves requests in order, and each as the
      memory disk would that the model's file system is over, or, if the
      command failed, without moving data; every call of it returns.
    - File system: a write is atomic and is read back; directories are maps
      from names; paths are followed name by name; the inode cache counts
      references; the last iput of an unlinked file frees exactly its blocks.
    - System calls: no call on files loses or makes up a reference, on any
      path, or a page that held a pipe; arguments are accepted exactly if they lie inside the process;
      nothing is stored outside the buffer a call is given.
    - Disk images: mkfs makes a well-formed file system of the files it is
      given, and the kernel, started from the image, finds each file by its
      name and reads its bytes.
    - Programs: exec() makes of a process what the reference computes from the
      file, or leaves it as it was, and loses no page either way; a program on
      an image of mkfs is started with its segments, its arguments and a
      guarded stack in place; the arguments can be read back.
    - Starting: the boot loader leaves the segments of the kernel in place and
      returns its entry point, if no two of them share a sector in a way that
      an example shows to be harmful; mpinit finds the tables in each of the
      places they may lie in, and the processors in them; on an entry of
      unknown type it does not return.
    - User programs: the shell parses what is printed from a syntax tree and
      ends on every line; grep's matcher decides the pattern; find_sum writes
      the sum; malloc and free neither lose memory nor hand it out twice;
      printf prints what the format says, wc the numbers of lines, words and
      characters; cat copies its input.
    Interfaces: the file system is proved against [BlockLaws], which [FsLog]
    discharges for the log; [Journal] adds begin_op() and end_op(); the
    process system takes the file system and devices as parameters; the
    device switch is a parameter of files.

    ** What is not modelled

    - Hardware and its drivers: lapic.c, ioapic.c, picirq.c, the
      rest of uart.c, seginit and
      the segment and page-directory registers in vm.c, and assembly
      (bootasm.S, entry.S, entryother.S, initcode.S, swtch.S, trapasm.S,
      usys.S, vectors.pl): they are effects on devices and registers that no
      state here has.
    - Initialisation: main.c.  Traps: trap.c, and syscall() itself.
    - sysproc.c (but for the size that sbrk() gives a process).
    - Programs that only make system calls or test the kernel (init, kill,
      ln, ls, mkdir, rm, zombie, forktest, stressfs, usertests), the main() of
      wc and cat, and the system-call parts of sh.c.
    - Debugging aids: procdump, getcallerpcs. *)

From stdpp Require Import base gmap list strings numbers.
From Stdlib Require Import ZArith Lia.

Open Scope Z_scope.

(** * Machine integers

    C integers are [Z]; the conversions the code performs are written out.
    [u32], [u16], [u8] reduce to an unsigned width, [i32], [i16], [i8]
    reinterpret the low bits as two's complement. *)

Definition u32 (x : Z) : Z := x mod 2 ^ 32.
Definition u16 (x : Z) : Z := x mod 2 ^ 16.
Definition u8 (x : Z) : Z := x mod 2 ^ 8.
Definition i32 (x : Z) : Z := (x + 2 ^ 31) mod 2 ^ 32 - 2 ^ 31.
Definition i16 (x : Z) : Z := (x + 2 ^ 15) mod 2 ^ 16 - 2 ^ 15.
Definition i8 (x : Z) : Z := (x + 2 ^ 7) mod 2 ^ 8 - 2 ^ 7.

(** The value of a C condition used as an integer. *)
Definition b2z (b : bool) : Z := if b then 1 else 0.

(** Linear arithmetic with division and remainder by constants. *)
Ltac zdm := Z.to_euclidean_division_equations; lia.

Lemma u32_small x : 0 <= x < 4294967296 -> u32 x = x.
Proof. intros H. apply Z.mod_small. exact H. Qed.

Lemma i32_small x : -2147483648 <= x < 2147483648 -> i32 x = x.
Proof. intros H. unfold i32. rewrite Z.mod_small; lia. Qed.

Lemma i8_small x : -128 <= x < 128 -> i8 x = x.
Proof. intros H. unfold i8. rewrite Z.mod_small; lia. Qed.

Lemma u8_small x : 0 <= x < 256 -> u8 x = x.
Proof. intros H. apply Z.mod_small. exact H. Qed.

Lemma u32_range x : 0 <= u32 x < 4294967296.
Proof. apply Z.mod_pos_bound. lia. Qed.

Lemma u8_range x : 0 <= u8 x < 256.
Proof. apply Z.mod_pos_bound. lia. Qed.

Lemma i32_range x : -2147483648 <= i32 x < 2147483648.
Proof. unfold i32. pose proof (Z.mod_pos_bound (x + 2 ^ 31) (2 ^ 32)). lia. Qed.

Lemma u32_i32 x : u32 (i32 x) = u32 x.
Proof. unfold u32, i32. zdm. Qed.

Lemma i32_u32 x : i32 (u32 x) = i32 x.
Proof. unfold u32, i32. zdm. Qed.

Lemma u8_i8 x : u8 (i8 x) = u8 x.
Proof. unfold u8, i8. zdm. Qed.

Lemma i8_u8 x : i8 (u8 x) = i8 x.
Proof. unfold u8, i8. zdm. Qed.

Lemma u32_u32 x : u32 (u32 x) = u32 x.
Proof. unfold u32. zdm. Qed.

(** [wrap_simp] removes the conversions whose operand is in range. *)
Create Rewrite HintDb wrap.
#[export] Hint Rewrite u32_small i32_small i8_small u8_small using lia : wrap.
#[export] Hint Rewrite u32_u32 : wrap.
Ltac wrap_simp := autorewrite with wrap in *.

(** * Kernel computations

    A routine is a function of the state of its component.  It returns
    ([Ok]), stops the kernel by calling panic() ([Panic]), executes
    something C leaves undefined, such as an access outside an array
    ([Undef]), or keeps its thread from returning: the thread sleeps or
    spins ([Blocked], with the state it leaves behind). *)

Inductive outcome (S A : Type) : Type :=
| Ok (a : A) (s : S)
| Panic (msg : string)
| Undef (what : string)
| Blocked (s : S).

Arguments Ok {S A} a s.
Arguments Panic {S A} msg.
Arguments Undef {S A} what.
Arguments Blocked {S A} s.

Definition M (S A : Type) : Type := S -> outcome S A.

Section Monad.
Context {S : Type}.

Definition ret {A} (a : A) : M S A := fun s => Ok a s.

Definition bind {A B} (m : M S A) (k : A -> M S B) : M S B :=
  fun s =>
    match m s with
    | Ok a s' => k a s'
    | Panic e => Panic e
    | Undef e => Undef e
    | Blocked s' => Blocked s'
    end.

Definition panic {A} (msg : string) : M S A := fun _ => Panic msg.
Definition undef {A} (what : string) : M S A := fun _ => Undef what.
Definition blocked {A} : M S A := fun s => Blocked s.
Definition gets {A} (f : S -> A) : M S A := fun s => Ok (f s) s.
Definition modify (f : S -> S) : M S unit := fun s => Ok tt (f s).

(** An access that C defines only when [b] holds. *)
Definition require (b : bool) (what : string) : M S unit :=
  if b then ret tt else undef what.

Definition when (b : bool) (m : M S unit) : M S unit := if b then m else ret tt.
End Monad.

Declare Scope kern_scope.
Delimit Scope kern_scope with kern.
Notation "'let!' x ':=' m 'in' k" := (bind m (fun x => k))
  (at level 10, x pattern, m at level 100, k at level 200,
   format "'[v' 'let!'  x  ':='  m  'in' '/' k ']'") : kern_scope.
Notation "m ';;;' k" := (bind m (fun _ => k))
  (at level 100, k at level 200, right associativity,
   format "'[v' m ';;;' '/' k ']'") : kern_scope.
Open Scope kern_scope.

(** ** Loops *)

Section Loops.
Context {S : Type}.

(** [n] rounds of [body], the counter starting at [i] and going up by [step]. *)
Fixpoint rounds (n : nat) (step i : Z) (body : Z -> M S unit) : M S unit :=
  match n with
  | O => ret tt
  | Datatypes.S n' => body i ;;; rounds n' step (i + step) body
  end.

(** for(i = lo; i < hi; i++) body *)
Definition for_up (lo hi : Z) (body : Z -> M S unit) : M S unit :=
  rounds (Z.to_nat (hi - lo)) 1 lo body.

(** for(i = hi; i > lo; i--) body *)
Definition for_down (hi lo : Z) (body : Z -> M S unit) : M S unit :=
  rounds (Z.to_nat (hi - lo)) (-1) hi body.

(** for(i = lo; i < hi; i += step) body *)
Definition for_step (lo hi step : Z) (body : Z -> M S unit) : M S unit :=
  rounds (Z.to_nat ((hi - lo + step - 1) / step)) step lo body.

(** for(i = lo; i < lo + n; i++) with a body that may leave the loop with a
    value ([Some]) or go on ([None]). *)
Fixpoint search {R} (n : nat) (i : Z) (body : Z -> M S (option R)) : M S (option R) :=
  match n with
  | O => ret None
  | Datatypes.S n' =>
      let! r := body i in
      match r with
      | Some v => ret (Some v)
      | None => search n' (i + 1) body
      end
  end.
End Loops.

(** ** Routines that do the same from every state *)

Definition meq {S A} (m m' : M S A) : Prop := forall s, m s = m' s.

#[export] Instance meq_equiv S A : Equivalence (@meq S A).
Proof. split; [by intros m s|by intros m m' E s|]. intros m1 m2 m3 E1 E2 s. by rewrite E1. Qed.

#[export] Instance bind_proper S A B : Proper (meq ==> pointwise_relation A meq ==> meq) (@bind S A B).
Proof. intros m m' E k k' Ek s. unfold bind. rewrite E. destruct (m' s); [apply Ek|done..]. Qed.

#[export] Instance search_proper S R n i : Proper (pointwise_relation Z meq ==> meq) (@search S R n i).
Proof.
  intros b b' E. revert i. induction n as [|n IH]; intros i; [done|]. cbn [search]. apply bind_proper; [apply E|]. intros [r|]; [done|apply IH].
Qed.

Lemma bind_assoc {S A B C} (m : M S A) (k : A -> M S B) (h : B -> M S C) : meq (let! x := (let! y := m in k y) in h x) (let! y := m in let! x := k y in h x).
Proof. intros s. unfold bind. by destruct (m s). Qed.

(** ** Weakest preconditions: the routine returns, and in a state and with a
    value that satisfy [Q]. *)

Definition wp {S A} (m : M S A) (s : S) (Q : A -> S -> Prop) : Prop :=
  match m s with
  | Ok a s' => Q a s'
  | _ => False
  end.

Section Wp.
Context {S : Type}.

Lemma wp_ret {A} (a : A) (s : S) Q : Q a s -> wp (ret a) s Q.
Proof. exact id. Qed.

Lemma wp_bind {A B} (m : M S A) (k : A -> M S B) s Q :
  wp m s (fun a s' => wp (k a) s' Q) -> wp (bind m k) s Q.
Proof. unfold wp, bind. destruct (m s); auto. Qed.

Lemma wp_mono {A} (m : M S A) s (P Q : A -> S -> Prop) :
  wp m s P -> (forall a s', P a s' -> Q a s') -> wp m s Q.
Proof. unfold wp. destruct (m s); auto. Qed.

Lemma wp_gets {A} (f : S -> A) s (Q : A -> S -> Prop) : Q (f s) s -> wp (gets f) s Q.
Proof. exact id. Qed.

Lemma wp_modify (f : S -> S) s (Q : unit -> S -> Prop) : Q tt (f s) -> wp (modify f) s Q.
Proof. exact id. Qed.

Lemma wp_require b what s (Q : unit -> S -> Prop) :
  b = true -> Q tt s -> wp (require b what) s Q.
Proof. intros ->. exact id. Qed.

Lemma wp_when b (m : M S unit) s (Q : unit -> S -> Prop) :
  (b = true -> wp m s Q) -> (b = false -> Q tt s) -> wp (when b m) s Q.
Proof. destruct b; cbn; auto. Qed.

Lemma wp_if {A} (b : bool) (m1 m2 : M S A) s Q :
  (b = true -> wp m1 s Q) -> (b = false -> wp m2 s Q) -> wp (if b then m1 else m2) s Q.
Proof. destruct b; auto. Qed.

(** A loop keeps an invariant indexed by its counter. *)
Lemma wp_rounds (I : Z -> S -> Prop) n : forall step i (body : Z -> M S unit) s,
  I i s ->
  (forall k s', 0 <= k < Z.of_nat n -> I (i + k * step) s' ->
     wp (body (i + k * step)) s' (fun _ s'' => I (i + (k + 1) * step) s'')) ->
  wp (rounds n step i body) s (fun _ s' => I (i + Z.of_nat n * step) s').
Proof.
  induction n as [|n IH]; intros step i body s HI Hb; cbn [rounds].
  - apply wp_ret. replace (i + Z.of_nat 0 * step) with i by lia. exact HI.
  - apply wp_bind. pose proof (Hb 0 s ltac:(lia)) as H0.
    rewrite Z.mul_0_l, Z.add_0_r in H0. specialize (H0 HI).
    eapply wp_mono; [exact H0|]. cbn. intros _ s' Hs'.
    replace (i + Z.of_nat (Datatypes.S n) * step) with ((i + step) + Z.of_nat n * step) by lia.
    apply IH.
    + replace (i + step) with (i + (0 + 1) * step) by lia. exact Hs'.
    + intros k s'' Hk HI'. specialize (Hb (k + 1) s'' ltac:(lia)).
      replace (i + step + k * step) with (i + (k + 1) * step) in * by lia.
      replace (i + step + (k + 1) * step) with (i + (k + 1 + 1) * step) by lia.
      auto.
Qed.

Lemma wp_for_up (I : Z -> S -> Prop) lo hi (body : Z -> M S unit) s (Q : unit -> S -> Prop) :
  I lo s ->
  (forall i s', lo <= i < hi -> I i s' -> wp (body i) s' (fun _ s'' => I (i + 1) s'')) ->
  (forall s', I (Z.max lo hi) s' -> Q tt s') ->
  wp (for_up lo hi body) s Q.
Proof.
  intros HI Hb HQ. unfold for_up. eapply wp_mono.
  - apply (wp_rounds I); [exact HI|]. intros k s' Hk HI'.
    replace (lo + (k + 1) * 1) with (lo + k * 1 + 1) by lia.
    apply Hb; [lia|exact HI'].
  - intros [] s'. cbn. replace (lo + Z.of_nat (Z.to_nat (hi - lo)) * 1) with (Z.max lo hi) by lia.
    apply HQ.
Qed.

Lemma wp_for_down (I : Z -> S -> Prop) hi lo (body : Z -> M S unit) s (Q : unit -> S -> Prop) :
  I hi s ->
  (forall i s', lo < i <= hi -> I i s' -> wp (body i) s' (fun _ s'' => I (i - 1) s'')) ->
  (forall s', I (Z.min lo hi) s' -> Q tt s') ->
  wp (for_down hi lo body) s Q.
Proof.
  intros HI Hb HQ. unfold for_down. eapply wp_mono.
  - apply (wp_rounds I); [exact HI|]. intros k s' Hk HI'.
    replace (hi + (k + 1) * -1) with (hi + k * -1 - 1) by lia.
    apply Hb; [lia|exact HI'].
  - intros [] s'. cbn. replace (hi + Z.of_nat (Z.to_nat (hi - lo)) * -1) with (Z.min lo hi) by lia.
    apply HQ.
Qed.
End Wp.

Lemma wp_for_up_nil {S} lo hi (body : Z -> M S unit) s (Q : unit -> S -> Prop) :
  hi <= lo -> Q tt s -> wp (for_up lo hi body) s Q.
Proof. intros H HQ. unfold for_up. replace (Z.to_nat (hi - lo)) with O by lia. exact HQ. Qed.

(** A search loop: [I] holds before every round that is reached; a round
    either leaves with a value or re-establishes [I] for the next one. *)
Lemma wp_search {S R} (I : Z -> S -> Prop) (Q : option R -> S -> Prop) n :
  forall i (body : Z -> M S (option R)) s,
  I i s ->
  (forall k s', i <= k < i + Z.of_nat n -> I k s' ->
     wp (body k) s' (fun r s'' => match r with
                                  | Some v => Q (Some v) s''
                                  | None => I (k + 1) s''
                                  end)) ->
  (forall s', I (i + Z.of_nat n) s' -> Q None s') ->
  wp (search n i body) s Q.
Proof.
  induction n as [|n IH]; intros i body s HI Hb HQ; cbn [search].
  - apply wp_ret, HQ. replace (i + Z.of_nat 0) with i by lia. exact HI.
  - apply wp_bind. eapply wp_mono; [apply (Hb i s); [lia|exact HI]|].
    cbn. intros [v|] s' H; [exact H|].
    apply IH; [exact H| |].
    + intros k s'' Hk. apply Hb. lia.
    + intros s'' H'. apply HQ. replace (i + Z.of_nat (Datatypes.S n)) with (i + 1 + Z.of_nat n) by lia.
      exact H'.
Qed.

(** Running a routine of a component inside a larger state. *)
Definition zoom {S T A} (get : S -> T) (set : T -> S -> S) (m : M T A) : M S A :=
  fun s =>
    match m (get s) with
    | Ok a t => Ok a (set t s)
    | Panic e => Panic e
    | Undef e => Undef e
    | Blocked t => Blocked (set t s)
    end.

Lemma wp_zoom {S T A} (get : S -> T) (set : T -> S -> S) (m : M T A) s Q :
  wp m (get s) (fun a t => Q a (set t s)) -> wp (zoom get set m) s Q.
Proof. unfold wp, zoom. destruct (m (get s)); auto. Qed.

Lemma wp_run {S A} (m : M S A) s Q : wp m s Q -> exists a s', m s = Ok a s' /\ Q a s'.
Proof. unfold wp. destruct (m s); [eauto|done..]. Qed.

Lemma wp_run_unit {S} (m : M S unit) s (Q : S -> Prop) : wp m s (fun _ => Q) -> exists s', m s = Ok tt s' /\ Q s'.
Proof. intros H. apply wp_run in H as ([] & H). exact H. Qed.

(** ** Weakest liberal preconditions: if the routine returns, then [Q].
    Used for what holds of every call that returns. *)

Definition wlp {S A} (m : M S A) (s : S) (Q : A -> S -> Prop) : Prop :=
  match m s with Ok a s' => Q a s' | _ => True end.

Section Wlp.
Context {S : Type}.

Lemma wlp_bind {A B} (m : M S A) (k : A -> M S B) s Q : wlp m s (fun a s' => wlp (k a) s' Q) -> wlp (bind m k) s Q.
Proof. unfold wlp, bind. by destruct (m s). Qed.

Lemma wlp_mono {A} (m : M S A) s (P Q : A -> S -> Prop) : wlp m s P -> (forall a s', P a s' -> Q a s') -> wlp m s Q.
Proof. unfold wlp. destruct (m s); auto. Qed.

Lemma wlp_ret {A} (a : A) (s : S) (Q : A -> S -> Prop) : Q a s -> wlp (ret a) s Q.
Proof. exact id. Qed.

Lemma wlp_gets {A} (f : S -> A) (s : S) (Q : A -> S -> Prop) : Q (f s) s -> wlp (gets f) s Q.
Proof. exact id. Qed.

Lemma wlp_modify (f : S -> S) s (Q : unit -> S -> Prop) : Q tt (f s) -> wlp (modify f) s Q.
Proof. exact id. Qed.

Lemma wlp_panic {A} msg s (Q : A -> S -> Prop) : wlp (panic msg) s Q.
Proof. exact I. Qed.

Lemma wlp_require b w s (Q : unit -> S -> Prop) : (b = true -> Q tt s) -> wlp (require b w) s Q.
Proof. destruct b; cbn; [auto|intros; exact I]. Qed.

Lemma wlp_when b (m : M S unit) s (Q : unit -> S -> Prop) :
  (b = true -> wlp m s Q) -> (b = false -> Q tt s) -> wlp (when b m) s Q.
Proof. destruct b; cbn; auto. Qed.

Lemma wlp_if {A} (b : bool) (m1 m2 : M S A) s Q :
  (b = true -> wlp m1 s Q) -> (b = false -> wlp m2 s Q) -> wlp (if b then m1 else m2) s Q.
Proof. destruct b; auto. Qed.

Lemma wlp_rounds (I : Z -> S -> Prop) n : forall step i (body : Z -> M S unit) s,
  I i s -> (forall k s', 0 <= k < Z.of_nat n -> I (i + k * step) s' -> wlp (body (i + k * step)) s' (fun _ s'' => I (i + (k + 1) * step) s'')) ->
  wlp (rounds n step i body) s (fun _ s' => I (i + Z.of_nat n * step) s').
Proof.
  induction n as [|n IH]; intros step i body s HI Hb; cbn [rounds].
  - apply wlp_ret. by replace (i + Z.of_nat 0 * step) with i by lia.
  - apply wlp_bind. pose proof (Hb 0 s ltac:(lia)) as H0. rewrite Z.mul_0_l, Z.add_0_r in H0. eapply wlp_mono; [exact (H0 HI)|].
    cbn. intros _ s' Hs'. replace (i + Z.of_nat (Datatypes.S n) * step) with ((i + step) + Z.of_nat n * step) by lia. apply IH.
    + by replace (i + step) with (i + (0 + 1) * step) by lia.
    + intros k s'' Hk HI'. specialize (Hb (k + 1) s'' ltac:(lia)). replace (i + step + k * step) with (i + (k + 1) * step) in * by lia.
      replace (i + step + (k + 1) * step) with (i + (k + 1 + 1) * step) by lia. auto.
Qed.

Lemma wlp_for_up (I : Z -> S -> Prop) lo hi (body : Z -> M S unit) s (Q : unit -> S -> Prop) :
  I lo s -> (forall i s', lo <= i < hi -> I i s' -> wlp (body i) s' (fun _ s'' => I (i + 1) s'')) ->
  (forall s', I (Z.max lo hi) s' -> Q tt s') -> wlp (for_up lo hi body) s Q.
Proof.
  intros HI Hb HQ. unfold for_up. eapply wlp_mono.
  - apply (wlp_rounds I); [exact HI|]. intros k s' Hk HI'. replace (lo + (k + 1) * 1) with (lo + k * 1 + 1) by lia. apply Hb; [lia|exact HI'].
  - intros [] s'. cbn. replace (lo + Z.of_nat (Z.to_nat (hi - lo)) * 1) with (Z.max lo hi) by lia. apply HQ.
Qed.

Lemma wlp_zoom {T A} (get : S -> T) (set : T -> S -> S) (m : M T A) s Q :
  wlp m (get s) (fun a t => Q a (set t s)) -> wlp (zoom get set m) s Q.
Proof. unfold wlp, zoom. by destruct (m (get s)). Qed.

Lemma wlp_wp {A} (m : M S A) s Q : wp m s Q -> wlp m s Q.
Proof. unfold wp, wlp. destruct (m s); auto. Qed.

(** Nothing is known of the routine. *)
Lemma wlp_any {A} (m : M S A) s (Q : A -> S -> Prop) : (forall a s', Q a s') -> wlp m s Q.
Proof. unfold wlp. destruct (m s); auto. Qed.

Lemma wlp_and {A} (m : M S A) s P Q : wlp m s P -> wlp m s Q -> wlp m s (fun a s' => P a s' /\ Q a s').
Proof. unfold wlp. destruct (m s); auto. Qed.

Lemma wlp_search {R} (I : Z -> S -> Prop) (Q : option R -> S -> Prop) n : forall i (body : Z -> M S (option R)) s, I i s ->
  (forall k s', i <= k < i + Z.of_nat n -> I k s' -> wlp (body k) s' (fun r s'' => match r with Some _ => Q r s'' | None => I (k + 1) s'' end)) ->
  (forall s', I (i + Z.of_nat n) s' -> Q None s') -> wlp (search n i body) s Q.
Proof.
  induction n as [|n IH]; intros i body s HI Hb HQ; cbn [search].
  - apply wlp_ret, HQ. by replace (i + Z.of_nat 0) with i by lia.
  - apply wlp_bind. eapply wlp_mono; [apply Hb; [lia|exact HI]|]. cbn. intros [v|] s' H; [exact H|].
    apply IH; [exact H|intros k s'' Hk; apply Hb; lia|]. intros s'' H'. apply HQ. by replace (i + Z.of_nat (Datatypes.S n)) with (i + 1 + Z.of_nat n) by lia.
Qed.
End Wlp.

(** One step of symbolic execution. *)
Ltac wp_step :=
  lazymatch goal with
  | |- wp (bind _ _) _ _ => apply wp_bind
  | |- wp (ret _) _ _ => apply wp_ret
  | |- wp (gets _) _ _ => apply wp_gets
  | |- wp (modify _) _ _ => apply wp_modify
  | |- wp (require _ _) _ _ => apply wp_require
  | |- wp (when _ _) _ _ => apply wp_when; let H := fresh "Hc" in intros H
  | |- wp (if _ then _ else _) _ _ => apply wp_if; let H := fresh "Hc" in intros H
  end.

(** Booleans tests of the code as propositions. *)
Ltac b2p :=
  repeat match goal with
  | H : andb _ _ = true |- _ => apply andb_true_iff in H; destruct H
  | H : orb _ _ = false |- _ => apply orb_false_iff in H; destruct H
  | H : orb _ _ = true |- _ => apply orb_true_iff in H
  | H : andb _ _ = false |- _ => apply andb_false_iff in H
  | H : negb _ = true |- _ => apply negb_true_iff in H
  | H : negb _ = false |- _ => apply negb_false_iff in H
  | H : (_ =? _) = true |- _ => apply Z.eqb_eq in H
  | H : (_ =? _) = false |- _ => apply Z.eqb_neq in H
  | H : (_ <? _) = true |- _ => apply Z.ltb_lt in H
  | H : (_ <? _) = false |- _ => apply Z.ltb_ge in H
  | H : (_ <=? _) = true |- _ => apply Z.leb_le in H
  | H : (_ <=? _) = false |- _ => apply Z.leb_gt in H
  | H : (_ >? _) = true |- _ => apply Z.gtb_lt in H
  | H : (_ >? _) = false |- _ => rewrite Z.gtb_ltb in H; apply Z.ltb_ge in H
  | H : (_ >=? _) = true |- _ => apply Z.geb_le in H
  | H : (_ >=? _) = false |- _ => rewrite Z.geb_leb in H; apply Z.leb_gt in H
  end.

(** * Arrays

    A C array is a list; an index is a [Z].  [aget] and [aset] are the
    unchecked accesses (0 and no change outside the array), [arr_ok] is the
    bounds check the routines make before them with [require]. *)

Section Arrays.
Context {A : Type} (d : A).

Definition aget (l : list A) (i : Z) : A :=
  if i <? 0 then d else nth (Z.to_nat i) l d.

Definition aset (l : list A) (i : Z) (x : A) : list A :=
  if i <? 0 then l else <[Z.to_nat i := x]> l.

Definition arr_ok (l : list A) (i : Z) : bool :=
  (0 <=? i) && (i <? Z.of_nat (length l)).

Lemma length_aset l i x : length (aset l i x) = length l.
Proof. unfold aset. destruct (i <? 0); [done|]. apply length_insert. Qed.

Lemma aget_aset_eq l i x : 0 <= i < Z.of_nat (length l) -> aget (aset l i x) i = x.
Proof.
  intros H. unfold aget, aset. destruct (Z.ltb_spec i 0); [lia|].
  apply nth_lookup_Some with (d := d).
  rewrite list_lookup_insert_eq; [done|lia].
Qed.

Lemma aget_aset_ne l i j x : i <> j -> aget (aset l i x) j = aget l j.
Proof.
  intros H. unfold aget, aset.
  destruct (Z.ltb_spec j 0); [done|]. destruct (Z.ltb_spec i 0); [done|].
  rewrite !nth_lookup, list_lookup_insert_ne; [done|lia].
Qed.

Lemma aget_aset l i j x :
  0 <= i < Z.of_nat (length l) ->
  aget (aset l i x) j = if i =? j then x else aget l j.
Proof.
  intros H. destruct (Z.eqb_spec i j) as [<-|Hne]; [by apply aget_aset_eq|by apply aget_aset_ne].
Qed.

Lemma arr_ok_true l i : 0 <= i < Z.of_nat (length l) -> arr_ok l i = true.
Proof. intros H. unfold arr_ok. lia. Qed.

(** Two arrays of the same length with the same elements are equal. *)
Lemma aget_ext l l' :
  length l = length l' ->
  (forall i, 0 <= i < Z.of_nat (length l) -> aget l i = aget l' i) -> l = l'.
Proof.
  intros Hlen H. apply nth_ext with d d; [done|]. intros n Hn.
  specialize (H (Z.of_nat n) ltac:(lia)). unfold aget in H.
  destruct (Z.ltb_spec (Z.of_nat n) 0); [lia|]. rewrite Nat2Z.id in H. exact H.
Qed.
End Arrays.

#[export] Hint Rewrite @length_aset : wrap.

Lemma aset_aset {A} (l : list A) i x y : aset (aset l i x) i y = aset l i y.
Proof. unfold aset. destruct (i <? 0); [done|]. apply list_insert_insert_eq. Qed.

Lemma aset_self {A} (d : A) l i : 0 <= i < Z.of_nat (length l) -> aset l i (aget d l i) = l.
Proof.
  intros Hi. unfold aset, aget. replace (i <? 0) with false by lia. apply list_insert_id. rewrite nth_lookup.
  destruct (lookup_lt_is_Some_2 l (Z.to_nat i)) as [x Hx]; [lia|]. by rewrite Hx.
Qed.

Lemma aget_zeros n i : aget 0 (repeat 0 n) i = 0.
Proof. unfold aget. destruct (i <? 0); [done|apply nth_repeat]. Qed.

Lemma aget_app s1 s2 i : 0 <= i -> aget 0 (s1 ++ s2) i = if i <? Z.of_nat (length s1) then aget 0 s1 i else aget 0 s2 (i - Z.of_nat (length s1)).
Proof.
  intros Hi. unfold aget. replace (i <? 0) with false by lia. destruct (Z.ltb_spec i (Z.of_nat (length s1))).
  - rewrite app_nth1 by lia. done.
  - rewrite app_nth2 by lia. replace (_ <? 0) with false by lia. f_equal. lia.
Qed.

(** Lists of bytes. *)
Definition byte_list (bs : list Z) : Prop := Forall (fun c => 0 <= c < 256) bs.

Lemma byte_aget bs i : byte_list bs -> 0 <= aget 0 bs i < 256.
Proof.
  intros Hb. unfold aget. destruct (i <? 0); [lia|]. rewrite nth_lookup. destruct (bs !! Z.to_nat i) as [c|] eqn:E; [|cbn; lia]. by apply (Forall_lookup_1 _ _ _ _ Hb E).
Qed.

(** Characters of a string literal, as codes. *)
Definition codes (s : string) : list Z :=
  map (fun a => Z.of_N (Ascii.N_of_ascii a)) (String.list_ascii_of_string s).

(** * Little-endian words in byte arrays *)

Definition le32 (l : list Z) (off : Z) : Z :=
  aget 0 l off + 2 ^ 8 * aget 0 l (off + 1) + 2 ^ 16 * aget 0 l (off + 2) + 2 ^ 24 * aget 0 l (off + 3).

Definition put32 (l : list Z) (off v : Z) : list Z :=
  let v := u32 v in
  aset (aset (aset (aset l off (v mod 2 ^ 8)) (off + 1) (v / 2 ^ 8 mod 2 ^ 8))
    (off + 2) (v / 2 ^ 16 mod 2 ^ 8)) (off + 3) (v / 2 ^ 24).

Definition le16 (l : list Z) (off : Z) : Z := aget 0 l off + 2 ^ 8 * aget 0 l (off + 1).

Definition put16 (l : list Z) (off v : Z) : list Z :=
  let v := u16 v in aset (aset l off (v mod 2 ^ 8)) (off + 1) (v / 2 ^ 8).

Lemma length_put32 l off v : length (put32 l off v) = length l.
Proof. unfold put32. by rewrite !length_aset. Qed.

Lemma length_put16 l off v : length (put16 l off v) = length l.
Proof. unfold put16. by rewrite !length_aset. Qed.

Lemma aget_put32 l off v j :
  0 <= off -> off + 4 <= Z.of_nat (length l) -> j < off \/ off + 4 <= j ->
  aget 0 (put32 l off v) j = aget 0 l j.
Proof. intros H1 H2 Hj. unfold put32. rewrite !aget_aset_ne by lia. done. Qed.

Lemma le32_put32_eq l off v :
  0 <= off -> off + 4 <= Z.of_nat (length l) -> le32 (put32 l off v) off = u32 v.
Proof.
  intros H1 H2. unfold le32, put32. set (x := u32 v). pose proof (u32_range v) as Hx. fold x in Hx.
  rewrite aget_aset_eq by (rewrite ?length_aset; lia).
  rewrite (aget_aset_ne _ _ (off + 3) (off + 2)), aget_aset_eq by (rewrite ?length_aset; lia).
  rewrite (aget_aset_ne _ _ (off + 3) (off + 1)), (aget_aset_ne _ _ (off + 2) (off + 1)), aget_aset_eq by (rewrite ?length_aset; lia).
  rewrite !aget_aset_ne, aget_aset_eq by lia. zdm.
Qed.

Lemma le32_put32_ne l off off' v :
  0 <= off -> off + 4 <= Z.of_nat (length l) -> off' + 4 <= off \/ off + 4 <= off' ->
  le32 (put32 l off v) off' = le32 l off'.
Proof. intros H1 H2 Hd. unfold le32. rewrite !aget_put32 by lia. done. Qed.

Lemma le16_put16_eq l off v :
  0 <= off -> off + 2 <= Z.of_nat (length l) -> le16 (put16 l off v) off = u16 v.
Proof.
  intros H1 H2. unfold le16, put16. set (x := u16 v). assert (Hx : 0 <= x < 65536) by (unfold x, u16; zdm).
  rewrite aget_aset_eq by (rewrite ?length_aset; lia).
  rewrite aget_aset_ne, aget_aset_eq by lia. zdm.
Qed.

Lemma le16_put16_ne l off off' v :
  0 <= off -> off + 2 <= Z.of_nat (length l) -> off' + 2 <= off \/ off + 2 <= off' ->
  le16 (put16 l off v) off' = le16 l off'.
Proof. intros H1 H2 Hd. unfold le16, put16. rewrite !aget_aset_ne by lia. done. Qed.

Lemma i32_u32_small v : -2147483648 <= v < 2147483648 -> i32 (u32 v) = v.
Proof. intros H. rewrite i32_u32. by apply i32_small. Qed.
