(* ===== verification/Kstring.v ===== *)
(** The kernel's string routines (string.c).

    Two levels: routines on byte memory with pointers, as the C code has
    them, and the routines on character arrays (lists) that the components
    working on values use; the theorems relate the two. *)

From stdpp Require Import base gmap list strings numbers.
From Stdlib Require Import ZArith Lia.
From S2P Require Import Prelude.

Open Scope Z_scope.
Open Scope kern_scope.

(** ** Character arrays *)

(** strncmp(p, q, n): a character past the end of a list is the NUL that
    terminates it. *)
Fixpoint strncmp (p q : list Z) (n : nat) : Z :=
  match n with
  | O => 0
  | S n' =>
      let a := hd 0 p in
      let b := hd 0 q in
      if negb (a =? 0) && (a =? b) then strncmp (tl p) (tl q) n' else u8 a - u8 b
  end.

(** strlen of a NUL-terminated array. *)
Fixpoint strlen (s : list Z) : Z :=
  match s with
  | [] => 0
  | c :: s' => if c =? 0 then 0 else 1 + strlen s'
  end.

(** strncpy(s, t, n): the n bytes it stores. *)
Fixpoint strncpy (t : list Z) (n : nat) : list Z :=
  match n with
  | O => []
  | S n' =>
      let c := hd 0 t in
      if c =? 0 then 0 :: repeat 0 n' else c :: strncpy (tl t) n'
  end.
