(* ===== verification/Screen.v ===== *)
(** The console's output side: the CGA text screen and its cursor, the serial
    port, and the kernel's formatted printing (console.c lines 15-216, and
    uartputc of uart.c).

    The state is the text memory (one 16-bit cell per position), the register
    file of the CRT controller behind the port pair 0x3d4/0x3d5, the bytes
    sent to the serial port, and the console's lock, locking and panicked
    variables.  A spin lock is held or free: taking one that this CPU already
    holds is acquire()'s panic. *)

From stdpp Require Import base gmap list strings numbers.
From Stdlib Require Import ZArith Lia.
From S2P Require Import Prelude.

Open Scope Z_scope.
Open Scope kern_scope.

Record screen : Type := mkScreen {
  crt : gmap Z Z;          (* text memory, 16-bit cells *)
  crtc_index : Z;          (* register selected by port 0x3d4 *)
  crtc_reg : gmap Z Z;     (* registers read and written by port 0x3d5 *)
  uart : bool;             (* is there a uart? *)
  uart_out : list Z;       (* bytes sent to COM1, oldest first *)
  panicked : bool;
  cons_lock : bool;        (* cons.lock is held by this CPU *)
  locking : bool           (* cons.locking *)
}.

Definition set_crt (v : gmap Z Z) (s : screen) : screen :=
  mkScreen v (crtc_index s) (crtc_reg s) (uart s) (uart_out s) (panicked s) (cons_lock s) (locking s).
Definition set_index (v : Z) (s : screen) : screen :=
  mkScreen (crt s) v (crtc_reg s) (uart s) (uart_out s) (panicked s) (cons_lock s) (locking s).
Definition set_reg (v : gmap Z Z) (s : screen) : screen :=
  mkScreen (crt s) (crtc_index s) v (uart s) (uart_out s) (panicked s) (cons_lock s) (locking s).
Definition set_uart_out (v : list Z) (s : screen) : screen :=
  mkScreen (crt s) (crtc_index s) (crtc_reg s) (uart s) v (panicked s) (cons_lock s) (locking s).
Definition set_panicked (v : bool) (s : screen) : screen :=
  mkScreen (crt s) (crtc_index s) (crtc_reg s) (uart s) (uart_out s) v (cons_lock s) (locking s).
Definition set_cons_lock (v : bool) (s : screen) : screen :=
  mkScreen (crt s) (crtc_index s) (crtc_reg s) (uart s) (uart_out s) (panicked s) v (locking s).
Definition set_locking (v : bool) (s : screen) : screen :=
  mkScreen (crt s) (crtc_index s) (crtc_reg s) (uart s) (uart_out s) (panicked s) (cons_lock s) v.

(** Taking and releasing cons.lock. *)
Definition acquire_cons : M screen unit :=
  let! held := gets cons_lock in
  if held then panic "acquire" else modify (set_cons_lock true).

Definition release_cons : M screen unit :=
  let! held := gets cons_lock in
  if held then modify (set_cons_lock false) else panic "release".

Definition BACKSPACE : Z := 0x100.
Definition CRTPORT : Z := 0x3d4.

(** The CRT controller: port 0x3d4 selects a register, 0x3d5 reads and writes it. *)
Definition outb (port v : Z) : M screen unit :=
  if port =? CRTPORT then modify (set_index (u8 v))
  else if port =? CRTPORT + 1
       then modify (fun s => set_reg (<[crtc_index s := u8 v]> (crtc_reg s)) s)
       else ret tt.

Definition inb (port : Z) : M screen Z :=
  if port =? CRTPORT + 1
  then gets (fun s => default 0 (crtc_reg s !! crtc_index s))
  else ret 0.

Definition cga_get_cursor_pos : M screen Z :=
  outb CRTPORT 14 ;;;
  let! hi := inb (CRTPORT + 1) in
  let pos := Z.shiftl hi 8 in
  outb CRTPORT 15 ;;;
  let! lo := inb (CRTPORT + 1) in
  ret (Z.lor pos lo).

Definition cga_set_cursor_pos (pos : Z) : M screen unit :=
  outb CRTPORT 14 ;;;
  outb (CRTPORT + 1) (Z.shiftr pos 8) ;;;
  outb CRTPORT 15 ;;;
  outb (CRTPORT + 1) pos.

Definition crt_get (s : screen) (i : Z) : Z := default 0 (crt s !! i).
Definition crt_set (i v : Z) : M screen unit := modify (fun s => set_crt (<[i := v]> (crt s)) s).

(** memmove(crt, crt+80, sizeof(crt[0])*23*80) and memset(crt+pos, 0, ...). *)
Definition crt_scroll : M screen unit :=
  for_up 0 (23 * 80) (fun i => modify (fun s => set_crt (<[i := crt_get s (i + 80)]> (crt s)) s)).

Definition crt_blank (pos : Z) : M screen unit :=
  for_up pos (24 * 80) (fun i => crt_set i 0).

Definition cgaputc (c : Z) : M screen unit :=
  let! pos := cga_get_cursor_pos in
  let! pos :=
    (if c =? 10 then ret (pos + (80 - Z.rem pos 80))
     else if c =? BACKSPACE then ret (if pos >? 0 then pos - 1 else pos)
     else crt_set pos (Z.lor (Z.land c 0xff) 0x0700) ;;; ret (pos + 1)) in
  (if (pos <? 0) || (pos >? 25 * 80) then panic "pos under/overflow" else ret tt) ;;;
  let! pos :=
    (if Z.quot pos 80 >=? 24
     then crt_scroll ;;; let pos' := pos - 80 in crt_blank pos' ;;; ret pos'
     else ret pos) in
  cga_set_cursor_pos pos ;;;
  when (c =? BACKSPACE) (crt_set pos (Z.lor 32 0x0700)).

(** uartputc() polls the line status register at most 128 times, then writes. *)
Definition uartputc (c : Z) : M screen unit :=
  let! u := gets uart in
  if negb u then ret tt
  else modify (fun s => set_uart_out (uart_out s ++ [u8 c]) s).

Definition consputc (c : Z) : M screen unit :=
  let! p := gets panicked in
  if p then blocked else
  (if c =? BACKSPACE
   then uartputc 8 ;;; uartputc 32 ;;; uartputc 8
   else uartputc c) ;;;
  cgaputc c.

(** ** printint and cprintf *)

Definition digits : list Z := codes "0123456789abcdef".

(** The do-while loop that fills buf with the digits of x, least significant
    first; 32 rounds are enough for every base of at least 2. *)
Fixpoint printint_digits (fuel : nat) (x base : Z) : list Z :=
  match fuel with
  | O => []
  | S fuel' =>
      aget 0 digits (x mod base) ::
      (if x / base =? 0 then [] else printint_digits fuel' (x / base) base)
  end.

Definition printint_buf (xx base : Z) (sign : bool) : list Z :=
  let neg := sign && (xx <? 0) in
  let x := if neg then u32 (- xx) else u32 xx in
  printint_digits 32 x base ++ (if neg then [45] else []).

Fixpoint put_all (l : list Z) : M screen unit :=
  match l with
  | [] => ret tt
  | c :: l' => consputc c ;;; put_all l'
  end.

(** xx is the int argument; buf holds 16 characters. *)
Definition printint (xx base : Z) (sign : bool) : M screen unit :=
  let buf := printint_buf xx base sign in
  require (Z.of_nat (length buf) <=? 16) "printint: buf" ;;;
  put_all (rev buf).

(** cprintf's loop: [args i] is the i-th 32-bit word after fmt on the stack,
    [strs a] the characters of the string at address a. *)
Section Cprintf.
Variable strs : Z -> list Z.
Variable args : nat -> Z.

Fixpoint cprintf_loop (fmt : list Z) (argp : nat) : M screen unit :=
  match fmt with
  | [] => ret tt
  | c :: rest =>
      if negb (Z.land c 0xff =? 37) then consputc (Z.land c 0xff) ;;; cprintf_loop rest argp
      else
        match rest with
        | [] => ret tt
        | c2 :: rest' =>
            let c2 := Z.land c2 0xff in
            if c2 =? 100 then printint (i32 (args argp)) 10 true ;;; cprintf_loop rest' (S argp)
            else if (c2 =? 120) || (c2 =? 112)
            then printint (i32 (args argp)) 16 false ;;; cprintf_loop rest' (S argp)
            else if c2 =? 115
            then put_all (if args argp =? 0 then codes "(null)" else strs (args argp)) ;;;
                 cprintf_loop rest' (S argp)
            else if c2 =? 37 then consputc 37 ;;; cprintf_loop rest' argp
            else consputc 37 ;;; consputc c2 ;;; cprintf_loop rest' argp
        end
  end.

Definition cprintf (fmt : list Z) : M screen unit :=
  let! lk := gets locking in
  when lk acquire_cons ;;;
  cprintf_loop fmt 0 ;;;
  when lk release_cons.
End Cprintf.

(** panic(s): print the message and the call stack, then spin for ever.  The
    message is printed as a format, whose arguments are whatever words [stk]
    lie on the stack. *)
Definition panic_print (strs : Z -> list Z) (stk pcs : nat -> Z) (lapicid : Z) (s : list Z)
  : M screen unit :=
  modify (set_locking false) ;;;
  cprintf strs (fun _ => lapicid) (codes "lapicid %d: panic: ") ;;;
  cprintf strs stk s ;;;
  cprintf strs stk [10] ;;;
  for_up 0 10 (fun i => cprintf strs (fun _ => pcs (Z.to_nat i)) (codes " %p")) ;;;
  modify (set_panicked true) ;;;
  blocked.

(** * Properties *)

Definition reg (s : screen) (i : Z) : Z := default 0 (crtc_reg s !! i).

(** The position held in the cursor registers. *)
Definition cursor (s : screen) : Z := Z.lor (Z.shiftl (reg s 14) 8) (reg s 15).

Definition set_cursor (pos : Z) (s : screen) : screen :=
  set_index 15 (set_reg (<[15 := u8 pos]> (<[14 := u8 (Z.shiftr pos 8)]> (crtc_reg s))) s).

(** Nothing but the text memory, the cursor and the serial output differs. *)
Definition same_ctl (s s' : screen) : Prop :=
  uart s' = uart s /\ panicked s' = panicked s /\ cons_lock s' = cons_lock s /\ locking s' = locking s.

Lemma same_ctl_refl s : same_ctl s s.
Proof. repeat split. Qed.

Lemma same_ctl_trans s1 s2 s3 : same_ctl s1 s2 -> same_ctl s2 s3 -> same_ctl s1 s3.
Proof. unfold same_ctl. intros (?&?&?&?) (?&?&?&?). repeat split; congruence. Qed.

Create HintDb screen.
#[export] Hint Resolve same_ctl_refl : screen.

Lemma wp_get_cursor s Q : Q (cursor s) (set_index 15 s) -> wp cga_get_cursor_pos s Q.
Proof. exact id. Qed.

Lemma wp_set_cursor pos s (Q : unit -> screen -> Prop) :
  Q tt (set_cursor pos s) -> wp (cga_set_cursor_pos pos) s Q.
Proof. exact id. Qed.

Lemma lor_shift8 hi lo : 0 <= lo < 256 -> Z.lor (Z.shiftl hi 8) lo = hi * 256 + lo.
Proof.
  intros H. rewrite Z.shiftl_mul_pow2 by lia. change (2 ^ 8) with 256.
  symmetry. rewrite <- Z.lxor_lor; [apply Z.add_nocarry_lxor|];
    apply Z.bits_inj'; intros n Hn; rewrite Z.land_spec, Z.bits_0;
    (destruct (Z.ltb_spec n 8);
     [change 256 with (2 ^ 8); rewrite Z.mul_pow2_bits_low by lia; reflexivity|]);
    (replace lo with (lo mod 2 ^ 8) by (apply Z.mod_small; lia));
    rewrite Z.mod_pow2_bits_high by lia; apply andb_false_r.
Qed.

Lemma cursor_set_cursor pos s : cursor (set_cursor pos s) = u16 pos.
Proof.
  unfold cursor, set_cursor, reg. cbn.
  rewrite lookup_insert_ne, !lookup_insert_eq by done. cbn [default].
  unfold id. rewrite lor_shift8 by apply u8_range. rewrite Z.shiftr_div_pow2 by lia.
  unfold u8, u16. change (2 ^ 8) with 256. change (2 ^ 16) with 65536. zdm.
Qed.

Lemma cursor_set_cursor_small pos s : 0 <= pos < 65536 -> cursor (set_cursor pos s) = pos.
Proof. intros H. rewrite cursor_set_cursor. apply Z.mod_small. exact H. Qed.

Lemma crt_get_set s i v j :
  crt_get (set_crt (<[i := v]> (crt s)) s) j = if i =? j then v else crt_get s j.
Proof.
  unfold crt_get. cbn. destruct (Z.eqb_spec i j) as [<-|Hne].
  - by rewrite lookup_insert_eq.
  - by rewrite lookup_insert_ne.
Qed.

(** A loop that rewrites cells lo..hi-1, cell i from the contents before the
    loop: the value stored at i may depend only on cells not yet rewritten. *)
Lemma wp_crt_loop (f : (Z -> Z) -> Z -> Z) lo hi s (Q : unit -> screen -> Prop) body :
  lo <= hi ->
  (forall i g, (forall j, i <= j -> g j = crt_get s j) -> f g i = f (crt_get s) i) ->
  (forall i t, wp (body i) t (fun _ t' => t' = set_crt (<[i := f (crt_get t) i]> (crt t)) t)) ->
  (forall m,
     (forall j, crt_get (set_crt m s) j =
        if (lo <=? j) && (j <? hi) then f (crt_get s) j else crt_get s j) ->
     Q tt (set_crt m s)) ->
  wp (for_up lo hi body) s Q.
Proof.
  intros Hle Hf Hb HQ.
  apply (wp_for_up (fun k t => t = set_crt (crt t) s /\
    forall j, crt_get t j = if (lo <=? j) && (j <? k) then f (crt_get s) j else crt_get s j)).
  - split; [by destruct s|]. intros j. replace ((lo <=? j) && (j <? lo)) with false by lia. done.
  - intros i t Hi [Ht Hg]. eapply wp_mono; [apply Hb|]. cbn. intros _ t' ->.
    split; [cbn; rewrite Ht; done|]. intros j. rewrite crt_get_set.
    rewrite Hf by (intros k Hk; rewrite Hg; replace ((lo <=? k) && (k <? i)) with false by lia; done).
    destruct (Z.eqb_spec i j) as [<-|Hne].
    + replace ((lo <=? i) && (i <? i + 1)) with true by lia. done.
    + rewrite Hg. replace ((lo <=? j) && (j <? i + 1)) with ((lo <=? j) && (j <? i)) by lia. done.
  - intros t [Ht Hg]. rewrite Z.max_r in Hg by lia. rewrite Ht. apply HQ.
    intros j. rewrite <- Ht. apply Hg.
Qed.

Lemma wp_crt_scroll s (Q : unit -> screen -> Prop) :
  (forall m,
     (forall j, crt_get (set_crt m s) j =
        if (0 <=? j) && (j <? 1840) then crt_get s (j + 80) else crt_get s j) ->
     Q tt (set_crt m s)) ->
  wp crt_scroll s Q.
Proof.
  intros HQ. apply (wp_crt_loop (fun g i => g (i + 80))); [lia| | |exact HQ].
  - intros i g Hg. apply Hg. lia.
  - intros i t. apply wp_modify. done.
Qed.

Lemma wp_crt_blank pos s (Q : unit -> screen -> Prop) :
  pos <= 1920 ->
  (forall m,
     (forall j, crt_get (set_crt m s) j =
        if (pos <=? j) && (j <? 1920) then 0 else crt_get s j) ->
     Q tt (set_crt m s)) ->
  wp (crt_blank pos) s Q.
Proof.
  intros Hp HQ. apply (wp_crt_loop (fun _ _ => 0)); [lia|done| |exact HQ].
  intros i t. apply wp_modify. done.
Qed.

(** Where the cursor stands after one more character, and the screen then. *)
Definition advance (p : Z) : Z := if p + 1 >=? 24 * 80 then p + 1 - 80 else p + 1.

Definition shown (p cell : Z) (g g' : Z -> Z) : Prop :=
  let g1 j := if j =? p then cell else g j in
  forall j, g' j =
    if p + 1 >=? 24 * 80 then
      if (0 <=? j) && (j <? 1840) then g1 (j + 80)
      else if (p + 1 - 80 <=? j) && (j <? 1920) then 0 else g1 j
    else g1 j.

Definition cell_of (c : Z) : Z := Z.lor (Z.land c 0xff) 0x0700.

Lemma wp_cgaputc_char c s (Q : unit -> screen -> Prop) :
  c <> 10 -> c <> BACKSPACE -> 0 <= cursor s < 2000 ->
  (forall s', same_ctl s s' -> uart_out s' = uart_out s -> cursor s' = advance (cursor s) ->
     shown (cursor s) (cell_of c) (crt_get s) (crt_get s') -> Q tt s') ->
  wp (cgaputc c) s Q.
Proof.
  intros H10 Hb Hc HQ. unfold cgaputc.
  rewrite (proj2 (Z.eqb_neq c 10) H10), (proj2 (Z.eqb_neq c BACKSPACE) Hb).
  apply wp_bind, wp_get_cursor. set (p := cursor s) in *.
  apply wp_bind, wp_bind. apply wp_modify, wp_ret.
  apply wp_bind. destruct ((p + 1 <? 0) || (p + 1 >? 25 * 80)) eqn:Hr; [lia|].
  apply wp_ret, wp_bind, wp_if; intros Hq.
  - assert (1920 <= p + 1) by zdm.
    apply wp_bind, wp_crt_scroll. intros m1 Hm1.
    apply wp_bind, wp_crt_blank; [lia|]. intros m2 Hm2.
    apply wp_ret, wp_bind, wp_set_cursor, wp_ret.
    apply HQ; [done|done| |].
    + rewrite cursor_set_cursor_small by lia. unfold advance. destruct (p + 1 >=? 24 * 80) eqn:?; lia.
    + intros j. replace (p + 1 >=? 24 * 80) with true by lia.
      pose proof (Hm2 j) as E2. pose proof (Hm1 j) as E1. unfold crt_get in *. cbn in *.
      rewrite E2, E1.
      rewrite !lookup_insert.
      repeat case_match; repeat case_decide; simplify_eq; cbn; try lia; try done.
  - assert (p + 1 < 1920) by zdm.
    apply wp_ret, wp_bind, wp_set_cursor, wp_ret.
    apply HQ; [done|done| |].
    + rewrite cursor_set_cursor_small by lia. unfold advance. destruct (p + 1 >=? 24 * 80) eqn:?; lia.
    + intros j. replace (p + 1 >=? 24 * 80) with false by lia.
      unfold crt_get. cbn. rewrite lookup_insert.
      destruct (Z.eqb_spec j p); case_decide; simplify_eq; done.
Qed.

(** A line feed moves to the start of the next row, scrolling at the bottom. *)
Definition newline_pos (p : Z) : Z :=
  let q := p + (80 - p mod 80) in if q >=? 24 * 80 then q - 80 else q.

Lemma wp_cgaputc_newline s (Q : unit -> screen -> Prop) :
  0 <= cursor s < 2000 ->
  (forall s', same_ctl s s' -> uart_out s' = uart_out s -> cursor s' = newline_pos (cursor s) ->
     Q tt s') ->
  wp (cgaputc 10) s Q.
Proof.
  intros Hc HQ. unfold cgaputc, newline_pos in *. cbn [Z.eqb BACKSPACE].
  apply wp_bind, wp_get_cursor. set (p := cursor s) in *.
  apply wp_bind. change (10 =? 10) with true. cbn iota. apply wp_ret.
  rewrite Z.rem_mod_nonneg by lia.
  assert (p < p + (80 - p mod 80) <= 2000) by zdm.
  apply wp_bind. destruct ((_ <? 0) || _) eqn:Hr; [lia|].
  apply wp_ret, wp_bind, wp_if; intros Hq.
  - apply wp_bind, wp_crt_scroll. intros m1 _.
    apply wp_bind, wp_crt_blank; [zdm|]. intros m2 _.
    apply wp_ret, wp_bind, wp_set_cursor, wp_ret. apply HQ; [done..|].
    assert (1920 <= p + (80 - p mod 80)) by zdm.
    rewrite cursor_set_cursor_small by lia. destruct (_ >=? 24 * 80) eqn:?; lia.
  - apply wp_ret, wp_bind, wp_set_cursor, wp_ret. apply HQ; [done..|].
    assert (p + (80 - p mod 80) < 1920) by zdm.
    rewrite cursor_set_cursor_small by lia. destruct (_ >=? 24 * 80) eqn:?; lia.
Qed.

Lemma newline_pos_range p : 0 <= p < 1920 -> 0 <= newline_pos p < 1920.
Proof. unfold newline_pos. intros H. destruct (_ >=? _) eqn:?; zdm. Qed.

Lemma advance_range p : 0 <= p < 1920 -> 0 <= advance p < 1920.
Proof. unfold advance. intros H. destruct (_ >=? _) eqn:?; lia. Qed.

Definition sent (s : screen) (c : Z) : list Z := if uart s then [u8 c] else [].

Lemma wp_uartputc c s (Q : unit -> screen -> Prop) :
  Q tt (set_uart_out (uart_out s ++ sent s c) s) -> wp (uartputc c) s Q.
Proof.
  unfold uartputc, sent. intros H. apply wp_bind, wp_gets. destruct (uart s); cbn in *; [exact H|].
  rewrite app_nil_r in H. destruct s. exact H.
Qed.

(** consputc() of a character other than a line feed and BACKSPACE, on a
    screen whose cursor is inside the 24 rows in use. *)
Lemma wp_consputc_char c s (Q : unit -> screen -> Prop) :
  panicked s = false -> c <> 10 -> c <> BACKSPACE -> 0 <= cursor s < 2000 ->
  (forall s', same_ctl s s' -> uart_out s' = uart_out s ++ sent s c ->
     cursor s' = advance (cursor s) ->
     shown (cursor s) (cell_of c) (crt_get s) (crt_get s') -> Q tt s') ->
  wp (consputc c) s Q.
Proof.
  intros Hp H10 Hb Hc HQ. unfold consputc.
  apply wp_bind, wp_gets. rewrite Hp, (proj2 (Z.eqb_neq c BACKSPACE) Hb).
  apply wp_bind, wp_uartputc. apply wp_cgaputc_char; [done|done|done|].
  intros s' Hctl Hout Hcur Hsh. apply HQ; assumption.
Qed.

Lemma wp_consputc_newline s (Q : unit -> screen -> Prop) :
  panicked s = false -> 0 <= cursor s < 2000 ->
  (forall s', same_ctl s s' -> uart_out s' = uart_out s ++ sent s 10 ->
     cursor s' = newline_pos (cursor s) -> Q tt s') ->
  wp (consputc 10) s Q.
Proof.
  intros Hp Hc HQ. unfold consputc. apply wp_bind, wp_gets. rewrite Hp.
  apply wp_bind, wp_uartputc. apply wp_cgaputc_newline; [done|].
  intros s' Hctl Hout Hcur. apply HQ; assumption.
Qed.

(** Any sequence of bytes can be printed: the kernel never panics, the cursor
    stays on the screen and the bytes go to the serial port in order. *)
Lemma wp_put_all l : forall s (Q : unit -> screen -> Prop),
  panicked s = false -> 0 <= cursor s < 1920 -> BACKSPACE ∉ l ->
  (forall s', same_ctl s s' -> uart_out s' = uart_out s ++ concat (map (sent s) l) ->
     0 <= cursor s' < 1920 -> Q tt s') ->
  wp (put_all l) s Q.
Proof.
  induction l as [|c l IH]; intros s Q Hp Hc Hl HQ; cbn [put_all].
  - apply wp_ret, HQ; [apply same_ctl_refl|by rewrite app_nil_r|done].
  - apply not_elem_of_cons in Hl as [Hc1 Hl].
    assert (Hstep : forall s1, same_ctl s s1 -> uart_out s1 = uart_out s ++ sent s c ->
      0 <= cursor s1 < 1920 -> wp (put_all l) s1 Q).
    { intros s1 Hctl Hout Hcur. apply IH; [destruct Hctl as (_&->&_); done|done|done|].
      intros s' Hctl' Hout' Hcur'. apply HQ; [by eapply same_ctl_trans| |done].
      rewrite Hout', Hout. cbn. rewrite <- app_assoc. do 2 f_equal.
      unfold sent. destruct Hctl as (->&_). done. }
    apply wp_bind. destruct (Z.eq_dec c 10) as [->|H10].
    + apply wp_consputc_newline; [done|lia|]. intros s1 ? ? Hcur.
      apply Hstep; [done|done|]. rewrite Hcur. by apply newline_pos_range.
    + apply wp_consputc_char; [done|done|done|lia|]. intros s1 ? ? Hcur _.
      apply Hstep; [done|done|]. rewrite Hcur. by apply advance_range.
Qed.

(** ** Printed numbers *)

(** The value of a digit character, and of digits with the least significant first. *)
Definition digit_val (c : Z) : Z := if c <=? 57 then c - 48 else c - 87.

Definition digits_val (base : Z) (l : list Z) : Z :=
  fold_right (fun c v => digit_val c + base * v) 0 l.

Lemma digit_val_digits k : 0 <= k < 16 -> digit_val (aget 0 digits k) = k.
Proof.
  intros H. assert (Hall : Forall (fun k => digit_val (aget 0 digits k) = k) (seqZ 0 16))
    by (vm_compute; repeat constructor).
  rewrite Forall_seqZ in Hall. apply Hall. lia.
Qed.

Lemma digit_printable k : 0 <= k < 16 -> 48 <= aget 0 digits k < 103.
Proof.
  intros H.
  assert (k = 0 \/ k = 1 \/ k = 2 \/ k = 3 \/ k = 4 \/ k = 5 \/ k = 6 \/ k = 7 \/ k = 8 \/ k = 9 \/
    k = 10 \/ k = 11 \/ k = 12 \/ k = 13 \/ k = 14 \/ k = 15) as Hc by lia.
  decompose [or] Hc; subst; (split; [vm_compute; discriminate|reflexivity]).
Qed.

Lemma printint_digits_val base : 2 <= base <= 16 -> forall fuel x,
  0 <= x < base ^ Z.of_nat fuel -> digits_val base (printint_digits fuel x base) = x.
Proof.
  intros Hb. induction fuel as [|fuel IH]; intros x Hx; cbn [printint_digits].
  - cbn in *. lia.
  - assert (Hm : 0 <= x mod base < base) by (apply Z.mod_pos_bound; lia).
    unfold digits_val. cbn [fold_right]. fold (digits_val base).
    rewrite digit_val_digits by lia.
    assert (Hdm : x = base * (x / base) + x mod base) by (apply Z.div_mod; lia).
    destruct (Z.eqb_spec (x / base) 0) as [E|E].
    + cbn. lia.
    + fold (digits_val base (printint_digits fuel (x / base) base)). rewrite IH; [lia|].
      rewrite Nat2Z.inj_succ, Z.pow_succ_r in Hx by lia. split.
      * apply Z.div_pos; lia.
      * apply Z.div_lt_upper_bound; lia.
Qed.

Lemma printint_digits_length base : 2 <= base -> forall fuel k x,
  (0 < k)%nat -> 0 <= x < base ^ Z.of_nat k -> (length (printint_digits fuel x base) <= k)%nat.
Proof.
  intros Hb. induction fuel as [|fuel IH]; intros k x Hk Hx; cbn [printint_digits length]; [lia|].
  destruct (Z.eqb_spec (x / base) 0); cbn [length]; [lia|].
  destruct k as [|k]; [lia|]. apply le_n_S.
  rewrite Nat2Z.inj_succ, Z.pow_succ_r in Hx by lia.
  assert (0 < x / base).
  { assert (0 <= x / base) by (apply Z.div_pos; lia). lia. }
  assert (x / base < base ^ Z.of_nat k) by (apply Z.div_lt_upper_bound; lia).
  apply IH; [|lia]. destruct k; [cbn in *; lia|lia].
Qed.

Lemma printint_digits_printable base : 2 <= base <= 16 -> forall fuel x,
  Forall (fun c => 48 <= c < 103) (printint_digits fuel x base).
Proof.
  intros Hb. induction fuel as [|fuel IH]; intros x; cbn [printint_digits]; constructor.
  - apply digit_printable. pose proof (Z.mod_pos_bound x base). lia.
  - destruct (_ =? 0); [constructor|apply IH].
Qed.

(** The number a printed text denotes: an optional minus sign, then digits. *)
Definition text_val (base : Z) (txt : list Z) : Z :=
  match txt with
  | 45 :: ds => - digits_val base (rev ds)
  | ds => digits_val base (rev ds)
  end.

Lemma text_val_digits base ds : Forall (fun c => 48 <= c < 103) ds ->
  text_val base (rev ds) = digits_val base ds /\ text_val base (rev (ds ++ [45])) = - digits_val base ds.
Proof.
  intros H. rewrite rev_app_distr. cbn [rev app text_val]. rewrite rev_involutive. split; [|done].
  unfold text_val. destruct (rev ds) as [|c l] eqn:E; [by rewrite <- E, rev_involutive|].
  assert (Hc : 48 <= c < 103).
  { rewrite Forall_forall in H. apply H, in_rev. rewrite E. by left. }
  rewrite <- (rev_involutive ds), E. repeat (case_match; try done); lia.
Qed.

Lemma printint_buf_fits xx base sign :
  8 <= base <= 16 -> (length (printint_buf xx base sign) <= 12)%nat.
Proof.
  intros Hb. unfold printint_buf.
  assert (Hl : forall x, 0 <= x < 4294967296 -> (length (printint_digits 32 x base) <= 11)%nat).
  { intros x Hx. apply printint_digits_length; [lia|lia|].
    assert (8 ^ 11 <= base ^ 11) by (apply Z.pow_le_mono_l; lia). change (Z.of_nat 11) with 11. lia. }
  pose proof (u32_range xx). pose proof (u32_range (- xx)).
  destruct (sign && (xx <? 0)); rewrite length_app; cbn [length]; [specialize (Hl (u32 (- xx)))|specialize (Hl (u32 xx))]; lia.
Qed.

Lemma printint_buf_chars xx base sign :
  8 <= base <= 16 -> Forall (fun c => 45 <= c < 103) (printint_buf xx base sign).
Proof.
  intros Hb. unfold printint_buf. apply Forall_app. split.
  - eapply Forall_impl; [|apply printint_digits_printable; lia]. cbn. lia.
  - destruct (sign && _); repeat constructor; lia.
Qed.

Lemma wp_printint xx base sign s (Q : unit -> screen -> Prop) :
  8 <= base <= 16 -> panicked s = false -> 0 <= cursor s < 1920 ->
  (forall s', same_ctl s s' -> 0 <= cursor s' < 1920 ->
     uart_out s' = uart_out s ++ concat (map (sent s) (rev (printint_buf xx base sign))) -> Q tt s') ->
  wp (printint xx base sign) s Q.
Proof.
  intros Hb Hp Hc HQ. unfold printint. pose proof (printint_buf_fits xx base sign Hb).
  apply wp_bind, wp_require; [lia|]. apply wp_put_all; [done|done| |intros; by apply HQ].
  intros Hin. apply list_elem_of_In, in_rev in Hin. pose proof (printint_buf_chars xx base sign Hb) as Hd.
  rewrite Forall_forall in Hd. apply Hd in Hin. unfold BACKSPACE in Hin. lia.
Qed.

Lemma concat_sent s l :
  uart s = true -> Forall (fun c => 0 <= c < 256) l -> concat (map (sent s) l) = l.
Proof.
  intros H. induction 1 as [|c l Hc _ IH]; cbn; [done|].
  unfold sent at 1. rewrite H, u8_small, IH by done. done.
Qed.

(** printint() prints the number it is given: the text sent to the serial
    port, read back in the same base, is the signed or the unsigned value of
    the argument, for every 32-bit argument (the smallest one included). *)
Theorem printint_prints_number xx base sign s :
  -2147483648 <= xx < 2147483648 -> 8 <= base <= 16 ->
  panicked s = false -> uart s = true -> 0 <= cursor s < 1920 ->
  exists txt s', printint xx base sign s = Ok tt s' /\ uart_out s' = uart_out s ++ txt /\
    text_val base txt = (if sign then xx else u32 xx) /\ 0 <= cursor s' < 1920.
Proof.
  intros Hx Hb Hp Hu Hc. exists (rev (printint_buf xx base sign)).
  assert (H : wp (printint xx base sign) s (fun _ s' =>
    uart_out s' = uart_out s ++ rev (printint_buf xx base sign) /\ 0 <= cursor s' < 1920)).
  { apply wp_printint; [done|done|lia|]. intros s' _ Hc' Ho. rewrite concat_sent in Ho; [split; [done|lia]|done|].
    apply Forall_rev. eapply Forall_impl; [|by apply printint_buf_chars]. cbn. lia. }
  apply wp_run in H as ([] & s' & E & Ho & Hc'). exists s'. split_and!; try done || lia.
  clear E Ho. unfold printint_buf.
  assert (Hv : forall x, 0 <= x < 4294967296 -> digits_val base (printint_digits 32 x base) = x).
  { intros x Hxr. apply printint_digits_val; [lia|]. 
    assert (8 ^ 32 <= base ^ 32) by (apply Z.pow_le_mono_l; lia). change (Z.of_nat 32) with 32. lia. }
  pose proof (u32_range xx). pose proof (u32_range (- xx)).
  destruct (sign && (xx <? 0)) eqn:En.
  - apply andb_true_iff in En as [-> Hn]. apply Z.ltb_lt in Hn.
    rewrite (proj2 (text_val_digits _ _ (printint_digits_printable base ltac:(lia) 32 _))), Hv by lia.
    rewrite u32_small by lia. lia.
  - rewrite app_nil_r, (proj1 (text_val_digits _ _ (printint_digits_printable base ltac:(lia) 32 _))), Hv by lia.
    destruct sign; [|done]. cbn in En. apply Z.ltb_ge in En. apply u32_small. lia.
Qed.

Lemma printint_prints_number_witness :
  exists txt s', printint (-2147483648) 10 true (mkScreen ∅ 0 ∅ true [] false false false) = Ok tt s' /\
    uart_out s' = [] ++ txt /\ text_val 10 txt = -2147483648 /\ 0 <= cursor s' < 1920.
Proof.
  apply (printint_prints_number (-2147483648) 10 true (mkScreen ∅ 0 ∅ true [] false false false));
    try reflexivity; vm_compute; intuition congruence.
Defined.
