(* ===== verification/Console.v ===== *)
(** The console's input side: line editing with a cursor, selection, a
    clipboard, undo and command completion (console.c lines 218-904).

    [console] holds the file's variables: the ring buffer [input], [undo],
    [clipboard], [tab_state] and the screen of Screen.v.  Each key of
    consoleintr()'s switch is a definition of its own. *)

From stdpp Require Import base gmap list strings numbers.
From Stdlib Require Import ZArith Lia.
From S2P Require Import Prelude Kstring Screen.

Open Scope Z_scope.
Open Scope kern_scope.

Definition INPUT_BUF : Z := 128.
Definition UNDO_BUF : Z := 128.
Definition CLIPBOARD_BUF : Z := 128.

Inductive optype : Type := OP_INSERT | OP_DELETE.

Record op : Type := mkOp { op_type : optype; op_c : Z; op_pos : Z }.

Record input_t : Type := mkInput {
  ibuf : list Z;           (* INPUT_BUF characters *)
  ir : Z; iw : Z; ie : Z;  (* read, write (end of committed input), edit index *)
  ic : Z;                  (* cursor *)
  selecting : Z;
  sel_start : Z;
  sel_end : Z
}.

Record console : Type := mkConsole {
  scr : screen;
  inp : input_t;
  undo_buf : list op;
  undo_n : Z;
  clip_buf : list Z;
  clip_n : Z;
  last_key_was_tab : Z;
  wakeups : nat            (* calls of wakeup(&input.r) *)
}.

Definition set_scr (v : screen) (s : console) : console :=
  mkConsole v (inp s) (undo_buf s) (undo_n s) (clip_buf s) (clip_n s) (last_key_was_tab s) (wakeups s).
Definition set_inp (v : input_t) (s : console) : console :=
  mkConsole (scr s) v (undo_buf s) (undo_n s) (clip_buf s) (clip_n s) (last_key_was_tab s) (wakeups s).
Definition set_undo (b : list op) (n : Z) (s : console) : console :=
  mkConsole (scr s) (inp s) b n (clip_buf s) (clip_n s) (last_key_was_tab s) (wakeups s).
Definition set_clip (b : list Z) (n : Z) (s : console) : console :=
  mkConsole (scr s) (inp s) (undo_buf s) (undo_n s) b n (last_key_was_tab s) (wakeups s).
Definition set_tab (v : Z) (s : console) : console :=
  mkConsole (scr s) (inp s) (undo_buf s) (undo_n s) (clip_buf s) (clip_n s) v (wakeups s).
Definition add_wakeup (s : console) : console :=
  mkConsole (scr s) (inp s) (undo_buf s) (undo_n s) (clip_buf s) (clip_n s) (last_key_was_tab s)
    (S (wakeups s)).

Definition with_buf (v : list Z) (i : input_t) : input_t :=
  mkInput v (ir i) (iw i) (ie i) (ic i) (selecting i) (sel_start i) (sel_end i).
Definition with_r (v : Z) (i : input_t) : input_t :=
  mkInput (ibuf i) v (iw i) (ie i) (ic i) (selecting i) (sel_start i) (sel_end i).
Definition with_w (v : Z) (i : input_t) : input_t :=
  mkInput (ibuf i) (ir i) v (ie i) (ic i) (selecting i) (sel_start i) (sel_end i).
Definition with_e (v : Z) (i : input_t) : input_t :=
  mkInput (ibuf i) (ir i) (iw i) v (ic i) (selecting i) (sel_start i) (sel_end i).
Definition with_c (v : Z) (i : input_t) : input_t :=
  mkInput (ibuf i) (ir i) (iw i) (ie i) v (selecting i) (sel_start i) (sel_end i).
Definition with_selecting (v : Z) (i : input_t) : input_t :=
  mkInput (ibuf i) (ir i) (iw i) (ie i) (ic i) v (sel_start i) (sel_end i).
Definition with_sel (a b : Z) (i : input_t) : input_t :=
  mkInput (ibuf i) (ir i) (iw i) (ie i) (ic i) (selecting i) a b.

(** Fields of input, read and assigned; r, w, e and c are uint. *)
Definition inp_get {A} (f : input_t -> A) : M console A := gets (fun s => f (inp s)).
Definition inp_mod (f : input_t -> input_t) : M console unit :=
  modify (fun s => set_inp (f (inp s)) s).
Definition set_r (v : Z) : M console unit := inp_mod (with_r (u32 v)).
Definition set_w (v : Z) : M console unit := inp_mod (with_w (u32 v)).
Definition set_e (v : Z) : M console unit := inp_mod (with_e (u32 v)).
Definition set_c (v : Z) : M console unit := inp_mod (with_c (u32 v)).

Definition on_scr {A} (m : M screen A) : M console A := zoom scr set_scr m.

(** input.buf[i % INPUT_BUF] for an unsigned i. *)
Definition buf_get (i : Z) : M console Z :=
  inp_get (fun p => aget 0 (ibuf p) (u32 i mod INPUT_BUF)).
Definition buf_set (i v : Z) : M console unit :=
  inp_mod (fun p => with_buf (aset (ibuf p) (u32 i mod INPUT_BUF) (i8 v)) p).

(** The same for a signed i: a negative or overflowed i gives no index. *)
Definition int_ok (i : Z) : bool := (0 <=? i) && (i <? 2 ^ 31).
Definition buf_geti (i : Z) : M console Z :=
  require (int_ok i) "input.buf index" ;;; buf_get i.
Definition buf_seti (i v : Z) : M console unit :=
  require (int_ok i) "input.buf index" ;;; buf_set i v.

(** The number of rounds of a loop that counts from lo to hi, where the
    comparison is unsigned (a uint is involved) or signed. *)
Definition urounds (lo hi : Z) : nat := Z.to_nat (u32 hi - u32 lo).
Definition srounds (lo hi : Z) : nat := Z.to_nat (i32 hi - i32 lo).

(** for(int i = lo; i < hi; i++) consputc(input.buf[i % INPUT_BUF]) *)
Definition echo_buf (rnd : Z -> Z -> nat) (lo hi : Z) : M console unit :=
  rounds (rnd lo hi) 1 (i32 lo) (fun i => let! ch := buf_geti i in on_scr (consputc ch)).

(** undo.buf[undo.n] = {t, ch, pos}; undo.n++ when there is room. *)
Definition undo_push (t : optype) (ch pos : Z) : M console unit :=
  let! n := gets undo_n in
  when (n <? UNDO_BUF)
    (modify (fun s => set_undo (aset (undo_buf s) n (mkOp t (i8 ch) (u32 pos))) (u32 (n + 1)) s)).

Definition wakeup_reader : M console unit := modify add_wakeup.

(** C(x) for a letter, by its code. *)
Definition Ctl (x : Z) : Z := x - 64.

(** ** Command completion *)

Definition commands : list (list Z) :=
  map codes ["cat"; "echo"; "find_sum"; "forktest"; "grep"; "init";
             "kill"; "ln"; "ls"; "mkdir"; "rm"; "sh";
             "stressfs"; "usertests"; "wc"; "zombie"; "console"]%string.

Definition reset_tab_state : M console unit := modify (set_tab 0).

Fixpoint lcp_loop (first : list Z) (others : list (list Z)) (lcp_len : nat) : nat :=
  match first with
  | [] => lcp_len
  | c :: first' =>
      if existsb (fun m => negb (nth lcp_len m 0 =? c)) others then lcp_len
      else lcp_loop first' others (S lcp_len)
  end.

Definition find_lcp_len (matches : list (list Z)) : Z :=
  match matches with
  | [] => 0
  | [m] => strlen m
  | m :: others => Z.of_nat (lcp_loop m others 0)
  end.

(** while(input.e != input.w){ input.e--; input.c--; consputc(BACKSPACE); } *)
Definition erase_line : M console unit :=
  let! e := inp_get ie in
  let! w := inp_get iw in
  rounds (Z.to_nat (u32 (e - w))) 1 0 (fun _ =>
    let! e := inp_get ie in
    set_e (e - 1) ;;;
    let! c := inp_get ic in
    set_c (c - 1) ;;;
    on_scr (consputc BACKSPACE)).

Definition kprint (fmt : list Z) (arg : list Z) : M console unit :=
  on_scr (cprintf (fun _ => arg) (fun _ => 1) fmt).

Definition print_matches_and_redraw (matches : list (list Z)) : M console unit :=
  let! original_locking := gets (fun s => locking (scr s)) in
  on_scr (modify (set_locking false)) ;;;
  kprint [10] [] ;;;
  for_up 0 (Z.of_nat (length matches))
    (fun i => kprint (codes "%s  ") (nth (Z.to_nat i) matches [])) ;;;
  kprint [10] [] ;;;
  kprint (codes "$ ") [] ;;;
  (let! e := inp_get ie in
   let! w := inp_get iw in
   when (negb (e =? w))
     (let! curpos := on_scr cga_get_cursor_pos in
      let! c := inp_get ic in
      let move_right := i32 (e - c) in
      on_scr (cga_set_cursor_pos (curpos + move_right)) ;;;
      set_c e ;;;
      erase_line)) ;;;
  kprint (codes " ") [] ;;;
  let! w := inp_get iw in
  set_c w ;;;
  modify (fun s => set_undo (undo_buf s) 0 s) ;;;
  on_scr (modify (set_locking original_locking)).

(** The loop that appends text[lo..hi) to the line, while there is room. *)
Definition append_completion (text : list Z) (lo hi : Z) : M console unit :=
  let! _ := search (Z.to_nat (hi - lo)) lo (fun i =>
    let! e := inp_get ie in
    let! r := inp_get ir in
    if e >=? u32 (r + INPUT_BUF) then ret (Some tt)
    else
      let ch := aget 0 text i in
      set_e (e + 1) ;;;
      buf_set e ch ;;;
      on_scr (consputc ch) ;;;
      ret None) in
  ret tt.

(** The prefix typed so far, if it is one word: the line is copied from
    input.buf + input.w % INPUT_BUF without wrapping round. *)
Definition handle_tab_completion : M console unit :=
  let! e := inp_get ie in
  let! w := inp_get iw in
  let len := i32 (e - w) in
  let! sp := search (urounds w e) (i32 w) (fun i =>
    let! ch := buf_geti i in
    ret (if ch =? 32 then Some tt else None)) in
  let is_first_word := match sp with Some _ => false | None => true end in
  if negb is_first_word || (len <? 0) || (len >=? INPUT_BUF) then reset_tab_state
  else
    require (w mod INPUT_BUF + len <=? INPUT_BUF) "memmove from input.buf" ;;;
    let! buf := inp_get ibuf in
    let prefix := take (Z.to_nat len) (drop (Z.to_nat (w mod INPUT_BUF)) buf) in
    let matches := List.filter (fun cmd => strncmp prefix cmd (Z.to_nat len) =? 0) commands in
    match matches with
    | [] => reset_tab_state
    | [completion] =>
        append_completion completion len (strlen completion) ;;;
        let! e := inp_get ie in
        set_c e ;;;
        reset_tab_state
    | m0 :: _ =>
        let! tab := gets last_key_was_tab in
        if negb (tab =? 0) then
          print_matches_and_redraw matches ;;;
          reset_tab_state
        else
          let lcp_len := find_lcp_len matches in
          when (lcp_len >? len)
            (append_completion m0 len lcp_len ;;;
             let! e := inp_get ie in
             set_c e) ;;;
          modify (set_tab 1)
    end.

(** ** Selection *)

Definition is_whitespace (c : Z) : bool := (c =? 32) || (c =? 9) || (c =? 10) || (c =? 11).

Definition update_highlight (start end_ on : Z) : M console unit :=
  if (start <? 0) || (end_ <=? start) then ret tt
  else
    let! p := inp_get id in
    let start := if start <? i32 (iw p) then i32 (iw p) else start in
    let end_ := if end_ >? i32 (ie p) then i32 (ie p) else end_ in
    if start >=? end_ then ret tt
    else
      let! cursor_pos := on_scr cga_get_cursor_pos in
      let screen_pos_of_w := cursor_pos - i32 (ic p - iw p) in
      for_up start end_ (fun i =>
        let screen_pos := screen_pos_of_w + (i - i32 (iw p)) in
        when ((screen_pos >=? 0) && (screen_pos <? 25 * 80))
          (on_scr
             (let! cell := gets (fun s => crt_get s screen_pos) in
              let ch := Z.land cell 0x00ff in
              crt_set screen_pos (Z.lor ch (if on =? 0 then 0x0700 else 0x7000))))).

Definition clear_selection : M console unit :=
  let! p := inp_get id in
  when (negb (sel_start p =? -1))
    (update_highlight (sel_start p) (sel_end p) 0 ;;;
     inp_mod (with_sel (-1) (-1))) ;;;
  inp_mod (with_selecting 0).

Definition has_selection (p : input_t) : bool :=
  negb (sel_start p =? -1) && negb (sel_end p =? -1).

Definition deselect_if_any : M console unit :=
  let! p := inp_get id in
  when (has_selection p) clear_selection.

Definition delete_selection : M console unit :=
  let! p := inp_get id in
  if (sel_start p =? -1) || (sel_end p =? -1) then ret tt
  else
    let s0 := Z.min (sel_start p) (sel_end p) in
    let e0 := Z.max (sel_start p) (sel_end p) in
    let s := if s0 <? i32 (iw p) then i32 (iw p) else s0 in
    let e := if e0 >? i32 (ie p) then i32 (ie p) else e0 in
    if s >=? e then clear_selection
    else
      let len := e - s in
      let old_e := i32 (ie p) in
      let old_c := i32 (ic p) in
      let! _ := search (Z.to_nat len) 0 (fun k =>
        let! n := gets undo_n in
        if n <? UNDO_BUF
        then let! ch := buf_geti (s + k) in undo_push OP_DELETE ch (s + k) ;;; ret None
        else ret (Some tt)) in
      let! hw_cursor := on_scr cga_get_cursor_pos in
      let pw := hw_cursor - (old_c - i32 (iw p)) in
      let pw := if pw <? 0 then 0 else pw in
      let screen_pos_of_w := if pw >=? 25 * 80 then 25 * 80 - 1 else pw in
      for_up e old_e (fun i => let! ch := buf_geti i in buf_seti (i - len) ch) ;;;
      set_e (ie p - len) ;;;
      set_c s ;;;
      on_scr (cga_set_cursor_pos screen_pos_of_w) ;;;
      let! w := inp_get iw in
      let! e' := inp_get ie in
      echo_buf urounds w e' ;;;
      let leftover := i32 (old_e - e') in
      for_up 0 leftover (fun _ => on_scr (consputc 32)) ;;;
      let! c := inp_get ic in
      on_scr (cga_set_cursor_pos (i32 (screen_pos_of_w + (c - w)))) ;;;
      clear_selection.

(** ** The keys of consoleintr() *)

Definition KEY_LF : Z := 0xE4.
Definition KEY_RT : Z := 0xE5.

Definition key_tab : M console unit :=
  deselect_if_any ;;; handle_tab_completion.

Definition key_select : M console unit :=
  let! p := inp_get id in
  if selecting p =? 0 then
    clear_selection ;;;
    inp_mod (with_selecting 1) ;;;
    inp_mod (with_sel (i32 (ic p)) (-1))
  else
    inp_mod (with_selecting 0) ;;;
    let a := sel_start p in
    let b := i32 (ic p) in
    inp_mod (with_sel (Z.min a b) (Z.max a b)) ;;;
    if a =? b then inp_mod (with_sel (-1) (-1))
    else update_highlight (Z.min a b) (Z.max a b) 1.

Definition key_copy : M console unit :=
  let! p := inp_get id in
  if has_selection p then
    let s0 := Z.min (sel_start p) (sel_end p) in
    let e0 := Z.max (sel_start p) (sel_end p) in
    let s := if s0 <? i32 (iw p) then i32 (iw p) else s0 in
    let e := if e0 >? i32 (ie p) then i32 (ie p) else e0 in
    let len := Z.min (e - s) CLIPBOARD_BUF in
    for_up 0 len (fun i =>
      let! ch := buf_geti (s + i) in
      modify (fun st => set_clip (aset (clip_buf st) i ch) (clip_n st) st)) ;;;
    modify (fun st => set_clip (clip_buf st) (u32 len) st)
  else
    clear_selection ;;;
    modify (fun st => set_clip (clip_buf st) 0 st).

(** Put ch into the line at the cursor and redraw from there: the tail moves
    up by one, ch goes to input.c, the cursor stays after it.  Pasting compares
    the int counters with the uint fields, typing casts the fields to int. *)
Definition insert_char (rnd : Z -> Z -> nat) (ch : Z) : M console unit :=
  let! p := inp_get id in
  undo_push OP_INSERT ch (ic p) ;;;
  rounds (rnd (ic p) (ie p)) (-1) (i32 (ie p)) (fun j =>
    let! x := buf_geti (j - 1) in buf_seti j x) ;;;
  buf_set (ic p) ch ;;;
  set_e (ie p + 1) ;;;
  set_c (ic p + 1) ;;;
  let! q := inp_get id in
  echo_buf rnd (ic q - 1) (ie q) ;;;
  let! pos := on_scr cga_get_cursor_pos in
  on_scr (cga_set_cursor_pos (i32 (pos - (ie q - ic q)))).

Definition key_paste : M console unit :=
  let! n := gets clip_n in
  when (n >? 0)
    (let! p := inp_get id in
     when (has_selection p) delete_selection ;;;
     for_up 0 n (fun i =>
       let! clip := gets clip_buf in
       require (arr_ok clip i) "clipboard.buf index" ;;;
       let ch := aget 0 clip i in
       let! e := inp_get ie in
       let! r := inp_get ir in
       when (e <? u32 (r + INPUT_BUF)) (insert_char urounds ch))) ;;;
  deselect_if_any ;;;
  clear_selection.

(** while(temp_c > input.w && P(temp_c)) temp_c--; the fuel is the distance to w. *)
Fixpoint walk_left (fuel : nat) (P : Z -> M console bool) (w t : Z) : M console Z :=
  match fuel with
  | O => ret t
  | S f =>
      if t >? w then
        let! b := P t in if b then walk_left f P w (t - 1) else ret t
      else ret t
  end.

(** while(temp_c < input.e && P(temp_c)) temp_c++ *)
Fixpoint walk_right (fuel : nat) (P : Z -> M console bool) (e t : Z) : M console Z :=
  match fuel with
  | O => ret t
  | S f =>
      if t <? e then
        let! b := P t in if b then walk_right f P e (t + 1) else ret t
      else ret t
  end.

Definition ws_at (i : Z) : M console bool := let! ch := buf_geti i in ret (is_whitespace ch).
Definition nonws_at (i : Z) : M console bool := let! b := ws_at i in ret (negb b).

Definition key_word_left : M console unit :=
  deselect_if_any ;;;
  let! p := inp_get id in
  when (ic p >? iw p)
    (let t := ic p - 1 in
     let! t := walk_left (Z.to_nat (t - iw p)) ws_at (iw p) t in
     let! t := walk_left (Z.to_nat (t - iw p)) (fun t => nonws_at (t - 1)) (iw p) t in
     set_c t ;;;
     let! pos := on_scr cga_get_cursor_pos in
     on_scr (cga_set_cursor_pos (i32 (pos - (ic p - t))))).

Definition key_eof_or_word_right : M console unit :=
  deselect_if_any ;;;
  let! p := inp_get id in
  if ie p =? iw p then
    set_e (ie p + 1) ;;;
    buf_set (ie p) (Ctl 68) ;;;
    let! e := inp_get ie in
    set_w e ;;;
    set_c e ;;;
    wakeup_reader
  else
    when (ic p <? ie p)
      (let! t := walk_right (Z.to_nat (ie p - ic p)) nonws_at (ie p) (ic p) in
       let! t := walk_right (Z.to_nat (ie p - t)) ws_at (ie p) t in
       when (t <? ie p)
         (let! pos := on_scr cga_get_cursor_pos in
          on_scr (cga_set_cursor_pos (pos + (t - ic p))) ;;;
          set_c t)).

Definition key_kill_line : M console unit :=
  deselect_if_any ;;;
  let! p := inp_get id in
  when (negb (ie p =? iw p))
    (let! curpos := on_scr cga_get_cursor_pos in
     let move_right := i32 (ie p - ic p) in
     on_scr (cga_set_cursor_pos (curpos + move_right)) ;;;
     set_c (ie p) ;;;
     erase_line ;;;
     set_c (iw p) ;;;
     modify (fun s => set_undo (undo_buf s) 0 s)) ;;;
  set_c (iw p) ;;;
  modify (fun s => set_undo (undo_buf s) 0 s).

Definition key_backspace : M console unit :=
  let! p := inp_get id in
  if has_selection p then delete_selection
  else
    when (ic p >? iw p)
      (let! ch := buf_get (ic p - 1) in
       undo_push OP_DELETE ch (ic p - 1) ;;;
       let! cursor_pos := on_scr cga_get_cursor_pos in
       let line_start_pos := cursor_pos - i32 (ic p - iw p) in
       for_up (i32 (ic p)) (i32 (ie p)) (fun i =>
         let! x := buf_geti i in buf_seti (i - 1) x) ;;;
       set_c (ic p - 1) ;;;
       set_e (ie p - 1) ;;;
       on_scr (cga_set_cursor_pos line_start_pos) ;;;
       let! q := inp_get id in
       echo_buf srounds (iw q) (ie q) ;;;
       on_scr (consputc 32) ;;;
       on_scr (cga_set_cursor_pos (i32 (line_start_pos + (ic q - iw q))))).

Definition key_undo : M console unit :=
  deselect_if_any ;;;
  let! n := gets undo_n in
  when (n >? 0)
    (modify (fun s => set_undo (undo_buf s) (n - 1) s) ;;;
     let! ub := gets undo_buf in
     require (arr_ok ub (n - 1)) "undo.buf index" ;;;
     let last := aget (mkOp OP_INSERT 0 0) ub (n - 1) in
     let pos := op_pos last in
     match op_type last with
     | OP_DELETE => ret tt
     | OP_INSERT =>
         let! p := inp_get id in
         if (pos <? iw p) || (pos >=? ie p) then ret tt
         else
           rounds (urounds (pos + 1) (ie p)) 1 (i32 (pos + 1)) (fun i =>
             let! x := buf_geti i in buf_seti (i - 1) x) ;;;
           set_e (ie p - 1) ;;;
           let! cursor_before := on_scr cga_get_cursor_pos in
           let delta := i32 (ic p - pos) in
           on_scr (cga_set_cursor_pos (cursor_before - delta)) ;;;
           let! e := inp_get ie in
           echo_buf urounds pos e ;;;
           on_scr (consputc 32) ;;;
           let! cp := on_scr cga_get_cursor_pos in
           on_scr (cga_set_cursor_pos (i32 (cp - (e - pos + 1)))) ;;;
           set_c pos
     end).

Definition key_left : M console unit :=
  deselect_if_any ;;;
  let! p := inp_get id in
  when (ic p >? iw p)
    (set_c (ic p - 1) ;;;
     let! pos := on_scr cga_get_cursor_pos in
     on_scr (cga_set_cursor_pos (pos - 1))).

Definition key_right : M console unit :=
  deselect_if_any ;;;
  let! p := inp_get id in
  when (ic p <? ie p)
    (set_c (ic p + 1) ;;;
     let! pos := on_scr cga_get_cursor_pos in
     on_scr (cga_set_cursor_pos (pos + 1))).

Definition key_default (c : Z) : M console unit :=
  when (negb (c =? 0))
    (let c := if c =? 13 then 10 else c in
     let! p := inp_get id in
     when (has_selection p) delete_selection ;;;
     let! p := inp_get id in
     (if (c =? 10) || (ie p =? u32 (ir p + INPUT_BUF)) then
        when (c =? 10) (on_scr (cgaputc 10)) ;;;
        set_e (ie p + 1) ;;;
        buf_set (ie p) 10 ;;;
        let! e := inp_get ie in
        set_w e ;;;
        set_c e ;;;
        modify (fun s => set_undo (undo_buf s) 0 s) ;;;
        wakeup_reader
      else
        when (ie p <? u32 (ir p + INPUT_BUF)) (insert_char srounds c)) ;;;
     clear_selection).

(** One round of the while loop; the result says whether procdump() is asked for. *)
Definition handle_key (c : Z) : M console bool :=
  if c =? 9 then key_tab ;;; ret false
  else if c =? Ctl 83 then key_select ;;; ret false
  else if c =? Ctl 67 then key_copy ;;; ret false
  else if c =? Ctl 86 then key_paste ;;; ret false
  else if c =? Ctl 65 then key_word_left ;;; ret false
  else if c =? Ctl 68 then key_eof_or_word_right ;;; ret false
  else if c =? Ctl 80 then deselect_if_any ;;; ret true
  else if c =? Ctl 85 then key_kill_line ;;; ret false
  else if (c =? Ctl 72) || (c =? 0x7f) then key_backspace ;;; ret false
  else if c =? Ctl 90 then key_undo ;;; ret false
  else if c =? KEY_LF then key_left ;;; ret false
  else if c =? KEY_RT then key_right ;;; ret false
  else key_default c ;;; ret false.

(** [keys] are the values getc() returns; a negative one, or the end of the
    list, ends the loop.  The result is doprocdump. *)
Fixpoint key_loop (keys : list Z) (doprocdump : bool) : M console bool :=
  match keys with
  | [] => ret doprocdump
  | c :: keys' =>
      if c <? 0 then ret doprocdump
      else let! d := handle_key c in key_loop keys' (d || doprocdump)
  end.

Definition consoleintr (keys : list Z) : M console bool :=
  on_scr acquire_cons ;;;
  let! d := key_loop keys false in
  on_scr release_cons ;;;
  ret d.

(** ** Reading and writing *)

(** Where a read stands after running as far as it can: it returned (the bytes
    stored at dst and the return value), or it sleeps on &input.r with n bytes
    still wanted.  Either way cons.lock is free again: sleep() releases it. *)
Inductive read_state : Type :=
| ReadDone (bytes : list Z) (ret : Z)
| ReadSleeping (bytes : list Z) (n : Z).

(** The loop of consoleread() with n bytes left of [target]; [killed] is
    myproc()->killed. *)
Fixpoint read_loop (killed : bool) (target : Z) (n : nat) (bytes : list Z)
  : M console read_state :=
  match n with
  | O => ret (ReadDone bytes target)
  | S n' =>
      let! p := inp_get id in
      if ir p =? iw p then
        ret (if killed then ReadDone bytes (-1) else ReadSleeping bytes (Z.of_nat n))
      else
        let! c := buf_get (ir p) in
        set_r (ir p + 1) ;;;
        if c =? Ctl 68 then
          when (Z.of_nat n <? target) (set_r (ir p)) ;;;
          ret (ReadDone bytes (target - Z.of_nat n))
        else
          let bytes := bytes ++ [c] in
          if c =? 10 then ret (ReadDone bytes (target - Z.of_nat n'))
          else read_loop killed target n' bytes
  end.

Definition consoleread (killed : bool) (n : Z) : M console read_state :=
  on_scr acquire_cons ;;;
  let! st := (if n <=? 0 then ret (ReadDone [] 0) else read_loop killed n (Z.to_nat n) []) in
  on_scr release_cons ;;;
  ret st.

Definition consolewrite (buf : list Z) : M console Z :=
  on_scr acquire_cons ;;;
  on_scr (put_all (map (fun c => Z.land c 0xff) buf)) ;;;
  on_scr release_cons ;;;
  ret (Z.of_nat (length buf)).

(** The static variables at boot, and consoleinit(). *)
Definition console_boot (s : screen) : console :=
  mkConsole s (mkInput (repeat 0 128) 0 0 0 0 0 0 0)
    (repeat (mkOp OP_INSERT 0 0) 128) 0 (repeat 0 128) 0 0 0.

Definition consoleinit : M console unit :=
  on_scr (modify (set_cons_lock false)) ;;;
  on_scr (modify (set_locking true)) ;;;
  set_r 0 ;;; set_w 0 ;;; set_e 0 ;;; set_c 0 ;;;
  modify (fun s => set_undo (undo_buf s) 0 s) ;;;
  reset_tab_state.
