(* ===== verification/ConsoleInv.v ===== *)
(** The console's line editor: memory safety, the invariant every key keeps,
    and the refinement of an abstract line editor. *)

From stdpp Require Import base gmap list strings numbers.
From Stdlib Require Import ZArith Lia.
From S2P Require Import Prelude Kstring Screen Console.

Open Scope Z_scope.
Open Scope kern_scope.

(** ** The ring buffer *)

(** The character at (unbounded) index i of the ring. *)
Definition rg (b : list Z) (i : Z) : Z := aget 0 b (i mod INPUT_BUF).

Definition is_char (c : Z) : Prop := -128 <= c < 128.

Definition ring_ok (b : list Z) : Prop := length b = 128%nat /\ forall i, is_char (rg b i).

Lemma mod128_range i : 0 <= i mod 128 < 128.
Proof. apply Z.mod_pos_bound. lia. Qed.

Lemma mod128_inj lo i j :
  lo <= i < lo + 128 -> lo <= j < lo + 128 -> i mod 128 = j mod 128 -> i = j.
Proof. intros. zdm. Qed.

Lemma rg_aset b i v j :
  length b = 128%nat ->
  rg (aset b (i mod 128) v) j = if i mod 128 =? j mod 128 then v else rg b j.
Proof.
  intros Hl. unfold rg, INPUT_BUF. rewrite aget_aset; [done|].
  rewrite Hl. apply mod128_range.
Qed.

Lemma ring_ok_aset b i v :
  ring_ok b -> is_char v -> ring_ok (aset b (i mod 128) v).
Proof.
  intros [Hl Hc] Hv. split; [by rewrite length_aset|].
  intros j. rewrite rg_aset by done. destruct (_ =? _); auto.
Qed.

(** Inside a window of 128 indices the slots are distinct. *)
Lemma rg_aset_win lo b i v j :
  length b = 128%nat -> lo <= i < lo + 128 -> lo <= j < lo + 128 ->
  rg (aset b (i mod 128) v) j = if i =? j then v else rg b j.
Proof.
  intros Hl Hi Hj. rewrite rg_aset by done.
  destruct (Z.eqb_spec i j) as [->|Hne]; [by rewrite Z.eqb_refl|].
  destruct (Z.eqb_spec (i mod 128) (j mod 128)) as [E|]; [|done].
  exfalso. apply Hne. by apply (mod128_inj lo).
Qed.

(** ** Accesses *)

Lemma int_ok_true i : 0 <= i < 2147483648 -> int_ok i = true.
Proof. unfold int_ok. lia. Qed.

Lemma wp_buf_geti i s (Q : Z -> console -> Prop) :
  0 <= i < 2147483648 -> Q (rg (ibuf (inp s)) i) s -> wp (buf_geti i) s Q.
Proof.
  intros Hi HQ. unfold buf_geti. apply wp_bind, wp_require; [by apply int_ok_true|].
  apply wp_gets. rewrite u32_small by lia. exact HQ.
Qed.

Lemma wp_buf_get i s (Q : Z -> console -> Prop) :
  0 <= i < 2147483648 -> Q (rg (ibuf (inp s)) i) s -> wp (buf_get i) s Q.
Proof. intros Hi HQ. apply wp_gets. rewrite u32_small by lia. exact HQ. Qed.

Definition with_ring (b : list Z) (s : console) : console := set_inp (with_buf b (inp s)) s.

Lemma wp_buf_set i v s (Q : unit -> console -> Prop) :
  0 <= i < 2147483648 -> Q tt (with_ring (aset (ibuf (inp s)) (i mod 128) (i8 v)) s) ->
  wp (buf_set i v) s Q.
Proof. intros Hi HQ. apply wp_modify. rewrite u32_small by lia. exact HQ. Qed.

Lemma wp_buf_seti i v s (Q : unit -> console -> Prop) :
  0 <= i < 2147483648 -> Q tt (with_ring (aset (ibuf (inp s)) (i mod 128) (i8 v)) s) ->
  wp (buf_seti i v) s Q.
Proof.
  intros Hi HQ. unfold buf_seti. apply wp_bind, wp_require; [by apply int_ok_true|].
  by apply wp_buf_set.
Qed.

Lemma i8_char v : is_char (i8 v).
Proof. unfold is_char, i8. zdm. Qed.

Lemma i8_of_char v : is_char v -> i8 v = v.
Proof. intros H. by apply i8_small. Qed.

(** A loop of assignments buf[i - d] = buf[i] for i from a up to b - 1. *)
Lemma wp_shift_left lo a b d s (Q : unit -> console -> Prop) :
  ring_ok (ibuf (inp s)) -> 0 <= lo -> 0 < d -> lo + d <= a -> a <= b -> b <= lo + 128 ->
  b < 2147483648 ->
  (forall r, ring_ok r ->
     (forall j, lo <= j < lo + 128 ->
        rg r j = if (a - d <=? j) && (j <? b - d) then rg (ibuf (inp s)) (j + d)
                 else rg (ibuf (inp s)) j) ->
     Q tt (with_ring r s)) ->
  wp (for_up a b (fun i => let! x := buf_geti i in buf_seti (i - d) x)) s Q.
Proof.
  intros Hok Hlo Hd Ha Hab Hb Hmax HQ.
  apply (wp_for_up (fun i t => exists r, t = with_ring r s /\ ring_ok r /\
    forall j, lo <= j < lo + 128 ->
      rg r j = if (a - d <=? j) && (j <? i - d) then rg (ibuf (inp s)) (j + d)
               else rg (ibuf (inp s)) j)).
  - exists (ibuf (inp s)). split_and!; [by destruct s as [? [] ? ? ? ? ? ?]|done|].
    intros j Hj. replace ((a - d <=? j) && (j <? a - d)) with false by lia. done.
  - intros i t Hi (r & -> & [Hl Hc] & Hr). cbn.
    apply wp_bind, wp_buf_geti; [lia|]. apply wp_buf_seti; [lia|]. cbn.
    rewrite (i8_of_char (rg r i)) by apply Hc.
    exists (aset r ((i - d) mod 128) (rg r i)). split_and!; [done|by apply ring_ok_aset|].
    intros j Hj. rewrite (rg_aset_win lo) by (done || lia).
    rewrite (Hr i) by lia. replace ((a - d <=? i) && (i <? i - d)) with false by lia.
    destruct (Z.eqb_spec (i - d) j) as [<-|Hne].
    + replace ((a - d <=? i - d) && (i - d <? i + 1 - d)) with true by lia. f_equal. lia.
    + rewrite Hr by done.
      replace ((a - d <=? j) && (j <? i + 1 - d)) with ((a - d <=? j) && (j <? i - d)) by lia. done.
  - intros t (r & -> & Hok' & Hr). rewrite Z.max_r in Hr by lia. by apply HQ.
Qed.

(** The loop of insert_char(): buf[j] = buf[j - 1] for j from e down to c + 1. *)
Lemma wp_shift_right lo c e s (Q : unit -> console -> Prop) :
  ring_ok (ibuf (inp s)) -> 0 <= lo <= c -> c <= e -> e < lo + 128 -> e < 2147483648 ->
  (forall r, ring_ok r ->
     (forall j, lo <= j < lo + 128 ->
        rg r j = if (c <? j) && (j <=? e) then rg (ibuf (inp s)) (j - 1)
                 else rg (ibuf (inp s)) j) ->
     Q tt (with_ring r s)) ->
  wp (rounds (Z.to_nat (e - c)) (-1) e (fun j => let! x := buf_geti (j - 1) in buf_seti j x)) s Q.
Proof.
  intros Hok Hlo Hce He Hmax HQ.
  apply (wp_for_down (fun i t => exists r, t = with_ring r s /\ ring_ok r /\
    forall j, lo <= j < lo + 128 ->
      rg r j = if (i <? j) && (j <=? e) then rg (ibuf (inp s)) (j - 1)
               else rg (ibuf (inp s)) j)).
  - exists (ibuf (inp s)). split_and!; [by destruct s as [? [] ? ? ? ? ? ?]|done|].
    intros j Hj. replace ((e <? j) && (j <=? e)) with false by lia. done.
  - intros i t Hi (r & -> & [Hl Hc] & Hr). cbn.
    apply wp_bind, wp_buf_geti; [lia|]. apply wp_buf_seti; [lia|]. cbn.
    rewrite (i8_of_char (rg r (i - 1))) by apply Hc.
    exists (aset r (i mod 128) (rg r (i - 1))). split_and!; [done|by apply ring_ok_aset|].
    intros j Hj. rewrite (rg_aset_win lo) by (done || lia).
    rewrite (Hr (i - 1)) by lia. replace ((i <? i - 1) && (i - 1 <=? e)) with false by lia.
    destruct (Z.eqb_spec i j) as [<-|Hne].
    + replace ((i - 1 <? i) && (i <=? e)) with true by lia. done.
    + rewrite Hr by done.
      replace ((i - 1 <? j) && (j <=? e)) with ((i <? j) && (j <=? e)) by lia. done.
  - intros t (r & -> & Hok' & Hr). rewrite Z.min_l in Hr by lia. by apply HQ.
Qed.

(** ** Echoing part of the line *)

(** The cursor after n more characters, starting inside the first 24 rows. *)
Definition adv (p n : Z) : Z :=
  if p + n <? 1920 then p + n else 1840 + (p + n - 1920) mod 80.

Lemma advance_adv p n : 0 <= p < 1920 -> 0 <= n -> advance (adv p n) = adv p (n + 1).
Proof.
  unfold advance, adv. intros Hp Hn.
  destruct (Z.ltb_spec (p + n) 1920), (Z.ltb_spec (p + (n + 1)) 1920);
    destruct (_ >=? _) eqn:E; b2p; zdm.
Qed.

Lemma adv_0 p : 0 <= p < 1920 -> adv p 0 = p.
Proof. unfold adv. intros H. destruct (Z.ltb_spec (p + 0) 1920); lia. Qed.

Lemma adv_range p n : 0 <= p -> 0 <= n -> 0 <= adv p n < 1920.
Proof. unfold adv. intros. destruct (Z.ltb_spec (p + n) 1920); zdm. Qed.

(** What follows printing: the screen is some other one with the same control
    state and a known cursor. *)
Lemma wp_echo_buf rnd lo hi s (Q : unit -> console -> Prop) :
  (rnd = urounds \/ rnd = srounds) ->
  0 <= lo <= hi -> hi < 2147483648 ->
  panicked (scr s) = false -> 0 <= cursor (scr s) < 1920 ->
  (forall i, lo <= i < hi -> is_char (rg (ibuf (inp s)) i) /\ rg (ibuf (inp s)) i <> 10) ->
  (forall s', same_ctl (scr s) s' -> cursor s' = adv (cursor (scr s)) (hi - lo) ->
     Q tt (set_scr s' s)) ->
  wp (echo_buf rnd lo hi) s Q.
Proof.
  intros Hrnd Hlo Hhi Hp Hc Hch HQ. unfold echo_buf.
  replace (rnd lo hi) with (Z.to_nat (hi - lo))
    by (destruct Hrnd as [-> | ->]; unfold urounds, srounds; wrap_simp; done).
  rewrite i32_small by lia.
  apply (wp_for_up (fun i t => exists s', t = set_scr s' s /\ same_ctl (scr s) s' /\
    cursor s' = adv (cursor (scr s)) (i - lo))).
  - exists (scr s). split_and!; [by destruct s|apply same_ctl_refl|].
    rewrite Z.sub_diag. symmetry. by apply adv_0.
  - intros i t Hi (s' & -> & Hctl & Hcur). apply wp_bind, wp_buf_geti; [lia|]. cbn.
    destruct (Hch i Hi) as [Hic H10].
    assert (0 <= cursor s' < 1920) by (rewrite Hcur; apply adv_range; lia).
    apply wp_zoom. cbn. apply wp_consputc_char.
    + destruct Hctl as (_&->&_). done.
    + done.
    + unfold is_char, BACKSPACE in *. lia.
    + lia.
    + intros s2 Hctl2 _ Hcur2 _. exists s2. split_and!; [done|by eapply same_ctl_trans|].
      rewrite Hcur2, Hcur, advance_adv by lia. f_equal. lia.
  - intros t (s' & -> & Hctl & Hcur). rewrite Z.max_r in Hcur by lia. by apply HQ.
Qed.

(** ** The invariant of the editor *)

Record edit_inv (s : console) : Prop := {
  inv_ring : ring_ok (ibuf (inp s));
  inv_order : 0 <= ir (inp s) <= iw (inp s) /\ iw (inp s) <= ic (inp s) <= ie (inp s);
  inv_len : ie (inp s) - iw (inp s) <= 128;
  inv_line : forall i, iw (inp s) <= i < ie (inp s) -> rg (ibuf (inp s)) i <> 10;
  inv_undo : length (undo_buf s) = 128%nat /\ 0 <= undo_n s <= 128;
  inv_clip : length (clip_buf s) = 128%nat /\ 0 <= clip_n s <= 128;
  inv_clip_chars : forall i, is_char (aget 0 (clip_buf s) i) /\ aget 0 (clip_buf s) i <> 10;
  inv_sel : has_selection (inp s) = true ->
    Z.min (sel_start (inp s)) (sel_end (inp s)) <= ic (inp s)
      <= Z.max (sel_start (inp s)) (sel_end (inp s));
  inv_live : panicked (scr s) = false;
  inv_cursor : ic (inp s) - iw (inp s) <= cursor (scr s) /\
    cursor (scr s) + (ie (inp s) - ic (inp s)) < 1920
}.

(** The line being edited and the cursor's place in it. *)
Definition line (s : console) : list Z :=
  map (rg (ibuf (inp s))) (seqZ (iw (inp s)) (ie (inp s) - iw (inp s))).
Definition col (s : console) : Z := ic (inp s) - iw (inp s).

(** What an edit of the line leaves alone; the unread input too, as long as
    the ring holds it together with the line. *)
Definition keeps (s s' : console) : Prop :=
  ir (inp s') = ir (inp s) /\ iw (inp s') = iw (inp s) /\
  clip_buf s' = clip_buf s /\ clip_n s' = clip_n s /\ wakeups s' = wakeups s /\
  same_ctl (scr s) (scr s') /\
  (ie (inp s) <= ir (inp s) + 128 -> forall i, ir (inp s) <= i < iw (inp s) ->
     rg (ibuf (inp s')) i = rg (ibuf (inp s)) i).

(** The window of ring indices an edit works in. *)
Definition base (p : input_t) : Z := if ie p <=? ir p + 128 then ir p else iw p.

Lemma base_range s : edit_inv s ->
  0 <= base (inp s) <= iw (inp s) /\ ie (inp s) <= base (inp s) + 128 /\
  (ie (inp s) <= ir (inp s) + 128 -> base (inp s) = ir (inp s)).
Proof.
  intros I. unfold base. pose proof (inv_order s I). pose proof (inv_len s I).
  destruct (Z.leb_spec (ie (inp s)) (ir (inp s) + 128)); lia.
Qed.

Lemma length_line s : edit_inv s -> Z.of_nat (length (line s)) = ie (inp s) - iw (inp s).
Proof.
  intros I. unfold line. rewrite length_map, length_seqZ. pose proof (inv_order s I). lia.
Qed.

Lemma nth_line s k :
  0 <= k < ie (inp s) - iw (inp s) -> nth (Z.to_nat k) (line s) 0 = rg (ibuf (inp s)) (iw (inp s) + k).
Proof.
  intros Hk. unfold line. rewrite (nth_indep _ 0 (rg (ibuf (inp s)) 0))
    by (rewrite length_map, length_seqZ; lia).
  rewrite map_nth. f_equal. apply nth_lookup_Some with (d := 0).
  rewrite lookup_seqZ. lia.
Qed.

(** Two lists of characters indexed from the line's start are equal when they
    have the same length and characters. *)
Lemma line_ext s (l : list Z) :
  edit_inv s -> Z.of_nat (length l) = ie (inp s) - iw (inp s) ->
  (forall k, 0 <= k < ie (inp s) - iw (inp s) -> rg (ibuf (inp s)) (iw (inp s) + k) = nth (Z.to_nat k) l 0) ->
  line s = l.
Proof.
  intros I Hl H. apply nth_ext with 0 0.
  - apply Nat2Z.inj. by rewrite length_line.
  - intros n Hn. apply inj_lt in Hn. rewrite length_line in Hn by done.
    specialize (H (Z.of_nat n) ltac:(lia)). rewrite Nat2Z.id in H. rewrite <- H.
    rewrite <- (Nat2Z.id n) at 1. apply nth_line. lia.
Qed.

(** The editing operations on a line. *)
Definition ins (l : list Z) (k : nat) (ch : Z) : list Z := take k l ++ ch :: drop k l.
Definition del (l : list Z) (k n : nat) : list Z := take k l ++ drop (k + n) l.

Lemma length_ins l k ch : length (ins l k ch) = S (length l).
Proof. unfold ins. rewrite length_app, length_take. cbn. rewrite length_drop. lia. Qed.

Lemma length_del l k n : (k + n <= length l)%nat -> length (del l k n) = (length l - n)%nat.
Proof. intros H. unfold del. rewrite length_app, length_take, length_drop. lia. Qed.

Lemma nth_ins l k ch i :
  (k <= length l)%nat ->
  nth i (ins l k ch) 0 =
  if decide (i < k)%nat then nth i l 0 else if decide (i = k) then ch else nth (i - 1) l 0.
Proof.
  intros Hk. unfold ins. rewrite !nth_lookup.
  repeat case_decide.
  - rewrite lookup_app_l by (rewrite length_take; lia). by rewrite lookup_take_lt.
  - subst. rewrite lookup_app_r by (rewrite length_take; lia).
    rewrite length_take, Nat.min_l, Nat.sub_diag by lia. done.
  - rewrite lookup_app_r by (rewrite length_take; lia). rewrite length_take, Nat.min_l by lia.
    rewrite lookup_cons_ne_0, lookup_drop by lia. do 2 f_equal. lia.
Qed.

Lemma nth_del l k n i :
  (k <= length l)%nat ->
  nth i (del l k n) 0 = if decide (i < k)%nat then nth i l 0 else nth (i + n) l 0.
Proof.
  intros Hk. unfold del. rewrite !nth_lookup. case_decide.
  - rewrite lookup_app_l by (rewrite length_take; lia). by rewrite lookup_take_lt.
  - rewrite lookup_app_r by (rewrite length_take; lia). rewrite length_take, Nat.min_l by lia.
    rewrite lookup_drop. do 2 f_equal. lia.
Qed.

(** Deleting what was just inserted gives the line back. *)
Lemma del_ins l k ch : (k <= length l)%nat -> del (ins l k ch) k 1 = l.
Proof.
  intros Hk. apply nth_ext with 0 0.
  - rewrite length_del, length_ins; rewrite ?length_ins; lia.
  - intros i _. rewrite nth_del by (rewrite length_ins; lia).
    case_decide; rewrite nth_ins by done; repeat case_decide; (done || lia || (f_equal; lia)).
Qed.

(** undo.buf and undo.n after recording an operation. *)
Definition undo_after (s : console) (t : optype) (ch pos : Z) : list op * Z :=
  if undo_n s <? UNDO_BUF
  then (aset (undo_buf s) (undo_n s) (mkOp t (i8 ch) pos), undo_n s + 1)
  else (undo_buf s, undo_n s).

Lemma wp_undo_push t ch pos s (Q : unit -> console -> Prop) :
  0 <= undo_n s <= 128 -> 0 <= pos < 2147483648 ->
  Q tt (set_undo (undo_after s t ch pos).1 (undo_after s t ch pos).2 s) -> wp (undo_push t ch pos) s Q.
Proof.
  intros Hn Hp HQ. unfold undo_push, undo_after in *.
  apply wp_bind, wp_gets, wp_when; intros Hc; rewrite Hc in HQ.
  - apply wp_modify. cbn in HQ. wrap_simp. exact HQ.
  - cbn in HQ. destruct s. exact HQ.
Qed.

Lemma undo_after_ok s t ch pos :
  length (undo_buf s) = 128%nat /\ 0 <= undo_n s <= 128 ->
  length (undo_after s t ch pos).1 = 128%nat /\ 0 <= (undo_after s t ch pos).2 <= 128.
Proof.
  unfold undo_after, UNDO_BUF. intros [Hl Hn].
  destruct (Z.ltb_spec (undo_n s) 128); cbn; [rewrite length_aset|]; lia.
Qed.

Lemma wp_insert_char rnd ch s (Q : unit -> console -> Prop) :
  (rnd = urounds \/ rnd = srounds) -> edit_inv s -> has_selection (inp s) = false ->
  ie (inp s) < ir (inp s) + 128 -> ie (inp s) < 2147483646 -> i8 ch <> 10 ->
  (forall s', edit_inv s' -> keeps s s' -> ie (inp s') = ie (inp s) + 1 ->
     line s' = ins (line s) (Z.to_nat (col s)) (i8 ch) -> col s' = col s + 1 ->
     (undo_buf s', undo_n s') = undo_after s OP_INSERT ch (ic (inp s)) ->
     sel_start (inp s') = sel_start (inp s) -> sel_end (inp s') = sel_end (inp s) -> Q tt s') ->
  wp (insert_char rnd ch) s Q.
Proof.
  intros Hrnd I Hsel Hroom Hmax H10 HQ.
  destruct (inv_order s I) as [Hr Hw]. destruct (inv_cursor s I) as [Hc1 Hc2].
  pose proof (inv_live s I) as Hlive. pose proof (inv_line s I) as Hline.
  unfold insert_char. apply wp_bind, wp_gets. cbn [id].
  apply wp_bind, wp_undo_push; [apply (inv_undo s I)|lia|].
  set (u := undo_after s OP_INSERT ch (ic (inp s))) in *.
  apply wp_bind.
  replace (rnd (ic (inp s)) (ie (inp s))) with (Z.to_nat (ie (inp s) - ic (inp s)))
    by (destruct Hrnd as [-> | ->]; unfold urounds, srounds; wrap_simp; done).
  rewrite i32_small by lia.
  apply (wp_shift_right (ir (inp s))); [exact (inv_ring s I)|lia|lia|lia|lia|]. cbn [inp set_undo].
  intros r1 Hok1 Hr1.
  apply wp_bind, wp_buf_set; [lia|]. cbn [inp set_inp with_ring ibuf with_buf].
  set (r2 := aset r1 (ic (inp s) mod 128) (i8 ch)).
  assert (Hok2 : ring_ok r2) by (apply ring_ok_aset; [done|apply i8_char]).
  assert (Hr2 : forall j, ir (inp s) <= j < ir (inp s) + 128 -> rg r2 j =
    if j =? ic (inp s) then i8 ch
    else if (ic (inp s) <? j) && (j <=? ie (inp s)) then rg (ibuf (inp s)) (j - 1)
    else rg (ibuf (inp s)) j).
  { intros j Hj. unfold r2. rewrite (rg_aset_win (ir (inp s))) by (apply Hok1 || lia).
    rewrite Z.eqb_sym. destruct (j =? ic (inp s)); [done|]. by apply Hr1. }
  apply wp_bind, wp_modify, wp_bind, wp_modify, wp_bind, wp_gets. cbn. wrap_simp.
  apply wp_bind, wp_echo_buf; cbn; [done|lia|lia|done|lia| |].
  { intros i Hi. split; [apply Hok2|]. rewrite Hr2 by lia.
    destruct (Z.eqb_spec i (ic (inp s))); [done|].
    replace ((ic (inp s) <? i) && (i <=? ie (inp s))) with true by lia. apply Hline. lia. }
  intros sc Hctl Hcur. apply wp_bind, wp_zoom, wp_get_cursor. cbn.
  rewrite Hcur. apply wp_zoom, wp_set_cursor. cbn.
  set (p := cursor (scr s)) in *.
  assert (Hadv : 0 <= adv p (ie (inp s) + 1 - (ic (inp s) + 1 - 1)) < 1920) by (apply adv_range; lia).
  set (f := adv p _) in *.
  assert (Hf : f = p + (ie (inp s) + 1 - ic (inp s)) \/ 1840 <= f).
  { unfold f, adv. destruct (Z.ltb_spec (p + (ie (inp s) + 1 - (ic (inp s) + 1 - 1))) 1920); zdm. }
  wrap_simp. match goal with |- context [set_cursor ?q _] => set (q0 := q) end.
  assert (Hq : q0 = f - (ie (inp s) - ic (inp s))) by (unfold q0; lia).
  assert (Hcq : cursor (set_cursor q0 (set_index 15 sc)) = q0)
    by (apply cursor_set_cursor_small; lia).
  assert (I' : edit_inv (set_scr (set_cursor q0 (set_index 15 sc))
    (set_inp (mkInput r2 (ir (inp s)) (iw (inp s)) (ie (inp s) + 1) (ic (inp s) + 1)
       (selecting (inp s)) (sel_start (inp s)) (sel_end (inp s))) (set_undo u.1 u.2 s)))).
  { constructor; cbn -[cursor set_cursor]; try rewrite Hcq; try lia; try apply I; try done.
    - intros i Hi. rewrite Hr2 by lia. destruct (Z.eqb_spec i (ic (inp s))); [done|].
      destruct (_ && _) eqn:E; b2p; apply Hline; lia.
    - apply undo_after_ok, I.
    - unfold has_selection in *. cbn. rewrite Hsel. done.
    - rewrite <- Hlive. apply Hctl. }
  apply HQ; [exact I'| | | | | | |]; try done.
  - repeat split; try apply Hctl. intros Hle i Hi. cbn. rewrite Hr2 by lia.
    destruct (Z.eqb_spec i (ic (inp s))); [lia|].
    replace ((ic (inp s) <? i) && (i <=? ie (inp s))) with false by lia. done.
  - pose proof (length_line s I) as Hll. unfold col.
    apply line_ext; [exact I'|rewrite length_ins; cbn; lia|]. cbn. intros k Hk.
    rewrite Hr2 by lia. rewrite nth_ins by lia.
    destruct (Z.eqb_spec (iw (inp s) + k) (ic (inp s))).
    + repeat case_decide; (done || lia).
    + destruct (_ && _) eqn:E; b2p; repeat case_decide; try lia.
      * replace (Z.to_nat k - 1)%nat with (Z.to_nat (k - 1)) by lia. rewrite nth_line by lia. f_equal; lia.
      * rewrite nth_line by lia. done.
  - unfold col. cbn. lia.
  - cbn. by destruct u.
Qed.

(** ** Selection *)

(** Only the screen's text, the selection and undo's bookkeeping may differ:
    the line, the cursor and the committed input are those of s, and nothing
    is selected. *)
Definition quiet (s s' : console) : Prop :=
  exists sc p',
    s' = set_scr sc (set_inp p' s) /\ same_ctl (scr s) sc /\ cursor sc = cursor (scr s) /\
    has_selection p' = false /\
    ibuf p' = ibuf (inp s) /\ ir p' = ir (inp s) /\ iw p' = iw (inp s) /\
    ie p' = ie (inp s) /\ ic p' = ic (inp s).

Lemma quiet_inv s s' : quiet s s' -> edit_inv s -> edit_inv s'.
Proof.
  intros (sc & p' & -> & Hctl & Hcur & Hsel & Hb & Hr & Hw & He & Hc) I.
  constructor; cbn; rewrite ?Hb, ?Hr, ?Hw, ?He, ?Hc, ?Hcur, ?Hsel; try apply I; try done.
  rewrite <- (inv_live s I). apply Hctl.
Qed.

Lemma quiet_line s s' : quiet s s' -> line s' = line s /\ col s' = col s.
Proof.
  intros (sc & p' & -> & _ & _ & _ & Hb & _ & Hw & He & Hc).
  unfold line, col. cbn. by rewrite Hb, Hw, He, Hc.
Qed.

Lemma quiet_keeps s s' : quiet s s' -> keeps s s'.
Proof.
  intros (sc & p' & -> & Hctl & _ & _ & Hb & Hr & Hw & _).
  unfold keeps. cbn. rewrite Hb. split_and!; done || apply Hctl.
Qed.

Lemma quiet_no_sel s s' : quiet s s' -> has_selection (inp s') = false.
Proof. intros (sc & p' & -> & _ & _ & Hs & _). exact Hs. Qed.

Lemma quiet_fields s s' : quiet s s' ->
  ir (inp s') = ir (inp s) /\ iw (inp s') = iw (inp s) /\ ie (inp s') = ie (inp s) /\
  ic (inp s') = ic (inp s) /\ undo_buf s' = undo_buf s /\ undo_n s' = undo_n s /\
  clip_buf s' = clip_buf s /\ clip_n s' = clip_n s /\ ibuf (inp s') = ibuf (inp s).
Proof. intros (sc & p' & -> & _ & _ & _ & Hb & Hr & Hw & He & Hc). cbn. split_and!; done. Qed.

Lemma wp_update_highlight a b on s (Q : unit -> console -> Prop) :
  (forall sc, same_ctl (scr s) sc -> cursor sc = cursor (scr s) -> Q tt (set_scr sc s)) ->
  wp (update_highlight a b on) s Q.
Proof.
  intros HQ.
  assert (Hid : Q tt s).
  { specialize (HQ (scr s) (same_ctl_refl _) eq_refl). by destruct s. }
  unfold update_highlight. apply wp_if; intros _; [by apply wp_ret|].
  apply wp_bind, wp_gets. cbn zeta. apply wp_if; intros _; [by apply wp_ret|].
  apply wp_bind, wp_zoom, wp_get_cursor.
  match goal with |- wp (for_up ?x ?y _) _ _ =>
    apply (wp_for_up (fun _ t => exists sc, t = set_scr sc s /\ same_ctl (scr s) sc /\
      cursor sc = cursor (scr s))) end.
  - exists (set_index 15 (scr s)). done.
  - intros i t _ (sc & -> & Hctl & Hcur). apply wp_when; intros _; [|by exists sc].
    apply wp_zoom, wp_bind, wp_gets, wp_modify. cbn. eexists. split_and!; [done| |exact Hcur].
    exact Hctl.
  - intros t (sc & -> & Hctl & Hcur). by apply HQ.
Qed.

Lemma wp_clear_selection s (Q : unit -> console -> Prop) :
  (forall s', quiet s s' -> sel_start (inp s') = -1 -> Q tt s') -> wp clear_selection s Q.
Proof.
  intros HQ. unfold clear_selection. apply wp_bind, wp_gets. cbn [id].
  apply wp_bind, wp_when; intros Hc.
  - apply wp_bind, wp_update_highlight. intros sc Hctl Hcur.
    apply wp_modify, wp_modify, HQ; [|done].
    exists sc. eexists. split; [reflexivity|]. split_and!; done.
  - b2p. apply wp_modify, HQ; [|done]. exists (scr s). eexists. split; [reflexivity|].
    split_and!; try done. unfold has_selection. cbn. rewrite Hc. done.
Qed.

Lemma wp_deselect s (Q : unit -> console -> Prop) :
  (forall s', quiet s s' -> Q tt s') -> wp deselect_if_any s Q.
Proof.
  intros HQ. unfold deselect_if_any. apply wp_bind, wp_gets, wp_when; intros Hc.
  - apply wp_clear_selection. intros s' Hq _. by apply HQ.
  - apply HQ. exists (scr s), (inp s). split; [by destruct s|].
    split_and!; try done.
Qed.

(** n blanks printed where they do not scroll the screen. *)
Lemma wp_blanks n s (Q : unit -> console -> Prop) :
  0 <= n -> panicked (scr s) = false -> 0 <= cursor (scr s) -> cursor (scr s) + n < 1920 ->
  (forall sc, same_ctl (scr s) sc -> cursor sc = cursor (scr s) + n -> Q tt (set_scr sc s)) ->
  wp (for_up 0 n (fun _ => on_scr (consputc 32))) s Q.
Proof.
  intros Hn Hp Hc Hfit HQ.
  apply (wp_for_up (fun i t => exists sc, t = set_scr sc s /\ same_ctl (scr s) sc /\
    cursor sc = cursor (scr s) + i)).
  - exists (scr s). split_and!; [by destruct s|done|lia].
  - intros i t Hi (sc & -> & Hctl & Hcur). apply wp_zoom, wp_consputc_char; cbn; try lia; try done.
    + rewrite <- Hp. apply Hctl.
    + intros sc' Hctl' _ Hcur' _. exists sc'. split_and!; [done|by eapply same_ctl_trans|].
      rewrite Hcur'. unfold advance. rewrite Hcur. destruct (_ >=? _) eqn:?; b2p; lia.
  - intros t (sc & -> & Hctl & Hcur). rewrite Z.max_r in Hcur by lia. by apply HQ.
Qed.

Lemma adv_fits p n : p + n < 1920 -> adv p n = p + n.
Proof. unfold adv. intros H. by apply Z.ltb_lt in H as ->. Qed.

(** The state of the line after characters [a, a + n) (from the line's start)
    were taken out and the cursor put at a. *)
Definition deleted (s s' : console) (a n : Z) : Prop :=
  edit_inv s' /\ keeps s s' /\ ie (inp s') = ie (inp s) - n /\
  line s' = del (line s) (Z.to_nat a) (Z.to_nat n) /\ col s' = a /\
  has_selection (inp s') = false.

(** Taking [n] characters at ring index [x] out of the ring, putting the input
    cursor at [x] and the screen cursor at the place that corresponds. *)
Lemma deleted_intro s r sc sl sa sb ub un x a n :
  a = x - iw (inp s) ->
  edit_inv s -> iw (inp s) <= x -> 0 <= n -> x + n <= ie (inp s) ->
  ring_ok r ->
  (forall j, base (inp s) <= j < base (inp s) + 128 ->
     rg r j = if (x <=? j) && (j <? ie (inp s) - n) then rg (ibuf (inp s)) (j + n)
              else rg (ibuf (inp s)) j) ->
  (sa = -1 \/ sb = -1) ->
  length ub = 128%nat /\ 0 <= un <= 128 ->
  same_ctl (scr s) sc ->
  cursor sc = cursor (scr s) - (ic (inp s) - iw (inp s)) + (x - iw (inp s)) ->
  deleted s
    (set_scr sc (set_inp (mkInput r (ir (inp s)) (iw (inp s)) (ie (inp s) - n) x sl sa sb)
       (set_undo ub un s)))
    a n.
Proof.
  intros -> I Hx Hn Hxn Hok Hr Hs Hu Hctl Hcur.
  destruct (base_range s I) as (Hb1 & Hb2 & Hb3). pose proof (inv_order s I) as Ho.
  pose proof (inv_cursor s I) as Hcp. pose proof (inv_len s I) as Hlen.
  assert (Hline : forall i, iw (inp s) <= i < ie (inp s) - n -> rg r i <> 10).
  { intros i Hi. rewrite Hr by lia. destruct (_ && _) eqn:E; b2p; apply (inv_line s I); lia. }
  assert (Hsel : has_selection (mkInput r (ir (inp s)) (iw (inp s)) (ie (inp s) - n) x sl sa sb) = false).
  { unfold has_selection. cbn. destruct Hs as [-> | ->]; [done|]. apply andb_false_r. }
  match goal with |- deleted _ ?t _ _ => assert (I' : edit_inv t) end.
  { constructor; cbn -[has_selection]; rewrite ?Hsel, ?Hcur; try lia; try done; try apply I.
    rewrite <- (inv_live s I). apply Hctl. }
  split_and!; [done| |done| |done|done].
  - unfold keeps. cbn. split_and!; try done; try apply Hctl.
    intros Hle i Hi. rewrite Hr by lia. replace ((x <=? i) && (i <? ie (inp s) - n)) with false by lia. done.
  - pose proof (length_line s I) as Hll.
    apply line_ext; [exact I'|rewrite length_del by lia; cbn; lia|].
    cbn. intros k Hk. rewrite Hr by lia. rewrite nth_del by lia.
    destruct (_ && _) eqn:E; b2p; case_decide; try lia.
    + rewrite <- Z2Nat.inj_add, nth_line by lia. f_equal; lia.
    + rewrite nth_line by lia. done.
Qed.

Lemma deleted_quiet s s1 s2 a n : deleted s s1 a n -> quiet s1 s2 -> deleted s s2 a n.
Proof.
  intros (I1 & K1 & He & Hl & Hc & _) Hq. destruct (quiet_line _ _ Hq) as [Hl2 Hc2].
  destruct (quiet_keeps _ _ Hq) as (Kr & Kw & Kb & Kn & Kk & Kc & _).
  destruct K1 as (Jr & Jw & Jb & Jn & Jk & Jc & Jp).
  destruct (quiet_fields _ _ Hq) as (_ & _ & Fe & _ & _ & _ & _ & _ & Fb).
  split_and!; [by eapply quiet_inv| | | | |by eapply quiet_no_sel]; try congruence.
  unfold keeps. rewrite Fb. split_and!; try congruence; [by eapply same_ctl_trans|exact Jp].
Qed.

(** The part of the line a selection covers. *)
Definition sel_lo (s : console) : Z :=
  Z.max (Z.min (sel_start (inp s)) (sel_end (inp s))) (iw (inp s)) - iw (inp s).
Definition sel_hi (s : console) : Z :=
  Z.min (Z.max (sel_start (inp s)) (sel_end (inp s))) (ie (inp s)) - iw (inp s).

Lemma sel_bounds s : edit_inv s -> has_selection (inp s) = true ->
  0 <= sel_lo s <= col s /\ col s <= sel_hi s <= ie (inp s) - iw (inp s).
Proof.
  intros I Hs. pose proof (inv_sel s I Hs). pose proof (inv_order s I).
  unfold sel_lo, sel_hi, col. lia.
Qed.

Lemma wp_undo_deletes s0 len s (Q : option unit -> console -> Prop) :
  0 <= s0 -> s0 + len < 2147483648 ->
  length (undo_buf s) = 128%nat /\ 0 <= undo_n s <= 128 ->
  (forall o ub un, length ub = 128%nat /\ 0 <= un <= 128 -> Q o (set_undo ub un s)) ->
  wp (search (Z.to_nat len) 0 (fun k =>
        let! n := gets undo_n in
        if n <? UNDO_BUF
        then let! ch := buf_geti (s0 + k) in undo_push OP_DELETE ch (s0 + k) ;;; ret None
        else ret (Some tt))) s Q.
Proof.
  intros Hs Hlen Hu HQ.
  apply (wp_search (fun _ t => exists ub un, t = set_undo ub un s /\ length ub = 128%nat /\ 0 <= un <= 128)).
  - exists (undo_buf s), (undo_n s). split_and!; [by destruct s|lia..].
  - intros k t Hk (ub & un & -> & Hub). apply wp_bind, wp_gets, wp_if; intros _.
    + apply wp_bind, wp_buf_geti; [lia|]. apply wp_bind, wp_undo_push; [cbn; lia|lia|].
      apply wp_ret. do 2 eexists. split; [reflexivity|]. by apply undo_after_ok.
    + apply wp_ret, HQ. exact Hub.
  - intros t (ub & un & -> & Hub). by apply HQ.
Qed.

Lemma wp_delete_selection s (Q : unit -> console -> Prop) :
  edit_inv s -> has_selection (inp s) = true -> ie (inp s) < 2147483646 ->
  (forall s', deleted s s' (sel_lo s) (sel_hi s - sel_lo s) -> sel_start (inp s') = -1 -> Q tt s') ->
  wp delete_selection s Q.
Proof.
  intros I Hs Hmax HQ. pose proof (sel_bounds s I Hs) as Hb. pose proof (inv_order s I) as Ho.
  pose proof (inv_cursor s I) as Hcp. destruct (base_range s I) as (Hb1 & Hb2 & Hb3).
  unfold delete_selection. apply wp_bind, wp_gets. cbn [id].
  replace ((sel_start (inp s) =? -1) || (sel_end (inp s) =? -1)) with false
    by (unfold has_selection in Hs; lia).
  rewrite !i32_small by lia. cbn zeta.
  replace (if _ <? iw (inp s) then _ else _) with (iw (inp s) + sel_lo s)
    by (unfold sel_lo; destruct (_ <? iw (inp s)) eqn:?; lia).
  replace (if _ >? ie (inp s) then _ else _) with (iw (inp s) + sel_hi s)
    by (unfold sel_hi; destruct (_ >? ie (inp s)) eqn:?; lia).
  set (a := sel_lo s) in *. set (b := sel_hi s) in *. set (w := iw (inp s)) in *.
  apply wp_if; intros Hab; b2p.
  - apply wp_clear_selection. intros s' Hq Hs'. apply HQ; [|done].
    destruct (quiet_line _ _ Hq) as [Hl Hc]. destruct (quiet_fields _ _ Hq) as (_&_&He&_).
    split_and!; [by eapply quiet_inv|by apply quiet_keeps|lia| |lia|by eapply quiet_no_sel].
    rewrite Hl. unfold del. replace (Z.to_nat (b - a)) with 0%nat by lia.
    rewrite Nat.add_0_r. by rewrite take_drop.
  - replace (w + b - (w + a)) with (b - a) by lia.
    apply wp_bind, wp_undo_deletes; [lia|lia|apply I|]. intros _ ub un Hu.
    apply wp_bind, wp_zoom, wp_get_cursor. cbn.
    rewrite (proj2 (Z.ltb_ge (cursor (scr s) - (ic (inp s) - w)) 0)) by lia.
    replace (cursor (scr s) - (ic (inp s) - w) >=? 25 * 80) with false by lia. cbn iota.
    set (pw := cursor (scr s) - (ic (inp s) - w)) in *.
    apply wp_bind, (wp_shift_left (base (inp s))); cbn; [apply I|lia..|]. intros r Hok Hr.
    apply wp_bind, wp_modify, wp_bind, wp_modify, wp_bind, wp_zoom, wp_set_cursor. cbn.
    apply wp_bind, wp_gets, wp_bind, wp_gets. cbn. fold w. wrap_simp.
    assert (Hpw : cursor (set_cursor pw (set_index 15 (scr s))) = pw) by (apply cursor_set_cursor_small; lia).
    apply wp_bind, wp_echo_buf; cbn -[cursor set_cursor]; rewrite ?Hpw; [by left|lia|lia|apply I|lia| |].
    { intros i Hi. split; [apply Hok|]. rewrite Hr by lia.
      destruct (_ && _) eqn:E; b2p; apply (inv_line s I); lia. }
    intros sc1 Hctl1 Hcur1. rewrite adv_fits in Hcur1 by lia.
    apply wp_bind, wp_blanks; cbn; rewrite ?Hcur1; [lia| |lia|lia|].
    { rewrite <- (inv_live s I). apply Hctl1. }
    intros sc2 Hctl2 Hcur2. apply wp_bind, wp_gets. cbn. wrap_simp.
    apply wp_bind, wp_zoom, wp_set_cursor. cbn. apply wp_clear_selection.
    intros s' (sc3 & p3 & -> & Hctl3 & Hcur3 & Hsel3 & F1 & F2 & F3 & F4 & F5) Hs'.
    apply HQ; [|done]. cbn in *.
    destruct p3 as [pb pr pw' pe pc sl sa sb]. cbn in *. subst.
    apply (deleted_intro s r sc3 sl (-1) sb ub un (w + a) a (b - a)); try done; try lia.
    + intros j Hj. rewrite Hr by lia. by replace (w + b - (b - a)) with (w + a) by lia.
    + eapply same_ctl_trans; [exact Hctl1|]. eapply same_ctl_trans; [exact Hctl2|exact Hctl3].
    + rewrite Hcur3, cursor_set_cursor_small by lia. done.
Qed.

(** ** The keys *)

Definition undo_of (s : console) : list op * Z := (undo_buf s, undo_n s).

Lemma wp_key_backspace s (Q : unit -> console -> Prop) :
  edit_inv s -> has_selection (inp s) = false -> ie (inp s) < 2147483646 ->
  (0 < col s -> forall s', deleted s s' (col s - 1) 1 -> Q tt s') ->
  (col s = 0 -> Q tt s) ->
  wp key_backspace s Q.
Proof.
  intros I Hs Hmax HQ HQ0. unfold col in *. pose proof (inv_order s I) as Ho.
  pose proof (inv_cursor s I) as Hcp. destruct (base_range s I) as (Hb1 & Hb2 & Hb3).
  unfold key_backspace. apply wp_bind, wp_gets. cbn [id]. rewrite Hs. cbn iota.
  apply wp_when; intros Hc; b2p; [|apply HQ0; lia].
  apply wp_bind, wp_buf_get; [lia|]. apply wp_bind, wp_undo_push; [apply I|lia|].
  match goal with |- context [undo_after s ?t ?c ?p] => set (u := undo_after s t c p) end.
  apply wp_bind, wp_zoom, wp_get_cursor. cbn. wrap_simp.
  set (pw := cursor (scr s) - (ic (inp s) - iw (inp s))) in *.
  apply wp_bind, (wp_shift_left (base (inp s))); cbn; [apply I|lia..|]. intros r Hok Hr.
  apply wp_bind, wp_modify, wp_bind, wp_modify, wp_bind, wp_zoom, wp_set_cursor. cbn.
  apply wp_bind, wp_gets. cbn. wrap_simp.
  assert (Hpw : cursor (set_cursor pw (set_index 15 (scr s))) = pw) by (apply cursor_set_cursor_small; lia).
  apply wp_bind, wp_echo_buf; cbn -[cursor set_cursor]; rewrite ?Hpw; [by right|lia|lia|apply I|lia| |].
  { intros i Hi. split; [apply Hok|]. rewrite Hr by lia.
    destruct (_ && _) eqn:E; b2p; apply (inv_line s I); lia. }
  intros sc1 Hctl1 Hcur1. rewrite adv_fits in Hcur1 by lia.
  assert (Hp1 : panicked sc1 = false) by (rewrite <- (inv_live s I); apply Hctl1).
  apply wp_bind, wp_zoom, wp_consputc_char; cbn; [done|done|done|lia|].
  intros sc2 Hctl2 _ Hcur2 _. apply wp_zoom, wp_set_cursor. cbn. wrap_simp.
  apply HQ; [lia|].
  eapply (deleted_intro s r _ (selecting (inp s)) (sel_start (inp s)) (sel_end (inp s)) u.1 u.2
    (ic (inp s) - 1) (ic (inp s) - iw (inp s) - 1) 1); try done; try lia.
  - unfold has_selection in Hs. lia.
  - apply undo_after_ok, I.
  - by eapply same_ctl_trans.
  - rewrite cursor_set_cursor_small by lia. lia.
Qed.

(** One erased character: the cursor steps back. *)
Lemma wp_consputc_back s (Q : unit -> screen -> Prop) :
  panicked s = false -> 0 < cursor s < 1920 ->
  (forall s', same_ctl s s' -> cursor s' = cursor s - 1 -> Q tt s') ->
  wp (consputc BACKSPACE) s Q.
Proof.
  intros Hp Hc HQ. unfold consputc. apply wp_bind, wp_gets. rewrite Hp. cbn iota.
  change (BACKSPACE =? BACKSPACE) with true. cbn iota.
  apply wp_bind, wp_bind, wp_uartputc, wp_bind, wp_uartputc, wp_uartputc.
  unfold cgaputc. change (BACKSPACE =? 10) with false. change (BACKSPACE =? BACKSPACE) with true. cbn iota.
  apply wp_bind, wp_get_cursor. change (cursor (set_uart_out _ _)) with (cursor s).
  apply wp_bind, wp_ret. apply wp_bind. replace (cursor s >? 0) with true by lia.
  destruct ((cursor s - 1 <? 0) || (cursor s - 1 >? 25 * 80)) eqn:Hr; [lia|].
  apply wp_ret, wp_bind. replace (Z.quot (cursor s - 1) 80 >=? 24) with false
    by (rewrite Z.quot_div_nonneg by lia; zdm).
  apply wp_ret, wp_bind, wp_set_cursor, wp_modify. apply HQ; [done|].
  transitivity (cursor (set_cursor (cursor s - 1) s)); [done|].
  apply cursor_set_cursor_small. lia.
Qed.

Lemma wp_erase_line s (Q : unit -> console -> Prop) :
  panicked (scr s) = false ->
  0 <= iw (inp s) <= ie (inp s) -> ie (inp s) < 2147483646 -> ic (inp s) = ie (inp s) ->
  ie (inp s) - iw (inp s) <= cursor (scr s) < 1920 ->
  (forall sc, same_ctl (scr s) sc -> cursor sc = cursor (scr s) - (ie (inp s) - iw (inp s)) ->
     Q tt (set_scr sc (set_inp (with_c (iw (inp s)) (with_e (iw (inp s)) (inp s))) s))) ->
  wp erase_line s Q.
Proof.
  intros Hp Hw Hmax Hce Hcur HQ. unfold erase_line. apply wp_bind, wp_gets, wp_bind, wp_gets.
  wrap_simp.
  eapply wp_mono; [apply (wp_rounds (fun k t => exists sc, 0 <= k <= ie (inp s) - iw (inp s) /\
    same_ctl (scr s) sc /\ cursor sc = cursor (scr s) - k /\
    t = set_scr sc (set_inp (with_c (ie (inp s) - k) (with_e (ie (inp s) - k) (inp s))) s)))|].
  - exists (scr s). split_and!; try lia; [done|]. rewrite !Z.sub_0_r. destruct s as [? [] ? ? ? ? ? ?].
    cbn in *. by subst.
  - intros k t Hk (sc & Hk2 & Hctl & Hc & ->). rewrite Z.add_0_l, Z.mul_1_r in *.
    apply wp_bind, wp_gets, wp_bind, wp_modify, wp_bind, wp_gets, wp_bind, wp_modify. cbn.
    apply wp_zoom, wp_consputc_back; cbn; [|lia|].
    { rewrite <- Hp. apply Hctl. }
    intros sc' Hctl' Hc'. exists sc'. split_and!; try lia; [by eapply same_ctl_trans|].
    wrap_simp. by replace (ie (inp s) - (0 + (k + 1) * 1)) with (ie (inp s) - k - 1) by lia.
  - intros [] t (sc & _ & Hctl & Hc & ->).
    replace (0 + Z.of_nat (Z.to_nat (ie (inp s) - iw (inp s))) * 1)
      with (ie (inp s) - iw (inp s)) in * by lia.
    replace (ie (inp s) - (ie (inp s) - iw (inp s))) with (iw (inp s)) by lia. by apply HQ.
Qed.

(** The line is gone and undo forgotten. *)
Definition killed_line (s s' : console) : Prop :=
  edit_inv s' /\ keeps s s' /\ ie (inp s') = iw (inp s) /\ line s' = [] /\ col s' = 0 /\ undo_n s' = 0.

Lemma wp_key_kill_line s (Q : unit -> console -> Prop) :
  edit_inv s -> ie (inp s) < 2147483646 ->
  (forall s', killed_line s s' -> Q tt s') -> wp key_kill_line s Q.
Proof.
  intros I Hmax HQ. unfold key_kill_line. apply wp_bind, wp_deselect. intros s1 Hq.
  pose proof (quiet_inv _ _ Hq I) as I1. pose proof (quiet_no_sel _ _ Hq) as Hs1.
  destruct (quiet_fields _ _ Hq) as (Fr & Fw & Fe & Fc & _).
  pose proof (quiet_keeps _ _ Hq) as (K1 & K2 & K3 & K4 & K5 & K6 & K7).
  pose proof (inv_order _ I1) as Ho. pose proof (inv_cursor _ I1) as Hcp.
  apply wp_bind, wp_gets. cbn [id].
  assert (Hfin : forall sc, same_ctl (scr s1) sc -> 0 <= cursor sc < 1920 ->
    Q tt (set_undo (undo_buf s1) 0 (set_scr sc
      (set_inp (with_c (iw (inp s1)) (with_e (iw (inp s1)) (inp s1))) s1)))).
  { intros sc Hctl Hcur. apply HQ. unfold killed_line, keeps, line, col. cbn.
    rewrite !Z.sub_diag. split_and!; try done; try lia; [|by eapply same_ctl_trans].
    constructor; cbn -[has_selection]; try lia; try apply I1; try done.
    - split; [apply I1|lia].
    - intros Hsel. unfold has_selection in *. cbn in *. rewrite Hs1 in Hsel. done.
    - rewrite <- (inv_live _ I1). apply Hctl. }
  apply wp_bind, wp_when; intros Hc; b2p.
  - apply wp_bind, wp_zoom, wp_get_cursor. cbn. wrap_simp.
    apply wp_bind, wp_zoom, wp_set_cursor, wp_bind, wp_modify. cbn.
    set (q := cursor (scr s1) + (ie (inp s1) - ic (inp s1))) in *.
    assert (Hq' : cursor (set_cursor q (set_index 15 (scr s1))) = q) by (apply cursor_set_cursor_small; lia).
    apply wp_bind, wp_erase_line; cbn -[cursor set_cursor]; rewrite ?Hq'; wrap_simp; try lia; try apply I1.
    intros sc Hctl Hcur. repeat (wp_step; cbn beta).
    apply (Hfin sc Hctl). lia.
  - repeat (cbn beta; wp_step). cbn. rewrite u32_small by lia.
    specialize (Hfin (scr s1) (same_ctl_refl _) ltac:(lia)). rewrite <- Hc in *.
    destruct s1 as [? [] ? ? ? ? ? ?]. exact Hfin.
Qed.
