(* ===== verification/ConsoleKeys.v ===== *)
(** What each key does to the line, and that no sequence of keys (completion
    aside) makes the console run out of bounds or panic. *)

From stdpp Require Import base gmap list strings numbers.
From Stdlib Require Import ZArith Lia.
From S2P Require Import Prelude Kstring Screen Console ConsoleInv.

Open Scope Z_scope.
Open Scope kern_scope.

Ltac wp_go := repeat (cbn beta; wp_step).

(** The cursor moved to place k of an unchanged line. *)
Definition moved (s s' : console) (k : Z) : Prop :=
  edit_inv s' /\ keeps s s' /\ ie (inp s') = ie (inp s) /\ line s' = line s /\ col s' = k /\
  has_selection (inp s') = false /\ undo_of s' = undo_of s.

Lemma quiet_moved s s' : edit_inv s -> quiet s s' -> moved s s' (col s).
Proof.
  intros I Hq. destruct (quiet_line _ _ Hq). destruct (quiet_fields _ _ Hq) as (_&_&?&_&?&?&_).
  split_and!; [by eapply quiet_inv|by apply quiet_keeps|done|done|done|by eapply quiet_no_sel|].
  unfold undo_of. congruence.
Qed.

Lemma keeps_quiet_l s s1 s2 : quiet s s1 -> keeps s1 s2 -> keeps s s2.
Proof.
  intros Hq (Jr & Jw & Jb & Jn & Jk & Jc & Jp).
  destruct (quiet_keeps _ _ Hq) as (Kr & Kw & Kb & Kn & Kk & Kc & _).
  destruct (quiet_fields _ _ Hq) as (_ & _ & Fe & _ & _ & _ & _ & _ & Fb).
  rewrite Fb, Fe, Kr, Kw in Jp. unfold keeps. split_and!; try congruence; [by eapply same_ctl_trans|exact Jp].
Qed.

Lemma keeps_refl s : keeps s s.
Proof. unfold keeps. split_and!; done. Qed.

Lemma moved_quiet_l s s1 s2 k : quiet s s1 -> moved s1 s2 k -> moved s s2 k.
Proof.
  intros Hq (I & K & He & Hl & Hc & Hs & Hu). destruct (quiet_line _ _ Hq) as [Hl1 _].
  destruct (quiet_fields _ _ Hq) as (_&_&?&_&?&?&_).
  split_and!; [done|by eapply keeps_quiet_l|congruence|congruence|done|done|].
  rewrite Hu. unfold undo_of. congruence.
Qed.

Lemma deleted_quiet_l s s1 s2 a n : quiet s s1 -> deleted s1 s2 a n -> deleted s s2 a n.
Proof.
  intros Hq (I & K & He & Hl & Hc & Hs). destruct (quiet_line _ _ Hq) as [Hl1 _].
  destruct (quiet_fields _ _ Hq) as (_&_&?&_).
  split_and!; [done|by eapply keeps_quiet_l|congruence|congruence|done|done].
Qed.

(** Moving the input cursor to ring index x and the screen cursor with it. *)
Lemma moved_intro s sc x :
  edit_inv s -> has_selection (inp s) = false -> iw (inp s) <= x <= ie (inp s) ->
  same_ctl (scr s) sc -> cursor sc = cursor (scr s) + (x - ic (inp s)) ->
  moved s (set_scr sc (set_inp (with_c x (inp s)) s)) (x - iw (inp s)).
Proof.
  intros I Hs Hx Hctl Hcur. pose proof (inv_order s I). pose proof (inv_cursor s I).
  split_and!; try done. constructor; cbn -[has_selection]; rewrite ?Hcur; try lia; try apply I.
  - change (has_selection (with_c x (inp s))) with (has_selection (inp s)). by rewrite Hs.
  - rewrite <- (inv_live s I). apply Hctl.
Qed.

Lemma wp_key_left s (Q : unit -> console -> Prop) :
  edit_inv s -> ie (inp s) < 2147483646 ->
  (forall s', moved s s' (Z.max 0 (col s - 1)) -> Q tt s') -> wp key_left s Q.
Proof.
  intros I Hmax HQ. unfold key_left. apply wp_bind, wp_deselect. intros s1 Hq.
  pose proof (quiet_inv _ _ Hq I) as I1. pose proof (quiet_no_sel _ _ Hq) as Hs1.
  destruct (quiet_line _ _ Hq) as [_ Hc1]. destruct (quiet_fields _ _ Hq) as (_&_&Fe&_).
  pose proof (inv_order _ I1) as Ho. pose proof (inv_cursor _ I1) as Hcp. unfold col in *.
  apply wp_bind, wp_gets, wp_when; cbn [id]; intros Hc; b2p.
  - apply wp_bind, wp_modify, wp_bind, wp_zoom, wp_get_cursor, wp_zoom, wp_set_cursor.
    cbn -[cursor set_cursor]. wrap_simp.
    apply HQ. eapply moved_quiet_l; [done|]. replace (Z.max 0 _) with (ic (inp s1) - 1 - iw (inp s1)) by lia.
    apply (moved_intro s1 (set_cursor (cursor (scr s1) - 1) (set_index 15 (scr s1)))); try done; try lia.
    rewrite cursor_set_cursor_small; lia.
  - apply HQ. replace (Z.max 0 _) with (col s) by (unfold col; lia). by apply quiet_moved.
Qed.

Lemma wp_key_right s (Q : unit -> console -> Prop) :
  edit_inv s -> ie (inp s) < 2147483646 ->
  (forall s', moved s s' (Z.min (Z.of_nat (length (line s))) (col s + 1)) -> Q tt s') -> wp key_right s Q.
Proof.
  intros I Hmax HQ. rewrite length_line in HQ by done.
  unfold key_right. apply wp_bind, wp_deselect. intros s1 Hq.
  pose proof (quiet_inv _ _ Hq I) as I1. pose proof (quiet_no_sel _ _ Hq) as Hs1.
  destruct (quiet_line _ _ Hq) as [_ Hc1]. destruct (quiet_fields _ _ Hq) as (_&Fw&Fe&_).
  pose proof (inv_order _ I1) as Ho. pose proof (inv_cursor _ I1) as Hcp. unfold col in *.
  apply wp_bind, wp_gets, wp_when; cbn [id]; intros Hc; b2p.
  - apply wp_bind, wp_modify, wp_bind, wp_zoom, wp_get_cursor, wp_zoom, wp_set_cursor.
    cbn -[cursor set_cursor]. wrap_simp.
    apply HQ. eapply moved_quiet_l; [done|]. replace (Z.min _ _) with (ic (inp s1) + 1 - iw (inp s1)) by lia.
    apply (moved_intro s1 (set_cursor (cursor (scr s1) + 1) (set_index 15 (scr s1)))); try done; try lia.
    rewrite cursor_set_cursor_small; lia.
  - apply HQ. replace (Z.min _ _) with (col s) by (unfold col; lia). by apply quiet_moved.
Qed.

(** ** Moving by words *)

(** The place [bwd p k n] is the first of k, k - 1, ..., k - n at which p fails, or k - n. *)
Fixpoint bwd (p : Z -> bool) (k : Z) (n : nat) : Z :=
  match n with
  | O => k
  | S n' => if p k then bwd p (k - 1) n' else k
  end.

Lemma bwd_range p n : forall k, k - Z.of_nat n <= bwd p k n <= k.
Proof. induction n as [|n IH]; intros k; cbn; [lia|]. destruct (p k); [specialize (IH (k - 1))|]; lia. Qed.

Lemma bwd_stop p n : forall k, bwd p k n = k - Z.of_nat n \/ p (bwd p k n) = false.
Proof.
  induction n as [|n IH]; intros k; cbn; [left; lia|]. destruct (p k) eqn:E; [|by right].
  destruct (IH (k - 1)); [left; lia|by right].
Qed.

Lemma bwd_shift p q d n : forall k,
  (forall i, k - Z.of_nat n < i <= k -> p (i + d) = q i) -> bwd p (k + d) n = bwd q k n + d.
Proof.
  induction n as [|n IH]; intros k H; cbn; [done|]. rewrite H by lia.
  destruct (q k); [|done]. replace (k + d - 1) with ((k - 1) + d) by lia. apply IH. intros; apply H; lia.
Qed.

Lemma wp_walk_left (P : Z -> M console bool) (f : Z -> bool) w s fuel :
  forall t (Q : Z -> console -> Prop),
  (forall i, w < i <= t -> P i s = Ok (f i) s) -> w <= t -> Z.to_nat (t - w) = fuel ->
  Q (bwd f t fuel) s -> wp (walk_left fuel P w t) s Q.
Proof.
  induction fuel as [|fuel IH]; intros t Q HP Ht Hf HQ; cbn [walk_left bwd] in *; [exact HQ|].
  apply wp_if; intros Hc; b2p; [|lia].
  apply wp_bind. unfold wp at 1. rewrite HP by lia. destruct (f t); [|exact HQ].
  apply IH; [intros; apply HP; lia|lia|lia|exact HQ].
Qed.

Lemma ws_at_ok s i : 0 <= i < 2147483648 -> ws_at i s = Ok (is_whitespace (rg (ibuf (inp s)) i)) s.
Proof.
  intros Hi. unfold ws_at, bind, buf_geti. unfold bind. rewrite int_ok_true by done. cbn.
  unfold buf_get, inp_get, gets. rewrite u32_small by lia. done.
Qed.

Lemma nonws_at_ok s i :
  0 <= i < 2147483648 -> nonws_at i s = Ok (negb (is_whitespace (rg (ibuf (inp s)) i))) s.
Proof. intros Hi. unfold nonws_at, bind. rewrite ws_at_ok by done. done. Qed.

(** Where ^A moves to from place k: back over blanks, then to the start of
    the word. *)
Definition prev_word (l : list Z) (k : Z) : Z :=
  let ws i := is_whitespace (nth (Z.to_nat i) l 0) in
  if k >? 0 then
    let t := bwd ws (k - 1) (Z.to_nat (k - 1)) in
    bwd (fun i => negb (ws (i - 1))) t (Z.to_nat t)
  else 0.

Lemma prev_word_range l k : 0 <= k -> 0 <= prev_word l k <= k /\ (0 < k -> prev_word l k < k).
Proof.
  intros Hk. unfold prev_word. destruct (Z.gtb_spec k 0); [|lia].
  set (t := bwd _ (k - 1) _).
  pose proof (bwd_range (fun i => is_whitespace (nth (Z.to_nat i) l 0)) (Z.to_nat (k - 1)) (k - 1)) as H1.
  fold t in H1.
  pose proof (bwd_range (fun i => negb (is_whitespace (nth (Z.to_nat (i - 1)) l 0))) (Z.to_nat t) t). lia.
Qed.

(** The same walk on ring indices. *)
Lemma prev_word_ring s (t := bwd (fun i => is_whitespace (rg (ibuf (inp s)) i)) (ic (inp s) - 1)
                               (Z.to_nat (ic (inp s) - 1 - iw (inp s)))) :
  edit_inv s -> 0 < col s ->
  iw (inp s) <= t <= ic (inp s) - 1 /\
  bwd (fun i => negb (is_whitespace (rg (ibuf (inp s)) (i - 1)))) t (Z.to_nat (t - iw (inp s))) =
  prev_word (line s) (col s) + iw (inp s).
Proof.
  intros I Hc. pose proof (inv_order s I).
  pose proof (bwd_range (fun i => is_whitespace (rg (ibuf (inp s)) i))
            (Z.to_nat (ic (inp s) - 1 - iw (inp s))) (ic (inp s) - 1)) as Ht.
  fold t in Ht. unfold col in Hc. split; [lia|].
  assert (Ht2 : bwd (fun i => is_whitespace (nth (Z.to_nat i) (line s) 0)) (col s - 1)
                 (Z.to_nat (col s - 1)) + iw (inp s) = t).
  { rewrite <- bwd_shift with (p := fun i => is_whitespace (rg (ibuf (inp s)) i)).
    - subst t. unfold col. f_equal; lia.
    - intros i Hi. unfold col in Hi. rewrite nth_line by lia. do 2 f_equal. lia. }
  unfold prev_word. replace (col s >? 0) with true by (unfold col; lia).
  set (t' := bwd _ (col s - 1) _) in *.
  rewrite <- bwd_shift with (p := fun i => negb (is_whitespace (rg (ibuf (inp s)) (i - 1)))).
  - f_equal; lia.
  - intros i Hi. rewrite nth_line by lia. do 3 f_equal. lia.
Qed.

Lemma wp_key_word_left s (Q : unit -> console -> Prop) :
  edit_inv s -> ie (inp s) < 2147483646 ->
  (forall s', moved s s' (prev_word (line s) (col s)) -> Q tt s') ->
  wp key_word_left s Q.
Proof.
  intros I Hmax HQ. unfold key_word_left. apply wp_bind, wp_deselect. intros s1 Hq.
  pose proof (quiet_inv _ _ Hq I) as I1. pose proof (quiet_no_sel _ _ Hq) as Hs1.
  destruct (quiet_line _ _ Hq) as [Hl1 Hc1]. destruct (quiet_fields _ _ Hq) as (_&_&Fe&_).
  pose proof (inv_order _ I1) as Ho. pose proof (inv_cursor _ I1) as Hcp.
  pose proof (prev_word_range (line s1) (col s1) ltac:(unfold col; lia)) as Hrange.
  apply wp_bind, wp_gets, wp_when; cbn [id]; intros Hc; b2p.
  - destruct (prev_word_ring s1 I1 ltac:(unfold col; lia)) as [Ht Hx].
    apply wp_bind, (wp_walk_left _ (fun i => is_whitespace (rg (ibuf (inp s1)) i)));
      [intros; apply ws_at_ok; lia|lia|done|].
    apply wp_bind, (wp_walk_left _ (fun i => negb (is_whitespace (rg (ibuf (inp s1)) (i - 1)))));
      [intros; apply nonws_at_ok; lia|lia|done|].
    rewrite Hx. set (x := _ + iw (inp s1)). 
    apply wp_bind, wp_modify, wp_bind, wp_zoom, wp_get_cursor, wp_zoom, wp_set_cursor.
    cbn -[cursor set_cursor]. unfold col in Hrange. assert (iw (inp s1) <= x < ic (inp s1)) by (unfold x, col; lia).
    wrap_simp. apply HQ. eapply moved_quiet_l; [done|]. rewrite <- Hl1, <- Hc1.
    replace (prev_word _ _) with (x - iw (inp s1)) by (unfold x; lia).
    apply (moved_intro s1 (set_cursor (cursor (scr s1) - (ic (inp s1) - x)) (set_index 15 (scr s1))));
      try done; try lia. rewrite cursor_set_cursor_small; lia.
  - apply HQ. assert (H0 : col s1 = 0) by (unfold col; lia).
    replace (prev_word _ _) with (col s); [by apply quiet_moved|].
    rewrite <- Hc1, H0. done.
Qed.

(** ** Undo *)

Lemma edit_inv_undo s ub un :
  edit_inv s -> length ub = 128%nat -> 0 <= un <= 128 -> edit_inv (set_undo ub un s).
Proof. intros I Hl Hn. destruct I. by constructor. Qed.

(** The newest entry of the undo stack. *)
Definition last_op (s : console) : op := aget (mkOp OP_INSERT 0 0) (undo_buf s) (undo_n s - 1).

(** An entry that ^Z acts on: an insertion at a place inside the line. *)
Definition undoable (s : console) : bool :=
  match op_type (last_op s) with
  | OP_INSERT => negb ((op_pos (last_op s) <? iw (inp s)) || (op_pos (last_op s) >=? ie (inp s)))
  | OP_DELETE => false
  end.

Lemma wp_undo_insert s pos (Q : unit -> console -> Prop) :
  edit_inv s -> has_selection (inp s) = false -> ie (inp s) < 2147483646 ->
  iw (inp s) <= pos < ie (inp s) ->
  (forall s', deleted s s' (pos - iw (inp s)) 1 -> undo_of s' = undo_of s -> Q tt s') ->
  wp (rounds (urounds (pos + 1) (ie (inp s))) 1 (i32 (pos + 1)) (fun i =>
        let! x := buf_geti i in buf_seti (i - 1) x) ;;;
      set_e (ie (inp s) - 1) ;;;
      let! cursor_before := on_scr cga_get_cursor_pos in
      let delta := i32 (ic (inp s) - pos) in
      on_scr (cga_set_cursor_pos (cursor_before - delta)) ;;;
      let! e := inp_get ie in
      echo_buf urounds pos e ;;;
      on_scr (consputc 32) ;;;
      let! cp := on_scr cga_get_cursor_pos in
      on_scr (cga_set_cursor_pos (i32 (cp - (e - pos + 1)))) ;;;
      set_c pos) s Q.
Proof.
  intros I Hs Hmax Hpos HQ. pose proof (inv_order s I) as Ho.
  pose proof (inv_cursor s I) as Hcp. destruct (base_range s I) as (Hb1 & Hb2 & Hb3).
  replace (rounds _ _ _ _) with (for_up (pos + 1) (ie (inp s)) (fun i => let! x := buf_geti i in buf_seti (i - 1) x))
    by (unfold for_up, urounds; wrap_simp; done).
  apply wp_bind, (wp_shift_left (base (inp s))); [apply I|lia..|]. intros r Hok Hr.
  apply wp_bind, wp_modify, wp_bind, wp_zoom, wp_get_cursor. cbn -[cursor set_cursor]. wrap_simp.
  apply wp_bind, wp_zoom, wp_set_cursor. cbn -[cursor set_cursor]. apply wp_bind, wp_gets. cbn -[cursor set_cursor].
  set (pw := cursor (scr s) - (ic (inp s) - pos)) in *.
  assert (Hpw : cursor (set_cursor pw (set_index 15 (scr s))) = pw) by (apply cursor_set_cursor_small; lia).
  apply wp_bind, wp_echo_buf; cbn -[cursor set_cursor]; rewrite ?Hpw; [by left|lia|lia|apply I|lia| |].
  { intros i Hi. split; [apply Hok|]. rewrite Hr by lia.
    destruct (_ && _) eqn:E; b2p; apply (inv_line s I); lia. }
  intros sc1 Hctl1 Hcur1. rewrite adv_fits in Hcur1 by lia.
  assert (Hp1 : panicked sc1 = false) by (rewrite <- (inv_live s I); apply Hctl1).
  apply wp_bind, wp_zoom, wp_consputc_char; cbn -[cursor set_cursor]; [done|done|done|lia|].
  intros sc2 Hctl2 _ Hcur2 _.
  apply wp_bind, wp_zoom, wp_get_cursor. cbn -[cursor set_cursor].
  apply wp_bind, wp_zoom, wp_set_cursor. cbn -[cursor set_cursor]. apply wp_modify. cbn -[cursor set_cursor].
  rewrite (u32_small pos) by lia. apply HQ; [|done].
  assert (Ha : advance (cursor sc1) = cursor sc1 + 1) by (unfold advance; destruct (_ >=? _) eqn:?; lia).
  apply (deleted_intro s r
    (set_cursor (i32 (cursor sc2 - (ie (inp s) - 1 - pos + 1))) (set_index 15 sc2))
    (selecting (inp s)) (sel_start (inp s)) (sel_end (inp s)) (undo_buf s) (undo_n s) pos (pos - iw (inp s)) 1); try done; try lia; try apply I.
  - intros j Hj. rewrite Hr by lia. by replace (pos + 1 - 1) with pos by lia.
  - unfold has_selection in Hs. lia.
  - eapply same_ctl_trans; [|exact Hctl2]. done.
  - rewrite i32_small, cursor_set_cursor_small; lia.
Qed.

Lemma wp_key_undo s (Q : unit -> console -> Prop) :
  edit_inv s -> ie (inp s) < 2147483646 ->
  (undo_n s = 0 -> forall s', moved s s' (col s) -> Q tt s') ->
  (0 < undo_n s -> undoable s = false ->
     forall s', moved s s' (col s) -> edit_inv (set_undo (undo_buf s) (undo_n s - 1) s') ->
     Q tt (set_undo (undo_buf s) (undo_n s - 1) s')) ->
  (0 < undo_n s -> undoable s = true ->
     forall s', deleted s s' (op_pos (last_op s) - iw (inp s)) 1 ->
     undo_of s' = (undo_buf s, undo_n s - 1) -> Q tt s') ->
  wp key_undo s Q.
Proof.
  intros I Hmax HQ0 HQ1 HQ2. unfold key_undo. apply wp_bind, wp_deselect. intros s1 Hq.
  pose proof (quiet_inv _ _ Hq I) as I1. pose proof (quiet_no_sel _ _ Hq) as Hs1.
  destruct (quiet_fields _ _ Hq) as (_&Fw&Fe&Fc&Fu&Fn&_).
  destruct (inv_undo _ I) as [Hul Hun].
  apply wp_bind, wp_gets. rewrite Fn. apply wp_when; intros Hc; b2p; [|apply HQ0; [lia|by apply quiet_moved]].
  apply wp_bind, wp_modify, wp_bind, wp_gets, wp_bind, wp_require;
    [cbn; rewrite Fu; apply arr_ok_true; lia|].
  cbn [undo_buf set_undo]. rewrite Fu. fold (last_op s).
  assert (I2 : edit_inv (set_undo (undo_buf s) (undo_n s - 1) s1)) by (apply edit_inv_undo; [done|done|lia]).
  pose proof (quiet_moved _ _ I Hq) as Hm. unfold undoable in *.
  destruct (op_type (last_op s)).
  - apply wp_bind, wp_gets. cbn [id inp set_undo]. rewrite Fw, Fe.
    apply wp_if; intros Hr; [apply wp_ret, HQ1; [lia|by rewrite Hr|done|done]|].
    rewrite Hr in HQ2. b2p.
    replace (ie (inp s)) with (ie (inp (set_undo (undo_buf s) (undo_n s - 1) s1))) by done.
    replace (ic (inp s1)) with (ic (inp (set_undo (undo_buf s) (undo_n s - 1) s1))) by done.
    apply wp_undo_insert; cbn [inp set_undo]; try done; try lia.
    intros s' Hd Hu. apply HQ2; [lia|done| |done]. eapply deleted_quiet_l; [done|].
    rewrite <- Fw. done.
  - apply wp_ret, HQ1; [lia|done..].
Qed.

(** ** The next word, end of file *)

(** The place [fwd p k n] is the first of k, k + 1, ..., k + n at which p fails, or k + n. *)
Fixpoint fwd (p : Z -> bool) (k : Z) (n : nat) : Z :=
  match n with
  | O => k
  | S n' => if p k then fwd p (k + 1) n' else k
  end.

Lemma fwd_range p n : forall k, k <= fwd p k n <= k + Z.of_nat n.
Proof. induction n as [|n IH]; intros k; cbn; [lia|]. destruct (p k); [specialize (IH (k + 1))|]; lia. Qed.

Lemma wp_walk_right (P : Z -> M console bool) (f : Z -> bool) e s fuel :
  forall t (Q : Z -> console -> Prop),
  (forall i, t <= i < e -> P i s = Ok (f i) s) -> t <= e -> Z.to_nat (e - t) = fuel ->
  Q (fwd f t fuel) s -> wp (walk_right fuel P e t) s Q.
Proof.
  induction fuel as [|fuel IH]; intros t Q HP Ht Hf HQ; cbn [walk_right fwd] in *; [exact HQ|].
  apply wp_if; intros Hc; b2p; [|lia].
  apply wp_bind. unfold wp at 1. rewrite HP by lia. destruct (f t); [|exact HQ].
  apply IH; [intros; apply HP; lia|lia|lia|exact HQ].
Qed.

(** Where ^D moves to from place k: past the rest of the word and the blanks
    after it, or nowhere when no word follows. *)
Definition next_word (l : list Z) (k : Z) : Z :=
  let n := Z.of_nat (length l) in
  let ws i := is_whitespace (nth (Z.to_nat i) l 0) in
  let t := fwd (fun i => negb (ws i)) k (Z.to_nat (n - k)) in
  let t := fwd ws t (Z.to_nat (n - t)) in
  if t <? n then t else k.

Lemma fwd_shift p q d n : forall k,
  (forall i, k <= i < k + Z.of_nat n -> p (i + d) = q i) -> fwd p (k + d) n = fwd q k n + d.
Proof.
  induction n as [|n IH]; intros k H; cbn; [done|]. rewrite H by lia.
  destruct (q k); [|done]. replace (k + d + 1) with ((k + 1) + d) by lia. apply IH. intros; apply H; lia.
Qed.

(** Handing the line over: w moves past it and past the terminator c. *)
Definition committed (s s' : console) (c : Z) : Prop :=
  edit_inv s' /\ ir (inp s') = ir (inp s) /\ iw (inp s') = ie (inp s) + 1 /\
  ie (inp s') = ie (inp s) + 1 /\ ic (inp s') = ie (inp s) + 1 /\
  (ie (inp s) < ir (inp s) + 128 -> forall i, ir (inp s) <= i < ie (inp s) + 1 ->
     rg (ibuf (inp s')) i = if i =? ie (inp s) then c else rg (ibuf (inp s)) i) /\
  wakeups s' = S (wakeups s) /\ clip_buf s' = clip_buf s /\ clip_n s' = clip_n s /\
  same_ctl (scr s) (scr s').

Lemma committed_quiet_l s s1 s2 c : quiet s s1 -> committed s1 s2 c -> committed s s2 c.
Proof.
  intros Hq (I & Hr & Hw & He & Hc & Hb & Hk & Hcb & Hcn & Hctl).
  destruct (quiet_keeps _ _ Hq) as (Kr & Kw & Kb & Kn & Kk & Kc & _).
  destruct (quiet_fields _ _ Hq) as (_&_&Fe&_&_&_&_&_&Fb). rewrite Kr, Fe, Fb in Hb.
  unfold committed. rewrite Fe in *. split_and!; try congruence; [exact Hb|by eapply same_ctl_trans].
Qed.

Lemma committed_intro s sc c sl sa sb un :
  edit_inv s -> is_char c -> (sa = -1 \/ sb = -1) -> (un = undo_n s \/ un = 0) ->
  same_ctl (scr s) sc -> 0 <= cursor sc < 1920 ->
  committed s
    (add_wakeup (set_scr sc (set_undo (undo_buf s) un
      (set_inp (mkInput (aset (ibuf (inp s)) (ie (inp s) mod 128) c) (ir (inp s)) (ie (inp s) + 1)
                  (ie (inp s) + 1) (ie (inp s) + 1) sl sa sb) s)))) c.
Proof.
  intros I Hc Hs Hu Hctl Hcur. pose proof (inv_order s I) as Ho. pose proof (inv_undo s I).
  pose proof (inv_ring s I) as Hring.
  unfold committed; cbn -[cursor]. split_and!; try done.
  - constructor; cbn -[cursor]; try lia; try apply I; [by apply ring_ok_aset| |].
    + unfold has_selection. cbn. lia.
    + rewrite <- (inv_live s I). apply Hctl.
  - intros Hroom i Hi. rewrite (rg_aset_win (ir (inp s))) by (try apply Hring; lia).
    by rewrite Z.eqb_sym.
Qed.

Lemma next_word_range l k :
  0 <= k <= Z.of_nat (length l) -> k <= next_word l k <= Z.of_nat (length l).
Proof.
  intros Hk. unfold next_word. cbv zeta.
  pose proof (fwd_range (fun i => negb (is_whitespace (nth (Z.to_nat i) l 0)))
    (Z.to_nat (Z.of_nat (length l) - k)) k).
  set (t := fwd (fun i => negb _) _ _) in *.
  pose proof (fwd_range (fun i => is_whitespace (nth (Z.to_nat i) l 0)) (Z.to_nat (Z.of_nat (length l) - t)) t).
  destruct (_ <? _) eqn:E; b2p; lia.
Qed.

Lemma next_word_ring s (t1 := fwd (fun i => negb (is_whitespace (rg (ibuf (inp s)) i))) (ic (inp s))
                               (Z.to_nat (ie (inp s) - ic (inp s))))
    (t2 := fwd (fun i => is_whitespace (rg (ibuf (inp s)) i)) t1 (Z.to_nat (ie (inp s) - t1))) :
  edit_inv s ->
  ic (inp s) <= t1 <= ie (inp s) /\ ic (inp s) <= t2 <= ie (inp s) /\
  next_word (line s) (col s) = if t2 <? ie (inp s) then t2 - iw (inp s) else col s.
Proof.
  intros I. pose proof (inv_order s I). pose proof (length_line s I) as Hlen.
  pose proof (fwd_range (fun i => negb (is_whitespace (rg (ibuf (inp s)) i)))
    (Z.to_nat (ie (inp s) - ic (inp s))) (ic (inp s))) as H1. fold t1 in H1.
  pose proof (fwd_range (fun i => is_whitespace (rg (ibuf (inp s)) i)) (Z.to_nat (ie (inp s) - t1)) t1) as H2.
  fold t2 in H2. split_and!; try lia.
  unfold next_word. cbv zeta. rewrite Hlen. set (w := iw (inp s)) in *.
  assert (E1 : fwd (fun i => negb (is_whitespace (nth (Z.to_nat i) (line s) 0))) (col s)
                 (Z.to_nat (ie (inp s) - w - col s)) + w = t1).
  { unfold col. rewrite <- fwd_shift with (p := fun i => negb (is_whitespace (rg (ibuf (inp s)) i))).
    - subst t1 w. f_equal; lia.
    - intros i Hi. rewrite nth_line by (subst w; lia). do 3 f_equal. subst w. lia. }
  set (t1' := fwd _ (col s) _) in *.
  assert (E2 : fwd (fun i => is_whitespace (nth (Z.to_nat i) (line s) 0)) t1'
                 (Z.to_nat (ie (inp s) - w - t1')) + w = t2).
  { rewrite <- fwd_shift with (p := fun i => is_whitespace (rg (ibuf (inp s)) i)).
    - subst t2. rewrite E1. f_equal. lia.
    - intros i Hi. rewrite nth_line by (subst w; lia). do 2 f_equal. subst w. lia. }
  set (t2' := fwd _ t1' _) in *.
  destruct (Z.ltb_spec t2' (ie (inp s) - w)), (Z.ltb_spec t2 (ie (inp s))); lia.
Qed.

Lemma wp_key_eof_or_word_right s (Q : unit -> console -> Prop) :
  edit_inv s -> ie (inp s) < 2147483646 ->
  (line s = [] -> forall s', committed s s' 4 -> Q tt s') ->
  (line s <> [] -> forall s', moved s s' (next_word (line s) (col s)) -> Q tt s') ->
  wp key_eof_or_word_right s Q.
Proof.
  intros I Hmax HQ0 HQ1. unfold key_eof_or_word_right. apply wp_bind, wp_deselect. intros s1 Hq.
  pose proof (quiet_inv _ _ Hq I) as I1. pose proof (quiet_no_sel _ _ Hq) as Hs1.
  destruct (quiet_line _ _ Hq) as [Hl1 Hc1]. destruct (quiet_fields _ _ Hq) as (_&Fw&Fe&Fc&_).
  pose proof (inv_order _ I1) as Ho. pose proof (inv_cursor _ I1) as Hcp.
  pose proof (length_line s1 I1) as Hlen. rewrite Hl1 in Hlen.
  apply wp_bind, wp_gets, wp_if; cbn [id]; intros Hc; b2p.
  - apply wp_bind, wp_modify, wp_bind, wp_buf_set; [lia|]. apply wp_bind, wp_gets.
    apply wp_bind, wp_modify, wp_bind, wp_modify, wp_modify. cbn -[cursor].
    wrap_simp. change (i8 (Ctl 68)) with 4. apply HQ0; [apply length_zero_iff_nil; lia|].
    eapply committed_quiet_l; [done|].
    apply (committed_intro s1 (scr s1) 4 (selecting (inp s1)) (sel_start (inp s1)) (sel_end (inp s1)) (undo_n s1));
      [done|unfold is_char; lia|unfold has_selection in Hs1; lia|by left|apply same_ctl_refl|lia].
  - assert (Hne : line s <> []) by (intros E; rewrite E in Hlen; cbn in Hlen; lia).
    specialize (HQ1 Hne). destruct (next_word_ring s1 I1) as (Ht1 & Ht2 & Hn).
    rewrite Hl1, Hc1 in Hn.
    apply wp_when; intros Hce; b2p.
    + apply wp_bind, (wp_walk_right _ (fun i => negb (is_whitespace (rg (ibuf (inp s1)) i))));
        [intros; apply nonws_at_ok; lia|lia|done|].
      apply wp_bind, (wp_walk_right _ (fun i => is_whitespace (rg (ibuf (inp s1)) i)));
        [intros; apply ws_at_ok; lia|lia|done|].
      set (t1 := fwd _ (ic _) _) in *. set (t := fwd _ t1 _) in *. apply wp_when; intros Ht; rewrite Ht in Hn; b2p.
      * apply wp_bind, wp_zoom, wp_get_cursor. cbn -[cursor set_cursor].
        apply wp_bind, wp_zoom, wp_set_cursor. apply wp_modify. cbn -[cursor set_cursor]. wrap_simp.
        apply HQ1. rewrite Hn. eapply moved_quiet_l; [done|].
        apply (moved_intro s1 (set_cursor (cursor (scr s1) + (t - ic (inp s1))) (set_index 15 (scr s1))));
          try done; try lia. rewrite cursor_set_cursor_small; lia.
      * apply HQ1. rewrite Hn. by apply quiet_moved.
    + apply HQ1. assert (E : next_word (line s) (col s) = col s); [|rewrite E; by apply quiet_moved].
      rewrite Hn. destruct (_ <? _) eqn:E; [|done]. b2p. lia.
Qed.
