(* ===== verification/ConsoleEdit.v ===== *)
(** Selecting, copying, pasting and typing: what these keys do to the line,
    the clipboard and the pending input. *)

From stdpp Require Import base gmap list strings numbers.
From Stdlib Require Import ZArith Lia.
From S2P Require Import Prelude Kstring Screen Console ConsoleInv ConsoleKeys.

Open Scope Z_scope.
Open Scope kern_scope.

(** ** Selecting *)

(** The line is as it was; the selection is the given one. *)
Definition marked (s s' : console) (sl sa sb : Z) : Prop :=
  edit_inv s' /\ keeps s s' /\ ie (inp s') = ie (inp s) /\ line s' = line s /\ col s' = col s /\
  undo_of s' = undo_of s /\ selecting (inp s') = sl /\ sel_start (inp s') = sa /\ sel_end (inp s') = sb.

Lemma marked_intro s sc sl sa sb :
  edit_inv s -> same_ctl (scr s) sc -> cursor sc = cursor (scr s) ->
  (sa = -1 \/ sb = -1 \/ Z.min sa sb <= ic (inp s) <= Z.max sa sb) ->
  marked s (set_scr sc (set_inp (with_selecting sl (with_sel sa sb (inp s))) s)) sl sa sb.
Proof.
  intros I Hctl Hcur Hsel. unfold marked. split_and!; try done.
  constructor; cbn -[has_selection]; rewrite ?Hcur; try apply I.
  - unfold has_selection. cbn. lia.
  - rewrite <- (inv_live s I). apply Hctl.
Qed.

Lemma marked_quiet_l s s1 s2 sl sa sb : quiet s s1 -> marked s1 s2 sl sa sb -> marked s s2 sl sa sb.
Proof.
  intros Hq (I & K & He & Hl & Hc & Hu & H). destruct (quiet_line _ _ Hq) as [Hl1 Hc1].
  destruct (quiet_fields _ _ Hq) as (_&_&?&_&?&?&_).
  split_and!; [done|by eapply keeps_quiet_l|congruence|congruence|congruence| |apply H..].
  rewrite Hu. unfold undo_of. congruence.
Qed.

Lemma wp_key_select s (Q : unit -> console -> Prop) :
  edit_inv s -> ie (inp s) < 2147483646 ->
  (selecting (inp s) = 0 -> forall s', marked s s' 1 (ic (inp s)) (-1) -> Q tt s') ->
  (selecting (inp s) <> 0 -> forall s',
     (if sel_start (inp s) =? ic (inp s) then marked s s' 0 (-1) (-1)
      else marked s s' 0 (Z.min (sel_start (inp s)) (ic (inp s))) (Z.max (sel_start (inp s)) (ic (inp s)))) ->
     Q tt s') ->
  wp key_select s Q.
Proof.
  intros I Hmax HQ0 HQ1. pose proof (inv_order s I). unfold key_select.
  apply wp_bind, wp_gets, wp_if; cbn [id]; intros Hc; b2p; rewrite (i32_small (ic _)) by lia.
  - apply wp_bind, wp_clear_selection. intros s1 Hq Hs1. apply wp_bind, wp_modify, wp_modify, HQ0; [done|].
    destruct (quiet_fields _ _ Hq) as (_&_&_&<-&_).
    eapply marked_quiet_l; [done|]. pose proof (quiet_inv _ _ Hq I) as I1.
    apply (marked_intro s1 (scr s1)); [done|apply same_ctl_refl|done|tauto].
  - specialize (HQ1 Hc). apply wp_bind, wp_modify, wp_bind, wp_modify, wp_if; intros E; rewrite E in HQ1; b2p.
    + apply wp_modify, HQ1. apply (marked_intro s (scr s)); [done|apply same_ctl_refl|done|tauto].
    + apply wp_update_highlight. cbn -[cursor]. intros sc Hctl Hcur.
      apply HQ1. apply (marked_intro s sc); [done..|lia].
Qed.

(** ** Copying *)

Definition clip (s : console) : list Z := take (Z.to_nat (clip_n s)) (clip_buf s).

(** The selected characters. *)
Definition selection (s : console) : list Z :=
  take (Z.to_nat (sel_hi s - sel_lo s)) (drop (Z.to_nat (sel_lo s)) (line s)).

Lemma edit_inv_clip s b n :
  edit_inv s -> length b = 128%nat -> 0 <= n <= 128 ->
  (forall i, is_char (aget 0 b i) /\ aget 0 b i <> 10) -> edit_inv (set_clip b n s).
Proof. intros I Hl Hn Hc. destruct I. by constructor. Qed.

Lemma wp_key_copy s (Q : unit -> console -> Prop) :
  edit_inv s -> ie (inp s) < 2147483646 ->
  (has_selection (inp s) = true -> forall b n,
     clip (set_clip b n s) = selection s -> edit_inv (set_clip b n s) -> Q tt (set_clip b n s)) ->
  (has_selection (inp s) = false -> forall s', moved s s' (col s) ->
     edit_inv (set_clip (clip_buf s) 0 s') -> Q tt (set_clip (clip_buf s) 0 s')) ->
  wp key_copy s Q.
Proof.
  intros I Hmax HQ1 HQ0. pose proof (inv_order s I). pose proof (inv_len s I) as Hlen. unfold key_copy.
  destruct (inv_clip s I) as [Hcl Hcn].
  apply wp_bind, wp_gets, wp_if; cbn [id]; intros Hs.
  - specialize (HQ1 Hs). pose proof (sel_bounds s I Hs) as Hb.
    replace (if _ <? i32 (iw _) then _ else _) with (sel_lo s + iw (inp s))
      by (unfold sel_lo; rewrite (i32_small (iw _)) by lia; destruct (_ <? _) eqn:?; lia).
    replace (if _ >? i32 (ie _) then _ else _) with (sel_hi s + iw (inp s))
      by (unfold sel_hi; rewrite (i32_small (ie _)) by lia; destruct (_ >? _) eqn:?; lia).
    replace (Z.min _ _) with (sel_hi s - sel_lo s) by (unfold CLIPBOARD_BUF, col in *; lia).
    unfold col in Hb. set (lo := sel_lo s) in *. set (n := sel_hi s - lo) in *.
    apply wp_bind, (wp_for_up (fun i t => exists b, t = set_clip b (clip_n s) s /\ length b = 128%nat /\
      forall j, aget 0 b j = if (0 <=? j) && (j <? i) then rg (ibuf (inp s)) (lo + iw (inp s) + j)
                             else aget 0 (clip_buf s) j)).
    + exists (clip_buf s). split_and!; [by destruct s|done|].
      intros j. destruct (_ && _) eqn:E; [|done]. b2p. lia.
    + intros i t Hi (b & -> & Hbl & Hb'). apply wp_bind, wp_buf_geti; [lia|]. apply wp_modify. cbn.
      exists (aset b i (rg (ibuf (inp s)) (lo + iw (inp s) + i))). split_and!; [done|by rewrite length_aset|].
      intros j. rewrite aget_aset by lia. rewrite Hb'.
      destruct (Z.eqb_spec i j) as [<-|]; [by replace ((0 <=? i) && (i <? i + 1)) with true by lia|].
      replace ((0 <=? j) && (j <? i + 1)) with ((0 <=? j) && (j <? i)) by lia. done.
    + intros t (b & -> & Hbl & Hb'). apply wp_modify. rewrite (u32_small n) by lia. apply (HQ1 b n).
      * unfold clip, selection. cbn. fold lo n. pose proof (length_line s I).
        apply nth_ext with 0 0; [rewrite !length_take, length_drop; lia|].
        intros k Hk. rewrite length_take in Hk.
        rewrite !nth_lookup, !lookup_take_lt, lookup_drop, <- !nth_lookup by lia.
        pose proof (Hb' (Z.of_nat k)) as E. unfold aget in E at 1.
        replace (Z.of_nat k <? 0) with false in E by lia. rewrite Nat2Z.id in E. rewrite E.
        replace (_ && _) with true by lia.
        replace (Z.to_nat lo + k)%nat with (Z.to_nat (lo + Z.of_nat k)) by lia.
        rewrite nth_line by lia. f_equal. lia.
      * apply edit_inv_clip; [done|done|lia|]. intros j. rewrite Hb'.
        destruct (_ && _) eqn:E; [|apply (inv_clip_chars s I)]. b2p.
        split; [apply (inv_ring s I)|apply (inv_line s I); lia].
  - apply wp_bind, wp_clear_selection. intros s1 Hq _. apply wp_modify.
    destruct (quiet_fields _ _ Hq) as (_&_&_&_&_&_&->&_).
    apply HQ0; [done|by apply quiet_moved|]. apply edit_inv_clip; [by eapply quiet_inv|done|lia|apply I].
Qed.

(** ** Pasting *)

(** The characters l went in at the cursor, which is now after them. *)
Definition inserted (s s' : console) (l : list Z) : Prop :=
  edit_inv s' /\ keeps s s' /\ ie (inp s') = ie (inp s) + Z.of_nat (length l) /\
  line s' = take (Z.to_nat (col s)) (line s) ++ l ++ drop (Z.to_nat (col s)) (line s) /\
  col s' = col s + Z.of_nat (length l) /\ has_selection (inp s') = false.

Lemma inserted_nil s : edit_inv s -> has_selection (inp s) = false -> inserted s s [].
Proof.
  intros I Hs. unfold inserted. cbn. split_and!; try done; [lia|by rewrite take_drop|lia].
Qed.

Lemma keeps_trans s s1 s2 :
  keeps s s1 -> keeps s1 s2 -> ie (inp s1) <= ie (inp s) \/ ie (inp s1) <= ir (inp s) + 128 -> keeps s s2.
Proof.
  intros (Jr & Jw & Jb & Jn & Jk & Jc & Jp) (Kr & Kw & Kb & Kn & Kk & Kc & Kp) He.
  unfold keeps. split_and!; try congruence; [by eapply same_ctl_trans|].
  intros Hroom i Hi. rewrite Kp, Jp by lia. done.
Qed.

Lemma inserted_snoc s s1 s2 l ch :
  inserted s s1 l -> ie (inp s1) <= ir (inp s) + 128 ->
  edit_inv s2 -> keeps s1 s2 -> ie (inp s2) = ie (inp s1) + 1 ->
  line s2 = ins (line s1) (Z.to_nat (col s1)) ch -> col s2 = col s1 + 1 ->
  has_selection (inp s2) = false -> 0 <= col s -> (Z.to_nat (col s) <= length (line s))%nat ->
  inserted s s2 (l ++ [ch]).
Proof.
  intros (I1 & K1 & He1 & Hl1 & Hc1 & Hs1) Hroom I2 K2 He2 Hl2 Hc2 Hs2 Hc0 Hcl.
  unfold inserted. rewrite length_app. cbn [length].
  split_and!; try done; try lia; [eapply keeps_trans; eauto|].
  rewrite Hl2, Hl1, Hc1. unfold ins.
  replace (Z.to_nat (col s + Z.of_nat (length l))) with (length (take (Z.to_nat (col s)) (line s)) + length l)%nat
    by (rewrite length_take; lia).
  rewrite take_app_add, drop_app_add, take_app_length, drop_app_length, <- !app_assoc. done.
Qed.

(** Inserting the clipboard: as many of its characters as there is room for. *)
Lemma wp_paste_loop s (Q : unit -> console -> Prop) :
  edit_inv s -> has_selection (inp s) = false -> ie (inp s) + 128 < 2147483646 ->
  (forall s', inserted s s' (take (Z.to_nat (ir (inp s) + 128 - ie (inp s))) (clip s)) -> Q tt s') ->
  wp (for_up 0 (clip_n s) (fun i =>
       let! clip := gets clip_buf in
       require (arr_ok clip i) "clipboard.buf index" ;;;
       let ch := aget 0 clip i in
       let! e := inp_get ie in
       let! r := inp_get ir in
       when (e <? u32 (r + INPUT_BUF)) (insert_char urounds ch))) s Q.
Proof.
  intros I Hs Hmax HQ. destruct (inv_clip s I) as [Hcl Hcn]. pose proof (inv_order s I) as Ho.
  pose proof (length_line s I) as Hlen.
  set (room := Z.to_nat (ir (inp s) + 128 - ie (inp s))) in *.
  apply (wp_for_up (fun i t => inserted s t (take room (take (Z.to_nat i) (clip_buf s))))).
  - replace (take _ _) with (@nil Z); [by apply inserted_nil|]. by destruct room.
  - intros i t Hi Ht. pose proof Ht as (I1 & K1 & He1 & Hl1 & Hc1 & Hs1).
    destruct K1 as (Kr & Kw & Kb & Kn & K1').
    rewrite take_take, length_take in He1.
    apply wp_bind, wp_gets. rewrite Kb. apply wp_bind, wp_require; [apply arr_ok_true; lia|].
    apply wp_bind, wp_gets, wp_bind, wp_gets. rewrite u32_small by (unfold INPUT_BUF; lia).
    destruct (inv_clip_chars s I i) as [Hchar H10].
    assert (Hsnoc : take (Z.to_nat (i + 1)) (clip_buf s) = take (Z.to_nat i) (clip_buf s) ++ [aget 0 (clip_buf s) i]).
    { replace (Z.to_nat (i + 1)) with (S (Z.to_nat i)) by lia. apply take_S_r.
      unfold aget. replace (i <? 0) with false by lia. rewrite nth_lookup. destruct (clip_buf s !! Z.to_nat i) eqn:E; [done|].
      apply lookup_ge_None in E. lia. }
    rewrite Hsnoc. apply wp_when; intros Hroom; b2p; unfold INPUT_BUF in Hroom.
    + apply wp_insert_char; [by left|done|done|lia|lia|by rewrite i8_of_char|].
      intros s' I' K' He' Hl' Hc' _ Hsa Hsb. rewrite i8_of_char in Hl' by done.
      rewrite take_app, (take_ge [_]) by (rewrite length_take; cbn; unfold room; lia).
      eapply inserted_snoc; eauto; [lia| |unfold col; lia|unfold col; lia].
      unfold has_selection in *. by rewrite Hsa, Hsb.
    + rewrite take_app_le; [exact Ht|]. rewrite length_take. unfold room. lia.
  - intros t Ht. apply HQ. unfold clip. by replace (Z.max 0 (clip_n s)) with (clip_n s) in Ht by lia.
Qed.

Lemma inserted_quiet s s1 s2 l : inserted s s1 l -> quiet s1 s2 -> inserted s s2 l.
Proof.
  intros (I1 & K1 & He & Hl & Hc & _) Hq. destruct (quiet_line _ _ Hq) as [Hl2 Hc2].
  destruct (quiet_fields _ _ Hq) as (Fr&Fw&Fe&_&_&_&_&_&Fb). pose proof (quiet_keeps _ _ Hq) as K2.
  split_and!; try congruence; [by eapply quiet_inv| |by eapply quiet_no_sel].
  destruct K1 as (Jr & Jw & Jb & Jn & Jk & Jc & Jp). destruct K2 as (Kr & Kw & Kb & Kn & Kk & Kc & _).
  unfold keeps. rewrite Fb. split_and!; try congruence; [by eapply same_ctl_trans|exact Jp].
Qed.

(** The characters of the clipboard that still fit. *)
Definition fitting_clip (s : console) : list Z :=
  take (Z.to_nat (ir (inp s) + 128 - ie (inp s))) (clip s).

(** The state in which a key that replaces the selection goes on. *)
Definition replaced (s s0 : console) : Prop :=
  if has_selection (inp s) then deleted s s0 (sel_lo s) (sel_hi s - sel_lo s) else s0 = s.

Lemma replaced_inv s s0 : edit_inv s -> replaced s s0 ->
  edit_inv s0 /\ has_selection (inp s0) = false /\ ie (inp s0) <= ie (inp s) /\
  ir (inp s0) = ir (inp s) /\ iw (inp s0) = iw (inp s) /\ clip_n s0 = clip_n s /\ clip s0 = clip s.
Proof.
  intros I. unfold replaced. destruct (has_selection (inp s)) eqn:Hs; [|intros ->; split_and!; done || lia].
  intros (I0 & (Kr & Kw & Kb & Kn & _) & He & _ & _ & Hs0). pose proof (sel_bounds s I Hs). unfold clip.
  rewrite Kn, Kb. split_and!; try done. lia.
Qed.

Lemma wp_replace s (Q : unit -> console -> Prop) :
  edit_inv s -> ie (inp s) < 2147483646 ->
  (forall s0, replaced s s0 -> Q tt s0) -> wp (when (has_selection (inp s)) delete_selection) s Q.
Proof.
  intros I Hmax HQ. unfold replaced in HQ. apply wp_when; intros Hs; rewrite Hs in HQ; [|by apply HQ].
  apply wp_delete_selection; [done..|]. intros s' Hd _. by apply HQ.
Qed.

Lemma wp_key_paste s (Q : unit -> console -> Prop) :
  edit_inv s -> ie (inp s) + 128 < 2147483646 ->
  (clip_n s = 0 -> forall s', moved s s' (col s) -> Q tt s') ->
  (0 < clip_n s -> forall s0 s', replaced s s0 -> inserted s0 s' (fitting_clip s0) -> Q tt s') ->
  wp key_paste s Q.
Proof.
  intros I Hmax HQ0 HQ1. destruct (inv_clip s I) as [Hcl Hcn].
  unfold key_paste. apply wp_bind, wp_gets, wp_bind, wp_when; intros Hn; b2p.
  - apply wp_bind, wp_gets, wp_bind. cbn [id]. apply wp_replace; [done|lia|]. intros s0 H0.
    destruct (replaced_inv s s0 I H0) as (I0 & Hs0 & He0 & _ & _ & Hn0 & Hc0).
    rewrite <- Hn0. apply wp_paste_loop; [done|done|lia|]. intros s1 Hi.
    apply wp_bind, wp_deselect. intros s2 Hq. apply wp_clear_selection. intros s3 Hq' _.
    apply (HQ1 ltac:(lia) s0); [done|]. by do 2 (eapply inserted_quiet; [|done]).
  - apply wp_bind, wp_deselect. intros s2 Hq. apply wp_clear_selection. intros s3 Hq' _.
    apply HQ0; [lia|]. eapply moved_quiet_l; [done|].
    destruct (quiet_line _ _ Hq) as [_ <-]. apply quiet_moved; [by eapply quiet_inv|done].
Qed.

(** ** Typing *)

Lemma committed_quiet_r s s1 s2 c : committed s s1 c -> quiet s1 s2 -> committed s s2 c.
Proof.
  intros (I & Hr & Hw & He & Hc & Hb & Hk & Hcb & Hcn & Hctl) Hq.
  pose proof (quiet_inv _ _ Hq I). destruct (quiet_keeps _ _ Hq) as (Kr & Kw & Kb & Kn & Kk & Kc & _).
  destruct (quiet_fields _ _ Hq) as (_&_&Fe&Fc&_&_&_&_&Fb).
  unfold committed. rewrite Fb. split_and!; try congruence; [exact Hb|by eapply same_ctl_trans].
Qed.

(** What a key that is not a command does once the selection is gone. *)
Definition typed (s s' : console) (c : Z) : Prop :=
  if (c =? 10) || (ie (inp s) =? ir (inp s) + 128) then
    committed s s' 10 /\ undo_n s' = 0
  else if ie (inp s) <? ir (inp s) + 128 then
    inserted s s' [i8 c] /\ undo_of s' = undo_after s OP_INSERT c (ic (inp s))
  else moved s s' (col s).

Lemma wp_key_default c s (Q : unit -> console -> Prop) (c' := if c =? 13 then 10 else c) :
  edit_inv s -> ie (inp s) + 128 < 2147483646 -> 0 < c < 256 ->
  (forall s0 s', replaced s s0 -> typed s0 s' c' -> sel_start (inp s') = -1 -> Q tt s') ->
  wp (key_default c) s Q.
Proof.
  intros I Hmax Hc HQ. unfold key_default. replace (negb (c =? 0)) with true by lia. cbn [when].
  fold c'. assert (Hc' : 0 < c' < 256) by (unfold c'; destruct (_ =? _); lia).
  apply wp_bind, wp_gets, wp_bind. cbn [id]. apply wp_replace; [done|lia|]. intros s0 H0.
  destruct (replaced_inv s s0 I H0) as (I0 & Hs0 & He0 & Hr0 & _).
  pose proof (inv_order s0 I0) as Ho. pose proof (inv_cursor s0 I0) as Hcp.
  apply wp_bind, wp_gets, wp_bind. cbn [id]. specialize (HQ s0).
  unfold typed in HQ. rewrite (u32_small (ir (inp s0) + INPUT_BUF)) by (unfold INPUT_BUF; lia).
  change INPUT_BUF with 128. apply wp_if; intros Hcase; rewrite Hcase in HQ.
  - apply wp_bind, wp_when; intros H10; b2p.
    + apply wp_zoom, wp_cgaputc_newline; [lia|]. intros sc Hctl _ Hcur.
      apply wp_bind, wp_modify, wp_bind, wp_buf_set; [lia|]. apply wp_bind, wp_gets.
      apply wp_bind, wp_modify, wp_bind, wp_modify, wp_bind, wp_modify, wp_modify.
      cbn -[cursor]. wrap_simp. apply wp_clear_selection. intros s' Hq Hsa. apply HQ; [done| |done].
      destruct (quiet_fields _ _ Hq) as (_&_&_&_&_&->&_). split; [|done].
      eapply committed_quiet_r; [|done].
      apply (committed_intro s0 sc 10 (selecting (inp s0)) (sel_start (inp s0)) (sel_end (inp s0)) 0);
        [done|unfold is_char; lia|unfold has_selection in Hs0; lia|by right|done|].
      rewrite Hcur. apply newline_pos_range. lia.
    + apply wp_bind, wp_modify, wp_bind, wp_buf_set; [lia|]. apply wp_bind, wp_gets.
      apply wp_bind, wp_modify, wp_bind, wp_modify, wp_bind, wp_modify, wp_modify.
      cbn -[cursor]. wrap_simp. apply wp_clear_selection. intros s' Hq Hsa. apply HQ; [done| |done].
      destruct (quiet_fields _ _ Hq) as (_&_&_&_&_&->&_). split; [|done].
      eapply committed_quiet_r; [|done].
      apply (committed_intro s0 (scr s0) 10 (selecting (inp s0)) (sel_start (inp s0)) (sel_end (inp s0)) 0);
        [done|unfold is_char; lia|unfold has_selection in Hs0; lia|by right|apply same_ctl_refl|lia].
  - b2p. apply wp_when; intros Hroom; rewrite Hroom in HQ; b2p.
    + apply wp_insert_char; [by right|done|done|lia|lia|unfold i8; zdm|].
      intros s1 I1 K1 He1 Hl1 Hc1 Hu1 Hsa1 Hsb1.
      apply wp_clear_selection. intros s' Hq Hsa. apply HQ; [done| |done].
      destruct (quiet_fields _ _ Hq) as (_&_&_&_&Fu&Fn&_). unfold undo_of. rewrite Fu, Fn. split; [|done].
      eapply inserted_quiet; [|done]. pose proof (length_line s0 I0).
      apply (inserted_snoc s0 s0 s1 []); try done; [by apply inserted_nil|lia| |unfold col; lia..].
      unfold has_selection in *. by rewrite Hsa1, Hsb1.
    + apply wp_clear_selection. intros s' Hq Hsa. apply HQ; [done| |done]. by apply quiet_moved.
Qed.

(** ** The marks of a selection *)

(** Most code leaves alone whether a selection is being made, and its ends. *)
Definition marks (p : input_t) : Z * Z * Z := (selecting p, sel_start p, sel_end p).
Definition frames {A} (m : M console A) : Prop := forall s, wlp m s (fun _ s' => marks (inp s') = marks (inp s)).

Lemma frames_bind {A B} (m : M console A) (k : A -> M console B) : frames m -> (forall a, frames (k a)) -> frames (bind m k).
Proof.
  intros Hm Hk s. apply wlp_bind. eapply wlp_mono; [apply Hm|]. cbn beta. intros a s1 E1.
  eapply wlp_mono; [apply Hk|]. cbn beta. intros b s2 E2. congruence.
Qed.

Lemma frames_ret {A} (a : A) : frames (ret a).
Proof. intros s. by apply wlp_ret. Qed.

Lemma frames_gets {A} (f : console -> A) : frames (gets f).
Proof. intros s. by apply wlp_gets. Qed.

Lemma frames_modify f : (forall s, marks (inp (f s)) = marks (inp s)) -> frames (modify f).
Proof. intros Hf s. by apply wlp_modify, Hf. Qed.

Lemma frames_on_scr {A} (m : M screen A) : frames (on_scr m).
Proof. intros s. apply wlp_zoom, wlp_any. done. Qed.

Lemma frames_require b w : frames (require b w).
Proof. intros s. by apply wlp_require. Qed.

Lemma frames_if {A} (b : bool) (m m' : M console A) : frames m -> frames m' -> frames (if b then m else m').
Proof. by destruct b. Qed.

Lemma frames_when b (m : M console unit) : frames m -> frames (when b m).
Proof. intros Hm. destruct b; [done|apply frames_ret]. Qed.

Lemma frames_rounds n (body : Z -> M console unit) : (forall i, frames (body i)) -> forall step i, frames (rounds n step i body).
Proof. intros Hb. induction n as [|n IH]; intros step i; [apply frames_ret|]. apply frames_bind; [apply Hb|intros _; apply IH]. Qed.

Lemma frames_walk_left (P : Z -> M console bool) w fuel : (forall i, frames (P i)) -> forall t, frames (walk_left fuel P w t).
Proof.
  intros HP. induction fuel as [|f IH]; intros t; cbn [walk_left]; [apply frames_ret|].
  apply frames_if; [|apply frames_ret]. apply frames_bind; [apply HP|]. intros b. apply frames_if; [apply IH|apply frames_ret].
Qed.

Lemma frames_walk_right (P : Z -> M console bool) e fuel : (forall i, frames (P i)) -> forall t, frames (walk_right fuel P e t).
Proof.
  intros HP. induction fuel as [|f IH]; intros t; cbn [walk_right]; [apply frames_ret|].
  apply frames_if; [|apply frames_ret]. apply frames_bind; [apply HP|]. intros b. apply frames_if; [apply IH|apply frames_ret].
Qed.

Create HintDb frames.
#[export] Hint Resolve frames_ret frames_gets frames_on_scr frames_require : frames.

(** Unfolds a routine down to assignments, none of which touches the marks. *)
Ltac frame :=
  unfold inp_get, set_c, set_e, set_w, inp_mod, buf_geti, buf_seti, buf_get, buf_set, echo_buf, undo_push, wakeup_reader, for_up, ws_at, nonws_at, erase_line; cbv zeta;
  repeat first [ solve [eauto with frames nocore] | apply frames_modify; intros; reflexivity | apply frames_bind; [|intros ?] | apply frames_when | apply frames_if
               | apply frames_rounds; intros ? | apply frames_walk_left; intros ? | apply frames_walk_right; intros ? ].

Lemma frames_highlight a b on : frames (update_highlight a b on).
Proof. unfold update_highlight. frame. Qed.

(** No selection, and none being made. *)
Definition cleared (p : input_t) : Prop := selecting p = 0 /\ sel_start p = -1.

Lemma wlp_clear s : wlp clear_selection s (fun _ s' => cleared (inp s')).
Proof.
  unfold clear_selection. apply wlp_bind, wlp_gets. cbn [id]. apply wlp_bind, wlp_when; intros Hs.
  - apply wlp_bind. eapply wlp_mono; [apply frames_highlight|]. intros _ s1 _. by apply wlp_modify, wlp_modify.
  - apply wlp_modify. split; [done|]. cbn. b2p. done.
Qed.

(** m is of no matter before k. *)
Lemma wlp_then {A B} (m : M console A) (k : A -> M console B) s Q : (forall a s', wlp (k a) s' Q) -> wlp (bind m k) s Q.
Proof. intros Hk. apply wlp_bind, wlp_any. done. Qed.

(** To the call of clear_selection() at the end of a routine. *)
Ltac to_clear := repeat first [apply wlp_clear | apply wlp_then; intros ? ?].

Lemma wlp_delete s : has_selection (inp s) = true -> wlp delete_selection s (fun _ s' => cleared (inp s')).
Proof.
  intros Hs. unfold delete_selection. apply wlp_bind, wlp_gets. cbn [id]. unfold has_selection in Hs.
  replace ((sel_start _ =? -1) || _) with false by lia. cbv zeta. apply wlp_if; intros _; [apply wlp_clear|].
  to_clear.
Qed.

(** What a key that gives up the selection does to the marks. *)
Definition deselects (p p' : input_t) : Prop := if has_selection p then cleared p' else marks p' = marks p.

Lemma wlp_deselect_then {A} (m : M console A) s : frames m -> wlp (deselect_if_any ;;; m) s (fun _ s' => deselects (inp s) (inp s')).
Proof.
  intros Hm. unfold deselects, deselect_if_any. apply wlp_bind, wlp_bind, wlp_gets. cbn [id]. destruct (has_selection (inp s)); cbn [when].
  - eapply wlp_mono; [apply wlp_clear|]. intros _ s1 [C1 C2]. eapply wlp_mono; [apply Hm|]. cbn. intros _ s2 E. injection E as E1 E2 _. split; congruence.
  - apply wlp_ret, Hm.
Qed.

Lemma marks_word_left s : wlp key_word_left s (fun _ s' => deselects (inp s) (inp s')).
Proof. apply wlp_deselect_then. frame. Qed.

Lemma marks_eof_or_word_right s : wlp key_eof_or_word_right s (fun _ s' => deselects (inp s) (inp s')).
Proof. apply wlp_deselect_then. frame. Qed.

Lemma marks_kill_line s : wlp key_kill_line s (fun _ s' => deselects (inp s) (inp s')).
Proof. apply wlp_deselect_then. frame. Qed.

Lemma marks_left s : wlp key_left s (fun _ s' => deselects (inp s) (inp s')).
Proof. apply wlp_deselect_then. frame. Qed.

Lemma marks_right s : wlp key_right s (fun _ s' => deselects (inp s) (inp s')).
Proof. apply wlp_deselect_then. frame. Qed.

Lemma marks_deselect s : wlp deselect_if_any s (fun _ s' => deselects (inp s) (inp s')).
Proof.
  unfold deselects, deselect_if_any. apply wlp_bind, wlp_gets. cbn [id]. destruct (has_selection (inp s)); cbn [when]; [apply wlp_clear|by apply wlp_ret].
Qed.

Lemma marks_backspace s : wlp key_backspace s (fun _ s' => deselects (inp s) (inp s')).
Proof.
  unfold deselects, key_backspace. apply wlp_bind, wlp_gets. cbn [id]. destruct (has_selection (inp s)) eqn:Hs; [by apply wlp_delete|].
  match goal with |- wlp ?m s _ => assert (HF : frames m); [|apply HF] end. frame.
Qed.

Lemma marks_default c s : c <> 0 -> wlp (key_default c) s (fun _ s' => cleared (inp s')).
Proof.
  intros Hc. unfold key_default. replace (negb (c =? 0)) with true by lia. cbn [when]. cbv zeta.
  to_clear.
Qed.

Lemma marks_paste s : wlp key_paste s (fun _ s' => cleared (inp s')).
Proof. unfold key_paste. to_clear. Qed.

Lemma marks_copy s : has_selection (inp s) = false -> wlp key_copy s (fun _ s' => cleared (inp s')).
Proof.
  intros Hs. unfold key_copy. apply wlp_bind, wlp_gets. cbn [id]. rewrite Hs. apply wlp_bind. eapply wlp_mono; [apply wlp_clear|].
  cbn beta. intros _ s1 HC. by apply wlp_modify.
Qed.
