(* ===== verification/ConsoleSpec.v ===== *)
(** What the console promises: no sequence of keys makes it run out of bounds
    or panic, editing keys implement a line editor, copy and paste, undo, and
    reads return what was typed. *)

From stdpp Require Import base gmap list strings numbers.
From Stdlib Require Import ZArith Lia.
From S2P Require Import Prelude Kstring Screen Console ConsoleInv ConsoleKeys ConsoleEdit.

Open Scope Z_scope.
Open Scope kern_scope.

(** ** Every key keeps the invariant *)

(** What holds after any key, whatever it did. *)
Definition survives (s s' : console) : Prop :=
  edit_inv s' /\ ie (inp s') <= ie (inp s) + 128 /\ ir (inp s') = ir (inp s) /\ same_ctl (scr s) (scr s').

Lemma moved_survives s s' k : edit_inv s -> moved s s' k -> survives s s'.
Proof. intros I (I' & (Kr&_&_&_&_&Kc&_) & He & _). split_and!; done || lia. Qed.

Lemma deleted_survives s s' a n : 0 <= n -> deleted s s' a n -> survives s s'.
Proof. intros Hn (I' & (Kr&_&_&_&_&Kc&_) & He & _). split_and!; done || lia. Qed.

Lemma marked_survives s s' sl sa sb : marked s s' sl sa sb -> survives s s'.
Proof. intros (I' & (Kr&_&_&_&_&Kc&_) & He & _). split_and!; done || lia. Qed.

Lemma committed_survives s s' c : committed s s' c -> survives s s'.
Proof. intros (I' & Hr & _ & He & _ & _ & _ & _ & _ & Hctl). split_and!; done || lia. Qed.

Lemma replaced_survives s s0 : edit_inv s -> replaced s s0 ->
  ie (inp s0) <= ie (inp s) /\ ir (inp s0) = ir (inp s) /\ same_ctl (scr s) (scr s0).
Proof.
  intros I H. destruct (replaced_inv s s0 I H) as (_ & _ & He & Hr & _). split_and!; try done;
  unfold replaced in H; destruct (has_selection (inp s)); [|by subst..]; apply H.
Qed.

Lemma inserted_survives s s0 s' l :
  edit_inv s -> replaced s s0 -> (length l <= 128)%nat -> inserted s0 s' l -> survives s s'.
Proof.
  intros I H0 Hl (I' & (Kr&_&_&_&_&Kc&_) & He & _).
  destruct (replaced_survives s s0 I H0) as (He0 & Hr0 & Hc0).
  split_and!; [done|lia|congruence|by eapply same_ctl_trans].
Qed.

Lemma typed_survives s s0 s' c : edit_inv s -> replaced s s0 -> typed s0 s' c -> survives s s'.
Proof.
  intros I H0 Ht. destruct (replaced_inv s s0 I H0) as (I0 & _).
  destruct (replaced_survives s s0 I H0) as (He0 & Hr0 & Hc0). unfold typed in Ht.
  destruct (_ || _).
  - destruct Ht as [Ht _]. destruct (committed_survives _ _ _ Ht) as (I' & He & Hr & Hc).
    split_and!; [done|lia|congruence|by eapply same_ctl_trans].
  - destruct (_ <? _).
    + destruct Ht as [Ht _]. eapply inserted_survives; eauto. cbn. lia.
    + destruct (moved_survives _ _ _ I0 Ht) as (I' & He & Hr & Hc).
      split_and!; [done|lia|congruence|by eapply same_ctl_trans].
Qed.

Lemma survives_refl s : edit_inv s -> survives s s.
Proof. intros I. split_and!; try done; lia. Qed.

Lemma wp_then_false (m : M console unit) s (Q : bool -> console -> Prop) b :
  wp m s (fun _ s' => Q b s') -> wp (m ;;; ret b) s Q.
Proof. intros H. apply wp_bind. eapply wp_mono; [exact H|]. done. Qed.

(** A key as the keyboard and the serial line deliver it, TAB excepted. *)
Definition edit_key (c : Z) : Prop := 0 <= c < 256 /\ c <> 9.

Lemma wp_handle_key c s (Q : bool -> console -> Prop) :
  edit_inv s -> edit_key c -> ie (inp s) + 128 < 2147483646 ->
  (forall b s', survives s s' -> Q b s') -> wp (handle_key c) s Q.
Proof.
  intros I [Hc H9] Hmax HQ. unfold handle_key. replace (c =? 9) with false by lia.
  repeat (apply wp_if; intros ?Hk; [apply wp_then_false|]).
  - apply wp_key_select; [done|lia|..]; intros Hs s' Hm.
    + eapply HQ, marked_survives, Hm.
    + destruct (sel_start _ =? _); eapply HQ, marked_survives, Hm.
  - apply wp_key_copy; [done|lia|..].
    + intros _ b n _ I'. apply HQ. split_and!; try done. cbn. lia.
    + intros _ s' Hm I'. apply HQ. destruct (moved_survives _ _ _ I Hm) as (_ & He & Hr & Hctl).
      by split_and!.
  - apply wp_key_paste; [done|lia|..].
    + intros _ s' Hm. eapply HQ, moved_survives, Hm. done.
    + intros _ s0 s' H0 Hi. eapply HQ, inserted_survives, Hi; try done.
      unfold fitting_clip, clip. rewrite !length_take.
      destruct (replaced_inv s s0 I H0) as (I0 & _). destruct (inv_clip s0 I0). lia.
  - apply wp_key_word_left; [done|lia|]. intros s' Hm. by eapply HQ, moved_survives.
  - apply wp_key_eof_or_word_right; [done|lia|..]; intros _ s' Hm.
    + by eapply HQ, committed_survives.
    + by eapply HQ, moved_survives.
  - apply wp_deselect. intros s' Hq. eapply HQ, moved_survives, quiet_moved; done.
  - apply wp_key_kill_line; [done|lia|]. intros s' (I' & (Kr&_&_&_&_&Kc&_) & He & _).
    pose proof (inv_order s I). apply HQ. split_and!; done || lia.
  - destruct (has_selection (inp s)) eqn:Hs.
    + unfold key_backspace. apply wp_bind, wp_gets. cbn [id]. rewrite Hs.
      pose proof (sel_bounds s I Hs).
      apply wp_delete_selection; [done|done|lia|]. intros s' Hd _.
      eapply HQ, deleted_survives, Hd. lia.
    + apply wp_key_backspace; [done|done|lia|..].
      * intros _ s' Hd. eapply HQ, deleted_survives, Hd. lia.
      * intros _. apply HQ. by apply survives_refl.
  - apply wp_key_undo; [done|lia|..].
    + intros _ s' Hm. eapply HQ, moved_survives, Hm. done.
    + intros _ _ s' Hm I'. apply HQ. destruct (moved_survives _ _ _ I Hm) as (_ & He & Hr & Hctl).
      by split_and!.
    + intros _ _ s' Hd _. eapply HQ, deleted_survives, Hd. lia.
  - apply wp_key_left; [done|lia|]. intros s' Hm. by eapply HQ, moved_survives.
  - apply wp_key_right; [done|lia|]. intros s' Hm. by eapply HQ, moved_survives.
  - apply wp_then_false. destruct (Z.eqb_spec c 0) as [->|Hc0].
    + cbn. apply HQ. by apply survives_refl.
    + apply wp_key_default; [done|lia|lia|]. intros s0 s' H0 Ht _. by eapply HQ, typed_survives.
Qed.

Lemma wp_key_loop keys : forall d s,
  edit_inv s -> Forall edit_key keys ->
  ie (inp s) + 128 * Z.of_nat (length keys) < 2147483646 ->
  wp (key_loop keys d) s (fun _ s' => edit_inv s' /\ ir (inp s') = ir (inp s) /\ same_ctl (scr s) (scr s')).
Proof.
  induction keys as [|c keys IH]; intros d s I Hk Hmax; cbn [key_loop]; [by apply wp_ret|].
  apply Forall_cons_1 in Hk as [Hc Hk]. replace (c <? 0) with false by (destruct Hc; lia).
  cbn [length] in Hmax. apply wp_bind, wp_handle_key; [done|done|lia|].
  intros b s' (I' & He & Hr & Hctl). eapply wp_mono; [apply IH; [done|done|lia]|].
  cbn. intros _ s2 (I2 & Hr2 & Hctl2). split_and!; [done|congruence|by eapply same_ctl_trans].
Qed.

(** C31: No keys make the console misbehave, as long as the indices of the ring,
    which the code keeps in ints, stay below 2^31 - 2 (each key moves the end of
    the line by at most 128).  From a state that satisfies the editor's
    invariant, consoleintr() then handles any sequence of keys other than TAB
    and returns: no index is out of bounds, no panic, no undefined behaviour,
    the lock is released and the invariant holds again. *)
Theorem consoleintr_safe keys s :
  edit_inv s -> cons_lock (scr s) = false -> Forall edit_key keys ->
  ie (inp s) + 128 * Z.of_nat (length keys) < 2147483646 ->
  exists d s', consoleintr keys s = Ok d s' /\ edit_inv s' /\ cons_lock (scr s') = false /\
    ir (inp s') = ir (inp s).
Proof.
  intros I Hlock Hk Hmax.
  apply (wp_run _ _ (fun _ s' => edit_inv s' /\ cons_lock (scr s') = false /\ ir (inp s') = ir (inp s))).
  unfold consoleintr, acquire_cons, release_cons. apply wp_bind, wp_zoom, wp_bind, wp_gets. rewrite Hlock.
  apply wp_modify, wp_bind. eapply wp_mono.
  - apply wp_key_loop; [|done|done]. destruct I. by constructor.
  - intros d s' (I' & Hr & Hctl). apply wp_bind, wp_zoom, wp_bind, wp_gets.
    replace (cons_lock (scr s')) with true by (symmetry; apply Hctl).
    apply wp_modify, wp_ret. split_and!; [|done|done]. destruct I'. by constructor.
Qed.

(** ** The line editor the keys implement *)

(** What is marked in the line: nothing, the place where a selection has been
    begun, or the characters from lo to hi. *)
Inductive mark := NoMark | Anchor (a : Z) | Selected (lo hi : Z).

(** Input handed over and not read yet, the line, the cursor's place in it,
    the mark, and the clipboard. *)
Record editor : Type := mkEditor { pending : list Z; text : list Z; place : Z; emark : mark; board : list Z }.

Definition deselected (m : mark) : mark := match m with Selected _ _ => NoMark | _ => m end.

(** The line and the place when the selection is taken out. *)
Definition cut (l : list Z) (k : Z) (m : mark) : list Z * Z :=
  match m with
  | Selected lo hi => (del l (Z.to_nat lo) (Z.to_nat (hi - lo)), lo)
  | _ => (l, k)
  end.

(** ^S begins a selection, or ends it; a place outside the line, where a
    selection was begun that the line has been changed under, counts as the
    end of the line it is beyond. *)
Definition ed_mark (l : list Z) (k : Z) (m : mark) : mark :=
  match m with
  | Anchor a => if a =? k then NoMark else Selected (Z.max 0 (Z.min a k)) (Z.min (Z.max a k) (Z.of_nat (length l)))
  | _ => Anchor k
  end.

Definition ed_step (e : editor) (c : Z) : editor :=
  let (p, l, k, m, b) := e in
  if c =? Ctl 83 then mkEditor p l k (ed_mark l k m) b
  else if c =? Ctl 67 then
    match m with
    | Selected lo hi => mkEditor p l k m (take (Z.to_nat (hi - lo)) (drop (Z.to_nat lo) l))
    | _ => mkEditor p l k NoMark []
    end
  else if c =? Ctl 86 then
    match b with
    | [] => mkEditor p l k NoMark []
    | _ =>
        let (l', k') := cut l k m in
        let new := take (128 - length p - length l') b in
        mkEditor p (take (Z.to_nat k') l' ++ new ++ drop (Z.to_nat k') l') (k' + Z.of_nat (length new)) NoMark b
    end
  else if c =? Ctl 65 then mkEditor p l (prev_word l k) (deselected m) b
  else if c =? Ctl 68 then
    match l with
    | [] => mkEditor (p ++ [4]) [] 0 (match m with Anchor a => Anchor (a - 1) | _ => NoMark end) b
    | _ => mkEditor p l (next_word l k) (deselected m) b
    end
  else if c =? Ctl 80 then mkEditor p l k (deselected m) b
  else if c =? 0 then e
  else if c =? Ctl 85 then mkEditor p [] 0 (deselected m) b
  else if (c =? Ctl 72) || (c =? 0x7f) then
    match m with
    | Selected _ _ => let (l', k') := cut l k m in mkEditor p l' k' NoMark b
    | _ => if k >? 0 then mkEditor p (del l (Z.to_nat (k - 1)) 1) (k - 1) m b else e
    end
  else if c =? KEY_LF then mkEditor p l (Z.max 0 (k - 1)) (deselected m) b
  else if c =? KEY_RT then mkEditor p l (Z.min (Z.of_nat (length l)) (k + 1)) (deselected m) b
  else
    let (l', k') := cut l k m in
    if (c =? 10) || (c =? 13) then mkEditor (p ++ l' ++ [10]) [] 0 NoMark b
    else mkEditor p (ins l' (Z.to_nat k') (i8 c)) (k' + 1) NoMark b.

(** Before each of the keys there is room for a character in the ring. *)
Fixpoint roomy (keys : list Z) (e : editor) : Prop :=
  match keys with
  | [] => True
  | c :: keys' => (length (pending e) + length (text e) < 128)%nat /\ roomy keys' (ed_step e c)
  end.

Lemma roomy_app a b : forall e, roomy (a ++ b) e <-> roomy a e /\ roomy b (fold_left ed_step a e).
Proof. induction a as [|c a IH]; intros e; cbn [app roomy fold_left]; [tauto|]. rewrite IH. tauto. Qed.

(** The keys of the editor: not TAB and ^Z. *)
Definition plain_key (c : Z) : Prop := edit_key c /\ c <> Ctl 90.

Definition unread (s : console) : list Z :=
  map (rg (ibuf (inp s))) (seqZ (ir (inp s)) (iw (inp s) - ir (inp s))).

Definition mode (s : console) : mark :=
  if has_selection (inp s) then Selected (sel_lo s) (sel_hi s)
  else if selecting (inp s) =? 0 then NoMark else Anchor (sel_start (inp s) - iw (inp s)).

Definition view (s : console) : editor := mkEditor (unread s) (line s) (col s) (mode s) (clip s).

(** A selection that is being made has a beginning and no end. *)
Definition marks_ok (s : console) : Prop := selecting (inp s) <> 0 -> sel_end (inp s) = -1 /\ 0 <= sel_start (inp s).

Lemma length_unread s : edit_inv s -> Z.of_nat (length (unread s)) = iw (inp s) - ir (inp s).
Proof. intros I. unfold unread. rewrite length_map, length_seqZ. pose proof (inv_order s I). lia. Qed.

Lemma ring_map_ext f g lo n :
  (forall i, lo <= i < lo + n -> f i = g i) -> map f (seqZ lo n) = map g (seqZ lo n) :> list Z.
Proof. intros H. apply map_ext_in. intros i Hi. apply list_elem_of_In, elem_of_seqZ in Hi. apply H. lia. Qed.

Lemma keeps_unread s s' :
  edit_inv s -> keeps s s' -> ie (inp s) <= ir (inp s) + 128 -> unread s' = unread s.
Proof.
  intros I (Kr & Kw & _ & _ & _ & _ & Kp) Hroom. pose proof (inv_order s I).
  unfold unread. rewrite Kr, Kw. apply ring_map_ext. intros i Hi. apply Kp; lia.
Qed.

Lemma keeps_clip s s' : keeps s s' -> clip s' = clip s.
Proof. intros (_ & _ & Kb & Kn & _). unfold clip. by rewrite Kb, Kn. Qed.

Lemma cleared_mode s : cleared (inp s) -> mode s = NoMark /\ marks_ok s.
Proof. intros [C1 C2]. unfold mode, marks_ok, has_selection. rewrite C1, C2. done. Qed.

Lemma deselects_ok s s' : marks_ok s -> deselects (inp s) (inp s') -> marks_ok s'.
Proof.
  unfold deselects. intros HM D. destruct (has_selection (inp s)); [by apply cleared_mode|]. unfold marks_ok, marks in *. injection D as E1 E2 E3. by rewrite E1, E2, E3.
Qed.

(** The mark after a key that gives up the selection; d: w has moved by d. *)
Lemma deselects_mode s s' d : deselects (inp s) (inp s') -> iw (inp s') = iw (inp s) + d ->
  mode s' = match mode s with Anchor a => Anchor (a - d) | _ => NoMark end.
Proof.
  unfold deselects. intros D Hw. destruct (has_selection (inp s)) eqn:Hs.
  - destruct (cleared_mode s' D) as [-> _]. unfold mode. by rewrite Hs.
  - injection D as E1 E2 E3. unfold mode, has_selection in *. rewrite E1, E2, E3, Hs, Hw. destruct (selecting (inp s) =? 0); [done|]. f_equal. lia.
Qed.

Lemma deselects_same s s' : deselects (inp s) (inp s') -> iw (inp s') = iw (inp s) -> mode s' = deselected (mode s).
Proof. intros D Hw. rewrite (deselects_mode s s' 0 D) by lia. destruct (mode s); cbn; [done|f_equal; lia|done]. Qed.

Lemma committed_unread s s' c :
  edit_inv s -> committed s s' c -> ie (inp s) < ir (inp s) + 128 ->
  unread s' = unread s ++ line s ++ [c] /\ line s' = [] /\ col s' = 0 /\ clip s' = clip s.
Proof.
  intros I (_ & Hr & Hw & He & Hc & Hb & _ & Hcb & Hcn & _) Hroom. specialize (Hb Hroom). pose proof (inv_order s I) as Ho.
  split_and!.
  - unfold unread, line. rewrite Hr, Hw.
    replace (ie (inp s) + 1 - ir (inp s)) with
      ((iw (inp s) - ir (inp s)) + ((ie (inp s) - iw (inp s)) + 1)) by lia.
    rewrite seqZ_app, map_app by lia. f_equal.
    { apply ring_map_ext. intros i Hi. rewrite Hb by lia. by replace (i =? ie (inp s)) with false by lia. }
    replace (ir (inp s) + (iw (inp s) - ir (inp s))) with (iw (inp s)) by lia.
    rewrite seqZ_app, map_app by lia. f_equal.
    { apply ring_map_ext. intros i Hi. rewrite Hb by lia. by replace (i =? ie (inp s)) with false by lia. }
    rewrite seqZ_cons, (seqZ_nil _ (Z.pred 1)) by lia. cbn [map].
    rewrite Hb by lia. by replace (_ =? ie (inp s)) with true by lia.
  - unfold line. rewrite Hw, He. by rewrite Z.sub_diag.
  - unfold col. lia.
  - unfold clip. by rewrite Hcb, Hcn.
Qed.

(** The console went on to a state whose editor is e. *)
Definition sim (s s' : console) (e : editor) : Prop :=
  edit_inv s' /\ marks_ok s' /\ view s' = e /\ ir (inp s') = ir (inp s) /\ same_ctl (scr s) (scr s').

Section Sim.
Context (s : console) (I : edit_inv s) (HM : marks_ok s) (Hroom : ie (inp s) < ir (inp s) + 128).

Lemma moved_sim s' k : moved s s' k -> deselects (inp s) (inp s') -> sim s s' (mkEditor (unread s) (line s) k (deselected (mode s)) (clip s)).
Proof.
  intros (I' & K & He & Hl & Hc & _) D. pose proof K as (Kr&Kw&_&_&_&Kc&_). split_and!; [done|by eapply deselects_ok| |done|done].
  unfold view. by rewrite (keeps_unread s s'), Hl, Hc, (deselects_same s s' D Kw), (keeps_clip s s' K) by (done || lia).
Qed.

Lemma killed_sim s' : killed_line s s' -> deselects (inp s) (inp s') -> sim s s' (mkEditor (unread s) [] 0 (deselected (mode s)) (clip s)).
Proof.
  intros (I' & K & He & Hl & Hc & _) D. pose proof K as (Kr&Kw&_&_&_&Kc&_). pose proof (inv_order s I). split_and!; [done|by eapply deselects_ok| |done|done].
  unfold view. by rewrite (keeps_unread s s'), Hl, Hc, (deselects_same s s' D Kw), (keeps_clip s s' K) by (done || lia).
Qed.

Lemma eof_sim s' : line s = [] -> committed s s' 4 -> deselects (inp s) (inp s') ->
  sim s s' (mkEditor (unread s ++ [4]) [] 0 (match mode s with Anchor a => Anchor (a - 1) | _ => NoMark end) (clip s)).
Proof.
  intros Hl H D. destruct (committed_unread s s' 4 I H Hroom) as (U & L & C & B). destruct H as (I' & Hr & Hw & _ & _ & _ & _ & _ & _ & Hctl).
  pose proof (length_line s I) as Hlen. rewrite Hl in Hlen. cbn in Hlen. split_and!; [done|by eapply deselects_ok| |done|done].
  unfold view. rewrite U, L, C, B, Hl, (deselects_mode s s' 1 D) by lia. done.
Qed.

(** The selection is taken out. *)
Lemma replaced_cut s0 : replaced s s0 ->
  (line s0, col s0) = cut (line s) (col s) (mode s) /\ unread s0 = unread s /\ clip s0 = clip s /\ edit_inv s0 /\ ie (inp s0) <= ie (inp s) /\
  ir (inp s0) = ir (inp s) /\ same_ctl (scr s) (scr s0).
Proof.
  intros H0. destruct (replaced_inv s s0 I H0) as (I0 & _ & He & Hr & _ & _ & Hc). destruct (replaced_survives s s0 I H0) as (_ & _ & Hctl). unfold replaced in H0. unfold mode.
  destruct (has_selection (inp s)); [|subst s0; split_and!; try done; by destruct (_ =? 0)].
  destruct H0 as (_ & K & _ & Hl & Hcol & _). split_and!; try done; [cbn [cut]; by rewrite Hl, Hcol|by apply keeps_unread; [| |lia]].
Qed.

Lemma inserted_sim s0 s' l : replaced s s0 -> inserted s0 s' l -> cleared (inp s') -> ie (inp s0) <= ir (inp s0) + 128 ->
  sim s s' (let (l0, k0) := cut (line s) (col s) (mode s) in mkEditor (unread s) (take (Z.to_nat k0) l0 ++ l ++ drop (Z.to_nat k0) l0) (k0 + Z.of_nat (length l)) NoMark (clip s)).
Proof.
  intros H0 (I' & K & He & Hl & Hc & _) HC Hr0. destruct (replaced_cut s0 H0) as (Ecut & Eu & Ec & I0 & He0 & Hr & Hctl). rewrite <- Ecut. destruct (cleared_mode s' HC) as [Em HM'].
  pose proof K as (Kr&_&_&_&_&Kc&_). split_and!; [done|done| |congruence|by eapply same_ctl_trans]. unfold view. by rewrite Em, Hl, Hc, (keeps_unread s0 s'), (keeps_clip s0 s' K), Eu, Ec by (done || lia).
Qed.

Lemma committed_sim s0 s' : replaced s s0 -> committed s0 s' 10 -> cleared (inp s') ->
  sim s s' (let (l0, _) := cut (line s) (col s) (mode s) in mkEditor (unread s ++ l0 ++ [10]) [] 0 NoMark (clip s)).
Proof.
  intros H0 H HC. destruct (replaced_cut s0 H0) as (Ecut & Eu & Ec & I0 & He0 & Hr & Hctl). rewrite <- Ecut. destruct (cleared_mode s' HC) as [Em HM'].
  destruct (committed_unread s0 s' 10 I0 H ltac:(lia)) as (U & L & C & B). destruct H as (I' & Hr' & _ & _ & _ & _ & _ & _ & _ & Hctl').
  split_and!; [done|done| |congruence|by eapply same_ctl_trans]. unfold view. by rewrite Em, U, L, C, B, Eu, Ec.
Qed.

Lemma clip_empty : clip s = [] <-> clip_n s = 0.
Proof.
  destruct (inv_clip s I) as [Hl Hn]. unfold clip. split; [|by intros ->]. intros E. apply (f_equal length) in E. rewrite length_take, Hl in E. cbn in E. lia.
Qed.
End Sim.

Lemma sim_refl s : edit_inv s -> marks_ok s -> sim s s (view s).
Proof. intros I P. by split_and!. Qed.

Lemma wp_wlp {A} (m : M console A) s (P Q R : A -> console -> Prop) : wlp m s P -> wp m s R -> (forall a s', P a s' -> R a s' -> Q a s') -> wp m s Q.
Proof. unfold wp, wlp. destruct (m s); auto. Qed.

Section Keys.
Context (s : console) (I : edit_inv s) (HM : marks_ok s) (Hroom : ie (inp s) < ir (inp s) + 128) (Hmax : ie (inp s) + 128 < 2147483646).

Lemma wp_select_sim : wp key_select s (fun _ s' => sim s s' (mkEditor (unread s) (line s) (col s) (ed_mark (line s) (col s) (mode s)) (clip s))).
Proof.
  pose proof (inv_order s I) as Ho. pose proof (length_line s I) as Hlen.
  assert (HS : forall s' sl sa sb m, marked s s' sl sa sb -> (sl = 0 \/ sb = -1 /\ 0 <= sa) -> (has_selection (inp s') = true -> m = Selected (Z.max sa (iw (inp s)) - iw (inp s)) (Z.min sb (ie (inp s)) - iw (inp s)) /\ sa <= sb) ->
    (has_selection (inp s') = false -> m = if sl =? 0 then NoMark else Anchor (sa - iw (inp s))) -> sim s s' (mkEditor (unread s) (line s) (col s) m (clip s))).
  { intros s' sl sa sb m (I' & K & He & Hl & Hc & _ & E1 & E2 & E3) Hok Hm1 Hm0. pose proof K as (Kr&Kw&_&_&_&Kc&_). split_and!; [done|unfold marks_ok; rewrite E1, E2, E3; intros; destruct Hok; [lia|done]| |done|done].
    unfold view. rewrite (keeps_unread s s'), (keeps_clip s s' K), Hl, Hc by (done || lia). f_equal. unfold mode, sel_lo, sel_hi. rewrite E1, E2, E3, Kw, He.
    destruct (has_selection (inp s')); [|by rewrite Hm0]. destruct (Hm1 eq_refl) as [-> Hs]. f_equal; lia. }
  unfold mode, col in *. apply wp_key_select; [done|lia| |].
  - intros Hs s' Hm. eapply HS; [exact Hm|right; lia| |].
    + destruct Hm as (_ & _ & _ & _ & _ & _ & _ & _ & E3). unfold has_selection. rewrite E3. intros Hx. b2p. lia.
    + intros _. rewrite Hs. cbn. by destruct (has_selection (inp s)).
  - intros Hs s' Hm. destruct (HM Hs) as [Hend Hst]. assert (Hno : has_selection (inp s) = false) by (unfold has_selection; rewrite Hend; lia). rewrite Hno. replace (selecting (inp s) =? 0) with false by lia. cbn [ed_mark].
    destruct (Z.eqb_spec (sel_start (inp s)) (ic (inp s))) as [E|E].
    + replace (_ =? _) with true by lia. eapply HS; [exact Hm|by left| |done]. destruct Hm as (_ & _ & _ & _ & _ & _ & _ & E2 & _). unfold has_selection. rewrite E2. done.
    + replace (_ =? _) with false by lia. eapply HS; [exact Hm|by left| |].
      * intros _. split; [f_equal; lia|lia].
      * destruct Hm as (_ & _ & _ & _ & _ & _ & _ & E2 & E3). unfold has_selection. rewrite E2, E3. lia.
Qed.

Lemma wp_copy_sim : wp key_copy s (fun _ s' => sim s s' (match mode s with
  | Selected lo hi => mkEditor (unread s) (line s) (col s) (mode s) (take (Z.to_nat (hi - lo)) (drop (Z.to_nat lo) (line s)))
  | _ => mkEditor (unread s) (line s) (col s) NoMark [] end)).
Proof.
  destruct (has_selection (inp s)) eqn:Hs.
  - apply wp_key_copy; [done|lia| |congruence]. intros _ b n Hc I'. split_and!; try done. unfold view. rewrite Hc. unfold mode. cbn [inp set_clip]. rewrite Hs. done.
  - eapply wp_wlp; [by apply marks_copy|apply (wp_key_copy s (fun _ s' => exists s1, moved s s1 (col s) /\ s' = set_clip (clip_buf s) 0 s1 /\ edit_inv s')); [done|lia|congruence|]|].
    + intros _ s1 Hm I1. by exists s1.
    + intros a s' HC (s1 & (_ & K & He & Hl & Hcol & _) & -> & I1). destruct (cleared_mode _ HC) as [Em HM']. pose proof K as (Kr&_&_&_&_&Kc&_). split_and!; [done|done| |done|done].
      unfold view. rewrite Em. change (unread (set_clip _ _ s1)) with (unread s1). change (line (set_clip _ _ s1)) with (line s1). change (col (set_clip _ _ s1)) with (col s1). change (clip (set_clip _ _ s1)) with (@nil Z).
      rewrite (keeps_unread s s1), Hl, Hcol by (done || lia). unfold mode. rewrite Hs. by destruct (_ =? 0).
Qed.

Lemma wp_paste_sim : wp key_paste s (fun _ s' => sim s s' (ed_step (view s) (Ctl 86))).
Proof.
  eapply wp_wlp; [apply marks_paste|apply (wp_key_paste s (fun _ s' => (clip_n s = 0 /\ moved s s' (col s)) \/ (0 < clip_n s /\ exists s0, replaced s s0 /\ inserted s0 s' (fitting_clip s0)))); [done|lia|by left|]|].
  - intros Hn s0 s' H0 Hi. right. split; [done|]. by exists s0.
  - intros a s' HC H. cbn [ed_step view]. change (Ctl 86 =? Ctl 83) with false. change (Ctl 86 =? Ctl 67) with false. rewrite Z.eqb_refl. cbv iota. pose proof (clip_empty s I) as HE. destruct H as [[Hn Hm]|(Hn & s0 & H0 & Hi)].
    + rewrite (proj2 HE Hn). destruct (cleared_mode _ HC) as [Em HM']. destruct Hm as (I' & K & He & Hl & Hc & _). pose proof K as (Kr&_&_&_&_&Kc&_).
      split_and!; [done|done| |done|done]. unfold view. rewrite Em, (keeps_unread s s'), (keeps_clip s s' K), Hl, Hc, (proj2 HE Hn) by (done || lia). done.
    + destruct (clip s) as [|x b] eqn:Eb; [by pose proof (proj1 HE eq_refl); lia|]. rewrite <- Eb. destruct (replaced_cut s I Hroom s0 H0) as (Ecut & Eu & Ec & I0 & He0 & Hr0 & _).
      pose proof (inserted_sim s I Hroom s0 s' _ H0 Hi HC ltac:(lia)) as HS. rewrite <- Ecut in HS |- *. unfold fitting_clip in HS. rewrite Ec in HS.
      pose proof (length_line s0 I0). pose proof (length_unread s0 I0). rewrite Eu in *. pose proof (inv_order s0 I0). replace (Z.to_nat (ir (inp s0) + 128 - ie (inp s0))) with (128 - length (unread s) - length (line s0))%nat in HS by lia. exact HS.
Qed.

Lemma wp_backspace_sim : wp key_backspace s (fun _ s' => sim s s' (match mode s with
  | Selected _ _ => let (l, k) := cut (line s) (col s) (mode s) in mkEditor (unread s) l k NoMark (clip s)
  | _ => if col s >? 0 then mkEditor (unread s) (del (line s) (Z.to_nat (col s - 1)) 1) (col s - 1) (mode s) (clip s) else view s end)).
Proof.
  eapply (wp_wlp _ _ _ _ (fun _ s' => if has_selection (inp s) then replaced s s' else if col s >? 0 then deleted s s' (col s - 1) 1 else s' = s)); [apply marks_backspace| |].
  - destruct (has_selection (inp s)) eqn:Hs.
    + unfold key_backspace. apply wp_bind, wp_gets. cbn [id]. rewrite Hs. apply wp_delete_selection; [done|done|lia|]. intros s' Hd _. unfold replaced. by rewrite Hs.
    + apply wp_key_backspace; [done|done|lia|..]; intros Hc; [intros s' Hd|]; destruct (Z.gtb_spec (col s) 0); (done || lia).
  - intros a s' D H. pose proof (deselects_ok s s' HM D) as HM'. destruct (has_selection (inp s)) eqn:Hs.
    + destruct (replaced_cut s I Hroom s' H) as (Ecut & Eu & Ec & I' & _ & Hr & Hctl). replace (mode s) with (Selected (sel_lo s) (sel_hi s)) in * by (unfold mode; by rewrite Hs). rewrite <- Ecut.
      unfold deselects in D. rewrite Hs in D. destruct (cleared_mode s' D) as [Em _]. split_and!; try done. unfold view. by rewrite Em, Eu, Ec.
    + assert (Emd : deselected (mode s) = mode s /\ forall lo hi, mode s <> Selected lo hi) by (unfold mode; rewrite Hs; by destruct (_ =? 0)). destruct Emd as [Emd Hns].
      assert (HG : sim s s' (if col s >? 0 then mkEditor (unread s) (del (line s) (Z.to_nat (col s - 1)) 1) (col s - 1) (mode s) (clip s) else view s)).
      { destruct (col s >? 0); [|subst s'; by apply sim_refl]. destruct H as (I' & K & He & Hl & Hc & _). pose proof K as (Kr&Kw&_&_&_&Kc&_). split_and!; [done|done| |done|done].
        unfold view. rewrite (keeps_unread s s'), Hl, Hc, (deselects_same s s' D Kw), (keeps_clip s s' K), Emd by (done || lia). done. }
      destruct (mode s); [done|done|by destruct (Hns lo hi)].
Qed.

Lemma wp_default_sim c : 0 < c < 256 -> wp (key_default c) s (fun _ s' => sim s s' (let (l, k) := cut (line s) (col s) (mode s) in
  if (c =? 10) || (c =? 13) then mkEditor (unread s ++ l ++ [10]) [] 0 NoMark (clip s) else mkEditor (unread s) (ins l (Z.to_nat k) (i8 c)) (k + 1) NoMark (clip s))).
Proof.
  intros Hc. eapply (wp_wlp _ _ _ _ (fun _ s' => exists s0, replaced s s0 /\ typed s0 s' (if c =? 13 then 10 else c))); [apply marks_default; lia|apply wp_key_default; [done|lia|lia|]|].
  - intros s0 s' H0 Ht _. by exists s0.
  - intros a s' HC (s0 & H0 & Ht). destruct (replaced_cut s I Hroom s0 H0) as (_ & _ & _ & _ & He0 & Hr0 & _). unfold typed in Ht. replace (ie (inp s0) =? ir (inp s0) + 128) with false in Ht by lia. rewrite orb_false_r in Ht.
    replace (ie (inp s0) <? ir (inp s0) + 128) with true in Ht by lia. replace ((if c =? 13 then 10 else c) =? 10) with ((c =? 10) || (c =? 13)) in Ht by (destruct (c =? 13) eqn:E; lia).
    destruct ((c =? 10) || (c =? 13)) eqn:E.
    + destruct Ht as [Ht _]. pose proof (committed_sim s I Hroom s0 s' H0 Ht HC) as HS. by destruct (cut _ _ _).
    + replace (c =? 13) with false in Ht by lia. destruct Ht as [Ht _]. pose proof (inserted_sim s I Hroom s0 s' _ H0 Ht HC ltac:(lia)) as HS. by destruct (cut _ _ _).
Qed.
End Keys.

Lemma wp_plain_key c s (Q : bool -> console -> Prop) :
  edit_inv s -> marks_ok s -> plain_key c -> ie (inp s) < ir (inp s) + 128 -> ie (inp s) + 128 < 2147483646 ->
  (forall b s', sim s s' (ed_step (view s) c) -> Q b s') -> wp (handle_key c) s Q.
Proof.
  intros I HM ((Hc & H9) & H90) Hroom Hmax HQ. unfold handle_key. apply Z.eqb_neq in H9, H90. rewrite H9, H90.
  assert (HQ' : forall b (m : M console unit), wp m s (fun _ s' => sim s s' (ed_step (view s) c)) -> wp (m ;;; ret b) s Q).
  { intros b m Hm. apply wp_then_false. eapply wp_mono; [exact Hm|]. intros ? s' HS. by apply HQ. }
  assert (HD : forall m k, (forall R : unit -> console -> Prop, (forall s', moved s s' k -> R tt s') -> wp m s R) -> wlp m s (fun _ s' => deselects (inp s) (inp s')) -> wp m s (fun _ s' => sim s s' (mkEditor (unread s) (line s) k (deselected (mode s)) (clip s)))).
  { intros m k Hm Hd. eapply (wp_wlp _ _ _ _ (fun _ s' => moved s s' k)); [exact Hd|by apply Hm|]. intros ? s' D Hmv. by apply moved_sim. }
  unfold ed_step, view in HQ' |- *. clear HQ.
  apply wp_if; intros Hk; rewrite Hk in HQ'; [by apply HQ', wp_select_sim|clear Hk].
  apply wp_if; intros Hk; rewrite Hk in HQ'; [apply HQ'; by apply wp_copy_sim|clear Hk].
  apply wp_if; intros Hk; rewrite Hk in HQ'; [by apply HQ', wp_paste_sim|clear Hk].
  apply wp_if; intros Hk; rewrite Hk in HQ'; [apply HQ', HD; [intros R HR; apply wp_key_word_left; (done || lia)|apply marks_word_left]|clear Hk].
  apply wp_if; intros Hk; rewrite Hk in HQ'; [apply HQ'|clear Hk].
  { eapply (wp_wlp _ _ _ _ (fun _ s' => if decide (line s = []) then committed s s' 4 else moved s s' (next_word (line s) (col s)))); [apply marks_eof_or_word_right|apply wp_key_eof_or_word_right; [done|lia|..]; intros Hl s' Hx; by case_decide|].
    intros ? s' D Hx. destruct (line s) as [|x l] eqn:El; [by apply eof_sim|]. rewrite <- El in *. rewrite decide_False in Hx by (by rewrite El). by apply moved_sim. }
  apply wp_if; intros Hk; rewrite Hk in HQ'; [apply HQ', HD; [intros R HR; apply wp_deselect; intros s' Hq; by apply HR, quiet_moved|apply marks_deselect]|clear Hk].
  destruct (Z.eqb_spec c 0) as [->|Hc0].
  { change (wp (ret tt ;;; ret false) s Q). apply HQ', wp_ret. by apply sim_refl. }
  apply wp_if; intros Hk; rewrite Hk in HQ'; [apply HQ'|clear Hk].
  { eapply (wp_wlp _ _ _ _ (fun _ s' => killed_line s s')); [apply marks_kill_line|apply wp_key_kill_line; (done || lia)|]. intros ? s' D Hx. by apply killed_sim. }
  apply wp_if; intros Hk; rewrite Hk in HQ'; [by apply HQ', wp_backspace_sim|clear Hk].
  apply wp_if; intros Hk; rewrite Hk in HQ'; [apply HQ', HD; [intros R HR; apply wp_key_left; (done || lia)|apply marks_left]|clear Hk].
  apply wp_if; intros Hk; rewrite Hk in HQ'; [apply HQ', HD; [intros R HR; apply wp_key_right; (done || lia)|apply marks_right]|clear Hk].
  apply HQ', wp_default_sim; (done || lia).
Qed.

Lemma wp_plain_keys keys : forall d s,
  edit_inv s -> marks_ok s -> Forall plain_key keys -> roomy keys (view s) -> ir (inp s) + 256 < 2147483646 ->
  wp (key_loop keys d) s (fun _ s' => sim s s' (fold_left ed_step keys (view s))).
Proof.
  induction keys as [|c keys IH]; intros d s I HM Hk Hroom Hmax; cbn [key_loop fold_left].
  { apply wp_ret. by apply sim_refl. }
  apply Forall_cons_1 in Hk as [Hc Hk]. replace (c <? 0) with false by (destruct Hc as [[]]; lia). destruct Hroom as [Hr Hroom].
  cbn [view pending text] in Hr. pose proof (length_line s I). pose proof (length_unread s I). pose proof (inv_order s I).
  apply wp_bind, wp_plain_key; [done|done|done|lia|lia|]. intros b s' (I' & M' & V' & R' & C').
  eapply wp_mono; [apply IH; [done|done|done|by rewrite V'|lia]|]. cbn beta. intros _ s2 (I2 & M2 & V2 & R2 & C2).
  split_and!; [done|done|by rewrite V2, V'|congruence|by eapply same_ctl_trans].
Qed.

Lemma wp_consoleintr_plain keys s :
  edit_inv s -> marks_ok s -> cons_lock (scr s) = false -> Forall plain_key keys -> roomy keys (view s) -> ir (inp s) + 256 < 2147483646 ->
  wp (consoleintr keys) s (fun _ s' => edit_inv s' /\ marks_ok s' /\ cons_lock (scr s') = false /\
    view s' = fold_left ed_step keys (view s) /\ ir (inp s') = ir (inp s)).
Proof.
  intros I HM Hlock Hk Hroom Hmax.
  unfold consoleintr, acquire_cons, release_cons. apply wp_bind, wp_zoom, wp_bind, wp_gets. rewrite Hlock.
  apply wp_modify, wp_bind. eapply wp_mono.
  - apply wp_plain_keys; [|done|done|done|done]. destruct I. by constructor.
  - intros d s' (I' & M' & V' & R' & C'). apply wp_bind, wp_zoom, wp_bind, wp_gets.
    replace (cons_lock (scr s')) with true by (symmetry; apply C').
    apply wp_modify, wp_ret. split_and!; [|done|done|exact V'|exact R']. destruct I'. by constructor.
Qed.

(** C8: The console is a line editor with a selection and a clipboard.  On any
    keys but TAB and ^Z, from a state that satisfies the editor's invariant, in
    which a selection that is being made has a beginning and no end, as long as
    before each key the ring has room for a character (what is pending and the
    line are less than 128) and the index r of the ring is below 2^31 - 258 (the
    code keeps indices in ints), consoleintr() keeps these and takes the pending
    input, the line, the cursor, what is marked and the clipboard to exactly
    what the editor [ed_step] makes of them, key by key: letters go in at the
    cursor, in place of the selection if there is one; backspace takes out the
    selection or the character before the cursor; arrows, ^A and ^D move by
    characters and words, ^U empties the line, Enter hands it over; ^S begins
    and ends a selection, ^C copies it, ^V pastes what fits. *)
Theorem consoleintr_refines_editor keys s :
  edit_inv s -> marks_ok s -> cons_lock (scr s) = false -> Forall plain_key keys -> roomy keys (view s) -> ir (inp s) + 256 < 2147483646 ->
  exists d s', consoleintr keys s = Ok d s' /\ edit_inv s' /\ marks_ok s' /\ cons_lock (scr s') = false /\
    view s' = fold_left ed_step keys (view s).
Proof.
  intros I HM Hlock Hk Hroom Hmax.
  destruct (wp_run _ _ _ (wp_consoleintr_plain keys s I HM Hlock Hk Hroom Hmax)) as (d & s' & E & H).
  exists d, s'. tauto.
Qed.

(** ** Reading *)

(** A read as a consumer of a queue p of characters: it takes a line, or n
    characters, or what is there before a ^D. *)
Fixpoint reader (killed : bool) (target : Z) (n : nat) (bytes p : list Z) : read_state * list Z :=
  match n, p with
  | O, _ => (ReadDone bytes target, p)
  | S _, [] => (if killed then ReadDone bytes (-1) else ReadSleeping bytes (Z.of_nat n), [])
  | S n', c :: p' =>
      if c =? 4 then (ReadDone bytes (target - Z.of_nat n), if Z.of_nat n <? target then p else p')
      else if c =? 10 then (ReadDone (bytes ++ [c]) (target - Z.of_nat n'), p')
      else reader killed target n' (bytes ++ [c]) p'
  end.

Definition with_unread (s : console) (r : Z) : console := set_inp (with_r r (inp s)) s.

Lemma unread_cons s :
  edit_inv s -> ir (inp s) <> iw (inp s) ->
  unread s = rg (ibuf (inp s)) (ir (inp s)) :: unread (with_unread s (ir (inp s) + 1)).
Proof.
  intros I Hne. pose proof (inv_order s I). unfold unread. cbn. rewrite seqZ_cons by lia. cbn.
  do 3 f_equal; lia.
Qed.

Lemma with_unread_inv s r : edit_inv s -> 0 <= r <= iw (inp s) -> edit_inv (with_unread s r).
Proof. intros I Hr. destruct I. constructor; try done; cbn in *; lia. Qed.

Lemma with_unread_same s : with_unread s (ir (inp s)) = s.
Proof. by destruct s as [? []]. Qed.

Lemma wp_read_loop killed target n : forall bytes s,
  edit_inv s -> iw (inp s) < 2147483646 ->
  wp (read_loop killed target n bytes) s (fun st s' =>
    exists r, s' = with_unread s r /\ ir (inp s) <= r <= iw (inp s) /\
      (st, unread s') = reader killed target n bytes (unread s)).
Proof.
  induction n as [|n IH]; intros bytes s I Hmax; cbn [read_loop reader].
  - apply wp_ret. pose proof (inv_order s I). exists (ir (inp s)). rewrite with_unread_same.
    split_and!; done || lia.
  - pose proof (inv_order s I) as Ho. apply wp_bind, wp_gets, wp_if; cbn [id]; intros Hc; b2p.
    + apply wp_ret. exists (ir (inp s)). rewrite with_unread_same. split_and!; try done || lia.
      replace (unread s) with (@nil Z); [by destruct killed|].
      unfold unread. by rewrite Hc, Z.sub_diag.
    + rewrite (unread_cons s I Hc). set (ch := rg _ _). set (s1 := with_unread s (ir (inp s) + 1)).
      assert (I1 : edit_inv s1) by (apply with_unread_inv; [done|lia]).
      apply wp_bind, wp_buf_get; [lia|]. fold ch. apply wp_bind, wp_modify. cbn. wrap_simp. fold s1.
      change (Ctl 68) with 4. destruct (ch =? 4) eqn:E4.
      * apply wp_bind, wp_when; intros Hn; rewrite Hn.
        -- apply wp_modify, wp_ret. exists (ir (inp s)). rewrite u32_small by lia.
           replace (set_inp _ s1) with s by (by destruct s as [? []]). rewrite with_unread_same.
           split_and!; try lia || done. by rewrite (unread_cons s I Hc).
        -- apply wp_ret. exists (ir (inp s) + 1). split_and!; try lia || done.
      * destruct (ch =? 10).
        -- apply wp_ret. exists (ir (inp s) + 1). split_and!; try lia || done.
        -- eapply wp_mono; [apply IH; [done|done]|]. cbn. intros st s' (r & -> & Hr & Hst).
           exists r. split_and!; [by destruct s|lia|lia|exact Hst].
Qed.

Lemma wp_consoleread killed n s :
  edit_inv s -> iw (inp s) < 2147483646 -> cons_lock (scr s) = false -> 0 < n ->
  wp (consoleread killed n) s (fun st s' =>
    edit_inv s' /\ cons_lock (scr s') = false /\ line s' = line s /\ col s' = col s /\
    (st, unread s') = reader killed n (Z.to_nat n) [] (unread s)).
Proof.
  intros I Hmax Hlock Hn. unfold consoleread, acquire_cons, release_cons.
  apply wp_bind, wp_zoom, wp_bind, wp_gets. rewrite Hlock. apply wp_modify, wp_bind.
  replace (n <=? 0) with false by lia. eapply wp_mono.
  - apply wp_read_loop; [|done]. destruct I. by constructor.
  - cbn -[read_loop]. intros st s' (r & -> & Hr & Hst). apply wp_bind, wp_zoom, wp_bind, wp_gets. cbn.
    split_and!; [|done..]. apply (with_unread_inv s r) in I; [|pose proof (inv_order s I); cbn in Hr; lia].
    destruct I. by constructor.
Qed.

(** C35: A read of n > 0 bytes from the console, with its lock free and the
    index w of the ring below 2^31 - 2, consumes the pending input as a queue:
    it returns the characters up to and including the first newline, or n of
    them, or those before a ^D, which it takes only when it is first; it
    sleeps when the queue runs out and gives up when the process is killed.
    The line being edited is not touched. *)
Theorem consoleread_refines_queue killed n s :
  edit_inv s -> iw (inp s) < 2147483646 -> cons_lock (scr s) = false -> 0 < n ->
  exists st s', consoleread killed n s = Ok st s' /\ edit_inv s' /\ cons_lock (scr s') = false /\
    line s' = line s /\ col s' = col s /\
    (st, unread s') = reader killed n (Z.to_nat n) [] (unread s).
Proof.
  intros I Hmax Hlock Hn. pose proof (wp_consoleread killed n s I Hmax Hlock Hn) as H.
  apply wp_run in H as (st & s' & E & H). exists st, s'. tauto.
Qed.

(** Printable characters. *)
Definition printable (c : Z) : Prop := 32 <= c < 127.

Lemma ins_end l c : ins l (length l) c = l ++ [c].
Proof. unfold ins. rewrite take_ge, drop_ge by lia. done. Qed.

(** Typing at the end of a line, with nothing selected in it. *)
Lemma ed_printable p t m b c : printable c -> cut t (Z.of_nat (length t)) m = (t, Z.of_nat (length t)) ->
  ed_step (mkEditor p t (Z.of_nat (length t)) m b) c = mkEditor p (t ++ [c]) (Z.of_nat (length (t ++ [c]))) NoMark b.
Proof.
  unfold printable. intros Hc Hm. unfold ed_step, Ctl, KEY_LF, KEY_RT. repeat (case_match; [b2p; lia|]). rewrite Hm.
  repeat (case_match; [b2p; lia|]). rewrite length_app, Nat2Z.id, ins_end, i8_small by lia. f_equal. cbn. lia.
Qed.

Lemma ed_newline p t m b : cut t (Z.of_nat (length t)) m = (t, Z.of_nat (length t)) ->
  ed_step (mkEditor p t (Z.of_nat (length t)) m b) 10 = mkEditor (p ++ t ++ [10]) [] 0 NoMark b.
Proof. intros Hm. unfold ed_step. cbn [Z.eqb Ctl Z.sub Pos.eqb Z.add Z.opp Z.pos_sub KEY_LF KEY_RT orb]. by rewrite Hm. Qed.

Lemma ed_type_line p l b : forall t m, Forall printable l -> cut t (Z.of_nat (length t)) m = (t, Z.of_nat (length t)) ->
  fold_left ed_step (l ++ [10]) (mkEditor p t (Z.of_nat (length t)) m b) = mkEditor (p ++ (t ++ l) ++ [10]) [] 0 NoMark b /\
  ((length p + length t + length l < 128)%nat -> roomy (l ++ [10]) (mkEditor p t (Z.of_nat (length t)) m b)).
Proof.
  induction l as [|c l IH]; intros t m Hl Hm; cbn [fold_left app roomy pending text].
  { rewrite ed_newline, app_nil_r by done. split; [done|]. intros Hr. cbn in Hr. split; [lia|done]. }
  apply Forall_cons_1 in Hl as [Hc Hl]. rewrite ed_printable by done. destruct (IH (t ++ [c]) NoMark Hl eq_refl) as [IH1 IH2].
  rewrite IH1, <- (app_assoc t). split; [done|]. cbn [length]. intros Hr. split; [lia|]. apply IH2. rewrite length_app. cbn. lia.
Qed.

Lemma plain_printables l : Forall printable l -> Forall plain_key l.
Proof. induction 1; constructor; [|done]. unfold printable, plain_key, edit_key, Ctl in *. lia. Qed.

Lemma reader_line killed n l p : forall k bytes,
  Forall printable l -> (length l < k)%nat ->
  reader killed n k bytes (l ++ 10 :: p) = (ReadDone (bytes ++ l ++ [10]) (n - (Z.of_nat k - Z.of_nat (length l) - 1)), p).
Proof.
  induction l as [|c l IH]; intros k bytes Hl Hk; destruct k as [|k]; cbn [length] in Hk; try lia.
  - cbn [app reader]. f_equal. f_equal. cbn. lia.
  - apply Forall_cons_1 in Hl as [Hc Hl]. unfold printable in Hc. cbn [app reader].
    replace (c =? 4) with false by lia. replace (c =? 10) with false by lia.
    rewrite IH by (done || lia). rewrite <- app_assoc. cbn. do 2 f_equal. lia.
Qed.

(** Nothing in an empty line is selected. *)
Lemma empty_cut s : edit_inv s -> line s = [] -> col s = 0 /\ cut [] 0 (mode s) = ([], 0).
Proof.
  intros I Hl. pose proof (length_line s I) as Hlen. rewrite Hl in Hlen. cbn in Hlen. pose proof (inv_order s I). unfold mode.
  split; [unfold col; lia|]. destruct (has_selection (inp s)) eqn:Hs; [|by destruct (_ =? 0)]. pose proof (sel_bounds s I Hs) as Hb. unfold col in Hb.
  cbn [cut]. replace (sel_lo s) with 0 by lia. unfold del. by rewrite take_nil, drop_nil.
Qed.

Lemma view_empty s : edit_inv s -> line s = [] -> unread s = [] -> view s = mkEditor [] [] 0 (mode s) (clip s).
Proof. intros I Hl Hu. unfold view. destruct (empty_cut s I Hl) as [-> _]. by rewrite Hl, Hu. Qed.

(** A line of printable characters and Enter, typed at an empty line with
    nothing to read, is what the next read takes. *)
Lemma read_typed_line l n s s1 : edit_inv s -> line s = [] -> unread s = [] -> Forall printable l -> (length l < 128)%nat -> Z.of_nat (length l) < n ->
  edit_inv s1 -> cons_lock (scr s1) = false -> view s1 = fold_left ed_step (l ++ [10]) (view s) -> ir (inp s1) + 256 < 2147483646 ->
  exists s2, consoleread false n s1 = Ok (ReadDone (l ++ [10]) (Z.of_nat (length l) + 1)) s2 /\
    edit_inv s2 /\ line s2 = [] /\ unread s2 = [].
Proof.
  intros I Hline Hun Hl Hl128 Hn I1 L1 V1 Hmax. rewrite (view_empty s I Hline Hun) in V1. destruct (empty_cut s I Hline) as [_ Hcut].
  destruct (ed_type_line [] l (clip s) [] (mode s) Hl Hcut) as [E _]. cbn [length app] in E. change (Z.of_nat 0) with 0 in E. rewrite E in V1. clear E. cbn in V1. injection V1 as Vu Vl _ _ _.
  pose proof (length_unread s1 I1) as Hu1. rewrite Vu, length_app in Hu1. cbn in Hu1. pose proof (inv_order s1 I1).
  destruct (wp_run _ _ _ (wp_consoleread false n s1 I1 ltac:(lia) L1 ltac:(lia)))
    as (st & s2 & E2 & I2 & _ & Hl2 & _ & Hst).
  rewrite Vu, reader_line in Hst by (done || lia). injection Hst as Est Eu.
  exists s2. split_and!; [|done|congruence|done].
  rewrite E2, Est. cbn. do 2 f_equal. lia.
Qed.
