(* ===== verification/ConsoleUndo.v ===== *)
(** Undo reverts typing; selecting and copying; pasting; the states the
    console boots in; and what goes wrong at the edges: a full ring, TAB in
    the middle of the buffer, ^Z after a deletion. *)

From stdpp Require Import base gmap list strings numbers.
From Stdlib Require Import ZArith Lia.
From S2P Require Import Prelude Kstring Screen Console ConsoleInv ConsoleKeys ConsoleEdit ConsoleSpec.

Open Scope Z_scope.
Open Scope kern_scope.

(** ** Running keys one after the other *)

Lemma wp_key_loop_app a b : forall d s (Q : bool -> console -> Prop),
  Forall (fun c => 0 <= c) a ->
  wp (key_loop a d) s (fun d' s' => wp (key_loop b d') s' Q) -> wp (key_loop (a ++ b) d) s Q.
Proof.
  induction a as [|c a IH]; intros d s Q Ha H; cbn [app key_loop] in *; [exact H|].
  apply Forall_cons_1 in Ha as [Hc Ha]. replace (c <? 0) with false in * by lia.
  unfold wp, bind in *. destruct (handle_key c s); [|done..]. by apply IH.
Qed.

Lemma wp_key_loop_one c d s (Q : bool -> console -> Prop) :
  0 <= c -> wp (handle_key c) s (fun b s' => forall b', Q b' s') -> wp (key_loop [c] d) s Q.
Proof.
  intros Hc H. cbn [key_loop]. replace (c <? 0) with false by lia.
  apply wp_bind. eapply wp_mono; [exact H|]. intros b s' H'. apply wp_ret, H'.
Qed.

(** A lemma about the key loop is one about consoleintr(), whose lock the
    keys do not touch. *)
Definition lock_free (P : console -> Prop) : Prop :=
  forall s b, P (set_scr (set_cons_lock b (scr s)) s) <-> P s.

Lemma edit_inv_lock : lock_free edit_inv.
Proof. intros s b. split; intros []; by constructor. Qed.

Lemma wp_consoleintr keys s (Q : console -> Prop) :
  cons_lock (scr s) = false -> lock_free Q ->
  wp (key_loop keys false) (set_scr (set_cons_lock true (scr s)) s)
    (fun _ s' => Q s' /\ cons_lock (scr s') = true) ->
  wp (consoleintr keys) s (fun _ s' => Q s').
Proof.
  intros Hl HQ H. unfold consoleintr, acquire_cons, release_cons.
  apply wp_bind, wp_zoom, wp_bind, wp_gets. rewrite Hl.
  apply wp_modify, wp_bind. eapply wp_mono; [exact H|].
  intros d s' [Hs Hl']. apply wp_bind, wp_zoom, wp_bind, wp_gets. rewrite Hl'.
  apply wp_modify, wp_ret. by apply HQ.
Qed.

(** ** Undo reverts typing *)

(** Two states with the same line, cursor, pending input and undo stack. *)
Record same_edit (s s' : console) : Prop := {
  same_inv : edit_inv s';
  same_sel : has_selection (inp s') = false;
  same_line : line s' = line s;
  same_col : col s' = col s;
  same_unread : unread s' = unread s;
  same_r : ir (inp s') = ir (inp s);
  same_w : iw (inp s') = iw (inp s);
  same_e : ie (inp s') = ie (inp s);
  same_undo_n : undo_n s' = undo_n s;
  same_undo : take (Z.to_nat (undo_n s)) (undo_buf s') = take (Z.to_nat (undo_n s)) (undo_buf s);
  same_screen : same_ctl (scr s) (scr s')
}.

Lemma take_aset_ge {A} (l : list A) n x : 0 <= n -> take (Z.to_nat n) (aset l n x) = take (Z.to_nat n) l.
Proof.
  intros Hn. unfold aset. replace (n <? 0) with false by lia. apply take_insert_ge. lia.
Qed.

Lemma last_op_take s s' :
  0 < undo_n s <= 128 -> length (undo_buf s) = 128%nat -> length (undo_buf s') = 128%nat ->
  undo_n s' = undo_n s ->
  take (Z.to_nat (undo_n s)) (undo_buf s') = take (Z.to_nat (undo_n s)) (undo_buf s) ->
  last_op s' = last_op s.
Proof.
  intros Hn Hl Hl' En Et. unfold last_op, aget. rewrite En. replace (_ <? 0) with false by lia.
  apply (f_equal (fun l => nth (Z.to_nat (undo_n s - 1)) l (mkOp OP_INSERT 0 0))) in Et.
  rewrite !nth_lookup, !lookup_take_lt, <- !nth_lookup in Et by lia. exact Et.
Qed.

Lemma wp_undo_last s s1 s2 c (Q : unit -> console -> Prop) :
  edit_inv s -> has_selection (inp s) = false -> ie (inp s) + 1 < 2147483646 ->
  ie (inp s) < ir (inp s) + 128 -> undo_n s < 128 ->
  inserted s s1 [c] -> undo_of s1 = undo_after s OP_INSERT c (ic (inp s)) ->
  unread s1 = unread s -> same_edit s1 s2 ->
  (forall s3, same_edit s s3 -> Q tt s3) -> wp key_undo s2 Q.
Proof.
  intros I Hs Hmax Hroom Hun (I1 & K1 & He1 & Hl1 & Hc1 & _) Hu1 Hun1 S12 HQ.
  pose proof S12 as []. destruct K1 as (Kr & Kw & _ & _ & _ & Kctl & _).
  pose proof (inv_order s I) as Ho. pose proof (inv_undo s I) as [Hul Hub].
  pose proof (inv_undo s1 I1) as [Hul1 _]. pose proof (inv_undo s2 same_inv0) as [Hul2 _].
  unfold undo_of, undo_after, UNDO_BUF in Hu1. replace (undo_n s <? 128) with true in Hu1 by lia.
  injection Hu1 as Hb1 Hn1. cbn [length] in *.
  assert (Hlast : last_op s2 = mkOp OP_INSERT (i8 c) (ic (inp s))).
  { rewrite (last_op_take s1 s2) by (done || lia). unfold last_op. rewrite Hb1, Hn1.
    replace (undo_n s + 1 - 1) with (undo_n s) by lia. apply aget_aset_eq. lia. }
  apply wp_key_undo; [done|lia|lia|..]; intros Hn; unfold undoable; rewrite Hlast; cbn [op_type op_pos].
  { intros Hf. apply negb_false_iff in Hf. b2p. destruct Hf; b2p; lia. }
  intros _ s3 (I3 & K3 & He3 & Hl3 & Hc3 & Hs3) Hu3. injection Hu3 as Hb3 Hn3. pose proof K3 as (Kr3 & Kw3 & _ & _ & _ & Kctl3 & _).
  pose proof (length_line s I) as Hlen.
  apply HQ. constructor; try done; try congruence; try lia.
  - rewrite Hl3, same_line0, Hl1, same_w0, Kw. apply del_ins. lia.
  - rewrite Hc3. unfold col. lia.
  - rewrite (keeps_unread s2 s3) by (done || lia). congruence.
  - rewrite Hb3. apply (f_equal (take (Z.to_nat (undo_n s)))) in same_undo0.
    rewrite !take_take, Hn1, Hb1 in same_undo0.
    replace (Z.to_nat (undo_n s) `min` Z.to_nat (undo_n s + 1))%nat with (Z.to_nat (undo_n s)) in same_undo0 by lia.
    rewrite same_undo0. apply take_aset_ge. lia.
  - eapply same_ctl_trans; [exact Kctl|]. by eapply same_ctl_trans.
Qed.

Lemma wp_type_undo l : forall d s,
  edit_inv s -> has_selection (inp s) = false -> Forall printable l ->
  ie (inp s) + Z.of_nat (length l) <= ir (inp s) + 128 -> undo_n s + Z.of_nat (length l) <= 128 ->
  ie (inp s) + Z.of_nat (length l) + 128 < 2147483646 ->
  wp (key_loop (l ++ repeat (Ctl 90) (length l)) d) s (fun _ s' => same_edit s s').
Proof.
  induction l as [|c l IH]; intros d s I Hs Hl Hroom Hun Hmax.
  { apply wp_ret. constructor; done. }
  apply Forall_cons_1 in Hl as [Hc Hl]. unfold printable in Hc. cbn [length] in *.
  replace (S (length l)) with (length l + 1)%nat by lia. rewrite repeat_app, app_assoc.
  change (c :: l ++ _) with ([c] ++ (l ++ repeat (Ctl 90) (length l))).
  change ((c :: l) ++ repeat (Ctl 90) (length l)) with ([c] ++ (l ++ repeat (Ctl 90) (length l))).
  rewrite <- app_assoc. apply wp_key_loop_app; [constructor; [lia|done]|].
  apply wp_key_loop_one; [lia|].
  unfold handle_key, Ctl, KEY_LF, KEY_RT. repeat (case_match; [b2p; lia|]). apply wp_then_false.
  apply wp_key_default; [done|lia|lia|]. intros s0 s1 Hrep Ht _ d'.
  unfold replaced in Hrep. rewrite Hs in Hrep. subst s0. unfold typed in Ht.
  replace (c =? 13) with false in Ht by lia. replace (c =? 10) with false in Ht by lia.
  replace (ie (inp s) =? _) with false in Ht by lia. replace (ie (inp s) <? _) with true in Ht by lia.
  destruct Ht as [Hi Hu]. pose proof Hi as (I1 & K1 & He1 & _ & _ & Hs1). cbn [length] in He1.
  pose proof K1 as (Kr & _). rewrite i8_small in Hi by lia.
  apply wp_key_loop_app.
  { apply Forall_app. split; [eapply Forall_impl; [|exact Hl]; unfold printable; lia|].
    apply Forall_forall. intros x Hx. apply repeat_spec in Hx. subst. unfold Ctl. lia. }
  eapply wp_mono; [apply IH; try done; try lia|].
  { unfold undo_of, undo_after, UNDO_BUF in Hu. replace (undo_n s <? 128) with true in Hu by lia.
    injection Hu as _ ->. lia. }
  cbn beta. intros d2 s2 S2. apply wp_key_loop_one; [unfold Ctl; lia|].
  change (repeat (Ctl 90) 1) with [Ctl 90]. cbn [handle_key]. change (handle_key (Ctl 90)) with (key_undo ;;; ret false).
  apply wp_then_false. eapply (wp_undo_last s s1 s2 c); try done; try lia.
  apply keeps_unread; [done|done|lia].
Qed.

(** C32: ^Z undoes typing.  With nothing selected, printable text typed anywhere
    in the line and followed by as many ^Z as it has characters leaves the line,
    the cursor, the pending input and the depth of the undo stack as they were.
    The text must fit the ring beside what is in it and the undo stack beside
    what is on it (128 each), and the ring's indices stay below 2^31 - 130. *)
Theorem undo_reverts_typing l s :
  edit_inv s -> has_selection (inp s) = false -> cons_lock (scr s) = false -> Forall printable l ->
  ie (inp s) + Z.of_nat (length l) <= ir (inp s) + 128 -> undo_n s + Z.of_nat (length l) <= 128 ->
  ie (inp s) + Z.of_nat (length l) + 128 < 2147483646 ->
  exists d s', consoleintr (l ++ repeat (Ctl 90) (length l)) s = Ok d s' /\ edit_inv s' /\
    line s' = line s /\ col s' = col s /\ unread s' = unread s /\ undo_n s' = undo_n s.
Proof.
  intros I Hs Hlock Hl Hroom Hun Hmax.
  apply (wp_run _ _ (fun _ s' => edit_inv s' /\ line s' = line s /\ col s' = col s /\ unread s' = unread s /\ undo_n s' = undo_n s)).
  apply (wp_consoleintr _ _ (fun s' => edit_inv s' /\ line s' = line s /\ col s' = col s /\ unread s' = unread s /\ undo_n s' = undo_n s)); [done| |].
  { intros s' b. by rewrite (edit_inv_lock s' b). }
  eapply wp_mono; [apply wp_type_undo; try done; by apply edit_inv_lock|].
  intros _ s' []. split_and!; try done. apply same_screen0.
Qed.

(** ** Select, copy, paste *)

(** Moving left while a selection is being made keeps its start. *)
Lemma wp_key_left_selecting s (Q : unit -> console -> Prop) :
  edit_inv s -> has_selection (inp s) = false -> ie (inp s) < 2147483646 -> 0 < col s ->
  (forall s', moved s s' (col s - 1) -> selecting (inp s') = selecting (inp s) ->
     sel_start (inp s') = sel_start (inp s) -> Q tt s') -> wp key_left s Q.
Proof.
  intros I Hs Hmax Hc HQ. pose proof (inv_order s I). pose proof (inv_cursor s I). unfold col in *.
  unfold key_left, deselect_if_any. apply wp_bind, wp_bind, wp_gets. cbn [id]. rewrite Hs. apply wp_ret.
  apply wp_bind, wp_gets, wp_when; cbn [id]; intros Hk; b2p; [|lia].
  apply wp_bind, wp_modify, wp_bind, wp_zoom, wp_get_cursor, wp_zoom, wp_set_cursor.
  cbn -[cursor set_cursor]. rewrite (u32_small (ic (inp s) - 1)) by lia. apply HQ; [|done|done].
  replace (ic (inp s) - iw (inp s) - 1) with (ic (inp s) - 1 - iw (inp s)) by lia.
  apply (moved_intro s (set_cursor (cursor (scr s) - 1) (set_index 15 (scr s)))); try done; try lia.
  rewrite cursor_set_cursor_small; lia.
Qed.

Lemma wp_lefts n : forall d s,
  edit_inv s -> has_selection (inp s) = false -> ie (inp s) < 2147483646 -> Z.of_nat n <= col s ->
  wp (key_loop (repeat KEY_LF n) d) s (fun _ s' =>
    moved s s' (col s - Z.of_nat n) /\ selecting (inp s') = selecting (inp s) /\
    sel_start (inp s') = sel_start (inp s)).
Proof.
  induction n as [|n IH]; intros d s I Hs Hmax Hn.
  - apply wp_ret. split_and!; try done. unfold moved. split_and!; done || lia.
  - change (repeat KEY_LF (S n)) with ([KEY_LF] ++ repeat KEY_LF n).
    apply wp_key_loop_app; [constructor; [unfold KEY_LF; lia|done]|].
    apply wp_key_loop_one; [unfold KEY_LF; lia|]. apply wp_then_false.
    apply wp_key_left_selecting; [done..|lia|]. intros s1 (I1 & K1 & He1 & Hl1 & Hc1 & Hs1 & Hu1) Hg1 Hsa1 d'.
    eapply wp_mono; [apply IH; [done|done|lia|lia]|].
    cbn beta. intros _ s2 ((I2 & K2 & He2 & Hl2 & Hc2 & Hs2 & Hu2) & Hg2 & Hsa2).
    split; [|split; congruence]. unfold moved.
    split_and!; try congruence; try lia. eapply keeps_trans; [done|done|lia].
Qed.

Lemma wp_select_copy n s (k := col s) :
  edit_inv s -> ie (inp s) < 2147483646 -> selecting (inp s) = 0 -> 0 < Z.of_nat n <= col s ->
  wp (key_loop ([Ctl 83] ++ repeat KEY_LF n ++ [Ctl 83; Ctl 67]) false) s (fun _ s' =>
    edit_inv s' /\ line s' = line s /\ col s' = k - Z.of_nat n /\
    (ie (inp s) <= ir (inp s) + 128 -> unread s' = unread s) /\ same_ctl (scr s) (scr s') /\
    clip s' = take n (drop (Z.to_nat (k - Z.of_nat n)) (line s)) /\ selection s' = clip s').
Proof.
  intros I Hmax Hsel Hn.
  apply wp_key_loop_app; [constructor; [unfold Ctl; lia|done]|]. apply wp_key_loop_one; [unfold Ctl; lia|].
  apply wp_then_false, wp_key_select; [done|done| |done].
  intros _ s1 (I1 & K1 & He1 & Hl1 & Hc1 & Hu1 & Hg1 & Hsa1 & Hsb1) d1.
  assert (Hs1 : has_selection (inp s1) = false) by (unfold has_selection; rewrite Hsb1; lia).
  apply wp_key_loop_app.
  { apply Forall_forall. intros x Hx. apply repeat_spec in Hx. subst. unfold KEY_LF. lia. }
  eapply wp_mono; [apply wp_lefts; [done|done|lia|lia]|].
  cbn beta. intros d2 s2 ((I2 & K2 & He2 & Hl2 & Hc2 & Hs2 & Hu2) & Hg2 & Hsa2).
  change [Ctl 83; Ctl 67] with ([Ctl 83] ++ [Ctl 67]).
  apply wp_key_loop_app; [constructor; [unfold Ctl; lia|done]|]. apply wp_key_loop_one; [unfold Ctl; lia|].
  apply wp_then_false, wp_key_select; [done|lia|congruence|].
  intros _ s3. destruct K1 as (Kr1 & Kw1 & _ & _ & _ & Kc1 & Kp1). destruct K2 as (Kr2 & Kw2 & _ & _ & _ & Kc2 & Kp2).
  assert (E2 : ic (inp s2) = ic (inp s) - Z.of_nat n) by (unfold col in *; lia).
  pose proof (inv_order s I) as Ho. rewrite Hsa2, Hsa1. unfold k, col in *.
  replace (_ =? _) with false by lia.
  intros (I3 & K3 & He3 & Hl3 & Hc3 & _ & _ & Hsa3 & Hsb3) d3.
  destruct K3 as (Kr3 & Kw3 & _ & _ & _ & Kc3 & Kp3). unfold col in Hc3.
  assert (Hs3 : has_selection (inp s3) = true) by (unfold has_selection; rewrite Hsa3, Hsb3; lia).
  apply wp_key_loop_one; [unfold Ctl; lia|]. apply wp_then_false, wp_key_copy; [done|lia| |congruence].
  intros _ b m Hclip I4 d4.
  assert (Hsl : selection s3 = take n (drop (Z.to_nat (ic (inp s) - iw (inp s) - Z.of_nat n)) (line s))).
  { unfold selection, sel_lo, sel_hi. rewrite Hsa3, Hsb3, Hl3, Hl2, Hl1. f_equal; [lia|f_equal; lia]. }
  split_and!; try done; try (eapply same_ctl_trans; [exact Kc1|eapply same_ctl_trans; [exact Kc2|exact Kc3]]); try congruence.
  - change (line s3 = line s). congruence.
  - change (col s3 = ic (inp s) - iw (inp s) - Z.of_nat n). unfold col. lia.
  - intros Hroom. change (unread (set_clip b m s3)) with (unread s3). unfold unread.
    rewrite Kr3, Kr2, Kr1, Kw3, Kw2, Kw1. apply ring_map_ext. intros i Hi.
    rewrite Kp3, Kp2, Kp1 by lia. done.
Qed.

(** Selecting and copying.  ^S, n times the left arrow, ^S and ^C leave
    the line as it is and put on the clipboard exactly the n characters
    before the place where the selection was started. *)
Theorem select_then_copy n s :
  edit_inv s -> cons_lock (scr s) = false -> ie (inp s) < 2147483646 -> selecting (inp s) = 0 ->
  0 < Z.of_nat n <= col s ->
  exists d s', consoleintr ([Ctl 83] ++ repeat KEY_LF n ++ [Ctl 83; Ctl 67]) s = Ok d s' /\
    edit_inv s' /\ line s' = line s /\ col s' = col s - Z.of_nat n /\
    clip s' = take n (drop (Z.to_nat (col s - Z.of_nat n)) (line s)) /\ selection s' = clip s'.
Proof.
  intros I Hlock Hmax Hsel Hn.
  apply (wp_run _ _ (fun _ s' => edit_inv s' /\ line s' = line s /\ col s' = col s - Z.of_nat n /\
    clip s' = take n (drop (Z.to_nat (col s - Z.of_nat n)) (line s)) /\ selection s' = clip s')).
  apply (wp_consoleintr _ _ (fun s' => edit_inv s' /\ line s' = line s /\ col s' = col s - Z.of_nat n /\
    clip s' = take n (drop (Z.to_nat (col s - Z.of_nat n)) (line s)) /\ selection s' = clip s')); [done| |].
  { intros s' b. by rewrite (edit_inv_lock s' b). }
  eapply wp_mono; [apply wp_select_copy; try done; by apply edit_inv_lock|].
  intros _ s' (I' & Hl & Hc & _ & Hctl & Hcl & Hsl). split_and!; done || apply Hctl.
Qed.

(** What ^V makes of s. *)
Definition pasted (s s' : console) : Prop :=
  let lo := if has_selection (inp s) then sel_lo s else col s in
  let hi := if has_selection (inp s) then sel_hi s else col s in
  let room := ir (inp s) + 128 - (ie (inp s) - (hi - lo)) in
  let new := take (Z.to_nat room) (clip s) in
  (clip s = [] -> line s' = line s /\ col s' = col s) /\
  (clip s <> [] -> line s' = take (Z.to_nat lo) (line s) ++ new ++ drop (Z.to_nat hi) (line s) /\
     col s' = lo + Z.of_nat (length new)) /\
  has_selection (inp s') = false /\ clip s' = clip s.

Lemma replaced_line s s0 : edit_inv s -> replaced s s0 ->
  let lo := if has_selection (inp s) then sel_lo s else col s in
  let hi := if has_selection (inp s) then sel_hi s else col s in
  col s0 = lo /\ take (Z.to_nat lo) (line s0) = take (Z.to_nat lo) (line s) /\
  drop (Z.to_nat lo) (line s0) = drop (Z.to_nat hi) (line s) /\ ie (inp s0) = ie (inp s) - (hi - lo).
Proof.
  intros I H0 lo hi. unfold replaced in H0. unfold lo, hi. pose proof (inv_order s I) as Ho. pose proof (length_line s I) as Hlen.
  destruct (has_selection (inp s)) eqn:Es; [|subst s0; split_and!; done || lia].
  pose proof (sel_bounds s I Es) as Hb. destruct H0 as (_ & _ & He0 & Hl0 & Hcol & _).
  rewrite Hl0, He0. unfold del, col in *. rewrite take_app_length', drop_app_length' by (rewrite length_take; lia).
  split_and!; [done|done| |lia]. f_equal. lia.
Qed.

Lemma wp_paste_pasted s : edit_inv s -> ie (inp s) + 128 < 2147483646 ->
  wp key_paste s (fun _ s' => edit_inv s' /\ pasted s s' /\ same_ctl (scr s) (scr s')).
Proof.
  intros I Hmax. pose proof (clip_empty s I) as HE. apply wp_key_paste; [done|done|..].
  - intros Hn s' (I' & K' & He & Hl & Hc & Hs & _). pose proof K' as (_ & _ & _ & _ & _ & Kc & _).
    split_and!; [done| |done]. unfold pasted. split_and!; [done| |done|by apply keeps_clip]. intros Hc0. by rewrite (proj2 HE Hn) in Hc0.
  - intros Hn s0 s' H0 (I' & K' & He & Hl & Hc & Hs).
    destruct (replaced_inv s s0 I H0) as (I0 & _ & _ & Hr0 & _ & _ & Hc0). destruct (replaced_survives s s0 I H0) as (_ & _ & Hctl0).
    destruct (replaced_line s s0 I H0) as (E1 & E2 & E3 & E4). pose proof K' as (_ & _ & _ & _ & _ & Kc & _).
    unfold fitting_clip in *. rewrite E4, Hr0, Hc0 in *. rewrite E1, E2, E3 in *.
    split_and!; [done| |by eapply same_ctl_trans]. unfold pasted. split_and!; [|done|done|by rewrite (keeps_clip s0 s' K')].
    intros Hc0'. apply HE in Hc0'. lia.
Qed.

Lemma pasted_lock s : lock_free (pasted s).
Proof. by intros s' b. Qed.

(** C33: Pasting, whatever is on the clipboard and selected, as long as the
    ring's indices stay below 2^31 - 130.  ^V puts the clipboard in at the
    cursor, in place of the selection if there is one, and leaves the cursor
    after it; what does not fit the ring is dropped from the end.  With an empty
    clipboard the line and the cursor stay, what is selected included.  Either
    way nothing is selected afterwards and the clipboard is as before. *)
Theorem paste_inserts_clipboard s :
  edit_inv s -> cons_lock (scr s) = false -> ie (inp s) + 128 < 2147483646 ->
  exists d s', consoleintr [Ctl 86] s = Ok d s' /\ edit_inv s' /\ pasted s s'.
Proof.
  intros I Hlock Hmax. apply (wp_run _ _ (fun _ s' => edit_inv s' /\ pasted s s')).
  apply (wp_consoleintr _ _ (fun s' => edit_inv s' /\ pasted s s')); [done| |].
  { intros s' b. by rewrite (edit_inv_lock s' b), (pasted_lock s s' b). }
  apply wp_key_loop_one; [unfold Ctl; lia|]. apply wp_then_false.
  set (sl := set_scr _ s). assert (Il : edit_inv sl) by by apply edit_inv_lock.
  eapply wp_mono; [apply (wp_paste_pasted sl); done|]. cbn beta. intros _ s' (I' & P' & _ & _ & C' & _) b. by split_and!.
Qed.
