(* ===== verification/ConsoleTab.v ===== *)
(** Command completion: the longest common prefix of the matching commands,
    and what TAB makes of a line that is the prefix of a command. *)

From stdpp Require Import base gmap list strings numbers.
From Stdlib Require Import ZArith Lia.
From S2P Require Import Prelude Kstring Screen Console ConsoleInv ConsoleKeys ConsoleEdit ConsoleSpec ConsoleUndo.

Open Scope Z_scope.
Open Scope kern_scope.

(** ** The longest common prefix *)

(** Characters of a C string: none is NUL. *)
Definition cstring (l : list Z) : Prop := Forall (fun c => c <> 0) l.

(** All the strings agree with the first on their first k characters. *)
Definition common (ms : list (list Z)) (k : nat) : Prop :=
  Forall (fun m => (k <= length m)%nat /\ take k m = take k (hd [] ms)) ms.

Lemma existsb_agree (others : list (list Z)) n c :
  existsb (fun m => negb (nth n m 0 =? c)) others = false <-> Forall (fun m => nth n m 0 = c) others.
Proof.
  induction others as [|m others IH]; cbn; [by split|].
  rewrite orb_false_iff, IH, Forall_cons_iff, negb_false_iff, Z.eqb_eq. done.
Qed.

Lemma take_S_nth (l : list Z) n : (n < length l)%nat -> take (S n) l = take n l ++ [nth n l 0].
Proof.
  intros H. apply take_S_r. rewrite nth_lookup. destruct (l !! n) eqn:E; [done|].
  apply lookup_ge_None in E. lia.
Qed.

(** The loop, started where everything agrees, stops at the longest agreement. *)
Lemma lcp_loop_spec m0 others : cstring m0 -> Forall cstring others ->
  forall first n, first = drop n m0 -> common (m0 :: others) n ->
  let k := lcp_loop first others n in
  common (m0 :: others) k /\ forall j, common (m0 :: others) j -> (j <= k)%nat.
Proof.
  intros C0 Co. induction first as [|c first IH]; intros n Hf Hn; cbn.
  - split; [done|]. intros j Hj. apply Forall_cons_1 in Hj as [[Hj _] _].
    apply (f_equal length) in Hf. rewrite length_drop in Hf. cbn in Hf. lia.
  - assert (Hlen : (n < length m0)%nat).
    { apply (f_equal length) in Hf. rewrite length_drop in Hf. cbn in Hf. lia. }
    assert (Hc : nth n m0 0 = c).
    { apply (f_equal (fun l => nth 0 l 0)) in Hf. rewrite !nth_lookup, lookup_drop, Nat.add_0_r in Hf.
      rewrite nth_lookup. cbn in Hf. done. }
    destruct (existsb _ others) eqn:E.
    + split; [done|]. intros j Hj. destruct (decide (j <= n)%nat) as [|Hjn]; [done|exfalso].
      apply not_false_iff_true in E. apply E. apply existsb_agree.
      apply Forall_cons_1 in Hj as [[Hj0 _] Hj]. eapply Forall_impl; [|exact Hj]. cbn. intros m [Hl Ht].
      apply (f_equal (fun l => nth n l 0)) in Ht. rewrite !nth_lookup, !lookup_take_lt in Ht by lia.
      rewrite <- !nth_lookup in Ht. congruence.
    + apply IH.
      * replace (S n) with (n + 1)%nat by lia. rewrite <- drop_drop, <- Hf. done.
      * apply existsb_agree in E. apply Forall_cons_1 in Hn as [_ Hn].
        constructor; [split; [lia|done]|]. cbn [hd] in *.
        rewrite Forall_forall in *. intros m Hm. specialize (Hn m Hm) as [Hl Ht]. specialize (E m Hm). specialize (Co m Hm).
        assert (n < length m)%nat.
        { destruct (decide (n < length m)%nat) as [|Hge]; [done|exfalso].
          rewrite nth_overflow in E by lia. unfold cstring in C0. rewrite Forall_forall in C0.
          apply (C0 (nth n m0 0)); [apply nth_In; lia|congruence]. }
        split; [lia|]. rewrite !take_S_nth, Ht, E, Hc by lia. done.
Qed.

Lemma strlen_cstring l : cstring l -> strlen l = Z.of_nat (length l).
Proof.
  induction 1 as [|c l Hc _ IH]; cbn [strlen length]; [done|]. replace (c =? 0) with false by lia. lia.
Qed.

Lemma find_lcp_spec ms : ms <> [] -> Forall cstring ms ->
  exists k, find_lcp_len ms = Z.of_nat k /\ common ms k /\ forall j, common ms j -> (j <= k)%nat.
Proof.
  intros Hne Hc. destruct ms as [|m0 [|m1 ms]]; [done| |].
  - apply Forall_cons_1 in Hc as [Hc _]. exists (length m0). cbn. rewrite strlen_cstring by done.
    split_and!; [done|by repeat constructor|]. intros j Hj. apply Forall_cons_1 in Hj. lia.
  - apply Forall_cons_1 in Hc as [C0 Co]. exists (lcp_loop m0 (m1 :: ms) 0). split; [done|].
    apply (lcp_loop_spec m0 (m1 :: ms) C0 Co m0 0); [done|].
    apply Forall_forall. intros m _. rewrite !take_0. split; [lia|done].
Qed.

(** find_lcp_len() returns the length of the longest common prefix of the
    strings it is given: they agree on that many characters, and on no more. *)
Theorem find_lcp_len_longest ms : ms <> [] -> Forall cstring ms ->
  exists k, find_lcp_len ms = Z.of_nat k /\ common ms k /\ forall j, common ms j -> (j <= k)%nat.
Proof. apply find_lcp_spec. Qed.

Lemma find_lcp_len_longest_witness :
  find_lcp_len [codes "stressfs"; codes "sh"; codes "st"] = 1 /\
  exists k, find_lcp_len [codes "stressfs"; codes "sh"; codes "st"] = Z.of_nat k /\
    common [codes "stressfs"; codes "sh"; codes "st"] k /\
    forall j, common [codes "stressfs"; codes "sh"; codes "st"] j -> (j <= k)%nat.
Proof.
  split; [reflexivity|]. apply find_lcp_len_longest; [discriminate|].
  repeat constructor; vm_compute; discriminate.
Defined.

(** ** TAB *)

Lemma u8_char_inj a b : is_char a -> is_char b -> u8 a = u8 b -> a = b.
Proof. unfold is_char, u8. intros. zdm. Qed.

Lemma strncmp_prefix p : forall q,
  cstring p -> Forall is_char p -> Forall is_char q ->
  (strncmp p q (length p) =? 0) = true <-> take (length p) q = p.
Proof.
  induction p as [|a p IH]; intros q Cp Hp Hq; [done|].
  apply Forall_cons_1 in Cp as [Ha Cp]. apply Forall_cons_1 in Hp as [Hac Hp].
  cbn [length strncmp hd tl]. replace (a =? 0) with false by lia. cbn [negb andb].
  assert (Hb : is_char (hd 0 q)) by (destruct Hq; cbn; [unfold is_char; lia|done]).
  destruct (Z.eqb_spec a (hd 0 q)) as [E|E].
  - destruct q as [|b q]; cbn in *; [lia|]. subst b. apply Forall_cons_1 in Hq as [_ Hq].
    rewrite (IH q Cp Hp Hq). split; [by intros ->|by injection 1].
  - rewrite Z.eqb_eq. split.
    + intros H. exfalso. apply E, u8_char_inj; [done..|lia].
    + destruct q as [|b q]; cbn in *; [done|]. by injection 1.
Qed.

(** The commands that a prefix can be completed to. *)
Definition candidates (p : list Z) : list (list Z) :=
  List.filter (fun cmd => bool_decide (p `prefix_of` cmd)) commands.

Lemma prefix_take_iff (p q : list Z) : p `prefix_of` q <-> take (length p) q = p.
Proof.
  split; [intros [k ->]; by apply take_app_length|]. intros H. exists (drop (length p) q). rewrite <- H at 1. by rewrite take_drop.
Qed.

Lemma commands_chars : Forall (fun m => cstring m /\ Forall is_char m /\ Forall (fun c => c <> 10) m) commands.
Proof.
  repeat constructor; vm_compute; intuition congruence.
Qed.

Lemma filter_ext_forall {A} (P : A -> Prop) f g (l : list A) :
  Forall P l -> (forall x, P x -> f x = g x) -> List.filter f l = List.filter g l.
Proof. induction 1 as [|x l Hx _ IH]; intros H; cbn; [done|]. rewrite (H x Hx), IH by done. done. Qed.

Lemma matches_candidates p :
  cstring p -> Forall is_char p ->
  List.filter (fun cmd => strncmp p cmd (length p) =? 0) commands = candidates p.
Proof.
  intros Cp Hp. apply (filter_ext_forall _ _ _ _ commands_chars). intros m (_ & Hm & _).
  apply Bool.eq_iff_eq_true. rewrite bool_decide_eq_true, prefix_take_iff. by apply strncmp_prefix.
Qed.

Lemma candidates_spec p : Forall (fun m => cstring m /\ Forall is_char m /\ Forall (fun c => c <> 10) m /\
  take (length p) m = p) (candidates p).
Proof.
  unfold candidates. pose proof commands_chars as H.
  induction H as [|m ms (Hc & Hm & H10) _ IH]; cbn; [done|].
  case_bool_decide as Hp; [|done]. apply prefix_take_iff in Hp. constructor; done.
Qed.

Lemma candidates_common p : common (candidates p) (length p) \/ candidates p = [].
Proof.
  destruct (candidates p) as [|m0 ms] eqn:E; [by right|left].
  pose proof (candidates_spec p) as H. rewrite E in H. unfold common. cbn [hd].
  pose proof (Forall_cons_1 _ _ _ H) as [(_ & _ & _ & H0) _].
  eapply Forall_impl; [|exact H]. cbn. intros m (_ & _ & _ & Ht). split; [|congruence].
  apply (f_equal length) in Ht. rewrite length_take in Ht. lia.
Qed.

Lemma wp_append_completion text lo hi s (Q : unit -> console -> Prop) (n := hi - lo) :
  edit_inv s -> 0 <= lo <= hi -> ie (inp s) + n <= ir (inp s) + 128 -> ie (inp s) + 128 < 2147483646 ->
  (forall i, lo <= i < hi -> is_char (aget 0 text i) /\ aget 0 text i <> 10) ->
  0 <= cursor (scr s) < 1920 ->
  (forall r sc, ring_ok r ->
     (forall j, ir (inp s) <= j < ir (inp s) + 128 ->
        rg r j = if (ie (inp s) <=? j) && (j <? ie (inp s) + n) then aget 0 text (lo + (j - ie (inp s)))
                 else rg (ibuf (inp s)) j) ->
     same_ctl (scr s) sc -> cursor sc = adv (cursor (scr s)) n ->
     Q tt (set_scr sc (set_inp (with_e (ie (inp s) + n) (with_buf r (inp s))) s))) ->
  wp (append_completion text lo hi) s Q.
Proof.
  intros I Hlo Hroom Hmax Hch Hcur HQ. pose proof (inv_order s I) as Ho. unfold append_completion.
  apply wp_bind, (wp_search (fun i t => lo <= i <= hi /\ exists r sc, ring_ok r /\
    (forall j, ir (inp s) <= j < ir (inp s) + 128 ->
       rg r j = if (ie (inp s) <=? j) && (j <? ie (inp s) + (i - lo)) then aget 0 text (lo + (j - ie (inp s)))
                else rg (ibuf (inp s)) j) /\
    same_ctl (scr s) sc /\ cursor sc = adv (cursor (scr s)) (i - lo) /\
    t = set_scr sc (set_inp (with_e (ie (inp s) + (i - lo)) (with_buf r (inp s))) s))).
  - split; [lia|]. exists (ibuf (inp s)), (scr s). split_and!; try apply I; try done.
    + intros j Hj. destruct (_ && _) eqn:E; [b2p; lia|done].
    + rewrite Z.sub_diag. symmetry. by apply adv_0.
    + rewrite Z.sub_diag, Z.add_0_r. by destruct s as [? []].
  - intros i t Hi (_ & r & sc & Hok & Hr & Hctl & Hc & ->).
    destruct (Hch i ltac:(lia)) as [Hic H10].
    apply wp_bind, wp_gets, wp_bind, wp_gets, wp_if; cbn -[cursor]; unfold INPUT_BUF; intros Hfull; b2p.
    { rewrite u32_small in Hfull by lia. lia. }
    apply wp_bind, wp_modify, wp_bind, wp_buf_set; [cbn; lia|]. cbn -[cursor].
    rewrite u32_small, i8_of_char by (done || lia).
    assert (0 <= cursor sc < 1920) by (rewrite Hc; apply adv_range; lia).
    apply wp_bind, wp_zoom, wp_consputc_char; cbn -[cursor]; [|done|unfold is_char, BACKSPACE in *; lia|lia|].
    { rewrite <- (inv_live s I). apply Hctl. }
    intros sc' Hctl' _ Hc' _. apply wp_ret. split; [lia|].
    set (e := ie (inp s) + (i - lo)) in *.
    exists (aset r (e mod 128) (aget 0 text i)), sc'. split_and!.
    + by apply ring_ok_aset.
    + intros j Hj. rewrite (rg_aset_win (ir (inp s))) by (try apply Hok; subst e; lia).
      rewrite Hr by lia. destruct (Z.eqb_spec e j) as [<-|Hne].
      * replace (_ && _) with true by (subst e; lia). f_equal. subst e. lia.
      * replace ((ie (inp s) <=? j) && (j <? ie (inp s) + (i + 1 - lo)))
          with ((ie (inp s) <=? j) && (j <? ie (inp s) + (i - lo))) by (subst e; lia). done.
    + by eapply same_ctl_trans.
    + rewrite Hc', Hc. replace (i + 1 - lo) with (i - lo + 1) by lia. apply advance_adv; lia.
    + replace (ie (inp s) + (i + 1 - lo)) with (e + 1) by (subst e; lia). done.
  - intros t (_ & r & sc & Hok & Hr & Hctl & Hc & ->). apply wp_ret.
    replace (lo + Z.of_nat (Z.to_nat (hi - lo)) - lo) with n in * by lia. by apply HQ.
Qed.

(** The characters appended by a completion. *)
Lemma wp_complete text k s (Q : unit -> console -> Prop) (len := Z.of_nat (length (line s))) :
  edit_inv s -> has_selection (inp s) = false -> col s = len ->
  (length (line s) <= k <= length text)%nat -> Forall is_char text -> Forall (fun c => c <> 10) text ->
  ie (inp s) + (Z.of_nat k - len) <= ir (inp s) + 128 -> ie (inp s) + 128 < 2147483646 ->
  (forall s', inserted s s' (take (k - length (line s)) (drop (length (line s)) text)) -> Q tt s') ->
  wp (append_completion text len (Z.of_nat k) ;;; let! e := inp_get ie in set_c e) s Q.
Proof.
  intros I Hs Hcol Hk Htc Ht10 Hroom Hmax HQ. pose proof (inv_order s I) as Ho.
  pose proof (inv_cursor s I) as Hcp. pose proof (length_line s I) as Hlen. fold len in Hlen. unfold col in Hcol.
  assert (Hch : forall i, len <= i < Z.of_nat k -> is_char (aget 0 text i) /\ aget 0 text i <> 10).
  { intros i Hi. unfold aget. replace (i <? 0) with false by lia. rewrite Forall_forall in Htc, Ht10.
    split; [apply Htc|apply Ht10]; apply nth_In; lia. }
  apply wp_bind, wp_append_completion; try done; try lia. intros r sc Hok Hr Hctl Hc.
  apply wp_bind, wp_gets, wp_modify. cbn -[cursor]. set (n := Z.of_nat k - len) in *.
  rewrite u32_small by lia. apply HQ.
  set (l := take _ _). assert (Hl : Z.of_nat (length l) = n).
  { unfold l. rewrite length_take, length_drop. lia. }
  pose proof (inv_len s I) as Hlen128.
  match goal with |- inserted _ ?x _ => set (s' := x) end.
  assert (I' : edit_inv s').
  { constructor; cbn -[cursor has_selection]; rewrite ?Hc; try lia; try apply I; try done.
    - intros i Hi. rewrite Hr by lia. destruct (_ && _) eqn:E; b2p; [apply Hch; lia|apply (inv_line s I); lia].
    - change (has_selection _) with (has_selection (inp s)). by rewrite Hs.
    - rewrite <- (inv_live s I). apply Hctl.
    - unfold adv. destruct (_ <? 1920) eqn:E; b2p; zdm. }
  split_and!; try done.
  - unfold keeps. cbn. split_and!; try done; try apply Hctl. intros _ i Hi. rewrite Hr by lia.
    destruct (_ && _) eqn:E; [b2p; lia|done].
  - cbn. lia.
  - apply line_ext; [done| |].
    { rewrite !length_app, length_take, length_drop. cbn. unfold col. lia. }
    cbn. intros j Hj. rewrite Hr by lia. unfold col.
    rewrite take_ge, (drop_ge (line s)), app_nil_r by lia.
    destruct (_ && _) eqn:E; b2p.
    + rewrite app_nth2 by lia. unfold l. rewrite !nth_lookup, lookup_take_lt, lookup_drop, <- nth_lookup by lia.
      unfold aget. replace (_ <? 0) with false by lia. f_equal. lia.
    + rewrite app_nth1 by lia. rewrite nth_line by lia. done.
  - unfold col. cbn. lia.
Qed.

Lemma prefix_line s :
  edit_inv s -> iw (inp s) mod 128 + Z.of_nat (length (line s)) <= 128 ->
  take (Z.to_nat (ie (inp s) - iw (inp s))) (drop (Z.to_nat (iw (inp s) mod INPUT_BUF)) (ibuf (inp s))) = line s.
Proof.
  intros I Hwrap. pose proof (inv_order s I) as Ho. pose proof (length_line s I) as Hlen.
  destruct (inv_ring s I) as [Hb _]. unfold INPUT_BUF. symmetry. apply line_ext; [done| |].
  - rewrite length_take, length_drop. pose proof (Z.mod_pos_bound (iw (inp s)) 128). lia.
  - intros k Hk. pose proof (Z.mod_pos_bound (iw (inp s)) 128) as Hm.
    rewrite nth_lookup, lookup_take_lt, lookup_drop, <- nth_lookup by lia.
    unfold rg, aget, INPUT_BUF.
    assert (E : (iw (inp s) + k) mod 128 = iw (inp s) mod 128 + k) by zdm.
    rewrite E. replace (_ <? 0) with false by lia. f_equal. lia.
Qed.

Lemma wp_no_space s (Q : option unit -> console -> Prop) :
  edit_inv s -> ie (inp s) < 2147483646 -> Forall (fun c => c <> 32) (line s) -> Q None s ->
  wp (search (urounds (iw (inp s)) (ie (inp s))) (i32 (iw (inp s))) (fun i =>
        let! ch := buf_geti i in ret (if ch =? 32 then Some tt else None))) s Q.
Proof.
  intros I Hmax Hsp HQ. pose proof (inv_order s I) as Ho. pose proof (length_line s I) as Hlen.
  unfold urounds. wrap_simp. apply (wp_search (fun _ t => t = s)); [done| |by intros s' ->].
  intros i s' Hi ->. apply wp_bind, wp_buf_geti; [lia|]. apply wp_ret.
  rewrite Forall_forall in Hsp.
  destruct (Z.eqb_spec (rg (ibuf (inp s)) i) 32) as [E|]; [exfalso|done].
  apply (Hsp 32); [|done]. rewrite <- E. replace i with (iw (inp s) + (i - iw (inp s))) by lia.
  rewrite <- nth_line by lia. apply nth_In. lia.
Qed.

(** A line TAB can complete: one word, the cursor at its end, in one piece in
    the ring. *)
Record completable (s : console) : Prop := {
  cpl_inv : edit_inv s;
  cpl_end : col s = Z.of_nat (length (line s));
  cpl_word : cstring (line s) /\ Forall (fun c => c <> 32) (line s);
  cpl_len : (length (line s) < 128)%nat;
  cpl_flat : iw (inp s) mod 128 + Z.of_nat (length (line s)) <= 128;
  cpl_max : ie (inp s) + 128 < 2147483646
}.

Lemma line_chars s : edit_inv s -> Forall is_char (line s).
Proof.
  intros I. apply Forall_forall. intros c Hc. apply in_map_iff in Hc as (i & <- & _). apply (inv_ring s I).
Qed.

Lemma wp_handle_tab s (ms := candidates (line s)) (k := Z.to_nat (find_lcp_len ms)) (Q : unit -> console -> Prop) :
  completable s -> has_selection (inp s) = false -> ms <> [] ->
  (length ms = 1%nat \/ last_key_was_tab s = 0) ->
  ie (inp s) + (find_lcp_len ms - Z.of_nat (length (line s))) <= ir (inp s) + 128 ->
  (forall s' t, inserted s s' (take (k - length (line s)) (drop (length (line s)) (hd [] ms))) ->
     line s ++ take (k - length (line s)) (drop (length (line s)) (hd [] ms)) = take k (hd [] ms) ->
     Q tt (set_tab t s')) ->
  wp handle_tab_completion s Q.
Proof.
  intros [] Hs Hne Hone Hroom HQ. pose proof (inv_order s cpl_inv0) as Ho.
  pose proof (length_line s cpl_inv0) as Hlen. destruct cpl_word0 as [Hcs Hsp].
  destruct (find_lcp_spec ms Hne) as (k' & Ek & Hcom & Hmaxk).
  { eapply Forall_impl; [|apply candidates_spec]. by intros m []. }
  assert (k' = k) as -> by (unfold k; rewrite Ek; lia).
  assert (Hlk : (length (line s) <= k)%nat).
  { apply Hmaxk. by destruct (candidates_common (line s)). }
  pose proof (candidates_spec (line s)) as Hcand. fold ms in Hcand.
  unfold handle_tab_completion. apply wp_bind, wp_gets, wp_bind, wp_gets, wp_bind.
  apply wp_no_space; [done|lia|done|]. cbn [negb orb].
  rewrite (i32_small (ie (inp s) - iw (inp s))) by lia.
  replace ((_ <? 0) || _) with false by (unfold INPUT_BUF; lia).
  apply wp_bind, wp_require; [unfold INPUT_BUF; lia|]. apply wp_bind, wp_gets.
  rewrite prefix_line by done. rewrite <- Hlen, Nat2Z.id, matches_candidates by (done || by apply line_chars).
  fold ms. destruct ms as [|m0 ms'] eqn:Em; [done|].
  apply Forall_cons_1 in Hcand as [(Hc0 & Hch0 & H100 & Ht0) _]. cbn [hd] in *.
  apply Forall_cons_1 in Hcom as [[Hkl _] _].
  assert (Eapp : line s ++ take (k - length (line s)) (drop (length (line s)) m0) = take k m0).
  { rewrite <- Ht0 at 1. rewrite take_take_drop. f_equal. lia. }
  assert (Hcpl : wp (append_completion m0 (Z.of_nat (length (line s))) (Z.of_nat k) ;;;
            let! e := inp_get ie in set_c e) s (fun _ s' => forall t, Q tt (set_tab t s'))).
  { apply wp_complete; try done; try lia. intros s' Hi t. by apply HQ. }
  destruct ms' as [|m1 ms'].
  - rewrite strlen_cstring by done. assert (Ek1 : k = length m0).
    { unfold k. cbn. rewrite strlen_cstring by done. lia. }
    rewrite <- Ek1. revert Hcpl. unfold wp, bind. destruct (append_completion _ _ _ s); [|done..].
    intros Hcpl. apply (Hcpl 0).
  - destruct Hone as [|Htab]; [done|]. apply wp_bind, wp_gets. rewrite Htab. cbn [negb Z.eqb].
    rewrite Ek. apply wp_bind, wp_when; intros Hgt; b2p.
    + eapply wp_mono; [exact Hcpl|]. cbn beta. intros _ s' H'. apply wp_modify, H'.
    + apply wp_modify. assert (k = length (line s)) as Ek2 by lia.
      apply HQ; [|done]. rewrite Ek2, Nat.sub_diag, take_0. by apply inserted_nil.
Qed.

Lemma wp_key_tab s (ms := candidates (line s)) (k := Z.to_nat (find_lcp_len ms)) (Q : unit -> console -> Prop) :
  completable s -> ms <> [] -> (length ms = 1%nat \/ last_key_was_tab s = 0) ->
  ie (inp s) + (find_lcp_len ms - Z.of_nat (length (line s))) <= ir (inp s) + 128 ->
  (forall s' t, inserted s s' (take (k - length (line s)) (drop (length (line s)) (hd [] ms))) ->
     line s' = take k (hd [] ms) -> Q tt (set_tab t s')) ->
  wp key_tab s Q.
Proof.
  intros Hcp Hne Hone Hroom HQ. unfold key_tab. apply wp_bind, wp_deselect. intros s1 Hq.
  destruct (quiet_line _ _ Hq) as [Hl Hc]. destruct (quiet_fields _ _ Hq) as (Fr&Fw&Fe&Fc&_).
  assert (Ft : last_key_was_tab s1 = last_key_was_tab s) by (by destruct Hq as (sc & p' & -> & _)).
  assert (Hcp1 : completable s1).
  { destruct Hcp. constructor; rewrite ?Hl, ?Hc, ?Fw, ?Fe; try done. by eapply quiet_inv. }
  pose proof (cpl_end _ Hcp1) as Hend.
  apply wp_handle_tab; [done|by eapply quiet_no_sel|rewrite Hl; done|rewrite Hl, Ft; done|rewrite Hl, Fe, Fr; done|].
  intros s' t Hi Happ. rewrite Hl in Hi, Happ. fold ms in Hi, Happ. fold k in Hi, Happ.
  pose proof Hi as (_ & _ & _ & Hline & _).
  rewrite Hend, Nat2Z.id, Hl, (take_ge (line s)), (drop_ge (line s)), app_nil_r in Hline by lia.
  apply HQ; [|congruence]. 
  destruct Hi as (I' & K' & He' & Hl' & Hc' & Hs').
  rewrite Hl in Hl'. unfold inserted. rewrite <- Hc, <- Fe. split_and!; try done. by eapply keeps_quiet_l.
Qed.

(** p is the longest of the strings that all of ms begin with. *)
Definition longest_common_prefix (p : list Z) (ms : list (list Z)) : Prop :=
  Forall (prefix p) ms /\ forall q, Forall (prefix q) ms -> q `prefix_of` p.

Lemma common_prefix ms k : common ms k -> Forall (prefix (take k (hd [] ms))) ms.
Proof.
  intros H. eapply Forall_impl; [|exact H]. cbn beta. intros m [Hl <-]. exists (drop k m). by rewrite take_drop.
Qed.

Lemma prefix_common ms p : ms <> [] -> Forall (prefix p) ms -> common ms (length p) /\ take (length p) (hd [] ms) = p.
Proof.
  intros Hne Hp. assert (E : take (length p) (hd [] ms) = p).
  { destruct Hp; [done|]. by apply prefix_take_iff. }
  split; [|done]. eapply Forall_impl; [|exact Hp]. intros m Hm. split; [by apply prefix_length|]. rewrite E. by apply prefix_take_iff.
Qed.

(** The strings have one, and it is what find_lcp_len() measures. *)
Lemma find_lcp_prefix ms p : ms <> [] -> Forall cstring ms -> longest_common_prefix p ms ->
  find_lcp_len ms = Z.of_nat (length p) /\ take (length p) (hd [] ms) = p.
Proof.
  intros Hne Hc [Hp Hmax]. destruct (find_lcp_spec ms Hne Hc) as (k & -> & Hk & Hkmax).
  destruct (prefix_common ms p Hne Hp) as [Hcp Ep]. specialize (Hkmax _ Hcp). split; [|done]. f_equal.
  pose proof (prefix_length _ _ (Hmax _ (common_prefix ms k Hk))) as Hl. rewrite length_take in Hl.
  assert ((k <= length (hd [] ms))%nat) by (destruct ms; [done|]; by apply Forall_cons_1 in Hk as [[] _]). lia.
Qed.

Lemma longest_common_prefix_exists ms : ms <> [] -> Forall cstring ms -> exists p, longest_common_prefix p ms.
Proof.
  intros Hne Hc. destruct (find_lcp_spec ms Hne Hc) as (k & _ & Hk & Hkmax). exists (take k (hd [] ms)). split; [by apply common_prefix|].
  intros q Hq. destruct (prefix_common ms q Hne Hq) as [Hcq <-]. specialize (Hkmax _ Hcq).
  replace (length q) with (length q `min` k)%nat by lia. rewrite <- take_take. apply prefix_take.
Qed.

(** C34: TAB completes commands.  Let the line be one word without NUL, of less
    than 128 characters, the cursor at its end, lying in one piece in the ring,
    whose indices stay below 2^31 - 130, and be the beginning of some of the
    commands.  Let p be the longest string that all these commands begin with,
    and the ring have room for it.  Then TAB makes the line p and leaves the
    cursor at its end (with one such command, p is the command).  With several
    commands this is said of the first TAB only, last_key_was_tab being 0: a
    second one in a row lists them. *)
Theorem tab_completes_to_lcp s p (ms := candidates (line s)) :
  completable s -> cons_lock (scr s) = false -> ms <> [] -> longest_common_prefix p ms ->
  (length ms = 1%nat \/ last_key_was_tab s = 0) ->
  iw (inp s) + Z.of_nat (length p) <= ir (inp s) + 128 ->
  exists d s', consoleintr [9] s = Ok d s' /\ edit_inv s' /\ line s' = p /\ col s' = Z.of_nat (length p).
Proof.
  intros Hcp Hlock Hne Hp Hone Hroom. pose proof (length_line s (cpl_inv s Hcp)) as Hlen0.
  destruct (find_lcp_prefix ms p Hne) as [Ek Ep]; [|done|]. { eapply Forall_impl; [|apply candidates_spec]. by intros m []. }
  apply (wp_run _ _ (fun _ s' => edit_inv s' /\ line s' = p /\ col s' = Z.of_nat (length p))).
  apply (wp_consoleintr _ _ (fun s' => edit_inv s' /\ line s' = p /\ col s' = Z.of_nat (length p))); [done| |].
  { intros s' b. by rewrite (edit_inv_lock s' b). }
  apply wp_key_loop_one; [lia|]. apply wp_then_false. set (sl := set_scr _ s).
  assert (Hcpl : completable sl) by (destruct Hcp; constructor; try done; by apply edit_inv_lock).
  apply wp_key_tab; change (line sl) with (line s); fold ms; [done..|rewrite Ek; cbn; lia|]. rewrite Ek, Nat2Z.id, Ep.
  intros s' t Hi Hline b. pose proof Hi as (I' & K' & He' & Hl' & Hc' & Hs').
  destruct K' as (_ & Kw & _ & _ & _ & Kc & _).
  assert (I'' : edit_inv (set_tab t s')) by (destruct I'; by constructor).
  split_and!; [done|exact Hline| |].
  - pose proof (cpl_end _ Hcpl) as Hend. pose proof (length_line s' I') as Hlen'. rewrite Hline in Hlen'.
    change (col (set_tab t s')) with (col s'). change (ie (inp sl)) with (ie (inp s)) in He'. change (col sl) with (col s) in *. change (line sl) with (line s) in *. change (iw (inp sl)) with (iw (inp s)) in *. lia.
  - destruct Kc as (_ & _ & Kc & _). cbn. by rewrite Kc.
Qed.
