(* ===== verification/ConsoleBoot.v ===== *)
(** The state the console boots in, concrete runs from it that instantiate
    the theorems of the console, and runs that show what goes wrong at the
    edges: a full ring, TAB where the line wraps around the ring, ^Z after a
    deletion. *)

From stdpp Require Import base gmap list strings numbers.
From Stdlib Require Import ZArith Lia.
From S2P Require Import Prelude Kstring Screen Console ConsoleInv ConsoleKeys ConsoleEdit ConsoleSpec ConsoleUndo ConsoleTab.

Open Scope Z_scope.
Open Scope kern_scope.

(** ** Boot *)

Lemma zeros_char b i : b = repeat 0 128 -> is_char (aget 0 b i) /\ aget 0 b i <> 10.
Proof.
  intros ->. unfold aget, is_char. destruct (_ <? 0); [lia|].
  destruct (nth_in_or_default (Z.to_nat i) (repeat 0 128) 0) as [Hi| ->]; [|lia].
  apply repeat_spec in Hi. lia.
Qed.

Lemma consoleinit_ok sc :
  panicked sc = false -> 0 <= cursor sc < 1920 ->
  exists s, consoleinit (console_boot sc) = Ok tt s /\
    edit_inv s /\ marks_ok s /\ cons_lock (scr s) = false /\ view s = mkEditor [] [] 0 (Selected 0 0) [].
Proof.
  intros Hp Hc. eexists. split; [reflexivity|]. split_and!; try done.
  constructor; cbn -[cursor repeat]; try done; try lia.
  - split; [done|]. intros i. by apply (zeros_char _ (i mod 128)).
  - intros i. by apply zeros_char.
  - change (u32 0) with 0. change (cursor (set_locking _ _)) with (cursor sc). lia.
Qed.

(** Booting establishes the invariant.  Whatever is on the screen, as long
    as the cursor is on it and not in the last line, consoleinit() on the
    zeroed static variables gives a console that satisfies the editor's
    invariant, with an empty line, nothing pending and the lock free. *)
Theorem consoleinit_establishes sc :
  panicked sc = false -> 0 <= cursor sc < 1920 ->
  exists s, consoleinit (console_boot sc) = Ok tt s /\
    edit_inv s /\ marks_ok s /\ cons_lock (scr s) = false /\ view s = mkEditor [] [] 0 (Selected 0 0) [].
Proof. apply consoleinit_ok. Qed.

(** A blank screen with a uart, and the console booted on it. *)
Definition blank : screen := mkScreen ∅ 0 ∅ true [] false false false.
Definition booted : console :=
  match consoleinit (console_boot blank) with Ok _ s => s | _ => console_boot blank end.

Lemma consoleinit_establishes_witness :
  panicked blank = false /\ 0 <= cursor blank < 1920 /\
  exists s, consoleinit (console_boot blank) = Ok tt s /\
    edit_inv s /\ marks_ok s /\ cons_lock (scr s) = false /\ view s = mkEditor [] [] 0 (Selected 0 0) [].
Proof.
  assert (Hp : panicked blank = false) by reflexivity.
  assert (Hc : 0 <= cursor blank < 1920) by (vm_compute; split; congruence).
  split; [exact Hp|]. split; [exact Hc|]. exact (consoleinit_establishes blank Hp Hc).
Defined.


Lemma booted_inv : edit_inv booted.
Proof.
  destruct (consoleinit_ok blank) as (s & E & I & _); [done|vm_compute; intuition congruence|].
  unfold booted. by rewrite E.
Qed.

Definition after (keys : list Z) (s : console) : console :=
  match consoleintr keys s with Ok _ s' => s' | _ => s end.

Lemma after_inv keys s :
  edit_inv s -> cons_lock (scr s) = false -> Forall edit_key keys ->
  ie (inp s) + 128 * Z.of_nat (length keys) < 2147483646 -> edit_inv (after keys s).
Proof.
  intros I Hl Hk Hmax. unfold after.
  assert (H : wp (consoleintr keys) s (fun _ s' => edit_inv s')).
  { apply (wp_consoleintr _ _ edit_inv); [done|apply edit_inv_lock|].
    eapply wp_mono; [apply wp_key_loop; [by apply edit_inv_lock|done|done]|].
    intros _ s' (I' & _ & Hctl). split; [done|apply Hctl]. }
  apply wp_run in H as (d & s' & -> & I'). done.
Qed.

(** ** Instances of the theorems *)

Lemma consoleintr_safe_witness :
  exists d s', consoleintr (codes "ls /" ++ [KEY_LF; 19; KEY_LF; 19; 3; 22; 26; 8; 21; 13]) booted = Ok d s' /\
    edit_inv s' /\ cons_lock (scr s') = false /\ ir (inp s') = ir (inp booted).
Proof.
  apply consoleintr_safe; [apply booted_inv|reflexivity| |vm_compute; congruence].
  repeat constructor; vm_compute; intuition congruence.
Defined.

(** Typed, corrected, selected, copied, replaced and pasted twice. *)
Definition edited : list Z :=
  codes "cta" ++ [KEY_LF; KEY_LF; 8; 97; 1; 99] ++ [Ctl 83; KEY_RT; KEY_RT; Ctl 83; Ctl 67] ++ codes "x" ++ [Ctl 86; Ctl 86].

Lemma consoleintr_refines_editor_witness :
  exists d s', consoleintr edited booted = Ok d s' /\ edit_inv s' /\ marks_ok s' /\ cons_lock (scr s') = false /\
    view s' = fold_left ed_step edited (view booted).
Proof.
  apply consoleintr_refines_editor; [apply booted_inv|done|reflexivity| | |vm_compute; congruence].
  - repeat constructor; vm_compute; intuition congruence.
  - vm_compute. repeat split; lia.
Defined.

Lemma edited_view : text (fold_left ed_step edited (view booted)) = codes "cxatata" /\ board (fold_left ed_step edited (view booted)) = codes "at".
Proof. vm_compute. split; reflexivity. Qed.

Lemma consoleread_refines_queue_witness :
  exists st s', consoleread false 3 (after (codes "abcd" ++ [13]) booted) = Ok st s' /\ edit_inv s' /\
    cons_lock (scr s') = false /\ line s' = line (after (codes "abcd" ++ [13]) booted) /\
    col s' = col (after (codes "abcd" ++ [13]) booted) /\
    (st, unread s') = reader false 3 (Z.to_nat 3) [] (unread (after (codes "abcd" ++ [13]) booted)).
Proof.
  apply consoleread_refines_queue; [|vm_compute; congruence|reflexivity|reflexivity].
  apply (after_inv (codes "abcd" ++ [13])); [apply booted_inv|reflexivity| |vm_compute; congruence].
  repeat constructor; vm_compute; intuition congruence.
Defined.

Lemma undo_reverts_typing_witness :
  exists d s', consoleintr (codes "xyz" ++ repeat (Ctl 90) 3) (after (codes "ab" ++ [KEY_LF]) booted) = Ok d s' /\
    edit_inv s' /\ line s' = line (after (codes "ab" ++ [KEY_LF]) booted) /\ col s' = col (after (codes "ab" ++ [KEY_LF]) booted) /\
    unread s' = unread (after (codes "ab" ++ [KEY_LF]) booted) /\ undo_n s' = undo_n (after (codes "ab" ++ [KEY_LF]) booted).
Proof.
  apply (undo_reverts_typing (codes "xyz")); try reflexivity; [| |vm_compute; congruence..].
  - apply (after_inv (codes "ab" ++ [KEY_LF])); [apply booted_inv|reflexivity| |vm_compute; congruence].
    repeat constructor; vm_compute; intuition congruence.
  - repeat constructor; vm_compute; congruence.
Defined.

Lemma select_then_copy_witness :
  exists d s', consoleintr ([Ctl 83] ++ repeat KEY_LF 2 ++ [Ctl 83; Ctl 67]) (after (codes "abcd") booted) = Ok d s' /\
    edit_inv s' /\ line s' = line (after (codes "abcd") booted) /\
    col s' = col (after (codes "abcd") booted) - Z.of_nat 2 /\
    clip s' = take 2 (drop (Z.to_nat (col (after (codes "abcd") booted) - Z.of_nat 2)) (line (after (codes "abcd") booted))) /\
    selection s' = clip s'.
Proof.
  apply (select_then_copy 2); try reflexivity; [|vm_compute; intuition congruence].
  apply (after_inv (codes "abcd")); [apply booted_inv|reflexivity| |vm_compute; congruence].
  repeat constructor; vm_compute; intuition congruence.
Defined.

Lemma paste_inserts_clipboard_witness :
  let s := after (codes "abcd" ++ [19; KEY_LF; KEY_LF; 19; 3; KEY_LF]) booted in
  clip s = codes "cd" /\ exists d s', consoleintr [Ctl 86] s = Ok d s' /\ edit_inv s' /\ pasted s s'.
Proof.
  cbv zeta. split; [reflexivity|].
  apply (paste_inserts_clipboard (after (codes "abcd" ++ [19; KEY_LF; KEY_LF; 19; 3; KEY_LF]) booted)); try reflexivity.
  apply (after_inv (codes "abcd" ++ [19; KEY_LF; KEY_LF; 19; 3; KEY_LF])); [apply booted_inv|reflexivity| |vm_compute; congruence].
  repeat constructor; vm_compute; intuition congruence.
Defined.

Lemma tab_completes_to_lcp_witness :
  candidates (line (after (codes "fo") booted)) = [codes "forktest"] /\
  exists d s', consoleintr [9] (after (codes "fo") booted) = Ok d s' /\ edit_inv s' /\
    line s' = codes "forktest" /\ col s' = Z.of_nat (length (codes "forktest")).
Proof.
  assert (E : candidates (line (after (codes "fo") booted)) = [codes "forktest"]) by (vm_compute; reflexivity).
  split; [exact E|]. apply (tab_completes_to_lcp (after (codes "fo") booted)); rewrite ?E.
  - constructor.
    + apply (after_inv (codes "fo")); [apply booted_inv|reflexivity| |vm_compute; congruence].
      repeat constructor; vm_compute; intuition congruence.
    + vm_compute. reflexivity.
    + split; vm_compute; repeat constructor; congruence.
    + vm_compute. lia.
    + vm_compute. congruence.
    + vm_compute. congruence.
  - vm_compute. reflexivity.
  - discriminate.
  - split; [by constructor|]. intros q Hq. by apply Forall_cons_1 in Hq as [Hq _].
  - left. reflexivity.
  - vm_compute. congruence.
Defined.

(** ** At the edges *)

(** Input is lost when the ring is full.  With 127 characters and a newline
    pending (e = r + INPUT_BUF), one more Enter is stored over the oldest
    unread character: the next read returns an empty line, and 129 characters
    count as pending in a ring of 128. *)
Theorem full_ring_loses_input :
  let s := after (repeat 97 127 ++ [13]) booted in
  unread s = repeat 97 127 ++ [10] /\
  exists s', consoleintr [13] s = Ok false s' /\ iw (inp s') - ir (inp s') = 129 /\
    exists s'', consoleread false 200 s' = Ok (ReadDone [10] 1) s''.
Proof.
  split; [vm_compute; reflexivity|]. eexists. split; [vm_compute; reflexivity|].
  split; [vm_compute; reflexivity|]. eexists. vm_compute. reflexivity.
Qed.

(** TAB on a line that wraps around the end of the ring copies characters
    from beyond input.buf. *)
Theorem tab_reads_past_the_ring :
  exists s', (let! _ := consoleintr (repeat 120 126 ++ [13]) in consoleread false 200) booted =
    Ok (ReadDone (repeat 120 126 ++ [10]) 127) s' /\
    consoleintr (codes "ec" ++ [9]) s' = Undef "memmove from input.buf".
Proof. eexists. split; [vm_compute; reflexivity|]. vm_compute. reflexivity. Qed.

(** TAB does not move the screen's cursor to the end of the line before it
    prints.  On the top line of the screen, TAB with the cursor not at the
    end followed by backspace makes the kernel panic. *)
Theorem tab_in_line_then_backspace_panics :
  consoleintr (codes "ec" ++ [KEY_LF; KEY_LF; 9; 8]) booted = Panic "pos under/overflow".
Proof. vm_compute. reflexivity. Qed.
