(* ===== verification/Kbd.v ===== *)
(** The keyboard (kbd.c, kbd.h): scan codes to characters, and its interrupt,
    which hands the characters to the console.

    The controller is the sequence of scan codes that wait in it: the status
    port says whether there is one, and a read of the data port takes it. *)

From Stdlib Require Import ZArith Lia.
From stdpp Require Import base gmap strings numbers list.
From S2P Require Import Prelude Kstring Screen Console ConsoleInv ConsoleKeys ConsoleEdit ConsoleSpec ConsoleUndo ConsoleBoot.

Open Scope Z_scope.
Open Scope kern_scope.

(** ** kbd.h *)

Definition KBS_DIB : Z := 1.
Definition SHIFT : Z := Z.shiftl 1 0.
Definition CTL : Z := Z.shiftl 1 1.
Definition ALT : Z := Z.shiftl 1 2.
Definition CAPSLOCK : Z := Z.shiftl 1 3.
Definition NUMLOCK : Z := Z.shiftl 1 4.
Definition SCROLLLOCK : Z := Z.shiftl 1 5.
Definition E0ESC : Z := Z.shiftl 1 6.

(** A table of 256 uchars: the first rows, and entries by index. *)
Definition table (rows : list Z) (entries : list (Z * Z)) : list Z :=
  foldl (fun t e => aset t (fst e) (u8 (snd e))) (rows ++ repeat 0 (256 - length rows)) entries.

Definition shiftcode : list Z := table [] [(0x1D, CTL); (0x2A, SHIFT); (0x36, SHIFT); (0x38, ALT); (0x9D, CTL); (0xB8, ALT)].
Definition togglecode : list Z := table [] [(0x3A, CAPSLOCK); (0x45, NUMLOCK); (0x46, SCROLLLOCK)].

(** The special keys, from 0x80 on. *)
Definition special_keys : list (Z * Z) :=
  [(0xC8, 0xE2); (0xD0, 0xE3); (0xC9, 0xE6); (0xD1, 0xE7); (0xCB, KEY_LF); (0xCD, KEY_RT); (0x97, 0xE0); (0xCF, 0xE1); (0xD2, 0xE8); (0xD3, 0xE9)].
Definition keypad : list Z := [0; 0; 0; 0; 0; 0; 0; 55; 56; 57; 45; 52; 53; 54; 43; 49; 50; 51; 48; 46; 0; 0; 0; 0].

Definition normalmap : list Z := table
  ([0; 27; 49; 50; 51; 52; 53; 54; 55; 56; 57; 48; 45; 61; 8; 9;
    113; 119; 101; 114; 116; 121; 117; 105; 111; 112; 91; 93; 10; 0; 97; 115;
    100; 102; 103; 104; 106; 107; 108; 59; 39; 96; 0; 92; 122; 120; 99; 118;
    98; 110; 109; 44; 46; 47; 0; 42; 0; 32; 0; 0; 0; 0; 0; 0] ++ keypad)
  ([(0x9C, 10); (0xB5, 47)] ++ special_keys).

Definition shiftmap : list Z := table
  ([0; 27; 33; 64; 35; 36; 37; 94; 38; 42; 40; 41; 95; 43; 8; 9;
    81; 87; 69; 82; 84; 89; 85; 73; 79; 80; 123; 125; 10; 0; 65; 83;
    68; 70; 71; 72; 74; 75; 76; 58; 34; 126; 0; 124; 90; 88; 67; 86;
    66; 78; 77; 60; 62; 63; 0; 42; 0; 32; 0; 0; 0; 0; 0; 0] ++ keypad)
  ([(0x9C, 10); (0xB5, 47)] ++ special_keys).

(** C(x) is x - 64: of the slash, a negative number that becomes 239. *)
Definition ctlmap : list Z := table
  [0; 0; 0; 0; 0; 0; 0; 0; 0; 0; 0; 0; 0; 0; 0; 0;
   Ctl 81; Ctl 87; Ctl 69; Ctl 82; Ctl 84; Ctl 89; Ctl 85; Ctl 73; Ctl 79; Ctl 80; 0; 0; 13; 0; Ctl 65; Ctl 83;
   Ctl 68; Ctl 70; Ctl 71; Ctl 72; Ctl 74; Ctl 75; Ctl 76; 0; 0; 0; 0; Ctl 92; Ctl 90; Ctl 88; Ctl 67; Ctl 86;
   Ctl 66; Ctl 78; Ctl 77; 0; 0; u8 (Ctl 47); 0; 0]
  ([(0x9C, 13); (0xB5, Ctl 47)] ++ special_keys).

(** ** kbd.c *)

Record kbd := mk_kbd {
  port : list Z;  (* scan codes in the controller *)
  shift : Z;
}.

Definition inb_status : M kbd Z := gets (fun s => match port s with [] => 0 | _ => KBS_DIB end).
Definition inb_data : M kbd Z :=
  let! p := gets port in
  modify (fun s => mk_kbd (tl p) (shift s)) ;;;
  ret (u8 (hd 0 p)).
Definition set_shift (f : Z -> Z) : M kbd unit := modify (fun s => mk_kbd (port s) (f (shift s))).

Definition charcode (i : Z) : list Z := aget [] [normalmap; shiftmap; ctlmap; ctlmap] i.

(** a[i] of a table *)
Definition entry (t : list Z) (i : Z) : M kbd Z :=
  require (arr_ok t i) "index of a key table" ;;;
  ret (aget 0 t i).

Definition without (x m : Z) : Z := Z.land x (Z.lnot m).

(** From the table on: the key data is pressed. *)
Definition key_pressed (data : Z) : M kbd Z :=
  let! sc := entry shiftcode data in
  set_shift (fun x => Z.lor x sc) ;;;
  let! tc := entry togglecode data in
  set_shift (fun x => Z.lxor x tc) ;;;
  let! sh := gets shift in
  let! c := entry (charcode (Z.land sh (Z.lor CTL SHIFT))) data in
  ret (if negb (Z.land sh CAPSLOCK =? 0) then
         if (97 <=? c) && (c <=? 122) then c + (65 - 97)
         else if (65 <=? c) && (c <=? 90) then c + (97 - 65)
         else c
       else c).

Definition kbdgetc : M kbd Z :=
  let! st := inb_status in
  if Z.land st KBS_DIB =? 0 then ret (-1)
  else
    let! data := inb_data in
    let! sh := gets shift in
    if data =? 0xE0 then
      set_shift (fun x => Z.lor x E0ESC) ;;;
      ret 0
    else if negb (Z.land data 0x80 =? 0) then
      let data := if negb (Z.land sh E0ESC =? 0) then data else Z.land data 0x7F in
      let! sc := entry shiftcode data in
      set_shift (fun x => without x (Z.lor sc E0ESC)) ;;;
      ret 0
    else if negb (Z.land sh E0ESC =? 0) then
      set_shift (fun x => without x E0ESC) ;;;
      key_pressed (Z.lor data 0x80)
    else key_pressed data.

(** The calls of getc() in consoleintr(), until it returns -1. *)
Fixpoint getc_all (fuel : nat) : M kbd (list Z) :=
  match fuel with
  | O => blocked
  | S f =>
      let! c := kbdgetc in
      if c <? 0 then ret []
      else
        let! cs := getc_all f in
        ret (c :: cs)
  end.

Definition kbdintr : M (kbd * console) bool :=
  let! n := gets (fun s => length (port (fst s))) in
  let! keys := zoom fst (fun k s => (k, snd s)) (getc_all (S n)) in
  zoom snd (fun c s => (fst s, c)) (consoleintr keys).

(** Interrupts: each time some scan codes have come in. *)
Fixpoint kbd_ints (batches : list (list Z)) : M (kbd * console) unit :=
  match batches with
  | [] => ret tt
  | b :: r =>
      modify (fun s => (mk_kbd (port (fst s) ++ b) (shift (fst s)), snd s)) ;;;
      kbdintr ;;;
      kbd_ints r
  end.

(** ** One scan code *)

Definition is_byte (d : Z) : Prop := 0 <= d < 256.
Definition shift_ok (sh : Z) : Prop := 0 <= sh < 128.

(** What kbdgetc() makes of a scan code: the value and the new shift state. *)
Definition press (sh d : Z) : option (Z * Z) :=
  match kbdgetc (mk_kbd [d] sh) with Ok c s => Some (c, shift s) | _ => None end.

(** The rest of the controller's queue does not matter. *)
Definition on_port {A} (p : list Z) (o : outcome kbd A) : outcome kbd A :=
  match o with
  | Ok c s => Ok c (mk_kbd p (shift s))
  | Panic m => Panic m
  | Undef w => Undef w
  | Blocked s => Blocked (mk_kbd p (shift s))
  end.
Definition portless {A} (m : M kbd A) : Prop := forall p sh, m (mk_kbd p sh) = on_port p (m (mk_kbd [] sh)).

Lemma portless_bind {A B} (m : M kbd A) (k : A -> M kbd B) : portless m -> (forall a, portless (k a)) -> portless (bind m k).
Proof.
  intros Hm Hk p sh. unfold bind. rewrite (Hm p sh). pose proof (Hm [] sh) as E. destruct (m (mk_kbd [] sh)) as [a s| | |]; cbn [on_port]; try done. injection E as E. rewrite E. rewrite (Hk a p). done.
Qed.
Lemma portless_ret {A} (a : A) : portless (ret a).
Proof. done. Qed.
Lemma portless_shift : portless (gets shift).
Proof. done. Qed.
Lemma portless_set f : portless (set_shift f).
Proof. done. Qed.
Lemma portless_entry t i : portless (entry t i).
Proof. intros p sh. unfold entry, require, bind. by destruct (arr_ok t i). Qed.
Lemma portless_if {A} (b : bool) (m m' : M kbd A) : portless m -> portless m' -> portless (if b then m else m').
Proof. by destruct b. Qed.
Lemma portless_pressed data : portless (key_pressed data).
Proof. unfold key_pressed. repeat first [apply portless_entry|apply portless_set|apply portless_shift|apply portless_ret|apply portless_bind; [|intros ?]]. Qed.

Lemma kbdgetc_press d p sh : kbdgetc (mk_kbd (d :: p) sh) = on_port p (kbdgetc (mk_kbd [d] sh)).
Proof.
  unfold kbdgetc, inb_status, inb_data. match goal with |- bind _ (fun st => if _ then _ else bind _ ?k) _ = _ => change (k (u8 d) (mk_kbd p sh) = on_port p (k (u8 d) (mk_kbd [] sh))) end.
  assert (HP : forall data, portless (let! sh0 := gets shift in
    if data =? 224 then set_shift (fun x => Z.lor x E0ESC) ;;; ret 0
    else if negb (Z.land data 128 =? 0) then let! sc := entry shiftcode (if negb (Z.land sh0 E0ESC =? 0) then data else Z.land data 127) in set_shift (fun x => without x (Z.lor sc E0ESC)) ;;; ret 0
    else if negb (Z.land sh0 E0ESC =? 0) then set_shift (fun x => without x E0ESC) ;;; key_pressed (Z.lor data 128) else key_pressed data)); [|apply HP].
  intros data. repeat first [apply portless_entry|apply portless_set|apply portless_shift|apply portless_ret|apply portless_pressed|apply portless_if|apply portless_bind; [|intros ?]].
Qed.

(** Every scan code in every state of the shift keys. *)
Lemma press_ok sh d : shift_ok sh -> is_byte d -> exists c sh', press sh d = Some (c, sh') /\ is_byte c /\ shift_ok sh'.
Proof.
  intros Hs Hd. assert (HF : forallb (fun sh => forallb (fun d => match press sh d with Some (c, sh') => (0 <=? c) && (c <? 256) && (0 <=? sh') && (sh' <? 128) | None => false end) (seqZ 0 256)) (seqZ 0 128) = true) by (vm_compute; reflexivity).
  rewrite forallb_forall in HF. specialize (HF sh ltac:(apply list_elem_of_In, elem_of_seqZ; unfold shift_ok in Hs; lia)). cbv beta in HF. rewrite forallb_forall in HF. specialize (HF d ltac:(apply list_elem_of_In, elem_of_seqZ; unfold is_byte in Hd; lia)). cbv beta in HF.
  destruct (press sh d) as [[c sh']|]; [|done]. exists c, sh'. split; [done|]. unfold is_byte, shift_ok. lia.
Qed.

Fixpoint presses (sh : Z) (ds : list Z) : list Z * Z :=
  match ds with
  | [] => ([], sh)
  | d :: ds' => let (c, sh') := default (0, sh) (press sh d) in let (cs, sh'') := presses sh' ds' in (c :: cs, sh'')
  end.

Lemma presses_app sh a b : presses sh (a ++ b) = (fst (presses sh a) ++ fst (presses (snd (presses sh a)) b), snd (presses (snd (presses sh a)) b)).
Proof.
  revert sh. induction a as [|d a IH]; intros sh; cbn [app presses fst snd]; [by destruct (presses sh b)|]. destruct (default _ _) as [c sh']. rewrite IH. destruct (presses sh' a) as [cs sh'']. cbn [fst snd]. by destruct (presses sh'' b).
Qed.

Lemma presses_ok sh ds : shift_ok sh -> Forall is_byte ds -> Forall is_byte (fst (presses sh ds)) /\ shift_ok (snd (presses sh ds)).
Proof.
  intros Hs HF. revert sh Hs. induction HF as [|d ds Hd _ IH]; intros sh Hs; cbn [presses]; [by split; [constructor|]|]. destruct (press_ok sh d Hs Hd) as (c & sh' & -> & Hc & Hs'). change (default (0, sh) (Some (c, sh'))) with (c, sh'). cbv beta iota. specialize (IH sh' Hs'). destruct (presses sh' ds). destruct IH. split; [by constructor|done].
Qed.

Lemma getc_all_presses ds sh fuel : shift_ok sh -> Forall is_byte ds -> (length ds < fuel)%nat -> getc_all fuel (mk_kbd ds sh) = Ok (fst (presses sh ds)) (mk_kbd [] (snd (presses sh ds))).
Proof.
  intros Hs HF. revert sh fuel Hs. induction HF as [|d ds Hd _ IH]; intros sh fuel Hs Hl; (destruct fuel as [|fuel]; [cbn in Hl; lia|]); [done|]. cbn [getc_all presses]. destruct (press_ok sh d Hs Hd) as (c & sh' & E & Hc & Hs'). rewrite E. change (default (0, sh) (Some (c, sh'))) with (c, sh'). cbv beta iota.
  unfold bind at 1. rewrite kbdgetc_press. unfold press in E. destruct (kbdgetc (mk_kbd [d] sh)) as [c0 s0| | |]; try done. injection E as -> E. cbn [on_port]. rewrite E. rewrite (proj2 (Z.ltb_ge c 0)) by apply Hc. unfold bind. cbn in Hl. rewrite (IH sh' fuel) by (done || lia). by destruct (presses sh' ds).
Qed.

(** ** Keys that say nothing *)

Definition spoken (keys : list Z) : list Z := filter (fun c => c <> 0) keys.

Lemma key_loop_spoken keys d s : key_loop keys d s = key_loop (spoken keys) d s.
Proof.
  revert d s. induction keys as [|c keys IH]; intros d s; [done|]. unfold spoken. rewrite filter_cons. destruct (decide (c <> 0)) as [Hc|Hc]; cbn [key_loop].
  - destruct (c <? 0); [done|]. unfold bind. destruct (handle_key c s); [|done..]. apply IH.
  - apply dec_stable in Hc as ->. apply IH.
Qed.

Lemma consoleintr_spoken keys s : consoleintr keys s = consoleintr (spoken keys) s.
Proof. unfold consoleintr, bind. destruct (on_scr acquire_cons s); [|done..]. by rewrite key_loop_spoken. Qed.

(** ** Typing *)

(** No Shift, Ctrl, Caps Lock or escape. *)
Definition no_shift (sh : Z) : Prop := shift_ok sh /\ Z.land sh (Z.lor (Z.lor SHIFT CTL) (Z.lor CAPSLOCK E0ESC)) = 0.

Fixpoint index_of (c : Z) (t : list Z) (i : Z) : option Z :=
  match t with
  | [] => None
  | x :: t' => if x =? c then Some i else index_of c t' (i + 1)
  end.

(** The layout of the keys, independent of the tables of the driver: row by row
    the scan code of the first key, what the keys give, and with Shift. *)
Definition us_layout : list (Z * list Z * list Z) :=
  [(2, codes "1234567890-=", codes "!@#$%^&*()_+");
   (16, codes "qwertyuiop[]", codes "QWERTYUIOP{}");
   (28, [10], []);
   (30, codes "asdfghjkl;'`", codes "ASDFGHJKL:" ++ [34] ++ codes "~");
   (43, codes "\zxcvbnm,./", codes "|ZXCVBNM<>?");
   (57, codes " ", [])].

(** How a character is typed: its key is pressed and released, with the left
    Shift key held down if it takes that. *)
Fixpoint strokes_on (rows : list (Z * list Z * list Z)) (c : Z) : list Z :=
  match rows with
  | [] => []
  | (first, plain, shifted) :: rows' =>
      match index_of c plain first, index_of c shifted first with
      | Some k, _ => [k; k + 0x80]
      | None, Some k => [0x2A; k; k + 0x80; 0xAA]
      | None, None => strokes_on rows' c
      end
  end.

Definition strokes (c : Z) : list Z := strokes_on us_layout c.

Lemma strokes_typed c sh : printable c \/ c = 10 -> no_shift sh -> Forall is_byte (strokes c) /\ spoken (fst (presses sh (strokes c))) = [c] /\ snd (presses sh (strokes c)) = sh.
Proof.
  intros Hc [Hs Hn]. set (ok c sh := bool_decide (Forall is_byte (strokes c)) && bool_decide (spoken (fst (presses sh (strokes c))) = [c]) && (snd (presses sh (strokes c)) =? sh)).
  assert (HF : forallb (fun sh => negb (Z.land sh (Z.lor (Z.lor SHIFT CTL) (Z.lor CAPSLOCK E0ESC)) =? 0) || forallb (fun c => ok c sh) (10 :: seqZ 32 95)) (seqZ 0 128) = true) by (vm_compute; reflexivity).
  rewrite forallb_forall in HF. specialize (HF sh ltac:(apply list_elem_of_In, elem_of_seqZ; unfold shift_ok in Hs; lia)). cbv beta in HF. rewrite Hn, Z.eqb_refl in HF. cbn [negb orb] in HF. rewrite forallb_forall in HF.
  assert (Hi : In c (10 :: seqZ 32 95)). { destruct Hc as [Hc| ->]; [right|by left]. apply list_elem_of_In, elem_of_seqZ. unfold printable in Hc. lia. }
  specialize (HF c Hi). unfold ok in HF. apply andb_true_iff in HF as [[H1%bool_decide_eq_true H2%bool_decide_eq_true]%andb_true_iff H3%Z.eqb_eq]. done.
Qed.

Lemma text_typed text sh : Forall (fun c => printable c \/ c = 10) text -> no_shift sh -> Forall is_byte (concat (map strokes text)) /\ spoken (fst (presses sh (concat (map strokes text)))) = text /\ snd (presses sh (concat (map strokes text))) = sh.
Proof.
  intros HF Hs. induction HF as [|c text Hc _ (I1 & I2 & I3)]; [done|]. cbn [map concat]. destruct (strokes_typed c sh Hc Hs) as (S1 & S2 & S3). rewrite presses_app, S3. cbn [fst snd]. split_and!; [by apply Forall_app|unfold spoken in *; by rewrite filter_app, S2, I2|done].
Qed.

(** Scan codes that come in batches are keys of the editor. *)
Lemma wp_kbd_ints batches sh s (keys := spoken (fst (presses sh (concat batches)))) (Q : unit -> kbd * console -> Prop) : shift_ok sh -> Forall is_byte (concat batches) ->
  edit_inv s -> marks_ok s -> cons_lock (scr s) = false -> Forall plain_key keys -> roomy keys (view s) -> ir (inp s) + 256 < 2147483646 ->
  (forall s', edit_inv s' -> cons_lock (scr s') = false -> view s' = fold_left ed_step keys (view s) -> ir (inp s') = ir (inp s) -> Q tt (mk_kbd [] (snd (presses sh (concat batches))), s')) ->
  wp (kbd_ints batches) (mk_kbd [] sh, s) Q.
Proof.
  revert sh s keys Q. induction batches as [|b r IH]; intros sh s keys Q Hs HB I P HL HK H1 H2 HQ; [apply wp_ret; by apply HQ|]. cbn [kbd_ints concat] in *. apply Forall_app in HB as [HB HR]. destruct (presses_ok sh b Hs HB) as [_ Hs'].
  unfold keys in *. clear keys. rewrite presses_app in *. cbn [fst snd] in *. set (cs := fst (presses sh b)) in *. set (sh' := snd (presses sh b)) in *. set (cs' := fst (presses sh' (concat r))) in *. unfold spoken in *. rewrite filter_app in *. fold (spoken cs) (spoken cs') in *. apply Forall_app in HK as [K1 K2]. apply roomy_app in H1 as [R1 R2].
  apply wp_bind, wp_modify, wp_bind. unfold kbdintr. apply wp_bind, wp_gets, wp_bind, wp_zoom. cbn [fst snd port shift app]. unfold wp at 1. rewrite (getc_all_presses b sh) by (done || lia). fold cs sh'. apply wp_zoom. cbn [snd].
  assert (W : wp (consoleintr cs) s (fun _ s' => wp (kbd_ints r) (mk_kbd [] sh', s') Q)); [|exact W]. unfold wp at 1. rewrite consoleintr_spoken. fold (@wp console bool). change (wp (consoleintr (spoken cs)) s (fun _ s' => wp (kbd_ints r) (mk_kbd [] sh', s') Q)).
  eapply wp_mono; [by apply wp_consoleintr_plain|]. cbn beta. intros d s1 (I1 & P1 & L1 & V1 & R3). apply IH; [done|done|done|done|done|done|fold cs'; fold (spoken cs'); by rewrite V1|lia|].
  fold cs'. fold (spoken cs'). intros s2 I2 L2 V2 R4. apply HQ; [done|done|by rewrite fold_left_app, <- V1|congruence].
Qed.

Lemma plain_text l : Forall printable l -> Forall plain_key (l ++ [10]).
Proof.
  intros Hl. apply Forall_app. split; [by apply plain_printables|].
  apply Forall_singleton. unfold plain_key, edit_key, Ctl. lia.
Qed.

(** C30: What is typed is what is read, from the keys to the reader.  The scan
    codes of a line of less than 128 printable characters and Enter on a US
    keyboard (each key pressed and released, Shift held where the character
    takes it), in whatever groups they reach the interrupt handler (a group may
    end in the middle of a key stroke), with no Shift, Ctrl or Caps Lock down, at
    a console that satisfies the editor's invariant, with an empty line, nothing
    to read, no end yet to a selection being made, and the index r of the ring
    below 2^31 - 258: the handler takes them all, the next read with room for the
    line returns it unchanged with its newline, the console has an empty line and
    nothing to read again, and the keyboard is as it was. *)
Theorem keyboard_line_is_read l n sh batches s :
  no_shift sh -> concat batches = concat (map strokes (l ++ [10])) ->
  edit_inv s -> line s = [] -> unread s = [] -> marks_ok s -> cons_lock (scr s) = false ->
  Forall printable l -> (length l < 128)%nat -> Z.of_nat (length l) < n -> ir (inp s) + 256 < 2147483646 ->
  exists s1 s2, kbd_ints batches (mk_kbd [] sh, s) = Ok tt (mk_kbd [] sh, s1) /\
    consoleread false n s1 = Ok (ReadDone (l ++ [10]) (Z.of_nat (length l) + 1)) s2 /\
    edit_inv s2 /\ line s2 = [] /\ unread s2 = [].
Proof.
  intros Hsh Hb I Hline Hun Hp Hlock Hl Hlen Hn Hmax.
  destruct (text_typed (l ++ [10]) sh) as (T1 & T2 & T3); [|done|].
  { apply Forall_app. split; [eapply Forall_impl; [exact Hl|]; auto|apply Forall_singleton; by right]. }
  rewrite <- Hb in T1, T2, T3. destruct (empty_cut s I Hline) as [_ Hcut].
  destruct (ed_type_line [] l (clip s) [] (mode s) Hl Hcut) as [_ Hroom].
  assert (W : wp (kbd_ints batches) (mk_kbd [] sh, s) (fun _ r => exists s1, r = (mk_kbd [] sh, s1) /\ edit_inv s1 /\ cons_lock (scr s1) = false /\ view s1 = fold_left ed_step (l ++ [10]) (view s) /\ ir (inp s1) = ir (inp s))).
  { apply wp_kbd_ints; [apply Hsh|done|done|done|done|rewrite T2; by apply plain_text|rewrite T2, view_empty by done; apply Hroom; cbn; lia|done|].
    rewrite T2, T3. intros s' I' L' V' R'. by exists s'. }
  apply wp_run_unit in W as (r & E & s1 & -> & I1 & L1 & V1 & M1).
  destruct (read_typed_line l n s s1 I Hline Hun Hl Hlen Hn I1 L1 V1 ltac:(lia)) as (s2 & R). by exists s1, s2.
Qed.

(** "Hi" and Enter, in three interrupts. *)
Lemma keyboard_line_is_read_witness :
  exists s1 s2, kbd_ints [[0x2A; 0x23; 0xA3]; [0xAA; 0x17]; [0x97; 0x1C; 0x9C]] (mk_kbd [] 0, booted) = Ok tt (mk_kbd [] 0, s1) /\
    consoleread false 100 s1 = Ok (ReadDone (codes "Hi" ++ [10]) 3) s2 /\
    edit_inv s2 /\ line s2 = [] /\ unread s2 = [].
Proof.
  apply (keyboard_line_is_read (codes "Hi") 100); try reflexivity; [| | | |cbn; lia].
  - split; [vm_compute; intuition congruence|reflexivity].
  - apply booted_inv.
  - done.
  - repeat constructor; vm_compute; congruence.
Defined.

(** Ctrl and the slash key give the byte 239, which the line takes. *)
Example ctrl_slash_is_a_byte : presses 0 [0x1D; 0x35] = ([0; 239], CTL).
Proof. vm_compute. reflexivity. Qed.
