(* ===== verification/Mem.v ===== *)
(** Byte memory and the string routines that work on it (string.c, and
    stosb()/stosl() of x86.h).

    [mem] gives the byte at every 32-bit address; a pointer is its address.
    Pointers that leave the address space wrap around, as the machine's do. *)

From Stdlib Require Import ZArith Lia.
From stdpp Require Import base gmap strings numbers list.
From S2P Require Import Prelude Kstring.

Open Scope Z_scope.
Open Scope kern_scope.

Definition mem : Type := Z -> Z.

Definition upd (a v : Z) (m : mem) : mem := fun x => if x =? a then v else m x.

Definition load8 (a : Z) : M mem Z := gets (fun m => m (u32 a)).
Definition store8 (a v : Z) : M mem unit := modify (upd (u32 a) (u8 v)).

(** A little-endian word. *)
Definition ld32 (m : mem) (a : Z) : Z :=
  m (u32 a) + 2 ^ 8 * m (u32 (a + 1)) + 2 ^ 16 * m (u32 (a + 2)) + 2 ^ 24 * m (u32 (a + 3)).
Definition load32 (a : Z) : M mem Z := gets (fun m => ld32 m a).
Definition store32 (a v : Z) : M mem unit :=
  let v := u32 v in
  store8 a v ;;;
  store8 (a + 1) (v / 2 ^ 8) ;;;
  store8 (a + 2) (v / 2 ^ 16) ;;;
  store8 (a + 3) (v / 2 ^ 24).

(** ** string.c *)

(** rep stosb and rep stosl *)
Definition stosb (addr data cnt : Z) : M mem unit :=
  for_up 0 cnt (fun i => store8 (addr + i) data).
Definition stosl (addr data cnt : Z) : M mem unit :=
  for_up 0 cnt (fun i => store32 (addr + 4 * i) data).

Definition memset (dst c n : Z) : M mem Z :=
  (if (Z.rem (i32 dst) 4 =? 0) && (n mod 4 =? 0) then
     let c := Z.land c 0xFF in
     stosl dst (Z.lor (Z.lor (Z.lor (Z.shiftl c 24) (Z.shiftl c 16)) (Z.shiftl c 8)) c) (n / 4)
   else
     stosb dst c n) ;;;
  ret dst.

Fixpoint memcmp_loop (n : nat) (s1 s2 : Z) : M mem Z :=
  match n with
  | O => ret 0
  | S n' =>
      let! a := load8 s1 in
      let! b := load8 s2 in
      if negb (a =? b) then ret (a - b) else memcmp_loop n' (s1 + 1) (s2 + 1)
  end.
Definition memcmp (v1 v2 n : Z) : M mem Z := memcmp_loop (Z.to_nat n) v1 v2.

(** The backward loop runs with n counting down, both pointers n further on. *)
Definition memmove (dst src n : Z) : M mem Z :=
  (if (src <? dst) && (u32 (src + n) >? dst) then
     for_down n 0 (fun i => let! c := load8 (src + i - 1) in store8 (dst + i - 1) c)
   else
     for_up 0 n (fun i => let! c := load8 (src + i) in store8 (dst + i) c)) ;;;
  ret dst.

Definition memcpy (dst src n : Z) : M mem Z := memmove dst src n.

Fixpoint strncmp_loop (n : nat) (p q : Z) : M mem Z :=
  match n with
  | O => ret 0
  | S n' =>
      let! a := load8 p in
      let! b := load8 q in
      if negb (a =? 0) && (a =? b) then strncmp_loop n' (p + 1) (q + 1) else ret (a - b)
  end.
Definition strncmp_mem (p q n : Z) : M mem Z := strncmp_loop (Z.to_nat n) p q.

(** while(n-- > 0 && ( *s++ = *t++) != 0): the pointer s and the count left. *)
Fixpoint copy_until_nul (n : nat) (s t : Z) : M mem (Z * nat) :=
  match n with
  | O => ret (s, O)
  | S n' =>
      let! c := load8 t in
      store8 s c ;;;
      if c =? 0 then ret (s + 1, n') else copy_until_nul n' (s + 1) (t + 1)
  end.

Definition strncpy_mem (s t n : Z) : M mem Z :=
  let! (s', rest) := copy_until_nul (Z.to_nat n) s t in
  for_up 0 (Z.of_nat rest) (fun i => store8 (s' + i) 0) ;;;
  ret s.

Definition safestrcpy (s t n : Z) : M mem Z :=
  if n <=? 0 then ret s
  else
    let! (s', _) := copy_until_nul (Z.to_nat (n - 1)) s t in
    store8 s' 0 ;;;
    ret s.

(** strlen() of a string that has no NUL in reach does not return. *)
Fixpoint strlen_loop (fuel : nat) (s n : Z) : M mem Z :=
  match fuel with
  | O => blocked
  | S fuel' =>
      let! c := load8 (s + n) in
      if c =? 0 then ret n else strlen_loop fuel' s (n + 1)
  end.
Definition strlen_mem (fuel : nat) (s : Z) : M mem Z := strlen_loop fuel s 0.

(** ** Bytes and words *)

Definition bytes (m : mem) : Prop := forall a, 0 <= m a < 256.

(** The addresses [a, a + n). *)
Definition within (a n x : Z) : bool := (a <=? x) && (x <? a + n).

Lemma within_true a n x : within a n x = true <-> a <= x < a + n.
Proof. unfold within. lia. Qed.

Lemma within_false a n x : within a n x = false <-> x < a \/ a + n <= x.
Proof. unfold within. lia. Qed.

Lemma within_nil a x : within a 0 x = false.
Proof. unfold within. lia. Qed.

Lemma u8_byte m a : bytes m -> u8 (m a) = m a.
Proof. intros H. apply u8_small, H. Qed.

Lemma bytes_upd a v m : bytes m -> bytes (upd a (u8 v) m).
Proof. intros H x. unfold upd. destruct (x =? a); [apply u8_range|apply H]. Qed.

(** Storing a word. *)
Lemma wp_store32 a v m (Q : unit -> mem -> Prop) :
  0 <= a -> a + 4 <= 4294967296 -> bytes m ->
  (forall m', bytes m' -> ld32 m' a = u32 v -> (forall x, within a 4 x = false -> m' x = m x) -> Q tt m') ->
  wp (store32 a v) m Q.
Proof.
  intros H0 H1 Hb HQ. unfold store32. repeat (apply wp_bind, wp_modify). apply wp_modify. apply HQ.
  - repeat apply bytes_upd. done.
  - unfold ld32, upd. rewrite (u32_small a), (u32_small (a + 1)), (u32_small (a + 2)), (u32_small (a + 3)) by lia.
    rewrite ?Z.eqb_refl. repeat (match goal with |- context [?x =? ?y] => replace (x =? y) with false by lia end).
    pose proof (u32_range v). generalize dependent (u32 v). intros w _ Hw. unfold u8. zdm.
  - intros x Hx. apply within_false in Hx. unfold upd.
    rewrite (u32_small a), (u32_small (a + 1)), (u32_small (a + 2)), (u32_small (a + 3)) by lia.
    repeat (match goal with |- context [?p =? ?q] => replace (p =? q) with false by lia end). done.
Qed.

Lemma ld32_ext m m' a : 0 <= a -> a + 4 <= 4294967296 -> (forall x, a <= x < a + 4 -> m' x = m x) -> ld32 m' a = ld32 m a.
Proof. intros H0 H1 H. unfold ld32. rewrite (u32_small a), (u32_small (a + 1)), (u32_small (a + 2)), (u32_small (a + 3)), !H by lia. done. Qed.

Lemma ld32_range m a : bytes m -> 0 <= ld32 m a < 4294967296.
Proof.
  intros H. unfold ld32. pose proof (H (u32 a)). pose proof (H (u32 (a + 1))). pose proof (H (u32 (a + 2))).
  pose proof (H (u32 (a + 3))). lia.
Qed.

(** A word of equal bytes. *)
Definition word_of (c : Z) : Z := c + 2 ^ 8 * c + 2 ^ 16 * c + 2 ^ 24 * c.

Lemma low_bits_clear a b k : 0 <= k -> 0 <= b < 2 ^ k -> Z.land (Z.shiftl a k) b = 0.
Proof.
  intros Hk Hb. apply Z.bits_inj'. intros n Hn. rewrite Z.land_spec, Z.bits_0.
  destruct (Z.ltb_spec n k); [by rewrite Z.shiftl_spec_low|].
  rewrite <- (Z.mod_small b (2 ^ k)), Z.mod_pow2_bits_high by lia. apply andb_false_r.
Qed.

Lemma lor_disjoint a b k : 0 <= k -> 0 <= b < 2 ^ k -> Z.lor (Z.shiftl a k) b = Z.shiftl a k + b.
Proof.
  intros Hk Hb. pose proof (low_bits_clear a b k Hk Hb) as E.
  rewrite <- Z.lxor_lor by done. symmetry. by apply Z.add_nocarry_lxor.
Qed.

Lemma memset_word c : 0 <= c < 256 ->
  Z.lor (Z.lor (Z.lor (Z.shiftl c 24) (Z.shiftl c 16)) (Z.shiftl c 8)) c = word_of c.
Proof.
  intros Hc. rewrite <- !Z.lor_assoc. rewrite (lor_disjoint c c 8) by lia.
  rewrite !Z.shiftl_mul_pow2 by lia. rewrite <- (Z.shiftl_mul_pow2 c 16) by lia.
  rewrite (lor_disjoint c _ 16) by lia. rewrite Z.shiftl_mul_pow2 by lia.
  rewrite <- (Z.shiftl_mul_pow2 c 24) by lia. rewrite (lor_disjoint c _ 24) by lia.
  rewrite Z.shiftl_mul_pow2 by lia. unfold word_of. lia.
Qed.

(** ** memset *)

Lemma wp_stosb addr c n m (Q : unit -> mem -> Prop) :
  0 <= addr -> 0 <= n -> addr + n <= 4294967296 -> bytes m ->
  (forall m', bytes m' -> (forall x, m' x = if within addr n x then u8 c else m x) -> Q tt m') ->
  wp (stosb addr c n) m Q.
Proof.
  intros H0 Hn H1 Hb HQ. unfold stosb.
  apply (wp_for_up (fun i m' => 0 <= i <= n /\ bytes m' /\ forall x, m' x = if within addr i x then u8 c else m x)).
  - split_and!; [lia|lia|done|]. intros x. unfold within. by replace (_ && _) with false by lia.
  - intros i m' Hi (_ & Hb' & Hm). apply wp_modify. split_and!; [lia|lia|by apply bytes_upd|]. intros x. unfold upd.
    rewrite u32_small by lia. rewrite Hm. unfold within.
    destruct (Z.eqb_spec x (addr + i)); [by replace (_ && _) with true by lia|].
    replace ((addr <=? x) && (x <? addr + (i + 1))) with ((addr <=? x) && (x <? addr + i)) by lia. done.
  - intros m' (_ & Hb' & Hm). apply HQ; [done|]. by replace (Z.max 0 n) with n in Hm by lia.
Qed.

Lemma u8_word_of c k : 0 <= c < 256 -> k = 0 \/ k = 8 \/ k = 16 \/ k = 24 -> u8 (word_of c / 2 ^ k) = c.
Proof. intros Hc [->|[->|[->| ->]]]; unfold u8, word_of; cbn; zdm. Qed.

(** A word of equal bytes is four stores of the byte. *)
Lemma store32_word a c m : 0 <= a -> a + 4 <= 4294967296 -> 0 <= c < 256 ->
  exists m', store32 a (word_of c) m = Ok tt m' /\ forall x, m' x = if within a 4 x then c else m x.
Proof.
  intros H0 H1 Hc. eexists. split; [reflexivity|]. cbn. unfold upd, within. intros x.
  rewrite (u32_small (a + 1)), (u32_small (a + 2)), (u32_small (a + 3)), (u32_small a), (u32_small (word_of c)) by (unfold word_of; lia).
  pose proof (u8_word_of c 0 Hc ltac:(auto)) as E0. rewrite Z.div_1_r in E0.
  change 256 with (2 ^ 8). change 65536 with (2 ^ 16). change 16777216 with (2 ^ 24).
  rewrite E0, !u8_word_of by auto.
  destruct (Z.eqb_spec x (a + 3)); [by replace (_ && _) with true by lia|].
  destruct (Z.eqb_spec x (a + 2)); [by replace (_ && _) with true by lia|].
  destruct (Z.eqb_spec x (a + 1)); [by replace (_ && _) with true by lia|].
  destruct (Z.eqb_spec x a); [by replace (_ && _) with true by lia|].
  by replace (_ && _) with false by lia.
Qed.

Lemma wp_stosl addr c n m (Q : unit -> mem -> Prop) :
  0 <= addr -> 0 <= n -> addr + 4 * n <= 4294967296 -> 0 <= c < 256 -> bytes m ->
  (forall m', bytes m' -> (forall x, m' x = if within addr (4 * n) x then c else m x) -> Q tt m') ->
  wp (stosl addr (word_of c) n) m Q.
Proof.
  intros H0 Hn H1 Hc Hb HQ. unfold stosl.
  assert (HB : forall m' k, (forall x, m' x = if within addr k x then c else m x) -> bytes m').
  { intros m' k Hm x. rewrite Hm. destruct (within addr k x); [lia|apply Hb]. }
  apply (wp_for_up (fun i m' => 0 <= i <= n /\ forall x, m' x = if within addr (4 * i) x then c else m x)).
  - split_and!; [lia|lia|]. intros x. unfold within. by replace (_ && _) with false by lia.
  - intros i m' Hi (_ & Hm). destruct (store32_word (addr + 4 * i) c m') as (m2 & E & Hm2); [lia|lia|done|].
    unfold wp. rewrite E. split; [lia|]. intros x. rewrite Hm2, Hm. unfold within.
    destruct (Z.leb_spec (addr + 4 * i) x), (Z.ltb_spec x (addr + 4 * i + 4)); cbn;
      repeat (match goal with |- context [if ?b then _ else _] => let E := fresh in destruct b eqn:E end); b2p; try done; lia.
  - intros m' (_ & Hm). replace (Z.max 0 n) with n in Hm by lia. apply HQ; [by eapply HB|done].
Qed.

Lemma wp_memset dst c n m (Q : Z -> mem -> Prop) :
  0 <= dst -> 0 <= n -> dst + n <= 4294967296 -> bytes m ->
  (forall m', bytes m' -> (forall x, m' x = if within dst n x then u8 c else m x) -> Q dst m') ->
  wp (memset dst c n) m Q.
Proof.
  intros H0 Hn H1 Hb HQ. unfold memset. apply wp_bind. apply wp_if; intros Hc.
  - b2p. change 0xFF with (Z.ones 8). rewrite Z.land_ones by lia. fold (u8 c). rewrite memset_word by apply u8_range.
    apply wp_stosl; [done|zdm|zdm|apply u8_range|done|]. intros m' Hb' Hm. apply wp_ret, HQ; [done|].
    by replace (4 * (n / 4)) with n in Hm by zdm.
  - by apply wp_stosb.
Qed.

(** ** memmove *)

Lemma wp_memmove dst src n m (Q : Z -> mem -> Prop) :
  0 <= dst -> 0 <= src -> 0 <= n -> dst + n <= 4294967296 -> src + n < 4294967296 -> bytes m ->
  (forall m', bytes m' -> (forall x, m' x = if within dst n x then m (src + (x - dst)) else m x) -> Q dst m') ->
  wp (memmove dst src n) m Q.
Proof.
  intros Hd Hs Hn Hd1 Hs1 Hb HQ. unfold memmove.
  assert (HB : forall m', (forall x, m' x = m x \/ exists y, m' x = m y) -> bytes m').
  { intros m' H x. destruct (H x) as [->|[y ->]]; apply Hb. }
  apply wp_bind. apply wp_if; intros Hc.
  - b2p. rewrite u32_small in * by lia.
    apply (wp_for_down (fun i m' => 0 <= i <= n /\ forall x, m' x = if within (dst + i) (n - i) x then m (src + (x - dst)) else m x)).
    + split; [lia|]. intros x. unfold within. by replace (_ && _) with false by lia.
    + intros i m' Hi (_ & Hm). apply wp_bind, wp_gets, wp_modify. split; [lia|]. intros x. unfold upd.
      rewrite (u32_small (src + i - 1)), (u32_small (dst + i - 1)) by lia. rewrite (Hm (src + i - 1)). unfold within at 1. replace (_ && _) with false by lia. rewrite u8_byte by done.
      rewrite Hm. unfold within. destruct (Z.eqb_spec x (dst + i - 1)).
      * replace (_ && _) with true by lia. f_equal. lia.
      * replace ((dst + (i - 1) <=? x) && (x <? dst + (i - 1) + (n - (i - 1)))) with ((dst + i <=? x) && (x <? dst + i + (n - i))) by lia. done.
    + intros m' (_ & Hm). replace (Z.min 0 n) with 0 in Hm by lia. rewrite Z.add_0_r, Z.sub_0_r in Hm.
      apply wp_ret, HQ; [|done]. apply HB. intros x. rewrite Hm. destruct (within _ _ _); eauto.
  - assert (Hov : dst <= src \/ src + n <= dst) by (rewrite u32_small in Hc by lia; lia). clear Hc.
    apply (wp_for_up (fun i m' => 0 <= i <= n /\ forall x, m' x = if within dst i x then m (src + (x - dst)) else m x)).
    + split; [lia|]. intros x. unfold within. by replace (_ && _) with false by lia.
    + intros i m' Hi (_ & Hm). apply wp_bind, wp_gets, wp_modify. split; [lia|]. intros x. unfold upd.
      rewrite (u32_small (src + i)), (u32_small (dst + i)) by lia. rewrite (Hm (src + i)). unfold within at 1. replace (_ && _) with false by lia. rewrite u8_byte by done.
      rewrite Hm. unfold within. destruct (Z.eqb_spec x (dst + i)).
      * replace (_ && _) with true by lia. f_equal. lia.
      * replace ((dst <=? x) && (x <? dst + (i + 1))) with ((dst <=? x) && (x <? dst + i)) by lia. done.
    + intros m' (_ & Hm). replace (Z.max 0 n) with n in Hm by lia.
      apply wp_ret, HQ; [|done]. apply HB. intros x. rewrite Hm. destruct (within _ _ _); eauto.
Qed.

(** ** Strings *)

(** The n bytes at p. *)
Definition chars (m : mem) (p : Z) (n : nat) : list Z := map (fun i => m (p + Z.of_nat i)) (seq 0 n).

Lemma chars_S m p n : chars m p (S n) = m p :: chars m (p + 1) n.
Proof.
  unfold chars. cbn. rewrite Z.add_0_r. f_equal. rewrite <- seq_shift, map_map. apply map_ext. intros i. f_equal. lia.
Qed.

Lemma length_chars m p n : length (chars m p n) = n.
Proof. unfold chars. by rewrite length_map, length_seq. Qed.

(** The number of bytes of the string at t before its NUL, at most n. *)
Fixpoint nul_within (m : mem) (t : Z) (n : nat) : nat :=
  match n with
  | O => O
  | S n' => if m t =? 0 then O else S (nul_within m (t + 1) n')
  end.

Lemma nul_within_le m t n : (nul_within m t n <= n)%nat.
Proof. revert t. induction n as [|n IH]; intros t; cbn; [lia|]. destruct (m t =? 0); [lia|]. specialize (IH (t + 1)). lia. Qed.

Lemma nul_within_spec m t n :
  (forall i, (i < nul_within m t n)%nat -> m (t + Z.of_nat i) <> 0) /\
  ((nul_within m t n < n)%nat -> m (t + Z.of_nat (nul_within m t n)) = 0).
Proof.
  revert t. induction n as [|n IH]; intros t; cbn [nul_within]; [split; [lia|lia]|].
  destruct (Z.eqb_spec (m t) 0); [split; [lia|by rewrite Z.add_0_r]|].
  destruct (IH (t + 1)) as [IH1 IH2]. split.
  - intros [|i] Hi; [by rewrite Z.add_0_r|]. replace (t + Z.of_nat (S i)) with (t + 1 + Z.of_nat i) by lia. apply IH1. lia.
  - intros Hi. replace (t + Z.of_nat (S (nul_within m (t + 1) n))) with (t + 1 + Z.of_nat (nul_within m (t + 1) n)) by lia. apply IH2. lia.
Qed.

Lemma nul_within_ext m m' t n : (forall x, t <= x < t + Z.of_nat n -> m' x = m x) -> nul_within m' t n = nul_within m t n.
Proof.
  revert t. induction n as [|n IH]; intros t H; [done|]. cbn. rewrite H by lia. destruct (m t =? 0); [done|].
  f_equal. apply IH. intros x Hx. apply H. lia.
Qed.

Lemma wp_copy_until_nul n : forall s t m (Q : Z * nat -> mem -> Prop),
  0 <= s -> 0 <= t -> s + Z.of_nat n <= 4294967296 -> t + Z.of_nat n <= 4294967296 ->
  s + Z.of_nat n <= t \/ t + Z.of_nat n <= s -> bytes m ->
  (forall m' k, k = nul_within m t n -> bytes m' ->
     (forall x, m' x = if within s (Z.of_nat k) x then m (t + (x - s)) else
                       if (k <? n)%nat && (x =? s + Z.of_nat k) then 0 else m x) ->
     Q (if (k <? n)%nat then (s + Z.of_nat k + 1, (n - k - 1)%nat) else (s + Z.of_nat n, O)) m') ->
  wp (copy_until_nul n s t) m Q.
Proof.
  induction n as [|n IH]; intros s t m Q Hs Ht Hs1 Ht1 Hd Hb HQ.
  - apply wp_ret. specialize (HQ m O eq_refl Hb). cbn in HQ. rewrite Z.add_0_r in HQ. apply HQ. intros x.
    by rewrite within_nil.
  - cbn [copy_until_nul]. apply wp_bind, wp_gets. rewrite u32_small by lia. apply wp_bind, wp_modify.
    rewrite u32_small, u8_byte by (lia || done). destruct (Z.eqb_spec (m t) 0) as [E|E].
    + apply wp_ret. specialize (HQ (upd s (m t) m) O). cbn in HQ. rewrite E, Z.eqb_refl in HQ.
      change (Z.of_nat 0) with 0 in HQ. rewrite Z.add_0_r, Nat.sub_0_r in HQ. rewrite E. apply HQ; [done| |].
      * intros x. unfold upd. destruct (x =? s); [lia|apply Hb].
      * intros x. by rewrite within_nil.
    + set (m1 := upd s (m t) m). assert (Hb1 : bytes m1) by (intros x; unfold m1, upd; destruct (x =? s); apply Hb).
      apply (IH (s + 1) (t + 1) m1); [lia..|done|]. intros m' k Hk Hb' Hm'.
      assert (Ek : nul_within m1 (t + 1) n = nul_within m (t + 1) n).
      { apply nul_within_ext. intros x Hx. unfold m1, upd. by replace (x =? s) with false by lia. }
      rewrite Ek in Hk. specialize (HQ m' (S k)). cbn [nul_within] in HQ. replace (m t =? 0) with false in HQ by lia.
      rewrite Hk in HQ at 1. specialize (HQ eq_refl Hb').
      replace (if (S k <? S n)%nat then _ else _) with (if (k <? n)%nat then (s + 1 + Z.of_nat k + 1, (n - k - 1)%nat) else (s + 1 + Z.of_nat n, O)) in HQ.
      * apply HQ. intros x. rewrite Hm'. clear HQ IH Hm'. pose proof (nul_within_le m (t + 1) n) as Hle. rewrite <- Hk in Hle.
        change (S k <? S n)%nat with (k <? n)%nat. unfold within, m1, upd. rewrite Nat2Z.inj_succ.
        destruct (Z.eqb_spec x s) as [->|Hx].
        -- replace ((s + 1 <=? s) && _) with false by lia. replace (s =? s + 1 + Z.of_nat k) with false by lia. rewrite andb_false_r.
           rewrite Z.leb_refl. replace (s <? s + Z.succ (Z.of_nat k)) with true by (symmetry; apply Z.ltb_lt; lia). cbn [andb]. f_equal. lia.
        -- replace (s + Z.succ (Z.of_nat k)) with (s + 1 + Z.of_nat k) by lia. replace (s <=? x) with (s + 1 <=? x) by lia.
           destruct ((s + 1 <=? x) && (x <? s + 1 + Z.of_nat k)) eqn:Ew; [|done]. b2p.
           replace (t + 1 + (x - (s + 1))) with (t + (x - s)) by lia. by replace (t + (x - s) =? s) with false by lia.
      * change (S k <? S n)%nat with (k <? n)%nat. destruct (k <? n)%nat; f_equal; lia.
Qed.

(** strlen() returns the distance to the first NUL. *)
Lemma wp_strlen m fuel s k (Q : Z -> mem -> Prop) : forall n,
  0 <= s -> 0 <= n -> s + n + Z.of_nat k < 4294967296 -> (k < fuel)%nat ->
  (forall i, (i < k)%nat -> m (s + n + Z.of_nat i) <> 0) -> m (s + n + Z.of_nat k) = 0 ->
  Q (n + Z.of_nat k) m -> wp (strlen_loop fuel s n) m Q.
Proof.
  revert fuel. induction k as [|k IH]; intros [|fuel] n Hs Hn Hr Hf Hne H0 HQ; try lia; cbn [strlen_loop];
    apply wp_bind, wp_gets; rewrite u32_small by lia.
  - rewrite Z.add_0_r in H0. rewrite H0. cbn. apply wp_ret. by rewrite Z.add_0_r in HQ.
  - pose proof (Hne O ltac:(lia)) as Hn0. rewrite Z.add_0_r in Hn0. replace (m (s + n) =? 0) with false by lia.
    apply IH; [lia..| | |].
    + intros i Hi. replace (s + (n + 1) + Z.of_nat i) with (s + n + Z.of_nat (S i)) by lia. apply Hne. lia.
    + rewrite <- H0. f_equal. lia.
    + by replace (n + 1 + Z.of_nat k) with (n + Z.of_nat (S k)) by lia.
Qed.

(** On memory and on character arrays, strncmp() is the same function. *)
Lemma wp_strncmp n : forall p q m (Q : Z -> mem -> Prop),
  0 <= p -> 0 <= q -> p + Z.of_nat n <= 4294967296 -> q + Z.of_nat n <= 4294967296 -> bytes m ->
  Q (strncmp (chars m p n) (chars m q n) n) m -> wp (strncmp_loop n p q) m Q.
Proof.
  induction n as [|n IH]; intros p q m Q Hp Hq Hp1 Hq1 Hb HQ; [exact HQ|]. cbn [strncmp_loop].
  apply wp_bind, wp_gets, wp_bind, wp_gets. rewrite (u32_small p), (u32_small q) by lia.
  rewrite !chars_S in HQ. cbn [strncmp hd tl] in HQ. rewrite !u8_byte in HQ by done.
  destruct (negb (m p =? 0) && (m p =? m q)); [|exact HQ]. apply IH; [lia..|done|exact HQ].
Qed.

(** memcmp() is 0 exactly on equal bytes. *)
Lemma wp_memcmp n : forall p q m (Q : Z -> mem -> Prop),
  0 <= p -> 0 <= q -> p + Z.of_nat n <= 4294967296 -> q + Z.of_nat n <= 4294967296 ->
  (forall r, r = 0 <-> chars m p n = chars m q n -> Q r m) -> wp (memcmp_loop n p q) m Q.
Proof.
  induction n as [|n IH]; intros p q m Q Hp Hq Hp1 Hq1 HQ; [by apply HQ|]. cbn [memcmp_loop].
  apply wp_bind, wp_gets, wp_bind, wp_gets. rewrite (u32_small p), (u32_small q) by lia.
  destruct (Z.eqb_spec (m p) (m q)) as [E|E]; cbn [negb].
  - apply IH; [lia..|]. intros r Hr. apply HQ. rewrite !chars_S, Hr, E. split; [by intros ->|by intros [=]].
  - apply HQ. rewrite !chars_S. split; [lia|by intros [= ]].
Qed.

(** ** Theorems *)

(** Memmove() copies n bytes whatever the overlap of source and
    destination, and touches nothing else.  (The direction of the copy is
    chosen from src + n > dst, which needs src + n not to wrap around.) *)
Theorem memmove_copies m dst src n :
  bytes m -> 0 <= dst -> 0 <= src -> 0 <= n -> dst + n <= 2 ^ 32 -> src + n < 2 ^ 32 ->
  exists m', memmove dst src n m = Ok dst m' /\
    forall x, m' x = if within dst n x then m (src + (x - dst)) else m x.
Proof.
  intros Hb Hd Hs Hn Hd1 Hs1.
  destruct (wp_run (memmove dst src n) m (fun p m' => p = dst /\ forall x, m' x = if within dst n x then m (src + (x - dst)) else m x))
    as (p & m' & E & -> & Hm); [by apply wp_memmove|eauto].
Qed.

Lemma memmove_copies_witness :
  exists m', memmove 102 100 4 (fun a => a mod 256) = Ok 102 m' /\
    forall x, m' x = if within 102 4 x then (100 + (x - 102)) mod 256 else x mod 256.
Proof. apply (memmove_copies (fun a => a mod 256) 102 100 4); try lia. intros a. zdm. Defined.

(** safestrcpy(s, t, n) stores the longest prefix of the string t that
    leaves room for the NUL, then the NUL, within the n bytes at s; it
    stops at t's NUL or at n - 1 characters. *)
Theorem safestrcpy_terminates m s t n :
  bytes m -> 0 <= s -> 0 <= t -> 0 < n -> s + n <= 2 ^ 32 -> t + n <= 2 ^ 32 -> s + n <= t \/ t + n <= s ->
  exists m' k, safestrcpy s t n m = Ok s m' /\ 0 <= k < n /\
    (forall i, 0 <= i < k -> m' (s + i) = m (t + i) /\ m (t + i) <> 0) /\ m' (s + k) = 0 /\
    (k = n - 1 \/ m (t + k) = 0) /\ forall x, x < s \/ s + n <= x -> m' x = m x.
Proof.
  intros Hb Hs Ht Hn Hs1 Ht1 Hd.
  destruct (wp_run (safestrcpy s t n) m (fun p m' => p = s /\ exists k, 0 <= k < n /\
    (forall i, 0 <= i < k -> m' (s + i) = m (t + i) /\ m (t + i) <> 0) /\ m' (s + k) = 0 /\
    (k = n - 1 \/ m (t + k) = 0) /\ forall x, x < s \/ s + n <= x -> m' x = m x)) as (p & m' & E & -> & k & H); [|eauto].
  unfold safestrcpy. replace (n <=? 0) with false by lia.
  apply wp_bind, wp_copy_until_nul; [lia..|done|]. intros m1 k Hk Hb1 Hm1.
  pose proof (nul_within_le m t (Z.to_nat (n - 1))) as Hle. rewrite <- Hk in Hle.
  pose proof (nul_within_spec m t (Z.to_nat (n - 1))) as [Hne Hnul]. rewrite <- Hk in Hne, Hnul.
  assert (Hp : exists p r, (if (k <? Z.to_nat (n - 1))%nat then (s + Z.of_nat k + 1, (Z.to_nat (n - 1) - k - 1)%nat)
    else (s + Z.of_nat (Z.to_nat (n - 1)), O)) = (p, r) /\ s + Z.of_nat k <= p < s + n /\
    (Z.of_nat k < n - 1 \/ p = s + Z.of_nat k)).
  { destruct (Nat.ltb_spec k (Z.to_nat (n - 1))); eexists _, _; (split; [reflexivity|lia]). }
  destruct Hp as (p & r & -> & Hp & Hpk). apply wp_bind, wp_modify, wp_ret. rewrite u32_small by lia.
  split; [done|]. exists (Z.of_nat k). split; [lia|]. unfold upd. change (u8 0) with 0. split_and!.
  - intros i Hi. replace (s + i =? p) with false by lia. rewrite Hm1. unfold within. replace (_ && _) with true by lia.
    split; [f_equal; lia|]. replace i with (Z.of_nat (Z.to_nat i)) by lia. apply Hne. lia.
  - destruct (Z.eqb_spec (s + Z.of_nat k) p); [done|]. rewrite Hm1. unfold within. replace ((s <=? _) && _) with false by lia.
    destruct Hpk; [|lia]. replace (k <? _)%nat with true by (symmetry; apply Nat.ltb_lt; lia). by rewrite Z.eqb_refl.
  - destruct (decide (k < Z.to_nat (n - 1))%nat); [right; by apply Hnul|left; lia].
  - intros x Hx. replace (x =? p) with false by lia. rewrite Hm1. unfold within. replace ((s <=? _) && _) with false by lia.
    replace (x =? s + Z.of_nat k) with false by lia. by rewrite andb_false_r.
Qed.

Definition demo_mem : mem := fun a => aget 0 (codes "init") (a - 100).

Lemma safestrcpy_terminates_witness :
  exists m' k, safestrcpy 500 100 16 demo_mem = Ok 500 m' /\ 0 <= k < 16 /\
    (forall i, 0 <= i < k -> m' (500 + i) = demo_mem (100 + i) /\ demo_mem (100 + i) <> 0) /\ m' (500 + k) = 0 /\
    (k = 16 - 1 \/ demo_mem (100 + k) = 0) /\ forall x, x < 500 \/ 500 + 16 <= x -> m' x = demo_mem x.
Proof.
  apply (safestrcpy_terminates demo_mem 500 100 16); try lia. intros a. unfold demo_mem, aget.
  destruct (a - 100 <? 0); [lia|]. destruct (Z.to_nat (a - 100)) as [|[|[|[|[|n]]]]]; cbn; lia.
Defined.
