(* ===== verification/Kalloc.v ===== *)
(** The page allocator (kalloc.c), with the constants of memlayout.h and mmu.h
    it shares with the virtual memory code.

    The state is kernel memory, as the bytes at kernel addresses, and the
    struct kmem.  The list of free pages is threaded through their first words
    in that memory.  kmem.lock is taken around every access once use_lock is
    set, so the operations are atomic.  [kend] is the linker's symbol end. *)

From Stdlib Require Import ZArith Lia.
From stdpp Require Import base gmap strings numbers list.
From S2P Require Import Prelude Kstring Mem.

Open Scope Z_scope.
Open Scope kern_scope.

Definition EXTMEM : Z := 0x100000.
Definition PHYSTOP : Z := 0xE000000.
Definition DEVSPACE : Z := 0xFE000000.
Definition KERNBASE : Z := 0x80000000.
Definition KERNLINK : Z := KERNBASE + EXTMEM.
Definition V2P (a : Z) : Z := u32 (a - KERNBASE).
Definition P2V (a : Z) : Z := u32 (a + KERNBASE).

Definition PGSIZE : Z := 4096.
Definition PGROUNDUP (sz : Z) : Z := Z.land (u32 (sz + PGSIZE - 1)) (u32 (Z.lnot (PGSIZE - 1))).
Definition PGROUNDDOWN (a : Z) : Z := Z.land (u32 a) (u32 (Z.lnot (PGSIZE - 1))).

Record kmem : Type := mkKmem {
  kbytes : mem;
  freelist : Z;
  use_lock : bool
}.

Definition set_kbytes (v : mem) (s : kmem) : kmem := mkKmem v (freelist s) (use_lock s).
Definition set_freelist (v : Z) (s : kmem) : kmem := mkKmem (kbytes s) v (use_lock s).
Definition set_use_lock (v : bool) (s : kmem) : kmem := mkKmem (kbytes s) (freelist s) v.

Definition on_mem {A} (m : M mem A) : M kmem A := zoom kbytes set_kbytes m.

Section Kalloc.
Variable kend : Z.

(** r->next is the word at r. *)
Definition kfree (v : Z) : M kmem unit :=
  if negb (v mod PGSIZE =? 0) || (v <? kend) || (V2P v >=? PHYSTOP) then panic "kfree"
  else
    on_mem (memset v 1 PGSIZE) ;;;
    let! fl := gets freelist in
    on_mem (store32 v fl) ;;;
    modify (set_freelist v).

Definition kalloc : M kmem Z :=
  let! r := gets freelist in
  when (negb (r =? 0))
    (let! next := on_mem (load32 r) in
     modify (set_freelist next)) ;;;
  ret r.

(** for(; p + PGSIZE <= vend; p += PGSIZE) *)
Definition freerange (vstart vend : Z) : M kmem unit :=
  for_step (PGROUNDUP vstart) (vend - PGSIZE + 1) PGSIZE kfree.

Definition kinit1 (vstart vend : Z) : M kmem unit :=
  modify (set_use_lock false) ;;;
  freerange vstart vend.

Definition kinit2 (vstart vend : Z) : M kmem unit :=
  freerange vstart vend ;;;
  modify (set_use_lock true).

(** ** Rounding *)

Lemma land_low a : 0 <= a < 4294967296 -> Z.land a (u32 (Z.lnot 4095)) = a - a mod 4096.
Proof.
  intros Ha. change (u32 (Z.lnot 4095)) with (Z.shiftl (Z.ones 20) 12).
  assert (E : a = Z.lor (Z.shiftl (a / 4096) 12) (a mod 4096)).
  { rewrite lor_disjoint by (cbn; zdm). rewrite Z.shiftl_mul_pow2 by lia. change (2 ^ 12) with 4096. zdm. }
  rewrite E at 1. rewrite Z.land_lor_distr_l, <- Z.shiftl_land, Z.land_ones by lia.
  rewrite (Z.land_comm (a mod 4096)), low_bits_clear, Z.lor_0_r by (cbn; zdm).
  rewrite Z.mod_small by (cbn; zdm). rewrite Z.shiftl_mul_pow2 by lia. change (2 ^ 12) with 4096. zdm.
Qed.

Lemma PGROUNDDOWN_eq a : 0 <= a < 4294967296 -> PGROUNDDOWN a = a - a mod 4096.
Proof. intros H. unfold PGROUNDDOWN. change (PGSIZE - 1) with 4095. rewrite u32_small by done. by apply land_low. Qed.

Lemma PGROUNDUP_eq a : 0 <= a <= 4294963200 -> PGROUNDUP a = (a + 4095) / 4096 * 4096.
Proof.
  intros H. unfold PGROUNDUP. replace (a + PGSIZE - 1) with (a + 4095) by (unfold PGSIZE; lia). change (PGSIZE - 1) with 4095.
  rewrite u32_small by lia. rewrite land_low by lia. zdm.
Qed.

Lemma elem_of_steps (f : nat -> Z) n x : x ∈ map f (seq 0 n) <-> exists i, (i < n)%nat /\ x = f i.
Proof.
  rewrite list_elem_of_In, in_map_iff. setoid_rewrite in_seq. split; intros (i & H1 & H2); exists i; split; try done; lia.
Qed.

(** ** The free list *)

(** A page the allocator may hold. *)
Definition page_ok (p : Z) : Prop := p mod 4096 = 0 /\ kend <= p < KERNBASE + PHYSTOP.

Fixpoint chain (m : mem) (fl : Z) (l : list Z) : Prop :=
  match l with
  | [] => fl = 0
  | p :: l' => fl = p /\ chain m (ld32 m p) l'
  end.

(** The list l holds exactly the free pages, in the order they will be allocated. *)
Record kmem_inv (s : kmem) (l : list Z) : Prop := {
  ki_bytes : bytes (kbytes s);
  ki_chain : chain (kbytes s) (freelist s) l;
  ki_pages : forall p, p ∈ l -> page_ok p;
  ki_nodup : NoDup l
}.

(** The kernel image ends above its base. *)
Hypothesis kend_range : KERNBASE < kend.

Lemma page_range p : page_ok p -> 2147483648 < p /\ p + 4096 <= 2382364672.
Proof. unfold page_ok, KERNBASE, PHYSTOP in *. intros []. zdm. Qed.

(** Two pages are the same or disjoint. *)
Lemma page_disjoint p q x : p mod 4096 = 0 -> q mod 4096 = 0 -> p <> q -> p <= x < p + 4096 -> ~ (q <= x < q + 4096).
Proof. intros. zdm. Qed.

Definition same_page (m m' : mem) (p : Z) : Prop := forall x, p <= x < p + 4096 -> m' x = m x.

Lemma chain_ext m m' l : forall fl, (forall p, p ∈ l -> page_ok p) -> (forall p, p ∈ l -> same_page m m' p) -> chain m fl l -> chain m' fl l.
Proof.
  induction l as [|p l IH]; intros fl Hp Hs; [done|]. cbn. intros [-> Hc]. split; [done|].
  rewrite (ld32_ext m m').
  - apply IH; [intros q Hq; apply Hp|intros q Hq; apply Hs|done]; by right.
  - pose proof (page_range p (Hp p ltac:(by left))). lia.
  - pose proof (page_range p (Hp p ltac:(by left))). lia.
  - intros x Hx. apply (Hs p); [by left|lia].
Qed.

(** Changing memory outside the free pages. *)
Lemma kmem_inv_mem s l m' : kmem_inv s l -> bytes m' -> (forall p, p ∈ l -> same_page (kbytes s) m' p) -> kmem_inv (set_kbytes m' s) l.
Proof. intros [Hb Hc Hp Hn] Hb' Hs. constructor; try done. cbn. by eapply chain_ext. Qed.

Lemma wp_kalloc s l (Q : Z -> kmem -> Prop) :
  kmem_inv s l ->
  match l with
  | [] => Q 0 s
  | p :: l' => page_ok p -> p ∉ l' -> kmem_inv (set_freelist (ld32 (kbytes s) p) s) l' -> Q p (set_freelist (ld32 (kbytes s) p) s)
  end ->
  wp kalloc s Q.
Proof.
  intros [Hb Hc Hp Hn] HQ. unfold kalloc. apply wp_bind, wp_gets. destruct l as [|p l]; cbn in Hc.
  - rewrite Hc. cbn. exact HQ.
  - destruct Hc as [-> Hc]. assert (Hpp : page_ok p) by (apply Hp; by left). pose proof (page_range p Hpp).
    apply NoDup_cons in Hn as [Hpl Hn]. apply wp_bind. replace (p =? 0) with false by lia. cbn [negb when].
    apply wp_bind, wp_zoom, wp_gets, wp_modify, wp_ret.
    replace (set_freelist _ (set_kbytes (kbytes s) s)) with (set_freelist (ld32 (kbytes s) p) s) by (by destruct s).
    apply HQ; [done|done|]. constructor; cbn; try done. intros q Hq. apply Hp. by right.
Qed.

Lemma wp_kfree s l p (Q : unit -> kmem -> Prop) :
  kmem_inv s l -> page_ok p -> p ∉ l ->
  (forall s', kmem_inv s' (p :: l) -> (forall x, ~ (p <= x < p + 4096) -> kbytes s' x = kbytes s x) -> use_lock s' = use_lock s -> Q tt s') ->
  wp (kfree p) s Q.
Proof.
  intros I Hp Hpl HQ. pose proof (page_range p Hp) as Hr. destruct Hp as [Hm Hk]. unfold kfree, PGSIZE.
  assert (Hv : V2P p = p - KERNBASE) by (unfold V2P, KERNBASE in *; apply u32_small; lia).
  rewrite Hm, Hv. cbn [negb Z.eqb orb]. replace (p <? kend) with false by lia. replace (p - KERNBASE >=? PHYSTOP) with false by lia.
  cbn [orb]. apply wp_bind, wp_zoom. apply wp_memset; [lia..|apply I|]. intros m1 Hb1 Hm1.
  apply wp_bind, wp_gets, wp_bind, wp_zoom. cbn [kbytes set_kbytes freelist]. apply wp_store32; [lia..|done|].
  intros m2 Hb2 Hw Hm2. apply wp_modify.
  assert (Hout : forall x, ~ (p <= x < p + 4096) -> m2 x = kbytes s x).
  { intros x Hx. rewrite Hm2 by (apply within_false; lia). rewrite Hm1. destruct (within p 4096 x) eqn:E; [|done].
    apply within_true in E. lia. }
  apply HQ; [|exact Hout|done].
  destruct I as [Hb Hc Hpg Hn]. constructor; cbn; try done.
  - split; [done|]. rewrite Hw. rewrite u32_small.
    + eapply chain_ext; [exact Hpg| |exact Hc]. intros q Hq x Hx. apply Hout. destruct (Hpg q Hq) as [Hqm _].
      apply (page_disjoint q p); try done. by intros ->.
    + destruct l as [|q l]; cbn in Hc; [lia|]. destruct Hc as [-> _].
      pose proof (page_range q (Hpg q ltac:(by left))). lia.
  - intros q Hq. apply elem_of_cons in Hq as [->|Hq]; [done|by apply Hpg].
  - by constructor.
Qed.

(** The pages p, p + PGSIZE, ... freed in turn. *)
Lemma wp_freerange s l a n vend (Q : unit -> kmem -> Prop) (ps := map (fun i => PGROUNDUP a + 4096 * Z.of_nat i) (seq 0 n)) :
  kmem_inv s l -> 0 <= a <= 4294963200 -> kend <= PGROUNDUP a -> vend < KERNBASE + PHYSTOP + 4096 ->
  n = Z.to_nat ((vend - PGROUNDUP a) / 4096) ->
  (forall p, p ∈ ps -> p ∉ l) ->
  (forall s', kmem_inv s' (rev ps ++ l) -> use_lock s' = use_lock s -> Q tt s') ->
  wp (freerange a vend) s Q.
Proof.
  intros I Ha Hk Hv Hn Hnl HQ. assert (Hal : PGROUNDUP a mod 4096 = 0) by (rewrite PGROUNDUP_eq by done; zdm).
  set (p0 := PGROUNDUP a) in *.
  set (pre := fun k => map (fun i => p0 + 4096 * Z.of_nat i) (seq 0 k)).
  assert (Hpre : forall k x, x ∈ pre k <-> exists i, (i < k)%nat /\ x = p0 + 4096 * Z.of_nat i).
  { intros k x. apply elem_of_steps. }
  unfold freerange, for_step. replace (Z.to_nat ((vend - PGSIZE + 1 - PGROUNDUP a + PGSIZE - 1) / PGSIZE)) with n
    by (unfold PGSIZE; rewrite Hn; do 2 f_equal; unfold p0; lia).
  fold p0. eapply wp_mono.
  - apply (wp_rounds (fun a' s' => exists k, a' = p0 + 4096 * Z.of_nat k /\ (k <= n)%nat /\ kmem_inv s' (rev (pre k) ++ l) /\ use_lock s' = use_lock s)).
    + exists O. split_and!; [cbn; lia|lia|done|done].
    + intros k s' Hkn (k' & Ek & Hkn' & I' & Hu). unfold PGSIZE in *. assert (k' = Z.to_nat k) as -> by lia.
      set (k' := Z.to_nat k) in *. rewrite Ek. apply (wp_kfree s' (rev (pre k') ++ l)); [done| | |].
      * split; [zdm|]. unfold KERNBASE, PHYSTOP in *. zdm.
      * rewrite elem_of_app, elem_of_reverse || rewrite elem_of_app. intros [Hx|Hx].
        -- apply list_elem_of_In, in_rev, list_elem_of_In, Hpre in Hx as (i & Hi & Hx). lia.
        -- apply (Hnl (p0 + 4096 * Z.of_nat k')); [|done]. apply Hpre. exists k'. split; [lia|done].
      * intros s'' I'' _ Hu''. exists (S k'). split_and!; [lia|lia| |congruence].
        replace (rev (pre (S k')) ++ l) with ((p0 + 4096 * Z.of_nat k') :: rev (pre k') ++ l); [done|].
        unfold pre. by rewrite seq_S, map_app, rev_app_distr.
  - intros [] s' (k & Ek & Hkn & I' & Hu). unfold PGSIZE in *. assert (k = n) as -> by lia. by apply HQ.
Qed.
End Kalloc.

(** ** Theorems *)

(** C27: the allocator is a stack of pages.  kalloc() takes the page freed
    last and changes no byte of memory, or returns 0 if there is none; kfree()
    of a page that is not free puts it on top and writes in that page alone. *)
Theorem allocator_is_a_stack kend s l :
  KERNBASE < kend -> kmem_inv kend s l ->
  (exists s', kalloc s = Ok (hd 0 l) s' /\ kmem_inv kend s' (tl l) /\ kbytes s' = kbytes s) /\
  (forall p, page_ok kend p -> p ∉ l ->
   exists s', kfree kend p s = Ok tt s' /\ kmem_inv kend s' (p :: l) /\
     forall x, x < p \/ p + PGSIZE <= x -> kbytes s' x = kbytes s x).
Proof.
  intros Hk I. split.
  - destruct (wp_run kalloc s (fun r s' => r = hd 0 l /\ kmem_inv kend s' (tl l) /\ kbytes s' = kbytes s)) as (r & s' & E & -> & H).
    + apply (wp_kalloc kend Hk s l); [done|]. by destruct l.
    + eauto.
  - intros p Hp Hpl. apply wp_run_unit, (wp_kfree kend Hk s l); [done..|]. intros s' I' Hout _. split; [done|].
    intros x Hx. apply Hout. unfold PGSIZE in Hx. lia.
Qed.

(** Both phases, for page-aligned bounds mid and hi. *)
Lemma kinit_frees kend m b mid hi :
  KERNBASE < kend <= mid -> mid <= hi <= KERNBASE + PHYSTOP -> mid mod 4096 = 0 -> hi mod 4096 = 0 -> bytes m ->
  exists s l, (kinit1 kend kend mid ;;; kinit2 kend mid hi) (mkKmem m 0 b) = Ok tt s /\
    kmem_inv kend s l /\ use_lock s = true /\ forall p, p ∈ l <-> p mod 4096 = 0 /\ kend <= p /\ p + 4096 <= hi.
Proof.
  unfold KERNBASE, PHYSTOP. intros Hk Hh Hm4 Hh4 Hb.
  assert (Ek : PGROUNDUP kend = (kend + 4095) / 4096 * 4096) by (apply PGROUNDUP_eq; lia).
  assert (E4 : PGROUNDUP mid = mid) by (rewrite PGROUNDUP_eq by lia; zdm).
  set (q := (kend + 4095) / 4096) in *. assert (Hq : q * 4096 <= mid /\ kend <= q * 4096 < kend + 4096) by (unfold q; zdm).
  set (n1 := Z.to_nat ((mid - PGROUNDUP kend) / 4096)). set (n2 := Z.to_nat ((hi - PGROUNDUP mid) / 4096)).
  set (ps1 := map (fun i => PGROUNDUP kend + 4096 * Z.of_nat i) (seq 0 n1)).
  set (ps2 := map (fun i => PGROUNDUP mid + 4096 * Z.of_nat i) (seq 0 n2)).
  assert (H1 : forall p, p ∈ ps1 <-> p mod 4096 = 0 /\ kend <= p < mid).
  { intros x. unfold ps1. rewrite elem_of_steps, Ek. unfold n1. rewrite Ek. split; [intros (i & Hi & ->); zdm|].
    intros (Hx & Hlo & Hhi). exists (Z.to_nat (x / 4096 - q)). zdm. }
  assert (H2 : forall p, p ∈ ps2 <-> p mod 4096 = 0 /\ mid <= p < hi).
  { intros x. unfold ps2. rewrite elem_of_steps, E4. unfold n2. rewrite E4. split; [intros (i & Hi & ->); zdm|].
    intros (Hx & Hlo & Hhi). exists (Z.to_nat (x / 4096 - mid / 4096)). zdm. }
  assert (HK : KERNBASE < kend) by (unfold KERNBASE; lia).
  destruct (wp_run_unit (kinit1 kend kend mid ;;; kinit2 kend mid hi) (mkKmem m 0 b)
    (fun s => kmem_inv kend s (rev ps2 ++ rev ps1 ++ []) /\ use_lock s = true)) as (s & E & I & Hu).
  - apply wp_bind. unfold kinit1. apply wp_bind, wp_modify.
    apply (wp_freerange kend HK _ [] kend n1); [|lia|lia|unfold KERNBASE, PHYSTOP; lia|reflexivity|intros; apply not_elem_of_nil|].
    { constructor; cbn; try done; [by intros p ?%not_elem_of_nil|constructor]. }
    intros s1 I1 _. unfold kinit2. apply wp_bind.
    apply (wp_freerange kend HK _ (rev ps1 ++ []) mid n2); [exact I1|lia|lia|unfold KERNBASE, PHYSTOP; lia|reflexivity| |].
    + intros p Hp Hin. apply H2 in Hp. rewrite app_nil_r, list_elem_of_In, <- in_rev, <- list_elem_of_In, H1 in Hin. lia.
    + intros s2 [] _. apply wp_modify. split; [by constructor|done].
  - exists s, (rev ps2 ++ rev ps1 ++ []). split; [exact E|]. split; [exact I|]. split; [exact Hu|]. intros p.
    rewrite app_nil_r, elem_of_app, !list_elem_of_In, <- !in_rev, <- !list_elem_of_In, H1, H2. split; [zdm|].
    intros (Hm & Hlo & Hhi). destruct (Z.lt_ge_cases p mid); [right|left]; zdm.
Qed.

(** At boot, kinit1() and kinit2(), called with the bounds main() gives
    them, put on the free list each whole page between the end of the kernel
    and PHYSTOP, once. *)
Theorem kinit_frees_all_memory kend m b :
  KERNBASE < kend <= P2V (4 * 1024 * 1024) -> bytes m ->
  exists s l, (kinit1 kend kend (P2V (4 * 1024 * 1024)) ;;;
               kinit2 kend (P2V (4 * 1024 * 1024)) (P2V PHYSTOP)) (mkKmem m 0 b) = Ok tt s /\
    kmem_inv kend s l /\ use_lock s = true /\
    forall p, p ∈ l <-> p mod PGSIZE = 0 /\ kend <= p /\ p + PGSIZE <= P2V PHYSTOP.
Proof.
  change (P2V (4 * 1024 * 1024)) with 2151677952. change (P2V PHYSTOP) with 2382364672.
  intros Hk Hb. apply kinit_frees; [exact Hk|unfold KERNBASE, PHYSTOP; lia|reflexivity|reflexivity|exact Hb].
Qed.

(** A kernel of a little over a megabyte. *)
Definition demo_kend : Z := 0x80115000.

Lemma kinit_frees_all_memory_witness :
  exists s l, (kinit1 demo_kend demo_kend (P2V (4 * 1024 * 1024)) ;;;
               kinit2 demo_kend (P2V (4 * 1024 * 1024)) (P2V PHYSTOP)) (mkKmem (fun _ => 0) 0 true) = Ok tt s /\
    kmem_inv demo_kend s l /\ use_lock s = true /\
    forall p, p ∈ l <-> p mod PGSIZE = 0 /\ demo_kend <= p /\ p + PGSIZE <= P2V PHYSTOP.
Proof.
  apply (kinit_frees_all_memory demo_kend (fun _ => 0) true); [split; vm_compute; [reflexivity|discriminate]|].
  intros a. split; [reflexivity|vm_compute; reflexivity].
Defined.

(** One free page. *)
Definition demo_kmem : kmem := mkKmem (fun _ => 0) demo_kend true.

Lemma demo_kmem_inv : kmem_inv demo_kend demo_kmem [demo_kend].
Proof.
  constructor; cbn; [intros a; lia|done| |apply NoDup_singleton].
  intros p ->%list_elem_of_singleton. split; [reflexivity|]. unfold demo_kend, KERNBASE, PHYSTOP. lia.
Qed.

Lemma allocator_is_a_stack_witness :
  (exists s', kalloc demo_kmem = Ok demo_kend s' /\ kmem_inv demo_kend s' [] /\ kbytes s' = kbytes demo_kmem) /\
  (forall p, page_ok demo_kend p -> p ∉ [demo_kend] ->
   exists s', kfree demo_kend p demo_kmem = Ok tt s' /\ kmem_inv demo_kend s' [p; demo_kend] /\
     forall x, x < p \/ p + PGSIZE <= x -> kbytes s' x = kbytes demo_kmem x).
Proof. apply (allocator_is_a_stack demo_kend demo_kmem [demo_kend]); [reflexivity|exact demo_kmem_inv]. Defined.
