(* ===== verification/Vm.v ===== *)
(** Page tables and user memory (vm.c, with the paging macros of mmu.h).

    Page directories and page tables are pages of kernel memory; the kernel
    reaches a physical page at its address plus KERNBASE.  [kdata] is the
    linker's symbol data.  The messages cprintf() prints on an allocation
    failure, the segment descriptors and the loading of cr3 are left out. *)

From Stdlib Require Import ZArith Lia.
From stdpp Require Import base gmap strings numbers list.
From S2P Require Import Prelude Kstring Mem Kalloc.

Open Scope Z_scope.
Open Scope kern_scope.

Definition PTE_P : Z := 0x001.
Definition PTE_W : Z := 0x002.
Definition PTE_U : Z := 0x004.
Definition NPDENTRIES : Z := 1024.
Definition PDX (va : Z) : Z := Z.land (Z.shiftr (u32 va) 22) 0x3FF.
Definition PTX (va : Z) : Z := Z.land (Z.shiftr (u32 va) 12) 0x3FF.
Definition PGADDR (d t o : Z) : Z := u32 (Z.lor (Z.lor (Z.shiftl d 22) (Z.shiftl t 12)) o).
Definition PTE_ADDR (pte : Z) : Z := Z.land (u32 pte) (u32 (Z.lnot 0xFFF)).
Definition PTE_FLAGS (pte : Z) : Z := Z.land (u32 pte) 0xFFF.

(** pte & bit, as a condition *)
Definition has (pte bit : Z) : bool := negb (Z.land pte bit =? 0).

Section Vm.
Variables kend kdata : Z.

(** A null pointer is 0; the entry's address otherwise. *)
Definition walkpgdir (pgdir va : Z) (alloc : bool) : M kmem Z :=
  let pde := pgdir + 4 * PDX va in
  let! e := on_mem (load32 pde) in
  if has e PTE_P then ret (u32 (P2V (PTE_ADDR e) + 4 * PTX va))
  else if negb alloc then ret 0
  else
    let! pgtab := kalloc in
    if pgtab =? 0 then ret 0
    else
      on_mem (memset pgtab 0 PGSIZE) ;;;
      on_mem (store32 pde (Z.lor (Z.lor (Z.lor (V2P pgtab) PTE_P) PTE_W) PTE_U)) ;;;
      ret (u32 (pgtab + 4 * PTX va)).

Fixpoint map_loop (fuel : nat) (pgdir a last pa perm : Z) : M kmem Z :=
  match fuel with
  | O => blocked
  | S fuel' =>
      let! pte := walkpgdir pgdir a true in
      if pte =? 0 then ret (-1)
      else
        let! e := on_mem (load32 pte) in
        if has e PTE_P then panic "remap"
        else
          on_mem (store32 pte (Z.lor (Z.lor pa perm) PTE_P)) ;;;
          if a =? last then ret 0
          else map_loop fuel' pgdir (u32 (a + PGSIZE)) last (u32 (pa + PGSIZE)) perm
  end.

Definition mappages (pgdir va size pa perm : Z) : M kmem Z :=
  let a := PGROUNDDOWN va in
  let last := PGROUNDDOWN (va + size - 1) in
  map_loop (Z.to_nat (u32 (last - a) / PGSIZE + 1)) pgdir a last pa perm.

Fixpoint dealloc_loop (fuel : nat) (pgdir a oldsz : Z) : M kmem unit :=
  match fuel with
  | O => blocked
  | S fuel' =>
      if a <? oldsz then
        let! pte := walkpgdir pgdir a false in
        let! a' :=
          if pte =? 0 then ret (u32 (PGADDR (PDX a + 1) 0 0 - PGSIZE))
          else
            let! e := on_mem (load32 pte) in
            when (has e PTE_P)
              (let pa := PTE_ADDR e in
               if pa =? 0 then panic "kfree"
               else
                 kfree kend (P2V pa) ;;;
                 on_mem (store32 pte 0)) ;;;
            ret a in
        dealloc_loop fuel' pgdir (u32 (a' + PGSIZE)) oldsz
      else ret tt
  end.

Definition deallocuvm (pgdir oldsz newsz : Z) : M kmem Z :=
  if newsz >=? oldsz then ret oldsz
  else
    dealloc_loop (Z.to_nat (oldsz / PGSIZE + 2)) pgdir (PGROUNDUP newsz) oldsz ;;;
    ret newsz.

Definition freevm (pgdir : Z) : M kmem unit :=
  if pgdir =? 0 then panic "freevm: no pgdir"
  else
    deallocuvm pgdir KERNBASE 0 ;;;
    for_up 0 NPDENTRIES (fun i =>
      let! e := on_mem (load32 (pgdir + 4 * i)) in
      when (has e PTE_P) (kfree kend (P2V (PTE_ADDR e)))) ;;;
    kfree kend pgdir.

(** One line of kmap: virt, phys_start, phys_end, perm. *)
Record kmap_entry : Type := mkKmap { virt : Z; phys_start : Z; phys_end : Z; kperm : Z }.

Definition kmap : list kmap_entry :=
  [ mkKmap KERNBASE 0 EXTMEM PTE_W;
    mkKmap KERNLINK (V2P KERNLINK) (V2P kdata) 0;
    mkKmap kdata (V2P kdata) PHYSTOP PTE_W;
    mkKmap DEVSPACE DEVSPACE 0 PTE_W ].

(** The loop over kmap; false: mappages failed. *)
Fixpoint map_kernel (pgdir : Z) (l : list kmap_entry) : M kmem bool :=
  match l with
  | [] => ret true
  | k :: l' =>
      let! r := mappages pgdir (virt k) (u32 (phys_end k - phys_start k)) (phys_start k) (kperm k) in
      if r <? 0 then ret false else map_kernel pgdir l'
  end.

Definition setupkvm : M kmem Z :=
  let! pgdir := kalloc in
  if pgdir =? 0 then ret 0
  else
    on_mem (memset pgdir 0 PGSIZE) ;;;
    if P2V PHYSTOP >? DEVSPACE then panic "PHYSTOP too high"
    else
      let! ok := map_kernel pgdir kmap in
      if ok then ret pgdir
      else
        freevm pgdir ;;;
        ret 0.

Definition inituvm (pgdir init sz : Z) : M kmem unit :=
  if sz >=? PGSIZE then panic "inituvm: more than a page"
  else
    let! mem := kalloc in
    on_mem (memset mem 0 PGSIZE) ;;;
    mappages pgdir 0 PGSIZE (V2P mem) (Z.lor PTE_W PTE_U) ;;;
    on_mem (memmove mem init sz) ;;;
    ret tt.

(** The body of allocuvm's loop; Some r: return r. *)
Definition alloc_page (pgdir oldsz newsz a : Z) : M kmem (option Z) :=
  let! mem := kalloc in
  if mem =? 0 then
    deallocuvm pgdir newsz oldsz ;;;
    ret (Some 0)
  else
    on_mem (memset mem 0 PGSIZE) ;;;
    let! r := mappages pgdir a PGSIZE (V2P mem) (Z.lor PTE_W PTE_U) in
    if r <? 0 then
      deallocuvm pgdir newsz oldsz ;;;
      kfree kend mem ;;;
      ret (Some 0)
    else ret None.

Definition allocuvm (pgdir oldsz newsz : Z) : M kmem Z :=
  if newsz >=? KERNBASE then ret 0
  else if newsz <? oldsz then ret oldsz
  else
    let a := PGROUNDUP oldsz in
    let! r := search (Z.to_nat ((newsz - a + PGSIZE - 1) / PGSIZE)) 0
                (fun k => alloc_page pgdir oldsz newsz (a + k * PGSIZE)) in
    ret (match r with Some v => v | None => newsz end).

Definition clearpteu (pgdir uva : Z) : M kmem unit :=
  let! pte := walkpgdir pgdir uva false in
  if pte =? 0 then panic "clearpteu"
  else
    let! e := on_mem (load32 pte) in
    on_mem (store32 pte (Z.land e (u32 (Z.lnot PTE_U)))).

(** The body of copyuvm's loop; Some tt: goto bad. *)
Definition copy_page (pgdir d i : Z) : M kmem (option unit) :=
  let! pte := walkpgdir pgdir i false in
  if pte =? 0 then panic "copyuvm: pte should exist"
  else
    let! e := on_mem (load32 pte) in
    if negb (has e PTE_P) then panic "copyuvm: page not present"
    else
      let pa := PTE_ADDR e in
      let flags := PTE_FLAGS e in
      let! mem := kalloc in
      if mem =? 0 then ret (Some tt)
      else
        on_mem (memmove mem (P2V pa) PGSIZE) ;;;
        let! r := mappages d i PGSIZE (V2P mem) flags in
        if r <? 0 then
          kfree kend mem ;;;
          ret (Some tt)
        else ret None.

Definition copyuvm (pgdir sz : Z) : M kmem Z :=
  let! d := setupkvm in
  if d =? 0 then ret 0
  else
    let! bad := search (Z.to_nat ((sz + PGSIZE - 1) / PGSIZE)) 0 (fun k => copy_page pgdir d (k * PGSIZE)) in
    match bad with
    | None => ret d
    | Some _ =>
        freevm d ;;;
        ret 0
    end.

(** walkpgdir's result is used without a test for 0. *)
Definition uva2ka (pgdir uva : Z) : M kmem Z :=
  let! pte := walkpgdir pgdir uva false in
  require (negb (pte =? 0)) "*pte of a null pointer" ;;;
  let! e := on_mem (load32 pte) in
  if negb (has e PTE_P) then ret 0
  else if negb (has e PTE_U) then ret 0
  else ret (P2V (PTE_ADDR e)).

Fixpoint copyout_loop (fuel : nat) (pgdir va buf len : Z) : M kmem Z :=
  match fuel with
  | O => blocked
  | S fuel' =>
      if len >? 0 then
        let va0 := PGROUNDDOWN va in
        let! pa0 := uva2ka pgdir va0 in
        if pa0 =? 0 then ret (-1)
        else
          let n := PGSIZE - (va - va0) in
          let n := if n >? len then len else n in
          on_mem (memmove (u32 (pa0 + (va - va0))) buf n) ;;;
          copyout_loop fuel' pgdir (u32 (va0 + PGSIZE)) (u32 (buf + n)) (len - n)
      else ret 0
  end.

Definition copyout (pgdir va p len : Z) : M kmem Z :=
  copyout_loop (Z.to_nat (len / PGSIZE + 3)) pgdir va p len.
End Vm.
