(* ===== verification/VmSpec.v ===== *)
(** Address spaces: what a page directory and its tables mean, the invariant
    that keeps their pages apart, and the walk to an entry. *)

From Stdlib Require Import ZArith Lia.
From stdpp Require Import base gmap strings numbers list.
From S2P Require Import Prelude Kstring Mem Kalloc Vm.

Open Scope Z_scope.
Open Scope kern_scope.

(** ** The macros on page numbers *)

Lemma PDX_eq v o : 0 <= v < 1048576 -> 0 <= o < 4096 -> PDX (4096 * v + o) = v / 1024.
Proof.
  intros Hv Ho. unfold PDX. rewrite u32_small, Z.shiftr_div_pow2 by lia. change 0x3FF with (Z.ones 10).
  rewrite Z.land_ones by lia. zdm.
Qed.

Lemma PTX_eq v o : 0 <= v < 1048576 -> 0 <= o < 4096 -> PTX (4096 * v + o) = v mod 1024.
Proof.
  intros Hv Ho. unfold PTX. rewrite u32_small, Z.shiftr_div_pow2 by lia. change 0x3FF with (Z.ones 10).
  rewrite Z.land_ones by lia. zdm.
Qed.

Lemma PTE_ADDR_eq e : 0 <= e < 4294967296 -> PTE_ADDR e = e - e mod 4096.
Proof. intros H. unfold PTE_ADDR. change 0xFFF with 4095. rewrite u32_small by done. by apply land_low. Qed.

Lemma PTE_FLAGS_eq e : 0 <= e < 4294967296 -> PTE_FLAGS e = e mod 4096.
Proof. intros H. unfold PTE_FLAGS. rewrite u32_small by done. change 0xFFF with (Z.ones 12). by rewrite Z.land_ones by lia. Qed.

Lemma has_P e : has e PTE_P = Z.odd e.
Proof.
  unfold has, PTE_P. change 0x001 with (Z.ones 1). rewrite Z.land_ones by lia. rewrite Zmod_odd. by destruct (Z.odd e).
Qed.

Lemma lor_page p f : p mod 4096 = 0 -> 0 <= f < 4096 -> Z.lor p f = p + f.
Proof.
  intros Hp Hf. assert (E : p = Z.shiftl (p / 4096) 12) by (rewrite Z.shiftl_mul_pow2 by lia; change (2 ^ 12) with 4096; zdm).
  rewrite E. apply lor_disjoint; cbn; lia.
Qed.

Lemma lor_flag_range f g : 0 <= f < 4096 -> 0 <= g < 4096 -> 0 <= Z.lor f g < 4096.
Proof.
  intros Hf Hg. split; [apply Z.lor_nonneg; lia|].
  destruct (Z.eq_dec (Z.lor f g) 0); [lia|]. apply Z.log2_lt_cancel. rewrite Z.log2_lor by lia.
  apply Z.max_lub_lt; (destruct (Z.eq_dec f 0) as [->|]; destruct (Z.eq_dec g 0) as [->|]; cbn; try lia;
    apply Z.log2_lt_pow2; cbn; lia).
Qed.

(** A present entry for the page pa with permissions perm. *)
Lemma pte_value pa perm : pa mod 4096 = 0 -> 0 <= perm < 4096 -> Z.lor (Z.lor pa perm) PTE_P = pa + Z.lor perm 1.
Proof.
  intros Hp Hf. unfold PTE_P. rewrite <- Z.lor_assoc, lor_page; [done|done|]. apply lor_flag_range; lia.
Qed.

Lemma odd_pte pa perm : pa mod 4096 = 0 -> Z.odd (pa + Z.lor perm 1) = true.
Proof.
  intros Hp. rewrite Z.odd_add. replace (Z.odd pa) with false.
  - rewrite <- Z.bit0_odd, Z.lor_spec. by rewrite orb_true_r.
  - symmetry. replace pa with (2 * (2048 * (pa / 4096))) by zdm. apply Z.odd_mul.
Qed.

Section Aspace.
Context (kend : Z) (kend_range : KERNBASE < kend).

(** ** The contents of an address space *)

(** T gives the page table of every directory entry, at its kernel address
    (0: none).  The entry of virtual page v: *)
Definition pte_addr (T : Z -> Z) (v : Z) : Z := T (v / 1024) + 4 * (v mod 1024).
Definition pte_of (m : mem) (T : Z -> Z) (v : Z) : Z := if T (v / 1024) =? 0 then 0 else ld32 m (pte_addr T v).

(** The kernel address of the page an entry refers to. *)
Definition page_of (e : Z) : Z := P2V (PTE_ADDR e).
Definition present (e : Z) : bool := has e PTE_P.

(** Page p belongs to this address space. *)
Definition is_table (T : Z -> Z) (p : Z) : Prop := exists i, 0 <= i < 1024 /\ T i = p /\ p <> 0.
Definition is_user (m : mem) (T : Z -> Z) (p : Z) : Prop :=
  exists v, 0 <= v < 524288 /\ present (pte_of m T v) = true /\ page_of (pte_of m T v) = p.

(** The state s holds the free pages l and the address space of directory d
    with tables T; F are pages that belong to others. *)
Record aspace (s : kmem) (l : list Z) (d : Z) (T : Z -> Z) (F : Z -> Prop) : Prop := {
  as_kmem : kmem_inv kend s l;
  as_free : forall p, p ∈ l -> ~ F p;
  as_dir : page_ok kend d /\ (d ∉ l) /\ ~ F d;
  as_pde : forall i, 0 <= i < 1024 -> T i = 0 -> present (ld32 (kbytes s) (d + 4 * i)) = false;
  as_tab : forall i, 0 <= i < 1024 -> T i <> 0 ->
    ld32 (kbytes s) (d + 4 * i) = T i - KERNBASE + 7 /\ page_ok kend (T i) /\ (T i ∉ l) /\ ~ F (T i) /\ T i <> d;
  as_inj : forall i j, 0 <= i < 1024 -> 0 <= j < 1024 -> T i <> 0 -> T i = T j -> i = j;
  as_user : forall v, 0 <= v < 524288 -> present (pte_of (kbytes s) T v) = true ->
    let p := page_of (pte_of (kbytes s) T v) in page_ok kend p /\ (p ∉ l) /\ ~ F p /\ p <> d /\ ~ is_table T p;
  as_uinj : forall v w, 0 <= v < 524288 -> 0 <= w < 524288 ->
    present (pte_of (kbytes s) T v) = true -> present (pte_of (kbytes s) T w) = true ->
    page_of (pte_of (kbytes s) T v) = page_of (pte_of (kbytes s) T w) -> v = w
}.

(** Every entry of the tables is as it was. *)
Definition same_entries (m m' : mem) (T T' : Z -> Z) : Prop := forall v, 0 <= v < 1048576 -> pte_of m' T' v = pte_of m T v.

(** Memory that belongs to neither the free list nor the tables is as it was. *)
Definition keeps (s s' : kmem) (l : list Z) (d : Z) (T : Z -> Z) : Prop :=
  forall p, page_ok kend p -> p ∉ l -> p <> d -> ~ is_table T p -> same_page (kbytes s) (kbytes s') p.

Lemma page_num_range v : 0 <= v < 1048576 -> 0 <= v / 1024 < 1024 /\ 0 <= v mod 1024 < 1024.
Proof. intros. zdm. Qed.

Lemma table_range s l d T F v : aspace s l d T F -> 0 <= v < 1048576 -> T (v / 1024) <> 0 ->
  0 <= pte_addr T v /\ pte_addr T v + 4 <= 2382364672 /\ T (v / 1024) <= pte_addr T v /\ pte_addr T v + 4 <= T (v / 1024) + 4096.
Proof.
  intros A Hv HT. destruct (page_num_range v Hv) as [Hi Hj]. destruct (as_tab _ _ _ _ _ A _ Hi HT) as (_ & Hp & _).
  pose proof (page_range kend kend_range _ Hp). unfold pte_addr. lia.
Qed.

Lemma pte_range s l d T F v : aspace s l d T F -> 0 <= v < 1048576 -> 0 <= pte_of (kbytes s) T v < 4294967296.
Proof.
  intros A Hv. unfold pte_of. destruct (T (v / 1024) =? 0); [lia|]. apply ld32_range, A.
Qed.

(** Entries read from memory that agrees on the tables. *)
Lemma pte_of_ext s l d T F m' v : aspace s l d T F -> 0 <= v < 1048576 ->
  (T (v / 1024) <> 0 -> forall x, pte_addr T v <= x < pte_addr T v + 4 -> m' x = kbytes s x) ->
  pte_of m' T v = pte_of (kbytes s) T v.
Proof.
  intros A Hv H. unfold pte_of. destruct (Z.eqb_spec (T (v / 1024)) 0) as [|HT]; [done|].
  pose proof (table_range _ _ _ _ _ v A Hv HT). apply ld32_ext; [lia|lia|by apply H].
Qed.

(** ** walkpgdir *)

Lemma wp_walk s l d T F v o alloc (Q : Z -> kmem -> Prop) :
  aspace s l d T F -> 0 <= v < 1048576 -> 0 <= o < 4096 ->
  (T (v / 1024) <> 0 -> Q (pte_addr T v) s) ->
  (T (v / 1024) = 0 -> wp (if negb alloc then ret 0 else
     let! pgtab := kalloc in
     if pgtab =? 0 then ret 0
     else
       on_mem (memset pgtab 0 PGSIZE) ;;;
       on_mem (store32 (d + 4 * (v / 1024)) (Z.lor (Z.lor (Z.lor (V2P pgtab) PTE_P) PTE_W) PTE_U)) ;;;
       ret (u32 (pgtab + 4 * (v mod 1024)))) s Q) ->
  wp (walkpgdir d (4096 * v + o) alloc) s Q.
Proof.
  intros A Hv Ho H1 H2. unfold walkpgdir. rewrite PDX_eq, PTX_eq by done. destruct (page_num_range v Hv) as [Hi Hj].
  apply wp_bind, wp_zoom, wp_gets. replace (set_kbytes (kbytes s) s) with s by (by destruct s).
  unfold pte_addr in *. set (t := T (v / 1024)) in *.
  destruct (Z.eq_dec t 0) as [E|E].
  - pose proof (as_pde _ _ _ _ _ A _ Hi E) as Hp. unfold present in Hp. rewrite Hp. by apply H2.
  - destruct (as_tab _ _ _ _ _ A _ Hi E) as (-> & Hp & _). fold t in Hp |- *. pose proof (page_range kend kend_range _ Hp) as Hr. destruct Hp as [Hm _].
    rewrite has_P. replace (Z.odd _) with true; [|symmetry; unfold KERNBASE; rewrite Zodd_mod; apply Z.eqb_eq; zdm].
    apply wp_ret. rewrite PTE_ADDR_eq by (unfold KERNBASE; lia). unfold P2V, KERNBASE.
    clearbody t. rewrite (u32_small (_ + 2147483648)) by zdm.
    replace (u32 _) with (t + 4 * (v mod 1024)); [by apply H1|]. rewrite u32_small; zdm.
Qed.

Lemma wp_walk_find s l d T F v o (Q : Z -> kmem -> Prop) :
  aspace s l d T F -> 0 <= v < 1048576 -> 0 <= o < 4096 ->
  Q (if T (v / 1024) =? 0 then 0 else pte_addr T v) s -> wp (walkpgdir d (4096 * v + o) false) s Q.
Proof.
  intros A Hv Ho HQ. apply (wp_walk s l d T F); try done; intros E; destruct (Z.eqb_spec (T (v / 1024)) 0); done.
Qed.

(** ** Adding a page table *)

Lemma ld32_page m m' q a : page_ok kend q -> same_page m m' q -> q <= a -> a + 4 <= q + 4096 -> ld32 m' a = ld32 m a.
Proof. intros Hq Hs Ha Hb. pose proof (page_range kend kend_range q Hq). apply ld32_ext; [lia|lia|]. intros x Hx. apply Hs. lia. Qed.

(** A write in page p only. *)
Definition only_page (m m' : mem) (p : Z) : Prop := forall x, ~ (p <= x < p + 4096) -> m' x = m x.

Lemma only_page_other m m' p q : only_page m m' p -> page_ok kend p -> page_ok kend q -> p <> q -> same_page m m' q.
Proof. intros Ho [Hp _] [Hq _] Hne x Hx. apply Ho. by apply (page_disjoint q p). Qed.

(** The lists and tables after some pages of the list became tables. *)
Record grows (l l' : list Z) (T T' : Z -> Z) : Prop := {
  gr_suffix : l' `suffix_of` l;
  gr_old : forall i, T i <> 0 -> T' i = T i;
  gr_new : forall p, is_table T' p -> is_table T p \/ (p ∈ l /\ p ∉ l')
}.

Lemma grows_refl l T : grows l l T T.
Proof. constructor; [done|done|by left]. Qed.

Lemma suffix_elem (l l' : list Z) p : l' `suffix_of` l -> p ∈ l' -> p ∈ l.
Proof. intros [k ->] H. apply elem_of_app. by right. Qed.

Lemma is_table_old l l' T T' p : grows l l' T T' -> is_table T p -> is_table T' p.
Proof. intros G (i & Hi & HT & Hp). exists i. split; [done|]. split; [|done]. rewrite (gr_old _ _ _ _ G); congruence. Qed.

Lemma grows_trans l l1 l2 T T1 T2 : grows l l1 T T1 -> grows l1 l2 T1 T2 -> grows l l2 T T2.
Proof.
  intros G1 G2. constructor.
  - etransitivity; [apply G2|apply G1].
  - intros i Hi. assert (E : T1 i = T i) by (by apply (gr_old _ _ _ _ G1)). rewrite <- E. apply (gr_old _ _ _ _ G2). congruence.
  - intros p Hp. apply (gr_new _ _ _ _ G2) in Hp as [Hp|[Hp Hn]].
    + apply (gr_new _ _ _ _ G1) in Hp as [Hp|[Hp Hn]]; [by left|right]. split; [done|]. intros Hx. apply Hn. eapply suffix_elem; [apply G2|done].
    + right. split; [|done]. eapply suffix_elem; [apply G1|done].
Qed.

(** Nothing else became of the pages that left the list. *)
Record takes (l l' : list Z) (T T' : Z -> Z) : Prop := {
  tk_grows : grows l l' T T';
  tk_used : forall p, p ∈ l -> p ∈ l' \/ is_table T' p
}.

Lemma takes_refl l T : takes l l T T.
Proof. constructor; [apply grows_refl|by left]. Qed.

Lemma takes_trans l l1 l2 T T1 T2 : takes l l1 T T1 -> takes l1 l2 T1 T2 -> takes l l2 T T2.
Proof.
  intros [G1 U1] [G2 U2]. constructor; [by eapply grows_trans|]. intros p Hp.
  destruct (U1 p Hp) as [Hp1|Hp1]; [by apply U2|right]. by eapply is_table_old.
Qed.

Lemma vkeeps_refl s l d T : keeps s s l d T.
Proof. by intros p _ _ _ _ x _. Qed.

Lemma vkeeps_trans s s1 s2 l l1 d T T1 : keeps s s1 l d T -> grows l l1 T T1 -> keeps s1 s2 l1 d T1 -> keeps s s2 l d T.
Proof.
  intros K1 G K2 p Hp Hl Hd Ht x Hx. transitivity (kbytes s1 x); [|by apply (K1 p)]. apply (K2 p); try done.
  - intros H. apply Hl. eapply suffix_elem; [apply G|done].
  - intros H. by apply (gr_new _ _ _ _ G) in H as [H|[H _]].
Qed.

Definition set_table (T : Z -> Z) (i p : Z) : Z -> Z := fun j => if j =? i then p else T j.

Lemma page_pos p : page_ok kend p -> p <> 0.
Proof. intros H. pose proof (page_range kend kend_range p H). lia. Qed.

Lemma is_table_set T i p q : 0 <= i < 1024 -> T i = 0 -> p <> 0 -> (is_table (set_table T i p) q <-> is_table T q \/ q = p).
Proof.
  intros Hi HT Hp. unfold set_table. split.
  - intros (j & Hj & E & Hq). destruct (Z.eqb_spec j i); [by right|left; by exists j].
  - intros [(j & Hj & E & Hq)| ->].
    + exists j. destruct (Z.eqb_spec j i); [congruence|done].
    + exists i. by rewrite Z.eqb_refl.
Qed.

(** Directory entry i now refers to the zeroed page p. *)
Lemma aspace_new_table s l d T F i p s1 m1 m2 :
  aspace s (p :: l) d T F -> 0 <= i < 1024 -> T i = 0 -> page_ok kend p -> p ∉ l ->
  kmem_inv kend s1 l -> kbytes s1 = kbytes s -> bytes m2 ->
  only_page (kbytes s) m1 p -> (forall x, p <= x < p + 4096 -> m1 x = 0) ->
  ld32 m2 (d + 4 * i) = p - KERNBASE + 7 -> (forall x, within (d + 4 * i) 4 x = false -> m2 x = m1 x) ->
  aspace (set_kbytes m2 s1) l d (set_table T i p) F /\ same_entries (kbytes s) m2 T (set_table T i p) /\
  keeps s (set_kbytes m2 s1) (p :: l) d T.
Proof.
  intros A Hi HT Hp Hpl I1 E1 Hb2 Ho1 Hz Hw Ho2. destruct (as_dir _ _ _ _ _ A) as (Hd & Hdl & HdF).
  apply not_elem_of_cons in Hdl as [Hdp Hdl]. pose proof (page_range kend kend_range d Hd) as Hdr.
  assert (Hsame : forall q, page_ok kend q -> q <> p -> q <> d -> same_page (kbytes s) m2 q).
  { intros q Hq Hqp Hqd x Hx. destruct Hq as [Hqm Hqr]. rewrite Ho2.
    - apply Ho1. apply (page_disjoint q p); try done. apply Hp.
    - apply within_false. pose proof (page_disjoint q d x Hqm (proj1 Hd) Hqd Hx). lia. }
  assert (Hpde : forall j, 0 <= j < 1024 -> j <> i -> ld32 m2 (d + 4 * j) = ld32 (kbytes s) (d + 4 * j)).
  { intros j Hj Hji. apply ld32_ext; [lia|lia|]. intros x Hx. rewrite Ho2 by (apply within_false; lia). apply Ho1.
    apply (page_disjoint d p); [apply Hd|apply Hp|done|lia]. }
  assert (Hent : same_entries (kbytes s) m2 T (set_table T i p)).
  { intros v Hv. destruct (page_num_range v Hv) as [Hvi Hvj]. unfold pte_of, pte_addr, set_table.
    destruct (Z.eqb_spec (v / 1024) i) as [E|E].
    - rewrite E, HT. cbn. replace (p =? 0) with false by (symmetry; apply Z.eqb_neq, page_pos; done).
      unfold ld32. pose proof (page_range kend kend_range p Hp). rewrite !(u32_small) by lia.
      assert (Hz2 : forall x, p <= x < p + 4096 -> m2 x = 0).
      { intros x Hx. rewrite Ho2; [by apply Hz|]. apply within_false. pose proof (page_disjoint p d x (proj1 Hp) (proj1 Hd) ltac:(congruence) Hx). lia. }
      rewrite !Hz2 by lia. done.
    - destruct (Z.eqb_spec (T (v / 1024)) 0) as [|HTv]; [done|]. destruct (as_tab _ _ _ _ _ A _ Hvi HTv) as (_ & Ht & Htl & _ & Htd).
      apply not_elem_of_cons in Htl as [Htp Htl]. apply (ld32_page _ _ (T (v / 1024))); [done|by apply Hsame|lia|lia]. }
  split_and!; [|done|].
  - constructor; cbn [kbytes set_kbytes].
    + apply kmem_inv_mem; try done. rewrite E1. intros q Hq. apply Hsame; [by apply I1|by intros ->|by intros ->].
    + intros q Hq. apply (as_free _ _ _ _ _ A). by right.
    + done.
    + intros j Hj. unfold set_table. destruct (Z.eqb_spec j i) as [->|Hji]; [intros ->; by destruct (page_pos 0)|].
      intros HTj. rewrite Hpde by done. by apply (as_pde _ _ _ _ _ A).
    + intros j Hj. unfold set_table. destruct (Z.eqb_spec j i) as [->|Hji].
      * intros _. split_and!; try done. apply (as_free _ _ _ _ _ A). by left.
      * intros HTj. destruct (as_tab _ _ _ _ _ A _ Hj HTj) as (Ew & ? & Hl & ? & ?). apply not_elem_of_cons in Hl as [? ?].
        split_and!; try done. by rewrite Hpde.
    + intros j k Hj Hk. unfold set_table. destruct (Z.eqb_spec j i) as [->|Hji], (Z.eqb_spec k i) as [->|Hki]; try done.
      * intros _ ->. destruct (Z.eq_dec (T k) 0) as [E|E]; [by rewrite E in Hp; destruct (page_pos 0)|].
        destruct (as_tab _ _ _ _ _ A _ Hk E) as (_ & _ & Hl & _). by apply not_elem_of_cons in Hl as [? _].
      * intros HTj E. destruct (as_tab _ _ _ _ _ A _ Hj HTj) as (_ & _ & Hl & _). by apply not_elem_of_cons in Hl as [? _].
      * by apply (as_inj _ _ _ _ _ A).
    + intros v Hv. rewrite Hent by lia. intros Hpr. destruct (as_user _ _ _ _ _ A v Hv Hpr) as (? & Hl & ? & ? & Hnt).
      apply not_elem_of_cons in Hl as [? ?]. split_and!; try done. rewrite is_table_set by (try done; by apply page_pos). tauto.
    + intros v w Hv Hw'. rewrite !Hent by lia. by apply (as_uinj _ _ _ _ _ A).
  - intros q Hq Hql Hqd _. cbn. apply not_elem_of_cons in Hql as [? _]. by apply Hsame.
Qed.

Lemma wp_walk_make s l d T F v o (Q : Z -> kmem -> Prop) :
  aspace s l d T F -> 0 <= v < 1048576 -> 0 <= o < 4096 ->
  (l = [] -> Q 0 s) ->
  (forall s' l' T', aspace s' l' d T' F -> T' (v / 1024) <> 0 -> same_entries (kbytes s) (kbytes s') T T' ->
     keeps s s' l d T -> takes l l' T T' -> Q (pte_addr T' v) s') ->
  wp (walkpgdir d (4096 * v + o) true) s Q.
Proof.
  intros A Hv Ho H0 HQ. apply (wp_walk s l d T F); try done.
  - intros HT. apply (HQ s l T); try done. apply takes_refl.
  - intros HT. cbn [negb]. destruct (page_num_range v Hv) as [Hi Hj]. set (i := v / 1024) in *.
    apply wp_bind, (wp_kalloc kend kend_range s l); [apply A|]. destruct l as [|p l].
    { cbn. by apply H0. }
    intros Hp Hpl I1. pose proof (page_range kend kend_range p Hp) as Hr. replace (p =? 0) with false by lia.
    apply wp_bind, wp_zoom. cbn [kbytes set_freelist]. unfold PGSIZE. apply wp_memset; [lia..|apply A|]. intros m1 Hb1 Hm1.
    destruct (as_dir _ _ _ _ _ A) as (Hd & _). pose proof (page_range kend kend_range d Hd) as Hdr.
    apply wp_bind, wp_zoom. cbn [kbytes set_kbytes]. apply wp_store32; [lia..|done|]. intros m2 Hb2 Hw Hm2. apply wp_ret.
    assert (Hv2p : V2P p = p - KERNBASE) by (unfold V2P, KERNBASE in *; apply u32_small; lia).
    assert (Hword : ld32 m2 (d + 4 * i) = p - KERNBASE + 7).
    { rewrite Hw, Hv2p, <- !Z.lor_assoc. change (Z.lor PTE_P (Z.lor PTE_W PTE_U)) with 7. destruct Hp as [Hpm _]. unfold KERNBASE.
      rewrite lor_page by (lia || zdm). rewrite u32_small; lia. }
    destruct (aspace_new_table s l d T F i p _ m1 m2 A Hi HT Hp Hpl I1 eq_refl Hb2) as (A' & E' & K'); try done.
    { intros x Hx. rewrite Hm1. destruct (within p 4096 x) eqn:E; [apply within_true in E; lia|done]. }
    { intros x Hx. rewrite Hm1. destruct (within p 4096 x) eqn:E; [done|apply within_false in E; lia]. }
    replace (u32 (p + 4 * (v mod 1024))) with (pte_addr (set_table T i p) v)
      by (unfold pte_addr, set_table; fold i; rewrite Z.eqb_refl, u32_small; lia).
    apply (HQ _ l (set_table T i p)); try done.
    + unfold set_table. fold i. rewrite Z.eqb_refl. lia.
    + constructor; [constructor|].
      * by exists [p].
      * intros j Hj'. unfold set_table. destruct (Z.eqb_spec j i) as [->|]; done.
      * intros q. rewrite is_table_set by (try done; lia). intros [?| ->]; [by left|right]. split; [by left|done].
      * intros q [->|Hq]%elem_of_cons; [right; apply is_table_set; (done || lia || by right)|by left].
Qed.
End Aspace.
