(* ===== verification/VmMap.v ===== *)
(** mappages() and deallocuvm(): entries set and cleared in an address space. *)

From Stdlib Require Import ZArith Lia.
From stdpp Require Import base gmap strings numbers list.
From S2P Require Import Prelude Kstring Mem Kalloc Vm VmSpec.

Open Scope Z_scope.
Open Scope kern_scope.

Section Map.
Context (kend : Z) (kend_range : KERNBASE < kend).

Abbreviation aspace := (aspace kend).
Abbreviation keeps := (keeps kend).
Abbreviation page_ok := (page_ok kend).

(** ** One entry *)

Lemma pte_addr_apart s l d T F v w :
  aspace s l d T F -> 0 <= v < 1048576 -> 0 <= w < 1048576 -> v <> w -> T (v / 1024) <> 0 -> T (w / 1024) <> 0 ->
  pte_addr T w + 4 <= pte_addr T v \/ pte_addr T v + 4 <= pte_addr T w.
Proof.
  intros A Hv Hw Hne HTv HTw. destruct (page_num_range v Hv) as [Hvi Hvj], (page_num_range w Hw) as [Hwi Hwj].
  unfold pte_addr. destruct (Z.eq_dec (v / 1024) (w / 1024)) as [E|E].
  - rewrite E. assert (v mod 1024 <> w mod 1024) by zdm. lia.
  - destruct (as_tab _ _ _ _ _ _ A _ Hvi HTv) as (_ & [Hpv _] & _), (as_tab _ _ _ _ _ _ A _ Hwi HTw) as (_ & [Hpw _] & _).
    assert (T (v / 1024) <> T (w / 1024)) by (intros E'; apply E; by apply (as_inj _ _ _ _ _ _ A)).
    pose proof (page_disjoint (T (v / 1024)) (T (w / 1024)) (T (v / 1024) + 4 * (v mod 1024)) Hpv Hpw H ltac:(lia)).
    pose proof (page_disjoint (T (w / 1024)) (T (v / 1024)) (T (w / 1024) + 4 * (w mod 1024)) Hpw Hpv ltac:(done) ltac:(lia)).
    revert H0 H1. generalize (T (v / 1024)) (T (w / 1024)) Hpv Hpw H. intros. zdm.
Qed.

(** A page of nobody. *)
Definition unused (s : kmem) (l : list Z) (d : Z) (T : Z -> Z) (F : Z -> Prop) (p : Z) : Prop :=
  page_ok p /\ (p ∉ l) /\ ~ F p /\ p <> d /\ ~ is_table T p /\ ~ is_user (kbytes s) T p.

Definition entries_are (m' : mem) (T : Z -> Z) (f : Z -> Z) : Prop := forall w, 0 <= w < 1048576 -> pte_of m' T w = f w.

(** An entry is set, to a page of nobody or to the page it had. *)
Lemma aspace_set s l d T F v e m' :
  aspace s l d T F -> 0 <= v < 1048576 -> T (v / 1024) <> 0 -> bytes m' -> ld32 m' (pte_addr T v) = e ->
  (forall x, within (pte_addr T v) 4 x = false -> m' x = kbytes s x) ->
  (present e = true -> v < 524288 -> unused s l d T F (page_of e) \/ present (pte_of (kbytes s) T v) = true /\ page_of e = page_of (pte_of (kbytes s) T v)) ->
  aspace (set_kbytes m' s) l d T F /\ entries_are m' T (fun w => if w =? v then e else pte_of (kbytes s) T w) /\
  (forall p, page_ok p -> ~ is_table T p -> same_page (kbytes s) m' p).
Proof.
  intros A Hv HT Hb Hw Ho Hown. destruct (page_num_range v Hv) as [Hi Hj].
  destruct (as_tab _ _ _ _ _ _ A _ Hi HT) as (_ & Ht & Htl & HtF & Htd).
  pose proof (table_range _ kend_range _ _ _ _ _ v A Hv HT) as Hr.
  assert (Hsame : forall p, page_ok p -> p <> T (v / 1024) -> same_page (kbytes s) m' p).
  { intros p [Hp _] Hne x Hx. apply Ho, within_false. pose proof (page_disjoint p _ x Hp (proj1 Ht) Hne Hx). lia. }
  assert (Hent : entries_are m' T (fun w => if w =? v then e else pte_of (kbytes s) T w)).
  { intros w Hw'. destruct (Z.eqb_spec w v) as [->|Hne].
    - unfold pte_of. by destruct (Z.eqb_spec (T (v / 1024)) 0).
    - apply (pte_of_ext _ kend_range s l d T F); try done. intros HTw x Hx. apply Ho, within_false.
      pose proof (pte_addr_apart s l d T F v w A Hv Hw' ltac:(done) HT HTw). lia. }
  assert (Hpde : forall i, 0 <= i < 1024 -> ld32 m' (d + 4 * i) = ld32 (kbytes s) (d + 4 * i)).
  { intros i Hi'. destruct (as_dir _ _ _ _ _ _ A) as (Hd & _). apply (ld32_page _ kend_range _ _ d); [done|by apply Hsame|lia|lia]. }
  split_and!; [|done|].
  2:{ intros p Hp Hn. apply Hsame; [done|]. intros ->. apply Hn. exists (v / 1024). done. }
  constructor; cbn [kbytes set_kbytes].
  - apply kmem_inv_mem; [done|apply A|done|]. intros p Hp. apply Hsame; [by apply (as_kmem _ _ _ _ _ _ A)|]. by intros ->.
  - apply A.
  - apply A.
  - intros i Hi' HTi. rewrite Hpde by done. by apply (as_pde _ _ _ _ _ _ A).
  - intros i Hi' HTi. rewrite Hpde by done. by apply (as_tab _ _ _ _ _ _ A).
  - apply A.
  - intros w Hw'. rewrite Hent by lia. cbn. destruct (Z.eqb_spec w v) as [->|Hne]; [|by apply (as_user _ _ _ _ _ _ A)].
    intros Hp. destruct (Hown Hp ltac:(lia)) as [(? & ? & ? & ? & ? & _)|[Ho' ->]]; [done|]. by apply (as_user _ _ _ _ _ _ A).
  - intros a b Ha Hb'. rewrite !Hent by lia. cbn. destruct (Z.eqb_spec a v) as [->|Hav], (Z.eqb_spec b v) as [->|Hbv]; try done.
    + intros Hp Hq E. destruct (Hown Hp ltac:(lia)) as [(_ & _ & _ & _ & _ & Hnu)|[Ho' E']]; [exfalso; apply Hnu; exists b; done|]. apply (as_uinj _ _ _ _ _ _ A); (done || congruence).
    + intros Hp Hq E. destruct (Hown Hq ltac:(lia)) as [(_ & _ & _ & _ & _ & Hnu)|[Ho' E']]; [exfalso; apply Hnu; exists a; done|]. apply (as_uinj _ _ _ _ _ _ A); (done || congruence).
    + by apply (as_uinj _ _ _ _ _ _ A).
Qed.

Lemma aspace_store s l d T F v e m' :
  aspace s l d T F -> 0 <= v < 1048576 -> T (v / 1024) <> 0 -> bytes m' -> ld32 m' (pte_addr T v) = e ->
  (forall x, within (pte_addr T v) 4 x = false -> m' x = kbytes s x) ->
  (present e = true -> v < 524288 -> unused s l d T F (page_of e)) ->
  aspace (set_kbytes m' s) l d T F /\ entries_are m' T (fun w => if w =? v then e else pte_of (kbytes s) T w) /\
  (forall p, page_ok p -> ~ is_table T p -> same_page (kbytes s) m' p).
Proof. intros A Hv HT Hb Hw Ho Hown. apply aspace_set; try done. intros HP Hl. left. by apply Hown. Qed.

(** ** mappages *)

(** The entries of the n pages from v on map the pages from pa on. *)
Definition mapped (v n pa perm : Z) (f : Z -> Z) : Z -> Z :=
  fun w => if (v <=? w) && (w <? v + n) then pa + 4096 * (w - v) + Z.lor perm 1 else f w.

Lemma unused_grows s s' l l' d T T' F p :
  unused s l d T F p -> grows l l' T T' -> same_entries (kbytes s) (kbytes s') T T' -> unused s' l' d T' F p.
Proof.
  intros (H1 & H2 & H3 & H4 & H5 & H6) G E. split_and!; try done.
  - intros H. apply H2. eapply suffix_elem; [apply G|done].
  - intros H. by apply (gr_new _ _ _ _ G) in H as [H|[H _]].
  - intros (v & Hv & Hp & E'). apply H6. exists v. rewrite E in Hp, E' by lia. done.
Qed.

Lemma page_of_pte pa perm : pa mod 4096 = 0 -> 0 <= pa < 4294967296 -> 0 <= perm < 4096 -> page_of (pa + Z.lor perm 1) = P2V pa.
Proof.
  intros Hp Hr Hf. pose proof (lor_flag_range perm 1 Hf ltac:(lia)). unfold page_of.
  rewrite PTE_ADDR_eq by zdm. f_equal. zdm.
Qed.

(** One round of the loop: the table is found or made, the entry is written. *)
Lemma wp_map_one s l d T F v pa perm (Q : Z -> kmem -> Prop) (k : M kmem Z) :
  aspace s l d T F -> 0 <= v < 1048576 -> present (pte_of (kbytes s) T v) = false ->
  pa mod 4096 = 0 -> 0 <= pa < 4294967296 -> 0 <= perm < 4096 ->
  (v < 524288 -> unused s l d T F (P2V pa)) ->
  (l = [] -> Q (-1) s) ->
  (forall s' l' T', aspace s' l' d T' F -> entries_are (kbytes s') T' (mapped v 1 pa perm (pte_of (kbytes s) T)) ->
     keeps s s' l d T -> takes l l' T T' -> wp k s' Q) ->
  wp (let! pte := walkpgdir d (4096 * v) true in
      if pte =? 0 then ret (-1)
      else
        let! e := on_mem (load32 pte) in
        if has e PTE_P then panic "remap"
        else
          on_mem (store32 pte (Z.lor (Z.lor pa perm) PTE_P)) ;;;
          k) s Q.
Proof.
  intros A Hv Hnp Hpa Hpr Hperm Hown H0 HQ. apply wp_bind. replace (4096 * v) with (4096 * v + 0) by lia.
  pose proof (lor_flag_range perm 1 Hperm ltac:(lia)) as Hlf.
  apply (wp_walk_make _ kend_range s l d T F); [done|done|lia|intros ->; by apply H0|]. intros s1 l1 T1 A1 HT1 E1 K1 G1.
  pose proof (table_range _ kend_range _ _ _ _ _ v A1 Hv HT1) as Hr. replace (pte_addr T1 v =? 0) with false
    by (symmetry; apply Z.eqb_neq; destruct (page_num_range v Hv) as [Hi _]; destruct (as_tab _ _ _ _ _ _ A1 _ Hi HT1) as (_ & Hp & _);
        pose proof (page_range _ kend_range _ Hp); lia).
  apply wp_bind, wp_zoom, wp_gets. replace (set_kbytes (kbytes s1) s1) with s1 by (by destruct s1).
  assert (Ev : ld32 (kbytes s1) (pte_addr T1 v) = pte_of (kbytes s) T v).
  { rewrite <- E1 by done. unfold pte_of. by destruct (Z.eqb_spec (T1 (v / 1024)) 0). }
  rewrite Ev. unfold present in Hnp. rewrite Hnp. apply wp_bind, wp_zoom. rewrite pte_value by done.
  apply wp_store32; [lia..|apply A1|]. intros m2 Hb2 Hw Hm2. rewrite u32_small in Hw by zdm.
  destruct (aspace_store s1 l1 d T1 F v _ m2 A1 Hv HT1 Hb2 Hw Hm2) as (A2 & E2 & S2).
  { intros _ Hvu. rewrite page_of_pte by done. eapply unused_grows; [by apply Hown|apply G1|done]. }
  apply (HQ _ l1 T1); [done| | |done].
  - intros w Hw'. cbn [kbytes set_kbytes]. rewrite (E2 w Hw'). unfold mapped. destruct (Z.eqb_spec w v) as [->|Hne].
    + replace ((v <=? v) && (v <? v + 1)) with true by (symmetry; apply andb_true_iff; split; [apply Z.leb_le|apply Z.ltb_lt]; lia). lia.
    + replace ((v <=? w) && (w <? v + 1)) with false by lia. by apply E1.
  - eapply vkeeps_trans; [done|apply G1|]. intros p Hp Hl Hd Ht. by apply S2.
Qed.

Lemma wp_map_loop n : forall s l d T F v pa perm fuel (Q : Z -> kmem -> Prop),
  aspace s l d T F -> 0 <= v -> v + Z.of_nat n < 1048576 -> (n < fuel)%nat ->
  (forall w, v <= w <= v + Z.of_nat n -> present (pte_of (kbytes s) T w) = false) ->
  pa mod 4096 = 0 -> 0 <= pa -> pa + 4096 * Z.of_nat n < 4294967296 -> 0 <= perm < 4096 ->
  (v < 524288 -> n = O /\ unused s l d T F (P2V pa)) ->
  (forall s' l' T' k, 0 <= k <= Z.of_nat n -> aspace s' [] d T' F -> entries_are (kbytes s') T' (mapped v k pa perm (pte_of (kbytes s) T)) ->
     keeps s s' l d T -> l' = [] -> takes l l' T T' -> Q (-1) s') ->
  (forall s' l' T', aspace s' l' d T' F -> entries_are (kbytes s') T' (mapped v (Z.of_nat n + 1) pa perm (pte_of (kbytes s) T)) ->
     keeps s s' l d T -> takes l l' T T' -> Q 0 s') ->
  wp (map_loop fuel d (4096 * v) (4096 * (v + Z.of_nat n)) pa perm) s Q.
Proof.
  induction n as [|n IH]; intros s l d T F v pa perm [|fuel] Q A Hv0 Hv1 Hf Hnp Hpa Hp0 Hp1 Hperm Hown Hbad HQ; try lia; cbn [map_loop].
  - apply (wp_map_one s l d T F); [done|lia|apply Hnp; lia|done|lia|done|intros; by apply Hown| |].
    + intros ->. eapply (Hbad s [] T 0); [lia|done| |apply vkeeps_refl|done|apply takes_refl].
      intros w _. unfold mapped. replace (_ && _) with false by lia. done.
    + intros s' l' T' A' E' K' G'. replace (_ =? _) with true by (symmetry; apply Z.eqb_eq; lia). apply wp_ret. by apply (HQ s' l' T').
  - apply (wp_map_one s l d T F); [done|lia|apply Hnp; lia|done|lia|done|intros; by apply Hown| |].
    + intros ->. eapply (Hbad s [] T 0); [lia|done| |apply vkeeps_refl|done|apply takes_refl].
      intros w _. unfold mapped. replace (_ && _) with false by lia. done.
    + intros s1 l1 T1 A1 E1 K1 G1. replace (4096 * v =? 4096 * (v + Z.of_nat (S n))) with false by (symmetry; apply Z.eqb_neq; lia).
      unfold PGSIZE. rewrite !u32_small by lia. replace (4096 * v + 4096) with (4096 * (v + 1)) by lia.
      replace (v + Z.of_nat (S n)) with (v + 1 + Z.of_nat n) by lia.
      assert (Hmm : forall k w, 0 <= k -> mapped (v + 1) k (pa + 4096) perm (mapped v 1 pa perm (pte_of (kbytes s) T)) w =
        mapped v (k + 1) pa perm (pte_of (kbytes s) T) w).
      { intros k w Hk. unfold mapped. destruct ((v + 1 <=? w) && (w <? v + 1 + k)) eqn:E; b2p.
        - replace ((v <=? w) && (w <? v + (k + 1))) with true by lia. lia.
        - destruct ((v <=? w) && (w <? v + 1)) eqn:E'; b2p; [replace ((v <=? w) && (w <? v + (k + 1))) with true by lia; done|].
          replace ((v <=? w) && (w <? v + (k + 1))) with false by lia. done. }
      assert (Hmm' : forall k s2 T2, 0 <= k -> entries_are (kbytes s2) T2 (mapped (v + 1) k (pa + 4096) perm (pte_of (kbytes s1) T1)) ->
        entries_are (kbytes s2) T2 (mapped v (k + 1) pa perm (pte_of (kbytes s) T))).
      { intros k s2 T2 Hk E2 w Hw. rewrite (E2 w Hw), <- Hmm by done. unfold mapped at 1 2.
        destruct (_ && _); [done|]. by apply E1. }
      apply (IH s1 l1 d T1 F); [done|lia|lia|lia| |zdm|lia|lia|done| | |].
      * intros w Hw. rewrite (E1 w) by lia. unfold mapped. replace ((v <=? w) && (w <? v + 1)) with false by lia. apply Hnp. lia.
      * intros Hv. destruct (Hown ltac:(lia)) as [? _]. lia.
      * intros s2 l2 T2 k Hk A2 E2 K2 -> G2. eapply (Hbad s2 [] T2 (k + 1)); [lia|done|apply Hmm'; [lia|done]|eapply vkeeps_trans; [done|apply G1|done]|done|by eapply takes_trans].
      * intros s2 l2 T2 A2 E2 K2 G2. apply (HQ s2 l2 T2); [done| |eapply vkeeps_trans; [done|apply G1|done]|by eapply takes_trans].
        replace (Z.of_nat (S n) + 1) with (Z.of_nat n + 1 + 1) by lia. apply Hmm'; [lia|done].
Qed.

Lemma PGROUNDDOWN_page v o : 0 <= v < 1048576 -> 0 <= o < 4096 -> PGROUNDDOWN (4096 * v + o) = 4096 * v.
Proof. intros Hv Ho. rewrite PGROUNDDOWN_eq by lia. zdm. Qed.

Lemma wp_mappages s l d T F v n pa perm (Q : Z -> kmem -> Prop) :
  aspace s l d T F -> 0 <= v -> v + Z.of_nat n < 1048576 ->
  (forall w, v <= w <= v + Z.of_nat n -> present (pte_of (kbytes s) T w) = false) ->
  pa mod 4096 = 0 -> 0 <= pa -> pa + 4096 * Z.of_nat n < 4294967296 -> 0 <= perm < 4096 ->
  (v < 524288 -> n = O /\ unused s l d T F (P2V pa)) ->
  (forall s' l' T' k, 0 <= k <= Z.of_nat n -> aspace s' [] d T' F -> entries_are (kbytes s') T' (mapped v k pa perm (pte_of (kbytes s) T)) ->
     keeps s s' l d T -> l' = [] -> takes l l' T T' -> Q (-1) s') ->
  (forall s' l' T', aspace s' l' d T' F -> entries_are (kbytes s') T' (mapped v (Z.of_nat n + 1) pa perm (pte_of (kbytes s) T)) ->
     keeps s s' l d T -> takes l l' T T' -> Q 0 s') ->
  wp (mappages d (4096 * v) (4096 * (Z.of_nat n + 1)) pa perm) s Q.
Proof.
  intros A Hv0 Hv1 Hnp Hpa Hp0 Hp1 Hperm Hown Hbad HQ. unfold mappages.
  replace (PGROUNDDOWN (4096 * v)) with (4096 * v) by (replace (4096 * v) with (4096 * v + 0) at 2 by lia; rewrite PGROUNDDOWN_page; lia).
  replace (4096 * v + 4096 * (Z.of_nat n + 1) - 1) with (4096 * (v + Z.of_nat n) + 4095) by lia.
  rewrite PGROUNDDOWN_page by lia. apply (wp_map_loop n s l d T F); try done.
  unfold PGSIZE. rewrite u32_small by lia. zdm.
Qed.

(** ** Pages taken from the free list and given back *)

Lemma aspace_take s p l d T F w :
  aspace s (p :: l) d T F -> kmem_inv kend (set_freelist w s) l -> p ∉ l -> aspace (set_freelist w s) l d T F /\ unused (set_freelist w s) l d T F p.
Proof.
  intros A I Hpl. destruct (as_dir _ _ _ _ _ _ A) as (Hd & [Hdp Hdl]%not_elem_of_cons & HdF).
  assert (Ht : forall i, 0 <= i < 1024 -> T i <> 0 -> T i <> p /\ T i ∉ l).
  { intros i Hi HT. destruct (as_tab _ _ _ _ _ _ A i Hi HT) as (_ & _ & Hl & _). by apply not_elem_of_cons in Hl. }
  assert (Hu : forall v, 0 <= v < 524288 -> present (pte_of (kbytes s) T v) = true -> page_of (pte_of (kbytes s) T v) <> p /\ page_of (pte_of (kbytes s) T v) ∉ l).
  { intros v Hv HP. destruct (as_user _ _ _ _ _ _ A v Hv HP) as (_ & Hl & _). by apply not_elem_of_cons in Hl. }
  split.
  - constructor; cbn [kbytes set_freelist]; try apply A; [done| |done| |].
    + intros q Hq. apply (as_free _ _ _ _ _ _ A). by right.
    + intros i Hi HT. destruct (as_tab _ _ _ _ _ _ A i Hi HT) as (? & ? & _ & ? & ?), (Ht i Hi HT). done.
    + intros v Hv HP. destruct (as_user _ _ _ _ _ _ A v Hv HP) as (? & _ & ? & ? & ?), (Hu v Hv HP). done.
  - split_and!; [|done| |done| |].
    + apply (ki_pages _ _ _ (as_kmem _ _ _ _ _ _ A)). by left.
    + apply (as_free _ _ _ _ _ _ A). by left.
    + intros (i & Hi & HT & H0). destruct (Ht i Hi); congruence.
    + intros (v & Hv & HP & E). by destruct (Hu v Hv HP).
Qed.

(** Memory that changes in page p alone, which is no page table. *)
Lemma entries_other s l d T F m' p :
  aspace s l d T F -> page_ok p -> p <> d -> ~ is_table T p -> only_page (kbytes s) m' p ->
  same_entries (kbytes s) m' T T /\ forall i, 0 <= i < 1024 -> ld32 m' (d + 4 * i) = ld32 (kbytes s) (d + 4 * i).
Proof.
  intros A Hp Hd Ht Ho. split.
  - intros v Hv. apply (pte_of_ext _ kend_range s l d T F); try done. intros HT x Hx. destruct (page_num_range v Hv) as [Hi _].
    pose proof (table_range _ kend_range _ _ _ _ _ v A Hv HT). destruct (as_tab _ _ _ _ _ _ A _ Hi HT) as (_ & Hq & _).
    apply (only_page_other kend _ _ p (T (v / 1024))); try done; [|lia]. intros ->. apply Ht. by exists (v / 1024).
  - intros i Hi. destruct (as_dir _ _ _ _ _ _ A) as (Hdp & _). apply (ld32_page _ kend_range _ _ d); [done| |lia|lia].
    by apply (only_page_other kend _ _ p).
Qed.

Lemma aspace_give s l d T F p s' :
  aspace s l d T F -> unused s l d T F p -> kmem_inv kend s' (p :: l) -> only_page (kbytes s) (kbytes s') p ->
  aspace s' (p :: l) d T F /\ same_entries (kbytes s) (kbytes s') T T.
Proof.
  intros A (Hp & Hl & HF & Hd & Ht & Hu) I Ho. destruct (entries_other s l d T F _ p A Hp Hd Ht Ho) as [E Epde].
  split; [|done]. constructor; [done| | | | | | |].
  - intros q [->|Hq]%elem_of_cons; [done|by apply (as_free _ _ _ _ _ _ A)].
  - destruct (as_dir _ _ _ _ _ _ A) as (? & ? & ?). split_and!; try done. by apply not_elem_of_cons.
  - intros i Hi. rewrite Epde by done. by apply (as_pde _ _ _ _ _ _ A).
  - intros i Hi HT. rewrite Epde by done. destruct (as_tab _ _ _ _ _ _ A i Hi HT) as (? & ? & ? & ? & ?). split_and!; try done.
    apply not_elem_of_cons. split; [|done]. intros <-. apply Ht. by exists i.
  - apply A.
  - intros v Hv. rewrite E by lia. intros HP. destruct (as_user _ _ _ _ _ _ A v Hv HP) as (? & ? & ? & ? & ?). split_and!; try done.
    apply not_elem_of_cons. split; [|done]. intros Eq. apply Hu. by exists v.
  - intros v w Hv Hw. rewrite !E by lia. by apply (as_uinj _ _ _ _ _ _ A).
Qed.

(** Writing in a page that is neither free nor a page table. *)
Lemma aspace_write s l d T F p m' :
  aspace s l d T F -> page_ok p -> p ∉ l -> p <> d -> ~ is_table T p -> bytes m' -> only_page (kbytes s) m' p ->
  aspace (set_kbytes m' s) l d T F /\ same_entries (kbytes s) m' T T.
Proof.
  intros A Hp Hl Hd Ht Hb Ho. destruct (entries_other s l d T F _ p A Hp Hd Ht Ho) as [E Epde].
  split; [|done]. constructor; cbn [kbytes set_kbytes].
  - apply kmem_inv_mem; [done|apply A|done|]. intros q Hq. apply (only_page_other kend _ _ p); try done; [by apply (as_kmem _ _ _ _ _ _ A)|by intros ->].
  - apply A.
  - apply A.
  - intros i Hi. rewrite Epde by done. by apply (as_pde _ _ _ _ _ _ A).
  - intros i Hi. rewrite Epde by done. by apply (as_tab _ _ _ _ _ _ A).
  - apply A.
  - intros v Hv. rewrite E by lia. by apply (as_user _ _ _ _ _ _ A).
  - intros v w Hv Hw. rewrite !E by lia. by apply (as_uinj _ _ _ _ _ _ A).
Qed.

(** ** deallocuvm *)

Lemma ld32_zero m a x : bytes m -> ld32 m a = 0 -> 0 <= a -> a + 4 <= 4294967296 -> a <= x < a + 4 -> m x = 0.
Proof.
  intros Hb H H0 H1 Hx. unfold ld32 in H. rewrite (u32_small a), (u32_small (a + 1)), (u32_small (a + 2)), (u32_small (a + 3)) in H by lia.
  pose proof (Hb a). pose proof (Hb (a + 1)). pose proof (Hb (a + 2)). pose proof (Hb (a + 3)).
  assert (x = a \/ x = a + 1 \/ x = a + 2 \/ x = a + 3) as [->|[->|[->| ->]]] by lia; lia.
Qed.

(** A user page freed and its entry cleared. *)
Lemma wp_free_page s l d T F v (Q : unit -> kmem -> Prop) :
  aspace s l d T F -> 0 <= v < 524288 -> present (pte_of (kbytes s) T v) = true ->
  (forall s', aspace s' (page_of (pte_of (kbytes s) T v) :: l) d T F ->
     entries_are (kbytes s') T (fun w => if w =? v then 0 else pte_of (kbytes s) T w) ->
     (forall q, page_ok q -> q <> page_of (pte_of (kbytes s) T v) -> ~ is_table T q -> same_page (kbytes s) (kbytes s') q) -> Q tt s') ->
  wp (kfree kend (page_of (pte_of (kbytes s) T v)) ;;; on_mem (store32 (pte_addr T v) 0)) s Q.
Proof.
  intros A Hv HP HQ. set (p := page_of (pte_of (kbytes s) T v)) in *.
  destruct (as_user _ _ _ _ _ _ A v Hv HP) as (Hp & Hpl & HpF & Hpd & Hpt). fold p in Hp, Hpl, HpF, Hpd, Hpt.
  assert (HT : T (v / 1024) <> 0) by (intros E; unfold pte_of in HP; by rewrite E in HP).
  pose proof (table_range _ kend_range _ _ _ _ _ v A ltac:(lia) HT) as Hr. destruct (page_num_range v ltac:(lia)) as [Hi _].
  destruct (as_tab _ _ _ _ _ _ A _ Hi HT) as (_ & Htp & _).
  apply wp_bind, (wp_kfree _ kend_range s l); [apply A|done|done|]. intros s1 I1 Ho1 _.
  apply wp_zoom, wp_store32; [lia..|apply I1|]. intros m2 Hb2 Hw2 Hm2. change (u32 0) with 0 in Hw2.
  set (m' := fun x => if within (pte_addr T v) 4 x then 0 else kbytes s x).
  assert (Hb' : bytes m') by (intros x; unfold m'; destruct (within _ _ _); [lia|apply A]).
  destruct (aspace_store s l d T F v 0 m' A ltac:(lia) HT Hb') as (A' & E' & S').
  { unfold ld32, m'. rewrite !u32_small by lia. by repeat (rewrite (proj2 (within_true (pte_addr T v) 4 _)) by lia). }
  { intros x Hx. unfold m'. by rewrite Hx. }
  { done. }
  assert (Hun : unused (set_kbytes m' s) l d T F p).
  { split_and!; try done. intros (w & Hw & HPw & Ew). rewrite E' in HPw, Ew by lia. cbn in HPw, Ew. destruct (Z.eqb_spec w v) as [|Hne]; [done|].
    apply Hne. by apply (as_uinj _ _ _ _ _ _ A). }
  assert (Hdj : forall x, p <= x < p + 4096 -> within (pte_addr T v) 4 x = false).
  { intros x Hx. apply within_false. assert (Hne : p <> T (v / 1024)) by (intros E; apply Hpt; exists (v / 1024); split; [done|]; split; congruence).
    pose proof (page_disjoint p _ x (proj1 Hp) (proj1 Htp) Hne Hx). lia. }
  assert (Hmm : only_page m' m2 p).
  { intros x Hx. unfold m'. destruct (within (pte_addr T v) 4 x) eqn:Ew.
    - apply within_true in Ew. apply (ld32_zero _ (pte_addr T v)); [done|done|lia|lia|lia].
    - rewrite Hm2 by done. by apply Ho1. }
  assert (I2 : kmem_inv kend (set_kbytes m2 s1) (p :: l)).
  { apply kmem_inv_mem; [done|done|done|]. intros q Hq x Hx. apply Hm2. apply elem_of_cons in Hq as [->|Hq]; [by apply Hdj|].
    assert (Hne : q <> T (v / 1024)) by (intros ->; by destruct (as_tab _ _ _ _ _ _ A _ Hi HT) as (_ & _ & ? & _)).
    apply within_false. pose proof (page_disjoint q _ x (proj1 (ki_pages _ _ _ (as_kmem _ _ _ _ _ _ A) q Hq)) (proj1 Htp) Hne Hx). lia. }
  destruct (aspace_give (set_kbytes m' s) l d T F p (set_kbytes m2 s1) A' Hun I2 Hmm) as [A2 E2].
  apply HQ; [done| |].
  - intros w Hw. rewrite (E2 w Hw). by apply E'.
  - intros q Hq Hqp Hqt x Hx. cbn. rewrite Hmm by (by apply (page_disjoint q p); [apply Hq|apply Hp| |]). by apply (S' q).
Qed.

(** The present entries of pages v .. e - 1 cleared. *)
Definition cleared (v e : Z) (f : Z -> Z) : Z -> Z :=
  fun w => if (v <=? w) && (w <? e) && present (f w) then 0 else f w.

(** fr are the pages those entries refer to. *)
Definition frees (v e : Z) (f : Z -> Z) (fr : list Z) : Prop :=
  forall p, p ∈ fr <-> exists w, v <= w < e /\ present (f w) = true /\ page_of (f w) = p.

Definition only_frees (s s' : kmem) (T : Z -> Z) (fr : list Z) : Prop :=
  forall q, page_ok q -> q ∉ fr -> ~ is_table T q -> same_page (kbytes s) (kbytes s') q.

Record deallocated (s : kmem) (l : list Z) (d : Z) (T : Z -> Z) (F : Z -> Prop) (v e : Z) (s' : kmem) (fr : list Z) : Prop := {
  de_aspace : aspace s' (fr ++ l) d T F;
  de_entries : entries_are (kbytes s') T (cleared v e (pte_of (kbytes s) T));
  de_frees : frees v e (pte_of (kbytes s) T) fr;
  de_keeps : only_frees s s' T fr
}.

(** Nothing present up to v': start there. *)
Lemma deallocated_skip s l d T F v v' e s' fr :
  v <= v' -> (forall w, v <= w < v' -> w < e -> present (pte_of (kbytes s) T w) = false) ->
  deallocated s l d T F v' e s' fr -> deallocated s l d T F v e s' fr.
Proof.
  intros Hle Hno [A E R K]. constructor; try done.
  - intros w Hw. rewrite (E w Hw). unfold cleared. destruct (Z.ltb_spec w v').
    + replace (v' <=? w) with false by lia. cbn. destruct ((v <=? w) && (w <? e)) eqn:Er; [|done]. b2p. by rewrite Hno.
    + by replace (v <=? w) with (v' <=? w) by lia.
  - intros p. rewrite (R p). split; intros (w & Hw & HP & Ep); exists w; (split; [|done]); [lia|].
    destruct (Z.lt_ge_cases w v'); [|lia]. rewrite Hno in HP by lia. done.
Qed.

Lemma deallocated_none s l d T F v e : aspace s l d T F -> e <= v -> deallocated s l d T F v e s [].
Proof.
  intros A He. constructor; try done.
  - intros w Hw. unfold cleared. by replace ((v <=? w) && (w <? e)) with false by lia.
  - intros p. split; [by intros ?%not_elem_of_nil|]. intros (w & Hw & _). lia.
Qed.

Lemma deallocated_cons s l d T F v e s1 s' fr (p := page_of (pte_of (kbytes s) T v)) :
  0 <= v < e -> e <= 524288 -> aspace s l d T F -> present (pte_of (kbytes s) T v) = true ->
  entries_are (kbytes s1) T (fun w => if w =? v then 0 else pte_of (kbytes s) T w) ->
  (forall q, page_ok q -> q <> p -> ~ is_table T q -> same_page (kbytes s) (kbytes s1) q) ->
  deallocated s1 (p :: l) d T F (v + 1) e s' fr -> deallocated s l d T F v e s' (fr ++ [p]).
Proof.
  intros Hv He A0 HP E1 K1 [A E R K]. constructor.
  - by rewrite <- app_assoc.
  - intros w Hw. rewrite (E w Hw). unfold cleared. rewrite (E1 w Hw). destruct (Z.eqb_spec w v) as [->|Hne].
    + replace ((v <=? v) && (v <? e)) with true by (symmetry; apply andb_true_iff; split; [apply Z.leb_le|apply Z.ltb_lt]; lia).
      rewrite HP. by destruct (_ && _).
    + by replace (v + 1 <=? w) with (v <=? w) by lia.
  - intros q. rewrite elem_of_app, list_elem_of_singleton, (R q). split.
    + intros [(w & Hw & HPw & Ew)| ->]; [|exists v; split; [lia|done]]. rewrite E1 in HPw, Ew by lia.
      destruct (Z.eqb_spec w v); [lia|]. exists w. split; [lia|done].
    + intros (w & Hw & HPw & Ew). destruct (Z.eq_dec w v) as [->|Hne]; [by right|left]. exists w. rewrite E1 by lia.
      destruct (Z.eqb_spec w v); [lia|]. split; [lia|done].
  - intros q Hq Hqf Hqt x Hx. rewrite elem_of_app, list_elem_of_singleton in Hqf. transitivity (kbytes s1 x); [apply (K q)|apply (K1 q)]; tauto.
Qed.

Lemma next_table v : 0 <= v < 524288 -> u32 (u32 (PGADDR (PDX (4096 * v) + 1) 0 0 - PGSIZE) + PGSIZE) = 4096 * (1024 * (v / 1024 + 1)).
Proof.
  intros Hv. replace (4096 * v) with (4096 * v + 0) at 1 by lia. rewrite PDX_eq by lia. unfold PGADDR, PGSIZE.
  cbn [Z.shiftl]. rewrite Z.shiftl_0_l, !Z.lor_0_r, Z.shiftl_mul_pow2 by lia. change (2 ^ 22) with 4194304.
  assert (Hq : 0 <= v / 1024 < 512) by zdm. generalize dependent (v / 1024). intros q Hq.
  rewrite (u32_small ((q + 1) * 4194304)) by lia. rewrite (u32_small (_ - 4096)) by lia. rewrite u32_small; lia.
Qed.

Lemma wp_dealloc_loop fuel : forall s l d T F v oldsz (e := (oldsz + 4095) / 4096) (Q : unit -> kmem -> Prop),
  aspace s l d T F -> 0 <= v -> 0 <= oldsz <= KERNBASE -> v <= 524288 -> e - v < Z.of_nat fuel -> (0 < fuel)%nat ->
  (forall s' fr, deallocated s l d T F v e s' fr -> Q tt s') ->
  wp (dealloc_loop kend fuel d (4096 * v) oldsz) s Q.
Proof.
  induction fuel as [|fuel IH]; intros s l d T F v oldsz e Q A Hv0 Hsz Hv1 Hf Hf0 HQ; [lia|]. cbn [dealloc_loop].
  unfold KERNBASE in *. assert (He : e <= 524288) by (unfold e; zdm). destruct (Z.ltb_spec (4096 * v) oldsz) as [Hlt|Hge].
  2:{ apply wp_ret, (HQ s []), deallocated_none; [done|]. unfold e. zdm. }
  assert (Hve : v < e) by (unfold e; zdm). apply wp_bind. replace (4096 * v) with (4096 * v + 0) at 1 by lia.
  apply (wp_walk_find _ kend_range s l d T F); [done|lia|lia|].
  destruct (Z.eqb_spec (T (v / 1024)) 0) as [E|E].
  - cbn [Z.eqb]. apply wp_bind, wp_ret. rewrite next_table by lia. apply (IH s l d T F); try done; [zdm|zdm|fold e; zdm|lia|].
    fold e. intros s' fr D. apply (HQ s' fr). eapply deallocated_skip; [| |exact D]; [zdm|].
    intros w Hw _. unfold pte_of. replace (w / 1024) with (v / 1024) by zdm. by rewrite E.
  - pose proof (table_range _ kend_range _ _ _ _ _ v A ltac:(lia) E) as Hr. destruct (page_num_range v ltac:(lia)) as [Hi _].
    destruct (as_tab _ _ _ _ _ _ A _ Hi E) as (_ & Htp & _). pose proof (page_range _ kend_range _ Htp).
    replace (pte_addr T v =? 0) with false by lia. apply wp_bind, wp_bind, wp_zoom, wp_gets.
    replace (set_kbytes (kbytes s) s) with s by (by destruct s).
    replace (ld32 (kbytes s) (pte_addr T v)) with (pte_of (kbytes s) T v) by (unfold pte_of; by destruct (Z.eqb_spec (T (v / 1024)) 0)).
    assert (Hnext : u32 (4096 * v + PGSIZE) = 4096 * (v + 1)) by (unfold PGSIZE; rewrite u32_small; lia).
    apply wp_bind, wp_when; intros HP.
    + destruct (as_user _ _ _ _ _ _ A v ltac:(lia) HP) as (Hpg & _). fold (page_of (pte_of (kbytes s) T v)).
      assert (Hpa : PTE_ADDR (pte_of (kbytes s) T v) <> 0).
      { intros E0. unfold page_of in Hpg. rewrite E0 in Hpg. pose proof (page_range _ kend_range _ Hpg) as Hx. change (P2V 0) with 2147483648 in Hx. lia. }
      replace (PTE_ADDR _ =? 0) with false by lia.
      apply (wp_free_page s l d T F v); [done|lia|done|]. intros s1 A1 E1 K1. apply wp_ret. rewrite Hnext.
      apply (IH s1 (page_of (pte_of (kbytes s) T v) :: l) d T F); try done; [lia|lia|fold e; lia|lia|]. fold e. intros s' fr D.
      apply (HQ s' (fr ++ [page_of (pte_of (kbytes s) T v)])). by eapply deallocated_cons.
    + apply wp_ret. rewrite Hnext. apply (IH s l d T F); try done; [lia|lia|fold e; lia|lia|]. fold e. intros s' fr D. apply (HQ s' fr).
      eapply deallocated_skip; [| |exact D]; [lia|]. intros w Hw _. by replace w with v by lia.
Qed.

Lemma wp_deallocuvm s l d T F oldsz newsz (e := (oldsz + 4095) / 4096) (v := (newsz + 4095) / 4096) (Q : Z -> kmem -> Prop) :
  aspace s l d T F -> 0 <= newsz -> 0 <= oldsz <= KERNBASE ->
  (forall s' fr, deallocated s l d T F v e s' fr -> Q (if newsz >=? oldsz then oldsz else newsz) s') ->
  wp (deallocuvm kend d oldsz newsz) s Q.
Proof.
  intros A Hn Ho HQ. unfold deallocuvm. unfold KERNBASE in *. destruct (newsz >=? oldsz) eqn:Hc; b2p.
  - apply wp_ret, (HQ s []), deallocated_none; [done|]. unfold e, v. zdm.
  - apply wp_bind. rewrite PGROUNDUP_eq by lia. fold v. replace (v * 4096) with (4096 * v) by lia.
    apply (wp_dealloc_loop _ s l d T F); [done|unfold v; zdm|done|unfold v; zdm|unfold v, PGSIZE; zdm|unfold PGSIZE; zdm|].
    fold e. intros s' fr D. apply wp_ret. by apply (HQ s' fr).
Qed.
End Map.
