(* ===== verification/VmUser.v ===== *)
(** User memory: what the processor reads at a user address, and how
    allocuvm() and deallocuvm() change it. *)

From Stdlib Require Import ZArith Lia.
From stdpp Require Import base gmap strings numbers list.
From S2P Require Import Prelude Kstring Mem Kalloc Vm VmSpec VmMap.

Open Scope Z_scope.
Open Scope kern_scope.

(** ** The processor's page walk *)

(** The page table entry for va under the directory d, 0 if there is no
    table for it that user code may use. *)
Definition mmu_entry (m : mem) (d va : Z) : Z :=
  let pde := ld32 m (d + 4 * (va / 2 ^ 22)) in
  if Z.testbit pde 0 && Z.testbit pde 2 then ld32 m (page_of pde + 4 * (va / 2 ^ 12 mod 2 ^ 10)) else 0.

(** The byte user code reads at va; None: a page fault. *)
Definition user_byte (m : mem) (d va : Z) : option Z :=
  let e := mmu_entry m d va in
  if Z.testbit e 0 && Z.testbit e 2 then Some (m (page_of e + va mod 2 ^ 12)) else None.

Definition ubyte (m : mem) (e o : Z) : option Z := if Z.testbit e 0 && Z.testbit e 2 then Some (m (page_of e + o)) else None.

(** ** The pages of an address space *)

(** All the pages of an address space. *)
Definition owned (m : mem) (d : Z) (T : Z -> Z) (p : Z) : Prop := p = d \/ is_table T p \/ is_user m T p.

(** The owned pages after table pages and the user page p were taken from the list. *)
Lemma owned_mapped s s2 p l l2 d T T2 k e :
  0 <= k < 524288 -> present (pte_of (kbytes s) T k) = false -> present e = true -> page_of e = p ->
  takes l l2 T T2 -> entries_are (kbytes s2) T2 (fun w => if w =? k then e else pte_of (kbytes s) T w) ->
  forall q, q ∈ p :: l \/ owned (kbytes s) d T q <-> q ∈ l2 \/ owned (kbytes s2) d T2 q.
Proof.
  intros Hk Hnp HP Hp [G U] E q. rewrite elem_of_cons. unfold owned. split.
  - intros [[->|Hq]|[->|[Hq|(v & Hv & HPv & Ev)]]].
    + right. right. right. exists k. rewrite E by lia. by rewrite Z.eqb_refl.
    + destruct (U q Hq); tauto.
    + tauto.
    + right. right. left. by eapply is_table_old.
    + right. right. right. exists v. rewrite E by lia. destruct (Z.eqb_spec v k) as [->|]; [congruence|done].
  - intros [Hq|[->|[Hq|(v & Hv & HPv & Ev)]]].
    + left. right. eapply suffix_elem; [apply G|done].
    + tauto.
    + apply (gr_new _ _ _ _ G) in Hq as [Hq|[Hq _]]; tauto.
    + rewrite E in HPv, Ev by lia. destruct (Z.eqb_spec v k) as [->|]; [left; left; congruence|]. right. right. right. by exists v.
Qed.

Lemma owned_same s s2 l l2 d T T2 : takes l l2 T T2 -> same_entries (kbytes s) (kbytes s2) T T2 ->
  forall q, q ∈ l \/ owned (kbytes s) d T q <-> q ∈ l2 \/ owned (kbytes s2) d T2 q.
Proof.
  intros [G U] E q. unfold owned.
  assert (Hu : is_user (kbytes s2) T2 q <-> is_user (kbytes s) T q).
  { split; intros (v & Hv & HP & Ev); exists v; rewrite E in * by lia; done. }
  rewrite Hu. split.
  - intros [Hq|[Hq|[Hq|Hq]]]; [destruct (U q Hq); tauto|tauto|right; right; left; by eapply is_table_old|tauto].
  - intros [Hq|[Hq|[Hq|Hq]]]; [left; eapply suffix_elem; [apply G|done]|tauto| |tauto].
    apply (gr_new _ _ _ _ G) in Hq as [Hq|[Hq _]]; tauto.
Qed.

Lemma owned_entries m m' d T q : same_entries m m' T T -> (owned m' d T q <-> owned m d T q).
Proof.
  intros E. unfold owned. assert (Hu : is_user m' T q <-> is_user m T q); [|tauto]. split; intros (v & Hv & HP & Ev); exists v; rewrite E in * by lia; done.
Qed.

(** The pages l are all in an address space without user pages from e on, but
    one. *)
Definition exhausted (l : list Z) (e : Z) : Prop := exists d m T q,
  (forall p, p ∈ l -> p = q \/ owned m d T p) /\ (forall w, e <= w < 524288 -> present (pte_of m T w) = false).

Lemma exhausted_mono l e e' : exhausted l e -> e <= e' -> exhausted l e'.
Proof. intros (d & m & T & q & H1 & H2) He. exists d, m, T, q. split; [done|]. intros w Hw. apply H2. lia. Qed.

Lemma exhausted_length l e : NoDup l -> 0 <= e -> exhausted l e -> Z.of_nat (length l) <= 1026 + e.
Proof.
  intros HN He (d & m & T & q & HO & HP). set (L := [q; d] ++ map (fun k => T (Z.of_nat k)) (seq 0 1024) ++ map (fun k => page_of (pte_of m T (Z.of_nat k))) (seq 0 (Z.to_nat e))).
  assert (HL : Z.of_nat (length L) = 1026 + e) by (unfold L; rewrite !length_app, !length_map, !length_seq; cbn [length]; lia). rewrite <- HL. apply inj_le, submseteq_length, NoDup_submseteq; [done|].
  intros p Hp. unfold L. rewrite !elem_of_app, !list_elem_of_fmap. destruct (HO p Hp) as [->|[->|[(i & Hi & E & _)|(w & Hw & HPw & E)]]]; [left; by left|left; right; by left| |].
  - right. left. exists (Z.to_nat i). rewrite elem_of_seq, Z2Nat.id by lia. split; [done|lia].
  - right. right. exists (Z.to_nat w). rewrite elem_of_seq, Z2Nat.id by lia. split; [done|]. destruct (decide (w < e)); [lia|]. rewrite HP in HPw by lia. done.
Qed.

Section User.
Context (kend : Z) (kend_range : KERNBASE < kend).

Abbreviation aspace := (aspace kend).
Abbreviation keeps := (keeps kend).
Abbreviation page_ok := (page_ok kend).
Abbreviation unused := (unused kend).
Abbreviation deallocated := (deallocated kend).

Lemma present_bit e : present e = Z.testbit e 0.
Proof. unfold present. by rewrite has_P, Z.bit0_odd. Qed.

Lemma table_pde t : page_ok t -> Z.testbit (t - KERNBASE + 7) 0 && Z.testbit (t - KERNBASE + 7) 2 = true /\ page_of (t - KERNBASE + 7) = t.
Proof.
  intros Ht. pose proof (page_range _ kend_range t Ht) as Hr. destruct Ht as [Hm _]. unfold KERNBASE in *.
  rewrite <- (lor_page (t - 2147483648) 7) by (lia || zdm). rewrite !Z.lor_spec. change (Z.testbit 7 0) with true. change (Z.testbit 7 2) with true.
  rewrite !orb_true_r. split; [done|]. rewrite lor_page by (lia || zdm). unfold page_of, P2V, KERNBASE. rewrite PTE_ADDR_eq by lia. rewrite u32_small; zdm.
Qed.

Lemma mmu_entry_pte s l d T F va : aspace s l d T F -> 0 <= va < 4294967296 -> mmu_entry (kbytes s) d va = pte_of (kbytes s) T (va / 4096).
Proof.
  intros A Hva. unfold mmu_entry, pte_of, pte_addr. change (2 ^ 22) with 4194304. change (2 ^ 12) with 4096. change (2 ^ 10) with 1024.
  replace (va / 4194304) with (va / 4096 / 1024) by zdm. destruct (page_num_range (va / 4096) ltac:(zdm)) as [Hi _].
  destruct (Z.eqb_spec (T (va / 4096 / 1024)) 0) as [E|E].
  - pose proof (as_pde _ _ _ _ _ _ A _ Hi E) as Hp. rewrite present_bit in Hp. by rewrite Hp.
  - destruct (as_tab _ _ _ _ _ _ A _ Hi E) as (-> & Hp & _). destruct (table_pde _ Hp) as [-> ->]. done.
Qed.

Lemma user_byte_pte s l d T F va : aspace s l d T F -> 0 <= va < 4294967296 ->
  user_byte (kbytes s) d va = ubyte (kbytes s) (pte_of (kbytes s) T (va / 4096)) (va mod 4096).
Proof. intros A Hva. unfold user_byte. by rewrite (mmu_entry_pte s l d T F) by done. Qed.

Lemma ubyte_absent m e o : present e = false -> ubyte m e o = None.
Proof. rewrite present_bit. unfold ubyte. by intros ->. Qed.

(** Equal entries over pages that did not change show the same bytes. *)
Lemma ubyte_keeps s l d T F s' w o :
  aspace s l d T F -> keeps s s' l d T -> 0 <= w < 524288 -> 0 <= o < 4096 ->
  ubyte (kbytes s') (pte_of (kbytes s) T w) o = ubyte (kbytes s) (pte_of (kbytes s) T w) o.
Proof.
  intros A K Hw Ho. unfold ubyte. destruct (Z.testbit (pte_of (kbytes s) T w) 0) eqn:HP; [|done]. cbn [andb].
  destruct (Z.testbit (pte_of (kbytes s) T w) 2); [|done]. rewrite <- present_bit in HP. destruct (as_user _ _ _ _ _ _ A w Hw HP) as (Hp & Hl & _ & Hd & Ht).
  f_equal. apply (K _ Hp Hl Hd Ht). lia.
Qed.

Definition same_user (s s' : kmem) (d : Z) : Prop :=
  forall va, 0 <= va < KERNBASE -> user_byte (kbytes s') d va = user_byte (kbytes s) d va.

Lemma same_user_intro s l d T F s' l' T' F' :
  aspace s l d T F -> aspace s' l' d T' F' -> keeps s s' l d T ->
  (forall w, 0 <= w < 524288 -> pte_of (kbytes s') T' w = pte_of (kbytes s) T w \/
     (present (pte_of (kbytes s') T' w) = false /\ present (pte_of (kbytes s) T w) = false)) ->
  same_user s s' d.
Proof.
  unfold same_user, KERNBASE. intros A A' K E va Hva. rewrite (user_byte_pte s l d T F), (user_byte_pte s' l' d T' F') by (done || lia).
  destruct (E (va / 4096) ltac:(zdm)) as [->|[H1 H2]]; [|by rewrite !ubyte_absent].
  apply (ubyte_keeps s l d T F); [done|done|zdm|zdm].
Qed.

(** ** deallocuvm *)

Lemma dealloc_user s l d T F v e s' fr :
  aspace s l d T F -> deallocated s l d T F v e s' fr -> 0 <= v -> e <= 524288 ->
  forall va, 0 <= va < KERNBASE ->
  user_byte (kbytes s') d va = if (v <=? va / 4096) && (va / 4096 <? e) then None else user_byte (kbytes s) d va.
Proof.
  unfold KERNBASE. intros A [A' E R K] Hv He va Hva.
  rewrite (user_byte_pte s l d T F), (user_byte_pte s' (fr ++ l) d T F) by (done || lia). rewrite E by zdm. unfold cleared.
  set (w := va / 4096) in *. assert (Hw : 0 <= w < 524288) by (unfold w; zdm).
  destruct ((v <=? w) && (w <? e)) eqn:Er; cbn [andb].
  - destruct (present (pte_of (kbytes s) T w)) eqn:HP; [done|]. by apply ubyte_absent.
  - unfold ubyte. destruct (Z.testbit (pte_of (kbytes s) T w) 0) eqn:HP; [|done]. cbn [andb]. destruct (Z.testbit (pte_of (kbytes s) T w) 2); [|done].
    rewrite <- present_bit in HP. destruct (as_user _ _ _ _ _ _ A w Hw HP) as (Hp & Hl & _ & Hd & Ht).
    f_equal. apply (K _ Hp); [|done|zdm]. intros (x & Hx & HPx & Ex)%R.
    assert (x = w) as -> by (apply (as_uinj _ _ _ _ _ _ A); (done || lia)). lia.
Qed.

(** The pages that deallocuvm() takes from the address space are free. *)
Lemma dealloc_owned s l d T F v e s' fr : deallocated s l d T F v e s' fr -> 0 <= v -> e <= 524288 ->
  forall q, q ∈ l \/ owned (kbytes s) d T q <-> q ∈ fr ++ l \/ owned (kbytes s') d T q.
Proof.
  intros [_ E R _] Hv He q. unfold owned. rewrite elem_of_app, (R q).
  assert (Hu : is_user (kbytes s) T q <-> (exists w, v <= w < e /\ present (pte_of (kbytes s) T w) = true /\ page_of (pte_of (kbytes s) T w) = q) \/ is_user (kbytes s') T q); [|tauto]. split.
  - intros (w & Hw & HP & Ew). destruct ((v <=? w) && (w <? e)) eqn:Er; [left; exists w; split; [b2p; lia|done]|right]. exists w. rewrite E by lia. unfold cleared. by rewrite Er.
  - intros [(w & Hw & HP & Ew)|(w & Hw & HP & Ew)]; [exists w; split; [lia|done]|]. rewrite E in HP, Ew by lia. unfold cleared in HP, Ew. destruct (_ && _ && _); [done|]. by exists w.
Qed.

(** ** allocuvm *)

(** s has the k pages from v on added to s0, zeroed. *)
Record growing (s0 : kmem) (l0 : list Z) (T0 : Z -> Z) (d : Z) (F : Z -> Prop) (v k : Z) (s : kmem) (l : list Z) (T : Z -> Z) : Prop := {
  gw_aspace : aspace s l d T F;
  gw_keeps : keeps s0 s l0 d T0;
  gw_grows : grows l0 l T0 T;
  gw_old : forall w, 0 <= w < 1048576 -> ~ (v <= w < v + k) -> pte_of (kbytes s) T w = pte_of (kbytes s0) T0 w;
  gw_new : forall w, v <= w < v + k -> exists p, pte_of (kbytes s) T w = p - KERNBASE + 7 /\ page_ok p /\ p ∈ l0 /\
    forall x, p <= x < p + 4096 -> kbytes s x = 0
}.

(** No page of s0 is lost, and none is made up. *)
Definition accounted (s0 : kmem) (l0 : list Z) (T0 : Z -> Z) (d : Z) (s : kmem) (l : list Z) (T : Z -> Z) : Prop :=
  forall q, q ∈ l0 \/ owned (kbytes s0) d T0 q <-> q ∈ l \/ owned (kbytes s) d T q.

Lemma growing_start s l T d F v : aspace s l d T F -> growing s l T d F v 0 s l T.
Proof.
  intros A. constructor; [done|apply vkeeps_refl|apply grows_refl|done|]. intros w Hw. lia.
Qed.

(** A free page, taken and filled by m'. *)
Lemma aspace_fill s p l d T F w m' :
  aspace s (p :: l) d T F -> kmem_inv kend (set_freelist w s) l -> p ∉ l -> bytes m' -> only_page (kbytes s) m' p ->
  let s' := set_kbytes m' (set_freelist w s) in
  aspace s' l d T F /\ unused s' l d T F p /\ same_entries (kbytes s) (kbytes s') T T.
Proof.
  intros A I Hpl Hb Ho. cbn zeta. destruct (aspace_take kend s p l d T F w A I Hpl) as [A1 U].
  destruct U as (Hp & _ & HF & Hd & Ht & Hu).
  destruct (aspace_write kend kend_range _ l d T F p m' A1 Hp Hpl Hd Ht Hb Ho) as [A2 E2]. split; [exact A2|]. split; [|exact E2].
  split_and!; try done. intros (v & Hv & HP & Ev). apply Hu. exists v. cbn [kbytes set_kbytes set_freelist] in *.
  rewrite E2 in HP, Ev by lia. done.
Qed.

Lemma wp_kfree_unused s l d T F p (Q : unit -> kmem -> Prop) :
  aspace s l d T F -> unused s l d T F p ->
  (forall s', aspace s' (p :: l) d T F -> same_entries (kbytes s) (kbytes s') T T -> only_page (kbytes s) (kbytes s') p -> Q tt s') ->
  wp (kfree kend p) s Q.
Proof.
  intros A U HQ. apply (wp_kfree _ kend_range s l); [apply A|apply U|apply U|]. intros s' I' Ho _.
  destruct (aspace_give kend kend_range s l d T F p s' A U I' Ho) as [A' E']. by apply HQ.
Qed.

Lemma V2P_page p : page_ok p -> V2P p = p - KERNBASE /\ P2V (V2P p) = p /\ V2P p mod 4096 = 0 /\ 0 <= V2P p < 4294967296.
Proof.
  intros Hp. pose proof (page_range _ kend_range p Hp). destruct Hp as [Hm _]. unfold V2P, P2V, KERNBASE.
  rewrite (u32_small (p - _)) by lia. rewrite u32_small by lia. split_and!; [lia|lia|zdm|lia|lia].
Qed.

(** mappages() of a single fresh user page. *)
Lemma wp_map_user s l d T F v p flags (Q : Z -> kmem -> Prop) :
  aspace s l d T F -> 0 <= v < 524288 -> present (pte_of (kbytes s) T v) = false -> unused s l d T F p -> 0 <= flags < 4096 ->
  (forall s' T', aspace s' [] d T' F -> same_entries (kbytes s) (kbytes s') T T' -> keeps s s' l d T -> takes l [] T T' -> Q (-1) s') ->
  (forall s' l' T', aspace s' l' d T' F ->
     entries_are (kbytes s') T' (fun w => if w =? v then p - KERNBASE + Z.lor flags 1 else pte_of (kbytes s) T w) ->
     keeps s s' l d T -> takes l l' T T' -> Q 0 s') ->
  wp (mappages d (4096 * v) PGSIZE (V2P p) flags) s Q.
Proof.
  intros A Hv HP U Hf Hbad HQ. destruct (V2P_page p (proj1 U)) as (E1 & E2 & E3 & E4).
  change PGSIZE with (4096 * (Z.of_nat 0 + 1)). apply (wp_mappages kend kend_range s l d T F v 0); [done|lia|lia| |done|lia|lia|lia| | |].
  - intros w Hw. by replace w with v by lia.
  - intros _. rewrite E2. done.
  - intros s' l' T' k Hk A' En K' -> G'. apply (Hbad s' T'); try done. intros w Hw. rewrite (En w Hw). unfold mapped.
    by replace ((v <=? w) && (w <? v + k)) with false by lia.
  - intros s' l' T' A' En K' G'. apply (HQ s' l' T'); try done. intros w Hw. rewrite (En w Hw). unfold mapped.
    destruct (Z.eqb_spec w v) as [->|Hne].
    + replace ((v <=? v) && _) with true by (symmetry; apply andb_true_iff; split; [apply Z.leb_le|apply Z.ltb_lt]; lia). rewrite E1. lia.
    + change (Z.of_nat 0 + 1) with 1. by replace ((v <=? w) && (w <? v + 1)) with false by lia.
Qed.

Lemma growing_page s0 l0 T0 d F v k s l T w :
  growing s0 l0 T0 d F v k s l T -> 0 <= v -> v + k <= 524288 -> v <= w < v + k ->
  exists p, pte_of (kbytes s) T w = p - KERNBASE + 7 /\ page_ok p /\ p ∈ l0 /\ (forall x, p <= x < p + 4096 -> kbytes s x = 0) /\
    (p ∉ l) /\ p <> d /\ ~ is_table T p.
Proof.
  intros [A _ _ _ Hnw] Hv Hk Hw. destruct (Hnw w Hw) as (p & E & Hp & Hl & Hz). exists p. destruct (table_pde p Hp) as [Hb Ep].
  assert (HP : present (pte_of (kbytes s) T w) = true) by (rewrite E, present_bit; by apply andb_true_iff in Hb as [-> _]).
  destruct (as_user _ _ _ _ _ _ A w ltac:(lia) HP) as (_ & Hnl & _ & Hnd & Hnt). rewrite E, Ep in Hnl, Hnd, Hnt. done.
Qed.

(** Everything allocated so far is given back. *)
Lemma growing_undo s0 l0 T0 d F v k s l T e s' fr :
  aspace s0 l0 d T0 F -> growing s0 l0 T0 d F v k s l T -> 0 <= v -> 0 <= k -> v + k <= e -> e <= 524288 ->
  (forall w, v <= w < e -> present (pte_of (kbytes s0) T0 w) = false) ->
  deallocated s l d T F v e s' fr ->
  keeps s0 s' l0 d T0 /\ (forall p, p ∈ fr -> p ∈ l0) /\
  (forall w, 0 <= w < 524288 -> pte_of (kbytes s') T w = pte_of (kbytes s0) T0 w \/
     (present (pte_of (kbytes s') T w) = false /\ present (pte_of (kbytes s0) T0 w) = false)).
Proof.
  intros A0 [A K G Hold Hnew] Hv Hk Hke He Hnp [A' E' R' K'].
  assert (Hfr : forall p, p ∈ fr -> p ∈ l0).
  { intros p (w & Hw & HP & Ew)%R'. destruct (Z.lt_ge_cases w (v + k)) as [Hin|Hout].
    - destruct (Hnew w ltac:(lia)) as (q & Eq & Hq & Hql & _). rewrite Eq in Ew. destruct (table_pde q Hq) as [_ Eqq]. congruence.
    - rewrite Hold in HP by lia. rewrite Hnp in HP by lia. done. }
  split_and!; [|done|].
  - intros q Hq Hl Hd Ht x Hx. transitivity (kbytes s x); [|by apply (K q)]. apply (K' q); try done.
    + intros Hin. by apply Hl, Hfr.
    + intros Hin. by apply (gr_new _ _ _ _ G) in Hin as [?|[? _]].
  - intros w Hw. rewrite E' by lia. unfold cleared. destruct (Z.lt_ge_cases w v); [left; replace (v <=? w) with false by lia; apply Hold; lia|].
    destruct (Z.lt_ge_cases w e); [right|left; replace (w <? e) with false by lia; rewrite andb_false_r; apply Hold; lia].
    replace ((v <=? w) && (w <? e)) with true by lia. split; [|by apply Hnp]. cbn. destruct (present (pte_of (kbytes s) T w)) eqn:HP; done.
Qed.

(** There is not a page left but, maybe, one: all pages are in the address
    space, which has no user pages from e on. *)
Definition used_up (s0 : kmem) (l0 : list Z) (T0 : Z -> Z) (d e : Z) : Prop := exists m T q,
  (forall p, p ∈ l0 \/ owned (kbytes s0) d T0 p -> p = q \/ owned m d T p) /\
  (forall w, e <= w < 524288 -> present (pte_of (kbytes s0) T0 w) = false -> present (pte_of m T w) = false).

(** What allocuvm() returns with: the pages added, or everything as it was. *)
Definition alloc_fails (s0 : kmem) (l0 : list Z) (T0 : Z -> Z) (d : Z) (F : Z -> Prop) (s : kmem) : Prop :=
  exists l T, aspace s l d T F /\ same_user s0 s d /\ keeps s0 s l0 d T0 /\ (forall p, p ∈ l -> p ∈ l0) /\ accounted s0 l0 T0 d s l T.

Lemma wp_alloc_page s0 l0 T0 d F oldsz newsz (v := (oldsz + 4095) / 4096) (e := (newsz + 4095) / 4096) k s l T (Q : option Z -> kmem -> Prop) :
  aspace s0 l0 d T0 F -> 0 <= oldsz <= newsz -> newsz < KERNBASE ->
  (forall w, v <= w < e -> present (pte_of (kbytes s0) T0 w) = false) ->
  growing s0 l0 T0 d F v k s l T -> accounted s0 l0 T0 d s l T -> 0 <= k < e - v ->
  (forall s', alloc_fails s0 l0 T0 d F s' -> used_up s0 l0 T0 d e -> Q (Some 0) s') ->
  (forall s' l' T', growing s0 l0 T0 d F v (k + 1) s' l' T' -> accounted s0 l0 T0 d s' l' T' -> Q None s') ->
  wp (alloc_page kend d oldsz newsz (4096 * (v + k))) s Q.
Proof.
  intros A0 Hsz Hnew Hnp GW HPg Hk Hbad HQ. unfold KERNBASE in Hnew. assert (Hve : 0 <= v /\ v <= e /\ e <= 524288) by (unfold v, e; zdm).
  pose proof GW as [A K G Hold Hnw]. unfold alloc_page.
  apply wp_bind, (wp_kalloc _ kend_range s l); [apply A|]. destruct l as [|p l].
  - cbn [Z.eqb]. apply wp_bind. apply (wp_deallocuvm kend kend_range s [] d T F); [done|lia|unfold KERNBASE; lia|].
    fold v e. intros s' fr D. apply wp_ret, Hbad.
    destruct (growing_undo s0 l0 T0 d F v k s [] T e s' fr A0 GW) as (K' & Hfr & E'); [lia..|done|done|]. 
    assert (HD : forall q, q ∈ [] \/ owned (kbytes s) d T q <-> q ∈ fr ++ [] \/ owned (kbytes s') d T q) by (apply (dealloc_owned s [] d T F v e s' fr D); lia). destruct D as [A' _ _ _].
    2:{ exists (kbytes s), T, 0. split; [|intros w Hw HP; rewrite Hold by lia; exact HP]. intros p Hp. apply HPg in Hp as [Hp|Hp]; [by apply elem_of_nil in Hp|by right]. }
    exists (fr ++ []), T. split_and!; [done|by eapply same_user_intro|done| |]; [intros p; rewrite app_nil_r; apply Hfr|]. intros q. by rewrite (HPg q), HD.
  - intros Hp Hpl I1. pose proof (page_range _ kend_range p Hp) as Hr. replace (p =? 0) with false by lia.
    apply wp_bind, wp_zoom. cbn [kbytes set_freelist]. unfold PGSIZE at 1. apply wp_memset; [lia..|apply A|]. intros m1 Hb1 Hm1.
    assert (Ho1 : only_page (kbytes s) m1 p).
    { intros x Hx. rewrite Hm1. destruct (within p 4096 x) eqn:E; [apply within_true in E; lia|done]. }
    destruct (aspace_fill s p l d T F _ m1 A I1 Hpl Hb1 Ho1) as (A1 & U1 & E1). set (s1 := set_kbytes m1 _) in *.
    assert (Hl0 : forall q, q ∈ p :: l -> q ∈ l0) by (intros q Hq; eapply suffix_elem; [apply G|done]).
    assert (G1 : grows l0 l T0 T).
    { destruct G as [Gs Go Gn]. constructor; [|done|].
      - etransitivity; [|exact Gs]. by exists [p].
      - intros q Hq. destruct (Gn q Hq) as [?|[? Hn]]; [by left|right]. split; [done|]. intros Hx. apply Hn. by right. }
    assert (K1 : keeps s0 s1 l0 d T0).
    { intros q Hq Hl Hd Ht x Hx. transitivity (kbytes s x); [|by apply (K q)]. apply Ho1. apply (page_disjoint q p); [apply Hq|apply Hp| |done].
      intros ->. apply Hl, Hl0. by left. }
    apply wp_bind. change (Z.lor PTE_W PTE_U) with 6.
    apply (wp_map_user s1 l d T F (v + k) p); [done|lia| |done|lia| |].
    { rewrite E1 by lia. rewrite Hold by lia. apply Hnp. lia. }
    + (* no page for the table *)
      intros s2 T2 A2 E2 K2 TK2. pose proof (tk_grows _ _ _ _ TK2) as G2. cbn [Z.ltb Z.compare]. apply wp_bind.
      assert (GW2 : growing s0 l0 T0 d F v k s2 [] T2).
      { constructor; [done|by eapply vkeeps_trans|by eapply grows_trans| |].
        - intros w Hw Hout. rewrite E2, E1 by done. by apply Hold.
        - intros w Hw. destruct (growing_page s0 l0 T0 d F v k s (p :: l) T w GW) as (q & Eq & Hq & Hql & Hz & Hnl & Hnd & Hnt); [lia..|].
          exists q. rewrite E2, E1 by lia. split_and!; try done. intros x Hx. apply not_elem_of_cons in Hnl as [Hqp Hql']. rewrite (K2 q) by done. rewrite Ho1; [by apply Hz|]. apply (page_disjoint q p); [apply Hq|apply Hp|done|done]. }
      apply (wp_deallocuvm kend kend_range s2 [] d T2 F); [done|lia|unfold KERNBASE; lia|]. fold v e. intros s3 fr D.
      destruct (growing_undo s0 l0 T0 d F v k s2 [] T2 e s3 fr A0 GW2) as (K3 & Hfr & E3); [lia..|done|done|].
      pose proof D as [A3 En3 R3 _]. destruct (unused_grows kend s1 s2 l [] d T T2 F p U1 G2 E2) as (_ & _ & HpF & Hpd & Hpt & Hpu).
      assert (Hpfr : p ∉ fr) by (intros (w & Hw & HP & Ew)%R3; apply Hpu; exists w; split; [lia|done]).
      apply wp_bind. apply (wp_kfree_unused s3 (fr ++ []) d T2 F p); [done| |].
      { split_and!; try done; [by rewrite app_nil_r|]. intros (w & Hw & HP & Ew). apply Hpu. exists w. rewrite En3 in HP, Ew by lia.
        unfold cleared in HP, Ew. destruct (_ && _ && _); [done|]. done. }
      intros s4 A4 E4 O4. apply wp_ret, Hbad.
      2:{ exists (kbytes s2), T2, p. split; [|intros w Hw HP; rewrite E2, E1, Hold by lia; exact HP]. intros q Hq. apply HPg in Hq. rewrite elem_of_cons in Hq.
          pose proof (owned_same s1 s2 l [] d T T2 TK2 E2 q) as X2. rewrite (owned_entries (kbytes s) (kbytes s1)) in X2 by done. assert (q ∉ []) by apply not_elem_of_nil. tauto. }
      exists (p :: fr ++ []), T2.
      assert (K4 : keeps s0 s4 l0 d T0).
      { intros q Hq Hl Hd Ht x Hx. transitivity (kbytes s3 x); [|by apply (K3 q)]. apply O4. apply (page_disjoint q p); [apply Hq|apply Hp| |done].
        intros ->. apply Hl, Hl0. by left. }
      split_and!; [done| |done| |].
      * eapply same_user_intro; [exact A0|exact A4|exact K4|]. intros w Hw. rewrite E4 by lia. by apply E3.
      * intros q. rewrite app_nil_r. intros [->|Hq]%elem_of_cons; [apply Hl0; by left|by apply Hfr].
      * intros q. rewrite (HPg q), !elem_of_cons, (owned_entries (kbytes s3) (kbytes s4)) by done. pose proof (dealloc_owned s2 [] d T2 F v e s3 fr D ltac:(lia) ltac:(lia) q) as X1. pose proof (owned_same s1 s2 l [] d T T2 TK2 E2 q) as X2. rewrite (owned_entries (kbytes s) (kbytes s1)) in X2 by done. tauto.
    + intros s2 l2 T2 A2 E2 K2 TK2. pose proof (tk_grows _ _ _ _ TK2) as G2. cbn [Z.ltb Z.compare]. apply wp_ret, (HQ s2 l2 T2); change (Z.lor 6 1) with 7 in E2.
      2:{ intros q. rewrite (HPg q). destruct (table_pde p Hp) as [Hb Ep]. apply (owned_mapped s s2 p l l2 d T T2 (v + k) (p - KERNBASE + 7)); [lia|rewrite Hold by lia; apply Hnp; lia|rewrite present_bit; by apply andb_true_iff in Hb as [-> _]|done|done|].
          intros w Hw. rewrite (E2 w Hw). destruct (w =? v + k); [done|by apply E1]. }
      assert (Hz2 : forall q, page_ok q -> q ∉ l -> q <> d -> ~ is_table T q -> (forall x, q <= x < q + 4096 -> m1 x = 0) -> forall x, q <= x < q + 4096 -> kbytes s2 x = 0).
      { intros q Hq Hl Hd Ht Hz x Hx. rewrite (K2 q) by done. by apply Hz. }
      constructor; [done|by eapply vkeeps_trans|by eapply grows_trans| |].
      * intros w Hw Hout. rewrite (E2 w Hw). destruct (Z.eqb_spec w (v + k)); [lia|]. rewrite E1 by done. apply Hold; lia.
      * intros w Hw. rewrite E2 by lia. destruct (Z.eqb_spec w (v + k)) as [->|Hne].
        -- exists p. split_and!; [done|done|apply Hl0; by left|]. destruct U1 as (_ & ? & _ & ? & ? & _). apply Hz2; try done.
           intros x Hx. rewrite Hm1. destruct (within p 4096 x) eqn:Ew; [done|apply within_false in Ew; lia].
        -- destruct (growing_page s0 l0 T0 d F v k s (p :: l) T w GW) as (q & Eq & Hq & Hql & Hz & Hnl & Hnd & Hnt); [lia..|].
           exists q. rewrite E1 by lia. split_and!; try done. apply not_elem_of_cons in Hnl as [Hqp Hql']. apply Hz2; try done. intros x Hx. rewrite Ho1; [by apply Hz|].
           apply (page_disjoint q p); [apply Hq|apply Hp|done|done].
Qed.

Lemma wp_allocuvm s l d T F oldsz newsz (v := (oldsz + 4095) / 4096) (e := (newsz + 4095) / 4096) (Q : Z -> kmem -> Prop) :
  aspace s l d T F -> 0 <= oldsz <= newsz -> newsz < KERNBASE ->
  (forall w, v <= w < e -> present (pte_of (kbytes s) T w) = false) ->
  (forall s', alloc_fails s l T d F s' -> used_up s l T d e -> Q 0 s') ->
  (forall s' l' T', growing s l T d F v (e - v) s' l' T' -> accounted s l T d s' l' T' -> Q newsz s') ->
  wp (allocuvm kend d oldsz newsz) s Q.
Proof.
  intros A Hsz Hnew Hnp Hbad HQ. unfold allocuvm. replace (newsz >=? KERNBASE) with false by lia. replace (newsz <? oldsz) with false by lia.
  unfold KERNBASE in Hnew. assert (Hve : 0 <= v <= e) by (unfold v, e; zdm).
  rewrite PGROUNDUP_eq by lia. fold v. unfold PGSIZE.
  replace (Z.to_nat _) with (Z.to_nat (e - v)) by (f_equal; unfold e; zdm).
  apply wp_bind, (wp_search (fun k s' => 0 <= k <= e - v /\ exists l' T', growing s l T d F v k s' l' T' /\ accounted s l T d s' l' T')).
  - split; [lia|]. exists l, T. split; [by apply growing_start|done].
  - intros k s' Hk (_ & l' & T' & GW & HG). replace (v * 4096 + k * 4096) with (4096 * (v + k)) by lia.
    apply (wp_alloc_page s l T d F oldsz newsz k s' l' T'); [done|done|unfold KERNBASE; lia|done|done|done|fold v e; lia| |].
    + intros s2 Hf Hu. by apply wp_ret, Hbad.
    + intros s2 l2 T2 GW2 HG2. split; [lia|]. by exists l2, T2.
  - intros s' (_ & l' & T' & GW & HG). apply wp_ret. replace (0 + Z.of_nat (Z.to_nat (e - v))) with (e - v) in GW by lia. by eapply HQ.
Qed.

Lemma growing_user s l T d F v k s' l' T' :
  aspace s l d T F -> growing s l T d F v k s' l' T' -> 0 <= v -> v + k <= 524288 ->
  forall va, 0 <= va < KERNBASE ->
  user_byte (kbytes s') d va = if (v <=? va / 4096) && (va / 4096 <? v + k) then Some 0 else user_byte (kbytes s) d va.
Proof.
  unfold KERNBASE. intros A GW Hv Hk va Hva. rewrite (user_byte_pte s' l' d T' F), (user_byte_pte s l d T F) by (try done; try lia; apply GW).
  set (w := va / 4096). assert (Hw : 0 <= w < 524288) by (unfold w; zdm). destruct ((v <=? w) && (w <? v + k)) eqn:Er; b2p.
  - destruct (growing_page s l T d F v k s' l' T' w GW Hv Hk) as (p & E & Hp & _ & Hz & _); [lia|].
    destruct (table_pde p Hp) as [Hb Ep]. unfold ubyte. rewrite E, Hb, Ep, Hz; [done|zdm].
  - rewrite (gw_old _ _ _ _ _ _ _ _ _ _ GW) by lia. apply (ubyte_keeps s l d T F); [done|apply GW|done|zdm].
Qed.
End User.

(** ** Theorems *)

(** growing a process.  allocuvm() over pages that are not mapped always
    returns: either the new size, and then every byte of the pages from
    PGROUNDUP(oldsz) to the new end reads as 0 and all other user memory reads as before,
    or 0 when memory runs out, and then all user memory reads as before.  No
    page is lost or made up: the free pages and those of the address space are
    together the same as before.  The pages of other address spaces (F) are
    never touched, and the page tables keep their invariant. *)
Theorem allocuvm_grows kend s l d T F oldsz newsz :
  KERNBASE < kend -> aspace kend s l d T F -> 0 <= oldsz <= newsz -> newsz < KERNBASE ->
  (forall va, PGROUNDUP oldsz <= va < PGROUNDUP newsz -> present (mmu_entry (kbytes s) d va) = false) ->
  exists r s' l' T', allocuvm kend d oldsz newsz s = Ok r s' /\ aspace kend s' l' d T' F /\
    (r = newsz /\ (forall va, 0 <= va < KERNBASE -> user_byte (kbytes s') d va =
       if (PGROUNDUP oldsz <=? va) && (va <? PGROUNDUP newsz) then Some 0 else user_byte (kbytes s) d va) \/
     r = 0 /\ (forall va, 0 <= va < KERNBASE -> user_byte (kbytes s') d va = user_byte (kbytes s) d va)) /\
    accounted s l T d s' l' T' /\
    forall p, page_ok kend p -> F p -> same_page (kbytes s) (kbytes s') p.
Proof.
  unfold KERNBASE. intros Hk A Hsz Hnew Hnp. set (v := (oldsz + 4095) / 4096). set (e := (newsz + 4095) / 4096).
  assert (Hve : 0 <= v <= e /\ e <= 524288) by (unfold v, e; zdm).
  rewrite !PGROUNDUP_eq in * by lia. fold v e in Hnp |- *.
  assert (HF : forall s', keeps kend s s' l d T -> forall p, page_ok kend p -> F p -> same_page (kbytes s) (kbytes s') p).
  { intros s' K p Hp HFp. apply K; [done| | |].
    - intros Hin. by apply (as_free _ _ _ _ _ _ A) in Hin.
    - intros ->. by destruct (as_dir _ _ _ _ _ _ A) as (_ & _ & ?).
    - intros (i & Hi & <- & H0). by destruct (as_tab _ _ _ _ _ _ A i Hi H0) as (_ & _ & _ & ? & _). }
  destruct (wp_run (allocuvm kend d oldsz newsz) s (fun r s' => exists l' T', aspace kend s' l' d T' F /\
    (r = newsz /\ (forall va, 0 <= va < 2147483648 -> user_byte (kbytes s') d va =
       if (v * 4096 <=? va) && (va <? e * 4096) then Some 0 else user_byte (kbytes s) d va) \/
     r = 0 /\ (forall va, 0 <= va < 2147483648 -> user_byte (kbytes s') d va = user_byte (kbytes s) d va)) /\
    accounted s l T d s' l' T' /\
    forall p, page_ok kend p -> F p -> same_page (kbytes s) (kbytes s') p)) as (r & s' & E & l' & T' & H).
  - apply (wp_allocuvm kend Hk s l d T F); [done|done|done| | |].
    + fold v e. intros w Hw. specialize (Hnp (w * 4096) ltac:(lia)). rewrite (mmu_entry_pte kend Hk s l d T F) in Hnp by (done || lia).
      by replace (w * 4096 / 4096) with w in Hnp by zdm.
    + intros s' (l' & T' & A' & Hu & K & _ & HG) _. exists l', T'. split; [done|]. split; [right; by split|]. split; [done|by apply HF].
    + fold v e. intros s' l' T' GW HG. exists l', T'. split; [apply GW|]. split; [left; split; [done|]|split; [done|by apply HF, GW]].
      intros va Hva. rewrite (growing_user kend Hk s l T d F v (e - v) s' l' T') by (done || lia).
      replace ((v * 4096 <=? va) && (va <? e * 4096)) with ((v <=? va / 4096) && (va / 4096 <? v + (e - v))); [done|].
      destruct (Z.leb_spec v (va / 4096)), (Z.leb_spec (v * 4096) va), (Z.ltb_spec (va / 4096) (v + (e - v))), (Z.ltb_spec va (e * 4096)); try done; zdm.
  - exists r, s', l', T'. done.
Qed.
