(* ===== verification/VmKernel.v ===== *)
(** setupkvm() and freevm(): address spaces made and taken apart. *)

From Stdlib Require Import ZArith Lia.
From stdpp Require Import base gmap strings numbers list.
From S2P Require Import Prelude Kstring Mem Kalloc Vm VmSpec VmMap VmUser.

Open Scope Z_scope.
Open Scope kern_scope.

Section Kernel.
Context (kend kdata : Z) (kend_range : KERNBASE < kend).

Abbreviation aspace := (aspace kend).
Abbreviation keeps := (keeps kend).
Abbreviation page_ok := (page_ok kend).
Abbreviation unused := (unused kend).
Abbreviation deallocated := (deallocated kend).

Definition no_tables : Z -> Z := fun _ => 0.

Lemma no_table p : ~ is_table no_tables p.
Proof. by intros (i & _ & <- & ?). Qed.

(** A zeroed page is the directory of an address space that maps nothing. *)
Lemma aspace_empty s d l F w m' :
  kmem_inv kend s (d :: l) -> kmem_inv kend (set_freelist w s) l -> page_ok d -> d ∉ l -> (forall p, p ∈ d :: l -> ~ F p) ->
  bytes m' -> (forall x, m' x = if within d 4096 x then 0 else kbytes s x) ->
  aspace (set_kbytes m' (set_freelist w s)) l d no_tables F.
Proof.
  intros I I1 Hd Hdl HF Hb Hm. pose proof (page_range _ kend_range d Hd) as Hr.
  assert (Hz : forall i, 0 <= i < 1024 -> ld32 m' (d + 4 * i) = 0).
  { intros i Hi. unfold ld32. rewrite (u32_small (d + 4 * i)), (u32_small (d + 4 * i + 1)), (u32_small (d + 4 * i + 2)), (u32_small (d + 4 * i + 3)) by lia.
    rewrite !Hm. by rewrite !(proj2 (within_true d 4096 _)) by lia. }
  constructor; cbn [kbytes set_kbytes].
  - apply (kmem_inv_mem kend kend_range); [done|done|]. intros p Hp x Hx. cbn. rewrite Hm. replace (within d 4096 x) with false; [done|].
    symmetry. apply within_false. assert (Hne : p <> d) by (by intros ->).
    pose proof (page_disjoint p d x (proj1 (ki_pages _ _ _ I1 p Hp)) (proj1 Hd) Hne Hx). lia.
  - intros p Hp. apply HF. by right.
  - split; [done|]. split; [done|]. apply HF. by left.
  - intros i Hi _. by rewrite Hz.
  - done.
  - done.
  - done.
  - done.
Qed.

(** ** The kernel's mappings *)

(** What the lines of kmap put into the entries. *)
Fixpoint kentries (kl : list kmap_entry) (f : Z -> Z) : Z -> Z :=
  match kl with
  | [] => f
  | k :: kl' => kentries kl' (mapped (virt k / 4096) (u32 (phys_end k - phys_start k) / 4096) (phys_start k) (kperm k) f)
  end.

(** Lines in ascending order from page b on, page-aligned, within the address space. *)
Fixpoint kmap_ok (b : Z) (kl : list kmap_entry) : Prop :=
  match kl with
  | [] => True
  | k :: kl' =>
      let v := virt k / 4096 in
      let n := u32 (phys_end k - phys_start k) / 4096 in
      virt k = 4096 * v /\ u32 (phys_end k - phys_start k) = 4096 * n /\ b <= v /\ 0 < n /\ v + n <= 1048576 /\
      phys_start k mod 4096 = 0 /\ 0 <= phys_start k /\ phys_start k + 4096 * n <= 4294967296 /\ 0 <= kperm k < 4096 /\
      kmap_ok (v + n) kl'
  end.

Lemma kentries_ext kl : forall f g, (forall w, 0 <= w < 1048576 -> f w = g w) -> forall w, 0 <= w < 1048576 -> kentries kl f w = kentries kl g w.
Proof.
  induction kl as [|k kl IH]; intros f g H w Hw; [by apply H|]. cbn. apply IH; [|done]. intros x Hx. unfold mapped.
  destruct (_ && _); [done|by apply H].
Qed.

Lemma kentries_below kl : forall b f w, kmap_ok b kl -> w < b -> kentries kl f w = f w.
Proof.
  induction kl as [|k kl IH]; intros b f w Hk Hw; [done|]. cbn in *. destruct Hk as (_ & _ & Hb & Hn & _ & _ & _ & _ & _ & Hk).
  rewrite (IH _ _ _ Hk) by lia. unfold mapped. by replace (_ && _) with false by lia.
Qed.

Lemma wp_map_kernel kl : forall s l d T F b (Q : bool -> kmem -> Prop),
  aspace s l d T F -> 524288 <= b -> kmap_ok b kl ->
  (forall w, b <= w < 1048576 -> present (pte_of (kbytes s) T w) = false) ->
  (forall s' T', aspace s' [] d T' F -> keeps s s' l d T -> takes l [] T T' ->
     (forall w, 0 <= w < 524288 -> pte_of (kbytes s') T' w = pte_of (kbytes s) T w) -> Q false s') ->
  (forall s' l' T', aspace s' l' d T' F -> keeps s s' l d T -> takes l l' T T' ->
     entries_are (kbytes s') T' (kentries kl (pte_of (kbytes s) T)) -> Q true s') ->
  wp (map_kernel d kl) s Q.
Proof.
  induction kl as [|k kl IH]; intros s l d T F b Q A Hb Hk Hnp Hbad HQ.
  - apply wp_ret, (HQ s l T); [done|apply vkeeps_refl|apply takes_refl|done].
  - cbn [map_kernel]. cbn in Hk. destruct Hk as (Ev & En & Hbv & Hn & Hv & Hpa & Hp0 & Hp1 & Hperm & Hk).
    set (v := virt k / 4096) in *. set (n := u32 (phys_end k - phys_start k) / 4096) in *. rewrite Ev, En.
    apply wp_bind. replace (4096 * n) with (4096 * (Z.of_nat (Z.to_nat (n - 1)) + 1)) by lia.
    apply (wp_mappages kend kend_range s l d T F v); [done|lia|lia| |done|done|lia|done|lia| |].
    + intros w Hw. apply Hnp. lia.
    + intros s' l' T' j Hj A' E' K' -> G'. cbn [Z.ltb Z.compare]. apply wp_ret, (Hbad s' T'); try done. intros w Hw.
      rewrite E' by lia. unfold mapped. by replace (_ && _) with false by lia.
    + intros s1 l1 T1 A1 E1 K1 G1. cbn [Z.ltb Z.compare]. replace (Z.of_nat (Z.to_nat (n - 1)) + 1) with n in E1 by lia.
      apply (IH s1 l1 d T1 F (v + n)); [done|lia|done| | |].
      * intros w Hw. rewrite E1 by lia. unfold mapped. replace (_ && _) with false by lia. apply Hnp. lia.
      * intros s' T' A' K' G' E'. apply (Hbad s' T'); [done|eapply vkeeps_trans; [done|apply G1|done]|by eapply takes_trans|]. intros w Hw. rewrite E', E1 by lia.
        unfold mapped. by replace (_ && _) with false by lia.
      * intros s' l' T' A' K' G' E'. apply (HQ s' l' T'); [done|eapply vkeeps_trans; [done|apply G1|done]|by eapply takes_trans|]. intros w Hw.
        rewrite E' by done. cbn. fold v n. by apply kentries_ext.
Qed.

(** ** freevm *)

Lemma owned_page_ok s l d T F p : aspace s l d T F -> owned (kbytes s) d T p -> page_ok p /\ (p ∉ l) /\ ~ F p.
Proof.
  intros A [->|[(i & Hi & <- & H0)|(v & Hv & HP & <-)]].
  - destruct (as_dir _ _ _ _ _ _ A) as (? & ? & ?). done.
  - destruct (as_tab _ _ _ _ _ _ A i Hi H0) as (_ & ? & ? & ? & _). done.
  - destruct (as_user _ _ _ _ _ _ A v Hv HP) as (? & ? & ? & _). done.
Qed.

(** The loop over the directory: the tables are freed one after the other. *)
Lemma wp_free_tables s l d T F (Q : unit -> kmem -> Prop) :
  aspace s l d T F ->
  (forall s' ts, kmem_inv kend s' (ts ++ l) -> (forall p, p ∈ ts <-> is_table T p) ->
     (forall q, page_ok q -> ~ is_table T q -> same_page (kbytes s) (kbytes s') q) -> Q tt s') ->
  wp (for_up 0 NPDENTRIES (fun i =>
      let! e := on_mem (load32 (d + 4 * i)) in
      when (has e PTE_P) (kfree kend (P2V (PTE_ADDR e))))) s Q.
Proof.
  intros A HQ. unfold NPDENTRIES. destruct (as_dir _ _ _ _ _ _ A) as (Hd & Hdl & _).
  apply (wp_for_up (fun i s' => exists ts, kmem_inv kend s' (ts ++ l) /\ (forall p, p ∈ ts <-> exists j, 0 <= j < i /\ j < 1024 /\ T j = p /\ p <> 0) /\
    (forall q, page_ok q -> q ∉ ts -> same_page (kbytes s) (kbytes s') q))).
  - exists []. split_and!; [apply A| |done]. intros p. split; [by intros ?%not_elem_of_nil|]. intros (j & Hj & _). lia.
  - intros i s' Hi (ts & I & Hts & Hs). apply wp_bind, wp_zoom, wp_gets. replace (set_kbytes (kbytes s') s') with s' by (by destruct s').
    assert (Htsd : d ∉ ts).
    { intros (j & Hj & _ & E & H0)%Hts. destruct (as_tab _ _ _ _ _ _ A j ltac:(lia) ltac:(congruence)) as (_ & _ & _ & _ & ?). done. }
    replace (ld32 (kbytes s') (d + 4 * i)) with (ld32 (kbytes s) (d + 4 * i))
      by (symmetry; apply (ld32_page _ kend_range _ _ d); [done|by apply Hs|lia|lia]).
    fold (present (ld32 (kbytes s) (d + 4 * i))). fold (page_of (ld32 (kbytes s) (d + 4 * i))).
    destruct (Z.eq_dec (T i) 0) as [E|E].
    + rewrite (as_pde _ _ _ _ _ _ A i Hi E). cbn [when]. apply wp_ret. exists ts. split_and!; try done. intros p. rewrite (Hts p). split; intros (j & Hj & ? & Ej & ?); exists j.
      * split; [lia|done].
      * split; [|done]. destruct (Z.eq_dec j i); [congruence|lia].
    + destruct (as_tab _ _ _ _ _ _ A i Hi E) as (-> & Hp & Hl & _ & Hne). destruct (table_pde kend kend_range _ Hp) as [Hb ->].
      rewrite present_bit. apply andb_true_iff in Hb as [-> _]. cbn [when].
      assert (Hnts : T i ∉ ts).
      { intros (j & Hj & Hj' & Ej & _)%Hts. assert (j = i) by (apply (as_inj _ _ _ _ _ _ A); (lia || congruence)). lia. }
      apply (wp_kfree _ kend_range s' (ts ++ l)); [done|done|rewrite elem_of_app; tauto|]. intros s'' I'' Ho _.
      exists (T i :: ts). split_and!; [done| |].
      * intros p. rewrite elem_of_cons, (Hts p). split.
        -- intros [->|(j & Hj & ? & Ej & ?)]; [exists i|exists j]; (split; [lia|split; [lia|done]]).
        -- intros (j & Hj & ? & Ej & ?). destruct (Z.eq_dec j i) as [->|]; [by left|right]. exists j. split; [lia|done].
      * intros q Hq [Hqi Hqts]%not_elem_of_cons x Hx. rewrite Ho; [by apply (Hs q)|]. apply (page_disjoint q (T i)); [apply Hq|apply Hp|done|done].
  - intros s' (ts & I & Hts & Hs). apply (HQ s' ts); [done| |].
    + intros p. rewrite (Hts p). split; intros (j & Hj & H); exists j; [tauto|]. split; [lia|]. split; [lia|done].
    + intros q Hq Hn. apply Hs; [done|]. intros (j & Hj & ? & ?)%Hts. apply Hn. exists j. split; [lia|done].
Qed.

Lemma wp_freevm s l d T F (Q : unit -> kmem -> Prop) :
  aspace s l d T F ->
  (forall s' l', kmem_inv kend s' l' -> (forall p, p ∈ l' <-> p ∈ l \/ owned (kbytes s) d T p) ->
     (forall q, page_ok q -> ~ owned (kbytes s) d T q -> same_page (kbytes s) (kbytes s') q) -> Q tt s') ->
  wp (freevm kend d) s Q.
Proof.
  intros A HQ. unfold freevm. destruct (as_dir _ _ _ _ _ _ A) as (Hd & Hdl & HdF). pose proof (page_range _ kend_range d Hd).
  replace (d =? 0) with false by lia. apply wp_bind, (wp_deallocuvm kend kend_range s l d T F); [done|lia|unfold KERNBASE; lia|].
  change ((0 + 4095) / 4096) with 0. change ((KERNBASE + 4095) / 4096) with 524288. intros s1 fr [A1 E1 R1 K1].
  assert (Hfr : forall p, p ∈ fr <-> is_user (kbytes s) T p) by (intros p; apply (R1 p)).
  apply wp_bind, (wp_free_tables s1 (fr ++ l) d T F); [done|]. intros s2 ts I2 Hts K2.
  destruct (as_dir _ _ _ _ _ _ A1) as (_ & Hd1 & _).
  assert (Hdt : ~ is_table T d).
  { intros (i & Hi & E & H0). destruct (as_tab _ _ _ _ _ _ A i Hi ltac:(congruence)) as (_ & _ & _ & _ & ?). done. }
  apply (wp_kfree _ kend_range s2 (ts ++ fr ++ l)); [done|done| |].
  { rewrite elem_of_app, (Hts d). tauto. }
  intros s3 I3 Ho _. apply (HQ s3 (d :: ts ++ fr ++ l)); [done| |].
  - intros p. unfold owned. rewrite elem_of_cons, !elem_of_app, (Hts p), (Hfr p). tauto.
  - intros q Hq Hno x Hx. unfold owned in Hno. rewrite Ho by (apply (page_disjoint q d); [apply Hq|apply Hd|tauto|done]).
    transitivity (kbytes s1 x); [apply (K2 q); [done|tauto|done]|]. apply (K1 q); [done|rewrite (Hfr q); tauto|tauto|done].
Qed.
End Kernel.
