(* ===== verification/VmFork.v ===== *)
(** setupkvm() as a whole and copyuvm(), the copy of an address space that
    fork() makes. *)

From Stdlib Require Import ZArith Lia.
From stdpp Require Import base gmap strings numbers list.
From S2P Require Import Prelude Kstring Mem Kalloc Vm VmSpec VmMap VmUser VmKernel.

Open Scope Z_scope.
Open Scope kern_scope.

Section Fork.
Context (kend kdata : Z) (kend_range : KERNBASE < kend).
Context (kdata_range : KERNLINK < kdata < KERNBASE + PHYSTOP) (kdata_aligned : kdata mod 4096 = 0).

Abbreviation aspace := (aspace kend).
Abbreviation keeps := (keeps kend).
Abbreviation page_ok := (page_ok kend).
Abbreviation unused := (unused kend).

(** ** setupkvm *)

Lemma kmap_in_order : kmap_ok 524288 (kmap kdata).
Proof.
  assert (Hk : exists q, kdata = 4096 * q /\ 524544 < q < 581632).
  { exists (kdata / 4096). unfold KERNLINK, KERNBASE, EXTMEM, PHYSTOP in *. zdm. }
  destruct Hk as (q & -> & Hq). unfold kmap. cbn [kmap_ok virt phys_start phys_end kperm].
  assert (E1 : V2P (4096 * q) = 4096 * (q - 524288)) by (unfold V2P, KERNBASE; rewrite u32_small; lia).
  rewrite E1. change (V2P KERNLINK) with 1048576. change KERNBASE with (4096 * 524288). change KERNLINK with (4096 * 524544).
  change DEVSPACE with (4096 * 1040384). change PHYSTOP with (4096 * 57344). change EXTMEM with (4096 * 256).
  rewrite (u32_small (4096 * 256 - 0)), (u32_small (4096 * (q - 524288) - 1048576)), (u32_small (4096 * 57344 - 4096 * (q - 524288))) by lia.
  change (u32 (0 - 4096 * 1040384)) with (4096 * 8192). unfold PTE_W. split_and!; zdm.
Qed.

Definition zero_entries : Z -> Z := fun _ => 0.

(** A new address space with the kernel's mappings only. *)
Record fresh_space (s : kmem) (l : list Z) (F : Z -> Prop) (s' : kmem) (l' : list Z) (d : Z) (T : Z -> Z) : Prop := {
  fs_aspace : aspace s' l' d T F;
  fs_user : forall w, 0 <= w < 524288 -> pte_of (kbytes s') T w = 0;
  fs_kernel : entries_are (kbytes s') T (kentries (kmap kdata) zero_entries);
  fs_keeps : forall q, page_ok q -> q ∉ l -> same_page (kbytes s) (kbytes s') q;
  fs_pages : forall p, p ∈ l <-> p ∈ l' \/ owned (kbytes s') d T p
}.

(** Out of memory: the free pages are what they were. *)
Record given_back (s : kmem) (l : list Z) (s' : kmem) (l' : list Z) : Prop := {
  gb_inv : kmem_inv kend s' l';
  gb_pages : forall p, p ∈ l' <-> p ∈ l;
  gb_keeps : forall q, page_ok q -> q ∉ l -> same_page (kbytes s) (kbytes s') q
}.

Lemma wp_setupkvm s l F (Q : Z -> kmem -> Prop) :
  kmem_inv kend s l -> (forall p, p ∈ l -> ~ F p) ->
  (forall s' l', given_back s l s' l' -> exhausted l 0 -> Q 0 s') ->
  (forall s' l' d T, fresh_space s l F s' l' d T -> Q d s') ->
  wp (setupkvm kend kdata) s Q.
Proof.
  intros I HF Hbad HQ. unfold setupkvm. apply wp_bind, (wp_kalloc _ kend_range s l); [done|]. destruct l as [|d l].
  { cbn [Z.eqb]. apply wp_ret, (Hbad s []); [by constructor|]. exists 0, (fun _ => 0), no_tables, 0. split; [by intros p ?%elem_of_nil|done]. }
  intros Hd Hdl I1. pose proof (page_range _ kend_range d Hd) as Hr. replace (d =? 0) with false by lia.
  apply wp_bind, wp_zoom. cbn [kbytes set_freelist]. unfold PGSIZE. apply wp_memset; [lia..|apply I|]. intros m1 Hb1 Hm1.
  replace (P2V PHYSTOP >? DEVSPACE) with false by reflexivity.
  pose proof (aspace_empty kend kend_range s d l F _ m1 I I1 Hd Hdl HF Hb1 Hm1) as A1. set (s1 := set_kbytes m1 _) in *.
  assert (E1 : forall w, pte_of (kbytes s1) no_tables w = 0) by done.
  assert (K1 : forall q, page_ok q -> q <> d -> same_page (kbytes s) (kbytes s1) q).
  { intros q Hq Hne x Hx. cbn. rewrite Hm1. destruct (within d 4096 x) eqn:E; [|done]. apply within_true in E.
    by destruct (page_disjoint q d x (proj1 Hq) (proj1 Hd) Hne Hx). }
  assert (Kall : forall s2, keeps s1 s2 l d no_tables -> forall q, page_ok q -> q ∉ d :: l -> same_page (kbytes s) (kbytes s2) q).
  { intros s2 K q Hq [Hqd Hql]%not_elem_of_cons x Hx. rewrite (K q Hq Hql Hqd (no_table q) x Hx). by apply (K1 q). }
  assert (Hown : forall s2 T2 l2, takes l l2 no_tables T2 -> (forall w, 0 <= w < 524288 -> pte_of (kbytes s2) T2 w = 0) ->
    forall p, p ∈ d :: l <-> p ∈ l2 \/ owned (kbytes s2) d T2 p).
  { intros s2 T2 l2 [G U] Hz p. rewrite elem_of_cons. unfold owned. split.
    - intros [->|Hp]; [by right; left|]. destruct (U p Hp); tauto.
    - intros [Hp|[->|[Hp|(v & Hv & HP & _)]]]; [right; eapply suffix_elem; [apply G|done]|by left| |].
      + apply (gr_new _ _ _ _ G) in Hp as [Hp|[Hp _]]; [by apply no_table in Hp|by right].
      + rewrite Hz in HP by done. done. }
  apply wp_bind, (wp_map_kernel kend kend_range (kmap kdata) s1 l d no_tables F 524288); [done|lia|apply kmap_in_order|done| |].
  - intros s2 T2 A2 K2 G2 E2. apply wp_bind, (wp_freevm kend kend_range s2 [] d T2 F); [done|]. intros s3 l3 I3 Hl3 K3.
    specialize (Hown s2 T2 [] G2 E2). apply wp_ret, (Hbad s3 l3); [constructor; [done| |]|].
    + intros p. by rewrite (Hl3 p), Hown.
    + intros q Hq Hql x Hx. rewrite (K3 q); [by apply (Kall s2 K2 q)|done| |done]. intros Ho. apply Hql, Hown. by right.
    + exists d, (kbytes s2), T2, d. split; [|intros w Hw; by rewrite E2 by lia]. intros p Hp. apply Hown in Hp as [Hp|Hp]; [by apply elem_of_nil in Hp|by right].
  - intros s2 l2 T2 A2 K2 G2 E2. apply wp_ret, (HQ s2 l2 d T2).
    assert (Hu : forall w, 0 <= w < 524288 -> pte_of (kbytes s2) T2 w = 0).
    { intros w Hw. rewrite E2 by lia. apply (kentries_below (kmap kdata) 524288); [apply kmap_in_order|lia]. }
    constructor; [done|done|exact E2|by apply Kall|by apply Hown].
Qed.

(** ** One address space beside others *)

Lemma aspace_frame s l d T F s' l' :
  aspace s l d T F -> kmem_inv kend s' l' -> (forall p, p ∈ l' -> p ∈ l) ->
  (forall q, owned (kbytes s) d T q -> same_page (kbytes s) (kbytes s') q) ->
  aspace s' l' d T F /\ same_entries (kbytes s) (kbytes s') T T.
Proof.
  intros A I Hl Hs.
  assert (E : same_entries (kbytes s) (kbytes s') T T).
  { intros v Hv. apply (pte_of_ext kend kend_range s l d T F); [done|done|]. intros HT x Hx.
    pose proof (table_range _ kend_range _ _ _ _ _ v A Hv HT). destruct (page_num_range v Hv) as [Hi _].
    apply (Hs (T (v / 1024))); [|lia]. right. left. by exists (v / 1024). }
  assert (Ed : forall i, 0 <= i < 1024 -> ld32 (kbytes s') (d + 4 * i) = ld32 (kbytes s) (d + 4 * i)).
  { intros i Hi. destruct (as_dir _ _ _ _ _ _ A) as (Hd & _). apply (ld32_page _ kend_range _ _ d); [done|apply Hs; by left|lia|lia]. }
  split; [|done]. constructor.
  - done.
  - intros p Hp. by apply (as_free _ _ _ _ _ _ A), Hl.
  - destruct (as_dir _ _ _ _ _ _ A) as (? & ? & ?). split; [done|]. split; [|done]. intros Hx. by apply Hl in Hx.
  - intros i Hi. rewrite Ed by done. by apply (as_pde _ _ _ _ _ _ A).
  - intros i Hi HT. rewrite Ed by done. destruct (as_tab _ _ _ _ _ _ A i Hi HT) as (? & ? & ? & ? & ?).
    split_and!; try done; try (by apply H0). intros Hx. by apply Hl in Hx.
  - apply A.
  - intros v Hv. rewrite E by lia. intros HP. destruct (as_user _ _ _ _ _ _ A v Hv HP) as (? & ? & ? & ? & ?).
    split; [done|]. split; [|done]. intros Hx. by apply Hl in Hx.
  - intros v w Hv Hw. rewrite !E by lia. by apply (as_uinj _ _ _ _ _ _ A).
Qed.

(** ** copyuvm *)

(** The pages the copy must not touch. *)
Definition others (s : kmem) (d : Z) (T : Z -> Z) (F : Z -> Prop) (p : Z) : Prop := F p \/ owned (kbytes s) d T p.

(** k pages of s0's address space copied into the directory d. *)
Record copying (s0 : kmem) (l0 : list Z) (d0 : Z) (T0 : Z -> Z) (F : Z -> Prop) (k : Z)
  (s : kmem) (l : list Z) (d : Z) (T : Z -> Z) : Prop := {
  cp_aspace : aspace s l d T (others s0 d0 T0 F);
  cp_keeps : forall q, page_ok q -> q ∉ l0 -> same_page (kbytes s0) (kbytes s) q;
  cp_pages : forall p, p ∈ l0 <-> p ∈ l \/ owned (kbytes s) d T p;
  cp_done : forall w, 0 <= w < k -> present (pte_of (kbytes s0) T0 w) = true /\ exists q, page_ok q /\ pte_of (kbytes s) T w = q - KERNBASE + pte_of (kbytes s0) T0 w mod 4096 /\
    forall o, 0 <= o < 4096 -> kbytes s (q + o) = kbytes s0 (page_of (pte_of (kbytes s0) T0 w) + o);
  cp_rest : forall w, k <= w < 524288 -> present (pte_of (kbytes s) T w) = false;
  cp_kernel : forall w, 524288 <= w < 1048576 -> pte_of (kbytes s) T w = kentries (kmap kdata) zero_entries w
}.

(** A copied entry refers to its page with the flags it had. *)
Lemma copied_entry q e : page_ok q -> 0 <= e < 4294967296 -> present e = true ->
  let e' := q - KERNBASE + e mod 4096 in
  Z.lor (e mod 4096) 1 = e mod 4096 /\ page_of e' = q /\ present e' = true /\ PTE_FLAGS e' = PTE_FLAGS e /\ Z.testbit e' 2 = Z.testbit e 2.
Proof.
  intros Hq He HP. pose proof (page_range _ kend_range q Hq) as Hr. destruct Hq as [Hm _]. cbn zeta. unfold KERNBASE.
  rewrite present_bit in HP.
  assert (Hl : Z.lor (e mod 2 ^ 12) 1 = e mod 2 ^ 12).
  { apply Z.bits_inj'. intros n Hn. rewrite Z.lor_spec. destruct (Z.eq_dec n 0) as [->|Hne].
    - by rewrite Z.mod_pow2_bits_low, HP by lia.
    - rewrite (Z.bits_above_log2 1) by (cbn; lia). apply orb_false_r. }
  assert (Hx : q - 2147483648 + e mod 4096 = Z.lor (q - 2147483648) (e mod 4096)) by (rewrite lor_page; zdm).
  assert (Hlow : forall n, 0 <= n < 12 -> Z.testbit (q - 2147483648 + e mod 4096) n = Z.testbit e n).
  { intros n Hn. rewrite <- (Z.mod_pow2_bits_low _ 12) by lia. rewrite <- (Z.mod_pow2_bits_low e 12) by lia. f_equal.
    change (2 ^ 12) with 4096. zdm. }
  split; [exact Hl|]. split_and!.
  - unfold page_of, P2V, KERNBASE. rewrite PTE_ADDR_eq by zdm. rewrite u32_small; zdm.
  - rewrite present_bit. by rewrite Hlow by lia.
  - rewrite !PTE_FLAGS_eq by zdm. zdm.
  - by rewrite Hlow by lia.
Qed.

Section Copy.
Context (s0 : kmem) (l0 : list Z) (d0 : Z) (T0 : Z -> Z) (F : Z -> Prop) (A0 : aspace s0 l0 d0 T0 F).

Abbreviation G0 := (others s0 d0 T0 F).

(** The copy given up, with whatever was made of it. *)
Record copy_fails (s : kmem) (l : list Z) (d : Z) (T : Z -> Z) : Prop := {
  cf_aspace : aspace s l d T G0;
  cf_keeps : forall q, page_ok q -> q ∉ l0 -> same_page (kbytes s0) (kbytes s) q;
  cf_pages : forall p, p ∈ l0 <-> p ∈ l \/ owned (kbytes s) d T p
}.

(** The copied address space in a later state. *)
Lemma parent_kept s l d T :
  kmem_inv kend s l -> (forall q, page_ok q -> q ∉ l0 -> same_page (kbytes s0) (kbytes s) q) ->
  (forall p, p ∈ l0 <-> p ∈ l \/ owned (kbytes s) d T p) ->
  aspace s l d0 T0 F /\ same_entries (kbytes s0) (kbytes s) T0 T0.
Proof.
  intros I K HP. apply (aspace_frame s0 l0); [done|done|intros p Hp; apply HP; by left|].
  intros q Hq. destruct (owned_page_ok kend _ _ _ _ _ _ A0 Hq) as (? & ? & _). by apply K.
Qed.

(** The new page p is filled and mapped as page k. *)
Lemma copying_step s p l d T k s1 s2 l2 T2 (e := pte_of (kbytes s0) T0 k) :
  copying s0 l0 d0 T0 F k s (p :: l) d T -> 0 <= k < 524288 -> present e = true -> page_ok p ->
  only_page (kbytes s) (kbytes s1) p -> same_entries (kbytes s) (kbytes s1) T T -> unused s1 l d T G0 p ->
  (forall o, 0 <= o < 4096 -> kbytes s1 (p + o) = kbytes s0 (page_of e + o)) ->
  aspace s2 l2 d T2 G0 -> entries_are (kbytes s2) T2 (fun w => if w =? k then p - KERNBASE + Z.lor (e mod 4096) 1 else pte_of (kbytes s1) T w) ->
  keeps s1 s2 l d T -> takes l l2 T T2 -> copying s0 l0 d0 T0 F (k + 1) s2 l2 d T2.
Proof.
  intros C Hk HP Hp Ho E1 U Hc A2 E2 K2 G2. destruct C as [A K HL Hd Hr HK].
  assert (He : 0 <= e < 4294967296) by (apply (pte_range kend s0 l0 d0 T0 F); [done|lia]).
  destruct (copied_entry p e Hp He HP) as (El & Ep & HPe & _). rewrite El in E2.
  assert (E2' : entries_are (kbytes s2) T2 (fun w => if w =? k then p - KERNBASE + e mod 4096 else pte_of (kbytes s) T w)).
  { intros w Hw. rewrite (E2 w Hw). destruct (w =? k); [done|]. by apply E1. }
  assert (HL2 : forall q, q ∈ l0 <-> q ∈ l2 \/ owned (kbytes s2) d T2 q).
  { intros q. rewrite HL. apply (owned_mapped s s2 p l l2 d T T2 k (p - KERNBASE + e mod 4096)); try done. apply Hr. lia. }
  constructor; [done| |done| | |].
  - intros q Hq Hql x Hx. assert (Hqn : ~ (q ∈ p :: l \/ owned (kbytes s) d T q)) by (by rewrite <- HL).
    unfold owned in Hqn. rewrite elem_of_cons in Hqn. rewrite (K2 q) by tauto. rewrite Ho; [by apply (K q)|].
    apply (page_disjoint q p); [apply Hq|apply Hp|tauto|done].
  - intros w Hw. destruct (Z.eq_dec w k) as [->|Hne].
    + split; [done|]. exists p. rewrite E2' by lia. rewrite Z.eqb_refl. split; [done|]. split; [done|]. intros o Hoo.
      destruct U as (_ & ? & _ & ? & ? & _). rewrite (K2 p) by (done || lia). by apply Hc.
    + destruct (Hd w ltac:(lia)) as (HPw & q & Hq & Eq & Hco). split; [done|]. exists q. rewrite E2' by lia. destruct (Z.eqb_spec w k); [lia|].
      split; [done|]. split; [done|]. intros o Hoo. rewrite <- Hco by done.
      assert (Hew : 0 <= pte_of (kbytes s0) T0 w < 4294967296) by (apply (pte_range kend s0 l0 d0 T0 F); [done|lia]).
      destruct (copied_entry q _ Hq Hew HPw) as (_ & Epw & HPq & _). rewrite <- Eq in Epw, HPq.
      destruct (as_user _ _ _ _ _ _ A w ltac:(lia) HPq) as (_ & Hnl & _ & Hnd & Hnt).
      rewrite Epw in Hnl, Hnd, Hnt. apply not_elem_of_cons in Hnl as [Hqp Hql]. rewrite (K2 q) by (done || lia). apply Ho.
      apply (page_disjoint q p); [apply Hq|apply Hp|done|lia].
  - intros w Hw. rewrite E2' by lia. destruct (Z.eqb_spec w k); [lia|]. apply Hr. lia.
  - intros w Hw. rewrite E2' by lia. destruct (Z.eqb_spec w k); [lia|]. by apply HK.
Qed.

Lemma wp_copy_page k s l d T (Q : option unit -> kmem -> Prop) :
  copying s0 l0 d0 T0 F k s l d T -> 0 <= k < 524288 -> present (pte_of (kbytes s0) T0 k) = true ->
  (forall s' l' T', copy_fails s' l' d T' -> exhausted l0 k -> Q (Some tt) s') ->
  (forall s' l' T', copying s0 l0 d0 T0 F (k + 1) s' l' d T' -> Q None s') ->
  wp (copy_page kend d0 d (k * PGSIZE)) s Q.
Proof.
  intros C Hk HP Hbad HQ. pose proof C as [A K HL Hd Hr HK]. destruct (parent_kept s l d T) as [Ap Ep]; [apply A|done|done|].
  unfold copy_page, PGSIZE at 1 2 3. replace (k * 4096) with (4096 * k + 0) by lia.
  apply wp_bind, (wp_walk_find _ kend_range s l d0 T0 F); [done|lia|lia|].
  assert (HT : T0 (k / 1024) <> 0) by (intros E; unfold pte_of in HP; by rewrite E in HP).
  pose proof (table_range _ kend_range _ _ _ _ _ k Ap ltac:(lia) HT). destruct (page_num_range k ltac:(lia)) as [Hi _].
  destruct (as_tab _ _ _ _ _ _ Ap _ Hi HT) as (_ & Htp & _). pose proof (page_range _ kend_range _ Htp).
  destruct (Z.eqb_spec (T0 (k / 1024)) 0); [done|]. replace (pte_addr T0 k =? 0) with false by lia.
  apply wp_bind, wp_zoom, wp_gets. replace (set_kbytes (kbytes s) s) with s by (by destruct s).
  assert (Ee : ld32 (kbytes s) (pte_addr T0 k) = pte_of (kbytes s0) T0 k).
  { rewrite <- Ep by lia. unfold pte_of. by destruct (Z.eqb_spec (T0 (k / 1024)) 0). }
  rewrite Ee. set (e := pte_of (kbytes s0) T0 k) in *. assert (He : 0 <= e < 4294967296) by (apply (pte_range kend s0 l0 d0 T0 F); [done|lia]).
  fold (present e). rewrite HP. cbn [negb]. fold (page_of e).
  destruct (as_user _ _ _ _ _ _ A0 k Hk HP) as (Hsrc & Hsl & _). fold e in Hsrc, Hsl. pose proof (page_range _ kend_range _ Hsrc) as Hsr.
  apply wp_bind, (wp_kalloc _ kend_range s l); [apply A|]. destruct l as [|p l].
  { cbn [Z.eqb]. apply wp_ret, (Hbad s [] T); [done|]. exists d, (kbytes s), T, d. split; [|done]. intros q Hq. right. apply HL in Hq as [Hq|Hq]; [by apply elem_of_nil in Hq|done]. }
  intros Hp Hpl I1. pose proof (page_range _ kend_range p Hp) as Hpr. replace (p =? 0) with false by lia.
  apply wp_bind, wp_zoom. cbn [kbytes set_freelist]. apply wp_memmove; [lia..|apply A|]. intros m1 Hb1 Hm1.
  assert (Ho1 : only_page (kbytes s) m1 p).
  { intros x Hx. rewrite Hm1. destruct (within p 4096 x) eqn:E; [apply within_true in E; lia|done]. }
  destruct (aspace_fill kend kend_range s p l d T G0 _ m1 A I1 Hpl Hb1 Ho1) as (A1 & U1 & E1). set (s1 := set_kbytes m1 _) in *.
  apply wp_bind. rewrite PTE_FLAGS_eq by done. replace (4096 * k + 0) with (4096 * k) by lia.
  apply (wp_map_user kend kend_range s1 l d T G0 k p); [done|lia|rewrite E1 by lia; apply Hr; lia|done|zdm| |].
  - intros s2 T2 A2 E2 K2 G2. cbn [Z.ltb Z.compare]. apply wp_bind.
    pose proof (unused_grows kend s1 s2 l [] d T T2 G0 p U1 (tk_grows _ _ _ _ G2) E2) as U2.
    apply (wp_kfree_unused kend kend_range s2 [] d T2 G0 p); [done|done|]. intros s3 A3 E3 O3.
    apply wp_ret. assert (HL3 : forall q, q ∈ l0 <-> q ∈ [p] \/ owned (kbytes s3) d T2 q).
    { assert (Hx : same_entries (kbytes s) (kbytes s3) T T2) by (intros w Hw; rewrite E3, E2, E1 by done; done).
      intros q. rewrite HL, elem_of_cons, list_elem_of_singleton. pose proof (owned_same s s3 l [] d T T2 G2 Hx q) as Hq.
      assert (q ∉ []) by apply not_elem_of_nil. tauto. }
    apply (Hbad s3 [p] T2); [|exists d, (kbytes s3), T2, p; split; [intros q Hq; apply HL3 in Hq as [Hq|Hq]; [left; by apply list_elem_of_singleton|by right]|intros w Hw; rewrite E3, E2, E1 by lia; by apply Hr]].
    constructor; [done| |done]. intros q Hq Hql x Hx. assert (Hqn : ~ (q ∈ p :: l \/ owned (kbytes s) d T q)) by (by rewrite <- HL).
    unfold owned in Hqn. rewrite elem_of_cons in Hqn.
    assert (Hqp : ~ (p <= x < p + 4096)) by (apply (page_disjoint q p); [apply Hq|apply Hp|tauto|done]).
    rewrite O3 by done. rewrite (K2 q) by tauto. cbn. rewrite Ho1 by done. by apply (K q).
  - intros s2 l2 T2 A2 E2 K2 G2. cbn [Z.ltb Z.compare]. apply wp_ret, (HQ s2 l2 T2).
    apply (copying_step s p l d T k s1); try done. intros o Hoo. cbn. rewrite Hm1. rewrite (proj2 (within_true p 4096 (p + o))) by lia.
    replace (page_of e + (p + o - p)) with (page_of e + o) by lia. fold e. apply (K (page_of e)); [done|done|]. unfold e. lia.
Qed.

Lemma wp_copyuvm sz (n := (sz + 4095) / 4096) (Q : Z -> kmem -> Prop) :
  0 <= sz <= KERNBASE -> (forall w, 0 <= w < n -> present (pte_of (kbytes s0) T0 w) = true) ->
  (forall s' l', given_back s0 l0 s' l' -> exhausted l0 n -> Q 0 s') ->
  (forall s' l' d T, copying s0 l0 d0 T0 F n s' l' d T -> Q d s') ->
  wp (copyuvm kend kdata d0 sz) s0 Q.
Proof.
  intros Hsz Hpr Hbad HQ. unfold copyuvm, KERNBASE in *. assert (Hn : 0 <= n <= 524288) by (unfold n; zdm).
  apply wp_bind, (wp_setupkvm s0 l0 G0); [apply A0| | |].
  - intros p Hp [HF|Ho]; [by apply (as_free _ _ _ _ _ _ A0) in Hp|]. by destruct (owned_page_ok kend _ _ _ _ _ _ A0 Ho) as (_ & ? & _).
  - intros s' l' B HE. cbn [Z.eqb]. apply wp_ret, (Hbad s' l'); [done|]. eapply exhausted_mono; [done|lia].
  - intros s l d T [A Hu Hke K HL]. destruct (as_dir _ _ _ _ _ _ A) as (Hd & _). pose proof (page_range _ kend_range d Hd). replace (d =? 0) with false by lia.
    assert (C0 : copying s0 l0 d0 T0 F 0 s l d T).
    { constructor; try done; [lia| |intros w Hw; apply Hke; lia]. intros w Hw. by rewrite Hu. }
    replace (Z.to_nat _) with (Z.to_nat n) by (unfold n, PGSIZE; do 2 f_equal; lia).
    apply wp_bind, (wp_search (fun k s' => 0 <= k <= n /\ exists l' T', copying s0 l0 d0 T0 F k s' l' d T')).
    + split; [lia|]. by exists l, T.
    + intros k s' Hk (_ & l' & T' & C). apply (wp_copy_page k s' l' d T'); [done|lia|apply Hpr; lia| |].
      * intros s2 l2 T2 [A2 K2 HL2] HE. apply wp_bind, (wp_freevm kend kend_range s2 l2 d T2 G0); [done|]. intros s3 l3 I3 Hl3 K3.
        apply wp_ret, (Hbad s3 l3); [|eapply exhausted_mono; [done|lia]]. constructor; [done|intros p; by rewrite (Hl3 p), HL2|].
        intros q Hq Hql x Hx. rewrite (K3 q); [by apply (K2 q)|done| |done]. intros Ho. apply Hql, HL2. by right.
      * intros s2 l2 T2 C2. split; [lia|]. by exists l2, T2.
    + intros s' (_ & l' & T' & C). replace (0 + Z.of_nat (Z.to_nat n)) with n in C by lia. apply wp_ret. by apply (HQ s' l' d T').
Qed.

(** The copy reads as the original did, up to the size copied, and its pages
    have the flags they had. *)
Lemma copying_user n s l d T : copying s0 l0 d0 T0 F n s l d T -> 0 <= n <= 524288 ->
  forall va, 0 <= va < KERNBASE -> user_byte (kbytes s) d va = (if va <? 4096 * n then user_byte (kbytes s0) d0 va else None) /\
    (va < 4096 * n -> PTE_FLAGS (mmu_entry (kbytes s) d va) = PTE_FLAGS (mmu_entry (kbytes s0) d0 va)).
Proof.
  unfold KERNBASE. intros [A K HL Hd Hr _] Hn va Hva. rewrite (user_byte_pte kend kend_range s l d T G0), (user_byte_pte kend kend_range s0 l0 d0 T0 F) by (done || lia).
  rewrite (mmu_entry_pte kend kend_range s l d T G0), (mmu_entry_pte kend kend_range s0 l0 d0 T0 F) by (done || lia).
  set (w := va / 4096). assert (Hw : 0 <= w < 524288) by (unfold w; zdm). destruct (Z.ltb_spec va (4096 * n)) as [Hlt|Hge].
  - destruct (Hd w ltac:(unfold w; zdm)) as (HP & q & Hq & Eq & Hc).
    assert (He : 0 <= pte_of (kbytes s0) T0 w < 4294967296) by (apply (pte_range kend s0 l0 d0 T0 F); [done|lia]).
    destruct (copied_entry q _ Hq He HP) as (_ & Ep & HPq & Hfl & Hb2). rewrite <- Eq in Ep, HPq, Hb2, Hfl. rewrite present_bit in HP, HPq.
    split; [|done]. unfold ubyte. rewrite HP, HPq, Hb2, Ep. rewrite Hc by (unfold w; zdm). done.
  - split; [|lia]. apply ubyte_absent, Hr. unfold w in *. zdm.
Qed.
End Copy.
End Fork.

(** Each line of kmap is found in the entries. *)
Lemma kmap_ok_range kl : forall b k va, kmap_ok b kl -> 0 <= b -> k ∈ kl -> virt k <= va < virt k + u32 (phys_end k - phys_start k) ->
  4096 * b <= va < 4294967296.
Proof.
  induction kl as [|k' kl IH]; intros b k va Hk Hb Hin Hva; [by apply not_elem_of_nil in Hin|].
  cbn in Hk. destruct Hk as (Ev & En & Hbv & Hn & Hlim & _ & _ & _ & _ & Hk). apply elem_of_cons in Hin as [->|Hin]; [lia|].
  specialize (IH _ k va Hk ltac:(lia) Hin Hva). lia.
Qed.

Lemma kentries_hit kl : forall b f k va, kmap_ok b kl -> 0 <= b -> k ∈ kl -> virt k <= va < virt k + u32 (phys_end k - phys_start k) ->
  kentries kl f (va / 4096) = phys_start k + (va - va mod 4096 - virt k) + Z.lor (kperm k) 1.
Proof.
  induction kl as [|k' kl IH]; intros b f k va Hk Hb Hin Hva; [by apply not_elem_of_nil in Hin|].
  cbn in Hk. destruct Hk as (Ev & En & Hbv & Hn & Hlim & _ & _ & _ & _ & Hk). cbn [kentries]. apply elem_of_cons in Hin as [->|Hin].
  - rewrite (kentries_below kl _ _ _ Hk) by zdm. unfold mapped.
    set (v := virt k' / 4096) in *. set (n := u32 _ / 4096) in *. rewrite Ev, En in *. clearbody v n.
    replace (_ && _) with true; [zdm|]. symmetry. apply andb_true_iff. rewrite Z.leb_le, Z.ltb_lt. zdm.
  - by apply (IH (virt k' / 4096 + u32 (phys_end k' - phys_start k') / 4096)); [|lia| |].
Qed.

(** ** Theorems *)

(** The layout of the kernel's image that the linker script gives. *)
Definition kernel_layout (kend kdata : Z) : Prop :=
  KERNBASE < kend /\ KERNLINK < kdata < KERNBASE + PHYSTOP /\ kdata mod PGSIZE = 0.

(** Every address of each line of kmap is mapped to its physical page with that
    line's permissions. *)
Definition maps_kernel (kdata : Z) (m : mem) (d : Z) : Prop :=
  forall k va, k ∈ kmap kdata -> virt k <= va < virt k + u32 (phys_end k - phys_start k) ->
    mmu_entry m d va = phys_start k + (PGROUNDDOWN va - virt k) + Z.lor (kperm k) PTE_P.

Lemma maps_kernel_intro kend kdata s l d T F : kernel_layout kend kdata -> aspace kend s l d T F ->
  (forall w, 524288 <= w < 1048576 -> pte_of (kbytes s) T w = kentries (kmap kdata) zero_entries w) -> maps_kernel kdata (kbytes s) d.
Proof.
  intros (Hk & Hkd & Hal) A Hke k va Hin Hva. pose proof (kmap_in_order kdata Hkd Hal) as Hord.
  pose proof (kmap_ok_range _ _ _ _ Hord ltac:(lia) Hin Hva). rewrite (mmu_entry_pte kend Hk s l d T F) by (done || lia). rewrite Hke by zdm. rewrite PGROUNDDOWN_eq by lia. by apply (kentries_hit (kmap kdata) 524288).
Qed.

(** What copyuvm() has done when it returns r: the process in directory d, of
    size sz, has been copied, or there were too few free pages l. *)
Definition copied kend kdata s l d T F sz (r : Z) (s' : kmem) (l' : list Z) : Prop :=
  (r = 0 /\ (forall p, p ∈ l' <-> p ∈ l) /\ Z.of_nat (length l) <= 1026 + PGROUNDUP sz / PGSIZE) \/
  (r <> 0 /\ maps_kernel kdata (kbytes s') r /\ (exists T', aspace kend s' l' r T' (others s d T F)) /\
   forall va, 0 <= va < KERNBASE ->
     user_byte (kbytes s') r va = (if va <? PGROUNDUP sz then user_byte (kbytes s) d va else None) /\
     (va < PGROUNDUP sz -> PTE_FLAGS (mmu_entry (kbytes s') r va) = PTE_FLAGS (mmu_entry (kbytes s) d va))).

(** C13: copyuvm(), for a process all of whose pages are mapped, always returns.
    It returns 0, with the same pages free as before, only if there are no more
    than 1026 free pages beyond the number of the process's pages (a
    directory, its tables, and one).  Otherwise it returns a directory that
    maps the kernel, whose user memory reads, byte for byte, as the process's
    does, each page with the flags (PTE_W among them) that it has there, and is
    unmapped above its size.  Either way every entry and every byte of the
    process's own user memory is as it was, and the two share no page. *)
Theorem copyuvm_copies kend kdata s l d T F sz :
  kernel_layout kend kdata -> aspace kend s l d T F -> 0 <= sz <= KERNBASE ->
  (forall va, 0 <= va < sz -> present (mmu_entry (kbytes s) d va) = true) ->
  exists r s' l', copyuvm kend kdata d sz s = Ok r s' /\ copied kend kdata s l d T F sz r s' l' /\
    aspace kend s' l' d T F /\ same_user s s' d /\ forall va, 0 <= va < KERNBASE -> mmu_entry (kbytes s') d va = mmu_entry (kbytes s) d va.
Proof.
  intros HL A Hsz Hpr. pose proof HL as (Hk & Hkd & Hal). unfold KERNBASE in Hsz. set (n := (sz + 4095) / 4096). assert (Hn : 0 <= n <= 524288) by (unfold n; zdm).
  assert (En : PGROUNDUP sz = n * 4096) by (by rewrite PGROUNDUP_eq by lia).
  assert (Hkeep : forall s' l', kmem_inv kend s' l' -> (forall p, p ∈ l' -> p ∈ l) -> (forall q, page_ok kend q -> q ∉ l -> same_page (kbytes s) (kbytes s') q) ->
    aspace kend s' l' d T F /\ same_user s s' d /\ forall va, 0 <= va < KERNBASE -> mmu_entry (kbytes s') d va = mmu_entry (kbytes s) d va).
  { intros s' l' I Hl K. destruct (aspace_frame kend Hk s l d T F s' l') as [A' E']; [done|done|done| |].
    - intros q Hq. destruct (owned_page_ok kend _ _ _ _ _ _ A Hq) as (? & ? & _). by apply K.
    - split; [done|]. split; [apply (same_user_intro kend Hk s l d T F s' l' T F); [done|done|intros q ? ? ? ?; by apply K|]; intros w Hw; left; apply E'; lia|].
      unfold KERNBASE. intros va Hva. rewrite (mmu_entry_pte kend Hk s' l' d T F), (mmu_entry_pte kend Hk s l d T F) by (done || lia). apply E'. zdm. }
  match goal with |- exists r s' l', _ = Ok r s' /\ @?P r s' l' => destruct (wp_run (copyuvm kend kdata d sz) s (fun r s' => exists l', P r s' l')) as (r & s' & E & l' & H); [|by exists r, s', l'] end.
  apply (wp_copyuvm kend kdata Hk Hkd Hal s l d T F A sz); [done| | |].
  - fold n. intros w Hw. specialize (Hpr (4096 * w) ltac:(unfold n in Hw; zdm)).
    rewrite (mmu_entry_pte kend Hk s l d T F) in Hpr by (done || lia). by replace (4096 * w / 4096) with w in Hpr by zdm.
  - fold n. intros s' l' [I Hl K] HE. apply exhausted_length in HE; [|apply A|lia]. exists l'. split; [left|apply Hkeep; [done|intros p; apply Hl|done]].
    split; [done|]. split; [done|]. rewrite En. unfold PGSIZE. by rewrite Z.div_mul by lia.
  - fold n. intros s' l' d' T' C. pose proof C as [A' K' HL' _ _ HK']. exists l'. split; [right|apply Hkeep; [apply A'|intros p Hp; apply HL'; by left|done]].
    destruct (as_dir _ _ _ _ _ _ A') as (Hd & _). split; [by apply (page_pos kend)|]. split; [by apply (maps_kernel_intro kend kdata s' l' d' T' (others s d T F))|]. split; [by exists T'|].
    intros va Hva. rewrite En, (Z.mul_comm n). by apply (copying_user kend kdata Hk s l d T F A n s' l' d' T' C Hn va Hva).
Qed.

(** setupkvm() either fails with the same pages free as before, or returns
    a directory in which no user address is mapped and every address of each
    line of kmap is mapped to its physical page with that line's permissions. *)
Theorem setupkvm_maps_kernel kend kdata s l F :
  kernel_layout kend kdata -> kmem_inv kend s l -> (forall p, p ∈ l -> ~ F p) ->
  exists r s' l', setupkvm kend kdata s = Ok r s' /\
    (r = 0 /\ given_back kend s l s' l' \/
     exists T, aspace kend s' l' r T F /\ (forall va, 0 <= va < KERNBASE -> user_byte (kbytes s') r va = None) /\ maps_kernel kdata (kbytes s') r).
Proof.
  intros HL I HF. pose proof HL as (Hk & Hkd & Hal).
  destruct (wp_run (setupkvm kend kdata) s (fun r s' => exists l', (r = 0 /\ given_back kend s l s' l') \/ exists T, fresh_space kend kdata s l F s' l' r T))
    as (r & s' & E & l' & H).
  - apply (wp_setupkvm kend kdata Hk Hkd Hal s l F); [done|done| |].
    + intros s' l' B _. exists l'. by left.
    + intros s' l' d T B. exists l'. right. by exists T.
  - exists r, s', l'. split; [done|]. destruct H as [H|(T & [A Hu Hke _ _])]; [by left|right]. exists T. split; [done|]. split.
    + unfold KERNBASE. intros va Hva. rewrite (user_byte_pte kend Hk s' l' r T F) by (done || lia). apply ubyte_absent. by rewrite Hu by zdm.
    + apply (maps_kernel_intro kend kdata s' l' r T F); [done|done|]. intros w Hw. apply Hke. lia.
Qed.
