(* ===== verification/VmCopy.v ===== *)
(** copyout(), clearpteu() and the theorem on deallocuvm(), with a small
    address space on which the theorems of virtual memory are run. *)

From Stdlib Require Import ZArith Lia.
From stdpp Require Import base gmap strings numbers list.
From S2P Require Import Prelude Kstring Mem Kalloc Vm VmSpec VmMap VmUser VmKernel VmFork.

Open Scope Z_scope.
Open Scope kern_scope.

Lemma has_U e : has e PTE_U = Z.testbit e 2.
Proof.
  unfold has, PTE_U. change 0x004 with (2 ^ 2).
  assert (E : Z.land e (2 ^ 2) = if Z.testbit e 2 then 4 else 0).
  { apply Z.bits_inj'. intros n Hn. rewrite Z.land_spec. destruct (Z.eq_dec n 2) as [->|Hne].
    - destruct (Z.testbit e 2); done.
    - rewrite Z.pow2_bits_false, andb_false_r by lia. destruct (Z.testbit e 2); [|by rewrite Z.bits_0].
      change 4 with (2 ^ 2). by rewrite Z.pow2_bits_false by lia. }
  rewrite E. by destruct (Z.testbit e 2).
Qed.

Section Copyout.
Context (kend : Z) (kend_range : KERNBASE < kend).

Abbreviation aspace := (aspace kend).

(** uva2ka() of a page that has a page table. *)
Lemma wp_uva2ka s l d T F v (Q : Z -> kmem -> Prop) (e := pte_of (kbytes s) T v) :
  aspace s l d T F -> 0 <= v < 1048576 -> T (v / 1024) <> 0 ->
  Q (if Z.testbit e 0 && Z.testbit e 2 then page_of e else 0) s -> wp (uva2ka d (4096 * v)) s Q.
Proof.
  intros A Hv HT HQ. unfold uva2ka. replace (4096 * v) with (4096 * v + 0) by lia. apply wp_bind, (wp_walk_find _ kend_range s l d T F); [done|done|lia|].
  pose proof (table_range _ kend_range _ _ _ _ _ v A Hv HT). destruct (page_num_range v Hv) as [Hi _].
  destruct (as_tab _ _ _ _ _ _ A _ Hi HT) as (_ & Htp & _). pose proof (page_range _ kend_range _ Htp).
  destruct (Z.eqb_spec (T (v / 1024)) 0); [done|]. apply wp_bind, wp_require; [apply negb_true_iff, Z.eqb_neq; lia|].
  apply wp_bind, wp_zoom, wp_gets. replace (set_kbytes (kbytes s) s) with s by (by destruct s).
  replace (ld32 (kbytes s) (pte_addr T v)) with e by (unfold e, pte_of; by destruct (Z.eqb_spec (T (v / 1024)) 0)).
  fold (present e). rewrite present_bit, has_U. fold (page_of e). destruct (Z.testbit e 0), (Z.testbit e 2); exact HQ.
Qed.

(** A user page that the process may use, and where the kernel finds it. *)
Definition user_page (m : mem) (T : Z -> Z) (v p : Z) : Prop :=
  Z.testbit (pte_of m T v) 0 && Z.testbit (pte_of m T v) 2 = true /\ page_of (pte_of m T v) = p.

(** Bytes written into one user page. *)
Lemma write_user s l d T F w p off n src m' :
  aspace s l d T F -> 0 <= w < 524288 -> user_page (kbytes s) T w p -> 0 <= off -> 0 <= n -> off + n <= 4096 -> bytes m' ->
  (forall x, m' x = if within (p + off) n x then src (x - (p + off)) else kbytes s x) ->
  let s' := set_kbytes m' s in
  aspace s' l d T F /\ same_entries (kbytes s) (kbytes s') T T /\
  (forall va, 0 <= va < KERNBASE -> user_byte (kbytes s') d va =
     if within (4096 * w + off) n va then Some (src (va - (4096 * w + off))) else user_byte (kbytes s) d va) /\
  (forall x, ~ (p <= x < p + 4096) -> m' x = kbytes s x).
Proof.
  unfold KERNBASE. intros A Hw [HU Ep] Ho Hn Hlim Hb Hm. cbn zeta. assert (HP : present (pte_of (kbytes s) T w) = true).
  { rewrite present_bit. by apply andb_true_iff in HU as [-> _]. }
  destruct (as_user _ _ _ _ _ _ A w Hw HP) as (Hp & Hl & _ & Hd & Ht). rewrite Ep in Hp, Hl, Hd, Ht.
  assert (Honly : only_page (kbytes s) m' p).
  { intros x Hx. rewrite Hm. destruct (within (p + off) n x) eqn:E; [apply within_true in E; lia|done]. }
  destruct (aspace_write kend kend_range s l d T F p m' A Hp Hl Hd Ht Hb Honly) as [A' E']. split; [done|]. split; [done|]. split; [|exact Honly].
  intros va Hva. rewrite (user_byte_pte kend kend_range _ l d T F va A') by lia. rewrite (user_byte_pte kend kend_range s l d T F) by (done || lia).
  cbn [kbytes set_kbytes]. rewrite E' by zdm. unfold ubyte. destruct (Z.eq_dec (va / 4096) w) as [Ew|Ew].
  - rewrite Ew, HU, Ep, Hm. replace (within (p + off) n (p + va mod 4096)) with (within (4096 * w + off) n va)
      by (unfold within; apply Bool.eq_iff_eq_true; rewrite !andb_true_iff, !Z.leb_le, !Z.ltb_lt; zdm).
    destruct (within (4096 * w + off) n va); [|done]. do 2 f_equal. zdm.
  - replace (within (4096 * w + off) n va) with false by (symmetry; apply within_false; zdm).
    destruct (Z.testbit (pte_of (kbytes s) T (va / 4096)) 0) eqn:HP2; [|done]. cbn [andb]. destruct (Z.testbit (pte_of (kbytes s) T (va / 4096)) 2); [|done]. f_equal.
    rewrite <- present_bit in HP2. destruct (as_user _ _ _ _ _ _ A (va / 4096) ltac:(zdm) HP2) as (Hp2 & _).
    apply Honly. apply (page_disjoint (page_of (pte_of (kbytes s) T (va / 4096))) p); [apply Hp2|apply Hp| |zdm].
    intros E. apply Ew. apply (as_uinj _ _ _ _ _ _ A); try done; [zdm|congruence].
Qed.

(** The kernel buffer [buf, buf + len) is outside the pages of the process. *)
Definition outside_user (m : mem) (T : Z -> Z) (buf len : Z) : Prop :=
  forall x v, buf <= x < buf + len -> 0 <= v < 524288 -> present (pte_of m T v) = true ->
  ~ (page_of (pte_of m T v) <= x < page_of (pte_of m T v) + 4096).

Lemma user_page_of s l d T F va : aspace s l d T F -> 0 <= va < KERNBASE -> user_byte (kbytes s) d va <> None ->
  T (va / 4096 / 1024) <> 0 /\ exists p, user_page (kbytes s) T (va / 4096) p /\ page_ok kend p.
Proof.
  unfold KERNBASE. intros A Hva Hm. rewrite (user_byte_pte kend kend_range s l d T F) in Hm by (done || lia). unfold ubyte in Hm.
  destruct (Z.testbit _ 0 && Z.testbit _ 2) eqn:HU; [|done]. split.
  - intros E. unfold pte_of in HU. rewrite E in HU. done.
  - exists (page_of (pte_of (kbytes s) T (va / 4096))). split; [by split|]. apply (as_user _ _ _ _ _ _ A); [zdm|].
    rewrite present_bit. by apply andb_true_iff in HU as [-> _].
Qed.

Lemma wp_copyout_loop d l T F fuel : forall s va buf len (Q : Z -> kmem -> Prop),
  aspace s l d T F -> 0 <= va -> 0 <= len -> va + len <= KERNBASE -> 0 <= buf -> buf + len < 4294967296 ->
  (forall a, va <= a < va + len -> user_byte (kbytes s) d a <> None) -> outside_user (kbytes s) T buf len ->
  (va mod 4096 + len + 4095) / 4096 < Z.of_nat fuel -> (0 < fuel)%nat ->
  (forall s', aspace s' l d T F -> (forall a, 0 <= a < KERNBASE -> user_byte (kbytes s') d a =
     if within va len a then Some (kbytes s (buf + (a - va))) else user_byte (kbytes s) d a) -> Q 0 s') ->
  wp (copyout_loop fuel d va buf len) s Q.
Proof.
  unfold KERNBASE. induction fuel as [|fuel IH]; intros s va buf len Q A Hva Hlen Hlim Hbuf Hbl Hm Hout Hf Hf0 HQ; [lia|]. cbn [copyout_loop].
  destruct (Z.eq_dec len 0) as [->|Hl0].
  { replace (0 >? 0) with false by reflexivity. apply wp_ret, HQ; [done|]. intros a Ha. by rewrite within_nil. }
  replace (len >? 0) with true by lia. set (w := va / 4096). set (off := va mod 4096).
  assert (Ev : va = 4096 * w + off) by (unfold w, off; zdm). assert (Hoff : 0 <= off < 4096) by (unfold off; zdm). assert (Hw : 0 <= w < 524288) by (unfold w; zdm).
  rewrite PGROUNDDOWN_eq by lia. fold off. replace (va - off) with (4096 * w) by lia. replace (va - 4096 * w) with off by lia.
  destruct (user_page_of s l d T F va A) as (HT & p & HUp & Hp); [unfold KERNBASE; lia|apply Hm; lia|]. fold w in HT, HUp.
  pose proof (page_range _ kend_range p Hp) as Hr.
  apply wp_bind, (wp_uva2ka s l d T F); [done|lia|done|]. destruct HUp as [HU Ep]. rewrite HU, Ep. replace (p =? 0) with false by lia.
  unfold PGSIZE. set (n := if 4096 - off >? len then len else 4096 - off).
  assert (Hn : 0 < n <= len /\ off + n <= 4096 /\ (n = len \/ off + n = 4096)) by (unfold n; destruct (4096 - off >? len) eqn:E; b2p; lia).
  rewrite (u32_small (p + off)), (u32_small (4096 * w + 4096)), (u32_small (buf + n)) by lia.
  apply wp_bind, wp_zoom, wp_memmove; [lia..|apply A|]. intros m1 Hb1 Hm1.
  destruct (write_user s l d T F w p off n (fun i => kbytes s (buf + i)) m1 A Hw (conj HU Ep)) as (A1 & E1 & U1 & O1); [lia..|done|done|].
  set (s1 := set_kbytes m1 s) in *. rewrite <- Ev in U1.
  assert (Hsame : forall x, buf <= x < buf + len -> kbytes s1 x = kbytes s x).
  { intros x Hx. apply O1. rewrite <- Ep. apply Hout; [lia|done|]. rewrite present_bit. by apply andb_true_iff in HU as [-> _]. }
  destruct (Z.eq_dec n len) as [En|En].
  - replace (len - n) with 0 by lia. destruct fuel as [|fuel']; [zdm|]. cbn [copyout_loop]. replace (0 >? 0) with false by reflexivity.
    apply wp_ret, HQ; [done|]. rewrite <- En. exact U1.
  - replace (4096 * w + 4096) with (va + n) by lia. apply (IH s1 (va + n) (buf + n) (len - n)); [done|lia|lia|lia|lia|lia| | |zdm|zdm|].
    + intros a Ha. rewrite U1 by (unfold KERNBASE; lia). destruct (within va n a); [done|]. apply Hm. lia.
    + intros x v Hx Hv. rewrite E1 by lia. apply Hout; [lia|done].
    + intros s2 A2 U2. apply HQ; [done|]. intros a Ha. rewrite U2 by done. destruct (within (va + n) (len - n) a) eqn:Ea.
      * apply within_true in Ea. rewrite (proj2 (within_true va len a)) by lia. rewrite Hsame by lia. do 2 f_equal. lia.
      * apply within_false in Ea. rewrite U1 by done. unfold within.
        replace ((va <=? a) && (a <? va + n)) with ((va <=? a) && (a <? va + len)) by (apply Bool.eq_iff_eq_true; rewrite !andb_true_iff, !Z.leb_le, !Z.ltb_lt; lia). done.
Qed.
End Copyout.

(** ** Theorems *)

(** copyout() to user memory that is mapped for the process writes exactly
    the bytes of the kernel buffer there: the process reads them at va ..
    va + len - 1 and everything else as before. *)
Theorem copyout_writes kend s l d T F va p len :
  KERNBASE < kend -> aspace kend s l d T F -> 0 <= va -> 0 <= len -> va + len <= KERNBASE -> 0 <= p -> p + len < 2 ^ 32 ->
  (forall a, va <= a < va + len -> user_byte (kbytes s) d a <> None) -> outside_user (kbytes s) T p len ->
  exists s', copyout d va p len s = Ok 0 s' /\ aspace kend s' l d T F /\
    forall a, 0 <= a < KERNBASE -> user_byte (kbytes s') d a =
      if within va len a then Some (kbytes s (p + (a - va))) else user_byte (kbytes s) d a.
Proof.
  intros Hk A Hva Hlen Hlim Hp Hpl Hm Hout. unfold KERNBASE in Hlim.
  destruct (wp_run (copyout d va p len) s (fun r s' => r = 0 /\ aspace kend s' l d T F /\
    forall a, 0 <= a < KERNBASE -> user_byte (kbytes s') d a =
      if within va len a then Some (kbytes s (p + (a - va))) else user_byte (kbytes s) d a)) as (r & s' & E & -> & H); [|by exists s'].
  apply (wp_copyout_loop kend Hk d l T F); try done; unfold PGSIZE; zdm.
Qed.

(** uva2ka() of a user address that no page table covers dereferences the
    null pointer that walkpgdir() returns for it; where there is a table it
    returns the page's kernel address exactly when user code may use the page,
    and 0 otherwise. *)
Theorem uva2ka_behaviour kend s l d T F v :
  KERNBASE < kend -> aspace kend s l d T F -> 0 <= v < 2 ^ 20 ->
  uva2ka d (4096 * v) s =
  if T (v / 1024) =? 0 then Undef "*pte of a null pointer"
  else let e := pte_of (kbytes s) T v in
       Ok (if Z.testbit e 0 && Z.testbit e 2 then page_of e else 0) s.
Proof.
  intros Hk A Hv. destruct (Z.eqb_spec (T (v / 1024)) 0) as [E|E].
  - unfold uva2ka. assert (W : wp (walkpgdir d (4096 * v + 0) false) s (fun r s' => r = 0 /\ s' = s)).
    { apply (wp_walk_find kend Hk s l d T F); [done|done|lia|]. by rewrite E. }
    rewrite Z.add_0_r in W. apply wp_run in W as (r & s' & Ew & -> & ->). unfold bind. rewrite Ew. done.
  - cbn zeta. destruct (wp_run (uva2ka d (4096 * v)) s (fun r s' => r = (if Z.testbit (pte_of (kbytes s) T v) 0 && Z.testbit (pte_of (kbytes s) T v) 2
      then page_of (pte_of (kbytes s) T v) else 0) /\ s' = s)) as (r & s' & Er & -> & ->); [|done].
    apply (wp_uva2ka kend Hk s l d T F); done.
Qed.

(** shrinking a process.  deallocuvm() makes every address from
    PGROUNDUP(newsz) to the old end fault, leaves all other user memory as it
    was, and puts the pages that were mapped there, and no others, on the free
    list; the result is the size the process then has. *)
Theorem deallocuvm_shrinks kend s l d T F oldsz newsz :
  KERNBASE < kend -> aspace kend s l d T F -> 0 <= newsz <= oldsz -> oldsz <= KERNBASE ->
  exists s' fr, deallocuvm kend d oldsz newsz s = Ok newsz s' /\ aspace kend s' (fr ++ l) d T F /\
    (forall va, 0 <= va < KERNBASE -> user_byte (kbytes s') d va =
       if (PGROUNDUP newsz <=? va) && (va <? PGROUNDUP oldsz) then None else user_byte (kbytes s) d va) /\
    (forall p, p ∈ fr <-> exists va, PGROUNDUP newsz <= va < PGROUNDUP oldsz /\ present (mmu_entry (kbytes s) d va) = true /\
       page_of (mmu_entry (kbytes s) d va) = p).
Proof.
  intros Hk A Hsz Ho. unfold KERNBASE in Ho. set (e := (oldsz + 4095) / 4096). set (v := (newsz + 4095) / 4096).
  assert (Hve : 0 <= v <= e /\ e <= 524288) by (unfold v, e; zdm).
  destruct (wp_run (deallocuvm kend d oldsz newsz) s (fun r s' => r = newsz /\ exists fr, deallocated kend s l d T F v e s' fr)) as (r & s' & E & -> & fr & D).
  { apply (wp_deallocuvm kend Hk s l d T F); [done|lia|unfold KERNBASE; lia|]. fold v e. intros s' fr D. split; [destruct (newsz >=? oldsz) eqn:Ec; b2p; lia|by exists fr]. }
  exists s', fr. split; [exact E|]. split; [apply D|]. rewrite !PGROUNDUP_eq by lia. fold v e. split.
  - intros va Hva. rewrite (dealloc_user kend Hk s l d T F v e s' fr A D) by (done || lia). unfold KERNBASE in Hva.
    replace ((v * 4096 <=? va) && (va <? e * 4096)) with ((v <=? va / 4096) && (va / 4096 <? e)); [done|].
    apply Bool.eq_iff_eq_true. rewrite !andb_true_iff, !Z.leb_le, !Z.ltb_lt. zdm.
  - intros p. rewrite (de_frees _ _ _ _ _ _ _ _ _ _ D p). split.
    + intros (w & Hw & HP & Ep). exists (4096 * w). split; [lia|]. rewrite (mmu_entry_pte kend Hk s l d T F) by (done || lia).
      by replace (4096 * w / 4096) with w by zdm.
    + intros (va & Hva & HP & Ep). exists (va / 4096). rewrite (mmu_entry_pte kend Hk s l d T F) in HP, Ep by (done || lia). split; [zdm|done].
Qed.
