(* ===== verification/VmDemo.v ===== *)
(** The memory of the first process: from the pages that main() frees to the
    address space that userinit() makes.  And a process with one page of user
    memory, on which the theorems about virtual memory are instantiated. *)

From Stdlib Require Import ZArith Lia.
From stdpp Require Import base gmap strings numbers list.
From S2P Require Import Prelude Kstring Mem Kalloc Vm VmSpec VmMap VmUser VmKernel VmFork VmCopy.

Open Scope Z_scope.
Open Scope kern_scope.

(** ** The first process *)


Section Boot.
Context (kend kdata : Z) (kend_range : KERNBASE < kend).
Context (kdata_range : KERNLINK < kdata < KERNBASE + PHYSTOP) (kdata_aligned : kdata mod 4096 = 0).

Abbreviation aspace := (aspace kend).
Abbreviation page_ok := (page_ok kend).

(** The tables alone do not take so many pages. *)
Lemma tables_length l T : NoDup l -> (forall q, q ∈ l -> is_table T q) -> Z.of_nat (length l) <= 1026.
Proof.
  intros HN HT. rewrite <- (Z.add_0_r 1026). apply exhausted_length; [done|lia|]. exists 0, (fun _ => 0), T, 0. split; [intros p Hp; right; right; left; by apply HT|].
  intros w _. unfold pte_of. by destruct (_ =? 0).
Qed.

(** One page with the program at init, and zeros after it. *)
Lemma wp_inituvm s l d T F init sz (Q : unit -> kmem -> Prop) : aspace s l d T F -> 1027 < Z.of_nat (length l) -> 0 <= sz < 4096 -> 0 <= init -> init + sz <= kend -> present (pte_of (kbytes s) T 0) = false ->
  (forall s' l' T', aspace s' l' d T' F -> accounted s l T d s' l' T' -> (forall w, 1 <= w < 524288 -> pte_of (kbytes s') T' w = pte_of (kbytes s) T w) ->
     (forall va, 0 <= va < KERNBASE -> user_byte (kbytes s') d va = if va <? 4096 then Some (if va <? sz then kbytes s' (init + va) else 0) else user_byte (kbytes s) d va) -> Q tt s') ->
  wp (inituvm d init sz) s Q.
Proof.
  intros A Hlen Hsz Hi Hik HP0 HQ. unfold inituvm. unfold PGSIZE at 1. rewrite Z.geb_leb, (proj2 (Z.leb_gt _ _)) by lia. apply wp_bind, (wp_kalloc _ kend_range s l); [apply A|]. destruct l as [|p l]; [cbn in Hlen; lia|].
  intros Hp Hpl I1. pose proof (page_range _ kend_range p Hp) as Hr. apply wp_bind, wp_zoom. cbn [kbytes set_freelist]. unfold PGSIZE at 1. apply wp_memset; [lia..|apply A|]. intros m1 Hb1 Hm1.
  assert (Ho1 : only_page (kbytes s) m1 p) by (intros x Hx; rewrite Hm1; destruct (within p 4096 x) eqn:E; [apply within_true in E; lia|done]). destruct (aspace_fill kend kend_range s p l d T F _ m1 A I1 Hpl Hb1 Ho1) as (A1 & U1 & E1). set (s1 := set_kbytes m1 _) in *.
  apply wp_bind. change (Z.lor PTE_W PTE_U) with 6. change 0 with (4096 * 0) at 1. apply (wp_map_user kend kend_range s1 l d T F 0 p); [done|lia|by rewrite E1|done|lia| |].
  { intros s2 T2 _ _ _ [_ TK]. exfalso. cbn [length] in Hlen. pose proof (tables_length l T2 (ki_nodup _ _ _ I1)) as HL. enough (Z.of_nat (length l) <= 1026) by lia. apply HL. intros q Hq. destruct (TK q Hq) as [Hn|]; [by apply elem_of_nil in Hn|done]. }
  intros s2 l2 T2 A2 E2 K2 TK2. change (Z.lor 6 1) with 7 in E2. destruct (table_pde kend kend_range p Hp) as [Hbit Ep]. assert (HU : user_page (kbytes s2) T2 0 p) by (unfold user_page; rewrite E2 by lia; done).
  assert (Hkp : kend <= p) by apply Hp. apply wp_bind, wp_zoom, wp_memmove; [lia..|apply A2|]. intros m3 Hb3 Hm3.
  assert (Hm3' : forall x, m3 x = if within (p + 0) sz x then kbytes s2 (init + (x - (p + 0))) else kbytes s2 x) by (intros x; by rewrite Hm3, Z.add_0_r).
  destruct (write_user kend kend_range s2 l2 d T2 F 0 p 0 sz (fun i => kbytes s2 (init + i)) m3 A2 ltac:(lia) HU) as (A3 & E3 & V3 & O3); [lia..|done|done|]. apply wp_ret, (HQ _ l2 T2); [done| | |].
  - intros q. rewrite (owned_entries (kbytes s2) _ d T2 q E3). apply (owned_mapped s s2 p l l2 d T T2 0 (p - KERNBASE + 7)); [lia|done|rewrite present_bit; by apply andb_true_iff in Hbit as [-> _]|done|done|]. intros w Hw. rewrite (E2 w Hw). destruct (w =? 0); [done|by apply E1].
  - intros w Hw. rewrite E3, E2 by lia. rewrite (proj2 (Z.eqb_neq _ _)) by lia. apply E1. lia.
  - intros va Hva. rewrite V3 by done. change (4096 * 0 + 0) with 0. rewrite Z.sub_0_r. destruct (Z.ltb_spec va 4096) as [Hlt|Hge].
    + destruct (Z.ltb_spec va sz).
      * rewrite (proj2 (within_true _ _ _)) by lia. f_equal. cbn [kbytes set_kbytes]. symmetry. apply O3. lia.
      * rewrite (proj2 (within_false _ _ _)) by lia. unfold KERNBASE in Hva. rewrite (user_byte_pte kend kend_range s2 l2 d T2 F) by (done || lia). rewrite Z.div_small, E2, Z.mod_small by lia. cbn [Z.eqb]. unfold ubyte. rewrite Hbit, Ep. f_equal.
        destruct U1 as (_ & ? & _ & ? & ? & _). rewrite (K2 p) by (done || lia). cbn [s1 kbytes set_kbytes]. rewrite Hm1. by rewrite (proj2 (within_true _ _ _)) by lia.
    + rewrite (proj2 (within_false _ _ _)) by lia. unfold KERNBASE in Hva. rewrite (user_byte_pte kend kend_range s2 l2 d T2 F), (user_byte_pte kend kend_range s (p :: l) d T F) by (done || lia). rewrite E2 by zdm. rewrite (proj2 (Z.eqb_neq _ _)) by zdm. rewrite E1 by zdm.
      eapply (ubyte_keeps kend s (p :: l) d T F s2); [done| |zdm|zdm]. intros q Hq [Hqp Hql]%not_elem_of_cons Hqd Hqt x Hx. rewrite (K2 q) by done. apply Ho1. by apply (page_disjoint q p); [apply Hq|apply Hp| |].
Qed.

(** What an address space with one page of user memory leaves of the free pages. *)
Lemma pages_left l s d T l' : NoDup l -> (forall q, q ∈ l -> q ∈ l' \/ owned (kbytes s) d T q) -> (forall w, 1 <= w < 524288 -> present (pte_of (kbytes s) T w) = false) -> Z.of_nat (length l) <= Z.of_nat (length l') + 1027.
Proof.
  intros HN HO HP. assert (HE : exhausted (filter (fun q => q ∉ l') l) 1).
  { exists d, (kbytes s), T, 0. split; [|done]. intros p [Hn Hp]%list_elem_of_filter. destruct (HO p Hp); [done|by right]. }
  apply exhausted_length in HE; [|by apply NoDup_filter|lia]. assert (HI : (length (filter (fun q => q ∈ l') l) <= length l')%nat) by (apply submseteq_length, NoDup_submseteq; [by apply NoDup_filter|]; intros p [? _]%list_elem_of_filter; done).
  assert (HL : forall k : list Z, (length k = length (filter (fun q => q ∈ l') k) + length (filter (fun q => q ∉ l') k))%nat); [|specialize (HL l); lia]. induction k as [|a k IH]; [done|]. rewrite !filter_cons. destruct (decide (a ∈ l')); [rewrite decide_False by auto|rewrite decide_True by auto]; cbn [length]; lia.
Qed.

Lemma pages_freed l : (forall p, p ∈ l <-> p mod 4096 = 0 /\ kend <= p /\ p + 4096 <= P2V PHYSTOP) -> kend <= P2V (4 * 1024 * 1024) -> 56320 <= Z.of_nat (length l).
Proof.
  change (P2V (4 * 1024 * 1024)) with 2151677952. change (P2V PHYSTOP) with 2382364672. intros Hl Hk. set (L := map (fun i => 2151677952 + 4096 * Z.of_nat i) (seq 0 (Z.to_nat 56320))). assert (HL : Z.of_nat (length L) = 56320) by (unfold L; rewrite length_map, length_seq; lia).
  enough (length L <= length l)%nat by lia. apply submseteq_length, NoDup_submseteq.
  - unfold L. apply NoDup_fmap_2; [intros i j; lia|apply NoDup_seq].
  - intros p (i & -> & Hi%elem_of_seq)%list_elem_of_fmap. apply Hl. split; [zdm|lia].
Qed.

(** The pages are freed and the first process gets a directory and a page for
    the program at init (main() also takes a directory for the kernel, and a
    kernel stack). *)
Definition first_memory (init sz : Z) : M kmem Z :=
  kinit1 kend kend (P2V (4 * 1024 * 1024)) ;;;
  kinit2 kend (P2V (4 * 1024 * 1024)) (P2V PHYSTOP) ;;;
  let! d := setupkvm kend kdata in
  if d =? 0 then panic "userinit: out of memory?"
  else
    inituvm d init sz ;;;
    ret d.

Lemma first_memory_made m b init sz : kend <= P2V (4 * 1024 * 1024) -> bytes m -> 0 <= sz < 4096 -> 0 <= init -> init + sz <= kend ->
  exists d s l T, first_memory init sz (mkKmem m 0 b) = Ok d s /\ aspace s l d T (fun _ => False) /\ 55000 <= Z.of_nat (length l) /\
    forall va, 0 <= va < KERNBASE -> user_byte (kbytes s) d va = if va <? 4096 then Some (if va <? sz then kbytes s (init + va) else 0) else None.
Proof.
  intros Hk Hb Hsz Hi Hik. unfold first_memory. destruct (kinit_frees kend m b (P2V (4 * 1024 * 1024)) (P2V PHYSTOP)) as (s0 & l0 & E0 & I0 & _ & Hl0); [done|by vm_compute|reflexivity|reflexivity|done|]. pose proof (pages_freed l0 Hl0 Hk) as Hn.
  assert (W : wp (let! d := setupkvm kend kdata in if d =? 0 then panic "userinit: out of memory?" else inituvm d init sz ;;; ret d) s0 (fun d s => exists l T, aspace s l d T (fun _ => False) /\ 55000 <= Z.of_nat (length l) /\
    forall va, 0 <= va < KERNBASE -> user_byte (kbytes s) d va = if va <? 4096 then Some (if va <? sz then kbytes s (init + va) else 0) else None)).
  { apply wp_bind, (wp_setupkvm kend kdata kend_range kdata_range kdata_aligned s0 l0 (fun _ => False)); [done|by intros p _ []| |].
    { intros s' l' _ HE. apply exhausted_length in HE; [lia|apply I0|lia]. }
    intros s1 l1 d T [A1 U1 _ _ HP1]. pose proof (as_dir _ _ _ _ _ _ A1) as (Hd & _). pose proof (page_range _ kend_range d Hd). rewrite (proj2 (Z.eqb_neq _ _)) by lia.
    assert (L1 : Z.of_nat (length l0) <= Z.of_nat (length l1) + 1027) by (apply (pages_left l0 s1 d T l1); [apply I0|intros q; apply HP1|intros w Hw; by rewrite U1 by lia]).
    apply wp_bind, (wp_inituvm s1 l1 d T (fun _ => False)); [done|lia|done|done|done|by rewrite U1 by lia|]. intros s2 l2 T2 A2 HA E2 V2. apply wp_ret. exists l2, T2. split; [done|]. split.
    - pose proof (pages_left l0 s2 d T2 l2) as L2. enough (Z.of_nat (length l0) <= Z.of_nat (length l2) + 1027) by lia. apply L2; [apply I0|intros q Hq; apply HA, HP1, Hq|intros w Hw; rewrite E2, U1 by lia; done].
    - intros va Hva. rewrite V2 by done. destruct (va <? 4096); [done|]. unfold KERNBASE in Hva. rewrite (user_byte_pte kend kend_range s1 l1 d T (fun _ => False)) by (done || lia). by rewrite U1 by zdm. }
  destruct (wp_run _ _ _ W) as (d & s & E & l & T & H). exists d, s, l, T. split; [|done]. revert E0. unfold bind at 1. destruct (kinit1 _ _ _ _) as [[] s1| | |] eqn:E1; try done. intros E0. unfold bind at 1. rewrite E1. unfold bind at 1. by rewrite E0.
Qed.
End Boot.

(** ** An instance *)

(** The word v at address a. *)
Definition poke (a v : Z) (m : mem) : mem := fun x => if within a 4 x then v / 2 ^ (8 * (x - a)) mod 256 else m x.

Lemma bytes_poke a v m : bytes m -> bytes (poke a v m).
Proof. intros H x. unfold poke. destruct (within a 4 x); [zdm|apply H]. Qed.

Lemma ld32_poke_eq a v m : 0 <= a -> a + 4 <= 4294967296 -> 0 <= v < 4294967296 -> ld32 (poke a v m) a = v.
Proof.
  intros H0 H1 Hv. unfold ld32. rewrite (u32_small a), (u32_small (a + 1)), (u32_small (a + 2)), (u32_small (a + 3)) by lia.
  unfold poke. rewrite !(proj2 (within_true a 4 _)) by lia.
  replace (8 * (a - a)) with 0 by lia. replace (8 * (a + 1 - a)) with 8 by lia. replace (8 * (a + 2 - a)) with 16 by lia.
  replace (8 * (a + 3 - a)) with 24 by lia. cbn. zdm.
Qed.

Lemma ld32_poke_ne a b v m : 0 <= b -> b + 4 <= 4294967296 -> a + 4 <= b \/ b + 4 <= a -> ld32 (poke a v m) b = ld32 m b.
Proof. intros H0 H1 H. apply ld32_ext; [done|done|]. intros x Hx. unfold poke. by rewrite (proj2 (within_false a 4 x)) by lia. Qed.

Definition demo_dir : Z := demo_kend.
Definition demo_table : Z := demo_kend + 4096.
Definition demo_user : Z := demo_kend + 8192.
Definition demo_free : Z := demo_kend + 12288.

(** A directory with one table, one user page, one free page. *)
Definition demo_vm : kmem :=
  mkKmem (poke demo_dir (demo_table - KERNBASE + 7) (poke demo_table (demo_user - KERNBASE + 7) (fun _ => 0))) demo_free true.

Definition demo_tabs : Z -> Z := fun i => if i =? 0 then demo_table else 0.

Lemma demo_page p : p = demo_dir \/ p = demo_table \/ p = demo_user \/ p = demo_free -> page_ok demo_kend p.
Proof. intros [->|[->|[->| ->]]]; (split; [reflexivity|unfold demo_dir, demo_table, demo_user, demo_free, demo_kend, KERNBASE, PHYSTOP; lia]). Qed.

Lemma demo_pte v : 0 <= v < 1048576 -> pte_of (kbytes demo_vm) demo_tabs v = if v =? 0 then demo_user - KERNBASE + 7 else 0.
Proof.
  intros Hv. unfold pte_of, pte_addr, demo_tabs. destruct (Z.eqb_spec (v / 1024) 0) as [E|E].
  - replace (demo_table =? 0) with false by reflexivity. cbn [demo_vm kbytes]. unfold demo_table, demo_user, demo_dir, demo_kend, KERNBASE.
    rewrite ld32_poke_ne by zdm. destruct (Z.eqb_spec v 0) as [->|Hne].
    + change (0 mod 1024) with 0. rewrite Z.mul_0_r, Z.add_0_r. apply ld32_poke_eq; lia.
    + rewrite ld32_poke_ne by zdm. reflexivity.
  - cbn. destruct (Z.eqb_spec v 0) as [->|]; [done|done].
Qed.

Lemma demo_aspace : aspace demo_kend demo_vm [demo_free] demo_dir demo_tabs (fun _ => False).
Proof.
  assert (Hb : bytes (kbytes demo_vm)) by (repeat apply bytes_poke; intros x; lia).
  assert (Ht : forall i, demo_tabs i <> 0 -> i = 0 /\ demo_tabs i = demo_table) by (intros i; unfold demo_tabs; destruct (Z.eqb_spec i 0); done).
  assert (Hp : page_of (demo_user - KERNBASE + 7) = demo_user) by (vm_compute; reflexivity).
  constructor.
  - constructor; [done| |by intros p ->%list_elem_of_singleton; apply demo_page; tauto|apply NoDup_singleton].
    split; [done|]. cbn [demo_vm kbytes chain]. unfold demo_free, demo_table, demo_dir, demo_kend. rewrite !ld32_poke_ne by lia. reflexivity.
  - by intros p _ [].
  - split; [apply demo_page; tauto|]. split; [|tauto]. by intros ?%list_elem_of_singleton.
  - intros i Hi H0. assert (i <> 0) by (by intros ->). cbn [demo_vm kbytes]. unfold demo_table, demo_dir, demo_kend. rewrite !ld32_poke_ne by lia. reflexivity.
  - intros i Hi H. destruct (Ht i H) as [-> ->]. split; [|split; [apply demo_page; tauto|split; [by intros ?%list_elem_of_singleton|split; [tauto|done]]]].
    cbn [demo_vm kbytes]. rewrite Z.mul_0_r, Z.add_0_r. apply ld32_poke_eq; unfold demo_table, demo_dir, demo_kend, KERNBASE; lia.
  - intros i j Hi Hj H E. destruct (Ht i H) as [-> Ei]. rewrite E in H. by destruct (Ht j H) as [-> _].
  - intros v Hv. rewrite demo_pte by lia. destruct (Z.eqb_spec v 0) as [->|]; [|done]. intros _. cbn zeta. rewrite Hp.
    split; [apply demo_page; tauto|]. split; [by intros ?%list_elem_of_singleton|]. split; [tauto|]. split; [done|].
    intros (i & _ & E & H0). rewrite <- E in H0. destruct (Ht i H0) as [_ Ei]. rewrite Ei in E. done.
  - intros v w Hv Hw. rewrite !demo_pte by lia. destruct (Z.eqb_spec v 0), (Z.eqb_spec w 0); try done. congruence.
Qed.

Lemma demo_mapped va : 0 <= va < 4096 -> mmu_entry (kbytes demo_vm) demo_dir va = demo_user - KERNBASE + 7.
Proof.
  intros Hva. assert (Hk : KERNBASE < demo_kend) by reflexivity.
  rewrite (mmu_entry_pte demo_kend Hk _ _ _ _ _ va demo_aspace) by lia. rewrite demo_pte by zdm. by replace (va / 4096) with 0 by zdm.
Qed.

Lemma allocuvm_grows_witness :
  exists r s' l' T', allocuvm demo_kend demo_dir 4096 9000 demo_vm = Ok r s' /\ aspace demo_kend s' l' demo_dir T' (fun _ => False) /\
    (r = 9000 /\ (forall va, 0 <= va < KERNBASE -> user_byte (kbytes s') demo_dir va =
       if (PGROUNDUP 4096 <=? va) && (va <? PGROUNDUP 9000) then Some 0 else user_byte (kbytes demo_vm) demo_dir va) \/
     r = 0 /\ (forall va, 0 <= va < KERNBASE -> user_byte (kbytes s') demo_dir va = user_byte (kbytes demo_vm) demo_dir va)) /\
    accounted demo_vm [demo_free] demo_tabs demo_dir s' l' T' /\
    forall p, page_ok demo_kend p -> False -> same_page (kbytes demo_vm) (kbytes s') p.
Proof.
  apply (allocuvm_grows demo_kend demo_vm [demo_free] demo_dir demo_tabs (fun _ => False) 4096 9000);
    [reflexivity|exact demo_aspace|lia|unfold KERNBASE; lia|].
  change (PGROUNDUP 4096) with 4096. change (PGROUNDUP 9000) with 12288. intros va Hva. assert (Hk : KERNBASE < demo_kend) by reflexivity.
  rewrite (mmu_entry_pte demo_kend Hk _ _ _ _ _ va demo_aspace) by lia. rewrite demo_pte by zdm. by replace (va / 4096 =? 0) with false by (symmetry; apply Z.eqb_neq; zdm).
Defined.

Lemma deallocuvm_shrinks_witness :
  exists s' fr, deallocuvm demo_kend demo_dir 4096 0 demo_vm = Ok 0 s' /\ aspace demo_kend s' (fr ++ [demo_free]) demo_dir demo_tabs (fun _ => False) /\
    (forall va, 0 <= va < KERNBASE -> user_byte (kbytes s') demo_dir va =
       if (PGROUNDUP 0 <=? va) && (va <? PGROUNDUP 4096) then None else user_byte (kbytes demo_vm) demo_dir va) /\
    (forall p, p ∈ fr <-> exists va, PGROUNDUP 0 <= va < PGROUNDUP 4096 /\ present (mmu_entry (kbytes demo_vm) demo_dir va) = true /\
       page_of (mmu_entry (kbytes demo_vm) demo_dir va) = p).
Proof.
  apply (deallocuvm_shrinks demo_kend demo_vm [demo_free] demo_dir demo_tabs (fun _ => False) 4096 0);
    [reflexivity|exact demo_aspace|lia|unfold KERNBASE; lia].
Defined.

Definition demo_kdata : Z := 0x80108000.

Lemma demo_layout : kernel_layout demo_kend demo_kdata.
Proof. split; [reflexivity|]. split; [unfold demo_kdata, KERNLINK, KERNBASE, EXTMEM, PHYSTOP; lia|reflexivity]. Qed.

(** The first process, of one page, on a machine with all its memory free:
    there are pages enough for the copy. *)
Lemma copyuvm_copies_witness : exists d s r s', first_memory demo_kend demo_kdata 0x80100000 44 (mkKmem (fun _ => 0) 0 false) = Ok d s /\
  copyuvm demo_kend demo_kdata d 4096 s = Ok r s' /\ r <> 0 /\
  forall va, 0 <= va < KERNBASE -> user_byte (kbytes s') r va = if va <? PGROUNDUP 4096 then user_byte (kbytes s) d va else None.
Proof.
  destruct (first_memory_made demo_kend demo_kdata (proj1 demo_layout) (proj1 (proj2 demo_layout)) (proj2 (proj2 demo_layout)) (fun _ => 0) false 0x80100000 44) as (d & s & l & T & E & A & Hl & HU);
    [vm_compute; discriminate|intros x; lia|lia|lia|unfold demo_kend; lia|].
  destruct (copyuvm_copies demo_kend demo_kdata s l d T (fun _ => False) 4096) as (r & s' & l' & E' & [(_ & _ & Hx)|(Hr & _ & _ & HC)] & _);
    [exact demo_layout|exact A|unfold KERNBASE; lia| |change (PGROUNDUP 4096 / PGSIZE) with 1 in Hx; lia|].
  - intros va Hva. specialize (HU va ltac:(unfold KERNBASE; lia)). rewrite (proj2 (Z.ltb_lt _ _)) in HU by lia. unfold user_byte in HU. rewrite present_bit. destruct (Z.testbit (mmu_entry (kbytes s) d va) 0); [reflexivity|discriminate HU].
  - exists d, s, r, s'. split; [exact E|]. split; [exact E'|]. split; [exact Hr|]. intros va Hva. exact (proj1 (HC va Hva)).
Defined.

Lemma setupkvm_maps_kernel_witness :
  exists r s' l', setupkvm demo_kend demo_kdata demo_vm = Ok r s' /\
    (r = 0 /\ given_back demo_kend demo_vm [demo_free] s' l' \/
     exists T, aspace demo_kend s' l' r T (fun _ => False) /\ (forall va, 0 <= va < KERNBASE -> user_byte (kbytes s') r va = None) /\ maps_kernel demo_kdata (kbytes s') r).
Proof.
  apply (setupkvm_maps_kernel demo_kend demo_kdata demo_vm [demo_free] (fun _ => False)); [exact demo_layout|apply demo_aspace|by intros p _ []].
Defined.

Lemma copyout_writes_witness :
  exists s', copyout demo_dir 100 demo_free 8 demo_vm = Ok 0 s' /\ aspace demo_kend s' [demo_free] demo_dir demo_tabs (fun _ => False) /\
    forall a, 0 <= a < KERNBASE -> user_byte (kbytes s') demo_dir a =
      if within 100 8 a then Some (kbytes demo_vm (demo_free + (a - 100))) else user_byte (kbytes demo_vm) demo_dir a.
Proof.
  apply (copyout_writes demo_kend demo_vm [demo_free] demo_dir demo_tabs (fun _ => False) 100 demo_free 8);
    [reflexivity|exact demo_aspace|lia|lia|unfold KERNBASE; lia|unfold demo_free, demo_kend; lia|unfold demo_free, demo_kend; lia| |].
  - intros a Ha. unfold user_byte. rewrite demo_mapped by lia. change (Z.testbit _ 0 && _) with true. discriminate.
  - intros x v Hx Hv. rewrite demo_pte by lia. destruct (Z.eqb_spec v 0); [|done]. intros _.
    change (page_of (demo_user - KERNBASE + 7)) with demo_user. unfold demo_user, demo_free in *. lia.
Defined.

Lemma uva2ka_behaviour_witness :
  uva2ka demo_dir (4096 * 1024) demo_vm = Undef "*pte of a null pointer" /\ uva2ka demo_dir (4096 * 0) demo_vm = Ok demo_user demo_vm.
Proof.
  split.
  - exact (uva2ka_behaviour demo_kend demo_vm [demo_free] demo_dir demo_tabs (fun _ => False) 1024 ltac:(reflexivity) demo_aspace ltac:(lia)).
  - rewrite (uva2ka_behaviour demo_kend demo_vm [demo_free] demo_dir demo_tabs (fun _ => False) 0 ltac:(reflexivity) demo_aspace ltac:(lia)).
    rewrite demo_pte by lia. replace (demo_tabs (0 / 1024) =? 0) with false by reflexivity. cbn zeta iota.
    apply (f_equal (fun r => Ok r demo_vm)). vm_compute. reflexivity.
Defined.
