(* ===== verification/Spinlock.v ===== *)
(** Spin locks and the nesting of interrupt disabling (spinlock.c, and
    mycpu() of proc.c).

    The machine has a list of processors; a routine is executed by the
    processor [me].  A lock is a number.  acquire() of a lock that another
    processor holds spins ([Blocked]).  The name and the call stack a lock
    records for debugging are left out. *)

From Stdlib Require Import ZArith Lia.
From stdpp Require Import base gmap strings numbers list.
From S2P Require Import Prelude.

Open Scope Z_scope.
Open Scope kern_scope.

(** struct cpu (what the locks use of it, and proc), with the processor's
    interrupt flag.  [cproc] is the index of the process, -1 for 0. *)
Record cpu := mk_cpu { apicid : Z; ifl : bool; ncli : Z; intena : bool; cproc : Z }.

(** struct spinlock; [lcpu] is -1 for 0. *)
Record spinlock := mk_lock { locked : bool; lcpu : Z }.

Record mach := mk_mach { cpus : list cpu; locks : list spinlock }.

Definition no_cpu : cpu := mk_cpu 0 false 0 false (-1).
Definition the_cpu (i : Z) (s : mach) : cpu := aget no_cpu (cpus s) i.

Definition upd_cpu (i : Z) (f : cpu -> cpu) (s : mach) : mach := mk_mach (aset (cpus s) i (f (the_cpu i s))) (locks s).
Definition the_lock (l : Z) (s : mach) : spinlock := aget (mk_lock false (-1)) (locks s) l.
Definition upd_lock (l : Z) (v : spinlock) (s : mach) : mach := mk_mach (cpus s) (aset (locks s) l v).

Definition set_ifl (b : bool) (c : cpu) : cpu := mk_cpu (apicid c) b (ncli c) (intena c) (cproc c).
Definition set_ncli (n : Z) (c : cpu) : cpu := mk_cpu (apicid c) (ifl c) n (intena c) (cproc c).
Definition set_intena (b : bool) (c : cpu) : cpu := mk_cpu (apicid c) (ifl c) (ncli c) b (cproc c).
Definition set_cproc (p : Z) (c : cpu) : cpu := mk_cpu (apicid c) (ifl c) (ncli c) (intena c) p.

Section Locks.
Variable me : Z.

(** The processor whose apicid is lapicid(). *)
Definition mycpu : M mach Z :=
  let! f := gets (fun s => ifl (the_cpu me s)) in
  if f then panic "mycpu called with interrupts enabled"
  else
    let! id := gets (fun s => apicid (the_cpu me s)) in
    let! n := gets (fun s => length (cpus s)) in
    let! r := search n 0 (fun i =>
      let! a := gets (fun s => apicid (the_cpu i s)) in
      ret (if a =? id then Some i else None)) in
    match r with
    | Some i => ret i
    | None => panic "unknown apicid"
    end.

Definition pushcli : M mach unit :=
  let! eflags := gets (fun s => ifl (the_cpu me s)) in
  modify (upd_cpu me (set_ifl false)) ;;;
  let! c := mycpu in
  let! n := gets (fun s => ncli (the_cpu c s)) in
  when (n =? 0) (modify (upd_cpu c (set_intena eflags))) ;;;
  modify (upd_cpu c (fun x => set_ncli (ncli x + 1) x)).

Definition popcli : M mach unit :=
  let! f := gets (fun s => ifl (the_cpu me s)) in
  if f then panic "popcli - interruptible"
  else
    let! c := mycpu in
    modify (upd_cpu c (fun x => set_ncli (ncli x - 1) x)) ;;;
    let! n := gets (fun s => ncli (the_cpu c s)) in
    if n <? 0 then panic "popcli"
    else
      let! e := gets (fun s => intena (the_cpu c s)) in
      when ((n =? 0) && e) (modify (upd_cpu me (set_ifl true))).

Definition initlock (l : Z) : M mach unit := modify (upd_lock l (mk_lock false (-1))).

Definition holding (l : Z) : M mach bool :=
  pushcli ;;;
  let! lk := gets (the_lock l) in
  let! r := (if locked lk then let! c := mycpu in ret (lcpu lk =? c) else ret false) in
  popcli ;;;
  ret r.

(** xchg(&lk->locked, 1): as long as the old value is 1 the loop goes on,
    and the lock does not change. *)
Definition acquire (l : Z) : M mach unit :=
  pushcli ;;;
  let! h := holding l in
  if h then panic "acquire"
  else
    let! lk := gets (the_lock l) in
    if locked lk then blocked
    else
      modify (upd_lock l (mk_lock true (lcpu lk))) ;;;
      let! c := mycpu in
      modify (upd_lock l (mk_lock true c)).

Definition release (l : Z) : M mach unit :=
  let! h := holding l in
  if negb h then panic "release"
  else
    modify (fun s => upd_lock l (mk_lock (locked (the_lock l s)) (-1)) s) ;;;
    modify (fun s => upd_lock l (mk_lock false (lcpu (the_lock l s))) s) ;;;
    popcli.
End Locks.

(** myproc() *)
Definition myproc (me : Z) : M mach Z :=
  pushcli me ;;;
  let! c := mycpu me in
  let! p := gets (fun s => cproc (the_cpu c s)) in
  popcli me ;;;
  ret p.

(** ** What the routines do to the machine *)

(** The processors are told apart by their apicid. *)
Definition mach_ok (s : mach) : Prop :=
  forall i j, 0 <= i < Z.of_nat (length (cpus s)) -> 0 <= j < Z.of_nat (length (cpus s)) ->
    apicid (the_cpu i s) = apicid (the_cpu j s) -> i = j.

(** Interrupts are off inside a pushcli(). *)
Definition cpu_ok (c : cpu) : Prop := 0 <= ncli c /\ (0 < ncli c -> ifl c = false).

Definition pushed (c : cpu) : cpu :=
  mk_cpu (apicid c) false (ncli c + 1) (if ncli c =? 0 then ifl c else intena c) (cproc c).
Definition popped (c : cpu) : cpu :=
  mk_cpu (apicid c) ((ncli c - 1 =? 0) && intena c) (ncli c - 1) (intena c) (cproc c).

Section Spec.
Context (me : Z).

Definition present (s : mach) : Prop := mach_ok s /\ 0 <= me < Z.of_nat (length (cpus s)).

Lemma the_cpu_upd f s : present s -> the_cpu me (upd_cpu me f s) = f (the_cpu me s).
Proof. intros [_ H]. apply aget_aset_eq. done. Qed.

Lemma upd_cpu_upd f g s : present s -> upd_cpu me f (upd_cpu me g s) = upd_cpu me (fun c => f (g c)) s.
Proof. intros H. unfold upd_cpu at 1. rewrite the_cpu_upd by done. unfold upd_cpu. cbn. by rewrite aset_aset. Qed.

Lemma upd_ext f g s : f (the_cpu me s) = g (the_cpu me s) -> upd_cpu me f s = upd_cpu me g s.
Proof. intros E. unfold upd_cpu. by rewrite E. Qed.

Lemma upd_id f s : present s -> f (the_cpu me s) = the_cpu me s -> upd_cpu me f s = s.
Proof. intros [_ H] E. unfold upd_cpu, the_cpu in *. rewrite E, aset_self by done. by destruct s. Qed.

Lemma present_upd f s : present s -> (forall c, apicid (f c) = apicid c) -> present (upd_cpu me f s).
Proof.
  intros [H1 H2] Hf. split; [|unfold upd_cpu; cbn; by rewrite length_aset].
  assert (E : forall i, 0 <= i < Z.of_nat (length (cpus s)) -> apicid (the_cpu i (upd_cpu me f s)) = apicid (the_cpu i s)).
  { intros i Hi. unfold the_cpu, upd_cpu. cbn [cpus]. rewrite aget_aset by done. destruct (Z.eqb_spec me i) as [<-|]; [apply Hf|done]. }
  intros i j Hi Hj. unfold upd_cpu in Hi, Hj. cbn in Hi, Hj. rewrite length_aset in Hi, Hj. rewrite !E by done. by apply H1.
Qed.

Lemma present_lock l v s : present s -> present (upd_lock l v s).
Proof. intros [H1 H2]. by split. Qed.

Lemma wp_mycpu s (Q : Z -> mach -> Prop) : present s -> ifl (the_cpu me s) = false -> Q me s -> wp (mycpu me) s Q.
Proof.
  intros [Hok Hr] Hf HQ. unfold mycpu. apply wp_bind, wp_gets. rewrite Hf. do 2 (apply wp_bind, wp_gets). apply wp_bind.
  apply (wp_search (fun i s' => s' = s /\ i <= me)).
  - split; [done|lia].
  - intros k s' Hk (-> & Hle). apply wp_bind, wp_gets, wp_ret. destruct (Z.eqb_spec (apicid (the_cpu k s)) (apicid (the_cpu me s))) as [E|E].
    + rewrite (Hok k me) by (done || lia). by apply wp_ret.
    + split; [done|]. destruct (decide (k = me)) as [->|]; [done|lia].
  - intros s' (-> & Hle). lia.
Qed.

Lemma wp_pushcli s (Q : unit -> mach -> Prop) : present s -> Q tt (upd_cpu me pushed s) -> wp (pushcli me) s Q.
Proof.
  intros Hp HQ. unfold pushcli. apply wp_bind, wp_gets, wp_bind, wp_modify. assert (Hp1 : present (upd_cpu me (set_ifl false) s)) by (by apply present_upd).
  apply wp_bind, wp_mycpu; [done|by rewrite the_cpu_upd|]. apply wp_bind, wp_gets. rewrite the_cpu_upd by done. cbn [ncli set_ifl].
  apply wp_bind. apply wp_when; intros Hc; [apply wp_modify|]; apply wp_modify; rewrite ?upd_cpu_upd by done.
  - erewrite upd_ext; [exact HQ|]. unfold pushed. rewrite Hc. done.
  - erewrite upd_ext; [exact HQ|]. unfold pushed. rewrite Hc. done.
Qed.

Lemma wp_popcli s (Q : unit -> mach -> Prop) : present s -> ifl (the_cpu me s) = false -> 1 <= ncli (the_cpu me s) ->
  Q tt (upd_cpu me popped s) -> wp (popcli me) s Q.
Proof.
  intros Hp Hf Hn HQ. unfold popcli. apply wp_bind, wp_gets. rewrite Hf. apply wp_bind, wp_mycpu; [done|done|].
  apply wp_bind, wp_modify, wp_bind, wp_gets. rewrite the_cpu_upd by done. cbn [ncli set_ncli]. replace (_ <? 0) with false by lia.
  apply wp_bind, wp_gets. rewrite the_cpu_upd by done. cbn [intena set_ncli]. apply wp_when; intros Hc.
  - apply wp_modify. rewrite upd_cpu_upd by done. erewrite upd_ext; [exact HQ|]. unfold popped. by rewrite Hc.
  - erewrite upd_ext; [exact HQ|]. unfold popped. rewrite Hc. cbn. unfold set_ncli. by rewrite Hf.
Qed.

(** A pushcli() and its popcli(). *)
Definition touched (c : cpu) : cpu := mk_cpu (apicid c) (ifl c) (ncli c) (if ncli c =? 0 then ifl c else intena c) (cproc c).

Lemma popped_pushed c : cpu_ok c -> popped (pushed c) = touched c.
Proof.
  intros [H1 H2]. unfold popped, pushed, touched. cbn. replace (ncli c + 1 - 1) with (ncli c) by lia. f_equal.
  destruct (Z.eqb_spec (ncli c) 0); cbn; [done|]. symmetry. apply H2. lia.
Qed.

Lemma wp_holding l s (Q : bool -> mach -> Prop) : present s -> cpu_ok (the_cpu me s) ->
  Q (locked (the_lock l s) && (lcpu (the_lock l s) =? me)) (upd_cpu me touched s) -> wp (holding me l) s Q.
Proof.
  intros Hp Hc HQ. unfold holding. apply wp_bind, wp_pushcli; [done|]. apply wp_bind, wp_gets, wp_bind.
  assert (Hp1 : present (upd_cpu me pushed s)) by (by apply present_upd). change (the_lock l (upd_cpu me pushed s)) with (the_lock l s).
  assert (G : forall r, Q r (upd_cpu me touched s) -> wp (popcli me ;;; ret r) (upd_cpu me pushed s) Q).
  { intros r Hr. apply wp_bind, wp_popcli; [done|by rewrite the_cpu_upd|rewrite the_cpu_upd by done; cbn; destruct Hc; lia|]. apply wp_ret.
    rewrite upd_cpu_upd by done. erewrite upd_ext; [exact Hr|]. by apply popped_pushed. }
  destruct (locked (the_lock l s)); cbn [andb] in HQ; [|by apply wp_ret, G].
  apply wp_bind, wp_mycpu; [done|by rewrite the_cpu_upd|]. by apply wp_ret, G.
Qed.

Lemma run_of {A} (m : M mach A) s a s' : wp m s (fun b t => b = a /\ t = s') -> m s = Ok a s'.
Proof. intros H. apply wp_run in H as (b & t & E & -> & ->). done. Qed.

Lemma touched_inside c : 0 < ncli c -> touched c = c.
Proof. intros H. unfold touched. replace (ncli c =? 0) with false by lia. by destruct c. Qed.

Lemma cpu_ok_pushed c : cpu_ok c -> cpu_ok (pushed c).
Proof. intros [H _]. split; [cbn; lia|done]. Qed.

(** The first half of acquire(): pushcli() and the test. *)
Lemma acquire_run l s : present s -> cpu_ok (the_cpu me s) ->
  acquire me l s =
    if locked (the_lock l s) then (if lcpu (the_lock l s) =? me then Panic "acquire" else Blocked (upd_cpu me pushed s))
    else Ok tt (upd_lock l (mk_lock true me) (upd_cpu me pushed s)).
Proof.
  intros Hp Hc. unfold acquire, bind at 1. rewrite (run_of _ _ tt (upd_cpu me pushed s)) by (by apply wp_pushcli).
  assert (Hp1 : present (upd_cpu me pushed s)) by (by apply present_upd). unfold bind at 1.
  rewrite (run_of _ _ (locked (the_lock l s) && (lcpu (the_lock l s) =? me)) (upd_cpu me pushed s)).
  2:{ apply wp_holding; [done|rewrite the_cpu_upd by done; by apply cpu_ok_pushed|]. split; [done|]. apply upd_id; [done|].
      apply touched_inside. rewrite the_cpu_upd by done. destruct Hc. cbn. lia. }
  destruct (locked (the_lock l s)) eqn:El; cbn [andb].
  - destruct (lcpu (the_lock l s) =? me); [done|]. unfold bind, gets. change (the_lock l (upd_cpu me pushed s)) with (the_lock l s). by rewrite El.
  - unfold bind at 1, gets at 1. change (the_lock l (upd_cpu me pushed s)) with (the_lock l s). rewrite El. unfold bind at 1, modify at 1, bind at 1.
    rewrite (run_of _ _ me (upd_lock l (mk_lock true (lcpu (the_lock l s))) (upd_cpu me pushed s))).
    + unfold modify, upd_lock. cbn. by rewrite aset_aset.
    + apply wp_mycpu; [by apply present_lock| |done]. change (the_cpu me (upd_lock _ _ ?s)) with (the_cpu me s). by rewrite the_cpu_upd.
Qed.

Lemma release_run l s : present s -> cpu_ok (the_cpu me s) -> 0 <= l < Z.of_nat (length (locks s)) -> 1 <= ncli (the_cpu me s) ->
  release me l s =
    if locked (the_lock l s) && (lcpu (the_lock l s) =? me) then Ok tt (upd_lock l (mk_lock false (-1)) (upd_cpu me popped s))
    else Panic "release".
Proof.
  intros Hp Hc Hl Hn. unfold release, bind at 1.
  rewrite (run_of _ _ (locked (the_lock l s) && (lcpu (the_lock l s) =? me)) s).
  2:{ apply wp_holding; [done|done|]. split; [done|]. apply upd_id; [done|]. apply touched_inside. lia. }
  destruct (locked (the_lock l s) && (lcpu (the_lock l s) =? me)) eqn:E; [|done]. cbn [negb]. unfold bind at 1, modify at 1, bind at 1, modify at 1.
  set (s2 := upd_lock l _ (upd_lock l _ s)). assert (Es : s2 = upd_lock l (mk_lock false (-1)) s).
  { unfold s2, upd_lock, the_lock. cbn. rewrite aset_aset, !aget_aset_eq by done. done. }
  rewrite Es. apply run_of. apply wp_popcli; [by apply present_lock|destruct Hc as [_ Hc]; apply Hc; change (1 <= ncli (the_cpu me s)) in Hn; lia|done|]. done.
Qed.
End Spec.

(** ** Theorems *)

(** A sequence of pushcli() (true) and popcli() (false) calls. *)
Fixpoint cli_calls (me : Z) (ops : list bool) : M mach unit :=
  match ops with
  | [] => ret tt
  | b :: ops' => (if b then pushcli me else popcli me) ;;; cli_calls me ops'
  end.

(** The nesting depth after the calls, when it never gets below 0. *)
Fixpoint depth (d : Z) (ops : list bool) : option Z :=
  match ops with
  | [] => Some d
  | b :: ops' => let d' := if b then d + 1 else d - 1 in if d' <? 0 then None else depth d' ops'
  end.

(** At nesting depth [d], with interrupts enabled outside iff [e]. *)
Definition nested (e : bool) (d : Z) (c : cpu) : Prop :=
  ncli c = d /\ ifl c = (d =? 0) && e /\ (0 < d -> intena c = e).

Lemma wp_cli_calls me e ops : forall d s d', present me s -> 0 <= d -> nested e d (the_cpu me s) -> depth d ops = Some d' ->
  wp (cli_calls me ops) s (fun _ s' => nested e d' (the_cpu me s') /\ forall i, i <> me -> the_cpu i s' = the_cpu i s).
Proof.
  induction ops as [|b ops IH]; intros d s d' Hp Hd (N1 & N2 & N3) E; cbn [cli_calls depth] in *.
  { injection E as <-. apply wp_ret. done. }
  assert (HO : forall f i, i <> me -> the_cpu i (upd_cpu me f s) = the_cpu i s).
  { intros f i Hi. unfold the_cpu, upd_cpu. cbn. by rewrite aget_aset_ne. }
  destruct b.
  - replace (d + 1 <? 0) with false in E by lia. apply wp_bind, wp_pushcli; [done|].
    eapply wp_mono; [apply (IH (d + 1) _ d'); [by apply present_upd|lia| |done]|].
    + rewrite the_cpu_upd by done. unfold nested, pushed. cbn. rewrite N1, N2. split_and!; [done|by replace (d + 1 =? 0) with false by lia|].
      intros _. destruct (Z.eqb_spec d 0) as [->|]; [done|]. apply N3. lia.
    + intros _ s' [H1 H2]. split; [done|]. intros i Hi. rewrite H2 by done. by apply HO.
  - destruct (Z.ltb_spec (d - 1) 0); [done|]. apply wp_bind, wp_popcli; [done|rewrite N2; by replace (d =? 0) with false by lia|lia|].
    eapply wp_mono; [apply (IH (d - 1) _ d'); [by apply present_upd|lia| |done]|].
    + rewrite the_cpu_upd by done. unfold nested, popped. cbn. rewrite N1, N3 by lia. split_and!; [done|done|done].
    + intros _ s' [H1 H2]. split; [done|]. intros i Hi. rewrite H2 by done. by apply HO.
Qed.

(** Pushcli() and popcli() nest: whatever sequence of calls a processor
    makes, as long as it never pops more than it pushed, ncli counts the
    depth, interrupts are off while it is positive and as they were before
    when it is back to 0; other processors are not affected. *)
Theorem cli_calls_nest me s ops d' : present me s -> ncli (the_cpu me s) = 0 -> depth 0 ops = Some d' ->
  exists s', cli_calls me ops s = Ok tt s' /\ ncli (the_cpu me s') = d' /\
    ifl (the_cpu me s') = (d' =? 0) && ifl (the_cpu me s) /\ forall i, i <> me -> the_cpu i s' = the_cpu i s.
Proof.
  intros Hp Hn Hd. destruct (wp_run_unit _ _ _ (wp_cli_calls me (ifl (the_cpu me s)) ops 0 s d' Hp ltac:(lia) ltac:(split_and!; [done|done|lia]) Hd))
    as (s' & E & (H1 & H2 & _) & H3). exists s'. done.
Qed.

(** C38: The lock protocol: acquire() gets a free lock and turns interrupts
    off on its processor, spins on a lock another processor holds, and panics
    on one its own processor holds; release(), with interrupts off at depth 1
    or more, frees a lock its own processor holds, turning interrupts back on
    only at depth 0, and panics on any other. So a lock has one holder. *)
Theorem spinlock_protocol me s l : present me s -> cpu_ok (the_cpu me s) -> 0 <= l < Z.of_nat (length (locks s)) ->
  let lk := the_lock l s in
  (locked lk = false -> exists s', acquire me l s = Ok tt s' /\ the_lock l s' = mk_lock true me /\ ifl (the_cpu me s') = false /\
     (forall l', l' <> l -> the_lock l' s' = the_lock l' s)) /\
  (locked lk = true -> lcpu lk <> me -> exists s', acquire me l s = Blocked s' /\ locks s' = locks s) /\
  (locked lk = true -> lcpu lk = me -> acquire me l s = Panic "acquire") /\
  (1 <= ncli (the_cpu me s) -> locked lk = true -> lcpu lk = me ->
     exists s', release me l s = Ok tt s' /\ locked (the_lock l s') = false /\ (forall l', l' <> l -> the_lock l' s' = the_lock l' s) /\
       ifl (the_cpu me s') = (ncli (the_cpu me s) =? 1) && intena (the_cpu me s)) /\
  (1 <= ncli (the_cpu me s) -> locked lk = false \/ lcpu lk <> me -> release me l s = Panic "release").
Proof.
  intros Hp Hc Hl lk.
  assert (HL : forall v s0, locks s0 = locks s -> the_lock l (upd_lock l v s0) = v /\ (forall l', l' <> l -> the_lock l' (upd_lock l v s0) = the_lock l' s)).
  { intros v s0 E. unfold the_lock, upd_lock. cbn. rewrite E. split; [by apply aget_aset_eq|]. intros l' Hl'. by rewrite aget_aset_ne. }
  split_and!.
  - intros E. rewrite acquire_run by done. fold lk. rewrite E. eexists. split; [reflexivity|]. destruct (HL (mk_lock true me) (upd_cpu me pushed s) eq_refl) as [-> H].
    split_and!; [done| |done]. change (the_cpu me (upd_lock _ _ ?x)) with (the_cpu me x). by rewrite the_cpu_upd.
  - intros E1 E2. rewrite acquire_run by done. fold lk. rewrite E1. replace (lcpu lk =? me) with false by lia. eexists. split; [reflexivity|done].
  - intros E1 E2. rewrite acquire_run by done. fold lk. by rewrite E1, E2, Z.eqb_refl.
  - intros Hn E1 E2. rewrite release_run by done. fold lk. rewrite E1, E2, Z.eqb_refl. eexists. split; [reflexivity|].
    destruct (HL (mk_lock false (-1)) (upd_cpu me popped s) eq_refl) as [-> H]. split_and!; [done|done|].
    change (the_cpu me (upd_lock _ _ ?x)) with (the_cpu me x). rewrite the_cpu_upd by done. cbn. f_equal. lia.
  - intros Hn H. rewrite release_run by done. fold lk. destruct H as [->|H]; [done|]. replace (lcpu lk =? me) with false by lia. by rewrite andb_false_r.
Qed.

(** Two processors; processor 1 holds lock 0. *)
Definition demo_mach : mach :=
  mk_mach [mk_cpu 10 true 0 false (-1); mk_cpu 20 false 1 true (-1)] [mk_lock true 1; mk_lock false (-1)].

Lemma demo_present me : me = 0 \/ me = 1 -> present me demo_mach.
Proof.
  intros Hme. split; [|cbn; lia]. intros i j Hi Hj. cbn in Hi, Hj. assert (i = 0 \/ i = 1) as [->| ->] by lia; assert (j = 0 \/ j = 1) as [->| ->] by lia; done.
Qed.

Lemma cli_calls_nest_witness :
  exists s', cli_calls 0 [true; true; false; true; false; false] demo_mach = Ok tt s' /\ ncli (the_cpu 0 s') = 0 /\
    ifl (the_cpu 0 s') = (0 =? 0) && ifl (the_cpu 0 demo_mach) /\ forall i, i <> 0 -> the_cpu i s' = the_cpu i demo_mach.
Proof. apply (cli_calls_nest 0 demo_mach [true; true; false; true; false; false] 0); [apply demo_present; by left|reflexivity|reflexivity]. Defined.

Lemma spinlock_protocol_witness :
  let lk := the_lock 0 demo_mach in
  (locked lk = false -> exists s', acquire 0 0 demo_mach = Ok tt s' /\ the_lock 0 s' = mk_lock true 0 /\ ifl (the_cpu 0 s') = false /\
     (forall l', l' <> 0 -> the_lock l' s' = the_lock l' demo_mach)) /\
  (locked lk = true -> lcpu lk <> 0 -> exists s', acquire 0 0 demo_mach = Blocked s' /\ locks s' = locks demo_mach) /\
  (locked lk = true -> lcpu lk = 0 -> acquire 0 0 demo_mach = Panic "acquire") /\
  (1 <= ncli (the_cpu 0 demo_mach) -> locked lk = true -> lcpu lk = 0 ->
     exists s', release 0 0 demo_mach = Ok tt s' /\ locked (the_lock 0 s') = false /\ (forall l', l' <> 0 -> the_lock l' s' = the_lock l' demo_mach) /\
       ifl (the_cpu 0 s') = (ncli (the_cpu 0 demo_mach) =? 1) && intena (the_cpu 0 demo_mach)) /\
  (1 <= ncli (the_cpu 0 demo_mach) -> locked lk = false \/ lcpu lk <> 0 -> release 0 0 demo_mach = Panic "release").
Proof.
  apply (spinlock_protocol 0 demo_mach 0); [apply demo_present; by left|split; vm_compute; discriminate|cbn; lia].
Defined.
