(* ===== verification/Proc.v ===== *)
(** Processes (proc.c).

    The kernel's state has the process table, kernel memory (kernel stacks,
    page tables), the processors and locks, and the state of the file
    system, which processes use through the operations of [FsOps].

    A routine runs on processor [me] until it returns ([Ret]) or until
    sched() switches to the scheduler ([Switch]).  Where the
    process goes on when it is switched to again is its [context]: the
    resumption has a definition of its own ([yield_resume], [sleep_resume],
    [wait_resume], [forkret]).  scheduler() is cut into the search for a
    process to run, the switch to it, and the return from it.  switchuvm()
    and switchkvm() (loading of the page table and task registers) are left
    out. *)

From Stdlib Require Import ZArith Lia.
From stdpp Require Import base gmap strings numbers list.
From S2P Require Import Prelude Kstring Mem Kalloc Vm Spinlock.

Open Scope Z_scope.
Open Scope kern_scope.

Definition NPROC : Z := 64.
Definition KSTACKSIZE : Z := 4096.
Definition NOFILE : Z := 16.

Inductive procstate : Type := UNUSED | EMBRYO | SLEEPING | RUNNABLE | RUNNING | ZOMBIE.

Definition state_eqb (a b : procstate) : bool :=
  match a, b with
  | UNUSED, UNUSED | EMBRYO, EMBRYO | SLEEPING, SLEEPING | RUNNABLE, RUNNABLE | RUNNING, RUNNING | ZOMBIE, ZOMBIE => true
  | _, _ => false
  end.

(** Where the kernel thread of a process that does not run goes on, with the
    value of intena sched() has saved on its stack. *)
Inductive kctx : Type :=
| KNone
| KForkret
| KYield (intena : bool)
| KSleep (lk : Z) (intena : bool)
| KWait (intena : bool).

(** struct proc.  A process is its index in the table, -1 for 0. *)
Record proc := mk_proc {
  sz : Z;
  pgdir : Z;
  kstack : Z;
  state : procstate;
  pid : Z;
  parent : Z;
  tf : Z;
  context : kctx;
  chan : Z;
  killed : bool;
  ofile : list Z;
  cwd : Z;
  name : list Z;
}.

Definition no_proc : proc := mk_proc 0 0 0 UNUSED 0 (-1) 0 KNone 0 false (repeat 0 16) 0 (repeat 0 16).

Definition set_sz v p := mk_proc v (pgdir p) (kstack p) (state p) (pid p) (parent p) (tf p) (context p) (chan p) (killed p) (ofile p) (cwd p) (name p).
Definition set_pgdir v p := mk_proc (sz p) v (kstack p) (state p) (pid p) (parent p) (tf p) (context p) (chan p) (killed p) (ofile p) (cwd p) (name p).
Definition set_kstack v p := mk_proc (sz p) (pgdir p) v (state p) (pid p) (parent p) (tf p) (context p) (chan p) (killed p) (ofile p) (cwd p) (name p).
Definition set_state v p := mk_proc (sz p) (pgdir p) (kstack p) v (pid p) (parent p) (tf p) (context p) (chan p) (killed p) (ofile p) (cwd p) (name p).
Definition set_pid v p := mk_proc (sz p) (pgdir p) (kstack p) (state p) v (parent p) (tf p) (context p) (chan p) (killed p) (ofile p) (cwd p) (name p).
Definition set_parent v p := mk_proc (sz p) (pgdir p) (kstack p) (state p) (pid p) v (tf p) (context p) (chan p) (killed p) (ofile p) (cwd p) (name p).
Definition set_tf v p := mk_proc (sz p) (pgdir p) (kstack p) (state p) (pid p) (parent p) v (context p) (chan p) (killed p) (ofile p) (cwd p) (name p).
Definition set_context v p := mk_proc (sz p) (pgdir p) (kstack p) (state p) (pid p) (parent p) (tf p) v (chan p) (killed p) (ofile p) (cwd p) (name p).
Definition set_chan v p := mk_proc (sz p) (pgdir p) (kstack p) (state p) (pid p) (parent p) (tf p) (context p) v (killed p) (ofile p) (cwd p) (name p).
Definition set_killed v p := mk_proc (sz p) (pgdir p) (kstack p) (state p) (pid p) (parent p) (tf p) (context p) (chan p) v (ofile p) (cwd p) (name p).
Definition set_ofile v p := mk_proc (sz p) (pgdir p) (kstack p) (state p) (pid p) (parent p) (tf p) (context p) (chan p) (killed p) v (cwd p) (name p).
Definition set_cwd v p := mk_proc (sz p) (pgdir p) (kstack p) (state p) (pid p) (parent p) (tf p) (context p) (chan p) (killed p) (ofile p) v (name p).
Definition set_name v p := mk_proc (sz p) (pgdir p) (kstack p) (state p) (pid p) (parent p) (tf p) (context p) (chan p) (killed p) (ofile p) (cwd p) v.

(** A routine returns, or gives up the processor. *)
Inductive res (A : Type) : Type := Ret (a : A) | Switch.
Arguments Ret {A} a.
Arguments Switch {A}.

(** What processes use of the file system.  A file or inode is its address. *)
Class FsOps (F : Type) := {
  f_filedup : Z -> M F Z;
  f_fileclose : Z -> M F unit;
  f_idup : Z -> M F Z;
  f_iput : Z -> M F unit;
  f_begin_op : M F unit;
  f_end_op : M F unit;
  f_namei_root : M F Z;
  f_iinit : M F unit;
  f_initlog : M F unit;
}.

Section Proc.
Context {F : Type} `{FsOps F}.
Variables kend kdata : Z.        (* linker symbols end and data *)
Variables trapret_ forkret_ : Z. (* code addresses *)
Variable ptable_addr : Z.        (* &ptable.proc[0] *)
Variable me : Z.                 (* the processor that executes the routine *)

Record kern := mk_kern {
  km : kmem;
  mc : mach;
  ptab : list proc;
  nextpid : Z;
  initproc : Z;
  first : bool;
  fsys : F;
}.

Definition set_km v s := mk_kern v (mc s) (ptab s) (nextpid s) (initproc s) (first s) (fsys s).
Definition set_mc v s := mk_kern (km s) v (ptab s) (nextpid s) (initproc s) (first s) (fsys s).
Definition set_ptab v s := mk_kern (km s) (mc s) v (nextpid s) (initproc s) (first s) (fsys s).
Definition set_nextpid v s := mk_kern (km s) (mc s) (ptab s) v (initproc s) (first s) (fsys s).
Definition set_initproc v s := mk_kern (km s) (mc s) (ptab s) (nextpid s) v (first s) (fsys s).
Definition set_first v s := mk_kern (km s) (mc s) (ptab s) (nextpid s) (initproc s) v (fsys s).
Definition set_fsys v s := mk_kern (km s) (mc s) (ptab s) (nextpid s) (initproc s) (first s) v.

Definition on_km {A} (m : M kmem A) : M kern A := zoom km set_km m.
Definition on_mc {A} (m : M mach A) : M kern A := zoom mc set_mc m.
Definition on_fs {A} (m : M F A) : M kern A := zoom fsys set_fsys m.

Definition the_proc (p : Z) (s : kern) : proc := aget no_proc (ptab s) p.
Definition upd_proc (p : Z) (f : proc -> proc) (s : kern) : kern := set_ptab (aset (ptab s) p (f (the_proc p s))) s.
Definition pget {A} (p : Z) (f : proc -> A) : M kern A := gets (fun s => f (the_proc p s)).
Definition pset (p : Z) (f : proc -> proc) : M kern unit := modify (upd_proc p f).

(** &ptable.proc[p], the channel wait() sleeps on; sizeof(struct proc) is 124. *)
Definition paddr (p : Z) : Z := if p <? 0 then 0 else ptable_addr + 124 * p.

(** Lock 0 is ptable.lock. *)
Definition PTLOCK : Z := 0.
Definition lock_ptable : M kern unit := on_mc (acquire me PTLOCK).
Definition unlock_ptable : M kern unit := on_mc (release me PTLOCK).
Definition curproc : M kern Z := on_mc (myproc me).

(** for(p = ptable.proc; p < &ptable.proc[NPROC]; p++) *)
Definition find_proc (f : proc -> bool) : M kern (option Z) :=
  search 64 0 (fun p => let! b := pget p f in ret (if b then Some p else None)).
Definition each_proc (body : Z -> M kern unit) : M kern unit := for_up 0 NPROC body.

(** ** Creating processes *)

Definition allocproc : M kern Z :=
  lock_ptable ;;;
  let! r := find_proc (fun p => state_eqb (state p) UNUSED) in
  match r with
  | None => unlock_ptable ;;; ret (-1)
  | Some p =>
      pset p (set_state EMBRYO) ;;;
      let! n := gets nextpid in
      pset p (set_pid n) ;;;
      require (n <? 2 ^ 31 - 1) "nextpid overflows" ;;;
      modify (set_nextpid (n + 1)) ;;;
      unlock_ptable ;;;
      let! k := on_km kalloc in
      pset p (set_kstack k) ;;;
      if k =? 0 then pset p (set_state UNUSED) ;;; ret (-1)
      else
        let sp := k + KSTACKSIZE in
        let sp := sp - 76 in
        pset p (set_tf sp) ;;;
        let sp := sp - 4 in
        on_km (on_mem (store32 sp trapret_)) ;;;
        let sp := sp - 20 in
        pset p (set_context KForkret) ;;;
        on_km (on_mem (memset sp 0 20)) ;;;
        on_km (on_mem (store32 (sp + 16) forkret_)) ;;;
        ret p
  end.

Definition store16 (a v : Z) : M mem unit := store8 a v ;;; store8 (a + 1) (v / 2 ^ 8).

(** safestrcpy(dst, src, n) on arrays of n characters. *)
Definition name_copy (dst src : list Z) (n : nat) : list Z :=
  let s := take (n - 1) (take (Z.to_nat (strlen src)) src) in
  s ++ 0 :: drop (S (length s)) dst.

(** initcode_ and initsz: the address and size of the first program;
    SEG_UCODE is 3, SEG_UDATA 4, DPL_USER 3, FL_IF 0x200. *)
Definition userinit (initcode_ initsz : Z) : M kern unit :=
  let! p := allocproc in
  modify (set_initproc p) ;;;
  require (0 <=? p) "null pointer" ;;;
  let! d := on_km (setupkvm kend kdata) in
  pset p (set_pgdir d) ;;;
  if d =? 0 then panic "userinit: out of memory?"
  else
    on_km (inituvm d initcode_ initsz) ;;;
    pset p (set_sz PGSIZE) ;;;
    let! t := pget p tf in
    on_km (on_mem (memset t 0 76)) ;;;
    on_km (on_mem (store16 (t + 60) (Z.lor (Z.shiftl 3 3) 3))) ;;;
    on_km (on_mem (store16 (t + 44) (Z.lor (Z.shiftl 4 3) 3))) ;;;
    on_km (on_mem (store16 (t + 40) (Z.lor (Z.shiftl 4 3) 3))) ;;;
    on_km (on_mem (store16 (t + 72) (Z.lor (Z.shiftl 4 3) 3))) ;;;
    on_km (on_mem (store32 (t + 64) 0x200)) ;;;
    on_km (on_mem (store32 (t + 68) PGSIZE)) ;;;
    on_km (on_mem (store32 (t + 56) 0)) ;;;
    pset p (fun x => set_name (name_copy (name x) (codes "initcode") 16) x) ;;;
    let! r := on_fs f_namei_root in
    pset p (set_cwd r) ;;;
    lock_ptable ;;;
    pset p (set_state RUNNABLE) ;;;
    unlock_ptable.

Definition growproc (n : Z) : M kern Z :=
  let! p := curproc in
  let! s := pget p sz in
  let! d := pget p pgdir in
  let! r :=
    (if n >? 0 then
       let! s' := on_km (allocuvm kend d s (u32 (s + n))) in
       ret (if s' =? 0 then None else Some s')
     else if n <? 0 then
       let! s' := on_km (deallocuvm kend d s (u32 (s + n))) in
       ret (if s' =? 0 then None else Some s')
     else ret (Some s)) in
  match r with
  | None => ret (-1)
  | Some s' => pset p (set_sz s') ;;; ret 0
  end.

Definition fork : M kern Z :=
  let! cp := curproc in
  let! np := allocproc in
  if np <? 0 then ret (-1)
  else
    let! d := pget cp pgdir in
    let! s := pget cp sz in
    let! nd := on_km (copyuvm kend kdata d s) in
    pset np (set_pgdir nd) ;;;
    if nd =? 0 then
      let! k := pget np kstack in
      on_km (kfree kend k) ;;;
      pset np (set_kstack 0) ;;;
      pset np (set_state UNUSED) ;;;
      ret (-1)
    else
      pset np (set_sz s) ;;;
      pset np (set_parent cp) ;;;
      let! t := pget np tf in
      let! ct := pget cp tf in
      on_km (on_mem (memcpy t ct 76)) ;;;
      on_km (on_mem (store32 (t + 28) 0)) ;;;
      for_up 0 NOFILE (fun i =>
        let! f := pget cp (fun x => aget 0 (ofile x) i) in
        when (negb (f =? 0))
          (let! f' := on_fs (f_filedup f) in
           pset np (fun x => set_ofile (aset (ofile x) i f') x))) ;;;
      let! c := pget cp cwd in
      let! c' := on_fs (f_idup c) in
      pset np (set_cwd c') ;;;
      let! nm := pget cp name in
      pset np (fun x => set_name (name_copy (name x) nm 16) x) ;;;
      let! pd := pget np pid in
      lock_ptable ;;;
      pset np (set_state RUNNABLE) ;;;
      unlock_ptable ;;;
      ret pd.

(** ** Switching *)

(** swtch() to the scheduler; the process goes on at [k] later. *)
Definition sched {A} (k : bool -> kctx) : M kern (res A) :=
  let! p := curproc in
  let! h := on_mc (holding me PTLOCK) in
  if negb h then panic "sched ptable.lock"
  else
    let! c := on_mc (mycpu me) in
    let! n := gets (fun s => ncli (the_cpu c (mc s))) in
    if negb (n =? 1) then panic "sched locks"
    else
      let! st := pget p state in
      if state_eqb st RUNNING then panic "sched running"
      else
        let! f := gets (fun s => ifl (the_cpu me (mc s))) in
        if f then panic "sched interruptible"
        else
          let! e := gets (fun s => intena (the_cpu c (mc s))) in
          pset p (set_context (k e)) ;;;
          ret Switch.

(** swtch() back from the scheduler, in sched(). *)
Definition sched_return (e : bool) : M kern unit :=
  let! c := on_mc (mycpu me) in
  on_mc (modify (upd_cpu c (set_intena e))).

Definition yield : M kern (res unit) :=
  lock_ptable ;;;
  let! p := curproc in
  pset p (set_state RUNNABLE) ;;;
  sched KYield.
Definition yield_resume (e : bool) : M kern unit :=
  sched_return e ;;;
  unlock_ptable.

Definition forkret : M kern unit :=
  unlock_ptable ;;;
  let! f := gets first in
  when f
    (modify (set_first false) ;;;
     on_fs f_iinit ;;;
     on_fs f_initlog).

(** sleep(ch, lk) up to the switch; lk = -1 for 0. *)
Definition sleep {A} (ch lk : Z) (k : bool -> kctx) : M kern (res A) :=
  let! p := curproc in
  if p <? 0 then panic "sleep"
  else if lk <? 0 then panic "sleep without lk"
  else
    when (negb (lk =? PTLOCK)) (lock_ptable ;;; on_mc (release me lk)) ;;;
    pset p (set_chan ch) ;;;
    pset p (set_state SLEEPING) ;;;
    sched k.
Definition sleep_resume (lk : Z) (e : bool) : M kern unit :=
  sched_return e ;;;
  let! p := curproc in
  pset p (set_chan 0) ;;;
  when (negb (lk =? PTLOCK)) (unlock_ptable ;;; on_mc (acquire me lk)).

Definition wakeup1 (ch : Z) : M kern unit :=
  each_proc (fun p =>
    let! st := pget p state in
    let! c := pget p chan in
    when (state_eqb st SLEEPING && (c =? ch)) (pset p (set_state RUNNABLE))).
Definition wakeup (ch : Z) : M kern unit :=
  lock_ptable ;;;
  wakeup1 ch ;;;
  unlock_ptable.

Definition kill (pd : Z) : M kern Z :=
  lock_ptable ;;;
  let! r := find_proc (fun p => pid p =? pd) in
  match r with
  | Some p =>
      pset p (set_killed true) ;;;
      let! st := pget p state in
      when (state_eqb st SLEEPING) (pset p (set_state RUNNABLE)) ;;;
      unlock_ptable ;;;
      ret 0
  | None => unlock_ptable ;;; ret (-1)
  end.

(** ** Exit and wait *)

(** sched() does not come back here: the context of a zombie is never
    switched to. *)
Definition exit : M kern (res unit) :=
  let! cp := curproc in
  let! ip := gets initproc in
  if cp =? ip then panic "init exiting"
  else
    for_up 0 NOFILE (fun fd =>
      let! f := pget cp (fun x => aget 0 (ofile x) fd) in
      when (negb (f =? 0))
        (on_fs (f_fileclose f) ;;;
         pset cp (fun x => set_ofile (aset (ofile x) fd 0) x))) ;;;
    on_fs f_begin_op ;;;
    let! c := pget cp cwd in
    on_fs (f_iput c) ;;;
    on_fs f_end_op ;;;
    pset cp (set_cwd 0) ;;;
    lock_ptable ;;;
    let! pp := pget cp parent in
    wakeup1 (paddr pp) ;;;
    each_proc (fun p =>
      let! pr := pget p parent in
      when (pr =? cp)
        (let! ip := gets initproc in
         pset p (set_parent ip) ;;;
         let! st := pget p state in
         when (state_eqb st ZOMBIE) (wakeup1 (paddr ip)))) ;;;
    pset cp (set_state ZOMBIE) ;;;
    let! r := sched (A := unit) (fun _ => KNone) in
    match r with
    | Switch => ret Switch
    | Ret _ => panic "zombie exit"
    end.

(** One pass over the table, with ptable.lock held; it ends in a return or
    in sleep(). *)
Definition wait_pass (cp : Z) : M kern (res Z) :=
  let! havekids := find_proc (fun p => parent p =? cp) in
  let! z := find_proc (fun p => (parent p =? cp) && state_eqb (state p) ZOMBIE) in
  match z with
  | Some p =>
      let! pd := pget p pid in
      let! k := pget p kstack in
      on_km (kfree kend k) ;;;
      pset p (set_kstack 0) ;;;
      let! d := pget p pgdir in
      on_km (freevm kend d) ;;;
      pset p (set_pid 0) ;;;
      pset p (set_parent (-1)) ;;;
      pset p (fun x => set_name (aset (name x) 0 0) x) ;;;
      pset p (set_killed false) ;;;
      pset p (set_state UNUSED) ;;;
      unlock_ptable ;;;
      ret (Ret pd)
  | None =>
      let! kl := pget cp killed in
      if negb (match havekids with Some _ => true | None => false end) || kl then
        unlock_ptable ;;;
        ret (Ret (-1))
      else sleep (paddr cp) PTLOCK KWait
  end.

Definition wait : M kern (res Z) :=
  let! cp := curproc in
  lock_ptable ;;;
  wait_pass cp.
Definition wait_resume (e : bool) : M kern (res Z) :=
  sleep_resume PTLOCK e ;;;
  let! cp := curproc in
  wait_pass cp.

(** ** The scheduler *)

(** The next process to run, from index [from] on: c->proc and its state are
    set, and swtch() gives it the processor.  At the end of the table the
    lock is released. *)
Definition scheduler_scan (from : Z) : M kern (option Z) :=
  let! r := search (Z.to_nat (NPROC - from)) from (fun p =>
    let! st := pget p state in
    ret (if state_eqb st RUNNABLE then Some p else None)) in
  match r with
  | Some p =>
      let! c := gets (fun _ => me) in
      on_mc (modify (upd_cpu c (set_cproc p))) ;;;
      pset p (set_state RUNNING) ;;;
      ret (Some p)
  | None =>
      unlock_ptable ;;;
      ret None
  end.

(** The processor comes back to the scheduler from the process. *)
Definition scheduler_back : M kern unit := on_mc (modify (upd_cpu me (set_cproc (-1)))).

(** A new round: interrupts on, lock taken. *)
Definition scheduler_round : M kern unit :=
  on_mc (modify (upd_cpu me (set_ifl true))) ;;;
  lock_ptable.
End Proc.
