(* ===== verification/ProcStep.v ===== *)
(** The kernel's processors at work: the step relation of the process
    system, and what every routine of proc.c does to the process table.

    The lemmas are about routines that return: a routine that spins on a
    lock, panics or is stuck makes no step. *)

From Stdlib Require Import ZArith Lia.
From stdpp Require Import base gmap strings numbers list.
From S2P Require Import Prelude Kstring Mem Kalloc Vm Spinlock Proc.

Open Scope Z_scope.
Open Scope kern_scope.

(** ** The processors: what the lock routines leave alone *)

Definition same_procs (m m' : mach) : Prop :=
  length (cpus m') = length (cpus m) /\
  forall i, apicid (the_cpu i m') = apicid (the_cpu i m) /\ cproc (the_cpu i m') = cproc (the_cpu i m).

Lemma same_procs_refl m : same_procs m m.
Proof. done. Qed.

Lemma same_procs_trans a b c : same_procs a b -> same_procs b c -> same_procs a c.
Proof. intros [H1 H2] [H3 H4]. split; [congruence|]. intros i. destruct (H2 i), (H4 i). split; congruence. Qed.

Lemma same_upd i f m : (forall c, apicid (f c) = apicid c /\ cproc (f c) = cproc c) -> same_procs m (upd_cpu i f m).
Proof.
  intros Hf. split; [unfold upd_cpu; cbn; by rewrite length_aset|]. intros j.
  assert (E : the_cpu j (upd_cpu i f m) = the_cpu j m \/ the_cpu j (upd_cpu i f m) = f (the_cpu j m)).
  { unfold upd_cpu, the_cpu. cbn [cpus]. destruct (decide (0 <= i < Z.of_nat (length (cpus m)))) as [Hi|Hi].
    - rewrite aget_aset by done. destruct (Z.eqb_spec i j) as [<-|]; auto.
    - left. unfold aset. destruct (Z.ltb_spec i 0); [done|]. by rewrite list_insert_ge by lia. }
  destruct E as [-> | ->]; [done|apply Hf].
Qed.

Lemma same_lock l v m : same_procs m (upd_lock l v m).
Proof. done. Qed.

(** A routine of the machine that keeps the processors' processes. *)
Definition keeps_procs {A} (m : M mach A) : Prop := forall s, wlp m s (fun _ s' => same_procs s s').

Lemma keeps_bind {A B} (m : M mach A) (k : A -> M mach B) : keeps_procs m -> (forall a, keeps_procs (k a)) -> keeps_procs (bind m k).
Proof.
  intros H1 H2 s. apply wlp_bind. eapply wlp_mono; [apply H1|]. intros a s' E. eapply wlp_mono; [apply H2|]. intros b s2 E2. exact (same_procs_trans _ _ _ E E2).
Qed.

Lemma keeps_ret {A} (a : A) : keeps_procs (ret a).
Proof. intros s. apply wlp_ret, same_procs_refl. Qed.
Lemma keeps_gets {A} (f : mach -> A) : keeps_procs (gets f).
Proof. intros s. apply wlp_gets, same_procs_refl. Qed.
Lemma keeps_stop {A} msg : keeps_procs (A := A) (panic msg).
Proof. intros s. exact I. Qed.
Lemma keeps_spin {A} : keeps_procs (A := A) blocked.
Proof. intros s. exact I. Qed.
Lemma keeps_cpu i f : (forall c, apicid (f c) = apicid c /\ cproc (f c) = cproc c) -> keeps_procs (modify (upd_cpu i f)).
Proof. intros Hf s. apply wlp_modify. by apply same_upd. Qed.
Lemma keeps_lock f : (forall s, cpus (f s) = cpus s) -> keeps_procs (modify f).
Proof. intros Hf s. apply wlp_modify. unfold same_procs, the_cpu. by rewrite Hf. Qed.
Lemma keeps_when b m : keeps_procs m -> keeps_procs (when b m).
Proof. destruct b; [done|intros _; apply keeps_ret]. Qed.
Lemma keeps_if {A} (b : bool) (m1 m2 : M mach A) : keeps_procs m1 -> keeps_procs m2 -> keeps_procs (if b then m1 else m2).
Proof. by destruct b. Qed.

Create HintDb procs.
#[export] Hint Resolve keeps_bind keeps_ret keeps_gets keeps_stop keeps_spin keeps_when keeps_if : procs.

Lemma keeps_search {R} n : forall i (body : Z -> M mach (option R)), (forall k, keeps_procs (body k)) -> keeps_procs (search n i body).
Proof.
  induction n as [|n IH]; intros i body Hb; cbn [search]; [apply keeps_ret|]. apply keeps_bind; [apply Hb|]. intros [v|]; [apply keeps_ret|by apply IH].
Qed.

Lemma keeps_mycpu me : keeps_procs (mycpu me).
Proof.
  unfold mycpu. apply keeps_bind; [apply keeps_gets|]. intros []; [apply keeps_stop|]. do 2 (apply keeps_bind; [apply keeps_gets|intros ?]).
  apply keeps_bind; [apply keeps_search; auto with procs|]. intros []; auto with procs.
Qed.
#[export] Hint Resolve keeps_mycpu : procs.

Lemma keeps_pushcli me : keeps_procs (pushcli me).
Proof.
  unfold pushcli. apply keeps_bind; [apply keeps_gets|]. intros e. apply keeps_bind; [by apply keeps_cpu|]. intros _. apply keeps_bind; [apply keeps_mycpu|].
  intros c. apply keeps_bind; [apply keeps_gets|]. intros n. apply keeps_bind; [apply keeps_when; by apply keeps_cpu|]. intros _. by apply keeps_cpu.
Qed.
Lemma keeps_popcli me : keeps_procs (popcli me).
Proof.
  unfold popcli. apply keeps_bind; [apply keeps_gets|]. intros []; [apply keeps_stop|]. apply keeps_bind; [apply keeps_mycpu|]. intros c.
  apply keeps_bind; [by apply keeps_cpu|]. intros _. apply keeps_bind; [apply keeps_gets|]. intros n. apply keeps_if; [apply keeps_stop|].
  apply keeps_bind; [apply keeps_gets|]. intros e. apply keeps_when. by apply keeps_cpu.
Qed.
#[export] Hint Resolve keeps_pushcli keeps_popcli : procs.

Lemma keeps_holding me l : keeps_procs (holding me l).
Proof. unfold holding. repeat (apply keeps_bind; [auto with procs|intros ?]). auto with procs. Qed.
#[export] Hint Resolve keeps_holding : procs.

Lemma keeps_acquire me l : keeps_procs (acquire me l).
Proof.
  unfold acquire. apply keeps_bind; [apply keeps_pushcli|intros _]. apply keeps_bind; [apply keeps_holding|intros []]; [apply keeps_stop|].
  apply keeps_bind; [apply keeps_gets|intros lk]. apply keeps_if; [apply keeps_spin|]. apply keeps_bind; [by apply keeps_lock|intros _].
  apply keeps_bind; [apply keeps_mycpu|intros c]. by apply keeps_lock.
Qed.
Lemma keeps_release me l : keeps_procs (release me l).
Proof.
  unfold release. apply keeps_bind; [apply keeps_holding|intros []]; [|apply keeps_stop]. cbn [negb].
  do 2 (apply keeps_bind; [by apply keeps_lock|intros _]). apply keeps_popcli.
Qed.

(** myproc() is the process of its processor. *)
Lemma wlp_mycpu me s (Q : Z -> mach -> Prop) : present me s -> Q me s -> wlp (mycpu me) s Q.
Proof.
  intros Hp HQ. destruct (ifl (the_cpu me s)) eqn:E; [unfold mycpu, wlp, bind, gets; by rewrite E|]. by apply wlp_wp, wp_mycpu.
Qed.

Lemma wlp_myproc me s : present me s -> wlp (myproc me) s (fun p s' => p = cproc (the_cpu me s) /\ same_procs s s').
Proof.
  intros Hp. unfold myproc. apply wlp_bind. apply wlp_wp, wp_pushcli; [done|]. set (s1 := upd_cpu me pushed s).
  assert (E1 : same_procs s s1) by (by apply same_upd). assert (Hp1 : present me s1) by (by apply present_upd).
  apply wlp_bind, wlp_mycpu; [done|]. apply wlp_bind, wlp_gets. apply wlp_bind. eapply wlp_mono; [apply keeps_popcli|].
  intros [] s2 E2. apply wlp_ret. split; [by destruct E1 as [_ E1]; destruct (E1 me)|exact (same_procs_trans _ _ _ E1 E2)].
Qed.

Lemma present_same me m m' : same_procs m m' -> present me m -> present me m'.
Proof.
  intros [H1 H2] [P1 P2]. split; [|by rewrite H1]. intros i j Hi Hj E. rewrite H1 in Hi, Hj. destruct (H2 i) as [Ei _], (H2 j) as [Ej _]. rewrite Ei, Ej in E.
  by apply P1.
Qed.

(** ** The process table *)

Section Table.
Context {F : Type} `{FsOps F}.
Variables kend kdata trapret_ forkret_ ptable_addr : Z.

Abbreviation kern := (@kern F).
Implicit Types s : kern.

Lemma the_proc_upd p f s i : 0 <= p < Z.of_nat (length (ptab s)) ->
  the_proc i (upd_proc p f s) = if p =? i then f (the_proc p s) else the_proc i s.
Proof. intros Hp. unfold the_proc, upd_proc. cbn. rewrite aget_aset by done. done. Qed.

(** [s'] differs from [s] in the entry [np] of the table only, as far as the
    table, the processes of the processors and initproc go. *)
Record frame (np : Z) (s s' : kern) : Prop := {
  fr_len : length (ptab s') = length (ptab s);
  fr_other : forall i, i <> np -> the_proc i s' = the_proc i s;
  fr_mc : same_procs (mc s) (mc s');
  fr_init : initproc s' = initproc s;
}.

Lemma frame_refl np s : frame np s s.
Proof. constructor; try done. Qed.

Lemma frame_trans np s1 s2 s3 : frame np s1 s2 -> frame np s2 s3 -> frame np s1 s3.
Proof.
  intros [A1 A2 A3 A4] [B1 B2 B3 B4]. constructor; [congruence| |by eapply same_procs_trans|congruence].
  intros i Hi. by rewrite B2, A2.
Qed.

Lemma frame_mc np s m : same_procs (mc s) m -> frame np s (set_mc m s).
Proof. intros E. by constructor. Qed.

Lemma frame_upd np f s : frame np s (upd_proc np f s).
Proof.
  constructor; [cbn; by rewrite length_aset| |done|done]. intros i Hi. unfold the_proc, upd_proc. cbn. rewrite aget_aset_ne by done. done.
Qed.

Section Me.
Context (me : Z).

Lemma wlp_on_km {A} (m : M kmem A) s (Q : A -> kern -> Prop) : (forall a k, Q a (set_km k s)) -> wlp (on_km m) s Q.
Proof. intros HQ. apply wlp_zoom, wlp_any. auto. Qed.

Lemma wlp_on_fs {A} (m : M F A) s (Q : A -> kern -> Prop) : (forall a k, Q a (set_fsys k s)) -> wlp (on_fs m) s Q.
Proof. intros HQ. apply wlp_zoom, wlp_any. auto. Qed.

Lemma wlp_on_mc {A} (m : M mach A) s (Q : A -> kern -> Prop) : keeps_procs m ->
  (forall a m', same_procs (mc s) m' -> Q a (set_mc m' s)) -> wlp (on_mc m) s Q.
Proof. intros K HQ. apply wlp_zoom. eapply wlp_mono; [apply K|]. auto. Qed.

Lemma wlp_lock s (Q : unit -> kern -> Prop) : (forall m', same_procs (mc s) m' -> Q tt (set_mc m' s)) -> wlp (lock_ptable me) s Q.
Proof. intros HQ. apply wlp_on_mc; [apply keeps_acquire|]. intros [] m' E. auto. Qed.

Lemma wlp_unlock s (Q : unit -> kern -> Prop) : (forall m', same_procs (mc s) m' -> Q tt (set_mc m' s)) -> wlp (unlock_ptable me) s Q.
Proof. intros HQ. apply wlp_on_mc; [apply keeps_release|]. intros [] m' E. auto. Qed.

Lemma wlp_curproc s (Q : Z -> kern -> Prop) : present me (mc s) ->
  (forall m', same_procs (mc s) m' -> Q (cproc (the_cpu me (mc s))) (set_mc m' s)) -> wlp (curproc me) s Q.
Proof. intros Hp HQ. apply wlp_zoom. eapply wlp_mono; [by apply wlp_myproc|]. cbn. intros p m' [-> E]. auto. Qed.

Lemma wlp_find f s (Q : option Z -> kern -> Prop) :
  (forall p, 0 <= p < NPROC -> f (the_proc p s) = true -> (forall q, 0 <= q < p -> f (the_proc q s) = false) -> Q (Some p) s) ->
  ((forall p, 0 <= p < NPROC -> f (the_proc p s) = false) -> Q None s) ->
  wlp (find_proc f) s Q.
Proof.
  intros HS HN. unfold find_proc. apply wlp_wp, (wp_search (fun i s' => s' = s /\ forall q, 0 <= q < i -> f (the_proc q s) = false)).
  - split; [done|intros; lia].
  - intros k s' Hk (-> & Hb). apply wp_bind, wp_gets, wp_ret. destruct (f (the_proc k s)) eqn:E; [apply HS; [unfold NPROC; lia|done|done]|].
    split; [done|]. intros q Hq. destruct (decide (q = k)) as [->|]; [done|]. apply Hb. lia.
  - intros s' (-> & Hb). apply HN. intros p Hp. apply Hb. unfold NPROC in Hp. lia.
Qed.

(** allocproc(): a free entry becomes an embryo with a new pid and the
    parent [pr]. *)
Definition embryo (np pr : Z) (s s' : kern) : Prop :=
  frame np s s' /\ state (the_proc np s') = EMBRYO /\ pid (the_proc np s') = nextpid s /\
  parent (the_proc np s') = pr /\ killed (the_proc np s') = killed (the_proc np s) /\ nextpid s' = nextpid s + 1.

(** The entry is free again. *)
Definition undone (np : Z) (s s' : kern) : Prop :=
  frame np s s' /\ state (the_proc np s') = UNUSED /\ parent (the_proc np s') = parent (the_proc np s) /\ nextpid s' = nextpid s + 1.

Lemma wlp_allocproc s (Q : Z -> kern -> Prop) : length (ptab s) = 64%nat ->
  (forall s', frame (-1) s s' -> nextpid s' = nextpid s -> Q (-1) s') ->
  (forall np s', 0 <= np < NPROC -> state (the_proc np s) = UNUSED -> undone np s s' -> Q (-1) s') ->
  (forall np s', 0 <= np < NPROC -> state (the_proc np s) = UNUSED -> nextpid s < 2 ^ 31 - 1 ->
     (forall q, 0 <= q < np -> state (the_proc q s) <> UNUSED) -> embryo np (parent (the_proc np s)) s s' -> Q np s') ->
  wlp (allocproc trapret_ forkret_ me) s Q.
Proof.
  intros HL HN HU HE. unfold allocproc. apply wlp_bind, wlp_lock. intros m1 E1. apply wlp_bind, wlp_find.
  2:{ intros _. apply wlp_bind, wlp_unlock. intros m2 E2. apply wlp_ret, HN; [|done]. apply (frame_mc _ s). by eapply same_procs_trans. }
  intros np Hnp Hst Hfst. change (the_proc ?i (set_mc m1 s)) with (the_proc i s) in *.
  assert (Hu : state (the_proc np s) = UNUSED) by (destruct (state (the_proc np s)); done).
  assert (Hr : 0 <= np < Z.of_nat (length (ptab s))) by (rewrite HL; unfold NPROC in Hnp; lia).
  apply wlp_bind, wlp_modify, wlp_bind, wlp_gets, wlp_bind, wlp_modify, wlp_bind, wlp_require. intros Hn. cbn [nextpid set_ptab upd_proc set_mc] in Hn.
  apply wlp_bind, wlp_modify, wlp_bind, wlp_unlock. intros m2 E2. apply wlp_bind, wlp_on_km. intros k km1. apply wlp_bind, wlp_modify.
  set (s1 := set_km km1 _). assert (F1 : frame np s s1).
  { constructor; unfold s1; cbn [ptab upd_proc set_ptab set_mc set_km set_nextpid mc initproc]; [by rewrite !length_aset| |by eapply same_procs_trans|done].
    intros i Hi. unfold the_proc, upd_proc. cbn. rewrite !aget_aset_ne by done. done. }
  assert (P1 : the_proc np s1 = set_pid (nextpid s) (set_state EMBRYO (the_proc np s))).
  { unfold s1, the_proc, upd_proc. cbn. unfold the_proc. cbn. rewrite !aget_aset_eq; [done|rewrite ?length_aset; done..]. }
  assert (N1 : nextpid s1 = nextpid s + 1) by done. clearbody s1.
  assert (Hr1 : 0 <= np < Z.of_nat (length (ptab s1))) by (by rewrite (fr_len _ _ _ F1)).
  apply wlp_if; intros Hk.
  - apply wlp_bind, wlp_modify, wlp_ret. apply (HU np); [done|done|]. unfold undone. split; [eapply frame_trans; [exact F1|]; eapply frame_trans; apply frame_upd|].
    rewrite the_proc_upd by (cbn; by rewrite length_aset). rewrite Z.eqb_refl. rewrite the_proc_upd, Z.eqb_refl by done. rewrite P1. done.
  - apply wlp_bind, wlp_modify, wlp_bind, wlp_on_km. intros _ km2. apply wlp_bind, wlp_modify, wlp_bind, wlp_on_km. intros _ km3.
    apply wlp_bind, wlp_on_km. intros _ km4. apply wlp_ret. apply HE; [done|done|lia| |].
    { intros q Hq E. specialize (Hfst q Hq). cbn in Hfst. rewrite E in Hfst. done. }
    set (s2 := set_km km4 _). assert (P2 : the_proc np s2 = set_context KForkret (set_tf (k + KSTACKSIZE - 76) (set_kstack k (the_proc np s1)))).
    { unfold s2, the_proc, upd_proc. cbn. unfold the_proc. cbn. rewrite !aget_aset_eq; [done|rewrite ?length_aset; done..]. }
    unfold embryo. rewrite P2, P1. split_and!; try done.
    unfold s2. eapply frame_trans; [exact F1|]. constructor; cbn; [by rewrite !length_aset| |done|done].
    intros i Hi. unfold the_proc, upd_proc. cbn. rewrite !aget_aset_ne by done. done.
Qed.

Section Embryo.
Context (np pr : Z) (s : kern).

Lemma embryo_km k s1 : embryo np pr s s1 -> embryo np pr s (set_km k s1).
Proof. intros ([A1 A2 A3 A4] & E). split; [by constructor|exact E]. Qed.
Lemma embryo_fs k s1 : embryo np pr s s1 -> embryo np pr s (set_fsys k s1).
Proof. intros ([A1 A2 A3 A4] & E). split; [by constructor|exact E]. Qed.
Lemma embryo_mc m s1 : same_procs (mc s1) m -> embryo np pr s s1 -> embryo np pr s (set_mc m s1).
Proof. intros Em ([A1 A2 A3 A4] & E). split; [constructor; [done|done|by eapply same_procs_trans|done]|exact E]. Qed.

Lemma frame_in s1 : frame np s s1 -> 0 <= np < Z.of_nat (length (ptab s)) -> 0 <= np < Z.of_nat (length (ptab s1)).
Proof. intros Hf. by rewrite (fr_len _ _ _ Hf). Qed.

Lemma embryo_upd f pr' s1 : 0 <= np < Z.of_nat (length (ptab s)) -> embryo np pr s s1 ->
  (forall p, state (f p) = state p /\ pid (f p) = pid p /\ killed (f p) = killed p) -> parent (f (the_proc np s1)) = pr' ->
  embryo np pr' s (upd_proc np f s1).
Proof.
  intros Hr (E1 & E2 & E3 & E4 & E5 & E6) Hf Hp. destruct (Hf (the_proc np s1)) as (F1 & F2 & F3). unfold embryo.
  rewrite the_proc_upd by (by apply frame_in). rewrite Z.eqb_refl. split_and!; try congruence; [|done]. eapply frame_trans; [exact E1|apply frame_upd].
Qed.
End Embryo.

(** A piece of code that keeps the embryo, giving it the parent [pr']. *)
Definition emb {A} (np : Z) (s : kern) (pr pr' : Z) (m : M kern A) : Prop :=
  forall s1, embryo np pr s s1 -> wlp m s1 (fun _ s2 => embryo np pr' s s2).

Section Emb.
Context (np : Z) (s : kern) (Hr : 0 <= np < Z.of_nat (length (ptab s))).

Lemma emb_km {A} pr (m : M kmem A) : emb np s pr pr (on_km m).
Proof. intros s1 E. apply wlp_on_km. intros _ k. by apply embryo_km. Qed.
Lemma emb_fs {A} pr (m : M F A) : emb np s pr pr (on_fs m).
Proof. intros s1 E. apply wlp_on_fs. intros _ k. by apply embryo_fs. Qed.
Lemma emb_gets {A} pr (f : kern -> A) : emb np s pr pr (gets f).
Proof. intros s1 E. by apply wlp_gets. Qed.
Lemma emb_lock pr : emb np s pr pr (lock_ptable me).
Proof. intros s1 E. apply wlp_lock. intros m Em. by apply embryo_mc. Qed.
Lemma emb_pset pr f : (forall p, state (f p) = state p /\ pid (f p) = pid p /\ killed (f p) = killed p /\ parent (f p) = parent p) -> emb np s pr pr (pset np f).
Proof.
  intros Hf s1 E. apply wlp_modify. eapply embryo_upd; [done|exact E|intros p; destruct (Hf p) as (? & ? & ? & ?); done|].
  destruct (Hf (the_proc np s1)) as (_ & _ & _ & ->). by destruct E as (_ & _ & _ & E & _).
Qed.
Lemma emb_parent pr pr' : emb np s pr pr' (pset np (set_parent pr')).
Proof. intros s1 E. apply wlp_modify. by eapply embryo_upd. Qed.
Lemma emb_bind {A B} pr pr1 pr2 (m : M kern A) (k : A -> M kern B) : emb np s pr pr1 m -> (forall a, emb np s pr1 pr2 (k a)) -> emb np s pr pr2 (bind m k).
Proof. intros H1 H2 s1 E. apply wlp_bind. eapply wlp_mono; [by apply H1|]. intros a s2 E2. by apply H2. Qed.
Lemma emb_when pr b m : emb np s pr pr m -> emb np s pr pr (when b m).
Proof. intros Hm s1 E. apply wlp_when; intros _; [by apply Hm|done]. Qed.
Lemma emb_for pr lo hi body : (forall i, emb np s pr pr (body i)) -> emb np s pr pr (for_up lo hi body).
Proof. intros Hb s1 E. apply (wlp_for_up (fun _ s2 => embryo np pr s s2)); [done| |done]. intros i s2 _ E2. by apply Hb. Qed.
Lemma wlp_emb {A} pr pr' (m : M kern A) s1 Q : emb np s pr pr' m -> embryo np pr s s1 -> (forall a s2, embryo np pr' s s2 -> Q a s2) -> wlp m s1 Q.
Proof. intros Hm E HQ. eapply wlp_mono; [by apply Hm|]. auto. Qed.

(** Copying the open files. *)
Lemma emb_files cp pr : emb np s pr pr (for_up 0 NOFILE (fun i =>
  let! f := pget cp (fun x => aget 0 (ofile x) i) in
  when (negb (f =? 0)) (let! f' := on_fs (f_filedup f) in pset np (fun x => set_ofile (aset (ofile x) i f') x)))).
Proof.
  apply emb_for. intros i. eapply emb_bind; [apply emb_gets|]. intros f. apply emb_when. eapply emb_bind; [apply emb_fs|]. intros f'. by apply emb_pset.
Qed.

(** The embryo is given back. *)
Lemma wlp_undo pr s1 (Q : Z -> kern -> Prop) : pr = parent (the_proc np s) -> embryo np pr s s1 ->
  (forall s', undone np s s' -> Q (-1) s') ->
  wlp (let! k := pget np kstack in on_km (kfree kend k) ;;; pset np (set_kstack 0) ;;; pset np (set_state UNUSED) ;;; ret (-1)) s1 Q.
Proof.
  intros -> E1 HQ. apply wlp_bind, wlp_gets, wlp_bind, wlp_on_km. intros _ k2. apply wlp_bind.
  eapply (wlp_emb _ _ (pset np (set_kstack 0))); [by apply emb_pset|by apply embryo_km|]. intros _ s2 (E2 & E3 & E4 & E5 & E6 & E7).
  apply wlp_bind, wlp_modify, wlp_ret, HQ. pose proof (frame_in _ _ _ E2 Hr) as Hr2. unfold undone.
  rewrite the_proc_upd, Z.eqb_refl by done. split_and!; [|done|done|done]. eapply frame_trans; [exact E2|apply frame_upd].
Qed.
End Emb.

(** fork(): nothing, an entry given back, or a new process. *)
Definition forked (np : Z) (s s' : kern) : Prop :=
  frame np s s' /\ state (the_proc np s') = RUNNABLE /\ pid (the_proc np s') = nextpid s /\
  parent (the_proc np s') = cproc (the_cpu me (mc s)) /\ killed (the_proc np s') = killed (the_proc np s) /\ nextpid s' = nextpid s + 1.

Lemma wlp_fork_child cp np s s1 d sz0 (Q : Z -> kern -> Prop) : 0 <= np < Z.of_nat (length (ptab s)) ->
  cp = cproc (the_cpu me (mc s)) -> embryo np (parent (the_proc np s)) s s1 ->
  (forall s', undone np s s' -> Q (-1) s') -> (forall s', forked np s s' -> Q (nextpid s) s') ->
  wlp (let! nd := on_km (copyuvm kend kdata d sz0) in
    pset np (set_pgdir nd) ;;;
    if nd =? 0 then let! k := pget np kstack in on_km (kfree kend k) ;;; pset np (set_kstack 0) ;;; pset np (set_state UNUSED) ;;; ret (-1)
    else
      pset np (set_sz sz0) ;;; pset np (set_parent cp) ;;;
      let! t := pget np tf in let! ct := pget cp tf in
      on_km (on_mem (memcpy t ct 76)) ;;; on_km (on_mem (store32 (t + 28) 0)) ;;;
      for_up 0 NOFILE (fun i =>
        let! f := pget cp (fun x => aget 0 (ofile x) i) in
        when (negb (f =? 0)) (let! f' := on_fs (f_filedup f) in pset np (fun x => set_ofile (aset (ofile x) i f') x))) ;;;
      let! c := pget cp cwd in let! c' := on_fs (f_idup c) in pset np (set_cwd c') ;;;
      let! nm := pget cp name in pset np (fun x => set_name (name_copy (name x) nm 16) x) ;;;
      let! pd := pget np pid in
      lock_ptable me ;;; pset np (set_state RUNNABLE) ;;; unlock_ptable me ;;; ret pd) s1 Q.
Proof.
  intros Hr Ecp E1 HU HF. pose proof (@wlp_emb np s) as W. apply wlp_bind. eapply W; [apply emb_km|exact E1|]. intros nd s2 E2.
  apply wlp_bind. eapply W; [by apply emb_pset|exact E2|]. intros _ s3 E3. apply wlp_if; intros _; [by eapply wlp_undo|].
  apply wlp_bind. eapply W; [by apply emb_pset|exact E3|]. intros _ s4 E4.
  apply wlp_bind. eapply W; [by apply (emb_parent _ _ Hr _ cp)|exact E4|]. intros _ s5 E5.
  do 2 apply wlp_bind, wlp_gets. apply wlp_bind. eapply W; [apply emb_km|exact E5|]. intros _ s6 E6.
  apply wlp_bind. eapply W; [apply emb_km|exact E6|]. intros _ s7 E7.
  apply wlp_bind. eapply W; [by apply emb_files|exact E7|]. intros _ s8 E8. apply wlp_bind, wlp_gets.
  apply wlp_bind. eapply W; [apply emb_fs|exact E8|]. intros c' s9 E9.
  apply wlp_bind. eapply W; [by apply emb_pset|exact E9|]. intros _ s10 E10. apply wlp_bind, wlp_gets.
  apply wlp_bind. eapply W; [by apply emb_pset|exact E10|]. intros _ s11 E11. apply wlp_bind, wlp_gets.
  assert (Epd : pid (the_proc np s11) = nextpid s) by (by destruct E11 as (_ & _ & E & _)). rewrite Epd.
  apply wlp_bind. eapply W; [apply emb_lock|exact E11|]. intros _ s12 (X1 & X2 & X3 & X4 & X5 & X6). apply wlp_bind, wlp_modify, wlp_bind, wlp_unlock. intros m Em.
  apply wlp_ret, HF. pose proof (frame_in _ _ _ X1 Hr) as Hr2. change (mc (upd_proc np (set_state RUNNABLE) s12)) with (mc s12) in Em.
  assert (Ep : the_proc np (set_mc m (upd_proc np (set_state RUNNABLE) s12)) = set_state RUNNABLE (the_proc np s12)).
  { change (the_proc np (set_mc m ?x)) with (the_proc np x). by rewrite the_proc_upd, Z.eqb_refl. }
  unfold forked. rewrite Ep. split_and!; try done; [|by rewrite <- Ecp]. eapply frame_trans; [exact X1|]. eapply frame_trans; [apply (frame_upd np (set_state RUNNABLE))|]. by apply frame_mc.
Qed.

Lemma wlp_fork s (Q : Z -> kern -> Prop) : length (ptab s) = 64%nat -> present me (mc s) ->
  (forall s', frame (-1) s s' -> nextpid s' = nextpid s -> Q (-1) s') ->
  (forall np s', 0 <= np < NPROC -> state (the_proc np s) = UNUSED -> undone np s s' -> Q (-1) s') ->
  (forall np s', 0 <= np < NPROC -> state (the_proc np s) = UNUSED -> forked np s s' -> Q (nextpid s) s') ->
  wlp (fork kend kdata trapret_ forkret_ me) s Q.
Proof.
  intros HL HP HN HU HE. unfold fork. apply wlp_bind, wlp_curproc; [done|]. intros m1 E1.
  apply wlp_bind, wlp_allocproc; [done| | |].
  - intros s1 F1 N1. cbn [Z.ltb Z.compare]. apply wlp_ret, HN; [eapply frame_trans; [by apply (frame_mc _ s m1)|done]|done].
  - intros np s1 Hnp Hu (F1 & F2 & F3 & F4). cbn [Z.ltb Z.compare]. apply wlp_ret, (HU np); [done|done|]. split; [|done]. eapply frame_trans; [by apply (frame_mc np s m1)|done].
  - intros np s1 Hnp Hu _ _ EM. change (the_proc np (set_mc m1 s)) with (the_proc np s) in *.
    assert (Hr : 0 <= np < Z.of_nat (length (ptab s))) by (rewrite HL; unfold NPROC in Hnp; lia).
    replace (np <? 0) with false by lia. do 2 apply wlp_bind, wlp_gets. apply (wlp_fork_child _ np s); [done|done| |intros s2 U; by apply (HU np)|intros s2 U; by apply (HE np)].
    destruct EM as (EM1 & EM). split; [eapply frame_trans; [by apply (frame_mc np s m1)|exact EM1]|exact EM].
Qed.
End Me.
End Table.
