(* ===== verification/ProcInv.v ===== *)
(** Invariants of the process system.

    [tab_inv] is about the table (process ids, parents, sleeping in wait()),
    [cpu_inv] about which process runs where.  Each routine of proc.c is
    reduced to what it does to the [key] of the entries, and each such
    change keeps the invariants. *)

From Stdlib Require Import ZArith Lia.
From stdpp Require Import base gmap strings numbers list.
From S2P Require Import Prelude Kstring Mem Kalloc Vm Spinlock Proc ProcStep.

Open Scope Z_scope.
Open Scope kern_scope.

Definition live (st : procstate) : Prop := st = SLEEPING \/ st = RUNNABLE \/ st = RUNNING.

(** What the invariants see of an entry. *)
Definition key (p : proc) : procstate * Z * Z * Z := (state p, pid p, parent p, chan p).

Lemma key_fields p q : key p = key q -> state p = state q /\ pid p = pid q /\ parent p = parent q /\ chan p = chan q.
Proof. by intros [= ? ? ? ?]. Qed.

Section Inv.
Context {F : Type} `{FsOps F}.
Variables kend kdata trapret_ forkret_ ptable_addr : Z.

Abbreviation kern := (@kern F).
Abbreviation paddr := (paddr ptable_addr).
Implicit Types s : kern.

Definition inr (p : Z) : Prop := 0 <= p < NPROC.

Record tab_inv (s : kern) : Prop := {
  t_len : length (ptab s) = 64%nat;
  t_npid : 1 <= nextpid s;
  t_pid : forall p, inr p -> state (the_proc p s) <> UNUSED -> 0 < pid (the_proc p s) < nextpid s;
  t_pids : forall p q, inr p -> inr q -> state (the_proc p s) <> UNUSED -> state (the_proc q s) <> UNUSED ->
    pid (the_proc p s) = pid (the_proc q s) -> p = q;
  t_free : forall p, inr p -> state (the_proc p s) = UNUSED -> parent (the_proc p s) = -1;
  t_parent : forall p, inr p -> parent (the_proc p s) = -1 \/ inr (parent (the_proc p s)) /\ live (state (the_proc (parent (the_proc p s)) s));
  t_noself : forall p, inr p -> parent (the_proc p s) <> p;
  t_initp : parent (the_proc (initproc s) s) = -1;
  t_init : inr (initproc s) /\ live (state (the_proc (initproc s) s));
  (* a process that sleeps in wait() has no child to reap *)
  t_wait : forall p c, inr p -> inr c -> state (the_proc p s) = SLEEPING -> chan (the_proc p s) = paddr p ->
    parent (the_proc c s) = p -> state (the_proc c s) <> ZOMBIE;
}.

Definition on_cpu (c : Z) (s : kern) : Z := cproc (the_cpu c (mc s)).
Definition is_cpu (c : Z) (s : kern) : Prop := 0 <= c < Z.of_nat (length (cpus (mc s))).

Record cpu_inv (s : kern) : Prop := {
  c_mach : mach_ok (mc s);
  c_run : forall c, is_cpu c s -> on_cpu c s = -1 \/ inr (on_cpu c s) /\ state (the_proc (on_cpu c s) s) = RUNNING;
  c_one : forall c c', is_cpu c s -> is_cpu c' s -> on_cpu c s = on_cpu c' s -> on_cpu c s <> -1 -> c = c';
  c_all : forall p, inr p -> state (the_proc p s) = RUNNING -> exists c, is_cpu c s /\ on_cpu c s = p;
}.

Lemma cpu_present s c : cpu_inv s -> is_cpu c s -> present c (mc s).
Proof. intros HI Hc. split; [apply HI|exact Hc]. Qed.

(** Nothing the invariants see changes. *)
Record same_tab (s s' : kern) : Prop := {
  st_len : length (ptab s') = length (ptab s);
  st_key : forall i, key (the_proc i s') = key (the_proc i s);
  st_mc : same_procs (mc s) (mc s');
  st_init : initproc s' = initproc s;
  st_npid : nextpid s' = nextpid s;
}.

Lemma same_tab_refl s : same_tab s s.
Proof. by constructor. Qed.

Lemma same_tab_trans a b c : same_tab a b -> same_tab b c -> same_tab a c.
Proof.
  intros [A1 A2 A3 A4 A5] [B1 B2 B3 B4 B5]. constructor; [congruence| |by eapply same_procs_trans|congruence|congruence].
  intros i. by rewrite B2.
Qed.

Lemma same_tab_km k s : same_tab s (set_km k s).
Proof. by constructor. Qed.
Lemma same_tab_fs k s : same_tab s (set_fsys k s).
Proof. by constructor. Qed.
Lemma same_tab_mc m s : same_procs (mc s) m -> same_tab s (set_mc m s).
Proof. by constructor. Qed.
Lemma same_tab_upd p f s : (forall x, key (f x) = key x) -> same_tab s (upd_proc p f s).
Proof.
  intros Hf. constructor; [cbn; by rewrite length_aset| |done|done|done]. intros i. unfold the_proc, upd_proc. cbn.
  destruct (decide (0 <= p < Z.of_nat (length (ptab s)))) as [Hp|Hp].
  - rewrite aget_aset by done. destruct (Z.eqb_spec p i) as [<-|]; [apply Hf|done].
  - unfold aset. destruct (Z.ltb_spec p 0); [done|]. by rewrite list_insert_ge by lia.
Qed.

(** ** Changes of one entry *)

(** Entry [p] gets the key of [e]; [dn] new process ids are used up. *)
Record entry (p : Z) (e : proc) (dn : Z) (s s' : kern) : Prop := {
  en_len : length (ptab s') = length (ptab s);
  en_p : key (the_proc p s') = key e;
  en_other : forall i, i <> p -> key (the_proc i s') = key (the_proc i s);
  en_init : initproc s' = initproc s;
  en_npid : nextpid s' = nextpid s + dn;
}.

Lemma entry_key p e dn s s' i : entry p e dn s s' -> key (the_proc i s') = if i =? p then key e else key (the_proc i s).
Proof. intros E. destruct (Z.eqb_spec i p) as [Ei|Ei]; [rewrite Ei; apply (en_p _ _ _ _ _ E)|by apply (en_other _ _ _ _ _ E)]. Qed.

(** A table as a function to keys: the invariant in terms of it. *)
Lemma tab_inv_entry p e dn s s' : tab_inv s -> inr p -> entry p e dn s s' -> 0 <= dn ->
  (state e <> UNUSED -> 0 < pid e < nextpid s + dn /\ forall q, inr q -> q <> p -> state (the_proc q s) <> UNUSED -> pid (the_proc q s) <> pid e) ->
  (state e = UNUSED -> parent e = -1) ->
  (parent e = -1 \/ inr (parent e) /\ parent e <> p /\ live (state (the_proc (parent e) s)) \/ parent e = parent (the_proc p s)) ->
  (live (state (the_proc p s)) -> live (state e)) ->
  (state e = SLEEPING -> chan e = paddr p -> forall c, inr c -> c <> p -> parent (the_proc c s) = p -> state (the_proc c s) <> ZOMBIE) ->
  (state e = ZOMBIE -> state (the_proc p s) = ZOMBIE /\ parent e = parent (the_proc p s)) ->
  (p = initproc s -> parent e = parent (the_proc p s)) ->
  tab_inv s'.
Proof.
  intros [T1 T2 T3 T4 T5 T6 T9 T10 T7 T8] Hp E Hdn C1 C2 C3 C4 C5 C6 C7.
  assert (K : forall i, if i =? p then state (the_proc i s') = state e /\ pid (the_proc i s') = pid e /\ parent (the_proc i s') = parent e /\ chan (the_proc i s') = chan e
    else state (the_proc i s') = state (the_proc i s) /\ pid (the_proc i s') = pid (the_proc i s) /\ parent (the_proc i s') = parent (the_proc i s) /\ chan (the_proc i s') = chan (the_proc i s)).
  { intros i. pose proof (entry_key _ _ _ _ _ i E) as Ek. destruct (i =? p); by apply key_fields in Ek. }
  assert (KL : forall i, live (state (the_proc i s)) -> live (state (the_proc i s'))).
  { intros i Hl. pose proof (K i) as Ki. destruct (Z.eqb_spec i p) as [Ei|Ei]; destruct Ki as (Ks & _); rewrite Ks; [|done]. rewrite Ei in Hl. auto. }
  pose proof (en_npid _ _ _ _ _ E) as EN. pose proof (en_init _ _ _ _ _ E) as EI.
  constructor.
  - rewrite (en_len _ _ _ _ _ E). done.
  - lia.
  - intros i Hi Hs. pose proof (K i) as Ki. destruct (Z.eqb_spec i p) as [->|]; destruct Ki as (K1 & K2 & _); rewrite K2, EN; rewrite K1 in Hs.
    + destruct (C1 Hs). lia.
    + specialize (T3 i Hi Hs). lia.
  - intros i j Hi Hj Hsi Hsj Epid. pose proof (K i) as Ki. pose proof (K j) as Kj. destruct (Z.eqb_spec i p) as [->|Hip], (Z.eqb_spec j p) as [->|Hjp]; try done;
      destruct Ki as (K1 & K2 & _), Kj as (K3 & K4 & _); rewrite K1 in Hsi; rewrite K3 in Hsj; rewrite K2, K4 in Epid.
    + destruct (C1 Hsi) as [_ C]. exfalso. by apply (C j).
    + destruct (C1 Hsj) as [_ C]. exfalso. by apply (C i).
    + by apply T4.
  - intros i Hi Hs. pose proof (K i) as Ki. destruct (Z.eqb_spec i p) as [->|]; destruct Ki as (K1 & _ & K3 & _); rewrite K1 in Hs; rewrite K3; auto.
  - intros i Hi. pose proof (K i) as Ki. destruct (Z.eqb_spec i p) as [->|Hip]; destruct Ki as (_ & _ & K3 & _); rewrite K3.
    + destruct C3 as [C3|[(C3 & C3' & C3'')|C3]]; [by left|right; split; auto|]. rewrite C3. destruct (T6 p Hi) as [?|[? ?]]; [by left|right; auto].
    + destruct (T6 i Hi) as [?|[? ?]]; [by left|right; auto].
  - intros i Hi. pose proof (K i) as Ki. destruct (Z.eqb_spec i p) as [->|Hip]; destruct Ki as (_ & _ & K3 & _); rewrite K3; [|auto].
    destruct C3 as [C3|[(_ & C3 & _)|C3]]; [unfold inr in Hi; lia|done|rewrite C3; auto].
  - rewrite EI. pose proof (K (initproc s)) as Ki. destruct (Z.eqb_spec (initproc s) p) as [Ep|]; destruct Ki as (_ & _ & K3 & _); rewrite K3; [|done].
    rewrite C7 by done. by rewrite <- Ep.
  - rewrite EI. destruct T7. split; auto.
  - intros i c Hi Hc Hsl Hch Hpar. pose proof (K i) as Ki. pose proof (K c) as Kc.
    assert (HZ : state (the_proc c s') = ZOMBIE -> state (the_proc c s) = ZOMBIE /\ parent (the_proc c s) = i).
    { intros Hz. destruct (Z.eqb_spec c p) as [->|Hcp]; destruct Kc as (K1 & _ & K3 & _); rewrite K1 in Hz; rewrite K3 in Hpar; [|done].
      destruct (C6 Hz) as [? E2]. split; [done|congruence]. }
    intros Hz. destruct (HZ Hz) as [Hz0 Hp0]. destruct (Z.eqb_spec i p) as [->|Hip]; destruct Ki as (K1 & _ & _ & K4); rewrite K1 in Hsl; rewrite K4 in Hch.
    + destruct (decide (c = p)) as [->|Hcp]; [|by apply (C5 Hsl Hch c)]. rewrite Z.eqb_refl in Kc. destruct Kc as (K5 & _). congruence.
    + by apply (T8 i c).
Qed.

(** Entries are woken up, and some are handed to init. *)
Record adopts (s s' : kern) : Prop := {
  ad_len : length (ptab s') = length (ptab s);
  ad_init : initproc s' = initproc s;
  ad_npid : nextpid s' = nextpid s;
  ad_pid : forall i, pid (the_proc i s') = pid (the_proc i s);
  ad_chan : forall i, chan (the_proc i s') = chan (the_proc i s);
  ad_state : forall i, state (the_proc i s') = state (the_proc i s) \/ state (the_proc i s) = SLEEPING /\ state (the_proc i s') = RUNNABLE;
  ad_parent : forall i, parent (the_proc i s') = parent (the_proc i s) \/
    parent (the_proc i s') = initproc s /\ parent (the_proc i s) <> -1 /\
    (state (the_proc i s) = ZOMBIE -> state (the_proc (initproc s) s') = SLEEPING -> chan (the_proc (initproc s) s) = paddr (initproc s) -> False);
}.

Lemma tab_inv_adopts s s' : tab_inv s -> adopts s s' -> tab_inv s'.
Proof.
  intros [T1 T2 T3 T4 T5 T6 T9 T10 T7 T8] [A1 A2 A3 A4 A5 A6 A7].
  assert (HU : forall i, state (the_proc i s') <> UNUSED -> state (the_proc i s) <> UNUSED) by (intros i Hs; destruct (A6 i) as [<-|[-> _]]; done).
  assert (HL : forall i, live (state (the_proc i s)) -> live (state (the_proc i s'))).
  { intros i Hl. destruct (A6 i) as [->|[_ ->]]; [done|]. right. by left. }
  constructor.
  - congruence.
  - lia.
  - intros p Hp Hs. rewrite A3, A4. auto.
  - intros p q Hp Hq Hs1 Hs2. rewrite !A4. auto.
  - intros p Hp Hs. assert (Hs0 : state (the_proc p s) = UNUSED) by (destruct (A6 p) as [<-|[_ E]]; [done|congruence]).
    destruct (A7 p) as [->|(_ & Hn & _)]; [auto|]. by rewrite T5 in Hn.
  - intros p Hp. destruct (A7 p) as [->|(-> & _)]; [destruct (T6 p Hp) as [?|[? ?]]; [by left|right; auto]|right; destruct T7; auto].
  - intros p Hp. destruct (A7 p) as [->|(-> & Hn & _)]; [auto|]. intros <-. by rewrite T10 in Hn.
  - rewrite A2. destruct (A7 (initproc s)) as [->|(_ & Hn & _)]; [done|]. by rewrite T10 in Hn.
  - rewrite A2. destruct T7. auto.
  - intros p c Hp Hc Hs Hch Hpar Hz. assert (Hs0 : state (the_proc p s) = SLEEPING) by (destruct (A6 p) as [<-|[? _]]; done).
    assert (Hz0 : state (the_proc c s) = ZOMBIE) by (destruct (A6 c) as [<-|[_ E]]; [done|congruence]). rewrite A5 in Hch.
    destruct (A7 c) as [E|(E & _ & HZ)]; rewrite E in Hpar; [by apply (T8 p c)|]. subst p. by apply HZ.
Qed.

Lemma adopts_refl s : adopts s s.
Proof. constructor; auto. Qed.

(** The last step of exit(). *)
Lemma tab_inv_zombie cp e s s' : tab_inv s -> inr cp -> entry cp e 0 s s' -> state e = ZOMBIE -> pid e = pid (the_proc cp s) ->
  parent e = parent (the_proc cp s) -> state (the_proc cp s) <> UNUSED -> cp <> initproc s -> (forall i, inr i -> parent (the_proc i s) <> cp) ->
  (state (the_proc (parent (the_proc cp s)) s) = SLEEPING -> chan (the_proc (parent (the_proc cp s)) s) = paddr (parent (the_proc cp s)) -> False) ->
  tab_inv s'.
Proof.
  intros [T1 T2 T3 T4 T5 T6 T9 T10 T7 T8] Hcp E Hz Hpid Hpar Hun Hni Hch Hw.
  assert (K : forall i, if i =? cp then state (the_proc i s') = ZOMBIE /\ pid (the_proc i s') = pid (the_proc i s) /\ parent (the_proc i s') = parent (the_proc i s)
    else state (the_proc i s') = state (the_proc i s) /\ pid (the_proc i s') = pid (the_proc i s) /\ parent (the_proc i s') = parent (the_proc i s)).
  { intros i. pose proof (entry_key _ _ _ _ _ i E) as Ek. destruct (Z.eqb_spec i cp) as [Ei|Ei]; apply key_fields in Ek as (K1 & K2 & K3 & _); [|done].
    subst i. split_and!; congruence. }
  assert (KP : forall i, pid (the_proc i s') = pid (the_proc i s) /\ parent (the_proc i s') = parent (the_proc i s)).
  { intros i. pose proof (K i) as Ki. destruct (i =? cp); by destruct Ki as (_ & ? & ?). }
  assert (KU : forall i, state (the_proc i s') <> UNUSED -> state (the_proc i s) <> UNUSED).
  { intros i Hs. pose proof (K i) as Ki. destruct (Z.eqb_spec i cp) as [Ei|Ei]; [by subst|]. destruct Ki as (<- & _). done. }
  assert (KL : forall i, i <> cp -> live (state (the_proc i s)) -> live (state (the_proc i s'))).
  { intros i Hi Hl. pose proof (K i) as Ki. replace (i =? cp) with false in Ki by lia. by destruct Ki as (-> & _). }
  pose proof (en_npid _ _ _ _ _ E) as EN. pose proof (en_init _ _ _ _ _ E) as EI. constructor.
  - rewrite (en_len _ _ _ _ _ E). done.
  - lia.
  - intros p Hp Hs. destruct (KP p) as [-> _]. specialize (T3 p Hp (KU p Hs)). lia.
  - intros p q Hp Hq Hs1 Hs2 Ep. destruct (KP p) as [E1 _], (KP q) as [E2 _]. rewrite E1, E2 in Ep. apply T4; auto.
  - intros p Hp Hs. destruct (KP p) as [_ ->]. apply T5; [done|]. pose proof (K p) as Ki. destruct (Z.eqb_spec p cp) as [->|]; destruct Ki as (E1 & _); congruence.
  - intros p Hp. destruct (KP p) as [_ ->]. destruct (T6 p Hp) as [?|[? ?]]; [by left|right]. split; [done|]. apply KL; [by apply Hch|done].
  - intros p Hp. destruct (KP p) as [_ ->]. auto.
  - rewrite EI. by destruct (KP (initproc s)) as [_ ->].
  - rewrite EI. destruct T7. split; [done|]. apply KL; [congruence|done].
  - intros p c Hp Hc Hs Hcn Hpc Hzc. destruct (KP c) as [_ Ec]. rewrite Ec in Hpc.
    assert (Hpcp : p <> cp) by (intros ->; by apply (Hch c)). pose proof (K p) as Kp. replace (p =? cp) with false in Kp by lia. destruct Kp as (E1 & _). rewrite E1 in Hs.
    pose proof (entry_key _ _ _ _ _ p E) as Ek. replace (p =? cp) with false in Ek by lia. apply key_fields in Ek as (_ & _ & _ & E4). rewrite E4 in Hcn.
    pose proof (K c) as Kc. destruct (Z.eqb_spec c cp) as [Ecc|]; destruct Kc as (E5 & _).
    + subst c. rewrite Hpc in Hw. by apply Hw.
    + rewrite E5 in Hzc. by apply (T8 p c).
Qed.

Lemma tab_inv_same s s' : tab_inv s -> same_tab s s' -> tab_inv s'.
Proof.
  intros T [A1 A2 A3 A4 A5]. apply (tab_inv_adopts s); [done|]. constructor; [done|done|done| | | |].
  all: intros i; destruct (key_fields _ _ (A2 i)) as (K1 & K2 & K3 & K4); auto.
Qed.

(** ** The processors *)

Lemma cpu_inv_same s s' : cpu_inv s -> same_procs (mc s) (mc s') ->
  (forall p, inr p -> state (the_proc p s') = RUNNING <-> state (the_proc p s) = RUNNING) -> cpu_inv s'.
Proof.
  intros [C1 C2 C3 C4] [E1 E2] HR. assert (EO : forall c, on_cpu c s' = on_cpu c s) by (intros c; by destruct (E2 c)).
  assert (EC : forall c, is_cpu c s' <-> is_cpu c s) by (intros c; unfold is_cpu; by rewrite E1). constructor.
  - intros i j Hi Hj Ea. rewrite E1 in Hi, Hj. destruct (E2 i) as [Ei _], (E2 j) as [Ej _]. rewrite Ei, Ej in Ea. by apply C1.
  - intros c Hc. rewrite EO. destruct (C2 c (proj1 (EC c) Hc)) as [?|[Hi Hs]]; [by left|right]. split; [done|]. by apply HR.
  - intros c c' Hc Hc'. rewrite !EO. apply C3; by apply EC.
  - intros p Hp Hs. apply HR in Hs; [|done]. destruct (C4 p Hp Hs) as (c & Hc & Eo). exists c. rewrite EO. split; [by apply EC|done].
Qed.

(** A processor gives its process up. *)
Lemma cpu_inv_off me p s s' : cpu_inv s -> is_cpu me s -> p = on_cpu me s -> p <> -1 -> mach_ok (mc s') -> length (cpus (mc s')) = length (cpus (mc s)) ->
  (forall c, on_cpu c s' = if c =? me then -1 else on_cpu c s) -> state (the_proc p s') <> RUNNING ->
  (forall q, inr q -> q <> p -> state (the_proc q s') = RUNNING <-> state (the_proc q s) = RUNNING) -> cpu_inv s'.
Proof.
  intros [C1 C2 C3 C4] Hme Hp Hp1 HM HL HO Hs HR. assert (EC : forall c, is_cpu c s' <-> is_cpu c s) by (intros c; unfold is_cpu; by rewrite HL). constructor; [done| | |].
  - intros c Hc. rewrite HO. destruct (Z.eqb_spec c me); [by left|]. destruct (C2 c (proj1 (EC c) Hc)) as [?|[Hi Hs']]; [by left|right]. split; [done|].
    apply HR; [done| |done]. intros E. apply n. apply (C3 c me); [by apply EC|done|congruence|congruence].
  - intros c c' Hc Hc'. rewrite !HO. destruct (Z.eqb_spec c me), (Z.eqb_spec c' me); try congruence; try lia. apply C3; by apply EC.
  - intros q Hq Hsq. assert (Hqp : q <> p) by (intros ->; done). apply HR in Hsq; [|done|done]. destruct (C4 q Hq Hsq) as (c & Hc & Eo).
    exists c. split; [by apply EC|]. rewrite HO. destruct (Z.eqb_spec c me); [congruence|done].
Qed.

(** A processor takes a process. *)
Lemma cpu_inv_on me p s s' : cpu_inv s -> is_cpu me s -> on_cpu me s = -1 -> inr p -> state (the_proc p s) <> RUNNING ->
  mach_ok (mc s') -> length (cpus (mc s')) = length (cpus (mc s)) -> (forall c, is_cpu c s -> on_cpu c s' = if c =? me then p else on_cpu c s) ->
  state (the_proc p s') = RUNNING -> (forall q, inr q -> q <> p -> state (the_proc q s') = RUNNING <-> state (the_proc q s) = RUNNING) -> cpu_inv s'.
Proof.
  intros [C1 C2 C3 C4] Hme Ho Hp Hns HM HL HO Hs HR. assert (EC : forall c, is_cpu c s' <-> is_cpu c s) by (intros c; unfold is_cpu; by rewrite HL).
  assert (Hfree : forall c, is_cpu c s -> on_cpu c s <> p).
  { intros c Hc E. destruct (C2 c Hc) as [E1|[_ E1]]; [unfold inr in Hp; lia|]. rewrite E in E1. done. }
  constructor; [done| | |].
  - intros c Hc. apply EC in Hc. rewrite HO by done. destruct (Z.eqb_spec c me); [by right|]. destruct (C2 c Hc) as [?|[Hi Hs']]; [by left|right]. split; [done|].
    apply HR; [done|by apply Hfree|done].
  - intros c c' Hc Hc'. apply EC in Hc, Hc'. rewrite !HO by done. destruct (Z.eqb_spec c me), (Z.eqb_spec c' me); subst; try done.
    + intros E _. symmetry in E. exfalso. by apply (Hfree c').
    + intros E _. exfalso. by apply (Hfree c).
    + by apply C3.
  - intros q Hq Hsq. destruct (decide (q = p)) as [->|Hqp]; [exists me; split; [by apply EC|by rewrite HO, Z.eqb_refl]|].
    apply HR in Hsq; [|done|done]. destruct (C4 q Hq Hsq) as (c & Hc & Eo). exists c. split; [by apply EC|]. rewrite HO by done.
    destruct (Z.eqb_spec c me); [|done]. subst c. unfold inr in Hq. lia.
Qed.
End Inv.
