(* ===== verification/ProcEff.v ===== *)
(** Every routine of proc.c keeps the invariants of the process system. *)

From Stdlib Require Import ZArith Lia.
From stdpp Require Import base gmap strings numbers list.
From S2P Require Import Prelude Kstring Mem Kalloc Vm Spinlock Proc ProcStep ProcInv.

Open Scope Z_scope.
Open Scope kern_scope.

Section Eff.
Context {F : Type} `{FsOps F}.
Variables kend kdata trapret_ forkret_ ptable_addr me : Z.

Abbreviation kern := (@kern F).
Abbreviation paddr := (paddr ptable_addr).
Abbreviation tab_inv := (tab_inv ptable_addr).
Implicit Types s : kern.

Record kinv s : Prop := { k_tab : tab_inv s; k_cpu : cpu_inv s }.

Lemma kinv_present s : kinv s -> is_cpu me s -> present me (mc s).
Proof. intros [_ HC] Hme. by apply cpu_present. Qed.

Lemma kinv_same s s' : kinv s -> same_tab s s' -> kinv s'.
Proof.
  intros [HT HC] HS. split; [by eapply tab_inv_same|]. apply (cpu_inv_same s); [done|apply HS|]. intros p _.
  destruct (key_fields _ _ (st_key _ _ HS p)) as (-> & _). done.
Qed.

Lemma kinv_adopts s s' : kinv s -> adopts ptable_addr s s' -> same_procs (mc s) (mc s') -> kinv s'.
Proof.
  intros [HT HC] HA HP. split; [by eapply tab_inv_adopts|]. apply (cpu_inv_same s); [done|done|]. intros p _.
  destruct (ad_state _ _ _ HA p) as [->|[-> ->]]; done.
Qed.

(** ** Code that does not touch what the invariants see *)

Definition calm {A} (m : M kern A) : Prop := forall s, wlp m s (fun _ s' => same_tab s s').

Lemma calm_km {A} (m : M kmem A) : calm (on_km m).
Proof. intros s. apply wlp_on_km. intros _ k. apply same_tab_km. Qed.
Lemma calm_fs {A} (m : M F A) : calm (on_fs m).
Proof. intros s. apply wlp_on_fs. intros _ k. apply same_tab_fs. Qed.
Lemma calm_mc {A} (m : M mach A) : keeps_procs m -> calm (on_mc m).
Proof. intros K s. apply wlp_on_mc; [done|]. intros _ m' E. by apply same_tab_mc. Qed.
Lemma calm_gets {A} (f : kern -> A) : calm (gets f).
Proof. intros s. apply wlp_gets, same_tab_refl. Qed.
Lemma calm_ret {A} (a : A) : calm (ret a).
Proof. intros s. apply wlp_ret, same_tab_refl. Qed.
Lemma calm_panic {A} msg : calm (A := A) (panic msg).
Proof. intros s. exact I. Qed.
Lemma calm_pset p f : (forall x, key (f x) = key x) -> calm (pset p f).
Proof. intros Hf s. apply wlp_modify. by apply same_tab_upd. Qed.
Lemma calm_bind {A B} (m : M kern A) (k : A -> M kern B) : calm m -> (forall a, calm (k a)) -> calm (bind m k).
Proof.
  intros H1 H2 s. apply wlp_bind. eapply wlp_mono; [apply H1|]. intros a s1 E1. eapply wlp_mono; [apply H2|]. intros b s2 E2. exact (same_tab_trans _ _ _ E1 E2).
Qed.
Lemma calm_when b (m : M kern unit) : calm m -> calm (when b m).
Proof. destruct b; [done|intros _; apply calm_ret]. Qed.
Lemma calm_if {A} (b : bool) (m1 m2 : M kern A) : calm m1 -> calm m2 -> calm (if b then m1 else m2).
Proof. by destruct b. Qed.
Lemma calm_for lo hi body : (forall i, calm (body i)) -> calm (for_up lo hi body).
Proof.
  intros Hb s. apply (wlp_for_up (fun _ s1 => same_tab s s1)); [apply same_tab_refl| |done]. intros i s1 _ E1. eapply wlp_mono; [apply Hb|].
  intros a s2 E2. exact (same_tab_trans _ _ _ E1 E2).
Qed.
Lemma calm_lock : calm (lock_ptable me).
Proof. apply calm_mc, keeps_acquire. Qed.
Lemma calm_unlock : calm (unlock_ptable me).
Proof. apply calm_mc, keeps_release. Qed.
Lemma calm_modify f : (forall s, same_tab s (f s)) -> calm (modify f).
Proof. intros Hf s. apply wlp_modify, Hf. Qed.

Lemma keeps_myproc : keeps_procs (myproc me).
Proof.
  unfold myproc. apply keeps_bind; [apply keeps_pushcli|intros _]. apply keeps_bind; [apply keeps_mycpu|intros c].
  apply keeps_bind; [apply keeps_gets|intros p]. apply keeps_bind; [apply keeps_popcli|intros _]. apply keeps_ret.
Qed.
Lemma calm_curproc : calm (curproc me).
Proof. apply calm_mc, keeps_myproc. Qed.

(** A calm prefix. *)
Lemma wlp_calm {A} (m : M kern A) s (Q : A -> kern -> Prop) : calm m -> (forall a s', same_tab s s' -> Q a s') -> wlp m s Q.
Proof. intros Hm HQ. eapply wlp_mono; [apply Hm|]. auto. Qed.

Lemma calm_growproc n : calm (growproc kend me n).
Proof.
  unfold growproc. apply calm_bind; [apply calm_curproc|intros p]. do 2 (apply calm_bind; [apply calm_gets|intros ?]). apply calm_bind.
  - apply calm_if; [apply calm_bind; [apply calm_km|intros ?; apply calm_ret]|]. apply calm_if; [apply calm_bind; [apply calm_km|intros ?; apply calm_ret]|apply calm_ret].
  - intros [s'|]; [|apply calm_ret]. apply calm_bind; [by apply calm_pset|intros _; apply calm_ret].
Qed.

Lemma calm_sched_return e : calm (sched_return me e).
Proof. unfold sched_return. apply calm_bind; [apply calm_mc, keeps_mycpu|intros c]. apply calm_mc. by apply keeps_cpu. Qed.

Lemma calm_yield_resume e : calm (yield_resume me e).
Proof. unfold yield_resume. apply calm_bind; [apply calm_sched_return|intros _; apply calm_unlock]. Qed.

Lemma calm_forkret : calm (forkret me).
Proof.
  unfold forkret. apply calm_bind; [apply calm_unlock|intros _]. apply calm_bind; [apply calm_gets|intros f]. apply calm_when.
  apply calm_bind; [by apply calm_modify|intros _]. apply calm_bind; [apply calm_fs|intros _; apply calm_fs].
Qed.

(** ** Waking up *)

Definition wake_one (ch : Z) (p : proc) : proc :=
  if state_eqb (state p) SLEEPING && (chan p =? ch) then set_state RUNNABLE p else p.

Lemma wake_one_cases ch p : (wake_one ch p = p /\ (state p = SLEEPING -> chan p <> ch)) \/ (state p = SLEEPING /\ chan p = ch /\ wake_one ch p = set_state RUNNABLE p).
Proof.
  unfold wake_one. destruct (state p) eqn:E; cbn; auto; try (left; split; [done|congruence]).
  destruct (Z.eqb_spec (chan p) ch); [right; done|left; done].
Qed.

Record woken (ch : Z) s s' : Prop := {
  wk_len : length (ptab s') = length (ptab s);
  wk_mc : mc s' = mc s;
  wk_init : initproc s' = initproc s;
  wk_npid : nextpid s' = nextpid s;
  wk_proc : forall i, the_proc i s' = wake_one ch (the_proc i s);
}.

Lemma wlp_wakeup1 ch s (Q : unit -> kern -> Prop) : length (ptab s) = 64%nat -> (forall s', woken ch s s' -> Q tt s') -> wlp (wakeup1 ch) s Q.
Proof.
  intros HL HQ. unfold wakeup1, each_proc.
  apply (wlp_for_up (fun k s' => length (ptab s') = length (ptab s) /\ mc s' = mc s /\ initproc s' = initproc s /\ nextpid s' = nextpid s /\
    forall i, the_proc i s' = if (0 <=? i) && (i <? k) then wake_one ch (the_proc i s) else the_proc i s)).
  - split_and!; try done. intros i. by replace (_ && _) with false by lia.
  - intros k s' Hk (E1 & E2 & E3 & E4 & E5). do 2 apply wlp_bind, wlp_gets. rewrite (E5 k). replace ((0 <=? k) && (k <? k)) with false by lia.
    assert (Hr : 0 <= k < Z.of_nat (length (ptab s'))) by (rewrite E1, HL; unfold NPROC in Hk; lia).
    apply wlp_when; intros Hc.
    + apply wlp_modify. split_and!; [cbn; by rewrite length_aset|done|done|done|]. intros i. rewrite the_proc_upd by done. rewrite (E5 k), (E5 i).
      destruct (Z.eqb_spec k i) as [<-|].
      * replace ((0 <=? k) && (k <? k)) with false by lia. replace ((0 <=? k) && (k <? k + 1)) with true by lia. unfold wake_one. by rewrite Hc.
      * by replace ((0 <=? i) && (i <? k + 1)) with ((0 <=? i) && (i <? k)) by lia.
    + split_and!; try done. intros i. rewrite E5. destruct (Z.eqb_spec k i) as [<-|].
      * replace ((0 <=? k) && (k <? k)) with false by lia. replace ((0 <=? k) && (k <? k + 1)) with true by lia. unfold wake_one. by rewrite Hc.
      * by replace ((0 <=? i) && (i <? k + 1)) with ((0 <=? i) && (i <? k)) by lia.
  - intros s' (E1 & E2 & E3 & E4 & E5). apply HQ. constructor; try done. intros i. rewrite E5. destruct ((0 <=? i) && (i <? Z.max 0 NPROC)) eqn:Ei; [done|].
    assert (En : the_proc i s = no_proc).
    { unfold the_proc, aget, NPROC in *. destruct (Z.ltb_spec i 0); [done|]. rewrite nth_overflow; [done|]. rewrite HL. lia. }
    by rewrite En.
Qed.

Lemma woken_adopts ch s s' : woken ch s s' -> adopts ptable_addr s s'.
Proof.
  intros [W1 W2 W3 W4 W5]. constructor; [done|done|done| | | |]; intros i; rewrite (W5 i);
    destruct (wake_one_cases ch (the_proc i s)) as [[-> _]|(E1 & E2 & ->)]; cbn; auto.
Qed.

Lemma kinv_wakeup ch s : kinv s -> wlp (wakeup me ch) s (fun _ s' => kinv s').
Proof.
  intros HI. unfold wakeup. apply wlp_bind, wlp_calm; [apply calm_lock|]. intros _ s1 S1. pose proof (kinv_same _ _ HI S1) as I1.
  apply wlp_bind, wlp_wakeup1; [apply I1|]. intros s2 W2. assert (I2 : kinv s2).
  { eapply kinv_adopts; [exact I1|by eapply woken_adopts|]. rewrite (wk_mc _ _ _ W2). apply same_procs_refl. }
  apply wlp_calm; [apply calm_unlock|]. intros _ s3 S3. by eapply kinv_same.
Qed.

Lemma kinv_kill pd s : kinv s -> wlp (kill me pd) s (fun _ s' => kinv s').
Proof.
  intros HI. unfold kill. apply wlp_bind, wlp_calm; [apply calm_lock|]. intros _ s1 S1. pose proof (kinv_same _ _ HI S1) as I1.
  apply wlp_bind, wlp_find.
  - intros p Hp _ _. apply wlp_bind, wlp_calm; [by apply calm_pset|]. intros _ s2 S2. pose proof (kinv_same _ _ I1 S2) as I2. apply wlp_bind, wlp_gets.
    assert (Hr : 0 <= p < Z.of_nat (length (ptab s2))) by (rewrite (t_len _ _ (k_tab _ I2)); unfold NPROC in Hp; lia).
    apply wlp_bind, wlp_when; intros Hs.
    + apply wlp_modify. assert (Es : state (the_proc p s2) = SLEEPING) by (destruct (state (the_proc p s2)); done).
      assert (I3 : kinv (upd_proc p (set_state RUNNABLE) s2)).
      { eapply kinv_adopts; [exact I2| |apply same_procs_refl]. constructor; [cbn; by rewrite length_aset|done|done| | | |];
          intros i; rewrite the_proc_upd by done; destruct (Z.eqb_spec p i) as [<-|]; cbn; auto. }
      apply wlp_bind, wlp_calm; [apply calm_unlock|]. intros _ s4 S4. apply wlp_ret. by eapply kinv_same.
    + apply wlp_bind, wlp_calm; [apply calm_unlock|]. intros _ s4 S4. apply wlp_ret. by eapply kinv_same.
  - intros _. apply wlp_bind, wlp_calm; [apply calm_unlock|]. intros _ s4 S4. apply wlp_ret. by eapply kinv_same.
Qed.

(** ** fork() *)

Lemma frame_entry p dn s s' : frame p s s' -> nextpid s' = nextpid s + dn -> entry p (the_proc p s') dn s s'.
Proof. intros [F1 F2 F3 F4] En. constructor; [done|done| |done|done]. intros i Hi. by rewrite F2. Qed.

Lemma running_frame p s s' : frame p s s' -> state (the_proc p s) <> RUNNING -> state (the_proc p s') <> RUNNING ->
  forall q, inr q -> state (the_proc q s') = RUNNING <-> state (the_proc q s) = RUNNING.
Proof. intros Hf H1 H2 q _. destruct (decide (q = p)) as [->|Hq]; [done|]. by rewrite (fr_other _ _ _ Hf q Hq). Qed.

Lemma kinv_fork s : kinv s -> is_cpu me s -> on_cpu me s <> -1 -> wlp (fork kend kdata trapret_ forkret_ me) s (fun _ s' => kinv s').
Proof.
  intros HI Hme Hcp. pose proof HI as [HT HC]. pose proof HT as [T1 T2 T3 T4 T5 T6 T9 T10 T7 T8]. apply wlp_fork; [done|by apply kinv_present| | |].
  - intros s' Hf En. apply (kinv_same s); [done|]. destruct Hf as [F1 F2 F3 F4]. constructor; try done. intros i. destruct (decide (i = -1)) as [->|Hi]; [done|by rewrite F2].
  - intros np s' Hnp Hu (F1 & F2 & F3 & F4). split.
    + eapply (tab_inv_entry _ np _ 1); [exact HT|done|by apply frame_entry|lia|congruence| |auto| |congruence|congruence|auto].
      * intros _. rewrite F3. by apply T5.
      * rewrite Hu. intros [?|[?|?]]; done.
    + apply (cpu_inv_same s); [done|apply F1|]. apply (running_frame np); congruence.
  - intros np s' Hnp Hu (F1 & F2 & F3 & F4 & F5 & F6). destruct (c_run _ HC me Hme) as [?|[Hin Hrun]]; [done|]. unfold on_cpu in *.
    assert (Hne : cproc (the_cpu me (mc s)) <> np) by (intros E; rewrite E in Hrun; congruence). split.
    + eapply (tab_inv_entry _ np _ 1); [exact HT|done|by apply frame_entry|lia| |congruence| | |congruence|congruence|].
      * intros _. rewrite F3. split; [lia|]. intros q Hq _ Hs. specialize (T3 q Hq Hs). lia.
      * rewrite F4. right. left. split_and!; [done|done|]. rewrite Hrun. right. by right.
      * rewrite F2. intros _. right. by left.
      * intros E. exfalso. subst np. destruct T7 as [_ T7]. rewrite Hu in T7. destruct T7 as [?|[?|?]]; done.
    + apply (cpu_inv_same s); [done|apply F1|]. apply (running_frame np); congruence.
Qed.

(** ** Giving up the processor *)

Lemma calm_sched {A} k : calm (A := res A) (sched me k).
Proof.
  unfold sched. apply calm_bind; [apply calm_curproc|intros p]. apply calm_bind; [apply calm_mc, keeps_holding|intros h]. apply calm_if; [apply calm_panic|].
  apply calm_bind; [apply calm_mc, keeps_mycpu|intros c]. apply calm_bind; [apply calm_gets|intros n]. apply calm_if; [apply calm_panic|].
  apply calm_bind; [apply calm_gets|intros st]. apply calm_if; [apply calm_panic|]. apply calm_bind; [apply calm_gets|intros f]. apply calm_if; [apply calm_panic|].
  apply calm_bind; [apply calm_gets|intros e]. apply calm_bind; [by apply calm_pset|intros _; apply calm_ret].
Qed.

(** sched() only ever switches. *)
Lemma sched_switch {A} k s : wlp (sched (A := A) me k) s (fun r _ => r = Switch).
Proof.
  unfold sched. repeat (first [apply wlp_if; intros _ | apply wlp_panic | apply wlp_bind, wlp_any; intros ? ? | by apply wlp_ret]).
Qed.


(** The entry of the running process changes to [e], then the processor is
    with the scheduler. *)
Record leaves (e : proc) s s' : Prop := {
  lv_entry : entry (on_cpu me s) e 0 s s';
  lv_mc : same_procs (mc s) (mc s');
}.

Lemma leaves_same s1 e s s' : same_tab s s1 -> leaves e s1 s' -> leaves e s s'.
Proof.
  intros [S1 S2 S3 S4 S5] [[E1 E2 E3 E4 E5] L2]. assert (Eo : on_cpu me s1 = on_cpu me s) by (destruct S3 as [_ S3]; by destruct (S3 me)). rewrite Eo in *.
  split; [|by eapply same_procs_trans]. constructor; [congruence|done| |congruence|congruence]. intros i Hi. by rewrite E3.
Qed.

Lemma leaves_then s s1 s' e : leaves e s s1 -> same_tab s1 s' -> leaves e s s'.
Proof.
  intros [[E1 E2 E3 E4 E5] L2] [S1 S2 S3 S4 S5]. split; [|by eapply same_procs_trans]. constructor; [congruence|by rewrite S2| |congruence|congruence].
  intros i Hi. by rewrite S2, E3.
Qed.

Lemma leaves_upd f s : is_cpu me s -> inr (on_cpu me s) -> length (ptab s) = 64%nat -> leaves (f (the_proc (on_cpu me s) s)) s (upd_proc (on_cpu me s) f s).
Proof.
  intros Hme Hin HL. unfold inr, NPROC in Hin. split; [|apply same_procs_refl]. constructor; [cbn; by rewrite length_aset| | |done|cbn; lia].
  - rewrite the_proc_upd by (rewrite HL; lia). by rewrite Z.eqb_refl.
  - intros i Hi. rewrite the_proc_upd by (rewrite HL; lia). by replace (on_cpu me s =? i) with false by lia.
Qed.

(** The return to the scheduler. *)
Lemma kinv_back e s s' : kinv s -> is_cpu me s -> on_cpu me s <> -1 -> leaves e s s' -> state e <> RUNNING -> tab_inv s' ->
  wlp (scheduler_back me) s' (fun _ s'' => kinv s'').
Proof.
  intros [HT HC] Hme Hcp [LE LM] He HT'. unfold scheduler_back. apply wlp_zoom, wlp_modify. set (s2 := set_mc _ s').
  assert (Hp' : present me (mc s')) by (eapply present_same; [exact LM|by apply cpu_present]). split.
  - destruct HT' as [T1 T2 T3 T4 T5 T6 T9 T10 T7 T8]. by constructor.
  - assert (EO : forall c, on_cpu c s2 = if c =? me then -1 else on_cpu c s).
    { intros c. unfold on_cpu, s2, the_cpu, upd_cpu. cbn [mc set_mc cpus]. destruct Hp' as [_ Hp']. rewrite aget_aset by done. rewrite (Z.eqb_sym me c).
      destruct (c =? me); [done|]. destruct LM as [_ LM]. apply (LM c). }
    assert (Hs : forall q, state (the_proc q s2) = state (the_proc q s')) by done.
    apply (cpu_inv_off me (on_cpu me s) s); [done|done|done|done| | |done| |].
    + destruct (present_upd me (set_cproc (-1)) (mc s') Hp') as [? _]; done.
    + unfold s2, upd_cpu. cbn. rewrite length_aset. apply LM.
    + rewrite Hs. destruct (key_fields _ _ (en_p _ _ _ _ _ LE)) as (-> & _). done.
    + intros q Hq Hqp. rewrite Hs. destruct (key_fields _ _ (en_other _ _ _ _ _ LE q Hqp)) as (-> & _). done.
Qed.

(** A live process changes between live states. *)
Lemma tab_inv_live p e s s' : tab_inv s -> inr p -> entry p e 0 s s' -> live (state (the_proc p s)) -> live (state e) ->
  pid e = pid (the_proc p s) -> parent e = parent (the_proc p s) ->
  (state e = SLEEPING -> chan e = paddr p -> forall c, inr c -> c <> p -> parent (the_proc c s) = p -> state (the_proc c s) <> ZOMBIE) -> tab_inv s'.
Proof.
  intros HT Hp E Hl He Hpid Hpar HW. assert (Hnu : state (the_proc p s) <> UNUSED) by (destruct Hl as [->|[->| ->]]; done).
  eapply (tab_inv_entry _ p e 0); [exact HT|done|exact E|lia| | |auto|auto|done| |auto].
  - intros _. rewrite Hpid. pose proof (t_pid _ _ HT p Hp Hnu). split; [lia|]. intros q Hq Hqp Hs Ep. apply Hqp. by apply (t_pids _ _ HT).
  - intros Eu. rewrite Eu in He. destruct He as [?|[?|?]]; done.
  - intros Ez. rewrite Ez in He. destruct He as [?|[?|?]]; done.
Qed.

(** The process that runs on this processor. *)
Record here s : Prop := { h_inv : kinv s; h_cpu : is_cpu me s; h_proc : on_cpu me s <> -1 }.

Lemma here_run s : here s -> inr (on_cpu me s) /\ state (the_proc (on_cpu me s) s) = RUNNING.
Proof. intros [[_ HC] Hme Hp]. by destruct (c_run _ HC me Hme). Qed.

Lemma same_cpu s s' : same_tab s s' -> on_cpu me s' = on_cpu me s /\ (is_cpu me s -> is_cpu me s').
Proof. intros S. destruct (st_mc _ _ S) as [E1 E2]. split; [apply E2|]. unfold is_cpu. by rewrite E1. Qed.

Lemma here_same s s' : here s -> same_tab s s' -> here s'.
Proof. intros [HI Hme Hp] S. destruct (same_cpu _ _ S) as [E1 E2]. constructor; [by eapply kinv_same|auto|by rewrite E1]. Qed.

Lemma wlp_cur s (Q : Z -> kern -> Prop) : here s -> (forall s', same_tab s s' -> Q (on_cpu me s) s') -> wlp (curproc me) s Q.
Proof. intros [HI Hme Hp] HQ. apply wlp_curproc; [by apply kinv_present|]. intros m' E. apply HQ. by apply same_tab_mc. Qed.

(** A routine that may give up the processor, followed by the return to the
    scheduler. *)
Definition off {A} (m : M kern (res A)) s : Prop :=
  wlp m s (fun r s' => match r with Switch => wlp (scheduler_back me) s' (fun _ s'' => kinv s'') | Ret _ => kinv s' end).

(** The process is put in state [e] and switches. *)
Lemma wlp_sched_off {A} k f s : here s -> let e := f (the_proc (on_cpu me s) s) in
  state e <> RUNNING -> (forall s', entry (on_cpu me s) e 0 s s' -> tab_inv s') ->
  wlp (sched (A := A) me k) (upd_proc (on_cpu me s) f s) (fun r s' => r = Switch /\ wlp (scheduler_back me) s' (fun _ s'' => kinv s'')).
Proof.
  intros HH e He HT. pose proof HH as [HI Hme Hp]. destruct (here_run _ HH) as [Hin _].
  pose proof (leaves_upd f s Hme Hin (t_len _ _ (k_tab _ HI))) as HL. eapply wlp_mono; [apply wlp_and; [apply calm_sched|apply sched_switch]|].
  intros r s' [S ->]. split; [done|]. pose proof (leaves_then _ _ _ _ HL S) as HL'. eapply kinv_back; [exact HI|done|done|exact HL'|done|]. apply HT, HL'.
Qed.

Lemma off_sched {A} k f s : here s -> let e := f (the_proc (on_cpu me s) s) in
  state e <> RUNNING -> (forall s', entry (on_cpu me s) e 0 s s' -> tab_inv s') ->
  off (A := A) (pset (on_cpu me s) f ;;; sched me k) s.
Proof.
  intros HH e He HT. unfold off. apply wlp_bind, wlp_modify. eapply wlp_mono; [by apply wlp_sched_off|]. by intros r s' [-> ?].
Qed.

Lemma off_calm {A B} (m : M kern B) (k : B -> M kern (res A)) s : calm m -> here s ->
  (forall b s', same_tab s s' -> here s' -> off (k b) s') -> off (bind m k) s.
Proof. intros Hm HH Hk. unfold off. apply wlp_bind, wlp_calm; [done|]. intros b s' S. apply Hk; [done|by eapply here_same]. Qed.

Lemma off_cur {A} (k : Z -> M kern (res A)) s : here s -> (forall s', same_tab s s' -> here s' -> off (k (on_cpu me s')) s') -> off (bind (curproc me) k) s.
Proof.
  intros HH Hk. unfold off. apply wlp_bind, wlp_cur; [done|]. intros s' S. destruct (same_cpu _ _ S) as [<- _]. apply Hk; [done|by eapply here_same].
Qed.

Lemma off_yield s : here s -> off (yield me) s.
Proof.
  intros HH. unfold yield. apply off_calm; [apply calm_lock|done|]. intros _ s1 _ H1. apply off_cur; [done|]. intros s2 _ H2.
  destruct (here_run _ H2) as [Hin Hrun]. apply off_sched; [done|done|]. intros s' E.
  eapply tab_inv_live; [apply H2|exact Hin|exact E|rewrite Hrun; right; by right|right; by left|done|done|done].
Qed.

Lemma upd_proc_twice p f g s : upd_proc p f (upd_proc p g s) = upd_proc p (fun x => f (g x)) s \/ ~ 0 <= p < Z.of_nat (length (ptab s)).
Proof.
  destruct (decide (0 <= p < Z.of_nat (length (ptab s)))) as [Hp|Hp]; [left|by right]. unfold upd_proc at 1. rewrite the_proc_upd, Z.eqb_refl by done.
  unfold upd_proc, set_ptab. cbn. by rewrite aset_aset.
Qed.

(** sleep(), with what is known of the channel. *)
Lemma off_sleep {A} ch lk k s : here s ->
  (ch = paddr (on_cpu me s) -> forall c, inr c -> c <> on_cpu me s -> parent (the_proc c s) = on_cpu me s -> state (the_proc c s) <> ZOMBIE) ->
  off (A := A) (sleep me ch lk k) s.
Proof.
  intros HH HW. unfold sleep. apply off_cur; [done|]. intros s1 S1 H1. unfold off. apply wlp_if; intros _; [exact I|]. apply wlp_if; intros _; [exact I|].
  apply off_calm; [|done|].
  { apply calm_when. apply calm_bind; [apply calm_lock|intros _; apply calm_mc, keeps_release]. }
  intros _ s2 S2 H2. pose proof (same_tab_trans _ _ _ S1 S2) as S12. destruct (same_cpu _ _ S2) as [E2 _]. destruct (same_cpu _ _ S12) as [E12 _].
  rewrite <- E2 in *. destruct (here_run _ H2) as [Hin Hrun].
  assert (G : off (A := A) (pset (on_cpu me s2) (fun x => set_state SLEEPING (set_chan ch x)) ;;; sched me k) s2).
  { apply off_sched; [done|done|]. intros s' E.
    eapply tab_inv_live; [apply H2|exact Hin|exact E|rewrite Hrun; right; by right|by left|done|done|]. cbn. intros _ Ech c Hc Hcp Hpar Hz.
    rewrite E12 in *. destruct (key_fields _ _ (st_key _ _ S12 c)) as (K1 & _ & K3 & _). apply (HW Ech c); congruence. }
  unfold off, wlp, bind, pset, modify in G |- *. destruct (upd_proc_twice (on_cpu me s2) (set_state SLEEPING) (set_chan ch) s2) as [->|Hn]; [exact G|].
  exfalso. apply Hn. rewrite (t_len _ _ (k_tab _ (h_inv _ H2))). unfold inr, NPROC in Hin. lia.
Qed.

Lemma wlp_sleep_resume lk e s : here s -> wlp (sleep_resume me lk e) s (fun _ s' => here s' /\ on_cpu me s' = on_cpu me s).
Proof.
  intros HH. unfold sleep_resume. apply wlp_bind, wlp_calm; [apply calm_sched_return|]. intros _ s1 S1. pose proof (here_same _ _ HH S1) as H1.
  apply wlp_bind, wlp_cur; [done|]. intros s2 S2. pose proof (here_same _ _ H1 S2) as H2. destruct (same_cpu _ _ S1) as [E1 _]. destruct (same_cpu _ _ S2) as [E2 _].
  apply wlp_bind, wlp_modify. rewrite <- E2. destruct (here_run _ H2) as [Hin Hrun]. pose proof H2 as [[HT HC] Hme Hp].
  destruct (leaves_upd (set_chan 0) s2 Hme Hin (t_len _ _ HT)) as [LE LM]. set (s3 := upd_proc _ _ s2) in *.
  assert (H3 : here s3).
  { constructor; [|done|done]. split.
    - eapply tab_inv_live; [exact HT|exact Hin|exact LE|rewrite Hrun; right; by right|cbn; rewrite Hrun; right; by right|done|done|]. cbn. rewrite Hrun. done.
    - apply (cpu_inv_same s2); [done|done|]. intros q Hq. destruct (decide (q = on_cpu me s2)) as [->|Hqp].
      + destruct (key_fields _ _ (en_p _ _ _ _ _ LE)) as (-> & _). done.
      + destruct (key_fields _ _ (en_other _ _ _ _ _ LE q Hqp)) as (-> & _). done. }
  assert (E3 : on_cpu me s3 = on_cpu me s) by (change (on_cpu me s3) with (on_cpu me s2); congruence). clearbody s3.
  apply wlp_calm; [apply calm_when; apply calm_bind; [apply calm_unlock|intros _; apply calm_mc, keeps_acquire]|]. intros _ s4 S4.
  split; [by eapply here_same|]. destruct (same_cpu _ _ S4) as [-> _]. done.
Qed.

(** ** wait() *)

Lemma wlp_pset2 {A} p f g (k : M kern A) s Q : 0 <= p < Z.of_nat (length (ptab s)) ->
  wlp (pset p (fun x => g (f x)) ;;; k) s Q -> wlp (pset p f ;;; pset p g ;;; k) s Q.
Proof.
  intros Hp Hw. unfold wlp, bind, pset, modify in *. destruct (upd_proc_twice p g f s) as [->|Hn]; [exact Hw|]. by exfalso.
Qed.

Lemma state_eqb_eq a b : state_eqb a b = true -> a = b.
Proof. by destruct a, b. Qed.

(** A zombie's entry is freed. *)
Lemma kinv_reap p e s s' : kinv s -> inr p -> state (the_proc p s) = ZOMBIE -> entry p e 0 s s' -> same_procs (mc s) (mc s') ->
  state e = UNUSED -> parent e = -1 -> kinv s'.
Proof.
  intros [HT HC] Hp Hz E Em Hu Hpar. split.
  - eapply (tab_inv_entry _ p e 0); [exact HT|done|exact E|lia|congruence|done|by left| |congruence|congruence|].
    + rewrite Hz. intros [?|[?|?]]; done.
    + intros ->. destruct (t_init _ _ HT) as [_ Hl]. rewrite Hz in Hl. destruct Hl as [?|[?|?]]; done.
  - apply (cpu_inv_same s); [done|done|]. intros q _. pose proof (entry_key _ _ _ _ _ q E) as Ek.
    destruct (Z.eqb_spec q p) as [Eq|Eq]; apply key_fields in Ek as (Ks & _); rewrite Ks; [|done]. rewrite Eq, Hz, Hu. done.
Qed.

Lemma off_wait_pass s : here s -> off (wait_pass kend ptable_addr me (on_cpu me s)) s.
Proof.
  intros HH. pose proof HH as [HI Hme Hp]. unfold wait_pass, off. apply wlp_bind.
  assert (G : forall hk : option Z, wlp (let! z := find_proc (fun p => (parent p =? on_cpu me s) && state_eqb (state p) ZOMBIE) in
    match z with
    | Some p =>
        let! pd := pget p pid in let! k := pget p kstack in on_km (kfree kend k) ;;; pset p (set_kstack 0) ;;;
        let! d := pget p pgdir in on_km (freevm kend d) ;;; pset p (set_pid 0) ;;; pset p (set_parent (-1)) ;;;
        pset p (fun x => set_name (aset (name x) 0 0) x) ;;; pset p (set_killed false) ;;; pset p (set_state UNUSED) ;;; unlock_ptable me ;;; ret (Ret pd)
    | None => let! kl := pget (on_cpu me s) killed in
        if negb (match hk with Some _ => true | None => false end) || kl then unlock_ptable me ;;; ret (Ret (-1)) else sleep me (paddr (on_cpu me s)) PTLOCK KWait
    end) s (fun r s' => match r with Switch => wlp (scheduler_back me) s' (fun _ s'' => kinv s'') | Ret _ => kinv s' end)).
  2:{ apply wlp_find; [intros p _ _ _; apply (G (Some p))|intros _; apply (G None)]. }
  intros hk. apply wlp_bind, wlp_find.
  - intros p Hin Hz _. apply andb_true_iff in Hz as [_ Hz%state_eqb_eq]. do 2 apply wlp_bind, wlp_gets.
    apply wlp_bind, wlp_calm; [apply calm_km|]. intros _ s1 S1. apply wlp_bind, wlp_calm; [by apply calm_pset|]. intros _ s2 S2. apply wlp_bind, wlp_gets.
    apply wlp_bind, wlp_calm; [apply calm_km|]. intros _ s3 S3. pose proof (same_tab_trans _ _ _ (same_tab_trans _ _ _ S1 S2) S3) as S.
    pose proof (kinv_same _ _ HI S) as I3. assert (Hr : 0 <= p < Z.of_nat (length (ptab s3))) by (rewrite (t_len _ _ (k_tab _ I3)); unfold NPROC in Hin; lia).
    do 4 (apply wlp_pset2; [done|]). apply wlp_bind, wlp_modify. match goal with |- wlp _ (upd_proc p ?f s3) _ => set (f0 := f) end.
    assert (I4 : kinv (upd_proc p f0 s3)).
    { eapply (kinv_reap p (f0 (the_proc p s3))); [exact I3|done| | |apply same_procs_refl|done|done].
      - destruct (key_fields _ _ (st_key _ _ S p)) as (-> & _). done.
      - constructor; [cbn; by rewrite length_aset| | |done|cbn; lia]; [by rewrite the_proc_upd, Z.eqb_refl|]. intros j Hj. rewrite the_proc_upd by done.
        by replace (p =? j) with false by lia. }
    apply wlp_bind, wlp_calm; [apply calm_unlock|]. intros _ s5 S5. apply wlp_ret. by eapply kinv_same.
  - intros HN. apply wlp_bind, wlp_gets, wlp_if; intros Hc.
    + apply wlp_bind, wlp_calm; [apply calm_unlock|]. intros _ s5 S5. apply wlp_ret. by eapply kinv_same.
    + apply off_sleep; [done|]. intros _ c Hc' _ Hpar Hz. specialize (HN c Hc'). rewrite Hpar, Hz, Z.eqb_refl in HN. done.
Qed.

Lemma off_wait s : here s -> off (wait kend ptable_addr me) s.
Proof.
  intros HH. unfold wait. apply off_cur; [done|]. intros s1 S1 H1. apply off_calm; [apply calm_lock|done|]. intros _ s2 S2 H2.
  destruct (same_cpu _ _ S2) as [<- _]. by apply off_wait_pass.
Qed.

Lemma off_wait_resume e s : here s -> off (wait_resume kend ptable_addr me e) s.
Proof.
  intros HH. unfold wait_resume, off. apply wlp_bind. eapply wlp_mono; [by apply wlp_sleep_resume|]. intros _ s1 [H1 _].
  apply off_cur; [done|]. intros s2 S2 H2. by apply off_wait_pass.
Qed.

(** ** exit() *)

(** Not asleep in wait(). *)
Definition awake (p : Z) s : Prop := state (the_proc p s) = SLEEPING -> chan (the_proc p s) = paddr p -> False.

Lemma woken_awake p s s' : woken (paddr p) s s' -> awake p s'.
Proof.
  intros W Hs Hc. rewrite (wk_proc _ _ _ W) in Hs, Hc. destruct (wake_one_cases (paddr p) (the_proc p s)) as [[E Hn]|(_ & _ & E)]; rewrite E in Hs, Hc.
  - by apply (Hn Hs).
  - done.
Qed.

Lemma adopts_awake p s s' : adopts ptable_addr s s' -> awake p s -> awake p s'.
Proof. intros A Ha Hs Hc. rewrite (ad_chan _ _ _ A) in Hc. destruct (ad_state _ _ _ A p) as [E|[_ E]]; [rewrite E in Hs; auto|congruence]. Qed.

(** One round of the loop that hands the children to init. *)
Lemma wlp_adopt cp i s : tab_inv s -> inr i -> inr cp -> wlp (let! pr := pget i parent in
    when (pr =? cp) (let! ip := gets initproc in pset i (set_parent ip) ;;; let! st := pget i state in when (state_eqb st ZOMBIE) (wakeup1 (paddr ip)))) s
  (fun _ s' => adopts ptable_addr s s' /\ mc s' = mc s /\ (forall j, j <> i -> parent (the_proc j s') = parent (the_proc j s)) /\
     (parent (the_proc i s) <> cp -> parent (the_proc i s') = parent (the_proc i s)) /\
     (cp <> initproc s -> parent (the_proc i s') <> cp)).
Proof.
  intros HT Hi Hcp. assert (Hr : 0 <= i < Z.of_nat (length (ptab s))) by (rewrite (t_len _ _ HT); unfold inr, NPROC in Hi; lia).
  apply wlp_bind, wlp_gets, wlp_when; intros Hc; b2p; [|split_and!; [apply adopts_refl|done|done|done|done]].
  apply wlp_bind, wlp_gets, wlp_bind, wlp_modify, wlp_bind, wlp_gets. rewrite the_proc_upd, Z.eqb_refl by done. cbn [state set_parent].
  set (s1 := upd_proc i _ s). assert (P1 : forall j, the_proc j s1 = if i =? j then set_parent (initproc s) (the_proc i s) else the_proc j s) by (intros j; by apply the_proc_upd).
  assert (Hcp1 : parent (the_proc i s) <> -1) by (unfold inr in Hcp; lia).
  apply wlp_when; intros Hz.
  - apply wlp_wakeup1; [cbn; rewrite length_aset; apply HT|]. intros s2 W. pose proof W as [W1 W2 W3 W4 W5].
    assert (K : forall j, parent (the_proc j s2) = parent (the_proc j s1) /\ pid (the_proc j s2) = pid (the_proc j s1) /\ chan (the_proc j s2) = chan (the_proc j s1) /\
      (state (the_proc j s2) = state (the_proc j s1) \/ state (the_proc j s1) = SLEEPING /\ state (the_proc j s2) = RUNNABLE)).
    { intros j. rewrite W5. destruct (wake_one_cases (paddr (initproc s)) (the_proc j s1)) as [[-> _]|(E1 & _ & ->)]; cbn; split_and!; auto. }
    assert (S1 : forall j, state (the_proc j s1) = state (the_proc j s) /\ pid (the_proc j s1) = pid (the_proc j s) /\ chan (the_proc j s1) = chan (the_proc j s)).
    { intros j. rewrite P1. destruct (Z.eqb_spec i j) as [<-|]; done. }
    split_and!.
    + constructor; [rewrite W1; cbn; by rewrite length_aset|done|done| | | |]; intros j; destruct (K j) as (K1 & K2 & K3 & K4), (S1 j) as (S2 & S3 & S4).
      * congruence.
      * congruence.
      * rewrite S2 in K4. done.
      * rewrite K1, P1. destruct (Z.eqb_spec i j) as [<-|]; [right|by left]. split_and!; [done|done|]. intros _ Hs Hch.
        destruct (S1 (initproc s)) as (_ & _ & E). apply (woken_awake _ _ _ W Hs). destruct (K (initproc s)) as (_ & _ & E3 & _). congruence.
    + done.
    + intros j Hj. destruct (K j) as (-> & _). rewrite P1. by replace (i =? j) with false by lia.
    + done.
    + intros Hne. destruct (K i) as (-> & _). rewrite P1, Z.eqb_refl. cbn. auto.
  - split_and!; [|done| |done|].
    + constructor; [cbn; by rewrite length_aset|done|done| | | |]; intros j; rewrite P1; destruct (Z.eqb_spec i j) as [<-|]; auto. cbn. right. split_and!; [done|done|].
      intros E. rewrite E in Hz. done.
    + intros j Hj. rewrite P1. by replace (i =? j) with false by lia.
    + intros Hne. rewrite P1, Z.eqb_refl. cbn. auto.
Qed.

Lemma here_adopts s s' : here s -> adopts ptable_addr s s' -> mc s' = mc s -> here s'.
Proof.
  intros [HI Hme Hp] A E. constructor; [|unfold is_cpu in *; by rewrite E|unfold on_cpu in *; by rewrite E].
  eapply kinv_adopts; [exact HI|done|]. rewrite E. apply same_procs_refl.
Qed.

(** The loop. *)
Lemma wlp_adopt_all cp s (Q : unit -> kern -> Prop) : here s -> on_cpu me s = cp -> cp <> initproc s -> awake (parent (the_proc cp s)) s ->
  (forall s', here s' -> on_cpu me s' = cp -> cp <> initproc s' -> awake (parent (the_proc cp s')) s' -> (forall i, inr i -> parent (the_proc i s') <> cp) -> Q tt s') ->
  wlp (each_proc (fun p => let! pr := pget p parent in
    when (pr =? cp) (let! ip := gets initproc in pset p (set_parent ip) ;;; let! st := pget p state in when (state_eqb st ZOMBIE) (wakeup1 (paddr ip))))) s Q.
Proof.
  intros HH Ecp Hni Ha HQ. unfold each_proc.
  apply (wlp_for_up (fun k s' => here s' /\ on_cpu me s' = cp /\ cp <> initproc s' /\ awake (parent (the_proc cp s')) s' /\ forall i, 0 <= i < k -> parent (the_proc i s') <> cp)).
  - split_and!; try done. intros; lia.
  - intros k s1 Hk (H1 & E1 & N1 & A1 & B1). pose proof (k_tab _ (h_inv _ H1)) as HT1. assert (Hcp : inr cp) by (rewrite <- E1; by apply here_run).
    eapply wlp_mono; [by apply wlp_adopt|]. intros _ s2 (AD & Em & P2 & P3 & P4). split_and!.
    + by eapply here_adopts.
    + unfold on_cpu in *. by rewrite Em.
    + by rewrite (ad_init _ _ _ AD).
    + assert (Ep : parent (the_proc cp s2) = parent (the_proc cp s1)).
      { destruct (decide (cp = k)) as [->|]; [|by apply P2]. apply P3. by apply (t_noself _ _ HT1). }
      rewrite Ep. by eapply adopts_awake.
    + intros i Hi. destruct (decide (i = k)) as [->|]; [by apply P4|]. rewrite P2 by done. apply B1. lia.
  - intros s' (H1 & E1 & N1 & A1 & B1). by apply HQ.
Qed.

Lemma off_exit s : here s -> off (exit ptable_addr me) s.
Proof.
  intros HH. unfold exit. apply off_cur; [done|]. intros s1 _ H1. unfold off. apply wlp_bind, wlp_gets, wlp_if; intros Hip; [exact I|]. b2p.
  assert (K : forall A B (m : M kern B) (k : B -> M kern (res A)) s', calm m -> here s' -> on_cpu me s' = on_cpu me s1 -> initproc s' = initproc s1 ->
    (forall b s'', here s'' -> on_cpu me s'' = on_cpu me s1 -> initproc s'' = initproc s1 -> off (k b) s'') -> off (bind m k) s').
  { intros A B m k s' Hm Hh Eo Ei Hk. apply off_calm; [done|done|]. intros b s'' S'' H''. destruct (same_cpu _ _ S'') as [E _].
    apply Hk; [done|congruence|]. rewrite (st_init _ _ S''). done. }
  apply K; [|done|done|done|].
  { apply calm_for. intros i. apply calm_bind; [apply calm_gets|intros f]. apply calm_when. apply calm_bind; [apply calm_fs|intros _; by apply calm_pset]. }
  intros _ s2 H2 E2 I2. apply K; [apply calm_fs|done|done|done|]. intros _ s3 H3 E3 I3. apply K; [apply calm_gets|done|done|done|]. intros c s4 H4 E4 I4.
  apply K; [apply calm_fs|done|done|done|]. intros _ s5 H5 E5 I5. apply K; [apply calm_fs|done|done|done|]. intros _ s6 H6 E6 I6.
  apply K; [by apply calm_pset|done|done|done|]. intros _ s7 H7 E7 I7. apply K; [apply calm_lock|done|done|done|]. intros _ s8 H8 E8 I8. clear K.
  unfold off. apply wlp_bind, wlp_gets, wlp_bind, wlp_wakeup1; [apply (h_inv _ H8)|]. intros s9 W9. rewrite <- E8 in *.
  pose proof (here_adopts _ _ H8 (woken_adopts _ _ _ W9) (wk_mc _ _ _ W9)) as H9. assert (E9 : on_cpu me s9 = on_cpu me s8) by (unfold on_cpu; by rewrite (wk_mc _ _ _ W9)).
  assert (Ep : parent (the_proc (on_cpu me s8) s9) = parent (the_proc (on_cpu me s8) s8)).
  { rewrite (wk_proc _ _ _ W9). by destruct (wake_one_cases (paddr (parent (the_proc (on_cpu me s8) s8))) (the_proc (on_cpu me s8) s8)) as [[-> _]|(_ & _ & ->)]. }
  apply wlp_bind, wlp_adopt_all; [done|done|rewrite (wk_init _ _ _ W9); congruence|rewrite Ep; by eapply woken_awake|].
  intros s10 H10 E10 N10 A10 B10. destruct (here_run _ H10) as [Hin Hrun]. apply wlp_bind, wlp_modify, wlp_bind. rewrite <- E10 in *.
  eapply wlp_mono; [apply wlp_sched_off; [done|done|]|].
  - intros s' E. eapply tab_inv_zombie; [apply H10|exact Hin|exact E|done|done|done|congruence|done|done|exact A10].
  - intros r s' [-> Hb]. by apply wlp_ret.
Qed.

(** ** The scheduler *)

Lemma kinv_scan from s : kinv s -> is_cpu me s -> on_cpu me s = -1 -> 0 <= from ->
  wlp (scheduler_scan me from) s (fun r s' => kinv s' /\
    match r with Some p => on_cpu me s' = p /\ inr p /\ state (the_proc p s) = RUNNABLE | None => on_cpu me s' = -1 end).
Proof.
  intros HI Hme Ho Hfrom. pose proof HI as [HT HC]. unfold scheduler_scan. apply wlp_bind, wlp_wp.
  apply (wp_search (fun i s' => s' = s /\ from <= i)); [split; [done|lia]| |].
  - intros k s' Hk (-> & Hle). apply wp_bind, wp_gets, wp_ret. destruct (state_eqb (state (the_proc k s)) RUNNABLE) eqn:E; [|split; [done|lia]].
    apply state_eqb_eq in E. assert (Hin : inr k) by (unfold inr; lia). assert (Hr : 0 <= k < Z.of_nat (length (ptab s))) by (rewrite (t_len _ _ HT); unfold inr, NPROC in Hin; lia).
    pose proof (cpu_present _ _ HC Hme) as Hp. apply wlp_bind, wlp_gets, wlp_bind, wlp_zoom, wlp_modify, wlp_bind, wlp_modify, wlp_ret. set (s1 := upd_proc k _ _).
    assert (P1 : forall i, the_proc i s1 = if k =? i then set_state RUNNING (the_proc k s) else the_proc i s) by (intros i; unfold s1; by rewrite the_proc_upd).
    assert (EO : forall c, is_cpu c s -> on_cpu c s1 = if c =? me then k else on_cpu c s).
    { intros c Hc. unfold on_cpu, s1, the_cpu, upd_cpu. cbn [mc set_mc cpus upd_proc set_ptab]. destruct Hp as [_ Hp]. rewrite aget_aset by done. rewrite (Z.eqb_sym me c). by destruct (c =? me). }
    split; [|split_and!; [by rewrite EO, Z.eqb_refl|done|done]]. split.
    + apply (tab_inv_live k (set_state RUNNING (the_proc k s)) s); [exact HT|exact Hin| | |by right; right|reflexivity|reflexivity|done].
      2: { rewrite E. by right; left. }
      constructor; [unfold s1; cbn; by rewrite length_aset|by rewrite P1, Z.eqb_refl| |done|cbn; lia]. intros i Hi. rewrite P1. by replace (k =? i) with false by lia.
    + apply (cpu_inv_on me k s); [done|done|done|done|congruence| | |done|by rewrite P1, Z.eqb_refl|].
      * by destruct (present_upd me (set_cproc k) (mc s) Hp).
      * unfold s1. cbn. by rewrite length_aset.
      * intros q Hq Hqk. rewrite P1. by replace (k =? q) with false by lia.
  - intros s' (-> & _). apply wlp_bind, wlp_calm; [apply calm_unlock|]. intros _ s1 S1. apply wlp_ret. split; [by eapply kinv_same|]. destruct (same_cpu _ _ S1) as [-> _]. done.
Qed.

Lemma calm_round : calm (scheduler_round me).
Proof. unfold scheduler_round. apply calm_bind; [apply calm_mc; by apply keeps_cpu|intros _; apply calm_lock]. Qed.
End Eff.
