(* ===== verification/ProcThm.v ===== *)
(** The process system as a transition system, and its theorems.

    Each processor is in its scheduler or runs a process.  A step is one
    routine of proc.c on one processor, up to its return or to its switch
    to the scheduler; between steps the processors interleave freely.
    ptable.lock is part of the state: a step that needs it does not exist
    while another processor has it. *)

From Stdlib Require Import ZArith Lia.
From stdpp Require Import base gmap strings numbers list.
From S2P Require Import Prelude Kstring Mem Kalloc Vm Spinlock Proc ProcStep ProcInv ProcEff.

Open Scope Z_scope.
Open Scope kern_scope.

(** The calls a process makes into proc.c. *)
Inductive kcall : Type :=
| CFork
| CGrow (n : Z)
| CKill (pd : Z)
| CWakeup (ch : Z)
| CYield
| CSleep (ch lk : Z)
| CExit
| CWait.

(** What a processor does: its process runs ([User]), or has just been
    switched to ([Resume]); or it is in scheduler(), before entry [from] of
    the table or between two rounds. *)
Inductive mode : Type := User | Resume | Sched (from : Z) | Idle.

Section Steps.
Context {F : Type} `{FsOps F}.
Variables kend kdata trapret_ forkret_ ptable_addr : Z.

Abbreviation kern := (@kern F).
Abbreviation tab_inv := (tab_inv ptable_addr).
Abbreviation kinv := (kinv ptable_addr).
Implicit Types s : kern.

Definition no_value {A} (m : M kern A) : M kern (res unit) := m ;;; ret (Ret tt).
Definition no_result {A} (m : M kern (res A)) : M kern (res unit) :=
  let! r := m in ret (match r with Ret _ => Ret tt | Switch => Switch end).

Definition call (me : Z) (c : kcall) : M kern (res unit) :=
  match c with
  | CFork => no_value (fork kend kdata trapret_ forkret_ me)
  | CGrow n => no_value (growproc kend me n)
  | CKill pd => no_value (kill me pd)
  | CWakeup ch => no_value (wakeup me ch)
  | CYield => yield me
  | CSleep ch lk => sleep me ch lk (KSleep lk)
  | CExit => exit ptable_addr me
  | CWait => no_result (wait kend ptable_addr me)
  end.

(** Where a process goes on. *)
Definition resume (me : Z) (k : kctx) : M kern (res unit) :=
  match k with
  | KNone => undef "no context"
  | KForkret => no_value (forkret me)
  | KYield e => no_value (yield_resume me e)
  | KSleep lk e => no_value (sleep_resume me lk e)
  | KWait e => no_result (wait_resume kend ptable_addr me e)
  end.

(** The process of processor [me] executes a routine. *)
Definition routine (me : Z) (md : mode) (s : kern) (m : M kern (res unit)) : Prop :=
  match md with
  | User => exists c, (forall ch lk p, c = CSleep ch lk -> inr p -> ch <> paddr ptable_addr p) /\ m = call me c
  | Resume => m = resume me (context (the_proc (on_cpu me s) s))
  | _ => False
  end.

Definition sys : Type := kern * (Z -> mode).
Definition goes (d : Z -> mode) (me : Z) (m : mode) : Z -> mode := fun c => if c =? me then m else d c.

Inductive step : sys -> sys -> Prop :=
| step_round me s d s' :
    is_cpu me s -> d me = Idle -> scheduler_round me s = Ok tt s' -> step (s, d) (s', goes d me (Sched 0))
| step_run me s d from p s' :
    is_cpu me s -> d me = Sched from -> scheduler_scan me from s = Ok (Some p) s' -> step (s, d) (s', goes d me Resume)
| step_rest me s d from s' :
    is_cpu me s -> d me = Sched from -> scheduler_scan me from s = Ok None s' -> step (s, d) (s', goes d me Idle)
| step_return me s d m s' :
    is_cpu me s -> routine me (d me) s m -> m s = Ok (Ret tt) s' -> step (s, d) (s', goes d me User)
| step_switch me s d m s1 s' :
    is_cpu me s -> routine me (d me) s m -> m s = Ok Switch s1 -> scheduler_back me s1 = Ok tt s' ->
    step (s, d) (s', goes d me (Sched (on_cpu me s + 1)))
| step_other me s d s' : (* user code, and the rest of the kernel *)
    is_cpu me s -> d me = User -> same_tab s s' -> step (s, d) (s', d).

(** A table in which every process is ready to run and none runs;
    userinit() leaves such a table, with init as its only process. *)
Record started (s : kern) : Prop := {
  s_len : length (ptab s) = 64%nat;
  s_npid : 1 <= nextpid s;
  s_ready : forall p, inr p -> state (the_proc p s) = UNUSED /\ parent (the_proc p s) = -1 \/
    state (the_proc p s) = RUNNABLE /\ 0 < pid (the_proc p s) < nextpid s;
  s_pids : forall p q, inr p -> inr q -> state (the_proc p s) = RUNNABLE -> state (the_proc q s) = RUNNABLE ->
    pid (the_proc p s) = pid (the_proc q s) -> p = q;
  s_parent : forall p, inr p -> parent (the_proc p s) = -1 \/
    inr (parent (the_proc p s)) /\ parent (the_proc p s) <> p /\ state (the_proc (parent (the_proc p s)) s) = RUNNABLE;
  s_init : inr (initproc s) /\ state (the_proc (initproc s) s) = RUNNABLE /\ parent (the_proc (initproc s) s) = -1;
  s_mach : mach_ok (mc s);
  s_cpus : forall c, is_cpu c s -> on_cpu c s = -1;
}.

Inductive reachable : sys -> Prop :=
| reach_start s : started s -> reachable (s, fun _ => Idle)
| reach_step x y : reachable x -> step x y -> reachable y.

(** ** Routines leave the processes of the processors alone *)

Definition stays {A} (m : M kern A) : Prop := forall s, wlp m s (fun _ s' => same_procs (mc s) (mc s')).

Lemma stays_bind {A B} (m : M kern A) (k : A -> M kern B) : stays m -> (forall a, stays (k a)) -> stays (bind m k).
Proof.
  intros H1 H2 s. apply wlp_bind. eapply wlp_mono; [apply H1|]. intros a s1 E1. eapply wlp_mono; [apply H2|]. intros b s2 E2. exact (same_procs_trans _ _ _ E1 E2).
Qed.
Lemma stays_calm {A} (m : M kern A) : calm m -> stays m.
Proof. intros Hm s. eapply wlp_mono; [apply Hm|]. intros a s' E. apply E. Qed.
Lemma stays_ret {A} (a : A) : stays (ret a).
Proof. intros s. apply wlp_ret, same_procs_refl. Qed.
Lemma stays_gets {A} (f : kern -> A) : stays (gets f).
Proof. intros s. apply wlp_gets, same_procs_refl. Qed.
Lemma stays_pget {A} p (f : proc -> A) : stays (pget p f).
Proof. apply stays_gets. Qed.
Lemma stays_panic {A} msg : stays (A := A) (panic msg).
Proof. intros s. exact I. Qed.
Lemma stays_undef {A} msg : stays (A := A) (undef msg).
Proof. intros s. exact I. Qed.
Lemma stays_pset p f : stays (pset p f).
Proof. intros s. apply wlp_modify, same_procs_refl. Qed.
Lemma stays_npid v : stays (modify (set_nextpid v)).
Proof. intros s. apply wlp_modify, same_procs_refl. Qed.
Lemma stays_require b msg : stays (require b msg).
Proof. intros s. apply wlp_require. intros _. apply same_procs_refl. Qed.
Lemma stays_when b (m : M kern unit) : stays m -> stays (when b m).
Proof. destruct b; [done|intros _; apply stays_ret]. Qed.
Lemma stays_if {A} (b : bool) (m1 m2 : M kern A) : stays m1 -> stays m2 -> stays (if b then m1 else m2).
Proof. by destruct b. Qed.
Lemma stays_for lo hi body : (forall i, stays (body i)) -> stays (for_up lo hi body).
Proof.
  intros Hb s. apply (wlp_for_up (fun _ s1 => same_procs (mc s) (mc s1))); [apply same_procs_refl| |done]. intros i s1 _ E1. eapply wlp_mono; [apply Hb|].
  intros a s2 E2. exact (same_procs_trans _ _ _ E1 E2).
Qed.
Lemma stays_find f : stays (find_proc f).
Proof. intros s. apply wlp_find; intros; apply same_procs_refl. Qed.
Lemma stays_mc {A} (m : M mach A) : keeps_procs m -> stays (on_mc m).
Proof. intros Hm. apply stays_calm. by apply calm_mc. Qed.
End Steps.

#[export] Hint Resolve stays_ret stays_gets stays_pget stays_panic stays_undef stays_pset stays_npid stays_require stays_find : procs.
#[export] Hint Resolve calm_km calm_fs calm_lock calm_unlock calm_curproc calm_sched calm_sched_return calm_growproc calm_yield_resume calm_forkret : procs.
#[export] Hint Resolve keeps_acquire keeps_release : procs.

Ltac stays := repeat first
  [ progress intros | solve [auto with procs] | solve [apply stays_calm; auto with procs] | solve [apply stays_mc; auto with procs]
  | match goal with
    | |- stays (bind _ _) => apply stays_bind
    | |- stays (when _ _) => apply stays_when
    | |- stays (if _ then _ else _) => apply stays_if
    | |- stays (for_up _ _ _) => apply stays_for
    | |- stays match ?x with _ => _ end => destruct x
    end ].

Section System.
Context {F : Type} `{FsOps F}.
Variables kend kdata trapret_ forkret_ ptable_addr : Z.

Abbreviation kern := (@kern F).
Abbreviation kinv := (kinv ptable_addr).
Abbreviation step := (step kend kdata trapret_ forkret_ ptable_addr).
Abbreviation reachable := (reachable kend kdata trapret_ forkret_ ptable_addr).
Implicit Types s : kern.

Lemma stays_wait_pass me cp : stays (F := F) (wait_pass kend ptable_addr me cp).
Proof. unfold wait_pass, sleep. stays. Qed.
Lemma stays_sleep_resume me lk e : stays (F := F) (sleep_resume me lk e).
Proof. unfold sleep_resume. stays. Qed.
#[local] Hint Resolve stays_wait_pass stays_sleep_resume : procs.

Lemma stays_call me c : stays (F := F) (call kend kdata trapret_ forkret_ ptable_addr me c).
Proof.
  destruct c; cbn [call]; unfold no_value, no_result.
  - unfold fork, allocproc. stays.
  - stays.
  - unfold kill. stays.
  - unfold wakeup, wakeup1, each_proc. stays.
  - unfold yield. stays.
  - unfold sleep. stays.
  - unfold exit, wakeup1, each_proc. stays.
  - unfold wait. stays.
Qed.

Lemma stays_resume me k : stays (F := F) (resume kend ptable_addr me k).
Proof.
  destruct k; cbn [resume]; unfold no_value, no_result; [stays..|]. unfold wait_resume. stays.
Qed.

Lemma stays_routine me md s m : routine kend kdata trapret_ forkret_ ptable_addr me md s m -> stays m.
Proof. destruct md; cbn; [|intros ->; apply stays_resume|done|done]. intros (c & _ & ->). apply stays_call. Qed.

(** ** The invariant of the system *)

Definition in_mode (m : mode) (p : Z) : Prop :=
  match m with
  | User | Resume => p <> -1
  | Sched from => p = -1 /\ 0 <= from
  | Idle => p = -1
  end.

Record sinv (x : sys (F := F)) : Prop := {
  si_kern : kinv x.1;
  si_mode : forall c, is_cpu c x.1 -> in_mode (x.2 c) (on_cpu c x.1);
}.

(** The other processors keep their processes. *)
Definition others (me : Z) s s' : Prop :=
  length (cpus (mc s')) = length (cpus (mc s)) /\ forall c, c <> me -> on_cpu c s' = on_cpu c s.

Lemma others_same me s s' : same_procs (mc s) (mc s') -> others me s s'.
Proof. intros [E1 E2]. split; [done|]. intros c _. apply E2. Qed.

Lemma others_upd me p s s1 s' : others me s s1 -> mc s' = upd_cpu me (set_cproc p) (mc s1) -> others me s s'.
Proof.
  intros [E1 E2] E. split; [rewrite E; cbn; by rewrite length_aset|]. intros c Hc. rewrite <- E2 by done. unfold on_cpu, the_cpu. rewrite E. cbn.
  by rewrite aget_aset_ne.
Qed.

Lemma others_scan me from s : wlp (scheduler_scan (F := F) me from) s (fun _ s' => others me s s').
Proof.
  unfold scheduler_scan. apply wlp_bind. apply wlp_wp, (wp_search (fun _ s' => s' = s)); [done| |].
  - intros k s' _ ->. apply wp_bind, wp_gets, wp_ret. destruct (state_eqb _ _); [|done]. apply wlp_bind, wlp_gets, wlp_bind, wlp_zoom, wlp_modify, wlp_bind, wlp_modify, wlp_ret.
    eapply others_upd; [apply others_same, same_procs_refl|reflexivity].
  - intros s' ->. apply wlp_bind, wlp_unlock. intros m' E. apply wlp_ret. by apply others_same.
Qed.

Lemma sinv_goes me s d s' m : sinv (s, d) -> kinv s' -> others me s s' -> in_mode m (on_cpu me s') -> sinv (s', goes d me m).
Proof.
  intros [HK HM] HK' [E1 E2] Hm. split; [done|]. cbn in *. intros c Hc. unfold goes. destruct (Z.eqb_spec c me) as [->|Hne]; [done|]. rewrite E2 by done.
  apply HM. unfold is_cpu in *. by rewrite <- E1.
Qed.

Lemma off_value {A} me (m : M kern A) s : wlp m s (fun _ s' => kinv s') -> off ptable_addr me (no_value m) s.
Proof. intros Hm. unfold off, no_value. apply wlp_bind. eapply wlp_mono; [exact Hm|]. intros a s' HK. by apply wlp_ret. Qed.

Lemma off_result {A} me (m : M kern (res A)) s : off ptable_addr me m s -> off ptable_addr me (no_result m) s.
Proof. intros Hm. unfold off, no_result. apply wlp_bind. eapply wlp_mono; [exact Hm|]. intros [a|] s' HK; by apply wlp_ret. Qed.

Lemma kinv_calm {A} (m : M kern A) s : calm m -> kinv s -> wlp m s (fun _ s' => kinv s').
Proof. intros Hm HK. apply wlp_calm; [done|]. intros _ s' E. by eapply kinv_same. Qed.

Lemma off_routine me md s m : here ptable_addr me s -> routine kend kdata trapret_ forkret_ ptable_addr me md s m -> off ptable_addr me m s.
Proof.
  intros HH. pose proof HH as [HK Hme Hp]. destruct (here_run _ _ _ HH) as [Hin _]. destruct md; cbn; [|intros ->|done|done].
  - intros (c & Hc & ->). destruct c; cbn [call].
    + by apply off_value, kinv_fork.
    + by apply off_value, kinv_calm; [apply calm_growproc|].
    + by apply off_value, kinv_kill.
    + by apply off_value, kinv_wakeup.
    + by apply off_yield.
    + apply off_sleep; [done|]. intros E. by destruct (Hc ch lk (on_cpu me s)).
    + by apply off_exit.
    + by apply off_result, off_wait.
  - destruct (context _); cbn [resume].
    + exact I.
    + by apply off_value, kinv_calm; [apply calm_forkret|].
    + by apply off_value, kinv_calm; [apply calm_yield_resume|].
    + apply off_value. eapply wlp_mono; [by apply wlp_sleep_resume|]. intros a s' [H' _]. apply H'.
    + by apply off_result, off_wait_resume.
Qed.

Lemma here_mode me md s m : kinv s -> is_cpu me s -> in_mode md (on_cpu me s) -> routine kend kdata trapret_ forkret_ ptable_addr me md s m -> here ptable_addr me s.
Proof. intros HK Hme Hm HR. constructor; [done|done|]. by destruct md. Qed.

Lemma sinv_step x y : sinv x -> step x y -> sinv y.
Proof.
  intros HI HS. pose proof HI as [HK HM]. destruct HS as [me s d s' Hme Hd E|me s d from p s' Hme Hd E|me s d from s' Hme Hd E|me s d m s' Hme HR E|me s d m s1 s' Hme HR E E'|me s d s' Hme Hd HT]; cbn [fst snd] in *.
  - pose proof (calm_round me s) as C. unfold wlp in C. rewrite E in C. apply (sinv_goes me s); [done|by eapply kinv_same|apply others_same, C|].
    specialize (HM me Hme). rewrite Hd in HM. destruct (same_cpu me _ _ C) as [-> _]. done.
  - specialize (HM me Hme). rewrite Hd in HM. destruct HM as [Ho Hf]. pose proof (others_scan me from s) as O. pose proof (kinv_scan _ _ _ _ HK Hme Ho Hf) as K.
    unfold wlp in O, K. rewrite E in O, K. destruct K as (HK' & Eo & Hp & _). apply (sinv_goes me s); [done..|]. cbn [in_mode]. rewrite Eo. unfold inr in Hp. lia.
  - specialize (HM me Hme). rewrite Hd in HM. destruct HM as [Ho Hf]. pose proof (others_scan me from s) as O. pose proof (kinv_scan _ _ _ _ HK Hme Ho Hf) as K.
    unfold wlp in O, K. rewrite E in O, K. destruct K as (HK' & Ho'). by apply (sinv_goes me s).
  - pose proof (here_mode _ _ _ _ HK Hme (HM me Hme) HR) as HH. pose proof (off_routine _ _ _ _ HH HR) as K. pose proof (stays_routine _ _ _ _ HR s) as O.
    unfold off, wlp in K. unfold wlp in O. rewrite E in K, O. apply (sinv_goes me s); [done|done|by apply others_same|]. destruct O as [_ O]. unfold on_cpu. destruct (O me) as [_ ->]. apply HH.
  - pose proof (here_mode _ _ _ _ HK Hme (HM me Hme) HR) as HH. pose proof (off_routine _ _ _ _ HH HR) as K. pose proof (stays_routine _ _ _ _ HR s) as O.
    unfold off, wlp at 1 in K. unfold wlp in O. rewrite E in K, O. unfold wlp in K. rewrite E' in K. unfold scheduler_back, on_mc, zoom, modify in E'. injection E' as <-.
    apply (sinv_goes me s); [done|done|eapply others_upd; [by apply others_same|reflexivity]|]. destruct (here_run _ _ _ HH) as [Hin _]. cbn [in_mode]. split; [|unfold inr in Hin; lia].
    unfold on_cpu. cbn [mc set_mc]. rewrite the_cpu_upd; [done|]. eapply present_same; [exact O|]. by apply cpu_present; [apply HK|].
  - split; [by eapply kinv_same|]. cbn. intros c Hc. destruct (st_mc _ _ HT) as [E1 E2]. unfold on_cpu. destruct (E2 c) as [_ ->]. apply HM. unfold is_cpu in *. by rewrite <- E1.
Qed.

Lemma sinv_start s : started s -> sinv (s, fun _ => Idle).
Proof.
  intros [S1 S2 S3 S4 S5 (S6 & S7 & S8) S9 S10].
  assert (HU : forall p, inr p -> state (the_proc p s) <> UNUSED -> state (the_proc p s) = RUNNABLE) by (intros p Hp Hs; by destruct (S3 p Hp) as [[? _]|[? _]]).
  split; [|exact S10]. cbn [fst]. split; constructor; try done.
  - intros p Hp Hs. by destruct (S3 p Hp) as [[? _]|[_ ?]].
  - intros p q Hp Hq Hs1 Hs2. apply S4; auto.
  - intros p Hp Hs. destruct (S3 p Hp) as [[_ ?]|[? _]]; congruence.
  - intros p Hp. destruct (S5 p Hp) as [?|(? & _ & E)]; [by left|right]. split; [done|]. rewrite E. by right; left.
  - intros p Hp E. destruct (S5 p Hp) as [E2|(_ & ? & _)]; [unfold inr in Hp; lia|done].
  - split; [done|]. rewrite S7. by right; left.
  - intros p c Hp Hc Hs _ _ Hz. destruct (S3 c Hc) as [[? _]|[? _]]; congruence.
  - intros c Hc. left. by apply S10.
  - intros c c' Hc _ _ Hn. by rewrite S10 in Hn.
  - intros p Hp Hs. destruct (S3 p Hp) as [[? _]|[? _]]; congruence.
Qed.

Lemma reachable_inv x : reachable x -> sinv x.
Proof. induction 1 as [s Hs|x y _ IH HS]; [by apply sinv_start|by eapply sinv_step]. Qed.
End System.

(** ** ptable.lock, when it is free *)

Definition lock_free (me : Z) (m : mach) : Prop :=
  present me m /\ cpu_ok (the_cpu me m) /\ 0 < Z.of_nat (length (locks m)) /\ locked (the_lock PTLOCK m) = false.
Definition lock_held (me : Z) (m : mach) : Prop :=
  present me m /\ cpu_ok (the_cpu me m) /\ 0 < Z.of_nat (length (locks m)) /\ the_lock PTLOCK m = mk_lock true me /\ 1 <= ncli (the_cpu me m).

Section Locked.
Context {F : Type} `{FsOps F}.
Variables kend trapret_ forkret_ me : Z.
Implicit Types s : kern (F := F).

Lemma wp_lock_ptable s (Q : unit -> kern -> Prop) : lock_free me (mc s) -> (forall m', lock_held me m' -> Q tt (set_mc m' s)) -> wp (lock_ptable me) s Q.
Proof.
  intros (Hp & Hc & Hl & Hf) HQ. unfold lock_ptable. apply wp_zoom. unfold wp. rewrite acquire_run by done. rewrite Hf. apply HQ.
  assert (E : the_cpu me (upd_lock PTLOCK (mk_lock true me) (upd_cpu me pushed (mc s))) = pushed (the_cpu me (mc s))) by (by apply the_cpu_upd).
  unfold lock_held. rewrite E. split_and!; [by apply present_lock, present_upd|by apply cpu_ok_pushed|unfold upd_lock; cbn [locks]; by rewrite length_aset| |cbn; destruct Hc; lia].
  unfold the_lock, upd_lock. cbn [locks]. apply aget_aset_eq. done.
Qed.

Lemma wp_unlock_ptable s (Q : unit -> kern -> Prop) : lock_held me (mc s) -> (forall m', lock_free me m' -> Q tt (set_mc m' s)) -> wp (unlock_ptable me) s Q.
Proof.
  intros (Hp & Hc & Hl & Hf & Hn) HQ. unfold unlock_ptable. apply wp_zoom. unfold wp. rewrite release_run by done. rewrite Hf. cbn [locked lcpu andb]. rewrite Z.eqb_refl. apply HQ.
  assert (E : the_cpu me (upd_lock PTLOCK (mk_lock false (-1)) (upd_cpu me popped (mc s))) = popped (the_cpu me (mc s))) by (by apply the_cpu_upd).
  unfold lock_free. rewrite E. split_and!; [by apply present_lock, present_upd| |unfold upd_lock; cbn [locks]; by rewrite length_aset|].
  - unfold cpu_ok, popped. cbn. split; [lia|]. intros Hk. by replace (ncli (the_cpu me (mc s)) - 1 =? 0) with false by lia.
  - unfold the_lock, upd_lock. cbn [locks]. rewrite aget_aset_eq; done.
Qed.

Lemma the_proc_km k p s : the_proc p (set_km k s) = the_proc p s.
Proof. done. Qed.
Lemma the_proc_mc m p s : the_proc p (set_mc m s) = the_proc p s.
Proof. done. Qed.
Lemma the_proc_npid n p s : the_proc p (set_nextpid n s) = the_proc p s.
Proof. done. Qed.

(** The first entry that satisfies [f]. *)
Lemma wp_find_proc f s p (Q : option Z -> kern -> Prop) : 0 <= p < NPROC -> f (the_proc p s) = true -> (forall q, 0 <= q < p -> f (the_proc q s) = false) -> Q (Some p) s ->
  wp (find_proc f) s Q.
Proof.
  intros Hp Hf Hb HQ. unfold find_proc. apply (wp_search (fun i s' => s' = s /\ i <= p)).
  - split; [done|lia].
  - intros k s' Hk (-> & Hle). apply wp_bind, wp_gets, wp_ret. destruct (f (the_proc k s)) eqn:E; [|split; [done|destruct (decide (k = p)); [congruence|lia]]].
    destruct (decide (k = p)) as [->|]; [done|]. rewrite Hb in E by lia. done.
  - intros s' (-> & Hle). unfold NPROC in Hp. lia.
Qed.

Lemma wp_page_store (k a v : Z) (s : kmem) (Q : unit -> kmem -> Prop) : page_ok kend k -> KERNBASE < kend -> bytes (kbytes s) -> k <= a -> a + 4 <= k + 4096 ->
  (forall m', bytes m' -> Q tt (set_kbytes m' s)) -> wp (on_mem (store32 a v)) s Q.
Proof.
  intros Hk Hkend Hb H1 H2 HQ. pose proof (page_range kend Hkend k Hk). apply wp_zoom, wp_store32; [lia|lia|done|]. intros m' Hm' _ _. auto.
Qed.

(** allocproc() when the lock is free and there is memory: the first free
    entry becomes the embryo; its killed flag is not touched. *)
Lemma wp_allocproc s p k l (Q : Z -> kern -> Prop) : length (ptab s) = 64%nat -> lock_free me (mc s) -> KERNBASE < kend -> kmem_inv kend (km s) (k :: l) -> nextpid s < 2 ^ 31 - 1 ->
  inr p -> state (the_proc p s) = UNUSED -> (forall q, 0 <= q < p -> state (the_proc q s) <> UNUSED) ->
  (forall s', state (the_proc p s') = EMBRYO -> pid (the_proc p s') = nextpid s -> killed (the_proc p s') = killed (the_proc p s) -> kstack (the_proc p s') = k -> Q p s') ->
  wp (allocproc trapret_ forkret_ me) s Q.
Proof.
  intros HL HM Hkend HK Hn Hp Hu Hb HQ. assert (Hr : 0 <= p < Z.of_nat (length (ptab s))) by (rewrite HL; unfold inr, NPROC in Hp; lia).
  unfold allocproc. apply wp_bind, wp_lock_ptable; [done|]. intros m1 Hm1. apply wp_bind.
  apply (wp_find_proc _ _ p); [exact Hp|change (the_proc p (set_mc m1 s)) with (the_proc p s); by rewrite Hu| |].
  { intros q Hq. change (the_proc q (set_mc m1 s)) with (the_proc q s). specialize (Hb q Hq). by destruct (state (the_proc q s)). }
  apply wp_bind, wp_modify, wp_bind, wp_gets, wp_bind, wp_modify, wp_bind, wp_require; [change (nextpid _) with (nextpid s); lia|]. apply wp_bind, wp_modify, wp_bind, wp_unlock_ptable; [done|]. intros m2 Hm2.
  apply wp_bind, wp_zoom, (wp_kalloc kend Hkend (km s) (k :: l)); [exact HK|]. intros Hk Hnl HK'. set (s1 := set_km _ _).
  assert (P1 : the_proc p s1 = set_pid (nextpid s) (set_state EMBRYO (the_proc p s))).
  { unfold s1. rewrite the_proc_km, the_proc_mc, the_proc_npid, !the_proc_upd, Z.eqb_refl; [done|exact Hr|]. unfold upd_proc. cbn [ptab set_ptab]. by rewrite length_aset. }
  assert (L1 : 0 <= p < Z.of_nat (length (ptab s1))) by (unfold s1; cbn; by rewrite !length_aset).
  assert (B1 : bytes (kbytes (km s1))) by apply HK'. clearbody s1. pose proof (page_range kend Hkend k Hk) as Hkr.
  assert (U : forall f s2, 0 <= p < Z.of_nat (length (ptab s2)) -> the_proc p (upd_proc p f s2) = f (the_proc p s2) /\ 0 <= p < Z.of_nat (length (ptab (upd_proc p f s2)))).
  { intros f s2 L. rewrite the_proc_upd, Z.eqb_refl by done. split; [done|]. cbn. by rewrite length_aset. }
  apply wp_bind, wp_modify. replace (k =? 0) with false by lia. destruct (U (set_kstack k) s1 L1) as [P2 L2]. apply wp_bind, wp_modify.
  destruct (U (set_tf (k + KSTACKSIZE - 76)) _ L2) as [P3 L3]. unfold KSTACKSIZE in *. cbn zeta.
  apply wp_bind, wp_zoom, (wp_page_store k); [done|done|exact B1|lia|lia|]. intros m3 B3. apply wp_bind, wp_modify, wp_bind, wp_zoom, wp_zoom, wp_memset; [lia|lia|lia|exact B3|].
  intros m4 B4 _. apply wp_bind, wp_zoom, (wp_page_store k); [done|done|exact B4|lia|lia|]. intros m5 B5. apply wp_ret.
  set (s3 := upd_proc p (set_tf _) _) in *. match goal with |- Q p ?x => assert (P4 : the_proc p x = set_context KForkret (the_proc p s3)) end.
  { rewrite !the_proc_km. apply (proj1 (U (set_context KForkret) _ L3)). }
  apply HQ; rewrite P4, P3, P2, P1; done.
Qed.
End Locked.

(** ** The first process *)

Section Boot.
Context {F : Type} `{FsOps F}.
Variables kend kdata trapret_ forkret_ me : Z.
Implicit Types s : kern (F := F).

(** The state main() calls userinit() in. *)
Record unstarted s : Prop := {
  u_len : length (ptab s) = 64%nat;
  u_npid : nextpid s = 1;
  u_free : forall i, inr i -> state (the_proc i s) = UNUSED /\ parent (the_proc i s) = -1;
  u_mach : mach_ok (mc s);
  u_cpus : forall c, is_cpu c s -> on_cpu c s = -1;
}.

Lemma embryo_initproc np pr v s s1 : embryo np pr s s1 -> embryo np pr (set_initproc v s) (set_initproc v s1).
Proof. intros ([A1 A2 A3 A4] & E). split; [by constructor|exact E]. Qed.

Lemma started_embryo s s1 m : unstarted s -> embryo 0 (-1) (set_initproc 0 s) s1 -> same_procs (mc s1) m ->
  started (set_mc m (upd_proc 0 (set_state RUNNABLE) s1)).
Proof.
  intros [U1 U2 U3 U4 U5] ([A1 A2 A3 A4] & E2 & E3 & E4 & _ & E6) Em. assert (Hr : 0 <= 0 < Z.of_nat (length (ptab s1))) by (rewrite A1; cbn; rewrite U1; lia).
  assert (EM : same_procs (mc s) m) by (exact (same_procs_trans _ _ _ A3 Em)).
  assert (P : forall i, the_proc i (set_mc m (upd_proc 0 (set_state RUNNABLE) s1)) = if 0 =? i then set_state RUNNABLE (the_proc 0 s1) else the_proc i s1).
  { intros i. rewrite the_proc_mc. by apply the_proc_upd. }
  set (s' := set_mc m _) in *. assert (P0 : state (the_proc 0 s') = RUNNABLE /\ pid (the_proc 0 s') = 1 /\ parent (the_proc 0 s') = -1).
  { rewrite P. cbn [Z.eqb state pid parent set_state]. rewrite E3, E4. done. }
  assert (P1 : forall i, inr i -> i <> 0 -> state (the_proc i s') = UNUSED /\ parent (the_proc i s') = -1).
  { intros i Hi Hne. rewrite P. replace (0 =? i) with false by lia. rewrite A2 by lia. by apply U3. }
  assert (EN : nextpid s' = 2) by (unfold s'; cbn [nextpid set_mc upd_proc set_ptab]; rewrite E6; cbn; lia).
  destruct EM as [L1 L2]. constructor.
  - unfold s'. cbn [ptab set_mc upd_proc set_ptab]. rewrite length_aset, A1. exact U1.
  - lia.
  - intros p Hp. destruct (decide (p = 0)) as [->|]; [right; destruct P0 as (? & -> & _); split; [done|lia]|left; by apply P1].
  - intros p q Hp Hq Hsp Hsq _. destruct (decide (p = 0)) as [->|Hp0]; [|destruct (P1 p Hp Hp0); congruence]. destruct (decide (q = 0)) as [->|Hq0]; [done|destruct (P1 q Hq Hq0); congruence].
  - intros p Hp. left. destruct (decide (p = 0)) as [->|]; [apply P0|by apply P1].
  - assert (Ei : initproc s' = 0) by exact A4. rewrite Ei. split; [done|]. split; apply P0.
  - intros i j Hi Hj. cbn [mc set_mc s'] in *. rewrite L1 in Hi, Hj. destruct (L2 i) as [-> _], (L2 j) as [-> _]. by apply U4.
  - intros c Hc. unfold on_cpu, is_cpu in *. cbn [mc set_mc s'] in *. destruct (L2 c) as [_ ->]. apply U5. unfold is_cpu. by rewrite <- L1.
Qed.

(** userinit() leaves the table with one process, ready to run. *)
Lemma userinit_starts initcode_ initsz s : unstarted s ->
  wlp (userinit kend kdata trapret_ forkret_ me initcode_ initsz) s (fun _ s' => started s').
Proof.
  intros HU. pose proof HU as [U1 U2 U3 U4 U5]. unfold userinit. apply wlp_bind, wlp_allocproc; [done| | |].
  1: { intros s1 _ _. apply wlp_bind, wlp_modify, wlp_bind, wlp_require. done. }
  1: { intros np s1 _ _ _. apply wlp_bind, wlp_modify, wlp_bind, wlp_require. done. }
  intros np s1 Hnp _ _ Hfst E1. assert (np = 0) as ->.
  { destruct (decide (np = 0)); [done|]. destruct (Hfst 0) as []; [unfold NPROC in Hnp; lia|]. apply U3. unfold inr, NPROC. lia. }
  destruct (U3 0) as [_ Epar]; [done|]. rewrite Epar in E1. apply wlp_bind, wlp_modify, wlp_bind, wlp_require. intros _. apply (embryo_initproc _ _ 0) in E1.
  set (s0 := set_initproc 0 s) in *. assert (Hr : 0 <= 0 < Z.of_nat (length (ptab s0))) by (cbn; rewrite U1; lia). pose proof (@wlp_emb F 0 s0) as W.
  apply wlp_bind. eapply W; [apply emb_km|exact E1|]. intros d s2 E2. apply wlp_bind. eapply W; [by apply emb_pset|exact E2|]. intros _ s3 E3.
  apply wlp_if; intros _; [exact I|]. apply wlp_bind. eapply W; [apply emb_km|exact E3|]. intros _ s4 E4.
  apply wlp_bind. eapply W; [by apply emb_pset|exact E4|]. intros _ s5 E5. apply wlp_bind, wlp_gets.
  do 8 (apply wlp_bind; eapply W; [apply emb_km|eassumption|]; intros _ ? ?).
  apply wlp_bind. eapply W; [by apply emb_pset|eassumption|]. intros _ t6 D6. apply wlp_bind. eapply W; [apply emb_fs|exact D6|]. intros r t7 D7.
  apply wlp_bind. eapply W; [by apply emb_pset|exact D7|]. intros _ t8 D8. apply wlp_bind. eapply W; [apply emb_lock|exact D8|]. intros _ t9 D9.
  apply wlp_bind, wlp_modify. apply wlp_unlock. intros m' Em. by eapply started_embryo.
Qed.
End Boot.

(** ** Theorems *)

Section Theorems.
Context {F : Type} `{FsOps F}.
Variables kend kdata trapret_ forkret_ ptable_addr : Z.

Abbreviation reachable := (reachable (F := F) kend kdata trapret_ forkret_ ptable_addr).
Implicit Types s : kern (F := F).

(** C9: In every reachable state of the machine, with any number of
    processors, whose steps are the routines of proc.c, each run in one piece
    as ptable.lock has it: processes in use have different positive process
    ids; a process is RUNNING exactly when some processor runs it, no two
    processors run the same one, and a processor that is in its scheduler runs
    none; the parent of a process is a live process; and init is alive. *)
Theorem process_table_consistent s d : reachable (s, d) ->
  (forall p q, inr p -> inr q -> state (the_proc p s) <> UNUSED -> state (the_proc q s) <> UNUSED -> pid (the_proc p s) = pid (the_proc q s) -> p = q) /\
  (forall p, inr p -> state (the_proc p s) <> UNUSED -> 0 < pid (the_proc p s)) /\
  (forall p, inr p -> state (the_proc p s) = RUNNING <-> exists c, is_cpu c s /\ on_cpu c s = p) /\
  (forall c c', is_cpu c s -> is_cpu c' s -> on_cpu c s = on_cpu c' s -> on_cpu c s <> -1 -> c = c') /\
  (forall c, is_cpu c s -> in_mode (d c) (on_cpu c s)) /\
  (forall p, inr p -> parent (the_proc p s) <> -1 -> live (state (the_proc (parent (the_proc p s)) s))) /\
  live (state (the_proc (initproc s) s)).
Proof.
  intros HR. destruct (reachable_inv _ _ _ _ _ _ HR) as [[HT HC] HM]. cbn [fst snd] in *. split_and!.
  - apply HT.
  - intros p Hp Hs. by apply (t_pid _ _ HT).
  - intros p Hp. split; [by apply (c_all _ HC)|]. intros (c & Hc & <-). destruct (c_run _ HC c Hc) as [E|[_ E]]; [|done]. unfold inr in Hp. lia.
  - apply HC.
  - exact HM.
  - intros p Hp Hn. by destruct (t_parent _ _ HT p Hp) as [?|[_ ?]].
  - apply HT.
Qed.

(** C17: No exit() is missed by wait(): in every reachable state (the routines
    of proc.c being the steps, as ptable.lock has it) a process that sleeps in
    wait() has no child that is a zombie, whatever the order in which children
    exit, are handed to init, are killed or woken up. *)
Theorem wait_misses_no_exit s d p c : reachable (s, d) -> inr p -> inr c ->
  state (the_proc p s) = SLEEPING -> chan (the_proc p s) = paddr ptable_addr p -> parent (the_proc c s) = p -> state (the_proc c s) <> ZOMBIE.
Proof. intros HR. destruct (reachable_inv _ _ _ _ _ _ HR) as [[HT HC] HM]. by apply (t_wait _ _ HT). Qed.

(** The choices of the scheduler of processor [me] from entry [from] on, with
    anything between two of them, that pass over [p] while it is RUNNABLE;
    the next search begins at [to]. *)
Inductive passed_over (me p : Z) : Z -> nat -> Z -> Prop :=
| passed_none from : passed_over me p from 0 from
| passed_one from q s s' n to :
    state (the_proc p s) = RUNNABLE -> scheduler_scan (F := F) me from s = Ok (Some q) s' -> q <> p ->
    passed_over me p (q + 1) n to -> passed_over me p from (S n) to.

Lemma scan_picks me from p s : 0 <= from <= p -> inr p -> state (the_proc p s) = RUNNABLE ->
  exists q s', scheduler_scan me from s = Ok (Some q) s' /\ from <= q <= p /\ state (the_proc q s) = RUNNABLE /\
    (length (ptab s) = 64%nat -> state (the_proc q s') = RUNNING).
Proof.
  intros Hf Hp Hs. assert (W : wp (scheduler_scan me from) s (fun r s' => exists q, r = Some q /\ from <= q <= p /\ state (the_proc q s) = RUNNABLE /\
    (length (ptab s) = 64%nat -> state (the_proc q s') = RUNNING))).
  2: { apply wp_run in W as (r & s' & E & q & -> & Hq). by exists q, s'. }
  unfold scheduler_scan. apply wp_bind. apply (wp_search (fun i s' => s' = s /\ from <= i <= p)); [split; [done|lia]| |].
  - intros k s' Hk (-> & Hle). apply wp_bind, wp_gets, wp_ret. destruct (state_eqb (state (the_proc k s)) RUNNABLE) eqn:E.
    + apply state_eqb_eq in E. apply wp_bind, wp_gets, wp_bind, wp_zoom, wp_modify, wp_bind, wp_modify, wp_ret. exists k. split_and!; [done|lia|lia|done|]. intros HL.
      rewrite the_proc_upd; [by rewrite Z.eqb_refl|]. cbn [ptab set_mc]. rewrite HL. unfold inr, NPROC in Hp. lia.
    + split; [done|]. destruct (decide (k = p)) as [->|]; [by rewrite Hs in E|lia].
  - intros s' (-> & Hle). unfold inr in Hp. lia.
Qed.

Lemma passed_bound me p from n to : 0 <= from <= p -> inr p -> passed_over me p from n to -> from + Z.of_nat n <= to <= p /\ 0 <= to.
Proof.
  intros Hf Hp HP. induction HP as [from|from q s s' n to Hs E Hq HP IH]; [lia|]. destruct (scan_picks me from p s Hf Hp Hs) as (q' & t' & E' & Hq' & _).
  rewrite E in E'. injection E' as <- <-. specialize (IH ltac:(lia)). lia.
Qed.

(** The scheduler passes over no one for long: from entry [from] of the
    table on, a RUNNABLE process p is passed over at most p - from times
    before the search finds it or an entry before it; so at most 63 other
    processes run on a processor before a process that stays RUNNABLE
    does. *)
Theorem scheduler_bounded_wait me p from n to s : 0 <= from <= p -> inr p -> passed_over me p from n to ->
  state (the_proc p s) = RUNNABLE -> length (ptab s) = 64%nat ->
  Z.of_nat n <= p - from /\
  exists q s', scheduler_scan me to s = Ok (Some q) s' /\ to <= q <= p /\ state (the_proc q s') = RUNNING /\
    (Z.of_nat n = p - from -> q = p).
Proof.
  intros Hf Hp HP Hs HL. destruct (passed_bound me p from n to Hf Hp HP) as [H1 H2]. split; [lia|]. destruct (scan_picks me to p s) as (q & s' & E & Hq & _ & Hr); [lia|done|done|].
  exists q, s'. split_and!; [done|lia|lia|by apply Hr|]. lia.
Qed.

(** kill(0) kills a process that does not exist yet: it matches a free
    entry of the table, and allocproc() does not reset killed, so the next
    process born in that entry is killed from the start. *)
Theorem kill_before_birth me s p k l : length (ptab s) = 64%nat -> lock_free me (mc s) -> KERNBASE < kend -> kmem_inv kend (km s) (k :: l) -> nextpid s < 2 ^ 31 - 1 ->
  inr p -> state (the_proc p s) = UNUSED -> pid (the_proc p s) = 0 -> (forall q, 0 <= q < p -> state (the_proc q s) <> UNUSED /\ pid (the_proc q s) <> 0) ->
  exists s1 s2, kill me 0 s = Ok 0 s1 /\ allocproc trapret_ forkret_ me s1 = Ok p s2 /\
    state (the_proc p s2) = EMBRYO /\ pid (the_proc p s2) = nextpid s /\ killed (the_proc p s2) = true.
Proof.
  intros HL HM Hkend HK Hn Hp Hu Hz Hb. assert (Hr : 0 <= p < Z.of_nat (length (ptab s))) by (rewrite HL; unfold inr, NPROC in Hp; lia).
  assert (W : wp (kill me 0) s (fun r s1 => r = 0 /\ lock_free me (mc s1) /\ s1 = set_mc (mc s1) (upd_proc p (set_killed true) s))).
  { unfold kill. apply wp_bind, wp_lock_ptable; [done|]. intros m1 Hm1. apply wp_bind, (wp_find_proc _ _ p); [done|rewrite the_proc_mc; lia| |].
    { intros q Hq. rewrite the_proc_mc. destruct (Hb q Hq). lia. }
    apply wp_bind, wp_modify, wp_bind, wp_gets. rewrite the_proc_upd, Z.eqb_refl, the_proc_mc by done. cbn [state set_killed]. rewrite Hu.
    apply wp_bind, wp_ret, wp_bind, wp_unlock_ptable; [done|]. intros m2 Hm2. by apply wp_ret. }
  apply wp_run in W as (r & s1 & E1 & -> & HM1 & Es1).
  assert (P1 : forall i, the_proc i s1 = if p =? i then set_killed true (the_proc p s) else the_proc i s) by (intros i; rewrite Es1, the_proc_mc; by apply the_proc_upd).
  assert (W : wp (allocproc trapret_ forkret_ me) s1 (fun r s2 => r = p /\ state (the_proc p s2) = EMBRYO /\ pid (the_proc p s2) = nextpid s /\ killed (the_proc p s2) = true)).
  { apply (wp_allocproc kend trapret_ forkret_ me s1 p k l); [rewrite Es1; cbn [ptab set_mc upd_proc set_ptab]; by rewrite length_aset|done|done|by rewrite Es1|by rewrite Es1|done| | |].
    - by rewrite P1, Z.eqb_refl.
    - intros q Hq. rewrite P1. replace (p =? q) with false by lia. by apply Hb.
    - intros s2 A1 A2 A3 _. rewrite A2, A3, P1, Z.eqb_refl. split_and!; [done|done|by rewrite Es1|done]. }
  apply wp_run in W as (r & s2 & E2 & -> & W2). by exists s1, s2.
Qed.
End Theorems.

(** ** A run of two processors and three processes *)

(** No files. *)
#[local] Instance no_files : FsOps unit := {
  f_filedup := fun f => ret f;
  f_fileclose := fun _ => ret tt;
  f_idup := fun i => ret i;
  f_iput := fun _ => ret tt;
  f_begin_op := ret tt;
  f_end_op := ret tt;
  f_namei_root := ret 1;
  f_iinit := ret tt;
  f_initlog := ret tt;
}.

Definition demo_proc (pd pr : Z) : proc := mk_proc 0 0 0 RUNNABLE pd pr 0 KForkret 0 false (repeat 0 16) 1 (repeat 0 16).
Definition demo_machine : mach := mk_mach [mk_cpu 10 true 0 false (-1); mk_cpu 20 true 0 false (-1)] [mk_lock false (-1)].

(** init, its child and its grandchild. *)
Definition demo_kern : kern (F := unit) :=
  mk_kern demo_kmem demo_machine (demo_proc 1 (-1) :: demo_proc 2 0 :: demo_proc 3 1 :: repeat no_proc 61) 4 0 true tt.

Definition demo_ptable : Z := 0x80112d54.

Lemma demo_entries p : inr p -> p = 0 \/ p = 1 \/ p = 2 \/ the_proc p demo_kern = no_proc.
Proof.
  intros Hp. unfold inr, NPROC in Hp. destruct (decide (p < 3)); [lia|]. do 3 right. unfold the_proc, aget. replace (p <? 0) with false by lia.
  replace (Z.to_nat p) with (3 + Z.to_nat (p - 3))%nat by lia. cbn [ptab demo_kern nth Nat.add]. apply nth_repeat.
Qed.

Lemma demo_mach_ok : mach_ok demo_machine.
Proof. intros i j Hi Hj. cbn in Hi, Hj. assert (i = 0 \/ i = 1) as [->| ->] by lia; assert (j = 0 \/ j = 1) as [->| ->] by lia; done. Qed.

Lemma demo_started : started demo_kern.
Proof.
  constructor; [done|done| | | | |exact demo_mach_ok|].
  - intros p Hp. destruct (demo_entries p Hp) as [->|[->|[->| ->]]]; [right; done..|by left].
  - intros p q Hp Hq Hs1 Hs2. destruct (demo_entries p Hp) as [->|[->|[->|E]]]; [..|by rewrite E in Hs1];
      destruct (demo_entries q Hq) as [->|[->|[->|E]]]; try done; by rewrite E in Hs2.
  - intros p Hp. destruct (demo_entries p Hp) as [->|[->|[->| ->]]]; [by left|right; done|right; done|by left].
  - done.
  - intros c Hc. unfold is_cpu in Hc. cbn in Hc. assert (c = 0 \/ c = 1) as [->| ->] by lia; done.
Qed.

Definition after {A} (m : M (kern (F := unit)) A) (s : kern) : kern := match m s with Ok _ s' => s' | _ => s end.

Abbreviation dcall := (call demo_kend 0 0 0 demo_ptable).
Abbreviation dresume := (resume demo_kend demo_ptable).
Abbreviation dreach := (reachable demo_kend 0 0 0 demo_ptable).

(** Process [p] is picked, starts, and makes the call [c], which switches. *)
Definition turn (from p : Z) (c : kcall) (s : kern (F := unit)) : kern :=
  after (scheduler_back 0) (after (dcall 0 c) (after (dresume 0 KForkret) (after (scheduler_scan 0 from) s))).

Lemma turn_reach from p c s d : is_cpu 0 s -> dreach (s, d) -> d 0 = Sched from -> (forall ch lk q, c = CSleep ch lk -> inr q -> ch <> paddr demo_ptable q) ->
  let s1 := after (scheduler_scan 0 from) s in let s2 := after (dresume 0 KForkret) s1 in let s3 := after (dcall 0 c) s2 in
  scheduler_scan 0 from s = Ok (Some p) s1 -> context (the_proc (on_cpu 0 s1) s1) = KForkret -> dresume 0 KForkret s1 = Ok (Ret tt) s2 ->
  is_cpu 0 s1 -> is_cpu 0 s2 -> on_cpu 0 s2 = p -> dcall 0 c s2 = Ok Switch s3 ->
  dreach (turn from p c s, goes (goes (goes d 0 Resume) 0 User) 0 (Sched (p + 1))).
Proof.
  intros C0 HR Hd Hc s1 s2 s3 E1 Ek E2 C1 C2 Ep E3. rewrite <- Ep. eapply reach_step; [|eapply (step_switch _ _ _ _ _ 0 s2 _ (dcall 0 c) s3); [exact C2|by exists c|exact E3|done]].
  eapply reach_step; [|eapply (step_return _ _ _ _ _ 0 s1 _ (dresume 0 KForkret) s2); [exact C1|unfold routine, goes; cbn [Z.eqb]; by rewrite Ek|exact E2]].
  eapply reach_step; [exact HR|]. by eapply step_run.
Qed.

Ltac demo_run := vm_compute; first [reflexivity | split; [discriminate|reflexivity]].

Definition demo_round : kern := after (scheduler_round 0) demo_kern.
Definition demo_init_waits : kern := turn 0 0 CWait demo_round.
Definition demo_both_wait : kern := turn 1 1 CWait demo_init_waits.
Definition demo_child_exits : kern := turn 2 2 CExit demo_both_wait.

Lemma demo_round_reach : dreach (demo_round, goes (fun _ => Idle) 0 (Sched 0)).
Proof. eapply reach_step; [apply reach_start, demo_started|]. apply step_round; [done|done|vm_compute; reflexivity]. Qed.

Lemma demo_both_wait_reach : exists d, dreach (demo_both_wait, d) /\ d 0 = Sched 2.
Proof.
  eexists. split; [apply turn_reach; [done|apply turn_reach; [done|apply demo_round_reach|done|done|demo_run..]|done|done|demo_run..]|done].
Qed.

Lemma demo_child_exits_reach : exists d, dreach (demo_child_exits, d).
Proof.
  destruct demo_both_wait_reach as (d & HR & Hd). eexists. apply turn_reach; [done|exact HR|exact Hd|done|demo_run..].
Qed.

Lemma process_table_consistent_witness : exists d, 
  (forall p q, inr p -> inr q -> state (the_proc p demo_child_exits) <> UNUSED -> state (the_proc q demo_child_exits) <> UNUSED ->
    pid (the_proc p demo_child_exits) = pid (the_proc q demo_child_exits) -> p = q) /\
  state (the_proc 2 demo_child_exits) = ZOMBIE /\ state (the_proc 1 demo_child_exits) = RUNNABLE /\
  (forall c, is_cpu c demo_child_exits -> in_mode (d c) (on_cpu c demo_child_exits)).
Proof.
  destruct demo_child_exits_reach as (d & HR). exists d. destruct (process_table_consistent demo_kend 0 0 0 demo_ptable demo_child_exits d HR) as (H1 & _ & _ & _ & H5 & _).
  split_and!; [exact H1|vm_compute; reflexivity|vm_compute; reflexivity|exact H5].
Defined.

Lemma wait_misses_no_exit_witness :
  state (the_proc 1 demo_both_wait) = SLEEPING /\ parent (the_proc 2 demo_both_wait) = 1 /\ state (the_proc 2 demo_both_wait) <> ZOMBIE.
Proof.
  split_and!; [vm_compute; reflexivity|vm_compute; reflexivity|]. destruct demo_both_wait_reach as (d & HR & _).
  apply (wait_misses_no_exit demo_kend 0 0 0 demo_ptable demo_both_wait d 1 2 HR); [unfold inr, NPROC; lia|unfold inr, NPROC; lia|vm_compute; reflexivity..].
Defined.

Lemma scheduler_bounded_wait_witness :
  Z.of_nat 2 <= 2 - 0 /\ exists q s', scheduler_scan 0 2 demo_round = Ok (Some q) s' /\ 2 <= q <= 2 /\ state (the_proc q s') = RUNNING /\ (Z.of_nat 2 = 2 - 0 -> q = 2).
Proof.
  apply (scheduler_bounded_wait 0 2 0 2 2 demo_round); [lia|unfold inr, NPROC; lia| |vm_compute; reflexivity|reflexivity].
  apply (passed_one 0 2 0 0 demo_round (after (scheduler_scan 0 0) demo_round)); [vm_compute; reflexivity|vm_compute; reflexivity|lia|].
  apply (passed_one 0 2 1 1 demo_init_waits (after (scheduler_scan 0 1) demo_init_waits)); [vm_compute; reflexivity|vm_compute; reflexivity|lia|].
  apply passed_none.
Defined.

Lemma kill_before_birth_witness :
  exists s1 s2, kill 0 0 demo_kern = Ok 0 s1 /\ allocproc 0 0 0 s1 = Ok 3 s2 /\
    state (the_proc 3 s2) = EMBRYO /\ pid (the_proc 3 s2) = 4 /\ killed (the_proc 3 s2) = true.
Proof.
  apply (kill_before_birth demo_kend 0 0 0 demo_kern 3 demo_kend []); [reflexivity| |reflexivity|exact demo_kmem_inv|reflexivity|unfold inr, NPROC; lia|reflexivity|reflexivity|].
  - split; [split; [exact demo_mach_ok|cbn; lia]|]. split; [split; [done|done]|]. split; [cbn; lia|reflexivity].
  - intros q Hq. assert (q = 0 \/ q = 1 \/ q = 2) as [->|[->| ->]] by lia; done.
Defined.
