(* ===== verification/Pipe.v ===== *)
(** Pipes (pipe.c).

    pipewrite() and piperead() hold p->lock except while they sleep, so a
    call is a sequence of atomic segments, each ending in a return or in
    sleep().  [pipewrite_run] and [piperead_run] are one segment; a call that
    slept runs its next segment from where it stopped.  [pstep] interleaves
    the calls of any number of readers and writers, with wakeup(), kill()
    and pipeclose(). *)

From Stdlib Require Import ZArith Lia.
From stdpp Require Import base gmap strings numbers list.
From S2P Require Import Prelude.

Open Scope Z_scope.

Definition PIPESIZE : Z := 512.

(** struct pipe; p->lock makes the segments atomic. *)
Record pipe := mk_pipe {
  data : list Z;
  nread : Z;
  nwrite : Z;
  readopen : bool;
  writeopen : bool;
}.

(** The channels of sleep() and wakeup(): &p->nread and &p->nwrite. *)
Inductive chan : Type := NREAD | NWRITE.

(** ** pipewrite *)

(** How a segment ends; the channels are those woken up, in order. *)
Inductive wstop : Type :=
| WRet (r : Z) (woken : list chan)
| WSleep (woken : list chan).

(** The loop from round i on, [k] = n - i rounds to go: how it stops, the
    value of i there, and the pipe. *)
Fixpoint pipewrite_run (k : nat) (n i : Z) (addr : Z -> Z) (killed : bool) (p : pipe) : wstop * Z * pipe :=
  match k with
  | O => (WRet n [NREAD], i, p)
  | S k' =>
      if nwrite p =? u32 (nread p + PIPESIZE) then
        if negb (readopen p) || killed then (WRet (-1) [], i, p)
        else (WSleep [NREAD], i, p)
      else
        pipewrite_run k' n (i + 1) addr killed
          (mk_pipe (aset (data p) (nwrite p mod PIPESIZE) (addr i)) (nread p) (u32 (nwrite p + 1)) (readopen p) (writeopen p))
  end.

Definition pipewrite (n i : Z) (addr : Z -> Z) (killed : bool) (p : pipe) : wstop * Z * pipe :=
  pipewrite_run (Z.to_nat (n - i)) n i addr killed p.

(** ** piperead *)

Inductive rstop : Type :=
| RRet (r : Z) (bytes : list Z) (woken : list chan)
| RSleep.

(** The copy loop: the bytes stored at addr. *)
Fixpoint piperead_copy (k : nat) (p : pipe) : list Z * pipe :=
  match k with
  | O => ([], p)
  | S k' =>
      if nread p =? nwrite p then ([], p)
      else
        let c := aget 0 (data p) (nread p mod PIPESIZE) in
        let (bs, p') := piperead_copy k' (mk_pipe (data p) (u32 (nread p + 1)) (nwrite p) (readopen p) (writeopen p)) in
        (c :: bs, p')
  end.

Definition piperead (n : Z) (killed : bool) (p : pipe) : rstop * pipe :=
  if (nread p =? nwrite p) && writeopen p then
    if killed then (RRet (-1) [] [], p) else (RSleep, p)
  else
    let (bs, p') := piperead_copy (Z.to_nat n) p in
    (RRet (Z.of_nat (length bs)) bs [NWRITE], p').

(** ** pipeclose *)

(** The pipe, the channels woken, and whether the page is freed. *)
Definition pipeclose (writable : bool) (p : pipe) : pipe * list chan * bool :=
  let '(p', w) :=
    if writable then (mk_pipe (data p) (nread p) (nwrite p) (readopen p) false, [NREAD])
    else (mk_pipe (data p) (nread p) (nwrite p) false (writeopen p), [NWRITE]) in
  (p', w, negb (readopen p') && negb (writeopen p')).

(** What pipealloc() makes of the page kalloc() returned; p->data keeps
    what the page held. *)
Definition pipe_init (page : list Z) : pipe := mk_pipe page 0 0 true true.

(** ** Interleaving *)

(** A call in progress. *)
Inductive call : Type :=
| Writing (addr : Z -> Z) (n i : Z)
| Reading (n : Z).

Record thread := mk_thread { tcall : call; asleep : bool; tkilled : bool }.

Definition chan_of (c : call) : chan := match c with Writing _ _ _ => NWRITE | Reading _ => NREAD end.

Definition chan_eqb (a b : chan) : bool :=
  match a, b with NREAD, NREAD | NWRITE, NWRITE => true | _, _ => false end.

(** wakeup(): every thread asleep on one of the channels. *)
Definition wake (w : list chan) (ts : list thread) : list thread :=
  map (fun t => if existsb (chan_eqb (chan_of (tcall t))) w then mk_thread (tcall t) false (tkilled t) else t) ts.

Definition is_writer (t : thread) : bool := match tcall t with Writing _ _ _ => true | Reading _ => false end.

(** The pipe, the calls in progress, all bytes ever stored in the pipe and
    all bytes ever handed to readers, in order. *)
Record psys := mk_psys { pp : pipe; pts : list thread; sent : list Z; got : list Z; freed : bool }.

(** The bytes of rounds [i, j). *)
Definition written (addr : Z -> Z) (i j : Z) : list Z := map (fun x => addr (i + Z.of_nat x)) (seq 0 (Z.to_nat (j - i))).

Inductive pstep : psys -> psys -> Prop :=
| step_write s addr n :      (* a call of pipewrite() *)
    freed s = false -> writeopen (pp s) = true ->
    pstep s (mk_psys (pp s) (pts s ++ [mk_thread (Writing addr n 0) false false]) (sent s) (got s) false)
| step_read s n :            (* a call of piperead() *)
    freed s = false -> readopen (pp s) = true ->
    pstep s (mk_psys (pp s) (pts s ++ [mk_thread (Reading n) false false]) (sent s) (got s) false)
| step_wsleep s l1 l2 addr n i k w j p' :
    pts s = l1 ++ mk_thread (Writing addr n i) false k :: l2 ->
    pipewrite n i addr k (pp s) = (WSleep w, j, p') ->
    pstep s (mk_psys p' (wake w l1 ++ mk_thread (Writing addr n j) true k :: wake w l2) (sent s ++ written addr i j) (got s) (freed s))
| step_wret s l1 l2 addr n i k r w j p' :
    pts s = l1 ++ mk_thread (Writing addr n i) false k :: l2 ->
    pipewrite n i addr k (pp s) = (WRet r w, j, p') ->
    pstep s (mk_psys p' (wake w l1 ++ wake w l2) (sent s ++ written addr i j) (got s) (freed s))
| step_rsleep s l1 l2 n k p' :
    pts s = l1 ++ mk_thread (Reading n) false k :: l2 ->
    piperead n k (pp s) = (RSleep, p') ->
    pstep s (mk_psys p' (l1 ++ mk_thread (Reading n) true k :: l2) (sent s) (got s) (freed s))
| step_rret s l1 l2 n k r bs w p' :
    pts s = l1 ++ mk_thread (Reading n) false k :: l2 ->
    piperead n k (pp s) = (RRet r bs w, p') ->
    pstep s (mk_psys p' (wake w l1 ++ wake w l2) (sent s) (got s ++ bs) (freed s))
| step_kill s l1 l2 c a k :  (* kill() of a process inside a call *)
    pts s = l1 ++ mk_thread c a k :: l2 ->
    pstep s (mk_psys (pp s) (l1 ++ mk_thread c false true :: l2) (sent s) (got s) (freed s))
| step_close s writable p' w f :
    (* the last reference to one end goes: no call uses that end *)
    freed s = false -> Forall (fun t => is_writer t = negb writable) (pts s) ->
    (if writable then writeopen (pp s) else readopen (pp s)) = true ->
    pipeclose writable (pp s) = (p', w, f) ->
    pstep s (mk_psys p' (wake w (pts s)) (sent s) (got s) f).

Definition psys_init (page : list Z) : psys := mk_psys (pipe_init page) [] [] [] false.
