(* ===== verification/PipeSpec.v ===== *)
(** Correctness of pipes: the bytes come out in the order they went in, and
    no call sleeps while it could go on. *)

From Stdlib Require Import ZArith Lia.
From stdpp Require Import base gmap strings numbers list relations.
From S2P Require Import Prelude Pipe.

Open Scope Z_scope.

(** ** The queue a pipe holds *)

Record pipe_inv (p : pipe) (q : list Z) : Prop := {
  pi_data : length (data p) = 512%nat;
  pi_nread : 0 <= nread p < 2 ^ 32;
  pi_nwrite : nwrite p = u32 (nread p + Z.of_nat (length q));
  pi_size : Z.of_nat (length q) <= PIPESIZE;
  pi_queue : forall j, 0 <= j < Z.of_nat (length q) -> aget 0 (data p) ((nread p + j) mod PIPESIZE) = aget 0 q j;
}.

Lemma init_inv page : length page = 512%nat -> pipe_inv (pipe_init page) [].
Proof. intros H. constructor; cbn; [done|lia|done|done|lia]. Qed.

(** The wrap-around of the counters does not disturb the positions. *)
Lemma wrap_mod x : u32 x mod PIPESIZE = x mod PIPESIZE.
Proof. unfold u32, PIPESIZE. zdm. Qed.

Lemma full_iff p q : pipe_inv p q -> (nwrite p =? u32 (nread p + PIPESIZE)) = (Z.of_nat (length q) =? PIPESIZE).
Proof.
  intros [_ H1 H2 H3 _]. rewrite H2. destruct (Z.eqb_spec (Z.of_nat (length q)) PIPESIZE) as [->|Hn]; [apply Z.eqb_refl|].
  apply Z.eqb_neq. unfold u32, PIPESIZE in *. intros E. zdm.
Qed.

Lemma empty_iff p q : pipe_inv p q -> (nread p =? nwrite p) = (Z.of_nat (length q) =? 0).
Proof.
  intros [_ H1 H2 H3 _]. rewrite H2. destruct (Z.eqb_spec (Z.of_nat (length q)) 0) as [->|Hn].
  - rewrite Z.add_0_r, u32_small by lia. apply Z.eqb_refl.
  - apply Z.eqb_neq. unfold u32, PIPESIZE in *. intros E. zdm.
Qed.

(** Storing a byte. *)
Lemma inv_push p q c : pipe_inv p q -> Z.of_nat (length q) < PIPESIZE ->
  pipe_inv (mk_pipe (aset (data p) (nwrite p mod PIPESIZE) c) (nread p) (u32 (nwrite p + 1)) (readopen p) (writeopen p)) (q ++ [c]).
Proof.
  intros [H0 H1 H2 H3 H4] Hq. unfold PIPESIZE in *. assert (Hw : nwrite p mod 512 = (nread p + Z.of_nat (length q)) mod 512) by (rewrite H2; apply wrap_mod).
  constructor; cbn [data nread nwrite readopen writeopen]; rewrite ?length_app, ?Nat2Z.inj_add; cbn [length].
  - by rewrite length_aset.
  - done.
  - rewrite H2. unfold u32. zdm.
  - unfold PIPESIZE. lia.
  - intros j Hj. unfold PIPESIZE. rewrite Hw, aget_aset by (rewrite H0; zdm). rewrite aget_app by lia.
    destruct (Z.ltb_spec j (Z.of_nat (length q))).
    + rewrite <- H4 by lia. replace (_ =? _) with false; [done|]. symmetry. apply Z.eqb_neq. zdm.
    + replace j with (Z.of_nat (length q)) by lia. by rewrite Z.eqb_refl, Z.sub_diag.
Qed.

(** Taking one. *)
Lemma inv_pop p c q : pipe_inv p (c :: q) ->
  aget 0 (data p) (nread p mod PIPESIZE) = c /\
  pipe_inv (mk_pipe (data p) (u32 (nread p + 1)) (nwrite p) (readopen p) (writeopen p)) q.
Proof.
  intros [H0 H1 H2 H3 H4]. cbn [length] in *. split.
  - specialize (H4 0 ltac:(lia)). rewrite Z.add_0_r in H4. done.
  - constructor; cbn [data nread nwrite readopen writeopen]; [done|apply u32_range| |lia|].
    + rewrite H2. unfold u32. zdm.
    + intros j Hj. specialize (H4 (j + 1) ltac:(lia)). replace (aget 0 (c :: q) (j + 1)) with (aget 0 q j) in H4.
      * rewrite <- H4. f_equal. unfold u32, PIPESIZE. zdm.
      * unfold aget. replace (j <? 0) with false by lia. replace (j + 1 <? 0) with false by lia. by replace (Z.to_nat (j + 1)) with (S (Z.to_nat j)) by lia.
Qed.

(** ** What one segment does *)

Lemma written_nil addr i : written addr i i = [].
Proof. unfold written. by rewrite Z.sub_diag. Qed.

Lemma written_cons addr i j : i < j -> written addr i j = addr i :: written addr (i + 1) j.
Proof.
  intros H. unfold written. replace (Z.to_nat (j - i)) with (S (Z.to_nat (j - (i + 1)))) by lia. cbn. rewrite Z.add_0_r. f_equal.
  rewrite <- seq_shift, map_map. apply map_ext. intros x. f_equal. lia.
Qed.

(** A segment of pipewrite(): it goes on storing until the pipe is full. *)
Lemma pipewrite_run_spec k : forall n i addr killed p q st j p', pipe_inv p q ->
  pipewrite_run k n i addr killed p = (st, j, p') ->
  i <= j <= i + Z.of_nat k /\ readopen p' = readopen p /\ writeopen p' = writeopen p /\ pipe_inv p' (q ++ written addr i j) /\
  match st with
  | WRet r w => r = n /\ j = i + Z.of_nat k /\ w = [NREAD] \/
                r = -1 /\ w = [] /\ Z.of_nat (length (q ++ written addr i j)) = PIPESIZE /\ (readopen p = false \/ killed = true)
  | WSleep w => w = [NREAD] /\ Z.of_nat (length (q ++ written addr i j)) = PIPESIZE /\ readopen p = true /\ killed = false
  end.
Proof.
  induction k as [|k IH]; intros n i addr killed p q st j p' HI E; cbn [pipewrite_run] in E.
  - injection E as <- <- <-. rewrite written_nil, app_nil_r. split_and!; [lia|lia|done|done|done|left; split_and!; [done|lia|done]].
  - rewrite (full_iff p q HI) in E. destruct (Z.eqb_spec (Z.of_nat (length q)) PIPESIZE) as [Hf|Hf].
    + destruct (negb (readopen p) || killed) eqn:Eo; injection E as <- <- <-; rewrite written_nil, app_nil_r; split_and!; try done; try lia.
      * right. split_and!; [done|done|done|]. b2p. destruct Eo as [Eo|Eo]; [left; by apply negb_true_iff|by right].
      * b2p. by destruct (readopen p).
      * b2p. by destruct killed.
    + pose proof (pi_size _ _ HI). apply (IH _ _ _ _ _ (q ++ [addr i])) in E; [|apply inv_push; [done|lia]].
      cbn [readopen writeopen] in E. destruct E as (E1 & E2 & E3 & E4 & E5).
      rewrite <- app_assoc in E4, E5. cbn [app] in E4, E5. rewrite <- (written_cons addr i j) in E4, E5 by lia.
      split_and!; [lia|lia|done|done|done|]. destruct st as [r w|w]; [|done]. destruct E5 as [(-> & -> & ->)|E5]; [left; split_and!; [done|lia|done]|by right].
Qed.

(** The copy loop takes a prefix of the queue, as long as asked for. *)
Lemma piperead_copy_spec k : forall p q bs p', pipe_inv p q -> piperead_copy k p = (bs, p') ->
  bs = take k q /\ pipe_inv p' (drop k q) /\ readopen p' = readopen p /\ writeopen p' = writeopen p.
Proof.
  induction k as [|k IH]; intros p q bs p' HI E; cbn [piperead_copy] in E.
  - injection E as <- <-. by rewrite take_0, drop_0.
  - rewrite (empty_iff p q HI) in E. destruct q as [|c q]; cbn [length] in E.
    + injection E as <- <-. done.
    + replace (Z.of_nat (S (length q)) =? 0) with false in E by done. destruct (inv_pop _ _ _ HI) as [Hc HI']. rewrite Hc in E.
      destruct (piperead_copy k _) as [bs1 p1] eqn:E1. injection E as <- <-. destruct (IH _ _ _ _ HI' E1) as (-> & H1 & H2 & H3). done.
Qed.

(** A segment of piperead(). *)
Lemma piperead_spec n killed p q st p' : pipe_inv p q -> piperead n killed p = (st, p') ->
  readopen p' = readopen p /\ writeopen p' = writeopen p /\
  match st with
  | RRet r bs w => exists q', pipe_inv p' q' /\ q = bs ++ q' /\
      (r = -1 /\ killed = true /\ bs = [] /\ w = [] \/ r = Z.of_nat (length bs) /\ bs = take (Z.to_nat n) q /\ w = [NWRITE])
  | RSleep => p' = p /\ q = [] /\ writeopen p = true /\ killed = false
  end.
Proof.
  intros HI E. unfold piperead in E. rewrite (empty_iff p q HI) in E. destruct ((Z.of_nat (length q) =? 0) && writeopen p) eqn:Ee.
  - b2p. destruct q; [|done]. destruct killed; injection E as <- <-; split_and!; try done. exists []. split_and!; [done|done|by left].
  - destruct (piperead_copy (Z.to_nat n) p) as [bs p1] eqn:E1. injection E as <- <-. destruct (piperead_copy_spec _ _ _ _ _ HI E1) as (-> & H1 & H2 & H3).
    split_and!; [done|done|]. exists (drop (Z.to_nat n) q). split_and!; [done|by rewrite take_drop|by right].
Qed.

(** ** All interleavings *)

(** Every call uses an end that is open. *)
Definition end_open (p : pipe) (t : thread) : Prop := if is_writer t then writeopen p = true else readopen p = true.

Record psys_inv (s : psys) (q : list Z) : Prop := {
  si_pipe : pipe_inv (pp s) q;
  si_fifo : sent s = got s ++ q;
  si_open : Forall (end_open (pp s)) (pts s);
  si_freed : freed s = negb (readopen (pp s)) && negb (writeopen (pp s));
}.

Lemma end_open_flags p p' t : readopen p' = readopen p -> writeopen p' = writeopen p -> end_open p t -> end_open p' t.
Proof. intros E1 E2. unfold end_open. by rewrite E1, E2. Qed.

Lemma wake_thread w t : exists a, (if existsb (chan_eqb (chan_of (tcall t))) w then mk_thread (tcall t) false (tkilled t) else t) =
  mk_thread (tcall t) a (tkilled t) /\ (a = true -> asleep t = true /\ existsb (chan_eqb (chan_of (tcall t))) w = false).
Proof. destruct (existsb _ _) eqn:E; [by exists false|]. exists (asleep t). split; [by destruct t|done]. Qed.

Lemma wake_open p w ts : Forall (end_open p) ts -> Forall (end_open p) (wake w ts).
Proof. intros H. apply Forall_map. eapply Forall_impl; [exact H|]. intros t Ht. cbn. by destruct (existsb _ _). Qed.

Lemma open_mid p p' l1 t t' l2 w : Forall (end_open p) (l1 ++ t :: l2) -> readopen p' = readopen p -> writeopen p' = writeopen p ->
  is_writer t' = is_writer t -> Forall (end_open p') (wake w l1 ++ t' :: wake w l2) /\ Forall (end_open p') (wake w l1 ++ wake w l2).
Proof.
  intros H E1 E2 E3. apply Forall_app in H as [H1 H]. apply Forall_cons in H as [Ht H2].
  assert (HE : forall t, end_open p t -> end_open p' t) by (intros; by eapply end_open_flags).
  assert (Ht' : end_open p' t') by (apply HE in Ht; unfold end_open in *; by rewrite E3).
  pose proof (wake_open p' w l1 (Forall_impl _ _ _ H1 HE)). pose proof (wake_open p' w l2 (Forall_impl _ _ _ H2 HE)).
  split; apply Forall_app; (split; [done|]); [by constructor|done].
Qed.

Lemma wake_nil ts : wake [] ts = ts.
Proof. unfold wake. induction ts; cbn; [done|]. by f_equal. Qed.

Lemma inv_init page : length page = 512%nat -> psys_inv (psys_init page) [].
Proof. intros H. constructor; [by apply init_inv|done|constructor|done]. Qed.

(** The invariant holds at every step, with some queue. *)
Lemma psys_inv_step s s' q : psys_inv s q -> pstep s s' -> exists q', psys_inv s' q'.
Proof.
  intros [HP HF HO HR] Hs. destruct Hs as [s addr n Hf Hw|s n Hf Hr|s l1 l2 addr n i k w j p' E Er|s l1 l2 addr n i k r w j p' E Er
    |s l1 l2 n k p' E Er|s l1 l2 n k r bs w p' E Er|s l1 l2 c a k E|s writable p' w f Hf HT Hw E].
  - exists q. constructor; cbn; [done|done| |by rewrite <- HR]. apply Forall_app. split; [done|]. constructor; [done|constructor].
  - exists q. constructor; cbn; [done|done| |by rewrite <- HR]. apply Forall_app. split; [done|]. constructor; [done|constructor].
  - destruct (pipewrite_run_spec _ _ _ _ _ _ _ _ _ _ HP Er) as (_ & E1 & E2 & E3 & _). exists (q ++ written addr i j). rewrite E in HO.
    constructor; cbn; [done|by rewrite HF, app_assoc|by apply (open_mid (pp s) p' l1 _ _ l2 w HO)|by rewrite E1, E2].
  - destruct (pipewrite_run_spec _ _ _ _ _ _ _ _ _ _ HP Er) as (_ & E1 & E2 & E3 & _). exists (q ++ written addr i j). rewrite E in HO.
    constructor; cbn; [done|by rewrite HF, app_assoc|by eapply (open_mid (pp s) p' l1 _ _ l2 w HO)|by rewrite E1, E2].
  - destruct (piperead_spec _ _ _ _ _ _ HP Er) as (E1 & E2 & -> & -> & _). exists []. rewrite E in HO.
    constructor; cbn; [done|done| |done]. pose proof (open_mid (pp s) (pp s) l1 _ (mk_thread (Reading n) true k) l2 [] HO) as HH. rewrite !wake_nil in HH. by apply HH.
  - destruct (piperead_spec _ _ _ _ _ _ HP Er) as (E1 & E2 & q' & E3 & -> & _). exists q'. rewrite E in HO.
    constructor; cbn; [done|by rewrite HF, app_assoc|by eapply (open_mid (pp s) p' l1 _ _ l2 w HO)|by rewrite E1, E2].
  - exists q. rewrite E in HO. constructor; cbn; [done|done| |done].
    pose proof (open_mid (pp s) (pp s) l1 _ (mk_thread c false true) l2 [] HO) as HH. rewrite !wake_nil in HH. by apply HH.
  - exists q. unfold pipeclose in E. destruct HP as [P0 P1 P2 P3 P4].
    destruct writable; injection E as <- <- <-; constructor; cbn [pp pts sent got freed data nread nwrite readopen writeopen]; try done.
    + apply wake_open. eapply Forall_impl; [apply Forall_and; split; [exact HT|exact HO]|]. intros t [Et Ht]. unfold end_open in *. rewrite Et in *. done.
    + apply wake_open. eapply Forall_impl; [apply Forall_and; split; [exact HT|exact HO]|]. intros t [Et Ht]. unfold end_open in *. rewrite Et in *. done.
Qed.

Lemma psys_inv_reach s s' q : psys_inv s q -> rtc pstep s s' -> exists q', psys_inv s' q'.
Proof. intros H R. revert q H. induction R as [|s s1 s2 H1 H2 IH]; intros q H; [eauto|]. destruct (psys_inv_step _ _ _ H H1) as [q' H']. eauto. Qed.

(** ** Sleeping *)

(** A call may sleep only while it has a reason to: the pipe is empty and
    may be written, or full and may be read. *)
Definition may_sleep (p : pipe) (q : list Z) (t : thread) : Prop :=
  asleep t = true ->
  if is_writer t then Z.of_nat (length q) = PIPESIZE /\ readopen p = true else q = [] /\ writeopen p = true.

Lemma wake_all (P : thread -> Prop) w ts p' q' :
  Forall P ts ->
  (forall t, P t -> asleep t = true -> existsb (chan_eqb (chan_of (tcall t))) w = false -> may_sleep p' q' t) ->
  Forall (may_sleep p' q') (wake w ts).
Proof.
  intros H HW. apply Forall_map. eapply Forall_impl; [exact H|]. intros t Ht. cbn.
  destruct (wake_thread w t) as (a & -> & Ha). intros Ea. cbn in Ea. destruct (Ha Ea) as [H1 H2]. subst a. destruct t as [c a k]. cbn in *. subst a.
  by apply (HW _ Ht).
Qed.

Definition quiet (s : psys) : Prop := Forall (fun t => tkilled t = false) (pts s).

(** The queue is determined by the pipe's state and history. *)
Lemma psys_inv_queue s q q' : psys_inv s q -> psys_inv s q' -> q = q'.
Proof. intros [_ H1 _ _] [_ H2 _ _]. rewrite H1 in H2. by apply app_inv_head in H2. Qed.

Section SleepStep.
Context (s : psys) (q : list Z) (SI : psys_inv s q) (MS : Forall (may_sleep (pp s) q) (pts s)).

(** After a segment of a writer that woke the readers. *)
Lemma sleep_wrote l w p' q2 : Forall (may_sleep (pp s) q) l -> w = [NREAD] -> readopen p' = readopen (pp s) -> pipe_inv p' (q ++ q2) ->
  Forall (may_sleep p' (q ++ q2)) (wake w l).
Proof.
  intros H -> E1 HP. eapply wake_all; [exact H|]. intros [c a k] Ht Ha Hw. cbn in *. subst a. destruct c as [addr n i|n]; [|done].
  intros _. cbn. destruct (Ht eq_refl) as [H1 H2]. pose proof (pi_size _ _ HP) as Hsz. rewrite length_app in *. rewrite E1. split; [lia|done].
Qed.

(** After a reader took the front of the queue and woke the writers. *)
Lemma sleep_took l w p' bs q2 : Forall (may_sleep (pp s) q) l -> w = [NWRITE] -> writeopen p' = writeopen (pp s) -> q = bs ++ q2 ->
  Forall (may_sleep p' q2) (wake w l).
Proof.
  intros H -> E1 Eq. eapply wake_all; [exact H|]. intros [c a k] Ht Ha Hw. cbn in *. subst a. destruct c as [addr n i|n]; [done|].
  intros _. cbn. destruct (Ht eq_refl) as [H1 H2]. rewrite H1 in Eq. symmetry in Eq. apply app_eq_nil in Eq as [_ ->]. by rewrite E1.
Qed.

(** A closed read end: nobody sleeps. *)
Lemma sleep_closed p' q' : readopen (pp s) = false -> forall l, incl l (pts s) -> Forall (may_sleep p' q') l.
Proof.
  intros Hr l Hl. apply Forall_forall. intros t Ht%list_elem_of_In%Hl Ha. exfalso. apply list_elem_of_In in Ht.
  pose proof (si_open _ _ SI) as HO. rewrite Forall_forall in HO, MS. specialize (MS t Ht Ha). specialize (HO t Ht). unfold end_open in HO.
  destruct (is_writer t); [destruct MS; congruence|congruence].
Qed.

End SleepStep.

Lemma mid_parts {A} (P : A -> Prop) l1 t l2 : Forall P (l1 ++ t :: l2) -> Forall P l1 /\ P t /\ Forall P l2.
Proof. intros H. apply Forall_app in H as [H1 H]. apply Forall_cons in H as [H2 H3]. done. Qed.

Lemma sleep_step s q s' : psys_inv s q -> Forall (may_sleep (pp s) q) (pts s) -> quiet s -> quiet s' -> pstep s s' -> exists q', psys_inv s' q' /\ Forall (may_sleep (pp s') q') (pts s').
Proof.
  intros SI MS Q Q' Hs. destruct (psys_inv_step _ _ _ SI Hs) as [q' SI']. exists q'. split; [done|].
  pose proof (si_pipe _ _ SI) as HP. pose proof (si_fifo _ _ SI) as HF. pose proof (si_fifo _ _ SI') as HF'. pose proof (si_pipe _ _ SI') as HP'.
  destruct Hs as [s0 addr n Hf Hw|s0 n Hf Hr|s0 l1 l2 addr n i k w j p' E Er|s0 l1 l2 addr n i k r w j p' E Er
    |s0 l1 l2 n k p' E Er|s0 l1 l2 n k r bs w p' E Er|s0 l1 l2 c a k E|s0 writable p' w f Hf HT Hw E]; cbn [pp pts sent got] in *.
  - rewrite HF in HF'. apply app_inv_head in HF' as <-. apply Forall_app. split; [done|]. by repeat constructor.
  - rewrite HF in HF'. apply app_inv_head in HF' as <-. apply Forall_app. split; [done|]. by repeat constructor.
  - destruct (pipewrite_run_spec _ _ _ _ _ _ _ _ _ _ HP Er) as (_ & E1 & E2 & E3 & Ew & E4 & E5 & _). rewrite HF, <- app_assoc in HF'. apply app_inv_head in HF' as <-.
    rewrite E in MS. apply mid_parts in MS as (M1 & _ & M2). apply Forall_app. split; [by eapply (sleep_wrote s0)|]. constructor; [|by eapply (sleep_wrote s0)].
    intros _. cbn. rewrite E1. done.
  - destruct (pipewrite_run_spec _ _ _ _ _ _ _ _ _ _ HP Er) as (_ & E1 & E2 & E3 & Ew). rewrite HF, <- app_assoc in HF'. apply app_inv_head in HF' as <-.
    destruct Ew as [(_ & _ & Ew)|(_ & -> & _ & Ho)].
    + rewrite E in MS. apply mid_parts in MS as (M1 & _ & M2). apply Forall_app. split; by eapply (sleep_wrote s0).
    + rewrite !wake_nil. unfold quiet in Q. rewrite E in Q. apply mid_parts in Q as (_ & Qk & _). cbn in Qk. destruct Ho as [Ho|Ho]; [|congruence].
      eapply (sleep_closed s0); [done|done|done|]. rewrite E. intros t Ht. rewrite in_app_iff in *. cbn. tauto.
  - destruct (piperead_spec _ _ _ _ _ _ HP Er) as (_ & _ & -> & -> & Ho & _). rewrite HF in HF'. apply app_inv_head in HF' as <-.
    rewrite E in MS. apply mid_parts in MS as (M1 & _ & M2). apply Forall_app. split; [done|]. by constructor.
  - destruct (piperead_spec _ _ _ _ _ _ HP Er) as (E1 & E2 & q2 & E3 & Eq & Ec). assert (q' = q2) as ->.
    { rewrite HF, Eq, <- app_assoc in HF'. apply app_inv_head, app_inv_head in HF'. done. }
    unfold quiet in Q. rewrite E in MS, Q. apply mid_parts in Q as (_ & Qk & _). cbn in Qk. destruct Ec as [(_ & Ek & _)|(_ & _ & Ew)]; [congruence|].
    apply mid_parts in MS as (M1 & _ & M2). apply Forall_app. split; by eapply (sleep_took s0).
  - unfold quiet in Q'. cbn in Q'. apply mid_parts in Q' as (_ & Qk & _). done.
  - rewrite HF in HF'. apply app_inv_head in HF' as <-. unfold pipeclose in E.
    destruct writable; injection E as <- <- <-; (eapply wake_all; [apply Forall_and; split; [exact MS|exact HT]|]);
      intros [[addr n i|n] a k] [H1 H2] Ha Hc; cbn in *; done.
Qed.

(** ** Theorems *)

(** C15: First in, first out: in every interleaving of readers, writers,
    kill() and pipeclose(), the bytes handed to readers are the bytes
    stored by writers, in order, without loss or duplication, except for the
    at most PIPESIZE bytes that are still in the pipe; the counters may
    wrap around.  The page is freed only when no call uses the pipe. *)
Theorem pipe_fifo page s : length page = 512%nat -> rtc pstep (psys_init page) s ->
  exists q, sent s = got s ++ q /\ Z.of_nat (length q) <= PIPESIZE /\ (freed s = true -> pts s = []).
Proof.
  intros Hp R. destruct (psys_inv_reach _ _ _ (inv_init page Hp) R) as (q & [HP HF HO HR]). exists q.
  split_and!; [done|apply HP|]. intros Hf. rewrite Hf in HR. symmetry in HR. b2p. destruct (pts s) as [|t l]; [done|].
  apply Forall_cons in HO as [Ht _]. unfold end_open in Ht. destruct (is_writer t); congruence.
Qed.

(** C14: No lost wakeup: as long as no process is killed inside a call, a
    sleeping reader finds the pipe empty and a writer may still come, a
    sleeping writer finds it full and a reader may still come; so reader
    and writer are never both asleep. *)
Theorem pipe_no_lost_wakeup page s : length page = 512%nat ->
  rtc (fun a b => pstep a b /\ quiet b) (psys_init page) s ->
  (forall t, t ∈ pts s -> asleep t = true ->
     if is_writer t then nwrite (pp s) = u32 (nread (pp s) + PIPESIZE) /\ readopen (pp s) = true
     else nread (pp s) = nwrite (pp s) /\ writeopen (pp s) = true) /\
  (forall t t', t ∈ pts s -> t' ∈ pts s -> is_writer t = true -> is_writer t' = false -> asleep t = true -> asleep t' = false).
Proof.
  intros Hp R. assert (H : exists q, psys_inv s q /\ Forall (may_sleep (pp s) q) (pts s)).
  { remember (psys_init page) as s0 eqn:E0. assert (H : exists q, psys_inv s0 q /\ Forall (may_sleep (pp s0) q) (pts s0)).
    { subst. exists []. split; [by apply inv_init|constructor]. }
    assert (Q : quiet s0) by (subst; constructor). clear E0 Hp. induction R as [|s0 s1 s2 [H1 Q1] H2 IH]; [done|]. destruct H as (q & HI & HM).
    apply IH; [by eapply sleep_step|done]. }
  destruct H as (q & SI & MS). rewrite Forall_forall in MS. pose proof (si_pipe _ _ SI) as HP. split.
  - intros t Ht Ha. specialize (MS t Ht Ha). destruct (is_writer t); destruct MS as [M1 M2]; (split; [|done]).
    + apply Z.eqb_eq. by rewrite (full_iff _ _ HP), M1.
    + apply Z.eqb_eq. by rewrite (empty_iff _ _ HP), M1.
  - intros t t' Ht Ht' W W' Ha. apply not_true_is_false. intros Ha'. pose proof (MS t Ht Ha) as M. pose proof (MS t' Ht' Ha') as M'.
    rewrite W in M. rewrite W' in M'. destruct M as [M _]. destruct M' as [-> _]. done.
Qed.

Definition demo_page : list Z := repeat 0 512.
Definition reader_asleep : thread := mk_thread (Reading 1) true false.

(** A reader sleeps on the empty pipe; then a writer of 513 bytes starts. *)
Lemma demo_sleeping : rtc (fun a b => pstep a b /\ quiet b) (psys_init demo_page) (mk_psys (pipe_init demo_page) [reader_asleep] [] [] false).
Proof.
  eapply rtc_l; [split; [apply (step_read _ 1); done|by repeat constructor]|].
  eapply rtc_l; [split; [eapply (step_rsleep _ [] [] 1 false); reflexivity|]|]; [by repeat constructor|]. apply rtc_refl.
Qed.

(** A wakeup that is lost: a writer that has been killed and finds the
    pipe full returns -1 without waking the readers, though it may have
    filled the pipe in the same call.  A reader that went to sleep on the
    empty pipe then sleeps on beside 512 bytes. *)
Theorem killed_writer_loses_wakeup :
  exists s, rtc pstep (psys_init demo_page) s /\ pts s = [reader_asleep] /\ nwrite (pp s) = nread (pp s) + PIPESIZE.
Proof.
  eexists. split_and!.
  - eapply (transitivity (R := rtc pstep)); [eapply rtc_subrel; [|exact demo_sleeping]; by intros ? ? [? _]|].
    eapply rtc_l; [apply (step_write _ (fun _ => 65) 513); done|].
    eapply rtc_l; [eapply (step_kill _ [reader_asleep] [] (Writing (fun _ => 65) 513 0) false false); reflexivity|].
    eapply rtc_l; [eapply (step_wret _ [reader_asleep] [] (fun _ => 65) 513 0 true); [reflexivity|vm_compute; reflexivity]|]. apply rtc_refl.
  - reflexivity.
  - reflexivity.
Qed.

Lemma pipe_fifo_witness :
  exists q : list Z, [] = [] ++ q /\ Z.of_nat (length q) <= PIPESIZE /\ (false = true -> [reader_asleep] = []).
Proof.
  apply (pipe_fifo demo_page (mk_psys (pipe_init demo_page) [reader_asleep] [] [] false)); [reflexivity|].
  eapply rtc_subrel; [|exact demo_sleeping]. by intros ? ? [? _].
Defined.

Lemma pipe_no_lost_wakeup_witness :
  let s := mk_psys (pipe_init demo_page) [reader_asleep] [] [] false in
  (forall t, t ∈ pts s -> asleep t = true ->
     if is_writer t then nwrite (pp s) = u32 (nread (pp s) + PIPESIZE) /\ readopen (pp s) = true
     else nread (pp s) = nwrite (pp s) /\ writeopen (pp s) = true) /\
  (forall t t', t ∈ pts s -> t' ∈ pts s -> is_writer t = true -> is_writer t' = false -> asleep t = true -> asleep t' = false).
Proof. apply (pipe_no_lost_wakeup demo_page); [reflexivity|exact demo_sleeping]. Defined.
