(* ===== verification/Ulib.v ===== *)
(** The user library (ulib.c) and the system calls a user program sees.

    A user process has byte memory of its own ([umem]).  read() takes bytes
    from the input that is left on a descriptor; how many it takes at once
    is up to the device, and is given by a schedule: an entry k of [usched]
    makes the next read() return at most k bytes.  With an empty schedule
    read() returns as many bytes as were asked for and are left, which is
    what a regular file does.  write() is recorded, call by call. *)

From Stdlib Require Import ZArith Lia.
From stdpp Require Import base gmap strings numbers list.
From S2P Require Import Prelude Kstring Mem.

Open Scope Z_scope.
Open Scope kern_scope.

Record uproc := mk_uproc {
  umem : mem;
  uin : Z -> list Z;
  usched : list nat;
  uwrites : list (Z * list Z);
}.

Definition with_umem (m : mem) (u : uproc) : uproc := mk_uproc m (uin u) (usched u) (uwrites u).

(** A routine that only uses the memory. *)
Definition onmem {A} (f : M mem A) : M uproc A := zoom umem with_umem f.

(** ** ulib.c *)

Section Strings.

(** A loop over a string runs until the NUL; [fuel] bounds the rounds and
    a string without a NUL in reach keeps the loop from ending. *)
Fixpoint strcpy_loop (fuel : nat) (s t : Z) : M mem unit :=
  match fuel with
  | O => blocked
  | S f =>
      let! c := load8 t in
      store8 s c ;;;
      if c =? 0 then ret tt else strcpy_loop f (s + 1) (t + 1)
  end.
Definition strcpy (fuel : nat) (s t : Z) : M mem Z := strcpy_loop fuel s t ;;; ret s.

Fixpoint strcmp (fuel : nat) (p q : Z) : M mem Z :=
  match fuel with
  | O => blocked
  | S f =>
      let! a := load8 p in
      let! b := load8 q in
      if negb (a =? 0) && (a =? b) then strcmp f (p + 1) (q + 1) else ret (a - b)
  end.

Fixpoint ustrlen_loop (fuel : nat) (s n : Z) : M mem Z :=
  match fuel with
  | O => blocked
  | S f =>
      let! c := load8 (s + n) in
      if c =? 0 then ret (u32 n) else ustrlen_loop f s (i32 (n + 1))
  end.
Definition ustrlen (fuel : nat) (s : Z) : M mem Z := ustrlen_loop fuel s 0.

Definition umemset (dst c n : Z) : M mem Z := stosb dst c n ;;; ret dst.

(** The pointer found, 0 if there is none.  Characters are compared as
    bytes: c is the char converted to unsigned char. *)
Fixpoint strchr (fuel : nat) (s c : Z) : M mem Z :=
  match fuel with
  | O => blocked
  | S f =>
      let! a := load8 s in
      if a =? 0 then ret 0
      else if a =? c then ret s
      else strchr f (s + 1) c
  end.

Fixpoint atoi_loop (fuel : nat) (s n : Z) : M mem Z :=
  match fuel with
  | O => blocked
  | S f =>
      let! c := load8 s in
      if (48 <=? i8 c) && (i8 c <=? 57) then
        (* signed overflow has no meaning in C *)
        require (n * 10 + i8 c <? 2 ^ 31) "atoi: overflow" ;;;
        atoi_loop f (s + 1) (n * 10 + i8 c - 48)
      else ret n
  end.
Definition atoi (fuel : nat) (s : Z) : M mem Z := atoi_loop fuel s 0.

(** Always upwards, unlike the kernel's. *)
Definition umemmove (dst src n : Z) : M mem Z :=
  for_up 0 n (fun i => let! c := load8 (src + i) in store8 (dst + i) c) ;;;
  ret dst.
End Strings.

(** ** System calls, as the process sees them *)

(** How many bytes read() returns of what is left. *)
Definition read_count (sched : list nat) (n left : Z) : Z :=
  Z.min (Z.min n left) (match sched with [] => left | k :: _ => Z.of_nat k end).

Definition read (fd addr n : Z) : M uproc Z :=
  let! inp := gets (fun u => uin u fd) in
  let! sched := gets usched in
  let k := Z.max 0 (read_count sched n (Z.of_nat (length inp))) in
  onmem (for_up 0 k (fun i => store8 (addr + i) (aget 0 inp i))) ;;;
  modify (fun u => mk_uproc (umem u) (fun x => if x =? fd then drop (Z.to_nat k) inp else uin u x) (tl sched) (uwrites u)) ;;;
  ret k.

Definition write (fd addr n : Z) : M uproc Z :=
  modify (fun u => mk_uproc (umem u) (uin u) (usched u) (uwrites u ++ [(fd, chars (umem u) addr (Z.to_nat n))])) ;;;
  ret n.

(** gets(): the characters are read one by one through the local variable c,
    at address [cp]. *)
Fixpoint gets_loop (fuel : nat) (buf max cp i : Z) : M uproc Z :=
  match fuel with
  | O => blocked
  | S f =>
      if i + 1 <? max then
        let! cc := read 0 cp 1 in
        if cc <? 1 then ret i
        else
          let! c := onmem (load8 cp) in
          onmem (store8 (buf + i) c) ;;;
          if (c =? 10) || (c =? 13) then ret (i + 1) else gets_loop f buf max cp (i + 1)
      else ret i
  end.
Definition ugets (fuel : nat) (buf max cp : Z) : M uproc Z :=
  let! i := gets_loop fuel buf max cp 0 in
  onmem (store8 (buf + i) 0) ;;;
  ret buf.

(** ** Strings in memory *)

(** The string [s] with its NUL is at address [p]. *)
Fixpoint cstr (m : mem) (p : Z) (s : list Z) : Prop :=
  0 <= p < 2 ^ 32 /\
  match s with
  | [] => m p = 0
  | c :: s' => m p = c /\ c <> 0 /\ cstr m (p + 1) s'
  end.

Lemma cstr_range m p s : cstr m p s -> 0 <= p /\ p + Z.of_nat (length s) < 2 ^ 32.
Proof.
  revert p. induction s as [|c s IH]; intros p (Hp & H); cbn [length]; [lia|].
  destruct H as (_ & _ & H). apply IH in H. lia.
Qed.

Lemma cstr_ext m m' p s : (forall x, p <= x <= p + Z.of_nat (length s) -> m' x = m x) -> cstr m p s -> cstr m' p s.
Proof.
  revert p. induction s as [|c s IH]; intros p E (Hp & H); cbn [cstr length] in *; (split; [done|]); rewrite E by lia; [done|].
  destruct H as (Hc & Hn & H). split_and!; [done|done|]. apply IH; [|done]. intros x Hx. apply E. lia.
Qed.

Lemma wp_onmem {A} (f : M mem A) u Q : wp f (umem u) (fun a m => Q a (with_umem m u)) -> wp (onmem f) u Q.
Proof. apply wp_zoom. Qed.

Lemma wp_load8 m p v (Q : Z -> mem -> Prop) : 0 <= p < 2 ^ 32 -> m p = v -> Q v m -> wp (load8 p) m Q.
Proof. intros Hp <- HQ. apply wp_gets. by rewrite u32_small. Qed.

(** strchr() finds the first occurrence. *)
Lemma wp_strchr_found m a c b : forall fuel p (Q : Z -> mem -> Prop),
  cstr m p (a ++ c :: b) -> (c ∉ a) -> (length a < fuel)%nat ->
  Q (p + Z.of_nat (length a)) m -> wp (strchr fuel p c) m Q.
Proof.
  induction a as [|x a IH]; intros [|fuel] p Q (Hp & H) Hc Hf HQ; cbn [length strchr app] in *; try lia;
    destruct H as (E & Hn & H); apply wp_bind, (wp_load8 _ _ _ _ Hp E).
  - replace (c =? 0) with false by lia. rewrite Z.eqb_refl. apply wp_ret. by rewrite Z.add_0_r in HQ.
  - rewrite elem_of_cons in Hc. replace (x =? 0) with false by lia. replace (x =? c) with false by (symmetry; apply Z.eqb_neq; intros ->; auto).
    apply IH; [done|auto|lia|]. by replace (p + 1 + Z.of_nat (length a)) with (p + Z.of_nat (S (length a))) by lia.
Qed.

Lemma wp_strchr_none m a c : forall fuel p (Q : Z -> mem -> Prop),
  cstr m p a -> (c ∉ a) -> (length a < fuel)%nat -> Q 0 m -> wp (strchr fuel p c) m Q.
Proof.
  induction a as [|x a IH]; intros [|fuel] p Q (Hp & H) Hc Hf HQ; cbn [length strchr] in *; try lia.
  - apply wp_bind, (wp_load8 _ _ _ _ Hp H). cbn. by apply wp_ret.
  - destruct H as (E & Hn & H). apply wp_bind, (wp_load8 _ _ _ _ Hp E). rewrite elem_of_cons in Hc.
    replace (x =? 0) with false by lia. replace (x =? c) with false by (symmetry; apply Z.eqb_neq; intros ->; auto).
    apply IH; [done|auto|lia|done].
Qed.

(** memmove() of the user library copies upwards: it is right when the
    destination does not lie inside the source. *)
Lemma wp_umemmove dst src n m (Q : Z -> mem -> Prop) :
  0 <= dst -> 0 <= src -> 0 <= n -> dst + n <= 2 ^ 32 -> src + n <= 2 ^ 32 -> bytes m ->
  dst <= src \/ src + n <= dst ->
  (forall m', bytes m' -> (forall x, m' x = if within dst n x then m (src + (x - dst)) else m x) -> Q dst m') ->
  wp (umemmove dst src n) m Q.
Proof.
  intros Hd Hs Hn Hd1 Hs1 Hb Hov HQ. unfold umemmove. apply wp_bind.
  apply (wp_for_up (fun i m' => 0 <= i <= n /\ forall x, m' x = if within dst i x then m (src + (x - dst)) else m x)).
  - split; [lia|]. intros x. by rewrite within_nil.
  - intros i m' Hi (_ & Hm). apply wp_bind, wp_gets, wp_modify. split; [lia|]. intros x. unfold upd.
    rewrite (u32_small (src + i)), (u32_small (dst + i)) by lia. rewrite (Hm (src + i)). unfold within at 1. replace (_ && _) with false by lia. rewrite u8_byte by done.
    rewrite Hm. unfold within. destruct (Z.eqb_spec x (dst + i)).
    + replace (_ && _) with true by lia. f_equal. lia.
    + by replace ((dst <=? x) && (x <? dst + (i + 1))) with ((dst <=? x) && (x <? dst + i)) by lia.
  - intros m' (_ & Hm). replace (Z.max 0 n) with n in Hm by lia.
    apply wp_ret, HQ; [|done]. intros x. rewrite Hm. destruct (within _ _ _); apply Hb.
Qed.

(** read() stores the next bytes of the input. *)
Lemma wp_read fd addr n u (Q : Z -> uproc -> Prop) :
  let inp := uin u fd in
  let k := Z.max 0 (read_count (usched u) n (Z.of_nat (length inp))) in
  0 <= addr -> addr + k <= 2 ^ 32 -> bytes (umem u) ->
  (forall u', uin u' = (fun x => if x =? fd then drop (Z.to_nat k) inp else uin u x) -> usched u' = tl (usched u) ->
     uwrites u' = uwrites u -> bytes (umem u') ->
     (forall x, umem u' x = if within addr k x then u8 (aget 0 inp (x - addr)) else umem u x) -> Q k u') ->
  wp (read fd addr n) u Q.
Proof.
  intros inp k Ha Hk Hb HQ. unfold read. apply wp_bind, wp_gets, wp_bind, wp_gets, wp_bind, wp_onmem.
  change (uin u fd) with inp. fold k. assert (Hk0 : 0 <= k) by apply Z.le_max_l. clearbody inp k.
  apply (wp_for_up (fun i m => 0 <= i <= k /\ bytes m /\ forall x, m x = if within addr i x then u8 (aget 0 inp (x - addr)) else umem u x)).
  - split_and!; [lia|lia|done|]. intros x. by rewrite within_nil.
  - intros i m Hi (_ & Hm & E). apply wp_modify. split_and!; [lia|lia|by apply bytes_upd|]. intros x. unfold upd.
    rewrite u32_small by lia. rewrite E. unfold within. destruct (Z.eqb_spec x (addr + i)) as [->|Hx].
    + replace (_ && _) with true by lia. do 2 f_equal. lia.
    + by replace ((addr <=? x) && (x <? addr + (i + 1))) with ((addr <=? x) && (x <? addr + i)) by lia.
  - intros m (_ & Hm & E). replace (Z.max 0 k) with k in E by lia. cbn [umem with_umem].
    apply wp_bind, wp_modify, wp_ret, HQ; cbn; [done|done|done|done|done].
Qed.

(** A string laid out byte by byte. *)
Lemma cstr_intro m p s : 0 <= p -> p + Z.of_nat (length s) < 2 ^ 32 -> Forall (fun c => c <> 0) s ->
  (forall i, 0 <= i < Z.of_nat (length s) -> m (p + i) = aget 0 s i) -> m (p + Z.of_nat (length s)) = 0 -> cstr m p s.
Proof.
  revert p. induction s as [|c s IH]; intros p Hp Hr Hn Hm H0; cbn [cstr length] in *; (split; [lia|]).
  - by rewrite Z.add_0_r in H0.
  - apply Forall_cons in Hn as [Hc Hn]. split_and!; [|done|].
    + specialize (Hm 0 ltac:(lia)). by rewrite Z.add_0_r in Hm.
    + apply IH; [lia|lia|done| |].
      * intros i Hi. replace (p + 1 + i) with (p + (1 + i)) by lia. rewrite Hm by lia. unfold aget.
        replace (1 + i <? 0) with false by lia. replace (i <? 0) with false by lia. by replace (Z.to_nat (1 + i)) with (S (Z.to_nat i)) by lia.
      * by replace (p + 1 + Z.of_nat (length s)) with (p + Z.of_nat (S (length s))) by lia.
Qed.
