(* ===== verification/Grep.v ===== *)
(** grep (grep.c): the regular-expression matcher and the program's loop
    over its input.

    The matcher walks two NUL-terminated strings in memory; its recursion
    and loops take fuel.  [matches] says what a pattern means; the theorems
    show that the matcher decides it and that grep prints the matching
    lines of a file. *)

From Stdlib Require Import ZArith Lia.
From stdpp Require Import base gmap strings numbers list.
From S2P Require Import Prelude Kstring Mem Ulib.

Open Scope Z_scope.
Open Scope kern_scope.

(** The characters of the patterns, and newline. *)
Definition CARET : Z := 94.
Definition STAR : Z := 42.
Definition DOLLAR : Z := 36.
Definition DOT : Z := 46.
Definition NL : Z := 10.

(** ** The code *)

(** Characters are compared as bytes, c of matchstar() included. *)
Fixpoint matchhere (fuel : nat) (re text : Z) : M mem Z :=
  match fuel with
  | O => blocked
  | S f =>
      let! r0 := load8 re in
      if r0 =? 0 then ret 1
      else
        let! r1 := load8 (re + 1) in
        if r1 =? STAR then matchstar f r0 (re + 2) text
        else
          let! t := load8 text in
          if (r0 =? DOLLAR) && (r1 =? 0) then ret (b2z (t =? 0))
          else if negb (t =? 0) && ((r0 =? DOT) || (r0 =? t)) then matchhere f (re + 1) (text + 1)
          else ret 0
  end
with matchstar (fuel : nat) (c re text : Z) : M mem Z :=
  match fuel with
  | O => blocked
  | S f =>
      let! h := matchhere f re text in
      if negb (h =? 0) then ret 1
      else
        let! t := load8 text in
        if negb (t =? 0) && ((t =? c) || (c =? DOT)) then matchstar f c re (text + 1)
        else ret 0
  end.

(** The do-while loop of match(); [k] is the fuel of matchhere(). *)
Fixpoint match_loop (fuel k : nat) (re text : Z) : M mem Z :=
  match fuel with
  | O => blocked
  | S f =>
      let! h := matchhere k re text in
      if negb (h =? 0) then ret 1
      else
        let! t := load8 text in
        if negb (t =? 0) then match_loop f k re (text + 1) else ret 0
  end.

Definition match_ (k : nat) (re text : Z) : M mem Z :=
  let! r0 := load8 re in
  if r0 =? CARET then matchhere k (re + 1) text
  else match_loop k k re text.

(** The loop over the lines in the buffer; returns p. *)
Fixpoint line_loop (fuel k : nat) (pattern p : Z) : M uproc Z :=
  match fuel with
  | O => blocked
  | S f =>
      let! q := onmem (strchr k p NL) in
      if q =? 0 then ret p
      else
        onmem (store8 q 0) ;;;
        let! r := onmem (match_ k pattern p) in
        (if negb (r =? 0) then
           onmem (store8 q NL) ;;;
           write 1 p (q + 1 - p) ;;;
           ret tt
         else ret tt) ;;;
        line_loop f k pattern (q + 1)
  end.

Definition BUFSZ : Z := 1024.

(** The loop over the reads, [buf] the address of the buffer. *)
Fixpoint grep_loop (fuel k : nat) (buf pattern fd m : Z) : M uproc unit :=
  match fuel with
  | O => blocked
  | S f =>
      let! n := read fd (buf + m) (i32 (u32 (BUFSZ - m - 1))) in
      if n >? 0 then
        let m := m + n in
        onmem (store8 (buf + m) 0) ;;;
        let! p := line_loop k k pattern buf in
        let m := if p =? buf then 0 else m in
        let m' := if m >? 0 then m - (p - buf) else m in
        when (m >? 0) (onmem (umemmove buf p m') ;;; ret tt) ;;;
        grep_loop f k buf pattern fd m'
      else ret tt
  end.

Definition grep (fuel k : nat) (buf pattern fd : Z) : M uproc unit := grep_loop fuel k buf pattern fd 0.

(** ** What a pattern means *)

(** A pattern is a sequence of single characters and starred characters,
    perhaps anchored at the end. *)
Inductive item : Type := One (c : Z) | Many (c : Z).

Fixpoint items (re : list Z) : list item * bool :=
  match re with
  | [] => ([], false)
  | c :: re1 =>
      match re1 with
      | [] => if c =? DOLLAR then ([], true) else ([One c], false)
      | x :: re2 =>
          if x =? STAR then let (its, e) := items re2 in (Many c :: its, e)
          else let (its, e) := items re1 in (One c :: its, e)
      end
  end.

(** The character [x] is one that [c] stands for. *)
Definition stands (c x : Z) : Prop := c = DOT \/ c = x.

Inductive lang : list item -> list Z -> Prop :=
| lang_nil : lang [] []
| lang_one c x its s : stands c x -> lang its s -> lang (One c :: its) (x :: s)
| lang_many c xs its s : Forall (stands c) xs -> lang its s -> lang (Many c :: its) (xs ++ s).

(** A match at the beginning of the text. *)
Definition matches_here (re text : list Z) : Prop :=
  exists mid post, text = mid ++ post /\ lang (items re).1 mid /\ ((items re).2 = true -> post = []).

(** A match anywhere in the text, or at its beginning after ^. *)
Definition matches (re text : list Z) : Prop :=
  match re with
  | c :: re' => if c =? CARET then matches_here re' text
                else exists pre rest, text = pre ++ rest /\ matches_here re rest
  | [] => exists pre rest, text = pre ++ rest /\ matches_here re rest
  end.

Definition matches_star (c : Z) (re text : list Z) : Prop :=
  exists xs rest, text = xs ++ rest /\ Forall (stands c) xs /\ matches_here re rest.

Lemma here_nil text : matches_here [] text.
Proof. exists [], text. split_and!; [done|constructor|done]. Qed.

Lemma here_star c re text : matches_here (c :: STAR :: re) text <-> matches_star c re text.
Proof.
  unfold matches_star, matches_here. change (items (c :: STAR :: re)) with (let (its, e) := items re in (Many c :: its, e)).
  destruct (items re) as [its e]; cbn [fst snd]. split.
  - intros (mid & post & -> & HL & He). inversion HL as [| |? xs ? s Hxs Hs]; subst. exists xs, (s ++ post). rewrite <- app_assoc. split_and!; [done|done|by exists s, post].
  - intros (xs & rest & -> & Hxs & mid & post & -> & HL & He). exists (xs ++ mid), post. rewrite <- app_assoc. split_and!; [done|by constructor|done].
Qed.

Lemma here_end text : matches_here [DOLLAR] text <-> text = [].
Proof.
  unfold matches_here. cbn. split; [intros (mid & post & -> & HL & He)|intros ->].
  - inversion HL; subst. by rewrite He.
  - exists [], []. split_and!; [done|constructor|done].
Qed.

Lemma here_one c re text : hd 0 re <> STAR -> ~ (c = DOLLAR /\ re = []) ->
  (matches_here (c :: re) text <-> exists x text', text = x :: text' /\ stands c x /\ matches_here re text').
Proof.
  intros Hs Hd. assert (E : items (c :: re) = let (its, e) := items re in (One c :: its, e)).
  { destruct re as [|x re]; cbn in Hs |- *; [destruct (Z.eqb_spec c DOLLAR); [by destruct Hd|done]|].
    by replace (x =? STAR) with false by lia. }
  unfold matches_here. rewrite E. destruct (items re) as [its e]; cbn [fst snd]. split.
  - intros (mid & post & -> & HL & He). inversion HL as [|? x ? s Hx Hs'|]; subst. exists x, (s ++ post). split_and!; [done|done|by exists s, post].
  - intros (x & t & -> & Hx & mid & post & -> & HL & He). exists (x :: mid), post. split_and!; [done|by constructor|done].
Qed.

Lemma star_step c re text : matches_star c re text <->
  matches_here re text \/ exists x text', text = x :: text' /\ stands c x /\ matches_star c re text'.
Proof.
  unfold matches_star. split.
  - intros ([|x xs] & rest & -> & Hxs & H); [by left|]. apply Forall_cons in Hxs as [Hx Hxs]. right. exists x, (xs ++ rest). split_and!; [done|done|by exists xs, rest].
  - intros [H|(x & t & -> & Hx & xs & rest & -> & Hxs & H)]; [by exists [], text|]. exists (x :: xs), rest. split_and!; [done|by constructor|done].
Qed.

(** ** The matcher decides it *)

(** The matcher returns 1 or 0 as [P] holds or not, and changes nothing. *)
Definition decides (m : mem) (P : Prop) (r : Z) (m' : mem) : Prop := m' = m /\ (r = 1 /\ P \/ r = 0 /\ ~ P).

Lemma decides_iff m P Q r m' : (P <-> Q) -> decides m P r m' -> decides m Q r m'.
Proof. unfold decides. tauto. Qed.

Section Matcher.
Context (m : mem).

Lemma cstr_hd p s : cstr m p s -> 0 <= p < 2 ^ 32 /\ m p = hd 0 s /\ (hd 0 s = 0 -> s = []).
Proof. destruct s as [|c s]; cbn; [by intros (? & ?)|]. intros (Hp & Hc & Hn & _). split_and!; [lia|lia|done|by intros E]. Qed.

Lemma cstr_tl p c s : cstr m p (c :: s) -> cstr m (p + 1) s /\ c <> 0.
Proof. intros (_ & _ & Hn & H). done. Qed.

Lemma wp_matcher fuel :
  (forall re text rs ts, cstr m re rs -> cstr m text ts -> (2 * length rs + length ts < fuel)%nat ->
     wp (matchhere fuel re text) m (decides m (matches_here rs ts))) /\
  (forall c re text rs ts, cstr m re rs -> cstr m text ts -> (2 * length rs + length ts + 1 < fuel)%nat ->
     wp (matchstar fuel c re text) m (decides m (matches_star c rs ts))).
Proof.
  induction fuel as [|fuel [IHh IHs]]; [split; intros; lia|]. split.
  - intros re text rs ts Hr Ht Hf. cbn [matchhere]. destruct (cstr_hd _ _ Hr) as (Rp & Er & _). destruct (cstr_hd _ _ Ht) as (Tp & Et & _).
    apply wp_bind, (wp_load8 _ _ _ _ Rp Er). destruct rs as [|r0 rs]; cbn [hd].
    { cbn. apply wp_ret. split; [done|left]. split; [done|apply here_nil]. }
    apply cstr_tl in Hr as [Hr Hr0]. replace (r0 =? 0) with false by lia.
    destruct (cstr_hd _ _ Hr) as (Rp1 & Er1 & Hr1). apply wp_bind, (wp_load8 _ _ _ _ Rp1 Er1).
    destruct (Z.eqb_spec (hd 0 rs) STAR) as [Es|Es].
    { destruct rs as [|x rs]; [done|]. cbn in Es. subst x. apply cstr_tl in Hr as [Hr _]. replace (re + 2) with (re + 1 + 1) by lia.
      eapply wp_mono; [apply (IHs r0 _ _ rs ts Hr Ht); cbn in Hf; lia|]. intros r m'. apply decides_iff. symmetry. apply here_star. }
    apply wp_bind, (wp_load8 _ _ _ _ Tp Et). destruct ((r0 =? DOLLAR) && (hd 0 rs =? 0)) eqn:Ed.
    { b2p. subst r0. rewrite Hr1 by done. apply wp_ret. eapply decides_iff; [symmetry; apply here_end|].
      destruct ts as [|t ts]; cbn; [split; [done|by left]|]. apply cstr_tl in Ht as [_ Ht]. replace (t =? 0) with false by lia. split; [done|by right]. }
    pose proof (here_one r0 rs ts Es) as HO. assert (Hnd : ~ (r0 = DOLLAR /\ rs = [])) by (intros [-> ->]; done). specialize (HO Hnd).
    destruct ts as [|t ts]; cbn [hd].
    { cbn. apply wp_ret. split; [done|right]. split; [done|]. rewrite HO. by intros (? & ? & ? & _). }
    apply cstr_tl in Ht as [Ht Ht0]. replace (t =? 0) with false by lia. cbn [negb andb].
    destruct ((r0 =? DOT) || (r0 =? t)) eqn:Eq.
    + eapply wp_mono; [apply (IHh _ _ rs ts Hr Ht); cbn in Hf; lia|]. intros r m'. apply decides_iff. rewrite HO. split.
      * intros H. exists t, ts. split_and!; [done| |done]. unfold stands. b2p. lia.
      * by intros (? & ? & [= <- <-] & _ & H).
    + apply wp_ret. split; [done|right]. split; [done|]. rewrite HO. intros (? & ? & [= <- <-] & H & _). unfold stands in H. b2p. lia.
  - intros c re text rs ts Hr Ht Hf. cbn [matchstar]. destruct (cstr_hd _ _ Ht) as (Tp & Et & _).
    apply wp_bind. eapply wp_mono; [apply (IHh _ _ rs ts Hr Ht); lia|]. intros h m' (-> & [[-> Hm]|[-> Hm]]); cbn [negb Z.eqb].
    { apply wp_ret. split; [done|left]. split; [done|]. apply star_step. by left. }
    apply wp_bind, (wp_load8 _ _ _ _ Tp Et). destruct ts as [|t ts]; cbn [hd].
    { cbn. apply wp_ret. split; [done|right]. split; [done|]. rewrite star_step. intros [H|(? & ? & ? & _)]; done. }
    apply cstr_tl in Ht as [Ht Ht0]. replace (t =? 0) with false by lia. cbn [negb andb].
    destruct ((t =? c) || (c =? DOT)) eqn:Eq.
    + eapply wp_mono; [apply (IHs c _ _ rs ts Hr Ht); cbn in Hf; lia|]. intros r m'. apply decides_iff. rewrite (star_step c rs (t :: ts)). split.
      * intros H. right. exists t, ts. split_and!; [done| |done]. unfold stands. b2p. lia.
      * by intros [?|(? & ? & [= <- <-] & _ & H)].
    + apply wp_ret. split; [done|right]. split; [done|]. rewrite star_step. intros [?|(? & ? & [= <- <-] & H & _)]; [done|]. unfold stands in H. b2p. lia.
Qed.
End Matcher.

Definition somewhere (re text : list Z) : Prop := exists pre rest, text = pre ++ rest /\ matches_here re rest.

Lemma somewhere_step re text :
  somewhere re text <-> matches_here re text \/ exists x text', text = x :: text' /\ somewhere re text'.
Proof.
  unfold somewhere. split.
  - intros ([|x pre] & rest & -> & H); [by left|]. right. exists x, (pre ++ rest). split; [done|by exists pre, rest].
  - intros [H|(x & t & -> & pre & rest & -> & H)]; [by exists [], text|]. by exists (x :: pre), rest.
Qed.

Lemma wp_match_loop m k rs re ts : forall fuel text,
  cstr m re rs -> cstr m text ts -> (2 * length rs + length ts < k)%nat -> (length ts < fuel)%nat ->
  wp (match_loop fuel k re text) m (decides m (somewhere rs ts)).
Proof.
  induction ts as [|t ts IH]; intros [|fuel] text Hr Ht Hk Hf; cbn [length] in *; try lia; cbn [match_loop];
    destruct (cstr_hd _ _ _ Ht) as (Tp & Et & _); apply wp_bind;
    (eapply wp_mono; [by apply (wp_matcher m k) with (rs := rs) (1 := Hr) (2 := Ht)|]);
    intros h m' (-> & [[-> Hm]|[-> Hm]]); cbn [negb Z.eqb];
    try (apply wp_ret; split; [done|left]; split; [done|]; rewrite somewhere_step; by left);
    apply wp_bind, (wp_load8 _ _ _ _ Tp Et); cbn [hd].
  - apply wp_ret. split; [done|right]. split; [done|]. rewrite somewhere_step. intros [H|(? & ? & ? & _)]; done.
  - apply cstr_tl in Ht as [Ht Ht0]. replace (t =? 0) with false by lia. cbn [negb].
    eapply wp_mono; [apply IH; [done|done|lia|lia]|]. intros r m'. apply decides_iff. rewrite (somewhere_step rs (t :: ts)). split.
    + intros H. right. by exists t, ts.
    + by intros [?|(? & ? & [= <- <-] & H)].
Qed.

Lemma wp_match m k re text rs ts :
  cstr m re rs -> cstr m text ts -> (2 * length rs + length ts < k)%nat ->
  wp (match_ k re text) m (decides m (matches rs ts)).
Proof.
  intros Hr Ht Hk. unfold match_. destruct (cstr_hd _ _ _ Hr) as (Rp & Er & _).
  apply wp_bind, (wp_load8 _ _ _ _ Rp Er). unfold matches. destruct rs as [|c rs]; cbn [hd].
  { replace (0 =? CARET) with false by done. apply wp_match_loop; [done|done|done|cbn in Hk; lia]. }
  destruct (Z.eqb_spec c CARET) as [->|].
  - apply cstr_tl in Hr as [Hr _]. apply wp_matcher; [done|done|cbn in Hk; lia].
  - apply wp_match_loop; [done|done|done|cbn in Hk; lia].
Qed.

(** ** Lines *)

(** The complete lines of a text, and what follows the last newline. *)
Fixpoint split_lines (s : list Z) : list (list Z) * list Z :=
  match s with
  | [] => ([], [])
  | x :: s' =>
      let (ls, r) := split_lines s' in
      if x =? NL then ([] :: ls, r)
      else match ls with
           | [] => ([], x :: r)
           | l :: ls' => ((x :: l) :: ls', r)
           end
  end.

(** [out] are the lines among [ls] that satisfy [P], in order. *)
Inductive picked (P : list Z -> Prop) : list (list Z) -> list (list Z) -> Prop :=
| picked_nil : picked P [] []
| picked_keep l ls out : P l -> picked P ls out -> picked P (l :: ls) (l :: out)
| picked_skip l ls out : ~ P l -> picked P ls out -> picked P (l :: ls) out.

Lemma picked_app P ls1 ls2 o1 o2 : picked P ls1 o1 -> picked P ls2 o2 -> picked P (ls1 ++ ls2) (o1 ++ o2).
Proof. induction 1; intros; cbn; [done|constructor; auto..]. Qed.

Lemma split_line l s : (NL ∉ l) -> split_lines (l ++ NL :: s) = (l :: (split_lines s).1, (split_lines s).2).
Proof.
  induction l as [|x l IH]; intros Hl; cbn [app split_lines].
  - destruct (split_lines s). by rewrite Z.eqb_refl.
  - rewrite elem_of_cons in Hl. rewrite IH by auto. replace (x =? NL) with false by (symmetry; apply Z.eqb_neq; intros ->; auto). done.
Qed.

Lemma split_rest l : (NL ∉ l) -> split_lines l = ([], l).
Proof.
  induction l as [|x l IH]; intros Hl; cbn [split_lines]; [done|]. rewrite elem_of_cons in Hl. rewrite IH by auto.
  replace (x =? NL) with false by (symmetry; apply Z.eqb_neq; intros ->; auto). done.
Qed.

Lemma split_lines_rest s : (NL ∉ (split_lines s).2) .
Proof.
  induction s as [|x s IH]; cbn [split_lines]; [by apply not_elem_of_nil|]. destruct (split_lines s) as [[|l ls] r]; cbn in *;
    destruct (Z.eqb_spec x NL); cbn; [done| |done|done]. rewrite elem_of_cons. intros [?|?]; auto.
Qed.

Lemma split_lines_app a b :
  split_lines (a ++ b) = ((split_lines a).1 ++ (split_lines ((split_lines a).2 ++ b)).1, (split_lines ((split_lines a).2 ++ b)).2).
Proof.
  induction a as [|x a IH]; cbn [app split_lines fst snd]; [by destruct (split_lines b)|]. rewrite IH.
  destruct (split_lines a) as [ls r]; cbn [fst snd]. destruct (x =? NL) eqn:E; cbn [fst snd]; [done|]. destruct ls as [|l ls]; [|done]. cbn [fst snd app split_lines].
  rewrite E. by destruct (split_lines (r ++ b)) as [[|l ls] r'].
Qed.

(** The first newline of a text. *)
Lemma first_newline s : (NL ∉ s) \/ exists l s', s = l ++ NL :: s' /\ (NL ∉ l).
Proof.
  induction s as [|x s IH]; [left; apply not_elem_of_nil|]. destruct (decide (x = NL)) as [->|Hx].
  - right. exists [], s. split; [done|apply not_elem_of_nil].
  - destruct IH as [IH|(l & s' & -> & IH)]; [left|right]; [rewrite elem_of_cons; naive_solver|].
    exists (x :: l), s'. split; [done|]. rewrite elem_of_cons. naive_solver.
Qed.

(** ** Strings inside the buffer *)

Lemma chars_ext m m' p n : (forall x, p <= x < p + Z.of_nat n -> m' x = m x) -> chars m' p n = chars m p n.
Proof.
  revert p. induction n as [|n IH]; intros p H; [done|]. rewrite !chars_S, H, (IH (p + 1)) by lia || (intros; apply H; lia). done.
Qed.

Lemma chars_prefix m p a b : cstr m p (a ++ b) -> chars m p (length a) = a.
Proof.
  revert p. induction a as [|c a IH]; intros p H; [done|]. cbn [length]. rewrite chars_S. destruct H as (_ & E & _ & H).
  rewrite (IH _ H), E. done.
Qed.

(** A string with a character in it, and the string cut off there. *)
Lemma cstr_at m p a c b : cstr m p (a ++ c :: b) -> let q := p + Z.of_nat (length a) in
  0 <= q < 2 ^ 32 /\ m q = c /\ cstr m (q + 1) b.
Proof.
  revert p. induction a as [|x a IH]; intros p (Hp & H); cbn [length app] in *.
  - rewrite Z.add_0_r. destruct H as (E & _ & H). done.
  - destruct H as (_ & _ & H). specialize (IH _ H). cbn zeta in IH.
    replace (p + 1 + Z.of_nat (length a)) with (p + Z.of_nat (S (length a))) in IH by lia. done.
Qed.

Lemma cstr_cut m p a c b : cstr m p (a ++ c :: b) -> cstr (upd (p + Z.of_nat (length a)) 0 m) p a.
Proof.
  revert p. induction a as [|x a IH]; intros p (Hp & H); cbn [length app cstr] in *; (split; [done|]).
  - unfold upd. by rewrite Z.add_0_r, Z.eqb_refl.
  - destruct H as (E & Hn & H). unfold upd at 1. replace (p =? _) with false by (symmetry; apply Z.eqb_neq; lia). split_and!; [done|done|].
    specialize (IH _ H). by replace (p + 1 + Z.of_nat (length a)) with (p + Z.of_nat (S (length a))) in IH by lia.
Qed.

(** The lines of [ls] that match are written to descriptor 1, one call each. *)
Definition prints (rs : list Z) (u u' : uproc) (ls : list (list Z)) : Prop :=
  exists out, picked (matches rs) ls out /\ uwrites u' = uwrites u ++ map (fun l => (1, l ++ [NL])) out.

Lemma prints_nil rs u u' : uwrites u' = uwrites u -> prints rs u u' [].
Proof. intros E. exists []. split; [constructor|]. by rewrite app_nil_r. Qed.

Lemma prints_trans rs u u1 u2 a b : prints rs u u1 a -> prints rs u1 u2 b -> prints rs u u2 (a ++ b).
Proof.
  intros (o1 & P1 & E1) (o2 & P2 & E2). exists (o1 ++ o2). split; [by apply picked_app|]. by rewrite E2, E1, map_app, app_assoc.
Qed.

Section Lines.
Context (k : nat) (pat buf : Z) (rs : list Z).

(** The pattern lies outside the buffer. *)
Definition apart : Prop := pat + Z.of_nat (length rs) < buf \/ buf + BUFSZ <= pat.

(** The loop changes the buffer only. *)
Record in_buffer (u u' : uproc) : Prop := {
  ib_in : uin u' = uin u;
  ib_sched : usched u' = usched u;
  ib_bytes : bytes (umem u) -> bytes (umem u');
  ib_mem : forall x, x < buf \/ buf + BUFSZ <= x -> umem u' x = umem u x;
}.

Lemma in_buffer_trans u u1 u2 : in_buffer u u1 -> in_buffer u1 u2 -> in_buffer u u2.
Proof. intros [A1 A2 A3 A4] [B1 B2 B3 B4]. constructor; [congruence..|auto|]. intros x Hx. by rewrite B4, A4. Qed.

Lemma pattern_kept u u' : apart -> in_buffer u u' -> cstr (umem u) pat rs -> cstr (umem u') pat rs.
Proof. intros A I H. eapply cstr_ext; [|exact H]. intros x Hx. apply (ib_mem _ _ I). unfold apart in A. lia. Qed.

(** One line: cut, matched and, when it matches, printed. *)
Lemma wp_one_line p l s u (K : M uproc Z) (Q : Z -> uproc -> Prop) :
  apart -> cstr (umem u) pat rs -> bytes (umem u) -> cstr (umem u) p (l ++ NL :: s) ->
  buf <= p -> p + Z.of_nat (length l) < buf + BUFSZ -> (2 * length rs + length l < k)%nat ->
  let q := p + Z.of_nat (length l) in
  (forall u', in_buffer u u' -> (forall x, x <> q -> umem u' x = umem u x) -> prints rs u u' [l] -> wp K u' Q) ->
  wp (onmem (store8 q 0) ;;; let! r := onmem (match_ k pat p) in
      (if negb (r =? 0) then onmem (store8 q NL) ;;; write 1 p (q + 1 - p) ;;; ret tt else ret tt) ;;; K) u Q.
Proof.
  intros A Hp Hb Hc Hlo Hhi Hk q HQ. destruct (cstr_at _ _ _ _ _ Hc) as (Hq & Eq & _). fold q in Hq, Eq.
  apply wp_bind, wp_onmem, wp_modify. rewrite u32_small by done. change (u8 0) with 0. set (m1 := upd q 0 (umem u)).
  assert (Hp1 : cstr m1 pat rs).
  { eapply cstr_ext; [|exact Hp]. intros x Hx. unfold m1, upd. unfold apart in A. by replace (x =? q) with false by lia. }
  assert (Hb1 : bytes m1) by (intros x; unfold m1, upd; destruct (x =? q); [lia|apply Hb]).
  apply wp_bind, wp_onmem. eapply wp_mono; [apply (wp_match _ _ _ _ rs l Hp1 (cstr_cut _ _ _ _ _ Hc) Hk)|].
  intros r m' (-> & Hr). cbn [umem with_umem]. destruct Hr as [[-> Hm]|[-> Hm]]; cbn [negb Z.eqb].
  - apply wp_bind, wp_bind, wp_onmem, wp_modify, wp_bind, wp_bind, wp_modify, wp_ret, wp_ret. cbn [umem with_umem uin usched uwrites].
    rewrite u32_small by done. change (u8 NL) with NL. set (m2 := upd q NL m1).
    assert (E2 : forall x, m2 x = umem u x). { intros x. unfold m2, m1, upd. destruct (Z.eqb_spec x q) as [->|]; done. }
    apply HQ.
    + constructor; cbn; [done|done| |intros x _; apply E2]. intros _ x. rewrite E2. apply Hb.
    + intros x _. apply E2.
    + exists [l]. split; [constructor; [done|constructor]|]. cbn. do 3 f_equal.
      replace (Z.to_nat (q + 1 - p)) with (length (l ++ [NL])) by (rewrite length_app; cbn; lia).
      rewrite (chars_ext (umem u)) by auto. apply (chars_prefix _ _ _ s). by rewrite <- app_assoc.
  - apply wp_bind, wp_ret, HQ.
    + constructor; cbn; [done|done|done|]. intros x Hx. unfold m1, upd. by replace (x =? q) with false by lia.
    + intros x Hx. cbn. unfold m1, upd. by replace (x =? q) with false by lia.
    + exists []. split; [by constructor; [|constructor]|]. by rewrite app_nil_r.
Qed.

Lemma wp_line_loop fuel : forall D p u (Q : Z -> uproc -> Prop),
  apart -> cstr (umem u) pat rs -> bytes (umem u) -> cstr (umem u) p D ->
  0 < buf <= p -> p + Z.of_nat (length D) < buf + BUFSZ -> (2 * length rs + length D < k)%nat -> (length D < fuel)%nat ->
  let (ls, r) := split_lines D in
  (forall u', in_buffer u u' -> cstr (umem u') (p + Z.of_nat (length D) - Z.of_nat (length r)) r -> prints rs u u' ls ->
     Q (p + Z.of_nat (length D) - Z.of_nat (length r)) u') ->
  wp (line_loop fuel k pat p) u Q.
Proof.
  induction fuel as [|fuel IH]; intros D p u Q A Hp Hb Hc Hlo Hhi Hk Hf; [lia|]. cbn [line_loop].
  destruct (first_newline D) as [HD|(l & s & -> & Hl)].
  - rewrite split_rest by done. intros HQ. apply wp_bind, wp_onmem, (wp_strchr_none _ D); [done|done|lia|]. cbn [Z.eqb].
    apply wp_ret. replace (p + Z.of_nat (length D) - Z.of_nat (length D)) with p in HQ by lia. apply HQ; [by constructor|done|by apply prints_nil].
  - rewrite split_line by done. intros HQ. rewrite length_app in *. cbn [length] in *.
    apply wp_bind, wp_onmem, (wp_strchr_found _ l NL s); [done|done|lia|]. destruct u as [m inp sc w]. cbn [umem with_umem uin usched uwrites] in *.
    replace (p + Z.of_nat (length l) =? 0) with false by lia. set (u := mk_uproc m inp sc w) in *.
    apply (wp_one_line p l s u); [done|done|done|done|lia|lia|lia|]. intros u1 I1 E1 P1.
    destruct (cstr_at _ _ _ _ _ Hc) as (Hq & _ & Hs).
    assert (Hs1 : cstr (umem u1) (p + Z.of_nat (length l) + 1) s) by (eapply cstr_ext; [|exact Hs]; intros x Hx; apply E1; lia).
    pose proof (IH s (p + Z.of_nat (length l) + 1) u1 Q A (pattern_kept u u1 A I1 Hp) (ib_bytes _ _ I1 Hb) Hs1) as W.
    destruct (split_lines s) as [ls r]; cbn [fst snd] in *. apply W; [lia|lia|lia|lia|]. clear W IH. intros u2 I2 C2 P2.
    replace (p + Z.of_nat (length l) + 1 + Z.of_nat (length s) - Z.of_nat (length r)) with (p + Z.of_nat (length l + S (length s)) - Z.of_nat (length r)) in * by lia.
    apply HQ; [by eapply in_buffer_trans|done|]. change (l :: ls) with ([l] ++ ls). by eapply prints_trans.
Qed.
End Lines.

(** ** The whole program *)

Lemma split_lines_length s : (length (split_lines s).2 <= length s)%nat.
Proof.
  induction s as [|x s IH]; cbn [split_lines]; [done|]. destruct (split_lines s) as [[|l ls] r]; cbn in *; destruct (x =? NL); cbn; lia.
Qed.

Lemma elem_rest s x : x ∈ (split_lines s).2 -> x ∈ s.
Proof.
  induction s as [|y s IH]; cbn [split_lines]; [done|]. destruct (split_lines s) as [[|l ls] r]; cbn in *; destruct (y =? NL); cbn;
    rewrite ?elem_of_cons; naive_solver.
Qed.

(** Every line, the last included, leaves room for its newline and a NUL. *)
Definition fits (s : list Z) : Prop :=
  Forall (fun l : list Z => Z.of_nat (length l) < BUFSZ - 1) (split_lines s).1 /\ Z.of_nat (length (split_lines s).2) < BUFSZ - 1.

Lemma fits_prefix c s : (NL ∉ c) -> fits (c ++ s) -> Z.of_nat (length c) < BUFSZ - 1.
Proof.
  intros Hc [H1 H2]. destruct (first_newline s) as [Hs|(l & s' & -> & Hl)].
  - rewrite split_rest in H2; [|rewrite elem_of_app; tauto]. cbn in H2. rewrite length_app in H2. lia.
  - rewrite app_assoc, split_line in H1; [|rewrite elem_of_app; tauto]. cbn in H1. apply Forall_cons in H1 as [H1 _]. rewrite length_app in H1. lia.
Qed.

Lemma fits_rest a b : fits (a ++ b) -> fits ((split_lines a).2 ++ b).
Proof. unfold fits. rewrite split_lines_app. cbn. intros [H1 H2]. apply Forall_app in H1 as [_ H1]. done. Qed.

(** A byte of text. *)
Definition text_ok (s : list Z) : Prop := Forall (fun c => 0 < c < 256) s.

Definition holds (m : mem) (p : Z) (s : list Z) : Prop := forall i, 0 <= i < Z.of_nat (length s) -> m (p + i) = aget 0 s i.

Lemma cstr_holds m p s : cstr m p s -> holds m p s.
Proof.
  revert p. induction s as [|c s IH]; intros p H i Hi; cbn [length] in *; [lia|]. destruct H as (_ & E & _ & H).
  unfold aget. replace (i <? 0) with false by lia. destruct (Z.to_nat i) as [|j] eqn:Ej; cbn.
  - by replace (p + i) with p by lia.
  - specialize (IH _ H (Z.of_nat j) ltac:(lia)). unfold aget in IH. replace (_ <? 0) with false in IH by lia. rewrite Nat2Z.id in IH.
    by replace (p + i) with (p + 1 + Z.of_nat j) by lia.
Qed.

Section Program.
Context (pat buf fd : Z) (rs : list Z).

(** The state between two reads: [carry], the start of a line, is in the
    buffer, and [inp] has not been read. *)
Record ready (u : uproc) (carry inp : list Z) : Prop := {
  rd_pat : cstr (umem u) pat rs;
  rd_bytes : bytes (umem u);
  rd_carry : holds (umem u) buf carry;
  rd_line : NL ∉ carry;
  rd_in : uin u fd = inp;
  rd_sched : usched u = [];
  rd_text : text_ok (carry ++ inp);
  rd_fits : fits (carry ++ inp);
}.

Lemma aget_text s i : text_ok s -> 0 <= i < Z.of_nat (length s) -> 0 < aget 0 s i < 256.
Proof.
  intros H Hi. unfold aget. replace (i <? 0) with false by lia. unfold text_ok in H. rewrite Forall_forall in H. apply H, list_elem_of_In, nth_In. lia.
Qed.

Lemma aget_take s k i : 0 <= i < k -> aget 0 (take (Z.to_nat k) s) i = aget 0 s i.
Proof.
  intros Hi. unfold aget. replace (i <? 0) with false by lia. destruct (Nat.lt_ge_cases (Z.to_nat i) (length s)).
  - by rewrite <- (take_drop (Z.to_nat k) s) at 2; rewrite app_nth1 by (rewrite length_take; lia).
  - rewrite !nth_overflow; [done|lia|rewrite length_take; lia].
Qed.

(** Reading a chunk and terminating it makes one string of the buffer. *)
Lemma wp_chunk u carry inp k (K : Z -> M uproc unit) (Q : unit -> uproc -> Prop) :
  apart pat buf rs -> 0 < buf -> buf + BUFSZ <= 2 ^ 32 -> ready u carry inp -> Z.of_nat (length carry) < BUFSZ - 1 ->
  k = Z.min (BUFSZ - 1 - Z.of_nat (length carry)) (Z.of_nat (length inp)) -> 0 < k ->
  (forall u', cstr (umem u') pat rs -> bytes (umem u') -> cstr (umem u') buf (carry ++ take (Z.to_nat k) inp) ->
     uin u' fd = drop (Z.to_nat k) inp -> usched u' = [] -> uwrites u' = uwrites u -> wp (K k) u' Q) ->
  wp (let! n := read fd (buf + Z.of_nat (length carry)) (i32 (u32 (BUFSZ - Z.of_nat (length carry) - 1))) in
      if n >? 0 then onmem (store8 (buf + (Z.of_nat (length carry) + n)) 0) ;;; K n else ret tt) u Q.
Proof.
  intros A Hb0 Hb1 [Rp Rb Rc Rl Ri Rs Rt Rf] Hc Hk Hk0 HQ. set (c := Z.of_nat (length carry)) in *. unfold BUFSZ in *.
  rewrite (u32_small (1024 - c - 1)), (i32_small (1024 - c - 1)) by lia.
  assert (Ek : Z.max 0 (read_count (usched u) (1024 - c - 1) (Z.of_nat (length (uin u fd)))) = k) by (rewrite Ri, Rs; unfold read_count; lia).
  apply wp_bind, wp_read; rewrite ?Ek; [lia|lia|done|]. intros u1 E1 E2 E3 B1 M1.
  replace (k >? 0) with true by lia. apply wp_bind, wp_onmem, wp_modify. rewrite u32_small by lia. change (u8 0) with 0. cbn [umem with_umem].
  assert (Lt : Z.of_nat (length (take (Z.to_nat k) inp)) = k) by (rewrite length_take; lia).
  assert (Hmem : forall x, x < buf \/ buf + 1024 <= x -> upd (buf + (c + k)) 0 (umem u1) x = umem u x).
  { intros x Hx. unfold upd. replace (x =? _) with false by lia. rewrite M1. unfold within. by replace (_ && _) with false by lia. }
  apply HQ; cbn [umem with_umem uin usched uwrites].
  - eapply cstr_ext; [|exact Rp]. intros x Hx. apply Hmem. unfold apart, BUFSZ in A. lia.
  - intros x. unfold upd. destruct (x =? _); [lia|apply B1].
  - apply Forall_app in Rt as [Rt1 Rt2].
    assert (Ht : text_ok (carry ++ take (Z.to_nat k) inp)) by (apply Forall_app; split; [done|by apply Forall_take]).
    apply cstr_intro; [lia|rewrite length_app; lia|eapply Forall_impl; [exact Ht|intros ? ?; cbn in *; lia]| |rewrite length_app].
    + intros i Hi. rewrite length_app in Hi. unfold upd. replace (buf + i =? buf + (c + k)) with false by lia. rewrite M1, aget_app by lia. fold c.
      unfold within. destruct (Z.ltb_spec i c).
      * replace (_ && _) with false by lia. apply Rc. fold c. lia.
      * replace (_ && _) with true by lia. rewrite Ri, aget_take by lia. replace (buf + i - (buf + c)) with (i - c) by lia. apply u8_small.
        pose proof (aget_text inp (i - c) Rt2). lia.
    + unfold upd. rewrite Nat2Z.inj_add, Lt. fold c. by rewrite Z.eqb_refl.
  - rewrite E1, Z.eqb_refl. by rewrite Ri.
  - by rewrite E2, Rs.
  - done.
Qed.

(** Nothing is left to read. *)
Lemma wp_grep_end fuel k u carry : 0 < buf -> buf + BUFSZ <= 2 ^ 32 -> ready u carry [] -> Z.of_nat (length carry) < BUFSZ - 1 ->
  wp (grep_loop (S fuel) k buf pat fd (Z.of_nat (length carry))) u (fun _ u' => prints rs u u' (split_lines carry).1).
Proof.
  intros Hb0 Hb1 [Rp Rb Rc Rl Ri Rs Rt Rf] Hc. cbn [grep_loop]. unfold BUFSZ in *.
  rewrite u32_small, i32_small by lia.
  assert (Ek : forall n, Z.max 0 (read_count (usched u) n (Z.of_nat (length (uin u fd)))) = 0) by (intros n; rewrite Ri, Rs; unfold read_count; cbn; lia).
  apply wp_bind, wp_read; rewrite ?Ek; [lia|lia|done|]. intros u1 _ _ E3 _ _. cbn.
  apply wp_ret. rewrite split_rest by done. by apply prints_nil.
Qed.

Lemma wp_grep_loop k fuel : forall carry inp u,
  apart pat buf rs -> 0 < buf -> buf + BUFSZ <= 2 ^ 32 -> ready u carry inp ->
  (length inp < fuel)%nat -> (2 * length rs + 1024 < k)%nat ->
  wp (grep_loop fuel k buf pat fd (Z.of_nat (length carry))) u (fun _ u' => prints rs u u' (split_lines (carry ++ inp)).1).
Proof.
  induction fuel as [|fuel IH]; intros carry inp u A Hb0 Hb1 R Hf Hk; [lia|].
  pose proof (fits_prefix _ _ (rd_line _ _ _ R) (rd_fits _ _ _ R)) as Hc.
  destruct (decide (inp = [])) as [->|Hi]; [rewrite app_nil_r; by apply wp_grep_end|].
  assert (Hi0 : (0 < length inp)%nat) by (destruct inp; [done|cbn; lia]). cbn [grep_loop].
  set (n := Z.min (BUFSZ - 1 - Z.of_nat (length carry)) (Z.of_nat (length inp))).
  set (D := carry ++ take (Z.to_nat n) inp). set (inp' := drop (Z.to_nat n) inp).
  assert (ED : carry ++ inp = D ++ inp') by (unfold D, inp'; by rewrite <- app_assoc, take_drop).
  assert (LD : Z.of_nat (length D) = Z.of_nat (length carry) + n) by (unfold D; rewrite length_app, length_take; lia).
  assert (Ln : inp' = [] \/ Z.of_nat (length D) = BUFSZ - 1).
  { destruct (decide (n = Z.of_nat (length inp))); [left; apply drop_ge; lia|right; lia]. }
  assert (Hin' : (length inp' < fuel)%nat) by (unfold inp'; rewrite length_drop; lia).
  apply (wp_chunk u carry inp n); [done|done|done|done|done|done|lia|]. intros u1 P1 B1 C1 I1 S1 W1. fold D in C1. fold inp' in I1. clearbody D inp'.
  pose proof (rd_text _ _ _ R) as Rt. pose proof (rd_fits _ _ _ R) as Rf. rewrite ED in Rt, Rf.
  apply wp_bind. pose proof (wp_line_loop k pat buf rs k D buf u1) as W. destruct (split_lines D) as [ls r] eqn:ES.
  apply W; [done|done|done|done|lia|unfold BUFSZ in *; lia|unfold BUFSZ in *; lia|unfold BUFSZ in *; lia|]. clear W. intros u2 IB C2 P2.
  pose proof (pattern_kept pat buf rs u1 u2 A IB P1) as P3. pose proof (ib_bytes _ _ _ IB B1) as B2.
  assert (I2 : uin u2 fd = inp') by (by rewrite (ib_in _ _ _ IB)). assert (S2 : usched u2 = []) by (by rewrite (ib_sched _ _ _ IB)).
  assert (Pu : prints rs u u2 ls) by (destruct P2 as (o & O1 & O2); exists o; by rewrite <- W1).
  rewrite ED, split_lines_app, ES. cbn [fst snd].
  pose proof (split_lines_rest D) as Hr. rewrite ES in Hr. cbn in Hr. apply fits_rest in Rf as Rf'. rewrite ES in Rf'. cbn in Rf'.
  destruct (first_newline D) as [HD|(l & s & EL & Hl)].
  - (* no newline: the chunk was the end of the file *)
    rewrite split_rest in ES by done. injection ES as <- <-.
    assert (inp' = []) as Ei by (destruct Ln as [?|Ln]; [done|]; pose proof (fits_prefix _ _ HD Rf); lia).
    replace (buf + Z.of_nat (length D) - Z.of_nat (length D) =? buf) with true by lia. cbn [Z.gtb Z.compare when].
    apply wp_bind, wp_ret. eapply wp_mono; [apply (IH [] inp' u2); [done|done|done| |lia|done]|].
    + constructor; [done|done|by intros i ?; cbn in *; lia|apply not_elem_of_nil|done|done|rewrite Ei; constructor|rewrite Ei; split; [constructor|done]].
    + intros [] u3 P4. cbn beta in P4. rewrite Ei, app_nil_r, split_rest by done. rewrite Ei in P4. change [] with ([] ++ [] : list (list Z)). by eapply prints_trans.
  - assert (Lr : (length r < length D)%nat).
    { rewrite EL, split_line in ES by done. injection ES as _ <-. rewrite EL, length_app. pose proof (split_lines_length s). cbn. lia. }
    replace (buf + Z.of_nat (length D) - Z.of_nat (length r) =? buf) with false by lia.
    replace (Z.of_nat (length carry) + n >? 0) with true by lia.
    replace (Z.of_nat (length carry) + n - (buf + Z.of_nat (length D) - Z.of_nat (length r) - buf)) with (Z.of_nat (length r)) by lia. cbn [when].
    apply wp_bind, wp_bind, wp_onmem, wp_umemmove; [lia|lia|lia|unfold BUFSZ in *; lia|unfold BUFSZ in *; lia|done|lia|]. intros m3 B3 M3. apply wp_ret.
    eapply wp_mono; [apply (IH r inp'); [done|done|done| |done|done]|].
    + constructor; cbn [umem with_umem uin usched]; [|done| |done|done|done| |done].
      * eapply cstr_ext; [|exact P3]. intros x Hx. rewrite M3. unfold within, apart, BUFSZ in *. by replace (_ && _) with false by lia.
      * intros i Hi'. rewrite M3. unfold within. replace (_ && _) with true by lia. replace (buf + i - buf) with i by lia. by apply cstr_holds.
      * apply Forall_app in Rt as [Rt1 Rt2]. apply Forall_app. split; [|done]. unfold text_ok in *. rewrite Forall_forall in *. intros x Hx.
        apply Rt1. eapply elem_rest. by rewrite ES.
    + intros [] u3 P4. cbn beta in P4. eapply prints_trans; [exact Pu|]. destruct P4 as (o & O1 & O2). exists o. done.
Qed.
End Program.

(** ** Theorems *)

(** C21: The matcher terminates and decides the pattern: with fuel for twice
    the pattern and once the text, match() returns 1 if the text has a
    match of the pattern and 0 if it has none (c, ., c* and .* between an
    optional ^ and an optional $), and changes nothing. *)
Theorem match_decides_pattern m re text rs ts k :
  cstr m re rs -> cstr m text ts -> (2 * length rs + length ts < k)%nat ->
  exists r, match_ k re text m = Ok r m /\ (r = 1 /\ matches rs ts \/ r = 0 /\ ~ matches rs ts).
Proof.
  intros Hr Ht Hk. destruct (wp_run _ _ _ (wp_match m k re text rs ts Hr Ht Hk)) as (r & m' & E & -> & H). eauto.
Qed.

(** C37: grep on a regular file (whose read() returns what was asked for) that
    holds no NUL byte prints exactly the lines that match, in order and one
    write() each, and ends, when no line, what is after the last newline
    included, has more than 1022 characters (the buffer takes these, a newline
    and a NUL).  The pattern is a string in memory outside the buffer; the fuel
    exceeds the length of the file for the reads, and twice the pattern plus the
    buffer for the matcher.  Text after the last newline is not looked at. *)
Theorem grep_prints_matching_lines u pat buf fd rs fuel k :
  cstr (umem u) pat rs -> bytes (umem u) -> apart pat buf rs -> 0 < buf -> buf + BUFSZ <= 2 ^ 32 ->
  usched u = [] -> text_ok (uin u fd) -> fits (uin u fd) ->
  (length (uin u fd) < fuel)%nat -> (2 * length rs + 1024 < k)%nat ->
  exists u' out, grep fuel k buf pat fd u = Ok tt u' /\
    picked (matches rs) (split_lines (uin u fd)).1 out /\
    uwrites u' = uwrites u ++ map (fun l => (1, l ++ [NL])) out.
Proof.
  intros Hp Hb A B0 B1 Hs Ht Hf Hfu Hk.
  destruct (wp_run_unit _ _ _ (wp_grep_loop pat buf fd rs k fuel [] (uin u fd) u A B0 B1
    ltac:(constructor; [done|done|by intros i ?; cbn in *; lia|apply not_elem_of_nil|done..]) Hfu Hk)) as (u' & E & out & P & W).
  exists u', out. done.
Qed.

(** Strings placed in an otherwise zero memory. *)
Definition place (p : Z) (s : list Z) : mem := fun a => aget 0 s (a - p).

Lemma place_cstr p s : 0 <= p -> p + Z.of_nat (length s) < 2 ^ 32 -> text_ok s -> cstr (place p s) p s.
Proof.
  intros Hp Hr Ht. apply cstr_intro; [done|done|eapply Forall_impl; [exact Ht|intros ? ?; cbn in *; lia]| |].
  - intros i Hi. unfold place. f_equal. lia.
  - unfold place, aget. replace (_ <? 0) with false by lia. rewrite nth_overflow; [done|lia].
Qed.

Lemma place_bytes p s : text_ok s -> bytes (place p s).
Proof.
  intros H a. unfold place. destruct (decide (0 <= a - p < Z.of_nat (length s))) as [Ha|Ha].
  - pose proof (aget_text s (a - p) H Ha). lia.
  - unfold aget. destruct (Z.ltb_spec (a - p) 0); [lia|]. rewrite nth_overflow by lia. lia.
Qed.

Definition demo_grep (inp : list Z) (sched : list nat) : uproc :=
  mk_uproc (place 100 (codes "a.c")) (fun _ => inp) sched [].
Definition demo_text : list Z := codes "xabc" ++ [NL] ++ codes "ab" ++ [NL] ++ codes "azc" ++ [NL].

Ltac all_text := repeat (constructor; [cbn; unfold NL; lia|]); constructor.

Lemma match_decides_pattern_witness :
  exists r, match_ 20 100 102 (place 100 (codes "a.c")) = Ok r (place 100 (codes "a.c")) /\
    (r = 1 /\ matches (codes "a.c") (codes "c") \/ r = 0 /\ ~ matches (codes "a.c") (codes "c")).
Proof.
  apply (match_decides_pattern (place 100 (codes "a.c")) 100 102 (codes "a.c") (codes "c") 20).
  - apply place_cstr; [lia|cbn; lia|all_text].
  - unfold cstr. cbn [codes]. split_and!; vm_compute; done.
  - cbn. lia.
Defined.

Lemma grep_prints_matching_lines_witness :
  exists u' out, grep 100 2000 1000 100 3 (demo_grep demo_text []) = Ok tt u' /\
    picked (matches (codes "a.c")) (split_lines demo_text).1 out /\
    uwrites u' = [] ++ map (fun l => (1, l ++ [NL])) out.
Proof.
  apply (grep_prints_matching_lines (demo_grep demo_text []) 100 1000 3 (codes "a.c") 100 2000).
  - apply place_cstr; [lia|cbn; lia|all_text].
  - apply place_bytes. all_text.
  - left. cbn. lia.
  - lia.
  - unfold BUFSZ. lia.
  - done.
  - all_text.
  - split; [repeat (constructor; [vm_compute; done|]); constructor|vm_compute; done].
  - cbn. lia.
  - cbn. lia.
Defined.

(** A line that arrives in two reads loses its first part: the loop drops
    what it has read when there was no newline in it.  The same line read
    at once is printed. *)
Example grep_loses_split_line :
  match grep 9 20 1000 100 0 (demo_grep (codes "abc" ++ [NL]) [2%nat]) with Ok _ u => uwrites u | _ => [(0, [])] end = [] /\
  match grep 9 20 1000 100 0 (demo_grep (codes "abc" ++ [NL]) []) with Ok _ u => uwrites u | _ => [] end = [(1, codes "abc" ++ [NL])].
Proof. split; vm_compute; reflexivity. Qed.
