(* ===== verification/Sh.v ===== *)
(** The shell's parser (sh.c): tokens, the recursive-descent parser, and
    nulterminate().

    The command line is an array of bytes with a NUL at [es]; a char* into
    it is an index.  The nodes malloc() returns are values of [cmd] (malloc
    is taken to succeed); argv[i] and eargv[i] are a pair of indices.  The
    parser stops the shell's child with a message on a syntax error
    ([Panic]); its recursion takes fuel. *)

From Stdlib Require Import ZArith Lia.
From stdpp Require Import base gmap strings numbers list.
From S2P Require Import Prelude Kstring.

Open Scope Z_scope.
Open Scope kern_scope.

Definition MAXARGS : Z := 10.

Definition O_RDONLY : Z := 0x000.
Definition O_WRONLY : Z := 0x001.
Definition O_CREATE : Z := 0x200.

(** struct execcmd, redircmd, pipecmd, listcmd, backcmd *)
Inductive cmd : Type :=
| EXEC (argv : list (Z * Z))
| REDIR (c : cmd) (file efile mode fd : Z)
| PIPE (left right : cmd)
| LIST (left right : cmd)
| BACK (c : cmd).

Record sh := mk_sh { line : list Z; ps : Z }.

Definition set_ps (s : Z) (t : sh) : sh := mk_sh (line t) s.

(** ** Constructors *)

Definition execcmd : cmd := EXEC [].
Definition redircmd (subcmd : cmd) (file efile mode fd : Z) : cmd := REDIR subcmd file efile mode fd.
Definition pipecmd (left right : cmd) : cmd := PIPE left right.
Definition listcmd (left right : cmd) : cmd := LIST left right.
Definition backcmd (subcmd : cmd) : cmd := BACK subcmd.

(** ** Tokens *)

(** " \t\r\n\v" and "<|>&;()" *)
Definition whitespace : list Z := [32; 9; 13; 10; 11].
Definition symbols : list Z := codes "<|>&;()".

(** strchr(set, c) finds c (the NUL is in no set). *)
Definition strchr (set : list Z) (c : Z) : bool := existsb (Z.eqb c) set.

(** while(s < es && p( *s)) s++ *)
Fixpoint skip_loop (p : Z -> bool) (b : list Z) (n : nat) (s : Z) : Z :=
  match n with
  | O => s
  | S n' => if p (aget 0 b s) then skip_loop p b n' (s + 1) else s
  end.
Definition skip (p : Z -> bool) (b : list Z) (es s : Z) : Z := skip_loop p b (Z.to_nat (es - s)) s.

Definition is_space (c : Z) : bool := strchr whitespace c.
Definition is_word (c : Z) : bool := negb (strchr whitespace c) && negb (strchr symbols c).

(** *s *)
Definition deref (s : Z) : M sh Z :=
  let! b := gets line in
  require (arr_ok b s) "past the end of the line" ;;;
  ret (aget 0 b s).

(** The token code (0 at the end, 'a' for a word, '+' for >>) and its bounds. *)
Definition gettoken (es : Z) : M sh (Z * Z * Z) :=
  let! b := gets line in
  let! s0 := gets ps in
  let s := skip is_space b es s0 in
  let q := s in
  let! c := deref s in
  let! (r, s) :=
    (if c =? 0 then ret (c, s)
     else if existsb (Z.eqb c) (codes "|();&<") then ret (c, s + 1)
     else if c =? 62 then
       let s := s + 1 in
       let! c1 := deref s in
       if c1 =? 62 then ret (43, s + 1) else ret (c, s)
     else ret (97, skip is_word b es s)) in
  let eq := s in
  modify (set_ps (skip is_space b es s)) ;;;
  ret (r, q, eq).

Definition peek (es : Z) (toks : list Z) : M sh bool :=
  let! b := gets line in
  let! s0 := gets ps in
  let s := skip is_space b es s0 in
  modify (set_ps s) ;;;
  let! c := deref s in
  ret (negb (c =? 0) && strchr toks c).

(** ** The parser *)

Definition syntax {A} (msg : string) : M sh A := panic msg.

Fixpoint parseredirs (fuel : nat) (c : cmd) (es : Z) : M sh cmd :=
  match fuel with
  | O => blocked
  | S f =>
      let! b := peek es (codes "<>") in
      if b then
        let! (tok, _, _) := gettoken es in
        let! (t, q, eq) := gettoken es in
        if negb (t =? 97) then syntax "missing file for redirection"
        else
          let c :=
            if tok =? 60 then redircmd c q eq O_RDONLY 0
            else if tok =? 62 then redircmd c q eq (Z.lor O_WRONLY O_CREATE) 1
            else if tok =? 43 then redircmd c q eq (Z.lor O_WRONLY O_CREATE) 1
            else c in
          parseredirs f c es
      else ret c
  end.

(** cmd->argv[argc] = q, cmd->eargv[argc] = eq: [cmd] is the exec node under
    the redirections that have been put around it since. *)
Fixpoint add_arg (c : cmd) (q eq : Z) : cmd :=
  match c with
  | EXEC argv => EXEC (argv ++ [(q, eq)])
  | REDIR c' f ef m fd => REDIR (add_arg c' q eq) f ef m fd
  | _ => c
  end.

(** The loop over the arguments in parseexec(). *)
Fixpoint parseargs (fuel : nat) (c : cmd) (argc es : Z) : M sh cmd :=
  match fuel with
  | O => blocked
  | S f =>
      let! b := peek es (codes "|)&;") in
      if b then ret c
      else
        let! (tok, q, eq) := gettoken es in
        if tok =? 0 then ret c
        else if negb (tok =? 97) then syntax "syntax"
        else
          require (argc <? MAXARGS) "argv" ;;;
          let c := add_arg c q eq in
          let argc := argc + 1 in
          if argc >=? MAXARGS then syntax "too many args"
          else
            let! c := parseredirs f c es in
            parseargs f c argc es
  end.

(** while(peek(ps, es, "&")) in parseline() *)
Fixpoint parseback (fuel : nat) (c : cmd) (es : Z) : M sh cmd :=
  match fuel with
  | O => blocked
  | S f =>
      let! b := peek es (codes "&") in
      if b then gettoken es ;;; parseback f (backcmd c) es
      else ret c
  end.

Fixpoint parseline (fuel : nat) (es : Z) : M sh cmd :=
  match fuel with
  | O => blocked
  | S f =>
      let! c := parsepipe f es in
      let! c := parseback f c es in
      let! b := peek es (codes ";") in
      if b then
        gettoken es ;;;
        let! r := parseline f es in
        ret (listcmd c r)
      else ret c
  end
with parsepipe (fuel : nat) (es : Z) : M sh cmd :=
  match fuel with
  | O => blocked
  | S f =>
      let! c := parseexec f es in
      let! b := peek es (codes "|") in
      if b then
        gettoken es ;;;
        let! r := parsepipe f es in
        ret (pipecmd c r)
      else ret c
  end
with parseblock (fuel : nat) (es : Z) : M sh cmd :=
  match fuel with
  | O => blocked
  | S f =>
      let! b := peek es (codes "(") in
      if negb b then syntax "parseblock"
      else
        gettoken es ;;;
        let! c := parseline f es in
        let! b := peek es (codes ")") in
        if negb b then syntax "syntax - missing )"
        else
          gettoken es ;;;
          parseredirs f c es
  end
with parseexec (fuel : nat) (es : Z) : M sh cmd :=
  match fuel with
  | O => blocked
  | S f =>
      let! b := peek es (codes "(") in
      if b then parseblock f es
      else
        let! c := parseredirs f execcmd es in
        parseargs f c 0 es
  end.

(** ** nulterminate *)

Definition nul (i : Z) : M sh unit :=
  let! b := gets line in
  require (arr_ok b i) "past the end of the line" ;;;
  modify (fun t => mk_sh (aset (line t) i 0) (ps t)).

Fixpoint nul_args (argv : list (Z * Z)) : M sh unit :=
  match argv with
  | [] => ret tt
  | (_, eq) :: rest => nul eq ;;; nul_args rest
  end.

Fixpoint nulterminate (c : cmd) : M sh unit :=
  match c with
  | EXEC argv => nul_args argv
  | REDIR c' _ efile _ _ => nulterminate c' ;;; nul efile
  | PIPE l r => nulterminate l ;;; nulterminate r
  | LIST l r => nulterminate l ;;; nulterminate r
  | BACK c' => nulterminate c'
  end.

Definition parsecmd (fuel : nat) : M sh cmd :=
  let! b := gets line in
  let! s := gets ps in
  let es := s + strlen (drop (Z.to_nat s) b) in
  let! c := parseline fuel es in
  peek es [] ;;;
  let! s := gets ps in
  if negb (s =? es) then syntax "syntax"
  else nulterminate c ;;; ret c.

(** Evaluates the character sets of a goal. *)
Ltac eval_codes :=
  repeat match goal with
  | |- context [codes ?s] => let v := eval vm_compute in (codes s) in change (codes s) with v
  end.

(** ** Termination *)

(** Partial outcomes: [pan] says whether a panic is allowed, [blk] whether
    running out of fuel is. *)
Definition wpo {A} (pan blk : Prop) (m : M sh A) (t : sh) (Q : A -> sh -> Prop) : Prop :=
  match m t with
  | Ok a t' => Q a t'
  | Panic _ => pan
  | Undef _ => False
  | Blocked _ => blk
  end.

Section Outcomes.
Context {pan blk : Prop}.

Lemma wpo_wp {A} (m : M sh A) t Q : wp m t Q -> wpo pan blk m t Q.
Proof. unfold wp, wpo. by destruct (m t). Qed.

Lemma wpo_bind {A B} (m : M sh A) (k : A -> M sh B) t Q :
  wpo pan blk m t (fun a t' => wpo pan blk (k a) t' Q) -> wpo pan blk (bind m k) t Q.
Proof. unfold wpo, bind. by destruct (m t). Qed.

Lemma wpo_bind_wp {A B} (m : M sh A) (k : A -> M sh B) t Q :
  wp m t (fun a t' => wpo pan blk (k a) t' Q) -> wpo pan blk (bind m k) t Q.
Proof. intros H. by apply wpo_bind, wpo_wp. Qed.

Lemma wpo_ret {A} (a : A) t (Q : A -> sh -> Prop) : Q a t -> wpo pan blk (ret a) t Q.
Proof. exact id. Qed.

Lemma wpo_mono {A} (m : M sh A) t (P Q : A -> sh -> Prop) :
  wpo pan blk m t P -> (forall a t', P a t' -> Q a t') -> wpo pan blk m t Q.
Proof. unfold wpo. destruct (m t); auto. Qed.

Lemma wpo_blocked {A} t (Q : A -> sh -> Prop) : blk -> wpo pan blk blocked t Q.
Proof. exact id. Qed.

Lemma wpo_syntax {A} msg t (Q : A -> sh -> Prop) : pan -> wpo pan blk (syntax msg) t Q.
Proof. exact id. Qed.
End Outcomes.

(** A line of text: its characters are not NUL, and a NUL ends it at [es]. *)
Record text (b : list Z) (es : Z) : Prop := {
  tx_es : 0 <= es;
  tx_len : es < Z.of_nat (length b);
  tx_nul : aget 0 b es = 0;
  tx_chars : forall i, 0 <= i < es -> aget 0 b i <> 0;
}.

Lemma skip_loop_spec p b n s : let s' := skip_loop p b n s in
  s <= s' <= s + Z.of_nat n /\ (s' < s + Z.of_nat n -> p (aget 0 b s') = false) /\
  (forall i, s <= i < s' -> p (aget 0 b i) = true).
Proof.
  revert s. induction n as [|n IH]; intros s; cbn [skip_loop]; [split_and!; intros; lia|].
  destruct (p (aget 0 b s)) eqn:E; [|split_and!; [lia|lia|done|intros; lia]].
  destruct (IH (s + 1)) as (H1 & H2 & H3). cbn zeta in *. split_and!; [lia|lia|intros; apply H2; lia|].
  intros i Hi. destruct (decide (i = s)) as [->|]; [done|]. apply H3. lia.
Qed.

Lemma skip_spec p b es s : 0 <= s <= es -> let s' := skip p b es s in
  s <= s' <= es /\ (s' < es -> p (aget 0 b s') = false) /\ (forall i, s <= i < s' -> p (aget 0 b i) = true).
Proof.
  intros Hs. unfold skip. destruct (skip_loop_spec p b (Z.to_nat (es - s)) s) as (H1 & H2 & H3). cbn zeta in *.
  split_and!; [lia|lia|intros; apply H2; lia|done].
Qed.

Section Parser.
Context (b : list Z) (es : Z) (TX : text b es).

Abbreviation at_ s := (mk_sh b s).

Lemma wp_deref s t (Q : Z -> sh -> Prop) : line t = b -> 0 <= s <= es -> Q (aget 0 b s) t -> wp (deref s) t Q.
Proof.
  intros E Hs HQ. unfold deref. apply wp_bind, wp_gets. rewrite E. apply wp_bind, wp_require; [|done].
  apply arr_ok_true. pose proof (tx_len _ _ TX). lia.
Qed.

(** What gettoken() returns, in terms of the text at the first character
    [q] that is not a space. *)
Definition token (q : Z) : Z * Z :=
  let c := aget 0 b q in
  if c =? 0 then (0, q)
  else if existsb (Z.eqb c) (codes "|();&<") then (c, q + 1)
  else if c =? 62 then (if aget 0 b (q + 1) =? 62 then (43, q + 2) else (c, q + 1))
  else (97, skip is_word b es q).

Lemma nonzero_lt s : 0 <= s <= es -> aget 0 b s <> 0 -> s < es.
Proof. intros Hs Hc. pose proof (tx_nul _ _ TX). destruct (decide (s = es)) as [->|]; [done|lia]. Qed.

Lemma word_char c : is_space c = false -> existsb (Z.eqb c) (codes "|();&<") = false -> c <> 62 -> is_word c = true.
Proof. unfold is_space, is_word, strchr, symbols. intros ->. eval_codes. cbn. lia. Qed.

(** [q, eq) is a whole word of the line. *)
Definition word (q eq : Z) : Prop :=
  0 <= q < eq /\ eq <= es /\ (forall i, q <= i < eq -> is_word (aget 0 b i) = true) /\ (eq = es \/ is_word (aget 0 b eq) = false).

(** The words of a command: arguments and file names. *)
Fixpoint words (c : cmd) : list (Z * Z) :=
  match c with
  | EXEC argv => argv
  | REDIR c' file efile _ _ => words c' ++ [(file, efile)]
  | PIPE l r | LIST l r => words l ++ words r
  | BACK c' => words c'
  end.

Definition words_ok (c : cmd) : Prop := Forall (fun w => word w.1 w.2) (words c).

Lemma token_range q : 0 <= q <= es -> is_space (aget 0 b q) = false ->
  q <= (token q).2 <= es /\ ((token q).1 <> 0 -> q < (token q).2) /\ ((token q).1 = 0 -> q = es).
Proof.
  intros Hq Hsp. unfold token. destruct (Z.eqb_spec (aget 0 b q) 0) as [E|E].
  { cbn. split_and!; [lia|lia|done|]. intros _. destruct (decide (q = es)); [done|]. pose proof (tx_chars _ _ TX q ltac:(lia)). done. }
  pose proof (nonzero_lt q Hq E). destruct (existsb _ _) eqn:Es; [cbn; split_and!; try lia; intros; lia|].
  destruct (Z.eqb_spec (aget 0 b q) 62) as [E2|E2].
  - destruct (Z.eqb_spec (aget 0 b (q + 1)) 62) as [E3|E3]; cbn; [|split_and!; lia].
    pose proof (nonzero_lt (q + 1) ltac:(lia) ltac:(lia)). split_and!; lia.
  - cbn. destruct (skip_spec is_word b es q Hq) as (H1 & H2 & H3). cbn zeta in *. split_and!; [lia|lia| |lia].
    intros _. destruct (decide (skip is_word b es q = q)) as [Eq|]; [|lia]. rewrite Eq in H2.
    rewrite word_char in H2 by done. specialize (H2 ltac:(lia)). done.
Qed.

Lemma token_word q : 0 <= q <= es -> is_space (aget 0 b q) = false -> (token q).1 = 97 -> word q (token q).2.
Proof.
  intros Hq Hsp. destruct (token_range q Hq Hsp) as (R1 & R2 & _). revert R1 R2. unfold token.
  destruct (Z.eqb_spec (aget 0 b q) 0) as [E|E]; [done|]. destruct (existsb _ _) eqn:Es.
  { cbn [fst snd]. intros _ _ E2. rewrite E2 in Es. done. }
  destruct (Z.eqb_spec (aget 0 b q) 62) as [E2|E2]; [destruct (_ =? 62); cbn [fst snd]; intros; lia|]. cbn [fst snd]. intros R1 R2 _.
  destruct (skip_spec is_word b es q Hq) as (H1 & H2 & H3). cbn zeta in *. unfold word. specialize (R2 ltac:(lia)). split_and!; [lia|lia|lia|done|].
  destruct (decide (skip is_word b es q = es)); [by left|right; apply H2; lia].
Qed.

(** The first character at or after [s] that is not a space. *)
Definition next (s : Z) : Z := skip is_space b es s.

Lemma next_spec s : 0 <= s <= es -> s <= next s <= es /\ is_space (aget 0 b (next s)) = false.
Proof.
  intros Hs. destruct (skip_spec is_space b es s Hs) as (H1 & H2 & _). fold (next s) in *. cbn zeta in *. split; [done|].
  destruct (decide (next s = es)) as [->|]; [by rewrite (tx_nul _ _ TX)|]. apply H2. lia.
Qed.

Lemma wp_gettoken s (Q : Z * Z * Z -> sh -> Prop) : 0 <= s <= es ->
  Q ((token (next s)).1, next s, (token (next s)).2) (at_ (next (token (next s)).2)) -> wp (gettoken es) (at_ s) Q.
Proof.
  intros Hs HQ. unfold gettoken. do 2 apply wp_bind, wp_gets. cbn [line ps]. fold (next s). destruct (next_spec s Hs) as [Hn Hsp].
  apply wp_bind, wp_deref; [done|lia|]. apply wp_bind. pose proof (token_range (next s) ltac:(lia) Hsp) as (_ & R & _). unfold token in *.
  destruct (Z.eqb_spec (aget 0 b (next s)) 0) as [E0|E0]; [rewrite E0; apply wp_ret, wp_bind, wp_modify, wp_ret, HQ|].
  destruct (existsb _ _); [apply wp_ret, wp_bind, wp_modify, wp_ret, HQ|].
  destruct (Z.eqb_spec (aget 0 b (next s)) 62); [|apply wp_ret, wp_bind, wp_modify, wp_ret, HQ].
  pose proof (nonzero_lt (next s) ltac:(lia) ltac:(lia)).
  apply wp_bind, wp_deref; [done|lia|]. destruct (aget 0 b (next s + 1) =? 62); [|apply wp_ret, wp_bind, wp_modify, wp_ret, HQ].
  apply wp_ret, wp_bind, wp_modify, wp_ret. cbn [fst snd] in HQ. by replace (next s + 1 + 1) with (next s + 2) by lia.
Qed.

Lemma wp_peek s toks (Q : bool -> sh -> Prop) : 0 <= s <= es ->
  Q (negb (aget 0 b (next s) =? 0) && strchr toks (aget 0 b (next s))) (at_ (next s)) -> wp (peek es toks) (at_ s) Q.
Proof.
  intros Hs HQ. unfold peek. do 2 apply wp_bind, wp_gets. apply wp_bind, wp_modify. cbn [line ps]. fold (next s).
  destruct (next_spec s Hs) as [Hn _]. apply wp_bind, wp_deref; [done|lia|]. apply wp_ret, HQ.
Qed.

(** ** Termination: the position only moves forward, and every loop and
    every recursion consumes a token first. *)

Abbreviation safe m s Q := (wpo True False m (at_ s) (fun r t => exists s', t = at_ s' /\ s <= s' <= es /\ Q r s')).

Lemma safe_peek {A} s toks (k : bool -> M sh A) Q : 0 <= s <= es ->
  (forall r, s <= next s <= es -> (r = true -> aget 0 b (next s) <> 0) -> wpo True False (k r) (at_ (next s)) Q) ->
  wpo True False (bind (peek es toks) k) (at_ s) Q.
Proof.
  intros Hs H. apply wpo_bind_wp, wp_peek; [done|]. destruct (next_spec s Hs). apply H; [done|]. intros E. b2p. done.
Qed.

Lemma next_idem s : 0 <= s <= es -> next (next s) = next s.
Proof.
  intros Hs. destruct (next_spec s Hs) as [H1 H2]. destruct (skip_spec is_space b es (next s) ltac:(lia)) as (H3 & _ & H4).
  fold (next (next s)) in *. cbn zeta in *. destruct (decide (next (next s) = next s)); [done|].
  rewrite (H4 (next s)) in H2 by lia. done.
Qed.

(** gettoken() either is at the end or moves. *)
Lemma safe_gettoken {A} s (k : Z * Z * Z -> M sh A) Q : 0 <= s <= es ->
  (forall r q eq s', s <= q <= eq -> eq <= s' <= es -> (r = 0 -> aget 0 b (next s) = 0) -> (r <> 0 -> s < s') -> (r = 97 -> word q eq) ->
     wpo True False (k (r, q, eq)) (at_ s') Q) ->
  wpo True False (bind (gettoken es) k) (at_ s) Q.
Proof.
  intros Hs H. apply wpo_bind_wp, wp_gettoken; [done|]. destruct (next_spec s Hs) as [Hn Hsp].
  destruct (token_range (next s) ltac:(lia) Hsp) as (R1 & R2 & R3). destruct (next_spec (token (next s)).2) as [Hn2 _]; [lia|].
  apply H; [lia|lia| |lia|apply token_word; [lia|done]]. intros E. rewrite R3 by done. apply (tx_nul _ _ TX).
Qed.

Lemma words_redir c q eq mode fd : words_ok c -> word q eq -> words_ok (redircmd c q eq mode fd).
Proof. intros H W. apply Forall_app. split; [done|constructor; [done|constructor]]. Qed.

Lemma words_add c q eq : words_ok c -> word q eq -> words_ok (add_arg c q eq).
Proof.
  unfold words_ok. induction c as [argv|c IH f ef m fd|l IHl r IHr|l IHl r IHr|c IH]; cbn [add_arg words]; intros H W; [|..|done|done|done].
  - apply Forall_app. split; [done|constructor; [done|constructor]].
  - apply Forall_app in H as [H1 H2]. apply Forall_app. auto.
Qed.

Lemma words_two l r : words_ok l -> words_ok r -> Forall (fun w => word w.1 w.2) (words l ++ words r).
Proof. intros. by apply Forall_app. Qed.

Lemma safe_redirs fuel : forall c s, words_ok c -> 0 <= s <= es -> es - s < Z.of_nat fuel ->
  safe (parseredirs fuel c es) s (fun c' _ => words_ok c').
Proof.
  induction fuel as [|fuel IH]; intros c s Hc Hs Hf; [lia|]. cbn [parseredirs]. apply safe_peek; [done|]. intros [|] Hn Hr.
  - apply safe_gettoken; [lia|]. intros r q eq s1 R1 R2 R3 R4 _. rewrite next_idem in R3 by done.
    assert (next s < s1) by (apply R4; intros E; apply (Hr eq_refl), R3, E).
    apply safe_gettoken; [lia|]. intros r2 q2 eq2 s2 T1 T2 _ _ T5. destruct (Z.eqb_spec r2 97) as [E2|]; [|by apply wpo_syntax]. cbn [negb].
    eapply wpo_mono; [apply IH; [|lia|lia]|].
    + specialize (T5 E2). destruct (r =? 60); [by apply words_redir|]. destruct (r =? 62); [by apply words_redir|].
      destruct (r =? 43); [by apply words_redir|done].
    + intros c' t (s3 & -> & H3 & W). exists s3. split_and!; [done|lia|lia|done].
  - apply wpo_ret. exists (next s). split_and!; [done|lia|lia|done].
Qed.

Lemma safe_args fuel : forall c argc s, words_ok c -> 0 <= s <= es -> es - s < Z.of_nat fuel -> argc < MAXARGS ->
  safe (parseargs fuel c argc es) s (fun c' _ => words_ok c').
Proof.
  induction fuel as [|fuel IH]; intros c argc s Hc Hs Hf Ha; [lia|]. cbn [parseargs]. apply safe_peek; [done|]. intros [|] Hn Hr.
  { apply wpo_ret. exists (next s). split_and!; [done|lia|lia|done]. }
  apply safe_gettoken; [lia|]. intros r q eq s1 R1 R2 R3 R4 R5. destruct (Z.eqb_spec r 0) as [Er|Er].
  { apply wpo_ret. exists s1. split_and!; [done|lia|lia|done]. }
  specialize (R4 Er). destruct (Z.eqb_spec r 97) as [E2|]; [|by apply wpo_syntax]. cbn [negb]. apply wpo_bind_wp, wp_require; [lia|].
  destruct (argc + 1 >=? MAXARGS) eqn:E; [by apply wpo_syntax|].
  apply wpo_bind. eapply wpo_mono; [apply safe_redirs; [apply words_add; auto|lia|lia]|].
  intros c' t (s2 & -> & H2 & W). eapply wpo_mono; [apply IH; [done|lia..]|]. intros c2 t (s3 & -> & H3 & W3). exists s3. split_and!; [done|lia|lia|done].
Qed.

Lemma safe_back fuel : forall c s, words_ok c -> 0 <= s <= es -> es - s < Z.of_nat fuel ->
  safe (parseback fuel c es) s (fun c' _ => words_ok c').
Proof.
  induction fuel as [|fuel IH]; intros c s Hc Hs Hf; [lia|]. cbn [parseback]. apply safe_peek; [done|]. intros [|] Hn Hr.
  - apply safe_gettoken; [lia|]. intros r q eq s1 R1 R2 R3 R4 _. rewrite next_idem in R3 by done.
    assert (next s < s1) by (apply R4; intros E; apply (Hr eq_refl), R3, E).
    eapply wpo_mono; [apply IH; [done|lia|lia]|]. intros c' t (s3 & -> & H3 & W). exists s3. split_and!; [done|lia|lia|done].
  - apply wpo_ret. exists (next s). split_and!; [done|lia|lia|done].
Qed.

(** A token that peek() saw: gettoken() moves past it. *)
Lemma safe_seen {A} s (k : M sh A) Q : 0 <= s <= es -> aget 0 b (next s) <> 0 ->
  (forall s', s < s' <= es -> wpo True False k (at_ s') Q) ->
  wpo True False (gettoken es ;;; k) (at_ (next s)) Q.
Proof.
  intros Hs Hc H. destruct (next_spec s Hs). apply safe_gettoken; [lia|]. intros r q eq s1 R1 R2 R3 R4 _. rewrite next_idem in R3 by done.
  assert (next s < s1) by (apply R4; auto). apply H. lia.
Qed.

Abbreviation parses m s := (safe m s (fun c _ => words_ok c)).

Lemma safe_parse fuel : forall s, 0 <= s <= es ->
  (4 * (es - s) + 4 <= Z.of_nat fuel -> parses (parseline fuel es) s) /\
  (4 * (es - s) + 3 <= Z.of_nat fuel -> parses (parsepipe fuel es) s) /\
  (4 * (es - s) + 2 <= Z.of_nat fuel -> parses (parseexec fuel es) s) /\
  (4 * (es - s) + 1 <= Z.of_nat fuel -> parses (parseblock fuel es) s).
Proof.
  induction fuel as [|fuel IH]; intros s Hs; [split_and!; intros; lia|].
  cbn [parseline parsepipe parseexec parseblock]. split_and!; intros Hf.
  - apply wpo_bind. eapply wpo_mono; [apply (IH s Hs); lia|]. intros c t (s1 & -> & H1 & W1).
    apply wpo_bind. eapply wpo_mono; [apply safe_back; [done|lia..]|]. intros c' t (s2 & -> & H2 & W2).
    apply safe_peek; [lia|]. intros [|] Hn Hr; [|apply wpo_ret; exists (next s2); split_and!; [done|lia|lia|done]].
    apply safe_seen; [lia|by apply Hr|]. intros s3 H3. apply wpo_bind. eapply wpo_mono; [apply (IH s3); lia|].
    intros r t (s4 & -> & H4 & W4). apply wpo_ret. exists s4. split_and!; [done|lia|lia|by apply words_two].
  - apply wpo_bind. eapply wpo_mono; [apply (IH s Hs); lia|]. intros c t (s1 & -> & H1 & W1).
    apply safe_peek; [lia|]. intros [|] Hn Hr; [|apply wpo_ret; exists (next s1); split_and!; [done|lia|lia|done]].
    apply safe_seen; [lia|by apply Hr|]. intros s3 H3. apply wpo_bind. eapply wpo_mono; [apply (IH s3); lia|].
    intros r t (s4 & -> & H4 & W4). apply wpo_ret. exists s4. split_and!; [done|lia|lia|by apply words_two].
  - apply safe_peek; [lia|]. intros [|] Hn Hr.
    + eapply wpo_mono; [apply (IH (next s)); lia|]. intros c t (s4 & -> & H4 & W4). exists s4. split_and!; [done|lia|lia|done].
    + apply wpo_bind. eapply wpo_mono; [apply safe_redirs; [by constructor|lia..]|]. intros c t (s1 & -> & H1 & W1).
      eapply wpo_mono; [apply safe_args; [done|lia|lia|done]|]. intros c' t (s4 & -> & H4 & W4). exists s4. split_and!; [done|lia|lia|done].
  - apply safe_peek; [lia|]. intros [|] Hn Hr; [|by apply wpo_syntax]. cbn [negb].
    apply safe_seen; [lia|by apply Hr|]. intros s1 H1. apply wpo_bind. eapply wpo_mono; [apply (IH s1); lia|]. intros c t (s2 & -> & H2 & W2).
    apply safe_peek; [lia|]. intros [|] Hn2 Hr2; [|by apply wpo_syntax]. cbn [negb].
    apply safe_seen; [lia|by apply Hr2|]. intros s3 H3. eapply wpo_mono; [apply safe_redirs; [done|lia..]|].
    intros c' t (s4 & -> & H4 & W4). exists s4. split_and!; [done|lia|lia|done].
Qed.

(** ** nulterminate() *)

(** [l] is the line with NULs after some words. *)
Definition cut_at (l : list Z) (eqs : list Z) : Prop :=
  length l = length b /\ forall i, aget 0 l i = if bool_decide (i ∈ eqs) then 0 else aget 0 b i.

Lemma wp_nul t eq eqs (Q : unit -> sh -> Prop) : cut_at (line t) eqs -> 0 <= eq <= es ->
  (forall t', cut_at (line t') (eqs ++ [eq]) -> Q tt t') -> wp (nul eq) t Q.
Proof.
  intros [HL HC] He HQ. pose proof (tx_len _ _ TX). unfold nul. apply wp_bind, wp_gets, wp_bind, wp_require; [apply arr_ok_true; lia|].
  apply wp_modify, HQ. split; cbn [line]; [by rewrite length_aset|]. intros i. destruct (decide (i = eq)) as [->|Hi].
  - rewrite aget_aset_eq by lia. by rewrite bool_decide_true by (rewrite elem_of_app, list_elem_of_singleton; auto).
  - rewrite aget_aset_ne by lia. rewrite HC. erewrite bool_decide_ext; [reflexivity|]. rewrite elem_of_app, list_elem_of_singleton. naive_solver.
Qed.

Lemma wp_nul_args argv : forall t eqs (Q : unit -> sh -> Prop), cut_at (line t) eqs -> Forall (fun w => word w.1 w.2) argv ->
  (forall t', cut_at (line t') (eqs ++ map snd argv) -> Q tt t') -> wp (nul_args argv) t Q.
Proof.
  induction argv as [|[q eq] argv IH]; intros t eqs Q HC HW HQ; cbn [nul_args].
  - apply wp_ret, HQ. by rewrite app_nil_r.
  - apply Forall_cons in HW as [HW1 HW]. destruct HW1 as (? & ? & _). cbn in *. apply wp_bind, (wp_nul t eq eqs); [done|lia|]. intros t' HC'.
    apply (IH t' _ Q HC' HW). intros t2 HC2. apply HQ. by rewrite <- app_assoc in HC2.
Qed.

Lemma wp_nulterminate c : forall t eqs (Q : unit -> sh -> Prop), cut_at (line t) eqs -> words_ok c ->
  (forall t', cut_at (line t') (eqs ++ map snd (words c)) -> Q tt t') -> wp (nulterminate c) t Q.
Proof.
  unfold words_ok. induction c as [argv|c IH f ef m fd|l IHl r IHr|l IHl r IHr|c IH]; intros t eqs Q HC HW HQ; cbn [nulterminate words] in *.
  - by eapply wp_nul_args.
  - apply Forall_app in HW as [HW1 HW2]. apply Forall_cons in HW2 as [(? & ? & _) _]. cbn in *. apply wp_bind, (IH t eqs); [done|done|]. intros t' HC'.
    eapply wp_nul; [done|lia|]. intros t2 HC2. apply HQ. by rewrite map_app, app_assoc.
  - apply Forall_app in HW as [HW1 HW2]. apply wp_bind, (IHl t eqs); [done|done|]. intros t' HC'. eapply IHr; [done|done|]. intros t2 HC2.
    apply HQ. by rewrite map_app, app_assoc.
  - apply Forall_app in HW as [HW1 HW2]. apply wp_bind, (IHl t eqs); [done|done|]. intros t' HC'. eapply IHr; [done|done|]. intros t2 HC2.
    apply HQ. by rewrite map_app, app_assoc.
  - by eapply IH.
Qed.

(** After nulterminate() every word is a string of its own. *)
Definition terminated (l : list Z) (w : Z * Z) : Prop :=
  aget 0 l w.2 = 0 /\ forall i, w.1 <= i < w.2 -> aget 0 l i = aget 0 b i /\ aget 0 b i <> 0.

Lemma cut_terminated l c : cut_at l (map snd (words c)) -> words_ok c -> Forall (terminated l) (words c).
Proof.
  intros [_ HC] HW. unfold words_ok in HW. rewrite Forall_forall in *. intros [q eq] Hin. pose proof (HW _ Hin) as (H1 & H2 & H3 & H4). cbn in *. split; cbn.
  - rewrite HC, bool_decide_true; [done|]. apply list_elem_of_fmap. by exists (q, eq).
  - intros i Hi. pose proof (tx_chars _ _ TX i ltac:(lia)) as Hne. split; [|done]. rewrite HC, bool_decide_false; [done|].
    intros ([q2 eq2] & -> & Hin2)%list_elem_of_fmap. pose proof (HW _ Hin2) as (_ & G2 & _ & G4). cbn in *.
    destruct G4 as [->|G4]; [lia|]. rewrite (H3 eq2) in G4 by done. done.
Qed.

Lemma cut_nil : cut_at b [].
Proof. split; [done|]. intros i. rewrite bool_decide_false; [done|]. apply not_elem_of_nil. Qed.
End Parser.
