(* ===== verification/ShSpec.v ===== *)
(** The shell's grammar, and the parser against it.

    A command line is described by a syntax tree ([line_], [pipe_], [exec_])
    over words; [stree] is the command it stands for and [ltoks] its tokens.
    The parser maps every text with these tokens to that command. *)

From Stdlib Require Import ZArith Lia.
From stdpp Require Import base gmap strings numbers list.
From S2P Require Import Prelude Kstring Sh.

Open Scope Z_scope.
Open Scope kern_scope.

(** ** Commands over words *)

Inductive scmd : Type :=
| SExec (args : list (list Z))
| SRedir (c : scmd) (file : list Z) (mode fd : Z)
| SPipe (l r : scmd)
| SList (l r : scmd)
| SBack (c : scmd).

(** A command of the parser and a command over words have the same shape,
    [P] relating their words. *)
Fixpoint shape (P : Z -> Z -> list Z -> Prop) (c : cmd) (sc : scmd) : Prop :=
  match c, sc with
  | EXEC argv, SExec args => Forall2 (fun w a => P w.1 w.2 a) argv args
  | REDIR c' q eq m fd, SRedir sc' file m' fd' => shape P c' sc' /\ P q eq file /\ m = m' /\ fd = fd'
  | PIPE l r, SPipe l' r' => shape P l l' /\ shape P r r'
  | LIST l r, SList l' r' => shape P l l' /\ shape P r r'
  | BACK c', SBack sc' => shape P c' sc'
  | _, _ => False
  end.

(** ** The grammar *)

(** < file, > file or >> file (written '+', as the token is). *)
Record redir := mk_redir { rop : Z; rfile : list Z }.
Inductive part : Type := Arg (w : list Z) | Red (r : redir).

Inductive line_ : Type :=
| LEnd (p : pipe_) (amps : nat)
| LSeq (p : pipe_) (amps : nat) (l : line_)
with pipe_ : Type :=
| PEnd (e : exec_)
| PSeq (e : exec_) (p : pipe_)
with exec_ : Type :=
| XBlock (l : line_) (rs : list redir)
| XCmd (parts : list part).

Scheme line_mut := Induction for line_ Sort Prop
with pipe_mut := Induction for pipe_ Sort Prop
with exec_mut := Induction for exec_ Sort Prop.
Combined Scheme syntax_ind from line_mut, pipe_mut, exec_mut.

(** The command a tree stands for. *)
Definition sredir (c : scmd) (r : redir) : scmd :=
  if rop r =? 60 then SRedir c (rfile r) O_RDONLY 0 else SRedir c (rfile r) (Z.lor O_WRONLY O_CREATE) 1.

Definition args_of (ps : list part) : list (list Z) := omap (fun p => match p with Arg w => Some w | Red _ => None end) ps.
Definition redirs_of (ps : list part) : list redir := omap (fun p => match p with Arg _ => None | Red r => Some r end) ps.

Fixpoint stree (l : line_) : scmd :=
  match l with
  | LEnd p n => Nat.iter n SBack (spipe p)
  | LSeq p n l' => SList (Nat.iter n SBack (spipe p)) (stree l')
  end
with spipe (p : pipe_) : scmd :=
  match p with
  | PEnd e => sexec e
  | PSeq e p' => SPipe (sexec e) (spipe p')
  end
with sexec (e : exec_) : scmd :=
  match e with
  | XBlock l rs => fold_left sredir rs (stree l)
  | XCmd parts => fold_left sredir (redirs_of parts) (SExec (args_of parts))
  end.

(** Its tokens. *)
Inductive tok : Type := TWord (w : list Z) | TSym (c : Z).

Definition rtoks (r : redir) : list tok := [TSym (rop r); TWord (rfile r)].
Definition ptoks (p : part) : list tok := match p with Arg w => [TWord w] | Red r => rtoks r end.

Fixpoint ltoks (l : line_) : list tok :=
  match l with
  | LEnd p n => pptoks p ++ repeat (TSym 38) n
  | LSeq p n l' => pptoks p ++ repeat (TSym 38) n ++ TSym 59 :: ltoks l'
  end
with pptoks (p : pipe_) : list tok :=
  match p with
  | PEnd e => xtoks e
  | PSeq e p' => xtoks e ++ TSym 124 :: pptoks p'
  end
with xtoks (e : exec_) : list tok :=
  match e with
  | XBlock l rs => TSym 40 :: ltoks l ++ TSym 41 :: concat (map rtoks rs)
  | XCmd parts => concat (map ptoks parts)
  end.

(** Words are words, redirections one of the three, and a command has at
    most MAXARGS - 1 arguments. *)
Definition word_ok (w : list Z) : Prop := w <> [] /\ Forall (fun c => c <> 0 /\ is_word c = true) w.
Definition redir_ok (r : redir) : Prop := (rop r = 60 \/ rop r = 62 \/ rop r = 43) /\ word_ok (rfile r).
Definition part_ok (p : part) : Prop := match p with Arg w => word_ok w | Red r => redir_ok r end.

Fixpoint line_ok (l : line_) : Prop :=
  match l with
  | LEnd p _ => pipe_ok p
  | LSeq p _ l' => pipe_ok p /\ line_ok l'
  end
with pipe_ok (p : pipe_) : Prop :=
  match p with
  | PEnd e => exec_ok e
  | PSeq e p' => exec_ok e /\ pipe_ok p'
  end
with exec_ok (e : exec_) : Prop :=
  match e with
  | XBlock l rs => line_ok l /\ Forall redir_ok rs
  | XCmd parts => Forall part_ok parts /\ Z.of_nat (length (args_of parts)) < MAXARGS
  end.

(** ** Tokens of a text *)

Section Accept.
Context (b : list Z) (es : Z) (TX : text b es).

Abbreviation at_ s := (mk_sh b s).
Abbreviation next := (next b es).
Abbreviation token := (token b es).

Definition spells (q eq : Z) (w : list Z) : Prop := 0 <= q <= eq /\ take (Z.to_nat (eq - q)) (drop (Z.to_nat q) b) = w.

(** The token at [q]. *)
Definition tok_at (q : Z) (t : tok) : Prop :=
  match t with
  | TWord w => (token q).1 = 97 /\ spells q (token q).2 w
  | TSym c => (token q).1 = c /\ c <> 97 /\ c <> 0
  end.

Inductive lexes : Z -> list tok -> Prop :=
| lex_end s : 0 <= s <= es -> next s = es -> lexes s []
| lex_tok s t ts : 0 <= s <= es -> tok_at (next s) t -> lexes (token (next s)).2 ts -> lexes s (t :: ts).

Lemma lexes_range s ts : lexes s ts -> 0 <= s <= es.
Proof. by destruct 1. Qed.

Lemma lexes_next s ts : lexes s ts -> lexes (next s) ts.
Proof.
  destruct 1 as [s Hs E|s t ts Hs E H]; destruct (next_spec b es TX s Hs).
  - constructor; [lia|]. by rewrite next_idem.
  - constructor; [lia|by rewrite next_idem|by rewrite next_idem].
Qed.

(** Does the next token start with a symbol of [set]? *)
Definition heads (set : list Z) (ts : list tok) : bool :=
  match ts with
  | TSym c :: _ => strchr set (if c =? 43 then 62 else c)
  | _ => false
  end.

Definition symset (set : list Z) : Prop := Forall (fun c => strchr symbols c = true) set.

Lemma strchr_elem set c : strchr set c = true <-> c ∈ set.
Proof.
  unfold strchr. rewrite existsb_exists. split.
  - intros (x & Hx & E). apply Z.eqb_eq in E. subst x. by apply list_elem_of_In.
  - intros H. exists c. split; [by apply list_elem_of_In|]. apply Z.eqb_refl.
Qed.

Lemma peeked s ts set : lexes s ts -> symset set ->
  negb (aget 0 b (next s) =? 0) && strchr set (aget 0 b (next s)) = heads set ts.
Proof.
  intros H HS. destruct H as [s Hs E|s t ts Hs E H].
  { rewrite E, (tx_nul _ _ TX). done. }
  destruct (next_spec b es TX s Hs) as [Hn Hsp]. unfold tok_at, Sh.token in E.
  destruct (Z.eqb_spec (aget 0 b (next s)) 0) as [E0|E0]; [destruct t; cbn in E; [lia|exfalso; naive_solver]|]. cbn [negb andb heads].
  destruct (existsb _ _) eqn:Es.
  { destruct t as [w|c]; cbn [fst snd] in E; destruct E as [E1 E2]; [rewrite E1 in Es; done|]. subst c.
    destruct (Z.eqb_spec (aget 0 b (next s)) 43) as [E4|]; [rewrite E4 in Es; done|done]. }
  destruct (Z.eqb_spec (aget 0 b (next s)) 62) as [E2|E2].
  { destruct (_ =? 62); cbn [fst snd] in E; (destruct t as [w|c]; [lia|]); destruct E as [<- _]; [|rewrite E2]; cbn [Z.eqb]; by rewrite ?E2. }
  cbn [fst snd] in E. destruct t as [w|c]; [|lia]. apply not_true_iff_false. rewrite strchr_elem. intros Hin.
  unfold symset in HS. rewrite Forall_forall in HS. apply HS in Hin.
  pose proof (word_char _ Hsp Es E2) as Hw. unfold is_word in Hw. rewrite Hin in Hw. by rewrite andb_false_r in Hw.
Qed.

Abbreviation accepts m s P := (wpo False True m (at_ s) P).

Lemma accepts_peek {A} s ts set (k : bool -> M sh A) Q : lexes s ts -> symset set ->
  (forall s', lexes s' ts -> accepts (k (heads set ts)) s' Q) -> accepts (bind (peek es set) k) s Q.
Proof.
  intros H HS HQ. apply wpo_bind_wp, (wp_peek b es TX); [by eapply lexes_range|]. rewrite (peeked s ts) by done. by apply HQ, lexes_next.
Qed.

Definition code (t : tok) : Z := match t with TWord _ => 97 | TSym c => c end.
Definition bounds (t : tok) (q eq : Z) : Prop := match t with TWord w => spells q eq w | TSym _ => True end.

Lemma accepts_token {A} s t ts (k : Z * Z * Z -> M sh A) Q : lexes s (t :: ts) ->
  (forall s' q eq, lexes s' ts -> bounds t q eq -> accepts (k (code t, q, eq)) s' Q) -> accepts (bind (gettoken es) k) s Q.
Proof.
  intros H HQ. inversion H as [|? ? ? Hs E HL]; subst. apply wpo_bind_wp, (wp_gettoken b es TX); [done|].
  assert (Ec : (token (next s)).1 = code t) by (destruct t; by destruct E). rewrite Ec. apply HQ; [by apply lexes_next|].
  destruct t; [by destruct E|done].
Qed.

Lemma accepts_end {A} s (k : Z * Z * Z -> M sh A) Q : lexes s [] ->
  (forall s' q eq, lexes s' [] -> accepts (k (0, q, eq)) s' Q) -> accepts (bind (gettoken es) k) s Q.
Proof.
  intros H HQ. inversion H as [? Hs E|]; subst. apply wpo_bind_wp, (wp_gettoken b es TX); [done|].
  rewrite E. unfold Sh.token. rewrite (tx_nul _ _ TX). cbn [Z.eqb fst snd]. apply HQ, lexes_next.
  pose proof (tx_es _ _ TX). destruct (next_spec b es TX es); [lia|]. constructor; lia.
Qed.

(** ** The parser accepts the grammar *)

Abbreviation like := (shape spells).

Lemma shape_redir P c sc r q eq : shape P c sc -> P q eq (rfile r) -> rop r = 60 \/ rop r = 62 \/ rop r = 43 ->
  shape P (if rop r =? 60 then redircmd c q eq O_RDONLY 0 else if rop r =? 62 then redircmd c q eq (Z.lor O_WRONLY O_CREATE) 1
           else if rop r =? 43 then redircmd c q eq (Z.lor O_WRONLY O_CREATE) 1 else c) (sredir sc r).
Proof. intros H HP [E|[E|E]]; unfold sredir; rewrite E; done. Qed.

(** The text goes on with something that is not a redirection. *)
Lemma accepts_redirs rs : forall fuel c sc s ts, lexes s (concat (map rtoks rs) ++ ts) -> Forall redir_ok rs ->
  heads (codes "<>") ts = false -> like c sc ->
  accepts (parseredirs fuel c es) s (fun c' t => exists s', t = at_ s' /\ lexes s' ts /\ like c' (fold_left sredir rs sc)).
Proof.
  assert (SS : symset (codes "<>")) by (repeat constructor).
  induction rs as [|r rs IH]; intros [|fuel] c sc s ts HL HR Hh Hc; try by apply wpo_blocked.
  - cbn [parseredirs]. apply (accepts_peek s ts); [done|done|]. intros s' HL'. rewrite Hh. apply wpo_ret. eauto.
  - apply Forall_cons in HR as [[Ho Hw] HR]. cbn [parseredirs]. cbn [map concat rtoks app] in HL.
    apply (accepts_peek _ _ _ _ _ HL); [done|]. intros s1 H1.
    replace (heads _ _) with true by (cbn [heads]; destruct Ho as [->|[->| ->]]; reflexivity).
    apply (accepts_token _ _ _ _ _ H1). intros s2 q1 eq1 H2 _. apply (accepts_token _ _ _ _ _ H2). intros s3 q2 eq2 H3 Hb. cbn [code negb Z.eqb Pos.eqb].
    cbn [bounds] in Hb. eapply wpo_mono; [apply (IH fuel _ (sredir sc r)); [exact H3|done|done|by apply shape_redir]|]. done.
Qed.

Lemma like_add c sc rs args q eq w : like c (fold_left sredir rs (SExec args)) -> sc = fold_left sredir rs (SExec (args ++ [w])) ->
  spells q eq w -> like (add_arg c q eq) sc.
Proof.
  intros H -> HP. revert c H. induction rs as [|r rs IH] using rev_ind; intros c H.
  - destruct c; cbn in H; try done. cbn. apply Forall2_app; [done|by constructor].
  - rewrite fold_left_app in *. cbn [fold_left] in *. unfold sredir at 1 in H. unfold sredir at 1.
    destruct (rop r =? 60); destruct c; cbn in H |- *; try done; destruct H as (H & H2); split; auto.
Qed.

Lemma args_of_app a c : args_of (a ++ c) = args_of a ++ args_of c.
Proof. apply omap_app. Qed.

Lemma redirs_of_app a c : redirs_of (a ++ c) = redirs_of a ++ redirs_of c.
Proof. apply omap_app. Qed.

(** A list of parts is its leading redirections, and then arguments with
    the redirections that follow each. *)
Lemma leading_redirs ps : exists rs ps', ps = map Red rs ++ ps' /\ (ps' = [] \/ exists w ps2, ps' = Arg w :: ps2).
Proof.
  induction ps as [|[w|r] ps (rs & ps' & -> & H)]; [exists [], []; auto|exists [], (Arg w :: map Red rs ++ ps'); eauto|by exists (r :: rs), ps'].
Qed.

Lemma parts_red rs : concat (map ptoks (map Red rs)) = concat (map rtoks rs) /\ args_of (map Red rs) = [] /\ redirs_of (map Red rs) = rs.
Proof. induction rs as [|r rs (E1 & E2 & E3)]; [done|]. cbn. rewrite E1. split_and!; [done|done|]. by f_equal. Qed.

(** What may follow a command: end of text, |, ), & or ;. *)
Definition stops (set : list Z) (ts : list tok) : Prop := ts = [] \/ heads set ts = true.

Lemma stops_not set set' ts : stops set ts -> (forall c, strchr set c = true -> strchr set' c = false) -> heads set' ts = false.
Proof. intros [->|H] HS; [done|]. destruct ts as [|[w|c] ts]; [done|done|]. cbn in *. by apply HS. Qed.

Abbreviation ctree pre := (fold_left sredir (redirs_of pre) (SExec (args_of pre))).
Abbreviation result P ts := (fun c t => exists s', t = at_ s' /\ lexes s' ts /\ like c P).

Lemma end_set c : strchr (codes "|)&;") c = true -> strchr (codes "<>") c = false.
Proof. unfold strchr. eval_codes. cbn. lia. Qed.

Lemma accepts_args fuel : forall ps pre c s ts,
  (ps = [] \/ exists w ps2, ps = Arg w :: ps2) -> lexes s (concat (map ptoks ps) ++ ts) -> Forall part_ok ps ->
  stops (codes "|)&;") ts -> like c (ctree pre) -> Z.of_nat (length (args_of (pre ++ ps))) < MAXARGS ->
  accepts (parseargs fuel c (Z.of_nat (length (args_of pre))) es) s (result (ctree (pre ++ ps)) ts).
Proof.
  assert (SS : symset (codes "|)&;")) by (repeat constructor).
  induction fuel as [|fuel IH]; intros ps pre c s ts Hps HL HP Hst Hc Hn; [by apply wpo_blocked|]. cbn [parseargs].
  destruct Hps as [->|(w & ps2 & ->)].
  - rewrite app_nil_r. cbn [map concat app] in HL. apply (accepts_peek s ts); [done|done|]. intros s1 H1. destruct Hst as [->|Hst].
    + cbn [heads]. apply (accepts_end _ _ _ H1). intros s2 q eq H2. apply wpo_ret. eauto.
    + rewrite Hst. apply wpo_ret. eauto.
  - apply Forall_cons in HP as [Hw HP]. cbn [map concat app ptoks] in HL.
    apply (accepts_peek _ _ _ _ _ HL); [done|]. intros s1 H1. cbn [heads]. apply (accepts_token _ _ _ _ _ H1). intros s2 q eq H2 Hb. cbn [code bounds] in *.
    rewrite args_of_app, length_app in Hn. change (args_of (Arg w :: ps2)) with (w :: args_of ps2) in Hn. cbn [length] in Hn.
    destruct (leading_redirs ps2) as (rs & ps3 & -> & Hps3). destruct (parts_red rs) as (E1 & E2 & E3).
    rewrite map_app, concat_app, E1, <- app_assoc in H2. apply Forall_app in HP as [HP1 HP2].
    cbn [Z.eqb Pos.eqb negb]. apply wpo_bind_wp, wp_require; [lia|].
    destruct (Z.of_nat (length (args_of pre)) + 1 >=? MAXARGS) eqn:Em; [lia|].
    assert (Hh : heads (codes "<>") (concat (map ptoks ps3) ++ ts) = false).
    { destruct Hps3 as [->|(w3 & ps4 & ->)]; [|done]. by eapply stops_not; [exact Hst|apply end_set]. }
    apply wpo_bind. eapply wpo_mono; [apply (accepts_redirs rs fuel _ (fold_left sredir (redirs_of pre) (SExec (args_of pre ++ [w])))); [exact H2| |done|]|].
    + clear -HP1. induction rs; [constructor|]. apply Forall_cons in HP1 as [? ?]. constructor; auto.
    + by eapply like_add; [exact Hc| |done].
    + intros c' t (s3 & -> & H3 & Hc'). assert (Ep : pre ++ Arg w :: map Red rs ++ ps3 = (pre ++ Arg w :: map Red rs) ++ ps3) by (by rewrite <- app_assoc).
      assert (Ea : args_of (pre ++ Arg w :: map Red rs) = args_of pre ++ [w]).
      { rewrite args_of_app. change (Arg w :: map Red rs) with ([Arg w] ++ map Red rs). by rewrite args_of_app, E2. }
      assert (Er : redirs_of (pre ++ Arg w :: map Red rs) = redirs_of pre ++ rs).
      { rewrite redirs_of_app. change (Arg w :: map Red rs) with ([Arg w] ++ map Red rs). by rewrite redirs_of_app, E3. }
      rewrite Ep. pose proof (IH ps3 (pre ++ Arg w :: map Red rs) c' s3 ts Hps3 H3 HP2 Hst) as G. rewrite !Ea, !Er in G.
      replace (Z.of_nat (length (args_of pre)) + 1) with (Z.of_nat (length (args_of pre ++ [w]))) by (rewrite length_app; cbn; lia).
      apply G; [|].
      * by rewrite fold_left_app.
      * rewrite args_of_app, Ea, length_app, length_app. cbn. rewrite args_of_app, E2 in Hn. cbn in Hn. lia.
Qed.

Lemma stops_weaken set set' ts : stops set ts -> (forall c, strchr set c = true -> strchr set' c = true) -> stops set' ts.
Proof. intros [->|H] HS; [by left|right]. destruct ts as [|[w|c] ts]; [done|done|]. cbn in *. by apply HS. Qed.

Ltac charset := let c := fresh "c" in intros c; unfold strchr; eval_codes; cbn; lia.

Lemma accepts_back n : forall fuel c sc s ts, lexes s (repeat (TSym 38) n ++ ts) -> heads (codes "&") ts = false -> like c sc ->
  accepts (parseback fuel c es) s (result (Nat.iter n SBack sc) ts).
Proof.
  assert (SS : symset (codes "&")) by (repeat constructor).
  induction n as [|n IH]; intros [|fuel] c sc s ts HL Hh Hc; try by apply wpo_blocked.
  - cbn [parseback]. apply (accepts_peek _ _ _ _ _ HL); [done|]. intros s' HL'. cbn [repeat app]. rewrite Hh. apply wpo_ret. eauto.
  - cbn [parseback]. cbn [repeat app] in HL. apply (accepts_peek _ _ _ _ _ HL); [done|]. intros s1 H1. cbn [heads]. change (strchr _ _) with true. cbv iota.
    apply (accepts_token _ _ _ _ _ H1). intros s2 q eq H2 _. rewrite Nat.iter_succ_r. by apply IH.
Qed.

Lemma stops_amps n ts set : stops (codes ")&;") ts -> stops (codes ")&;") (repeat (TSym 38) n ++ ts) /\ (set = codes "|" -> heads set (repeat (TSym 38) n ++ ts) = false).
Proof.
  intros H. split.
  - destruct n; [done|]. by right.
  - intros ->. destruct n; [|done]. by eapply stops_not; [exact H|charset].
Qed.

Lemma accepts_cmd parts fuel s ts : lexes s (concat (map ptoks parts) ++ ts) -> Forall part_ok parts ->
  Z.of_nat (length (args_of parts)) < MAXARGS -> stops (codes "|)&;") ts ->
  accepts (let! c := parseredirs fuel execcmd es in parseargs fuel c 0 es) s (result (ctree parts) ts).
Proof.
  intros HL HP Hn Hst. destruct (leading_redirs parts) as (rs & ps & -> & Hps). destruct (parts_red rs) as (E1 & E2 & E3).
  rewrite map_app, concat_app, E1, <- app_assoc in HL. apply Forall_app in HP as [HP1 HP2].
  apply wpo_bind. eapply wpo_mono; [apply (accepts_redirs rs fuel _ (SExec [])); [exact HL| | |constructor]|].
  - clear -HP1. induction rs; [constructor|]. apply Forall_cons in HP1 as [? ?]. constructor; auto.
  - destruct Hps as [->|(w3 & ps4 & ->)]; [|done]. by eapply stops_not; [exact Hst|apply end_set].
  - intros c t (s1 & -> & H1 & Hc). pose proof (accepts_args fuel ps (map Red rs) c s1 ts Hps H1 HP2 Hst) as G. rewrite E2, E3 in G. by apply G.
Qed.

Lemma block_first e ts : exec_ok e -> stops (codes "|)&;") ts ->
  heads (codes "(") (xtoks e ++ ts) = match e with XBlock _ _ => true | XCmd _ => false end.
Proof.
  destruct e as [l rs|parts]; [done|]. intros [HP _] Hst. cbn [xtoks]. destruct parts as [|[w|r] parts]; [|done|].
  - by eapply stops_not; [exact Hst|charset].
  - apply Forall_cons in HP as [[[E|[E|E]] _] _]; cbn; rewrite E; done.
Qed.

Lemma accepts_syntax :
  (forall l fuel s ts, lexes s (ltoks l ++ ts) -> line_ok l -> stops (codes ")") ts -> accepts (parseline fuel es) s (result (stree l) ts)) /\
  (forall p fuel s ts, lexes s (pptoks p ++ ts) -> pipe_ok p -> stops (codes ")&;") ts -> accepts (parsepipe fuel es) s (result (spipe p) ts)) /\
  (forall e fuel s ts, lexes s (xtoks e ++ ts) -> exec_ok e -> stops (codes "|)&;") ts -> accepts (parseexec fuel es) s (result (sexec e) ts)).
Proof.
  assert (S1 : symset (codes ";")) by (repeat constructor). assert (S2 : symset (codes "|")) by (repeat constructor).
  assert (S3 : symset (codes "(")) by (repeat constructor). assert (S4 : symset (codes ")")) by (repeat constructor).
  apply syntax_ind.
  - intros p IHp n [|fuel] s ts HL Hok Hst; [by apply wpo_blocked|]. cbn [parseline ltoks stree line_ok] in *. rewrite <- app_assoc in HL.
    assert (Hst2 : stops (codes ")&;") ts) by (eapply stops_weaken; [exact Hst|charset]).
    apply wpo_bind. eapply wpo_mono; [apply (IHp fuel _ _ HL Hok); by apply (stops_amps n ts [])|]. intros c t (s1 & -> & H1 & Hc).
    apply wpo_bind. eapply wpo_mono; [apply (accepts_back n fuel c (spipe p) s1 ts H1); [|done]|].
    { by eapply stops_not; [exact Hst|charset]. }
    intros c' t (s2 & -> & H2 & Hc'). apply (accepts_peek _ _ _ _ _ H2); [done|]. intros s3 H3.
    replace (heads (codes ";") ts) with false by (symmetry; eapply stops_not; [exact Hst|charset]). apply wpo_ret. eauto.
  - intros p IHp n l IHl [|fuel] s ts HL [Hok1 Hok2] Hst; [by apply wpo_blocked|]. cbn [parseline ltoks stree] in *. rewrite <- !app_assoc in HL. cbn [app] in HL.
    assert (Hst2 : stops (codes ")&;") (TSym 59 :: ltoks l ++ ts)) by (by right).
    apply wpo_bind. eapply wpo_mono; [apply (IHp fuel _ _ HL Hok1); by apply (stops_amps n _ [])|]. intros c t (s1 & -> & H1 & Hc).
    apply wpo_bind. eapply wpo_mono; [apply (accepts_back n fuel c (spipe p) s1 _ H1); done|]. intros c' t (s2 & -> & H2 & Hc').
    apply (accepts_peek _ _ _ _ _ H2); [done|]. intros s3 H3. cbn [heads]. change (strchr _ _) with true. cbv iota.
    apply (accepts_token _ _ _ _ _ H3). intros s4 q eq H4 _. apply wpo_bind. eapply wpo_mono; [by apply (IHl fuel _ _ H4)|].
    intros r t (s5 & -> & H5 & Hr). apply wpo_ret. exists s5. done.
  - intros e IHe [|fuel] s ts HL Hok Hst; [by apply wpo_blocked|]. cbn [parsepipe pptoks spipe pipe_ok] in *.
    apply wpo_bind. eapply wpo_mono; [apply (IHe fuel _ _ HL Hok); eapply stops_weaken; [exact Hst|charset]|]. intros c t (s1 & -> & H1 & Hc).
    apply (accepts_peek _ _ _ _ _ H1); [done|]. intros s3 H3. replace (heads (codes "|") ts) with false by (symmetry; eapply stops_not; [exact Hst|charset]).
    apply wpo_ret. eauto.
  - intros e IHe p IHp [|fuel] s ts HL [Hok1 Hok2] Hst; [by apply wpo_blocked|]. cbn [parsepipe pptoks spipe] in *. rewrite <- app_assoc in HL. cbn [app] in HL.
    apply wpo_bind. eapply wpo_mono; [apply (IHe fuel _ _ HL Hok1); by right|]. intros c t (s1 & -> & H1 & Hc).
    apply (accepts_peek _ _ _ _ _ H1); [done|]. intros s3 H3. cbn [heads]. change (strchr _ _) with true. cbv iota.
    apply (accepts_token _ _ _ _ _ H3). intros s4 q eq H4 _. apply wpo_bind. eapply wpo_mono; [by apply (IHp fuel _ _ H4)|].
    intros r t (s5 & -> & H5 & Hr). apply wpo_ret. exists s5. done.
  - intros l IHl rs [|fuel] s ts HL Hok Hst; [by apply wpo_blocked|]. cbn [parseexec]. apply (accepts_peek _ _ _ _ _ HL); [done|].
    intros s1 H1. rewrite block_first by done. destruct fuel as [|fuel]; [by apply wpo_blocked|]. destruct Hok as [Hok1 Hok2]. cbn [parseblock xtoks sexec app] in *.
    rewrite <- app_assoc in H1. cbn [app] in H1. apply (accepts_peek _ _ _ _ _ H1); [done|]. intros s2 H2. cbn [heads]. change (strchr _ _) with true. cbn [negb].
    apply (accepts_token _ _ _ _ _ H2). intros s3 q eq H3 _. apply wpo_bind. eapply wpo_mono; [apply (IHl fuel _ _ H3); [done|by right]|].
    intros c t (s4 & -> & H4 & Hc). apply (accepts_peek _ _ _ _ _ H4); [done|]. intros s5 H5. cbn [heads]. change (strchr _ _) with true. cbn [negb].
    apply (accepts_token _ _ _ _ _ H5). intros s6 q2 eq2 H6 _. apply (accepts_redirs rs fuel c (stree l) s6 ts H6); [done| |done].
    by eapply stops_not; [exact Hst|charset].
  - intros parts [|fuel] s ts HL Hok Hst; [by apply wpo_blocked|]. cbn [parseexec]. apply (accepts_peek _ _ _ _ _ HL); [done|]. intros s1 H1.
    rewrite block_first by done. destruct Hok. by apply accepts_cmd.
Qed.
End Accept.
