(* ===== verification/ShThm.v ===== *)
(** The shell's parser as a whole: termination on every line, and the round
    trip from a syntax tree to text and back. *)

From Stdlib Require Import ZArith Lia.
From stdpp Require Import base gmap strings numbers list.
From S2P Require Import Prelude Kstring Sh ShSpec.

Open Scope Z_scope.
Open Scope kern_scope.

(** ** Text of a line *)

Lemma strlen_text l : 0 ∈ l -> text l (strlen l).
Proof.
  induction l as [|c l IH]; intros H; [by apply elem_of_nil in H|]. cbn [strlen]. destruct (Z.eqb_spec c 0) as [->|Hc].
  - constructor; [done|cbn; lia|done|intros; lia].
  - rewrite elem_of_cons in H. destruct H as [<-|H]; [done|]. destruct (IH H) as [H1 H2 H3 H4].
    assert (Es : forall i, 0 <= i -> aget 0 (c :: l) (1 + i) = aget 0 l i).
    { intros i Hi. unfold aget. replace (1 + i <? 0) with false by lia. replace (i <? 0) with false by lia. by replace (Z.to_nat (1 + i)) with (S (Z.to_nat i)) by lia. }
    constructor; [lia|cbn; lia|by rewrite Es|]. intros i Hi. destruct (decide (i = 0)) as [->|]; [done|].
    replace i with (1 + (i - 1)) by lia. rewrite Es by lia. apply H4. lia.
Qed.

(** Both modalities together: the parser returns. *)
Lemma wpo_both {A} (m : M sh A) t P Q : wpo True False m t P -> wpo False True m t Q -> wp m t (fun a t' => P a t' /\ Q a t').
Proof. unfold wpo, wp. by destruct (m t). Qed.

Section Line.
Context (b : list Z) (es : Z) (TX : text b es).

(** The end of parsecmd(), once the line is parsed. *)
Lemma wp_finish c s (Q : cmd -> sh -> Prop) : 0 <= s <= es -> words_ok b es c -> next b es s = es ->
  (forall t, Forall (terminated b (line t)) (words c) -> length (line t) = length b -> Q c t) ->
  wp (peek es [] ;;; let! s := gets ps in if negb (s =? es) then syntax "syntax" else nulterminate c ;;; ret c) (mk_sh b s) Q.
Proof.
  intros Hs HW Hn HQ. apply wp_bind, (wp_peek b es TX); [done|]. apply wp_bind, wp_gets. cbn [ps]. rewrite Hn, Z.eqb_refl. cbn [negb].
  apply wp_bind, (wp_nulterminate b es TX c _ []); [apply cut_nil|done|]. intros t HC. apply wp_ret, HQ; [|apply HC].
  by eapply cut_terminated.
Qed.

Lemma safe_parsecmd fuel : strlen b = es -> 4 * es + 4 <= Z.of_nat fuel ->
  wpo True False (parsecmd fuel) (mk_sh b 0) (fun c t => words_ok b es c /\ Forall (terminated b (line t)) (words c)).
Proof.
  intros Ees Hf. pose proof (tx_es _ _ TX). unfold parsecmd. do 2 (apply wpo_bind_wp, wp_gets). cbn [line ps]. rewrite drop_0, Ees, Z.add_0_l.
  apply wpo_bind. eapply wpo_mono; [apply (safe_parse b es TX fuel 0); lia|]. intros c t (s & -> & Hs & HW).
  destruct (decide (next b es s = es)) as [Hn|Hn].
  - apply wpo_wp, wp_finish; [lia|done|done|]. auto.
  - apply wpo_bind_wp, (wp_peek b es TX); [lia|]. apply wpo_bind_wp, wp_gets. cbn [ps]. replace (next b es s =? es) with false by lia. by apply wpo_syntax.
Qed.

Lemma wp_parsecmd fuel l : strlen b = es -> 4 * es + 4 <= Z.of_nat fuel -> lexes b es 0 (ltoks l) -> line_ok l ->
  wp (parsecmd fuel) (mk_sh b 0) (fun c t => words_ok b es c /\ Forall (terminated b (line t)) (words c) /\
    length (line t) = length b /\ shape (spells b) c (stree l)).
Proof.
  intros Ees Hf HL Hok. pose proof (tx_es _ _ TX). unfold parsecmd. do 2 (apply wp_bind, wp_gets). cbn [line ps]. rewrite drop_0, Ees, Z.add_0_l.
  apply wp_bind. rewrite <- (app_nil_r (ltoks l)) in HL.
  eapply wp_mono; [apply wpo_both; [apply (safe_parse b es TX fuel 0); lia|apply (accepts_syntax b es TX); [exact HL|done|by left]]|].
  intros c t [(s & -> & Hs & HW) (s' & [= <-] & HL' & HS)]. assert (Hn : next b es s = es) by (by inversion HL').
  apply wp_finish; [lia|done|done|]. auto.
Qed.
End Line.

(** The string [w] at index [q] of [l], with its NUL. *)
Definition reads (l : list Z) (q : Z) (w : list Z) : Prop :=
  take (length w) (drop (Z.to_nat q) l) = w /\ aget 0 l (q + Z.of_nat (length w)) = 0.

Lemma shape_impl P P' c sc : shape P c sc -> (forall w s, w ∈ words c -> P w.1 w.2 s -> P' w.1 w.2 s) -> shape P' c sc.
Proof.
  revert sc. induction c as [argv|c IH f ef m fd|l IHl r IHr|l IHl r IHr|c IH]; intros [args|sc file m' fd'|l' r'|l' r'|sc] H HP; cbn [shape words] in *; try done.
  - induction H as [|w a argv args H1 H2 IH]; constructor; [apply HP; [by left|done]|]. apply IH. intros w' s Hw. apply HP. by right.
  - destruct H as (H1 & H2 & H3). split; [|split; [|done]].
    + apply IH; [done|]. intros w s Hw. apply HP. rewrite elem_of_app. auto.
    + apply (HP (f, ef)); [rewrite elem_of_app, list_elem_of_singleton; auto|done].
  - destruct H. split; [apply IHl|apply IHr]; try done; intros w s Hw; apply HP; rewrite elem_of_app; auto.
  - destruct H. split; [apply IHl|apply IHr]; try done; intros w s Hw; apply HP; rewrite elem_of_app; auto.
  - by apply IH.
Qed.

Lemma take_drop_aget (l l' : list Z) q n : 0 <= q -> (Z.to_nat q + n <= length l)%nat -> (Z.to_nat q + n <= length l')%nat ->
  (forall i, q <= i < q + Z.of_nat n -> aget 0 l i = aget 0 l' i) -> take n (drop (Z.to_nat q) l) = take n (drop (Z.to_nat q) l').
Proof.
  intros Hq H1 H2 H. apply (aget_ext 0); [rewrite !length_take, !length_drop; lia|]. intros i Hi. rewrite length_take, length_drop in Hi.
  assert (E : forall l0 : list Z, (Z.to_nat q + n <= length l0)%nat -> aget 0 (take n (drop (Z.to_nat q) l0)) i = aget 0 l0 (q + i)).
  { intros l0 H0. unfold aget. replace (i <? 0) with false by lia. replace (q + i <? 0) with false by lia.
    rewrite !nth_lookup, lookup_take_lt, lookup_drop by lia. do 2 f_equal. lia. }
  rewrite !E by done. apply H. lia.
Qed.

Lemma word_reads b l q eq w : terminated b l (q, eq) -> length l = length b -> eq < Z.of_nat (length b) -> spells b q eq w -> reads l q w.
Proof.
  intros [H1 H2] HL He [Hq Hw]. cbn [fst snd] in *. assert (Ew : Z.of_nat (length w) = eq - q) by (rewrite <- Hw, length_take, length_drop; lia).
  split; [|by replace (q + Z.of_nat (length w)) with eq by lia].
  rewrite <- Hw at 2. replace (Z.to_nat (eq - q)) with (length w) by lia. apply take_drop_aget; [lia|lia|lia|]. intros i Hi. apply H2. lia.
Qed.

(** ** Printing *)

Definition tok_text (t : tok) : list Z :=
  match t with TWord w => w | TSym c => if c =? 43 then [62; 62] else [c] end.
Definition render (ts : list tok) : list Z := concat (map (fun t => tok_text t ++ [32]) ts).

Definition tok_ok (t : tok) : Prop :=
  match t with
  | TWord w => word_ok w
  | TSym c => c ∈ codes "|();&<" \/ c = 62 \/ c = 43
  end.

Section Render.
Context (b : list Z) (es : Z) (TX : text b es).

Lemma skip_exact p s e : 0 <= s <= e -> e <= es -> (forall i, s <= i < e -> p (aget 0 b i) = true) ->
  (e = es \/ p (aget 0 b e) = false) -> skip p b es s = e.
Proof.
  intros H1 H2 H3 H4. destruct (skip_spec p b es s ltac:(lia)) as (S1 & S2 & S3). cbn zeta in *.
  destruct (Z.lt_trichotomy (skip p b es s) e) as [H|[H|H]]; [|done|].
  - rewrite H3 in S2 by lia. specialize (S2 ltac:(lia)). done.
  - destruct H4 as [->|H4]; [lia|]. rewrite S3 in H4 by lia. done.
Qed.

Lemma lexes_space s ts : 0 <= s < es -> is_space (aget 0 b s) = true -> lexes b es (s + 1) ts -> lexes b es s ts.
Proof.
  intros Hs Hsp H. assert (E : next b es s = next b es (s + 1)).
  { destruct (skip_spec is_space b es (s + 1) ltac:(lia)) as (S1 & S2 & S3). apply skip_exact; [unfold next; lia|unfold next; lia| |].
    - intros i Hi. destruct (decide (i = s)) as [->|]; [done|]. apply S3. unfold next in Hi. lia.
    - destruct (decide (next b es (s + 1) = es)); [by left|right]. apply S2. unfold next in *. lia. }
  inversion H as [? Hr En|? t ts' Hr En HL]; subst.
  - constructor; [lia|by rewrite E].
  - constructor; [lia|by rewrite E|by rewrite E].
Qed.

(** The token [t] followed by a space, at [s]. *)
Lemma lex_one s t ts : 0 <= s -> s + Z.of_nat (length (tok_text t)) < es -> tok_ok t ->
  (forall i, 0 <= i < Z.of_nat (length (tok_text t)) -> aget 0 b (s + i) = aget 0 (tok_text t) i) ->
  take (length (tok_text t)) (drop (Z.to_nat s) b) = tok_text t ->
  aget 0 b (s + Z.of_nat (length (tok_text t))) = 32 ->
  lexes b es (s + Z.of_nat (length (tok_text t)) + 1) ts -> lexes b es s (t :: ts).
Proof.
  intros Hs He Ht Hc Htk Hsp HL. assert (Hn : is_space (aget 0 b s) = false -> next b es s = s).
  { intros H. apply skip_exact; [lia|lia|intros; lia|by right]. }
  apply lexes_space in HL; [|lia|by rewrite Hsp]. destruct t as [w|c]; cbn [tok_text tok_ok] in *.
  - destruct Ht as [Hne Hw]. assert (Hall : forall i, s <= i < s + Z.of_nat (length w) -> aget 0 b i <> 0 /\ is_word (aget 0 b i) = true).
    { intros i Hi. replace i with (s + (i - s)) by lia. rewrite Hc by lia. unfold aget. replace (_ <? 0) with false by lia.
      rewrite Forall_forall in Hw. apply Hw, list_elem_of_In, nth_In. lia. }
    assert (0 < Z.of_nat (length w)) by (destruct w; [done|cbn; lia]). destruct (Hall s ltac:(lia)) as [H0 H1].
    assert (Hs1 : is_space (aget 0 b s) = false) by (unfold is_word in H1; unfold is_space; by apply andb_true_iff in H1 as [?%negb_true_iff _]).
    assert (ET : token b es s = (97, s + Z.of_nat (length w))).
    { unfold token. replace (aget 0 b s =? 0) with false by lia. assert (Hsym : strchr symbols (aget 0 b s) = false) by (unfold is_word in H1; by apply andb_true_iff in H1 as [_ ?%negb_true_iff]).
      revert Hsym. unfold strchr, symbols. eval_codes. cbn [existsb]. intros Hsym. replace (_ || _) with false by lia. replace (aget 0 b s =? 62) with false by lia. f_equal.
      apply skip_exact; [lia|lia|by intros; apply Hall|right; by rewrite Hsp]. }
    constructor; [lia|rewrite Hn by done; cbn; rewrite ET|by rewrite Hn, ET by done]. split; [done|]. split; [cbn; lia|]. cbn [snd].
    by replace (Z.to_nat (s + Z.of_nat (length w) - s)) with (length w) by lia.
  - assert (Hlt : s < es) by (destruct (c =? 43); cbn in He; lia).
    assert (ET : is_space (aget 0 b s) = false /\ token b es s = (c, s + Z.of_nat (length (tok_text (TSym c))))).
    { cbn [tok_text]. destruct (Z.eqb_spec c 43) as [->|Hc43]; cbn [length] in *.
      - pose proof (Hc 0 ltac:(lia)) as C0. pose proof (Hc 1 ltac:(lia)) as C1. rewrite Z.add_0_r in C0. unfold token. rewrite C0, C1. done.
      - pose proof (Hc 0 ltac:(lia)) as C0. rewrite Z.add_0_r in C0. cbn in C0. unfold token. rewrite C0.
        destruct Ht as [Ht|[->|?]]; [| |done].
        + revert Ht. eval_codes. intros Ht. repeat (apply elem_of_cons in Ht as [->|Ht]; [done|]). by apply elem_of_nil in Ht.
        + cbn. replace (aget 0 b (s + 1)) with 32 by (rewrite <- Hsp; f_equal; lia). done. }
    destruct ET as [Hs1 ET]. constructor; [lia|rewrite Hn by done; cbn [tok_at]; rewrite ET|by rewrite Hn, ET by done]. cbn [fst]. split; [done|].
    destruct Ht as [Ht|[->| ->]]; [|done|done]. revert Ht. eval_codes. intros Ht. repeat (apply elem_of_cons in Ht as [->|Ht]; [done|]). by apply elem_of_nil in Ht.
Qed.

Lemma lex_render ts : forall pre, b = pre ++ render ts ++ [0] -> es = Z.of_nat (length b) - 1 -> Forall tok_ok ts ->
  lexes b es (Z.of_nat (length pre)) ts.
Proof.
  induction ts as [|t ts IH]; intros pre Eb Ees Ht.
  - cbn in Eb. assert (E : Z.of_nat (length pre) = es) by (rewrite Ees, Eb, length_app; cbn; lia). rewrite E. pose proof (tx_es _ _ TX).
    destruct (next_spec b es TX es); [lia|]. constructor; lia.
  - apply Forall_cons in Ht as [Ht1 Ht2]. change (render (t :: ts)) with ((tok_text t ++ [32]) ++ render ts) in Eb. rewrite <- !app_assoc in Eb.
    assert (El : length b = (length pre + (length (tok_text t) + (1 + (length (render ts) + 1))))%nat) by (rewrite Eb, !length_app; done).
    apply lex_one; [lia|lia|done| | | |].
    + intros i Hi. rewrite Eb, aget_app by lia. replace (_ <? _) with false by lia. replace (Z.of_nat (length pre) + i - Z.of_nat (length pre)) with i by lia.
      rewrite aget_app by lia. by replace (_ <? _) with true by lia.
    + rewrite Eb, Nat2Z.id, drop_app_length, take_app_length. done.
    + rewrite Eb, aget_app by lia. replace (_ <? _) with false by lia. replace (_ + _ - _) with (Z.of_nat (length (tok_text t))) by lia.
      rewrite aget_app by lia. by rewrite Z.ltb_irrefl, Z.sub_diag.
    + replace (Z.of_nat (length pre) + Z.of_nat (length (tok_text t)) + 1) with (Z.of_nat (length (pre ++ tok_text t ++ [32]))) by (rewrite !length_app; cbn; lia).
      apply IH; [|done|done]. by rewrite Eb, <- !app_assoc.
Qed.
End Render.

Ltac sym_ok := left; eval_codes; repeat (apply elem_of_cons; first [by left|right]).

Lemma redirs_toks rs : Forall redir_ok rs -> Forall tok_ok (concat (map rtoks rs)).
Proof.
  induction 1 as [|r rs [Ho Hw] Hrs IH]; [constructor|]. cbn. constructor; [|constructor; [done|done]].
  destruct Ho as [E|[E|E]]; cbn; rewrite E; [sym_ok|right; by left|right; by right].
Qed.

Lemma parts_toks ps : Forall part_ok ps -> Forall tok_ok (concat (map ptoks ps)).
Proof.
  induction 1 as [|[w|r] ps Hp Hps IH]; [constructor|by constructor|]. cbn [map concat ptoks]. apply Forall_app. split; [|done].
  rewrite <- (app_nil_r (rtoks r)). change (rtoks r ++ []) with (concat (map rtoks [r])). apply redirs_toks. constructor; [done|constructor].
Qed.

Lemma amps_toks n : Forall tok_ok (repeat (TSym 38) n).
Proof. induction n; constructor; [sym_ok|done]. Qed.

Lemma syntax_toks :
  (forall l, line_ok l -> Forall tok_ok (ltoks l)) /\ (forall p, pipe_ok p -> Forall tok_ok (pptoks p)) /\
  (forall e, exec_ok e -> Forall tok_ok (xtoks e)).
Proof.
  apply syntax_ind.
  - intros p IH n H. apply Forall_app. split; [by apply IH|apply amps_toks].
  - intros p IH n l IHl [H1 H2]. apply Forall_app. split; [by apply IH|]. apply Forall_app. split; [apply amps_toks|].
    constructor; [sym_ok|by apply IHl].
  - intros e IH H. by apply IH.
  - intros e IH p IHp [H1 H2]. apply Forall_app. split; [by apply IH|]. constructor; [sym_ok|by apply IHp].
  - intros l IH rs [H1 H2]. constructor; [sym_ok|]. apply Forall_app. split; [by apply IH|]. constructor; [sym_ok|by apply redirs_toks].
  - intros ps [H _]. by apply parts_toks.
Qed.

Lemma render_nonzero ts : Forall tok_ok ts -> Forall (fun c => c <> 0) (render ts).
Proof.
  induction 1 as [|t ts Ht Hts IH]; [constructor|]. unfold render. cbn [map concat]. apply Forall_app. split; [|done]. apply Forall_app.
  split; [|constructor; [done|constructor]]. destruct t as [w|c]; cbn in *.
  - destruct Ht as [_ Hw]. eapply Forall_impl; [exact Hw|]. intros ? [? _]. done.
  - destruct (Z.eqb_spec c 43); [repeat (constructor; [done|]); constructor|]. constructor; [|constructor]. intros ->. destruct Ht as [Ht|[?|?]]; [|done|done].
    revert Ht. eval_codes. intros Ht. repeat (apply elem_of_cons in Ht as [?|Ht]; [done|]). by apply elem_of_nil in Ht.
Qed.

Lemma strlen_nul l : Forall (fun c => c <> 0) l -> strlen (l ++ [0]) = Z.of_nat (length l).
Proof. induction 1 as [|c l Hc Hl IH]; [done|]. cbn [app strlen length]. replace (c =? 0) with false by lia. lia. Qed.

(** ** Theorems *)

(** C36: The shell's parser terminates on every line: with fuel for four
    calls per character it either reports a syntax error or returns a
    command, never runs past the line or past argv, and nulterminate()
    leaves every argument and file name of the command a NUL-terminated
    copy of a whole word of the line. *)
Theorem parsecmd_terminates b fuel : 0 ∈ b -> 4 * strlen b + 4 <= Z.of_nat fuel ->
  match parsecmd fuel (mk_sh b 0) with
  | Ok c t => Forall (fun w => word b (strlen b) w.1 w.2 /\ terminated b (line t) w) (words c)
  | Panic _ => True
  | Undef _ | Blocked _ => False
  end.
Proof.
  intros Hb Hf. pose proof (safe_parsecmd b (strlen b) (strlen_text b Hb) fuel eq_refl Hf) as H. unfold wpo in H.
  destruct (parsecmd fuel (mk_sh b 0)) as [c t| | |]; [|done..]. destruct H as [HW HT]. by apply Forall_and.
Qed.

(** C11: Print and parse: the text of any syntax tree of the shell's grammar
    (lists, background, pipelines, blocks, redirections and up to nine
    arguments) is accepted, with fuel for four calls per character, and the
    command that results is the tree's: same structure, same words, same files
    and modes. *)
Theorem parse_print l fuel : line_ok l -> let b := render (ltoks l) ++ [0] in 4 * strlen b + 4 <= Z.of_nat fuel ->
  exists c t, parsecmd fuel (mk_sh b 0) = Ok c t /\ shape (fun q _ w => reads (line t) q w) c (stree l).
Proof.
  intros Hok b Hf. destruct syntax_toks as (HT & _). specialize (HT l Hok). pose proof (render_nonzero _ HT) as Hnz.
  assert (TX : text b (strlen b)) by (apply strlen_text; unfold b; rewrite elem_of_app, list_elem_of_singleton; auto).
  assert (HL : lexes b (strlen b) 0 (ltoks l)).
  { apply (lex_render b _ TX (ltoks l) []); [done| |done]. unfold b. rewrite strlen_nul by done. rewrite length_app. cbn. lia. }
  destruct (wp_run _ _ _ (wp_parsecmd b (strlen b) TX fuel l eq_refl Hf HL Hok)) as (c & t & E & HW & HTm & Hlen & HS).
  exists c, t. split; [done|]. eapply shape_impl; [exact HS|]. intros [q eq] w Hin Hsp. cbn [fst snd] in *.
  unfold words_ok in HW. rewrite Forall_forall in HW, HTm. pose proof (HTm _ Hin) as Ht. pose proof (HW _ Hin) as (_ & He & _). cbn in He.
  pose proof (tx_len _ _ TX). eapply word_reads; [exact Ht|done|lia|done].
Qed.

Lemma word_okb_ok w : negb (length w =? 0)%nat && forallb (fun c => negb (c =? 0) && is_word c) w = true -> word_ok w.
Proof.
  intros [H1 H2]%andb_true_iff. split; [by intros ->|]. rewrite forallb_forall in H2. rewrite Forall_forall. intros c Hc.
  apply list_elem_of_In, H2 in Hc. apply andb_true_iff in Hc as [Hc%negb_true_iff ?]. split; [lia|done].
Qed.

(** ls | (grep x; wc) > out & *)
Definition demo_line : line_ :=
  LEnd (PSeq (XCmd [Arg (codes "ls")])
          (PEnd (XBlock (LSeq (PEnd (XCmd [Arg (codes "grep"); Arg (codes "x")])) 0 (LEnd (PEnd (XCmd [Arg (codes "wc")])) 0))
                   [mk_redir 62 (codes "out")]))) 1.

Lemma parsecmd_terminates_witness :
  match parsecmd 100 (mk_sh (codes "echo hi > f; (a" ++ [0]) 0) with
  | Ok c t => Forall (fun w => word (codes "echo hi > f; (a" ++ [0]) (strlen (codes "echo hi > f; (a" ++ [0])) w.1 w.2 /\
                               terminated (codes "echo hi > f; (a" ++ [0]) (line t) w) (words c)
  | Panic _ => True
  | Undef _ | Blocked _ => False
  end.
Proof.
  apply (parsecmd_terminates (codes "echo hi > f; (a" ++ [0]) 100).
  - rewrite elem_of_app, list_elem_of_singleton. auto.
  - vm_compute. discriminate.
Defined.

Lemma parse_print_witness :
  exists c t, parsecmd 200 (mk_sh (render (ltoks demo_line) ++ [0]) 0) = Ok c t /\
    shape (fun q _ w => reads (line t) q w) c (stree demo_line).
Proof.
  apply (parse_print demo_line 200).
  - unfold demo_line. cbn [line_ok pipe_ok exec_ok]. split_and!; try done; repeat apply Forall_cons_2; try apply Forall_nil_2; try (by apply word_okb_ok).
    split; [right; by left|by apply word_okb_ok].
  - vm_compute. discriminate.
Defined.
