(* ===== verification/Bio.v ===== *)
(** The buffer cache (bio.c, buf.h) with the sleep locks of its buffers
    (sleeplock.c) over the disk driver of memide.c.

    The state is the array bcache.buf with the list head as its last element,
    the prev and next pointers being indices into it, and the disk: the
    contents of its blocks and, as a record of the past, the sequence of
    writes it has performed.  The sections under the spin lock bcache.lock
    run without interference and are modelled as such.  A process that finds
    a sleep lock taken goes to sleep ([Blocked]). *)

From stdpp Require Import base gmap list strings numbers.
From Stdlib Require Import ZArith Lia.
From S2P Require Import Prelude.

Open Scope Z_scope.
Open Scope kern_scope.

Definition BSIZE : Z := 512.
Definition NBUF : nat := 30.
Definition B_VALID : Z := 0x2.
Definition B_DIRTY : Z := 0x4.
Definition FSSIZE : Z := 1000.

(** ** Sleep locks *)

Record sleeplock : Type := mkSleep { locked : bool; lk_pid : Z }.

Definition initsleeplock : sleeplock := mkSleep false 0.

(** pid is myproc()->pid; None: the caller has to sleep. *)
Definition acquiresleep (pid : Z) (lk : sleeplock) : option sleeplock :=
  if locked lk then None else Some (mkSleep true pid).

Definition releasesleep (lk : sleeplock) : sleeplock := mkSleep false 0.

Definition holdingsleep (pid : Z) (lk : sleeplock) : bool := locked lk && (lk_pid lk =? pid).

(** ** Buffers and the disk *)

Record buf : Type := mkBuf {
  flags : Z;
  bdev : Z;
  blockno : Z;
  block_lock : sleeplock;
  refcnt : Z;
  bprev : nat;
  bnext : nat;
  data : list Z
}.

Definition with_flags (v : Z) (b : buf) : buf :=
  mkBuf v (bdev b) (blockno b) (block_lock b) (refcnt b) (bprev b) (bnext b) (data b).
Definition with_lock (v : sleeplock) (b : buf) : buf :=
  mkBuf (flags b) (bdev b) (blockno b) v (refcnt b) (bprev b) (bnext b) (data b).
Definition with_refcnt (v : Z) (b : buf) : buf :=
  mkBuf (flags b) (bdev b) (blockno b) (block_lock b) v (bprev b) (bnext b) (data b).
Definition with_prev (v : nat) (b : buf) : buf :=
  mkBuf (flags b) (bdev b) (blockno b) (block_lock b) (refcnt b) v (bnext b) (data b).
Definition with_next (v : nat) (b : buf) : buf :=
  mkBuf (flags b) (bdev b) (blockno b) (block_lock b) (refcnt b) (bprev b) v (data b).
Definition with_data (v : list Z) (b : buf) : buf :=
  mkBuf (flags b) (bdev b) (blockno b) (block_lock b) (refcnt b) (bprev b) (bnext b) v.

Record disk : Type := mkDisk {
  blocks : gmap Z (list Z);
  disksize : Z;
  writes : list (Z * list Z)   (* past writes, oldest first *)
}.

Record bio : Type := mkBio { bufs : list buf; dsk : disk }.

Definition zeros (n : Z) : list Z := repeat 0 (Z.to_nat n).

Definition disk_read (d : disk) (bn : Z) : list Z := default (zeros BSIZE) (blocks d !! bn).
Definition disk_write (bn : Z) (v : list Z) (d : disk) : disk :=
  mkDisk (<[bn := v]> (blocks d)) (disksize d) (writes d ++ [(bn, v)]).

Definition no_buf : buf := mkBuf 0 0 0 initsleeplock 0 0 0 (zeros BSIZE).
Definition get_buf (s : bio) (i : nat) : buf := nth i (bufs s) no_buf.
Definition upd_buf (i : nat) (f : buf -> buf) (s : bio) : bio :=
  mkBio (alter f i (bufs s)) (dsk s).
Definition set_disk (d : disk) (s : bio) : bio := mkBio (bufs s) d.

(** &bcache.head *)
Definition head : nat := NBUF.

Definition mod_buf (i : nat) (f : buf -> buf) : M bio unit := modify (upd_buf i f).
Definition buf_of (i : nat) : M bio buf := gets (fun s => get_buf s i).

(** flags & bit *)
Definition has_flag (b : buf) (bit : Z) : bool := negb (Z.land (flags b) bit =? 0).

(** ** binit *)

(** The buffer linked in front of the list: both ends of the two links. *)
Definition link_front (i : nat) : M bio unit :=
  let! h := buf_of head in
  mod_buf i (with_next (bnext h)) ;;;
  mod_buf i (with_prev head) ;;;
  let! h := buf_of head in
  mod_buf (bnext h) (with_prev i) ;;;
  mod_buf head (with_next i).

(** The zeroed array, and binit(). *)
Definition bio_boot (d : disk) : bio := mkBio (repeat no_buf (S NBUF)) d.

Definition binit : M bio unit :=
  mod_buf head (with_prev head) ;;;
  mod_buf head (with_next head) ;;;
  for_up 0 (Z.of_nat NBUF) (fun i =>
    let i := Z.to_nat i in
    let! h := buf_of head in
    mod_buf i (with_next (bnext h)) ;;;
    mod_buf i (with_prev head) ;;;
    mod_buf i (with_lock initsleeplock) ;;;
    let! h := buf_of head in
    mod_buf (bnext h) (with_prev i) ;;;
    mod_buf head (with_next i)).

(** ** The operations, run by the process pid *)

Section Bio.
Variable pid : Z.

Definition acquire_buf (i : nat) : M bio unit :=
  let! b := buf_of i in
  match acquiresleep pid (block_lock b) with
  | Some lk => mod_buf i (with_lock lk)
  | None => blocked
  end.

(** iderw of memide.c: the disk is an array in memory. *)
Definition iderw (i : nat) : M bio unit :=
  let! b := buf_of i in
  if negb (holdingsleep pid (block_lock b)) then panic "iderw: buf not locked"
  else if Z.land (flags b) (Z.lor B_VALID B_DIRTY) =? B_VALID then panic "iderw: nothing to do"
  else if negb (bdev b =? 1) then panic "iderw: request not for disk 1"
  else
    let! size := gets (fun s => disksize (dsk s)) in
    if blockno b >=? size then panic "iderw: block out of range"
    else
      (if has_flag b B_DIRTY then
         mod_buf i (with_flags (Z.land (flags b) (Z.lnot B_DIRTY))) ;;;
         modify (fun s => set_disk (disk_write (blockno b) (data b) (dsk s)) s)
       else
         let! v := gets (fun s => disk_read (dsk s) (blockno b)) in
         mod_buf i (with_data v)) ;;;
      let! b := buf_of i in
      mod_buf i (with_flags (Z.lor (flags b) B_VALID)).

(** The list walked from i by the links [link] until the head, for a buffer
    that satisfies P; NBUF rounds reach the head. *)
Fixpoint scan (fuel : nat) (link : buf -> nat) (P : buf -> bool) (i : nat) : M bio (option nat) :=
  match fuel with
  | O => ret None
  | S fuel' =>
      if Nat.eqb i head then ret None
      else
        let! b := buf_of i in
        if P b then ret (Some i) else scan fuel' link P (link b)
  end.

Definition same_block (dev bn : Z) (b : buf) : bool := (bdev b =? dev) && (blockno b =? bn).
Definition recyclable (b : buf) : bool := (refcnt b =? 0) && negb (has_flag b B_DIRTY).

Definition bget (dev bn : Z) : M bio nat :=
  let! h := buf_of head in
  let! cached := scan (S NBUF) bnext (same_block dev bn) (bnext h) in
  match cached with
  | Some i =>
      let! b := buf_of i in
      mod_buf i (with_refcnt (u32 (refcnt b + 1))) ;;;
      acquire_buf i ;;;
      ret i
  | None =>
      let! h := buf_of head in
      let! free := scan (S NBUF) bprev recyclable (bprev h) in
      match free with
      | Some i =>
          mod_buf i (fun b => mkBuf 0 dev bn (block_lock b) 1 (bprev b) (bnext b) (data b)) ;;;
          acquire_buf i ;;;
          ret i
      | None => panic "bget: no buffers"
      end
  end.

Definition bread (dev bn : Z) : M bio nat :=
  let! i := bget dev bn in
  let! b := buf_of i in
  when (negb (has_flag b B_VALID)) (iderw i) ;;;
  ret i.

Definition bwrite (i : nat) : M bio unit :=
  let! b := buf_of i in
  if negb (holdingsleep pid (block_lock b)) then panic "bwrite"
  else
    mod_buf i (with_flags (Z.lor (flags b) B_DIRTY)) ;;;
    iderw i.

Definition brelse (i : nat) : M bio unit :=
  let! b := buf_of i in
  if negb (holdingsleep pid (block_lock b)) then panic "brelse"
  else
    mod_buf i (fun b => with_lock (releasesleep (block_lock b)) b) ;;;
    let! b := buf_of i in
    mod_buf i (with_refcnt (u32 (refcnt b - 1))) ;;;
    let! b := buf_of i in
    when (refcnt b =? 0)
      (mod_buf (bnext b) (with_prev (bprev b)) ;;;
       let! b := buf_of i in
       mod_buf (bprev b) (with_next (bnext b)) ;;;
       link_front i).
End Bio.
