(* ===== verification/BioSpec.v ===== *)
(** The doubly linked list of the buffer cache: walking it, taking a buffer
    out, putting one at the front.  And what the buffer cache promises: bread()
    returns the current contents of a block, locked; a modified buffer that is
    marked dirty is not recycled; bwrite() puts the contents on the disk;
    brelse() moves the buffer to the front of the list, and bget() recycles the
    one released longest ago. *)

From Stdlib Require Import ZArith Lia.
From stdpp Require Import base gmap strings numbers list.
From S2P Require Import Prelude Bio.

Open Scope Z_scope.
Open Scope kern_scope.

(** ** Buffers of a state *)

Lemma get_upd s i j f :
  (i < length (bufs s))%nat ->
  get_buf (upd_buf i f s) j = if decide (i = j) then f (get_buf s i) else get_buf s j.
Proof.
  intros Hi. unfold get_buf, upd_buf. cbn. rewrite !nth_lookup. case_decide as E.
  - subst j. rewrite list_lookup_alter_eq. destruct (bufs s !! i) eqn:El; [done|].
    apply lookup_ge_None in El. lia.
  - by rewrite list_lookup_alter_ne.
Qed.

Lemma length_upd s i f : length (bufs (upd_buf i f s)) = length (bufs s).
Proof. unfold upd_buf. cbn. apply length_alter. Qed.

Lemma dsk_upd s i f : dsk (upd_buf i f s) = dsk s.
Proof. done. Qed.

(** ** Segments *)

Section Segments.
Local Open Scope nat_scope.

(** The buffers of c are linked both ways, each to the one after it. *)
Fixpoint seg (B : nat -> buf) (c : list nat) : Prop :=
  match c with
  | [] => True
  | x :: c' =>
      match c' with
      | [] => True
      | y :: _ => bnext (B x) = y /\ bprev (B y) = x /\ seg B c'
      end
  end.

Lemma seg_cons B x y c : seg B (x :: y :: c) <-> bnext (B x) = y /\ bprev (B y) = x /\ seg B (y :: c).
Proof. done. Qed.

Lemma seg_app B c1 x c2 : seg B (c1 ++ x :: c2) <-> seg B (c1 ++ [x]) /\ seg B (x :: c2).
Proof.
  induction c1 as [|a c1 IH]; [by split; [intros; split|intros [_ ?]]|].
  destruct c1 as [|b c1]; cbn [app] in *; rewrite !seg_cons in *; tauto.
Qed.

(** Only the forward links of all but the last and the backward links of all
    but the first matter. *)
Lemma seg_ext B B' c :
  (forall c1 x y c2, c = c1 ++ x :: y :: c2 -> bnext (B' x) = bnext (B x) /\ bprev (B' y) = bprev (B y)) ->
  seg B c -> seg B' c.
Proof.
  induction c as [|x [|y c] IH]; intros H Hs; [done..|]. apply seg_cons in Hs as (H1 & H2 & H3).
  destruct (H [] x y c eq_refl) as [E1 E2]. rewrite seg_cons, E1, E2. split_and!; try done.
  apply IH; [|done]. intros c1 a b c2 E. apply (H (x :: c1) a b c2). by rewrite E.
Qed.

Lemma seg_ext_in B B' c :
  (forall x, x ∈ c -> bnext (B' x) = bnext (B x) /\ bprev (B' x) = bprev (B x)) -> seg B c -> seg B' c.
Proof.
  intros H. apply seg_ext. intros c1 x y c2 ->.
  split; apply H; rewrite elem_of_app, !elem_of_cons; auto.
Qed.

(** The whole list: from the head through l back to the head. *)
Definition linked (B : nat -> buf) (l : list nat) : Prop := seg B (head :: l ++ [head]).

Lemma linked_split B l1 i l2 (p := List.last (head :: l1) head) (n := List.hd head l2) :
  linked B (l1 ++ i :: l2) ->
  seg B (head :: l1) /\ bnext (B p) = i /\ bprev (B i) = p /\ bnext (B i) = n /\ bprev (B n) = i /\
  seg B (l2 ++ [head]).
Proof.
  unfold linked. intros H. replace (head :: (l1 ++ i :: l2) ++ [head]) with ((head :: l1) ++ i :: (l2 ++ [head])) in H
    by (cbn; by rewrite <- app_assoc).
  apply seg_app in H as [H1 H2].
  assert (Hl : head :: l1 = removelast (head :: l1) ++ [p]) by (apply app_removelast_last; done).
  rewrite Hl in H1. rewrite <- app_assoc in H1. cbn [app] in H1. apply seg_app in H1 as [H1 H3].
  apply seg_cons in H3 as (H4 & H5 & _). rewrite <- Hl in H1.
  assert (H6 : bnext (B i) = n /\ bprev (B n) = i /\ seg B (l2 ++ [head])).
  { destruct l2; cbn in *; tauto. }
  tauto.
Qed.

Lemma seg_join B p n c1 c2 :
  seg B (c1 ++ [p]) -> seg B (n :: c2) -> bnext (B p) = n -> bprev (B n) = p -> seg B (c1 ++ p :: n :: c2).
Proof. intros H1 H2 E1 E2. apply seg_app. split; [done|]. by apply seg_cons. Qed.

Lemma last_app_cons (c1 c2 : list nat) x : List.last (c1 ++ x :: c2) head = List.last (x :: c2) head.
Proof. induction c1 as [|a [|b c1] IH]; [done|done|]. exact IH. Qed.

Lemma last_elem (c : list nat) x : List.last (x :: c) head ∈ x :: c.
Proof.
  revert x. induction c as [|y c IH]; intros x; [by left|]. change (List.last (x :: y :: c) head) with (List.last (y :: c) head).
  right. apply IH.
Qed.

(** In a chain without repetition the last is not followed by anything. *)
Lemma not_last (c c1 c2 : list nat) x y :
  NoDup c -> c = c1 ++ x :: y :: c2 -> x <> List.last c head.
Proof.
  intros Hnd -> E. rewrite last_app_cons in E. change (List.last (x :: y :: c2) head) with (List.last (y :: c2) head) in E.
  apply NoDup_app in Hnd as (_ & _ & Hnd). apply NoDup_cons in Hnd as [Hx _]. apply Hx.
  rewrite E at 1. apply last_elem.
Qed.

Lemma not_first (c c1 c2 : list nat) x y :
  NoDup c -> c = c1 ++ x :: y :: c2 -> y <> List.hd head c.
Proof.
  intros Hnd -> E. destruct c1 as [|a c1]; cbn in *; apply NoDup_cons in Hnd as [Hx _]; apply Hx;
    rewrite <- E, ?elem_of_app, !elem_of_cons; auto.
Qed.

Lemma elem_before_last (l c1 c2 : list nat) x y z : l ++ [z] = c1 ++ x :: y :: c2 -> x ∈ l.
Proof.
  intros E. apply (f_equal (@removelast nat)) in E. rewrite removelast_last in E.
  rewrite removelast_app in E by done. rewrite E. apply elem_of_app. right. by left.
Qed.

(** Removing i: its neighbours are linked to each other. *)
Lemma linked_unlink B B' l1 i l2 (p := List.last (head :: l1) head) (n := List.hd head l2) :
  NoDup (head :: l1 ++ i :: l2) -> linked B (l1 ++ i :: l2) ->
  (forall x, bnext (B' x) = if decide (x = p) then n else bnext (B x)) ->
  (forall x, bprev (B' x) = if decide (x = n) then p else bprev (B x)) ->
  linked B' (l1 ++ l2).
Proof.
  intros Hnd Hl Hn Hp. destruct (linked_split B l1 i l2 Hl) as (H1 & _ & _ & _ & _ & H2).
  assert (El : head :: l1 = removelast (head :: l1) ++ [p]) by (apply app_removelast_last; done).
  assert (Er : l2 ++ [head] = n :: List.tl (l2 ++ [head])) by (by destruct l2).
  unfold linked. replace (head :: (l1 ++ l2) ++ [head]) with ((head :: l1) ++ (l2 ++ [head]))
    by (cbn; by rewrite <- app_assoc).
  assert (Hnd1 : NoDup (head :: l1)).
  { replace (head :: l1 ++ i :: l2) with ((head :: l1) ++ i :: l2) in Hnd by done. by apply NoDup_app in Hnd as (? & _). }
  apply NoDup_cons in Hnd as [Hh Hnd]. apply NoDup_app in Hnd as (_ & Hdis & Hnd2).
  apply NoDup_cons in Hnd2 as [Hi2 Hnd2]. rewrite elem_of_app, elem_of_cons in Hh.
  assert (Hnd3 : NoDup (l2 ++ [head])).
  { apply NoDup_app. split_and!; [done| |apply NoDup_singleton]. intros x Hx ->%list_elem_of_singleton. tauto. }
  assert (Hp1 : p ∈ head :: l1) by apply last_elem.
  assert (Hn1 : n ∈ l2 ++ [head]) by (rewrite Er; by left).
  rewrite El, Er, <- app_assoc. cbn [app]. apply seg_join; [| |rewrite Hn; by rewrite decide_True|rewrite Hp; by rewrite decide_True].
  - rewrite <- El. eapply seg_ext; [|exact H1]. intros c1 x y c2 Ec. rewrite Hn, Hp.
    assert (Hy : y ∈ l1).
    { destruct c1; cbn in Ec; injection Ec as _ E; rewrite E, ?elem_of_app, ?elem_of_cons; auto. }
    rewrite !decide_False; [done| |by eapply not_last].
    intros ->. apply elem_of_app in Hn1 as [Hn1|Hn1%list_elem_of_singleton]; [|rewrite Hn1 in Hy; tauto].
    apply (Hdis n Hy). by right.
  - rewrite <- Er. eapply seg_ext; [|exact H2]. intros c1 x y c2 Ec. rewrite Hn, Hp.
    assert (Hx : x ∈ l2) by (by eapply elem_before_last).
    rewrite !decide_False; [done| |].
    + replace n with (List.hd head (l2 ++ [head])) by (by rewrite Er). by eapply not_first.
    + intros ->. apply elem_of_cons in Hp1 as [Hp1|Hp1]; [rewrite Hp1 in Hx; tauto|]. apply (Hdis p Hp1). by right.
Qed.

(** Putting i in front. *)
Lemma linked_front B B' i l (n := List.hd head l) :
  NoDup (head :: i :: l) -> linked B l ->
  (forall x, bnext (B' x) = if decide (x = head) then i else if decide (x = i) then n else bnext (B x)) ->
  (forall x, bprev (B' x) = if decide (x = n) then i else if decide (x = i) then head else bprev (B x)) ->
  linked B' (i :: l).
Proof.
  intros Hnd Hl Hn Hp. apply NoDup_cons in Hnd as [Hh Hnd]. apply NoDup_cons in Hnd as [Hi Hnd].
  apply not_elem_of_cons in Hh as [Hhi Hh].
  assert (Er : l ++ [head] = n :: List.tl (l ++ [head])) by (by destruct l).
  assert (Hnd3 : NoDup (l ++ [head])).
  { apply NoDup_app. split_and!; [done| |apply NoDup_singleton]. intros x Hx ->%list_elem_of_singleton. tauto. }
  assert (Hni : n <> i).
  { intros E. assert (Hn1 : n ∈ l ++ [head]) by (rewrite Er; by left).
    apply elem_of_app in Hn1 as [Hn1|Hn1%list_elem_of_singleton]; congruence. }
  unfold linked in *. cbn [app]. apply seg_cons. rewrite Hn, decide_True, Hp by done.
  rewrite (decide_False (P := i = n)), decide_True by done. split_and!; [done|done|].
  rewrite Er in *. apply seg_cons in Hl as (_ & _ & Hl). apply seg_cons.
  rewrite Hn, Hp, (decide_False (P := i = head)), !decide_True by done. split_and!; [done|done|].
  rewrite <- Er in *. eapply seg_ext; [|exact Hl]. intros c1 x y c2 Ec. rewrite Hn, Hp.
  assert (Hx : x ∈ l) by (by eapply elem_before_last).
  assert (Hy : y ∈ l ++ [head]) by (rewrite Ec, elem_of_app, !elem_of_cons; auto).
  rewrite !decide_False; [done| | | |]; try congruence.
  - intros ->. apply elem_of_app in Hy as [?|?%list_elem_of_singleton]; congruence.
  - replace n with (List.hd head (l ++ [head])) by (by rewrite Er). by eapply not_first.
Qed.

(** ** Walking the list *)

(** Following [link] from i passes through l and ends at the head. *)
Fixpoint path (B : nat -> buf) (link : buf -> nat) (i : nat) (l : list nat) : Prop :=
  match l with
  | [] => i = head
  | x :: l' => i = x /\ x <> head /\ path B link (link (B x)) l'
  end.

Lemma seg_path_next B l x : head ∉ l -> seg B (x :: l ++ [head]) -> path B bnext (bnext (B x)) l.
Proof.
  revert x. induction l as [|y l IH]; intros x Hh Hs; cbn [app path] in *.
  - by apply seg_cons in Hs as (? & _).
  - apply seg_cons in Hs as (? & _ & Hs). apply not_elem_of_cons in Hh as [? Hh].
    split_and!; [done|done|]. by apply IH.
Qed.

Lemma seg_path_prev B l x : head ∉ l -> seg B (head :: l ++ [x]) -> path B bprev (bprev (B x)) (rev l).
Proof.
  revert x. induction l as [|y l IH] using rev_ind; intros x Hh Hs.
  - by apply seg_cons in Hs as (_ & ? & _).
  - rewrite rev_app_distr. cbn [rev app path].
    replace (head :: (l ++ [y]) ++ [x]) with ((head :: l) ++ y :: [x]) in Hs by (cbn; by rewrite <- app_assoc).
    apply seg_app in Hs as [Hs1 Hs2]. apply seg_cons in Hs2 as (_ & ? & _).
    rewrite elem_of_app, list_elem_of_singleton in Hh.
    split_and!; [done|intros ->; tauto|]. apply IH; [tauto|done].
Qed.

Lemma wp_scan link P l : forall fuel i s (Q : option nat -> bio -> Prop),
  path (get_buf s) link i l -> (length l < fuel)%nat ->
  Q (List.find (fun x => P (get_buf s x)) l) s -> wp (scan fuel link P i) s Q.
Proof.
  induction l as [|x l IH]; intros [|fuel] i s Q Hp Hf HQ; cbn [length path List.find scan] in *; try lia.
  - subst i. rewrite Nat.eqb_refl. by apply wp_ret.
  - destruct Hp as (-> & Hx & Hp). rewrite (proj2 (Nat.eqb_neq x head) Hx).
    apply wp_bind, wp_gets. destruct (P (get_buf s x)); [by apply wp_ret|].
    apply IH; [done|lia|done].
Qed.
End Segments.


Definition is_valid (b : buf) : bool := has_flag b B_VALID.
Definition is_dirty (b : buf) : bool := has_flag b B_DIRTY.

(** ** The invariant *)

Record bio_inv (s : bio) (l : list nat) : Prop := {
  bi_len : length (bufs s) = S NBUF;
  bi_links : linked (get_buf s) l;
  bi_perm : l ≡ₚ seq 0 NBUF;
  bi_uniq : forall i j, (i < NBUF)%nat -> (j < NBUF)%nat -> bdev (get_buf s i) = 1 -> bdev (get_buf s j) = 1 ->
    blockno (get_buf s i) = blockno (get_buf s j) -> i = j;
  bi_flags : forall i, (i < NBUF)%nat -> flags (get_buf s i) = 0 \/ flags (get_buf s i) = 2 \/ flags (get_buf s i) = 6;
  bi_dev : forall i, (i < NBUF)%nat -> flags (get_buf s i) <> 0 -> bdev (get_buf s i) = 1
}.

(** The buffers of H are locked by pid and referenced once; the others are free,
    and those of them that are valid and not dirty agree with the disk. *)
Record held (pid : Z) (s : bio) (H : list nat) : Prop := {
  hd_nodup : NoDup H;
  hd_range : forall i, i ∈ H -> (i < NBUF)%nat;
  hd_locked : forall i, i ∈ H -> block_lock (get_buf s i) = mkSleep true pid /\ refcnt (get_buf s i) = 1;
  hd_free : forall i, (i < NBUF)%nat -> i ∉ H ->
    locked (block_lock (get_buf s i)) = false /\ refcnt (get_buf s i) = 0;
  hd_clean : forall i, (i < NBUF)%nat -> i ∉ H -> bdev (get_buf s i) = 1 ->
    is_valid (get_buf s i) = true -> is_dirty (get_buf s i) = false ->
    data (get_buf s i) = disk_read (dsk s) (blockno (get_buf s i))
}.

(** ** The contents of blocks as the cache shows them *)

Definition holds_block (s : bio) (bn : Z) (i : nat) : bool :=
  same_block 1 bn (get_buf s i) && is_valid (get_buf s i).

Definition view (s : bio) (bn : Z) : list Z :=
  match List.find (holds_block s bn) (seq 0 NBUF) with
  | Some i => data (get_buf s i)
  | None => disk_read (dsk s) bn
  end.

(** Is block bn in the cache, modified and not written yet? *)
Definition dirty (s : bio) (bn : Z) : Prop :=
  exists i, (i < NBUF)%nat /\ same_block 1 bn (get_buf s i) = true /\ is_dirty (get_buf s i) = true.

Lemma same_block_true bn b : same_block 1 bn b = true <-> bdev b = 1 /\ blockno b = bn.
Proof. unfold same_block. rewrite andb_true_iff, !Z.eqb_eq. done. Qed.

Lemma view_cached s l bn i :
  bio_inv s l -> (i < NBUF)%nat -> holds_block s bn i = true -> view s bn = data (get_buf s i).
Proof.
  intros I Hi Hh. unfold view. destruct (List.find _ _) as [j|] eqn:E.
  - apply find_some in E as [Hj Hb]. apply in_seq in Hj. unfold holds_block in *.
    apply andb_true_iff in Hh as [Hh _], Hb as [Hb _]. apply same_block_true in Hh as [], Hb as [].
    replace j with i; [done|]. eapply bi_uniq; try done; lia || congruence.
  - apply find_none with (x := i) in E; [congruence|]. apply in_seq. lia.
Qed.

Lemma view_uncached s bn :
  (forall i, (i < NBUF)%nat -> holds_block s bn i = false) -> view s bn = disk_read (dsk s) bn.
Proof.
  intros H. unfold view. destruct (List.find _ _) as [j|] eqn:E; [|done].
  apply find_some in E as [Hj Hb]. apply in_seq in Hj. rewrite H in Hb by lia. done.
Qed.

(** The parts of a buffer that matter for contents. *)
Definition core (b : buf) : Z * Z * Z * list Z := (flags b, bdev b, blockno b, data b).

Lemma view_core s s' :
  (forall i, (i < NBUF)%nat -> core (get_buf s' i) = core (get_buf s i)) -> dsk s' = dsk s ->
  forall bn, view s' bn = view s bn.
Proof.
  intros Hc Hd bn. unfold view. rewrite Hd.
  assert (Hf : forall L, (forall i, i ∈ L -> (i < NBUF)%nat) ->
    match List.find (holds_block s' bn) L with Some i => data (get_buf s' i) | None => disk_read (dsk s) bn end =
    match List.find (holds_block s bn) L with Some i => data (get_buf s i) | None => disk_read (dsk s) bn end).
  { induction L as [|i L IH]; intros HL; [done|]. cbn [List.find].
    pose proof (Hc i (HL i ltac:(by left))) as E. unfold core in E. injection E as E1 E2 E3 E4.
    assert (Hh : holds_block s' bn i = holds_block s bn i)
      by (unfold holds_block, same_block, is_valid, has_flag; by rewrite E1, E2, E3).
    rewrite Hh. destruct (holds_block s bn i); [done|]. apply IH. intros j Hj. apply HL. by right. }
  apply Hf. intros i Hi. apply elem_of_seq in Hi. lia.
Qed.

Lemma dirty_core s s' :
  (forall i, (i < NBUF)%nat -> core (get_buf s' i) = core (get_buf s i)) ->
  forall bn, dirty s' bn <-> dirty s bn.
Proof.
  intros Hc bn. unfold dirty. split; intros (i & Hi & Hs & Hd); exists i; specialize (Hc i Hi);
    unfold core in Hc; injection Hc as E1 E2 E3 E4; unfold same_block, is_dirty, has_flag in *;
    rewrite ?E1, ?E2, ?E3 in *; done.
Qed.

Lemma flag_cases f : f = 0 \/ f = 2 \/ f = 6 ->
  (negb (Z.land f B_VALID =? 0), negb (Z.land f B_DIRTY =? 0)) =
  if f =? 0 then (false, false) else if f =? 2 then (true, false) else (true, true).
Proof. by intros [-> | [-> | ->]]. Qed.

(** A buffer replaced by one with the same links. *)
Lemma linked_upd s i f l :
  (i < length (bufs s))%nat -> bnext (f (get_buf s i)) = bnext (get_buf s i) ->
  bprev (f (get_buf s i)) = bprev (get_buf s i) ->
  linked (get_buf s) l -> linked (get_buf (upd_buf i f s)) l.
Proof.
  intros Hi Hn Hp. apply seg_ext_in. intros x _. rewrite get_upd by done. case_decide; subst; done.
Qed.

Lemma bio_inv_upd s l i f (b := f (get_buf s i)) :
  bio_inv s l -> (i < NBUF)%nat -> bnext b = bnext (get_buf s i) -> bprev b = bprev (get_buf s i) ->
  (bdev b = 1 -> forall j, (j < NBUF)%nat -> i <> j -> bdev (get_buf s j) = 1 -> blockno (get_buf s j) <> blockno b) ->
  (flags b = 0 \/ flags b = 2 \/ flags b = 6) -> (flags b <> 0 -> bdev b = 1) -> bio_inv (upd_buf i f s) l.
Proof.
  intros I Hi Hn Hp Hu Hf Hdev. pose proof (bi_len _ _ I) as Hlen. assert (Hi' : (i < length (bufs s))%nat) by lia.
  constructor.
  - by rewrite length_upd.
  - by apply linked_upd; [|done|done|apply I].
  - apply I.
  - intros j k Hj Hk. rewrite !get_upd by done. fold b. do 2 case_decide; subst.
    + done.
    + intros Hd1 Hd2 E. by destruct (Hu Hd1 k Hk).
    + intros Hd1 Hd2 E. by destruct (Hu Hd2 j Hj).
    + by apply I.
  - intros j Hj. rewrite get_upd by done. case_decide; [done|by apply I].
  - intros j Hj. rewrite get_upd by done. case_decide; [done|by apply I].
Qed.

Lemma get_set_disk d s i : get_buf (set_disk d s) i = get_buf s i.
Proof. done. Qed.

Section Spec.
Context (pid : Z).

Lemma holding_mine : holdingsleep pid (mkSleep true pid) = true.
Proof. unfold holdingsleep. cbn. by rewrite Z.eqb_refl. Qed.

(** What bread() of block bn returns, in a state where the buffers of H were
    held: one more buffer is held, with the block's contents; nothing else
    changed. *)
Record got (s : bio) (l H : list nat) (bn : Z) (i : nat) (s' : bio) : Prop := {
  got_inv : bio_inv s' l;
  got_held : held pid s' (i :: H);
  got_block : bdev (get_buf s' i) = 1 /\ blockno (get_buf s' i) = bn;
  got_valid : is_valid (get_buf s' i) = true;
  got_data : data (get_buf s' i) = view s bn;
  got_dirty : is_dirty (get_buf s' i) = true <-> dirty s bn;
  got_disk : dsk s' = dsk s;
  got_view : forall b, view s' b = view s b;
  got_dirties : forall b, dirty s' b <-> dirty s b;
  got_other : forall j, j <> i -> get_buf s' j = get_buf s j
}.

Lemma wp_iderw_read i s (Q : unit -> bio -> Prop) :
  (i < length (bufs s))%nat -> block_lock (get_buf s i) = mkSleep true pid -> flags (get_buf s i) = 0 ->
  bdev (get_buf s i) = 1 -> blockno (get_buf s i) < disksize (dsk s) ->
  Q tt (upd_buf i (fun b => with_flags 2 (with_data (disk_read (dsk s) (blockno b)) b)) s) ->
  wp (iderw pid i) s Q.
Proof.
  intros Hi Hlk Hf Hd Hb HQ. unfold iderw. apply wp_bind, wp_gets. rewrite Hlk, holding_mine, Hf, Hd. cbn [negb Z.land Z.eqb].
  apply wp_bind, wp_gets. replace (_ >=? _) with false by lia.
  unfold has_flag. rewrite Hf. change (negb (Z.land 0 B_DIRTY =? 0)) with false. cbn iota.
  apply wp_bind, wp_bind, wp_gets, wp_modify, wp_bind, wp_gets. rewrite get_upd, decide_True by done.
  cbn [flags with_data]. rewrite Hf. apply wp_modify.
  replace (upd_buf i (with_flags (Z.lor 0 B_VALID)) _) with
    (upd_buf i (fun b => with_flags 2 (with_data (disk_read (dsk s) (blockno b)) b)) s); [done|].
  unfold upd_buf. cbn [bufs dsk]. f_equal. rewrite list_alter_alter_eq. apply list_alter_ext; [|done].
  intros b Eb. unfold compose, get_buf. rewrite nth_lookup, Eb. done.
Qed.

Lemma wp_iderw_write i s (Q : unit -> bio -> Prop) :
  (i < length (bufs s))%nat -> block_lock (get_buf s i) = mkSleep true pid ->
  flags (get_buf s i) = 6 -> bdev (get_buf s i) = 1 ->
  blockno (get_buf s i) < disksize (dsk s) ->
  Q tt (upd_buf i (with_flags 2) (set_disk (disk_write (blockno (get_buf s i)) (data (get_buf s i)) (dsk s)) s)) ->
  wp (iderw pid i) s Q.
Proof.
  intros Hi Hlk Hf Hd Hb HQ. unfold iderw. apply wp_bind, wp_gets. rewrite Hlk, holding_mine, Hf, Hd. cbn [negb Z.land Z.eqb].
  apply wp_bind, wp_gets. replace (_ >=? _) with false by lia.
  unfold has_flag. rewrite Hf. change (negb (Z.land 6 B_DIRTY =? 0)) with true. cbn iota.
  apply wp_bind, wp_bind, wp_modify, wp_modify, wp_bind, wp_gets. rewrite get_set_disk, get_upd, decide_True by done.
  cbn [flags with_flags]. apply wp_modify.
  replace (upd_buf i _ (set_disk _ _)) with
    (upd_buf i (with_flags 2) (set_disk (disk_write (blockno (get_buf s i)) (data (get_buf s i)) (dsk s)) s)); [done|].
  unfold upd_buf, set_disk. cbn [bufs dsk]. f_equal. rewrite list_alter_alter_eq. by apply list_alter_ext.
Qed.

Lemma valid_flags f : f = 2 \/ f = 6 -> negb (Z.land f B_VALID =? 0) = true.
Proof. by intros [-> | ->]. Qed.

Lemma got_intro s l H bn i b' old :
  get_buf s i = old -> bio_inv s l -> held pid s H -> (i < NBUF)%nat -> i ∉ H ->
  bdev b' = 1 -> blockno b' = bn -> block_lock b' = mkSleep true pid -> refcnt b' = 1 ->
  bnext b' = bnext old -> bprev b' = bprev old -> (flags b' = 2 \/ flags b' = 6) ->
  is_dirty b' = is_dirty old -> (is_dirty old = true -> same_block 1 bn old = true) ->
  (same_block 1 bn old = true \/ forall j, (j < NBUF)%nat -> same_block 1 bn (get_buf s j) = false) ->
  data b' = view s bn ->
  got s l H bn i (upd_buf i (fun _ => b') s).
Proof.
  intros Eo I Hh Hi HiH Hd Hb Hlk Hr Hn Hp Hf Hdb Hdo Hsame Hdata.
  pose proof (bi_len _ _ I) as Hlen. assert (Hi' : (i < length (bufs s))%nat) by lia.
  assert (Hoth : forall j, (j < NBUF)%nat -> i <> j -> bdev (get_buf s j) = 1 -> blockno (get_buf s j) <> bn).
  { intros j Hj Hij Hdj Hbj. destruct Hsame as [Hs|Hs].
    - apply same_block_true in Hs as []. apply Hij. apply (bi_uniq s l I i j Hi Hj); congruence.
    - specialize (Hs j Hj). apply not_true_iff_false in Hs. rewrite same_block_true in Hs. tauto. }
  assert (Hv : is_valid b' = true) by (by apply valid_flags).
  assert (G : forall j, get_buf (upd_buf i (fun _ => b') s) j = if decide (i = j) then b' else get_buf s j).
  { intros j. by rewrite get_upd. }
  assert (I' : bio_inv (upd_buf i (fun _ => b') s) l).
  { apply bio_inv_upd; rewrite ?Eo; try done; [|tauto]. intros _ j Hj Hij Hdj. rewrite Hb. by apply Hoth. }
  assert (Gi : get_buf (upd_buf i (fun _ => b') s) i = b') by (by rewrite G, decide_True).
  assert (Hdirt : forall b, dirty (upd_buf i (fun _ => b') s) b <-> dirty s b).
  { intros b. unfold dirty. split; intros (j & Hj & Hsb & Hdj); exists j; (split; [done|]);
      (destruct (decide (i = j)) as [<-|Hij]; [|rewrite ?G, ?decide_False in * by done; done]).
    - rewrite Gi in Hsb, Hdj. rewrite Eo. rewrite <- Hdb. split; [|done].
      apply same_block_true in Hsb as [_ <-]. rewrite Hb. apply Hdo. by rewrite <- Hdb.
    - rewrite Eo in Hsb, Hdj. rewrite Gi, Hdb. split; [|done]. specialize (Hdo Hdj).
      apply same_block_true in Hsb as [_ E], Hdo as [_ E']. apply same_block_true. split; congruence. }
  constructor; rewrite ?Gi; try done.
  - destruct Hh. constructor.
    + by constructor.
    + intros j [->|Hj]%elem_of_cons; auto.
    + intros j Hj. rewrite G. case_decide; [done|]. apply elem_of_cons in Hj as [->|Hj]; [done|auto].
    + intros j Hj [Hne HjH]%not_elem_of_cons. rewrite G, decide_False by done. auto.
    + intros j Hj [Hne HjH]%not_elem_of_cons. rewrite G, decide_False by done. auto.
  - rewrite Hdb. split.
    + intros Ho. exists i. rewrite Eo. split_and!; [done|by apply Hdo|done].
    + intros (j & Hj & Hsb & Hdj). destruct (decide (i = j)) as [<-|Hij]; [by rewrite Eo in Hdj|].
      apply same_block_true in Hsb as []. by destruct (Hoth j Hj Hij).
  - intros b. destruct (Z.eq_dec b bn) as [->|Hne].
    + rewrite <- Hdata. rewrite (view_cached _ l bn i I' Hi); [by rewrite Gi|].
      unfold holds_block. rewrite Gi, Hv, andb_true_r. by apply same_block_true.
    + destruct (List.find (holds_block s b) (seq 0 NBUF)) as [j|] eqn:E.
      * apply find_some in E as [Hj Hbj]. apply in_seq in Hj. rewrite (view_cached s l b j) by (done || lia).
        destruct (decide (i = j)) as [<-|Hij].
        -- apply andb_true_iff in Hbj as [Hbj Hvj]. apply same_block_true in Hbj as [Hd1 Hb1].
           rewrite Eo in *.
           assert (Hdn : is_dirty old = false).
           { destruct (is_dirty old) eqn:Ed; [|done]. specialize (Hdo eq_refl). apply same_block_true in Hdo as []. congruence. }
           rewrite (view_uncached (upd_buf _ _ _) b).
           { rewrite dsk_upd. symmetry. rewrite <- Hb1. rewrite <- Eo. apply (hd_clean _ _ _ Hh); rewrite ?Eo; done. }
           intros k Hk. unfold holds_block. rewrite G. apply andb_false_iff. left.
           case_decide as Eik; apply not_true_iff_false; rewrite same_block_true; [intros []; congruence|].
           intros [Hdk Hbk]. apply Eik, (bi_uniq s l I i k Hi Hk); rewrite ?Eo; congruence.
        -- rewrite (view_cached _ l b j I'); [by rewrite G, decide_False|lia|].
           unfold holds_block. by rewrite G, decide_False.
      * pose proof (find_none _ _ E) as Hno. rewrite !view_uncached; [by rewrite dsk_upd| |].
        -- intros k Hk. apply Hno, in_seq. lia.
        -- intros k Hk. unfold holds_block. rewrite G. case_decide.
           ++ apply andb_false_iff. left. apply not_true_iff_false. rewrite same_block_true. intros []; congruence.
           ++ apply Hno, in_seq. lia.
  - intros j Hj. by rewrite G, decide_False.
Qed.

(** A buffer that bget() may recycle. *)
Definition spare (s : bio) (H : list nat) : Prop :=
  exists i, (i < NBUF)%nat /\ (i ∉ H) /\ is_dirty (get_buf s i) = false.

Lemma elem_perm s l i : bio_inv s l -> (i ∈ l <-> (i < NBUF)%nat).
Proof. intros I. rewrite (bi_perm _ _ I), elem_of_seq. lia. Qed.

Lemma bi_nodup s l : bio_inv s l -> NoDup (head :: l).
Proof.
  intros I. apply NoDup_cons. rewrite (elem_perm s l) by done. unfold head. split; [lia|].
  rewrite (bi_perm _ _ I). apply NoDup_seq.
Qed.

Lemma bi_length s l : bio_inv s l -> length l = NBUF.
Proof. intros I. by rewrite (Permutation_length (bi_perm _ _ I)), length_seq. Qed.

Lemma wp_scan_next s l P (Q : option nat -> bio -> Prop) :
  bio_inv s l -> Q (List.find (fun x => P (get_buf s x)) l) s ->
  wp (scan (S NBUF) bnext P (bnext (get_buf s head))) s Q.
Proof.
  intros I. apply wp_scan; [|rewrite (bi_length s l I); lia].
  pose proof (bi_nodup s l I) as [Hh _]%NoDup_cons. apply seg_path_next; [done|apply I].
Qed.

Lemma wp_scan_prev s l P (Q : option nat -> bio -> Prop) :
  bio_inv s l -> Q (List.find (fun x => P (get_buf s x)) (rev l)) s ->
  wp (scan (S NBUF) bprev P (bprev (get_buf s head))) s Q.
Proof.
  intros I. apply wp_scan; [|rewrite length_rev, (bi_length s l I); lia].
  pose proof (bi_nodup s l I) as [Hh _]%NoDup_cons. apply seg_path_prev; [done|apply I].
Qed.

Lemma upd_upd s i f g : upd_buf i f (upd_buf i g s) = upd_buf i (fun b => f (g b)) s.
Proof. unfold upd_buf. cbn. by rewrite list_alter_alter_eq. Qed.

Lemma upd_const s i f : (i < length (bufs s))%nat -> upd_buf i f s = upd_buf i (fun _ => f (get_buf s i)) s.
Proof.
  intros Hi. unfold upd_buf. f_equal. apply list_alter_ext; [|done].
  intros b Eb. unfold get_buf. by rewrite nth_lookup, Eb.
Qed.

(** Taking the lock of a free buffer. *)
Lemma wp_acquire_buf i s (Q : unit -> bio -> Prop) :
  (i < length (bufs s))%nat -> locked (block_lock (get_buf s i)) = false ->
  Q tt (upd_buf i (with_lock (mkSleep true pid)) s) -> wp (acquire_buf pid i) s Q.
Proof. intros Hi Hl HQ. apply wp_bind, wp_gets. unfold acquiresleep. rewrite Hl. exact HQ. Qed.

(** The second half of bread(), on a buffer just locked by bget(). *)
Lemma wp_fill s l H bn i b old (Q : nat -> bio -> Prop) :
  bio_inv s l -> held pid s H -> (i < NBUF)%nat -> i ∉ H -> get_buf s i = old ->
  0 <= bn < disksize (dsk s) ->
  bdev b = 1 -> blockno b = bn -> block_lock b = mkSleep true pid -> refcnt b = 1 ->
  bnext b = bnext old -> bprev b = bprev old ->
  (same_block 1 bn old = true /\ flags b = flags old /\ data b = data old \/
   flags b = 0 /\ is_dirty old = false /\ forall j, (j < NBUF)%nat -> same_block 1 bn (get_buf s j) = false) ->
  (forall s', got s l H bn i s' -> Q i s') ->
  wp (let! b := buf_of i in when (negb (has_flag b B_VALID)) (iderw pid i) ;;; ret i)
    (upd_buf i (fun _ => b) s) Q.
Proof.
  intros I Hh Hi HiH Eo Hbn Hd Hb Hlk Hr Hn Hp Hcase HQ.
  assert (Hi' : (i < length (bufs s))%nat) by (rewrite (bi_len _ _ I); lia).
  pose proof (bi_flags _ _ I i Hi) as Hfl. rewrite Eo in Hfl.
  assert (Gi : get_buf (upd_buf i (fun _ => b) s) i = b) by (by rewrite get_upd, decide_True).
  apply wp_bind, wp_gets. rewrite Gi. apply wp_bind, wp_when; intros Hv.
  - assert (Hf0 : flags b = 0 /\ is_dirty old = false).
    { unfold has_flag in Hv. apply negb_true_iff in Hv. destruct Hcase as [(Hs & Ef & _)|(Ef & Ed & _)]; [|tauto].
      rewrite Ef in *. unfold is_dirty, has_flag. destruct Hfl as [Hfl|[Hfl|Hfl]]; rewrite Hfl in *; done. }
    destruct Hf0 as [Hf0 Hdo].
    apply wp_iderw_read; rewrite ?Gi; try done; [by rewrite length_upd|rewrite dsk_upd; lia|].
    rewrite upd_upd, dsk_upd. apply wp_ret, HQ. apply (got_intro s l H bn i _ old); try done; try (cbn; tauto).
    + intros E. congruence.
    + cbn. rewrite Hb. symmetry. apply view_uncached. intros j Hj. unfold holds_block.
      destruct Hcase as [(Hs & Ef & _)|(_ & _ & Hno)]; [|by rewrite Hno].
      destruct (same_block 1 bn (get_buf s j)) eqn:Ej; [|done]. cbn.
      apply same_block_true in Ej as [], Hs as []. replace j with i by (apply (bi_uniq s l I); congruence).
      rewrite Eo. unfold is_valid, has_flag. by rewrite <- Ef, Hf0.
  - apply wp_ret, HQ. unfold has_flag in Hv. apply negb_false_iff in Hv.
    destruct Hcase as [(Hs & Ef & Ed)|(Ef & _ & _)]; [|by rewrite Ef in Hv].
    apply (got_intro s l H bn i b old); try done; try tauto.
    + rewrite Ef in *. destruct Hfl as [Hfl|Hfl]; [by rewrite Hfl in Hv|done].
    + unfold is_dirty, has_flag. by rewrite Ef.
    + rewrite Ed, <- Eo. symmetry. apply (view_cached s l bn i I Hi). unfold holds_block. rewrite Eo, Hs.
      unfold is_valid, has_flag. by rewrite <- Ef, Hv.
Qed.

Lemma wp_bread bn s l H (Q : nat -> bio -> Prop) :
  bio_inv s l -> held pid s H -> 0 <= bn < disksize (dsk s) ->
  (forall i, i ∈ H -> blockno (get_buf s i) <> bn) -> (dirty s bn \/ spare s H) ->
  (forall i s', got s l H bn i s' -> Q i s') -> wp (bread pid 1 bn) s Q.
Proof.
  intros I Hh Hbn HnH Hsp HQ. unfold bread, bget. apply wp_bind, wp_bind, wp_gets, wp_bind.
  apply (wp_scan_next s l); [done|]. destruct (List.find _ l) as [i|] eqn:E.
  - apply find_some in E as [Hi Hs]. apply list_elem_of_In, (elem_perm s l _ I) in Hi.
    assert (Hi' : (i < length (bufs s))%nat) by (rewrite (bi_len _ _ I); lia).
    assert (HiH : i ∉ H) by (intros HiH; apply (HnH i HiH); by apply same_block_true in Hs as []).
    destruct (hd_free _ _ _ Hh i Hi HiH) as [Hl Hr].
    apply wp_bind, wp_gets, wp_bind, wp_modify, wp_bind, wp_acquire_buf;
      [by rewrite length_upd|by rewrite get_upd, decide_True|].
    apply wp_ret. rewrite upd_upd, upd_const by done. rewrite Hr.
    apply (wp_fill s l H bn i _ (get_buf s i)); try done; try (by apply same_block_true in Hs as []).
    + left. done.
    + intros s'. apply HQ.
  - assert (Hno : forall j, (j < NBUF)%nat -> same_block 1 bn (get_buf s j) = false).
    { intros j Hj. apply (find_none _ _ E). by apply list_elem_of_In, (elem_perm s l _ I). }
    apply wp_bind, wp_gets, wp_bind. apply (wp_scan_prev s l); [done|].
    destruct (List.find _ (rev l)) as [i|] eqn:E2.
    + apply find_some in E2 as [Hi Hrec]. apply in_rev, list_elem_of_In, (elem_perm s l _ I) in Hi.
      assert (Hi' : (i < length (bufs s))%nat) by (rewrite (bi_len _ _ I); lia).
      unfold recyclable in Hrec. apply andb_true_iff in Hrec as [Hr Hnd]. b2p.
      assert (HiH : i ∉ H) by (intros HiH; destruct (hd_locked _ _ _ Hh i HiH); lia).
      destruct (hd_free _ _ _ Hh i Hi HiH) as [Hl _].
      apply wp_bind, wp_modify, wp_bind, wp_acquire_buf; [by rewrite length_upd|by rewrite get_upd, decide_True|].
      apply wp_ret. rewrite upd_upd, upd_const by done.
      apply (wp_fill s l H bn i _ (get_buf s i)); try done; [by right|]. intros s'. apply HQ.
    + exfalso. destruct Hsp as [(j & Hj & Hs & _)|(j & Hj & HjH & Hd)]; [by rewrite Hno in Hs|].
      assert (Hrec : recyclable (get_buf s j) = false).
      { apply (find_none _ _ E2). apply in_rev. rewrite rev_involutive. by apply list_elem_of_In, (elem_perm s l _ I). }
      unfold recyclable in Hrec. destruct (hd_free _ _ _ Hh j Hj HjH) as [_ Hr].
      unfold is_dirty in Hd. rewrite Hr, Hd in Hrec. done.
Qed.

Lemma held_perm s H H' : H ≡ₚ H' -> held pid s H -> held pid s H'.
Proof.
  intros Hp []. constructor; intros; rewrite <- ?Hp in *; eauto.
Qed.

(** Changing the data of a held, valid buffer changes what the block shows. *)
Lemma put_data s l H i v (bn := blockno (get_buf s i)) (s' := upd_buf i (with_data v) s) :
  bio_inv s l -> held pid s H -> i ∈ H -> bdev (get_buf s i) = 1 -> is_valid (get_buf s i) = true ->
  bio_inv s' l /\ held pid s' H /\ (forall b, view s' b = if Z.eq_dec b bn then v else view s b) /\
  (forall b, dirty s' b <-> dirty s b).
Proof.
  intros I Hh Hi Hd Hv. pose proof (hd_range _ _ _ Hh i Hi) as Hir.
  assert (Hi' : (i < length (bufs s))%nat) by (rewrite (bi_len _ _ I); lia).
  assert (G : forall j, get_buf s' j = if decide (i = j) then with_data v (get_buf s i) else get_buf s j).
  { intros j. unfold s'. by rewrite get_upd. }
  assert (I' : bio_inv s' l).
  { apply bio_inv_upd; try done; [|by apply I]. intros _ j Hj Hij Hdj E. apply Hij.
    by apply (bi_uniq s l I i j). }
  split_and!; [done| | |].
  - destruct Hh. constructor; try done; intros j Hj; try rewrite G; case_decide; subst; cbn; eauto; try (intros; done).
    all: try (intros; rewrite ?G, ?decide_False by done; eauto).
  - intros b. unfold view at 1. destruct (Z.eq_dec b bn) as [->|Hne].
    + fold (view s' bn). rewrite (view_cached s' l bn i I' Hir); [by rewrite G, decide_True|].
      unfold holds_block. rewrite G, decide_True by done. unfold bn, same_block. cbn. rewrite Hd, !Z.eqb_refl.
      exact Hv.
    + unfold view. replace (List.find (holds_block s' b) (seq 0 NBUF)) with (List.find (holds_block s b) (seq 0 NBUF)).
      * destruct (List.find _ _) as [j|] eqn:E; [|done]. rewrite G. case_decide; [|done]. subst j.
        apply find_some in E as [_ E]. apply andb_true_iff in E as [E _]. apply same_block_true in E as []. done.
      * generalize (seq 0 NBUF). induction l0 as [|j L IH]; [done|]. cbn [List.find]. rewrite IH.
        replace (holds_block s' b j) with (holds_block s b j); [done|].
        unfold holds_block. rewrite G. case_decide; subst; done.
  - intros b. unfold dirty. split; intros (j & Hj & Hsb & Hdj); exists j; (split; [done|]); revert Hsb Hdj;
      rewrite G; case_decide; subst; done.
Qed.

Lemma view_same_find s s' b :
  (forall j, (j < NBUF)%nat -> holds_block s' b j = holds_block s b j /\
     (holds_block s b j = true -> data (get_buf s' j) = data (get_buf s j))) ->
  ((forall j, (j < NBUF)%nat -> holds_block s b j = false) -> disk_read (dsk s') b = disk_read (dsk s) b) ->
  view s' b = view s b.
Proof.
  intros Hj Hd. unfold view.
  replace (List.find (holds_block s' b) (seq 0 NBUF)) with (List.find (holds_block s b) (seq 0 NBUF)).
  - destruct (List.find _ _) as [j|] eqn:E.
    + apply find_some in E as [Hin E]. apply in_seq in Hin. by rewrite (proj2 (Hj j ltac:(lia)) E).
    + rewrite Hd; [done|]. intros j Hjr. apply (find_none _ _ E), in_seq. lia.
  - assert (HL : forall L, (forall j, j ∈ L -> (j < NBUF)%nat) ->
      List.find (holds_block s b) L = List.find (holds_block s' b) L).
    { induction L as [|j L IH]; intros HL; [done|]. cbn. rewrite (proj1 (Hj j (HL j ltac:(by left)))), IH; [done|].
      intros k Hk. apply HL. by right. }
    apply HL. intros j Hjs. apply elem_of_seq in Hjs. lia.
Qed.

Lemma disk_read_write d bn v b :
  disk_read (disk_write bn v d) b = if Z.eq_dec b bn then v else disk_read d b.
Proof.
  unfold disk_read, disk_write. cbn. destruct (Z.eq_dec b bn) as [->|Hne].
  - by rewrite lookup_insert_eq.
  - by rewrite lookup_insert_ne by done.
Qed.

(** After bwrite() of buffer i. *)
Record wrote (s : bio) (l H : list nat) (i : nat) (s' : bio) : Prop := {
  wr_inv : bio_inv s' l;
  wr_held : held pid s' H;
  wr_disk : dsk s' = disk_write (blockno (get_buf s i)) (data (get_buf s i)) (dsk s);
  wr_view : forall b, view s' b = view s b;
  wr_dirty : forall b, dirty s' b <-> dirty s b /\ b <> blockno (get_buf s i);
  wr_self : get_buf s' i = with_flags 2 (get_buf s i);
  wr_other : forall j, j <> i -> get_buf s' j = get_buf s j
}.

Lemma wp_bwrite s l H i (Q : unit -> bio -> Prop) :
  bio_inv s l -> held pid s H -> i ∈ H -> bdev (get_buf s i) = 1 -> is_valid (get_buf s i) = true ->
  blockno (get_buf s i) < disksize (dsk s) ->
  (forall s', wrote s l H i s' -> Q tt s') -> wp (bwrite pid i) s Q.
Proof.
  intros I Hh Hi Hd Hv Hb HQ. pose proof (hd_range _ _ _ Hh i Hi) as Hir.
  assert (Hi' : (i < length (bufs s))%nat) by (rewrite (bi_len _ _ I); lia).
  destruct (hd_locked _ _ _ Hh i Hi) as [Hlk _].
  assert (Hf6 : Z.lor (flags (get_buf s i)) B_DIRTY = 6).
  { unfold is_valid, has_flag in Hv. apply negb_true_iff in Hv.
    destruct (bi_flags _ _ I i Hir) as [E|[E|E]]; rewrite E in *; done. }
  unfold bwrite. apply wp_bind, wp_gets. rewrite Hlk, holding_mine. cbn [negb].
  apply wp_bind, wp_modify. rewrite Hf6.
  assert (Gi : get_buf (upd_buf i (with_flags 6) s) i = with_flags 6 (get_buf s i)) by (by rewrite get_upd, decide_True).
  apply wp_iderw_write; rewrite ?Gi; try done; [by rewrite length_upd|]. apply HQ.
  cbn [blockno data with_flags]. rewrite dsk_upd.
  set (d := disk_write _ _ _). set (s' := upd_buf i (with_flags 2) (set_disk d _)).
  assert (G : forall j, get_buf s' j = if decide (i = j) then with_flags 2 (get_buf s i) else get_buf s j).
  { intros j. unfold s'. rewrite get_upd by (cbn; by rewrite length_alter). rewrite !get_set_disk, !get_upd by done.
    destruct (decide (i = j)); [by rewrite decide_True|done]. }
  assert (Hoth : forall j, (j < NBUF)%nat -> i <> j -> bdev (get_buf s j) = 1 -> blockno (get_buf s j) <> blockno (get_buf s i)).
  { intros j Hj Hij Hdj E. apply Hij. by apply (bi_uniq s l I i j). }
  constructor; try done.
  - constructor.
    + cbn. rewrite !length_alter. apply I.
    + eapply seg_ext_in; [|apply (bi_links _ _ I)]. intros x _. rewrite G. case_decide; subst; done.
    + apply I.
    + intros j k Hj Hk. rewrite !G. do 2 case_decide; subst; cbn; try done; intros; [| |by apply (bi_uniq s l I)];
        [by apply (bi_uniq s l I)|by apply (bi_uniq s l I)].
    + intros j Hj. rewrite G. case_decide; [cbn; tauto|by apply I].
    + intros j Hj. rewrite G. case_decide; [done|by apply I].
  - destruct Hh. constructor; try done.
    + intros j Hj. rewrite G. case_decide; [subst; cbn|]; auto.
    + intros j Hj HjH. rewrite G, decide_False by (intros ->; done). auto.
    + intros j Hj HjH. rewrite G, decide_False by (intros ->; done). intros Hdj Hvj Hdd. cbn [dsk s' upd_buf set_disk].
      unfold d. rewrite disk_read_write. destruct (Z.eq_dec _ _) as [E|]; [|auto].
      exfalso. apply (Hoth j Hj); [intros ->; done|done|done].
  - intros b. apply view_same_find.
    + intros j Hj. unfold holds_block. rewrite G. case_decide; [subst j|done]. split; [|done].
      unfold is_valid in Hv. unfold same_block, is_valid. cbn. by rewrite Hv.
    + intros Hno. cbn [dsk s' upd_buf set_disk]. unfold d. rewrite disk_read_write.
      destruct (Z.eq_dec _ _) as [->|]; [|done]. specialize (Hno i Hir). unfold holds_block in Hno.
      rewrite Hv, andb_true_r in Hno. apply not_true_iff_false in Hno. rewrite same_block_true in Hno. tauto.
  - intros b. unfold dirty. split.
    + intros (j & Hj & Hsb & Hdj). rewrite G in Hsb, Hdj. case_decide; [done|]. split; [by exists j|].
      apply same_block_true in Hsb as [Hd1 <-]. by apply Hoth.
    + intros [(j & Hj & Hsb & Hdj) Hne]. exists j. rewrite G. case_decide; [|done]. subst j.
      apply same_block_true in Hsb as []. congruence.
  - by rewrite G, decide_True.
  - intros j Hj. by rewrite G, decide_False.
Qed.

(** ** Releasing *)

(** Everything in a buffer but its links. *)
Definition rest (b : buf) : Z * Z * Z * list Z * sleeplock * Z := (core b, block_lock b, refcnt b).

Lemma rest_upd s k f j :
  (k < length (bufs s))%nat -> (forall b, rest (f b) = rest b) -> rest (get_buf (upd_buf k f s) j) = rest (get_buf s j).
Proof. intros Hk Hf. rewrite get_upd by done. case_decide; [subst; apply Hf|done]. Qed.

(** Putting buffer i, which is on the list, at the front of it. *)
Lemma wp_move_front s l i (Q : unit -> bio -> Prop) :
  length (bufs s) = S NBUF -> linked (get_buf s) l -> NoDup (head :: l) -> (forall x, x ∈ l -> (x < NBUF)%nat) -> i ∈ l ->
  (forall s' l1 l2, l = l1 ++ i :: l2 -> linked (get_buf s') (i :: l1 ++ l2) -> length (bufs s') = S NBUF ->
     dsk s' = dsk s -> (forall j, rest (get_buf s' j) = rest (get_buf s j)) -> Q tt s') ->
  wp (let! b := buf_of i in
      mod_buf (bnext b) (with_prev (bprev b)) ;;;
      let! b := buf_of i in
      mod_buf (bprev b) (with_next (bnext b)) ;;;
      link_front i) s Q.
Proof.
  intros Hlen Hl Hnd Hran Hi HQ. apply list_elem_of_split in Hi as (l1 & l2 & ->).
  destruct (linked_split _ l1 i l2 Hl) as (_ & _ & Hp & Hn & _ & _).
  set (p := List.last (head :: l1) head) in *. set (n := List.hd head l2) in *.
  pose proof (linked_unlink (get_buf s)) as Hun.
  assert (Hih : (i < NBUF)%nat) by (apply Hran; rewrite elem_of_app, ?elem_of_cons; auto).
  assert (Hnd2 : NoDup (head :: i :: l1 ++ l2)).
  { rewrite Permutation_middle. exact Hnd. }
  assert (Hpi : p <> i /\ (p <= NBUF)%nat).
  { assert (Hp' : p ∈ head :: l1) by apply last_elem. apply NoDup_cons in Hnd as [_ Hnd]. apply NoDup_app in Hnd as (_ & Hd & _).
    apply elem_of_cons in Hp' as [->|Hp']; [unfold head; lia|]. split; [intros ->; by apply (Hd i Hp'); left|].
    assert (p < NBUF)%nat by (apply Hran; rewrite elem_of_app, ?elem_of_cons; auto). lia. }
  assert (Hni : n <> i /\ (n <= NBUF)%nat).
  { apply NoDup_cons in Hnd as [_ Hnd]. apply NoDup_app in Hnd as (_ & _ & Hnd). apply NoDup_cons in Hnd as [Hi2 _].
    unfold n. destruct l2 as [|x l2]; [unfold head; cbn; lia|]. cbn. split; [intros ->; apply Hi2; by left|].
    assert (x < NBUF)%nat by (apply Hran; rewrite elem_of_app, ?elem_of_cons; auto). lia. }
  apply wp_bind, wp_gets. rewrite Hn, Hp. apply wp_bind, wp_modify.
  set (sA := upd_buf n (with_prev p) s).
  assert (LA : length (bufs sA) = S NBUF) by (unfold sA; by rewrite length_upd).
  assert (GA : get_buf sA i = get_buf s i) by (unfold sA; rewrite get_upd, decide_False by (tauto || lia); done).
  apply wp_bind, wp_gets. rewrite GA, Hn, Hp. apply wp_bind, wp_modify.
  set (sB := upd_buf p (with_next n) sA).
  assert (LB : length (bufs sB) = S NBUF) by (unfold sB; by rewrite length_upd).
  assert (HB : linked (get_buf sB) (l1 ++ l2)).
  { apply (Hun (get_buf sB) l1 i l2 Hnd Hl); intros x; unfold sB, sA; fold p n;
      rewrite !get_upd by (rewrite ?length_upd; lia); repeat case_decide; subst; cbn; try done; congruence. }
  unfold link_front. apply wp_bind, wp_gets.
  assert (En0 : bnext (get_buf sB head) = List.hd head (l1 ++ l2)).
  { unfold linked in HB. destruct (l1 ++ l2); by apply seg_cons in HB as (? & _). }
  set (n0 := List.hd head (l1 ++ l2)) in *. rewrite En0.
  assert (Hn0 : n0 <> i /\ (n0 <= NBUF)%nat).
  { apply NoDup_cons in Hnd2 as [_ Hnd2]. apply NoDup_cons in Hnd2 as [Hi2 _].
    unfold n0. destruct (l1 ++ l2) as [|x l3] eqn:E; [unfold head; cbn; lia|]. cbn. split; [intros ->; apply Hi2; by left|].
    assert (Hx : x ∈ l1 ++ l2) by (rewrite E; by left). apply elem_of_app in Hx.
    assert (x < NBUF)%nat by (apply Hran; rewrite elem_of_app, elem_of_cons; tauto). lia. }
  apply wp_bind, wp_modify, wp_bind, wp_modify, wp_bind, wp_gets.
  set (sD := upd_buf i (with_prev head) _).
  assert (LD : length (bufs sD) = S NBUF) by (unfold sD; by rewrite !length_upd).
  assert (ED : bnext (get_buf sD head) = n0).
  { unfold sD. rewrite !get_upd by (rewrite ?length_upd; lia). rewrite !decide_False by (unfold head; lia). done. }
  rewrite ED. apply wp_bind, wp_modify, wp_modify.
  apply (HQ _ l1 l2 eq_refl).
  - apply (linked_front (get_buf sB) _ i (l1 ++ l2) Hnd2 HB); intros x; unfold sD; fold n0;
      rewrite !get_upd by (rewrite ?length_upd; unfold head; lia); repeat case_decide; subst; cbn; try done; congruence.
  - by rewrite !length_upd.
  - done.
  - intros j. unfold sD, sB, sA. rewrite !rest_upd; try done; rewrite ?length_upd; unfold head; lia.
Qed.

Lemma wp_gets_inv {A B} (f : bio -> A) (k : A -> M bio B) s Q : wp (bind (gets f) k) s Q -> wp (k (f s)) s Q.
Proof. exact id. Qed.

(** After brelse() of buffer i. *)
Record released (s : bio) (l H' : list nat) (i : nat) (s' : bio) (l' : list nat) : Prop := {
  rl_inv : bio_inv s' (i :: l');
  rl_order : exists l1 l2, l = l1 ++ i :: l2 /\ l' = l1 ++ l2;
  rl_held : held pid s' H';
  rl_disk : dsk s' = dsk s;
  rl_core : forall j, core (get_buf s' j) = core (get_buf s j)
}.

Lemma core_fields b b' : core b' = core b ->
  flags b' = flags b /\ bdev b' = bdev b /\ blockno b' = blockno b /\ data b' = data b /\
  is_valid b' = is_valid b /\ is_dirty b' = is_dirty b.
Proof.
  unfold core. intros [= E1 E2 E3 E4]. unfold is_valid, is_dirty, has_flag. by rewrite E1.
Qed.

Lemma wp_brelse s l H H' i (Q : unit -> bio -> Prop) :
  bio_inv s l -> held pid s H -> H ≡ₚ i :: H' ->
  (is_dirty (get_buf s i) = true \/ data (get_buf s i) = disk_read (dsk s) (blockno (get_buf s i))) ->
  (forall s' l', released s l H' i s' l' -> Q tt s') -> wp (brelse pid i) s Q.
Proof.
  intros I Hh HP Hdata HQ. pose proof (held_perm s _ _ HP Hh) as Hh2.
  assert (HiH : i ∈ i :: H') by (by left). pose proof (hd_range _ _ _ Hh2 i HiH) as Hir.
  assert (Hi' : (i < length (bufs s))%nat) by (rewrite (bi_len _ _ I); lia).
  destruct (hd_locked _ _ _ Hh2 i HiH) as [Hlk Hr].
  unfold brelse. apply wp_bind, wp_gets. rewrite Hlk, holding_mine. cbn [negb].
  apply wp_bind, wp_modify, wp_bind, wp_gets. rewrite get_upd, decide_True by done.
  cbn [refcnt with_lock]. rewrite Hr. apply wp_bind, wp_modify. change (u32 (1 - 1)) with 0. rewrite upd_upd.
  set (s1 := upd_buf i _ s).
  assert (G : forall j, get_buf s1 j = if decide (i = j) then with_refcnt 0 (with_lock (mkSleep false 0) (get_buf s i)) else get_buf s j).
  { intros j. unfold s1. by rewrite get_upd. }
  apply wp_bind, wp_gets. rewrite G, decide_True by done. cbn [refcnt with_refcnt]. cbn [when Z.eqb].
  assert (W : wp (let! b := buf_of i in
      mod_buf (bnext b) (with_prev (bprev b)) ;;;
      let! b := buf_of i in
      mod_buf (bprev b) (with_next (bnext b)) ;;;
      link_front i) s1 Q).
  { apply (wp_move_front s1 l); [unfold s1; rewrite length_upd; apply I| |by apply (bi_nodup s)| | |].
    - apply linked_upd; [done..|apply I].
    - intros x. by rewrite (elem_perm s l).
    - by rewrite (elem_perm s l).
    - intros s' l1 l2 El Hl' Hlen' Hd' Hrest. apply (HQ s' (l1 ++ l2)).
      assert (Hc : forall j, core (get_buf s' j) = core (get_buf s j)).
      { intros j. specialize (Hrest j). injection Hrest as E1 E2 E3 E4 E5 E6. unfold core. rewrite E1, E2, E3, E4, G.
        by case_decide; subst. }
      constructor; try done; [|by eauto|].
      + constructor; try done.
        * rewrite <- (bi_perm s l I), El. apply Permutation_middle.
        * intros a b Ha Hb. destruct (core_fields _ _ (Hc a)) as (_ & -> & -> & _), (core_fields _ _ (Hc b)) as (_ & -> & -> & _).
          by apply (bi_uniq s l I).
        * intros a Ha. destruct (core_fields _ _ (Hc a)) as (-> & _). by apply (bi_flags s l I).
        * intros a Ha. destruct (core_fields _ _ (Hc a)) as (-> & -> & _). by apply (bi_dev s l I).
      + pose proof (hd_nodup _ _ _ Hh2) as [HiH' Hnd]%NoDup_cons.
        assert (Hlr : forall j, block_lock (get_buf s' j) = block_lock (get_buf s1 j) /\ refcnt (get_buf s' j) = refcnt (get_buf s1 j)).
        { intros j. specialize (Hrest j). by injection Hrest as _ _ _ _ ? ?. }
        constructor; [done| | | |].
        * intros j Hj. apply (hd_range _ _ _ Hh2). by right.
        * intros j Hj. destruct (Hlr j) as [-> ->]. rewrite G, decide_False by congruence. apply (hd_locked _ _ _ Hh2). by right.
        * intros j Hj HjH. destruct (Hlr j) as [-> ->]. rewrite G. case_decide; [done|].
          apply (hd_free _ _ _ Hh2); [done|]. by apply not_elem_of_cons.
        * intros j Hj HjH. destruct (core_fields _ _ (Hc j)) as (_ & -> & -> & -> & -> & ->). rewrite Hd'. intros Hd1 Hv1 Hdd.
          destruct (decide (i = j)) as [<-|Hij]; [destruct Hdata; [congruence|done]|].
          apply (hd_clean _ _ _ Hh2); try done. apply not_elem_of_cons. done. }
  apply wp_gets_inv in W. rewrite G, decide_True in W by done. exact W.
Qed.
End Spec.

(** ** Boot *)

(** A cache in which nothing was read yet. *)
Definition fresh (b : buf) : bool :=
  (flags b =? 0) && (bdev b =? 0) && negb (locked (block_lock b)) && (refcnt b =? 0).

Lemma fresh_ok B d l :
  length B = S NBUF -> forallb (fun i => fresh (nth i B no_buf)) (seq 0 NBUF) = true ->
  linked (fun i => nth i B no_buf) l -> l ≡ₚ seq 0 NBUF ->
  bio_inv (mkBio B d) l /\ (forall pid, held pid (mkBio B d) []) /\
  forall i, (i < NBUF)%nat -> flags (get_buf (mkBio B d) i) = 0.
Proof.
  intros Hlen Hf Hl Hp.
  assert (F : forall i, (i < NBUF)%nat -> flags (nth i B no_buf) = 0 /\ bdev (nth i B no_buf) = 0 /\
    locked (block_lock (nth i B no_buf)) = false /\ refcnt (nth i B no_buf) = 0).
  { intros i Hi. rewrite forallb_forall in Hf. specialize (Hf i ltac:(apply in_seq; lia)). unfold fresh in Hf. b2p. done. }
  split_and!; [|intros pid|intros i Hi; by apply F]; constructor; try done; unfold get_buf; cbn [bufs].
  - intros i j Hi Hj H. destruct (F i Hi) as (_ & E & _). congruence.
  - intros i Hi. left. by apply F.
  - intros i Hi H. destruct (F i Hi). congruence.
  - constructor.
  - intros i Hi. by apply not_elem_of_nil in Hi.
  - intros i Hi. by apply not_elem_of_nil in Hi.
  - intros i Hi _. by apply F.
  - intros i Hi _ H. destruct (F i Hi) as (_ & E & _). congruence.
Qed.

Lemma binit_ok d :
  exists s, binit (bio_boot d) = Ok tt s /\ dsk s = d /\ bio_inv s (rev (seq 0 NBUF)) /\ (forall pid, held pid s []) /\
    forall i, (i < NBUF)%nat -> flags (get_buf s i) = 0.
Proof.
  destruct (binit (bio_boot d)) as [[] s| | |] eqn:E; [|vm_compute in E; discriminate..].
  exists s. split; [done|]. vm_compute in E. injection E as <-. split; [done|].
  apply fresh_ok; [reflexivity|vm_compute; reflexivity|vm_compute; tauto|].
  symmetry. apply Permutation_rev.
Qed.
