(* ===== verification/Ide.v ===== *)
(** The disk driver (ide.c), and the controller it drives.

    The buffers and disk 1, the disk of the file system, are the state of
    [Bio]; the request queue is threaded through the buffers' qnext.  The
    controller has the registers behind the ports 0x1f2..0x1f6, a command
    that is under way or data that wait to be read, and the interrupt it has
    raised.  What runs under idelock is one step; iderw() is cut where it
    sleeps.  A routine that polls a busy controller is [Blocked]. *)

From Stdlib Require Import ZArith Lia.
From stdpp Require Import base gmap strings numbers list.
From S2P Require Import Prelude Bio.

Open Scope Z_scope.
Open Scope kern_scope.

Definition SECTOR_SIZE : Z := 512.
Definition IDE_BSY : Z := 0x80.
Definition IDE_DRDY : Z := 0x40.
Definition IDE_DF : Z := 0x20.
Definition IDE_ERR : Z := 0x01.
Definition IDE_CMD_READ : Z := 0x20.
Definition IDE_CMD_WRITE : Z := 0x30.
Definition IDE_CMD_RDMUL : Z := 0xc4.
Definition IDE_CMD_WRMUL : Z := 0xc5.

(** ** The controller *)

Inductive command :=
| Idle
| Busy (write : bool) (d : list Z)  (* the bytes to be written, as far as they have come *)
| Data (d : list Z).                (* the bytes that have been read *)

Record controller := mk_ctl {
  nsect : Z; lba0 : Z; lba1 : Z; lba2 : Z; drive : Z;
  cmd : command;
  cerr : bool;     (* the last command failed *)
  irq : bool;      (* an interrupt is pending *)
  present1 : bool; (* there is a disk 1 *)
}.

Record ide := mk_ide {
  ibio : bio;
  disk0 : disk;
  qnext : list (option nat);  (* of each buffer *)
  idequeue : option nat;
  havedisk1 : bool;
  ctl : controller;
  asleep : list (Z * nat);    (* processes that sleep in iderw(), and the buffer *)
  awake : list (Z * nat);     (* those that have been woken *)
}.

Definition set_ibio v s := mk_ide v (disk0 s) (qnext s) (idequeue s) (havedisk1 s) (ctl s) (asleep s) (awake s).
Definition set_disk0 v s := mk_ide (ibio s) v (qnext s) (idequeue s) (havedisk1 s) (ctl s) (asleep s) (awake s).
Definition set_qnext v s := mk_ide (ibio s) (disk0 s) v (idequeue s) (havedisk1 s) (ctl s) (asleep s) (awake s).
Definition set_idequeue v s := mk_ide (ibio s) (disk0 s) (qnext s) v (havedisk1 s) (ctl s) (asleep s) (awake s).
Definition set_havedisk1 v s := mk_ide (ibio s) (disk0 s) (qnext s) (idequeue s) v (ctl s) (asleep s) (awake s).
Definition set_ctl v s := mk_ide (ibio s) (disk0 s) (qnext s) (idequeue s) (havedisk1 s) v (asleep s) (awake s).
Definition set_procs v w s := mk_ide (ibio s) (disk0 s) (qnext s) (idequeue s) (havedisk1 s) (ctl s) v w.
Definition set_cmd v c := mk_ctl (nsect c) (lba0 c) (lba1 c) (lba2 c) (drive c) v (cerr c) (irq c) (present1 c).
Definition set_irq v c := mk_ctl (nsect c) (lba0 c) (lba1 c) (lba2 c) (drive c) (cmd c) (cerr c) v (present1 c).

(** The drive and the sector that the registers select. *)
Definition sel_drive (c : controller) : bool := Z.testbit (drive c) 4.
Definition sel_sector (c : controller) : Z := lba0 c + 2 ^ 8 * lba1 c + 2 ^ 16 * lba2 c + 2 ^ 24 * Z.land (drive c) 0x0f.

Definition is_busy (c : controller) : bool := match cmd c with Busy _ _ => true | _ => false end.

(** The status register. *)
Definition status (c : controller) : Z :=
  if sel_drive c && negb (present1 c) then 0
  else if is_busy c then IDE_BSY
  else Z.lor IDE_DRDY (if cerr c then IDE_ERR else 0).

Definition set_reg (port v : Z) (c : controller) : option controller :=
  if port =? 0x3f6 then Some c
  else if port =? 0x1f2 then Some (mk_ctl v (lba0 c) (lba1 c) (lba2 c) (drive c) (cmd c) (cerr c) (irq c) (present1 c))
  else if port =? 0x1f3 then Some (mk_ctl (nsect c) v (lba1 c) (lba2 c) (drive c) (cmd c) (cerr c) (irq c) (present1 c))
  else if port =? 0x1f4 then Some (mk_ctl (nsect c) (lba0 c) v (lba2 c) (drive c) (cmd c) (cerr c) (irq c) (present1 c))
  else if port =? 0x1f5 then Some (mk_ctl (nsect c) (lba0 c) (lba1 c) v (drive c) (cmd c) (cerr c) (irq c) (present1 c))
  else if port =? 0x1f6 then Some (mk_ctl (nsect c) (lba0 c) (lba1 c) (lba2 c) v (cmd c) (cerr c) (irq c) (present1 c))
  else if port =? 0x1f7 then
    if v =? IDE_CMD_READ then Some (mk_ctl (nsect c) (lba0 c) (lba1 c) (lba2 c) (drive c) (Busy false []) false (irq c) (present1 c))
    else if v =? IDE_CMD_WRITE then Some (mk_ctl (nsect c) (lba0 c) (lba1 c) (lba2 c) (drive c) (Busy true []) false (irq c) (present1 c))
    else None
  else None.

(** A busy controller takes no register, and it has no other command. *)
Definition outb (port v : Z) : M ide unit :=
  let! c := gets ctl in
  require (negb (is_busy c)) "register of a busy controller" ;;;
  match set_reg port (u8 v) c with
  | Some c' => modify (set_ctl c')
  | None => undef "port"
  end.

(** inb(0x1f7) *)
Definition inb_status : M ide Z := gets (fun s => status (ctl s)).

(** outsl(0x1f0, d, cnt), after a write command *)
Definition outsl (d : list Z) (cnt : Z) : M ide unit :=
  let! c := gets ctl in
  match cmd c with
  | Busy true [] => modify (set_ctl (set_cmd (Busy true (take (Z.to_nat (4 * cnt)) d)) c))
  | _ => undef "outsl"
  end.

(** insl(0x1f0, addr, cnt), when a sector has been read *)
Definition insl (cnt : Z) : M ide (list Z) :=
  let! c := gets ctl in
  match cmd c with
  | Data d => modify (set_ctl (set_cmd Idle c)) ;;; ret (take (Z.to_nat (4 * cnt)) d)
  | _ => undef "insl"
  end.

(** The controller finishes the command and raises its interrupt; [err]: the
    command has failed, and nothing has been written. *)
Definition hw_done (err : bool) (s : ide) : ide :=
  let c := ctl s in
  let ended v := set_ctl (mk_ctl (nsect c) (lba0 c) (lba1 c) (lba2 c) (drive c) v err true (present1 c)) in
  match cmd c with
  | Busy false _ => ended (Data (if err then [] else disk_read (if sel_drive c then dsk (ibio s) else disk0 s) (sel_sector c))) s
  | Busy true d =>
      let s' := if err then s
                else if sel_drive c then set_ibio (set_disk (disk_write (sel_sector c) d (dsk (ibio s))) (ibio s)) s
                else set_disk0 (disk_write (sel_sector c) d (disk0 s)) s in
      ended Idle s'
  | _ => s
  end.

(** ** The driver *)

(** Polls until the controller is ready. *)
Definition idewait (checkerr : bool) : M ide Z :=
  let! r := inb_status in
  if negb (Z.land r (Z.lor IDE_BSY IDE_DRDY) =? IDE_DRDY) then blocked
  else if checkerr && negb (Z.land r (Z.lor IDE_DF IDE_ERR) =? 0) then ret (-1)
  else ret 0.

Definition ideinit : M ide unit :=
  let! _ := idewait false in
  outb 0x1f6 (Z.lor 0xe0 (Z.shiftl 1 4)) ;;;
  let! r := search 1000 0 (fun i =>
    let! st := inb_status in
    if negb (st =? 0) then modify (set_havedisk1 true) ;;; ret (Some tt) else ret None) in
  outb 0x1f6 (Z.lor 0xe0 (Z.shiftl 0 4)).

Definition ibuf (i : nat) : M ide buf := gets (fun s => get_buf (ibio s) i).
Definition imod (i : nat) (f : buf -> buf) : M ide unit := modify (fun s => set_ibio (upd_buf i f (ibio s)) s).

Definition idestart (b : option nat) : M ide unit :=
  match b with
  | None => panic "idestart"
  | Some i =>
      let! b := ibuf i in
      if blockno b >=? FSSIZE then panic "incorrect blockno"
      else
        let sector_per_block := BSIZE / SECTOR_SIZE in
        let sector := i32 (u32 (blockno b * sector_per_block)) in
        let read_cmd := if sector_per_block =? 1 then IDE_CMD_READ else IDE_CMD_RDMUL in
        let write_cmd := if sector_per_block =? 1 then IDE_CMD_WRITE else IDE_CMD_WRMUL in
        if sector_per_block >? 7 then panic "idestart"
        else
          let! _ := idewait false in
          outb 0x3f6 0 ;;;
          outb 0x1f2 sector_per_block ;;;
          outb 0x1f3 (Z.land sector 0xff) ;;;
          outb 0x1f4 (Z.land (Z.shiftr sector 8) 0xff) ;;;
          outb 0x1f5 (Z.land (Z.shiftr sector 16) 0xff) ;;;
          outb 0x1f6 (Z.lor (Z.lor 0xe0 (Z.shiftl (Z.land (bdev b) 1) 4)) (Z.land (Z.shiftr sector 24) 0x0f)) ;;;
          if has_flag b B_DIRTY then
            outb 0x1f7 write_cmd ;;;
            outsl (data b) (BSIZE / 4)
          else outb 0x1f7 read_cmd
  end.

(** wakeup(b) *)
Definition ide_wakeup (b : nat) : M ide unit :=
  modify (fun s => set_procs (filter (fun x => x.2 <> b) (asleep s)) (awake s ++ filter (fun x => x.2 = b) (asleep s)) s).

Definition ideintr : M ide unit :=
  let! q := gets idequeue in
  match q with
  | None => ret tt
  | Some b =>
      let! nx := gets (fun s => nth b (qnext s) None) in
      modify (set_idequeue nx) ;;;
      let! v := ibuf b in
      (if negb (has_flag v B_DIRTY) then
         let! r := idewait true in
         when (r >=? 0)
           (let! d := insl (BSIZE / 4) in
            imod b (with_data d))
       else ret tt) ;;;
      imod b (fun v => with_flags (Z.lor (flags v) B_VALID) v) ;;;
      imod b (fun v => with_flags (Z.land (flags v) (Z.lnot B_DIRTY)) v) ;;;
      ide_wakeup b ;;;
      let! q := gets idequeue in
      match q with
      | None => ret tt
      | Some _ => idestart q
      end
  end.

(** The loop of iderw() to the end of the queue: pp is &idequeue (None) or the
    address of a buffer's qnext. *)
Fixpoint queue_end (fuel : nat) (pp : option nat) : M ide (option nat) :=
  match fuel with
  | O => blocked
  | S fuel' =>
      let! p := gets (fun s => match pp with None => idequeue s | Some i => nth i (qnext s) None end) in
      match p with
      | None => ret pp
      | Some i => queue_end fuel' (Some i)
      end
  end.

(** *pp = b *)
Definition store_link (pp : option nat) (b : option nat) : M ide unit :=
  match pp with
  | None => modify (set_idequeue b)
  | Some i => modify (fun s => set_qnext (<[i := b]> (qnext s)) s)
  end.

(** The test of the loop: the caller has returned, or it sleeps. *)
Definition iderw_test (pid : Z) (i : nat) : M ide bool :=
  let! b := ibuf i in
  if negb (Z.land (flags b) (Z.lor B_VALID B_DIRTY) =? B_VALID) then
    modify (fun s => set_procs (asleep s ++ [(pid, i)]) (awake s) s) ;;;
    ret false
  else ret true.

(** A call by process pid. *)
Definition iderw (pid : Z) (i : nat) : M ide bool :=
  let! b := ibuf i in
  if negb (holdingsleep pid (block_lock b)) then panic "iderw: buf not locked"
  else if Z.land (flags b) (Z.lor B_VALID B_DIRTY) =? B_VALID then panic "iderw: nothing to do"
  else
    let! h := gets havedisk1 in
    if negb (bdev b =? 0) && negb h then panic "iderw: ide disk 1 not present"
    else
      store_link (Some i) None ;;;
      let! n := gets (fun s => length (qnext s)) in
      let! pp := queue_end (S n) None in
      store_link pp (Some i) ;;;
      let! q := gets idequeue in
      (if bool_decide (q = Some i) then idestart (Some i) else ret tt) ;;;
      iderw_test pid i.

(** A process that has been woken goes on. *)
Definition ide_resume (pid : Z) (i : nat) : M ide bool :=
  modify (fun s => set_procs (asleep s) (filter (fun x => x <> (pid, i)) (awake s)) s) ;;;
  iderw_test pid i.
