(* ===== verification/IdeSpec.v ===== *)
(** The driver ide.c serves requests in the order of the calls, and each as
    memide.c would: invariant and simulation. *)

From Stdlib Require Import ZArith Lia.
From stdpp Require Import base gmap strings numbers list.
From S2P Require Import Prelude Bio BioSpec Ide.

Open Scope Z_scope.
Open Scope kern_scope.

(** ** The queue *)

(** From p on the links lead along l. *)
Fixpoint chain (qn : list (option nat)) (p : option nat) (l : list nat) : Prop :=
  match l with
  | [] => p = None
  | x :: r => p = Some x /\ chain qn (nth x qn None) r
  end.

Lemma nth_insert_ne {A} (l : list A) i j x d : i <> j -> nth j (<[i := x]> l) d = nth j l d.
Proof. intros Hne. by rewrite !nth_lookup, list_lookup_insert_ne. Qed.

Lemma nth_insert_eq {A} (l : list A) i x d : (i < length l)%nat -> nth i (<[i := x]> l) d = x.
Proof. intros Hl. by rewrite nth_lookup, list_lookup_insert_eq. Qed.

Lemma chain_other qn i v l : forall p, i ∉ l -> chain qn p l -> chain (<[i := v]> qn) p l.
Proof.
  induction l as [|x r IH]; intros p Hi; [done|]. cbn [chain]. apply not_elem_of_cons in Hi as [Hx Hr]. intros [Ep HC]. split; [done|]. rewrite nth_insert_ne by done. by apply IH.
Qed.

Lemma chain_snoc qn l x i : forall p, NoDup (l ++ [x]) -> (x < length qn)%nat -> i <> x -> nth i qn None = None -> chain qn p (l ++ [x]) -> chain (<[x := Some i]> qn) p (l ++ [x; i]).
Proof.
  induction l as [|y r IH]; intros p HD Hx Hi HN; cbn [app chain].
  - intros [-> HC]. split; [done|]. rewrite nth_insert_eq by done. split; [done|]. by rewrite nth_insert_ne by done.
  - intros [-> HC]. apply NoDup_cons in HD as [Hy HD]. split; [done|]. rewrite nth_insert_ne; [by apply IH|]. intros ->. apply Hy. set_solver.
Qed.

Lemma wp_queue_end fuel : forall pp r (s : ide) (Q : option nat -> ide -> Prop), (length r < fuel)%nat -> chain (qnext s) (match pp with None => idequeue s | Some i => nth i (qnext s) None end) r ->
  Q (match last r with Some x => Some x | None => pp end) s -> wp (queue_end fuel pp) s Q.
Proof.
  induction fuel as [|fuel IH]; intros pp r s Q Hf HC HQ; [lia|]. cbn [queue_end]. apply wp_bind, wp_gets. destruct r as [|x r]; cbn [chain] in HC.
  - rewrite HC. by apply wp_ret.
  - destruct HC as [-> HC]. apply (IH _ r); [cbn in Hf; lia|done|]. rewrite last_cons in HQ. by destruct (last r).
Qed.

(** ** The registers *)

(** The controller has been told to serve the buffer. *)
Definition selects (c : controller) (b : buf) : Prop := sel_drive c = true /\ sel_sector c = blockno b.

Lemma byte_of x k : 0 <= k -> Z.land (Z.shiftr x k) 0xff = (x / 2 ^ k) mod 256.
Proof. intros Hk. change 0xff with (Z.ones 8). rewrite Z.land_ones, Z.shiftr_div_pow2 by lia. done. Qed.

Lemma status_ready c : present1 c = true -> is_busy c = false -> Z.land (status c) (Z.lor IDE_BSY IDE_DRDY) = IDE_DRDY.
Proof. intros Hp Hb. unfold status. rewrite Hp, Hb, andb_false_r. by destruct (cerr c). Qed.

Lemma wp_idewait0 s (Q : Z -> ide -> Prop) : present1 (ctl s) = true -> is_busy (ctl s) = false -> Q 0 s -> wp (idewait false) s Q.
Proof. intros Hp Hb HQ. unfold idewait. apply wp_bind, wp_gets. rewrite status_ready by done. by apply wp_ret. Qed.

Definition dirty (b : buf) : bool := has_flag b B_DIRTY.

(** The controller when idestart() has run. *)
Definition started (c : controller) (b : buf) : controller :=
  mk_ctl 1 (blockno b mod 256) (blockno b / 256) 0 0xf0 (if dirty b then Busy true (data b) else Busy false []) false (irq c) (present1 c).

Definition request (b : buf) : Prop := bdev b = 1 /\ 0 <= blockno b < FSSIZE /\ length (data b) = 512%nat.

Lemma started_selects c b : request b -> selects (started c b) b.
Proof. intros (_ & Hb & _). unfold FSSIZE in Hb. split; [done|]. unfold sel_sector, started. cbn [lba0 lba1 lba2 drive]. change (Z.land 240 0x0f) with 0. zdm. Qed.

Lemma wp_outb port v c' s (Q : unit -> ide -> Prop) : is_busy (ctl s) = false -> set_reg port (u8 v) (ctl s) = Some c' -> Q tt (set_ctl c' s) -> wp (outb port v) s Q.
Proof. intros Hb E HQ. unfold outb. apply wp_bind, wp_gets, wp_bind. rewrite Hb. apply wp_require; [done|]. rewrite E. by apply wp_modify. Qed.

Lemma wp_idestart i s (b := get_buf (ibio s) i) (Q : unit -> ide -> Prop) : present1 (ctl s) = true -> is_busy (ctl s) = false -> request b -> Q tt (set_ctl (started (ctl s) b) s) -> wp (idestart (Some i)) s Q.
Proof.
  intros Hp Hb (Hd & Hn & Hl) HQ. unfold FSSIZE in Hn. unfold idestart. apply wp_bind, wp_gets. fold b. unfold FSSIZE. replace (blockno b >=? 1000) with false by lia. change (BSIZE / SECTOR_SIZE) with 1. cbn [Z.eqb Pos.eqb]. change (1 >? 7) with false. cbv iota.
  rewrite Z.mul_1_r, u32_small, i32_small by lia. apply wp_bind, wp_idewait0; [done|done|].
  assert (E0 : Z.land (blockno b) 0xff = blockno b mod 256) by (rewrite <- (Z.shiftr_0_r (blockno b)) at 1; rewrite byte_of, Z.div_1_r by lia; done).
  assert (E1 : Z.land (Z.shiftr (blockno b) 8) 0xff = blockno b / 256) by (rewrite byte_of by lia; change (2 ^ 8) with 256; zdm).
  assert (E2 : Z.land (Z.shiftr (blockno b) 16) 0xff = 0) by (rewrite byte_of by lia; change (2 ^ 16) with 65536; zdm).
  assert (E3 : Z.shiftr (blockno b) 24 = 0) by (rewrite Z.shiftr_div_pow2 by lia; change (2 ^ 24) with 16777216; zdm).
  rewrite E0, E1, E2, E3, Hd. change (Z.lor (Z.lor 0xe0 (Z.shiftl (Z.land 1 1) 4)) (Z.land 0 0x0f)) with 0xf0.
  do 6 (apply wp_bind; eapply wp_outb; [done|reflexivity|]). cbn [ctl set_ctl nsect lba0 lba1 lba2 drive cmd cerr irq present1]. rewrite (u8_small (blockno b mod 256)), (u8_small (blockno b / 256)) by zdm.
  unfold started in HQ. fold (dirty b). destruct (dirty b).
  - apply wp_bind. eapply wp_outb; [done|reflexivity|]. unfold outsl. apply wp_bind, wp_gets. cbn [cmd ctl set_ctl]. apply wp_modify. change (Z.to_nat (4 * (BSIZE / 4))) with 512%nat. rewrite take_ge by lia. exact HQ.
  - eapply wp_outb; [done|reflexivity|]. exact HQ.
Qed.

(** ** Flags *)

Lemma six_bits n : 0 <= n -> Z.testbit 6 n = (n =? 1) || (n =? 2).
Proof.
  intros Hn. destruct (decide (n < 3)) as [H3|H3].
  - assert (n = 0 \/ n = 1 \/ n = 2) as [->|[->| ->]] by lia; reflexivity.
  - rewrite Z.bits_above_log2 by (cbn; lia). symmetry. apply orb_false_iff. lia.
Qed.

Lemma flags_bits f : Z.land f (Z.lor B_VALID B_DIRTY) = (if Z.testbit f 1 then 2 else 0) + (if Z.testbit f 2 then 4 else 0).
Proof.
  change (Z.lor B_VALID B_DIRTY) with 6. apply Z.bits_inj'. intros n Hn. rewrite Z.land_spec, six_bits by done. destruct (Z.eqb_spec n 1) as [->|H1]; [destruct (Z.testbit f 1), (Z.testbit f 2); reflexivity|]. destruct (Z.eqb_spec n 2) as [->|H2]; [destruct (Z.testbit f 1), (Z.testbit f 2); reflexivity|]. cbn [orb]. rewrite andb_false_r.
  assert (E : forall m, m = 0 \/ m = 2 \/ m = 4 \/ m = 6 -> Z.testbit m n = false).
  { intros m Hm. destruct (decide (n = 0)) as [->|H0]; [destruct Hm as [->|[->|[->| ->]]]; reflexivity|]. destruct Hm as [->|Hm]; [apply Z.bits_0|]. apply Z.bits_above_log2; destruct Hm as [->|[->| ->]]; cbn; lia. }
  symmetry. apply E. destruct (Z.testbit f 1), (Z.testbit f 2); lia.
Qed.

Lemma valid_only f : Z.land f (Z.lor B_VALID B_DIRTY) = B_VALID <-> Z.testbit f 1 = true /\ Z.testbit f 2 = false.
Proof. rewrite flags_bits. unfold B_VALID. destruct (Z.testbit f 1), (Z.testbit f 2); split; (done || lia || (intros [? ?]; done)). Qed.

Lemma dirty_bit b : dirty b = Z.testbit (flags b) 2.
Proof.
  unfold dirty, has_flag. change B_DIRTY with (2 ^ 2). destruct (Z.testbit (flags b) 2) eqn:E.
  - apply negb_true_iff, Z.eqb_neq. intros H0. assert (H1 : Z.testbit (Z.land (flags b) (2 ^ 2)) 2 = false) by (by rewrite H0). rewrite Z.land_spec, E in H1. done.
  - apply negb_false_iff, Z.eqb_eq. apply Z.bits_inj'. intros n Hn. rewrite Z.bits_0, Z.land_spec, Z.pow2_bits_eqb by lia. destruct (Z.eqb_spec 2 n) as [<-|]; [by rewrite E|apply andb_false_r].
Qed.

(** What ideintr() and memide.c make of the flags is the same. *)
Definition done_flags (f : Z) : Z := Z.land (Z.lor f B_VALID) (Z.lnot B_DIRTY).

Lemma done_flags_write f : Z.lor (Z.land f (Z.lnot B_DIRTY)) B_VALID = done_flags f.
Proof. unfold done_flags. rewrite Z.land_lor_distr_l. done. Qed.

Lemma done_flags_read f : Z.testbit f 2 = false -> Z.lor f B_VALID = done_flags f.
Proof.
  intros E. rewrite <- done_flags_write. f_equal. apply Z.bits_inj'. intros n Hn. rewrite Z.land_spec, Z.lnot_spec by done. change B_DIRTY with (2 ^ 2). rewrite Z.pow2_bits_eqb by lia. destruct (Z.eqb_spec 2 n) as [<-|]; [by rewrite E|by rewrite andb_true_r].
Qed.

Lemma done_flags_valid f : Z.land (done_flags f) (Z.lor B_VALID B_DIRTY) = B_VALID.
Proof. apply valid_only. unfold done_flags. rewrite !Z.land_spec, !Z.lor_spec, !Z.lnot_spec by lia. change (Z.testbit B_VALID 1) with true. change (Z.testbit B_DIRTY 2) with true. change (Z.testbit B_DIRTY 1) with false. rewrite orb_true_r, andb_false_r. done. Qed.

(** ** The invariant *)

Definition gbuf (s : ide) (i : nat) : buf := get_buf (ibio s) i.

(** The controller works for buffer q, or has done so, in vain when it reports
    an error, and its interrupt is pending. *)
Definition active (s : ide) (q : nat) : Prop :=
  selects (ctl s) (gbuf s q) /\
  if irq (ctl s) then cmd (ctl s) = if dirty (gbuf s q) then Idle else Data (if cerr (ctl s) then [] else disk_read (dsk (ibio s)) (blockno (gbuf s q)))
  else cmd (ctl s) = if dirty (gbuf s q) then Busy true (data (gbuf s q)) else Busy false [].

Definition waits (s : ide) : list (Z * nat) := asleep s ++ awake s.

(** The state of the driver, the buffers that wait to be served, and the state
    that memide.c would be in. *)
Record Base (s : ide) (qs : list nat) (a : bio) : Prop := {
  v_chain : chain (qnext s) (idequeue s) qs;
  v_nodup : NoDup qs;
  v_len : length (qnext s) = length (bufs a);
  v_in : forall q, q ∈ qs -> (q < length (bufs a))%nat;
  v_bufs : bufs (ibio s) = bufs a;
  v_pend : forall q, q ∈ qs -> request (gbuf s q) /\ Z.land (flags (gbuf s q)) (Z.lor B_VALID B_DIRTY) <> B_VALID /\ exists pid, (pid, q) ∈ waits s /\ holdingsleep pid (block_lock (gbuf s q)) = true;
  v_asleep : forall pid q, (pid, q) ∈ asleep s -> q ∈ qs;
  v_awake : forall pid q, (pid, q) ∈ awake s -> q ∈ qs \/ Z.land (flags (gbuf s q)) (Z.lor B_VALID B_DIRTY) = B_VALID;
  v_once : NoDup (waits s).*2;
  v_disk1 : havedisk1 s = true /\ present1 (ctl s) = true;
  v_size : FSSIZE <= disksize (dsk a);
  v_512 : forall b, length (disk_read (dsk a) b) = 512%nat;
}.

Record Inv (s : ide) (qs : list nat) (a : bio) : Prop := {
  v_base : Base s qs a;
  v_ctl : match qs with [] => is_busy (ctl s) = false /\ irq (ctl s) = false | q :: _ => active s q end;
  v_dsk : dsk (ibio s) = match qs with
                         | q :: _ => if irq (ctl s) && (dirty (gbuf s q) && negb (cerr (ctl s))) then disk_write (blockno (gbuf s q)) (data (gbuf s q)) (dsk a) else dsk a
                         | [] => dsk a
                         end;
}.

(** ** A request of memide.c *)

(** The buffer and the disk when its request has been served; [e]: the command
    has failed, and neither has got anything from the other. *)
Definition served (e : bool) (d : disk) (b : buf) : buf :=
  with_flags (done_flags (flags b)) (if dirty b || e then b else with_data (disk_read d (blockno b)) b).
Definition served_disk (e : bool) (b : buf) (d : disk) : disk := if dirty b && negb e then disk_write (blockno b) (data b) d else d.

Lemma alter_alter {A} (f h : A -> A) i (l : list A) : alter h i (alter f i l) = alter (fun x => h (f x)) i l.
Proof. by rewrite list_alter_alter_eq. Qed.

Lemma memide_serves pid i a (b := get_buf a i) : (i < length (bufs a))%nat -> holdingsleep pid (block_lock b) = true -> Z.land (flags b) (Z.lor B_VALID B_DIRTY) <> B_VALID -> request b -> FSSIZE <= disksize (dsk a) ->
  Bio.iderw pid i a = Ok tt (mkBio (alter (fun _ => served false (dsk a) b) i (bufs a)) (served_disk false b (dsk a))).
Proof.
  intros Hi Hh Hf (Hd & Hn & Hl) Hs. unfold Bio.iderw, bind, buf_of, gets. fold b. rewrite Hh, Hd. cbn [negb]. rewrite (proj2 (Z.eqb_neq _ _) Hf). cbn [Z.eqb Pos.eqb negb]. rewrite Z.geb_leb, (proj2 (Z.leb_gt _ _)) by lia. fold (dirty b). unfold served, served_disk. rewrite orb_false_r, andb_true_r.
  destruct (dirty b) eqn:Ed; unfold mod_buf, modify, ret.
  - fold (upd_buf i (with_flags (Z.land (flags b) (Z.lnot B_DIRTY))) a). cbn [set_disk]. unfold get_buf at 1. cbn [bufs set_disk]. fold (get_buf (upd_buf i (with_flags (Z.land (flags b) (Z.lnot B_DIRTY))) a) i). rewrite get_upd, decide_True by done. fold b. cbn [flags with_flags].
    unfold upd_buf, set_disk. cbn [bufs dsk]. f_equal. f_equal. rewrite alter_alter, done_flags_write. apply list_alter_ext; [|done]. intros x Hx. unfold b, get_buf. by rewrite nth_lookup, Hx.
  - rewrite get_upd, decide_True by done. fold b. cbn [flags with_data]. unfold upd_buf. cbn [bufs dsk]. f_equal. f_equal. rewrite alter_alter, done_flags_read by (by rewrite <- dirty_bit). apply list_alter_ext; [|done]. intros x Hx. unfold b, get_buf. by rewrite nth_lookup, Hx.
Qed.

(** ** The controller's step *)

Lemma base_ctl c s qs a : Base s qs a -> present1 c = true -> Base (set_ctl c s) qs a.
Proof. intros [V1 V2 V3 V4 V5 V6 V7 V8 V9 [V10 _] V11 V12] Hp. by constructor. Qed.

Lemma hw_inv e s qs a : Inv s qs a -> is_busy (ctl s) = true -> Inv (hw_done e s) qs a /\ irq (ctl (hw_done e s)) = true /\ cerr (ctl (hw_done e s)) = e.
Proof.
  intros [HB V13 V14] Hb. destruct qs as [|q r]; [destruct V13; congruence|]. destruct V13 as [[S1 S2] Hc]. destruct (v_disk1 _ _ _ HB) as [D1 D2].
  destruct (irq (ctl s)) eqn:Ei; [unfold is_busy in Hb; rewrite Hc in Hb; by destruct (dirty _)|]. cbn [andb] in V14. unfold hw_done. rewrite Hc, S1, S2. destruct (dirty (gbuf s q)) eqn:Ed; (split; [|done]).
  - set (s1 := if e then s else _). assert (HB1 : Base s1 (q :: r) a) by (unfold s1; destruct e; [done|]; by destruct HB; constructor). assert (Eb : forall c, gbuf (set_ctl c s1) q = gbuf s q) by (unfold s1; by destruct e).
    constructor; [by apply base_ctl| |].
    + split; [by rewrite Eb|]. cbn [irq ctl set_ctl cerr cmd]. by rewrite Eb, Ed.
    + rewrite Eb, Ed. cbn [irq ctl set_ctl cerr andb]. unfold s1. destruct e; cbn [negb dsk ibio set_ctl set_ibio set_disk]; by rewrite V14.
  - assert (Eb : forall c, gbuf (set_ctl c s) q = gbuf s q) by done. constructor; [by apply base_ctl| |].
    + split; [done|]. cbn [irq ctl set_ctl cerr cmd]. by rewrite Eb, Ed.
    + rewrite Eb, Ed. done.
Qed.

(** ** A request is started *)

Lemma started_inv s qs a q r : Base s qs a -> qs = q :: r -> irq (ctl s) = false -> dsk (ibio s) = dsk a -> Inv (set_ctl (started (ctl s) (gbuf s q)) s) qs a.
Proof.
  intros HB Eq Hi Hd. destruct (v_pend _ _ _ HB q) as (R1 & _ & _); [rewrite Eq; by left|]. destruct (v_disk1 _ _ _ HB) as [D1 D2]. constructor; [by apply base_ctl| |]; rewrite Eq.
  - split; [by apply started_selects|]. cbn [irq ctl set_ctl started]. rewrite Hi. done.
  - cbn [irq ctl set_ctl started]. by rewrite Hi.
Qed.

Lemma wp_start s qs a q r (Q : unit -> ide -> Prop) : Base s qs a -> qs = q :: r -> is_busy (ctl s) = false -> irq (ctl s) = false -> dsk (ibio s) = dsk a ->
  (forall s', Inv s' qs a -> asleep s' = asleep s -> awake s' = awake s -> Q tt s') -> wp (idestart (Some q)) s Q.
Proof.
  intros HB Eq Hb Hi Hd HQ. destruct (v_disk1 _ _ _ HB) as [D1 D2]. destruct (v_pend _ _ _ HB q) as (R1 & _ & _); [rewrite Eq; by left|]. apply wp_idestart; [done|done|exact R1|]. apply HQ; [|done|done]. by eapply started_inv.
Qed.

(** ** The interrupt *)

(** The state in which memide.c has served buffer q, or it has been failed. *)
Definition served_bio (e : bool) (q : nat) (a : bio) : bio :=
  let b := get_buf a q in mkBio (alter (fun _ => served e (dsk a) b) q (bufs a)) (served_disk e b (dsk a)).

Definition ack (s : ide) : ide := set_ctl (set_irq false (ctl s)) s.

(** The driver when it has finished with buffer q. *)
Definition finished (q : nat) (a : bio) (s : ide) : ide :=
  let e := cerr (ctl s) in
  mk_ide (served_bio e q a) (disk0 s) (qnext s) (nth q (qnext s) None) (havedisk1 s)
    (set_cmd (if e && negb (dirty (get_buf a q)) then Data [] else Idle) (set_irq false (ctl s)))
    (filter (fun x => x.2 <> q) (asleep s)) (awake s ++ filter (fun x => x.2 = q) (asleep s)).

Lemma finished_idle q a s : is_busy (ctl (finished q a s)) = false.
Proof. unfold is_busy, finished. cbn. by destruct (cerr (ctl s)), (dirty _). Qed.

Lemma get_served e q a x : (q < length (bufs a))%nat -> get_buf (served_bio e q a) x = if decide (x = q) then served e (dsk a) (get_buf a q) else get_buf a x.
Proof.
  intros Hq. unfold get_buf at 1. cbn [served_bio bufs]. rewrite nth_lookup. case_decide as Hx.
  - subst x. rewrite list_lookup_alter_eq. destruct (lookup_lt_is_Some_2 (bufs a) q Hq) as [v ->]. done.
  - rewrite list_lookup_alter_ne by done. unfold get_buf. by rewrite nth_lookup.
Qed.

Lemma gbuf_bio s a x : bufs (ibio s) = bufs a -> gbuf s x = get_buf a x.
Proof. intros E. unfold gbuf, get_buf. by rewrite E. Qed.

Lemma waits_finished q a s p : p ∈ waits (finished q a s) <-> p ∈ waits s.
Proof.
  unfold waits, finished. cbn [asleep awake]. rewrite !elem_of_app, !list_elem_of_filter. destruct (decide (p.2 = q)); naive_solver.
Qed.

Lemma filter_split_perm {A} (P : A -> Prop) `{forall x, Decision (P x)} (l : list A) : filter (fun x => ~ P x) l ++ filter P l ≡ₚ l.
Proof.
  induction l as [|x l IH]; [done|]. rewrite !filter_cons. destruct (decide (P x)), (decide (~ P x)); try done; cbn [app]; [rewrite <- Permutation_middle, IH; done|by rewrite IH].
Qed.

Lemma waits_finished_perm q a s : waits (finished q a s) ≡ₚ waits s.
Proof.
  unfold waits, finished. cbn [asleep awake]. rewrite (Permutation_app_comm (awake s)), app_assoc. by rewrite (filter_split_perm (fun x : Z * nat => x.2 = q)).
Qed.

Lemma base_finished s q r a : Base s (q :: r) a -> Base (finished q a s) r (served_bio (cerr (ctl s)) q a).
Proof.
  intros HB. pose proof (v_bufs _ _ _ HB) as Eb. destruct (v_chain _ _ _ HB) as [_ HC]. destruct (proj1 (NoDup_cons _ _) (v_nodup _ _ _ HB)) as [Hq HD].
  pose proof (v_in _ _ _ HB q ltac:(by left)) as Hl. destruct (v_pend _ _ _ HB q ltac:(by left)) as ((_ & _ & Hdat) & _ & _).
  assert (Eg : forall x, gbuf (finished q a s) x = if decide (x = q) then served (cerr (ctl s)) (dsk a) (gbuf s q) else gbuf s x).
  { intros x. rewrite !(gbuf_bio s a) by done. by apply get_served. }
  assert (El : length (bufs (served_bio (cerr (ctl s)) q a)) = length (bufs a)) by apply length_alter.
  constructor.
  - done.
  - done.
  - rewrite El. apply (v_len _ _ _ HB).
  - intros x Hx. rewrite El. apply (v_in _ _ _ HB). by right.
  - done.
  - intros x Hx. rewrite Eg, decide_False by (intros ->; done). destruct (v_pend _ _ _ HB x ltac:(by right)) as (P1 & P2 & pid & P3 & P4). split; [done|]. split; [done|]. exists pid. by rewrite waits_finished.
  - intros pid x Hx. cbn [finished asleep] in Hx. apply list_elem_of_filter in Hx as [Hne Hx]. apply (v_asleep _ _ _ HB) in Hx. cbn in Hne. set_solver.
  - intros pid x Hx. rewrite Eg. case_decide as Hxq; [right; apply done_flags_valid|]. cbn [finished awake] in Hx. apply elem_of_app in Hx as [Hx|Hx]; [|apply list_elem_of_filter in Hx as [Hx _]; done]. destruct (v_awake _ _ _ HB _ _ Hx); [left; set_solver|by right].
  - rewrite waits_finished_perm. apply (v_once _ _ _ HB).
  - apply (v_disk1 _ _ _ HB).
  - pose proof (v_size _ _ _ HB). cbn [served_bio dsk]. unfold served_disk. by destruct (_ && _).
  - intros b. cbn [served_bio dsk]. unfold served_disk. rewrite <- (gbuf_bio s a) by done. destruct (_ && _); [|apply (v_512 _ _ _ HB)]. rewrite disk_read_write. destruct (Z.eq_dec _ _); [done|apply (v_512 _ _ _ HB)].
Qed.

Lemma alter_const {A} (l : list A) i (f : A -> A) d v : f (nth i l d) = v -> alter f i l = alter (fun _ => v) i l.
Proof. intros E. apply list_alter_ext; [|done]. intros x Hx. rewrite <- E. by rewrite nth_lookup, Hx. Qed.

(** The state in which ideintr() looks for the next request. *)
Lemma ideintr_finished s q r a (b := gbuf s q) : Inv s (q :: r) a -> irq (ctl s) = true ->
  let f1 v := with_flags (Z.lor (flags v) B_VALID) v in
  let f2 v := with_flags (Z.land (flags v) (Z.lnot B_DIRTY)) v in
  finished q a s =
    let s1 := set_ctl (set_cmd (if cerr (ctl s) && negb (dirty b) then Data [] else Idle) (set_irq false (ctl s))) (set_idequeue (nth q (qnext s) None) s) in
    let s2 := if dirty b || cerr (ctl s) then s1 else set_ibio (upd_buf q (with_data (disk_read (dsk (ibio s)) (blockno b))) (ibio s)) s1 in
    let s4 := set_ibio (upd_buf q f2 (upd_buf q f1 (ibio s2))) s2 in
    set_procs (filter (fun x => x.2 <> q) (asleep s)) (awake s ++ filter (fun x => x.2 = q) (asleep s)) s4.
Proof.
  intros [HB V13 V14] Hi f1 f2. rewrite Hi in V14. cbn [andb] in V14. fold b in V14. pose proof (gbuf_bio s a q (v_bufs _ _ _ HB)) as Eb. fold b in Eb.
  unfold finished, served_bio. rewrite <- Eb. unfold served_disk, served. cbv zeta. destruct (cerr (ctl s)), (dirty b); cbn [andb orb negb] in *; rewrite <- V14; cbn; unfold upd_buf, set_procs, set_ibio; cbn; rewrite !alter_alter, (v_bufs _ _ _ HB); f_equal; f_equal;
    symmetry; apply (alter_const _ _ _ no_buf); fold (get_buf a q); by rewrite <- Eb.
Qed.

Lemma wp_idewait1 s (Q : Z -> ide -> Prop) : present1 (ctl s) = true -> is_busy (ctl s) = false -> Q (if cerr (ctl s) then -1 else 0) s -> wp (idewait true) s Q.
Proof. intros Hp Hb HQ. unfold idewait. apply wp_bind, wp_gets. rewrite status_ready by done. cbv iota. unfold status. rewrite Hp, Hb, andb_false_r. destruct (cerr (ctl s)); by apply wp_ret. Qed.

Lemma set_cmd_same c v : cmd c = v -> set_cmd v c = c.
Proof. destruct c. cbn. by intros ->. Qed.

(** Buffer q is made valid, and its process is woken. *)
Definition woken (q : nat) (s1 : ide) : ide :=
  set_procs (filter (fun x => x.2 <> q) (asleep s1)) (awake s1 ++ filter (fun x => x.2 = q) (asleep s1))
    (set_ibio (upd_buf q (fun v => with_flags (Z.land (flags v) (Z.lnot B_DIRTY)) v) (upd_buf q (fun v => with_flags (Z.lor (flags v) B_VALID) v) (ibio s1))) s1).

Lemma wp_ideintr s q r a (Q : unit -> ide -> Prop) : Inv s (q :: r) a -> irq (ctl s) = true ->
  (forall s', Inv s' r (served_bio (cerr (ctl s)) q a) -> asleep s' = asleep (finished q a s) -> awake s' = awake (finished q a s) -> Q tt s') -> wp ideintr (ack s) Q.
Proof.
  intros HI Hi HQ. pose proof (ideintr_finished s q r a HI Hi) as EF. cbv zeta in EF. pose proof (base_finished _ _ _ _ (v_base _ _ _ HI)) as HBF. destruct HI as [HB [_ Hc] V14]. rewrite Hi in Hc.
  destruct (v_chain _ _ _ HB) as [Eq HC]. destruct (v_disk1 _ _ _ HB) as [D1 D2]. unfold ideintr. apply wp_bind, wp_gets. change (idequeue (ack s)) with (idequeue s). rewrite Eq. apply wp_bind, wp_gets, wp_bind, wp_modify, wp_bind, wp_gets.
  change (get_buf (ibio (set_idequeue (nth q (qnext (ack s)) None) (ack s))) q) with (gbuf s q). apply wp_bind. fold (dirty (gbuf s q)).
  set (rest := imod q _ ;;; _).
  assert (HR : forall s1, finished q a s = woken q s1 -> wp rest s1 Q).
  { intros s1 E1. unfold rest, imod, ide_wakeup. apply wp_bind, wp_modify, wp_bind, wp_modify, wp_bind, wp_modify, wp_bind, wp_gets.
    match goal with |- wp _ ?x _ => change x with (woken q s1) end.
    rewrite <- E1. change (idequeue (finished q a s)) with (nth q (qnext s) None). destruct r as [|q2 r]; cbn [chain] in HC.
    - rewrite HC. apply wp_ret. apply HQ; [|done|done]. constructor; [done| |done]. split; [|done]. apply finished_idle.
    - destruct HC as [E2 _]. rewrite E2. eapply wp_start; [done|done| |done|done|done]. apply finished_idle. }
  destruct (dirty (gbuf s q)) eqn:Ed; cbn [negb].
  - apply wp_ret, HR. rewrite EF. unfold woken, ack. cbn [orb negb]. rewrite andb_false_r, set_cmd_same by done. done.
  - apply wp_bind, wp_idewait1; [done|unfold is_busy; cbn; by rewrite Hc|]. cbn [ack ctl set_idequeue set_ctl cerr set_irq]. destruct (cerr (ctl s)) eqn:He; cbn [orb negb andb] in EF.
    + change (-1 >=? 0) with false. cbn [when]. apply HR. rewrite EF, set_cmd_same by done. done.
    + change (0 >=? 0) with true. cbn [when]. apply wp_bind. unfold insl. apply wp_bind, wp_gets. cbn [ack ctl set_idequeue set_ctl cmd set_irq]. rewrite Hc.
      apply wp_bind, wp_modify, wp_ret. unfold imod. apply wp_modify, HR. rewrite EF. rewrite take_ge; [done|]. rewrite V14, andb_false_r, (v_512 _ _ _ HB). done.
Qed.

(** ** A call *)

(** What bread() and bwrite() see to: the caller holds the lock of a buffer of
    the file system that is to be read or written, and nobody else waits for
    it. *)
Definition may_call (s : ide) (pid : Z) (i : nat) : Prop :=
  (i < length (bufs (ibio s)))%nat /\ request (gbuf s i) /\ holdingsleep pid (block_lock (gbuf s i)) = true /\
  Z.land (flags (gbuf s i)) (Z.lor B_VALID B_DIRTY) <> B_VALID /\ (i ∉ (waits s).*2).

(** The state with buffer i linked at the end of the queue qs. *)
Definition linked (qs : list nat) (i : nat) (s : ide) : ide :=
  let s1 := set_qnext (<[i := None]> (qnext s)) s in
  match last qs with None => set_idequeue (Some i) s1 | Some x => set_qnext (<[x := Some i]> (qnext s1)) s1 end.
Definition sleeping (pid : Z) (i : nat) (s : ide) : ide := set_procs (asleep s ++ [(pid, i)]) (awake s) s.

Lemma linked_fields qs i s : ibio (linked qs i s) = ibio s /\ ctl (linked qs i s) = ctl s /\ havedisk1 (linked qs i s) = havedisk1 s /\ asleep (linked qs i s) = asleep s /\ awake (linked qs i s) = awake s /\ length (qnext (linked qs i s)) = length (qnext s).
Proof. unfold linked. destruct (last qs); cbn; rewrite ?length_insert; done. Qed.

Lemma linked_chain qs i s : NoDup (qs ++ [i]) -> (forall q, q ∈ qs ++ [i] -> (q < length (qnext s))%nat) -> chain (qnext s) (idequeue s) qs -> chain (qnext (linked qs i s)) (idequeue (linked qs i s)) (qs ++ [i]).
Proof.
  intros HD Hl HC. apply NoDup_app in HD as (HD & Hi & _). assert (Hqi : i ∉ qs) by (intros Hx; apply (Hi i Hx); by left). pose proof (Hl i ltac:(set_solver)) as Hil. unfold linked. destruct qs as [|x0 r0] using rev_ind; [|clear IHr0].
  - cbn [last app chain qnext idequeue set_idequeue set_qnext]. split; [done|]. by apply nth_insert_eq.
  - rewrite last_snoc. cbn [qnext idequeue set_qnext]. rewrite <- app_assoc. apply chain_snoc; [done|rewrite length_insert; apply Hl; set_solver|set_solver|by apply nth_insert_eq|]. by apply chain_other.
Qed.

Lemma queued_waits s qs a q : Base s qs a -> q ∈ qs -> q ∈ (waits s).*2.
Proof. intros HB Hq. destruct (v_pend _ _ _ HB q Hq) as (_ & _ & pid & P & _). apply list_elem_of_fmap. by exists (pid, q). Qed.

Lemma waits_sleeping pid i s : waits (sleeping pid i s) ≡ₚ (pid, i) :: waits s.
Proof. unfold waits, sleeping. cbn [asleep awake set_procs]. rewrite <- app_assoc. symmetry. apply Permutation_middle. Qed.

Lemma base_call s qs a pid i : Base s qs a -> may_call s pid i -> Base (sleeping pid i (linked qs i s)) (qs ++ [i]) a.
Proof.
  intros HB (Hl & HR & Hh & Hf & Hw). destruct (linked_fields qs i s) as (F1 & F2 & F3 & F4 & F5 & F6). set (s1 := linked qs i s) in *.
  assert (Hn : i ∉ qs) by (intros Hi; apply Hw; by eapply queued_waits). assert (Ew : waits s1 = waits s) by (unfold waits; by rewrite F4, F5).
  assert (Eg : forall x, gbuf (sleeping pid i s1) x = gbuf s x) by (intros x; unfold gbuf; cbn; by rewrite F1).
  assert (HD : NoDup (qs ++ [i])) by (apply NoDup_app; split; [apply (v_nodup _ _ _ HB)|]; split; [set_solver|apply NoDup_singleton]).
  rewrite (v_bufs _ _ _ HB) in Hl. assert (Hin : forall q, q ∈ qs ++ [i] -> (q < length (bufs a))%nat) by (intros q [Hq|Hq]%elem_of_app; [by apply (v_in _ _ _ HB)|by apply list_elem_of_singleton in Hq as ->]).
  constructor.
  - apply linked_chain; [done| |apply (v_chain _ _ _ HB)]. intros q Hq. rewrite (v_len _ _ _ HB). by apply Hin.
  - done.
  - cbn. rewrite F6. apply (v_len _ _ _ HB).
  - done.
  - cbn. rewrite F1. apply (v_bufs _ _ _ HB).
  - intros q Hq. rewrite Eg. setoid_rewrite waits_sleeping. rewrite Ew. apply elem_of_app in Hq as [Hq|Hq].
    + destruct (v_pend _ _ _ HB q Hq) as (P1 & P2 & p & P3 & P4). split; [done|]. split; [done|]. exists p. split; [by right|done].
    + apply list_elem_of_singleton in Hq as ->. split; [done|]. split; [done|]. exists pid. split; [by left|done].
  - intros p q Hq. cbn in Hq. rewrite F4 in Hq. apply elem_of_app in Hq as [Hq|Hq]; [apply (v_asleep _ _ _ HB) in Hq; set_solver|]. apply list_elem_of_singleton in Hq. injection Hq as -> ->. set_solver.
  - intros p q Hq. cbn in Hq. rewrite F5 in Hq. rewrite Eg. destruct (v_awake _ _ _ HB _ _ Hq); [left; set_solver|by right].
  - rewrite waits_sleeping, Ew. cbn. apply NoDup_cons. split; [done|apply (v_once _ _ _ HB)].
  - cbn. rewrite F2, F3. apply (v_disk1 _ _ _ HB).
  - apply (v_size _ _ _ HB).
  - apply (v_512 _ _ _ HB).
Qed.

Lemma wp_iderw_test pid i s (Q : bool -> ide -> Prop) (v := Z.land (flags (gbuf s i)) (Z.lor B_VALID B_DIRTY) =? B_VALID) : Q v (if v then s else sleeping pid i s) -> wp (iderw_test pid i) s Q.
Proof. intros HQ. unfold iderw_test. apply wp_bind, wp_gets. fold (gbuf s i). fold v. destruct v; cbn [negb]; [by apply wp_ret|]. by apply wp_bind, wp_modify, wp_ret. Qed.

Lemma inv_called s qs a pid i : Inv s qs a -> may_call s pid i -> qs <> [] -> Inv (sleeping pid i (linked qs i s)) (qs ++ [i]) a.
Proof.
  intros [HB HC HD] HM Hq. destruct (linked_fields qs i s) as (F1 & F2 & _). destruct qs as [|q r]; [done|]. constructor; [by apply base_call| |].
  - cbn [app]. unfold active, gbuf in *. cbn [sleeping set_procs ibio ctl]. by rewrite F1, F2.
  - cbn [app]. unfold gbuf in *. cbn [sleeping set_procs ibio ctl]. by rewrite F1, F2.
Qed.

Lemma wp_link qs i s a {B} (k : option nat -> M ide B) (Q : B -> ide -> Prop) : Base s qs a -> (i ∉ qs) -> (i < length (bufs a))%nat -> wp (k (match qs with [] => Some i | q :: _ => Some q end)) (linked qs i s) Q ->
  wp (store_link (Some i) None ;;; (let! n := gets (fun s => length (qnext s)) in let! pp := queue_end (S n) None in store_link pp (Some i) ;;; (let! q := gets idequeue in k q))) s Q.
Proof.
  intros HB Hn Hl HQ. pose proof (v_chain _ _ _ HB) as HC. apply wp_bind, wp_modify, wp_bind, wp_gets, wp_bind. apply (wp_queue_end _ _ qs).
  - cbn [qnext set_qnext]. rewrite length_insert, (v_len _ _ _ HB). pose proof (v_in _ _ _ HB). enough (length qs <= length (seq 0 (length (bufs a))))%nat by (rewrite length_seq in *; lia). apply submseteq_length, NoDup_submseteq; [apply (v_nodup _ _ _ HB)|]. intros x Hx. apply elem_of_seq. pose proof (v_in _ _ _ HB x Hx). lia.
  - cbn [qnext set_qnext idequeue]. by apply chain_other.
  - unfold linked in HQ. apply wp_bind. destruct qs as [|q r]; [by apply wp_modify, wp_bind, wp_gets|]. destruct HC as [Eq _]. destruct (last (q :: r)) as [x|] eqn:El; [|by apply last_None in El]. unfold store_link. apply wp_modify, wp_bind, wp_gets. cbn [idequeue set_qnext]. by rewrite Eq.
Qed.

Lemma wp_iderw s qs a pid i (Q : bool -> ide -> Prop) : Inv s qs a -> may_call s pid i ->
  (forall s', Inv s' (qs ++ [i]) a -> asleep s' = asleep s ++ [(pid, i)] -> awake s' = awake s -> ibio s' = ibio s -> Q false s') -> wp (iderw pid i) s Q.
Proof.
  intros HI HM HQ. pose proof HI as [HB HC HD]. pose proof HM as (Hl & HR & Hh & Hf & Hw). destruct (linked_fields qs i s) as (F1 & F2 & F3 & F4 & F5 & F6).
  assert (Hn : i ∉ qs) by (intros Hi; apply Hw; by eapply queued_waits). assert (Ev : forall c, (Z.land (flags (gbuf (set_ctl c (linked qs i s)) i)) (Z.lor B_VALID B_DIRTY) =? B_VALID) = false) by (intros c; unfold gbuf; cbn; rewrite F1; by apply Z.eqb_neq).
  unfold iderw. apply wp_bind, wp_gets. fold (gbuf s i). rewrite Hh, (proj2 (Z.eqb_neq _ _) Hf). cbn [negb]. apply wp_bind, wp_gets. rewrite (proj1 (v_disk1 _ _ _ HB)), andb_false_r.
  apply (wp_link qs i s a); [done|done|by rewrite <- (v_bufs _ _ _ HB)|]. apply wp_bind. destruct qs as [|q r].
  - rewrite bool_decide_eq_true_2 by done. destruct HC as [Hb Hi]. destruct (v_disk1 _ _ _ HB) as [D1 D2]. apply wp_idestart; [by rewrite F2|by rewrite F2|by rewrite F1|]. apply wp_iderw_test. rewrite Ev. cbv iota.
    assert (HB1 := base_call _ _ _ _ _ HB HM). cbn [app] in HB1. pose proof (started_inv _ _ a i [] HB1 eq_refl) as HS. apply HQ; [|done..]. apply HS; done.
  - rewrite bool_decide_eq_false_2 by (intros [=]; set_solver). apply wp_ret, wp_iderw_test. specialize (Ev (ctl s)). rewrite <- F2 in Ev at 1. unfold gbuf in *. cbn [ibio set_ctl] in Ev. rewrite Ev. cbv iota. apply HQ; [by apply inv_called|cbn; by rewrite F4|cbn; by rewrite F5|cbn; by rewrite F1].
Qed.

(** ** Processes that wake, and buffers nobody waits for *)

Lemma waits_unique s qs a p p' i : Base s qs a -> (p, i) ∈ waits s -> (p', i) ∈ waits s -> p = p'.
Proof.
  intros HB H1 H2. pose proof (v_once _ _ _ HB) as HN. apply list_elem_of_lookup in H1 as [j1 H1]. apply list_elem_of_lookup in H2 as [j2 H2].
  assert (j1 = j2) as ->; [|congruence]. eapply NoDup_lookup; [exact HN| |]; rewrite list_lookup_fmap; [by rewrite H1|by rewrite H2].
Qed.

(** A state that differs in which processes are awake. *)
Lemma inv_procs s qs a v w : Inv s qs a -> v ++ w ≡ₚ waits s -> (forall p q, (p, q) ∈ v -> q ∈ qs) -> (forall p q, (p, q) ∈ w -> q ∈ qs \/ Z.land (flags (gbuf s q)) (Z.lor B_VALID B_DIRTY) = B_VALID) -> Inv (set_procs v w s) qs a.
Proof.
  intros [HB HC HD] Hp Hv Hw. assert (Ew : waits (set_procs v w s) ≡ₚ waits s) by done. constructor; [|done|done]. destruct HB. constructor; try done.
  - setoid_rewrite Ew. done.
  - by rewrite Ew.
Qed.

(** A state in which one process less waits. *)
Lemma inv_leave s qs a v w p : Inv s qs a -> (p :: v ++ w) ≡ₚ waits s -> (p.2 ∉ qs) -> v ⊆ asleep s -> w ⊆ awake s -> Inv (set_procs v w s) qs a.
Proof.
  intros [HB HC HD] Hp Hq Hv Hw. assert (Ew : forall x, x ∈ waits s <-> x = p \/ x ∈ waits (set_procs v w s)) by (intros x; rewrite <- Hp; apply elem_of_cons).
  constructor; [|done|done]. destruct HB. constructor; try done.
  - intros q Hi. destruct (v_pend0 q Hi) as (P1 & P2 & pid & P3 & P4). split; [done|]. split; [done|]. exists pid. split; [|done]. apply Ew in P3 as [<-|P3]; [done|exact P3].
  - intros pid q Hx. by eapply v_asleep0, Hv.
  - intros pid q Hx. by eapply v_awake0, Hw.
  - rewrite <- Hp in v_once0. cbn in v_once0. by apply NoDup_cons in v_once0 as [_ ?].
Qed.

Lemma gbuf_upd s i f x : x <> i -> gbuf (set_ibio (upd_buf i f (ibio s)) s) x = gbuf s x.
Proof. intros Hx. unfold gbuf, get_buf, upd_buf. cbn [ibio set_ibio bufs]. rewrite !nth_lookup, list_lookup_alter_ne by done. done. Qed.

Lemma inv_owner s qs a i f : Inv s qs a -> (i ∉ (waits s).*2) -> Inv (set_ibio (upd_buf i f (ibio s)) s) qs (upd_buf i f a).
Proof.
  intros [HB HC HD] Hi. set (s' := set_ibio _ s). assert (Hq : i ∉ qs) by (intros Hx; apply Hi; by eapply queued_waits).
  assert (Eg : forall x, x ∈ qs -> gbuf s' x = gbuf s x) by (intros x Hx; apply gbuf_upd; intros ->; done).
  assert (Ew : forall p x, (p, x) ∈ awake s -> gbuf s' x = gbuf s x) by (intros p x Hx; apply gbuf_upd; intros ->; apply Hi, list_elem_of_fmap; exists (p, i); split; [done|]; apply elem_of_app; by right).
  constructor.
  - destruct HB. constructor; try done.
    + cbn [upd_buf bufs]. by rewrite length_alter.
    + cbn [upd_buf bufs]. by rewrite length_alter.
    + cbn. by rewrite v_bufs0.
    + intros q Hx. rewrite Eg by done. by apply v_pend0.
    + intros p q Hx. erewrite Ew by done. by eapply v_awake0.
  - destruct qs as [|q r]; [done|]. unfold active. rewrite Eg by (by left). exact HC.
  - destruct qs as [|q r]; [done|]. rewrite Eg by (by left). exact HD.
Qed.
