(* ===== verification/IdeThm.v ===== *)
(** Runs of the disk driver: processes call iderw() and go on when they are
    woken, the disk finishes commands, its interrupts are handled.  Every run
    is one of memide.c's driver, which serves a call at once. *)

From Stdlib Require Import ZArith Lia.
From stdpp Require Import base gmap strings numbers list.
From S2P Require Import Prelude Bio BioSpec Ide IdeSpec.

Open Scope Z_scope.
Open Scope kern_scope.

(** ** Runs *)

Inductive event :=
| Call (pid : Z) (i : nat)          (* iderw(b) is called *)
| Serve (pid : Z) (i : nat) (err : bool)  (* the interrupt of its request is handled; the command failed *)
| Return (pid : Z) (i : nat)        (* iderw(b) returns *)
| Owner (i : nat) (f : buf -> buf)  (* whoever holds the buffer changes it *)
| Tau.

Inductive step (s : ide) : event -> ide -> Prop :=
| step_call pid i r s' : may_call s pid i -> iderw pid i s = Ok r s' -> step s (Call pid i) s'
| step_hw err : is_busy (ctl s) = true -> step s Tau (hw_done err s)
| step_intr pid q s' : irq (ctl s) = true -> idequeue s = Some q -> (pid, q) ∈ waits s -> ideintr (ack s) = Ok tt s' -> step s (Serve pid q (cerr (ctl s))) s'
| step_kill pid i : (pid, i) ∈ asleep s ->  (* kill() wakes a process that sleeps *)
    step s Tau (set_procs (filter (fun x => x <> (pid, i)) (asleep s)) (awake s ++ [(pid, i)]) s)
| step_again pid i s' : (pid, i) ∈ awake s -> ide_resume pid i s = Ok false s' -> step s Tau s'
| step_return pid i s' : (pid, i) ∈ awake s -> ide_resume pid i s = Ok true s' -> step s (Return pid i) s'
| step_owner i f : i ∉ (waits s).*2 -> step s (Owner i f) (set_ibio (upd_buf i f (ibio s)) s).

Inductive run (s : ide) : list event -> ide -> Prop :=
| run_nil : run s [] s
| run_snoc tr s1 e s2 : run s tr s1 -> step s1 e s2 -> run s (tr ++ [e]) s2.

(** A request whose command failed: neither the buffer's bytes nor the disk
    are changed, but the buffer is marked as if they were. *)
Definition failed (i : nat) (a : bio) : bio := upd_buf i (fun b => with_flags (Z.land (Z.lor (flags b) B_VALID) (Z.lnot B_DIRTY)) b) a.

(** The same events for memide.c: a request is served by its iderw(), unless
    the command failed. *)
Definition mem_step (a : option bio) (e : event) : option bio :=
  match a, e with
  | Some a, Serve pid i false => match Bio.iderw pid i a with Ok _ a' => Some a' | _ => None end
  | Some a, Serve _ i true => Some (failed i a)
  | Some a, Owner i f => Some (upd_buf i f a)
  | _, _ => a
  end.
Definition mem_run (a : bio) (tr : list event) : option bio := foldl mem_step (Some a) tr.

Definition calls (tr : list event) : list nat := omap (fun e => match e with Call _ i => Some i | _ => None end) tr.
Definition serves (tr : list event) : list nat := omap (fun e => match e with Serve _ i _ => Some i | _ => None end) tr.

(** What happens to one buffer: it is called for, served, and the call
    returns; it is changed only when no call is under way. *)
Inductive phase := Free | Called (pid : Z) | Done (pid : Z).

Definition advance (i : nat) (p : option phase) (e : event) : option phase :=
  match p, e with
  | Some Free, Call pid j => if decide (j = i) then Some (Called pid) else p
  | Some (Called pid), Serve pid' j _ => if decide (j = i) then (if decide (pid' = pid) then Some (Done pid) else None) else p
  | Some (Done pid), Return pid' j => if decide (j = i) then (if decide (pid' = pid) then Some Free else None) else p
  | Some Free, Owner _ _ => p
  | _, Tau => p
  | _, (Call _ j | Serve _ j _ | Return _ j | Owner j _) => if decide (j = i) then None else p
  end.
Definition protocol (i : nat) (tr : list event) : option phase := foldl (advance i) (Some Free) tr.

Definition phase_ok (s : ide) (qs : list nat) (i : nat) (p : phase) : Prop :=
  match p with
  | Free => i ∉ (waits s).*2
  | Called pid => (i ∈ qs) /\ (pid, i) ∈ waits s
  | Done pid => (i ∉ qs) /\ (pid, i) ∈ waits s
  end.

Lemma in_waits s p i : (p, i) ∈ waits s -> i ∈ (waits s).*2.
Proof. intros H. apply list_elem_of_fmap. by exists (p, i). Qed.

Lemma phase_other s s' qs qs' i p : (i ∈ qs <-> i ∈ qs') -> (forall q, (q, i) ∈ waits s <-> (q, i) ∈ waits s') -> phase_ok s qs i p -> phase_ok s' qs' i p.
Proof.
  intros Hq Hw. destruct p as [|pid|pid]; cbn [phase_ok]; [|by rewrite Hq, Hw..]. intros Hn Hi. apply list_elem_of_fmap in Hi as ([q j] & -> & Hx). apply Hw, in_waits in Hx. done.
Qed.

Lemma advance_other i p e : match e with Call _ j | Serve _ j _ | Return _ j | Owner j _ => j <> i | Tau => True end -> advance i (Some p) e = Some p.
Proof. destruct e, p; cbn; intros H; try done; by rewrite decide_False. Qed.

(** ** Simulation *)

Definition sim (s : ide) (e : event) (s' : ide) (qs : list nat) (a : bio) : Prop := exists qs' a',
  Inv s' qs' a' /\ mem_step (Some a) e = Some a' /\ qs ++ calls [e] = serves [e] ++ qs' /\
  forall i p, phase_ok s qs i p -> exists p', advance i (Some p) e = Some p' /\ phase_ok s' qs' i p'.

(** A step that leaves the queue and who waits. *)
Lemma sim_tau s s' qs a : Inv s' qs a -> (waits s' ≡ₚ waits s) -> sim s Tau s' qs a.
Proof.
  intros HI Hw. exists qs, a. split; [done|]. split; [done|]. split; [by rewrite app_nil_r|]. intros i p Hp. exists p. split; [by destruct p|]. revert Hp. apply phase_other; [done|]. intros q. by rewrite Hw.
Qed.

Lemma sim_call s qs a pid i r s' : Inv s qs a -> may_call s pid i -> iderw pid i s = Ok r s' -> sim s (Call pid i) s' qs a.
Proof.
  intros HI HM E. destruct (wp_run (iderw pid i) s (fun r s' => Inv s' (qs ++ [i]) a /\ waits s' ≡ₚ (pid, i) :: waits s)) as (r' & s2 & E2 & HI' & Hw).
  { eapply wp_iderw; [done|done|]. intros s2 H1 H2 H3 _. split; [done|]. unfold waits. rewrite H2, H3, <- app_assoc. symmetry. apply Permutation_middle. }
  rewrite E in E2. injection E2 as <- <-. exists (qs ++ [i]), a. split; [done|]. split; [done|]. split; [done|]. intros j p Hp. destruct (decide (j = i)) as [->|Hj].
  - destruct HM as (_ & _ & _ & _ & Hn). destruct p as [|q|q]; [|destruct Hp as [_ Hp]; by apply in_waits in Hp..]. exists (Called pid). cbn [advance phase_ok]. rewrite decide_True by done. split; [done|]. rewrite Hw. set_solver.
  - exists p. split; [by apply advance_other|]. revert Hp. apply phase_other; [set_solver|]. intros q. rewrite Hw. set_solver.
Qed.

Lemma failed_served q a : failed q a = served_bio true q a.
Proof. unfold failed, upd_buf, served_bio, served, served_disk. rewrite andb_false_r, orb_true_r. f_equal. by apply (alter_const _ _ _ no_buf). Qed.

Lemma sim_intr s qs a pid q s' : Inv s qs a -> irq (ctl s) = true -> idequeue s = Some q -> (pid, q) ∈ waits s -> ideintr (ack s) = Ok tt s' -> sim s (Serve pid q (cerr (ctl s))) s' qs a.
Proof.
  intros HI Hi Eq Hw E. pose proof (v_chain _ _ _ (v_base _ _ _ HI)) as HC. rewrite Eq in HC. destruct qs as [|q' r]; [done|]. destruct HC as [[= <-] _].
  destruct (wp_run_unit ideintr (ack s) (fun s' => Inv s' r (served_bio (cerr (ctl s)) q a) /\ waits s' ≡ₚ waits s)) as (s2 & E2 & HI' & Hw').
  { eapply wp_ideintr; [done|done|]. intros s2 H1 H2 H3. split; [done|]. rewrite <- (waits_finished_perm q a s). unfold waits. by rewrite H2, H3. }
  rewrite E in E2. injection E2 as <-. pose proof (v_base _ _ _ HI) as HB. exists r, (served_bio (cerr (ctl s)) q a). split; [done|]. split; [|split; [cbn; by rewrite app_nil_r|]].
  - cbn [mem_step]. destruct (cerr (ctl s)); [by rewrite failed_served|]. destruct (v_pend _ _ _ HB q ltac:(by left)) as (P1 & P2 & p & P3 & P4). rewrite (waits_unique _ _ _ _ _ _ HB P3 Hw) in P4. rewrite (gbuf_bio s a) in P1, P2, P4 by apply (v_bufs _ _ _ HB). rewrite memide_serves; [done|apply (v_in _ _ _ HB); by left|done|done|done|apply (v_size _ _ _ HB)].
  - pose proof (proj1 (NoDup_cons _ _) (v_nodup _ _ _ HB)) as [Hq _]. intros j p Hp. destruct (decide (j = q)) as [->|Hj].
    + destruct p as [|p|p]; cbn [phase_ok] in Hp; [by apply in_waits in Hw|destruct Hp as [_ Hp]|set_solver]. rewrite (waits_unique _ _ _ _ _ _ HB Hp Hw). exists (Done pid). cbn [advance phase_ok]. rewrite !decide_True by done. split; [done|]. by rewrite Hw'.
    + exists p. split; [by apply advance_other|]. revert Hp. apply phase_other; [set_solver|]. intros x. by rewrite Hw'.
Qed.

Lemma remove_perm {A} `{EqDecision A} (x : A) (l : list A) : NoDup l -> x ∈ l -> x :: filter (fun y => y <> x) l ≡ₚ l.
Proof.
  intros HD. induction HD as [|y l Hy HD IH]; intros Hx; [by apply elem_of_nil in Hx|]. rewrite filter_cons. destruct (decide (y = x)) as [->|Hne].
  - rewrite decide_False by (intros H; by apply H). constructor. clear IH Hx HD. induction l as [|z l IH]; [done|]. apply not_elem_of_cons in Hy as [Hz Hy]. rewrite filter_cons, decide_True by done. constructor. by apply IH.
  - rewrite decide_True by done. apply elem_of_cons in Hx as [->|Hx]; [done|]. rewrite <- (IH Hx) at 2. constructor.
Qed.

Section Wakes.
Context (s : ide) (qs : list nat) (a : bio) (pid : Z) (i : nat) (HI : Inv s qs a).

Lemma nodup_waits : NoDup (waits s).
Proof. eapply NoDup_fmap_1, (v_once _ _ _ (v_base _ _ _ HI)). Qed.

Lemma valid_free p q : (p, q) ∈ awake s -> Z.land (flags (gbuf s q)) (Z.lor B_VALID B_DIRTY) = B_VALID <-> q ∉ qs.
Proof.
  intros Hw. split.
  - intros Hv Hq. by destruct (v_pend _ _ _ (v_base _ _ _ HI) q Hq) as (_ & P & _).
  - intros Hq. by destruct (v_awake _ _ _ (v_base _ _ _ HI) p q Hw).
Qed.

Lemma sim_kill : (pid, i) ∈ asleep s -> sim s Tau (set_procs (filter (fun x => x <> (pid, i)) (asleep s)) (awake s ++ [(pid, i)]) s) qs a.
Proof.
  intros Hs. pose proof nodup_waits as HN. apply NoDup_app in HN as (HN & _ & _).
  assert (Hp : filter (fun x => x <> (pid, i)) (asleep s) ++ awake s ++ [(pid, i)] ≡ₚ waits s).
  { unfold waits. rewrite <- (remove_perm (pid, i) (asleep s) HN Hs) at 2. rewrite (Permutation_app_comm (awake s)). cbn [app]. by rewrite <- Permutation_middle. }
  apply sim_tau; [|exact Hp]. apply inv_procs; [done|done| |].
  - intros p q Hx. apply list_elem_of_filter in Hx as [_ Hx]. by eapply v_asleep, Hx; apply HI.
  - intros p q Hx. apply elem_of_app in Hx as [Hx|Hx]; [by eapply v_awake, Hx; apply HI|]. apply list_elem_of_singleton in Hx. injection Hx as -> ->. left. by eapply v_asleep, Hs; apply HI.
Qed.

(** A process that is awake goes on, and returns when its request has been
    served. *)
Lemma wp_resume (Q : bool -> ide -> Prop) : (pid, i) ∈ awake s ->
  Q (bool_decide (i ∉ qs)) (let w := filter (fun x => x <> (pid, i)) (awake s) in set_procs (if bool_decide (i ∉ qs) then asleep s else asleep s ++ [(pid, i)]) w s) -> wp (ide_resume pid i) s Q.
Proof.
  intros Hw HQ. pose proof (valid_free _ _ Hw) as HV. unfold ide_resume. apply wp_bind, wp_modify, wp_iderw_test. change (gbuf (set_procs _ _ s) i) with (gbuf s i). case_bool_decide as Hi; cbv zeta in HQ.
  - rewrite (proj2 (Z.eqb_eq _ _)) by (by apply HV). exact HQ.
  - rewrite (proj2 (Z.eqb_neq _ _)) by (intros E; by apply HV in E). exact HQ.
Qed.

Lemma awake_perm : (pid, i) ∈ awake s -> (pid, i) :: filter (fun x => x <> (pid, i)) (awake s) ≡ₚ awake s.
Proof. intros Hw. apply remove_perm; [|done]. pose proof nodup_waits as HN. by apply NoDup_app in HN as (_ & _ & ?). Qed.

Lemma sim_again s' : (pid, i) ∈ awake s -> ide_resume pid i s = Ok false s' -> sim s Tau s' qs a.
Proof.
  intros Hw E. pose proof (wp_resume (fun r s' => r = false -> (i ∈ qs) /\ s' = set_procs (asleep s ++ [(pid, i)]) (filter (fun x => x <> (pid, i)) (awake s)) s) Hw) as HW.
  destruct (wp_run _ _ _ (HW ltac:(case_bool_decide; done))) as (r & s2 & E2 & HP). rewrite E in E2. injection E2 as <- <-. destruct (HP eq_refl) as [Hi ->].
  assert (Hp : (asleep s ++ [(pid, i)]) ++ filter (fun x => x <> (pid, i)) (awake s) ≡ₚ waits s) by (unfold waits; rewrite <- (awake_perm Hw) at 2; rewrite <- app_assoc; done).
  apply sim_tau; [|exact Hp]. apply inv_procs; [done|done| |].
  - intros p q Hx. apply elem_of_app in Hx as [Hx|Hx]; [by eapply v_asleep, Hx; apply HI|]. apply list_elem_of_singleton in Hx. by injection Hx as -> ->.
  - intros p q Hx. apply list_elem_of_filter in Hx as [_ Hx]. by eapply v_awake, Hx; apply HI.
Qed.

Lemma sim_return s' : (pid, i) ∈ awake s -> ide_resume pid i s = Ok true s' -> sim s (Return pid i) s' qs a.
Proof.
  intros Hw E. pose proof (wp_resume (fun r s' => r = true -> (i ∉ qs) /\ s' = set_procs (asleep s) (filter (fun x => x <> (pid, i)) (awake s)) s) Hw) as HW.
  destruct (wp_run _ _ _ (HW ltac:(case_bool_decide; [|done]; intros _; split; done))) as (r & s2 & E2 & HP). rewrite E in E2. injection E2 as <- <-. destruct (HP eq_refl) as [Hi ->]. clear HP HW.
  assert (Hp : (pid, i) :: asleep s ++ filter (fun x => x <> (pid, i)) (awake s) ≡ₚ waits s) by (unfold waits; rewrite <- (awake_perm Hw) at 2; apply Permutation_middle).
  exists qs, a. split; [|split; [done|split; [by rewrite app_nil_r|]]].
  - eapply inv_leave; [done|exact Hp|done|done|]. intros x Hx. by apply list_elem_of_filter in Hx as [_ ?].
  - assert (HN : NoDup ((pid, i) :: waits (set_procs (asleep s) (filter (fun x => x <> (pid, i)) (awake s)) s)).*2) by (unfold waits; cbn [asleep awake set_procs]; rewrite Hp; apply (v_once _ _ _ (v_base _ _ _ HI))). cbn in HN. apply NoDup_cons in HN as [HN _].
    intros j p Hj. destruct (decide (j = i)) as [->|Hne].
    + destruct p as [|p|p]; cbn [phase_ok] in Hj; [destruct Hj; apply (in_waits _ pid), elem_of_app; by right|tauto|destruct Hj as [_ Hj]]. rewrite (waits_unique _ _ _ _ pid _ (v_base _ _ _ HI) Hj) by (apply elem_of_app; by right). exists Free. cbn [advance phase_ok]. rewrite !decide_True by done. done.
    + exists p. split; [by apply advance_other|]. revert Hj. apply phase_other; [done|]. intros x. rewrite <- Hp. unfold waits. cbn [asleep awake set_procs]. rewrite elem_of_cons. naive_solver.
Qed.

Lemma sim_owner f : i ∉ (waits s).*2 -> sim s (Owner i f) (set_ibio (upd_buf i f (ibio s)) s) qs a.
Proof.
  intros Hi. exists qs, (upd_buf i f a). split; [by apply inv_owner|]. split; [done|]. split; [by rewrite app_nil_r|]. intros j p Hp. exists p. split; [|by destruct p]. destruct (decide (j = i)) as [->|Hne]; [|by apply advance_other].
  destruct p as [|p|p]; [done|destruct Hp as [_ Hp]; by apply in_waits in Hp..].
Qed.
End Wakes.

Lemma hw_waits e s : waits (hw_done e s) = waits s.
Proof. unfold hw_done. destruct (cmd (ctl s)) as [|[] d|d]; try done. destruct e; [done|]. by destruct (sel_drive _). Qed.

Lemma step_sim s e s' qs a : Inv s qs a -> step s e s' -> sim s e s' qs a.
Proof.
  intros HI []; [by eapply sim_call| |by eapply sim_intr|by apply sim_kill|by eapply sim_again|by eapply sim_return|by apply sim_owner].
  destruct (hw_inv err _ _ _ HI H) as [HI' _]. apply sim_tau; [done|]. by rewrite hw_waits.
Qed.

(** ** From the start *)

(** The machine before ideinit(): disk 0 is selected, no command is under way;
    with the disk of a file system as disk 1. *)
Record powered (s : ide) : Prop := {
  p_sel : sel_drive (ctl s) = false;
  p_idle : is_busy (ctl s) = false /\ irq (ctl s) = false;
  p_queue : idequeue s = None /\ length (qnext s) = length (bufs (ibio s));
  p_procs : waits s = [];
  p_disk : FSSIZE <= disksize (dsk (ibio s)) /\ forall b, length (disk_read (dsk (ibio s)) b) = 512%nat;
}.

Definition with_drive (v : Z) (s : ide) : ide :=
  let c := ctl s in set_ctl (mk_ctl (nsect c) (lba0 c) (lba1 c) (lba2 c) v (cmd c) (cerr c) (irq c) (present1 c)) s.

(** ideinit() finds out whether there is a disk 1. *)
Lemma wp_ideinit s (Q : unit -> ide -> Prop) : sel_drive (ctl s) = false -> is_busy (ctl s) = false ->
  Q tt (with_drive 0xe0 (if present1 (ctl s) then set_havedisk1 true s else s)) -> wp ideinit s Q.
Proof.
  intros Hs Hb HQ. unfold ideinit. apply wp_bind. unfold idewait, inb_status. apply wp_bind, wp_gets. unfold status. rewrite Hs, Hb. cbn [andb].
  replace (negb _) with false by (by destruct (cerr (ctl s))). apply wp_ret, wp_bind. eapply wp_outb; [done|reflexivity|]. fold (with_drive (u8 (Z.lor 0xe0 (Z.shiftl 1 4))) s). apply wp_bind.
  apply (wp_search (fun k s' => s' = with_drive 0xf0 s /\ (k = 0 \/ present1 (ctl s) = false))); [split; [done|by left]| |].
  - intros k s' Hk [-> _]. apply wp_bind, wp_gets. unfold status. cbn [with_drive ctl set_ctl sel_drive drive present1]. change (Z.testbit 240 4) with true. destruct (present1 (ctl s)) eqn:Ep; cbn [negb andb]; [|apply wp_ret; split; [done|by right]].
    replace (is_busy _) with false. replace (negb _) with true by (by destruct (cerr _)). apply wp_bind, wp_modify, wp_ret. eapply wp_outb; [done|reflexivity|]. exact HQ.
  - intros s' [-> [H0|Ep]]; [lia|]. rewrite Ep in HQ. eapply wp_outb; [done|reflexivity|]. exact HQ.
Qed.

(** ideinit() is run, and then the processes, the disk and its interrupts. *)
Definition reaches (s0 : ide) (tr : list event) (s : ide) : Prop := exists s1, ideinit s0 = Ok tt s1 /\ run s1 tr s.

Lemma inv_ideinit s : powered s -> present1 (ctl s) = true -> exists s1, ideinit s = Ok tt s1 /\ Inv s1 [] (ibio s) /\ waits s1 = [].
Proof.
  intros [P1 [P2 P3] [P4 P5] P6 [P7 P8]] Hp. apply wp_run_unit. apply wp_ideinit; [done|done|]. rewrite Hp. split; [|done]. assert (Hn : asleep s = [] /\ awake s = []) by (by apply app_eq_nil in P6). destruct Hn as [Ha Hw].
  constructor; [|done|done]. constructor; cbn; try done.
  - constructor.
  - intros q Hq. by apply elem_of_nil in Hq.
  - intros q Hq. by apply elem_of_nil in Hq.
  - intros p q Hq. rewrite Ha in Hq. by apply elem_of_nil in Hq.
  - intros p q Hq. rewrite Hw in Hq. by apply elem_of_nil in Hq.
  - unfold waits. cbn. rewrite Ha, Hw. constructor.
Qed.

Lemma run_sim s0 tr s : powered s0 -> present1 (ctl s0) = true -> reaches s0 tr s -> exists qs a,
  Inv s qs a /\ mem_run (ibio s0) tr = Some a /\ calls tr = serves tr ++ qs /\ forall i, exists p, protocol i tr = Some p /\ phase_ok s qs i p.
Proof.
  intros HP Hp (s1 & E & HR). destruct (inv_ideinit s0 HP Hp) as (s1' & E' & HI & Hw). rewrite E in E'. injection E' as <-. clear E.
  induction HR as [|tr s e s' HR (qs & a & IH1 & IH2 & IH3 & IH4) HS].
  - exists [], (ibio s0). split; [done|]. split; [done|]. split; [done|]. intros i. exists Free. split; [done|]. cbn. rewrite Hw. apply not_elem_of_nil.
  - destruct (step_sim _ _ _ _ _ IH1 HS) as (qs' & a' & S1 & S2 & S3 & S4). exists qs', a'. split; [done|]. split; [unfold mem_run in *; by rewrite foldl_app, IH2|]. split.
    + unfold calls, serves in *. rewrite !omap_app, IH3, <- !app_assoc. f_equal. exact S3.
    + intros i. destruct (IH4 i) as (p & P1 & P2). destruct (S4 i p P2) as (p' & P3 & P4). exists p'. split; [|done]. unfold protocol in *. rewrite foldl_app, P1. exact P3.
Qed.

(** C10: the disk driver implements the one of memide.c, which serves a call
    at once.  On a machine that has disk 1, the disk of the file system, in
    every run from power-on, with any number of processes that call iderw()
    for blocks of that disk while others wait, wakeups by kill(), buffers that
    are changed when no call is under way, and a disk any of whose commands may
    fail: (1) the requests are served in the order of the calls; (2) each
    buffer is called for, then served on behalf of the process that called, and
    then that call returns; (3) serving the requests with memide.c's iderw() in
    that order gives the same buffers, and the same disk when the queue is
    empty, except that a request whose command failed leaves the bytes of the
    buffer and the disk as they were and marks the buffer valid and clean all
    the same; (4) no call panics, touches a busy controller or polls forever,
    and neither does the interrupt handler. *)
Theorem ide_refines_memide s0 tr s : powered s0 -> present1 (ctl s0) = true -> reaches s0 tr s ->
  exists qs a, chain (qnext s) (idequeue s) qs /\ calls tr = serves tr ++ qs /\
  (forall i, protocol i tr <> None) /\
  mem_run (ibio s0) tr = Some a /\ bufs (ibio s) = bufs a /\ (idequeue s = None -> ibio s = a) /\
  (forall pid i, may_call s pid i -> exists s', iderw pid i s = Ok false s') /\
  (irq (ctl s) = true -> exists s', ideintr (ack s) = Ok tt s').
Proof.
  intros HP Hp HR. destruct (run_sim s0 tr s HP Hp HR) as (qs & a & HI & HM & HC & HPh). pose proof (v_base _ _ _ HI) as HB. exists qs, a. split; [apply (v_chain _ _ _ HB)|]. split; [done|]. split; [intros i; destruct (HPh i) as (p & -> & _); done|]. split; [done|]. split; [apply (v_bufs _ _ _ HB)|]. split; [|split].
  - intros E. pose proof (v_chain _ _ _ HB) as Hc. rewrite E in Hc. destruct qs; [|by destruct Hc]. pose proof (v_bufs _ _ _ HB) as E1. pose proof (v_dsk _ _ _ HI) as E2. destruct (ibio s), a. cbn in *. by subst.
  - intros pid i HMc. destruct (wp_run (iderw pid i) s (fun r _ => r = false)) as (r & s' & E & ->); [|by exists s']. by eapply wp_iderw.
  - intros Hi. destruct qs as [|q r]; [pose proof (v_ctl _ _ _ HI) as [_ H0]; congruence|]. destruct (wp_run_unit ideintr (ack s) (fun _ => True)) as (s' & E & _); [by eapply wp_ideintr|by exists s'].
Qed.

(** ** Every request is served *)

(** The disk finishes a command, with the errors es, and its interrupt is
    handled, time after time. *)
Fixpoint service (es : list bool) (s : ide) : option ide :=
  match es with
  | [] => Some s
  | e :: es' =>
      match ideintr (ack (if irq (ctl s) then s else hw_done e s)) with
      | Ok _ s' => service es' s'
      | _ => None
      end
  end.

Lemma service_inv l : forall es s r a, length es = length l -> Inv s (l ++ r) a -> exists s' a', service es s = Some s' /\ Inv s' r a' /\ waits s' ≡ₚ waits s.
Proof.
  induction l as [|q l IH]; intros [|e es] s r a Hes HI; [by exists s, a|done|done|]. cbn [length service app] in *. injection Hes as Hes. set (s1 := if irq (ctl s) then s else hw_done e s).
  assert (H1 : Inv s1 (q :: l ++ r) a /\ irq (ctl s1) = true /\ waits s1 = waits s).
  { unfold s1. destruct (irq (ctl s)) eqn:Ei; [done|]. destruct (v_ctl _ _ _ HI) as [_ Hc]. rewrite Ei in Hc. rewrite hw_waits. apply (hw_inv e) in HI; [|unfold is_busy; rewrite Hc; by destruct (dirty _)]. tauto. }
  destruct H1 as (HI1 & Hi1 & Ew). destruct (wp_run_unit ideintr (ack s1) (fun s2 => Inv s2 (l ++ r) (served_bio (cerr (ctl s1)) q a) /\ waits s2 ≡ₚ waits s)) as (s2 & E2 & HI2 & Hw2).
  { eapply wp_ideintr; [done|done|]. intros s2 H1 H2 H3. split; [done|]. rewrite <- Ew, <- (waits_finished_perm q a s1). unfold waits. by rewrite H2, H3. }
  rewrite E2. destruct (IH es _ _ _ Hes HI2) as (s' & a' & E' & HI' & Hw'). exists s', a'. split; [done|]. split; [done|]. by rewrite Hw', Hw2.
Qed.

(** C39: no request is lost and every call returns.  On a machine that has
    disk 1, in every reachable state, a process that is in iderw(), asleep or
    woken by kill(), returns from it after the disk has finished at most as
    many commands as there are requests in the queue, whichever of the commands
    fail. *)
Theorem ide_progress s0 tr s pid i es : powered s0 -> present1 (ctl s0) = true -> reaches s0 tr s -> (pid, i) ∈ waits s ->
  exists qs, chain (qnext s) (idequeue s) qs /\ ((length qs <= length es)%nat ->
  exists k s1 s2, (k <= length qs)%nat /\ service (take k es) s = Some s1 /\ (pid, i) ∈ awake s1 /\ ide_resume pid i s1 = Ok true s2).
Proof.
  intros HP Hp HR Hw. destruct (run_sim s0 tr s HP Hp HR) as (qs & a & HI & _). pose proof (v_base _ _ _ HI) as HB.
  assert (X : exists l r, qs = l ++ r /\ (i ∉ r)).
  { destruct (decide (i ∈ qs)) as [Hi|Hi]; [|by exists [], qs]. apply list_elem_of_split in Hi as (l1 & l2 & E). exists (l1 ++ [i]), l2. split; [by rewrite <- app_assoc|]. pose proof (v_nodup _ _ _ HB) as HD. rewrite E in HD. apply NoDup_app in HD as (_ & _ & HD). by apply NoDup_cons in HD as [? _]. }
  destruct X as (l & r & Eq & Hr). rewrite Eq in HI. exists qs. split; [apply (v_chain _ _ _ HB)|]. intros Hes. destruct (service_inv l (take (length l) es) s r a) as (s1 & a1 & E1 & HI1 & Hw1); [rewrite Eq, length_app in Hes; rewrite length_take; lia|done|]. rewrite <- Hw1 in Hw.
  assert (Ha : (pid, i) ∈ awake s1) by (apply elem_of_app in Hw as [Hx|Hx]; [by apply (v_asleep _ _ _ (v_base _ _ _ HI1)) in Hx|done]).
  destruct (wp_run (ide_resume pid i) s1 (fun r _ => r = true)) as (res & s2 & E2 & ->).
  { eapply wp_resume; [exact HI1|exact Ha|]. by apply bool_decide_eq_true. }
  exists (length l), s1, s2. split; [|done]. rewrite Eq, length_app. lia.
Qed.

(** ** An example *)

Module Demo.
(** Process 7 reads block 3 into buffer 0, which fails, process 8 writes buffer
    1 to block 4. *)
Definition buffers : list buf :=
  [mkBuf 0 1 3 (mkSleep true 7) 1 0 0 (zeros BSIZE); mkBuf (Z.lor B_VALID B_DIRTY) 1 4 (mkSleep true 8) 1 0 0 (repeat 5 512)].
Definition disk1 : disk := mkDisk {[3 := repeat 9 512]} 1000 [].
Definition start : ide :=
  mk_ide (mkBio buffers disk1) (mkDisk ∅ 1000 []) [None; None] None false (mk_ctl 0 0 0 0 0 Idle false false true) [] [].

Definition after {A} (o : outcome ide A) : ide := match o with Ok _ s => s | _ => start end.
Definition s0 : ide := after (ideinit start).
Definition s1 : ide := after (iderw 7 0 s0).
Definition s2 : ide := after (iderw 8 1 s1).
Definition s3 : ide := hw_done true s2.
Definition s4 : ide := after (ideintr (ack s3)).
Definition s5 : ide := hw_done false s4.
Definition s6 : ide := after (ideintr (ack s5)).
Definition trace4 : list event := [Call 7 0; Call 8 1; Tau; Serve 7 0 true].
Definition trace : list event := [Call 7 0; Call 8 1; Tau; Serve 7 0 true; Tau; Serve 8 1 false].

#[local] Instance may_call_dec s pid i : Decision (may_call s pid i).
Proof. unfold may_call, request. apply _. Defined.

Lemma start_powered : powered start.
Proof.
  constructor; try (split; reflexivity); try reflexivity. split; [unfold FSSIZE; cbn; lia|]. intros b. unfold disk_read. cbn [start ibio dsk disk1 blocks]. destruct (decide (b = 3)) as [->|Hb]; [by rewrite lookup_singleton_eq|by rewrite lookup_singleton_ne].
Qed.

Lemma may_call_of s pid i : bool_decide (may_call s pid i) = true -> may_call s pid i.
Proof. apply bool_decide_eq_true_1. Qed.

Lemma reaches_s4 : reaches start trace4 s4.
Proof.
  exists s0. split; [vm_compute; reflexivity|]. apply (run_snoc _ [Call 7 0; Call 8 1; Tau] s3); [apply (run_snoc _ [Call 7 0; Call 8 1] s2); [apply (run_snoc _ [Call 7 0] s1); [apply (run_snoc _ [] s0); [constructor|]|]|]|].
  - apply (step_call _ _ _ false); [|vm_compute; reflexivity]. apply may_call_of; vm_compute; reflexivity.
  - apply (step_call _ _ _ false); [|vm_compute; reflexivity]. apply may_call_of; vm_compute; reflexivity.
  - apply (step_hw _ true). vm_compute. reflexivity.
  - change true with (cerr (ctl s3)). apply (step_intr _ 7 0); [reflexivity|reflexivity| |vm_compute; reflexivity]. apply (bool_decide_eq_true_1 _). reflexivity.
Qed.

Lemma reaches_s6 : reaches start trace s6.
Proof.
  destruct reaches_s4 as (s & E & HR). exists s. split; [exact E|]. apply (run_snoc _ (trace4 ++ [Tau]) s5); [apply (run_snoc _ trace4 s4); [exact HR|]|].
  - apply (step_hw _ false). vm_compute. reflexivity.
  - change false with (cerr (ctl s5)). apply (step_intr _ 8 1); [reflexivity|reflexivity| |vm_compute; reflexivity]. apply (bool_decide_eq_true_1 _). reflexivity.
Qed.

(** When reading fails, nothing has come from the disk, and yet ideintr()
    marks the buffer valid: process 7 returns with a block of zeros where the
    disk has nines. *)
Example read_error_is_valid :
  let s := after (ideintr (ack (hw_done true s1))) in
  gbuf s 0 = mkBuf B_VALID 1 3 (mkSleep true 7) 1 0 0 (zeros BSIZE) /\ is_busy (ctl s) = false /\ exists s', ide_resume 7 0 s = Ok true s'.
Proof. split; [vm_compute; reflexivity|]. split; [vm_compute; reflexivity|]. eexists. vm_compute. reflexivity. Qed.
End Demo.

Lemma ide_refines_memide_witness : exists a, idequeue Demo.s6 = None /\ mem_run (ibio Demo.start) Demo.trace = Some a /\ ibio Demo.s6 = a.
Proof.
  destruct (ide_refines_memide Demo.start Demo.trace Demo.s6 Demo.start_powered eq_refl Demo.reaches_s6) as (qs & a & _ & _ & _ & H3 & _ & H4 & _). assert (E : idequeue Demo.s6 = None) by (vm_compute; reflexivity). exists a. split; [exact E|]. split; [exact H3|exact (H4 E)].
Defined.

Lemma ide_progress_witness : exists k t1 t2, service (take k [true]) Demo.s4 = Some t1 /\ ide_resume 8 1 t1 = Ok true t2.
Proof.
  destruct (ide_progress Demo.start Demo.trace4 Demo.s4 8 1 [true] Demo.start_powered eq_refl Demo.reaches_s4 ltac:(apply (bool_decide_eq_true_1 _); reflexivity)) as (qs & HC & HP).
  assert (E1 : idequeue Demo.s4 = Some 1%nat) by (vm_compute; reflexivity). assert (E2 : nth 1 (qnext Demo.s4) None = None) by (vm_compute; reflexivity).
  destruct qs as [|x [|y qs]]; cbn [chain] in HC; rewrite E1 in HC; [discriminate HC| |destruct HC as ([= <-] & HC & _); rewrite E2 in HC; discriminate HC].
  destruct (HP (le_n 1)) as (k & t1 & t2 & _ & H1 & _ & H2). exists k, t1, t2. split; [exact H1|exact H2].
Defined.
