(* ===== verification/Log.v ===== *)
(** The log (log.c): transactions of block writes, committed through an
    on-disk redo log, and recovery after a crash.

    [log] holds struct log and, below it, the buffer cache.  Sections under
    log.lock run without interference; a begin_op() that has to wait is
    [Blocked].  The superblock read by initlog() is readsb() of fs.c. *)

From Stdlib Require Import ZArith Lia.
From stdpp Require Import base gmap strings numbers list.
From S2P Require Import Prelude Bio.

Open Scope Z_scope.
Open Scope kern_scope.

Definition MAXOPBLOCKS : Z := 10.
Definition LOGSIZE : Z := MAXOPBLOCKS * 3.

Record log : Type := mkLog {
  lbio : bio;
  lstart : Z;
  lsize : Z;
  outstanding : Z;
  committing : bool;
  ldev : Z;
  lh_n : Z;
  lh_block : list Z     (* LOGSIZE block numbers *)
}.

Definition set_bio (v : bio) (s : log) : log :=
  mkLog v (lstart s) (lsize s) (outstanding s) (committing s) (ldev s) (lh_n s) (lh_block s).
Definition set_geometry (start size dev : Z) (s : log) : log :=
  mkLog (lbio s) start size (outstanding s) (committing s) dev (lh_n s) (lh_block s).
Definition set_outstanding (v : Z) (s : log) : log :=
  mkLog (lbio s) (lstart s) (lsize s) v (committing s) (ldev s) (lh_n s) (lh_block s).
Definition set_committing (v : bool) (s : log) : log :=
  mkLog (lbio s) (lstart s) (lsize s) (outstanding s) v (ldev s) (lh_n s) (lh_block s).
Definition set_lh (n : Z) (b : list Z) (s : log) : log :=
  mkLog (lbio s) (lstart s) (lsize s) (outstanding s) (committing s) (ldev s) n b.

Definition on_bio {A} (m : M bio A) : M log A := zoom lbio set_bio m.

(** struct superblock, its fields in the order of the block's words. *)
Record superblock : Type := mkSb {
  sb_size : Z; sb_nblocks : Z; sb_ninodes : Z; sb_nlog : Z;
  sb_logstart : Z; sb_inodestart : Z; sb_bmapstart : Z
}.

Definition decode_sb (d : list Z) : superblock :=
  mkSb (le32 d 0) (le32 d 4) (le32 d 8) (le32 d 12) (le32 d 16) (le32 d 20) (le32 d 24).

Section Log.
Variable pid : Z.

(** b->data of a held buffer, read and overwritten. *)
Definition get_data (i : nat) : M bio (list Z) := gets (fun s => data (get_buf s i)).
Definition set_data (i : nat) (v : list Z) : M bio unit := mod_buf i (with_data v).

Definition readsb (dev : Z) : M bio superblock :=
  let! bp := bread pid dev 1 in
  let! d := get_data bp in
  brelse pid bp ;;;
  ret (decode_sb d).

Definition install_trans : M log unit :=
  let! n := gets lh_n in
  for_up 0 n (fun tail =>
    let! s := gets id in
    let! lbuf := on_bio (bread pid (ldev s) (u32 (lstart s + tail + 1))) in
    require (arr_ok (lh_block s) tail) "log.lh.block index" ;;;
    let! dbuf := on_bio (bread pid (ldev s) (u32 (aget 0 (lh_block s) tail))) in
    let! d := on_bio (get_data lbuf) in
    on_bio (set_data dbuf d) ;;;
    on_bio (bwrite pid dbuf) ;;;
    on_bio (brelse pid lbuf) ;;;
    on_bio (brelse pid dbuf)).

Definition read_head : M log unit :=
  let! s := gets id in
  let! buf := on_bio (bread pid (ldev s) (u32 (lstart s))) in
  let! d := on_bio (get_data buf) in
  let n := i32 (le32 d 0) in
  modify (set_lh n (lh_block s)) ;;;
  for_up 0 n (fun i =>
    let! b := gets lh_block in
    require (arr_ok b i) "log.lh.block index" ;;;
    modify (set_lh n (aset b i (i32 (le32 d (4 + 4 * i)))))) ;;;
  on_bio (brelse pid buf).

Definition write_head : M log unit :=
  let! s := gets id in
  let! buf := on_bio (bread pid (ldev s) (u32 (lstart s))) in
  let! d := on_bio (get_data buf) in
  on_bio (set_data buf (put32 d 0 (lh_n s))) ;;;
  for_up 0 (lh_n s) (fun i =>
    require (arr_ok (lh_block s) i) "log.lh.block index" ;;;
    let! d := on_bio (get_data buf) in
    on_bio (set_data buf (put32 d (4 + 4 * i) (aget 0 (lh_block s) i)))) ;;;
  on_bio (bwrite pid buf) ;;;
  on_bio (brelse pid buf).

Definition recover_from_log : M log unit :=
  read_head ;;;
  install_trans ;;;
  modify (fun s => set_lh 0 (lh_block s) s) ;;;
  write_head.

(** sizeof(struct logheader): the count and LOGSIZE block numbers. *)
Definition sizeof_logheader : Z := 4 + 4 * LOGSIZE.

Definition initlog (dev : Z) : M log unit :=
  if sizeof_logheader >=? BSIZE then panic "initlog: too big logheader"
  else
    let! sb := on_bio (readsb dev) in
    modify (set_geometry (i32 (sb_logstart sb)) (i32 (sb_nlog sb)) dev) ;;;
    recover_from_log.

(** The zeroed struct log over a cold cache, and the start of the file
    system: binit() in main() and initlog(ROOTDEV) in the first forkret(). *)
Definition log_boot (d : disk) : log := mkLog (bio_boot d) 0 0 0 false 0 0 (repeat 0 (Z.to_nat LOGSIZE)).

Definition reboot (d : disk) : outcome log unit :=
  (on_bio binit ;;;
   initlog 1) (log_boot d).

Definition begin_op : M log unit :=
  let! s := gets id in
  if committing s then blocked
  else if lh_n s + (outstanding s + 1) * MAXOPBLOCKS >? LOGSIZE then blocked
  else modify (set_outstanding (outstanding s + 1)).

Definition write_log : M log unit :=
  let! n := gets lh_n in
  for_up 0 n (fun tail =>
    let! s := gets id in
    let! to := on_bio (bread pid (ldev s) (u32 (lstart s + tail + 1))) in
    require (arr_ok (lh_block s) tail) "log.lh.block index" ;;;
    let! from := on_bio (bread pid (ldev s) (u32 (aget 0 (lh_block s) tail))) in
    let! d := on_bio (get_data from) in
    on_bio (set_data to d) ;;;
    on_bio (bwrite pid to) ;;;
    on_bio (brelse pid from) ;;;
    on_bio (brelse pid to)).

Definition commit : M log unit :=
  let! n := gets lh_n in
  when (n >? 0)
    (write_log ;;;
     write_head ;;;
     install_trans ;;;
     modify (fun s => set_lh 0 (lh_block s) s) ;;;
     write_head).

Definition end_op : M log unit :=
  let! s := gets id in
  modify (set_outstanding (outstanding s - 1)) ;;;
  if committing s then panic "log.committing"
  else
    when (outstanding s - 1 =? 0)
      (modify (set_committing true) ;;;
       commit ;;;
       modify (set_committing false)).

(** log_write(b): the first place that holds b's block, or the next free one. *)
Definition log_write (b : nat) : M log unit :=
  let! s := gets id in
  if (lh_n s >=? LOGSIZE) || (lh_n s >=? lsize s - 1) then panic "too big a transaction"
  else if outstanding s <? 1 then panic "log_write outside of trans"
  else
    let! bn := on_bio (gets (fun t => blockno (get_buf t b))) in
    let! i := search (Z.to_nat (lh_n s)) 0 (fun i =>
      require (arr_ok (lh_block s) i) "log.lh.block index" ;;;
      ret (if u32 (aget 0 (lh_block s) i) =? bn then Some i else None)) in
    let i := match i with Some i => i | None => lh_n s end in
    require (arr_ok (lh_block s) i) "log.lh.block index" ;;;
    modify (set_lh (lh_n s) (aset (lh_block s) i (i32 bn))) ;;;
    when (i =? lh_n s) (modify (fun t => set_lh (lh_n t + 1) (lh_block t) t)) ;;;
    on_bio (mod_buf b (fun x => with_flags (Z.lor (flags x) B_DIRTY) x)).
End Log.
