(* ===== verification/LogCopy.v ===== *)
(** The steps the log is made of, on the buffer cache: copying one block to
    another through the cache, and rewriting the header block. *)

From Stdlib Require Import ZArith Lia.
From stdpp Require Import base gmap strings numbers list.
From S2P Require Import Prelude Bio BioSpec Log.

Open Scope Z_scope.
Open Scope kern_scope.

Section Copy.
Context (pid : Z).

(** Of more items than numbers in bl and places in H, one is neither in H nor
    marked, if the marked ones have different numbers of bl. *)
Lemma pigeon (L H : list nat) (bl : list Z) (f : nat -> Z) (mark : nat -> bool) :
  NoDup L -> (forall i j, i ∈ L -> j ∈ L -> mark i = true -> mark j = true -> f i = f j -> i = j) ->
  (forall i, i ∈ L -> mark i = true -> f i ∈ bl) -> (length bl + length H < length L)%nat ->
  exists i, i ∈ L /\ (i ∉ H) /\ mark i = false.
Proof.
  intros HL Hinj Hbl Hlen. set (D := filter (fun i => i ∉ H) L).
  assert (Hdec : forall i, {mark i = true} + {mark i = false}) by (intros i; destruct (mark i); auto).
  destruct (Forall_Exists_dec (fun i => mark i = true) (fun i => mark i = false) Hdec D) as [Hall|Hex].
  2: { apply Exists_exists in Hex as (i & Hi & Hm). apply list_elem_of_filter in Hi as [HiH HiL]. eauto. }
  exfalso.
  assert (HD : forall i, i ∈ D -> i ∈ L /\ (i ∉ H) /\ mark i = true).
  { intros i Hi. rewrite Forall_forall in Hall. specialize (Hall i Hi). apply list_elem_of_filter in Hi as [HiH HiL].
    split_and!; done. }
  assert (L1 : (length D <= length bl)%nat).
  { rewrite <- (length_fmap f D). apply submseteq_length, NoDup_submseteq.
    - apply NoDup_fmap_2_strong; [|by apply NoDup_filter]. intros i j Hi Hj. apply HD in Hi as (? & _ & ?), Hj as (? & _ & ?). auto.
    - intros b (i & -> & Hi)%list_elem_of_fmap. apply HD in Hi as (? & _ & ?). auto. }
  assert (L2 : (length L <= length D + length H)%nat).
  { rewrite <- length_app. apply submseteq_length, NoDup_submseteq; [done|]. intros i Hi. apply elem_of_app.
    destruct (decide (i ∈ H)); [by right|left]. by apply list_elem_of_filter. }
  lia.
Qed.

(** As long as fewer buffers are dirty or held than there are, one can be recycled. *)
Lemma spare_count s l H bl :
  bio_inv s l -> (forall b, dirty s b -> b ∈ bl) -> (length bl + length H < NBUF)%nat -> spare s H.
Proof.
  intros I Hd Hlen.
  assert (Hdev : forall i, (i < NBUF)%nat -> is_dirty (get_buf s i) = true -> bdev (get_buf s i) = 1).
  { intros i Hi Hdi. apply (bi_dev s l I i Hi). intros E0. unfold is_dirty, has_flag in Hdi. by rewrite E0 in Hdi. }
  destruct (pigeon (seq 0 NBUF) H bl (fun i => blockno (get_buf s i)) (fun i => is_dirty (get_buf s i)))
    as (i & Hi & HiH & Hm).
  - apply NoDup_seq.
  - intros i j Hi Hj Hmi Hmj E. apply elem_of_seq in Hi, Hj. apply (bi_uniq s l I); auto; try lia; apply Hdev; auto; lia.
  - intros i Hi Hm. apply elem_of_seq in Hi. apply Hd. exists i. split_and!; [lia| |done].
    apply same_block_true. split; [|done]. apply Hdev; [lia|done].
  - by rewrite length_seq.
  - exists i. apply elem_of_seq in Hi. split_and!; [lia|done|done].
Qed.

(** A state of the cache between operations: nothing is locked, blocks are
    512 bytes, and exactly the blocks of bl are dirty. *)
Record idle (s : bio) (bl : list Z) : Prop := {
  id_inv : exists l, bio_inv s l;
  id_held : held pid s [];
  id_dirty : forall b, dirty s b <-> b ∈ bl;
  id_sized : forall b, length (view s b) = 512%nat
}.

(** What a copy of block src to block dst leaves. *)
Definition copied (s : bio) (bl : list Z) (dst src : Z) (s' : bio) : Prop :=
  idle s' (List.filter (fun b => negb (b =? dst)) bl) /\
  dsk s' = disk_write dst (view s src) (dsk s) /\
  (forall b, view s' b = if Z.eq_dec b dst then view s src else view s b).

Lemma elem_filter_ne (bl : list Z) d b : b ∈ List.filter (fun b => negb (b =? d)) bl <-> b ∈ bl /\ b <> d.
Proof. rewrite !list_elem_of_In, filter_In, negb_true_iff, Z.eqb_neq. done. Qed.

(** A block that is not dirty shows what is on the disk. *)
Lemma view_clean s l b : bio_inv s l -> held pid s [] -> ~ dirty s b -> view s b = disk_read (dsk s) b.
Proof.
  intros I Hh Hd. unfold view. destruct (List.find _ _) as [i|] eqn:E; [|done].
  apply find_some in E as [Hi Hb]. apply in_seq in Hi. apply andb_true_iff in Hb as [Hs Hv].
  pose proof Hs as [Hdev <-]%same_block_true. apply (hd_clean _ _ _ Hh); try done; [lia|by apply not_elem_of_nil|].
  destruct (is_dirty (get_buf s i)) eqn:Ed; [|done]. exfalso. apply Hd. exists i. split_and!; [lia|done|done].
Qed.

(** Blocks A and B read, one after the other, from an idle cache. *)
Record read_two (s : bio) (bl : list Z) (A B : Z) (i j : nat) (s2 : bio) : Prop := {
  rt_inv : exists l, bio_inv s2 l;
  rt_held : held pid s2 [j; i];
  rt_ne : i <> j;
  rt_i : bdev (get_buf s2 i) = 1 /\ blockno (get_buf s2 i) = A /\ is_valid (get_buf s2 i) = true /\
    data (get_buf s2 i) = view s A /\ (is_dirty (get_buf s2 i) = true <-> A ∈ bl);
  rt_j : bdev (get_buf s2 j) = 1 /\ blockno (get_buf s2 j) = B /\ is_valid (get_buf s2 j) = true /\
    data (get_buf s2 j) = view s B /\ (is_dirty (get_buf s2 j) = true <-> B ∈ bl);
  rt_disk : dsk s2 = dsk s;
  rt_view : forall b, view s2 b = view s b;
  rt_dirty : forall b, dirty s2 b <-> b ∈ bl
}.

Lemma wp_read_two s bl A B (Q : nat -> nat -> bio -> Prop) :
  idle s bl -> A <> B -> 0 <= A < disksize (dsk s) -> 0 <= B < disksize (dsk s) ->
  (length bl < 30)%nat -> (B ∈ bl \/ (length bl < 29)%nat) ->
  (forall i j s2, read_two s bl A B i j s2 -> Q i j s2) ->
  wp (bread pid 1 A) s (fun i s1 => wp (bread pid 1 B) s1 (fun j s2 => Q i j s2)).
Proof.
  intros [[l I] Hh Hd Hsz] Hne HA HB Hlen HB2 HQ.
  apply (wp_bread pid A s l []); [done|done|done|by intros i ?%not_elem_of_nil| |].
  { right. apply (spare_count s l [] bl I); [by intros; apply Hd|cbn; unfold NBUF; lia]. }
  intros i s1 G1. pose proof (got_disk _ _ _ _ _ _ _ G1) as D1.
  assert (Hd1 : forall b, dirty s1 b <-> b ∈ bl) by (intros b; by rewrite (got_dirties _ _ _ _ _ _ _ G1)).
  destruct (got_block _ _ _ _ _ _ _ G1) as [Hi1 Hi2].
  apply (wp_bread pid B s1 l [i]); [apply G1|apply G1|by rewrite D1| | |].
  { intros k ->%list_elem_of_singleton. congruence. }
  { destruct HB2 as [HB2|HB2]; [left; by apply Hd1|right].
    apply (spare_count s1 l [i] bl (got_inv _ _ _ _ _ _ _ G1)); [by intros; apply Hd1|cbn; unfold NBUF; lia]. }
  intros j s2 G2. destruct (got_block _ _ _ _ _ _ _ G2) as [Hj1 Hj2].
  assert (Hij : i <> j).
  { pose proof (hd_nodup _ _ _ (got_held _ _ _ _ _ _ _ G2)) as [Hn _]%NoDup_cons. intros ->. apply Hn. by left. }
  pose proof (got_other _ _ _ _ _ _ _ G2 i Hij) as Ei.
  apply HQ. constructor; rewrite ?Ei; try done.
  - exists l. apply G2.
  - apply G2.
  - split_and!; try done; [apply G1|apply G1|]. rewrite (got_dirty _ _ _ _ _ _ _ G1). apply Hd.
  - split_and!; try done; [apply G2| |].
    + rewrite (got_data _ _ _ _ _ _ _ G2). apply G1.
    + rewrite (got_dirty _ _ _ _ _ _ _ G2). apply Hd1.
  - by rewrite (got_disk _ _ _ _ _ _ _ G2).
  - intros b. by rewrite (got_view _ _ _ _ _ _ _ G2), (got_view _ _ _ _ _ _ _ G1).
  - intros b. by rewrite (got_dirties _ _ _ _ _ _ _ G2).
Qed.

(** The rest of a copy: src and dst are the two buffers, in either role. *)
Lemma wp_copy_tail s bl A B i j s2 (first : bool) (Q : unit -> bio -> Prop)
  (dst := if first then i else j) (src := if first then j else i)
  (D := if first then A else B) (S' := if first then B else A) :
  idle s bl -> read_two s bl A B i j s2 -> A <> B -> 0 <= D < disksize (dsk s) ->
  (forall s', copied s bl D S' s' -> Q tt s') ->
  wp (set_data dst (data (get_buf s2 src))) s2 (fun _ s3 => wp (bwrite pid dst) s3 (fun _ s4 =>
    wp (brelse pid src) s4 (fun _ s5 => wp (brelse pid dst) s5 Q))).
Proof.
  intros Hidle R Hne HD HQ. destruct R as [[l I] Hh Hij Ri Rj Rd Rv Rdi].
  assert (Hdst : dst ∈ [j; i] /\ src ∈ [j; i] /\ dst <> src /\ [j; i] ≡ₚ [src; dst]).
  { assert (Hj1 : j ∈ [j; i]) by (by left). assert (Hi1 : i ∈ [j; i]) by (right; by left).
    unfold dst, src. destruct first; split_and!; try done; try congruence; apply Permutation_swap. }
  destruct Hdst as (Hdst & Hsrc & Hds & Hperm).
  assert (Hx : bdev (get_buf s2 dst) = 1 /\ blockno (get_buf s2 dst) = D /\ is_valid (get_buf s2 dst) = true)
    by (unfold dst, D; destruct first; tauto).
  assert (Hy : bdev (get_buf s2 src) = 1 /\ blockno (get_buf s2 src) = S' /\ data (get_buf s2 src) = view s S' /\
     (is_dirty (get_buf s2 src) = true <-> S' ∈ bl))
    by (unfold src, S'; destruct first; tauto).
  destruct Hx as (X1 & X2 & X3), Hy as (Y1 & Y2 & Y3 & Y4). rewrite Y3.
  assert (HDS : D <> S') by (unfold D, S'; destruct first; congruence).
  apply wp_modify. destruct (put_data pid s2 l [j; i] dst (view s S') I Hh Hdst X1 X3) as (I3 & Hh3 & V3 & Di3).
  set (s3 := upd_buf dst (with_data (view s S')) s2) in *. rewrite X2 in V3.
  assert (Hr : forall x, x ∈ [j; i] -> (x < length (bufs s2))%nat).
  { intros x Hxx. pose proof (hd_range _ _ _ Hh x Hxx). rewrite (bi_len _ _ I). lia. }
  assert (G3 : get_buf s3 dst = with_data (view s S') (get_buf s2 dst)) by (unfold s3; rewrite get_upd, decide_True; auto).
  assert (G3s : get_buf s3 src = get_buf s2 src) by (unfold s3; rewrite get_upd, decide_False; auto).
  apply (wp_bwrite pid s3 l [j; i]); rewrite ?G3; cbn [bdev blockno with_data]; try done.
  { cbn. rewrite X2, Rd. lia. }
  intros s4 W. destruct W as [I4 Hh4 D4 V4 Di4 Es4 Eo4]. rewrite G3 in *. cbn [bdev blockno data with_data] in *.
  rewrite X2 in *. assert (D4' : dsk s4 = disk_write D (view s S') (dsk s)) by (rewrite D4; cbn; by rewrite Rd).
  assert (G4s : get_buf s4 src = get_buf s2 src) by (rewrite Eo4 by congruence; done).
  apply (wp_brelse pid s4 l [j; i] [dst]); [done|done|done| |].
  { rewrite G4s, Y2, Y3. destruct (is_dirty (get_buf s2 src)) eqn:Ed; [by left|right].
    rewrite D4', disk_read_write. destruct (Z.eq_dec _ _); [congruence|]. destruct Hidle as [[l0 I0] Hh0 Hd0 _].
    apply (view_clean s l0); [done|done|]. rewrite Hd0, <- Y4. congruence. }
  intros s5 l5 [I5 _ Hh5 D5 C5].
  apply (wp_brelse pid s5 (src :: l5) [dst] []); [done|done|done| |].
  { destruct (core_fields _ _ (C5 dst)) as (_ & _ & -> & -> & _). right. rewrite Es4. cbn. rewrite X2, D5, D4', disk_read_write.
    by destruct (Z.eq_dec D D). }
  intros s6 l6 [I6 _ Hh6 D6 C6]. apply HQ.
  assert (V6 : forall b, view s6 b = if Z.eq_dec b D then view s S' else view s b).
  { intros b. rewrite (view_core s5 s6), (view_core s4 s5), V4, V3 by auto. destruct (Z.eq_dec b D); [done|apply Rv]. }
  split_and!; [|by rewrite D6, D5|done]. constructor.
  - eauto.
  - done.
  - intros b. rewrite (dirty_core s5 s6), (dirty_core s4 s5), Di4, Di3, Rdi, elem_filter_ne by auto. done.
  - intros b. rewrite V6. destruct (Z.eq_dec _ _); apply Hidle.
Qed.

(** ** One block *)

(** Block A, read from an idle cache, with v now in the buffer i. *)
Record editing (s : bio) (bl : list Z) (A : Z) (i : nat) (v : list Z) (s1 : bio) : Prop := {
  ed_inv : exists l, bio_inv s1 l;
  ed_held : held pid s1 [i];
  ed_i : bdev (get_buf s1 i) = 1 /\ blockno (get_buf s1 i) = A /\ is_valid (get_buf s1 i) = true /\
    data (get_buf s1 i) = v /\ (is_dirty (get_buf s1 i) = true <-> A ∈ bl);
  ed_disk : dsk s1 = dsk s;
  ed_view : forall b, view s1 b = if Z.eq_dec b A then v else view s b;
  ed_dirty : forall b, dirty s1 b <-> b ∈ bl
}.

Lemma wp_read_one s bl A (Q : nat -> bio -> Prop) :
  idle s bl -> 0 <= A < disksize (dsk s) -> (A ∈ bl \/ (length bl < 30)%nat) ->
  (forall i s1, editing s bl A i (view s A) s1 -> Q i s1) -> wp (bread pid 1 A) s Q.
Proof.
  intros [[l I] Hh Hd Hsz] HA Hlen HQ.
  apply (wp_bread pid A s l []); [done|done|done|by intros i ?%not_elem_of_nil| |].
  { destruct Hlen as [Hlen|Hlen]; [left; by apply Hd|right].
    apply (spare_count s l [] bl I); [by intros; apply Hd|cbn; unfold NBUF; lia]. }
  intros i s1 G. destruct (got_block _ _ _ _ _ _ _ G) as [Hi1 Hi2]. apply HQ. constructor.
  - exists l. apply G.
  - apply G.
  - split_and!; try done; [apply G|apply G|]. rewrite (got_dirty _ _ _ _ _ _ _ G). apply Hd.
  - apply G.
  - intros b. rewrite (got_view _ _ _ _ _ _ _ G). by destruct (Z.eq_dec b A) as [->|].
  - intros b. rewrite (got_dirties _ _ _ _ _ _ _ G). apply Hd.
Qed.

Lemma editing_set s bl A i v s1 v' :
  editing s bl A i v s1 -> editing s bl A i v' (upd_buf i (with_data v') s1).
Proof.
  intros [[l I] Hh (E1 & E2 & E3 & E4 & E5) Hd Hv Hdi].
  assert (Hi : i ∈ [i]) by (by left).
  destruct (put_data pid s1 l [i] i v' I Hh Hi E1 E3) as (I' & Hh' & V' & D'). rewrite E2 in V'.
  assert (Hr : (i < length (bufs s1))%nat) by (rewrite (bi_len _ _ I); pose proof (hd_range _ _ _ Hh i Hi); lia).
  constructor; rewrite ?get_upd, ?decide_True by done; cbn; try done; eauto.
  - intros b. rewrite V', Hv. by destruct (Z.eq_dec b A).
  - intros b. by rewrite D'.
Qed.

(** Block A holds v, in the cache and on the disk; the rest is as it was. *)
Definition written (s : bio) (bl : list Z) (A : Z) (v : list Z) (s' : bio) : Prop :=
  idle s' (List.filter (fun b => negb (b =? A)) bl) /\ dsk s' = disk_write A v (dsk s) /\
  (forall b, view s' b = if Z.eq_dec b A then v else view s b).

Lemma wp_write_back s bl A i v s1 (Q : unit -> bio -> Prop) :
  idle s bl -> editing s bl A i v s1 -> 0 <= A < disksize (dsk s) -> length v = 512%nat ->
  (forall s', written s bl A v s' -> Q tt s') ->
  wp (bwrite pid i) s1 (fun _ s2 => wp (brelse pid i) s2 Q).
Proof.
  intros Hidle [[l I] Hh (E1 & E2 & E3 & E4 & E5) Hd Hv Hdi] HA Hlen HQ.
  assert (Hi : i ∈ [i]) by (by left).
  apply (wp_bwrite pid s1 l [i]); try done; [rewrite E2, Hd; lia|].
  intros s2 [I2 Hh2 D2 V2 Di2 Es2 _]. rewrite E2, E4, Hd in *.
  apply (wp_brelse pid s2 l [i] []); [done|done|done| |].
  { right. rewrite Es2. cbn. rewrite E2, E4, D2, disk_read_write. by destruct (Z.eq_dec A A). }
  intros s3 l3 [I3 _ Hh3 D3 C3]. apply HQ.
  assert (V3 : forall b, view s3 b = if Z.eq_dec b A then v else view s b).
  { intros b. by rewrite (view_core s2 s3), V2, Hv by auto. }
  split_and!; [|by rewrite D3, D2|done]. constructor; [eauto|done| |].
  - intros b. rewrite (dirty_core s2 s3), Di2, Hdi, elem_filter_ne by auto. done.
  - intros b. rewrite V3. destruct (Z.eq_dec _ _); [done|apply Hidle].
Qed.

(** Releasing a block that was only read. *)
Lemma wp_put_back s bl A i s1 (Q : unit -> bio -> Prop) :
  idle s bl -> editing s bl A i (view s A) s1 ->
  (forall s', idle s' bl -> dsk s' = dsk s -> (forall b, view s' b = view s b) -> Q tt s') ->
  wp (brelse pid i) s1 Q.
Proof.
  intros Hidle [[l I] Hh (E1 & E2 & E3 & E4 & E5) Hd Hv Hdi] HQ. destruct Hidle as [[l0 I0] Hh0 Hd0 Hsz].
  apply (wp_brelse pid s1 l [i] []); [done|done|done| |].
  { destruct (is_dirty (get_buf s1 i)) eqn:Ed; [by left|right]. rewrite E2, E4, Hd. apply (view_clean s l0); [done|done|].
    rewrite Hd0, <- E5. congruence. }
  intros s2 l2 [I2 _ Hh2 D2 C2].
  assert (V2 : forall b, view s2 b = view s b).
  { intros b. rewrite (view_core s1 s2), Hv by auto. by destruct (Z.eq_dec b A) as [->|]. }
  apply HQ; [|by rewrite D2|done]. constructor; [eauto|done| |].
  - intros b. rewrite (dirty_core s1 s2) by auto. apply Hdi.
  - intros b. by rewrite V2.
Qed.
End Copy.
