(* ===== verification/LogSpec.v ===== *)
(** Commit and recovery: the sequence of disk writes a commit performs, and
    what recovery makes of every prefix of it. *)

From Stdlib Require Import ZArith Lia.
From stdpp Require Import base gmap strings numbers list.
From S2P Require Import Prelude Bio BioSpec Log LogCopy.

Open Scope Z_scope.
Open Scope kern_scope.

(** ** Sequences of writes *)

Definition apply_writes (ws : list (Z * list Z)) (d : disk) : disk :=
  fold_left (fun d w => disk_write w.1 w.2 d) ws d.

Lemma apply_writes_app ws ws' d : apply_writes (ws ++ ws') d = apply_writes ws' (apply_writes ws d).
Proof. unfold apply_writes. by rewrite fold_left_app. Qed.

Lemma disksize_apply ws d : disksize (apply_writes ws d) = disksize d.
Proof. revert d. induction ws as [|w ws IH]; intros d; [done|]. cbn. by rewrite IH. Qed.

Lemma writes_apply ws d : writes (apply_writes ws d) = writes d ++ ws.
Proof.
  revert d. induction ws as [|[b v] ws IH]; intros d; [by rewrite app_nil_r|]. cbn. rewrite IH. cbn.
  by rewrite <- app_assoc.
Qed.

Lemma read_apply_other ws d b : b ∉ ws.*1 -> disk_read (apply_writes ws d) b = disk_read d b.
Proof.
  revert d. induction ws as [|w ws IH]; intros d Hb; [done|]. cbn in *. apply not_elem_of_cons in Hb as [Hne Hb].
  rewrite IH by done. rewrite disk_read_write. by destruct (Z.eq_dec _ _).
Qed.

Lemma read_apply_hit ws d b v : NoDup ws.*1 -> (b, v) ∈ ws -> disk_read (apply_writes ws d) b = v.
Proof.
  revert d. induction ws as [|w ws IH]; intros d Hnd Hin; [by apply not_elem_of_nil in Hin|].
  cbn in *. apply NoDup_cons in Hnd as [Hw Hnd]. apply elem_of_cons in Hin as [<-|Hin]; [|by apply IH].
  cbn in *. rewrite read_apply_other by done. rewrite disk_read_write. by destruct (Z.eq_dec b b).
Qed.

Lemma take_imap_S {A B} (f : nat -> A -> B) l k x :
  l !! k = Some x -> take (S k) (imap f l) = take k (imap f l) ++ [f k x].
Proof. intros H. apply take_S_r. by rewrite list_lookup_imap, H. Qed.

Lemma filter_ne_id (bl : list Z) d : d ∉ bl -> List.filter (fun b => negb (b =? d)) bl = bl.
Proof.
  induction bl as [|b bl IH]; intros Hd; [done|]. apply not_elem_of_cons in Hd as [Hne Hd]. cbn.
  destruct (Z.eqb_spec b d); [congruence|]. cbn. by rewrite IH.
Qed.

Section Log.
Context (pid st nl : Z).

(** The log's place on a disk, and its struct in memory. *)
Record geometry (s : log) : Prop := {
  geo_dev : ldev s = 1;
  geo_start : lstart s = st;
  geo_size : lsize s = nl;
  geo_range : 1 < st /\ 0 < nl /\ st + nl <= disksize (dsk (lbio s)) < 2147483648
}.

Definition in_log (b : Z) : Prop := st <= b < st + nl.

(** The in-memory header lists exactly bl: distinct blocks outside the log. *)
Record header_is (s : log) (bl : list Z) : Prop := {
  hi_len : length (lh_block s) = 30%nat;
  hi_n : lh_n s = Z.of_nat (length bl);
  hi_blocks : take (length bl) (lh_block s) = bl;
  hi_nodup : NoDup bl;
  hi_range : forall b, b ∈ bl -> 0 <= b < disksize (dsk (lbio s)) /\ ~ in_log b;
  hi_fits : (length bl < 30)%nat /\ Z.of_nat (length bl) < nl
}.

Lemma header_lookup s bl k : header_is s bl -> 0 <= k < Z.of_nat (length bl) ->
  exists b, bl !! Z.to_nat k = Some b /\ aget 0 (lh_block s) k = b /\ b ∈ bl.
Proof.
  intros H Hk. destruct (lookup_lt_is_Some_2 bl (Z.to_nat k)) as [b Hb]; [lia|]. exists b. split; [done|]. split.
  - unfold aget. replace (k <? 0) with false by lia. rewrite nth_lookup.
    rewrite <- (hi_blocks s bl H), lookup_take_lt in Hb by lia. by rewrite Hb.
  - by eapply list_elem_of_lookup_2.
Qed.

(** ** write_log *)

Definition log_writes (vw : Z -> list Z) (bl : list Z) : list (Z * list Z) :=
  imap (fun t b => (st + 1 + Z.of_nat t, vw b)) bl.

(** Replacing the cache below the log. *)
Lemma geometry_bio s b : geometry s -> disksize (dsk b) = disksize (dsk (lbio s)) -> geometry (set_bio b s).
Proof. intros [] Hd. constructor; cbn; try done. by rewrite Hd. Qed.

Lemma wp_write_log s bl (Q : unit -> log -> Prop) :
  geometry s -> header_is s bl -> idle pid (lbio s) bl ->
  (forall b', idle pid b' bl -> dsk b' = apply_writes (log_writes (view (lbio s)) bl) (dsk (lbio s)) ->
     (forall x, ~ in_log x -> view b' x = view (lbio s) x) ->
     (forall k b, bl !! k = Some b -> view b' (st + 1 + Z.of_nat k) = view (lbio s) b) ->
     view b' st = view (lbio s) st ->
     Q tt (set_bio b' s)) ->
  wp (write_log pid) s Q.
Proof.
  intros [Gd Gs Gn Gr] Hh Hidle HQ. pose proof (hi_fits s bl Hh) as [Hf1 Hf2]. set (b0 := lbio s) in *.
  unfold write_log. apply wp_bind, wp_gets. rewrite (hi_n s bl Hh).
  apply (wp_for_up (fun k t => 0 <= k /\ exists b', t = set_bio b' s /\ idle pid b' bl /\
    dsk b' = apply_writes (take (Z.to_nat k) (log_writes (view b0) bl)) (dsk b0) /\
    (forall x, ~ (st < x <= st + k) -> view b' x = view b0 x) /\
    (forall j b, bl !! j = Some b -> Z.of_nat j < k -> view b' (st + 1 + Z.of_nat j) = view b0 b))).
  - split; [lia|]. exists b0. split_and!; try done; [by destruct s|]. intros; lia.
  - intros k t Hk (_ & b' & -> & Hid & Hdsk & Hv1 & Hv2).
    assert (Hsz : disksize (dsk b') = disksize (dsk b0)) by (by rewrite Hdsk, disksize_apply).
    destruct (header_lookup s bl k Hh Hk) as (b & Hb & Hab & Hin). destruct (hi_range s bl Hh b Hin) as [Hbr Hbl].
    unfold in_log in Hbl.
    apply wp_bind, wp_gets. cbn [id ldev lstart lh_block set_bio]. rewrite Gd, Gs, Hab.
    rewrite (u32_small (st + k + 1)), (u32_small b) by (unfold b0 in *; lia).
    apply wp_bind, wp_zoom. cbn [lbio set_bio].
    eapply wp_mono; [apply (wp_read_two pid b' bl (st + k + 1) b (fun i j s2 => read_two pid b' bl (st + k + 1) b i j s2));
      [done|lia|unfold b0 in *; lia|unfold b0 in *; lia|lia|by left|done]|].
    cbn beta. intros i s1 W1.
    apply wp_bind, wp_require; [apply arr_ok_true; rewrite (hi_len s bl Hh); lia|].
    apply wp_bind, wp_zoom. cbn [lbio set_bio]. eapply wp_mono; [exact W1|]. cbn beta. intros j s2 R.
    apply wp_bind, wp_zoom, wp_gets. cbn [lbio set_bio].
    apply wp_bind, wp_zoom. cbn [lbio set_bio].
    eapply wp_mono; [apply (wp_copy_tail pid b' bl (st + k + 1) b i j s2 true (fun _ s' => copied pid b' bl (st + k + 1) b s'));
      [done|done|lia|unfold b0 in *; lia|done]|].
    cbn beta. intros [] s3 W3. apply wp_bind, wp_zoom. cbn [lbio set_bio]. eapply wp_mono; [exact W3|].
    cbn beta. intros [] s4 W4. apply wp_bind, wp_zoom. cbn [lbio set_bio]. eapply wp_mono; [exact W4|].
    cbn beta. intros [] s5 W5. apply wp_zoom. cbn [lbio set_bio]. eapply wp_mono; [exact W5|].
    cbn beta. intros [] s6 (Hid6 & Hd6 & Hv6). split; [lia|]. exists s6. split_and!; try done.
    + rewrite filter_ne_id in Hid6; [done|]. intros Hin2. destruct (hi_range s bl Hh _ Hin2) as [_ Hx]. unfold in_log in Hx. lia.
    + rewrite Hd6, Hdsk, (Hv1 b) by lia. replace (Z.to_nat (k + 1)) with (S (Z.to_nat k)) by lia.
      unfold log_writes at 2. rewrite (take_imap_S _ _ _ _ Hb), apply_writes_app. cbn. f_equal; lia || done.
    + intros x Hx. rewrite Hv6. destruct (Z.eq_dec _ _); [lia|]. apply Hv1. lia.
    + intros j' b1 Hj Hlt. rewrite Hv6. destruct (Z.eq_dec _ _) as [E|E].
      * replace j' with (Z.to_nat k) in Hj by lia. rewrite Hv1 by lia. congruence.
      * apply (Hv2 j' b1 Hj). lia.
  - intros t (_ & b' & -> & Hid & Hdsk & Hv1 & Hv2). replace (Z.max 0 _) with (Z.of_nat (length bl)) in * by lia.
    apply HQ; [done| | | |].
    + rewrite Hdsk, take_ge; [done|]. unfold log_writes. rewrite length_imap. lia.
    + intros x Hx. apply Hv1. unfold in_log in Hx. lia.
    + intros j b Hj. apply (Hv2 j b Hj). apply lookup_lt_Some in Hj. lia.
    + apply Hv1. lia.
Qed.

(** ** The header block *)

Definition is_header (d : list Z) (bl : list Z) : Prop :=
  length d = 512%nat /\ i32 (le32 d 0) = Z.of_nat (length bl) /\
  forall k b, bl !! k = Some b -> i32 (le32 d (4 + 4 * Z.of_nat k)) = b.

Lemma wp_write_head s bl dl (Q : unit -> log -> Prop) :
  geometry s -> header_is s bl -> idle pid (lbio s) dl -> (length dl < 30)%nat -> st ∉ dl ->
  (forall b' hv, is_header hv bl -> idle pid b' dl -> dsk b' = disk_write st hv (dsk (lbio s)) ->
     (forall x, view b' x = if Z.eq_dec x st then hv else view (lbio s) x) -> Q tt (set_bio b' s)) ->
  wp (write_head pid) s Q.
Proof.
  intros [Gd Gs Gn Gr] Hh Hidle Hdl Hst HQ. pose proof (hi_fits s bl Hh) as [Hf1 Hf2]. set (b0 := lbio s) in *.
  unfold write_head. apply wp_bind, wp_gets. cbn [id]. rewrite Gd, Gs, u32_small by lia.
  apply wp_bind, wp_zoom. apply (wp_read_one pid b0 dl st); [done|lia|by right|]. intros i s1 E1.
  apply wp_bind, wp_zoom, wp_gets. cbn [lbio set_bio].
  assert (D1 : data (get_buf s1 i) = view b0 st) by apply E1. rewrite D1.
  assert (Hlen0 : length (view b0 st) = 512%nat) by apply Hidle.
  apply wp_bind, wp_zoom, wp_modify. cbn [lbio set_bio]. rewrite (hi_n s bl Hh).
  apply wp_bind, (wp_for_up (fun k t => 0 <= k /\ exists b1 v, t = set_bio b1 s /\ editing pid b0 dl st i v b1 /\
    length v = 512%nat /\ i32 (le32 v 0) = Z.of_nat (length bl) /\
    forall j b, bl !! j = Some b -> Z.of_nat j < k -> i32 (le32 v (4 + 4 * Z.of_nat j)) = b)).
  - split; [lia|]. eexists _, _. split; [reflexivity|]. split; [by eapply editing_set|]. rewrite length_put32.
    split_and!; [done| |intros; lia]. rewrite le32_put32_eq by lia. apply i32_u32_small. lia.
  - intros k t Hk (_ & b1 & v & -> & Ed & Hl & H0 & Hj).
    destruct (header_lookup s bl k Hh Hk) as (b & Hb & Hab & Hin). destruct (hi_range s bl Hh b Hin) as [Hbr _].
    apply wp_bind, wp_require; [apply arr_ok_true; rewrite (hi_len s bl Hh); lia|].
    apply wp_bind, wp_zoom, wp_gets. cbn [lbio set_bio].
    assert (Dv : data (get_buf b1 i) = v) by apply Ed. rewrite Dv, Hab.
    apply wp_zoom, wp_modify. cbn [lbio set_bio]. split; [lia|]. eexists _, _. split; [reflexivity|].
    split; [by eapply editing_set|]. rewrite length_put32. split_and!; [done| |].
    + rewrite le32_put32_ne by lia. done.
    + intros j b2 Hjb Hjk. destruct (Z.eq_dec (Z.of_nat j) k) as [<-|Hne].
      * rewrite Nat2Z.id in Hb. rewrite le32_put32_eq by lia. rewrite i32_u32_small by (unfold b0 in *; lia). congruence.
      * rewrite le32_put32_ne by lia. apply (Hj j b2 Hjb). lia.
  - intros t (_ & b1 & v & -> & Ed & Hl & H0 & Hj). replace (Z.max 0 _) with (Z.of_nat (length bl)) in Hj by lia.
    apply wp_bind, wp_zoom. cbn [lbio set_bio].
    eapply wp_mono; [apply (wp_write_back pid b0 dl st i v b1 (fun _ s' => written pid b0 dl st v s')); [done|done|lia|done|done]|].
    cbn beta. intros [] s2 W. apply wp_zoom. cbn [lbio set_bio]. eapply wp_mono; [exact W|].
    cbn beta. intros [] s3 (Hid & Hd & Hv). rewrite filter_ne_id in Hid by done.
    apply (HQ s3 v); try done. split_and!; try done. intros j b Hjb. apply (Hj j b Hjb). apply lookup_lt_Some in Hjb. lia.
Qed.

(** ** install_trans *)

Definition install_writes (vw : Z -> list Z) (bl : list Z) : list (Z * list Z) :=
  imap (fun t b => (b, vw (st + 1 + Z.of_nat t))) bl.

Lemma idle_ext b dl dl' : (forall x, x ∈ dl <-> x ∈ dl') -> idle pid b dl -> idle pid b dl'.
Proof. intros H [Hi Hh Hd Hs]. constructor; try done. intros x. by rewrite Hd. Qed.

(** Installing the logged blocks, whether they are still dirty (a commit) or
    nothing is (recovery). *)
Lemma wp_install_trans s bl dl (Q : unit -> log -> Prop) :
  geometry s -> header_is s bl -> idle pid (lbio s) dl -> (dl = [] \/ dl = bl) ->
  (forall b', idle pid b' [] -> dsk b' = apply_writes (install_writes (view (lbio s)) bl) (dsk (lbio s)) ->
     (forall x, x ∉ bl -> view b' x = view (lbio s) x) ->
     Q tt (set_bio b' s)) ->
  wp (install_trans pid) s Q.
Proof.
  intros [Gd Gs Gn Gr] Hh Hidle Hdl HQ. pose proof (hi_fits s bl Hh) as [Hf1 Hf2]. set (b0 := lbio s) in *.
  assert (Hdlen : (length dl <= length bl)%nat) by (destruct Hdl as [->| ->]; cbn; lia).
  unfold install_trans. apply wp_bind, wp_gets. rewrite (hi_n s bl Hh).
  apply (wp_for_up (fun k t => 0 <= k /\ exists b', t = set_bio b' s /\
    idle pid b' (if decide (dl = []) then [] else drop (Z.to_nat k) bl) /\
    dsk b' = apply_writes (take (Z.to_nat k) (install_writes (view b0) bl)) (dsk b0) /\
    (forall x, x ∉ take (Z.to_nat k) bl -> view b' x = view b0 x))).
  - split; [lia|]. exists b0. split_and!; try done; [by destruct s|]. destruct Hdl as [->| ->]; [done|].
    destruct (decide (bl = [])) as [->|]; done.
  - intros k t Hk (_ & b' & -> & Hid & Hdsk & Hv).
    assert (Hsz : disksize (dsk b') = disksize (dsk b0)) by (by rewrite Hdsk, disksize_apply).
    destruct (header_lookup s bl k Hh Hk) as (b & Hb & Hab & Hin). destruct (hi_range s bl Hh b Hin) as [Hbr Hbl].
    unfold in_log in Hbl. set (dk := if decide (dl = []) then [] else drop (Z.to_nat k) bl) in *.
    assert (Hdk : (length dk < 30)%nat /\ (b ∈ dk \/ (length dk < 29)%nat)).
    { unfold dk. destruct (decide (dl = [])); cbn; [lia|]. rewrite length_drop. split; [lia|left].
      eapply list_elem_of_lookup_2 with (i := 0%nat). rewrite lookup_drop, Nat.add_0_r. exact Hb. }
    apply wp_bind, wp_gets. cbn [id ldev lstart lh_block set_bio]. rewrite Gd, Gs, Hab.
    rewrite (u32_small (st + k + 1)), (u32_small b) by (unfold b0 in *; lia).
    apply wp_bind, wp_zoom. cbn [lbio set_bio].
    eapply wp_mono; [apply (wp_read_two pid b' dk (st + k + 1) b (fun i j s2 => read_two pid b' dk (st + k + 1) b i j s2));
      [done|lia|unfold b0 in *; lia|unfold b0 in *; lia|lia|tauto|done]|].
    cbn beta. intros i s1 W1.
    apply wp_bind, wp_require; [apply arr_ok_true; rewrite (hi_len s bl Hh); lia|].
    apply wp_bind, wp_zoom. cbn [lbio set_bio]. eapply wp_mono; [exact W1|]. cbn beta. intros j s2 R.
    apply wp_bind, wp_zoom, wp_gets. cbn [lbio set_bio].
    apply wp_bind, wp_zoom. cbn [lbio set_bio].
    eapply wp_mono; [apply (wp_copy_tail pid b' dk (st + k + 1) b i j s2 false (fun _ s' => copied pid b' dk b (st + k + 1) s'));
      [done|done|lia|unfold b0 in *; lia|done]|].
    cbn beta. intros [] s3 W3. apply wp_bind, wp_zoom. cbn [lbio set_bio]. eapply wp_mono; [exact W3|].
    cbn beta. intros [] s4 W4. apply wp_bind, wp_zoom. cbn [lbio set_bio]. eapply wp_mono; [exact W4|].
    cbn beta. intros [] s5 W5. apply wp_zoom. cbn [lbio set_bio]. eapply wp_mono; [exact W5|].
    cbn beta. intros [] s6 (Hid6 & Hd6 & Hv6). split; [lia|]. exists s6.
    replace (Z.to_nat (k + 1)) with (S (Z.to_nat k)) by lia.
    assert (Hlog : st + k + 1 ∉ take (Z.to_nat k) bl).
    { intros Hx. apply elem_of_take in Hx as (n & Hx & _). apply list_elem_of_lookup_2 in Hx.
      destruct (hi_range s bl Hh _ Hx) as [_ Hy]. unfold in_log in Hy. lia. }
    split_and!; try done.
    + eapply idle_ext; [|exact Hid6]. intros x. rewrite elem_filter_ne. unfold dk. destruct (decide (dl = [])).
      * split; [tauto|by intros ?%not_elem_of_nil].
      * rewrite (drop_S _ _ _ Hb), elem_of_cons. pose proof (hi_nodup s bl Hh) as Hnd.
        rewrite <- (take_drop (Z.to_nat k) bl), (drop_S _ _ _ Hb) in Hnd. apply NoDup_app in Hnd as (_ & _ & Hnd).
        apply NoDup_cons in Hnd as [Hnb _]. split; [tauto|]. intros Hx. split; [by right|congruence].
    + rewrite Hd6, Hdsk, (Hv (st + k + 1)) by done. unfold install_writes at 2.
      rewrite (take_imap_S _ _ _ _ Hb), apply_writes_app. cbn. do 2 f_equal. lia.
    + intros x Hx. rewrite (take_S_r _ _ _ Hb), elem_of_app, list_elem_of_singleton in Hx. rewrite Hv6.
      destruct (Z.eq_dec _ _); [tauto|]. apply Hv. tauto.
  - intros t (_ & b' & -> & Hid & Hdsk & Hv). replace (Z.max 0 _) with (Z.of_nat (length bl)) in * by lia.
    rewrite Nat2Z.id in *. apply HQ.
    + rewrite drop_all in Hid. by destruct (decide _).
    + rewrite Hdsk, take_ge; [done|]. unfold install_writes. rewrite length_imap. lia.
    + intros x Hx. apply Hv. by rewrite take_ge by lia.
Qed.

(** ** Recovery *)

(** Block numbers a header may list. *)
Record loggable (size : Z) (bl : list Z) : Prop := {
  lg_nodup : NoDup bl;
  lg_range : forall b, b ∈ bl -> 0 <= b < size /\ ~ in_log b;
  lg_fits : (length bl < 30)%nat /\ Z.of_nat (length bl) < nl
}.

Lemma wp_read_head s bl (Q : unit -> log -> Prop) :
  geometry s -> idle pid (lbio s) [] -> length (lh_block s) = 30%nat ->
  is_header (view (lbio s) st) bl -> loggable (disksize (dsk (lbio s))) bl ->
  (forall s', geometry s' -> header_is s' bl -> idle pid (lbio s') [] -> dsk (lbio s') = dsk (lbio s) ->
     (forall x, view (lbio s') x = view (lbio s) x) ->
     outstanding s' = outstanding s -> committing s' = committing s -> Q tt s') ->
  wp (read_head pid) s Q.
Proof.
  intros [Gd Gs Gn Gr] Hidle Hlb (Hl & H0 & Hent) [Lnd Lr [Lf1 Lf2]] HQ. set (b0 := lbio s) in *.
  unfold read_head. apply wp_bind, wp_gets. cbn [id]. rewrite Gd, Gs, u32_small by lia.
  apply wp_bind, wp_zoom. apply (wp_read_one pid b0 [] st); [done|lia|right; cbn; lia|]. intros i s1 E1.
  apply wp_bind, wp_zoom, wp_gets. cbn [lbio set_bio].
  assert (D1 : data (get_buf s1 i) = view b0 st) by apply E1. rewrite D1, H0.
  apply wp_bind, wp_modify. cbn [lh_block set_bio].
  apply wp_bind, (wp_for_up (fun k t => 0 <= k /\ exists blk, t = set_lh (Z.of_nat (length bl)) blk (set_bio s1 s) /\
    length blk = 30%nat /\ forall j b, bl !! j = Some b -> Z.of_nat j < k -> blk !! j = Some b)).
  - split; [lia|]. exists (lh_block s). split_and!; [done|done|intros; lia].
  - intros k t Hk (_ & blk & -> & Hbl & Hj). apply wp_bind, wp_gets. cbn [lh_block set_lh].
    apply wp_bind, wp_require; [apply arr_ok_true; lia|]. apply wp_modify. split; [lia|].
    eexists. split; [reflexivity|]. rewrite length_aset. split; [done|]. intros j b Hjb Hjk.
    unfold aset. replace (k <? 0) with false by lia. destruct (Z.eq_dec (Z.of_nat j) k) as [<-|Hne].
    + rewrite Nat2Z.id, list_lookup_insert_eq by (apply lookup_lt_Some in Hjb; lia). f_equal. by apply Hent.
    + rewrite list_lookup_insert_ne by lia. apply (Hj j b Hjb). lia.
  - intros t (_ & blk & -> & Hbl & Hj). replace (Z.max 0 _) with (Z.of_nat (length bl)) in Hj by lia.
    apply wp_zoom. cbn [lbio set_bio set_lh]. apply (wp_put_back pid b0 [] st i s1); [done|done|].
    intros s' Hid Hd Hv. apply HQ; cbn; try done.
    + constructor; cbn; try done. by rewrite Hd.
    + constructor; cbn; try done; [|by rewrite Hd].
      apply list_eq. intros j. destruct (bl !! j) as [b|] eqn:Ejb.
      * pose proof (lookup_lt_Some _ _ _ Ejb). rewrite lookup_take_lt by lia. apply (Hj j b Ejb). lia.
      * apply lookup_ge_None in Ejb. apply lookup_ge_None. rewrite length_take. lia.
Qed.

Lemma header_is_empty s bl b' : header_is s bl -> header_is (set_lh 0 (lh_block s) (set_bio b' s)) [].
Proof.
  intros Hh. constructor; cbn; try done; try apply Hh; [constructor|by intros b ?%not_elem_of_nil|].
  pose proof (hi_fits s bl Hh). lia.
Qed.

Lemma wp_recover s bl (Q : unit -> log -> Prop) :
  geometry s -> idle pid (lbio s) [] -> length (lh_block s) = 30%nat ->
  is_header (view (lbio s) st) bl -> loggable (disksize (dsk (lbio s))) bl ->
  (forall s' hv, geometry s' -> header_is s' [] -> idle pid (lbio s') [] -> is_header hv [] ->
     dsk (lbio s') = apply_writes (install_writes (view (lbio s)) bl ++ [(st, hv)]) (dsk (lbio s)) ->
     outstanding s' = outstanding s -> committing s' = committing s -> Q tt s') ->
  wp (recover_from_log pid) s Q.
Proof.
  intros G Hidle Hlb Hhd Hlg HQ. unfold recover_from_log.
  apply wp_bind, (wp_read_head s bl); [done..|]. intros s1 G1 H1 Id1 D1 V1 O1 C1.
  apply wp_bind, (wp_install_trans s1 bl []); [done|done|done|by left|]. intros b2 Id2 D2 V2.
  apply wp_bind, wp_modify. cbn [lh_block set_bio].
  assert (G2 : geometry (set_lh 0 (lh_block s1) (set_bio b2 s1))).
  { destruct G1 as [? ? ? Hr]. constructor; cbn; try done. by rewrite D2, disksize_apply. }
  apply (wp_write_head _ [] []); [done|by eapply header_is_empty|done|cbn; lia|apply not_elem_of_nil|].
  intros b3 hv Hhv Id3 D3 V3. cbn [lbio set_bio set_lh] in *. apply (HQ _ hv); cbn; try done.
  - destruct G2 as [? ? ? Hr]. constructor; cbn in *; try done. rewrite D3. exact Hr.
  - apply (header_is_empty s1 bl b3 H1).
  - rewrite D3, D2, D1, apply_writes_app.
    replace (install_writes (view (lbio s1)) bl) with (install_writes (view (lbio s)) bl); [done|].
    unfold install_writes. apply imap_ext. intros t b _. by rewrite V1.
Qed.

(** ** Commit *)

Definition commit_writes (vw : Z -> list Z) (bl : list Z) (h1 h2 : list Z) : list (Z * list Z) :=
  log_writes vw bl ++ (st, h1) :: map (fun b => (b, vw b)) bl ++ [(st, h2)].

Lemma wp_commit s bl (Q : unit -> log -> Prop) :
  geometry s -> header_is s bl -> idle pid (lbio s) bl -> bl <> [] ->
  (forall s' h1 h2, is_header h1 bl -> is_header h2 [] -> geometry s' -> header_is s' [] -> idle pid (lbio s') [] ->
     dsk (lbio s') = apply_writes (commit_writes (view (lbio s)) bl h1 h2) (dsk (lbio s)) ->
     outstanding s' = outstanding s -> committing s' = committing s -> Q tt s') ->
  wp (commit pid) s Q.
Proof.
  intros G Hh Hidle Hne HQ. unfold commit. apply wp_bind, wp_gets. rewrite (hi_n s bl Hh).
  assert (Hpos : 0 < Z.of_nat (length bl)) by (destruct bl; [done|cbn; lia]).
  replace (_ >? 0) with true by lia. cbn [when].
  assert (Hst : st ∉ bl).
  { intros Hin. destruct (hi_range s bl Hh _ Hin) as [_ Hx]. unfold in_log in Hx. pose proof (geo_range s G). lia. }
  pose proof (hi_fits s bl Hh) as Hf.
  apply wp_bind, (wp_write_log s bl); [done..|]. intros b1 Id1 D1 V1 V1l V1s.
  assert (Hdisk : forall b ws, dsk b = apply_writes ws (dsk (lbio s)) -> geometry (set_bio b s)).
  { intros b ws Hd. apply geometry_bio; [done|]. by rewrite Hd, disksize_apply. }
  assert (Hhdr : forall b ws, dsk b = apply_writes ws (dsk (lbio s)) -> header_is (set_bio b s) bl).
  { intros b ws Hd. destruct Hh. constructor; cbn; try done. by rewrite Hd, disksize_apply. }
  apply wp_bind, (wp_write_head _ bl bl); [by eapply Hdisk|by eapply Hhdr|done|tauto|done|].
  intros b2 h1 Hh1 Id2 D2 V2. cbn [lbio set_bio] in *.
  assert (D2' : dsk b2 = apply_writes (log_writes (view (lbio s)) bl ++ [(st, h1)]) (dsk (lbio s))).
  { rewrite apply_writes_app, <- D1. exact D2. }
  apply wp_bind, (wp_install_trans _ bl bl); [by eapply Hdisk|by eapply Hhdr|done|by right|].
  intros b3 Id3 D3 V3. cbn [lbio set_bio] in *.
  assert (D3' : dsk b3 = apply_writes ((log_writes (view (lbio s)) bl ++ [(st, h1)]) ++ map (fun b => (b, view (lbio s) b)) bl) (dsk (lbio s))).
  { rewrite apply_writes_app, <- D2', D3. f_equal. unfold install_writes.
    rewrite <- (imap_const (fun b => (b, view (lbio s) b))). apply imap_ext. intros t b Hb. f_equal.
    rewrite V2. destruct (Z.eq_dec _ _); [lia|]. cbn. f_equal. by apply V1l. }
  apply wp_bind, wp_modify. cbn [lh_block set_bio].
  apply (wp_write_head _ [] []).
  - pose proof (Hdisk b3 _ D3') as [? ? ? Hr]. by constructor.
  - exact (header_is_empty s bl b3 Hh).
  - done.
  - cbn. lia.
  - apply not_elem_of_nil.
  - intros b4 h2 Hh2 Id4 D4 V4. cbn [lbio set_bio set_lh] in *.
    assert (D4' : dsk b4 = apply_writes (commit_writes (view (lbio s)) bl h1 h2) (dsk (lbio s))).
    { rewrite D4, D3'. unfold commit_writes. rewrite <- app_assoc. cbn [app].
      replace (_ ++ (st, h1) :: map _ bl ++ [(st, h2)]) with
        ((log_writes (view (lbio s)) bl ++ (st, h1) :: map (fun b => (b, view (lbio s) b)) bl) ++ [(st, h2)])
        by (rewrite <- app_assoc; done).
      by rewrite (apply_writes_app _ [(st, h2)]). }
    apply (HQ _ h1 h2); cbn; try done.
    + pose proof (Hdisk b4 _ D4') as [? ? ? Hr]. by constructor.
    + exact (header_is_empty s bl b4 Hh).
Qed.

End Log.
