(* ===== verification/LogTx.v ===== *)
(** Crash safety of the log: a transaction's blocks reach their places all
    together or not at all, whichever write is the last one before a crash and
    however often recovery itself is interrupted.  Transactions: log_write()
    between begin_op() and end_op(), the commit it leads to, and the theorem
    that the whole is atomic under crashes. *)

From Stdlib Require Import ZArith Lia.
From stdpp Require Import base gmap strings numbers list.
From S2P Require Import Prelude Bio BioSpec Log LogCopy LogSpec.

Open Scope Z_scope.
Open Scope kern_scope.

Section Crash.
Context (pid st nl : Z).

Abbreviation in_log := (in_log st nl).
Abbreviation loggable := (loggable st nl).

(** ** Disks a log can be recovered from *)

(** The superblock of d places the log at st, with nl blocks. *)
Record formatted (d : disk) : Prop := {
  fm_range : 1 < st /\ 0 < nl /\ st + nl <= disksize d < 2147483648;
  fm_start : i32 (sb_logstart (decode_sb (disk_read d 1))) = st;
  fm_nlog : i32 (sb_nlog (decode_sb (disk_read d 1))) = nl;
  fm_sized : forall b, length (disk_read d b) = 512%nat
}.

(** Recovery of d will find T in the blocks outside the log: the blocks the
    header lists are T's in the log, the others are T's in place. *)
Record recovers (d : disk) (T : Z -> list Z) (bl : list Z) : Prop := {
  rc_fmt : formatted d;
  rc_head : is_header (disk_read d st) bl;
  rc_lgb : loggable (disksize d) bl;
  rc_sb : 1 ∉ bl;
  rc_log : forall t b, bl !! t = Some b -> disk_read d (st + 1 + Z.of_nat t) = T b;
  rc_home : forall b, ~ in_log b -> b ∉ bl -> disk_read d b = T b
}.

Lemma loggable_nil size d : formatted d -> loggable size [].
Proof. intros F. pose proof (fm_range d F). constructor; cbn; [constructor|by intros b ?%not_elem_of_nil|lia]. Qed.

Lemma formatted_write d b v : formatted d -> b <> 1 -> length v = 512%nat -> formatted (disk_write b v d).
Proof.
  intros [? ? ? Hs] Hb Hv.
  assert (E : disk_read (disk_write b v d) 1 = disk_read d 1)
    by (rewrite disk_read_write; destruct (Z.eq_dec 1 b); [lia|done]).
  constructor; rewrite ?E; try done. intros x. rewrite disk_read_write. by destruct (Z.eq_dec x b).
Qed.

(** A write of one of the listed blocks, with what the log has for it. *)
Lemma recovers_install d T bl t b :
  recovers d T bl -> bl !! t = Some b -> recovers (disk_write b (T b) d) T bl.
Proof.
  intros [F Hh [Ln Lr Lf] Hs Hl Hb] Ht. pose proof (list_elem_of_lookup_2 _ _ _ Ht) as Hin.
  pose proof (fm_range d F). destruct (Lr b Hin) as [_ Hnl]. unfold LogSpec.in_log in Hnl.
  assert (Hlen : length (T b) = 512%nat) by (rewrite <- (Hl t b Ht); apply F).
  constructor; try done.
  - apply formatted_write; [done|by intros ->|done].
  - rewrite disk_read_write. destruct (Z.eq_dec st b); [lia|done].
  - intros t' b' Ht'. rewrite disk_read_write. pose proof (lookup_lt_Some _ _ _ Ht').
    destruct (Z.eq_dec _ b); [lia|]. by apply Hl.
  - intros x Hx Hxb. rewrite disk_read_write. destruct (Z.eq_dec x b); [congruence|]. by apply Hb.
Qed.

(** The listed blocks, all of them written or some. *)
Lemma recovers_installs d T bl bl' :
  (forall b, b ∈ bl' -> b ∈ bl) -> recovers d T bl -> recovers (apply_writes (map (fun b => (b, T b)) bl') d) T bl.
Proof.
  revert d. induction bl' as [|b bl' IH]; intros d Hsub R; [done|]. cbn. apply IH; [intros; apply Hsub; by right|].
  destruct (list_elem_of_lookup_1 bl b) as [t Ht]; [apply Hsub; by left|]. by eapply recovers_install.
Qed.

(** The header cleared, once every listed block is in its place. *)
Lemma recovers_clear d T bl hv :
  recovers d T bl -> (forall b, b ∈ bl -> disk_read d b = T b) -> is_header hv [] -> recovers (disk_write st hv d) T [].
Proof.
  intros [F Hh Hl Hs _ Hb] Hbl Hhv. pose proof (fm_range d F). constructor.
  - apply formatted_write; [done|lia|apply Hhv].
  - rewrite disk_read_write. by destruct (Z.eq_dec st st).
  - by eapply loggable_nil.
  - apply not_elem_of_nil.
  - intros t b Ht. by rewrite lookup_nil in Ht.
  - intros b Hnl _. rewrite disk_read_write. unfold LogSpec.in_log in Hnl. destruct (Z.eq_dec b st); [lia|].
    destruct (decide (b ∈ bl)); [by apply Hbl|by apply Hb].
Qed.

Lemma home_writes_fst vw (bl : list Z) : (map (fun b => (b, vw b)) bl : list (Z * list Z)).*1 = bl.
Proof. induction bl as [|b bl IH]; [done|]. cbn. by rewrite IH. Qed.

Lemma read_installed d T bl b : NoDup bl -> b ∈ bl -> disk_read (apply_writes (map (fun b => (b, T b)) bl) d) b = T b.
Proof.
  intros Hn Hb. apply read_apply_hit; [by rewrite home_writes_fst|]. apply list_elem_of_In, in_map_iff.
  exists b. by rewrite <- list_elem_of_In.
Qed.

(** Any number of the writes that install the log and clear the header. *)
Lemma recovers_prefix d T bl hv k :
  recovers d T bl -> is_header hv [] ->
  exists bl', recovers (apply_writes (take k (map (fun b => (b, T b)) bl ++ [(st, hv)])) d) T bl' /\
    ((length bl < k)%nat -> bl' = []).
Proof.
  intros R Hhv. rewrite take_app, length_map, firstn_map. destruct (decide (k <= length bl)%nat) as [Hk|Hk].
  - replace (k - length bl)%nat with 0%nat by lia. rewrite take_0, app_nil_r. exists bl. split; [|lia].
    apply recovers_installs; [|done]. intros b (n & Hb & _)%elem_of_take. by eapply list_elem_of_lookup_2.
  - rewrite (take_ge bl) by lia. rewrite (take_ge [_]) by (cbn; lia). exists []. split; [|done].
    rewrite apply_writes_app. cbn. apply (recovers_clear _ _ bl); [by apply recovers_installs| |done].
    intros b Hb. apply read_installed; [apply R|done].
Qed.

(** ** Starting from such a disk *)

Lemma cold_cache b : (exists l, bio_inv b l) -> held pid b [] ->
  (forall i, (i < NBUF)%nat -> flags (get_buf b i) = 0) -> (forall x, length (disk_read (dsk b) x) = 512%nat) ->
  idle pid b [] /\ forall x, view b x = disk_read (dsk b) x.
Proof.
  intros [l I] Hh Hf Hs.
  assert (Hd : forall x, ~ dirty b x).
  { intros x (i & Hi & _ & Hd). unfold is_dirty, has_flag in Hd. by rewrite Hf in Hd. }
  assert (V : forall x, view b x = disk_read (dsk b) x) by (intros x; by eapply view_clean).
  split; [|done]. constructor; [by exists l|done| |by intros x; rewrite V].
  intros x. split; [by intros ?%Hd|by intros ?%not_elem_of_nil].
Qed.

Lemma wp_initlog s T bl (Q : unit -> log -> Prop) :
  idle pid (lbio s) [] -> (forall x, view (lbio s) x = disk_read (dsk (lbio s)) x) -> length (lh_block s) = 30%nat ->
  recovers (dsk (lbio s)) T bl ->
  (forall s' hv, geometry st nl s' -> header_is st nl s' [] -> idle pid (lbio s') [] -> is_header hv [] ->
     dsk (lbio s') = apply_writes (map (fun b => (b, T b)) bl ++ [(st, hv)]) (dsk (lbio s)) ->
     outstanding s' = outstanding s -> committing s' = committing s -> Q tt s') ->
  wp (initlog pid 1) s Q.
Proof.
  intros Hidle V Hlb R HQ. pose proof (rc_fmt _ _ _ R) as F. pose proof (fm_range _ F) as Hr. unfold initlog.
  replace (sizeof_logheader >=? BSIZE) with false by reflexivity. unfold readsb.
  apply wp_bind, wp_zoom, wp_bind. apply (wp_read_one pid (lbio s) [] 1); [done|lia|right; cbn; lia|]. intros i s1 E1.
  apply wp_bind, wp_gets. assert (D1 : data (get_buf s1 i) = view (lbio s) 1) by apply E1. rewrite D1, V.
  apply wp_bind. apply (wp_put_back pid (lbio s) [] 1 i s1); [done|done|]. intros b2 Id2 D2 V2.
  apply wp_ret, wp_bind, wp_modify. rewrite (fm_start _ F), (fm_nlog _ F).
  apply (wp_recover pid st nl _ bl); cbn [lbio set_bio set_geometry lh_block]; try done.
  - constructor; cbn; try done. rewrite D2. done.
  - rewrite V2, V. apply R.
  - rewrite D2. apply R.
  - intros s' hv G' H' Id' Hhv D' O' C'. apply (HQ s' hv); try done. rewrite D', D2. f_equal. f_equal.
    unfold install_writes. rewrite <- (imap_const (fun b => (b, T b))). apply imap_ext. intros t b Hb. cbn. f_equal.
    rewrite V2, V. by apply (rc_log _ _ _ R).
Qed.

Lemma reboot_recovers d T bl :
  recovers d T bl ->
  exists s hv, reboot pid d = Ok tt s /\ is_header hv [] /\ geometry st nl s /\ header_is st nl s [] /\ idle pid (lbio s) [] /\
    dsk (lbio s) = apply_writes (map (fun b => (b, T b)) bl ++ [(st, hv)]) d /\ outstanding s = 0 /\ committing s = false.
Proof.
  intros R. destruct (binit_ok d) as (b & Eb & Db & Ib & Hb & Fb).
  assert (Hw : wp (initlog pid 1) (set_bio b (log_boot d)) (fun _ s => exists hv, is_header hv [] /\ geometry st nl s /\
    header_is st nl s [] /\ idle pid (lbio s) [] /\ dsk (lbio s) = apply_writes (map (fun b => (b, T b)) bl ++ [(st, hv)]) d /\
    outstanding s = 0 /\ committing s = false)).
  { destruct (cold_cache b) as [Id V]; [by eexists|done|done|rewrite Db; apply R|].
    apply (wp_initlog _ T bl); cbn [lbio set_bio log_boot]; try done; [by rewrite Db|]. rewrite Db.
    intros s' hv ? ? ? ? ? ? ?. by exists hv. }
  apply wp_run in Hw as ([] & s & E & hv & H). exists s, hv. split; [|done].
  unfold reboot, bind, on_bio, zoom. cbn [lbio log_boot]. rewrite Eb. exact E.
Qed.
End Crash.


Section Tx.
Context (pid st nl : Z).

(** The logged blocks after one more log_write() of block A. *)
Definition tx_add (A : Z) (bl : list Z) : list Z := if decide (A ∈ bl) then bl else bl ++ [A].

Lemma elem_tx_add A bl b : b ∈ tx_add A bl <-> b ∈ bl \/ b = A.
Proof.
  unfold tx_add. destruct (decide (A ∈ bl)); [|by rewrite elem_of_app, list_elem_of_singleton].
  split; [tauto|]. by intros [?| ->].
Qed.

(** ** The dirty bit *)

Definition mark (x : buf) : buf := with_flags (Z.lor (flags x) B_DIRTY) x.

Lemma dirty_held s l H i (A := blockno (get_buf s i)) (s' := upd_buf i mark s) :
  bio_inv s l -> held pid s H -> i ∈ H -> bdev (get_buf s i) = 1 -> is_valid (get_buf s i) = true ->
  bio_inv s' l /\ held pid s' H /\ get_buf s' i = with_flags 6 (get_buf s i) /\ (forall j, j <> i -> get_buf s' j = get_buf s j) /\
  (forall b, view s' b = view s b) /\ (forall b, dirty s' b <-> dirty s b \/ b = A).
Proof.
  intros I Hh Hi E1 E3. pose proof (hd_range _ _ _ Hh i Hi) as Hir. assert (Hr : (i < length (bufs s))%nat) by (rewrite (bi_len _ _ I); lia).
  assert (Hf6 : Z.lor (flags (get_buf s i)) B_DIRTY = 6).
  { unfold is_valid, has_flag in E3. apply negb_true_iff in E3. destruct (bi_flags _ _ I i Hir) as [E|[E|E]]; rewrite E in *; done. }
  assert (G : forall j, get_buf s' j = if decide (i = j) then with_flags 6 (get_buf s i) else get_buf s j).
  { intros j. unfold s'. rewrite get_upd by done. case_decide; [|done]. unfold mark. by rewrite Hf6. }
  assert (Hhb : forall b j, holds_block s' b j = holds_block s b j).
  { intros b j. unfold holds_block. rewrite G. case_decide; [subst j|done]. rewrite E3. unfold same_block. done. }
  split_and!.
  - unfold s'. apply bio_inv_upd; cbn; try done; [|by rewrite Hf6; auto]. intros _ j Hj Hij Hdj E. apply Hij. by apply (bi_uniq s l I).
  - destruct Hh as [? ? Hl Hfr Hcl]. constructor; try done.
    + intros j Hj. rewrite G. case_decide; [subst j|]; by apply Hl.
    + intros j Hj Hne. rewrite G, decide_False by (intros ->; by apply Hne). by apply Hfr.
    + intros j Hj Hne. rewrite G, decide_False by (intros ->; by apply Hne). by apply Hcl.
  - by rewrite G, decide_True.
  - intros j Hj. by rewrite G, decide_False.
  - intros b. apply view_same_find; [|done]. intros j _. split; [apply Hhb|]. intros _. rewrite G. by case_decide; subst.
  - intros b. split.
    + intros (j & Hj & Hs & Hdj). rewrite G in Hs, Hdj. case_decide as Hij; [right; apply same_block_true in Hs as [_ Hs]; by rewrite <- Hs|left; by exists j].
    + intros [(j & Hj & Hs & Hdj)| ->]; [exists j; rewrite G; case_decide; subst; done|].
      exists i. rewrite G, decide_True by done. split_and!; try done. by apply same_block_true.
Qed.

Lemma mark_dirty s bl A i v s1 : editing pid s bl A i v s1 -> editing pid s (tx_add A bl) A i v (upd_buf i mark s1).
Proof.
  intros [[l I] Hh (E1 & E2 & E3 & E4 & E5) Hd Hv Hdi]. destruct (dirty_held s1 l [i] i I Hh ltac:(by left) E1 E3) as (I' & Hh' & Gi & _ & V' & D').
  constructor; [by exists l|exact Hh'| |exact Hd| |].
  - rewrite Gi. split_and!; try done. rewrite elem_tx_add. by intuition.
  - intros b. by rewrite V'.
  - intros b. by rewrite elem_tx_add, <- Hdi, D', E2.
Qed.

(** Releasing a buffer whose block is dirty. *)
Lemma wp_put_dirty s bl A i v s1 (Q : unit -> bio -> Prop) :
  (forall b, length (view s b) = 512%nat) -> editing pid s bl A i v s1 -> A ∈ bl -> length v = 512%nat ->
  (forall s', idle pid s' bl -> dsk s' = dsk s -> (forall b, view s' b = if Z.eq_dec b A then v else view s b) -> Q tt s') ->
  wp (brelse pid i) s1 Q.
Proof.
  intros Hsz [[l I] Hh (E1 & E2 & E3 & E4 & E5) Hd Hv Hdi] HA Hlen HQ.
  apply (wp_brelse pid s1 l [i] []); [done|done|done|left; tauto|].
  intros s2 l2 [I2 _ Hh2 D2 C2].
  assert (V2 : forall b, view s2 b = if Z.eq_dec b A then v else view s b).
  { intros b. by rewrite (view_core s1 s2), Hv by auto. }
  apply HQ; [|by rewrite D2|done]. constructor; [eauto|done| |].
  - intros b. rewrite (dirty_core s1 s2) by auto. apply Hdi.
  - intros b. rewrite V2. by destruct (Z.eq_dec b A).
Qed.

(** ** log_write *)

Lemma header_add s bl A b' :
  header_is st nl s bl -> 0 <= A < disksize (dsk (lbio s)) -> ~ in_log st nl A -> A ∉ bl ->
  (length bl < 29)%nat /\ Z.of_nat (length bl) < nl - 1 -> dsk b' = dsk (lbio s) ->
  header_is st nl (set_bio b' (set_lh (lh_n s + 1) (aset (lh_block s) (lh_n s) A) s)) (bl ++ [A]).
Proof.
  intros [Hl Hn Hb Hnd Hr Hf] HA Hnl Hin Hroom Hd. constructor; cbn; rewrite ?length_app, ?Hd; cbn.
  - by rewrite length_aset.
  - lia.
  - rewrite Hn. unfold aset. replace (Z.of_nat (length bl) <? 0) with false by lia. rewrite Nat2Z.id.
    replace (length bl + 1)%nat with (S (length bl)) by lia.
    rewrite (take_S_r _ _ A) by (apply list_lookup_insert_eq; lia). f_equal. rewrite take_insert_ge by lia. done.
  - apply NoDup_app. split; [done|]. split; [|apply NoDup_singleton]. intros x Hx ->%list_elem_of_singleton. done.
  - intros b [Hbb| ->%list_elem_of_singleton]%elem_of_app; auto.
  - lia.
Qed.

Lemma aset_same (l : list Z) i v : aget 0 l i = v -> 0 <= i < Z.of_nat (length l) -> aset l i v = l.
Proof.
  intros H Hi. unfold aset, aget in *. replace (i <? 0) with false in * by lia. apply list_insert_id.
  destruct (lookup_lt_is_Some_2 l (Z.to_nat i)) as [x Hx]; [lia|]. rewrite Hx. f_equal.
  rewrite nth_lookup, Hx in H. exact H.
Qed.

Lemma wp_log_header s bl A i (Q : unit -> log -> Prop) :
  header_is st nl s bl -> 1 <= outstanding s -> geometry st nl s ->
  blockno (get_buf (lbio s) i) = A -> 0 <= A < disksize (dsk (lbio s)) -> ~ in_log st nl A ->
  (length bl < 29)%nat /\ Z.of_nat (length bl) < nl - 1 ->
  (forall s', header_is st nl s' (tx_add A bl) -> geometry st nl s' -> outstanding s' = outstanding s ->
     committing s' = committing s -> lbio s' = upd_buf i mark (lbio s) -> Q tt s') ->
  wp (log_write i) s Q.
Proof.
  intros Hh Ho G EA HA Hnl Hroom HQ. pose proof (geo_range st nl s G) as Hr.
  pose proof (hi_n st nl s bl Hh) as Hn. pose proof (hi_len st nl s bl Hh) as Hlen.
  unfold log_write. apply wp_bind, wp_gets. cbn [id].
  replace ((_ >=? LOGSIZE) || (_ >=? _)) with false
    by (symmetry; apply orb_false_iff; rewrite (geo_size st nl s G); unfold LOGSIZE, MAXOPBLOCKS; lia).
  replace (outstanding s <? 1) with false by lia.
  apply wp_bind, wp_zoom, wp_gets. replace (set_bio (lbio s) s) with s by (by destruct s).
  rewrite EA.
  apply wp_bind, (wp_search (fun k t => t = s /\ forall j, 0 <= j < k -> aget 0 (lh_block s) j <> A)).
  - split; [done|]. lia.
  - intros k t Hk [-> Hno]. apply wp_bind, wp_require; [apply arr_ok_true; lia|]. apply wp_ret.
    destruct (header_lookup st nl s bl k Hh) as (b & Hb & Hab & Hin); [lia|]. rewrite Hab.
    destruct (hi_range st nl s bl Hh b Hin) as [Hbr _]. rewrite u32_small by lia.
    destruct (Z.eqb_spec b A) as [->|Hne].
    + (* absorbed *)
      apply wp_bind, wp_require; [apply arr_ok_true; lia|].
      apply wp_bind, wp_modify. rewrite i32_small, aset_same by (done || lia).
      apply wp_bind. replace (k =? lh_n s) with false by lia. cbn [when]. apply wp_ret, wp_zoom, wp_modify.
      assert (Et : tx_add A bl = bl) by (unfold tx_add; by rewrite decide_True). rewrite Et in HQ.
      apply HQ; cbn; try done; [destruct Hh|destruct G]; by constructor.
    + split; [done|]. intros j Hj. destruct (Z.eq_dec j k) as [->|]; [congruence|apply Hno; lia].
  - intros t [-> Hno]. replace (0 + _) with (lh_n s) in Hno by lia.
    assert (HnA : A ∉ bl).
    { intros Hin. apply list_elem_of_lookup_1 in Hin as [j Hj]. pose proof (lookup_lt_Some _ _ _ Hj).
      destruct (header_lookup st nl s bl (Z.of_nat j) Hh) as (b & Hb & Hab & _); [lia|]. rewrite Nat2Z.id in Hb.
      apply (Hno (Z.of_nat j)); [lia|congruence]. }
    apply wp_bind, wp_require; [apply arr_ok_true; lia|]. apply wp_bind, wp_modify. rewrite i32_small by lia.
    rewrite Z.eqb_refl. cbn [when]. apply wp_bind, wp_modify, wp_zoom, wp_modify.
    assert (Et : tx_add A bl = bl ++ [A]) by (unfold tx_add; by rewrite decide_False). rewrite Et in HQ.
    apply HQ; cbn; try done.
    + by apply (header_add s bl A).
    + by destruct G.
Qed.

Lemma wp_log_write s bl b0 A i v (Q : unit -> log -> Prop) :
  header_is st nl s bl -> 1 <= outstanding s -> geometry st nl s -> dsk b0 = dsk (lbio s) ->
  editing pid b0 bl A i v (lbio s) -> 0 <= A < disksize (dsk (lbio s)) -> ~ in_log st nl A ->
  (length bl < 29)%nat /\ Z.of_nat (length bl) < nl - 1 ->
  (forall s', header_is st nl s' (tx_add A bl) -> geometry st nl s' -> outstanding s' = outstanding s ->
     committing s' = committing s -> dsk (lbio s') = dsk (lbio s) ->
     editing pid b0 (tx_add A bl) A i v (lbio s') -> Q tt s') ->
  wp (log_write i) s Q.
Proof.
  intros Hh Ho G Db Ed HA Hnl Hroom HQ. apply (wp_log_header s bl A i); [done|done|done|apply Ed|done|done|done|].
  intros s' H' G' O' C' E'. apply HQ; try done; rewrite E'; [done|by apply mark_dirty].
Qed.

(** ** The state between the steps of a transaction *)

Record log_inv (s : log) (bl : list Z) : Prop := {
  li_geo : geometry st nl s;
  li_head : header_is st nl s bl;
  li_idle : idle pid (lbio s) bl;
  li_fmt : formatted st nl (dsk (lbio s));
  li_clean : is_header (disk_read (dsk (lbio s)) st) [];
  li_sb : 1 ∉ bl
}.

(** One block changed the way the file system does it: read, modified, logged, released. *)
Definition update (b : Z) (f : list Z -> list Z) : M log unit :=
  let! bp := on_bio (bread pid 1 b) in
  let! d := on_bio (get_data bp) in
  on_bio (set_data bp (f d)) ;;;
  log_write bp ;;;
  on_bio (brelse pid bp).

Lemma wp_update s bl b f (Q : unit -> log -> Prop) :
  log_inv s bl -> 1 <= outstanding s -> 1 < b < disksize (dsk (lbio s)) -> ~ in_log st nl b ->
  (length bl < 29)%nat /\ Z.of_nat (length bl) < nl - 1 -> length (f (view (lbio s) b)) = 512%nat ->
  (forall s', log_inv s' (tx_add b bl) -> outstanding s' = outstanding s -> committing s' = committing s ->
     dsk (lbio s') = dsk (lbio s) ->
     (forall x, view (lbio s') x = if Z.eq_dec x b then f (view (lbio s) b) else view (lbio s) x) -> Q tt s') ->
  wp (update b f) s Q.
Proof.
  intros [G Hh Id F C Hs] Ho Hb Hnl Hroom Hlen HQ. unfold update.
  apply wp_bind, wp_zoom. apply (wp_read_one pid (lbio s) bl b); [done|lia|right; lia|]. intros i s1 E1.
  apply wp_bind, wp_zoom, wp_gets. cbn [lbio set_bio].
  assert (D1 : data (get_buf s1 i) = view (lbio s) b) by apply E1. rewrite D1.
  apply wp_bind, wp_zoom, wp_modify. cbn [lbio set_bio].
  apply (editing_set pid _ _ _ _ _ _ (f (view (lbio s) b))) in E1. pose proof (ed_disk _ _ _ _ _ _ _ E1) as Ds.
  set (s2 := upd_buf i _ s1) in *.
  assert (Hg : forall t, dsk t = dsk (lbio s) -> geometry st nl (set_bio t s) /\ header_is st nl (set_bio t s) bl).
  { intros t Ht. destruct G, Hh. split; constructor; cbn; rewrite ?Ht; done. }
  apply wp_bind. change (set_bio s2 (set_bio s1 (set_bio s1 s))) with (set_bio s2 s).
  apply (wp_log_write (set_bio s2 s) bl (lbio s) b i (f (view (lbio s) b))); cbn [lbio set_bio]; rewrite ?Ds; try done;
    [by apply Hg..|lia|].
  intros s3 H3 G3 O3 C3 D3 E3. apply wp_zoom.
  apply (wp_put_dirty (lbio s) (tx_add b bl) b i (f (view (lbio s) b))); [apply Id|done|apply elem_tx_add; by right|done|].
  intros s4 Id4 D4 V4.
  assert (Dd : dsk s4 = dsk (lbio s3)) by (rewrite D3; done).
  apply HQ; cbn; try done. constructor; cbn; rewrite ?D4; try done.
  - destruct G3. constructor; cbn; rewrite ?Dd; done.
  - destruct H3. constructor; cbn; rewrite ?Dd; done.
  - rewrite elem_tx_add. intros [?|?]; [done|lia].
Qed.

(** ** The end of a transaction and a crash in the middle of it *)

(** The writes performed between two states of a disk, and the disk that a
    crash after the first k of them leaves. *)
Definition new_writes (d d' : disk) : list (Z * list Z) := drop (length (writes d)) (writes d').
Definition cut (k : nat) (d d' : disk) : disk := apply_writes (take k (new_writes d d')) d.

Lemma new_writes_apply ws d : new_writes d (apply_writes ws d) = ws.
Proof. unfold new_writes. by rewrite writes_apply, drop_app_length. Qed.

(** Disks that a number of interrupted restarts can make of d. *)
Inductive restarts (d : disk) : disk -> Prop :=
| restarts_none : restarts d d
| restarts_again d1 s k : restarts d d1 -> reboot pid d1 = Ok tt s -> restarts d (cut k d1 (dsk (lbio s))).

Lemma restarts_recovers d d' T bl : restarts d d' -> recovers st nl d T bl -> exists bl', recovers st nl d' T bl'.
Proof.
  intros Hr R. induction Hr as [|d1 s k Hr [bl1 R1] E]; [eauto|].
  destruct (reboot_recovers pid st nl d1 T bl1 R1) as (s1 & hv & E1 & Hhv & _ & _ & _ & D1 & _). rewrite E in E1. injection E1 as <-.
  rewrite D1. unfold cut. rewrite new_writes_apply.
  destruct (recovers_prefix st nl d1 T bl1 hv k R1 Hhv) as (bl' & R' & _). eauto.
Qed.

(** The disk at the next start. *)
Lemma reboot_shows d T bl : recovers st nl d T bl ->
  exists s, reboot pid d = Ok tt s /\ log_inv s [] /\ outstanding s = 0 /\ committing s = false /\
    forall b, ~ in_log st nl b -> disk_read (dsk (lbio s)) b = T b.
Proof.
  intros R. destruct (reboot_recovers pid st nl d T bl R) as (s & hv & E & Hhv & G & H & Id & D & O & C0). exists s.
  destruct (recovers_prefix st nl d T bl hv (S (length bl)) R Hhv) as (bl' & R' & Hbl'). rewrite Hbl' in R' by lia.
  rewrite take_ge, <- D in R' by (rewrite length_app, length_map; cbn; lia). destruct R' as [F C _ _ _ Hh].
  split; [exact E|]. split; [|split_and!; [exact O|exact C0|]].
  { constructor; [exact G|exact H|exact Id|exact F|exact C|apply not_elem_of_nil]. }
  intros b Hb. apply Hh; [done|apply not_elem_of_nil].
Qed.
Lemma log_writes_fst vw bl b : b ∈ (log_writes st vw bl).*1 -> st < b <= st + Z.of_nat (length bl).
Proof.
  intros Hb. apply list_elem_of_fmap in Hb as ([b' v] & -> & Hin). apply elem_of_lookup_imap in Hin as (t & x & E & Ht).
  injection E as -> ->. apply lookup_lt_Some in Ht. cbn. lia.
Qed.

Lemma log_writes_nodup vw bl : NoDup (log_writes st vw bl).*1.
Proof.
  apply NoDup_alt. intros i j b Hi Hj. rewrite list_lookup_fmap in Hi, Hj. unfold log_writes in *.
  rewrite list_lookup_imap in Hi, Hj. destruct (bl !! i), (bl !! j); cbn in *; try done.
  injection Hi as <-. injection Hj as E. lia.
Qed.

Lemma length_log_writes vw bl : length (log_writes st vw bl) = length bl.
Proof. apply length_imap. Qed.

(** Writes into the log alone. *)
Lemma formatted_apply d ws :
  formatted st nl d -> (forall b v, (b, v) ∈ ws -> b <> 1 /\ length v = 512%nat) -> formatted st nl (apply_writes ws d).
Proof.
  revert d. induction ws as [|[b v] ws IH]; intros d F Hw; [done|]. cbn. apply IH; [|intros; apply Hw; by right].
  destruct (Hw b v) as [? ?]; [by left|]. by apply formatted_write.
Qed.

Lemma log_writes_sane s bl b v : log_inv s bl -> (b, v) ∈ log_writes st (view (lbio s)) bl -> b <> 1 /\ length v = 512%nat.
Proof.
  intros I Hin. apply elem_of_lookup_imap in Hin as (t & x & [= -> ->] & Ht). split; [|apply I].
  pose proof (fm_range st nl _ (li_fmt s bl I)). lia.
Qed.

(** The commit up to the header write leaves what was there. *)
Lemma recovers_logging s bl h1 h2 k :
  log_inv s bl -> (k <= length bl)%nat ->
  recovers st nl (apply_writes (take k (commit_writes st (view (lbio s)) bl h1 h2)) (dsk (lbio s)))
    (disk_read (dsk (lbio s))) [].
Proof.
  intros I Hk. unfold commit_writes. rewrite take_app_le by (rewrite length_log_writes; lia).
  set (ws := take k _). pose proof (li_fmt s bl I) as F. pose proof (fm_range st nl _ F). pose proof (hi_fits st nl _ _ (li_head s bl I)).
  assert (Hw : forall b v, (b, v) ∈ ws -> (b, v) ∈ log_writes st (view (lbio s)) bl).
  { intros b v (n & Hb & _)%elem_of_take. by eapply list_elem_of_lookup_2. }
  assert (Ho : forall b, b <= st \/ st + nl <= b -> disk_read (apply_writes ws (dsk (lbio s))) b = disk_read (dsk (lbio s)) b).
  { intros b Hb. apply read_apply_other. intros ([b' v] & -> & Hin)%list_elem_of_fmap. apply Hw in Hin.
    assert (Hx : b' ∈ (log_writes st (view (lbio s)) bl).*1) by (apply list_elem_of_fmap; by exists (b', v)).
    apply log_writes_fst in Hx. cbn in Hb. lia. }
  constructor.
  - apply formatted_apply; [done|]. intros b v Hin. by apply (log_writes_sane s bl), Hw.
  - rewrite Ho by lia. apply I.
  - by eapply loggable_nil.
  - apply not_elem_of_nil.
  - intros t b Ht. by rewrite lookup_nil in Ht.
  - intros b Hb _. unfold in_log in Hb. apply Ho. lia.
Qed.

(** The header write commits. *)
Lemma recovers_committed s bl h1 :
  log_inv s bl -> is_header h1 bl ->
  recovers st nl (apply_writes (log_writes st (view (lbio s)) bl ++ [(st, h1)]) (dsk (lbio s))) (view (lbio s)) bl.
Proof.
  intros I Hh1. pose proof (li_fmt s bl I) as F. pose proof (fm_range st nl _ F). destruct (li_head s bl I) as [_ _ _ Hn Hr Hf].
  rewrite apply_writes_app. cbn. constructor.
  - apply formatted_write; [|lia|apply Hh1]. apply formatted_apply; [done|]. intros b v. by apply log_writes_sane.
  - rewrite disk_read_write. by destruct (Z.eq_dec st st).
  - constructor; try done. cbn. by rewrite disksize_apply.
  - apply I.
  - intros t b Ht. pose proof (lookup_lt_Some _ _ _ Ht). rewrite disk_read_write. destruct (Z.eq_dec _ _); [lia|].
    apply read_apply_hit; [apply log_writes_nodup|]. apply elem_of_lookup_imap. eauto.
  - intros b Hb Hbl. unfold in_log in Hb. rewrite disk_read_write. destruct (Z.eq_dec _ _); [lia|].
    rewrite read_apply_other by (intros Hx%log_writes_fst; lia). symmetry.
    destruct (li_idle s bl I) as [[l Il] Hh Hd _]. apply (view_clean pid _ l); [done|done|]. by rewrite Hd.
Qed.

(** The disk after a commit, whole or cut short. *)
Lemma commit_prefix s bl h1 h2 k :
  log_inv s bl -> is_header h1 bl -> is_header h2 [] ->
  exists bl', recovers st nl (apply_writes (take k (commit_writes st (view (lbio s)) bl h1 h2)) (dsk (lbio s)))
    (if (k <=? length bl)%nat then disk_read (dsk (lbio s)) else view (lbio s)) bl' /\
    ((2 * length bl + 1 < k)%nat -> bl' = []).
Proof.
  intros I Hh1 Hh2. destruct (Nat.leb_spec k (length bl)) as [Hk|Hk].
  - exists []. split; [by apply recovers_logging|done].
  - unfold commit_writes. rewrite take_app, length_log_writes, take_ge by (rewrite length_log_writes; lia).
    replace (k - length bl)%nat with (S (k - length bl - 1)) by lia. cbn [take].
    change ((st, h1) :: ?l) with ([(st, h1)] ++ l). rewrite app_assoc, apply_writes_app.
    edestruct recovers_prefix as (bl' & R & Hbl'); [by apply recovers_committed|exact Hh2|].
    exists bl'. split; [exact R|]. intros Hk2. apply Hbl'. lia.
Qed.
(** What a crash during the writes from d to d' leaves after the next complete
    start: the first blocks of T while the first n writes are all that was done, else T'. *)
Definition all_or_nothing (d d' : disk) (n : nat) (T T' : Z -> list Z) : Prop :=
  forall k d1, restarts (cut k d d') d1 ->
  exists r, reboot pid d1 = Ok tt r /\ log_inv r [] /\
    forall b, ~ in_log st nl b -> disk_read (dsk (lbio r)) b = if (k <=? n)%nat then T b else T' b.

Lemma all_or_nothing_intro d ws n T T' :
  (forall k, exists bl, recovers st nl (apply_writes (take k ws) d) (if (k <=? n)%nat then T else T') bl) ->
  all_or_nothing d (apply_writes ws d) n T T'.
Proof.
  intros H k d1 Hr. unfold cut in Hr. rewrite new_writes_apply in Hr. destruct (H k) as [bl R].
  destruct (restarts_recovers _ _ _ _ Hr R) as [bl' R']. destruct (reboot_shows _ _ _ R') as (r & E & I & _ & _ & Hb).
  exists r. split; [exact E|]. split; [exact I|]. intros b Hnl. rewrite Hb by done. by destruct (k <=? n)%nat.
Qed.

Lemma idle_view s b : log_inv s [] -> view (lbio s) b = disk_read (dsk (lbio s)) b.
Proof.
  intros I. destruct (li_idle s [] I) as [[l Il] Hh Hd _]. apply (view_clean pid _ l); [done|done|].
  rewrite Hd. apply not_elem_of_nil.
Qed.

Lemma recovers_idle s : log_inv s [] -> recovers st nl (dsk (lbio s)) (disk_read (dsk (lbio s))) [].
Proof.
  intros I. constructor; try apply I; [|done|done]. eapply loggable_nil, I.
Qed.

Lemma recovers_ext d T T' : (forall b, T b = T' b) -> recovers st nl d T [] -> recovers st nl d T' [].
Proof. intros E []. constructor; try done. intros. rewrite <- E. eauto. Qed.

(** What the disk is once every write of the commit is done. *)
Lemma commit_done s bl h1 h2 :
  log_inv s bl -> is_header h1 bl -> is_header h2 [] ->
  recovers st nl (apply_writes (commit_writes st (view (lbio s)) bl h1 h2) (dsk (lbio s))) (view (lbio s)) [].
Proof.
  intros I Hh1 Hh2. destruct (commit_prefix s bl h1 h2 (S (2 * length bl + 1)) I Hh1 Hh2) as (bl' & R & Hbl').
  rewrite Hbl' in R by lia. destruct (Nat.leb_spec (S (2 * length bl + 1)) (length bl)); [lia|].
  rewrite take_ge in R; [exact R|]. unfold commit_writes. rewrite length_app, length_log_writes. cbn.
  rewrite length_app, length_map. cbn. lia.
Qed.

Lemma wp_end_op s bl (Q : unit -> log -> Prop) :
  log_inv s bl -> outstanding s = 1 -> committing s = false ->
  (forall s', log_inv s' [] -> outstanding s' = 0 -> committing s' = false ->
     (forall b, ~ in_log st nl b -> view (lbio s') b = view (lbio s) b) ->
     all_or_nothing (dsk (lbio s)) (dsk (lbio s')) (length bl) (disk_read (dsk (lbio s))) (view (lbio s)) -> Q tt s') ->
  wp (end_op pid) s Q.
Proof.
  intros I Ho Hc HQ. unfold end_op. apply wp_bind, wp_gets. cbn [id]. apply wp_bind, wp_modify. rewrite Ho, Hc.
  cbn [when Z.sub Z.add Z.opp Z.pos_sub Z.eqb]. apply wp_bind, wp_modify, wp_bind.
  set (s1 := set_committing true _).
  assert (I1 : log_inv s1 bl) by (destruct I as [[] [] ? ? ? ?]; constructor; try done; by constructor).
  destruct (decide (bl = [])) as [->|Hne].
  - unfold commit. apply wp_bind, wp_gets. rewrite (hi_n _ _ _ _ (li_head s1 [] I1)). cbn. apply wp_ret, wp_modify.
    apply HQ; try done.
    + destruct I1 as [[] [] ? ? ? ?]; constructor; try done; by constructor.
    + apply (all_or_nothing_intro _ []). intros k. exists []. destruct k; cbn [take apply_writes fold_left length Nat.leb]; [by apply recovers_idle|].
      apply (recovers_ext _ (disk_read (dsk (lbio s)))); [by intros b; rewrite idle_view|by apply recovers_idle].
  - apply (wp_commit pid st nl s1 bl); [apply I1|apply I1|apply I1|done|].
    intros s2 h1 h2 Hh1 Hh2 G2 H2 Id2 D2 O2 C2. apply wp_modify.
    pose proof (commit_done s1 bl h1 h2 I1 Hh1 Hh2) as R. rewrite <- D2 in R.
    assert (I2 : log_inv (set_committing false s2) []).
    { constructor; cbn; try done; [by destruct G2|by destruct H2|apply R|apply R|apply not_elem_of_nil]. }
    apply HQ; try done.

    + intros b Hb. rewrite (idle_view _ b I2). cbn. by apply R; [|apply not_elem_of_nil].
    + cbn [lbio set_committing]. rewrite D2. apply all_or_nothing_intro. intros k.
      destruct (commit_prefix s1 bl h1 h2 k I1 Hh1 Hh2) as (bl' & Rk & _). by exists bl'.
Qed.

(** ** A whole transaction *)

Fixpoint updates (us : list (Z * (list Z -> list Z))) : M log unit :=
  match us with
  | [] => ret tt
  | (b, f) :: us' => update b f ;;; updates us'
  end.

Definition transaction (us : list (Z * (list Z -> list Z))) : M log unit :=
  begin_op ;;;
  updates us ;;;
  end_op pid.

(** What the blocks show after the updates, and which were changed. *)
Fixpoint after (us : list (Z * (list Z -> list Z))) (T : Z -> list Z) : Z -> list Z :=
  match us with
  | [] => T
  | (b, f) :: us' => after us' (fun x => if Z.eq_dec x b then f (T b) else T x)
  end.

Definition touched (us : list (Z * (list Z -> list Z))) (bl : list Z) : list Z :=
  fold_left (fun bl u => tx_add u.1 bl) us bl.

(** An update of a block the file system may log. *)
Definition sane_update (size : Z) (u : Z * (list Z -> list Z)) : Prop :=
  1 < u.1 < size /\ ~ in_log st nl u.1 /\ forall d, length d = 512%nat -> length (u.2 d) = 512%nat.

Lemma length_tx_add A bl : (length (tx_add A bl) <= S (length bl))%nat.
Proof. unfold tx_add. destruct (decide _); rewrite ?length_app; cbn; lia. Qed.

Lemma after_ext us : forall T T', (forall b, T b = T' b) -> forall b, after us T b = after us T' b.
Proof.
  induction us as [|[c f] us IH]; intros T T' E b; [apply E|]. cbn. apply IH. intros x. rewrite !E. done.
Qed.

Lemma wp_updates us : forall s bl (Q : unit -> log -> Prop),
  log_inv s bl -> 1 <= outstanding s -> Forall (sane_update (disksize (dsk (lbio s)))) us ->
  (length bl + length us <= 29)%nat /\ Z.of_nat (length bl + length us) < nl ->
  (forall s', log_inv s' (touched us bl) -> outstanding s' = outstanding s -> committing s' = committing s ->
     dsk (lbio s') = dsk (lbio s) -> (forall b, view (lbio s') b = after us (view (lbio s)) b) -> Q tt s') ->
  wp (updates us) s Q.
Proof.
  induction us as [|[b f] us IH]; intros s bl Q I Ho Hus Hlen HQ; [apply wp_ret, HQ; done|].
  apply Forall_cons in Hus as [(Hb & Hnl & Hf) Hus]. cbn [updates length fst snd] in *.
  apply wp_bind, (wp_update s bl b f); [done|done|done|done|lia|apply Hf, I|].
  intros s1 I1 O1 C1 D1 V1. pose proof (length_tx_add b bl).
  apply (IH s1 (tx_add b bl)); [done|lia|by rewrite D1|lia|].
  intros s2 I2 O2 C2 D2 V2. apply HQ; [done|congruence..|]. intros x. rewrite V2. cbn. by apply after_ext.
Qed.

Lemma wp_transaction s us (Q : unit -> log -> Prop) :
  log_inv s [] -> outstanding s = 0 -> committing s = false -> 10 < nl ->
  Forall (sane_update (disksize (dsk (lbio s)))) us -> Z.of_nat (length us) <= MAXOPBLOCKS ->
  (forall s', log_inv s' [] -> outstanding s' = 0 -> committing s' = false ->
     (forall b, ~ in_log st nl b -> view (lbio s') b = after us (view (lbio s)) b) ->
     all_or_nothing (dsk (lbio s)) (dsk (lbio s')) (length (touched us [])) (disk_read (dsk (lbio s))) (after us (view (lbio s))) ->
     Q tt s') ->
  wp (transaction us) s Q.
Proof.
  unfold MAXOPBLOCKS. intros I Ho Hc Hn Hus Hlen HQ. unfold transaction, begin_op. apply wp_bind, wp_bind, wp_gets. cbn [id].
  rewrite Hc, Ho, (hi_n _ _ _ _ (li_head s [] I)). cbn. apply wp_modify. cbn.
  assert (I1 : log_inv (set_outstanding 1 s) []) by (destruct I as [[] [] ? ? ? ?]; constructor; try done; by constructor).
  apply wp_bind, (wp_updates us _ []); [done|cbn; lia|done|cbn; lia|]. intros s2 I2 O2 C2 D2 V2.
  apply (wp_end_op s2 (touched us [])); [done|done|by rewrite C2|]. intros s3 I3 O3 C3 V3 A3.
  apply HQ; try done.
  - intros b Hb. by rewrite V3, V2.
  - rewrite D2 in A3. cbn [lbio set_outstanding] in A3. intros k d1 Hr. destruct (A3 k d1 Hr) as (r & E & Ir & Hb). exists r.
    split; [exact E|]. split; [exact Ir|]. intros b Hnl. rewrite Hb by done. destruct (k <=? _)%nat; [done|apply V2].
Qed.
End Tx.
