(* ===== verification/LogThm.v ===== *)
(** The theorems about the buffer cache and the log, with concrete instances. *)

From Stdlib Require Import ZArith Lia.
From stdpp Require Import base gmap strings numbers list.
From S2P Require Import Prelude Bio BioSpec Log LogCopy LogSpec LogTx.

Open Scope Z_scope.
Open Scope kern_scope.

(** ** The buffer cache *)

Lemma bget_lru pid s l dev bn :
  bio_inv s l ->
  bget pid dev bn s =
  match List.find (fun i => same_block dev bn (get_buf s i)) l with
  | Some i =>
      let s1 := upd_buf i (with_refcnt (u32 (refcnt (get_buf s i) + 1))) s in
      if locked (block_lock (get_buf s i)) then Blocked s1
      else Ok i (upd_buf i (with_lock (mkSleep true pid)) s1)
  | None =>
      match List.find (fun i => recyclable (get_buf s i)) (rev l) with
      | Some i =>
          let s1 := upd_buf i (fun b => mkBuf 0 dev bn (block_lock b) 1 (bprev b) (bnext b) (data b)) s in
          if locked (block_lock (get_buf s i)) then Blocked s1
          else Ok i (upd_buf i (with_lock (mkSleep true pid)) s1)
      | None => Panic "bget: no buffers"
      end
  end.
Proof.
  intros I. unfold bget, bind, buf_of at 1, gets at 1.
  pose proof (wp_scan_next s l (same_block dev bn) (fun o s' => o = List.find (fun i => same_block dev bn (get_buf s i)) l /\ s' = s) I) as W1.
  pose proof (wp_scan_prev s l recyclable (fun o s' => o = List.find (fun i => recyclable (get_buf s i)) (rev l) /\ s' = s) I) as W2.
  apply wp_run in W1 as (o1 & s1 & E1 & -> & ->); [|done]. apply wp_run in W2 as (o2 & s2 & E2 & -> & ->); [|done].
  rewrite E1. destruct (List.find _ l) as [i|] eqn:F1.
  - apply find_some in F1 as [Hi _]. apply list_elem_of_In, (elem_perm s l _ I) in Hi. pose proof (bi_len s l I).
    unfold acquire_buf, buf_of, gets, mod_buf, modify, bind, ret, acquiresleep.
    rewrite get_upd, decide_True by (done || lia). cbn [block_lock with_refcnt].
    by destruct (locked (block_lock (get_buf s i))).
  - unfold buf_of at 1, gets at 1. rewrite E2. destruct (List.find _ (rev l)) as [i|] eqn:F2; [|done].
    apply find_some in F2 as [Hi _]. apply in_rev, list_elem_of_In, (elem_perm s l _ I) in Hi. pose proof (bi_len s l I).
    unfold acquire_buf, buf_of, gets, mod_buf, modify, bind, ret, acquiresleep.
    rewrite get_upd, decide_True by (done || lia). cbn [block_lock].
    by destruct (locked (block_lock (get_buf s i))).
Qed.

(** C29: bget() does what a list of buffers ordered by use says: it takes the
    first buffer that caches the block, else the least recently used buffer
    that is neither referenced nor dirty, re-labelled and invalid, else it
    panics.  A buffer locked by another process makes it sleep, referenced. *)
Theorem bget_refines_lru pid s l dev bn :
  bio_inv s l ->
  bget pid dev bn s =
  match List.find (fun i => (bdev (get_buf s i) =? dev) && (blockno (get_buf s i) =? bn)) l with
  | Some i =>
      let s1 := upd_buf i (with_refcnt (u32 (refcnt (get_buf s i) + 1))) s in
      if locked (block_lock (get_buf s i)) then Blocked s1
      else Ok i (upd_buf i (with_lock (mkSleep true pid)) s1)
  | None =>
      match List.find (fun i => (refcnt (get_buf s i) =? 0) && negb (has_flag (get_buf s i) B_DIRTY)) (rev l) with
      | Some i =>
          let s1 := upd_buf i (fun b => mkBuf 0 dev bn (block_lock b) 1 (bprev b) (bnext b) (data b)) s in
          if locked (block_lock (get_buf s i)) then Blocked s1
          else Ok i (upd_buf i (with_lock (mkSleep true pid)) s1)
      | None => Panic "bget: no buffers"
      end
  end.
Proof. apply bget_lru. Qed.

(** Bread() returns a buffer locked by the caller that shows the current
    contents of the block, and changes nothing another process can see: not the
    disk, not what any block shows, not the invariant.  It needs the block to be
    dirty in the cache or one buffer that is free and clean. *)
Theorem bread_shows_block pid bn s l H :
  bio_inv s l -> held pid s H -> 0 <= bn < disksize (dsk s) ->
  (forall i, i ∈ H -> blockno (get_buf s i) <> bn) -> (dirty s bn \/ spare s H) ->
  exists i s', bread pid 1 bn s = Ok i s' /\ got pid s l H bn i s'.
Proof. intros. apply wp_run. by apply (wp_bread pid bn s l H). Qed.

(** brelse() of a held buffer unlocks it, drops the reference and makes it
    the most recently used one, the order of the others being kept. *)
Theorem brelse_most_recent pid s l H H' i :
  bio_inv s l -> held pid s H -> H ≡ₚ i :: H' ->
  (is_dirty (get_buf s i) = true \/ data (get_buf s i) = disk_read (dsk s) (blockno (get_buf s i))) ->
  exists s' l1 l2, brelse pid i s = Ok tt s' /\ l = l1 ++ i :: l2 /\ bio_inv s' (i :: l1 ++ l2) /\ held pid s' H' /\
    dsk s' = dsk s /\ forall b, view s' b = view s b.
Proof.
  intros I Hh HP Hd.
  assert (W : wp (brelse pid i) s (fun _ s' => exists l', released pid s l H' i s' l'))
    by (apply (wp_brelse pid s l H H' i); eauto).
  apply wp_run in W as ([] & s' & E & l' & [I' (l1 & l2 & -> & ->) Hh' D' C']).
  exists s', l1, l2. split_and!; try done. by apply view_core.
Qed.

(** ** Transactions *)

(** C7: a transaction that changes at most MAXOPBLOCKS blocks of the disk,
    none of them in the log (which has more than ten), run from a quiet log,
    always returns; afterwards the blocks show the changes, the log is quiet
    again, and whichever write was the last before a crash, and however many
    of the following recoveries crash too, the next complete start finds in
    every block outside the log either the old contents (a crash before the
    write of the log header) or the new ones. *)
Theorem transaction_atomic pid st nl s us :
  log_inv pid st nl s [] -> outstanding s = 0 -> committing s = false -> 10 < nl ->
  Forall (sane_update st nl (disksize (dsk (lbio s)))) us -> Z.of_nat (length us) <= MAXOPBLOCKS ->
  exists s', transaction pid us s = Ok tt s' /\ log_inv pid st nl s' [] /\ outstanding s' = 0 /\ committing s' = false /\
    (forall b, ~ in_log st nl b -> view (lbio s') b = after us (view (lbio s)) b) /\
    all_or_nothing pid st nl (dsk (lbio s)) (dsk (lbio s')) (length (touched us []))
      (disk_read (dsk (lbio s))) (after us (view (lbio s))).
Proof.
  intros. by apply wp_run_unit, (wp_transaction pid st nl).
Qed.

(** The start of the system on a formatted disk runs the recovery to its
    end and leaves a quiet log, the blocks listed in the header installed. *)
Theorem reboot_installs_log pid st nl d T bl :
  recovers st nl d T bl ->
  exists s, reboot pid d = Ok tt s /\ log_inv pid st nl s [] /\ outstanding s = 0 /\ committing s = false /\
    forall b, ~ in_log st nl b -> disk_read (dsk (lbio s)) b = T b.
Proof. apply reboot_shows. Qed.

(** ** A small disk *)

(** 1000 blocks, the log in blocks 2..31, as mkfs lays them out. *)
Definition demo_disk : disk := mkDisk {[1 := put32 (put32 (zeros BSIZE) 12 30) 16 2]} 1000 [].

Lemma demo_recovers : recovers 2 30 demo_disk (disk_read demo_disk) [].
Proof.
  constructor; [| | |apply not_elem_of_nil|intros t b Ht; by rewrite lookup_nil in Ht|done].
  - constructor; [cbn; lia|vm_compute; reflexivity|vm_compute; reflexivity|].
    intros b. unfold demo_disk, disk_read. cbn [blocks]. destruct (decide (b = 1)) as [->|Hb].
    + rewrite lookup_singleton_eq. cbn [default id from_option]. by rewrite !length_put32.
    + rewrite lookup_singleton_ne by done. done.
  - split_and!; [vm_compute; reflexivity..|]. intros k b Hk. by rewrite lookup_nil in Hk.
  - constructor; [constructor|by intros b ?%not_elem_of_nil|cbn; lia].
Qed.

(** The cache at boot and a block read from it. *)
Lemma bget_refines_lru_witness :
  exists s, binit (bio_boot demo_disk) = Ok tt s /\ bget 1 1 5 s =
    Ok 0%nat (upd_buf 0 (with_lock (mkSleep true 1))
      (upd_buf 0 (fun b => mkBuf 0 1 5 (block_lock b) 1 (bprev b) (bnext b) (data b)) s)).
Proof.
  destruct (binit_ok demo_disk) as (s & E & D & I & Hh & _). exists s. split; [exact E|].
  rewrite (bget_refines_lru 1 s _ 1 5 I). vm_compute in E. injection E as <-. vm_compute. reflexivity.
Defined.

Lemma bread_shows_block_witness :
  exists s i s', binit (bio_boot demo_disk) = Ok tt s /\ bread 1 1 5 s = Ok i s' /\
    got 1 s (rev (seq 0 NBUF)) [] 5 i s'.
Proof.
  destruct (binit_ok demo_disk) as (s & E & D & I & Hh & F).
  destruct (bread_shows_block 1 5 s (rev (seq 0 NBUF)) []) as (i & s' & E' & G);
    [exact I|apply Hh|rewrite D; cbn; lia|by intros i ?%not_elem_of_nil| |].
  - right. exists 0%nat. unfold is_dirty, has_flag. rewrite F by (unfold NBUF; lia).
    split_and!; [unfold NBUF; lia|apply not_elem_of_nil|reflexivity].
  - exists s, i, s'. split; [exact E|]. split; [exact E'|exact G].
Defined.

Lemma brelse_most_recent_witness :
  exists s i s' s'' l1 l2, binit (bio_boot demo_disk) = Ok tt s /\ bread 1 1 5 s = Ok i s' /\ brelse 1 i s' = Ok tt s'' /\
    rev (seq 0 NBUF) = l1 ++ i :: l2 /\ bio_inv s'' (i :: l1 ++ l2).
Proof.
  destruct (binit_ok demo_disk) as (s & E & D & I & Hh & F).
  assert (Hno : ~ dirty s 5).
  { intros (j & Hj & _ & Hd). unfold is_dirty, has_flag in Hd. by rewrite F in Hd. }
  assert (Hsp : dirty s 5 \/ spare s []).
  { right. exists 0%nat. unfold is_dirty, has_flag. rewrite F by (unfold NBUF; lia).
    split_and!; [unfold NBUF; lia|apply not_elem_of_nil|reflexivity]. }
  assert (W : wp (bread 1 1 5) s (fun i s' => got 1 s (rev (seq 0 NBUF)) [] 5 i s')).
  { apply (wp_bread 1 5 s (rev (seq 0 NBUF)) []); [exact I|apply Hh|rewrite D; cbn; lia|by intros i ?%not_elem_of_nil|exact Hsp|done]. }
  apply wp_run in W as (i & s' & E' & G).
  destruct (brelse_most_recent 1 s' (rev (seq 0 NBUF)) [i] [] i) as (s'' & l1 & l2 & E'' & El & I'' & _);
    [apply G|apply G|reflexivity| |].
  - right. destruct (got_block _ _ _ _ _ _ _ G) as [_ ->].
    rewrite (got_data _ _ _ _ _ _ _ G), (got_disk _ _ _ _ _ _ _ G). exact (view_clean 1 s _ 5 I (Hh 1) Hno).
  - exists s, i, s', s'', l1, l2. split_and!; assumption.
Defined.

Lemma reboot_installs_log_witness :
  exists s, reboot 1 demo_disk = Ok tt s /\ log_inv 1 2 30 s [] /\ outstanding s = 0 /\ committing s = false /\
    forall b, ~ in_log 2 30 b -> disk_read (dsk (lbio s)) b = disk_read demo_disk b.
Proof. exact (reboot_installs_log 1 2 30 demo_disk (disk_read demo_disk) [] demo_recovers). Defined.

(** Two blocks changed, one of them twice. *)
Definition demo_updates : list (Z * (list Z -> list Z)) :=
  [(40, fun d => aset d 0 1); (41, fun d => aset d 1 2); (40, fun d => aset d 2 3)].

Lemma demo_sane : Forall (sane_update 2 30 1000) demo_updates.
Proof.
  assert (H : forall b i v, 1 < b < 1000 -> ~ in_log 2 30 b -> sane_update 2 30 1000 (b, fun d => aset d i v)).
  { intros b i v Hb Hl. split; [exact Hb|]. split; [exact Hl|]. intros d Hd. cbn. by rewrite length_aset. }
  unfold demo_updates, in_log in *. repeat (apply Forall_cons; split; [apply H; lia|]). apply Forall_nil. done.
Qed.

Lemma transaction_atomic_witness :
  exists s0 s', reboot 1 demo_disk = Ok tt s0 /\ transaction 1 demo_updates s0 = Ok tt s' /\
    all_or_nothing 1 2 30 (dsk (lbio s0)) (dsk (lbio s')) (length (touched demo_updates []))
      (disk_read (dsk (lbio s0))) (after demo_updates (view (lbio s0))).
Proof.
  destruct (reboot_recovers 1 2 30 demo_disk (disk_read demo_disk) [] demo_recovers) as (s0 & hv & E & _ & _ & _ & _ & D & _).
  destruct (reboot_shows 1 2 30 demo_disk (disk_read demo_disk) [] demo_recovers) as (s1 & E1 & I & O & C & _).
  rewrite E in E1. injection E1 as <-.
  destruct (transaction_atomic 1 2 30 s0 demo_updates I O C) as (s' & E' & _ & _ & _ & _ & A);
    [lia|rewrite D; exact demo_sane|vm_compute; discriminate|].
  exists s0, s'. split; [exact E|]. split; [exact E'|exact A].
Defined.

(** ** The reservation of begin_op *)

Fixpoint begin_ops (n : nat) : M log unit :=
  match n with
  | O => ret tt
  | S n' => begin_op ;;; begin_ops n'
  end.

(** begin_op() reserves MAXOPBLOCKS of LOGSIZE blocks for each operation,
    but log_write() accepts only log.size - 1 of them and mkfs makes log.size
    equal to LOGSIZE: three operations are admitted together, and if each
    of them changes the MAXOPBLOCKS blocks it may, the last one panics. *)
Theorem reserved_blocks_overflow :
  exists s, reboot 1 demo_disk = Ok tt s /\
    (begin_ops 3 ;;; updates 1 (map (fun b => (b, id)) (seqZ 100 29))) s <> Panic "too big a transaction" /\
    (begin_ops 3 ;;; updates 1 (map (fun b => (b, id)) (seqZ 100 30))) s = Panic "too big a transaction".
Proof.
  destruct (reboot 1 demo_disk) as [[] s| | |] eqn:E; [|vm_compute in E; discriminate..].
  exists s. split; [reflexivity|]. vm_compute in E. injection E as <-. split; vm_compute; [discriminate|reflexivity].
Qed.
