(* ===== verification/Fs.v ===== *)
(** The file system (fs.c, fs.h, file.h, stat.h): blocks, inodes, files,
    directories, paths.

    The layers below (bio.c, log.c) are the interface [Blocks]: a buffer is
    a number, b->data a list of bytes.  Its laws are [BlockLaws] of
    FsBlock.v.  The state is that of the layers below, the inode cache and
    the superblock.  An inode pointer is an index of the cache, -1 for 0.
    Sections under icache.lock run without interference.  What a routine
    copies to or from memory (dst, src, name) is a value. *)

From Stdlib Require Import ZArith Lia.
From stdpp Require Import base gmap strings numbers list.
From S2P Require Import Prelude Kstring Bio Log.

Open Scope Z_scope.
Open Scope kern_scope.

Definition NDIRECT : Z := 12.
Definition NINDIRECT : Z := BSIZE / 4.
Definition MAXFILE : Z := NDIRECT + NINDIRECT.
Definition IPB : Z := BSIZE / 64.
Definition BPB : Z := BSIZE * 8.
Definition DIRSIZ : Z := 14.
Definition NINODE : Z := 50.
Definition NDEV : Z := 10.
Definition ROOTDEV : Z := 1.
Definition ROOTINO : Z := 1.
Definition T_DIR : Z := 1.
Definition T_FILE : Z := 2.
Definition T_DEV : Z := 3.

Definition IBLOCK (i : Z) (sb : superblock) : Z := u32 (i / IPB + sb_inodestart sb).
Definition BBLOCK (b : Z) (sb : superblock) : Z := u32 (b / BPB + sb_bmapstart sb).

(** What the file system uses of bio.c and log.c. *)
Class Blocks (B : Type) := {
  bl_bread : Z -> Z -> M B nat;
  bl_data : nat -> M B (list Z);
  bl_set : nat -> list Z -> M B unit;
  bl_log_write : nat -> M B unit;
  bl_brelse : nat -> M B unit;
}.

(** struct inode *)
Record inode := mk_inode {
  idev : Z;
  inum : Z;
  iref : Z;
  ilk : sleeplock;
  valid : bool;
  itype : Z;
  imajor : Z;
  iminor : Z;
  inlink : Z;
  isize : Z;
  iaddrs : list Z;
}.

Definition no_inode : inode := mk_inode 0 0 0 initsleeplock false 0 0 0 0 0 (repeat 0 13).

Definition set_iref v i := mk_inode (idev i) (inum i) v (ilk i) (valid i) (itype i) (imajor i) (iminor i) (inlink i) (isize i) (iaddrs i).
Definition set_ilk v i := mk_inode (idev i) (inum i) (iref i) v (valid i) (itype i) (imajor i) (iminor i) (inlink i) (isize i) (iaddrs i).
Definition set_valid v i := mk_inode (idev i) (inum i) (iref i) (ilk i) v (itype i) (imajor i) (iminor i) (inlink i) (isize i) (iaddrs i).
Definition set_itype v i := mk_inode (idev i) (inum i) (iref i) (ilk i) (valid i) v (imajor i) (iminor i) (inlink i) (isize i) (iaddrs i).
Definition set_inlink v i := mk_inode (idev i) (inum i) (iref i) (ilk i) (valid i) (itype i) (imajor i) (iminor i) v (isize i) (iaddrs i).
Definition set_isize v i := mk_inode (idev i) (inum i) (iref i) (ilk i) (valid i) (itype i) (imajor i) (iminor i) (inlink i) v (iaddrs i).
Definition set_iaddrs v i := mk_inode (idev i) (inum i) (iref i) (ilk i) (valid i) (itype i) (imajor i) (iminor i) (inlink i) (isize i) v.

(** struct dinode *)
Record dinode := mk_dinode { dtype : Z; dmajor : Z; dminor : Z; dnlink : Z; dsize : Z; daddrs : list Z }.

(** The words at off, off + 4, ... *)
Fixpoint put_words (l : list Z) (off : Z) (ws : list Z) : list Z :=
  match ws with
  | [] => l
  | w :: ws' => put_words (put32 l off w) (off + 4) ws'
  end.
Definition get_words (l : list Z) (off : Z) (n : nat) : list Z := map (fun k => le32 l (off + 4 * Z.of_nat k)) (seq 0 n).

(** A dinode at offset off of a block. *)
Definition get_dinode (d : list Z) (off : Z) : dinode :=
  mk_dinode (i16 (le16 d off)) (i16 (le16 d (off + 2))) (i16 (le16 d (off + 4))) (i16 (le16 d (off + 6)))
    (le32 d (off + 8)) (get_words d (off + 12) 13).
Definition put_dinode (d : list Z) (off : Z) (x : dinode) : list Z :=
  let d := put16 d off (dtype x) in
  let d := put16 d (off + 2) (dmajor x) in
  let d := put16 d (off + 4) (dminor x) in
  let d := put16 d (off + 6) (dnlink x) in
  let d := put32 d (off + 8) (dsize x) in
  put_words d (off + 12) (daddrs x).

(** The bytes of v at offset off. *)
Definition splice (d : list Z) (off : Z) (v : list Z) : list Z :=
  take (Z.to_nat off) d ++ v ++ drop (Z.to_nat off + length v) d.
Definition slice (d : list Z) (off n : Z) : list Z := take (Z.to_nat n) (drop (Z.to_nat off) d).

Section Fs.
Context {B : Type} `{Blocks B}.
Variable pid : Z.

Record fs := mk_fs { blk : B; icache : list inode; sb : superblock }.

Definition set_blk v s := mk_fs v (icache s) (sb s).
Definition set_icache v s := mk_fs (blk s) v (sb s).
Definition set_sb v s := mk_fs (blk s) (icache s) v.

Definition on_blk {A} (m : M B A) : M fs A := zoom blk set_blk m.
Definition bread (dev bn : Z) : M fs nat := on_blk (bl_bread dev bn).
Definition bdata (b : nat) : M fs (list Z) := on_blk (bl_data b).
Definition bset (b : nat) (d : list Z) : M fs unit := on_blk (bl_set b d).
Definition log_write (b : nat) : M fs unit := on_blk (bl_log_write b).
Definition brelse (b : nat) : M fs unit := on_blk (bl_brelse b).

Definition the_inode (ip : Z) (s : fs) : inode := aget no_inode (icache s) ip.
Definition upd_inode (ip : Z) (f : inode -> inode) (s : fs) : fs := set_icache (aset (icache s) ip (f (the_inode ip s))) s.
Definition iget_ {A} (ip : Z) (f : inode -> A) : M fs A := gets (fun s => f (the_inode ip s)).
Definition iset (ip : Z) (f : inode -> inode) : M fs unit := modify (upd_inode ip f).

(** ** Blocks *)

Definition bzero (dev bno : Z) : M fs unit :=
  let! bp := bread dev bno in
  bset bp (repeat 0 512) ;;;
  log_write bp ;;;
  brelse bp.

(** The inner loop: the bits of the bitmap block in bp, for blocks b + bi. *)
Definition balloc_scan (dev size b : Z) (bp : nat) : M fs (option Z) :=
  search (Z.to_nat (Z.min BPB (size - b))) 0 (fun bi =>
    let m := Z.shiftl 1 (bi mod 8) in
    let! d := bdata bp in
    if Z.land (aget 0 d (bi / 8)) m =? 0 then
      bset bp (aset d (bi / 8) (u8 (Z.lor (aget 0 d (bi / 8)) m))) ;;;
      log_write bp ;;;
      brelse bp ;;;
      bzero dev (b + bi) ;;;
      ret (Some (b + bi))
    else ret None).

Definition balloc (dev : Z) : M fs Z :=
  let! sb := gets sb in
  let! r := search (Z.to_nat ((sb_size sb + BPB - 1) / BPB)) 0 (fun k =>
    let b := k * BPB in
    let! bp := bread dev (BBLOCK b sb) in
    let! r := balloc_scan dev (sb_size sb) b bp in
    match r with
    | Some a => ret (Some a)
    | None => brelse bp ;;; ret None
    end) in
  match r with
  | Some a => ret a
  | None => panic "balloc: out of blocks"
  end.

Definition bfree (dev b : Z) : M fs unit :=
  let! sb := gets sb in
  let! bp := bread dev (BBLOCK b sb) in
  let bi := b mod BPB in
  let m := Z.shiftl 1 (bi mod 8) in
  let! d := bdata bp in
  if Z.land (aget 0 d (bi / 8)) m =? 0 then panic "freeing free block"
  else
    bset bp (aset d (bi / 8) (u8 (Z.land (aget 0 d (bi / 8)) (Z.lnot m)))) ;;;
    log_write bp ;;;
    brelse bp.

(** ** Inodes *)

Definition fs_readsb (dev : Z) : M fs superblock :=
  let! bp := bread dev 1 in
  let! d := bdata bp in
  brelse bp ;;;
  ret (decode_sb d).

Definition iinit (dev : Z) : M fs unit :=
  for_up 0 NINODE (fun i => iset i (set_ilk initsleeplock)) ;;;
  let! v := fs_readsb dev in
  modify (set_sb v).

(** The search of iget(): the entry of the inode, or the first empty one. *)
Fixpoint iget_loop (n : nat) (ip : Z) (empty : option Z) (dev inum_ : Z) : M fs (Z + option Z) :=
  match n with
  | O => ret (inr empty)
  | S n' =>
      let! i := iget_ ip id in
      if (iref i >? 0) && (idev i =? dev) && (inum i =? inum_) then
        require (iref i <? 2 ^ 31 - 1) "ref overflows" ;;;
        iset ip (fun i => set_iref (iref i + 1) i) ;;;
        ret (inl ip)
      else
        iget_loop n' (ip + 1) (match empty with None => if iref i =? 0 then Some ip else None | Some _ => empty end) dev inum_
  end.

Definition iget (dev inum_ : Z) : M fs Z :=
  let! r := iget_loop (Z.to_nat NINODE) 0 None dev inum_ in
  match r with
  | inl ip => ret ip
  | inr None => panic "iget: no inodes"
  | inr (Some ip) =>
      iset ip (fun i => mk_inode dev inum_ 1 (ilk i) false (itype i) (imajor i) (iminor i) (inlink i) (isize i) (iaddrs i)) ;;;
      ret ip
  end.

Definition ialloc (dev type : Z) : M fs Z :=
  let! sb := gets sb in
  let! r := search (Z.to_nat (sb_ninodes sb - 1)) 1 (fun inum_ =>
    let! bp := bread dev (IBLOCK inum_ sb) in
    let off := inum_ mod IPB * 64 in
    let! d := bdata bp in
    if i16 (le16 d off) =? 0 then
      bset bp (put16 (splice d off (repeat 0 64)) off type) ;;;
      log_write bp ;;;
      brelse bp ;;;
      let! ip := iget dev inum_ in
      ret (Some ip)
    else
      brelse bp ;;;
      ret None) in
  match r with
  | Some ip => ret ip
  | None => panic "ialloc: no inodes"
  end.

Definition dinode_of (i : inode) : dinode := mk_dinode (itype i) (imajor i) (iminor i) (inlink i) (isize i) (iaddrs i).

Definition iupdate (ip : Z) : M fs unit :=
  let! sb := gets sb in
  let! i := iget_ ip id in
  let! bp := bread (idev i) (IBLOCK (inum i) sb) in
  let! d := bdata bp in
  bset bp (put_dinode d (inum i mod IPB * 64) (dinode_of i)) ;;;
  log_write bp ;;;
  brelse bp.

Definition idup (ip : Z) : M fs Z :=
  let! r := iget_ ip iref in
  require (r <? 2 ^ 31 - 1) "ref overflows" ;;;
  iset ip (set_iref (r + 1)) ;;;
  ret ip.

(** acquiresleep(&ip->lock) *)
Definition lock_inode (ip : Z) : M fs unit :=
  let! lk := iget_ ip ilk in
  match acquiresleep pid lk with
  | Some lk' => iset ip (set_ilk lk')
  | None => blocked
  end.

Definition ilock (ip : Z) : M fs unit :=
  let! r := iget_ ip iref in
  if (ip <? 0) || (r <? 1) then panic "ilock"
  else
    lock_inode ip ;;;
    let! v := iget_ ip valid in
    when (negb v)
      (let! sb := gets sb in
       let! i := iget_ ip id in
       let! bp := bread (idev i) (IBLOCK (inum i) sb) in
       let! d := bdata bp in
       let x := get_dinode d (inum i mod IPB * 64) in
       iset ip (fun i => mk_inode (idev i) (inum i) (iref i) (ilk i) (valid i) (dtype x) (dmajor x) (dminor x) (dnlink x) (dsize x) (daddrs x)) ;;;
       brelse bp ;;;
       iset ip (set_valid true) ;;;
       if dtype x =? 0 then panic "ilock: no type" else ret tt).

Definition iunlock (ip : Z) : M fs unit :=
  let! i := iget_ ip id in
  if (ip <? 0) || negb (holdingsleep pid (ilk i)) || (iref i <? 1) then panic "iunlock"
  else iset ip (fun i => set_ilk (releasesleep (ilk i)) i).

(** ** Contents of inodes *)

Definition bmap (ip bn : Z) : M fs Z :=
  let! i := iget_ ip id in
  if bn <? NDIRECT then
    let addr := aget 0 (iaddrs i) bn in
    if addr =? 0 then
      let! addr := balloc (idev i) in
      iset ip (fun i => set_iaddrs (aset (iaddrs i) bn addr) i) ;;;
      ret addr
    else ret addr
  else
    let bn := bn - NDIRECT in
    if bn <? NINDIRECT then
      let! addr :=
        (let addr := aget 0 (iaddrs i) NDIRECT in
         if addr =? 0 then
           let! addr := balloc (idev i) in
           iset ip (fun i => set_iaddrs (aset (iaddrs i) NDIRECT addr) i) ;;;
           ret addr
         else ret addr) in
      let! bp := bread (idev i) addr in
      let! d := bdata bp in
      let! addr :=
        (let addr := le32 d (4 * bn) in
         if addr =? 0 then
           let! addr := balloc (idev i) in
           let! d := bdata bp in
           bset bp (put32 d (4 * bn) addr) ;;;
           log_write bp ;;;
           ret addr
         else ret addr) in
      brelse bp ;;;
      ret addr
    else panic "bmap: out of range".

Definition itrunc (ip : Z) : M fs unit :=
  for_up 0 NDIRECT (fun k =>
    let! i := iget_ ip id in
    when (negb (aget 0 (iaddrs i) k =? 0))
      (bfree (idev i) (aget 0 (iaddrs i) k) ;;;
       iset ip (fun i => set_iaddrs (aset (iaddrs i) k 0) i))) ;;;
  let! i := iget_ ip id in
  let addr := aget 0 (iaddrs i) NDIRECT in
  when (negb (addr =? 0))
    (let! bp := bread (idev i) addr in
     for_up 0 NINDIRECT (fun j =>
       let! d := bdata bp in
       when (negb (le32 d (4 * j) =? 0)) (bfree (idev i) (le32 d (4 * j)))) ;;;
     brelse bp ;;;
     bfree (idev i) addr ;;;
     iset ip (fun i => set_iaddrs (aset (iaddrs i) NDIRECT 0) i)) ;;;
  iset ip (set_isize 0) ;;;
  iupdate ip.

Definition iput (ip : Z) : M fs unit :=
  lock_inode ip ;;;
  let! i := iget_ ip id in
  when (valid i && (inlink i =? 0))
    (let! r := iget_ ip iref in
     when (r =? 1)
       (itrunc ip ;;;
        iset ip (set_itype 0) ;;;
        iupdate ip ;;;
        iset ip (set_valid false))) ;;;
  iset ip (fun i => set_ilk (releasesleep (ilk i)) i) ;;;
  iset ip (fun i => set_iref (iref i - 1) i).

Definition iunlockput (ip : Z) : M fs unit :=
  iunlock ip ;;;
  iput ip.

(** struct stat: type, dev, ino, nlink, size. *)
Definition stati (ip : Z) : M fs (Z * Z * Z * Z * Z) :=
  let! i := iget_ ip id in
  ret (itype i, i32 (idev i), inum i, inlink i, isize i).

(** devsw[major].read and .write, None for 0. *)
Variable devread : Z -> option (Z -> Z -> M fs (Z * list Z)).
Variable devwrite : Z -> option (Z -> list Z -> Z -> M fs Z).

(** Each round moves at least one byte, so n rounds are enough. *)
Fixpoint readi_loop (fuel : nat) (ip tot off n : Z) (dst : list Z) : M fs (list Z) :=
  if tot <? n then
    match fuel with
    | O => undef "readi: fuel"
    | S fuel' =>
        let! a := bmap ip (off / BSIZE) in
        let! dev := iget_ ip idev in
        let! bp := bread dev a in
        let m := Z.min (n - tot) (BSIZE - off mod BSIZE) in
        let! d := bdata bp in
        brelse bp ;;;
        readi_loop fuel' ip (tot + m) (off + m) n (dst ++ slice d (off mod BSIZE) m)
    end
  else ret dst.

Definition readi (ip off n : Z) : M fs (Z * list Z) :=
  let! i := iget_ ip id in
  if itype i =? T_DEV then
    if (imajor i <? 0) || (imajor i >=? NDEV) then ret (-1, [])
    else
      match devread (imajor i) with
      | None => ret (-1, [])
      | Some f => f ip n
      end
  else if (off >? isize i) || (u32 (off + n) <? off) then ret (-1, [])
  else
    let n := if u32 (off + n) >? isize i then isize i - off else n in
    let! dst := readi_loop (Z.to_nat n) ip 0 off n [] in
    ret (i32 n, dst).

Fixpoint writei_loop (fuel : nat) (ip : Z) (src : list Z) (tot off n : Z) : M fs Z :=
  if tot <? n then
    match fuel with
    | O => undef "writei: fuel"
    | S fuel' =>
        let! a := bmap ip (off / BSIZE) in
        let! dev := iget_ ip idev in
        let! bp := bread dev a in
        let m := Z.min (n - tot) (BSIZE - off mod BSIZE) in
        let! d := bdata bp in
        bset bp (splice d (off mod BSIZE) (slice src tot m)) ;;;
        log_write bp ;;;
        brelse bp ;;;
        writei_loop fuel' ip src (tot + m) (off + m) n
    end
  else ret off.

Definition writei (ip : Z) (src : list Z) (off n : Z) : M fs Z :=
  let! i := iget_ ip id in
  if itype i =? T_DEV then
    if (imajor i <? 0) || (imajor i >=? NDEV) then ret (-1)
    else
      match devwrite (imajor i) with
      | None => ret (-1)
      | Some f => f ip src n
      end
  else if (off >? isize i) || (u32 (off + n) <? off) then ret (-1)
  else if u32 (off + n) >? MAXFILE * BSIZE then ret (-1)
  else
    let! off' := writei_loop (Z.to_nat n) ip src 0 off n in
    let! sz := iget_ ip isize in
    when ((n >? 0) && (off' >? sz))
      (iset ip (set_isize off') ;;;
       iupdate ip) ;;;
    ret (i32 n).

(** ** Directories *)

Definition namecmp (s t : list Z) : Z := strncmp s t (Z.to_nat DIRSIZ).

(** struct dirent: two bytes of inum, then the name. *)
Definition de_inum (de : list Z) : Z := le16 de 0.
Definition de_name (de : list Z) : list Z := drop 2 de.
Definition mk_dirent (inum_ : Z) (name : list Z) : list Z := [u16 inum_ mod 256; u16 inum_ / 256] ++ strncpy name (Z.to_nat DIRSIZ).

(** The entry found: its inode and its offset. *)
Definition dirlookup (dp : Z) (name : list Z) : M fs (option (Z * Z)) :=
  let! i := iget_ dp id in
  if negb (itype i =? T_DIR) then panic "dirlookup not DIR"
  else
    search (Z.to_nat ((isize i + 15) / 16)) 0 (fun k =>
      let off := k * 16 in
      let! (n, de) := readi dp off 16 in
      if negb (n =? 16) then panic "dirlookup read"
      else if de_inum de =? 0 then ret None
      else if namecmp name (de_name de) =? 0 then
        let! ip := iget (idev i) (de_inum de) in
        ret (Some (ip, off))
      else ret None).

Definition dirlink (dp : Z) (name : list Z) (inum_ : Z) : M fs Z :=
  let! r := dirlookup dp name in
  match r with
  | Some (ip, _) => iput ip ;;; ret (-1)
  | None =>
      let! sz := iget_ dp isize in
      let! r := search (Z.to_nat ((sz + 15) / 16)) 0 (fun k =>
        let! (n, de) := readi dp (k * 16) 16 in
        if negb (n =? 16) then panic "dirlink read"
        else ret (if de_inum de =? 0 then Some (k * 16) else None)) in
      let off := match r with Some off => off | None => (sz + 15) / 16 * 16 end in
      let! n := writei dp (mk_dirent inum_ name) off 16 in
      if negb (n =? 16) then panic "dirlink"
      else ret 0
  end.

(** ** Paths *)

(** A path is the list of its characters up to the NUL. *)
Definition SLASH : Z := 47.
Fixpoint skip_slashes (p : list Z) : list Z :=
  match p with
  | c :: p' => if c =? SLASH then skip_slashes p' else p
  | [] => []
  end.
Fixpoint span_elem (p : list Z) : list Z * list Z :=
  match p with
  | c :: p' => if c =? SLASH then ([], p) else let (s, r) := span_elem p' in (c :: s, r)
  | [] => ([], [])
  end.

(** skipelem(path, name): the rest of the path and the new contents of name,
    None for 0. *)
Definition skipelem (path name : list Z) : option (list Z * list Z) :=
  let path := skip_slashes path in
  match path with
  | [] => None
  | _ =>
      let (s, path) := span_elem path in
      let len := Z.of_nat (length s) in
      let name := if len >=? DIRSIZ then splice name 0 (take (Z.to_nat DIRSIZ) s) else splice name 0 (s ++ [0]) in
      Some (skip_slashes path, name)
  end.

(** The loop of namex(); the path gets shorter in every round. *)
Fixpoint namex_loop (fuel : nat) (ip : Z) (path : list Z) (nameiparent_ : bool) (name : list Z) : M fs (Z * list Z) :=
  match skipelem path name with
  | None => if nameiparent_ then iput ip ;;; ret (-1, name) else ret (ip, name)
  | Some (path, name) =>
      match fuel with
      | O => undef "namex: fuel"
      | S fuel' =>
          ilock ip ;;;
          let! t := iget_ ip itype in
          if negb (t =? T_DIR) then iunlockput ip ;;; ret (-1, name)
          else if nameiparent_ && (match path with [] => true | _ => false end) then iunlock ip ;;; ret (ip, name)
          else
            let! r := dirlookup ip name in
            match r with
            | None => iunlockput ip ;;; ret (-1, name)
            | Some (next, _) => iunlockput ip ;;; namex_loop fuel' next path nameiparent_ name
            end
      end
  end.

(** cwd is myproc()->cwd. *)
Definition namex (cwd : Z) (path : list Z) (nameiparent_ : bool) (name : list Z) : M fs (Z * list Z) :=
  let! ip := (if hd 0 path =? SLASH then iget ROOTDEV ROOTINO else idup cwd) in
  namex_loop (length path) ip path nameiparent_ name.

Definition namei (cwd : Z) (path : list Z) : M fs Z :=
  let! (ip, _) := namex cwd path false (repeat 0 14) in
  ret ip.

Definition nameiparent (cwd : Z) (path name : list Z) : M fs (Z * list Z) := namex cwd path true name.
End Fs.
