(* ===== verification/FsBlock.v ===== *)
(** What the file system is promised by the layers below it (bio.c, log.c):
    the laws of [Blocks], in terms of a view of the disk that has the
    contents of the blocks as the current transaction sees them, the buffers
    the process holds and the blocks the transaction has logged. *)

From Stdlib Require Import ZArith Lia.
From stdpp Require Import base gmap strings numbers list.
From S2P Require Import Prelude Kstring Bio Log Fs.

Open Scope Z_scope.
Open Scope kern_scope.

(** [vh]: the held buffers and their blocks, the last one read first;
    [vl]: the blocks logged. *)
Record bview := mk_view { vb : Z -> list Z; vh : list (nat * Z); vl : list Z }.

Definition vput (bn : Z) (d : list Z) (f : Z -> list Z) : Z -> list Z := fun x => if x =? bn then d else f x.
Definition vlog (bn : Z) (l : list Z) : list Z := if decide (bn ∈ l) then l else l ++ [bn].

Lemma vlog_length bn l : (length (vlog bn l) <= length l + 1)%nat.
Proof. unfold vlog. destruct (decide (bn ∈ l)); [lia|]. rewrite length_app. cbn. lia. Qed.

(** Buffers are released in the reverse order of bread(); a buffer is only
    changed directly before log_write(). *)
Class BlockLaws (B : Type) `{Blocks B} := {
  rep : B -> bview -> Prop;
  nblk : Z;   (* blocks of the disk *)
  lcap : Z;   (* blocks the log has room for *)
  lfirst : Z; (* the first block after the log *)
  law_cap : 0 <= lcap <= Z.of_nat NBUF;
  law_len : forall s v bn, rep s v -> 0 <= bn < nblk -> length (vb v bn) = 512%nat;
  law_bread : forall s v bn (Q : nat -> B -> Prop), rep s v -> 0 <= bn < nblk -> (forall h, h ∈ vh v -> h.2 <> bn) ->
    Z.of_nat (length (vl v) + length (vh v)) < Z.of_nat NBUF ->
    (forall b s', rep s' (mk_view (vb v) ((b, bn) :: vh v) (vl v)) -> Q b s') -> wp (bl_bread 1 bn) s Q;
  law_data : forall s v b bn h (Q : list Z -> B -> Prop), rep s v -> vh v = (b, bn) :: h -> Q (vb v bn) s -> wp (bl_data b) s Q;
  law_write : forall s v b bn h d (Q : unit -> B -> Prop), rep s v -> vh v = (b, bn) :: h -> lfirst <= bn < nblk -> length d = 512%nat ->
    Z.of_nat (length (vl v)) < lcap ->
    (forall s', rep s' (mk_view (vput bn d (vb v)) (vh v) (vlog bn (vl v))) -> Q tt s') ->
    wp (bl_set b d) s (fun _ s1 => wp (bl_log_write b) s1 Q);
  law_brelse : forall s v b bn h (Q : unit -> B -> Prop), rep s v -> vh v = (b, bn) :: h ->
    (forall s', rep s' (mk_view (vb v) h (vl v)) -> Q tt s') -> wp (bl_brelse b) s Q;
}.

Section Lift.
Context {B : Type} `{BlockLaws B}.

Abbreviation fs := (@fs B).
Implicit Types s : fs.

(** A state of the file system, by its parts. *)
Record At (ic : list inode) (g : superblock) (v : bview) s : Prop := {
  at_rep : rep (blk s) v;
  at_ic : icache s = ic;
  at_sb : sb s = g;
}.

Section Rules.
Context (ic : list inode) (g : superblock) (v : bview) (s : fs) (HA : At ic g v s).

Lemma at_blk b v' : rep b v' -> At ic g v' (set_blk b s).
Proof. intros HR. destruct HA. by constructor. Qed.

Lemma wp_fbread bn (Q : nat -> fs -> Prop) : 0 <= bn < nblk -> (forall h, h ∈ vh v -> h.2 <> bn) ->
  Z.of_nat (length (vl v) + length (vh v)) < Z.of_nat NBUF ->
  (forall b s', At ic g (mk_view (vb v) ((b, bn) :: vh v) (vl v)) s' -> Q b s') -> wp (bread 1 bn) s Q.
Proof.
  intros H1 H2 H3 HQ. apply wp_zoom. eapply law_bread; [apply HA|done|done|done|]. intros b s' HR. apply HQ. by apply at_blk.
Qed.

Lemma wp_fdata b bn h (Q : list Z -> fs -> Prop) : vh v = (b, bn) :: h -> Q (vb v bn) s -> wp (bdata b) s Q.
Proof.
  intros H1 HQ. apply wp_zoom. eapply law_data; [apply HA|exact H1|]. replace (set_blk (blk s) s) with s by (by destruct s). exact HQ.
Qed.

Lemma wp_fwrite b bn h d (Q : unit -> fs -> Prop) : vh v = (b, bn) :: h -> lfirst <= bn < nblk -> length d = 512%nat -> Z.of_nat (length (vl v)) < lcap ->
  (forall s', At ic g (mk_view (vput bn d (vb v)) (vh v) (vlog bn (vl v))) s' -> Q tt s') ->
  wp (bset b d) s (fun _ s1 => wp (log_write b) s1 Q).
Proof.
  intros H1 Hr H2 H3 HQ. apply wp_zoom. eapply wp_mono; [eapply (law_write (blk s) v b bn h d (fun _ b' => Q tt (set_blk b' s))); [apply HA|done|done|done|done|]|].
  - intros s' HR. apply HQ. by apply at_blk.
  - intros [] s1 HW. apply wp_zoom. cbn. eapply wp_mono; [exact HW|]. intros [] b' HQ'. exact HQ'.
Qed.

Lemma wp_fbrelse b bn h (Q : unit -> fs -> Prop) : vh v = (b, bn) :: h ->
  (forall s', At ic g (mk_view (vb v) h (vl v)) s' -> Q tt s') -> wp (brelse b) s Q.
Proof. intros H1 HQ. apply wp_zoom. eapply law_brelse; [apply HA|done|]. intros s' HR. apply HQ. by apply at_blk. Qed.

Lemma wp_fsb (Q : superblock -> fs -> Prop) : Q g s -> wp (gets sb) s Q.
Proof. intros HQ. apply wp_gets. by rewrite (at_sb _ _ _ _ HA). Qed.

Lemma wp_figet {A} ip (f : inode -> A) (Q : A -> fs -> Prop) : Q (f (aget no_inode ic ip)) s -> wp (iget_ ip f) s Q.
Proof. intros HQ. apply wp_gets. unfold the_inode. by rewrite (at_ic _ _ _ _ HA). Qed.

Lemma wp_fiset ip (f : inode -> inode) (Q : unit -> fs -> Prop) :
  (forall s', At (aset ic ip (f (aget no_inode ic ip))) g v s' -> Q tt s') -> wp (iset ip f) s Q.
Proof.
  intros HQ. apply wp_modify. apply HQ. destruct HA as [H1 H2 H3]. constructor; [done| |done]. unfold upd_inode, the_inode. cbn. by rewrite H2.
Qed.

(** A block is written, and logged. *)
Lemma wp_flog {A} b bn h d (k : M fs A) (Q : A -> fs -> Prop) : vh v = (b, bn) :: h -> lfirst <= bn < nblk -> length d = 512%nat -> Z.of_nat (length (vl v)) < lcap ->
  (forall s', At ic g (mk_view (vput bn d (vb v)) (vh v) (vlog bn (vl v))) s' -> wp k s' Q) ->
  wp (bset b d ;;; log_write b ;;; k) s Q.
Proof.
  intros H1 Hr H2 H3 HQ. apply wp_bind. eapply wp_mono; [eapply (wp_fwrite b bn h d (fun _ s' => wp k s' Q)); done|]. intros [] s1 HW. by apply wp_bind.
Qed.

(** A block is written and released: the common end of a change. *)
Lemma wp_put b bn h d (Q : unit -> fs -> Prop) : vh v = (b, bn) :: h -> lfirst <= bn < nblk -> length d = 512%nat -> Z.of_nat (length (vl v)) < lcap ->
  (forall s', At ic g (mk_view (vput bn d (vb v)) h (vlog bn (vl v))) s' -> Q tt s') ->
  wp (bset b d ;;; log_write b ;;; brelse b) s Q.
Proof.
  intros H1 Hr H2 H3 HQ. eapply wp_flog; [exact H1|done|done|done|]. intros s' HA'. apply wp_zoom. eapply law_brelse; [apply HA'|exact H1|].
  intros b' HR. apply HQ. destruct HA'. by constructor.
Qed.
End Rules.
End Lift.
