(* ===== verification/FsLog.v ===== *)
(** bio.c and log.c keep the promises of [BlockLaws]: inside a transaction
    the file system sees the view it is proved against. *)

From Stdlib Require Import ZArith Lia.
From stdpp Require Import base gmap strings numbers list.
From S2P Require Import Prelude Kstring Bio BioSpec Log LogCopy LogSpec LogTx Fs FsBlock.

Open Scope Z_scope.
Open Scope kern_scope.

Section Instance.
(** The transaction: [out] operations are outstanding, the disk is [d0]. *)
Context (pid st nl out : Z) (d0 : disk).
Let sz : Z := disksize d0.

Instance log_blocks : Blocks log := {
  bl_bread := fun dev bn => on_bio (Bio.bread pid dev bn);
  bl_data := fun i => on_bio (get_data i);
  bl_set := fun i v => on_bio (set_data i v);
  bl_log_write := fun i => Log.log_write i;
  bl_brelse := fun i => on_bio (Bio.brelse pid i);
}.

(** The state of the log inside a transaction, and its view. *)
Record log_rep (s : log) (v : bview) : Prop := {
  lr_geo : geometry st nl s;
  lr_head : header_is st nl s (vl v);
  lr_inv : exists l, bio_inv (lbio s) l;
  lr_held : held pid (lbio s) (vh v).*1;
  lr_buf : forall i bn, (i, bn) ∈ vh v -> bdev (get_buf (lbio s) i) = 1 /\ blockno (get_buf (lbio s) i) = bn /\ is_valid (get_buf (lbio s) i) = true /\
    (is_dirty (get_buf (lbio s) i) = true \/ data (get_buf (lbio s) i) = disk_read (dsk (lbio s)) bn);
  lr_dirty : forall b, dirty (lbio s) b <-> b ∈ vl v;
  lr_view : forall b, view (lbio s) b = vb v b;
  lr_sized : forall b, length (view (lbio s) b) = 512%nat;
  lr_out : outstanding s = out /\ 1 <= out /\ committing s = false;
  lr_disk : dsk (lbio s) = d0;
  lr_fmt : formatted st nl d0;
  lr_clean : is_header (disk_read d0 st) [];
  lr_sb : 1 ∉ vl v;
}.

Lemma log_rep_data s v i bn : log_rep s v -> (i, bn) ∈ vh v -> data (get_buf (lbio s) i) = vb v bn.
Proof.
  intros R Hi. destruct (lr_buf _ _ R i bn Hi) as (E1 & E2 & E3 & _). destruct (lr_inv _ _ R) as [l I]. rewrite <- (lr_view _ _ R).
  symmetry. apply (view_cached _ l); [done| |]; [|unfold holds_block; rewrite E3, andb_true_r; by apply same_block_true].
  apply (hd_range _ _ _ (lr_held _ _ R)). apply list_elem_of_fmap. by exists (i, bn).
Qed.

Lemma set_bio_self s : set_bio (lbio s) s = s.
Proof. by destruct s. Qed.

Lemma geo_set_bio s b : geometry st nl s -> dsk b = dsk (lbio s) -> geometry st nl (set_bio b s).
Proof. intros [] E. constructor; cbn; rewrite ?E; done. Qed.
Lemma head_set_bio s b bl : header_is st nl s bl -> dsk b = dsk (lbio s) -> header_is st nl (set_bio b s) bl.
Proof. intros [] E. constructor; cbn; rewrite ?E; done. Qed.

Lemma view_clean_held s l H b : bio_inv s l -> held pid s H -> ~ dirty s b -> (forall i, i ∈ H -> blockno (get_buf s i) <> b) -> view s b = disk_read (dsk s) b.
Proof.
  intros I Hh Hd HH. unfold view. destruct (List.find _ _) as [i|] eqn:E; [|done]. apply find_some in E as [Hi Hb]. apply in_seq in Hi. apply andb_true_iff in Hb as [Hs Hv].
  pose proof Hs as [Hdev <-]%same_block_true. apply (hd_clean _ _ _ Hh); try done; [lia|intros Hin; by apply (HH i)|].
  destruct (is_dirty (get_buf s i)) eqn:Ed; [|done]. exfalso. apply Hd. exists i. split_and!; [lia|done|done].
Qed.

Lemma log_bread s v bn (Q : nat -> log -> Prop) : log_rep s v -> 0 <= bn < sz -> (forall h, h ∈ vh v -> h.2 <> bn) ->
  Z.of_nat (length (vl v) + length (vh v)) < Z.of_nat NBUF ->
  (forall b s', log_rep s' (mk_view (vb v) ((b, bn) :: vh v) (vl v)) -> Q b s') -> wp (on_bio (Bio.bread pid 1 bn)) s Q.
Proof.
  intros R Hbn Hne Hroom HQ. pose proof R as [Rg Rh [l I] RH Rb Rd Rv Rs Ro Rz Rf Rc Rs1]. apply wp_zoom.
  assert (Hnb : forall i, i ∈ (vh v).*1 -> blockno (get_buf (lbio s) i) <> bn).
  { intros i ([i' b'] & -> & Hin)%list_elem_of_fmap. cbn [fst]. destruct (Rb _ _ Hin) as (_ & -> & _). by apply Hne in Hin. }
  apply (wp_bread pid bn (lbio s) l (vh v).*1); [done|done|rewrite Rz; unfold sz in Hbn; lia|exact Hnb| |].
  { right. apply (spare_count (lbio s) l _ (vl v) I); [by intros b; apply Rd|]. rewrite length_fmap. lia. }
  intros i s' Gt. pose proof (got_disk _ _ _ _ _ _ _ Gt) as D. destruct (got_block _ _ _ _ _ _ _ Gt) as [B1 B2]. apply HQ.
  constructor; cbn [lbio set_bio vb vh vl outstanding committing]; rewrite ?D; try done.
  - by apply geo_set_bio.
  - by apply head_set_bio.
  - exists l. apply Gt.
  - apply Gt.
  - intros j b [[= -> ->]|Hj]%elem_of_cons.
    + split_and!; [done|done|apply Gt|]. destruct (is_dirty (get_buf s' i)) eqn:E; [by left|right]. rewrite (got_data _ _ _ _ _ _ _ Gt).
      apply (view_clean_held _ l (vh v).*1); [done|done| |done]. intros Hd. apply (got_dirty _ _ _ _ _ _ _ Gt) in Hd. congruence.
    + assert (Hji : j <> i). { intros ->. pose proof (hd_nodup _ _ _ (got_held _ _ _ _ _ _ _ Gt)) as [Hni _]%NoDup_cons. apply Hni, list_elem_of_fmap. by exists (i, b). }
      rewrite (got_other _ _ _ _ _ _ _ Gt j Hji). by apply Rb.
  - intros b. rewrite (got_dirties _ _ _ _ _ _ _ Gt). apply Rd.
  - intros b. rewrite (got_view _ _ _ _ _ _ _ Gt). apply Rv.
  - intros b. rewrite (got_view _ _ _ _ _ _ _ Gt). apply Rs.
Qed.

Lemma log_brelse s v b bn h (Q : unit -> log -> Prop) : log_rep s v -> vh v = (b, bn) :: h ->
  (forall s', log_rep s' (mk_view (vb v) h (vl v)) -> Q tt s') -> wp (on_bio (Bio.brelse pid b)) s Q.
Proof.
  intros R Hh HQ. pose proof R as [Rg Rh [l I] RH Rb Rd Rv Rs Ro Rz Rf Rc Rs1]. rewrite Hh in *. apply wp_zoom. destruct (Rb b bn ltac:(by left)) as (B1 & B2 & B3 & B4).
  apply (wp_brelse pid (lbio s) l ((b, bn) :: h).*1 h.*1 b); [done|done|done|by rewrite B2|]. intros s' l' [I' _ H' D C]. apply HQ.
  assert (V : forall x, view s' x = view (lbio s) x) by (apply view_core; auto). constructor; cbn [lbio set_bio vb vh vl outstanding committing]; rewrite ?D; try done.
  - by apply geo_set_bio.
  - by apply head_set_bio.
  - by exists (b :: l').
  - intros i x Hi. destruct (Rb i x ltac:(by right)) as (C1 & C2 & C3 & C4). destruct (core_fields _ _ (C i)) as (F1 & F2 & F3 & F4 & _). unfold is_valid, is_dirty, has_flag in *. rewrite F1, F2, F3, F4. done.
  - intros x. rewrite (dirty_core (lbio s) s') by auto. apply Rd.
  - intros x. by rewrite V.
  - intros x. by rewrite V.
Qed.

Lemma vlog_tx bn bl : vlog bn bl = tx_add bn bl.
Proof. done. Qed.

Lemma log_set_write s v b bn h d (Q : unit -> log -> Prop) : log_rep s v -> vh v = (b, bn) :: h -> st + nl <= bn < sz -> length d = 512%nat ->
  Z.of_nat (length (vl v)) < Z.min 29 (nl - 1) ->
  (forall s', log_rep s' (mk_view (vput bn d (vb v)) (vh v) (vlog bn (vl v))) -> Q tt s') ->
  wp (on_bio (set_data b d)) s (fun _ s1 => wp (Log.log_write b) s1 Q).
Proof.
  intros R Hh Hbn Hd Hroom HQ. pose proof R as [Rg Rh [l I] RH Rb Rd Rv Rs Ro Rz Rf Rc Rs1]. destruct (Rb b bn ltac:(rewrite Hh; by left)) as (B1 & B2 & B3 & B4).
  assert (Hin : b ∈ (vh v).*1) by (rewrite Hh; by left). apply wp_zoom, wp_modify. destruct (put_data pid (lbio s) l (vh v).*1 b d I RH Hin B1 B3) as (I1 & H1 & V1 & D1).
  set (s1 := upd_buf b (with_data d) (lbio s)) in *. assert (Hr : (b < length (bufs (lbio s)))%nat) by (rewrite (bi_len _ _ I); pose proof (hd_range _ _ _ RH b Hin); lia).
  assert (G1 : forall j, get_buf s1 j = if decide (b = j) then with_data d (get_buf (lbio s) b) else get_buf (lbio s) j) by (intros j; unfold s1; by rewrite get_upd).
  assert (Gb : get_buf s1 b = with_data d (get_buf (lbio s) b)) by (by rewrite G1, decide_True).
  destruct (fm_range _ _ _ Rf) as (F1 & F2 & F3). unfold sz in Hbn. assert (Hno : ~ in_log st nl bn) by (unfold in_log; lia).
  apply (wp_log_header st nl (set_bio s1 s) (vl v) bn b); [by apply head_set_bio|cbn; lia|by apply geo_set_bio|change (lbio (set_bio s1 s)) with s1; by rewrite Gb|change (dsk (lbio (set_bio s1 s))) with (dsk (lbio s)); rewrite Rz; lia|done|lia|].
  cbn [lbio set_bio]. intros s2 H2 G2 O2 C2 E2. destruct (dirty_held pid s1 l (vh v).*1 b I1 H1 Hin ltac:(by rewrite Gb) ltac:(by rewrite Gb)) as (I3 & H3 & G3 & O3 & V3 & D3). rewrite <- E2 in *.
  assert (Dk : dsk (lbio s2) = dsk (lbio s)) by (by rewrite E2). assert (VV : forall x, view (lbio s2) x = vput bn d (vb v) x).
  { intros x. rewrite V3, V1. unfold vput. rewrite B2. destruct (Z.eq_dec x bn) as [->|Hx]; [by rewrite Z.eqb_refl|]. replace (x =? bn) with false by lia. apply Rv. }
  apply HQ. rewrite vlog_tx. constructor; cbn [vb vh vl]; rewrite ?Dk; try done.
  - by exists l.
  - intros i x Hi. destruct (decide (i = b)) as [->|Hib].
    + assert (x = bn) as ->. { destruct (Rb b x Hi) as (_ & <- & _). done. } rewrite G3, Gb. split_and!; try done. by left.
    + rewrite O3, G1, decide_False by done. by apply Rb.
  - intros x. rewrite D3, D1, elem_tx_add, Rd, Gb. cbn [blockno with_data]. by rewrite B2.
  - intros x. rewrite VV. unfold vput. destruct (x =? bn); [done|]. rewrite <- Rv. apply Rs.
  - rewrite O2, C2. done.
  - rewrite elem_tx_add. intros [?|?]; [done|lia].
Qed.

(** The log with room for [nl - 1] blocks, 29 at most. *)
Program Instance log_laws (Hnl : 1 <= nl) : BlockLaws log := {
  rep := log_rep;
  nblk := sz;
  lcap := Z.min 29 (nl - 1);
  lfirst := st + nl;
  law_bread := log_bread;
  law_write := log_set_write;
  law_brelse := log_brelse;
}.
Next Obligation. intros Hnl. unfold NBUF. lia. Qed.
Next Obligation. intros Hnl s v bn R _. rewrite <- (lr_view _ _ R). apply R. Qed.
Next Obligation.
  intros Hnl s v b bn h Q R Hh HQ. apply wp_zoom, wp_gets. rewrite set_bio_self. rewrite (log_rep_data s v b bn R); [done|]. rewrite Hh. by left.
Qed.
End Instance.
