(* ===== verification/FsBitmap.v ===== *)
(** The block allocator (balloc, bfree of fs.c). *)

From Stdlib Require Import ZArith Lia.
From stdpp Require Import base gmap strings numbers list.
From S2P Require Import Prelude Kstring Bio Log Fs FsBlock.

Open Scope Z_scope.
Open Scope kern_scope.

(** ** Bits *)

Lemma land_bit x k : 0 <= k -> (Z.land x (Z.shiftl 1 k) =? 0) = negb (Z.testbit x k).
Proof.
  intros Hk. destruct (Z.testbit x k) eqn:E; cbn.
  - apply Z.eqb_neq. intros E0. assert (T : Z.testbit (Z.land x (Z.shiftl 1 k)) k = false) by (rewrite E0; apply Z.bits_0).
    rewrite Z.land_spec, E, Z.shiftl_spec, Z.sub_diag in T by done. done.
  - apply Z.eqb_eq. apply Z.bits_inj'. intros n Hn. rewrite Z.land_spec, Z.bits_0. destruct (decide (n = k)) as [->|Hne]; [by rewrite E|].
    rewrite Z.shiftl_spec by done. destruct (Z.ltb_spec n k); [rewrite (Z.testbit_neg_r 1 (n - k)) by lia; apply andb_false_r|].
    replace (Z.testbit 1 (n - k)) with false; [apply andb_false_r|]. symmetry. apply Z.bits_above_log2; [done|cbn; lia].
Qed.

Lemma u8_testbit x k : 0 <= k < 8 -> Z.testbit (u8 x) k = Z.testbit x k.
Proof. intros Hk. unfold u8. by rewrite Z.mod_pow2_bits_low by lia. Qed.

Lemma shiftl1_testbit j k : 0 <= j -> 0 <= k -> Z.testbit (Z.shiftl 1 j) k = (j =? k).
Proof.
  intros Hj Hk. rewrite Z.shiftl_spec by done. destruct (Z.eqb_spec j k) as [->|Hne]; [by rewrite Z.sub_diag|].
  destruct (Z.ltb_spec k j); [by rewrite Z.testbit_neg_r by lia|]. apply Z.bits_above_log2; [done|cbn; lia].
Qed.

(** The byte with bit j set or cleared. *)
Lemma set_bit_testbit x j k : 0 <= j < 8 -> 0 <= k < 8 -> Z.testbit (u8 (Z.lor x (Z.shiftl 1 j))) k = (j =? k) || Z.testbit x k.
Proof. intros Hj Hk. rewrite u8_testbit, Z.lor_spec, shiftl1_testbit by lia. apply orb_comm. Qed.

Lemma clear_bit_testbit x j k : 0 <= j < 8 -> 0 <= k < 8 -> Z.testbit (u8 (Z.land x (Z.lnot (Z.shiftl 1 j)))) k = negb (j =? k) && Z.testbit x k.
Proof. intros Hj Hk. rewrite u8_testbit, Z.land_spec, Z.lnot_spec, shiftl1_testbit by lia. apply andb_comm. Qed.

Section Bitmap.
Context {B : Type} `{BlockLaws B}.
Context (g : superblock).

(** The first block after the bitmap. *)
Definition datastart : Z := sb_bmapstart g + (sb_size g - 1) / 4096 + 1.

(** The layout mkfs gives a disk. *)
Record geom_ok : Prop := {
  g_size : 0 < sb_size g <= nblk;
  g_nblk : nblk < 2 ^ 31;
  g_inodes : 2 <= sb_inodestart g /\ 1 <= sb_ninodes g /\ lfirst <= sb_inodestart g;
  g_bmap : sb_inodestart g + (sb_ninodes g - 1) / 8 < sb_bmapstart g;
  g_data : datastart <= sb_size g;
}.

(** Bit b of the free map. *)
Definition bit (f : Z -> list Z) (b : Z) : bool := Z.testbit (aget 0 (f (BBLOCK b g)) (b mod 4096 / 8)) (b mod 8).

Context (G : geom_ok).

Lemma bblock_eq b : 0 <= b < sb_size g -> BBLOCK b g = b / 4096 + sb_bmapstart g.
Proof.
  intros Hb. destruct G as [G1 G2 G3 G4 G5]. unfold BBLOCK, BPB, BSIZE. change (512 * 8) with 4096. apply u32_small. unfold datastart in G5. zdm.
Qed.

Lemma bblock_range b : 0 <= b < sb_size g -> sb_bmapstart g <= BBLOCK b g < datastart.
Proof. intros Hb. rewrite bblock_eq by done. unfold datastart. zdm. Qed.

Lemma bblock_disk b : 0 <= b < sb_size g -> 0 <= BBLOCK b g < nblk.
Proof. intros Hb. pose proof (bblock_range b Hb). destruct G as [G1 G2 G3 G4 G5]. zdm. Qed.

Lemma bblock_first b : 0 <= b < sb_size g -> lfirst <= BBLOCK b g < nblk.
Proof. intros Hb. pose proof (bblock_range b Hb). pose proof (bblock_disk b Hb). destruct G as [G1 G2 G3 G4 G5]. zdm. Qed.

Lemma datastart_first : lfirst <= datastart.
Proof. destruct G as [G1 G2 G3 G4 G5]. unfold datastart. zdm. Qed.

Lemma datastart_pos : 3 <= datastart.
Proof. destruct G as [G1 G2 G3 G4 G5]. unfold datastart. zdm. Qed.

(** ** The effect of a change of one bit *)

Definition bit_byte (b : Z) (x : Z) (f : Z -> list Z) : Z -> list Z :=
  vput (BBLOCK b g) (aset (f (BBLOCK b g)) (b mod 4096 / 8) x) f.

Lemma bit_change b c x f : 0 <= b < sb_size g -> 0 <= c < sb_size g -> length (f (BBLOCK b g)) = 512%nat ->
  bit (bit_byte b x f) c = if (BBLOCK c g =? BBLOCK b g) && (c mod 4096 / 8 =? b mod 4096 / 8) then Z.testbit x (c mod 8) else bit f c.
Proof.
  intros Hb Hc HL. unfold bit, bit_byte, vput. destruct (Z.eqb_spec (BBLOCK c g) (BBLOCK b g)) as [E|E]; cbn [andb]; [|done].
  rewrite aget_aset by (rewrite HL; zdm). rewrite (Z.eqb_sym (b mod 4096 / 8)). rewrite E. by destruct (_ =? _).
Qed.

Lemma same_bit b c : 0 <= b < sb_size g -> 0 <= c < sb_size g -> BBLOCK c g = BBLOCK b g -> c mod 4096 / 8 = b mod 4096 / 8 -> b mod 8 = c mod 8 -> b = c.
Proof. intros Hb Hc. rewrite !bblock_eq by done. intros. zdm. Qed.

Lemma bit_set b c f : 0 <= b < sb_size g -> 0 <= c < sb_size g -> length (f (BBLOCK b g)) = 512%nat ->
  bit (bit_byte b (u8 (Z.lor (aget 0 (f (BBLOCK b g)) (b mod 4096 / 8)) (Z.shiftl 1 (b mod 8)))) f) c = (b =? c) || bit f c.
Proof.
  intros Hb Hc HL. rewrite bit_change by done. destruct (_ && _) eqn:E.
  - apply andb_true_iff in E as [E1%Z.eqb_eq E2%Z.eqb_eq]. rewrite set_bit_testbit by zdm. unfold bit. rewrite E1, E2. f_equal.
    destruct (Z.eqb_spec (b mod 8) (c mod 8)); [symmetry; apply Z.eqb_eq; by apply same_bit|]. symmetry. apply Z.eqb_neq. by intros ->.
  - replace (b =? c) with false; [done|]. symmetry. apply Z.eqb_neq. intros ->. rewrite !Z.eqb_refl in E. done.
Qed.

Lemma bit_clear b c f : 0 <= b < sb_size g -> 0 <= c < sb_size g -> length (f (BBLOCK b g)) = 512%nat ->
  bit (bit_byte b (u8 (Z.land (aget 0 (f (BBLOCK b g)) (b mod 4096 / 8)) (Z.lnot (Z.shiftl 1 (b mod 8))))) f) c = negb (b =? c) && bit f c.
Proof.
  intros Hb Hc HL. rewrite bit_change by done. destruct (_ && _) eqn:E.
  - apply andb_true_iff in E as [E1%Z.eqb_eq E2%Z.eqb_eq]. rewrite clear_bit_testbit by zdm. unfold bit. rewrite E1, E2. f_equal. f_equal.
    destruct (Z.eqb_spec (b mod 8) (c mod 8)); [symmetry; apply Z.eqb_eq; by apply same_bit|]. symmetry. apply Z.eqb_neq. by intros ->.
  - replace (b =? c) with false; [done|]. symmetry. apply Z.eqb_neq. intros ->. rewrite !Z.eqb_refl in E. done.
Qed.

(** ** balloc() *)

(** The system's own blocks are marked in use. *)
Definition meta_used (f : Z -> list Z) : Prop := forall b, 0 <= b < datastart -> bit f b = true.
(** The held buffers are of allocated blocks. *)
Definition held_ok (v : bview) : Prop := forall h, h ∈ vh v -> datastart <= h.2 < sb_size g /\ bit (vb v) h.2 = true.
(** There is room for n more blocks in the log and in the cache. *)
Definition room (n : Z) (v : bview) : Prop :=
  Z.of_nat (length (vl v)) + n <= lcap /\ Z.of_nat (length (vl v)) + Z.of_nat (length (vh v)) + n < Z.of_nat NBUF.

Definition alloc_vb (a : Z) (f : Z -> list Z) : Z -> list Z :=
  vput a (repeat 0 512) (bit_byte a (u8 (Z.lor (aget 0 (f (BBLOCK a g)) (a mod 4096 / 8)) (Z.shiftl 1 (a mod 8)))) f).
Definition alloc_view (a : Z) (v : bview) : bview := mk_view (alloc_vb a (vb v)) (vh v) (vlog a (vlog (BBLOCK a g) (vl v))).

Lemma room_vlog n bn v f h : room n v -> (length h <= length (vh v))%nat -> room (n - 1) (mk_view f h (vlog bn (vl v))).
Proof. intros [R1 R2] Hh. pose proof (vlog_length bn (vl v)). unfold room. cbn. lia. Qed.

Section Ops.
Context (ic : list inode).
Abbreviation fs := (@fs B).
Implicit Types s : fs.

Lemma wp_bzero bno v s (Q : unit -> fs -> Prop) : At ic g v s -> 0 <= bno < nblk -> lfirst <= bno -> (forall h, h ∈ vh v -> h.2 <> bno) -> room 1 v ->
  (forall s', At ic g (mk_view (vput bno (repeat 0 512) (vb v)) (vh v) (vlog bno (vl v))) s' -> Q tt s') -> wp (bzero 1 bno) s Q.
Proof.
  intros HA Hb Hl Hh [R1 R2] HQ. unfold bzero. apply wp_bind. eapply wp_fbread; [exact HA|done|done|lia|]. intros b s1 A1.
  eapply (wp_put _ _ _ _ A1 b bno); [reflexivity|lia|done|cbn; lia|]. exact HQ.
Qed.

Lemma wp_balloc_scan k b bp h v s (Q : option Z -> fs -> Prop) : b = k * 4096 -> 0 <= k -> b < sb_size g -> At ic g v s -> vh v = (bp, BBLOCK b g) :: h ->
  meta_used (vb v) -> (forall x, x ∈ h -> datastart <= x.2 < sb_size g /\ bit (vb v) x.2 = true) -> room 2 v ->
  (forall a s', b <= a < Z.min (b + 4096) (sb_size g) -> bit (vb v) a = false -> (forall c, b <= c < a -> bit (vb v) c = true) ->
     At ic g (alloc_view a (mk_view (vb v) h (vl v))) s' -> Q (Some a) s') ->
  ((forall c, b <= c < Z.min (b + 4096) (sb_size g) -> bit (vb v) c = true) -> Q None s) ->
  wp (balloc_scan 1 (sb_size g) b bp) s Q.
Proof.
  intros Eb Hk Hb HA Hh HM HH HR HS HN. unfold balloc_scan, BPB, BSIZE. change (512 * 8) with 4096. destruct G as [G1 G2 G3 G4 G5].
  apply (wp_search (fun bi s' => s' = s /\ forall c, b <= c < b + bi -> bit (vb v) c = true)); [split; [done|intros; lia]| |].
  2: { intros s' (-> & Hc). apply HN. intros c Hc'. apply Hc. lia. }
  intros bi s' Hbi (-> & Hc). set (a := b + bi) in *. assert (Ha : 0 <= a < sb_size g) by lia. assert (Eblk : BBLOCK b g = BBLOCK a g) by (rewrite !bblock_eq by lia; unfold a; rewrite Eb; zdm).
  assert (E1 : a mod 4096 = bi) by (unfold a; rewrite Eb; zdm). assert (E2 : a mod 8 = bi mod 8) by (unfold a; rewrite Eb; zdm).
  assert (HL : length (vb v (BBLOCK a g)) = 512%nat) by (apply (law_len (blk s)); [apply HA|by apply bblock_disk]).
  apply wp_bind. eapply wp_fdata; [exact HA|exact Hh|]. rewrite Eblk in *. rewrite land_bit by zdm.
  replace (Z.testbit (aget 0 (vb v (BBLOCK a g)) (bi / 8)) (bi mod 8)) with (bit (vb v) a) by (unfold bit; by rewrite E1, E2).
  destruct (bit (vb v) a) eqn:Ebit; cbn [negb].
  { apply wp_ret. split; [done|]. intros c Hc'. destruct (decide (c = a)) as [->|]; [done|]. apply Hc. lia. }
  destruct HR as [R1 R2]. rewrite Hh in R2. cbn in R2.
  eapply (wp_flog _ _ _ _ HA bp (BBLOCK a g) h); [exact Hh|by apply bblock_first|by rewrite length_aset|lia|].
  intros s1 A1. rewrite Hh in A1. apply wp_bind. eapply wp_fbrelse; [exact A1|reflexivity|]. cbn [vb vl]. intros s2 A2.
  assert (Hda : datastart <= a) by (destruct (Z.ltb_spec a datastart); [rewrite HM in Ebit by lia; done|lia]).
  pose proof (vlog_length (BBLOCK a g) (vl v)). pose proof datastart_pos as Hd.
  apply wp_bind. pose proof datastart_first. eapply wp_bzero; [exact A2|lia|lia| | |].
  { intros x Hx E. destruct (HH x Hx) as [_ E3]. rewrite E in E3. congruence. }
  { split; cbn; lia. }
  intros s3 A3. apply wp_ret. apply HS; [lia|done|intros c Hc'; apply Hc; lia|]. cbn [vb vh vl] in A3. unfold alloc_view, alloc_vb, bit_byte. cbn [vb vh vl]. rewrite E1, E2. exact A3.
Qed.

Lemma wp_balloc v s (Q : Z -> fs -> Prop) : At ic g v s -> meta_used (vb v) -> held_ok v -> room 3 v ->
  (exists a, 0 <= a < sb_size g /\ bit (vb v) a = false) ->
  (forall a s', datastart <= a < sb_size g -> bit (vb v) a = false -> (forall c, 0 <= c < a -> bit (vb v) c = true) ->
     At ic g (alloc_view a v) s' -> Q a s') ->
  wp (balloc 1) s Q.
Proof.
  intros HA HM HH [R1 R2] (a0 & Ha0 & Hf0) HQ. unfold balloc, BPB, BSIZE. change (512 * 8) with 4096. apply wp_bind. eapply wp_fsb; [exact HA|]. apply wp_bind.
  apply (wp_search (fun k s' => At ic g v s' /\ forall c, 0 <= c < k * 4096 -> c < sb_size g -> bit (vb v) c = true)).
  - split; [done|intros; lia].
  - intros k s1 Hk (A1 & Hc). assert (Hb : k * 4096 < sb_size g) by zdm. pose proof (bblock_range (k * 4096) ltac:(lia)) as Hbr. pose proof (bblock_disk (k * 4096) ltac:(lia)) as Hbd.
    apply wp_bind. eapply wp_fbread; [exact A1|exact Hbd| |lia|].
    { intros h Hh E. destruct (HH h Hh) as [? _]. lia. }
    intros bp s2 A2. apply wp_bind. eapply (wp_balloc_scan k (k * 4096) bp (vh v)); [done|lia|done|exact A2|reflexivity|exact HM|exact HH|split; cbn; lia| |].
    + cbn [vb vl]. intros a s3 Ha Hfa Hb3 A3. apply wp_ret, wp_ret. assert (Hda : datastart <= a) by (destruct (Z.ltb_spec a datastart); [rewrite HM in Hfa by lia; done|lia]).
      apply HQ; [lia|done| |by destruct v]. intros c Hc'. destruct (Z.ltb_spec c (k * 4096)); [apply Hc; lia|apply Hb3; lia].
    + cbn [vb]. intros Hall. apply wp_bind. eapply wp_fbrelse; [exact A2|reflexivity|]. cbn [vb vl]. intros s3 A3. apply wp_ret. split; [by destruct v|].
      intros c Hc1 Hc2. destruct (Z.ltb_spec c (k * 4096)); [apply Hc; lia|apply Hall; lia].
  - intros s1 (A1 & Hc). rewrite Hc in Hf0; [done| |lia]. zdm.
Qed.

Lemma wp_bfree b v s (Q : unit -> fs -> Prop) : At ic g v s -> 0 <= b < sb_size g -> bit (vb v) b = true -> held_ok v -> room 1 v ->
  (forall s', At ic g (mk_view (bit_byte b (u8 (Z.land (aget 0 (vb v (BBLOCK b g)) (b mod 4096 / 8)) (Z.lnot (Z.shiftl 1 (b mod 8))))) (vb v)) (vh v) (vlog (BBLOCK b g) (vl v))) s' -> Q tt s') ->
  wp (bfree 1 b) s Q.
Proof.
  intros HA Hb Hbit HH [R1 R2] HQ. pose proof (bblock_range b Hb) as Hbr. pose proof (bblock_disk b Hb) as Hbd. unfold bfree. apply wp_bind. eapply wp_fsb; [exact HA|].
  apply wp_bind. eapply wp_fbread; [exact HA|exact Hbd| |lia|].
  { intros h Hh E. destruct (HH h Hh) as [? _]. lia. }
  intros bp s1 A1. unfold BPB, BSIZE. change (512 * 8) with 4096. assert (E8 : b mod 4096 mod 8 = b mod 8) by zdm. rewrite E8. apply wp_bind. eapply wp_fdata; [exact A1|reflexivity|]. cbn [vb].
  rewrite land_bit by zdm. fold (bit (vb v) b). rewrite Hbit. cbn [negb].
  eapply (wp_put _ _ _ _ A1 bp (BBLOCK b g)); [reflexivity|by apply bblock_first| |cbn; lia|]; cbn [vb vl]; [rewrite length_aset; by apply (law_len (blk s)); [apply HA|]|]. exact HQ.
Qed.
End Ops.

(** ** The allocated block *)

Lemma alloc_bit a c f : datastart <= a < sb_size g -> 0 <= c < sb_size g -> length (f (BBLOCK a g)) = 512%nat -> bit (alloc_vb a f) c = (a =? c) || bit f c.
Proof.
  intros Ha Hc HL. pose proof datastart_pos. rewrite <- (bit_set a c f) by (done || lia). unfold bit, alloc_vb. unfold vput at 1. pose proof (bblock_range c Hc).
  by replace (BBLOCK c g =? a) with false by lia.
Qed.

Lemma alloc_other a x f : 0 <= a < sb_size g -> x <> a -> x < sb_bmapstart g \/ datastart <= x -> alloc_vb a f x = f x.
Proof.
  intros Ha Hx Hr. unfold alloc_vb, bit_byte, vput. pose proof (bblock_range a Ha). replace (x =? a) with false by lia. by replace (x =? BBLOCK a g) with false by lia.
Qed.

Lemma alloc_zero a f : alloc_vb a f a = repeat 0 512.
Proof. unfold alloc_vb, vput. by rewrite Z.eqb_refl. Qed.

(** How many blocks are free. *)
Definition nfree (f : Z -> list Z) : Z := Z.of_nat (length (filter (fun b => bit f b = false) (seqZ 0 (sb_size g)))).

Lemma nfree_some f : 0 < nfree f -> exists a, 0 <= a < sb_size g /\ bit f a = false.
Proof.
  intros Hn. unfold nfree in Hn. destruct (filter _ _) as [|a l] eqn:E; [cbn in Hn; lia|]. assert (Ha : a ∈ filter (fun b => bit f b = false) (seqZ 0 (sb_size g))) by (rewrite E; by left).
  apply list_elem_of_filter in Ha as [Ha1 Ha2]. exists a. apply elem_of_seqZ in Ha2. split; [lia|done].
Qed.

Lemma filter_drop_one (P P' : Z -> Prop) `{!forall x, Decision (P x)} `{!forall x, Decision (P' x)} a l :
  NoDup l -> a ∈ l -> P a -> (forall c, c ∈ l -> P' c <-> P c /\ c <> a) -> length (filter P l) = S (length (filter P' l)).
Proof.
  induction l as [|x l IH]; intros Hn Ha Hp HP; [by apply not_elem_of_nil in Ha|]. apply NoDup_cons in Hn as [Hx Hn]. rewrite !filter_cons.
  apply elem_of_cons in Ha as [->|Ha].
  - assert (E : filter P' l = filter P l).
    { clear IH. assert (HP2 : forall c, c ∈ l -> P' c <-> P c). { intros c Hc. rewrite HP by (by right). split; [tauto|]. intros ?. split; [done|]. by intros ->. }
      clear HP Hx Hn. induction l as [|y l IH]; [done|]. rewrite !filter_cons. rewrite IH by (intros c Hc; apply HP2; by right).
      assert (Hy : P' y <-> P y) by (apply HP2; by left). destruct (decide (P' y)), (decide (P y)); tauto. }
    rewrite E. rewrite decide_True by done. rewrite decide_False; [done|]. rewrite HP by (by left). tauto.
  - assert (E : P' x <-> P x). { rewrite HP by (by left). split; [tauto|]. intros ?. split; [done|]. by intros ->. }
    assert (IH' : length (filter P l) = S (length (filter P' l))) by (apply IH; [done|done|done|]; intros c Hc; apply HP; by right).
    destruct (decide (P x)), (decide (P' x)); try tauto. cbn. by rewrite IH'.
Qed.

Lemma nfree_set a f f' : 0 <= a < sb_size g -> bit f a = false -> (forall c, 0 <= c < sb_size g -> bit f' c = (a =? c) || bit f c) -> nfree f' = nfree f - 1.
Proof.
  intros Ha Hf Hb. unfold nfree. rewrite (filter_drop_one (fun b => bit f b = false) (fun b => bit f' b = false) a); [lia|apply NoDup_seqZ| |done|].
  - apply elem_of_seqZ. lia.
  - intros c Hc%elem_of_seqZ. rewrite Hb by lia. rewrite orb_false_iff, Z.eqb_neq. intuition.
Qed.

Lemma nfree_same f f' : (forall c, 0 <= c < sb_size g -> bit f' c = bit f c) -> nfree f' = nfree f.
Proof.
  intros Hb. unfold nfree. f_equal. assert (HE : forall c, c ∈ seqZ 0 (sb_size g) -> bit f' c = bit f c) by (intros c Hc%elem_of_seqZ; apply Hb; lia). clear Hb.
  induction (seqZ 0 (sb_size g)) as [|c l IH]; [done|]. rewrite !filter_cons, HE by (by left). specialize (IH (fun c Hc => HE c (list_elem_of_further _ _ _ Hc))).
  destruct (decide _); cbn; by rewrite IH.
Qed.
End Bitmap.
