(* ===== verification/FsMap.v ===== *)
(** The block map of an inode (bmap of fs.c). *)

From Stdlib Require Import ZArith Lia.
From stdpp Require Import base gmap strings numbers list.
From S2P Require Import Prelude Kstring Bio Log Fs FsBlock FsBitmap.

Open Scope Z_scope.
Open Scope kern_scope.

(** The places where an inode keeps block numbers: 12 direct ones, the
    indirect block, and the 128 words of that block. *)
Definition slot (f : Z -> list Z) (ad : list Z) (k : Z) : Z :=
  if k <? 13 then aget 0 ad k else if aget 0 ad 12 =? 0 then 0 else le32 (f (aget 0 ad 12)) (4 * (k - 13)).

(** The slot of block n of the file. *)
Definition fidx (n : Z) : Z := if n <? 12 then n else n + 1.

(** Block n of the file; a block that is not allocated reads as zeros. *)
Definition fblock (f : Z -> list Z) (ad : list Z) (n : Z) : list Z :=
  let a := slot f ad (fidx n) in if a =? 0 then repeat 0 512 else f a.

Definition is_slot (k : Z) : Prop := 0 <= k < 141.

Lemma fidx_slot n : 0 <= n < 140 -> is_slot (fidx n) /\ fidx n <> 12.
Proof. unfold is_slot, fidx. intros Hn. destruct (Z.ltb_spec n 12); lia. Qed.

Lemma fidx_inj n m : fidx n = fidx m -> n = m.
Proof. unfold fidx. destruct (Z.ltb_spec n 12), (Z.ltb_spec m 12); lia. Qed.

Lemma le32_zeros k : 0 <= k -> le32 (repeat 0 512) k = 0.
Proof.
  intros Hk. unfold le32. by rewrite !aget_zeros.
Qed.

Section Map.
Context {B : Type} `{BlockLaws B}.
Context (g : superblock) (G : geom_ok g).

Abbreviation bit := (bit g).
Abbreviation datastart := (datastart g).
Implicit Types f : Z -> list Z.

(** The blocks of the inode are allocated, and no two slots have the same. *)
Record layout f (ad : list Z) : Prop := {
  lay_len : length ad = 13%nat;
  lay_data : forall k, is_slot k -> slot f ad k <> 0 -> datastart <= slot f ad k < sb_size g /\ bit f (slot f ad k) = true;
  lay_inj : forall j k, is_slot j -> is_slot k -> slot f ad j <> 0 -> slot f ad j = slot f ad k -> j = k;
}.

(** Blocks have been added to the inode. *)
Record extends f (ad : list Z) f' (ad' : list Z) : Prop := {
  ex_lay : layout f' ad';
  ex_meta : meta_used g f -> meta_used g f';
  ex_blk : forall n, 0 <= n < 140 -> fblock f' ad' n = fblock f ad n;
  ex_frame : forall x, datastart <= x < sb_size g -> bit f x = true -> (forall k, is_slot k -> slot f ad k <> x) -> f' x = f x;
  ex_low : forall x, x < sb_bmapstart g -> f' x = f x;
  ex_bits : forall c, 0 <= c < sb_size g -> bit f c = true -> bit f' c = true;
  ex_keep : forall k, is_slot k -> slot f ad k <> 0 -> slot f' ad' k = slot f ad k;
  ex_new : forall k, is_slot k -> slot f ad k = 0 -> slot f' ad' k = 0 \/ bit f (slot f' ad' k) = false;
}.

Lemma extends_refl f ad : layout f ad -> extends f ad f ad.
Proof. intros HL. constructor; auto. Qed.

Lemma extends_trans f ad f1 ad1 f2 ad2 : layout f ad -> extends f ad f1 ad1 -> extends f1 ad1 f2 ad2 -> extends f ad f2 ad2.
Proof.
  intros HL [A1 A2 A3 A4 A5 A6 A7 A8] [B1 B2 B3 B4 B5 B6 B7 B8]. constructor; auto.
  - intros n Hn. by rewrite B3, A3.
  - intros x Hx Hb Hs. rewrite <- (A4 x) by done. apply B4; [done|apply A6; [pose proof (datastart_pos g G); lia|done]|]. intros k Hk E.
    destruct (decide (slot f ad k = 0)) as [E0|E0]; [|rewrite A7 in E by done; by apply (Hs k)].
    destruct (A8 k Hk E0) as [E1|E1]; [pose proof (datastart_pos g G); lia|]. rewrite E in E1. congruence.
  - intros x Hx. by rewrite B5, A5.
  - intros k Hk Hn. rewrite B7; [by apply A7|done|]. by rewrite A7.
  - intros k Hk E. destruct (decide (slot f1 ad1 k = 0)) as [E1|E1].
    + destruct (B8 k Hk E1) as [?|E2]; [by left|]. right. destruct (bit f (slot f2 ad2 k)) eqn:Eb; [|done].
      destruct (decide (slot f2 ad2 k = 0)) as [E3|E3]; [|destruct (lay_data _ _ B1 k Hk E3) as [? _]; pose proof (datastart_pos g G); rewrite A6 in E2; [done|lia|done]].
      rewrite E3 in *. destruct (decide (0 < sb_size g)); [rewrite A6 in E2; [done|lia|done]|]. destruct G as [G1 _ _ _ _]. lia.
    + rewrite B7 by done. by apply A8.
Qed.

(** One block [a], free before, is put into slot [k]; [ind] is the indirect
    block when that is where the slot is. *)
Record grows f (ad : list Z) (k a : Z) f' (ad' : list Z) : Prop := {
  gr_len : length ad' = 13%nat;
  gr_slot : forall j, is_slot j -> slot f' ad' j = if j =? k then a else slot f ad j;
  gr_bits : forall c, 0 <= c < sb_size g -> bit f' c = (a =? c) || bit f c;
  gr_zero : f' a = repeat 0 512;
  gr_data : forall x, datastart <= x -> x <> a -> x <> slot f ad 12 -> f' x = f x;
  gr_low : forall x, x < sb_bmapstart g -> f' x = f x;
}.

Lemma grows_extends f ad k a f' ad' : layout f ad -> datastart <= a < sb_size g -> bit f a = false -> is_slot k -> slot f ad k = 0 ->
  grows f ad k a f' ad' -> extends f ad f' ad'.
Proof.
  intros HL Ha Hf Hk Hs [R1 R2 R3 R4 R5 R6]. pose proof (datastart_pos g G) as Hp. pose proof HL as [L1 L2 L3].
  assert (Hold : forall j, is_slot j -> slot f ad j <> 0 -> slot f ad j <> a) by (intros j Hj Hn E; destruct (L2 j Hj Hn) as [_ E2]; rewrite E in E2; congruence).
  constructor.
  - constructor; [done| |].
    + intros j Hj. rewrite R2 by done. destruct (Z.eqb_spec j k) as [->|Hjk].
      * intros _. split; [done|]. rewrite R3 by lia. by rewrite Z.eqb_refl.
      * intros Hn. destruct (L2 j Hj Hn) as [? E]. split; [done|]. rewrite R3, E by lia. apply orb_true_r.
    + intros i j Hi Hj. rewrite !R2 by done. destruct (Z.eqb_spec i k) as [->|Hik], (Z.eqb_spec j k) as [->|Hjk]; [done| | |by apply L3].
      * intros _ E. exfalso. by apply (Hold j); [|lia|].
      * intros Hn E. exfalso. by apply (Hold i).
  - intros HM b Hb. destruct G as [_ _ _ _ G5]. rewrite R3 by lia. rewrite HM by done. apply orb_true_r.
  - intros n Hn. destruct (fidx_slot n Hn) as [Hi Hi12]. unfold fblock. rewrite R2 by done. destruct (Z.eqb_spec (fidx n) k) as [->|Hne].
    + rewrite Hs. replace (a =? 0) with false by lia. exact R4.
    + destruct (Z.eqb_spec (slot f ad (fidx n)) 0) as [E|E]; [done|]. destruct (L2 _ Hi E) as [? _]. apply R5; [lia|by apply Hold|]. intros E2. apply Hi12. apply L3; [done|by unfold is_slot|done|done].
  - intros x Hx Hb Hns. apply R5; [lia|intros ->; congruence|]. intros ->. by apply (Hns 12).
  - exact R6.
  - intros c Hc Hb. rewrite R3, Hb by done. apply orb_true_r.
  - intros j Hj Hn. rewrite R2 by done. destruct (Z.eqb_spec j k) as [->|]; [done|done].
  - intros j Hj E. rewrite R2 by done. destruct (Z.eqb_spec j k) as [->|]; [by right|by left].
Qed.

Lemma grows_direct f ad k a : layout f ad -> 0 <= k < 13 -> aget 0 ad k = 0 -> datastart <= a < sb_size g -> bit f a = false ->
  length (f (BBLOCK a g)) = 512%nat -> grows f ad k a (alloc_vb g a f) (aset ad k a).
Proof.
  intros HL Hk Hz Ha Hf HB. pose proof (datastart_pos g G) as Hp. pose proof HL as [L1 L2 L3]. constructor.
  - by rewrite length_aset.
  - intros j Hj. unfold is_slot in Hj. unfold slot. rewrite !aget_aset by (rewrite L1; lia). destruct (Z.ltb_spec j 13).
    + rewrite (Z.eqb_sym k j). by destruct (j =? k).
    + replace (j =? k) with false by lia. destruct (Z.eqb_spec k 12) as [->|Hk12].
      * rewrite Hz. replace (a =? 0) with false by lia. rewrite alloc_zero. cbn [Z.eqb]. apply le32_zeros. lia.
      * destruct (Z.eqb_spec (aget 0 ad 12) 0); [done|]. assert (H12 : is_slot 12) by (unfold is_slot; lia). destruct (L2 12 H12) as [? E]; [done|]. change (slot f ad 12) with (aget 0 ad 12) in *.
        rewrite alloc_other; [done|done|lia|intros E2; rewrite E2 in E; congruence|lia].
  - intros c Hc. by apply alloc_bit.
  - apply alloc_zero.
  - intros x Hx Hxa _. apply alloc_other; [done|lia|done|lia].
  - intros x Hx. pose proof (bblock_range g G a ltac:(lia)). apply alloc_other; [done|lia|lia|lia].
Qed.

Lemma grows_entry f ad j a (ind := aget 0 ad 12) : layout f ad -> 0 <= j < 128 -> ind <> 0 -> le32 (f ind) (4 * j) = 0 -> datastart <= a < sb_size g -> bit f a = false ->
  length (f (BBLOCK a g)) = 512%nat -> length (f ind) = 512%nat ->
  grows f ad (13 + j) a (vput ind (put32 (alloc_vb g a f ind) (4 * j) a) (alloc_vb g a f)) ad.
Proof.
  intros HL Hj Hi Hz Ha Hf HB HI. pose proof (datastart_pos g G) as Hp. pose proof HL as [L1 L2 L3]. assert (H12 : is_slot 12) by (unfold is_slot; lia).
  destruct (L2 12 H12) as [Hr Hb]; [done|]. change (slot f ad 12) with ind in *. assert (Hia : ind <> a) by (intros E; rewrite E in Hb; congruence).
  rewrite (alloc_other g G a ind f) by lia. destruct G as [G1 G2 G3 G4 G5]. constructor.
  - done.
  - intros k Hk. unfold is_slot in Hk. unfold slot. fold ind. destruct (Z.ltb_spec k 13); [by replace (k =? 13 + j) with false by lia|]. replace (ind =? 0) with false by lia.
    unfold vput at 1. rewrite Z.eqb_refl. destruct (Z.eqb_spec k (13 + j)) as [->|Hne].
    + replace (13 + j - 13) with j by lia. rewrite le32_put32_eq by lia. apply u32_small. lia.
    + apply le32_put32_ne; lia.
  - intros c Hc. rewrite <- (alloc_bit g G a c f) by done. unfold FsBitmap.bit. unfold vput at 1. pose proof (bblock_range g G c Hc). by replace (BBLOCK c g =? ind) with false by lia.
  - unfold vput at 1. replace (a =? ind) with false by lia. apply alloc_zero.
  - intros x Hx Hxa Hxi. change (slot f ad 12) with ind in Hxi. unfold vput at 1. replace (x =? ind) with false by lia. apply alloc_other; [done|lia|done|lia].
  - intros x Hx. pose proof (bblock_range g G a ltac:(lia)). unfold vput at 1. replace (x =? ind) with false by lia. apply alloc_other; [done|lia|lia|lia].
Qed.

(** ** bmap() *)

Lemma at_len v (s : @fs B) ic' x : At ic' g v s -> 0 <= x < nblk -> length (vb v x) = 512%nat.
Proof. intros HA Hx. by apply (law_len (blk s)); [apply HA|]. Qed.

(** The end of bmap() for a block behind the indirect block. *)
Lemma wp_bmap_entry ic i j v (s : @fs B) (Q : Z -> @fs B -> Prop) (f := vb v) (ad := iaddrs i) (ind := aget 0 ad 12) : At ic g v s -> vh v = [] -> layout f ad -> meta_used g f -> 0 <= j < 128 -> ind <> 0 ->
  room 5 v -> 0 < nfree g f ->
  (forall a f' l' s', extends f ad f' ad -> slot f' ad (13 + j) = a -> a <> 0 -> (forall k, is_slot k -> k <> 13 + j -> slot f' ad k = slot f ad k) ->
     (length l' <= length (vl v) + 3)%nat -> nfree g f - 1 <= nfree g f' -> At ic g (mk_view f' [] l') s' -> Q a s') ->
  wp (let! bp := bread 1 ind in
      let! d := bdata bp in
      let! addr :=
        (let addr := le32 d (4 * j) in
         if addr =? 0 then
           let! addr := balloc 1 in
           let! d := bdata bp in
           bset bp (put32 d (4 * j) addr) ;;;
           log_write bp ;;;
           ret addr
         else ret addr) in
      brelse bp ;;;
      ret addr) s Q.
Proof.
  intros HA Hh HL HM Hj Hind [R1 R2] Hn HQ. assert (H12 : is_slot 12) by (unfold is_slot; lia). destruct (lay_data _ _ HL 12 H12) as [Hr Hb]; [done|]. change (slot _ _ 12) with ind in Hr, Hb.
  pose proof (datastart_pos g G) as Hp. destruct (g_size _ G) as [G1 G2]. pose proof (g_nblk _ G) as G3.
  apply wp_bind. eapply wp_fbread; [exact HA|lia|rewrite Hh; by intros ? ?%not_elem_of_nil|lia|]. rewrite Hh in R2 |- *. cbn in R2. intros bp s1 A1.
  apply wp_bind. eapply wp_fdata; [exact A1|reflexivity|]. cbn [vb]. fold f. cbn zeta. apply wp_bind.
  assert (Es : slot f ad (13 + j) = le32 (f ind) (4 * j)) by (unfold slot; replace (13 + j <? 13) with false by lia; fold ind; replace (ind =? 0) with false by lia; do 2 f_equal; lia).
  destruct (Z.eqb_spec (le32 (f ind) (4 * j)) 0) as [Hz|Hz].
  2: { apply wp_ret, wp_bind. eapply wp_fbrelse; [exact A1|reflexivity|]. cbn [vb vl]. intros s2 A2. apply wp_ret. eapply (HQ _ f); [by apply extends_refl|done|done|done| |lia|exact A2]. lia. }
  apply wp_bind. eapply (wp_balloc g G ic); [exact A1|exact HM| |split; cbn; lia|by apply nfree_some|]; cbn [vb vh vl].
  { intros h Hh'. cbn [vh vb] in *. apply list_elem_of_singleton in Hh' as ->. done. }
  intros a s2 Ha Hfa _ A2. unfold alloc_view in A2. cbn [vb vh vl] in A2. fold f in A2.
  assert (HB : length (f (BBLOCK a g)) = 512%nat) by (eapply at_len; [exact HA|]; apply bblock_disk; [done|lia]). assert (HI : length (f ind) = 512%nat) by (eapply at_len; [exact HA|lia]).
  pose proof (grows_entry f ad j a HL Hj Hind Hz Ha Hfa HB HI) as HG. fold ind in HG.
  assert (HE : extends f ad (vput ind (put32 (alloc_vb g a f ind) (4 * j) a) (alloc_vb g a f)) ad) by (eapply (grows_extends f ad (13 + j) a); [done|done|done|unfold is_slot; lia|congruence|done]).
  pose proof (vlog_length (BBLOCK a g) (vl v)) as V1. pose proof (vlog_length a (vlog (BBLOCK a g) (vl v))) as V2. pose proof (vlog_length ind (vlog a (vlog (BBLOCK a g) (vl v)))) as V3.
  apply wp_bind. eapply wp_fdata; [exact A2|reflexivity|]. cbn [vb]. pose proof (datastart_first g G). eapply (wp_flog _ _ _ _ A2 bp ind []); [reflexivity|lia| |cbn; lia|].
  { rewrite length_put32. apply (at_len _ _ _ ind A2). lia. }
  cbn [vb vh vl]. intros s3 A3. apply wp_ret, wp_bind. eapply wp_fbrelse; [exact A3|reflexivity|]. cbn [vb vl]. intros s4 A4. apply wp_ret.
  eapply (HQ a); [exact HE| |lia| | | |exact A4].
  - rewrite (gr_slot _ _ _ _ _ _ HG) by (unfold is_slot; lia). by rewrite Z.eqb_refl.
  - intros k Hk Hne. rewrite (gr_slot _ _ _ _ _ _ HG) by done. by replace (k =? 13 + j) with false by lia.
  - lia.
  - rewrite (nfree_set g a f _ ltac:(lia) Hfa (gr_bits _ _ _ _ _ _ HG)). lia.
Qed.

Section Ops.
Context (ip : Z) (ic : list inode) (Hip : 0 <= ip < Z.of_nat (length ic)) (i : inode) (Hi : aget no_inode ic ip = i) (Hdev : idev i = 1).
Abbreviation fs := (@fs B).
Implicit Types s : fs.

(** The block is allocated: nothing changes. *)
Lemma wp_bmap_hit bn v s (Q : Z -> fs -> Prop) (a := slot (vb v) (iaddrs i) (fidx bn)) : At ic g v s -> vh v = [] -> layout (vb v) (iaddrs i) -> 0 <= bn < 140 -> room 1 v ->
  a <> 0 -> (forall s', At ic g v s' -> Q a s') -> wp (bmap ip bn) s Q.
Proof.
  intros HA Hh HL Hbn [R1 R2] Ha HQ. unfold bmap. apply wp_bind. eapply wp_figet; [exact HA|]. rewrite Hi. unfold id, NDIRECT, NINDIRECT, BSIZE. change (512 / 4) with 128.
  unfold a, fidx, slot in Ha, HQ. destruct (Z.ltb_spec bn 12).
  - replace (bn <? 13) with true in * by lia. replace (_ =? 0) with false by lia. apply wp_ret. by apply HQ.
  - replace (bn + 1 <? 13) with false in * by lia. replace (bn - 12 <? 128) with true by lia. destruct (Z.eqb_spec (aget 0 (iaddrs i) 12) 0) as [|Hn]; [done|].
    apply wp_bind, wp_ret. assert (H12 : is_slot 12) by (unfold is_slot; lia). destruct (lay_data _ _ HL 12 H12) as [Hr _]; [done|]. change (slot _ _ 12) with (aget 0 (iaddrs i) 12) in Hr.
    pose proof (datastart_pos g G). destruct (g_size _ G). rewrite Hdev. apply wp_bind. eapply wp_fbread; [exact HA|lia|rewrite Hh; by intros ? ?%not_elem_of_nil|lia|]. intros bp s1 A1.
    apply wp_bind. eapply wp_fdata; [exact A1|reflexivity|]. cbn [vb]. replace (4 * (bn + 1 - 13)) with (4 * (bn - 12)) in * by lia. replace (_ =? 0) with false by lia.
    apply wp_bind, wp_ret, wp_bind. eapply wp_fbrelse; [exact A1|reflexivity|]. cbn [vb vl]. intros s2 A2. apply wp_ret, HQ. by destruct v.
Qed.

(** A direct block, or the indirect block, is added. *)
Lemma wp_alloc_slot k v s (Q : Z -> fs -> Prop) (f := vb v) (ad := iaddrs i) : At ic g v s -> vh v = [] -> layout f ad -> meta_used g f -> 0 <= k < 13 -> room 3 v -> 0 < nfree g f -> aget 0 ad k = 0 ->
  (forall a l' s', datastart <= a -> grows f ad k a (alloc_vb g a f) (aset ad k a) -> extends f ad (alloc_vb g a f) (aset ad k a) -> (length l' <= length (vl v) + 2)%nat ->
     nfree g (alloc_vb g a f) = nfree g f - 1 -> At (aset ic ip (set_iaddrs (aset ad k a) i)) g (mk_view (alloc_vb g a f) [] l') s' -> Q a s') ->
  wp (let! addr := balloc (idev i) in iset ip (fun i => set_iaddrs (aset (iaddrs i) k addr) i) ;;; ret addr) s Q.
Proof.
  intros HA Hh HL HM Hk HR Hn Hz HQ. rewrite Hdev. apply wp_bind. eapply (wp_balloc g G ic v); [exact HA|exact HM|unfold held_ok; rewrite Hh; by intros ? ?%not_elem_of_nil|exact HR|by apply nfree_some|].
  intros a s1 Ha Hf _ A1. pose proof (datastart_pos g G). assert (HB : length (f (BBLOCK a g)) = 512%nat) by (eapply at_len; [exact HA|]; apply bblock_disk; [done|lia]).
  pose proof (grows_direct f ad k a HL Hk Hz Ha Hf HB) as HG. assert (HE : extends f ad (alloc_vb g a f) (aset ad k a)).
  { eapply (grows_extends f ad k a); [done|done|done|unfold is_slot; lia| |done]. unfold slot. by replace (k <? 13) with true by lia. }
  apply wp_bind. eapply wp_fiset; [exact A1|]. rewrite Hi. intros s2 A2. apply wp_ret. unfold alloc_view in A2. rewrite Hh in A2. eapply HQ; [lia|done|done| |apply (nfree_set g a f); [lia|done|apply HG]|exact A2].
  pose proof (vlog_length (BBLOCK a g) (vl v)). pose proof (vlog_length a (vlog (BBLOCK a g) (vl v))). lia.
Qed.

(** bmap(): the block's number, allocated if it was not. *)
Lemma wp_bmap bn v s (Q : Z -> fs -> Prop) (f := vb v) (ad := iaddrs i) : At ic g v s -> vh v = [] -> layout f ad -> meta_used g f -> 0 <= bn < 140 -> room 8 v -> 2 <= nfree g f ->
  (forall a f' ad' l' s', extends f ad f' ad' -> slot f' ad' (fidx bn) = a -> a <> 0 -> (forall n, 0 <= n < 140 -> n <> bn -> slot f' ad' (fidx n) = slot f ad (fidx n)) ->
     (length l' <= length (vl v) + 5)%nat -> nfree g f - 2 <= nfree g f' -> At (aset ic ip (set_iaddrs ad' i)) g (mk_view f' [] l') s' -> Q a s') ->
  wp (bmap ip bn) s Q.
Proof.
  intros HA Hh HL HM Hbn [R1 R2] Hn HQ. assert (Eic : aset ic ip (set_iaddrs ad i) = ic) by (unfold ad; replace (set_iaddrs (iaddrs i) i) with i by (by destruct i); rewrite <- Hi; by apply aset_self).
  assert (HOther : forall n k, 0 <= n < 140 -> k = fidx bn \/ k = 12 -> n <> bn -> fidx n <> k).
  { intros n k Hn' [->| ->] Hne; [by intros ?%fidx_inj|by apply fidx_slot]. }
  unfold bmap. apply wp_bind. eapply wp_figet; [exact HA|]. rewrite Hi. unfold id, NDIRECT, NINDIRECT, BSIZE. change (512 / 4) with 128. rewrite Hh in R2. cbn in R2.
  destruct (Z.ltb_spec bn 12) as [Hlt|Hge].
  - assert (Es : slot f ad (fidx bn) = aget 0 ad bn) by (unfold fidx, slot; replace (bn <? 12) with true by lia; by replace (bn <? 13) with true by lia).
    assert (Ef : fidx bn = bn) by (unfold fidx; by replace (bn <? 12) with true by lia). cbn zeta. fold ad. destruct (Z.eqb_spec (aget 0 ad bn) 0) as [Hz|Hz].
    + eapply (wp_alloc_slot bn v s); [exact HA|done|done|done|lia|split; rewrite ?Hh; cbn; lia|fold f; lia|done|]. intros a l' s' Hda HG HE Hl' Hnf A'.
      eapply (HQ a (alloc_vb g a f) (aset ad bn a) l'); [exact HE| |pose proof (datastart_pos g G); lia| |lia|fold f in Hnf; lia|exact A'].
      * rewrite (gr_slot _ _ _ _ _ _ HG), Ef, Z.eqb_refl; [done|rewrite Ef; unfold is_slot; lia].
      * intros n Hn' Hne. rewrite (gr_slot _ _ _ _ _ _ HG) by (by apply fidx_slot). by replace (fidx n =? bn) with false by (symmetry; apply Z.eqb_neq; rewrite <- Ef; apply HOther; auto).
    + apply wp_ret. eapply (HQ _ f ad (vl v)); [by apply extends_refl|done|done|done|lia|lia|]. rewrite Eic. by destruct v; cbn in Hh; subst.
  - replace (bn - 12 <? 128) with true by lia. assert (Ef : fidx bn = 13 + (bn - 12)) by (unfold fidx; replace (bn <? 12) with false by lia; lia). cbn zeta. fold ad.
    destruct (Z.eqb_spec (aget 0 ad 12) 0) as [Hz|Hz].
    + apply wp_bind. eapply (wp_alloc_slot 12 v s); [exact HA|done|done|done|lia|split; rewrite ?Hh; cbn; lia|fold f; lia|done|]. fold f ad. intros a l' s1 Hda HG HE Hl' Hnf A1.
      set (i1 := set_iaddrs (aset ad 12 a) i) in *. assert (E12 : aget 0 (iaddrs i1) 12 = a) by (change (iaddrs i1) with (aset ad 12 a); apply aget_aset_eq; rewrite (lay_len _ _ HL); lia). pose proof (datastart_pos g G).
      rewrite Hdev. rewrite <- E12 at 1. eapply (wp_bmap_entry (aset ic ip i1) i1 (bn - 12)); [exact A1|done|exact (ex_lay _ _ _ _ HE)|apply HE, HM|lia|lia|split; cbn; lia|cbn [vb]; lia|].
      cbn [vb vl]. intros a' f' l2 s2 HE2 Es2 Ha' Hk Hl2 Hn2 A2. eapply (HQ a' f' (iaddrs i1) l2); [by eapply extends_trans|by rewrite Ef|done| |lia|lia|].
      * intros n Hn' Hne. rewrite Hk; [|by apply fidx_slot|rewrite <- Ef; apply HOther; auto]. change (iaddrs i1) with (aset ad 12 a). rewrite (gr_slot _ _ _ _ _ _ HG) by (by apply fidx_slot).
        by replace (fidx n =? 12) with false by (symmetry; apply Z.eqb_neq, fidx_slot; done).
      * exact A2.
    + apply wp_bind, wp_ret. rewrite Hdev. eapply (wp_bmap_entry ic i (bn - 12)); [exact HA|done|exact HL|exact HM|lia|exact Hz|split; rewrite ?Hh; cbn; lia|fold f; lia|].
      fold f ad. intros a' f' l2 s2 HE2 Es2 Ha' Hk Hl2 Hn2 A2. eapply (HQ a' f' ad l2); [done|by rewrite Ef|done| |lia|lia|by rewrite Eic].
      intros n Hn' Hne. apply Hk; [by apply fidx_slot|]. rewrite <- Ef. apply HOther; auto.
Qed.
End Ops.
End Map.
