(* ===== verification/FsFile.v ===== *)
(** Reading and writing files (readi, writei, iupdate of fs.c). *)

From Stdlib Require Import ZArith Lia.
From stdpp Require Import base gmap strings numbers list.
From S2P Require Import Prelude Kstring Bio Log Fs FsBlock FsBitmap FsMap.

Open Scope Z_scope.
Open Scope kern_scope.

(** ** Pieces of byte arrays *)

Lemma aget_take_drop (d : list Z) o m k : 0 <= o -> 0 <= k < m -> aget 0 (slice d o m) k = aget 0 d (o + k).
Proof.
  intros Ho Hk. unfold slice, aget. replace (k <? 0) with false by lia. replace (o + k <? 0) with false by lia.
  rewrite !nth_lookup, lookup_take_lt, lookup_drop by lia. do 2 f_equal. lia.
Qed.

Lemma slice_length (d : list Z) o m : 0 <= o -> 0 <= m -> o + m <= Z.of_nat (length d) -> length (slice d o m) = Z.to_nat m.
Proof. intros Ho Hm Hl. unfold slice. rewrite length_take, length_drop. lia. Qed.

Lemma splice_length d o v : 0 <= o -> o + Z.of_nat (length v) <= Z.of_nat (length d) -> length (splice d o v) = length d.
Proof. intros Ho Hl. unfold splice. rewrite !length_app, length_take, length_drop. lia. Qed.

Lemma aget_splice d o v k : 0 <= o -> o + Z.of_nat (length v) <= Z.of_nat (length d) ->
  aget 0 (splice d o v) k = if (o <=? k) && (k <? o + Z.of_nat (length v)) then aget 0 v (k - o) else aget 0 d k.
Proof.
  intros Ho Hl. destruct (Z.ltb_spec k 0) as [Hk|Hk]; [replace (o <=? k) with false by lia; unfold aget; by replace (k <? 0) with true by lia|].
  unfold splice. rewrite aget_app by done. rewrite length_take. replace (Z.of_nat (Z.to_nat o `min` length d)) with o by lia. destruct (Z.ltb_spec k o).
  - replace (o <=? k) with false by lia. cbn [andb]. unfold aget. replace (k <? 0) with false by lia. rewrite !nth_lookup, lookup_take_lt by lia. done.
  - replace (o <=? k) with true by lia. cbn [andb]. rewrite aget_app by lia. replace (k - o <? Z.of_nat (length v)) with (k <? o + Z.of_nat (length v)) by lia.
    destruct (Z.ltb_spec k (o + Z.of_nat (length v))); [done|]. unfold aget. replace (k - o - Z.of_nat (length v) <? 0) with false by lia. replace (k <? 0) with false by lia.
    rewrite !nth_lookup, lookup_drop. do 2 f_equal. lia.
Qed.

Lemma slice_app (d : list Z) o a b : 0 <= o -> 0 <= a -> 0 <= b -> slice d o (a + b) = slice d o a ++ slice d (o + a) b.
Proof.
  intros Ho Ha Hb. unfold slice. rewrite Z2Nat.inj_add, (Z2Nat.inj_add o) by lia. rewrite <- drop_drop. by rewrite take_take_drop.
Qed.

(** Two byte arrays are equal when they have the same bytes. *)
Lemma bytes_ext (l l' : list Z) : length l = length l' -> (forall k, 0 <= k < Z.of_nat (length l) -> aget 0 l k = aget 0 l' k) -> l = l'.
Proof. apply aget_ext. Qed.

Section Bytes.
Context (f : Z -> list Z) (ad : list Z).

(** Byte o of the file, and n bytes from off on. *)
Definition fbyte (o : Z) : Z := aget 0 (fblock f ad (o / 512)) (o mod 512).
Definition fbytes (off : Z) (n : nat) : list Z := map (fun j => fbyte (off + Z.of_nat j)) (seq 0 n).

Lemma fbytes_length off n : length (fbytes off n) = n.
Proof. unfold fbytes. by rewrite length_map, length_seq. Qed.

Lemma aget_fbytes off n k : 0 <= k < Z.of_nat n -> aget 0 (fbytes off n) k = fbyte (off + k).
Proof.
  intros Hk. unfold aget, fbytes. replace (k <? 0) with false by lia. rewrite (nth_indep _ 0 (fbyte (off + Z.of_nat 0))) by (rewrite length_map, length_seq; lia).
  rewrite (map_nth (fun j => fbyte (off + Z.of_nat j)) (seq 0 n) 0%nat). rewrite seq_nth by lia. f_equal. lia.
Qed.

Lemma fbytes_app off n m : fbytes off (n + m) = fbytes off n ++ fbytes (off + Z.of_nat n) m.
Proof.
  apply bytes_ext; [by rewrite length_app, !fbytes_length|]. intros k Hk. rewrite fbytes_length in Hk. rewrite aget_fbytes, aget_app, fbytes_length by lia.
  destruct (Z.ltb_spec k (Z.of_nat n)); rewrite aget_fbytes by lia; [done|]. f_equal. lia.
Qed.

(** The part of a block that readi() copies. *)
Lemma slice_fbytes off m : 0 <= m -> off mod 512 + m <= 512 -> length (fblock f ad (off / 512)) = 512%nat ->
  slice (fblock f ad (off / 512)) (off mod 512) m = fbytes off (Z.to_nat m).
Proof.
  intros Hm Hr HL. apply bytes_ext; [rewrite slice_length, fbytes_length; [done|zdm|done|rewrite HL; lia]|].
  rewrite slice_length by (rewrite ?HL; zdm). intros k Hk. rewrite aget_take_drop, aget_fbytes by zdm. unfold fbyte.
  replace ((off + k) / 512) with (off / 512) by zdm. f_equal. zdm.
Qed.
End Bytes.

(** ** dinodes on disk *)

Definition word_ok (x : Z) : Prop := 0 <= x < 4294967296.
Definition short_ok (x : Z) : Prop := -32768 <= x < 32768.
Definition dinode_ok (x : dinode) : Prop :=
  short_ok (dtype x) /\ short_ok (dmajor x) /\ short_ok (dminor x) /\ short_ok (dnlink x) /\ word_ok (dsize x) /\ length (daddrs x) = 13%nat /\ Forall word_ok (daddrs x).

Lemma length_put_words ws : forall l off, length (put_words l off ws) = length l.
Proof. induction ws as [|w ws IH]; intros l off; [done|]. cbn. by rewrite IH, length_put32. Qed.

Lemma aget_put_words ws : forall l off j, 0 <= off -> off + 4 * Z.of_nat (length ws) <= Z.of_nat (length l) -> j < off \/ off + 4 * Z.of_nat (length ws) <= j ->
  aget 0 (put_words l off ws) j = aget 0 l j.
Proof.
  induction ws as [|w ws IH]; intros l off j H1 H2 H3; [done|]. cbn [put_words length] in *. rewrite IH by (rewrite ?length_put32; lia). by rewrite aget_put32 by lia.
Qed.

Lemma le32_put_words ws : forall l off k, 0 <= off -> off + 4 * Z.of_nat (length ws) <= Z.of_nat (length l) -> (k < length ws)%nat ->
  le32 (put_words l off ws) (off + 4 * Z.of_nat k) = u32 (nth k ws 0).
Proof.
  induction ws as [|w ws IH]; intros l off k H1 H2 Hk; [cbn in Hk; lia|]. cbn [put_words length] in *. destruct k as [|k].
  - rewrite Z.mul_0_r, Z.add_0_r. unfold le32. rewrite !aget_put_words by (rewrite ?length_put32; lia). fold (le32 (put32 l off w) off). rewrite le32_put32_eq by lia. done.
  - replace (off + 4 * Z.of_nat (S k)) with (off + 4 + 4 * Z.of_nat k) by lia. rewrite IH by (rewrite ?length_put32; lia). done.
Qed.

Lemma get_words_put ws l off : 0 <= off -> off + 4 * Z.of_nat (length ws) <= Z.of_nat (length l) -> Forall word_ok ws -> get_words (put_words l off ws) off (length ws) = ws.
Proof.
  intros H1 H2 HW. unfold get_words. apply nth_ext with 0 0; [by rewrite length_map, length_seq|]. intros n Hn. rewrite length_map, length_seq in Hn.
  rewrite (nth_indep _ 0 (le32 (put_words l off ws) (off + 4 * Z.of_nat 0))) by (by rewrite length_map, length_seq).
  rewrite (map_nth (fun k => le32 (put_words l off ws) (off + 4 * Z.of_nat k)) (seq 0 (length ws)) 0%nat). rewrite seq_nth, Nat.add_0_l, le32_put_words by done.
  apply u32_small. rewrite Forall_forall in HW. apply HW. rewrite nth_lookup. destruct (lookup_lt_is_Some_2 ws n Hn) as [x Hx]. rewrite Hx. by eapply list_elem_of_lookup_2.
Qed.

Lemma length_put_dinode d off x : length (put_dinode d off x) = length d.
Proof. unfold put_dinode. by rewrite length_put_words, length_put32, !length_put16. Qed.

Lemma aget_put16 l off v j : j < off \/ off + 2 <= j -> aget 0 (put16 l off v) j = aget 0 l j.
Proof. intros Hj. unfold put16. rewrite !aget_aset_ne by lia. done. Qed.

Lemma aget_put_dinode d off x j : 0 <= off -> off + 64 <= Z.of_nat (length d) -> length (daddrs x) = 13%nat -> j < off \/ off + 64 <= j ->
  aget 0 (put_dinode d off x) j = aget 0 d j.
Proof.
  intros H1 H2 H3 Hj. unfold put_dinode. rewrite aget_put_words by (rewrite ?length_put32, ?length_put16, ?H3; lia). rewrite aget_put32 by (rewrite ?length_put16; lia).
  by rewrite !aget_put16 by lia.
Qed.

Lemma i16_u16 v : short_ok v -> i16 (u16 v) = v.
Proof. unfold short_ok, i16, u16. intros Hv. zdm. Qed.

Lemma get_put_dinode d off x : 0 <= off -> off + 64 <= Z.of_nat (length d) -> dinode_ok x -> get_dinode (put_dinode d off x) off = x.
Proof.
  intros H1 H2 (D1 & D2 & D3 & D4 & D5 & D6 & D7). unfold get_dinode, put_dinode.
  set (d1 := put16 d off _). set (d2 := put16 d1 _ _). set (d3 := put16 d2 _ _). set (d4 := put16 d3 _ _). set (d5 := put32 d4 _ _).
  assert (L1 : length d1 = length d) by apply length_put16. assert (L2 : length d2 = length d) by (unfold d2; by rewrite length_put16).
  assert (L3 : length d3 = length d) by (unfold d3; by rewrite length_put16). assert (L4 : length d4 = length d) by (unfold d4; by rewrite length_put16).
  assert (L5 : length d5 = length d) by (unfold d5; by rewrite length_put32).
  assert (EW : forall j, j + 4 <= off + 12 -> le32 (put_words d5 (off + 12) (daddrs x)) j = le32 d5 j) by (intros j Hj; unfold le32; rewrite !aget_put_words by (rewrite ?L5, ?D6; lia); done).
  assert (EH : forall j, j + 2 <= off + 8 -> le16 (put_words d5 (off + 12) (daddrs x)) j = le16 d4 j).
  { intros j Hj. unfold le16. rewrite !aget_put_words by (rewrite ?L5, ?D6; lia). unfold d5. rewrite !aget_put32 by (rewrite ?L4; lia). done. }
  rewrite EW, !EH by lia. unfold d5 at 1. rewrite le32_put32_eq by (rewrite ?L4; lia).
  unfold d4 at 1 2 3. rewrite !le16_put16_ne by (rewrite ?L3; lia). unfold d4. rewrite le16_put16_eq by (rewrite ?L3; lia).
  unfold d3 at 1 2. rewrite !le16_put16_ne by (rewrite ?L2; lia). unfold d3. rewrite le16_put16_eq by (rewrite ?L2; lia).
  unfold d2 at 1. rewrite le16_put16_ne by (rewrite ?L1; lia). unfold d2. rewrite le16_put16_eq by (rewrite ?L1; lia). unfold d1. rewrite le16_put16_eq by lia.
  fold d1 d2 d3 d4 d5. rewrite !i16_u16, u32_small by done. rewrite <- D6, get_words_put by (rewrite ?L5, ?D6; (done || lia)). by destruct x.
Qed.

Lemma get_dinode_ext d d' off : (forall j, off <= j < off + 64 -> aget 0 d' j = aget 0 d j) -> get_dinode d' off = get_dinode d off.
Proof.
  intros HE. assert (E16 : forall j, off <= j -> j + 2 <= off + 64 -> le16 d' j = le16 d j) by (intros j H1 H2; unfold le16; by rewrite !HE by lia).
  assert (E32 : forall j, off <= j -> j + 4 <= off + 64 -> le32 d' j = le32 d j) by (intros j H1 H2; unfold le32; by rewrite !HE by lia).
  unfold get_dinode. rewrite !E16, E32 by lia. f_equal. unfold get_words. apply map_ext_in. intros k Hk%in_seq. apply E32; lia.
Qed.

Section File.
Context {B : Type} `{BlockLaws B}.
Context (g : superblock) (G : geom_ok g).

Abbreviation bit := (bit g).
Abbreviation datastart := (datastart g).
Abbreviation layout := (layout g).
Abbreviation fs := (@fs B).
Implicit Types f : Z -> list Z.
Implicit Types s : fs.

(** ** Inodes on disk *)

Definition disk_inode f (n : Z) : dinode := get_dinode (f (IBLOCK n g)) (n mod 8 * 64).

Lemma iblock_eq n : 0 <= n < sb_ninodes g -> IBLOCK n g = n / 8 + sb_inodestart g /\ 2 <= IBLOCK n g < sb_bmapstart g.
Proof.
  intros Hn. destruct G as [G1 G2 G3 G4 G5]. assert (E : IBLOCK n g = n / 8 + sb_inodestart g).
  { unfold IBLOCK, IPB, BSIZE. change (512 / 64) with 8. apply u32_small. unfold FsBitmap.datastart in G5. zdm. }
  split; [done|]. rewrite E. zdm.
Qed.

Lemma iblock_disk n : 0 <= n < sb_ninodes g -> 0 <= IBLOCK n g < nblk.
Proof. intros Hn. destruct (iblock_eq n Hn) as [_ ?]. destruct G as [G1 G2 G3 G4 G5]. unfold FsBitmap.datastart in G5. zdm. Qed.

Lemma iblock_first n : 0 <= n < sb_ninodes g -> lfirst <= IBLOCK n g < nblk.
Proof. intros Hn. destruct (iblock_eq n Hn) as [-> _]. pose proof (iblock_disk n Hn). destruct (iblock_eq n Hn) as [E _]. destruct G as [G1 G2 G3 G4 G5]. zdm. Qed.

(** The disk with the dinode x as inode n. *)
Definition put_inode (n : Z) (x : dinode) f : Z -> list Z := vput (IBLOCK n g) (put_dinode (f (IBLOCK n g)) (n mod 8 * 64) x) f.

Lemma disk_put_inode n m x f : 0 <= n < sb_ninodes g -> 0 <= m < sb_ninodes g -> length (f (IBLOCK n g)) = 512%nat -> dinode_ok x ->
  disk_inode (put_inode n x f) m = if m =? n then x else disk_inode f m.
Proof.
  intros Hn Hm HL Hx. unfold disk_inode, put_inode, vput. destruct (Z.eqb_spec m n) as [->|Hne].
  - rewrite Z.eqb_refl. apply get_put_dinode; [zdm|rewrite HL; zdm|done].
  - destruct (Z.eqb_spec (IBLOCK m g) (IBLOCK n g)) as [E|]; [|done]. rewrite E. destruct (iblock_eq n Hn) as [E1 _], (iblock_eq m Hm) as [E2 _]. rewrite E1, E2 in E.
    apply get_dinode_ext. intros j Hj. destruct Hx as (_ & _ & _ & _ & _ & D6 & _). apply aget_put_dinode; [zdm|rewrite HL; zdm|done|zdm].
Qed.

Lemma wp_iupdate ip ic v s (Q : unit -> fs -> Prop) (i := aget no_inode ic ip) : At ic g v s -> idev i = 1 -> 0 <= inum i < sb_ninodes g -> vh v = [] -> room 1 v ->
  (forall s', At ic g (mk_view (put_inode (inum i) (dinode_of i) (vb v)) [] (vlog (IBLOCK (inum i) g) (vl v))) s' -> Q tt s') -> wp (iupdate ip) s Q.
Proof.
  intros HA Hd Hn Hh [R1 R2] HQ. unfold iupdate. apply wp_bind. eapply wp_fsb; [exact HA|]. apply wp_bind. eapply wp_figet; [exact HA|]. fold i. unfold id. rewrite Hd. pose proof (iblock_disk _ Hn).
  apply wp_bind. eapply wp_fbread; [exact HA|done|rewrite Hh; by intros ? ?%not_elem_of_nil|lia|]. intros b s1 A1. apply wp_bind. eapply wp_fdata; [exact A1|reflexivity|]. cbn [vb].
  rewrite Hh in A1. eapply (wp_put _ _ _ _ A1 b (IBLOCK (inum i) g)); [reflexivity|by apply iblock_first| |cbn; lia|exact HQ]. rewrite length_put_dinode. by apply (law_len (blk s)); [apply HA|].
Qed.

(** ** The effect of writing to a file *)

Record writes f (ad : list Z) (off : Z) (d : list Z) f' (ad' : list Z) : Prop := {
  w_lay : layout f' ad';
  w_meta : meta_used g f -> meta_used g f';
  w_byte : forall o, 0 <= o < 71680 -> fbyte f' ad' o = if (off <=? o) && (o <? off + Z.of_nat (length d)) then aget 0 d (o - off) else fbyte f ad o;
  w_frame : forall x, datastart <= x < sb_size g -> bit f x = true -> (forall k, is_slot k -> slot f ad k <> x) -> f' x = f x;
  w_low : forall x, x < sb_bmapstart g -> f' x = f x;
  w_bits : forall c, 0 <= c < sb_size g -> bit f c = true -> bit f' c = true;
  w_keep : forall k, is_slot k -> slot f ad k <> 0 -> slot f' ad' k = slot f ad k;
  w_new : forall k, is_slot k -> slot f ad k = 0 -> slot f' ad' k = 0 \/ bit f (slot f' ad' k) = false;
  w_full : forall o, 0 <= o < 71680 -> off <= o < off + Z.of_nat (length d) -> slot f' ad' (fidx (o / 512)) <> 0;
  w_same : (forall o, 0 <= o < 71680 -> off <= o < off + Z.of_nat (length d) -> slot f ad (fidx (o / 512)) <> 0) -> ad' = ad;
}.

Lemma fbyte_ext f ad f' ad' o : 0 <= o < 71680 -> fblock f' ad' (o / 512) = fblock f ad (o / 512) -> fbyte f' ad' o = fbyte f ad o.
Proof. intros Ho E. unfold fbyte. by rewrite E. Qed.

Lemma writes_nil f ad off : layout f ad -> writes f ad off [] f ad.
Proof.
  intros HL. constructor; auto.
  - intros o Ho. destruct (_ && _) eqn:E; [|done]. apply andb_true_iff in E as [E1%Z.leb_le E2%Z.ltb_lt]. cbn in E2. lia.
  - cbn. intros. lia.
Qed.

Lemma writes_trans f ad off d1 f1 ad1 d2 f2 ad2 : writes f ad off d1 f1 ad1 -> writes f1 ad1 (off + Z.of_nat (length d1)) d2 f2 ad2 -> 0 <= off ->
  writes f ad off (d1 ++ d2) f2 ad2.
Proof.
  intros [A1 A2 A3 A4 A5 A6 A7 A8 A9 A10] [B1 B2 B3 B4 B5 B6 B7 B8 B9 B10] Hoff. pose proof (datastart_pos g G) as Hp. constructor; auto.
  - intros o Ho. rewrite B3, A3, length_app, Nat2Z.inj_add, Z.add_assoc by done. destruct (Z.leb_spec off o); cbn [andb].
    + rewrite aget_app by lia. destruct (Z.ltb_spec o (off + Z.of_nat (length d1))).
      * replace (o - off <? Z.of_nat (length d1)) with true by lia. replace (off + Z.of_nat (length d1) <=? o) with false by lia. cbn [andb]. destruct (Z.ltb_spec o (off + Z.of_nat (length d1) + Z.of_nat (length d2))); [done|lia].
      * replace (o - off <? Z.of_nat (length d1)) with false by lia. replace (off + Z.of_nat (length d1) <=? o) with true by lia. cbn [andb].
        destruct (o <? _); [|done]. f_equal. lia.
    + destruct (Z.leb_spec (off + Z.of_nat (length d1)) o); [lia|done].
  - intros x Hx Hb Hs. rewrite <- (A4 x) by done. apply B4; [done|apply A6; [lia|done]|]. intros k Hk E.
    destruct (decide (slot f ad k = 0)) as [E0|E0]; [|rewrite A7 in E by done; by apply (Hs k)]. destruct (A8 k Hk E0) as [E1|E1]; [lia|]. rewrite E in E1. congruence.
  - intros x Hx. by rewrite B5, A5.
  - intros k Hk Hn. rewrite B7; [by apply A7|done|]. by rewrite A7.
  - intros k Hk E. destruct (decide (slot f1 ad1 k = 0)) as [E1|E1]; [|rewrite B7 by done; by apply A8].
    destruct (B8 k Hk E1) as [?|E2]; [by left|]. destruct (decide (slot f2 ad2 k = 0)) as [?|E3]; [by left|right]. destruct (bit f (slot f2 ad2 k)) eqn:Eb; [|done].
    destruct (lay_data _ _ _ B1 k Hk E3) as [? _]. rewrite A6 in E2; [done|lia|done].
  - intros o Ho Hr. rewrite length_app in Hr. assert (Hf : is_slot (fidx (o / 512))) by (apply fidx_slot; zdm). destruct (Z.ltb_spec o (off + Z.of_nat (length d1))).
    + rewrite B7; [apply A9; lia|done|apply A9; lia].
    + apply B9; lia.
  - intros Hs. rewrite length_app in Hs. rewrite B10; [apply A10; intros o Ho Hr; apply Hs; lia|]. intros o Ho Hr. assert (Hf : is_slot (fidx (o / 512))) by (apply fidx_slot; zdm).
    rewrite A7; [apply Hs; lia|done|apply Hs; lia].
Qed.

Lemma slot_vput f ad a d k : layout f ad -> is_slot k -> (exists n, 0 <= n < 140 /\ slot f ad (fidx n) = a) -> a <> 0 -> slot (vput a d f) ad k = slot f ad k.
Proof.
  intros HL Hk (n & Hn & Ea) Ha. destruct (fidx_slot n Hn) as [Hf Hf12]. unfold slot. destruct (Z.ltb_spec k 13); [done|]. destruct (Z.eqb_spec (aget 0 ad 12) 0); [done|].
  unfold vput. replace (aget 0 ad 12 =? a) with false; [done|]. symmetry. apply Z.eqb_neq. intros E. apply Hf12. apply (lay_inj _ _ _ HL); [done|by unfold is_slot|congruence|]. change (slot f ad 12) with (aget 0 ad 12). congruence.
Qed.

(** A block gets new bytes. *)
Lemma writes_block f ad f1 ad1 bn o d (a := slot f1 ad1 (fidx bn)) : layout f ad -> extends g f ad f1 ad1 -> 0 <= bn < 140 -> a <> 0 -> 0 <= o -> o + Z.of_nat (length d) <= 512 ->
  length (f1 a) = 512%nat -> (slot f ad (fidx bn) <> 0 -> ad1 = ad) -> d <> [] ->
  writes f ad (bn * 512 + o) d (vput a (splice (f1 a) o d) f1) ad1.
Proof.
  intros HL0 [A1 A2 A3 A4 A5 A6 A7 A8] Hbn Ha Ho Hd HL Hsame Hne. pose proof (datastart_pos g G) as Hp. destruct (fidx_slot bn Hbn) as [Hf Hf12].
  destruct (lay_data _ _ _ A1 _ Hf Ha) as [Har Hab]. fold a in Har, Hab. set (f2 := vput a _ f1).
  assert (S2 : forall k, is_slot k -> slot f2 ad1 k = slot f1 ad1 k) by (intros k Hk; apply slot_vput; eauto).
  assert (B2 : forall c, 0 <= c < sb_size g -> bit f2 c = bit f1 c).
  { intros c Hc. unfold FsBitmap.bit, f2, vput. pose proof (bblock_range g G c Hc). by replace (BBLOCK c g =? a) with false by lia. }
  assert (F2 : forall x, x <> a -> f2 x = f1 x) by (intros x Hx; unfold f2, vput; by replace (x =? a) with false by lia).
  assert (Hbig : Z.of_nat (length d) > 0) by (destruct d; [done|cbn; lia]). constructor.
  - constructor; [apply A1| |].
    + intros k Hk. rewrite S2 by done. intros Hn. destruct (lay_data _ _ _ A1 k Hk Hn). rewrite B2 by lia. done.
    + intros j k Hj Hk. rewrite !S2 by done. by apply (lay_inj _ _ _ A1).
  - intros HM b Hb. destruct G as [_ _ _ _ G5]. rewrite B2 by lia. by apply A2.
  - intros q Hq. unfold fbyte at 1, fblock at 1. assert (Hq5 : 0 <= q / 512 < 140) by zdm. destruct (fidx_slot _ Hq5) as [Hqf _]. rewrite S2 by done.
    destruct (decide (q / 512 = bn)) as [Eq|Eq].
    + rewrite Eq. fold a. replace (a =? 0) with false by lia. unfold f2, vput. rewrite Z.eqb_refl, aget_splice by (rewrite ?HL; lia).
      replace ((o <=? q mod 512) && (q mod 512 <? o + Z.of_nat (length d))) with ((bn * 512 + o <=? q) && (q <? bn * 512 + o + Z.of_nat (length d))).
      * destruct (_ && _); [f_equal; zdm|]. rewrite <- (fbyte_ext f ad f1 ad1 q Hq); [|apply A3; zdm]. unfold fbyte, fblock. rewrite Eq. fold a. by replace (a =? 0) with false by lia.
      * f_equal; [destruct (Z.leb_spec (bn * 512 + o) q), (Z.leb_spec o (q mod 512)); (done || zdm)|destruct (Z.ltb_spec q (bn * 512 + o + Z.of_nat (length d))), (Z.ltb_spec (q mod 512) (o + Z.of_nat (length d))); (done || zdm)].
    + replace ((bn * 512 + o <=? q) && (q <? bn * 512 + o + Z.of_nat (length d))) with false.
      2: { symmetry. apply andb_false_iff. destruct (Z.leb_spec (bn * 512 + o) q); [right; apply Z.ltb_ge; zdm|by left]. }
      rewrite <- (fbyte_ext f ad f1 ad1 q Hq); [|apply A3; zdm]. unfold fbyte, fblock. destruct (Z.eqb_spec (slot f1 ad1 (fidx (q / 512))) 0) as [|Hn]; [done|]. rewrite F2; [done|].
      intros E. apply Eq. apply fidx_inj. by apply (lay_inj _ _ _ A1).
  - intros x Hx Hb Hs. rewrite F2; [by apply A4|]. intros ->. destruct (decide (slot f ad (fidx bn) = 0)) as [E|E].
    + destruct (A8 _ Hf E) as [?|E2]; [done|]. fold a in E2. congruence.
    + apply (Hs (fidx bn)); [done|]. symmetry. by apply A7.
  - intros x Hx. rewrite F2; [by apply A5|]. unfold FsBitmap.datastart in Har. destruct (g_size _ G). zdm.
  - intros c Hc Hb. rewrite B2 by done. by apply A6.
  - intros k Hk Hn. rewrite S2 by done. by apply A7.
  - intros k Hk E. rewrite S2 by done. by apply A8.
  - intros q Hq Hr. rewrite S2 by (apply fidx_slot; zdm). by replace (q / 512) with bn by zdm.
  - intros Hs. apply Hsame. replace bn with ((bn * 512 + o) / 512) by zdm. apply Hs; lia.
Qed.

(** ** readi() and writei() *)

(** A file as it should be: its blocks up to its size are allocated. *)
Record file_ok f (i : inode) : Prop := {
  fo_lay : layout f (iaddrs i);
  fo_size : 0 <= isize i <= 71680;
  fo_full : forall o, 0 <= o < isize i -> slot f (iaddrs i) (fidx (o / 512)) <> 0;
}.

(** The bitmap and the data blocks do not change: the file does not. *)
Section Agree.
Context (f f' : Z -> list Z) (HE : forall x, sb_bmapstart g <= x < sb_size g -> f' x = f x).

Lemma agree_bit c : 0 <= c < sb_size g -> bit f' c = bit f c.
Proof. intros Hc. unfold FsBitmap.bit. pose proof (bblock_range g G c Hc). pose proof (g_data _ G). by rewrite HE by lia. Qed.

Lemma data_after_bmap x : datastart <= x -> sb_bmapstart g <= x.
Proof. unfold FsBitmap.datastart. destruct (g_size _ G). zdm. Qed.

Lemma agree_slot ad k : layout f ad -> slot f' ad k = slot f ad k.
Proof.
  intros HL. unfold slot. destruct (k <? 13); [done|]. destruct (Z.eqb_spec (aget 0 ad 12) 0) as [|Hn]; [done|]. rewrite HE; [done|].
  destruct (lay_data _ _ _ HL 12) as [? _]; [by unfold is_slot|done|]. change (slot f ad 12) with (aget 0 ad 12) in *. split; [apply data_after_bmap|]; lia.
Qed.

Lemma agree_layout ad : layout f ad -> layout f' ad.
Proof.
  intros HL. pose proof (datastart_pos g G). constructor; [apply HL| |].
  - intros k Hk. rewrite agree_slot by done. intros Hn. destruct (lay_data _ _ _ HL k Hk Hn). split; [done|]. rewrite agree_bit by lia. done.
  - intros j k Hj Hk. rewrite !agree_slot by done. by apply (lay_inj _ _ _ HL).
Qed.

Lemma agree_fblock ad n : layout f ad -> 0 <= n < 140 -> fblock f' ad n = fblock f ad n.
Proof.
  intros HL Hn. unfold fblock. rewrite agree_slot by done. destruct (Z.eqb_spec (slot f ad (fidx n)) 0) as [|Hs]; [done|].
  destruct (lay_data _ _ _ HL (fidx n)) as [? _]; [by apply fidx_slot|done|]. rewrite HE; [done|]. split; [apply data_after_bmap|]; lia.
Qed.

Lemma agree_fbyte ad o : layout f ad -> 0 <= o < 71680 -> fbyte f' ad o = fbyte f ad o.
Proof. intros HL Ho. unfold fbyte. rewrite agree_fblock; [done|done|zdm]. Qed.

Lemma agree_file i : file_ok f i -> file_ok f' i.
Proof.
  intros [F1 F2 F3]. constructor; [by apply agree_layout|done|]. intros o Ho. rewrite agree_slot by done. by apply F3.
Qed.
End Agree.

(** The fields of an inode fit the dinode. *)
Definition fields_ok (i : inode) : Prop := short_ok (itype i) /\ short_ok (imajor i) /\ short_ok (iminor i) /\ short_ok (inlink i) /\ 0 <= inum i < sb_ninodes g.

Lemma layout_words f ad : layout f ad -> Forall word_ok ad.
Proof.
  intros HL. apply Forall_forall. intros x (k & Hk)%list_elem_of_lookup_1. assert (Hlt : (k < 13)%nat) by (rewrite <- (lay_len _ _ _ HL); by eapply lookup_lt_Some).
  assert (Ex : slot f ad (Z.of_nat k) = x). { unfold slot. replace (Z.of_nat k <? 13) with true by lia. unfold aget. replace (_ <? 0) with false by lia. rewrite Nat2Z.id, nth_lookup, Hk. done. }
  destruct (decide (x = 0)) as [->|Hx]; [unfold word_ok; lia|]. destruct (lay_data _ _ _ HL (Z.of_nat k)) as [Hr _]; [unfold is_slot; lia|congruence|]. rewrite Ex in Hr.
  pose proof (datastart_pos g G). destruct G as [[G1 G1'] G2 _ _ _]. unfold word_ok. lia.
Qed.

Lemma file_dinode_ok f i : file_ok f i -> fields_ok i -> dinode_ok (dinode_of i).
Proof.
  intros [F1 F2 F3] (H1 & H2 & H3 & H4 & H5). unfold dinode_ok. cbn. split_and!; try done; [unfold word_ok; lia|apply F1|by eapply layout_words].
Qed.

Section Ops.
Context (ip : Z).

Lemma fblock_len ic v s ad n : At ic g v s -> layout (vb v) ad -> 0 <= n < 140 -> length (fblock (vb v) ad n) = 512%nat.
Proof.
  intros HA HL Hn. unfold fblock. destruct (Z.eqb_spec (slot (vb v) ad (fidx n)) 0) as [|Hs]; [done|]. destruct (lay_data _ _ _ HL (fidx n)) as [? _]; [by apply fidx_slot|done|].
  pose proof (datastart_pos g G). destruct (g_size _ G). apply (law_len (blk s)); [apply HA|lia].
Qed.

Lemma wp_readi_loop ic v (i := aget no_inode ic ip) fuel : idev i = 1 -> vh v = [] -> file_ok (vb v) i -> room 1 v ->
  forall tot off n dst s (Q : list Z -> fs -> Prop), At ic g v s -> 0 <= off -> 0 <= tot -> off + (n - tot) <= isize i -> n - tot <= Z.of_nat fuel ->
  (forall s', At ic g v s' -> Q (dst ++ fbytes (vb v) (iaddrs i) off (Z.to_nat (n - tot))) s') -> wp (readi_loop fuel ip tot off n dst) s Q.
Proof.
  intros Hdev Hh HF HR. pose proof HF as [HL HS HFu]. induction fuel as [|fuel IH]; intros tot off n dst s Q HA Hoff Htot Hsz Hfuel HQ; cbn [readi_loop].
  - replace (tot <? n) with false by lia. apply wp_ret. replace (Z.to_nat (n - tot)) with 0%nat in HQ by lia. specialize (HQ s HA). by rewrite app_nil_r in HQ.
  - destruct (Z.ltb_spec tot n); [|apply wp_ret; replace (Z.to_nat (n - tot)) with 0%nat in HQ by lia; specialize (HQ s HA); by rewrite app_nil_r in HQ].
    unfold BSIZE. assert (Hbn : 0 <= off / 512 < 140) by zdm. assert (Hs : slot (vb v) (iaddrs i) (fidx (off / 512)) <> 0) by (apply HFu; lia).
    apply wp_bind. eapply (wp_bmap_hit g G ip ic i eq_refl Hdev); [exact HA|done|done|done|done|done|]. intros s1 A1.
    apply wp_bind. eapply wp_figet; [exact A1|]. fold i. rewrite Hdev. destruct (lay_data _ _ _ HL (fidx (off / 512))) as [Hr _]; [by apply fidx_slot|done|].
    pose proof (datastart_pos g G). destruct (g_size _ G). apply wp_bind. destruct HR as [R1 R2]. eapply wp_fbread; [exact A1|lia|rewrite Hh; by intros ? ?%not_elem_of_nil|lia|]. intros b s2 A2.
    apply wp_bind. eapply wp_fdata; [exact A2|reflexivity|]. cbn [vb]. apply wp_bind. eapply wp_fbrelse; [exact A2|reflexivity|]. cbn [vb vl]. intros s3 A3.
    replace (mk_view (vb v) (vh v) (vl v)) with v in A3 by (by destruct v). set (m := Z.min (n - tot) (512 - off mod 512)). assert (Hm : 0 < m) by (unfold m; zdm).
    apply IH; [exact A3|lia|lia|lia|lia|]. intros s4 A4. specialize (HQ s4 A4). replace (Z.to_nat (n - tot)) with (Z.to_nat m + Z.to_nat (n - (tot + m)))%nat in HQ by lia.
    rewrite fbytes_app, app_assoc, Z2Nat.id in HQ by lia. rewrite <- slice_fbytes in HQ; [|lia|unfold m; lia|by eapply fblock_len]. unfold fblock in HQ. by rewrite (proj2 (Z.eqb_neq _ _) Hs) in HQ.
Qed.

Lemma wp_readi devread ic v s off n (i := aget no_inode ic ip) (Q : Z * list Z -> fs -> Prop) : At ic g v s -> idev i = 1 -> vh v = [] -> file_ok (vb v) i -> room 1 v -> itype i <> T_DEV ->
  0 <= off < 4294967296 -> 0 <= n < 4294967296 ->
  (isize i < off \/ 4294967296 <= off + n -> Q (-1, []) s) ->
  (forall s', off <= isize i -> off + n < 4294967296 -> At ic g v s' ->
     Q (Z.min n (isize i - off), fbytes (vb v) (iaddrs i) off (Z.to_nat (Z.min n (isize i - off)))) s') ->
  wp (readi devread ip off n) s Q.
Proof.
  intros HA Hdev Hh HF HR Ht Hoff Hn HE HQ. pose proof HF as [HL HS HFu]. unfold readi. apply wp_bind. eapply wp_figet; [exact HA|]. fold i. unfold id.
  replace (itype i =? T_DEV) with false by lia. destruct (Z.ltb_spec (isize i) off) as [H1|H1].
  { replace (off >? isize i) with true by lia. apply wp_ret. auto. }
  replace (off >? isize i) with false by lia. cbn [orb]. destruct (Z.ltb_spec (off + n) 4294967296) as [H2|H2].
  - rewrite u32_small by lia. replace (off + n <? off) with false by (symmetry; apply Z.ltb_ge; lia).
    replace (if off + n >? isize i then isize i - off else n) with (Z.min n (isize i - off)) by (destruct (Z.gtb_spec (off + n) (isize i)); lia).
    apply wp_bind. eapply (wp_readi_loop ic v); [done|done|done|done|exact HA|lia|lia|fold i; lia|lia|]. intros s' A'. apply wp_ret. rewrite Z.sub_0_r. cbn [app]. rewrite i32_small by lia. by apply HQ.
  - replace (u32 (off + n) <? off) with true; [apply wp_ret; auto|]. symmetry. apply Z.ltb_lt. unfold u32. zdm.
Qed.


Lemma wp_writei_loop src fuel : forall K tot off n ic v s (i := aget no_inode ic ip) (f := vb v) (Q : Z -> fs -> Prop), At ic g v s -> 0 <= ip < Z.of_nat (length ic) -> idev i = 1 -> vh v = [] ->
  layout f (iaddrs i) -> meta_used g f -> 0 <= off -> 0 <= tot -> n <= Z.of_nat (length src) -> off + (n - tot) <= 71680 -> n - tot <= Z.of_nat fuel ->
  (tot < n -> off + (n - tot) <= (off / 512 + K) * 512) -> 0 <= K -> room (6 * K + 2) v -> 2 * K <= nfree g f ->
  (forall f' ad' l' s', writes f (iaddrs i) off (slice src tot (Z.max 0 (n - tot))) f' ad' -> Z.of_nat (length l') <= Z.of_nat (length (vl v)) + 6 * K -> nfree g f - 2 * K <= nfree g f' ->
     At (aset ic ip (set_iaddrs ad' i)) g (mk_view f' [] l') s' -> Q (off + Z.max 0 (n - tot)) s') ->
  wp (writei_loop fuel ip src tot off n) s Q.
Proof.
  induction fuel as [|fuel IH]; intros K tot off n ic v s i f Q HA Hip Hdev Hh HL HM Hoff Htot Hsrc Hmax Hfuel HK HK0 HR Hnf HQ; cbn [writei_loop];
    assert (Hend : n <= tot -> Q off s).
  1, 3: intros Hle; replace (Z.max 0 (n - tot)) with 0 in HQ by lia; rewrite Z.add_0_r in HQ; eapply (HQ f (iaddrs i) (vl v)); [by apply writes_nil|lia|lia|];
    replace (set_iaddrs (iaddrs i) i) with i by (by destruct i); unfold i; rewrite aset_self by done; by destruct v; cbn in Hh; subst.
  { replace (tot <? n) with false by lia. apply wp_ret. apply Hend. lia. }
  destruct (Z.ltb_spec tot n) as [Hlt|Hge]; [|apply wp_ret; apply Hend; lia]. clear Hend. specialize (HK Hlt). unfold BSIZE. assert (Hbn : 0 <= off / 512 < 140) by zdm. assert (HK1 : 1 <= K) by zdm.
  set (m := Z.min (n - tot) (512 - off mod 512)). assert (Hm : 0 < m /\ off mod 512 + m <= 512) by (unfold m; zdm). destruct HR as [R1 R2].
  assert (GO : forall a f1 ad1 l1 s1, extends g f (iaddrs i) f1 ad1 -> slot f1 ad1 (fidx (off / 512)) = a -> a <> 0 -> (slot f (iaddrs i) (fidx (off / 512)) <> 0 -> ad1 = iaddrs i) ->
    (length l1 <= length (vl v) + 5)%nat -> nfree g f - 2 <= nfree g f1 -> At (aset ic ip (set_iaddrs ad1 i)) g (mk_view f1 [] l1) s1 ->
    wp (let! dev := iget_ ip idev in let! bp := bread dev a in let! d := bdata bp in
        bset bp (splice d (off mod 512) (slice src tot m)) ;;; log_write bp ;;; brelse bp ;;; writei_loop fuel ip src (tot + m) (off + m) n) s1 Q).
  { intros a f1 ad1 l1 s1 HE Ea Ha Hsame Hl1 Hn1 A1. set (ic1 := aset ic ip (set_iaddrs ad1 i)) in *.
    assert (Ei1 : aget no_inode ic1 ip = set_iaddrs ad1 i) by (by apply aget_aset_eq). destruct (lay_data _ _ _ (ex_lay _ _ _ _ _ HE) (fidx (off / 512))) as [Hr _]; [by apply fidx_slot|congruence|]. rewrite Ea in Hr.
    pose proof (datastart_pos g G). destruct (g_size _ G) as [_ Gs]. rewrite Hh in R2. cbn in R2. assert (HL1 : length (f1 a) = 512%nat) by (apply (law_len (blk s1) _ _ (at_rep _ _ _ _ A1)); lia).
    assert (Lsl : length (slice src tot m) = Z.to_nat m) by (apply slice_length; unfold m; lia).
    apply wp_bind. eapply wp_figet; [exact A1|]. rewrite Ei1. cbn [idev set_iaddrs]. rewrite Hdev. apply wp_bind. eapply wp_fbread; [exact A1|lia|by intros ? ?%not_elem_of_nil|cbn; lia|].
    intros b s2 A2. apply wp_bind. eapply wp_fdata; [exact A2|reflexivity|]. cbn [vb]. pose proof (datastart_first g G). eapply (wp_flog _ _ _ _ A2 b a); [reflexivity|lia|rewrite splice_length; [done|zdm|rewrite Lsl, HL1; lia]|cbn; lia|].
    intros s3 A3. apply wp_bind. eapply wp_fbrelse; [exact A3|reflexivity|]. cbn [vb vh vl]. intros s4 A4. pose proof (vlog_length a l1) as V1. set (f2 := vput a _ f1) in *.
    assert (HW : writes f (iaddrs i) off (slice src tot m) f2 ad1).
    { replace off with (off / 512 * 512 + off mod 512) at 1 by zdm. unfold f2. rewrite <- Ea. apply writes_block; [done|done|done|congruence|zdm|rewrite Lsl; lia|by rewrite Ea|done|]. intros E. rewrite E in Lsl. cbn in Lsl. lia. }
    assert (Hnf2 : nfree g f2 = nfree g f1). { apply nfree_same. intros c Hc. unfold FsBitmap.bit, f2, vput. pose proof (bblock_range g G c Hc). by replace (BBLOCK c g =? a) with false by lia. }
    eapply (IH (K - 1) (tot + m) (off + m) n ic1 _ s4); [exact A4|unfold ic1; by rewrite length_aset|by rewrite Ei1|done| | |lia|lia|lia|lia|lia| |lia| | |].
    - rewrite Ei1. apply (w_lay _ _ _ _ _ _ HW).
    - apply HW, HM.
    - intros Hlt'. unfold m in *. zdm.
    - split; cbn; lia.
    - cbn [vb]. lia.
    - rewrite Ei1. cbn [vb vl iaddrs set_iaddrs]. intros f3 ad3 l3 s5 HW3 Hl3 Hn3 A5. replace (off + m + Z.max 0 (n - (tot + m))) with (off + Z.max 0 (n - tot)) by lia.
      eapply (HQ f3 ad3 l3); [| |lia|].
      + replace (Z.max 0 (n - tot)) with (m + Z.max 0 (n - (tot + m))) by lia. rewrite slice_app by lia. eapply writes_trans; [exact HW| |done]. rewrite Lsl, Z2Nat.id by lia. exact HW3.
      + lia.
      + unfold ic1 in A5. rewrite aset_aset in A5. exact A5. }
  apply wp_bind. destruct (decide (slot f (iaddrs i) (fidx (off / 512)) = 0)) as [Hs|Hs].
  - eapply (wp_bmap g G ip ic Hip i eq_refl Hdev (off / 512) v); [exact HA|done|done|done|done|split; lia|fold f; lia|]. fold f. intros a f1 ad1 l1 s1 HE Ea Ha _ Hl1 Hn1 A1. eapply GO; try done; lia.
  - eapply (wp_bmap_hit g G ip ic i eq_refl Hdev (off / 512) v); [exact HA|done|done|done|split; lia|done|]. intros s1 A1. eapply (GO _ f (iaddrs i) (vl v)); [by apply extends_refl|done|done|done|lia|lia|].
    replace (set_iaddrs (iaddrs i) i) with i by (by destruct i). unfold i. rewrite aset_self by done. by destruct v; cbn in Hh; subst.
Qed.

(** What writei() of the bytes d at offset off does to the disk and to the
    inode. *)
Record written f (i : inode) (off : Z) (d : list Z) f' (i' : inode) : Prop := {
  wr_file : file_ok f' i';
  wr_meta : meta_used g f';
  wr_size : isize i' = Z.max (isize i) (if decide (d = []) then 0 else off + Z.of_nat (length d));
  wr_same : itype i' = itype i /\ imajor i' = imajor i /\ iminor i' = iminor i /\ inlink i' = inlink i /\ inum i' = inum i /\ idev i' = idev i /\ iref i' = iref i /\ ilk i' = ilk i /\ valid i' = valid i;
  wr_byte : forall o, 0 <= o < 71680 -> fbyte f' (iaddrs i') o = if (off <=? o) && (o <? off + Z.of_nat (length d)) then aget 0 d (o - off) else fbyte f (iaddrs i) o;
  wr_frame : forall x, datastart <= x < sb_size g -> bit f x = true -> (forall k, is_slot k -> slot f (iaddrs i) k <> x) -> f' x = f x;
  wr_new : forall k, is_slot k -> slot f (iaddrs i) k = 0 -> slot f' (iaddrs i') k = 0 \/ bit f (slot f' (iaddrs i') k) = false;
  wr_bits : forall c, 0 <= c < sb_size g -> bit f c = true -> bit f' c = true;
  wr_inodes : forall m, 0 <= m < sb_ninodes g -> m <> inum i -> disk_inode f' m = disk_inode f m;
  wr_sync : disk_inode f (inum i) = dinode_of i -> disk_inode f' (inum i) = dinode_of i';
}.

Lemma written_grown f ad i off d f' n0 : file_ok f i -> fields_ok i -> 0 <= off <= isize i -> off + Z.of_nat (length d) <= 71680 -> isize i < off + Z.of_nat (length d) -> meta_used g f ->
  writes f (iaddrs i) off d f' ad -> n0 = inum i -> length (f' (IBLOCK n0 g)) = 512%nat ->
  forall i', i' = set_isize (off + Z.of_nat (length d)) (set_iaddrs ad i) -> written f i off d (put_inode n0 (dinode_of i') f') i'.
Proof.
  intros HF HFi Hoff Hmax Hgt HM HW -> HLen i' Ei'. assert (Ea : iaddrs i' = ad) by (by subst i'). pose proof HF as [F1 F2 F3]. pose proof HW as [W1 W2 W3 W4 W5 W6 W7 W8 W9 W10]. pose proof HFi as (_ & _ & _ & _ & Hn). destruct (iblock_eq _ Hn) as [_ Hib].
  assert (HE : forall x, sb_bmapstart g <= x -> put_inode (inum i) (dinode_of i') f' x = f' x) by (intros x Hx; unfold put_inode, vput; by replace (x =? IBLOCK (inum i) g) with false by lia).
  assert (HE' : forall x, sb_bmapstart g <= x < sb_size g -> put_inode (inum i) (dinode_of i') f' x = f' x) by (intros x [Hx _]; by apply HE).
  assert (HF' : file_ok f' i').
  { rewrite Ei'. constructor; [exact W1|cbn; lia|]. cbn. intros o Ho. destruct (Z.ltb_spec o (isize i)); [|apply W9; lia]. rewrite W7; [apply F3; lia|apply fidx_slot; zdm|apply F3; lia]. }
  pose proof (datastart_pos g G). assert (HD : dinode_ok (dinode_of i')) by (eapply file_dinode_ok; [done|by subst i']). constructor.
  - by eapply agree_file.
  - intros b Hb. pose proof (g_data _ G). rewrite (agree_bit f' _ HE') by lia. by apply W2.
  - subst i'. destruct (decide (d = [])) as [->|]; cbn in *; lia.
  - by subst i'.
  - intros o Ho. rewrite Ea. rewrite (agree_fbyte f' _ HE') by done. by apply W3.
  - intros x Hx Hb Hs. rewrite HE by (apply data_after_bmap; lia). by apply W4.
  - intros k Hk E. rewrite Ea. rewrite (agree_slot f' _ HE') by done. by apply W8.
  - intros c Hc Hb. rewrite (agree_bit f' _ HE') by done. by apply W6.
  - intros m Hm Hne. rewrite disk_put_inode by done. replace (m =? inum i) with false by lia. unfold disk_inode. destruct (iblock_eq _ Hm) as [_ ?]. by rewrite W5 by lia.
  - intros _. rewrite disk_put_inode by done. by rewrite Z.eqb_refl.
Qed.

Lemma written_inside f ad i off d f' : file_ok f i -> 0 <= off -> off + Z.of_nat (length d) <= isize i \/ d = [] -> 0 <= inum i < sb_ninodes g -> meta_used g f ->
  writes f (iaddrs i) off d f' ad -> ad = iaddrs i /\ written f i off d f' i.
Proof.
  intros HF Hoff Hin Hn HM HW. pose proof HF as [F1 F2 F3]. pose proof HW as [W1 W2 W3 W4 W5 W6 W7 W8 W9 W10].
  assert (ad = iaddrs i) as ->. { apply W10. intros o Ho Hr. destruct Hin as [?| ->]; [|cbn in Hr; lia]. apply F3. lia. }
  split; [done|]. assert (HEi : forall m, 0 <= m < sb_ninodes g -> disk_inode f' m = disk_inode f m) by (intros m Hm; unfold disk_inode; destruct (iblock_eq _ Hm) as [_ ?]; by rewrite W5 by lia).
  constructor; try done.
  - constructor; [done|done|]. intros o Ho. rewrite W7; [by apply F3|apply fidx_slot; zdm|by apply F3].
  - by apply W2.
  - destruct (decide (d = [])); [lia|]. destruct Hin; [lia|done].
  - intros m Hm _. by apply HEi.
  - intros Es. by rewrite HEi.
Qed.

Lemma wp_writei devwrite ic v s src off n K (i := aget no_inode ic ip) (f := vb v) (Q : Z -> fs -> Prop) : At ic g v s -> 0 <= ip < Z.of_nat (length ic) -> idev i = 1 -> vh v = [] ->
  file_ok f i -> fields_ok i -> meta_used g f -> itype i <> T_DEV -> 0 <= off < 4294967296 -> 0 <= n <= Z.of_nat (length src) -> n < 4294967296 ->
  off + n <= (off / 512 + K) * 512 -> room (6 * K + 3) v -> 2 * K <= nfree g f ->
  (isize i < off \/ 71680 < off + n -> Q (-1) s) ->
  (forall f' i' l' s', off <= isize i -> off + n <= 71680 -> written f i off (slice src 0 n) f' i' -> Z.of_nat (length l') <= Z.of_nat (length (vl v)) + 6 * K + 1 -> nfree g f - 2 * K <= nfree g f' ->
     At (aset ic ip i') g (mk_view f' [] l') s' -> Q n s') ->
  wp (writei devwrite ip src off n) s Q.
Proof.
  intros HA Hip Hdev Hh HF HFi HM Ht Hoff Hn Hn32 HK HR Hnf HE HQ. pose proof HF as [HL HS HFu]. unfold writei. apply wp_bind. eapply wp_figet; [exact HA|]. fold i. unfold id.
  replace (itype i =? T_DEV) with false by lia. destruct (Z.ltb_spec (isize i) off) as [H1|H1].
  { replace (off >? isize i) with true by lia. apply wp_ret. auto. }
  replace (off >? isize i) with false by lia. cbn [orb]. unfold MAXFILE, NDIRECT, NINDIRECT, BSIZE. change ((12 + 512 / 4) * 512) with 71680.
  assert (Hsmall : off + n < 4294967296 + 71680) by lia. destruct (Z.ltb_spec (u32 (off + n)) off) as [H2|H2].
  { apply wp_ret, HE. right. unfold u32 in H2. zdm. }
  assert (Eu : u32 (off + n) = off + n) by (apply u32_small; unfold u32 in H2; zdm). rewrite Eu. destruct (Z.ltb_spec 71680 (off + n)) as [H3|H3].
  { replace (off + n >? 71680) with true by lia. apply wp_ret. auto. }
  replace (off + n >? 71680) with false by lia. assert (HK0 : 0 <= K) by zdm. destruct HR as [R1 R2]. apply wp_bind.
  eapply (wp_writei_loop src (Z.to_nat n) K 0 off n ic v s); [exact HA|done|done|done|done|done|lia|lia|lia|lia|lia|intros _; lia|done|split; lia|fold f; lia|]. fold i f. rewrite Z.sub_0_r.
  replace (Z.max 0 n) with n by lia. intros f' ad l' s1 HW Hl Hnf' A1. assert (Ld : Z.of_nat (length (slice src 0 n)) = n) by (rewrite slice_length; lia).
  set (ic1 := aset ic ip (set_iaddrs ad i)) in *. assert (Ei1 : aget no_inode ic1 ip = set_iaddrs ad i) by (by apply aget_aset_eq).
  apply wp_bind. eapply wp_figet; [exact A1|]. rewrite Ei1. cbn [isize set_iaddrs]. apply wp_bind. rewrite i32_small by lia. destruct (Z.ltb_spec (isize i) (off + n)) as [H4|H4].
  - destruct (Z.ltb_spec 0 n) as [Hn0|Hn0].
    + replace (n >? 0) with true by lia. replace (off + n >? isize i) with true by lia. cbn [andb when]. apply wp_bind. eapply wp_fiset; [exact A1|]. rewrite Ei1. intros s2 A2.
      unfold ic1 in A2. rewrite aset_aset in A2. set (i2 := set_isize (off + n) (set_iaddrs ad i)) in *. assert (Ei2 : aget no_inode (aset ic ip i2) ip = i2) by (by apply aget_aset_eq).
      destruct HFi as (F1 & F2 & F3 & F4 & F5). eapply wp_iupdate; [exact A2|by rewrite Ei2|by rewrite Ei2|done|split; cbn; rewrite Hh in R2; cbn in R2; lia|]. rewrite Ei2. cbn [vb vl]. change (inum i2) with (inum i). intros s3 A3.
      apply wp_ret. eapply (HQ _ _ (vlog (IBLOCK (inum i) g) l')); [lia|lia| | | |exact A3].
      * eapply (written_grown f ad i off); [done|done|lia|lia|lia|done|exact HW|done| |unfold i2; by rewrite Ld]. apply (law_len (blk s1) _ _ (at_rep _ _ _ _ A1)). by apply iblock_disk.
      * pose proof (vlog_length (IBLOCK (inum i) g) l'). lia.
      * destruct (iblock_eq _ F5) as [_ Hib]. rewrite (nfree_same g f' (put_inode (inum i) (dinode_of i2) f')); [lia|]. intros c Hc. apply (agree_bit f'); [|done]. intros x Hx. unfold put_inode, vput. by replace (x =? IBLOCK (inum i) g) with false by lia.
    + lia.
  - replace ((n >? 0) && (off + n >? isize i)) with false by (destruct (n >? 0); [cbn; lia|done]). apply wp_ret, wp_ret.
    destruct (written_inside f ad i off (slice src 0 n) f') as [-> HWr]; [done|lia|left; lia|apply HFi|done|exact HW|]. eapply (HQ f' i l'); [lia|lia|done|lia|lia|].
    unfold ic1 in A1. replace (set_iaddrs (iaddrs i) i) with i in A1 by (by destruct i). exact A1.
Qed.
End Ops.
End File.

Section Writable.
Context {B : Type} `{BlockLaws B}.

(** The inode [ip] of the cache is one that writei() may be called with: a
    file of device 1 that is as it should be, no buffer held. *)
Record writable (g : superblock) (ic : list inode) (ip : Z) (v : bview) : Prop := {
  wt_geom : geom_ok g;
  wt_ip : 0 <= ip < Z.of_nat (length ic);
  wt_dev : idev (aget no_inode ic ip) = 1;
  wt_type : itype (aget no_inode ic ip) <> T_DEV;
  wt_held : vh v = [];
  wt_file : file_ok g (vb v) (aget no_inode ic ip);
  wt_fields : fields_ok g (aget no_inode ic ip);
  wt_meta : meta_used g (vb v);
}.
End Writable.
