(* ===== verification/FsTrunc.v ===== *)
(** Freeing the blocks of a file (itrunc of fs.c). *)

From Stdlib Require Import ZArith Lia.
From stdpp Require Import base gmap strings numbers list.
From S2P Require Import Prelude Kstring Bio Log Fs FsBlock FsBitmap FsMap FsFile.

Open Scope Z_scope.
Open Scope kern_scope.

Section Trunc.
Context {B : Type} `{BlockLaws B}.
Context (g : superblock) (G : geom_ok g).

Abbreviation bit := (bit g).
Abbreviation datastart := (datastart g).
Abbreviation layout := (layout g).
Abbreviation fs := (@fs B).

(** Exactly the blocks of [P] have been freed, and only the free map has changed. *)
Record freed (f : Z -> list Z) (P : Z -> Prop) (f' : Z -> list Z) : Prop := {
  fr_bit : forall c, 0 <= c < sb_size g -> bit f' c = true <-> bit f c = true /\ ~ P c;
  fr_same : forall x, x < sb_bmapstart g \/ datastart <= x -> f' x = f x;
}.

Lemma freed_none f (P : Z -> Prop) : (forall c, ~ P c) -> freed f P f.
Proof. intros HP. constructor; [|done]. intros c _. specialize (HP c). tauto. Qed.

Lemma freed_iff f P P' f' : (forall c, P c <-> P' c) -> freed f P f' -> freed f P' f'.
Proof. intros HP [F1 F2]. constructor; [|done]. intros c Hc. rewrite F1 by done. by rewrite HP. Qed.

Definition free_vb (b : Z) (f : Z -> list Z) : Z -> list Z :=
  bit_byte g b (u8 (Z.land (aget 0 (f (BBLOCK b g)) (b mod 4096 / 8)) (Z.lnot (Z.shiftl 1 (b mod 8))))) f.

Lemma freed_one f P f' b : 0 <= b < sb_size g -> length (f' (BBLOCK b g)) = 512%nat -> freed f P f' -> freed f (fun c => P c \/ c = b) (free_vb b f').
Proof.
  intros Hb HL [F1 F2]. constructor.
  - intros c Hc. unfold free_vb. rewrite bit_clear by done. rewrite andb_true_iff, F1, negb_true_iff, Z.eqb_neq by done. intuition congruence.
  - intros x Hx. pose proof (bblock_range g G b Hb). unfold free_vb, bit_byte, vput. replace (x =? BBLOCK b g) with false by lia. by apply F2.
Qed.

(** The blocks of the log beyond those of [l] are blocks of the free map. *)
Definition map_blocks (l l' : list Z) : Prop :=
  exists new, l' = l ++ new /\ NoDup new /\ forall x, x ∈ new -> sb_bmapstart g <= x < datastart.

Lemma map_blocks_refl l : map_blocks l l.
Proof. exists []. rewrite app_nil_r. split; [done|]. split; [constructor|]. by intros x ?%not_elem_of_nil. Qed.

Lemma map_blocks_vlog l l' b : 0 <= b < sb_size g -> map_blocks l l' -> map_blocks l (vlog (BBLOCK b g) l').
Proof.
  intros Hb (new & -> & Hn & HR). unfold vlog. destruct (decide _) as [|Hin]; [by exists new|]. exists (new ++ [BBLOCK b g]). rewrite app_assoc. split; [done|]. split.
  - apply NoDup_app. split; [done|]. split; [|apply NoDup_singleton]. intros x Hx ->%list_elem_of_singleton. apply Hin, elem_of_app. by right.
  - intros x [Hx| ->%list_elem_of_singleton]%elem_of_app; [by apply HR|by apply bblock_range].
Qed.

Lemma map_blocks_length l l' : map_blocks l l' -> Z.of_nat (length l') <= Z.of_nat (length l) + (datastart - sb_bmapstart g).
Proof.
  intros (new & -> & Hn & HR). rewrite length_app. pose proof (NoDup_seqZ (sb_bmapstart g) (datastart - sb_bmapstart g)).
  assert (HL : (length new <= length (seqZ (sb_bmapstart g) (datastart - sb_bmapstart g)))%nat).
  { apply submseteq_length, NoDup_submseteq; [done|]. intros x Hx%HR. apply elem_of_seqZ. lia. }
  rewrite length_seqZ in HL. destruct G as [G1 G2 G3 G4 G5]. unfold FsBitmap.datastart in *. zdm.
Qed.

(** Room for the free map, and n blocks more. *)
Definition map_room (n : Z) (v : bview) : Prop := room (datastart - sb_bmapstart g + n) v.

Lemma map_room_room n v f l' h : map_room n v -> map_blocks (vl v) l' -> Z.of_nat (length h) <= Z.of_nat (length (vh v)) + n - 1 -> 1 <= n -> room 1 (mk_view f h l').
Proof. intros [R1 R2] HL%map_blocks_length Hh Hn. split; cbn; lia. Qed.

(** ** The loops of itrunc() *)

Section Loops.
Context (ip : Z) (ic : list inode) (Hip : 0 <= ip < Z.of_nat (length ic)) (i : inode) (Hi : aget no_inode ic ip = i) (Hdev : idev i = 1).
Context (v : bview) (Hh : vh v = []) (HL : layout (vb v) (iaddrs i)) (HR : map_room 2 v).

Definition slots_in (lo hi : Z) (c : Z) : Prop := exists k, lo <= k < hi /\ slot (vb v) (iaddrs i) k <> 0 /\ slot (vb v) (iaddrs i) k = c.

Lemma freed_slot ic' s f' l' (P : Z -> Prop) k h (Q : unit -> fs -> Prop) :
  is_slot k -> slot (vb v) (iaddrs i) k <> 0 -> (forall c, P c -> exists j, is_slot j /\ j <> k /\ slot (vb v) (iaddrs i) j = c) ->
  At ic' g (mk_view f' h l') s -> freed (vb v) P f' -> map_blocks (vl v) l' -> held_ok g (mk_view f' h l') -> (length h <= 1)%nat ->
  (forall s' f2 l2, At ic' g (mk_view f2 h l2) s' -> freed (vb v) (fun c => P c \/ c = slot (vb v) (iaddrs i) k) f2 -> map_blocks (vl v) l2 -> Q tt s') ->
  wp (bfree 1 (slot (vb v) (iaddrs i) k)) s Q.
Proof.
  intros Hk Hne HP A F M HO Hh1 HQ. destruct (lay_data _ _ _ HL k Hk Hne) as [Hr Hb]. pose proof (datastart_pos g G). set (b := slot _ _ k) in *.
  eapply (wp_bfree g G ic' b (mk_view f' h l')); [exact A|lia| |exact HO| |].
  - apply (fr_bit _ _ _ F); [lia|]. split; [done|]. intros (j & Hj & Hjk & Ej)%HP. apply Hjk. symmetry. by apply (lay_inj _ _ _ HL).
  - eapply map_room_room; [exact HR|exact M|rewrite Hh; cbn; lia|lia].
  - intros s' A'. cbn [vb vh vl] in A'. eapply HQ; [exact A'| |apply map_blocks_vlog; [lia|done]]. apply freed_one; [lia| |done].
    apply (law_len (blk s)(mk_view f' h l')); [apply A|]. apply bblock_disk; [done|lia].
Qed.

Abbreviation ad := (iaddrs i).

(** The first k addresses have been cleared. *)
Record cleared (k : Z) (ad' : list Z) : Prop := {
  cl_len : length ad' = 13%nat;
  cl_get : forall j, aget 0 ad' j = if (0 <=? j) && (j <? k) then 0 else aget 0 ad j;
}.

Lemma cleared_set k ad' : 0 <= k < 13 -> cleared k ad' -> cleared (k + 1) (aset ad' k 0).
Proof.
  intros Hk [C1 C2]. split; [by rewrite length_aset|]. intros j. rewrite aget_aset by lia. destruct (Z.eqb_spec k j) as [<-|Hne].
  - by replace ((0 <=? k) && (k <? k + 1)) with true by lia.
  - rewrite C2. by replace (j <? k + 1) with (j <? k) by lia.
Qed.

Lemma cleared_skip k ad' : 0 <= k < 13 -> aget 0 ad k = 0 -> cleared k ad' -> cleared (k + 1) ad'.
Proof.
  intros Hk E [C1 C2]. split; [done|]. intros j. rewrite C2. destruct (decide (j = k)) as [->|Hne]; [rewrite E; by repeat destruct (_ && _)|].
  by replace (j <? k + 1) with (j <? k) by lia.
Qed.

Lemma cleared_all ad' : cleared 13 ad' -> ad' = repeat 0 13.
Proof.
  intros [C1 C2]. apply bytes_ext; [done|]. intros k Hk. rewrite C1 in Hk. rewrite C2. replace ((0 <=? k) && (k <? 13)) with true by lia.
  unfold aget. replace (k <? 0) with false by lia. by rewrite nth_repeat.
Qed.

Lemma slots_in_skip lo k : slot (vb v) ad k = 0 -> forall c, slots_in lo k c <-> slots_in lo (k + 1) c.
Proof.
  intros E c. split; intros (j & Hj & Hne & Ec); exists j; (split; [|done]); [lia|]. destruct (decide (j = k)) as [->|]; [done|lia].
Qed.

Lemma slots_in_add lo k c : lo <= k -> slot (vb v) ad k <> 0 -> slots_in lo (k + 1) c <-> slots_in lo k c \/ c = slot (vb v) ad k.
Proof.
  intros Hlo Hne. split.
  - intros (j & Hj & Hj0 & Ec). destruct (decide (j = k)) as [->|]; [by right|left; exists j; split; [lia|done]].
  - intros [(j & Hj & Hj0 & Ec)| ->]; [exists j; split; [lia|done]|exists k; split; [lia|done]].
Qed.

Lemma wp_trunc_direct s (Q : unit -> fs -> Prop) : At ic g v s ->
  (forall s' f' l' ad', At (aset ic ip (set_iaddrs ad' i)) g (mk_view f' [] l') s' -> freed (vb v) (slots_in 0 12) f' -> map_blocks (vl v) l' -> cleared 12 ad' -> Q tt s') ->
  wp (for_up 0 12 (fun k =>
    let! i := iget_ ip id in
    when (negb (aget 0 (iaddrs i) k =? 0))
      (bfree (idev i) (aget 0 (iaddrs i) k) ;;;
       iset ip (fun i => set_iaddrs (aset (iaddrs i) k 0) i)))) s Q.
Proof.
  intros A HQ. apply (wp_for_up (fun k s' => exists f' l' ad', At (aset ic ip (set_iaddrs ad' i)) g (mk_view f' [] l') s' /\ freed (vb v) (slots_in 0 k) f' /\ map_blocks (vl v) l' /\ cleared k ad')).
  - exists (vb v), (vl v), ad. split_and!; [|apply freed_none; intros c (k & ? & _); lia|apply map_blocks_refl|split; [apply HL|]; intros j; by replace ((0 <=? j) && (j <? 0)) with false by lia].
    replace (set_iaddrs ad i) with i by (by destruct i). rewrite <- Hi, aset_self by done. by destruct v; cbn in Hh; subst.
  - intros k s' Hk (f' & l' & ad' & A' & F & M & C). apply wp_bind. eapply wp_figet; [exact A'|]. rewrite aget_aset_eq by done. unfold id. cbn [iaddrs idev set_iaddrs].
    assert (Ek : aget 0 ad' k = slot (vb v) ad k) by (rewrite (cl_get _ _ C); unfold slot; replace (k <? 13) with true by lia; by replace ((0 <=? k) && (k <? k)) with false by lia).
    apply wp_when; intros Hb; rewrite Ek in *.
    + apply negb_true_iff, Z.eqb_neq in Hb. apply wp_bind. rewrite Hdev. eapply (freed_slot _ s' f' l' (slots_in 0 k) k []); [unfold is_slot; lia|done| |exact A'|done|done|by intros ? ?%not_elem_of_nil|cbn; lia|].
      { intros c (j & Hj & _ & Ec). exists j. unfold is_slot. split_and!; [lia|lia|lia|done]. }
      intros s2 f2 l2 A2 F2 M2. eapply wp_fiset; [exact A2|]. rewrite aget_aset_eq, aset_aset by done. intros s3 A3. exists f2, l2, (aset ad' k 0). split_and!; [exact A3| |done|apply cleared_set; [lia|done]].
      eapply freed_iff; [|exact F2]. intros c. symmetry. apply slots_in_add; [lia|done].
    + apply negb_false_iff, Z.eqb_eq in Hb. exists f', l', ad'. split_and!; [done| |done|apply cleared_skip; [lia| |done]].
      * eapply freed_iff; [|exact F]. by apply slots_in_skip.
      * revert Hb. unfold slot. by replace (k <? 13) with true by lia.
  - intros s' (f' & l' & ad' & A' & F & M & C). eapply HQ; [exact A'|done|done|done].
Qed.

Abbreviation a12 := (slot (vb v) ad 12).

Lemma a12_eq : a12 = aget 0 ad 12.
Proof. reflexivity. Qed.

Lemma slot_high k : 13 <= k -> a12 <> 0 -> slot (vb v) ad k = le32 (vb v a12) (4 * (k - 13)).
Proof. intros Hk Hne. unfold slot at 1. replace (k <? 13) with false by lia. rewrite a12_eq in *. by replace (aget 0 ad 12 =? 0) with false by lia. Qed.

Lemma slots_low_only : a12 = 0 -> forall c, slots_in 0 12 c <-> slots_in 0 141 c.
Proof.
  intros E c. split; intros (k & Hk & Hne & Ec); exists k; (split; [|done]); [lia|]. destruct (Z.ltb_spec k 12); [lia|]. destruct (decide (k = 12)) as [->|]; [done|].
  exfalso. apply Hne. unfold slot. replace (k <? 13) with false by lia. rewrite a12_eq in E. by rewrite E.
Qed.

Lemma slots_all c : a12 <> 0 -> (slots_in 0 12 c \/ slots_in 13 141 c) \/ c = a12 <-> slots_in 0 141 c.
Proof.
  intros Hne. split.
  - intros [[(k & Hk & Hs)|(k & Hk & Hs)]| ->]; [exists k; split; [lia|done]|exists k; split; [lia|done]|exists 12; split; [lia|done]].
  - intros (k & Hk & Hs & Ec). destruct (Z.ltb_spec k 12); [left; left; exists k; split; [lia|done]|]. destruct (decide (k = 12)) as [->|]; [by right|left; right; exists k; split; [lia|done]].
Qed.

Definition indirect_blocks (j : Z) (c : Z) : Prop := slots_in 0 12 c \/ slots_in 13 (13 + j) c.

Lemma wp_trunc_entries ic' bp s f1 l1 (Q : unit -> fs -> Prop) : a12 <> 0 -> At ic' g (mk_view f1 [(bp, a12)] l1) s -> freed (vb v) (slots_in 0 12) f1 -> map_blocks (vl v) l1 ->
  (forall s' f' l', At ic' g (mk_view f' [(bp, a12)] l') s' -> freed (vb v) (indirect_blocks 128) f' -> map_blocks (vl v) l' -> Q tt s') ->
  wp (for_up 0 128 (fun j =>
       let! d := bdata bp in
       when (negb (le32 d (4 * j) =? 0)) (bfree 1 (le32 d (4 * j))))) s Q.
Proof.
  intros Hne A F M HQ. destruct (lay_data _ _ _ HL 12 ltac:(unfold is_slot; lia) Hne) as [Hr Hb]. pose proof (datastart_pos g G) as Hd.
  apply (wp_for_up (fun j s' => exists f' l', At ic' g (mk_view f' [(bp, a12)] l') s' /\ freed (vb v) (indirect_blocks j) f' /\ map_blocks (vl v) l')).
  - exists f1, l1. split_and!; [done| |done]. eapply freed_iff; [|exact F]. intros c. unfold indirect_blocks. split; [auto|]. intros [?|(k & Hk & _)]; [done|lia].
  - intros j s' Hj (f' & l' & A' & F' & M'). apply wp_bind. eapply wp_fdata; [exact A'|reflexivity|]. cbn [vb]. rewrite (fr_same _ _ _ F') by lia.
    replace (le32 (vb v a12) (4 * j)) with (slot (vb v) ad (13 + j)) by (rewrite slot_high by (done || lia); do 2 f_equal; lia).
    apply wp_when; intros Hs; [apply negb_true_iff, Z.eqb_neq in Hs|apply negb_false_iff, Z.eqb_eq in Hs].
    + eapply (freed_slot _ s' f' l' (indirect_blocks j) (13 + j)); [unfold is_slot; lia|done| |exact A'|done|done| |cbn; lia|].
      { intros c [(k & Hk & _ & Ec)|(k & Hk & _ & Ec)]; exists k; unfold is_slot; (split_and!; [lia|lia|lia|done]). }
      { intros h ->%list_elem_of_singleton. cbn [vb snd]. split; [done|]. apply (fr_bit _ _ _ F'); [lia|]. split; [done|].
        intros [(k & Hk & _ & Ec)|(k & Hk & _ & Ec)]; (assert (Ek : 12 = k) by (apply (lay_inj _ _ _ HL); [unfold is_slot; lia|unfold is_slot; lia|done|done]); lia). }
      intros s2 f2 l2 A2 F2 M2. exists f2, l2. split_and!; [done| |done]. eapply freed_iff; [|exact F2]. intros c. unfold indirect_blocks. replace (13 + (j + 1)) with (13 + j + 1) by lia.
      rewrite slots_in_add by (done || lia). tauto.
    + exists f', l'. split_and!; [done| |done]. eapply freed_iff; [|exact F']. intros c. unfold indirect_blocks. replace (13 + (j + 1)) with (13 + j + 1) by lia. by rewrite <- slots_in_skip.
  - intros s' (f' & l' & A' & F' & M'). by eapply HQ.
Qed.

Lemma wp_trunc_indirect s f1 l1 ad1 (Q : unit -> fs -> Prop) : At (aset ic ip (set_iaddrs ad1 i)) g (mk_view f1 [] l1) s -> freed (vb v) (slots_in 0 12) f1 -> map_blocks (vl v) l1 -> cleared 12 ad1 ->
  (forall s' f' l', At (aset ic ip (set_iaddrs (repeat 0 13) i)) g (mk_view f' [] l') s' -> freed (vb v) (slots_in 0 141) f' -> map_blocks (vl v) l' -> Q tt s') ->
  wp (when (negb (a12 =? 0))
    (let! bp := bread 1 a12 in
     for_up 0 NINDIRECT (fun j =>
       let! d := bdata bp in
       when (negb (le32 d (4 * j) =? 0)) (bfree 1 (le32 d (4 * j)))) ;;;
     brelse bp ;;;
     bfree 1 a12 ;;;
     iset ip (fun i => set_iaddrs (aset (iaddrs i) NDIRECT 0) i))) s Q.
Proof.
  intros A F M C HQ. apply wp_when; intros Hb; [apply negb_true_iff, Z.eqb_neq in Hb|apply negb_false_iff, Z.eqb_eq in Hb].
  2: { assert (Ead : ad1 = repeat 0 13) by (apply cleared_all, (cleared_skip 12); [lia|done|done]). subst ad1. eapply HQ; [exact A| |done]. eapply freed_iff; [|exact F]. by apply slots_low_only. }
  destruct (lay_data _ _ _ HL 12 ltac:(unfold is_slot; lia) Hb) as [Hr _]. pose proof (datastart_pos g G) as Hd.
  apply wp_bind. eapply (wp_fbread _ _ _ _ A); [destruct G; lia|by intros h ?%not_elem_of_nil| |].
  { destruct (map_room_room 2 v f1 l1 [] HR M) as [_ HR2]; [rewrite Hh; cbn; lia|lia|]. cbn in *. lia. }
  intros bp s1 A1. apply wp_bind. change NINDIRECT with 128. eapply wp_trunc_entries; [done|exact A1|done|done|]. intros s2 f2 l2 A2 F2 M2.
  apply wp_bind. eapply wp_fbrelse; [exact A2|reflexivity|]. cbn [vb vl]. intros s3 A3. apply wp_bind.
  eapply (freed_slot _ s3 f2 l2 (indirect_blocks 128) 12 []); [unfold is_slot; lia|done| |exact A3|done|done|by intros ? ?%not_elem_of_nil|cbn; lia|].
  { intros c [(k & Hk & _ & Ec)|(k & Hk & _ & Ec)]; exists k; unfold is_slot; (split_and!; [lia|lia|lia|done]). }
  intros s4 f4 l4 A4 F4 M4. eapply wp_fiset; [exact A4|]. rewrite aget_aset_eq, aset_aset by done. cbn [iaddrs set_iaddrs]. intros s5 A5.
  assert (Ead : aset ad1 NDIRECT 0 = repeat 0 13) by (apply cleared_all, (cleared_set 12); [lia|done]). rewrite Ead in A5. eapply HQ; [exact A5| |done].
  eapply freed_iff; [|exact F4]. intros c. by apply slots_all.
Qed.

(** What itrunc() does: exactly the blocks of the file are free afterwards,
    the inode is empty, in the cache and on the disk. *)
Lemma wp_itrunc s (Q : unit -> fs -> Prop) : At ic g v s -> 0 <= inum i < sb_ninodes g ->
  (forall s' f1 l' i', i' = set_isize 0 (set_iaddrs (repeat 0 13) i) -> freed (vb v) (slots_in 0 141) f1 -> map_blocks (vl v) l' ->
     At (aset ic ip i') g (mk_view (put_inode g (inum i) (dinode_of i') f1) [] (vlog (IBLOCK (inum i) g) l')) s' -> Q tt s') ->
  wp (itrunc ip) s Q.
Proof.
  intros A Hn HQ. unfold itrunc. change NDIRECT with 12 at 1. apply wp_bind. eapply wp_trunc_direct; [exact A|]. intros s1 f1 l1 ad1 A1 F1 M1 C1.
  apply wp_bind. eapply wp_figet; [exact A1|]. rewrite aget_aset_eq by done. unfold id. cbn [iaddrs idev set_iaddrs]. rewrite Hdev.
  replace (aget 0 ad1 NDIRECT) with a12 by (by rewrite (cl_get _ _ C1)). apply wp_bind. eapply wp_trunc_indirect; [exact A1|done|done|done|].
  intros s2 f2 l2 A2 F2 M2. apply wp_bind. eapply wp_fiset; [exact A2|]. rewrite aget_aset_eq, aset_aset by done. intros s3 A3.
  set (i' := set_isize 0 (set_iaddrs (repeat 0 13) i)) in *. assert (Ei : aget no_inode (aset ic ip i') ip = i') by (by apply aget_aset_eq).
  eapply (wp_iupdate g G ip); [exact A3|by rewrite Ei|by rewrite Ei|done|eapply map_room_room; [exact HR|done|rewrite Hh; cbn; lia|lia]|].
  rewrite Ei. cbn [vb vl]. intros s4 A4. eapply (HQ s4 f2 l2 i'); [done|done|done|exact A4].
Qed.
End Loops.
End Trunc.
