(* ===== verification/FsCache.v ===== *)
(** The inode cache (iget, idup, iput of fs.c): a table of reference counts. *)

From Stdlib Require Import ZArith Lia.
From stdpp Require Import base gmap strings numbers list.
From S2P Require Import Prelude Kstring Bio Log Fs FsBlock FsBitmap FsMap FsFile FsTrunc.

Open Scope Z_scope.
Open Scope kern_scope.

Abbreviation ent := (aget no_inode).

Definition ikey (i : inode) : Z * Z := (idev i, inum i).

(** No inode is in the cache twice. *)
Record cache_ok (ic : list inode) : Prop := {
  ca_len : length ic = 50%nat;
  ca_ref : forall p, 0 <= p < 50 -> 0 <= iref (ent ic p);
  ca_inj : forall p q, 0 <= p < 50 -> 0 <= q < 50 -> 0 < iref (ent ic p) -> 0 < iref (ent ic q) -> ikey (ent ic p) = ikey (ent ic q) -> p = q;
}.

(** What the cache stands for: how often each inode is referenced. *)
Definition refs (ic : list inode) : gmap (Z * Z) Z :=
  list_to_map ((fun i => (ikey i, iref i)) <$> filter (fun i => 0 < iref i) ic).

(** iget() on that table: None for a full one. *)
Definition refs_get (k : Z * Z) (m : gmap (Z * Z) Z) : option (gmap (Z * Z) Z) :=
  match m !! k with
  | Some r => Some (<[k := r + 1]> m)
  | None => if decide (Z.of_nat (size m) < NINODE) then Some (<[k := 1]> m) else None
  end.

(** The end of a reference. *)
Definition refs_put (k : Z * Z) (m : gmap (Z * Z) Z) : gmap (Z * Z) Z :=
  match m !! k with
  | Some r => if decide (r = 1) then delete k m else <[k := r - 1]> m
  | None => m
  end.

Lemma keys_nodup (l : list inode) :
  (forall i j x y, l !! i = Some x -> l !! j = Some y -> 0 < iref x -> 0 < iref y -> ikey x = ikey y -> i = j) ->
  NoDup (ikey <$> filter (fun i => 0 < iref i) l).
Proof.
  induction l as [|x l IH]; intros HI; [constructor|]. assert (IH' : NoDup (ikey <$> filter (fun i => 0 < iref i) l)).
  { apply IH. intros i j a b Ha Hb Pa Pb E. specialize (HI (S i) (S j) a b Ha Hb Pa Pb E). lia. }
  rewrite filter_cons. destruct (decide (0 < iref x)) as [Hx|]; [|done]. rewrite fmap_cons. apply NoDup_cons. split; [|done].
  intros (y & E & Hy)%list_elem_of_fmap. apply list_elem_of_filter in Hy as [Py [j Hj]%list_elem_of_lookup_1]. by specialize (HI 0%nat (S j) x y eq_refl Hj Hx Py E).
Qed.

Lemma ent_lookup ic n x : ic !! n = Some x -> ent ic (Z.of_nat n) = x.
Proof. intros Hx. unfold aget. destruct (Z.ltb_spec (Z.of_nat n) 0); [lia|]. by rewrite Nat2Z.id, nth_lookup, Hx. Qed.

Lemma filter_all (l : list inode) : Forall (fun i => 0 < iref i) l -> filter (fun i => 0 < iref i) l = l.
Proof. induction 1 as [|x l Hx Hl IH]; [done|]. rewrite filter_cons, decide_True by done. by rewrite IH. Qed.

Section Refs.
Context (ic : list inode) (C : cache_ok ic).

Lemma ent_some p : 0 <= p < 50 -> ic !! Z.to_nat p = Some (ent ic p).
Proof.
  intros Hp. destruct (lookup_lt_is_Some_2 ic (Z.to_nat p)) as [x Hx]; [rewrite (ca_len _ C); lia|]. rewrite Hx. f_equal. rewrite <- (ent_lookup ic _ x Hx). by rewrite Z2Nat.id by lia.
Qed.

Lemma refs_keys : NoDup (((fun i => (ikey i, iref i)) <$> filter (fun i => 0 < iref i) ic).*1).
Proof.
  rewrite <- list_fmap_compose. apply keys_nodup. intros i j x y Hi Hj Px Py E. pose proof (lookup_lt_Some _ _ _ Hi). pose proof (lookup_lt_Some _ _ _ Hj). rewrite (ca_len _ C) in *.
  apply ent_lookup in Hi, Hj. subst. assert (Z.of_nat i = Z.of_nat j) by (apply (ca_inj _ C); [lia|lia|done|done|done]). lia.
Qed.

Lemma refs_lookup k r : refs ic !! k = Some r <-> exists p, 0 <= p < 50 /\ ikey (ent ic p) = k /\ iref (ent ic p) = r /\ 0 < r.
Proof.
  unfold refs. rewrite <- elem_of_list_to_map by apply refs_keys. rewrite list_elem_of_fmap. split.
  - intros (x & [= -> ->] & [Px [n Hn]%list_elem_of_lookup_1]%list_elem_of_filter). pose proof (lookup_lt_Some _ _ _ Hn) as Hl. rewrite (ca_len _ C) in Hl.
    exists (Z.of_nat n). rewrite (ent_lookup _ _ _ Hn). split_and!; [lia|lia|done|done|done].
  - intros (p & Hp & <- & <- & Hr). exists (ent ic p). split; [done|]. apply list_elem_of_filter. split; [done|]. eapply list_elem_of_lookup_2. by apply ent_some.
Qed.

Lemma refs_none k : refs ic !! k = None <-> forall p, 0 <= p < 50 -> 0 < iref (ent ic p) -> ikey (ent ic p) <> k.
Proof.
  split.
  - intros E p Hp Hr Ek. assert (E1 : refs ic !! k = Some (iref (ent ic p))) by (apply refs_lookup; by exists p). congruence.
  - intros HN. destruct (refs ic !! k) as [r|] eqn:E; [|done]. apply refs_lookup in E as (p & Hp & Ek & Er & Hr). exfalso. apply (HN p); [done|lia|done].
Qed.

Lemma refs_size : size (refs ic) = length (filter (fun i => 0 < iref i) ic).
Proof. unfold refs. rewrite <- (length_fmap (fun i => (ikey i, iref i))). rewrite <- length_map_to_list. apply Permutation_length, map_to_list_to_map, refs_keys. Qed.

Lemma refs_full : ~ Z.of_nat (size (refs ic)) < NINODE <-> forall p, 0 <= p < 50 -> 0 < iref (ent ic p).
Proof.
  rewrite refs_size. change NINODE with 50. split.
  - intros HS p Hp. destruct (decide (0 < iref (ent ic p))) as [|Hn]; [done|]. exfalso. apply HS.
    pose proof (length_filter_lt (fun i => 0 < iref i) ic (ent ic p) ltac:(eapply list_elem_of_lookup_2; by apply ent_some) Hn). rewrite (ca_len _ C) in *. lia.
  - intros HP. rewrite filter_all; [rewrite (ca_len _ C); lia|]. apply Forall_lookup. intros n x Hn. pose proof (lookup_lt_Some _ _ _ Hn) as Hl. rewrite (ca_len _ C) in Hl.
    rewrite <- (ent_lookup _ _ _ Hn). apply HP. lia.
Qed.

(** Entry p changes; the inode it then has is not in another entry. *)
Section Change.
Context (p : Z) (i' : inode) (Hp : 0 <= p < 50) (Hr : 0 <= iref i').
Context (HN : forall q, 0 <= q < 50 -> q <> p -> 0 < iref (ent ic q) -> ikey (ent ic q) <> ikey i').

Lemma ent_change q : ent (aset ic p i') q = if p =? q then i' else ent ic q.
Proof. apply aget_aset. rewrite (ca_len _ C). lia. Qed.

Lemma cache_change : cache_ok (aset ic p i').
Proof.
  constructor.
  - rewrite length_aset. apply C.
  - intros q Hq. rewrite ent_change. destruct (_ =? _); [done|by apply C].
  - intros q q' Hq Hq'. rewrite !ent_change. destruct (Z.eqb_spec p q) as [<-|N1], (Z.eqb_spec p q') as [<-|N2]; intros P1 P2 E; [done| | |by apply (ca_inj _ C)].
    + exfalso. apply (HN q'); [done|congruence|done|done].
    + exfalso. apply (HN q); [done|congruence|done|done].
Qed.
End Change.
End Refs.

(** A referenced entry gets another count. *)
Lemma refs_count ic p i' : cache_ok ic -> 0 <= p < 50 -> 0 < iref (ent ic p) -> ikey i' = ikey (ent ic p) -> 0 <= iref i' ->
  cache_ok (aset ic p i') /\ refs (aset ic p i') = if decide (iref i' = 0) then delete (ikey i') (refs ic) else <[ikey i' := iref i']> (refs ic).
Proof.
  intros C Hp Hr Hk Hr'. assert (HN : forall q, 0 <= q < 50 -> q <> p -> 0 < iref (ent ic q) -> ikey (ent ic q) <> ikey i').
  { intros q Hq Hne Hrq E. apply Hne. apply (ca_inj _ C); [done|done|done|done|congruence]. }
  pose proof (cache_change ic C p i' Hp Hr' HN) as C'. split; [done|]. apply map_eq. intros k. apply option_eq. intros r. rewrite (refs_lookup _ C').
  assert (HL : (exists q, 0 <= q < 50 /\ ikey (ent (aset ic p i') q) = k /\ iref (ent (aset ic p i') q) = r /\ 0 < r) <->
    (k = ikey i' /\ r = iref i' /\ 0 < r) \/ (k <> ikey i' /\ refs ic !! k = Some r)).
  { rewrite (refs_lookup _ C). setoid_rewrite (ent_change ic C p i' Hp). split.
    - intros (q & Hq & H1 & H2 & H3). destruct (Z.eqb_spec p q) as [<-|Hne]; [by left|]. right. split; [|by exists q]. intros ->. apply (HN q); [done|congruence|lia|done].
    - intros [(-> & -> & H3)|(Hne & q & Hq & H1 & H2 & H3)]; [exists p; rewrite Z.eqb_refl; split_and!; (done || lia)|]. exists q. replace (p =? q) with false; [split_and!; (done || lia)|]. symmetry. apply Z.eqb_neq. intros ->. congruence. }
  rewrite HL. destruct (decide (iref i' = 0)) as [E0|E0].
  - rewrite lookup_delete_Some. split; [intros [(-> & -> & ?)|[? ?]]; [lia|done]|intros [? ?]; right; done].
  - rewrite lookup_insert_Some. split; [intros [(-> & -> & ?)|[? ?]]; [by left|right; by split]|intros [[<- <-]|[? ?]]; [left; split_and!; [done|done|lia]|right; by split]].
Qed.

(** A free entry is taken. *)
Lemma refs_new ic p i' : cache_ok ic -> 0 <= p < 50 -> iref (ent ic p) = 0 -> refs ic !! ikey i' = None -> 0 < iref i' ->
  cache_ok (aset ic p i') /\ refs (aset ic p i') = <[ikey i' := iref i']> (refs ic).
Proof.
  intros C Hp Hr Hk Hr'. pose proof (proj1 (refs_none ic C _) Hk) as HK. assert (HN : forall q, 0 <= q < 50 -> q <> p -> 0 < iref (ent ic q) -> ikey (ent ic q) <> ikey i') by (intros; by apply HK).
  pose proof (cache_change ic C p i' Hp ltac:(lia) HN) as C'. split; [done|]. apply map_eq. intros k. apply option_eq. intros r.
  rewrite (refs_lookup _ C'), lookup_insert_Some, (refs_lookup _ C). setoid_rewrite (ent_change ic C p i' Hp). split.
  - intros (q & Hq & H1 & H2 & H3). destruct (Z.eqb_spec p q) as [<-|Hne]; [by left|]. right. split; [|by exists q]. intros E. apply (HN q); [done|congruence|lia|congruence].
  - intros [[<- <-]|(Hne & q & Hq & H1 & H2 & H3)]; [exists p; rewrite Z.eqb_refl; split_and!; (done || lia)|]. exists q. replace (p =? q) with false; [split_and!; (done || lia)|]. symmetry. apply Z.eqb_neq. intros ->. lia.
Qed.

Section Ops.
Context {B : Type} `{BlockLaws B}.
Abbreviation fs := (@fs B).
Implicit Types s : fs.

Lemma wp_iget_loop dev n_ n : forall p empty s (Q : Z + option Z -> fs -> Prop) (ic := icache s), p + Z.of_nat n = 50 -> 0 <= p ->
  (forall q, 0 <= q < p -> 0 < iref (ent ic q) -> ikey (ent ic q) <> (dev, n_)) ->
  match empty with Some e => 0 <= e < p /\ iref (ent ic e) = 0 | None => forall q, 0 <= q < p -> iref (ent ic q) <> 0 end ->
  (forall q, 0 <= q < 50 -> 0 < iref (ent ic q) -> ikey (ent ic q) = (dev, n_) ->
     iref (ent ic q) < 2 ^ 31 - 1 /\ Q (inl q) (upd_inode q (fun i => set_iref (iref i + 1) i) s)) ->
  (forall e, (forall q, 0 <= q < 50 -> 0 < iref (ent ic q) -> ikey (ent ic q) <> (dev, n_)) ->
     match e with Some e => 0 <= e < 50 /\ iref (ent ic e) = 0 | None => forall q, 0 <= q < 50 -> iref (ent ic q) <> 0 end -> Q (inr e) s) ->
  wp (iget_loop n p empty dev n_) s Q.
Proof.
  induction n as [|n IH]; intros p empty s Q ic Hn Hp HN HE HF HQ; cbn [iget_loop].
  - apply wp_ret. assert (p = 50) by lia. subst p. by apply HQ.
  - apply wp_bind, wp_gets. unfold id, the_inode. fold ic. set (i := ent ic p).
    destruct ((iref i >? 0) && (idev i =? dev) && (inum i =? n_)) eqn:E.
    + apply andb_true_iff in E as [[E1 E2%Z.eqb_eq]%andb_true_iff E3%Z.eqb_eq]. destruct (HF p ltac:(lia) ltac:(fold i; lia)) as [H1 H2]; [change (ikey i = (dev, n_)); unfold ikey; by rewrite E2, E3|].
      fold i in H1. apply wp_bind, wp_require; [apply Z.ltb_lt; lia|]. apply wp_bind, wp_modify, wp_ret. exact H2.
    + apply IH; [lia|lia| | |exact HF|exact HQ].
      * intros q Hq Hr. destruct (decide (q = p)) as [->|]; [|apply HN; [lia|done]]. fold ic i in Hr |- *. intros [= E2 E3]. rewrite E2, E3, !Z.eqb_refl in E. lia.
      * fold ic. destruct empty as [e|]; [destruct HE; split; [lia|done]|]. destruct (Z.eqb_spec (iref i) 0) as [E0|E0]; [split; [lia|done]|].
        intros q Hq. destruct (decide (q = p)) as [->|]; [done|]. apply HE. lia.
Qed.

(** iget() on the cache: the new entry, or the count of the one that is there. *)
Definition got_inode (ic : list inode) (k : Z * Z) (p : Z) (ic' : list inode) : Prop :=
  0 <= p < 50 /\ match refs ic !! k with
  | Some r => ikey (ent ic p) = k /\ iref (ent ic p) = r /\ ic' = aset ic p (set_iref (r + 1) (ent ic p))
  | None => iref (ent ic p) = 0 /\ exists i', ikey i' = k /\ iref i' = 1 /\ valid i' = false /\ ilk i' = ilk (ent ic p) /\ ic' = aset ic p i'
  end.

Lemma got_refs ic k p ic' : cache_ok ic -> got_inode ic k p ic' -> cache_ok ic' /\ ikey (ent ic' p) = k /\
  refs ic' = <[k := match refs ic !! k with Some r => r + 1 | None => 1 end]> (refs ic).
Proof.
  intros C [Hp HG]. pose proof (ca_len _ C). destruct (refs ic !! k) as [r|] eqn:E.
  - destruct HG as (Hk & Hr & ->). assert (0 < r). { apply (refs_lookup _ C) in E as (? & ? & ? & ? & ?). done. }
    destruct (refs_count ic p (set_iref (r + 1) (ent ic p)) C Hp) as [C' R]; [lia|done|cbn; lia|]. split; [done|]. rewrite aget_aset_eq by lia. split; [done|].
    rewrite R. cbn [iref set_iref]. rewrite decide_False by lia. change (ikey (set_iref (r + 1) (ent ic p))) with (ikey (ent ic p)). by rewrite Hk.
  - destruct HG as (Hr & i' & Hk & Hr' & _ & _ & ->). destruct (refs_new ic p i' C Hp Hr) as [C' R]; [by rewrite Hk|lia|]. split; [done|]. rewrite aget_aset_eq by lia. split; [done|].
    by rewrite R, Hk, Hr'.
Qed.

Lemma wp_iget dev n_ s (Q : Z -> fs -> Prop) (ic := icache s) : cache_ok ic -> refs_get (dev, n_) (refs ic) <> None ->
  (forall r, refs ic !! (dev, n_) = Some r -> r < 2 ^ 31 - 1) ->
  (forall p ic', got_inode ic (dev, n_) p ic' -> Q p (set_icache ic' s)) -> wp (iget dev n_) s Q.
Proof.
  intros C HG HO HQ. unfold iget. apply wp_bind. apply wp_iget_loop; [done|done|intros; lia|intros; lia| |]; fold ic.
  - intros q Hq Hr Hk. assert (E : refs ic !! (dev, n_) = Some (iref (ent ic q))) by (apply (refs_lookup _ C); by exists q). split; [by apply HO|]. apply wp_ret, HQ.
    split; [done|]. rewrite E. by split_and!.
  - intros e HN HE. assert (E : refs ic !! (dev, n_) = None) by (by apply (refs_none _ C)). destruct e as [e|].
    + destruct HE as [He1 He2]. apply wp_bind, wp_modify, wp_ret, HQ. split; [done|]. rewrite E. split; [done|]. eexists. split_and!; [..|reflexivity]; done.
    + exfalso. apply HG. unfold refs_get. rewrite E, decide_False; [done|]. apply (refs_full _ C). intros p Hp. specialize (HE p Hp). pose proof (ca_ref _ C p Hp). lia.
Qed.

Lemma iget_full dev n_ s : cache_ok (icache s) -> refs_get (dev, n_) (refs (icache s)) = None -> iget dev n_ s = Panic "iget: no inodes".
Proof.
  intros C HG. unfold refs_get in HG. destruct (refs (icache s) !! (dev, n_)) as [r|] eqn:E; [done|]. destruct (decide _) as [|Hd]; [done|]. pose proof (proj1 (refs_full _ C) Hd) as HF. pose proof (proj1 (refs_none _ C _) E) as HN.
  destruct (wp_run (iget_loop (Z.to_nat NINODE) 0 None dev n_) s (fun r s' => r = inr None /\ s' = s)) as (r & s' & E1 & -> & ->).
  - apply wp_iget_loop; [done|done|intros; lia|intros; lia| |].
    + intros q Hq Hr Hk. exfalso. by apply (HN q).
    + intros [e|] _ HE; [|done]. destruct HE as [He He0]. specialize (HF e He). lia.
  - unfold iget, bind. by rewrite E1.
Qed.

(** ** iput() *)

Context (g : superblock) (G : geom_ok g) (pid : Z).

(** The inode [i] is deleted: its blocks are free, its disk inode is free, and
    the rest of the disk is as before. *)
Record deleted (f : Z -> list Z) (i : inode) (f' : Z -> list Z) : Prop := {
  dl_bit : forall c, 0 <= c < sb_size g -> bit g f' c = true <-> bit g f c = true /\ ~ exists k, is_slot k /\ slot f (iaddrs i) k <> 0 /\ slot f (iaddrs i) k = c;
  dl_inode : disk_inode g f' (inum i) = mk_dinode 0 (imajor i) (iminor i) (inlink i) 0 (repeat 0 13);
  dl_others : forall m, 0 <= m < sb_ninodes g -> m <> inum i -> disk_inode g f' m = disk_inode g f m;
  dl_data : forall x, datastart g <= x -> f' x = f x;
}.

Lemma put_inode_above n x f b : 0 <= n < sb_ninodes g -> sb_bmapstart g <= b -> put_inode g n x f b = f b.
Proof. intros Hn Hb. destruct (iblock_eq g G _ Hn) as [_ Hib]. unfold put_inode, vput. by replace (b =? IBLOCK n g) with false by lia. Qed.

Lemma put_inode_bit n x f c : 0 <= n < sb_ninodes g -> 0 <= c < sb_size g -> bit g (put_inode g n x f) c = bit g f c.
Proof. intros Hn Hc. apply agree_bit; [done| |done]. intros b [Hb _]. by apply put_inode_above. Qed.

Lemma length_put_inode n m x f : length (f (IBLOCK m g)) = 512%nat -> length (f (IBLOCK n g)) = 512%nat -> length (put_inode g n x f (IBLOCK m g)) = 512%nat.
Proof. intros Hm Hn. unfold put_inode, vput. destruct (_ =? _); [by rewrite length_put_dinode|done]. Qed.

Lemma inode_deleted f i f1 x1 x2 : fields_ok g i -> length (f (IBLOCK (inum i) g)) = 512%nat -> freed g f (fun c => exists k, 0 <= k < 141 /\ slot f (iaddrs i) k <> 0 /\ slot f (iaddrs i) k = c) f1 ->
  x1 = mk_dinode (itype i) (imajor i) (iminor i) (inlink i) 0 (repeat 0 13) -> x2 = mk_dinode 0 (imajor i) (iminor i) (inlink i) 0 (repeat 0 13) ->
  deleted f i (put_inode g (inum i) x2 (put_inode g (inum i) x1 f1)).
Proof.
  intros (S1 & S2 & S3 & S4 & Hn) HL [F1 F2] E1 E2. assert (HF : forall m, 0 <= m < sb_ninodes g -> f1 (IBLOCK m g) = f (IBLOCK m g)) by (intros m Hm; destruct (iblock_eq g G _ Hm); apply F2; lia).
  assert (D0 : Forall word_ok (repeat 0 13)) by (apply Forall_replicate || (apply Forall_forall; intros x Hx%list_elem_of_In%repeat_spec; subst; unfold word_ok; lia)).
  assert (D1 : dinode_ok x1) by (rewrite E1; constructor; done). assert (D2 : dinode_ok x2) by (rewrite E2; constructor; done).
  assert (L1 : length (f1 (IBLOCK (inum i) g)) = 512%nat) by (by rewrite HF). constructor.
  - intros c Hc. rewrite !put_inode_bit by done. by rewrite F1.
  - rewrite disk_put_inode; [by rewrite Z.eqb_refl, E2|done|done|done|by apply length_put_inode|done].
  - intros m Hm Hne. rewrite !disk_put_inode by (done || by apply length_put_inode). replace (m =? inum i) with false by lia. unfold disk_inode. by rewrite HF.
  - intros x Hx. pose proof (bblock_range g G 0). destruct (g_size _ G) as [G1 _]. rewrite !put_inode_above by (done || lia). apply F2. by right.
Qed.

Section Put.
Context (ip : Z) (ic : list inode) (i : inode) (v : bview) (s : fs) (C : cache_ok ic) (Hi : ent ic ip = i).
Context (A : At ic g v s) (Hip : 0 <= ip < 50) (Hr : 0 < iref i) (Hlk : locked (ilk i) = false).

(** The entry when iput() returns. *)
Definition put_entry (i : inode) : inode := set_iref (iref i - 1) (set_ilk initsleeplock i).

(** The entry when it has deleted the inode. *)
Definition gone_entry (i : inode) : inode :=
  mk_inode (idev i) (inum i) 0 initsleeplock false 0 (imajor i) (iminor i) (inlink i) 0 (repeat 0 13).

Lemma wp_iput_keep (Q : unit -> fs -> Prop) : valid i = false \/ inlink i <> 0 \/ iref i <> 1 ->
  (forall s', At (aset ic ip (put_entry i)) g v s' -> Q tt s') -> wp (iput pid ip) s Q.
Proof.
  intros HK HQ. pose proof (ca_len _ C) as Hl. unfold iput, lock_inode, acquiresleep. apply wp_bind, wp_bind. eapply wp_figet; [exact A|]. rewrite Hi, Hlk.
  eapply wp_fiset; [exact A|]. rewrite Hi. intros s1 A1. apply wp_bind. eapply wp_figet; [exact A1|]. rewrite aget_aset_eq by lia. unfold id. cbn [valid inlink set_ilk].
  apply wp_bind. assert (HE : forall s', At (aset ic ip (set_ilk (mkSleep true pid) i)) g v s' -> wp (iset ip (fun i0 => set_ilk (releasesleep (ilk i0)) i0) ;;; iset ip (fun i0 => set_iref (iref i0 - 1) i0)) s' Q).
  { intros s' A'. apply wp_bind. eapply wp_fiset; [exact A'|]. rewrite aget_aset_eq, aset_aset by lia. intros s2 A2. eapply wp_fiset; [exact A2|]. rewrite aget_aset_eq, aset_aset by lia. exact HQ. }
  apply wp_when; intros Hb; [|by apply HE]. apply wp_bind. eapply wp_figet; [exact A1|]. rewrite aget_aset_eq by lia. cbn [iref set_ilk].
  replace (iref i =? 1) with false; [by apply HE|]. symmetry. apply Z.eqb_neq. apply andb_true_iff in Hb as [Hv Hn%Z.eqb_eq]. rewrite Hv in HK. intuition congruence.
Qed.

Lemma wp_iput_last (Q : unit -> fs -> Prop) : valid i = true -> inlink i = 0 -> iref i = 1 -> idev i = 1 -> fields_ok g i -> layout g (vb v) (iaddrs i) -> vh v = [] -> map_room g 2 v ->
  (forall s' f' l', deleted (vb v) i f' -> At (aset ic ip (gone_entry i)) g (mk_view f' [] l') s' -> Q tt s') -> wp (iput pid ip) s Q.
Proof.
  intros Hv Hn Hr1 Hd HF HL Hh HR HQ. pose proof (ca_len _ C) as Hl. unfold iput, lock_inode, acquiresleep. apply wp_bind, wp_bind. eapply wp_figet; [exact A|]. rewrite Hi, Hlk.
  eapply wp_fiset; [exact A|]. rewrite Hi. intros s1 A1. apply wp_bind. eapply wp_figet; [exact A1|]. set (ic1 := aset ic ip (set_ilk (mkSleep true pid) i)) in *. set (i1 := set_ilk (mkSleep true pid) i) in *.
  assert (E1 : ent ic1 ip = i1) by (apply aget_aset_eq; lia). assert (Hl1 : length ic1 = 50%nat) by (unfold ic1; by rewrite length_aset). rewrite E1. unfold id. change (valid i1) with (valid i). change (inlink i1) with (inlink i). rewrite Hv, Hn. cbn [andb Z.eqb when].
  apply wp_bind, wp_bind. eapply wp_figet; [exact A1|]. rewrite E1. change (iref i1) with (iref i). rewrite Hr1. cbn [Z.eqb Pos.eqb when]. apply wp_bind.
  eapply (wp_itrunc g G ip ic1 ltac:(lia) i1 E1); [done|done|done|done|exact A1|apply HF|]. intros s2 f1 l1 i2 Ei2 F1 M1 A2. change (iaddrs i1) with (iaddrs i) in *. change (inum i1) with (inum i) in *.
  apply wp_bind. eapply wp_fiset; [exact A2|]. unfold ic1. rewrite !aset_aset, aget_aset_eq by lia. intros s3 A3. set (i3 := set_itype 0 i2) in *. assert (E3 : ent (aset ic ip i3) ip = i3) by (apply aget_aset_eq; lia).
  assert (In3 : inum i3 = inum i) by (unfold i3; by rewrite Ei2). apply wp_bind. eapply (wp_iupdate g G ip); [exact A3|rewrite E3; unfold i3; by rewrite Ei2|rewrite E3, In3; apply HF|done| |].
  { destruct HR as [R1 R2]. pose proof (map_blocks_length g G _ _ M1). pose proof (vlog_length (IBLOCK (inum i) g) l1). split; cbn; lia. }
  rewrite E3, In3. cbn [vb vl]. intros s4 A4. eapply wp_fiset; [exact A4|]. rewrite aset_aset, E3. intros s5 A5. apply wp_bind. eapply wp_fiset; [exact A5|]. rewrite aset_aset, aget_aset_eq by lia. intros s6 A6.
  eapply wp_fiset; [exact A6|]. rewrite aset_aset, aget_aset_eq by lia. intros s7 A7.
  match type of A7 with At (aset _ _ ?x) _ _ _ => assert (E7 : x = gone_entry i) by (unfold i3, gone_entry; rewrite Ei2; unfold i1; cbn; rewrite Hr1; reflexivity) end. rewrite E7 in A7. eapply HQ; [|exact A7].
  apply inode_deleted; [done| |exact F1|by rewrite Ei2|unfold i3; by rewrite Ei2]. apply (law_len (blk s)); [apply A|]. apply iblock_disk; [done|apply HF].
Qed.
End Put.
End Ops.
