(* ===== verification/FsDir.v ===== *)
(** Directories (dirlookup, dirlink of fs.c). *)

From Stdlib Require Import ZArith Lia.
From stdpp Require Import base gmap strings numbers list.
From S2P Require Import Prelude Kstring Bio Log Fs FsBlock FsBitmap FsMap FsFile FsTrunc FsCache.

Open Scope Z_scope.
Open Scope kern_scope.

(** ** Names *)

(** A name and what is stored of it compare alike. *)
Lemma strncmp_strncpy n : forall p t, strncmp p (strncpy t n) n = strncmp p t n.
Proof.
  induction n as [|n IH]; intros p t; [done|]. cbn [strncmp strncpy]. destruct (Z.eqb_spec (hd 0 t) 0) as [E|E]; cbn [hd tl].
  - rewrite E. destruct (Z.eqb_spec (hd 0 p) 0) as [E1|E1]; cbn [negb andb]; [done|]. by replace (hd 0 p =? 0) with false by lia.
  - by rewrite IH.
Qed.

Lemma strncmp_refl n : forall t, strncmp t t n = 0.
Proof. induction n as [|n IH]; intros t; [done|]. cbn [strncmp]. rewrite Z.eqb_refl, andb_true_r, Z.sub_diag, IH. by destruct (negb _). Qed.

Lemma length_strncpy n : forall t, length (strncpy t n) = n.
Proof. induction n as [|n IH]; intros t; [done|]. cbn [strncpy]. destruct (_ =? _); cbn; [by rewrite repeat_length|by rewrite IH]. Qed.

Definition char_ok (c : Z) : Prop := 0 <= c < 256.

Lemma hd_char p : Forall char_ok p -> char_ok (hd 0 p) /\ Forall char_ok (tl p).
Proof. intros [|c p' Hc Hp]; (split; [|done]); unfold char_ok in *; cbn; lia. Qed.

(** Names that compare equal compare alike with every other. *)
Lemma strncmp_congr n : forall p q x, Forall char_ok p -> Forall char_ok q -> strncmp p q n = 0 -> strncmp p x n = strncmp q x n.
Proof.
  induction n as [|n IH]; intros p q x [Hp Hp']%hd_char [Hq Hq']%hd_char E; [done|]. cbn [strncmp] in E |- *. unfold char_ok in *.
  destruct (Z.eqb_spec (hd 0 p) (hd 0 q)) as [Eq|Ne].
  - rewrite <- Eq in *. destruct (Z.eqb_spec (hd 0 p) 0) as [E0|E0]; cbn [negb andb] in *; [done|]. by rewrite (IH (tl p) (tl q) (tl x) Hp' Hq' E).
  - rewrite andb_false_r in E. unfold u8 in E. rewrite !Z.mod_small in E by (change (2 ^ 8) with 256; lia). lia.
Qed.

(** The names are the same as names of entries. *)
Definition same_name (p q : list Z) : bool := namecmp p q =? 0.

Lemma length_dirent n nm : length (mk_dirent n nm) = 16%nat.
Proof. unfold mk_dirent. rewrite length_app, length_strncpy. done. Qed.

Lemma dirent_inum n nm : 0 <= n < 65536 -> de_inum (mk_dirent n nm) = n.
Proof. intros Hn. unfold de_inum, mk_dirent, le16. unfold u16. rewrite (Z.mod_small n) by lia. change (n mod 256 + 256 * (n / 256) = n). zdm. Qed.

Lemma dirent_name p n nm : namecmp p (de_name (mk_dirent n nm)) = namecmp p nm.
Proof. unfold namecmp, de_name, mk_dirent. cbn [app drop]. apply strncmp_strncpy. Qed.

(** ** What a directory says *)

(** Entry k. *)
Definition dent (f : Z -> list Z) (i : inode) (k : Z) : list Z := fbytes f (iaddrs i) (k * 16) 16.
Definition dmatch (f : Z -> list Z) (i : inode) (nm : list Z) (k : Z) : bool :=
  negb (de_inum (dent f i k) =? 0) && same_name nm (de_name (dent f i k)).

(** The first entry with the name. *)
Definition dir_find (f : Z -> list Z) (i : inode) (nm : list Z) : option Z :=
  snd <$> list_find (fun k => dmatch f i nm k = true) (seqZ 0 (isize i / 16)).

(** The directory as a map from names to inode numbers. *)
Definition dir_map (f : Z -> list Z) (i : inode) (nm : list Z) : option Z :=
  (fun k => de_inum (dent f i k)) <$> dir_find f i nm.

Lemma dir_find_some f i nm k : dir_find f i nm = Some k <-> 0 <= k < isize i / 16 /\ dmatch f i nm k = true /\ forall j, 0 <= j < k -> dmatch f i nm j = false.
Proof.
  unfold dir_find. rewrite fmap_Some. split.
  - intros ([n x] & E & ->). cbn [snd]. apply list_find_Some in E as (Hn & HP & HN). apply lookup_seqZ in Hn as [-> Hr]. split; [lia|]. split; [done|]. intros j Hj.
    apply not_true_iff_false. apply (HN (Z.to_nat j)); [|lia]. apply lookup_seqZ. lia.
  - intros (Hk & HM & HN). exists (Z.to_nat k, k). split; [|done]. apply list_find_Some. split_and!; [apply lookup_seqZ; lia|done|]. intros j y Hj Hlt. apply lookup_seqZ in Hj as [-> Hr].
    rewrite HN by lia. done.
Qed.

Lemma dir_find_none f i nm : dir_find f i nm = None <-> forall k, 0 <= k < isize i / 16 -> dmatch f i nm k = false.
Proof.
  unfold dir_find. rewrite fmap_None, list_find_None, Forall_forall. split.
  - intros HF k Hk. apply not_true_iff_false, HF, elem_of_seqZ. lia.
  - intros HF k Hk%elem_of_seqZ. rewrite HF by lia. done.
Qed.

Section Dir.
Context {B : Type} `{BlockLaws B}.
Context (g : superblock) (dp : Z) (ic : list inode) (i : inode) (v : bview) (Hi : ent ic dp = i).
Context (W : writable g ic dp v) (C : cache_ok ic) (HT : itype i = T_DIR) (HS : isize i mod 16 = 0) (HR : room 1 v).
Context (devread : Z -> option (Z -> Z -> M (fs (B := B)) (Z * list Z))).
Abbreviation fs := (@fs B).
Implicit Types s : fs.

Lemma dir_dev : idev i = 1.
Proof. rewrite <- Hi. apply W. Qed.

Lemma dir_size : 0 <= isize i <= 71680.
Proof. pose proof (fo_size _ _ _ (wt_file _ _ _ _ W)) as Hs. by rewrite Hi in Hs. Qed.

Lemma wp_read_dent s k (Q : Z * list Z -> fs -> Prop) : At ic g v s -> 0 <= k < isize i / 16 -> (forall s', At ic g v s' -> Q (16, dent (vb v) i k) s') -> wp (readi devread dp (k * 16) 16) s Q.
Proof.
  intros A Hk HQ. destruct W as [W1 W2 W3 W4 W5 W6 W7 W8]. pose proof dir_size. assert (Hb : k * 16 + 16 <= isize i) by zdm.
  eapply (wp_readi g W1 dp devread ic v s (k * 16) 16); [done|done|done|done|done|done|lia|lia|rewrite Hi; lia|]. intros s' _ _ A'. rewrite Hi.
  replace (Z.min 16 (isize i - k * 16)) with 16 by lia. by apply HQ.
Qed.

Lemma wp_dirlookup s nm (Q : option (Z * Z) -> fs -> Prop) : At ic g v s ->
  (dir_find (vb v) i nm = None -> forall s', At ic g v s' -> Q None s') ->
  (forall k, dir_find (vb v) i nm = Some k -> refs_get (1, de_inum (dent (vb v) i k)) (refs ic) <> None /\ (forall r, refs ic !! (1, de_inum (dent (vb v) i k)) = Some r -> r < 2 ^ 31 - 1) /\
     forall p ic' s', got_inode ic (1, de_inum (dent (vb v) i k)) p ic' -> At ic' g v s' -> Q (Some (p, k * 16)) s') ->
  wp (dirlookup devread dp nm) s Q.
Proof.
  intros A HN HF. pose proof dir_size as Hsz. unfold dirlookup. apply wp_bind. eapply wp_figet; [exact A|]. rewrite Hi. unfold id. rewrite HT. cbn [negb Z.eqb T_DIR Pos.eqb].
  assert (En : (isize i + 15) / 16 = isize i / 16) by zdm. rewrite En.
  apply (wp_search (fun k s' => At ic g v s' /\ forall j, 0 <= j < k -> dmatch (vb v) i nm j = false)); [split; [done|intros; lia]| |].
  - intros k s1 Hk (A1 & Hj). apply wp_bind. eapply wp_read_dent; [exact A1|lia|]. intros s2 A2. cbn [negb Z.eqb Pos.eqb].
    assert (HM : dmatch (vb v) i nm k = negb (de_inum (dent (vb v) i k) =? 0) && (namecmp nm (de_name (dent (vb v) i k)) =? 0)) by done.
    assert (HI : dmatch (vb v) i nm k = false -> At ic g v s2 /\ forall j, 0 <= j < k + 1 -> dmatch (vb v) i nm j = false).
    { intros Hf. split; [done|]. intros j Hj'. destruct (decide (j = k)) as [->|]; [done|]. apply Hj. lia. }
    destruct (de_inum (dent (vb v) i k) =? 0) eqn:E1; [apply wp_ret; by apply HI|]. destruct (namecmp nm _ =? 0) eqn:E2; [|apply wp_ret; by apply HI].
    destruct (HF k) as (H1 & H2 & H3); [apply dir_find_some; split_and!; [lia|lia|done|done]|]. apply wp_bind. rewrite dir_dev. apply wp_iget; rewrite (at_ic _ _ _ _ A2); [done|done|done|].
    intros p ic' HG. apply wp_ret. apply (H3 p ic'); [done|]. destruct A2. by constructor.
  - intros s1 (A1 & Hj). apply HN; [|done]. apply dir_find_none. intros k Hk. apply Hj. lia.
Qed.

(** ** A new entry *)

(** Entry k is now d. *)
Lemma dent_written f f' i' k d j : written g f i (k * 16) d f' i' -> length d = 16%nat -> 0 <= j -> j * 16 + 16 <= 71680 -> dent f' i' j = if j =? k then d else dent f i j.
Proof.
  intros HW Ld Hj Hm. unfold dent. apply bytes_ext; [destruct (_ =? _); rewrite !fbytes_length; lia|]. rewrite fbytes_length. intros o Ho. rewrite aget_fbytes by lia.
  rewrite (wr_byte _ _ _ _ _ _ _ HW) by lia. rewrite Ld. destruct (Z.eqb_spec j k) as [->|Hne].
  - replace ((k * 16 <=? k * 16 + o) && (k * 16 + o <? k * 16 + Z.of_nat 16)) with true by (symmetry; apply andb_true_iff; rewrite Z.leb_le, Z.ltb_lt; lia). f_equal. lia.
  - rewrite aget_fbytes by lia. replace ((k * 16 <=? j * 16 + o) && (j * 16 + o <? k * 16 + Z.of_nat 16)) with false; [done|]. symmetry. apply andb_false_iff. rewrite Z.leb_gt, Z.ltb_ge. lia.
Qed.

Definition entry_free (f : Z -> list Z) (k : Z) : Prop := k = isize i / 16 \/ 0 <= k < isize i / 16 /\ de_inum (dent f i k) = 0.

(** The directory with the name [nm] added, in entry k. *)
Section Added.
Context (f f' : Z -> list Z) (i' : inode) (k n_ : Z) (nm : list Z).
Context (HW : written g f i (k * 16) (mk_dirent n_ nm) f' i') (HE : entry_free f k) (Hk : k * 16 + 16 <= 71680).
Context (Hn : 0 < n_ < 65536) (Hc : Forall char_ok nm) (HN : dir_find f i nm = None).

Lemma added_range : 0 <= k <= isize i / 16.
Proof. pose proof dir_size. destruct HE as [->|[? _]]; zdm. Qed.

Lemma added_size : isize i' mod 16 = 0 /\ isize i' / 16 = Z.max (isize i / 16) (k + 1).
Proof.
  pose proof dir_size. pose proof added_range. rewrite (wr_size _ _ _ _ _ _ _ HW), length_dirent.
  rewrite decide_False by (intros E; pose proof (length_dirent n_ nm) as L; by rewrite E in L). split; zdm.
Qed.

Lemma added_dent j : 0 <= j < isize i' / 16 -> dent f' i' j = if j =? k then mk_dirent n_ nm else dent f i j.
Proof.
  intros Hj. pose proof dir_size. pose proof added_range. destruct added_size as [_ Es]. rewrite Es in Hj. apply dent_written; [done|apply length_dirent|lia|zdm].
Qed.

Lemma added_match nm' j : 0 <= j < isize i' / 16 -> dmatch f' i' nm' j = if j =? k then same_name nm' nm else dmatch f i nm' j.
Proof.
  intros Hj. unfold dmatch at 1. rewrite added_dent by done. destruct (Z.eqb_spec j k); [|done]. rewrite dirent_inum by lia. unfold same_name at 1. rewrite dirent_name. by replace (n_ =? 0) with false by lia.
Qed.

Lemma added_find nm' : Forall char_ok nm' -> same_name nm' nm = true -> dir_find f' i' nm' = Some k.
Proof.
  intros Hc' Es. pose proof added_range. destruct added_size as [_ Esz]. apply dir_find_some. split; [lia|]. split; [by rewrite added_match, Z.eqb_refl by lia|].
  intros j Hj. rewrite added_match by lia. replace (j =? k) with false by lia. apply Z.eqb_eq in Es. pose proof (proj1 (dir_find_none f i nm) HN j) as Hj'. unfold dmatch, same_name in *.
  unfold namecmp in *. rewrite (strncmp_congr _ nm' nm) by done. apply Hj'. lia.
Qed.

Lemma dir_map_add nm' : Forall char_ok nm' -> dir_map f' i' nm' = if same_name nm' nm then Some n_ else dir_map f i nm'.
Proof.
  intros Hc'. pose proof added_range. destruct added_size as [_ Esz]. unfold dir_map. destruct (same_name nm' nm) eqn:Es.
  - rewrite added_find by done. change (Some (de_inum (dent f' i' k)) = Some n_). by rewrite added_dent, Z.eqb_refl, dirent_inum by lia.
  - assert (Hfree : k < isize i / 16 -> dmatch f i nm' k = false) by (intros Hlt; destruct HE as [->|[_ E]]; [lia|]; unfold dmatch; by rewrite E).
    destruct (dir_find f i nm') as [j|] eqn:E.
    + apply dir_find_some in E as (Hj & Hm & Hno). assert (Hjk : j <> k) by (intros ->; rewrite Hfree in Hm by lia; done). assert (E' : dir_find f' i' nm' = Some j).
      { apply dir_find_some. split; [lia|]. split; [rewrite added_match by lia; by replace (j =? k) with false by lia|]. intros q Hq. rewrite added_match by lia. destruct (_ =? _); [done|by apply Hno]. }
      rewrite E'. change (Some (de_inum (dent f' i' j)) = Some (de_inum (dent f i j))). rewrite added_dent by lia. by replace (j =? k) with false by lia.
    + assert (E' : dir_find f' i' nm' = None); [|by rewrite E']. apply dir_find_none. intros j Hj. rewrite added_match by lia. destruct (Z.eqb_spec j k) as [->|]; [done|].
      apply (proj1 (dir_find_none f i nm') E). lia.
Qed.
End Added.

Context (pid : Z) (devwrite : Z -> option (Z -> list Z -> Z -> M fs Z)).

Lemma wp_dirlink_new s nm n_ (Q : Z -> fs -> Prop) : At ic g v s -> dir_find (vb v) i nm = None -> room 9 v -> 2 <= nfree g (vb v) -> isize i <= 71664 ->
  (forall k f' i' l' s', entry_free (vb v) k -> k * 16 + 16 <= 71680 -> written g (vb v) i (k * 16) (mk_dirent n_ nm) f' i' -> Z.of_nat (length l') <= Z.of_nat (length (vl v)) + 7 ->
     At (aset ic dp i') g (mk_view f' [] l') s' -> Q 0 s') ->
  wp (dirlink pid devread devwrite dp nm n_) s Q.
Proof.
  intros A HN HR9 Hnf Hsm HQ. pose proof dir_size as Hsz. unfold dirlink. apply wp_bind. apply wp_dirlookup; [done| |intros k E; congruence]. intros _ s1 A1. apply wp_bind. eapply wp_figet; [exact A1|]. rewrite Hi.
  assert (En : (isize i + 15) / 16 = isize i / 16) by zdm. rewrite En. apply wp_bind.
  assert (HW : forall k s2, At ic g v s2 -> entry_free (vb v) k -> wp (let! n := writei devwrite dp (mk_dirent n_ nm) (k * 16) 16 in if negb (n =? 16) then panic "dirlink" else ret 0) s2 Q).
  { intros k s2 A2 HE. assert (Hk : 0 <= k <= isize i / 16) by (destruct HE; zdm). apply wp_bind. destruct W as [W1 W2 W3 W4 W5 W6 W7 W8].
    eapply (wp_writei g W1 dp devwrite ic v s2 (mk_dirent n_ nm) (k * 16) 16 1); [done|done|done|done|done|done|done|done|zdm|rewrite length_dirent; lia|lia|zdm|done|done|rewrite Hi; zdm|].
    rewrite Hi. intros f' i' l' s3 _ Hm HW Hl _ A3. apply wp_ret. eapply (HQ k f' i' l'); [done|lia| |lia|exact A3].
    replace (mk_dirent n_ nm) with (slice (mk_dirent n_ nm) 0 16); [done|]. apply (take_ge (mk_dirent n_ nm)). rewrite length_dirent. lia. }
  apply (wp_search (fun k s2 => At ic g v s2)); [done| |].
  - intros k s2 Hk A2. apply wp_bind. eapply wp_read_dent; [exact A2|lia|]. intros s3 A3. cbn [negb Z.eqb Pos.eqb]. apply wp_ret. destruct (Z.eqb_spec (de_inum (dent (vb v) i k)) 0) as [E|E]; [|done].
    apply HW; [done|]. right. split; [lia|done].
  - intros s2 A2. apply HW; [done|by left].
Qed.
End Dir.
