(* ===== verification/FsPath.v ===== *)
(** Paths (skipelem, namex of fs.c). *)

From Stdlib Require Import ZArith Lia.
From stdpp Require Import base gmap strings numbers list.
From S2P Require Import Prelude Kstring Bio Log Fs FsBlock.

Open Scope Z_scope.
Open Scope kern_scope.

(** ** The names of a path *)

Fixpoint split_path (p : list Z) : list (list Z) :=
  match p with
  | [] => [[]]
  | c :: p' =>
      if c =? SLASH then [] :: split_path p'
      else match split_path p' with e :: es => (c :: e) :: es | [] => [[c]] end
  end.

(** The names between the slashes. *)
Definition elems (p : list Z) : list (list Z) := filter (fun e => e <> []) (split_path p).

(** The characters before the NUL. *)
Fixpoint cstr (l : list Z) : list Z :=
  match l with
  | [] => []
  | c :: l' => if c =? 0 then [] else c :: cstr l'
  end.

Definition no_nul (l : list Z) : Prop := Forall (fun c => c <> 0) l.

Lemma cstr_app l l' : no_nul l -> cstr (l ++ 0 :: l') = l.
Proof. induction 1 as [|c l Hc Hl IH]; [done|]. cbn. replace (c =? 0) with false by lia. by rewrite IH. Qed.

Lemma cstr_id l : no_nul l -> cstr l = l.
Proof. induction 1 as [|c l Hc Hl IH]; [done|]. cbn. replace (c =? 0) with false by lia. by rewrite IH. Qed.

Lemma strncmp_cstr n : forall p x, strncmp (cstr (take n p)) x n = strncmp p x n.
Proof.
  induction n as [|n IH]; intros p x; [done|]. destruct p as [|c p]; [done|]. cbn [take cstr strncmp]. destruct (Z.eqb_spec c 0) as [->|Hc]; [done|]. cbn [hd tl].
  replace (c =? 0) with false by lia. cbn [negb andb]. by rewrite IH.
Qed.

Lemma elems_slash p : elems (SLASH :: p) = elems p.
Proof. done. Qed.

Lemma elems_skip p : elems (skip_slashes p) = elems p.
Proof. induction p as [|c p IH]; [done|]. cbn [skip_slashes]. destruct (Z.eqb_spec c SLASH) as [->|]; [by rewrite IH|done]. Qed.

Lemma skip_slashes_head p c p' : skip_slashes p = c :: p' -> c <> SLASH.
Proof. induction p as [|x p IH]; [done|]. cbn. destruct (Z.eqb_spec x SLASH) as [->|Hx]; [done|]. by intros [= -> ->]. Qed.

Lemma skip_slashes_suffix p : exists q, p = q ++ skip_slashes p.
Proof. induction p as [|c p [q IH]]; [by exists []|]. cbn. destruct (_ =? _); [exists (c :: q); cbn; by rewrite <- IH|by exists []]. Qed.

Lemma span_elem_app p : p = (span_elem p).1 ++ (span_elem p).2.
Proof. induction p as [|c p IH]; [done|]. cbn. destruct (_ =? _); [done|]. destruct (span_elem p). cbn in *. by rewrite <- IH. Qed.

Lemma split_span p : split_path p = (span_elem p).1 :: match (span_elem p).2 with [] => [] | _ :: r => split_path r end.
Proof.
  induction p as [|c p IH]; [done|]. cbn. destruct (_ =? _); [done|]. rewrite IH. by destruct (span_elem p).
Qed.

Lemma span_elem_rest p c r : (span_elem p).2 = c :: r -> c = SLASH.
Proof. induction p as [|x p IH]; [done|]. cbn. destruct (Z.eqb_spec x SLASH) as [->|]; [by intros [= -> _]|]. by destruct (span_elem p). Qed.

Lemma elems_span p : (span_elem p).1 <> [] -> elems p = (span_elem p).1 :: elems (span_elem p).2.
Proof.
  intros Hne. unfold elems. rewrite (split_span p), filter_cons, decide_True by done. f_equal. destruct (span_elem p).2 as [|c r] eqn:E; [done|].
  apply span_elem_rest in E as ->. done.
Qed.

Lemma elems_nil p : elems (skip_slashes p) = [] -> skip_slashes p = [].
Proof.
  destruct (skip_slashes p) as [|c p'] eqn:E; [done|]. apply skip_slashes_head in E. rewrite elems_span; [done|]. cbn. replace (c =? SLASH) with false by lia. by destruct (span_elem p').
Qed.

Lemma no_nul_app l l' : no_nul (l ++ l') <-> no_nul l /\ no_nul l'.
Proof. apply Forall_app. Qed.

Lemma splice_front d v : splice d 0 v = v ++ drop (length v) d.
Proof. done. Qed.

(** skipelem() takes the first name off a path. *)
Lemma skipelem_none path name : skipelem path name = None <-> elems path = [].
Proof.
  unfold skipelem. rewrite <- elems_skip. split.
  - destruct (skip_slashes path) as [|c p]; [done|]. by destruct (span_elem (c :: p)).
  - by intros ->%elems_nil.
Qed.

Lemma skipelem_some path name path' name' : skipelem path name = Some (path', name') -> no_nul path -> length name = 14%nat ->
  exists e, elems path = e :: elems path' /\ cstr name' = take 14 e /\ length name' = 14%nat /\ no_nul path' /\ (length path' < length path)%nat /\ (elems path' = [] <-> path' = []).
Proof.
  unfold skipelem. intros E Hn Hl. destruct (skip_slashes_suffix path) as [q Eq]. rewrite <- (elems_skip path). destruct (skip_slashes path) as [|c p] eqn:Ep; [done|].
  pose proof (skip_slashes_head _ _ _ Ep) as Hc. pose proof (span_elem_app (c :: p)) as Ea. assert (Hs : (span_elem (c :: p)).1 <> []) by (cbn; replace (c =? SLASH) with false by lia; by destruct (span_elem p)).
  pose proof (elems_span _ Hs) as Ee. destruct (span_elem (c :: p)) as [s r]. cbn [fst snd] in *. injection E as <- <-. exists s. rewrite elems_skip. rewrite Eq, Ea in Hn.
  apply no_nul_app in Hn as [_ [Hns Hnr]%no_nul_app]. destruct (skip_slashes_suffix r) as [q2 Eq2].
  assert (Hlen : (length (skip_slashes r) < length path)%nat). { rewrite Eq, Ea, !length_app. rewrite Eq2 at 2. rewrite length_app. destruct s; [done|]. cbn. lia. }
  assert (Hz : elems r = [] <-> skip_slashes r = []) by (rewrite <- elems_skip; split; [apply elems_nil|by intros ->]).
  split; [done|]. rewrite Eq2 in Hnr. apply no_nul_app in Hnr as [_ Hnr]. change DIRSIZ with 14. destruct (Z.leb_spec 14 (Z.of_nat (length s))) as [Hge|Hlt].
  - replace (Z.of_nat (length s) >=? 14) with true by lia. rewrite splice_front. change (Z.to_nat 14) with 14%nat. rewrite drop_ge by (rewrite Hl, length_take; lia). rewrite app_nil_r.
    split_and!; [apply cstr_id; by apply Forall_take|rewrite length_take; lia|done|done|apply Hz].
  - replace (Z.of_nat (length s) >=? 14) with false by lia. rewrite splice_front, <- app_assoc. cbn [app].
    split_and!; [rewrite cstr_app by done; by rewrite take_ge by lia| |done|done|apply Hz]. rewrite length_app. cbn. rewrite length_drop, length_app. cbn. lia.
Qed.

(** ** namex() *)

Section Walk.
Context {B : Type} `{Blocks B}.
Abbreviation fs := (@fs B).
Context (pid : Z) (devread : Z -> option (Z -> Z -> M fs (Z * list Z))).

(** A directory is searched for the characters of the name only. *)
Lemma dirlookup_cstr dp name : meq (dirlookup devread dp name) (dirlookup devread dp (cstr (take 14 name))).
Proof.
  unfold dirlookup. apply bind_proper; [done|]. intros i. destruct (negb _); [done|]. apply search_proper. intros k. apply bind_proper; [done|]. intros [n de].
  unfold namecmp. change (Z.to_nat DIRSIZ) with 14%nat. by rewrite strncmp_cstr.
Qed.

(** From the inode ip along the names es, the last of them kept for the
    caller: what namex() should do, over the list of the names. *)
Fixpoint walk (ip : Z) (es : list (list Z)) (parent : bool) (last : list Z) : M fs (Z * list Z) :=
  match es with
  | [] => if parent then iput pid ip ;;; ret (-1, last) else ret (ip, last)
  | e :: es' =>
      let nm := take 14 e in
      ilock pid ip ;;;
      let! t := iget_ ip itype in
      if negb (t =? T_DIR) then iunlockput pid ip ;;; ret (-1, nm)
      else if parent && bool_decide (es' = []) then iunlock pid ip ;;; ret (ip, nm)
      else
        let! r := dirlookup devread ip nm in
        match r with
        | None => iunlockput pid ip ;;; ret (-1, nm)
        | Some (next, _) => iunlockput pid ip ;;; walk next es' parent nm
        end
  end.

(** The caller sees the name as a string. *)
Definition as_cstr (m : M fs (Z * list Z)) : M fs (Z * list Z) := let! (ip, nm) := m in ret (ip, cstr nm).

#[local] Instance as_cstr_proper : Proper (meq ==> meq) as_cstr.
Proof. intros m m' E. unfold as_cstr. apply bind_proper; [done|]. by intros []. Qed.

Lemma as_cstr_bind {A} (m : M fs A) k : meq (as_cstr (let! x := m in k x)) (let! x := m in as_cstr (k x)).
Proof. apply bind_assoc. Qed.

Lemma as_cstr_ret ip nm nm' : cstr nm = nm' -> meq (as_cstr (ret (ip, nm))) (ret (ip, nm')).
Proof. by intros <-. Qed.

Lemma namex_loop_walk parent n : forall ip path name, no_nul path -> length name = 14%nat -> (length path <= n)%nat ->
  meq (as_cstr (namex_loop pid devread n ip path parent name)) (walk ip (elems path) parent (cstr name)).
Proof.
  induction n as [|n IH]; intros ip path name Hp Hn Hl.
  - destruct path; [|cbn in Hl; lia]. cbn. destruct parent; [|done]. rewrite as_cstr_bind. by setoid_rewrite as_cstr_ret.
  - cbn [namex_loop]. destruct (skipelem path name) as [[path' name']|] eqn:E.
    2: { apply skipelem_none in E. rewrite E. cbn [walk]. destruct parent; [|done]. rewrite as_cstr_bind. by setoid_rewrite as_cstr_ret. }
    destruct (skipelem_some _ _ _ _ E Hp Hn) as (e & -> & Hc & Hl' & Hp' & Hlt & Hz). cbn [walk]. rewrite as_cstr_bind. apply bind_proper; [done|]. intros []. rewrite as_cstr_bind. apply bind_proper; [done|]. intros t.
    destruct (negb _). { rewrite as_cstr_bind. apply bind_proper; [done|]. intros []. by apply as_cstr_ret. }
    replace (match path' with [] => true | _ => false end) with (bool_decide (elems path' = [])) by (destruct path'; [by apply bool_decide_eq_true|apply bool_decide_eq_false; rewrite Hz; done]).
    destruct (parent && _). { rewrite as_cstr_bind. apply bind_proper; [done|]. intros []. by apply as_cstr_ret. }
    rewrite as_cstr_bind. apply bind_proper. { rewrite dirlookup_cstr. rewrite take_ge by lia. by rewrite Hc. }
    intros [[next off]|]; rewrite as_cstr_bind; (apply bind_proper; [done|]); intros []; [|by apply as_cstr_ret]. rewrite <- Hc. apply IH; [done|done|lia].
Qed.

(** C24: Path names are followed name by name: on every path and in every
    state, namex() does what a walk along the list of the names between the
    slashes does, each cut to DIRSIZ characters: it starts at the root or at
    the current directory, looks each name up in the directory reached so
    far, and for nameiparent() stops before the last name.  Repeated, leading
    and trailing slashes make no difference, and the loop ends. *)
Theorem namex_follows_names cwd path parent name : no_nul path -> length name = 14%nat ->
  meq (as_cstr (namex pid devread cwd path parent name))
      (let! ip := (if hd 0 path =? SLASH then iget ROOTDEV ROOTINO else idup cwd) in walk ip (elems path) parent (cstr name)).
Proof.
  intros Hp Hn. unfold namex. rewrite as_cstr_bind. apply bind_proper; [done|]. intros ip. by apply namex_loop_walk.
Qed.
End Walk.
