(* ===== verification/FsThm.v ===== *)
(** The theorems about files, on the interface [BlockLaws] and, composed with
    log.c and bio.c, on the disk. *)

From Stdlib Require Import ZArith Lia.
From stdpp Require Import base gmap strings numbers list.
From S2P Require Import Prelude Kstring Bio BioSpec Log LogCopy LogSpec LogTx Fs FsBlock FsLog FsBitmap FsMap FsFile.

Open Scope Z_scope.
Open Scope kern_scope.

Section Files.
Context {B : Type} `{BlockLaws B}.

(** Writei() of n bytes at an offset inside or at the end of a file, with
    room in the log and on the disk, always returns n, and what it does is
    what it should: the file has the new bytes at that offset and its old
    bytes elsewhere, its size covers them, and it is still as it should be; no
    allocated block of another file and no other inode changes; blocks it
    takes were free; and if the inode on disk was up to date it still is. *)
Theorem writei_writes g devwrite ip ic v (s : fs) src off n K : writable g ic ip v -> At ic g v s ->
  0 <= off <= isize (aget no_inode ic ip) -> 0 <= n <= Z.of_nat (length src) -> off + n <= MAXFILE * BSIZE ->
  off + n <= (off / 512 + K) * 512 -> room (6 * K + 3) v -> 2 * K <= nfree g (vb v) ->
  exists s' f' i' l', writei devwrite ip src off n s = Ok n s' /\ At (aset ic ip i') g (mk_view f' [] l') s' /\
    written g (vb v) (aget no_inode ic ip) off (take (Z.to_nat n) src) f' i'.
Proof.
  intros [W1 W2 W3 W4 W5 W6 W7 W8] HA Hoff Hn Hmax HK HR Hnf. change (MAXFILE * BSIZE) with 71680 in Hmax.
  destruct (wp_run (writei devwrite ip src off n) s (fun r s' => exists f' i' l', r = n /\ At (aset ic ip i') g (mk_view f' [] l') s' /\
    written g (vb v) (aget no_inode ic ip) off (take (Z.to_nat n) src) f' i')) as (r & s' & E & f' & i' & l' & -> & A' & W').
  - eapply (wp_writei g W1 ip devwrite ic v s src off n K); [done|done|done|done|done|done|done|done|lia|lia|lia|done|done|done| |].
    + intros [?|?]; lia.
    + intros f' i' l' s' _ _ HW _ _ A'. exists f', i', l'. split_and!; [done|done|]. by unfold slice in HW.
  - by exists s', f', i', l'.
Qed.

(** What writei() writes, readi() reads: after a write of n bytes, a read
    of n bytes at the same offset returns those bytes. *)
Theorem write_then_read g devread devwrite ip ic v (s : fs) src off n K : writable g ic ip v -> At ic g v s ->
  0 <= off <= isize (aget no_inode ic ip) -> 0 <= n <= Z.of_nat (length src) -> off + n <= MAXFILE * BSIZE ->
  off + n <= (off / 512 + K) * 512 -> room (6 * K + 3) v -> 2 * K <= nfree g (vb v) ->
  exists s' s'', writei devwrite ip src off n s = Ok n s' /\ readi devread ip off n s' = Ok (n, take (Z.to_nat n) src) s''.
Proof.
  intros [W1 W2 W3 W4 W5 W6 W7 W8] HA Hoff Hn Hmax HK HR Hnf. change (MAXFILE * BSIZE) with 71680 in Hmax.
  assert (W : wp (let! r := writei devwrite ip src off n in let! x := readi devread ip off n in ret (r, x)) s (fun r _ => r = (n, (n, take (Z.to_nat n) src)))).
  2: { apply wp_run in W as (r & s'' & E & ->). unfold bind in E. destruct (writei devwrite ip src off n s) as [r s'| | |] eqn:E1; try done.
       destruct (readi devread ip off n s') as [x s2| | |] eqn:E2; try done. injection E as -> -> ->. by exists s', s''. }
  apply wp_bind. destruct HR as [R1 R2]. eapply (wp_writei g W1 ip devwrite ic v s src off n K); [done|done|done|done|done|done|done|done|lia|lia|lia|done|done|done|intros [?|?]; lia|].
  intros f' i' l' s' _ _ HW Hl _ A'. assert (Ei : aget no_inode (aset ic ip i') ip = i') by (by apply aget_aset_eq). destruct HW as [F1 F2 F3 F4 F5 _ _ _ _ _].
  destruct F4 as (E1 & _ & _ & _ & _ & E2 & _). assert (Ld : length (slice src 0 n) = Z.to_nat n) by (apply slice_length; lia).
  assert (Hsz : off + n <= isize i') by (rewrite F3; destruct (decide (slice src 0 n = [])) as [E|]; [rewrite E in Ld; cbn in Ld; lia|lia]).
  apply wp_bind. eapply (wp_readi g W1 ip devread _ _ s' off n); [exact A'|by rewrite Ei, E2|done|by rewrite Ei|split; cbn; rewrite W5 in R2; cbn in R2; lia|by rewrite Ei, E1|lia|lia|rewrite Ei; lia|].
  rewrite Ei. intros s'' _ _ _. replace (Z.min n (isize i' - off)) with n by lia. apply wp_ret. do 2 f_equal. cbn [vb]. change (slice src 0 n) with (take (Z.to_nat n) src) in *.
  apply bytes_ext; [rewrite fbytes_length; by rewrite Ld|]. rewrite fbytes_length. intros k Hk. rewrite aget_fbytes by lia. rewrite F5 by lia. rewrite Ld.
  replace (off <=? off + k) with true by (symmetry; apply Z.leb_le; lia). replace (off + k <? off + Z.of_nat (Z.to_nat n)) with true by (symmetry; apply Z.ltb_lt; lia). cbn [andb].
  f_equal. lia.
Qed.
End Files.

(** ** On the disk *)

Section Atomic.
Context (pid st nl : Z) (d0 : disk) (Hnl : 1 <= nl).

#[local] Instance LB : Blocks log := log_blocks pid.
#[local] Instance LL : BlockLaws log := log_laws pid st nl 1 d0 Hnl.

(** A quiet log, and the view of it at the beginning of a transaction. *)
Definition view0 (s : log) : bview := mk_view (view (lbio s)) [] [].

Lemma begin_rep s (Q : unit -> log -> Prop) : log_inv pid st nl s [] -> outstanding s = 0 -> committing s = false -> dsk (lbio s) = d0 ->
  (forall s1, rep s1 (view0 s) -> Q tt s1) -> wp begin_op s Q.
Proof.
  intros I Ho Hc Hs HQ. unfold begin_op. apply wp_bind, wp_gets. cbn [id]. rewrite Hc, Ho, (hi_n _ _ _ _ (li_head _ _ _ _ _ I)). cbn. apply wp_modify. apply HQ.
  destruct I as [[G1 G2 G3 G4] [K1 K2 K3 K4 K5 K6] [I1 I2 I3 I4] I5 I6 I7]. rewrite Hs in *. constructor; cbn [lbio set_outstanding outstanding committing]; rewrite ?Hs; try done.
  - constructor; cbn; rewrite ?Hs; done.
  - constructor; cbn; rewrite ?Hs; done.
  - by intros i bn ?%not_elem_of_nil.
Qed.

Lemma rep_log_inv s v : rep s v -> vh v = [] -> log_inv pid st nl s (vl v).
Proof.
  intros R Hh. destruct R as [Rg Rh Ri RH Rb Rd Rv Rs Ro Rz Rf Rc Rs1]. rewrite Hh in RH. constructor; try done; [by rewrite Rz|by rewrite Rz].
Qed.

(** A write to a file as one transaction. *)
Definition write_op (devwrite : Z -> option (Z -> list Z -> Z -> M fs Z)) (ip : Z) (src : list Z) (off n : Z) : M (fs (B := log)) Z :=
  on_blk begin_op ;;;
  let! r := writei devwrite ip src off n in
  on_blk (end_op pid) ;;;
  ret r.

(** C1: Writes to files are atomic: let a well-formed file that is not a
    device be written to, at an offset up to its size, with up to 1536 bytes
    (three blocks, the most filewrite() puts into one transaction) that do not
    take it past the largest size of a file, on a disk with at least eight
    free blocks and thirty blocks of log. From a quiet log the write always
    returns, all bytes written; and whichever disk write was the last before a
    crash, and however many of the following recoveries crash too, the next
    complete start finds in every block outside the log either what was there
    before, or what the finished write leaves. This composes fs.c with log.c
    and bio.c. *)
Theorem file_write_atomic g devwrite ip ic (s : fs) src off n (i := aget no_inode ic ip) (f := view (lbio (blk s))) :
  log_inv pid st nl (blk s) [] -> outstanding (blk s) = 0 -> committing (blk s) = false -> dsk (lbio (blk s)) = d0 -> 30 <= nl ->
  icache s = ic -> sb s = g -> writable g ic ip (view0 (blk s)) ->
  0 <= off <= isize i -> 0 <= n <= Z.of_nat (length src) -> n <= 1536 -> off + n <= MAXFILE * BSIZE -> 8 <= nfree g f ->
  exists s' f' i' k, write_op devwrite ip src off n s = Ok n s' /\ written g f i off (take (Z.to_nat n) src) f' i' /\ the_inode ip s' = i' /\
    log_inv pid st nl (blk s') [] /\ (forall b, ~ in_log st nl b -> view (lbio (blk s')) b = f' b) /\
    all_or_nothing pid st nl d0 (dsk (lbio (blk s'))) k (disk_read d0) f'.
Proof.
  intros I Ho Hc Hs Hnl30 Hic Hsb [W1 W2 W3 W4 W5 W6 W7 W8] Hoff Hn Hn3 Hmax Hnf. change (MAXFILE * BSIZE) with 71680 in Hmax.
  destruct (wp_run (write_op devwrite ip src off n) s (fun r s' => r = n /\ exists f' i' k, written g f i off (take (Z.to_nat n) src) f' i' /\ the_inode ip s' = i' /\
    log_inv pid st nl (blk s') [] /\ (forall b, ~ in_log st nl b -> view (lbio (blk s')) b = f' b) /\
    all_or_nothing pid st nl d0 (dsk (lbio (blk s'))) k (disk_read d0) f')) as (r & s' & E & -> & f' & i' & k & HP).
  2: { exists s', f', i', k. by split. }
  unfold write_op. apply wp_bind, wp_zoom, begin_rep; [done|done|done|done|]. intros b1 R1.
  assert (A1 : At ic g (view0 (blk s)) (set_blk b1 s)) by (constructor; [done|done|done]).
  apply wp_bind. eapply (wp_writei g W1 ip devwrite ic _ _ src off n 4); [exact A1|done|done|done|done|done|done|done|lia|lia|lia|zdm|split; cbn; unfold NBUF; lia|exact Hnf|fold i; intros [?|?]; lia|].
  intros f' i' l' s2 _ _ HW _ _ A2. pose proof (at_rep _ _ _ _ A2) as R2. pose proof (rep_log_inv _ _ R2 eq_refl) as I2. destruct (lr_out _ _ _ _ _ _ _ R2) as (O2 & _ & C2).
  apply wp_bind, wp_zoom, (wp_end_op pid st nl _ l'); [exact I2|exact O2|exact C2|]. pose proof (lr_disk _ _ _ _ _ _ _ R2) as D2. pose proof (lr_view _ _ _ _ _ _ _ R2) as V2. cbn [vb] in V2.
  intros b3 I3 O3 C3 V3 AN. apply wp_ret. split; [done|]. exists f', i', (length l'). split; [exact HW|]. split.
  { unfold the_inode. cbn. rewrite (at_ic _ _ _ _ A2). by apply aget_aset_eq. }
  split; [exact I3|]. split; [intros b Hb; cbn; by rewrite V3, V2|]. rewrite D2 in AN. cbn [blk set_blk].
  intros k1 d1 Hr. destruct (AN k1 d1 Hr) as (r & E & Ir & Hb). exists r. split; [done|]. split; [done|]. intros b Hnb. rewrite Hb by done. by destruct (_ <=? _)%nat.
Qed.
End Atomic.

(** ** A small file system *)

(** The geometry mkfs computes for 1000 blocks: the log in 2..31, the inodes
    from 32, the free map in 58, and data from 59. *)
Definition demo_sb : superblock := mkSb 1000 941 200 30 2 32 58.
(** The inode cache: an empty file and an empty directory, both locked, and a
    file of five bytes in block 59 that has no name any more. *)
Definition demo_file : inode := mk_inode 1 2 1 (mkSleep true 1) true 2 0 0 1 0 (repeat 0 13).
Definition demo_dir : inode := mk_inode 1 1 1 (mkSleep true 1) true 1 0 0 1 0 (repeat 0 13).
Definition demo_gone : inode := mk_inode 1 3 1 initsleeplock true 2 0 0 0 5 (59 :: repeat 0 12).
Definition demo_cache : list inode := [demo_file; demo_dir; demo_gone] ++ repeat no_inode 47.
(** The disk; of the inodes only the first file is on it. *)
Definition fs_disk : disk :=
  mkDisk (<[1 := put_words (repeat 0 512) 0 [1000; 941; 200; 30; 2; 32; 58]]>
         (<[58 := repeat 255 7 ++ 15 :: repeat 0 504]>
         {[32 := put_dinode (repeat 0 512) 128 (mk_dinode 2 0 0 1 0 (repeat 0 13))]})) 1000 [].

Lemma fs_disk_recovers : recovers 2 30 fs_disk (disk_read fs_disk) [].
Proof.
  constructor; [| | |apply not_elem_of_nil|intros t b Ht; by rewrite lookup_nil in Ht|done].
  - constructor; [cbn; lia|vm_compute; reflexivity|vm_compute; reflexivity|].
    intros b. destruct (decide (b = 1)) as [->|H1]; [vm_compute; reflexivity|]. destruct (decide (b = 58)) as [->|H2]; [vm_compute; reflexivity|].
    destruct (decide (b = 32)) as [->|H3]; [vm_compute; reflexivity|]. unfold disk_read, fs_disk. cbn [blocks].
    by rewrite lookup_insert_ne, lookup_insert_ne, lookup_singleton_ne by done.
  - split_and!; [vm_compute; reflexivity..|]. intros k b Hk. by rewrite lookup_nil in Hk.
  - constructor; [constructor|by intros b ?%not_elem_of_nil|cbn; lia].
Qed.

(** The system has started. *)
Lemma fs_disk_starts : exists s, reboot 1 fs_disk = Ok tt s /\ log_inv 1 2 30 s [] /\ outstanding s = 0 /\ committing s = false /\
  disksize (dsk (lbio s)) = 1000 /\ forall b, 32 <= b -> view (lbio s) b = disk_read fs_disk b.
Proof.
  destruct (reboot_recovers 1 2 30 fs_disk (disk_read fs_disk) [] fs_disk_recovers) as (s0 & hv & E & _ & _ & _ & _ & D & _).
  destruct (reboot_shows 1 2 30 fs_disk (disk_read fs_disk) [] fs_disk_recovers) as (s1 & E1 & I & O & C & V).
  rewrite E in E1. injection E1 as <-. exists s0. split_and!; [done|done|done|done|by rewrite D|].
  intros b Hb. rewrite (idle_view _ _ _ _ b I). apply V. unfold in_log. lia.
Qed.

Lemma demo_bit f : (forall b, 32 <= b -> f b = disk_read fs_disk b) -> forall b, 0 <= b < 1000 -> bit demo_sb f b = bit demo_sb (disk_read fs_disk) b.
Proof. intros Hf b Hb. unfold bit. rewrite Hf; [done|]. unfold BBLOCK, BPB, BSIZE. cbn [sb_bmapstart demo_sb]. rewrite u32_small; zdm. Qed.

Lemma demo_nfree f : (forall b, 32 <= b -> f b = disk_read fs_disk b) -> nfree demo_sb f = 940.
Proof. intros Hf. rewrite (nfree_same demo_sb (disk_read fs_disk)); [vm_compute; reflexivity|]. by apply demo_bit. Qed.

Section Demo.
Context (d0 : disk) (Hd0 : disksize d0 = 1000) (s : log) (Hv : forall b, 32 <= b -> view (lbio s) b = disk_read fs_disk b).
#[local] Instance DB : Blocks log := log_blocks 1.
#[local] Instance DL : BlockLaws log := log_laws 1 2 30 1 d0 ltac:(lia).

Lemma demo_geom : geom_ok demo_sb.
Proof. constructor; cbn [sb_size sb_inodestart sb_ninodes sb_bmapstart demo_sb nblk lfirst DL log_laws]; rewrite ?Hd0; lia || done. Qed.

Lemma slot_zero f k : slot f (repeat 0 13) k = 0.
Proof.
  unfold slot. change (aget 0 (repeat 0 13) 12 =? 0) with true. cbv iota. destruct (k <? 13); [|done]. apply aget_zeros.
Qed.

(** The empty inodes can be written. *)
Lemma demo_writable ip i : aget no_inode demo_cache ip = i -> 0 <= ip < 50 -> idev i = 1 -> itype i <> T_DEV -> isize i = 0 -> iaddrs i = repeat 0 13 -> fields_ok demo_sb i ->
  writable demo_sb demo_cache ip (view0 s).
Proof.
  intros Hi Hip H1 H2 H3 H4 H5. constructor; rewrite ?Hi; [apply demo_geom|change (length demo_cache) with 50%nat; lia|done|done|done| |done|].
  - constructor; rewrite ?H4; [constructor; [done|intros k _; by rewrite slot_zero|intros j k _ _; by rewrite slot_zero]|lia|intros; lia].
  - intros b Hb. change (datastart demo_sb) with 59 in Hb. cbn [vb view0]. rewrite (demo_bit _ Hv) by lia.
    assert (HF : forallb (bit demo_sb (disk_read fs_disk)) (seqZ 0 59) = true) by (vm_compute; reflexivity).
    rewrite forallb_forall in HF. apply HF, list_elem_of_In, elem_of_seqZ. lia.
Qed.

Lemma demo_file_ok : writable demo_sb demo_cache 0 (view0 s).
Proof. apply (demo_writable 0 demo_file); done. Qed.

Lemma demo_dir_ok : writable demo_sb demo_cache 1 (view0 s).
Proof. apply (demo_writable 1 demo_dir); done. Qed.
End Demo.

(** The file system when it has started and an operation has begun. *)
Lemma demo_begun : exists d0 (s : log), disksize d0 = 1000 /\ (forall b, 32 <= b -> view (lbio s) b = disk_read fs_disk b) /\
  @At log (log_blocks 1) (log_laws 1 2 30 1 d0 ltac:(lia)) demo_cache demo_sb (view0 s)
    (mk_fs (set_outstanding 1 s) demo_cache demo_sb).
Proof.
  destruct fs_disk_starts as (s & E & I & O & C & D & V). exists (dsk (lbio s)), s. split; [done|]. split; [done|]. constructor; [|done|done].
  pose proof (begin_rep 1 2 30 (dsk (lbio s)) ltac:(lia) s (fun _ s1 => begin_op s = Ok tt s1 -> @rep log (log_blocks 1) (log_laws 1 2 30 1 (dsk (lbio s)) ltac:(lia)) s1 (view0 s)) I O C eq_refl) as W.
  destruct (wp_run_unit _ _ _ (W (fun s1 R _ => R))) as (s1 & E1 & R). specialize (R E1). revert E1. unfold begin_op, bind, gets, id. cbn. rewrite C, O, (hi_n _ _ _ _ (li_head _ _ _ _ _ I)). cbn. intros [= <-]. exact R.
Qed.

Definition no_dev (n : Z) : option (Z -> list Z -> Z -> M (fs (B := log)) Z) := None.
Definition no_rdev (n : Z) : option (Z -> Z -> M (fs (B := log)) (Z * list Z)) := None.

(** "hi" and a newline, written to the empty file. *)
Lemma writei_writes_witness : exists (s : log) s' f' i', writei (H := log_blocks 1) no_dev 0 [104; 105; 10] 0 3 (mk_fs (set_outstanding 1 s) demo_cache demo_sb) = Ok 3 s' /\
  written demo_sb (view (lbio s)) demo_file 0 [104; 105; 10] f' i'.
Proof.
  destruct demo_begun as (d0 & s & D & V & A). exists s.
  destruct (@writei_writes log (log_blocks 1) (log_laws 1 2 30 1 d0 ltac:(lia)) demo_sb no_dev 0 demo_cache (view0 s) (mk_fs (set_outstanding 1 s) demo_cache demo_sb) [104; 105; 10] 0 3 1) as (s' & f' & i' & l' & E & A' & W).
  - by apply demo_file_ok.
  - exact A.
  - vm_compute. by split.
  - vm_compute. by split.
  - vm_compute. done.
  - vm_compute. done.
  - split; cbn; unfold NBUF; lia.
  - cbn [vb view0]. rewrite demo_nfree; [lia|done].
  - by exists s', f', i'.
Defined.

Lemma write_then_read_witness : exists (s : log) s' s'', writei (H := log_blocks 1) no_dev 0 [104; 105; 10] 0 3 (mk_fs (set_outstanding 1 s) demo_cache demo_sb) = Ok 3 s' /\
  readi (H := log_blocks 1) no_rdev 0 0 3 s' = Ok (3, [104; 105; 10]) s''.
Proof.
  destruct demo_begun as (d0 & s & D & V & A). exists s.
  apply (@write_then_read log (log_blocks 1) (log_laws 1 2 30 1 d0 ltac:(lia)) demo_sb no_rdev no_dev 0 demo_cache (view0 s) (mk_fs (set_outstanding 1 s) demo_cache demo_sb) [104; 105; 10] 0 3 1).
  - by apply demo_file_ok.
  - exact A.
  - vm_compute. by split.
  - vm_compute. by split.
  - vm_compute. done.
  - vm_compute. done.
  - split; cbn; unfold NBUF; lia.
  - cbn [vb view0]. rewrite demo_nfree; [lia|done].
Defined.

Lemma file_write_atomic_witness : exists s s' f' i' k, reboot 1 fs_disk = Ok tt s /\
  write_op 1 no_dev 0 [104; 105; 10] 0 3 (mk_fs s demo_cache demo_sb) = Ok 3 s' /\ written demo_sb (view (lbio s)) demo_file 0 [104; 105; 10] f' i' /\
  all_or_nothing 1 2 30 (dsk (lbio s)) (dsk (lbio (blk s'))) k (disk_read (dsk (lbio s))) f'.
Proof.
  destruct fs_disk_starts as (s & E & I & O & C & D & V). exists s.
  destruct (file_write_atomic 1 2 30 (dsk (lbio s)) ltac:(lia) demo_sb no_dev 0 demo_cache (mk_fs s demo_cache demo_sb) [104; 105; 10] 0 3) as (s' & f' & i' & k & E' & W & _ & _ & _ & AN).
  - exact I.
  - exact O.
  - exact C.
  - reflexivity.
  - lia.
  - reflexivity.
  - reflexivity.
  - by apply demo_file_ok.
  - vm_compute. by split.
  - vm_compute. by split.
  - lia.
  - vm_compute. done.
  - cbn [blk]. rewrite demo_nfree; [lia|done].
  - exists s', f', i', k. by split_and!.
Defined.
