(* ===== verification/FsTree.v ===== *)
(** The theorems about the inode cache and directories. *)

From Stdlib Require Import ZArith Lia.
From stdpp Require Import base gmap strings numbers list.
From S2P Require Import Prelude Kstring Bio BioSpec Log LogCopy LogSpec LogTx Fs FsBlock FsLog FsBitmap FsMap FsFile FsTrunc FsCache FsDir FsPath FsThm.

Open Scope Z_scope.
Open Scope kern_scope.

Section Tree.
Context {B : Type} `{BlockLaws B}.
Abbreviation fs := (@fs B).
Implicit Types s : fs.

(** C26: The inode cache is a table of reference counts, as long as no count
    reaches 2^31 - 1: iget() returns an entry for the inode asked for, counts
    one more reference to it, and changes no other entry; an inode is never in
    two entries, so everybody who uses it shares one copy and one lock; an
    inode that was not referenced gets an entry that is not valid, so that
    ilock() reads the disk; and iget() panics exactly if the inode is not in
    the cache and all NINODE entries are in use. *)
Theorem iget_refines_refs dev n s (ic := icache s) : cache_ok ic -> (forall r, refs ic !! (dev, n) = Some r -> r < 2 ^ 31 - 1) ->
  match refs_get (dev, n) (refs ic) with
  | Some m => exists ip ic', iget dev n s = Ok ip (set_icache ic' s) /\ 0 <= ip < NINODE /\ cache_ok ic' /\ refs ic' = m /\ ikey (ent ic' ip) = (dev, n) /\
      (forall q, q <> ip -> ent ic' q = ent ic q) /\ (refs ic !! (dev, n) = None -> valid (ent ic' ip) = false)
  | None => iget dev n s = Panic "iget: no inodes"
  end.
Proof.
  intros C HO. destruct (refs_get (dev, n) (refs ic)) as [m|] eqn:E; [|by apply iget_full].
  destruct (wp_run (iget dev n) s (fun ip s' => exists ic', s' = set_icache ic' s /\ got_inode ic (dev, n) ip ic')) as (ip & s' & Er & ic' & -> & HG).
  { apply wp_iget; [done|by fold ic; rewrite E|done|]. intros p ic' HG. by exists ic'. }
  exists ip, ic'. split; [done|]. destruct (got_refs _ _ _ _ C HG) as (C' & Hk & R). pose proof HG as [Hip HG']. split; [done|]. split; [done|]. split.
  { rewrite R. unfold refs_get in E. destruct (refs ic !! (dev, n)); [congruence|]. destruct (decide _); [congruence|done]. }
  split; [done|]. destruct (refs ic !! (dev, n)) as [r|]; [destruct HG' as (_ & _ & ->)|destruct HG' as (_ & i' & _ & _ & Hv & _ & ->)].
  - split; [|done]. intros q Hq. by apply aget_aset_ne.
  - split; [intros q Hq; by apply aget_aset_ne|]. intros _. rewrite aget_aset_eq; [done|]. rewrite (ca_len _ C). lia.
Qed.

(** The last reference to an inode that no directory names. *)
Definition unused (i : inode) : bool := valid i && (inlink i =? 0) && (iref i =? 1).


(** A directory that can take another entry. *)
Record linkable (g : superblock) (dp : Z) (ic : list inode) (v : bview) : Prop := {
  lk_write : writable g ic dp v;
  lk_cache : cache_ok ic;
  lk_ref : 0 < iref (ent ic dp);
  lk_type : itype (ent ic dp) = T_DIR;
  lk_size : isize (ent ic dp) mod 16 = 0;
  lk_grow : isize (ent ic dp) + 16 <= MAXFILE * BSIZE;
  lk_room : room 9 v;
  lk_free : 2 <= nfree g (vb v);
}.

(** The directory is as good as before when an entry has been written. *)
Lemma linked_ok g dp ic v (i := ent ic dp) f' i' l' off d : linkable g dp ic v -> written g (vb v) i off d f' i' -> writable g (aset ic dp i') dp (mk_view f' [] l') /\
  cache_ok (aset ic dp i') /\ refs (aset ic dp i') = refs ic /\ ent (aset ic dp i') dp = i' /\ itype i' = T_DIR.
Proof.
  intros [W C Hr HT HS _ _ _] HW. pose proof W as [W1 W2 W3 W4 W5 W6 W7 W8]. fold i in Hr, HT, W3, W4, W6, W7. destruct (wr_same _ _ _ _ _ _ _ HW) as (S1 & S2 & S3 & S4 & S5 & S6 & S7 & S8 & S9).
  assert (Ei : ent (aset ic dp i') dp = i') by (by apply aget_aset_eq). rewrite (ca_len _ C) in W2.
  assert (Hk : ikey i' = ikey i) by (unfold ikey; by rewrite S5, S6). destruct (refs_count ic dp i' C ltac:(lia) Hr Hk) as [C' R]; [rewrite S7; fold i in Hr; lia|].
  rewrite decide_False in R by (rewrite S7; lia). split_and!; [|done| |done|congruence].
  - constructor; rewrite ?Ei; try done; [rewrite length_aset, (ca_len _ C); lia|congruence|congruence|by apply HW| |by apply HW].
    destruct W7 as (F1 & F2 & F3 & F4 & F5). unfold fields_ok. by rewrite S1, S2, S3, S4, S5.
  - rewrite R, S7, Hk. apply insert_id. apply (refs_lookup _ C). exists dp. split_and!; [lia|lia|done|done|done].
Qed.

(** C25: A name that has been linked is found: let a directory be well-formed
    and below the largest size of a file, two blocks be free, the transaction
    have room for nine blocks more, and the inode cache for the inode given.
    Then dirlink() of a name that is not in the directory returns 0, the
    directory then maps this name to the inode number given and every other
    name to what it did before; and a dirlookup() of the name that follows
    returns the entry of that inode. *)
Theorem link_then_lookup g pid devread devwrite dp ic v s nm n (i := ent ic dp) : linkable g dp ic v -> At ic g v s ->
  dir_map (vb v) i nm = None -> Forall char_ok nm -> 0 < n < 65536 ->
  refs_get (1, n) (refs ic) <> None -> (forall r, refs ic !! (1, n) = Some r -> r < 2 ^ 31 - 1) ->
  exists s1 f' i' ip off s2, dirlink pid devread devwrite dp nm n s = Ok 0 s1 /\
    (forall nm', Forall char_ok nm' -> dir_map f' i' nm' = if same_name nm' nm then Some n else dir_map (vb v) i nm') /\ written g (vb v) i off (mk_dirent n nm) f' i' /\
    dirlookup devread dp nm s1 = Ok (Some (ip, off)) s2 /\ the_inode dp s1 = i' /\ ikey (the_inode ip s2) = (1, n).
Proof.
  intros LK A HN Hc Hn HG HO. pose proof LK as [W C Hr HT HS HM HR Hnf]. change (MAXFILE * BSIZE) with 71680 in HM. apply fmap_None in HN.
  assert (WP : wp (let! r := dirlink pid devread devwrite dp nm n in let! s1 := gets id in let! x := dirlookup devread dp nm in ret (r, s1, x)) s (fun r s2 => exists s1 f' i' ip off, r = (0, s1, Some (ip, off)) /\
    (forall nm', Forall char_ok nm' -> dir_map f' i' nm' = if same_name nm' nm then Some n else dir_map (vb v) i nm') /\ written g (vb v) i off (mk_dirent n nm) f' i' /\ the_inode dp s1 = i' /\ ikey (the_inode ip s2) = (1, n))).
  2: { apply wp_run in WP as (r & s2 & E & s1 & f' & i' & ip & off & -> & HD & HW & HI & HK). unfold bind, gets, id, ret in E. destruct (dirlink pid devread devwrite dp nm n s) as [r1 s1'| | |] eqn:E1; try done.
       destruct (dirlookup devread dp nm s1') as [x s2'| | |] eqn:E2; try done. injection E as -> -> -> ->. by exists s1, f', i', ip, off, s2. }
  destruct HR as [R1 R2]. apply wp_bind. eapply (wp_dirlink_new g dp ic i v eq_refl W C HT HS); [split; lia|exact A|done|split; lia|done|fold i in HM; lia|].
  intros k f' i' l' s1 HE Hk HW Hl A1. destruct (linked_ok g dp ic v f' i' l' _ _ LK HW) as (W' & C' & HRf & Ei & HT'). apply wp_bind, wp_gets. unfold id.
  destruct (added_size g dp ic i v eq_refl W HS devread (vb v) f' i' k n nm HW HE Hk) as [HS' _].
  assert (HD : forall nm', Forall char_ok nm' -> dir_map f' i' nm' = if same_name nm' nm then Some n else dir_map (vb v) i nm') by (by apply (dir_map_add g dp ic i v eq_refl W HS devread _ _ _ k)).
  assert (Es : same_name nm nm = true) by (unfold same_name, namecmp; by rewrite strncmp_refl).
  assert (Ek : dir_find f' i' nm = Some k) by (by apply (added_find g dp ic i v eq_refl W HS devread (vb v) f' i' k n nm)).
  pose proof (HD nm Hc) as HD1. unfold dir_map in HD1 at 1. rewrite Es, Ek in HD1. injection HD1 as HD1.
  apply wp_bind. eapply (wp_dirlookup g dp _ i' (mk_view f' [] l') Ei W' C' HT' HS'); [rewrite (wt_held _ _ _ _ W) in R2; split; cbn in *; lia|exact A1| |]; cbn [vb]; rewrite Ek; [done|].
  intros k' [= <-]. rewrite HD1, HRf. split_and!; [done|done|]. intros p ic' s2 HGI A2. apply wp_ret. destruct (got_refs _ _ _ _ C' HGI) as (_ & Hkey & _).
  exists s1, f', i', p, (k * 16). split_and!; [done|done|done|unfold the_inode; by rewrite (at_ic _ _ _ _ A1)|unfold the_inode; by rewrite (at_ic _ _ _ _ A2)].
Qed.
End Tree.

(** ** On the small disk *)

Lemma demo_cache_ok : cache_ok demo_cache.
Proof.
  constructor; [done| |].
  - intros p Hp. assert (HF : forallb (fun p => 0 <=? iref (ent demo_cache p)) (seqZ 0 50) = true) by (vm_compute; reflexivity).
    rewrite forallb_forall in HF. specialize (HF p). cbn beta in HF. apply Z.leb_le, HF, list_elem_of_In, elem_of_seqZ. lia.
  - intros p q Hp Hq Hr Hr' E.
    assert (HF : forallb (fun p => forallb (fun q => implb ((0 <? iref (ent demo_cache p)) && (0 <? iref (ent demo_cache q)) && bool_decide (ikey (ent demo_cache p) = ikey (ent demo_cache q))) (p =? q)) (seqZ 0 50)) (seqZ 0 50) = true) by (vm_compute; reflexivity).
    rewrite forallb_forall in HF. specialize (HF p ltac:(apply list_elem_of_In, elem_of_seqZ; lia)). cbn beta in HF. rewrite forallb_forall in HF. specialize (HF q ltac:(apply list_elem_of_In, elem_of_seqZ; lia)). cbn beta in HF.
    apply Z.ltb_lt in Hr, Hr'. rewrite Hr, Hr', bool_decide_true in HF by done. by apply Z.eqb_eq.
Qed.

Lemma demo_refs_get n : is_Some (refs_get (1, n) (refs demo_cache)).
Proof.
  assert (E : refs demo_cache = {[(1, 2) := 1; (1, 1) := 1; (1, 3) := 1]}) by (vm_compute; reflexivity). rewrite E.
  unfold refs_get. destruct (_ !! _); [done|]. rewrite decide_True; [done|]. vm_compute. done.
Qed.

(** The directory's inode is asked for again, and one that is not cached. *)
Lemma iget_refines_refs_witness :
  (exists s : fs (B := log), iget 1 1 s = Ok 1 (set_icache (aset demo_cache 1 (set_iref 2 demo_dir)) s)) /\
  exists (s : fs (B := log)) ip ic', icache s = demo_cache /\ iget 1 7 s = Ok ip (set_icache ic' s) /\ refs ic' = <[(1, 7) := 1]> (refs demo_cache).
Proof.
  destruct fs_disk_starts as (l & _). split; [by exists (mk_fs l demo_cache demo_sb)|]. exists (mk_fs l demo_cache demo_sb).
  pose proof (iget_refines_refs 1 7 (mk_fs l demo_cache demo_sb) demo_cache_ok) as W. cbn [icache] in W.
  assert (E : refs demo_cache !! (1, 7) = None) by (vm_compute; reflexivity). rewrite E in W. assert (Eg : refs_get (1, 7) (refs demo_cache) = Some (<[(1, 7) := 1]> (refs demo_cache))).
  { unfold refs_get. rewrite E, decide_True; [done|]. vm_compute. done. }
  rewrite Eg in W. destruct W as (ip & ic' & Er & _ & _ & R & _); [done|]. exists ip, ic'. split; [reflexivity|]. split; [exact Er|exact R].
Defined.


(** "ab" is linked in the empty directory. *)
Lemma link_then_lookup_witness : exists (s : log) s1 ip off s2, dirlink (H := log_blocks 1) 1 no_rdev no_dev 1 [97; 98] 2 (mk_fs (set_outstanding 1 s) demo_cache demo_sb) = Ok 0 s1 /\
  dirlookup (H := log_blocks 1) no_rdev 1 [97; 98] s1 = Ok (Some (ip, off)) s2 /\ ikey (the_inode ip s2) = (1, 2).
Proof.
  destruct demo_begun as (d0 & s & D & V & A). exists s.
  destruct (@link_then_lookup log (log_blocks 1) (log_laws 1 2 30 1 d0 ltac:(lia)) demo_sb 1 no_rdev no_dev 1 demo_cache (view0 s) (mk_fs (set_outstanding 1 s) demo_cache demo_sb) [97; 98] 2) as (s1 & f' & i' & ip & off & s2 & E1 & _ & _ & E2 & _ & E3).
  - constructor; [by apply demo_dir_ok|exact demo_cache_ok|done|done|done|done|split; cbn; unfold NBUF; lia|]. cbn [vb view0]. rewrite demo_nfree; [lia|done].
  - exact A.
  - reflexivity.
  - repeat constructor; unfold char_ok; lia.
  - lia.
  - destruct (demo_refs_get 2) as [m Em]. by rewrite Em.
  - intros r Er. assert (E : refs demo_cache !! (1, 2) = Some 1) by (vm_compute; reflexivity). rewrite E in Er. injection Er as <-. lia.
  - exists s1, ip, off, s2. split; [exact E1|]. split; [exact E2|exact E3].
Defined.

(** The path //a/bcd/ from the root: the names a and bcd. *)
Lemma namex_follows_names_witness :
  meq (as_cstr (namex (H := log_blocks 1) 1 no_rdev 0 [47; 47; 97; 47; 98; 99; 100; 47] true (repeat 0 14)))
      (let! ip := iget ROOTDEV ROOTINO in walk (H := log_blocks 1) 1 no_rdev ip [[97]; [98; 99; 100]] true []).
Proof.
  apply (@namex_follows_names log (log_blocks 1) 1 no_rdev 0 [47; 47; 97; 47; 98; 99; 100; 47] true (repeat 0 14)); [|reflexivity]. repeat constructor; lia.
Defined.
