(* ===== verification/FsRefs.v ===== *)
(** What the routines of fs.c do to the reference counts of the inode cache,
    whatever is on the disk. *)

From Stdlib Require Import ZArith Lia.
From stdpp Require Import base gmap strings numbers list.
From S2P Require Import Prelude Kstring Bio Log Fs.

Open Scope Z_scope.
Open Scope kern_scope.

Create HintDb quiet.

(** One reference, to q. *)
Definition one (ip q : Z) : Z := if q =? ip then 1 else 0.
(** The reference that a pointer stands for; -1 is null. *)
Definition ref_of (ip q : Z) : Z := if ip =? -1 then 0 else one ip q.

Lemma ref_of_null : ref_of (-1) = fun _ => 0.
Proof. done. Qed.

Lemma ref_of_some ip q : 0 <= ip -> ref_of ip q = one ip q.
Proof. intros Hip. unfold ref_of. by replace (ip =? -1) with false by lia. Qed.

Section Refs.
Context {B : Type} `{Blocks B}.
Context (pid : Z) (devread : Z -> option (Z -> Z -> M (fs (B := B)) (Z * list Z))) (devwrite : Z -> option (Z -> list Z -> Z -> M (fs (B := B)) Z)).
Abbreviation fs := (@fs B).
Implicit Types s : fs.

(** The counts have changed by d. *)
Record moves (d : Z -> Z) (s s' : fs) : Prop := {
  mv_len : length (icache s') = length (icache s);
  mv_ref : forall q, 0 <= q < Z.of_nat (length (icache s)) -> iref (the_inode q s') = iref (the_inode q s) + d q;
}.

Abbreviation still := (moves (fun _ => 0)).

Lemma moves_refl s : still s s.
Proof. constructor; [done|]. intros; lia. Qed.

Lemma moves_trans d d' s1 s2 s3 : moves d s1 s2 -> moves d' s2 s3 -> moves (fun q => d q + d' q) s1 s3.
Proof. intros [L1 R1] [L2 R2]. constructor; [congruence|]. intros q Hq. rewrite R2, R1 by (rewrite ?L1; done). lia. Qed.

Lemma moves_ext d d' s s' : moves d s s' -> (forall q, d q = d' q) -> moves d' s s'.
Proof. intros [L R] E. constructor; [done|]. intros q Hq. rewrite R by done. by rewrite E. Qed.

(** A routine that changes no count. *)
Definition quiet {A} (m : M fs A) : Prop := forall s, wlp m s (fun _ s' => still s s').

Lemma quiet_bind {A C} (m : M fs A) (k : A -> M fs C) : quiet m -> (forall a, quiet (k a)) -> quiet (bind m k).
Proof.
  intros Hm Hk s. apply wlp_bind. eapply wlp_mono; [apply Hm|]. intros a s1 M1. eapply wlp_mono; [apply Hk|]. intros b s2 M2.
  eapply moves_ext; [exact (moves_trans _ _ _ _ _ M1 M2)|]. done.
Qed.
Lemma quiet_ret {A} (a : A) : quiet (ret a).
Proof. intros s. apply wlp_ret, moves_refl. Qed.
Lemma quiet_gets {A} (f : fs -> A) : quiet (gets f).
Proof. intros s. apply wlp_gets, moves_refl. Qed.
Lemma quiet_panic {A} msg : quiet (panic msg : M fs A).
Proof. done. Qed.
Lemma quiet_undef {A} msg : quiet (undef msg : M fs A).
Proof. done. Qed.
Lemma quiet_blocked {A} : quiet (blocked : M fs A).
Proof. done. Qed.
Lemma quiet_require b w : quiet (require b w).
Proof. intros s. apply wlp_require. intros _. apply moves_refl. Qed.
Lemma quiet_when b (m : M fs unit) : quiet m -> quiet (when b m).
Proof. intros Hm s. apply wlp_when; intros _; [apply Hm|apply moves_refl]. Qed.
Lemma quiet_on_blk {A} (m : M B A) : quiet (on_blk m).
Proof. intros s. apply wlp_zoom. apply wlp_any. intros a b. constructor; [done|]. intros q _. unfold the_inode. cbn. lia. Qed.
Lemma quiet_set_sb v : quiet (modify (set_sb v)).
Proof. intros s. apply wlp_modify. constructor; [done|]. intros q _. unfold the_inode. cbn. lia. Qed.

Lemma moves_iset ip f s : 0 <= ip < Z.of_nat (length (icache s)) -> moves (fun q => if q =? ip then iref (f (the_inode ip s)) - iref (the_inode ip s) else 0) s (upd_inode ip f s).
Proof.
  intros Hip. constructor; [cbn; apply length_aset|]. intros q Hq. unfold the_inode at 1. cbn [upd_inode icache set_icache]. rewrite aget_aset by done. rewrite (Z.eqb_sym ip q).
  destruct (Z.eqb_spec q ip) as [->|]; [lia|]. unfold the_inode. lia.
Qed.

Lemma quiet_iset ip f : (forall i, iref (f i) = iref i) -> quiet (iset ip f).
Proof.
  intros Hf s. apply wlp_modify. destruct (decide (0 <= ip < Z.of_nat (length (icache s)))) as [Hip|Hip].
  - eapply moves_ext; [by apply moves_iset|]. intros q. cbn. rewrite Hf. destruct (_ =? _); lia.
  - assert (E : aset (icache s) ip (f (the_inode ip s)) = icache s). { unfold aset. destruct (Z.ltb_spec ip 0); [done|]. apply list_insert_ge. lia. }
    unfold upd_inode. rewrite E. constructor; [done|]. intros q _. unfold the_inode. cbn. lia.
Qed.

Lemma quiet_search {R} n i (body : Z -> M fs (option R)) : (forall k, quiet (body k)) -> quiet (search n i body).
Proof.
  intros Hb s. apply (wlp_search (fun _ s' => still s s')); [apply moves_refl| |done]. intros k s' _ M. eapply wlp_mono; [apply Hb|]. intros r s'' M'.
  assert (HM : still s s'') by (eapply moves_ext; [exact (moves_trans _ _ _ _ _ M M')|done]). by destruct r.
Qed.

Lemma quiet_for_up lo hi (body : Z -> M fs unit) : (forall k, quiet (body k)) -> quiet (for_up lo hi body).
Proof.
  intros Hb s. apply (wlp_for_up (fun _ s' => still s s')); [apply moves_refl| |done]. intros k s' _ M. eapply wlp_mono; [apply Hb|]. intros a s'' M'.
  eapply moves_ext; [exact (moves_trans _ _ _ _ _ M M')|done].
Qed.
End Refs.

#[export] Hint Resolve quiet_ret quiet_gets quiet_panic quiet_undef quiet_blocked quiet_require quiet_on_blk quiet_set_sb : quiet.

(** Routines made of quiet ones are quiet. *)
Ltac quiet_step :=
  match goal with
  | |- quiet (bind _ _) => apply quiet_bind; [|intros ?]
  | |- quiet (when _ _) => apply quiet_when
  | |- quiet (search _ _ _) => apply quiet_search; intros ?
  | |- quiet (for_up _ _ _) => apply quiet_for_up; intros ?
  | |- quiet (iset _ _) => apply quiet_iset; done
  | |- quiet (if ?b then _ else _) => destruct b
  | |- quiet (match ?x with _ => _ end) => destruct x
  | |- quiet (let (_, _) := ?x in _) => destruct x
  | |- quiet _ => solve [eauto with quiet nocore]
  end.
Ltac quiet := cbv zeta; repeat quiet_step.

Section Routines.
Context {B : Type} `{Blocks B}.
Abbreviation fs := (@fs B).
Context (pid : Z) (devread : Z -> option (Z -> Z -> M fs (Z * list Z))) (devwrite : Z -> option (Z -> list Z -> Z -> M fs Z)).
(** Device drivers leave the inode cache alone. *)
Context (Hread : forall n f, devread n = Some f -> forall ip k, quiet (f ip k)) (Hwrite : forall n f, devwrite n = Some f -> forall ip src k, quiet (f ip src k)).
Implicit Types s : fs.

Lemma quiet_iget_ {A} ip (f : inode -> A) : quiet (iget_ ip f : M fs A).
Proof. apply quiet_gets. Qed.
#[local] Hint Resolve quiet_iget_ : quiet.

Lemma quiet_bread dev bn : quiet (bread dev bn).
Proof. apply quiet_on_blk. Qed.
Lemma quiet_bdata b : quiet (bdata b).
Proof. apply quiet_on_blk. Qed.
Lemma quiet_bset b d : quiet (bset b d).
Proof. apply quiet_on_blk. Qed.
Lemma quiet_log_write b : quiet (log_write b).
Proof. apply quiet_on_blk. Qed.
Lemma quiet_brelse b : quiet (brelse b).
Proof. apply quiet_on_blk. Qed.
#[local] Hint Resolve quiet_bread quiet_bdata quiet_bset quiet_log_write quiet_brelse : quiet.

Lemma quiet_balloc dev : quiet (balloc dev).
Proof. unfold balloc, balloc_scan, bzero. quiet. Qed.
Lemma quiet_bfree dev b : quiet (bfree dev b).
Proof. unfold bfree. quiet. Qed.
Lemma quiet_iupdate ip : quiet (iupdate ip).
Proof. unfold iupdate. quiet. Qed.
#[local] Hint Resolve quiet_balloc quiet_bfree quiet_iupdate : quiet.

Lemma quiet_bmap ip bn : quiet (bmap ip bn).
Proof. unfold bmap. quiet. Qed.
Lemma quiet_itrunc ip : quiet (itrunc ip).
Proof. unfold itrunc. quiet. Qed.
Lemma quiet_lock_inode ip : quiet (B := B) (lock_inode pid ip).
Proof. unfold lock_inode. quiet. Qed.
#[local] Hint Resolve quiet_bmap quiet_itrunc quiet_lock_inode : quiet.
Lemma quiet_ilock ip : quiet (ilock pid ip).
Proof. unfold ilock. quiet. Qed.
Lemma quiet_iunlock ip : quiet (B := B) (iunlock pid ip).
Proof. unfold iunlock. quiet. Qed.
Lemma quiet_stati ip : quiet (B := B) (stati ip).
Proof. unfold stati. quiet. Qed.

Lemma quiet_readi_loop fuel : forall ip tot off n dst, quiet (readi_loop fuel ip tot off n dst).
Proof. induction fuel as [|fuel IH]; intros; cbn [readi_loop]; quiet. Qed.
Lemma quiet_writei_loop fuel : forall ip src tot off n, quiet (writei_loop fuel ip src tot off n).
Proof. induction fuel as [|fuel IH]; intros; cbn [writei_loop]; quiet. Qed.
#[local] Hint Resolve quiet_readi_loop quiet_writei_loop : quiet.

Lemma quiet_readi ip off n : quiet (readi devread ip off n).
Proof. unfold readi. apply quiet_bind; [auto with quiet|]. intros i. destruct (_ =? _); [|quiet]. destruct (_ || _); [quiet|]. destruct (devread _) eqn:E; [by eapply Hread|quiet]. Qed.
Lemma quiet_writei ip src off n : quiet (writei devwrite ip src off n).
Proof. unfold writei. apply quiet_bind; [auto with quiet|]. intros i. destruct (_ =? _); [|quiet]. destruct (_ || _); [quiet|]. destruct (devwrite _) eqn:E; [by eapply Hwrite|quiet]. Qed.
#[local] Hint Resolve quiet_ilock quiet_iunlock quiet_readi quiet_writei : quiet.

(** ** Routines that take and give references *)

Definition in_cache (ip : Z) : Prop := 0 <= ip < NINODE.
(** A pointer to an inode, or null. *)
Definition iptr (ip : Z) : Prop := ip = -1 \/ in_cache ip.

(** A return value a satisfies [P] and comes with the references [D a]. *)
Definition gives {A} (m : M fs A) (P : A -> Prop) (D : A -> Z -> Z) : Prop :=
  forall s, length (icache s) = 50%nat -> wlp m s (fun a s' => moves (D a) s s' /\ P a).

Lemma gives_quiet {A} (m : M fs A) (P : A -> Prop) D : quiet m -> (forall a, P a) -> (forall a q, D a q = 0) -> gives m P D.
Proof. intros Hm HP HD s _. eapply wlp_mono; [apply Hm|]. intros a s' M. split; [|done]. eapply moves_ext; [exact M|]. intros q. by rewrite HD. Qed.

Lemma gives_bind {A C} (m : M fs A) (k : A -> M fs C) P D P' D' : gives m P D -> (forall a, P a -> gives (k a) P' (fun b q => D' b q - D a q)) -> gives (bind m k) P' D'.
Proof.
  intros Hm Hk s Hs. apply wlp_bind. eapply wlp_mono; [by apply Hm|]. intros a s1 [M1 Pa]. eapply wlp_mono; [apply Hk; [done|rewrite (mv_len _ _ _ M1); done]|]. intros b s2 [M2 Pb]. split; [|done].
  eapply moves_ext; [exact (moves_trans _ _ _ _ _ M1 M2)|]. intros q. cbn. lia.
Qed.

(** A quiet routine first. *)
Lemma gives_step {A C} (m : M fs A) (k : A -> M fs C) P D : quiet m -> (forall a, gives (k a) P D) -> gives (bind m k) P D.
Proof.
  intros Hm Hk. apply (gives_bind m k (fun _ => True) (fun _ _ => 0)); [by apply gives_quiet|]. intros a _ s Hs. eapply wlp_mono; [by apply Hk|]. intros b s' [M Pb]. split; [|done].
  eapply moves_ext; [exact M|]. intros q. cbn. lia.
Qed.

Lemma gives_ret {A} (a : A) (P : A -> Prop) D : P a -> (forall q, D a q = 0) -> gives (ret a) P D.
Proof. intros HP HD s _. apply wlp_ret. split; [|done]. eapply moves_ext; [apply moves_refl|]. intros q. by rewrite HD. Qed.

Lemma gives_mono {A} (m : M fs A) (P P' : A -> Prop) D D' : gives m P D -> (forall a, P a -> P' a) -> (forall a q, P a -> D a q = D' a q) -> gives m P' D'.
Proof. intros Hm HP HD s Hs. eapply wlp_mono; [by apply Hm|]. intros a s' [M Pa]. split; [|by apply HP]. eapply moves_ext; [exact M|]. intros q. by apply HD. Qed.

Lemma gives_panic {A} msg P D : gives (panic msg : M fs A) P D.
Proof. done. Qed.

Lemma gives_search {R} n i (body : Z -> M fs (option R)) P D : (forall q, D None q = 0) -> P None -> (forall k, gives (body k) P D) -> gives (search n i body) P D.
Proof.
  intros HD HP Hb. revert i. induction n as [|n IH]; intros i; cbn [search]; [by apply gives_ret|]. eapply gives_bind; [apply Hb|]. intros [v|] Pv.
  - apply gives_ret; [done|]. intros q. lia.
  - eapply gives_mono; [apply IH|done|]. intros a q _. cbn. rewrite HD. lia.
Qed.

Lemma gives_iset ip f (d : Z) : in_cache ip -> (forall i, iref (f i) = iref i + d) -> gives (iset ip f) (fun _ => True) (fun _ q => d * one ip q).
Proof.
  intros Hip Hf s Hs. apply wlp_modify. split; [|done]. eapply moves_ext; [apply moves_iset; rewrite Hs; exact Hip|]. intros q. cbn. unfold one. destruct (_ =? _); [rewrite Hf|]; lia.
Qed.

Lemma gives_iget_loop dev n_ n : forall p empty, 0 <= p -> p + Z.of_nat n = 50 -> match empty with Some e => in_cache e | None => True end ->
  gives (iget_loop n p empty dev n_) (fun r => match r with inl ip => in_cache ip | inr (Some e) => in_cache e | inr None => True end)
    (fun r q => match r with inl ip => one ip q | inr _ => 0 end).
Proof.
  induction n as [|n IH]; intros p empty Hp Hn HE; cbn [iget_loop]; [apply gives_ret; [by destruct empty|done]|].
  apply gives_step; [apply quiet_gets|]. intros i. destruct (_ && _).
  - apply gives_step; [apply quiet_require|]. intros _. assert (Hip : in_cache p) by (unfold in_cache, NINODE; lia). eapply gives_bind; [apply (gives_iset p _ 1 Hip); done|]. intros [] _. apply gives_ret; [done|]. intros q. lia.
  - apply IH; [lia|lia|]. destruct empty; [done|]. destruct (_ =? _); [unfold in_cache, NINODE; lia|done].
Qed.

(** An entry that was free: its count is 0. *)
Lemma iget_loop_free dev n_ n : forall p empty s, match empty with Some e => iref (the_inode e s) = 0 | None => True end ->
  wlp (iget_loop n p empty dev n_) s (fun r s' => match r with inr (Some e) => iref (the_inode e s') = 0 | _ => True end).
Proof.
  induction n as [|n IH]; intros p empty s HE; cbn [iget_loop]; [apply wlp_ret; by destruct empty|]. apply wlp_bind, wlp_gets. destruct (_ && _).
  - apply wlp_bind, wlp_require. intros _. apply wlp_bind, wlp_modify, wlp_ret. done.
  - apply IH. destruct empty; [done|]. destruct (Z.eqb_spec (iref (id (the_inode p s))) 0); done.
Qed.

Lemma gives_iget dev n_ : gives (iget dev n_) in_cache one.
Proof.
  intros s Hs. unfold iget. apply wlp_bind. eapply wlp_mono; [apply wlp_and; [apply (gives_iget_loop dev n_ (Z.to_nat NINODE) 0 None); done|apply iget_loop_free; done]|].
  intros [ip|[e|]] s1 [[M1 Pa] He]; [by apply wlp_ret| |done]. apply wlp_bind, wlp_modify, wlp_ret. split; [|done]. eapply moves_ext; [eapply moves_trans; [exact M1|apply moves_iset; rewrite (mv_len _ _ _ M1), Hs; exact Pa]|].
  intros q. cbn. unfold one. destruct (_ =? _); [|lia]. rewrite He. lia.
Qed.

Lemma gives_idup ip : in_cache ip -> gives (idup ip) (fun r => r = ip) one.
Proof.
  intros Hip s Hs. unfold idup. apply wlp_bind, wlp_gets, wlp_bind, wlp_require. intros _. apply wlp_bind, wlp_modify, wlp_ret. split; [|done].
  eapply moves_ext; [apply moves_iset; rewrite Hs; exact Hip|]. intros q. cbn. unfold one. destruct (_ =? _); lia.
Qed.

Lemma gives_iput ip : in_cache ip -> gives (iput pid ip) (fun _ => True) (fun _ q => - one ip q).
Proof.
  intros Hip. unfold iput. apply gives_step; [auto with quiet|]. intros []. apply gives_step; [auto with quiet|]. intros i. apply gives_step; [quiet|]. intros []. apply gives_step; [quiet|]. intros [].
  eapply gives_mono; [apply (gives_iset ip _ (-1) Hip); intros i'; cbn; lia|done|]. intros a q _. cbn. lia.
Qed.

Lemma gives_iunlockput ip : in_cache ip -> gives (iunlockput pid ip) (fun _ => True) (fun _ q => - one ip q).
Proof. intros Hip. unfold iunlockput. apply gives_step; [auto with quiet|]. intros []. by apply gives_iput. Qed.

Lemma gives_dirlookup dp nm : gives (dirlookup devread dp nm) (fun r => match r with Some (ip, _) => in_cache ip | None => True end)
  (fun r q => match r with Some (ip, _) => one ip q | None => 0 end).
Proof.
  unfold dirlookup. apply gives_step; [auto with quiet|]. intros i. destruct (negb _); [apply gives_panic|]. apply gives_search; [done|done|]. intros k.
  apply gives_step; [auto with quiet|]. intros [n de]. destruct (negb _); [apply gives_panic|]. destruct (_ =? 0); [by apply gives_ret|]. destruct (_ =? 0); [|by apply gives_ret].
  eapply gives_bind; [apply gives_iget|]. intros ip Hip. apply gives_ret; [done|]. intros q. cbn. lia.
Qed.

Lemma gives_dirlink dp nm n : gives (dirlink pid devread devwrite dp nm n) (fun _ => True) (fun _ _ => 0).
Proof.
  unfold dirlink. eapply gives_bind; [apply gives_dirlookup|]. intros [[ip off]|] Hr.
  - eapply gives_bind; [by apply gives_iput|]. intros [] _. apply gives_ret; [done|]. intros q. cbn. lia.
  - apply (gives_quiet _ (fun _ => True)); [quiet|done|]. intros; cbn; lia.
Qed.

Lemma gives_ialloc dev type : gives (ialloc dev type) in_cache one.
Proof.
  unfold ialloc. apply gives_step; [apply quiet_gets|]. intros g. eapply (gives_bind _ _ (fun r => match r with Some ip => in_cache ip | None => True end) (fun r q => match r with Some ip => one ip q | None => 0 end)).
  - apply gives_search; [done|done|]. intros k. apply gives_step; [auto with quiet|]. intros bp. apply gives_step; [auto with quiet|]. intros d. destruct (_ =? 0).
    + do 3 (apply gives_step; [auto with quiet|]; intros []). eapply gives_bind; [apply gives_iget|]. intros ip Hip. apply gives_ret; [done|]. intros q. cbn. lia.
    + apply gives_step; [auto with quiet|]. intros []. by apply gives_ret.
  - intros [ip|] Hip; [|apply gives_panic]. apply gives_ret; [done|]. intros q. lia.
Qed.

Lemma ref_of_in ip q : in_cache ip -> ref_of ip q = one ip q.
Proof. intros [Hip _]. by apply ref_of_some. Qed.

Lemma gives_namex_loop parent fuel : forall ip path name, in_cache ip ->
  gives (namex_loop pid devread fuel ip path parent name) (fun r => iptr r.1) (fun r q => ref_of r.1 q - one ip q).
Proof.
  induction fuel as [|fuel IH]; intros ip path name Hip; cbn [namex_loop]; destruct (skipelem path name) as [[path' name']|].
  1: { done. }
  2: apply gives_step; [auto with quiet|]; intros [].
  2: apply gives_step; [auto with quiet|]; intros t.
  all: assert (Hend : gives (if parent then iput pid ip ;;; ret (-1, name) else ret (ip, name)) (fun r => iptr r.1) (fun r q => ref_of r.1 q - one ip q)).
  1, 3, 5: destruct parent; [eapply gives_bind; [by apply gives_iput|]; intros [] _; apply gives_ret; [by left|]; intros q; cbn; lia|apply gives_ret; [by right|]; intros q; cbn; rewrite ref_of_in by done; lia].
  1, 3: exact Hend.
  destruct (negb _). { eapply gives_bind; [by apply gives_iunlockput|]. intros [] _. apply gives_ret; [by left|]. intros q. cbn. lia. }
  destruct (parent && _). { apply gives_step; [auto with quiet|]. intros []. apply gives_ret; [by right|]. intros q. cbn. rewrite ref_of_in by done. lia. }
  eapply gives_bind; [apply gives_dirlookup|]. intros [[next off]|] Hr.
  - eapply gives_bind; [by apply gives_iunlockput|]. intros [] _. eapply gives_mono; [apply IH; done|done|]. intros a q _. cbn. lia.
  - eapply gives_bind; [by apply gives_iunlockput|]. intros [] _. apply gives_ret; [by left|]. intros q. cbn. lia.
Qed.

Lemma gives_namex cwd path parent name : in_cache cwd -> gives (namex pid devread cwd path parent name) (fun r => iptr r.1) (fun r q => ref_of r.1 q).
Proof.
  intros Hc. unfold namex. eapply (gives_bind _ _ in_cache one).
  - destruct (_ =? _); [apply gives_iget|]. eapply gives_mono; [by apply gives_idup|by intros a ->|done].
  - intros ip Hip. by apply gives_namex_loop.
Qed.

Lemma gives_namei cwd path : in_cache cwd -> gives (namei pid devread cwd path) iptr ref_of.
Proof. intros Hc. unfold namei. eapply gives_bind; [by apply gives_namex|]. intros [ip nm] Hip. apply gives_ret; [done|]. intros q. cbn. lia. Qed.
End Routines.
