(* ===== verification/File.v ===== *)
(** Open files (file.c, pipealloc of pipe.c).

    The state of a system call: the file system, the table of open files,
    the pipes, and what the call can reach of the process that makes it.  A
    struct file is its index in ftable.file, a struct inode its index in the
    cache, a pipe the page it is in; -1 stands for a null pointer.  The page
    allocator is the stack of free pages that [Kalloc] proves it to be, of
    which a pipe takes and gives back one page.  A call that has to sleep is
    blocked; the processes a call wakes up are not part of this state. *)

From Stdlib Require Import ZArith Lia.
From stdpp Require Import base gmap strings numbers list.
From S2P Require Import Prelude Kstring Bio Log Fs Pipe.

Open Scope Z_scope.
Open Scope kern_scope.

Definition NFILE : Z := 100.
Definition NOFILE : Z := 16.

Inductive fdtype := FD_NONE | FD_PIPE | FD_INODE.

#[export] Instance fdtype_eq_dec : EqDecision fdtype.
Proof. solve_decision. Defined.

(** struct file *)
Record file := mk_file {
  ftype : fdtype;
  fref : Z;
  freadable : bool;
  fwritable : bool;
  fpipe : Z;
  fip : Z;
  foff : Z;
}.

Definition no_file : file := mk_file FD_NONE 0 false false (-1) (-1) 0.

Definition set_fref v x := mk_file (ftype x) v (freadable x) (fwritable x) (fpipe x) (fip x) (foff x).
Definition set_foff v x := mk_file (ftype x) (fref x) (freadable x) (fwritable x) (fpipe x) (fip x) v.
(** A file made the end of a pipe, or the opened inode ip. *)
Definition as_pipe (r w : bool) (p : Z) x := mk_file FD_PIPE (fref x) r w p (fip x) (foff x).
Definition as_inode (ip : Z) (r w : bool) x := mk_file FD_INODE (fref x) r w (fpipe x) ip 0.

(** begin_op() and end_op(). *)
Class Journal (B : Type) := {
  bl_begin_op : M B unit;
  bl_end_op : M B unit;
}.

Section File.
Context {B : Type} `{Blocks B} `{Journal B}.
Variable pid : Z.     (* myproc()->pid *)
Variable killed : bool. (* myproc()->killed *)
Abbreviation fs := (@fs B).
Variable devread : Z -> option (Z -> Z -> M fs (Z * list Z)).
Variable devwrite : Z -> option (Z -> list Z -> Z -> M fs Z).

(** The user process: its descriptors, current directory and memory. *)
Record uproc := mk_uproc {
  ofile : list Z;
  cwd : Z;
  usz : Z;
  umem : Z -> Z;
  uesp : Z;  (* tf->esp *)
}.

Record ksys := mk_ksys {
  kfs : fs;
  ftab : list file;
  pipes : gmap Z pipe;
  fpages : list Z;
  self : uproc;
}.

Definition set_kfs v s := mk_ksys v (ftab s) (pipes s) (fpages s) (self s).
Definition set_ftab v s := mk_ksys (kfs s) v (pipes s) (fpages s) (self s).
Definition set_pipes v s := mk_ksys (kfs s) (ftab s) v (fpages s) (self s).
Definition set_fpages v s := mk_ksys (kfs s) (ftab s) (pipes s) v (self s).
Definition set_self v s := mk_ksys (kfs s) (ftab s) (pipes s) (fpages s) v.

Definition on_fs {A} (m : M fs A) : M ksys A := zoom kfs set_kfs m.
Definition begin_op : M ksys unit := on_fs (on_blk bl_begin_op).
Definition end_op : M ksys unit := on_fs (on_blk bl_end_op).

Definition the_file (f : Z) (s : ksys) : file := aget no_file (ftab s) f.
Definition fget {A} (f : Z) (g : file -> A) : M ksys A := gets (fun s => g (the_file f s)).
Definition fset (f : Z) (g : file -> file) : M ksys unit := modify (fun s => set_ftab (aset (ftab s) f (g (the_file f s))) s).

Definition filealloc : M ksys Z :=
  let! r := search (Z.to_nat NFILE) 0 (fun f =>
    let! r := fget f fref in
    if r =? 0 then
      fset f (set_fref 1) ;;;
      ret (Some f)
    else ret None) in
  ret (match r with Some f => f | None => -1 end).

Definition filedup (f : Z) : M ksys Z :=
  let! r := fget f fref in
  if r <? 1 then panic "filedup"
  else
    require (r <? 2 ^ 31 - 1) "ref overflows" ;;;
    fset f (set_fref (r + 1)) ;;;
    ret f.

(** *p of a pipe in use. *)
Definition the_pipe (p : Z) : M ksys pipe :=
  let! ps := gets pipes in
  match ps !! p with
  | Some x => ret x
  | None => undef "not a pipe"
  end.

Definition close_pipe (p : Z) (writable : bool) : M ksys unit :=
  let! x := the_pipe p in
  let '(x', _, gone) := pipeclose writable x in
  if gone then
    modify (fun s => set_pipes (delete p (pipes s)) s) ;;;
    modify (fun s => set_fpages (p :: fpages s) s)
  else modify (fun s => set_pipes (<[p := x']> (pipes s)) s).

Definition fileclose (f : Z) : M ksys unit :=
  let! x := fget f id in
  if fref x <? 1 then panic "fileclose"
  else
    fset f (set_fref (fref x - 1)) ;;;
    if fref x - 1 >? 0 then ret tt
    else
      let! ff := fget f id in
      fset f (fun x => mk_file FD_NONE 0 (freadable x) (fwritable x) (fpipe x) (fip x) (foff x)) ;;;
      match ftype ff with
      | FD_PIPE => close_pipe (fpipe ff) (fwritable ff)
      | FD_INODE =>
          begin_op ;;;
          on_fs (iput pid (fip ff)) ;;;
          end_op
      | FD_NONE => ret tt
      end.

(** The struct stat, None for -1. *)
Definition filestat (f : Z) : M ksys (option (Z * Z * Z * Z * Z)) :=
  let! x := fget f id in
  match ftype x with
  | FD_INODE =>
      on_fs (ilock pid (fip x)) ;;;
      let! st := on_fs (stati (fip x)) in
      on_fs (iunlock pid (fip x)) ;;;
      ret (Some st)
  | _ => ret None
  end.

(** The value returned and the bytes stored at addr. *)
Definition fileread (f n : Z) : M ksys (Z * list Z) :=
  let! x := fget f id in
  if negb (freadable x) then ret (-1, [])
  else
    match ftype x with
    | FD_PIPE =>
        let! p := the_pipe (fpipe x) in
        let (stop, p') := piperead n killed p in
        modify (fun s => set_pipes (<[fpipe x := p']> (pipes s)) s) ;;;
        match stop with
        | RRet r bs _ => ret (r, bs)
        | RSleep => blocked
        end
    | FD_INODE =>
        on_fs (ilock pid (fip x)) ;;;
        let! off := fget f foff in
        let! (r, bs) := on_fs (readi devread (fip x) off (u32 n)) in
        when (r >? 0) (fset f (fun x => set_foff (u32 (foff x + r)) x)) ;;;
        on_fs (iunlock pid (fip x)) ;;;
        ret (r, bs)
    | FD_NONE => panic "fileread"
    end.

Definition max_write : Z := (MAXOPBLOCKS - 1 - 1 - 2) / 2 * 512.

(** The loop from i on: the value of i where it stops.  A round that goes on
    has written at least one byte. *)
Fixpoint filewrite_loop (fuel : nat) (f : Z) (addr : list Z) (i n : Z) : M ksys Z :=
  if i <? n then
    match fuel with
    | O => undef "filewrite: fuel"
    | S fuel' =>
        let n1 := if n - i >? max_write then max_write else n - i in
        let! ip := fget f fip in
        begin_op ;;;
        on_fs (ilock pid ip) ;;;
        let! off := fget f foff in
        let! r := on_fs (writei devwrite ip (drop (Z.to_nat i) addr) off n1) in
        when (r >? 0) (fset f (fun x => set_foff (u32 (foff x + r)) x)) ;;;
        on_fs (iunlock pid ip) ;;;
        end_op ;;;
        if r <? 0 then ret i
        else if negb (r =? n1) then panic "short filewrite"
        else filewrite_loop fuel' f addr (i + r) n
    end
  else ret i.

Definition filewrite (f : Z) (addr : list Z) (n : Z) : M ksys Z :=
  let! x := fget f id in
  if negb (fwritable x) then ret (-1)
  else
    match ftype x with
    | FD_PIPE =>
        let! p := the_pipe (fpipe x) in
        let '(stop, _, p') := pipewrite n 0 (aget 0 addr) killed p in
        modify (fun s => set_pipes (<[fpipe x := p']> (pipes s)) s) ;;;
        match stop with
        | WRet r _ => ret r
        | WSleep _ => blocked
        end
    | FD_INODE =>
        let! i := filewrite_loop (Z.to_nat n) f addr 0 n in
        ret (if i =? n then n else -1)
    | FD_NONE => panic "filewrite"
    end.

(** kalloc() and kfree() of a page; kfree() fills it with 1. *)
Definition kalloc_page : M ksys Z :=
  let! l := gets fpages in
  match l with
  | [] => ret (-1)
  | p :: l' => modify (set_fpages l') ;;; ret p
  end.

(** The two ends, None for -1. *)
Definition pipealloc : M ksys (option (Z * Z)) :=
  let close f := if f =? -1 then ret tt else fileclose f in
  let bad f0 f1 := close f0 ;;; close f1 ;;; ret None in
  let! f0 := filealloc in
  if f0 =? -1 then bad (-1) (-1)
  else
    let! f1 := filealloc in
    if f1 =? -1 then bad f0 (-1)
    else
      let! p := kalloc_page in
      if p =? -1 then bad f0 f1
      else
        modify (fun s => set_pipes (<[p := pipe_init (repeat 1 512)]> (pipes s)) s) ;;;
        fset f0 (as_pipe true false p) ;;;
        fset f1 (as_pipe false true p) ;;;
        ret (Some (f0, f1)).
End File.
