(* ===== verification/FileInv.v ===== *)
(** The accounts of open files: who refers to which file, and which file to
    which inode or pipe; and that the routines of file.c keep them.

    [fd_inv pg pend xf xi s]: the counts of files are the descriptors of the
    process plus the references [xf] held elsewhere (by other processes, or
    by the call in progress); the counts of inodes are the open files and
    the current directory plus the references [xi] held elsewhere; the
    files of [pend] have been allocated but not been given a type; and each of
    the pages [pg] is free or holds a pipe that some file refers to. *)

From Stdlib Require Import ZArith Lia.
From stdpp Require Import base gmap strings numbers list.
From S2P Require Import Prelude Kstring Bio Log Fs FsRefs Pipe File.

Open Scope Z_scope.
Open Scope kern_scope.

(** ** Weights *)

Definition total {A} (w : A -> Z) (l : list A) : Z := foldr (fun x a => w x + a) 0 l.

Lemma total_cons {A} (w : A -> Z) x l : total w (x :: l) = w x + total w l.
Proof. done. Qed.

Lemma total_app {A} (w : A -> Z) l l' : total w (l ++ l') = total w l + total w l'.
Proof. induction l as [|x l IH]; [done|]. cbn [app]. rewrite !total_cons, IH. lia. Qed.

Lemma total_aset {A} (d : A) (w : A -> Z) l i x : 0 <= i < Z.of_nat (length l) -> total w (aset l i x) = total w l - w (aget d l i) + w x.
Proof.
  intros Hi. destruct (lookup_lt_is_Some_2 l (Z.to_nat i)) as [y Hy]; [lia|]. assert (Ey : aget d l i = y) by (unfold aget; replace (i <? 0) with false by lia; by rewrite nth_lookup, Hy).
  rewrite Ey. unfold aset. replace (i <? 0) with false by lia. rewrite <- (take_drop_middle l (Z.to_nat i) y Hy) at 2. rewrite insert_take_drop by lia. rewrite !total_app, !total_cons. lia.
Qed.

Lemma total_nonneg {A} (w : A -> Z) l : (forall x, 0 <= w x) -> 0 <= total w l.
Proof. intros Hw. induction l as [|x l IH]; [done|]. rewrite total_cons. specialize (Hw x). lia. Qed.

Lemma total_zero {A} (d : A) (w : A -> Z) l i : (forall x, 0 <= w x) -> total w l = 0 -> 0 <= i < Z.of_nat (length l) -> w (aget d l i) = 0.
Proof.
  intros Hw HT Hi. pose proof (total_aset d w l i (aget d l i) Hi). destruct (lookup_lt_is_Some_2 l (Z.to_nat i)) as [y Hy]; [lia|].
  assert (Ey : aget d l i = y) by (unfold aget; replace (i <? 0) with false by lia; by rewrite nth_lookup, Hy). rewrite Ey.
  rewrite <- (take_drop_middle l (Z.to_nat i) y Hy), total_app, total_cons in HT. pose proof (total_nonneg w (take (Z.to_nat i) l) Hw). pose proof (total_nonneg w (drop (S (Z.to_nat i)) l) Hw). pose proof (Hw y). lia.
Qed.

Lemma one_nonneg f q : 0 <= one f q.
Proof. unfold one. destruct (_ =? _); lia. Qed.
Lemma one_same f : one f f = 1.
Proof. unfold one. by rewrite Z.eqb_refl. Qed.
Lemma one_sym f q : one f q = one q f.
Proof. unfold one. by rewrite Z.eqb_sym. Qed.

(** The reference of a file to the inode q. *)
Definition ipw (q : Z) (x : file) : Z := match ftype x with FD_INODE => one (fip x) q | _ => 0 end.

Section Inv.
Context {B : Type} `{Blocks B} `{Journal B}.
Abbreviation fs := (@fs B).
Abbreviation ksys := (@ksys B).
Implicit Types s : ksys.
Context {pg : list Z}.

(** f is an open end of pipe p. *)
Record end_of (tb : list file) (f p : Z) (w : bool) : Prop := {
  eo_range : 0 <= f < NFILE;
  eo_type : ftype (aget no_file tb f) = FD_PIPE;
  eo_pipe : fpipe (aget no_file tb f) = p;
  eo_write : fwritable (aget no_file tb f) = w;
}.

(** The end w of the pipe is open. *)
Definition end_open (x : pipe) (w : bool) : bool := if w then writeopen x else readopen x.

Record fd_inv (pend : list Z) (xf xi : Z -> Z) s : Prop := {
  fi_icache : length (icache (kfs s)) = 50%nat;
  fi_ftab : length (ftab s) = 100%nat;
  fi_ofile : length (ofile (self s)) = 16%nat;
  fi_cwd : in_cache (cwd (self s));
  fi_fd : forall fd, 0 <= fd < NOFILE -> aget (-1) (ofile (self s)) fd = -1 \/ 0 <= aget (-1) (ofile (self s)) fd < NFILE;
  fi_ref : forall f, 0 <= f < NFILE -> fref (the_file f s) = total (one f) (ofile (self s)) + xf f;
  fi_free : forall f, 0 <= f < NFILE -> fref (the_file f s) = 0 -> ftype (the_file f s) = FD_NONE;
  fi_typed : forall f, 0 <= f < NFILE -> fref (the_file f s) <> 0 -> ftype (the_file f s) = FD_NONE -> f ∈ pend;
  fi_inode : forall f, 0 <= f < NFILE -> ftype (the_file f s) = FD_INODE -> in_cache (fip (the_file f s));
  fi_iref : forall q, in_cache q -> iref (the_inode q (kfs s)) = total (ipw q) (ftab s) + one (cwd (self s)) q + xi q;
  fi_pipe : forall f p w, end_of (ftab s) f p w -> is_Some (pipes s !! p);
  fi_ends : forall p x w, pipes s !! p = Some x -> end_open x w = true <-> exists f, end_of (ftab s) f p w;
  fi_live : forall p x, pipes s !! p = Some x -> readopen x = true \/ writeopen x = true;
  fi_null : pipes s !! (-1) = None;
  fi_uniq : forall f f' p w, end_of (ftab s) f p w -> end_of (ftab s) f' p w -> f = f';
  fi_pages : NoDup (fpages s) /\ forall p, p ∈ fpages s -> p <> -1 /\ pipes s !! p = None;
  fi_all : forall p, p ∈ pg <-> p ∈ fpages s \/ is_Some (pipes s !! p);
}.

Lemma fd_inv_ext pend xf xi xf' xi' s : fd_inv pend xf xi s -> (forall f, 0 <= f < NFILE -> xf f = xf' f) -> (forall q, in_cache q -> xi q = xi' q) -> fd_inv pend xf' xi' s.
Proof. intros [] E1 E2. constructor; try done; [intros f Hf; rewrite <- E1 by done; auto|intros q Hq; rewrite <- E2 by done; auto]. Qed.

(** ** The file system changes *)

Lemma fd_inv_fs pend xf xi s t d : fd_inv pend xf xi s -> moves d (kfs s) t -> fd_inv pend xf (fun q => xi q + d q) (set_kfs t s).
Proof.
  intros [] [ML MR]. constructor; cbn [kfs ftab pipes fpages self set_kfs]; try assumption; [congruence|]. intros q Hq. rewrite MR by (rewrite fi_icache0; exact Hq). rewrite fi_iref0 by done. lia.
Qed.

Lemma wlp_fs {A} (m : M fs A) P D pend xf xi s (Q : A -> ksys -> Prop) : gives m P D -> fd_inv pend xf xi s ->
  (forall a t, P a -> fd_inv pend xf (fun q => xi q + D a q) (set_kfs t s) -> Q a (set_kfs t s)) -> wlp (on_fs m) s Q.
Proof.
  intros Hm I HQ. apply wlp_zoom. eapply wlp_mono; [apply Hm; apply I|]. intros a t [M Pa]. apply HQ; [done|]. by apply fd_inv_fs.
Qed.

Lemma wlp_fs_quiet {A} (m : M fs A) pend xf xi s (Q : A -> ksys -> Prop) : quiet m -> fd_inv pend xf xi s ->
  (forall a t, fd_inv pend xf xi (set_kfs t s) -> Q a (set_kfs t s)) -> wlp (on_fs m) s Q.
Proof.
  intros Hm I HQ. eapply (wlp_fs m (fun _ => True) (fun _ _ => 0)); [by apply gives_quiet|exact I|]. intros a t _ I'. apply HQ. eapply fd_inv_ext; [exact I'|done|]. intros; cbn; lia.
Qed.

(** ** The file table changes *)

Lemma the_file_aset s f x f' : length (ftab s) = 100%nat -> 0 <= f < NFILE -> the_file f' (set_ftab (aset (ftab s) f x) s) = if f =? f' then x else the_file f' s.
Proof. intros HL Hf. unfold the_file. cbn. apply aget_aset. rewrite HL. exact Hf. Qed.

Lemma end_of_other s f x f' p w : length (ftab s) = 100%nat -> 0 <= f < NFILE -> f' <> f -> end_of (aset (ftab s) f x) f' p w <-> end_of (ftab s) f' p w.
Proof.
  intros HL Hf Hne. assert (E : aget no_file (aset (ftab s) f x) f' = aget no_file (ftab s) f') by (apply aget_aset_ne; congruence).
  split; intros [E1 E2 E3 E4]; constructor; congruence.
Qed.

Abbreviation put_file := (fun s f x => set_ftab (aset (ftab s) f x) s).

(** The count or the offset of a file changes. *)
Lemma fd_inv_count pend pend' xf xi s f x (old := the_file f s) : fd_inv pend xf xi s -> 0 <= f < NFILE ->
  ftype x = ftype old -> fip x = fip old -> fpipe x = fpipe old -> fwritable x = fwritable old ->
  (fref x = 0 -> ftype x = FD_NONE) -> (forall g, g ∈ pend -> g <> f -> g ∈ pend') -> (fref x <> 0 -> ftype x = FD_NONE -> f ∈ pend') ->
  fd_inv pend' (fun g => xf g + (fref x - fref old) * one f g) xi (put_file s f x).
Proof.
  intros I Hf X1 X2 X3 X4 Hz Hp Hp'. pose proof (fi_ftab _ _ _ _ I) as HL. assert (Hold : old = aget no_file (ftab s) f) by done.
  assert (HE : forall f' p w, end_of (aset (ftab s) f x) f' p w <-> end_of (ftab s) f' p w).
  { intros f' p w. destruct (decide (f' = f)) as [->|Hne]; [|by apply end_of_other]. split; intros [E1 E2 E3 E4]; (constructor; [done|..]); rewrite ?aget_aset_eq in * by (rewrite HL; exact Hf); rewrite <- ?Hold in *; congruence. }
  assert (HT : forall q, total (ipw q) (aset (ftab s) f x) = total (ipw q) (ftab s)).
  { intros q. rewrite (total_aset no_file) by (rewrite HL; exact Hf). rewrite <- Hold. unfold ipw. rewrite X1, X2. lia. }
  destruct I. constructor; cbn [kfs ftab pipes fpages self set_ftab]; try assumption.
  - by rewrite length_aset.
  - intros f' Hf'. rewrite the_file_aset by done. pose proof (fi_ref0 f' Hf') as Hr. unfold one at 2. rewrite (Z.eqb_sym f' f). destruct (Z.eqb_spec f f') as [<-|]; [fold old in Hr |- *; lia|lia].
  - intros f' Hf'. rewrite the_file_aset by done. destruct (_ =? _); auto.
  - intros f' Hf'. rewrite the_file_aset by done. destruct (Z.eqb_spec f f') as [<-|]; [auto|]. intros N1 N2. apply Hp; [auto|congruence].
  - intros f' Hf'. rewrite the_file_aset by done. destruct (Z.eqb_spec f f') as [<-|]; [rewrite X1, X2; by apply fi_inode0|auto].
  - intros q Hq. rewrite HT. auto.
  - intros f' p w. rewrite HE. apply fi_pipe0.
  - intros p y w Hy. rewrite (fi_ends0 p y w Hy). split; intros [f' Hf']; exists f'; by apply HE.
  - intros f1 f2 p w. rewrite !HE. apply fi_uniq0.
Qed.

(** A file that is not a pipe's end before and after. *)
Lemma end_of_neither s f x f' p w : length (ftab s) = 100%nat -> 0 <= f < NFILE -> ftype (the_file f s) <> FD_PIPE -> ftype x <> FD_PIPE ->
  end_of (aset (ftab s) f x) f' p w <-> end_of (ftab s) f' p w.
Proof.
  intros HL Hf N1 N2. destruct (decide (f' = f)) as [->|Hne]; [|by apply end_of_other]. split; intros [E1 E2 E3 E4]; exfalso.
  - apply N2. by rewrite aget_aset_eq in E2 by (rewrite HL; exact Hf).
  - by apply N1.
Qed.

(** The file becomes an opened inode, or stops being one. *)
Lemma fd_inv_inode pend pend' xf xi s f x (old := the_file f s) : fd_inv pend xf xi s -> 0 <= f < NFILE -> ftype old <> FD_PIPE -> ftype x <> FD_PIPE ->
  (ftype x = FD_INODE -> in_cache (fip x)) -> (fref x = 0 -> ftype x = FD_NONE) -> (forall g, g ∈ pend -> g <> f -> g ∈ pend') -> (fref x <> 0 -> ftype x = FD_NONE -> f ∈ pend') ->
  fd_inv pend' (fun g => xf g + (fref x - fref old) * one f g) (fun q => xi q + ipw q old - ipw q x) (put_file s f x).
Proof.
  intros I Hf N1 N2 Hin Hz Hp Hp'. pose proof (fi_ftab _ _ _ _ I) as HL.
  pose proof (fun f' p w => end_of_neither s f x f' p w HL Hf N1 N2) as HE. destruct I. constructor; cbn [kfs ftab pipes fpages self set_ftab]; try assumption.
  - by rewrite length_aset.
  - intros f' Hf'. rewrite the_file_aset by done. pose proof (fi_ref0 f' Hf') as Hr. unfold one at 2. rewrite (Z.eqb_sym f' f). destruct (Z.eqb_spec f f') as [<-|]; [fold old in Hr |- *; lia|lia].
  - intros f' Hf'. rewrite the_file_aset by done. destruct (_ =? _); auto.
  - intros f' Hf'. rewrite the_file_aset by done. destruct (Z.eqb_spec f f') as [<-|]; [auto|]. intros M1 M2. apply Hp; [auto|congruence].
  - intros f' Hf'. rewrite the_file_aset by done. destruct (Z.eqb_spec f f') as [<-|]; auto.
  - intros q Hq. rewrite fi_iref0 by done. rewrite (total_aset no_file) by (rewrite HL; exact Hf). change (aget no_file (ftab s) f) with old. lia.
  - intros f' p w. rewrite HE. apply fi_pipe0.
  - intros p y w Hy. rewrite (fi_ends0 p y w Hy). split; intros [f' Hf']; exists f'; by apply HE.
  - intros f1 f2 p w. rewrite !HE. apply fi_uniq0.
Qed.

(** ** The pipes change *)

(** Bytes are written to a pipe, or read from it. *)
Lemma fd_inv_pipe pend xf xi s p y y' : fd_inv pend xf xi s -> pipes s !! p = Some y -> (forall w, end_open y' w = end_open y w) -> fd_inv pend xf xi (set_pipes (<[p := y']> (pipes s)) s).
Proof.
  intros I Hy HE. destruct I. constructor; cbn [kfs ftab pipes fpages self set_pipes]; try assumption.
  - intros f q w E. apply fi_pipe0 in E as [z Hz]. destruct (decide (q = p)) as [->|Hne]; [by rewrite lookup_insert_eq|by rewrite lookup_insert_ne by done].
  - intros q z w [[<- <-]|[Hne Hz]]%lookup_insert_Some; [rewrite HE; by apply fi_ends0|by apply fi_ends0].
  - intros q z [[<- <-]|[Hne Hz]]%lookup_insert_Some; [|by eapply fi_live0]. pose proof (HE true). pose proof (HE false). cbn in *. destruct (fi_live0 p y Hy); [left|right]; congruence.
  - rewrite lookup_insert_ne; [done|]. intros ->. congruence.
  - destruct fi_pages0 as [N1 N2]. split; [done|]. intros q Hq. destruct (N2 q Hq) as [M1 M2]. split; [done|]. rewrite lookup_insert_ne; [done|]. intros ->. congruence.
  - intros q. rewrite fi_all0. destruct (decide (q = p)) as [->|Hne]; [rewrite lookup_insert_eq, Hy; split; intros _; right; by eexists|by rewrite lookup_insert_ne].
Qed.

(** The last reference to an end of a pipe is given up. *)
Section Close.
Context (pend : list Z) (xf xi : Z -> Z) (s : ksys) (I : fd_inv pend xf xi s) (f : Z) (Hf : 0 <= f < NFILE) (x : file).
Abbreviation old := (the_file f s).
Context (HT : ftype old = FD_PIPE) (HX : ftype x = FD_NONE) (HX0 : fref x = 0).
Abbreviation p := (fpipe old).
Abbreviation w := (fwritable old).

Lemma closed_end : end_of (ftab s) f p w.
Proof. by constructor. Qed.

Lemma closed_ends f' q v : end_of (aset (ftab s) f x) f' q v <-> end_of (ftab s) f' q v /\ f' <> f.
Proof.
  pose proof (fi_ftab _ _ _ _ I) as HL. destruct (decide (f' = f)) as [->|Hne]; [|rewrite end_of_other by done; tauto]. split; [|tauto].
  intros [E1 E2 E3 E4]. rewrite aget_aset_eq in E2 by (rewrite HL; exact Hf). congruence.
Qed.

(** The pipes afterwards: the end is closed in its pipe, or the pipe is gone. *)
Lemma fd_inv_close y ps fp : pipes s !! p = Some y ->
  (forall q, q <> p -> ps !! q = pipes s !! q) ->
  match ps !! p with
  | Some y' => end_open y' w = false /\ end_open y' (negb w) = end_open y (negb w) /\ end_open y (negb w) = true /\ fp = fpages s
  | None => end_open y (negb w) = false /\ fp = p :: fpages s
  end ->
  fd_inv pend (fun g => xf g + (fref x - fref old) * one f g) xi (mk_ksys (kfs s) (aset (ftab s) f x) ps fp (self s)).
Proof.
  intros Hy Hps Hp. pose proof (fi_ftab _ _ _ _ I) as HL. assert (Hp1 : p <> -1) by (intros E; rewrite E, (fi_null _ _ _ _ I) in Hy; done). pose proof closed_end as HE. pose proof closed_ends as HEs. destruct I. constructor; cbn [kfs ftab pipes fpages self]; try assumption.
  - by rewrite length_aset.
  - intros f' Hf'. change (aget no_file (aset (ftab s) f x) f') with (the_file f' (put_file s f x)). unfold the_file at 1. cbn [ftab]. rewrite aget_aset by (rewrite HL; exact Hf). pose proof (fi_ref0 f' Hf') as Hr.
    unfold one at 2. rewrite (Z.eqb_sym f' f). destruct (Z.eqb_spec f f') as [<-|]; [lia|]. change (aget no_file (ftab s) f') with (the_file f' s). lia.
  - intros f' Hf'. unfold the_file. cbn [ftab]. rewrite aget_aset by (rewrite HL; exact Hf). destruct (_ =? _); [done|]. by apply fi_free0.
  - intros f' Hf'. unfold the_file. cbn [ftab]. rewrite aget_aset by (rewrite HL; exact Hf). destruct (_ =? _); [congruence|]. by apply fi_typed0.
  - intros f' Hf'. unfold the_file. cbn [ftab]. rewrite aget_aset by (rewrite HL; exact Hf). destruct (_ =? _); [congruence|]. by apply fi_inode0.
  - intros q Hq. rewrite fi_iref0 by done. rewrite (total_aset no_file) by (rewrite HL; exact Hf). change (aget no_file (ftab s) f) with old. unfold ipw at 3 4. rewrite HT, HX. lia.
  - intros f' q v [E Hne]%HEs. destruct (decide (q = p)) as [->|]; [|rewrite Hps by done; by eapply fi_pipe0]. destruct (ps !! p) eqn:Eps; [done|]. exfalso. destruct Hp as [Hc _].
    assert (Ho : end_open y v = true) by (apply (fi_ends0 p y v Hy); by exists f'). destruct (bool_decide (v = w)) eqn:Ev; [apply bool_decide_eq_true in Ev as ->; by apply Hne, (fi_uniq0 f' f p w)|].
    apply bool_decide_eq_false in Ev. replace v with (negb w) in Ho by (destruct v, w; done). congruence.
  - intros q z v Hz. destruct (decide (q = p)) as [->|Hq].
    + rewrite Hz in Hp. destruct Hp as (P1 & P2 & P3 & _). destruct (decide (v = w)) as [->|Hv].
      * rewrite P1. split; [done|]. intros [f' [E Hne]%HEs]. exfalso. by apply Hne, (fi_uniq0 f' f p w).
      * replace v with (negb w) by (destruct v, w; done). rewrite P2, (fi_ends0 p y _ Hy). split; intros [f' E]; exists f'; [apply HEs; split; [done|]|by apply HEs in E as [E _]].
        intros ->. pose proof (eo_write _ _ _ _ E) as Ew. pose proof (eo_write _ _ _ _ HE) as Ew'. destruct w; congruence.
    + rewrite Hps in Hz by done. rewrite (fi_ends0 q z v Hz). split; intros [f' E]; exists f'; [apply HEs; split; [done|]|by apply HEs in E as [E _]]. intros ->. apply Hq. by rewrite <- (eo_pipe _ _ _ _ E).
  - intros q z Hz. destruct (decide (q = p)) as [->|]; [|rewrite Hps in Hz by done; by eapply fi_live0]. rewrite Hz in Hp. destruct Hp as (P1 & P2 & P3 & _). rewrite P3 in P2. destruct w; cbn in P2; auto.
  - rewrite Hps by congruence. done.
  - intros f1 f2 q v [E1 _]%HEs [E2 _]%HEs. by apply (fi_uniq0 f1 f2 q v).
  - destruct fi_pages0 as [N1 N2]. destruct (ps !! p) eqn:Eps.
    + destruct Hp as (_ & _ & _ & ->). split; [done|]. intros q Hq. destruct (N2 q Hq) as [M1 M2]. split; [done|]. rewrite Hps; [done|]. intros ->. congruence.
    + destruct Hp as [_ ->]. split; [apply NoDup_cons; split; [|done]; intros Hin; destruct (N2 _ Hin); congruence|]. intros q [->|Hq]%elem_of_cons; [done|]. destruct (N2 q Hq) as [M1 M2]. split; [done|]. rewrite Hps; [done|]. intros ->. congruence.
  - intros q. rewrite fi_all0. destruct (decide (q = p)) as [->|Hq].
    + rewrite Hy. split; intros _; [|right; by eexists]. destruct (ps !! p) eqn:Eps; [right; by eexists|]. left. destruct Hp as [_ ->]. by left.
    + rewrite Hps by done. destruct (ps !! p) eqn:Eps; [by destruct Hp as (_ & _ & _ & ->)|]. destruct Hp as [_ ->]. rewrite elem_of_cons. naive_solver.
Qed.
End Close.

(** A pipe is made, and two new files its ends. *)
Section New.
Context (pend : list Z) (xf xi : Z -> Z) (s : ksys) (f0 f1 p : Z) (fp : list Z) (I : fd_inv (f1 :: f0 :: pend) xf xi s).
Context (H0f : 0 <= f0 < NFILE) (H1f : 0 <= f1 < NFILE) (Hne : f0 <> f1) (Hp : fpages s = p :: fp) (y : pipe) (Hy : readopen y = true /\ writeopen y = true).
Context (T0 : ftype (the_file f0 s) = FD_NONE) (T1 : ftype (the_file f1 s) = FD_NONE) (R0 : fref (the_file f0 s) <> 0) (R1 : fref (the_file f1 s) <> 0).
Abbreviation x0 := (as_pipe true false p (the_file f0 s)).
Abbreviation x1 := (as_pipe false true p (the_file f1 s)).
Abbreviation tb := (aset (aset (ftab s) f0 x0) f1 x1).

Lemma new_get f : aget no_file tb f = if f1 =? f then x1 else if f0 =? f then x0 else the_file f s.
Proof.
  pose proof (fi_ftab _ _ _ _ I) as HL. rewrite aget_aset by (rewrite length_aset, HL; exact H1f). destruct (_ =? _); [done|]. rewrite aget_aset by (rewrite HL; exact H0f). done.
Qed.

Lemma new_page : p <> -1 /\ pipes s !! p = None /\ NoDup fp /\ p ∉ fp.
Proof. destruct (fi_pages _ _ _ _ I) as [N1 N2]. rewrite Hp in N1, N2. destruct (N2 p) as [M1 M2]; [by left|]. apply NoDup_cons in N1 as [N1 N3]. done. Qed.

Lemma new_ends f q w : end_of tb f q w <-> end_of (ftab s) f q w \/ (q = p /\ f = if w then f1 else f0).
Proof.
  split.
  - intros [E1 E2 E3 E4]. rewrite new_get in E2, E3, E4. destruct (Z.eqb_spec f1 f) as [<-|N1]; [right; cbn in E3, E4; by rewrite <- E4|]. destruct (Z.eqb_spec f0 f) as [<-|N0]; [right; cbn in E3, E4; by rewrite <- E4|]. left. by constructor.
  - intros [[E1 E2 E3 E4]|[-> ->]].
    + assert (Hf1 : f1 <> f) by (intros <-; unfold the_file in T1; congruence). assert (Hf0 : f0 <> f) by (intros <-; unfold the_file in T0; congruence).
      constructor; rewrite ?new_get; replace (f1 =? f) with false by lia; replace (f0 =? f) with false by lia; done.
    + destruct w; (constructor; [done|..]); rewrite new_get; rewrite ?Z.eqb_refl; try done; by replace (f1 =? f0) with false by lia.
Qed.

Lemma fd_inv_new : fd_inv pend xf xi (mk_ksys (kfs s) tb (<[p := y]> (pipes s)) fp (self s)).
Proof.
  destruct new_page as (P1 & P2 & P3 & P4). pose proof new_get as HG. pose proof new_ends as HE. pose proof (fi_ftab _ _ _ _ I) as HL.
  assert (Hno : forall f w, ~ end_of (ftab s) f p w) by (intros f w E; apply (fi_pipe _ _ _ _ I) in E as [z Hz]; congruence).
  destruct I. constructor; cbn [kfs ftab pipes fpages self]; try assumption.
  - by rewrite !length_aset.
  - intros f Hf. unfold the_file. cbn [ftab]. rewrite HG. rewrite <- fi_ref0 by done. destruct (Z.eqb_spec f1 f) as [<-|]; [done|]. by destruct (Z.eqb_spec f0 f) as [<-|].
  - intros f Hf. unfold the_file. cbn [ftab]. rewrite HG. destruct (Z.eqb_spec f1 f) as [<-|]; [cbn; by intros ?|]. destruct (Z.eqb_spec f0 f) as [<-|]; [cbn; by intros ?|by apply fi_free0].
  - intros f Hf. unfold the_file. cbn [ftab]. rewrite HG. destruct (Z.eqb_spec f1 f) as [<-|N1]; [done|]. destruct (Z.eqb_spec f0 f) as [<-|N0]; [done|]. intros M1 M2. specialize (fi_typed0 f Hf M1 M2). set_solver.
  - intros f Hf. unfold the_file. cbn [ftab]. rewrite HG. destruct (Z.eqb_spec f1 f) as [<-|]; [done|]. destruct (Z.eqb_spec f0 f) as [<-|]; [done|by apply fi_inode0].
  - intros q Hq. rewrite fi_iref0 by done. rewrite (total_aset no_file) by (rewrite length_aset, HL; exact H1f). rewrite aget_aset_ne by done. rewrite (total_aset no_file) by (rewrite HL; exact H0f).
    unfold the_file in T0, T1. unfold ipw at 3 4 5 6. rewrite T0, T1. cbn. lia.
  - intros f q w [E|[-> _]]%HE; [|by rewrite lookup_insert_eq]. destruct (fi_pipe0 _ _ _ E) as [z Hz]. rewrite lookup_insert_ne; [done|]. intros ->. congruence.
  - intros q z w [[<- <-]|[Hq Hz]]%lookup_insert_Some.
    + split; [intros _; exists (if w then f1 else f0); apply HE; by right|]. intros _. destruct w; apply Hy.
    + rewrite (fi_ends0 q z w Hz). split; intros [f E]; exists f; [apply HE; by left|]. apply HE in E as [E|[-> _]]; done.
  - intros q z [[<- <-]|[Hq Hz]]%lookup_insert_Some; [left; apply Hy|by eapply fi_live0].
  - by rewrite lookup_insert_ne by done.
  - intros g1 g2 q w [E1|[-> ->]]%HE [E2|[E2 ->]]%HE; [by apply (fi_uniq0 g1 g2 q w)|subst; by apply Hno in E1|by apply Hno in E2|done].
  - split; [done|]. intros q Hq. destruct fi_pages0 as [_ N2]. rewrite Hp in N2. destruct (N2 q) as [M1 M2]; [by right|]. split; [done|]. rewrite lookup_insert_ne; [done|]. by intros ->.
  - intros q. rewrite fi_all0, Hp, elem_of_cons. destruct (decide (q = p)) as [->|Hq]; [rewrite lookup_insert_eq; split; intros _; [right; by eexists|by left; left]|rewrite lookup_insert_ne by done; naive_solver].
Qed.
End New.
End Inv.
