(* ===== verification/FileRefs.v ===== *)
(** The routines of file.c keep the accounts of [FileInv]. *)

From Stdlib Require Import ZArith Lia.
From stdpp Require Import base gmap strings numbers list.
From S2P Require Import Prelude Kstring Bio Log Fs FsRefs Pipe File FileInv.

Open Scope Z_scope.
Open Scope kern_scope.

(** piperead() and pipewrite() close no end of the pipe. *)
Lemma pipewrite_run_ends k : forall n i addr killed p stop j p' w, pipewrite_run k n i addr killed p = (stop, j, p') -> end_open p' w = end_open p w.
Proof.
  induction k as [|k IH]; intros n i addr killed p stop j p' w E; cbn [pipewrite_run] in E; [by injection E as <- <- <-|].
  destruct (_ =? _); [destruct (_ || _); by injection E as <- <- <-|]. apply IH with (w := w) in E. by rewrite E.
Qed.

Lemma piperead_copy_ends k : forall p bs p' w, piperead_copy k p = (bs, p') -> end_open p' w = end_open p w.
Proof.
  induction k as [|k IH]; intros p bs p' w E; cbn [piperead_copy] in E; [by injection E as <- <-|]. destruct (_ =? _); [by injection E as <- <-|].
  destruct (piperead_copy k _) as [bs1 p1] eqn:E1. injection E as <- <-. apply IH with (w := w) in E1. by rewrite E1.
Qed.

Lemma piperead_ends n killed p stop p' w : piperead n killed p = (stop, p') -> end_open p' w = end_open p w.
Proof.
  unfold piperead. destruct (_ && _); [destruct killed; by intros [= <- <-]|]. destruct (piperead_copy _ p) as [bs p1] eqn:E. intros [= <- <-]. by eapply piperead_copy_ends.
Qed.

Section Routines.
Context {B : Type} `{Blocks B} `{Journal B}.
Abbreviation fs := (@fs B).
Abbreviation ksys := (@ksys B).
Context (pid : Z) (killed : bool) (devread : Z -> option (Z -> Z -> M fs (Z * list Z))) (devwrite : Z -> option (Z -> list Z -> Z -> M fs Z)).
Context (Hread : forall n f, devread n = Some f -> forall ip k, quiet (f ip k)) (Hwrite : forall n f, devwrite n = Some f -> forall ip src k, quiet (f ip src k)).
Implicit Types s : ksys.
Context {pg : list Z}.
Abbreviation fd_inv := (FileInv.fd_inv (pg := pg)).
Abbreviation put_file := (fun s f x => set_ftab (aset (ftab s) f x) s).

Lemma quiet_begin : quiet (on_blk (bl_begin_op (B := B))).
Proof. apply quiet_on_blk. Qed.
Lemma quiet_end : quiet (on_blk (bl_end_op (B := B))).
Proof. apply quiet_on_blk. Qed.

Lemma wlp_filealloc pend xf xi s (Q : Z -> ksys -> Prop) : fd_inv pend xf xi s -> (forall f, 0 <= xf f) -> Q (-1) s ->
  (forall f, 0 <= f < NFILE -> xf f = 0 -> total (one f) (ofile (self s)) = 0 -> ftype (the_file f s) = FD_NONE -> fref (the_file f s) = 0 ->
     fd_inv (f :: pend) (fun g => xf g + one f g) xi (put_file s f (set_fref 1 (the_file f s))) -> Q f (put_file s f (set_fref 1 (the_file f s)))) ->
  wlp filealloc s Q.
Proof.
  intros I Hx HN HQ. unfold filealloc. apply wlp_bind. apply (wlp_search (fun _ s' => s' = s)); [done| |intros s' ->; by apply wlp_ret].
  intros f s' Hf ->. apply wlp_bind, wlp_gets. assert (Hf' : 0 <= f < NFILE) by (unfold NFILE in *; lia). destruct (Z.eqb_spec (fref (the_file f s)) 0) as [E|]; [|by apply wlp_ret].
  apply wlp_bind, wlp_modify, wlp_ret, wlp_ret. pose proof (fi_ref _ _ _ _ I f Hf') as Hr. pose proof (total_nonneg (one f) (ofile (self s)) (one_nonneg f)). pose proof (Hx f).
  pose proof (fi_free _ _ _ _ I f Hf' E) as HT. apply HQ; [done|lia|lia|done|done|]. eapply fd_inv_ext; [apply (fd_inv_count pend (f :: pend) xf xi s f); try done|..].
  - intros g Hg _. by right.
  - intros _ _. by left.
  - intros g. cbn. rewrite E. lia.
  - done.
Qed.

Lemma fd_inv_ofile pend xf xi s fd g : fd_inv pend xf xi s -> 0 <= fd < NOFILE -> g = -1 \/ 0 <= g < NFILE ->
  fd_inv pend (fun f => xf f + one f (aget (-1) (ofile (self s)) fd) - one f g) xi (set_self (mk_uproc (aset (ofile (self s)) fd g) (cwd (self s)) (usz (self s)) (umem (self s)) (uesp (self s))) s).
Proof.
  intros I Hfd Hg. destruct I. constructor; cbn [kfs ftab pipes fpages self set_self ofile cwd]; try assumption.
  - by rewrite length_aset.
  - intros fd' Hfd'. rewrite aget_aset by (rewrite fi_ofile; exact Hfd). destruct (_ =? _); [done|auto].
  - intros f Hf. rewrite (total_aset (-1)) by (rewrite fi_ofile; exact Hfd). change (the_file f (set_self _ s)) with (the_file f s). rewrite fi_ref by done. lia.
Qed.

Lemma wlp_filedup pend xf xi s f (Q : Z -> ksys -> Prop) : fd_inv pend xf xi s -> 0 <= f < NFILE ->
  (forall s', fd_inv pend (fun g => xf g + one f g) xi s' -> Q f s') -> wlp (filedup f) s Q.
Proof.
  intros I Hf HQ. unfold filedup. apply wlp_bind, wlp_gets. destruct (Z.ltb_spec (fref (the_file f s)) 1); [apply wlp_panic|]. apply wlp_bind, wlp_require. intros _. apply wlp_bind, wlp_modify, wlp_ret, HQ.
  eapply fd_inv_ext; [apply (fd_inv_count pend pend xf xi s f); try done|..]; cbn.
  - lia.
  - intros _ HT. apply (fi_typed _ _ _ _ I f Hf); [lia|done].
  - intros g. lia.
  - done.
Qed.

Lemma wlp_the_pipe p s (Q : pipe -> ksys -> Prop) : (forall y, pipes s !! p = Some y -> Q y s) -> wlp (the_pipe p) s Q.
Proof. intros HQ. unfold the_pipe. apply wlp_bind, wlp_gets. destruct (pipes s !! p) eqn:E; [by apply wlp_ret, HQ|done]. Qed.

(** What fileclose() leaves alone. *)
Definition closes (f : Z) s s' : Prop :=
  self s' = self s /\ (forall g, g <> f -> the_file g s' = the_file g s) /\ fref (the_file f s') = fref (the_file f s) - 1 /\ (fref (the_file f s) = 1 \/ the_file f s' = set_fref (fref (the_file f s) - 1) (the_file f s)).

Lemma set_ftab_twice u v s : set_ftab v (set_ftab u s) = set_ftab v s.
Proof. done. Qed.

Lemma wlp_fileclose pend xf xi s f (Q : unit -> ksys -> Prop) : fd_inv pend xf xi s -> 0 <= f < NFILE ->
  (forall s', fd_inv pend (fun g => xf g - one f g) xi s' -> closes f s s' -> Q tt s') -> wlp (fileclose pid f) s Q.
Proof.
  intros I Hf HQ. pose proof (fi_ftab _ _ _ _ I) as HL. unfold fileclose. apply wlp_bind, wlp_gets. unfold id. set (x := the_file f s). destruct (Z.ltb_spec (fref x) 1); [apply wlp_panic|]. apply wlp_bind, wlp_modify.
  destruct (Z.gtb_spec (fref x - 1) 0) as [Hgt|Hle].
  - apply wlp_ret, HQ.
    + eapply fd_inv_ext; [apply (fd_inv_count pend pend xf xi s f (set_fref (fref x - 1) x)); try done|..]; cbn.
      * lia.
      * intros _ HT. apply (fi_typed _ _ _ _ I f Hf); [fold x; lia|done].
      * intros g. fold x. lia.
      * done.
    + split; [done|]. split; [|rewrite the_file_aset, Z.eqb_refl by done; split; [done|by right]]. intros g Hg. rewrite the_file_aset by done. by replace (f =? g) with false by lia.
  - assert (E1 : fref x = 1) by lia. apply wlp_bind, wlp_gets. rewrite the_file_aset, Z.eqb_refl by done. unfold id. apply wlp_bind, wlp_modify. rewrite the_file_aset, Z.eqb_refl by done. cbn [ftab set_ftab].
    rewrite aset_aset. cbn [ftype fpipe fwritable fip set_fref freadable foff]. set (x' := mk_file FD_NONE 0 (freadable x) (fwritable x) (fpipe x) (fip x) (foff x)).
    rewrite set_ftab_twice. change (the_file f s) with x. fold x'.
    assert (HC : forall s', ftab s' = aset (ftab s) f x' -> self s' = self s -> closes f s s').
    { intros s' Et Es. unfold closes, the_file. rewrite Et, Es. split; [done|]. rewrite aget_aset_eq by (rewrite HL; exact Hf). split; [intros g Hg; apply aget_aset_ne; congruence|]. fold (the_file f s). fold x. cbn. split; [lia|by left]. }
    destruct (ftype x) eqn:ET.
    + apply wlp_ret, HQ; [|by apply HC]. eapply fd_inv_ext; [apply (fd_inv_count pend pend xf xi s f x'); try done|..]; cbn; [|done]. intros g. fold x. lia.
    + unfold close_pipe. apply wlp_bind, wlp_the_pipe. cbn [pipes set_ftab]. intros y Hy. assert (HP : pipes s !! fpipe x = Some y) by done. destruct (pipeclose (fwritable x) y) as [[y' wk] gone] eqn:EP.
      assert (HY : end_open y' (fwritable x) = false /\ end_open y' (negb (fwritable x)) = end_open y (negb (fwritable x)) /\ gone = negb (end_open y (negb (fwritable x)))).
      { unfold pipeclose in EP. destruct (fwritable x); injection EP as <- <- <-; cbn; [by rewrite andb_true_r|done]. }
      destruct HY as (Y1 & Y2 & Y3). destruct gone.
      * apply wlp_bind, wlp_modify, wlp_modify, HQ; [|by apply HC]. eapply fd_inv_ext; [apply (fd_inv_close pend xf xi s I f Hf x' ET eq_refl eq_refl y (delete (fpipe x) (pipes s)) (fpipe x :: fpages s)); [done| | ]|..].
        -- intros q Hq. by rewrite lookup_delete_ne by done.
        -- rewrite lookup_delete_eq. split; [|done]. by destruct (end_open y _).
        -- intros g. cbn. fold x. lia.
        -- done.
      * apply wlp_modify, HQ; [|by apply HC]. eapply fd_inv_ext; [apply (fd_inv_close pend xf xi s I f Hf x' ET eq_refl eq_refl y (<[fpipe x := y']> (pipes s)) (fpages s)); [done| | ]|..].
        -- intros q Hq. by rewrite lookup_insert_ne by done.
        -- rewrite lookup_insert_eq. split_and!; [done|done|by destruct (end_open y _)|done].
        -- intros g. cbn. fold x. lia.
        -- done.
    + assert (I1 : fd_inv pend (fun g => xf g - one f g) (fun q => xi q + one (fip x) q) (put_file s f x')).
      { eapply fd_inv_ext; [apply (fd_inv_inode pend pend xf xi s f x'); try done|..]; fold x; [by rewrite ET|..]; cbn; [intros g; lia|]. intros q. unfold ipw. rewrite ET. cbn. lia. }
      pose proof (fi_inode _ _ _ _ I f Hf ET) as Hin. fold x in Hin. unfold begin_op, end_op.
      apply wlp_bind. eapply wlp_fs_quiet; [apply quiet_begin|exact I1|]. intros [] t1 I2. apply wlp_bind. eapply (wlp_fs (iput pid (fip x))); [by apply gives_iput|exact I2|]. intros [] t2 _ I3.
      eapply wlp_fs_quiet; [apply quiet_end|exact I3|]. intros [] t3 I4. apply HQ; [|by apply HC]. eapply fd_inv_ext; [exact I4|done|]. intros q. cbn. lia.
Qed.

Lemma wlp_set_off pend xf xi s f g (Q : unit -> ksys -> Prop) : fd_inv pend xf xi s -> 0 <= f < NFILE -> (forall x, exists v, g x = set_foff v x) ->
  (forall s', fd_inv pend xf xi s' -> self s' = self s -> Q tt s') -> wlp (fset f g) s Q.
Proof.
  intros I Hf Hg HQ. apply wlp_modify. destruct (Hg (the_file f s)) as [v ->]. apply HQ; [|done]. eapply fd_inv_ext; [apply (fd_inv_count pend pend xf xi s f (set_foff v (the_file f s))); try done|..]; cbn.
  - by apply (fi_free _ _ _ _ I).
  - by apply (fi_typed _ _ _ _ I).
  - intros h. lia.
  - done.
Qed.

Lemma wlp_set_pipe pend xf xi s p y y' (Q : unit -> ksys -> Prop) : fd_inv pend xf xi s -> pipes s !! p = Some y -> (forall w, end_open y' w = end_open y w) ->
  (forall s', fd_inv pend xf xi s' -> self s' = self s -> Q tt s') -> wlp (modify (fun s => set_pipes (<[p := y']> (pipes s)) s)) s Q.
Proof. intros I Hy HE HQ. apply wlp_modify, HQ; [|done]. by eapply fd_inv_pipe. Qed.

Lemma wlp_filestat pend xf xi s f (Q : option (Z * Z * Z * Z * Z) -> ksys -> Prop) : fd_inv pend xf xi s ->
  (forall r s', fd_inv pend xf xi s' -> self s' = self s -> Q r s') -> wlp (filestat pid f) s Q.
Proof.
  intros I HQ. unfold filestat. apply wlp_bind, wlp_gets. unfold id. destruct (ftype _); [by apply wlp_ret, HQ..|].
  apply wlp_bind. eapply wlp_fs_quiet; [apply quiet_ilock|exact I|]. intros [] t1 I1. apply wlp_bind. eapply wlp_fs_quiet; [apply quiet_stati|exact I1|]. intros st t2 I2.
  apply wlp_bind. eapply wlp_fs_quiet; [apply quiet_iunlock|exact I2|]. intros [] t3 I3. by apply wlp_ret, HQ.
Qed.

Lemma wlp_fileread pend xf xi s f n (Q : Z * list Z -> ksys -> Prop) : fd_inv pend xf xi s -> 0 <= f < NFILE ->
  (forall r s', fd_inv pend xf xi s' -> self s' = self s -> Q r s') -> wlp (fileread pid killed devread f n) s Q.
Proof.
  intros I Hf HQ. unfold fileread. apply wlp_bind, wlp_gets. unfold id. destruct (negb _); [by apply wlp_ret, HQ|]. destruct (ftype _) eqn:ET; [apply wlp_panic| |].
  - apply wlp_bind, wlp_the_pipe. intros y Hy. destruct (piperead n killed y) as [stop y'] eqn:EP. apply wlp_bind. eapply wlp_set_pipe; [exact I|exact Hy|intros w; by eapply piperead_ends|].
    intros s1 I1 E1. destruct stop; [by apply wlp_ret, HQ|done].
  - apply wlp_bind. eapply wlp_fs_quiet; [apply quiet_ilock|exact I|]. intros [] t1 I1. apply wlp_bind, wlp_gets, wlp_bind. eapply wlp_fs_quiet; [by apply quiet_readi|exact I1|]. intros [r bs] t2 I2.
    assert (HU : forall s', fd_inv pend xf xi s' -> self s' = self s -> wlp (on_fs (iunlock pid (fip (the_file f s))) ;;; ret (r, bs)) s' Q).
    { intros s' I' E'. apply wlp_bind. eapply wlp_fs_quiet; [apply quiet_iunlock|exact I'|]. intros [] t3 I3. by apply wlp_ret, HQ. }
    apply wlp_bind, wlp_when; intros _; [|by apply HU]. eapply wlp_set_off; [exact I2|done|by eauto|]. intros s' I' E'. by apply HU.
Qed.

Lemma wlp_filewrite_loop pend xf xi f addr n fuel : forall i s (Q : Z -> ksys -> Prop), fd_inv pend xf xi s -> 0 <= f < NFILE ->
  (forall r s', fd_inv pend xf xi s' -> self s' = self s -> Q r s') -> wlp (filewrite_loop pid devwrite fuel f addr i n) s Q.
Proof.
  induction fuel as [|fuel IH]; intros i s Q I Hf HQ; cbn [filewrite_loop]; (destruct (i <? n); [|by apply wlp_ret, HQ]); [done|].
  unfold begin_op, end_op. cbv zeta. apply wlp_bind, wlp_gets, wlp_bind. eapply wlp_fs_quiet; [apply quiet_begin|exact I|]. intros [] t1 I1. apply wlp_bind. eapply wlp_fs_quiet; [apply quiet_ilock|exact I1|]. intros [] t2 I2.
  apply wlp_bind, wlp_gets, wlp_bind. eapply wlp_fs_quiet; [by apply quiet_writei|exact I2|]. intros r t3 I3. set (n1 := if n - i >? max_write then max_write else n - i). set (ip := fip (the_file f s)).
  assert (HU : forall s', fd_inv pend xf xi s' -> self s' = self s ->
    wlp (on_fs (iunlock pid ip) ;;; on_fs (on_blk bl_end_op) ;;; if r <? 0 then ret i else if negb (r =? n1) then panic "short filewrite" else filewrite_loop pid devwrite fuel f addr (i + r) n) s' Q).
  { intros s' I' E'. apply wlp_bind. eapply wlp_fs_quiet; [apply quiet_iunlock|exact I'|]. intros [] t4 I4. apply wlp_bind. eapply wlp_fs_quiet; [apply quiet_end|exact I4|]. intros [] t5 I5.
    destruct (r <? 0); [by apply wlp_ret, HQ|]. destruct (negb _); [apply wlp_panic|]. apply IH; [done|done|]. intros r' s'' I'' E''. apply HQ; [done|]. rewrite E''. done. }
  apply wlp_bind, wlp_when; intros _; [|by apply HU]. eapply wlp_set_off; [exact I3|done|by eauto|]. intros s' I' E'. by apply HU.
Qed.

Lemma wlp_filewrite pend xf xi s f addr n (Q : Z -> ksys -> Prop) : fd_inv pend xf xi s -> 0 <= f < NFILE ->
  (forall r s', fd_inv pend xf xi s' -> self s' = self s -> Q r s') -> wlp (filewrite pid killed devwrite f addr n) s Q.
Proof.
  intros I Hf HQ. unfold filewrite. apply wlp_bind, wlp_gets. unfold id. destruct (negb _); [by apply wlp_ret, HQ|]. destruct (ftype _) eqn:ET; [apply wlp_panic| |].
  - apply wlp_bind, wlp_the_pipe. intros y Hy. destruct (pipewrite n 0 (aget 0 addr) killed y) as [[stop j] y'] eqn:EP. apply wlp_bind. eapply wlp_set_pipe; [exact I|exact Hy|intros w; by eapply pipewrite_run_ends|].
    intros s1 I1 E1. destruct stop; [by apply wlp_ret, HQ|done].
  - apply wlp_bind. eapply wlp_filewrite_loop; [exact I|done|]. intros r s' I' E'. by apply wlp_ret, HQ.
Qed.

Lemma fd_inv_pend pend pend' xf xi s : (forall f, f ∈ pend -> f ∈ pend') -> fd_inv pend xf xi s -> fd_inv pend' xf xi s.
Proof. intros HP []. constructor; try assumption. intros g Hg N1 N2. auto. Qed.

Lemma fd_inv_unpend pend xf xi s f : fd_inv (f :: pend) xf xi s -> fref (the_file f s) = 0 -> fd_inv pend xf xi s.
Proof.
  intros [] E. constructor; try assumption. intros g Hg N1 N2. specialize (fi_typed g Hg N1 N2). apply elem_of_cons in fi_typed as [->|?]; [congruence|done].
Qed.

(** A new file that is closed again. *)
Lemma wlp_close_new pend xf xi s f (Q : unit -> ksys -> Prop) : fd_inv (f :: pend) (fun g => xf g + one f g) xi s -> 0 <= f < NFILE -> fref (the_file f s) = 1 ->
  (forall s', fd_inv pend xf xi s' -> self s' = self s -> (forall g, g <> f -> the_file g s' = the_file g s) -> Q tt s') -> wlp (fileclose pid f) s Q.
Proof.
  intros I Hf E HQ. eapply wlp_fileclose; [exact I|done|]. intros s' I' (C1 & C2 & C3 & _). apply HQ; [|done|done]. apply (fd_inv_unpend _ _ _ _ f); [|lia]. eapply fd_inv_ext; [exact I'| |done]. intros g. cbn. lia.
Qed.

Lemma wlp_pipealloc xf xi s (Q : option (Z * Z) -> ksys -> Prop) : fd_inv [] xf xi s -> (forall f, 0 <= xf f) ->
  (forall s', fd_inv [] xf xi s' -> self s' = self s -> Q None s') ->
  (forall f0 f1 s', 0 <= f0 < NFILE -> 0 <= f1 < NFILE -> f0 <> f1 -> fd_inv [] (fun g => xf g + one f0 g + one f1 g) xi s' -> self s' = self s -> Q (Some (f0, f1)) s') ->
  wlp (pipealloc pid) s Q.
Proof.
  intros I Hx HN HS. pose proof (fi_ftab _ _ _ _ I) as HL. unfold pipealloc. cbv zeta. apply wlp_bind. eapply wlp_filealloc; [exact I|done|cbn; by apply HN|]. intros f0 F0 X0 U0 T0 Z0 I0. replace (f0 =? -1) with false by lia.
  set (s0 := set_ftab (aset (ftab s) f0 _) s) in *. apply wlp_bind. eapply wlp_filealloc; [exact I0|intros f; pose proof (Hx f); pose proof (one_nonneg f0 f); lia| |].
  - rewrite Z.eqb_refl. replace (f0 =? -1) with false by lia. apply wlp_bind. eapply (wlp_close_new []); [exact I0|done|unfold s0; by rewrite the_file_aset, Z.eqb_refl by done|].
    intros s' I' E' _. apply wlp_bind, wlp_ret, wlp_ret. by apply HN.
  - intros f1 F1 X1 U1 T1 Z1 I1. replace (f1 =? -1) with false by lia. assert (Hne : f0 <> f1) by (intros ->; unfold s0 in Z1; rewrite the_file_aset, Z.eqb_refl in Z1 by done; done).
    set (s1 := set_ftab (aset (ftab s0) f1 _) s0) in *. assert (HL1 : length (ftab s1) = 100%nat) by apply I1. assert (HL0 : length (ftab s0) = 100%nat) by apply I0.
    assert (G0 : the_file f0 s1 = set_fref 1 (the_file f0 s)). { unfold s1. rewrite the_file_aset by done. replace (f1 =? f0) with false by lia. unfold s0. by rewrite the_file_aset, Z.eqb_refl by done. }
    assert (G1 : the_file f1 s1 = set_fref 1 (the_file f1 s0)) by (unfold s1; by rewrite the_file_aset, Z.eqb_refl by done).
    apply wlp_bind. unfold kalloc_page. apply wlp_bind, wlp_gets. destruct (fpages s1) as [|p fp] eqn:Ep.
    + apply wlp_ret. replace (f0 =? -1) with false by lia. replace (f1 =? -1) with false by lia. cbn [Z.eqb Pos.eqb].
      assert (I1' : fd_inv [f0; f1] (fun g => (xf g + one f1 g) + one f0 g) xi s1). { eapply fd_inv_ext; [eapply fd_inv_pend; [|exact I1]; set_solver|intros g; cbn; lia|done]. }
      apply wlp_bind. eapply (wlp_close_new [f1]); [exact I1'|done|by rewrite G0|]. intros s2 I2 E2 O2. apply wlp_bind. eapply (wlp_close_new []); [exact I2|done|rewrite O2 by done; by rewrite G1|].
      intros s3 I3 E3 _. apply wlp_ret, HN; [done|]. by rewrite E3, E2.
    + apply wlp_bind, wlp_modify, wlp_ret. assert (HP : p <> -1) by (destruct (fi_pages _ _ _ _ I1) as [_ N2]; rewrite Ep in N2; destruct (N2 p); [by left|done]). replace (p =? -1) with false by lia.
      apply wlp_bind, wlp_modify, wlp_bind, wlp_modify, wlp_bind, wlp_modify, wlp_ret. cbn [ftab set_ftab set_pipes set_fpages pipes fpages kfs self].
      pose proof (fd_inv_new [] _ xi s1 f0 f1 p fp I1 F0 F1 Hne Ep (pipe_init (repeat 1 512)) (conj eq_refl eq_refl)) as IN. rewrite G0, G1 in IN. specialize (IN T0 T1 ltac:(done) ltac:(done)).
      apply HS; [done|done|done| |done]. unfold set_pipes, set_ftab, set_fpages. cbn [kfs ftab pipes fpages self]. unfold the_file. cbn [ftab]. rewrite aget_aset_ne by done.
      change (aget no_file (ftab s1) f0) with (the_file f0 s1). change (aget no_file (ftab s1) f1) with (the_file f1 s1). rewrite G0, G1. exact IN.
Qed.
End Routines.
