(* ===== verification/Sysfile.v ===== *)
(** System calls on files (sysfile.c), and the fetching of arguments
    (syscall.c).  exec is not modelled. *)

From Stdlib Require Import ZArith Lia.
From stdpp Require Import base gmap strings numbers list.
From S2P Require Import Prelude Kstring Bio Log Fs Pipe File.

Open Scope Z_scope.
Open Scope kern_scope.

Definition O_RDONLY : Z := 0.
Definition O_WRONLY : Z := 1.
Definition O_RDWR : Z := 2.
Definition O_CREATE : Z := 512.

(** ** User memory *)

(** The bytes of memory from a on. *)
Definition load_bytes (m : Z -> Z) (a : Z) (n : nat) : list Z := map (fun k => m (a + Z.of_nat k)) (seq 0 n).
Definition store_bytes (m : Z -> Z) (a : Z) (bs : list Z) : Z -> Z :=
  fun x => if (a <=? x) && (x <? a + Z.of_nat (length bs)) then aget 0 bs (x - a) else m x.

(** An int in memory. *)
Definition int_bytes (v : Z) : list Z := put32 (repeat 0 4) 0 v.

Section Args.
Variables (sz : Z) (mem : Z -> Z) (esp : Z). (* curproc->sz, its memory, tf->esp *)

Definition fetchint (addr : Z) : option Z :=
  if (addr >=? sz) || (u32 (addr + 4) >? sz) then None
  else Some (i32 (le32 (load_bytes mem addr 4) 0)).

(** The characters before the first NUL in [s, ep); None: there is none. *)
Fixpoint find_nul (k : nat) (s : Z) : option (list Z) :=
  match k with
  | O => None
  | S k' => if mem s =? 0 then Some [] else option_map (cons (mem s)) (find_nul k' (s + 1))
  end.

(** The string; the value returned is its length. *)
Definition fetchstr (addr : Z) : option (list Z) :=
  if addr >=? sz then None else find_nul (Z.to_nat (sz - addr)) addr.

Definition argint (n : Z) : option Z := fetchint (u32 (esp + 4 + 4 * n)).

Definition argptr (n size : Z) : option Z :=
  match argint n with
  | None => None
  | Some i => if (size <? 0) || (u32 i >=? sz) || (u32 (u32 i + size) >? sz) then None else Some (u32 i)
  end.

Definition argstr (n : Z) : option (list Z) :=
  match argint n with
  | None => None
  | Some addr => fetchstr (u32 addr)
  end.
End Args.

Section Sysfile.
Context {B : Type} `{Blocks B} `{Journal B}.
Variable pid : Z.
Variable killed : bool.
Abbreviation fs := (@fs B).
Abbreviation ksys := (@ksys B).
Variable devread : Z -> option (Z -> Z -> M fs (Z * list Z)).
Variable devwrite : Z -> option (Z -> list Z -> Z -> M fs Z).

Definition with_args {A} (f : Z -> (Z -> Z) -> Z -> A) : M ksys A := gets (fun s => f (usz (self s)) (umem (self s)) (uesp (self s))).
Definition arg_int (n : Z) : M ksys (option Z) := with_args (fun sz mem esp => argint sz mem esp n).
Definition arg_ptr (n size : Z) : M ksys (option Z) := with_args (fun sz mem esp => argptr sz mem esp n size).
Definition arg_str (n : Z) : M ksys (option (list Z)) := with_args (fun sz mem esp => argstr sz mem esp n).

Definition set_ofile v u := mk_uproc v (cwd u) (usz u) (umem u) (uesp u).
Definition set_cwd v u := mk_uproc (ofile u) v (usz u) (umem u) (uesp u).
Definition set_umem v u := mk_uproc (ofile u) (cwd u) (usz u) v (uesp u).
Definition uset (f : uproc -> uproc) : M ksys unit := modify (fun s => set_self (f (self s)) s).
Definition store (a : Z) (bs : list Z) : M ksys unit := uset (fun u => set_umem (store_bytes (umem u) a bs) u).
Definition ofile_at (fd : Z) : M ksys Z := gets (fun s => aget (-1) (ofile (self s)) fd).
Definition put_ofile (fd f : Z) : M ksys unit := uset (fun u => set_ofile (aset (ofile u) fd f) u).

(** The descriptor and the file. *)
Definition argfd (n : Z) : M ksys (option (Z * Z)) :=
  let! a := arg_int n in
  match a with
  | None => ret None
  | Some fd =>
      if (fd <? 0) || (fd >=? NOFILE) then ret None
      else
        let! f := ofile_at fd in
        ret (if f =? -1 then None else Some (fd, f))
  end.

Definition fdalloc (f : Z) : M ksys Z :=
  let! r := search (Z.to_nat NOFILE) 0 (fun fd =>
    let! g := ofile_at fd in
    if g =? -1 then
      put_ofile fd f ;;;
      ret (Some fd)
    else ret None) in
  ret (match r with Some fd => fd | None => -1 end).

Definition sys_dup : M ksys Z :=
  let! a := argfd 0 in
  match a with
  | None => ret (-1)
  | Some (_, f) =>
      let! fd := fdalloc f in
      if fd <? 0 then ret (-1)
      else
        filedup f ;;;
        ret fd
  end.

(** The file, the pointer and the count of read() and write(). *)
Definition rw_args : M ksys (option (Z * Z * Z)) :=
  let! a := argfd 0 in
  match a with
  | None => ret None
  | Some (_, f) =>
      let! n := arg_int 2 in
      match n with
      | None => ret None
      | Some n =>
          let! p := arg_ptr 1 n in
          ret (match p with None => None | Some p => Some (f, p, n) end)
      end
  end.

Definition sys_read : M ksys Z :=
  let! a := rw_args in
  match a with
  | None => ret (-1)
  | Some (f, p, n) =>
      let! (r, bs) := fileread pid killed devread f n in
      store p bs ;;;
      ret r
  end.

Definition sys_write : M ksys Z :=
  let! a := rw_args in
  match a with
  | None => ret (-1)
  | Some (f, p, n) =>
      let! mem := gets (fun s => umem (self s)) in
      filewrite pid killed devwrite f (load_bytes mem p (Z.to_nat n)) n
  end.

Definition sys_close : M ksys Z :=
  let! a := argfd 0 in
  match a with
  | None => ret (-1)
  | Some (fd, f) =>
      put_ofile fd (-1) ;;;
      fileclose pid f ;;;
      ret 0
  end.

(** struct stat in memory: type at 0, dev at 4, ino at 8, nlink at 12, size at
    16; the padding keeps what is there. *)
Definition stat_store (p : Z) (st : Z * Z * Z * Z * Z) : M ksys unit :=
  let '(t, dev, ino, nlink, size) := st in
  store p (put16 (repeat 0 2) 0 t) ;;;
  store (p + 4) (int_bytes dev) ;;;
  store (p + 8) (int_bytes ino) ;;;
  store (p + 12) (put16 (repeat 0 2) 0 nlink) ;;;
  store (p + 16) (int_bytes size).

Definition sys_fstat : M ksys Z :=
  let! a := argfd 0 in
  match a with
  | None => ret (-1)
  | Some (_, f) =>
      let! p := arg_ptr 1 20 in
      match p with
      | None => ret (-1)
      | Some p =>
          let! st := filestat pid f in
          match st with
          | None => ret (-1)
          | Some st => stat_store p st ;;; ret 0
          end
      end
  end.

(** ** Names *)

Definition fs_namei (path : list Z) : M ksys Z :=
  let! c := gets (fun s => cwd (self s)) in
  on_fs (namei pid devread c path).
(** name[DIRSIZ] is not initialised, but written before it is used. *)
Definition fs_nameiparent (path : list Z) : M ksys (Z * list Z) :=
  let! c := gets (fun s => cwd (self s)) in
  on_fs (nameiparent pid devread c path (repeat 0 14)).

Definition iget_field {A} (ip : Z) (f : inode -> A) : M ksys A := on_fs (iget_ ip f).
(** ip->nlink += d, and iupdate(ip) *)
Definition add_nlink (ip d : Z) : M ksys unit :=
  on_fs (iset ip (fun i => set_inlink (i16 (inlink i + d)) i)) ;;;
  on_fs (iupdate ip).

Definition fail_op : M ksys Z := end_op ;;; ret (-1).

(** sys_link: the label bad. *)
Definition link_bad (ip : Z) : M ksys Z :=
  on_fs (ilock pid ip) ;;;
  add_nlink ip (-1) ;;;
  on_fs (iunlockput pid ip) ;;;
  fail_op.

Definition sys_link : M ksys Z :=
  let! old := arg_str 0 in
  let! new := arg_str 1 in
  match old, new with
  | Some old, Some new =>
      begin_op ;;;
      let! ip := fs_namei old in
      if ip =? -1 then fail_op
      else
        on_fs (ilock pid ip) ;;;
        let! t := iget_field ip itype in
        if t =? T_DIR then
          on_fs (iunlockput pid ip) ;;;
          fail_op
        else
          add_nlink ip 1 ;;;
          on_fs (iunlock pid ip) ;;;
          let! (dp, name) := fs_nameiparent new in
          if dp =? -1 then link_bad ip
          else
            on_fs (ilock pid dp) ;;;
            let! dd := iget_field dp idev in
            let! id := iget_field ip idev in
            let! inum_ := iget_field ip inum in
            let! r := (if negb (dd =? id) then ret (-1) else on_fs (dirlink pid devread devwrite dp name inum_)) in
            if r <? 0 then
              on_fs (iunlockput pid dp) ;;;
              link_bad ip
            else
              on_fs (iunlockput pid dp) ;;;
              on_fs (iput pid ip) ;;;
              end_op ;;;
              ret 0
  | _, _ => ret (-1)
  end.

Definition isdirempty (dp : Z) : M ksys bool :=
  let! sz := iget_field dp isize in
  let! r := search (Z.to_nat ((sz - 32 + 15) / 16)) 0 (fun k =>
    let! (n, de) := on_fs (readi devread dp (32 + k * 16) 16) in
    if negb (n =? 16) then panic "isdirempty: readi"
    else ret (if negb (de_inum de =? 0) then Some tt else None)) in
  ret (match r with Some _ => false | None => true end).

Definition DOT : list Z := [46].
Definition DOTDOT : list Z := [46; 46].

(** sys_unlink: the label bad. *)
Definition unlink_bad (dp : Z) : M ksys Z :=
  on_fs (iunlockput pid dp) ;;;
  fail_op.

Definition sys_unlink : M ksys Z :=
  let! path := arg_str 0 in
  match path with
  | None => ret (-1)
  | Some path =>
      begin_op ;;;
      let! (dp, name) := fs_nameiparent path in
      if dp =? -1 then fail_op
      else
        on_fs (ilock pid dp) ;;;
        if (namecmp name DOT =? 0) || (namecmp name DOTDOT =? 0) then unlink_bad dp
        else
          let! r := on_fs (dirlookup devread dp name) in
          match r with
          | None => unlink_bad dp
          | Some (ip, off) =>
              on_fs (ilock pid ip) ;;;
              let! i := iget_field ip id in
              if inlink i <? 1 then panic "unlink: nlink < 1"
              else
                let! e := (if itype i =? T_DIR then isdirempty ip else ret true) in
                if negb e then
                  on_fs (iunlockput pid ip) ;;;
                  unlink_bad dp
                else
                  let! n := on_fs (writei devwrite dp (repeat 0 16) off 16) in
                  if negb (n =? 16) then panic "unlink: writei"
                  else
                    let! t := iget_field ip itype in
                    when (t =? T_DIR) (add_nlink dp (-1)) ;;;
                    on_fs (iunlockput pid dp) ;;;
                    add_nlink ip (-1) ;;;
                    on_fs (iunlockput pid ip) ;;;
                    end_op ;;;
                    ret 0
          end
  end.

(** The inode, locked; -1 for 0. *)
Definition create (path : list Z) (type major minor : Z) : M ksys Z :=
  let! (dp, name) := fs_nameiparent path in
  if dp =? -1 then ret (-1)
  else
    on_fs (ilock pid dp) ;;;
    let! r := on_fs (dirlookup devread dp name) in
    match r with
    | Some (ip, _) =>
        on_fs (iunlockput pid dp) ;;;
        on_fs (ilock pid ip) ;;;
        let! t := iget_field ip itype in
        if (type =? T_FILE) && (t =? T_FILE) then ret ip
        else
          on_fs (iunlockput pid ip) ;;;
          ret (-1)
    | None =>
        let! dev := iget_field dp idev in
        let! ip := on_fs (ialloc dev type) in
        on_fs (ilock pid ip) ;;;
        on_fs (iset ip (fun i => mk_inode (idev i) (inum i) (iref i) (ilk i) (valid i) (itype i) major minor 1 (isize i) (iaddrs i))) ;;;
        on_fs (iupdate ip) ;;;
        when (type =? T_DIR)
          (add_nlink dp 1 ;;;
           let! n := iget_field ip inum in
           let! r := on_fs (dirlink pid devread devwrite ip DOT n) in
           if r <? 0 then panic "create dots"
           else
             let! n := iget_field dp inum in
             let! r := on_fs (dirlink pid devread devwrite ip DOTDOT n) in
             if r <? 0 then panic "create dots" else ret tt) ;;;
        let! n := iget_field ip inum in
        let! r := on_fs (dirlink pid devread devwrite dp name n) in
        if r <? 0 then panic "create: dirlink"
        else
          on_fs (iunlockput pid dp) ;;;
          ret ip
    end.

(** sys_open: the inode, locked, -1 after a failure. *)
Definition open_inode (path : list Z) (omode : Z) : M ksys Z :=
  if negb (Z.land omode O_CREATE =? 0) then create path T_FILE 0 0
  else
    let! ip := fs_namei path in
    if ip =? -1 then ret (-1)
    else
      on_fs (ilock pid ip) ;;;
      let! t := iget_field ip itype in
      if (t =? T_DIR) && negb (omode =? O_RDONLY) then
        on_fs (iunlockput pid ip) ;;;
        ret (-1)
      else ret ip.

Definition sys_open : M ksys Z :=
  let! path := arg_str 0 in
  let! omode := arg_int 1 in
  match path, omode with
  | Some path, Some omode =>
      begin_op ;;;
      let! ip := open_inode path omode in
      if ip =? -1 then fail_op
      else
        let! f := filealloc in
        let! fd := (if f =? -1 then ret (-1) else fdalloc f) in
        if fd <? 0 then
          (if f =? -1 then ret tt else fileclose pid f) ;;;
          on_fs (iunlockput pid ip) ;;;
          fail_op
        else
          on_fs (iunlock pid ip) ;;;
          end_op ;;;
          fset f (as_inode ip (Z.land omode O_WRONLY =? 0) (negb (Z.land omode O_WRONLY =? 0) || negb (Z.land omode O_RDWR =? 0))) ;;;
          ret fd
  | _, _ => ret (-1)
  end.

(** mkdir() and mknod() from the creation on. *)
Definition create_only (path : list Z) (type major minor : Z) : M ksys Z :=
  let! ip := create path type major minor in
  if ip =? -1 then fail_op
  else
    on_fs (iunlockput pid ip) ;;;
    end_op ;;;
    ret 0.

Definition sys_mkdir : M ksys Z :=
  begin_op ;;;
  let! path := arg_str 0 in
  match path with
  | None => fail_op
  | Some path => create_only path T_DIR 0 0
  end.

Definition sys_mknod : M ksys Z :=
  begin_op ;;;
  let! path := arg_str 0 in
  let! major := arg_int 1 in
  let! minor := arg_int 2 in
  match path, major, minor with
  | Some path, Some major, Some minor => create_only path T_DEV (i16 major) (i16 minor)
  | _, _, _ => fail_op
  end.

Definition sys_chdir : M ksys Z :=
  begin_op ;;;
  let! path := arg_str 0 in
  match path with
  | None => fail_op
  | Some path =>
      let! ip := fs_namei path in
      if ip =? -1 then fail_op
      else
        on_fs (ilock pid ip) ;;;
        let! t := iget_field ip itype in
        if negb (t =? T_DIR) then
          on_fs (iunlockput pid ip) ;;;
          fail_op
        else
          on_fs (iunlock pid ip) ;;;
          let! c := gets (fun s => cwd (self s)) in
          on_fs (iput pid c) ;;;
          end_op ;;;
          uset (set_cwd ip) ;;;
          ret 0
  end.

Definition sys_pipe : M ksys Z :=
  let! fd := arg_ptr 0 8 in
  match fd with
  | None => ret (-1)
  | Some fd =>
      let! r := pipealloc pid in
      match r with
      | None => ret (-1)
      | Some (rf, wf) =>
          let! fd0 := fdalloc rf in
          let! fd1 := (if fd0 <? 0 then ret (-1) else fdalloc wf) in
          if fd1 <? 0 then
            when (fd0 >=? 0) (put_ofile fd0 (-1)) ;;;
            fileclose pid rf ;;;
            fileclose pid wf ;;;
            ret (-1)
          else
            store fd (int_bytes fd0) ;;;
            store (fd + 4) (int_bytes fd1) ;;;
            ret 0
      end
  end.

(** The entries of syscalls[] (syscall.c, numbers from syscall.h) for the
    calls of sysfile.c but exec(). *)
Definition file_calls (num : Z) : option (M ksys Z) :=
  match num with
  | 4 => Some sys_pipe
  | 5 => Some sys_read
  | 8 => Some sys_fstat
  | 9 => Some sys_chdir
  | 10 => Some sys_dup
  | 15 => Some sys_open
  | 16 => Some sys_write
  | 17 => Some sys_mknod
  | 18 => Some sys_unlink
  | 19 => Some sys_link
  | 20 => Some sys_mkdir
  | 21 => Some sys_close
  | _ => None
  end.

(** A process as the kernel sees it: its own code changes its memory, stack
    pointer and size, and it makes system calls. *)
Inductive kstep : ksys -> ksys -> Prop :=
| user_runs s u : ofile u = ofile (self s) -> cwd u = cwd (self s) -> kstep s (set_self u s)
| makes_call s num m r s' : file_calls num = Some m -> m s = Ok r s' -> kstep s s'.
End Sysfile.
