(* ===== verification/SysfileThm.v ===== *)
(** The system calls on files: no reference is lost or made up, and no
    pointer from outside the process is accepted. *)

From Stdlib Require Import ZArith Lia.
From stdpp Require Import base gmap strings numbers list.
From S2P Require Import Prelude Kstring Bio Log Fs FsRefs Pipe File FileInv FileRefs Sysfile.

Open Scope Z_scope.
Open Scope kern_scope.

Section Calls.
Context {B : Type} `{Blocks B} `{Journal B}.
Abbreviation fs := (@fs B).
Abbreviation ksys := (@ksys B).
Context (pid : Z) (killed : bool) (devread : Z -> option (Z -> Z -> M fs (Z * list Z))) (devwrite : Z -> option (Z -> list Z -> Z -> M fs Z)).
Context (Hread : forall n f, devread n = Some f -> forall ip k, quiet (f ip k)) (Hwrite : forall n f, devwrite n = Some f -> forall ip src k, quiet (f ip src k)).
Implicit Types s : ksys.
Context {pg : list Z}.
Abbreviation fd_inv := (FileInv.fd_inv (pg := pg)).

#[local] Hint Resolve quiet_begin quiet_end quiet_ilock quiet_iunlock quiet_iupdate quiet_iget_ : quiet.

Lemma quiet_nlink ip d : quiet (B := B) (iset ip (fun i => set_inlink (i16 (inlink i + d)) i)).
Proof. by apply quiet_iset. Qed.
#[local] Hint Resolve quiet_nlink : quiet.

(** A quiet routine of the file system first. *)
Ltac kquiet I := apply wlp_bind; eapply wlp_fs_quiet; [solve [auto with quiet]|exact I|]; clear I; intros ? ? I.

Section Rules.
Context (pend : list Z) (xf xi : Z -> Z) (s : ksys) (I : fd_inv pend xf xi s).

Lemma wlp_uset f (Q : unit -> ksys -> Prop) : (forall u, ofile (f u) = ofile u /\ cwd (f u) = cwd u) -> (fd_inv pend xf xi (set_self (f (self s)) s) -> Q tt (set_self (f (self s)) s)) -> wlp (uset f) s Q.
Proof.
  intros Hf HQ. apply wlp_modify, HQ. destruct (Hf (self s)) as [E1 E2]. destruct I. constructor; cbn [kfs ftab pipes fpages self set_self]; rewrite ?E1, ?E2; assumption.
Qed.

Lemma wlp_argfd n (Q : option (Z * Z) -> ksys -> Prop) : Q None s ->
  (forall fd f, 0 <= fd < NOFILE -> 0 <= f < NFILE -> aget (-1) (ofile (self s)) fd = f -> Q (Some (fd, f)) s) -> wlp (argfd n) s Q.
Proof.
  intros HN HS. unfold argfd. apply wlp_bind, wlp_gets. destruct (argint _ _ _ n) as [fd|]; [|by apply wlp_ret]. destruct (Z.ltb_spec fd 0); [by apply wlp_ret|]. destruct (Z.geb_spec fd NOFILE); [by apply wlp_ret|].
  cbn [orb]. apply wlp_bind, wlp_gets, wlp_ret. destruct (Z.eqb_spec (aget (-1) (ofile (self s)) fd) (-1)) as [E|E]; [done|]. destruct (fi_fd _ _ _ _ I fd) as [?|Hf]; [lia|done|]. by apply HS.
Qed.

Lemma wlp_fdalloc f (Q : Z -> ksys -> Prop) : 0 <= f < NFILE -> Q (-1) s ->
  (forall fd, 0 <= fd < NOFILE -> aget (-1) (ofile (self s)) fd = -1 -> fd_inv pend (fun g => xf g - one f g) xi (set_self (set_ofile (aset (ofile (self s)) fd f) (self s)) s) ->
     Q fd (set_self (set_ofile (aset (ofile (self s)) fd f) (self s)) s)) -> wlp (fdalloc f) s Q.
Proof.
  intros Hf HN HS. unfold fdalloc. apply wlp_bind. apply (wlp_search (fun _ s' => s' = s)); [done| |intros s' ->; by apply wlp_ret]. intros fd s' Hfd ->. apply wlp_bind, wlp_gets.
  destruct (Z.eqb_spec (aget (-1) (ofile (self s)) fd) (-1)) as [E|]; [|by apply wlp_ret]. assert (Hfd' : 0 <= fd < NOFILE) by (unfold NOFILE in *; lia). apply wlp_bind, wlp_modify, wlp_ret, wlp_ret. apply HS; [done|done|].
  eapply fd_inv_ext; [apply (fd_inv_ofile pend xf xi s fd f I Hfd'); by right| |done]. intros g Hg. cbn. rewrite E, (one_sym g f). unfold one. replace (-1 =? g) with false by lia. lia.
Qed.

Lemma wlp_fs_namei path (Q : Z -> ksys -> Prop) : (forall ip t, iptr ip -> fd_inv pend xf (fun q => xi q + ref_of ip q) (set_kfs t s) -> Q ip (set_kfs t s)) -> wlp (fs_namei pid devread path) s Q.
Proof. intros HQ. unfold fs_namei. apply wlp_bind, wlp_gets. eapply wlp_fs; [apply gives_namei; [done|apply I]|exact I|]. exact HQ. Qed.

Lemma wlp_fs_nameiparent path (Q : Z * list Z -> ksys -> Prop) :
  (forall dp nm t, iptr dp -> fd_inv pend xf (fun q => xi q + ref_of dp q) (set_kfs t s) -> Q (dp, nm) (set_kfs t s)) -> wlp (fs_nameiparent pid devread path) s Q.
Proof. intros HQ. unfold fs_nameiparent. apply wlp_bind, wlp_gets. eapply wlp_fs; [apply gives_namex; [done|apply I]|exact I|]. intros [dp nm] t Hp I'. by apply HQ. Qed.

Lemma wlp_unlockput ip (Q : unit -> ksys -> Prop) : in_cache ip -> (forall t, fd_inv pend xf (fun q => xi q - one ip q) (set_kfs t s) -> Q tt (set_kfs t s)) -> wlp (on_fs (iunlockput pid ip)) s Q.
Proof. intros Hip HQ. eapply wlp_fs; [by apply gives_iunlockput|exact I|]. intros [] t _ I'. apply HQ. eapply fd_inv_ext; [exact I'|done|]. intros q _. cbn. lia. Qed.

Lemma wlp_put ip (Q : unit -> ksys -> Prop) : in_cache ip -> (forall t, fd_inv pend xf (fun q => xi q - one ip q) (set_kfs t s) -> Q tt (set_kfs t s)) -> wlp (on_fs (iput pid ip)) s Q.
Proof. intros Hip HQ. eapply wlp_fs; [by apply gives_iput|exact I|]. intros [] t _ I'. apply HQ. eapply fd_inv_ext; [exact I'|done|]. intros q _. cbn. lia. Qed.

Lemma wlp_dirlink dp nm n (Q : Z -> ksys -> Prop) : (forall r t, fd_inv pend xf xi (set_kfs t s) -> Q r (set_kfs t s)) -> wlp (on_fs (dirlink pid devread devwrite dp nm n)) s Q.
Proof. intros HQ. eapply wlp_fs; [by apply gives_dirlink|exact I|]. intros r t _ I'. apply HQ. eapply fd_inv_ext; [exact I'|done|]. intros q _. cbn. lia. Qed.

Lemma wlp_nlink ip d (Q : unit -> ksys -> Prop) : (forall t, fd_inv pend xf xi (set_kfs t s) -> Q tt (set_kfs t s)) -> wlp (add_nlink ip d) s Q.
Proof.
  intros HQ. unfold add_nlink. apply wlp_bind. eapply wlp_fs_quiet; [apply quiet_nlink|exact I|]. intros [] u1 I1. eapply wlp_fs_quiet; [apply quiet_iupdate|exact I1|]. intros [] u2 I2. exact (HQ u2 I2).
Qed.

Lemma wlp_fail (Q : Z -> ksys -> Prop) : (forall t, fd_inv pend xf xi (set_kfs t s) -> Q (-1) (set_kfs t s)) -> wlp fail_op s Q.
Proof. intros HQ. unfold fail_op, end_op. apply wlp_bind. eapply wlp_fs_quiet; [apply quiet_end|exact I|]. intros [] t I'. by apply wlp_ret, HQ. Qed.
End Rules.

(** ** The calls *)

Section Each.
Context (xf xi : Z -> Z) (Hxf : forall f, 0 <= xf f).

(** The accounts are the same when the call returns. *)
Definition keeps {A} (m : M ksys A) : Prop := forall s, fd_inv [] xf xi s -> wlp m s (fun _ s' => fd_inv [] xf xi s').

Lemma keeps_dup : keeps sys_dup.
Proof.
  intros s I. unfold sys_dup. apply wlp_bind. eapply wlp_argfd; [exact I|by apply wlp_ret|]. intros fd f Hfd Hf Ef. apply wlp_bind. eapply wlp_fdalloc; [exact I|done|by apply wlp_ret|]. intros fd' Hfd' _ I1.
  replace (fd' <? 0) with false by lia. apply wlp_bind. eapply wlp_filedup; [exact I1|done|]. intros s2 I2. apply wlp_ret. eapply fd_inv_ext; [exact I2| |done]. intros g _. cbn. lia.
Qed.

Lemma wlp_rw_args s (Q : option (Z * Z * Z) -> ksys -> Prop) : fd_inv [] xf xi s -> Q None s -> (forall f p n, 0 <= f < NFILE -> Q (Some (f, p, n)) s) -> wlp rw_args s Q.
Proof.
  intros I HN HS. unfold rw_args. apply wlp_bind. eapply wlp_argfd; [exact I|by apply wlp_ret|]. intros fd f Hfd Hf Ef. apply wlp_bind, wlp_gets. destruct (argint _ _ _ _) as [n|]; [|by apply wlp_ret].
  apply wlp_bind, wlp_gets, wlp_ret. destruct (argptr _ _ _ _ _) as [p|]; [by apply HS|done].
Qed.

Lemma keeps_store a bs : keeps (store (B := B) a bs).
Proof. intros s I. by eapply wlp_uset; [exact I|..]. Qed.

Lemma keeps_read : keeps (sys_read pid killed devread).
Proof.
  intros s I. unfold sys_read. apply wlp_bind. eapply wlp_rw_args; [exact I|by apply wlp_ret|]. intros f p n Hf. apply wlp_bind. eapply wlp_fileread; [exact Hread|exact I|done|]. intros [r bs] s1 I1 _.
  apply wlp_bind. eapply wlp_mono; [by apply keeps_store|]. intros a s2 I2. by apply wlp_ret.
Qed.

Lemma keeps_write : keeps (sys_write pid killed devwrite).
Proof.
  intros s I. unfold sys_write. apply wlp_bind. eapply wlp_rw_args; [exact I|by apply wlp_ret|]. intros f p n Hf. apply wlp_bind, wlp_gets. eapply wlp_filewrite; [exact Hwrite|exact I|done|]. by intros r s1 I1 _.
Qed.

Lemma keeps_close : keeps (sys_close pid).
Proof.
  intros s I. unfold sys_close. apply wlp_bind. eapply wlp_argfd; [exact I|by apply wlp_ret|]. intros fd f Hfd Hf Ef. apply wlp_bind, wlp_modify, wlp_bind.
  eapply wlp_fileclose; [apply (fd_inv_ofile [] xf xi s fd (-1) I Hfd); by left|done|]. intros s1 I1 _. apply wlp_ret. eapply fd_inv_ext; [exact I1| |done]. intros g Hg. cbn. rewrite Ef, (one_sym g f), (one_sym g (-1)). unfold one at 2. replace (g =? -1) with false by lia. lia.
Qed.

Lemma keeps_fstat : keeps (sys_fstat pid).
Proof.
  intros s I. unfold sys_fstat. apply wlp_bind. eapply wlp_argfd; [exact I|by apply wlp_ret|]. intros fd f Hfd Hf Ef. apply wlp_bind, wlp_gets. destruct (argptr _ _ _ _ _) as [p|]; [|by apply wlp_ret].
  apply wlp_bind. eapply wlp_filestat; [exact I|]. intros [[[[[t dev] ino] nl] sz]|] s1 I1 _; [|by apply wlp_ret]. unfold stat_store.
  apply wlp_bind. do 4 (apply wlp_bind; eapply wlp_mono; [by apply keeps_store|]; intros ? ? ?). eapply wlp_mono; [by apply keeps_store|]. intros ? s2 I2. by apply wlp_ret.
Qed.

(** The references add up. *)
Ltac settle I := eapply fd_inv_ext; [exact I|done|]; intros ? ?; cbn; rewrite ?ref_of_in by done; lia.

Lemma in_cache_ptr ip : in_cache ip -> (ip =? -1) = false.
Proof. intros [? _]. lia. Qed.

Lemma keeps_link_bad ip xi' s : in_cache ip -> (forall q, xi' q = xi q + one ip q) -> fd_inv [] xf xi' s -> wlp (link_bad pid ip) s (fun _ s' => fd_inv [] xf xi s').
Proof.
  intros Hip Hx I. unfold link_bad. kquiet I. apply wlp_bind. eapply wlp_nlink; [exact I|]. intros u1 I1. apply wlp_bind. eapply wlp_unlockput; [exact I1|done|]. intros u2 I2.
  eapply wlp_fail; [exact I2|]. intros u3 I3. eapply fd_inv_ext; [exact I3|done|]. intros q _. cbn. rewrite Hx. lia.
Qed.

Lemma keeps_link : keeps (sys_link pid devread devwrite).
Proof.
  intros s I. unfold sys_link. apply wlp_bind, wlp_gets, wlp_bind, wlp_gets. destruct (argstr _ _ _ 0) as [old|]; [|by apply wlp_ret]. destruct (argstr _ _ _ 1) as [new|]; [|by apply wlp_ret].
  unfold begin_op, end_op. kquiet I. apply wlp_bind. eapply wlp_fs_namei; [exact I|]. intros ip u1 [->|Hip] I1; [cbn [Z.eqb Pos.eqb]; eapply wlp_fail; [exact I1|]; intros u2 I2; settle I2|]. rewrite (in_cache_ptr ip Hip).
  kquiet I1. kquiet I1. destruct (_ =? T_DIR).
  { apply wlp_bind. eapply wlp_unlockput; [exact I1|done|]. intros u2 I2. eapply wlp_fail; [exact I2|]. intros u3 I3. settle I3. }
  apply wlp_bind. eapply wlp_nlink; [exact I1|]. intros u2 I2. kquiet I2. apply wlp_bind. eapply wlp_fs_nameiparent; [exact I2|]. intros dp nm u3 Hdp I3.
  destruct Hdp as [->|Hdp]; [cbn [Z.eqb Pos.eqb]; eapply keeps_link_bad; [exact Hip| |exact I3]; intros q; cbn; rewrite ref_of_in by done; lia|]. rewrite (in_cache_ptr dp Hdp).
  kquiet I3. kquiet I3. kquiet I3. kquiet I3. match goal with |- wlp _ ?s0 _ => set (s4 := s0) in * end.
  assert (HK : forall r s', fd_inv [] xf (fun q => xi q + ref_of ip q + ref_of dp q) s' -> wlp (if r <? 0 then on_fs (iunlockput pid dp) ;;; link_bad pid ip else on_fs (iunlockput pid dp) ;;; on_fs (iput pid ip) ;;; on_fs (on_blk bl_end_op) ;;; ret 0) s' (fun _ s' => fd_inv [] xf xi s')).
  { intros r s' I'. destruct (r <? 0); apply wlp_bind; (eapply wlp_unlockput; [exact I'|done|]); intros u5 I5.
    - eapply keeps_link_bad; [exact Hip| |exact I5]. intros q. cbn. rewrite !ref_of_in by done. lia.
    - apply wlp_bind. eapply wlp_put; [exact I5|done|]. intros u6 I6. kquiet I6. apply wlp_ret. settle I6. }
  apply wlp_bind. destruct (negb _); [apply wlp_ret; by apply HK|]. eapply wlp_dirlink; [exact I3|]. intros r u5 I5. by apply HK.
Qed.

Lemma quiet_isdirempty ip s xi' (Q : bool -> ksys -> Prop) : fd_inv [] xf xi' s -> (forall r s', fd_inv [] xf xi' s' -> Q r s') -> wlp (isdirempty devread ip) s Q.
Proof.
  intros I HQ. unfold isdirempty. kquiet I. apply wlp_bind. apply (wlp_search (fun _ s' => fd_inv [] xf xi' s')); [done| |].
  - intros k s' _ I'. apply wlp_bind. eapply wlp_fs_quiet; [by apply quiet_readi|exact I'|]. intros [n de] u2 I2. destruct (negb _); [apply wlp_panic|]. apply wlp_ret. destruct (negb _); [apply wlp_ret; by apply HQ|done].
  - intros s' I'. apply wlp_ret. by apply HQ.
Qed.

Lemma keeps_unlink_bad dp xi' s : in_cache dp -> (forall q, xi' q = xi q + one dp q) -> fd_inv [] xf xi' s -> wlp (unlink_bad pid dp) s (fun _ s' => fd_inv [] xf xi s').
Proof.
  intros Hdp Hx I. unfold unlink_bad. apply wlp_bind. eapply wlp_unlockput; [exact I|done|]. intros u2 I2. eapply wlp_fail; [exact I2|]. intros u3 I3. eapply fd_inv_ext; [exact I3|done|]. intros q _. cbn. rewrite Hx. lia.
Qed.

Lemma keeps_unlink : keeps (sys_unlink pid devread devwrite).
Proof.
  intros s I. unfold sys_unlink. apply wlp_bind, wlp_gets. destruct (argstr _ _ _ 0) as [path|]; [|by apply wlp_ret]. unfold begin_op, end_op. kquiet I.
  apply wlp_bind. eapply wlp_fs_nameiparent; [exact I|]. intros dp nm u1 [->|Hdp] I1; [cbn [Z.eqb Pos.eqb]; eapply wlp_fail; [exact I1|]; intros u2 I2; settle I2|]. rewrite (in_cache_ptr dp Hdp). kquiet I1.
  assert (HB : forall s' xi', fd_inv [] xf xi' s' -> (forall q, xi' q = xi q + one dp q) -> wlp (unlink_bad pid dp) s' (fun _ s' => fd_inv [] xf xi s')) by (intros s' xi' I' Hx; by eapply keeps_unlink_bad).
  destruct (_ || _); [eapply HB; [exact I1|]; intros q; cbn; by rewrite ref_of_in by done|]. apply wlp_bind. eapply wlp_fs; [by apply gives_dirlookup|exact I1|]. intros [[ip off]|] u2 Hr I2.
  2: { eapply HB; [exact I2|]. intros q. cbn. rewrite ref_of_in by done. lia. }
  kquiet I2. kquiet I2. destruct (_ <? 1); [apply wlp_panic|]. apply wlp_bind.
  match goal with |- wlp ?m ?s0 ?P => assert (HW : wlp m s0 (fun _ s' => fd_inv [] xf (fun q => xi q + ref_of dp q + one ip q) s')) end.
  { destruct (_ =? T_DIR); [|by apply wlp_ret]. eapply quiet_isdirempty; [exact I2|]. by intros r s' I'. }
  eapply wlp_mono; [exact HW|]. intros e s3 I3. destruct (negb e).
  { apply wlp_bind. eapply wlp_unlockput; [exact I3|done|]. intros u4 I4. eapply HB; [exact I4|]. intros q. cbn. rewrite ref_of_in by done. lia. }
  apply wlp_bind. eapply wlp_fs_quiet; [by apply quiet_writei|exact I3|]. intros n u4 I4. destruct (negb _); [apply wlp_panic|]. kquiet I4.
  assert (HE : forall s', fd_inv [] xf (fun q => xi q + ref_of dp q + one ip q) s' -> wlp (on_fs (iunlockput pid dp) ;;; add_nlink ip (-1) ;;; on_fs (iunlockput pid ip) ;;; on_fs (on_blk bl_end_op) ;;; ret 0) s' (fun _ s' => fd_inv [] xf xi s')).
  { intros s' I'. apply wlp_bind. eapply wlp_unlockput; [exact I'|done|]. intros u5 I5. apply wlp_bind. eapply wlp_nlink; [exact I5|]. intros u6 I6. apply wlp_bind. eapply wlp_unlockput; [exact I6|done|]. intros u7 I7. kquiet I7. apply wlp_ret. settle I7. }
  apply wlp_bind, wlp_when; intros _; [|by apply HE]. eapply wlp_nlink; [exact I4|]. intros u5 I5. by apply HE.
Qed.

(** create() returns its inode with one reference. *)
Lemma wlp_create path type major minor s (Q : Z -> ksys -> Prop) : fd_inv [] xf xi s ->
  (forall ip s', iptr ip -> fd_inv [] xf (fun q => xi q + ref_of ip q) s' -> Q ip s') -> wlp (create pid devread devwrite path type major minor) s Q.
Proof.
  intros I HQ. assert (HF : forall xi' s', fd_inv [] xf xi' s' -> (forall q, in_cache q -> xi' q = xi q) -> Q (-1) s').
  { intros xi' s' I' Hx. apply HQ; [by left|]. eapply fd_inv_ext; [exact I'|done|]. intros q Hq. rewrite Hx by done. cbn. lia. }
  unfold create. apply wlp_bind. eapply wlp_fs_nameiparent; [exact I|]. intros dp nm u1 [->|Hdp] I1; [apply wlp_ret; eapply HF; [exact I1|]; intros q _; cbn; lia|]. rewrite (in_cache_ptr dp Hdp).
  kquiet I1. apply wlp_bind. eapply wlp_fs; [by apply gives_dirlookup|exact I1|]. intros [[ip off]|] u2 Hr I2.
  - apply wlp_bind. eapply wlp_unlockput; [exact I2|done|]. intros u3 I3. kquiet I3. kquiet I3. destruct (_ && _).
    + apply wlp_ret, HQ; [by right|]. settle I3.
    + apply wlp_bind. eapply wlp_unlockput; [exact I3|done|]. intros u4 I4. apply wlp_ret. eapply HF; [exact I4|]. intros q _. cbn. rewrite ref_of_in by done. lia.
  - kquiet I2. apply wlp_bind. eapply wlp_fs; [apply gives_ialloc|exact I2|]. intros ip u3 Hip I3. kquiet I3. apply wlp_bind. eapply wlp_fs_quiet; [by apply quiet_iset|exact I3|]. intros [] u4 I4. kquiet I4.
    assert (HE : forall s', fd_inv [] xf (fun q => xi q + ref_of dp q + 0 + one ip q) s' ->
      wlp (let! n := iget_field ip inum in let! r := on_fs (dirlink pid devread devwrite dp nm n) in if r <? 0 then panic "create: dirlink" else on_fs (iunlockput pid dp) ;;; ret ip) s' Q).
    { intros s' I'. kquiet I'. apply wlp_bind. eapply wlp_dirlink; [exact I'|]. intros r u5 I5. destruct (r <? 0); [apply wlp_panic|]. apply wlp_bind. eapply wlp_unlockput; [exact I5|done|]. intros u6 I6.
      apply wlp_ret, HQ; [by right|]. settle I6. }
    apply wlp_bind, wlp_when; intros _; [|by apply HE]. apply wlp_bind. eapply wlp_nlink; [exact I4|]. intros u5 I5. kquiet I5. apply wlp_bind. eapply wlp_dirlink; [exact I5|]. intros r u6 I6.
    destruct (r <? 0); [apply wlp_panic|]. kquiet I6. apply wlp_bind. eapply wlp_dirlink; [exact I6|]. intros r' u7 I7. destruct (r' <? 0); [apply wlp_panic|]. apply wlp_ret. by apply HE.
Qed.

Lemma keeps_create_only path type major minor : keeps (create_only pid devread devwrite path type major minor).
Proof.
  intros s I. unfold create_only, end_op. apply wlp_bind. eapply wlp_create; [exact I|]. intros ip s1 [->|Hip] I1; [cbn [Z.eqb Pos.eqb]; eapply wlp_fail; [exact I1|]; intros u2 I2; settle I2|]. rewrite (in_cache_ptr ip Hip).
  apply wlp_bind. eapply wlp_unlockput; [exact I1|done|]. intros u2 I2. kquiet I2. apply wlp_ret. settle I2.
Qed.

Lemma keeps_fail : keeps fail_op.
Proof. intros s I. eapply wlp_fail; [exact I|]. by intros u I'. Qed.

Lemma keeps_mkdir : keeps (sys_mkdir pid devread devwrite).
Proof.
  intros s I. unfold sys_mkdir, begin_op. kquiet I. apply wlp_bind, wlp_gets. destruct (argstr _ _ _ _); [by apply keeps_create_only|by apply keeps_fail].
Qed.

Lemma keeps_mknod : keeps (sys_mknod pid devread devwrite).
Proof.
  intros s I. unfold sys_mknod, begin_op. kquiet I. apply wlp_bind, wlp_gets, wlp_bind, wlp_gets, wlp_bind, wlp_gets.
  destruct (argstr _ _ _ _); [|by apply keeps_fail]. destruct (argint _ _ _ 1); [|by apply keeps_fail]. destruct (argint _ _ _ 2); [by apply keeps_create_only|by apply keeps_fail].
Qed.

Lemma keeps_chdir : keeps (sys_chdir pid devread).
Proof.
  intros s I. unfold sys_chdir, begin_op, end_op. kquiet I. apply wlp_bind, wlp_gets. destruct (argstr _ _ _ _) as [path|]; [|by apply keeps_fail].
  apply wlp_bind. eapply wlp_fs_namei; [exact I|]. intros ip u1 [->|Hip] I1; [cbn [Z.eqb Pos.eqb]; eapply wlp_fail; [exact I1|]; intros u2 I2; settle I2|]. rewrite (in_cache_ptr ip Hip).
  kquiet I1. kquiet I1. destruct (negb _).
  { apply wlp_bind. eapply wlp_unlockput; [exact I1|done|]. intros u2 I2. eapply wlp_fail; [exact I2|]. intros u3 I3. settle I3. }
  kquiet I1. apply wlp_bind, wlp_gets, wlp_bind. eapply wlp_put; [exact I1|apply I1|]. intros u2 I2. kquiet I2. apply wlp_bind, wlp_modify, wlp_ret.
  destruct I2. constructor; cbn [kfs ftab pipes fpages self set_self set_kfs ofile cwd set_cwd]; try assumption. intros q Hq. specialize (fi_iref q Hq). cbn beta iota delta [kfs ftab self set_kfs] in fi_iref. rewrite ref_of_in in fi_iref by done. lia.
Qed.

Lemma wlp_open_inode path omode s (Q : Z -> ksys -> Prop) : fd_inv [] xf xi s ->
  (forall ip s', iptr ip -> fd_inv [] xf (fun q => xi q + ref_of ip q) s' -> Q ip s') -> wlp (open_inode pid devread devwrite path omode) s Q.
Proof.
  intros I HQ. unfold open_inode. destruct (negb _); [by apply wlp_create|]. apply wlp_bind. eapply wlp_fs_namei; [exact I|]. intros ip u1 [->|Hip] I1; [apply wlp_ret, HQ; [by left|done]|]. rewrite (in_cache_ptr ip Hip).
  kquiet I1. kquiet I1. destruct (_ && _); [|apply wlp_ret, HQ; [by right|done]]. apply wlp_bind. eapply wlp_unlockput; [exact I1|done|]. intros u2 I2. apply wlp_ret, HQ; [by left|].
  eapply fd_inv_ext; [exact I2|done|]. intros q Hq. cbn. rewrite ref_of_in by done. lia.
Qed.

Lemma keeps_open : keeps (sys_open pid devread devwrite).
Proof.
  intros s I. unfold sys_open. apply wlp_bind, wlp_gets, wlp_bind, wlp_gets. destruct (argstr _ _ _ _) as [path|]; [|by apply wlp_ret]. destruct (argint _ _ _ _) as [omode|]; [|by apply wlp_ret].
  unfold begin_op, end_op. kquiet I. apply wlp_bind. eapply wlp_open_inode; [exact I|]. intros ip s1 [->|Hip] I1; [cbn [Z.eqb Pos.eqb]; eapply wlp_fail; [exact I1|]; intros u2 I2; settle I2|]. rewrite (in_cache_ptr ip Hip).
  assert (HB : forall s', fd_inv [] xf (fun q => xi q + ref_of ip q) s' -> wlp (on_fs (iunlockput pid ip) ;;; fail_op) s' (fun _ s' => fd_inv [] xf xi s')).
  { intros s' I'. apply wlp_bind. eapply wlp_unlockput; [exact I'|done|]. intros u2 I2. eapply wlp_fail; [exact I2|]. intros u3 I3. settle I3. }
  apply wlp_bind. eapply wlp_filealloc; [exact I1|done|apply wlp_bind, wlp_ret; cbn [Z.ltb Z.compare Z.eqb Pos.eqb]; apply wlp_bind, wlp_ret; by apply HB|].
  intros f Hf X0 U0 T0 Z0 I2. pose proof (fi_ftab _ _ _ _ I1) as HL. rewrite (proj2 (Z.eqb_neq f (-1))) by lia. set (s2 := set_ftab _ s1) in *. assert (Ef : the_file f s2 = set_fref 1 (the_file f s1)) by (unfold s2; by rewrite the_file_aset, Z.eqb_refl by done).
  apply wlp_bind. eapply wlp_fdalloc; [exact I2|done| |].
  - cbn [Z.ltb Z.compare]. apply wlp_bind. eapply (wlp_close_new pid []); [exact I2|done|by rewrite Ef|]. intros s3 I3 _ _. by apply HB.
  - intros fd Hfd _ I3. rewrite (proj2 (Z.ltb_ge fd 0)) by lia. kquiet I3. kquiet I3. apply wlp_bind, wlp_modify, wlp_ret.
    match goal with |- fd_inv _ _ _ (set_ftab (aset (ftab ?s4) f ?x) ?s4) => pose proof (fd_inv_inode [f] [] _ _ s4 f x I3 Hf) as W; assert (E4 : the_file f s4 = the_file f s2) by done end.
    eapply fd_inv_ext; [apply W; rewrite ?E4, ?Ef; cbn [ftype set_fref as_inode fip fref]; try done|..].
    + by rewrite T0.
    + intros g Hg Hne. by apply list_elem_of_singleton in Hg.
    + intros g _. cbn. lia.
    + intros q _. rewrite E4, Ef. unfold ipw. cbn [ftype set_fref as_inode fip]. rewrite T0. cbn. rewrite ref_of_in by done. lia.
Qed.

Lemma keeps_pipe : keeps (sys_pipe pid).
Proof.
  intros s I. unfold sys_pipe. apply wlp_bind, wlp_gets. destruct (argptr _ _ _ _ _) as [a|]; [|by apply wlp_ret]. apply wlp_bind. eapply wlp_pipealloc; [exact Hread|exact Hwrite|exact I|done|intros s1 I1 _; by apply wlp_ret|].
  intros f0 f1 s1 F0 F1 Hne I1 _.
  assert (HC : forall s', fd_inv [] (fun g => xf g + one f0 g + one f1 g) xi s' -> wlp (fileclose pid f0 ;;; fileclose pid f1 ;;; ret (-1)) s' (fun _ s' => fd_inv [] xf xi s')).
  { intros s' I'. apply wlp_bind. eapply wlp_fileclose; [exact I'|done|]. intros s2 I2 _. apply wlp_bind. eapply wlp_fileclose; [exact I2|done|]. intros s3 I3 _. apply wlp_ret. eapply fd_inv_ext; [exact I3| |done]. intros g _. cbn. lia. }
  apply wlp_bind. eapply wlp_fdalloc; [exact I1|done| |].
  { cbn [Z.ltb Z.compare]. apply wlp_bind, wlp_ret. cbn [Z.ltb Z.compare Z.geb when]. apply wlp_bind, wlp_ret. by apply HC. }
  intros fd0 Hfd0 E0 I2. rewrite (proj2 (Z.ltb_ge fd0 0)) by lia. apply wlp_bind. eapply wlp_fdalloc; [exact I2|done| |].
  - cbn [Z.ltb Z.compare]. replace (fd0 >=? 0) with true by lia. cbn [when]. apply wlp_bind, wlp_modify. apply HC.
    eapply fd_inv_ext; [apply (fd_inv_ofile [] _ xi _ fd0 (-1) I2 Hfd0); by left| |done]. intros g Hg. cbn [self set_self ofile set_ofile]. rewrite aget_aset_eq by (rewrite (fi_ofile _ _ _ _ I1); exact Hfd0).
    rewrite (one_sym g f0), (one_sym g (-1)). unfold one at 5. replace (g =? -1) with false by lia. lia.
  - intros fd1 Hfd1 E1 I3. rewrite (proj2 (Z.ltb_ge fd1 0)) by lia. assert (I3' : fd_inv [] xf xi (set_self (set_ofile (aset (ofile (self (set_self (set_ofile (aset (ofile (self s1)) fd0 f0) (self s1)) s1))) fd1 f1) (self (set_self (set_ofile (aset (ofile (self s1)) fd0 f0) (self s1)) s1))) (set_self (set_ofile (aset (ofile (self s1)) fd0 f0) (self s1)) s1))).
    { eapply fd_inv_ext; [exact I3| |done]. intros g _. cbn. lia. }
    apply wlp_bind. eapply wlp_mono; [by apply keeps_store|]. intros ? s4 I4. apply wlp_bind. eapply wlp_mono; [by apply keeps_store|]. intros ? s5 I5. by apply wlp_ret.
Qed.

Lemma keeps_file_calls num m : file_calls pid killed devread devwrite num = Some m -> keeps m.
Proof.
  unfold file_calls. intros E. repeat (case_match; try done); injection E as <-;
    auto using keeps_pipe, keeps_read, keeps_fstat, keeps_chdir, keeps_dup, keeps_open, keeps_write, keeps_mknod, keeps_unlink, keeps_link, keeps_mkdir, keeps_close.
Qed.
End Each.

(** C4: No system call loses or makes up a reference, on any path through it
    that returns, failing or not.  Whatever a process does between and with
    its calls on files (devices being drivers that do not touch the inode
    cache's counts): the count of every open file stays the number of
    descriptors that refer to it, the count of every inode in the cache the
    number of open files and current directories on it (xf and xi are what
    the other processes hold), a file is of no type exactly if it is free,
    and a pipe exists, with the ends marked open that are, exactly as long as
    a file refers to it.  No page is lost: each of the pages pg that were free
    or held a pipe at first is still free or holds a pipe that is open, and not
    both. *)
Theorem calls_keep_references xf xi s s' : (forall f, 0 <= xf f) -> rtc (kstep pid killed devread devwrite) s s' -> fd_inv [] xf xi s -> fd_inv [] xf xi s'.
Proof.
  intros Hxf. induction 1 as [|s s1 s' HS _ IH]; [done|]. intros I. apply IH. destruct HS as [s u E1 E2|s num m r s1 Hm E].
  - destruct I. constructor; cbn [kfs ftab pipes fpages self set_self]; rewrite ?E1, ?E2; assumption.
  - pose proof (keeps_file_calls xf xi Hxf num m Hm s I) as W. unfold wlp in W. by rewrite E in W.
Qed.

End Calls.

(** ** The arguments of a call *)

Section Arguments.
Context (sz : Z) (mem : Z -> Z) (esp : Z) (Hsz : 0 <= sz <= 2 ^ 31).

Lemma argint_spec n v (a := u32 (esp + 4 + 4 * n)) : argint sz mem esp n = Some v <-> a + 4 <= sz /\ v = i32 (le32 (load_bytes mem a 4) 0).
Proof.
  unfold argint, fetchint. fold a. pose proof (u32_range (esp + 4 + 4 * n)) as Ha. fold a in Ha. destruct (Z.geb_spec a sz) as [|Hlt]; cbn [orb]; [split; [done|lia]|]. rewrite (u32_small (a + 4)) by lia.
  destruct (Z.gtb_spec (a + 4) sz); [split; [done|lia]|]. split; [intros [= <-]; split; [lia|done]|by intros [_ ->]].
Qed.

Lemma argptr_spec n size p : size < 2 ^ 31 -> argptr sz mem esp n size = Some p <-> exists v, argint sz mem esp n = Some v /\ p = u32 v /\ 0 <= size /\ p < sz /\ p + size <= sz.
Proof.
  intros Hs. unfold argptr. destruct (argint sz mem esp n) as [v|]; [|split; [done|by intros (v & ? & _)]]. pose proof (u32_range v) as Hv.
  destruct (Z.ltb_spec size 0); cbn [orb]; [split; [done|intros (? & _ & _ & ? & _); lia]|]. destruct (Z.geb_spec (u32 v) sz); cbn [orb]; [split; [done|intros (? & [= <-] & -> & ? & ? & ?); lia]|].
  rewrite (u32_small (u32 v + size)) by lia. destruct (Z.gtb_spec (u32 v + size) sz); [split; [done|intros (? & [= <-] & -> & ? & ? & ?); lia]|].
  split; [intros [= <-]; by exists v; split_and!; (lia || done)|by intros (? & [= <-] & -> & _)].
Qed.

(** The string at a, NUL excluded. *)
Definition string_at (a : Z) (str : list Z) : Prop := load_bytes mem a (length str) = str /\ mem (a + Z.of_nat (length str)) = 0 /\ 0 ∉ str.

Lemma string_at_cons a c str : string_at a (c :: str) <-> mem a = c /\ c <> 0 /\ string_at (a + 1) str.
Proof.
  unfold string_at, load_bytes. cbn [length seq map]. rewrite <- seq_shift, map_map, Z.add_0_r. rewrite not_elem_of_cons.
  rewrite (map_ext (fun k => mem (a + Z.of_nat (S k))) (fun k => mem (a + 1 + Z.of_nat k))) by (intros; f_equal; lia). replace (a + Z.of_nat (S (length str))) with (a + 1 + Z.of_nat (length str)) by lia.
  split; [intros ([= E1 E2] & E3 & E4 & E5)|intros (E1 & E2 & E3 & E4 & E5)]; split_and!; try done; congruence.
Qed.

Lemma find_nul_spec k a str : find_nul mem k a = Some str <-> Z.of_nat (length str) < Z.of_nat k /\ string_at a str.
Proof.
  revert a str. induction k as [|k IH]; intros a str; cbn [find_nul]; [split; [done|lia]|]. destruct (Z.eqb_spec (mem a) 0) as [E|E].
  - split; [intros [= <-]; split; [cbn; lia|]; unfold string_at; cbn; rewrite Z.add_0_r; split_and!; [done|done|apply not_elem_of_nil]|]. intros [_ HS]. destruct str as [|c str]; [done|]. apply string_at_cons in HS as (<- & HS & _). done.
  - destruct str as [|c str].
    + split; [destruct (find_nul mem k (a + 1)); cbn; congruence|]. intros [_ (_ & HS & _)]. cbn in HS. by rewrite Z.add_0_r in HS.
    + rewrite string_at_cons. destruct (find_nul mem k (a + 1)) as [str'|] eqn:EF; cbn [option_map length].
      * apply IH in EF as [EF1 EF2]. split; [intros [= <- <-]; split_and!; (lia || done)|]. intros (Hl & <- & _ & HS). f_equal. f_equal.
        assert (Some str' = Some str); [|congruence]. rewrite <- (proj2 (IH (a + 1) str')) by done. apply IH. split; [lia|done].
      * split; [done|]. intros (Hl & _ & _ & HS). assert (find_nul mem k (a + 1) = Some str) by (apply IH; split; [lia|done]). congruence.
Qed.

Lemma argstr_spec n str : argstr sz mem esp n = Some str <-> exists v, argint sz mem esp n = Some v /\ u32 v + Z.of_nat (length str) < sz /\ string_at (u32 v) str.
Proof.
  unfold argstr, fetchstr. destruct (argint sz mem esp n) as [v|]; [|split; [done|by intros (v & ? & _)]]. pose proof (u32_range v).
  destruct (Z.geb_spec (u32 v) sz); [split; [done|intros (? & [= <-] & ? & _); lia]|]. rewrite find_nul_spec. split; [intros [E1 E2]; exists v; split_and!; (lia || done)|intros (? & [= <-] & E1 & E2); split; [lia|done]].
Qed.
End Arguments.

(** C22: A system call takes from a process exactly what lies inside it.  For
    a process of sz bytes, below the kernel, argint() fetches the n-th word
    above the stack pointer if all four bytes are inside, argptr() accepts
    the block of size bytes it points to if all of it is inside (no
    wrap-around of pointer plus size gets past the test), and argstr() the
    string it points to if its NUL is inside; everything else fails. *)
Theorem arguments_are_inside sz mem esp n : 0 <= sz <= 2 ^ 31 ->
  (forall v (a := u32 (esp + 4 + 4 * n)), argint sz mem esp n = Some v <-> a + 4 <= sz /\ v = i32 (le32 (load_bytes mem a 4) 0)) /\
  (forall size p, size < 2 ^ 31 -> argptr sz mem esp n size = Some p <-> exists v, argint sz mem esp n = Some v /\ p = u32 v /\ 0 <= size /\ p < sz /\ p + size <= sz) /\
  (forall str, argstr sz mem esp n = Some str <-> exists v, argint sz mem esp n = Some v /\ u32 v + Z.of_nat (length str) < sz /\ string_at mem (u32 v) str).
Proof. intros Hsz. split_and!; [by apply argint_spec|by apply argptr_spec|by apply argstr_spec]. Qed.
