(* ===== verification/SysfileMem.v ===== *)
(** What system calls store in the memory of the process: nothing outside
    the buffer that the process has named. *)

From Stdlib Require Import ZArith Lia.
From stdpp Require Import base gmap strings numbers list.
From S2P Require Import Prelude Kstring Bio Log Fs Pipe File Sysfile SysfileThm.

Open Scope Z_scope.
Open Scope kern_scope.

Create HintDb silent.

(** ** Bytes that are read *)

Lemma piperead_length n killed p r bs w p' : piperead n killed p = (RRet r bs w, p') -> Z.of_nat (length bs) <= Z.max 0 n.
Proof.
  assert (HC : forall k p, (length (fst (piperead_copy k p)) <= k)%nat).
  { induction k as [|k IH]; intros q; cbn [piperead_copy]; [cbn; lia|]. case_match; [cbn; lia|]. match goal with |- context [piperead_copy k ?x] => specialize (IH x); destruct (piperead_copy k x) end. cbn in *. lia. }
  unfold piperead. case_match; [case_match; [|done]; intros [= <- <- <- <-]; cbn; lia|]. specialize (HC (Z.to_nat n) p). destruct (piperead_copy (Z.to_nat n) p) as [bs' q]. intros [= <- <- <- <-]. cbn in HC. lia.
Qed.

(** Only bytes of [p, p + n) have changed. *)
Definition changes_in (p n : Z) (m m' : Z -> Z) : Prop := forall a, m' a <> m a -> p <= a < p + n.

Lemma changes_none p n m : changes_in p n m m.
Proof. done. Qed.

Lemma changes_trans p n m1 m2 m3 : changes_in p n m1 m2 -> changes_in p n m2 m3 -> changes_in p n m1 m3.
Proof. intros C1 C2 a Ha. destruct (decide (m2 a = m1 a)) as [E|E]; [apply C2; congruence|by apply C1]. Qed.

Lemma changes_store p n m m' a bs : changes_in p n m m' -> p <= a -> a + Z.of_nat (length bs) <= p + n -> changes_in p n m (store_bytes m' a bs).
Proof.
  intros C1 H1 H2 x. unfold store_bytes. destruct (Z.leb_spec a x); cbn [andb]; [|apply C1]. destruct (Z.ltb_spec x (a + Z.of_nat (length bs))); [lia|apply C1].
Qed.

Section Mem.
Context {B : Type} `{Blocks B} `{Journal B}.
Abbreviation fs := (@fs B).
Abbreviation ksys := (@ksys B).
Context (pid : Z) (killed : bool) (devread : Z -> option (Z -> Z -> M fs (Z * list Z))) (devwrite : Z -> option (Z -> list Z -> Z -> M fs Z)).
Context (Hread : forall n f, devread n = Some f -> forall ip k s, wlp (f ip k) s (fun r _ => Z.of_nat (length (snd r)) <= Z.max 0 k)).
Implicit Types s : ksys.

Lemma wlp_readi_loop fuel ip tot off n dst (s : fs) : tot <= n -> wlp (readi_loop fuel ip tot off n dst) s (fun d _ => Z.of_nat (length d) <= Z.of_nat (length dst) + (n - tot)).
Proof.
  revert tot off dst s. induction fuel as [|fuel IH]; intros tot off dst s Ht; cbn [readi_loop]; (destruct (Z.ltb_spec tot n); [|apply wlp_ret; lia]); [done|].
  apply wlp_bind, wlp_any. intros a t. apply wlp_bind, wlp_any. intros dev t0. apply wlp_bind, wlp_any. intros bp t1. apply wlp_bind, wlp_any. intros d t2. apply wlp_bind, wlp_any. intros ? t3.
  assert (Hm : 0 < off mod BSIZE + 1 <= BSIZE) by (pose proof (Z.mod_pos_bound off BSIZE ltac:(done)); lia). eapply wlp_mono; [apply IH; lia|]. intros d' t4. cbn. rewrite length_app. unfold slice. rewrite length_take. lia.
Qed.

Lemma wlp_readi ip off n (s : fs) : 0 <= off < 2 ^ 32 -> 0 <= n < 2 ^ 32 -> wlp (readi devread ip off n) s (fun r _ => Z.of_nat (length (snd r)) <= n).
Proof.
  intros Ho Hn. unfold readi. apply wlp_bind, wlp_gets. set (i := the_inode ip s). cbv beta. destruct (_ =? T_DEV).
  - destruct (_ || _); [apply wlp_ret; cbn; lia|]. destruct (devread _) as [f|] eqn:E; [|apply wlp_ret; cbn; lia]. eapply wlp_mono; [by eapply Hread|]. intros r t. cbn. lia.
  - destruct (Z.gtb_spec off (isize (id i))) as [|Hoff]; cbn [orb]; [apply wlp_ret; cbn; lia|]. destruct (Z.ltb_spec (u32 (off + n)) off) as [|Hw]; [apply wlp_ret; cbn; lia|].
    assert (E : u32 (off + n) = off + n). { unfold u32 in *. destruct (Z.ltb_spec (off + n) (2 ^ 32)); [apply Z.mod_small; lia|]. replace (off + n) with (off + n - 2 ^ 32 + 1 * 2 ^ 32) in Hw by lia. rewrite Z_mod_plus_full, Z.mod_small in Hw by lia. lia. }
    rewrite E. apply wlp_bind. destruct (Z.gtb_spec (off + n) (isize (id i))); (eapply wlp_mono; [apply wlp_readi_loop; lia|]; intros d t HL; apply wlp_ret; cbn [snd length] in *; lia).
Qed.

(** ** Routines that store at most in a buffer *)

Section Silent.
Context (lo len : Z).

Definition foff_ok (x : file) : Prop := 0 <= foff x < 2 ^ 32.

(** Only the buffer has changed, and offsets stay in range. *)
Record calm s s' : Prop := {
  cm_mem : changes_in lo len (umem (self s)) (umem (self s'));
  cm_sz : usz (self s') = usz (self s);
  cm_off : (forall f, foff_ok (the_file f s)) -> forall f, foff_ok (the_file f s');
}.

#[export] Instance calm_preorder : PreOrder calm.
Proof. split; [by constructor|]. intros s1 s2 s3 [] []. constructor; [by eapply changes_trans|congruence|auto]. Qed.

Definition silent {A} (m : M ksys A) : Prop := forall s, wlp m s (fun _ s' => calm s s').

Lemma silent_bind {A C} (m : M ksys A) (k : A -> M ksys C) : silent m -> (forall a, silent (k a)) -> silent (bind m k).
Proof. intros Hm Hk s. apply wlp_bind. eapply wlp_mono; [apply Hm|]. intros a s1 C1. eapply wlp_mono; [apply Hk|]. intros b s2 C2. exact (transitivity C1 C2). Qed.
Lemma silent_ret {A} (a : A) : silent (ret a).
Proof. intros s. by apply wlp_ret. Qed.
Lemma silent_gets {A} (f : ksys -> A) : silent (gets f).
Proof. intros s. by apply wlp_gets. Qed.
Lemma silent_panic {A} msg : silent (panic msg : M ksys A).
Proof. done. Qed.
Lemma silent_undef {A} msg : silent (undef msg : M ksys A).
Proof. done. Qed.
Lemma silent_blocked {A} : silent (blocked : M ksys A).
Proof. done. Qed.
Lemma silent_require b w : silent (require b w).
Proof. intros s. apply wlp_require. done. Qed.
Lemma silent_when b (m : M ksys unit) : silent m -> silent (when b m).
Proof. intros Hm s. apply wlp_when; intros _; [apply Hm|done]. Qed.
Lemma silent_on_fs {A} (m : M fs A) : silent (on_fs m).
Proof. intros s. apply wlp_zoom, wlp_any. intros a t. by constructor. Qed.
Lemma silent_modify g : (forall s, calm s (g s)) -> silent (modify g).
Proof. intros Hg s. apply wlp_modify, Hg. Qed.
Lemma silent_search {R} n i (body : Z -> M ksys (option R)) : (forall k, silent (body k)) -> silent (search n i body).
Proof. intros Hb s. apply (wlp_search (fun _ s' => calm s s')); [done| |done]. intros k s' _ C1. eapply wlp_mono; [apply Hb|]. intros r s'' C2. destruct r; exact (transitivity C1 C2). Qed.
Lemma silent_fset f g : (forall x, foff_ok x -> foff_ok (g x)) -> silent (fset f g).
Proof.
  intros Hg. apply silent_modify. intros s. constructor; [done|done|]. intros HO q. unfold the_file at 1. cbn [ftab set_ftab]. destruct (decide (0 <= f < Z.of_nat (length (ftab s)))) as [Hf|Hf].
  - rewrite aget_aset by done. destruct (_ =? _); [apply Hg, HO|apply HO].
  - assert (E : aset (ftab s) f (g (the_file f s)) = ftab s) by (unfold aset; destruct (Z.ltb_spec f 0); [done|apply list_insert_ge; lia]). rewrite E. apply HO.
Qed.
Lemma silent_uset g : (forall u, umem (g u) = umem u /\ usz (g u) = usz u) -> silent (uset (B := B) g).
Proof. intros Hg. apply silent_modify. intros s. destruct (Hg (self s)) as [E1 E2]. constructor; cbn [self set_self]; [by rewrite E1|done|done]. Qed.
Lemma silent_pipes g : silent (modify (fun s => set_pipes (g s) s)).
Proof. by apply silent_modify. Qed.
Lemma silent_pages g : silent (modify (fun s => set_fpages (g s) s)).
Proof. by apply silent_modify. Qed.
Lemma silent_take l : silent (modify (set_fpages l)).
Proof. by apply silent_modify. Qed.

#[local] Hint Resolve silent_ret silent_gets silent_panic silent_undef silent_blocked silent_require silent_on_fs silent_pipes silent_pages silent_take : silent.

(** One step into a routine; what is left are updates of files. *)
Ltac silent_step :=
  match goal with
  | |- silent (bind _ _) => apply silent_bind; [|intros ?]
  | |- silent (when _ _) => apply silent_when
  | |- silent (search _ _ _) => apply silent_search; intros ?
  | |- silent (let '(_, _) := ?x in _) => destruct x
  | |- silent (match ?x with _ => _ end) => destruct x
  | |- silent _ => solve [auto with silent]
  | |- silent (fset _ _) => apply silent_fset; solve [intros [] ?; assumption]
  end.
Ltac silent := repeat silent_step.

Lemma foff_count v x : foff_ok x -> foff_ok (set_fref v x).
Proof. by destruct x. Qed.
Lemma foff_any v x : foff_ok (set_foff (u32 v) x).
Proof. unfold foff_ok. cbn. apply u32_range. Qed.

Lemma silent_filealloc : silent filealloc.
Proof. unfold filealloc, fget. silent. Qed.
Lemma silent_filedup f : silent (filedup f).
Proof. unfold filedup, fget. silent. Qed.
Lemma silent_fileclose f : silent (fileclose pid f).
Proof. unfold fileclose, close_pipe, the_pipe, fget, begin_op, end_op. silent. Qed.
#[local] Hint Resolve silent_filealloc silent_filedup silent_fileclose : silent.
Lemma silent_filestat f : silent (filestat pid f).
Proof. unfold filestat, fget. silent. Qed.
Lemma silent_filewrite_loop fuel f addr i n : silent (filewrite_loop pid devwrite fuel f addr i n).
Proof. revert i. induction fuel as [|fuel IH]; intros i; cbn [filewrite_loop]; unfold fget, begin_op, end_op; silent; auto. apply silent_fset. intros x _. apply foff_any. Qed.
#[local] Hint Resolve silent_filestat silent_filewrite_loop : silent.
Lemma silent_filewrite f addr n : silent (filewrite pid killed devwrite f addr n).
Proof. unfold filewrite, the_pipe, fget. silent. Qed.
Lemma silent_pipealloc : silent (pipealloc pid).
Proof. unfold pipealloc, kalloc_page. cbv zeta. silent. Qed.
Lemma silent_put_ofile fd f : silent (put_ofile fd f).
Proof. by apply silent_uset. Qed.
#[local] Hint Resolve silent_filewrite silent_pipealloc silent_put_ofile : silent.
Lemma silent_fdalloc f : silent (fdalloc f).
Proof. unfold fdalloc, ofile_at. silent. Qed.
Lemma silent_argfd n : silent (argfd n).
Proof. unfold argfd, arg_int, with_args, ofile_at. silent. Qed.
Lemma silent_fs_namei path : silent (fs_namei pid devread path).
Proof. unfold fs_namei. silent. Qed.
Lemma silent_fs_nameiparent path : silent (fs_nameiparent pid devread path).
Proof. unfold fs_nameiparent. silent. Qed.
#[local] Hint Resolve silent_fdalloc silent_argfd silent_fs_namei silent_fs_nameiparent : silent.

Lemma silent_fail : silent fail_op.
Proof. unfold fail_op, end_op. silent. Qed.
Lemma silent_nlink ip d : silent (add_nlink ip d).
Proof. unfold add_nlink. silent. Qed.
#[local] Hint Resolve silent_fail silent_nlink : silent.
Lemma silent_link_bad ip : silent (link_bad pid ip).
Proof. unfold link_bad. silent. Qed.
Lemma silent_unlink_bad dp : silent (unlink_bad pid dp).
Proof. unfold unlink_bad. silent. Qed.
Lemma silent_isdirempty dp : silent (isdirempty devread dp).
Proof. unfold isdirempty, iget_field. silent. Qed.
Lemma silent_create path type major minor : silent (create pid devread devwrite path type major minor).
Proof. unfold create, iget_field. silent. Qed.
#[local] Hint Resolve silent_link_bad silent_unlink_bad silent_isdirempty silent_create : silent.
Lemma silent_open_inode path omode : silent (open_inode pid devread devwrite path omode).
Proof. unfold open_inode, iget_field. silent. Qed.
Lemma silent_create_only path type major minor : silent (create_only pid devread devwrite path type major minor).
Proof. unfold create_only, end_op. silent. Qed.
#[local] Hint Resolve silent_open_inode silent_create_only : silent.

Lemma silent_rw_args : silent rw_args.
Proof. unfold rw_args, arg_int, arg_ptr, with_args. silent. Qed.
#[local] Hint Resolve silent_rw_args : silent.

(** The calls that return nothing but a number. *)
Lemma silent_calls num m : num <> 4 -> num <> 5 -> num <> 8 -> file_calls pid killed devread devwrite num = Some m -> silent m.
Proof.
  intros N4 N5 N8. unfold file_calls. repeat (case_match; try done); intros [= <-]; unfold sys_chdir, sys_dup, sys_open, sys_write, sys_mknod, sys_unlink, sys_link, sys_mkdir, sys_close, arg_str, arg_int, with_args, iget_field, begin_op, end_op; silent.
  - apply silent_fset. intros x _. unfold foff_ok. cbn. lia.
  - by apply silent_uset.
Qed.

(** ** Calls that store *)

(** The buffer that the arguments of a call name: of pipe(), read(), fstat(). *)
Definition out_buffer (num : Z) (u : uproc) : option (Z * Z) :=
  let arg n size := option_map (fun p => (p, size)) (argptr (usz u) (umem u) (uesp u) n size) in
  match num with
  | 4 => arg 0 8
  | 5 => match argint (usz u) (umem u) (uesp u) 2 with Some n => arg 1 n | None => None end
  | 8 => arg 1 20
  | _ => None
  end.

Lemma out_buffer_inside num u p n : 0 <= usz u <= 2 ^ 31 -> out_buffer num u = Some (p, n) -> 0 <= p /\ p + n <= usz u.
Proof.
  intros Hsz. assert (HA : forall k size, size < 2 ^ 31 -> option_map (fun p => (p, size)) (argptr (usz u) (umem u) (uesp u) k size) = Some (p, n) -> 0 <= p /\ p + n <= usz u).
  { intros k size Hs. destruct (argptr _ _ _ k size) as [q|] eqn:E; [|done]. intros [= <- <-]. apply argptr_spec in E as (v & _ & -> & _ & _ & ?); [|done|done]. pose proof (u32_range v). lia. }
  unfold out_buffer. repeat (case_match; try done); first [by apply HA|match goal with E : argint _ _ _ _ = Some ?k |- _ => apply argint_spec in E as [_ ->]; [|done] end; apply HA, i32_range].
Qed.

Lemma silent_store a bs : lo <= a -> a + Z.of_nat (length bs) <= lo + len -> silent (store a bs).
Proof. intros H1 H2. apply silent_modify. intros s. constructor; [by apply changes_store|done|done]. Qed.

Lemma int_bytes_length v : Z.of_nat (length (int_bytes v)) = 4.
Proof. done. Qed.
Lemma short_bytes_length v : Z.of_nat (length (put16 (repeat 0 2) 0 v)) = 2.
Proof. done. Qed.

Lemma silent_fileread f n : silent (fileread pid killed devread f n).
Proof. unfold fileread, the_pipe, fget. silent. apply silent_fset. intros x _. apply foff_any. Qed.

Lemma wlp_fileread_length f n s : (forall f, foff_ok (the_file f s)) -> 0 <= n < 2 ^ 31 -> wlp (fileread pid killed devread f n) s (fun r _ => Z.of_nat (length (snd r)) <= n).
Proof.
  intros HO Hn. unfold fileread, fget. apply wlp_bind, wlp_gets. cbv beta. destruct (negb _); [apply wlp_ret; cbn; lia|]. destruct (ftype _); [done| |].
  - apply wlp_bind, wlp_any. intros p t. destruct (piperead n killed p) as [[r bs w|] p'] eqn:E; (apply wlp_bind, wlp_any; intros ? ?); [|done]. apply wlp_ret. cbn. apply piperead_length in E. lia.
  - apply wlp_bind, wlp_zoom, wlp_any. intros ? t. apply wlp_bind, wlp_gets. rewrite (u32_small n) by lia. apply wlp_bind, wlp_zoom. eapply wlp_mono; [apply wlp_readi; [apply HO|lia]|].
    intros [r bs] t' HL. apply wlp_bind, wlp_any. intros ? ?. apply wlp_bind, wlp_any. intros ? ?. by apply wlp_ret.
Qed.

Lemma wlp_argfd_same n s (Q : option (Z * Z) -> ksys -> Prop) : (forall a, Q a s) -> wlp (argfd n) s Q.
Proof.
  intros HQ. unfold argfd. apply wlp_bind, wlp_gets. destruct (argint _ _ _ n) as [fd|]; [|by apply wlp_ret]. destruct (_ || _); [by apply wlp_ret|]. by apply wlp_bind, wlp_gets, wlp_ret.
Qed.

(** The buffer is the one that the arguments name, if they name one. *)
Definition buffer_is num s : Prop := forall b, out_buffer num (self s) = Some b -> b = (lo, len).

Lemma sys_read_stores s : (forall f, foff_ok (the_file f s)) -> buffer_is 5 s -> wlp (sys_read pid killed devread) s (fun _ s' => calm s s').
Proof.
  intros HO HB. unfold sys_read. apply wlp_bind. unfold rw_args. apply wlp_bind, wlp_argfd_same. intros [[fd f]|]; [|by apply wlp_ret, wlp_ret].
  apply wlp_bind, wlp_gets. destruct (argint _ _ _ 2) as [n|] eqn:En; [|by apply wlp_ret, wlp_ret]. apply wlp_bind, wlp_gets, wlp_ret. destruct (argptr _ _ _ 1 n) as [p|] eqn:Ep; [|by apply wlp_ret].
  specialize (HB (p, n)). cbn [out_buffer] in HB. rewrite En, Ep in HB. injection (HB eq_refl) as -> ->. assert (Hn : 0 <= len < 2 ^ 31).
  { unfold argptr in Ep. destruct (argint _ _ _ 1); [|done]. destruct (Z.ltb_spec len 0); [done|]. split; [done|]. unfold argint, fetchint in En. destruct (_ || _) in En; [done|]. injection En as <-. apply i32_range. }
  apply wlp_bind. eapply wlp_mono; [apply wlp_and; [apply silent_fileread|by apply wlp_fileread_length]|]. intros [r bs] s1 [C1 HL]. cbn [snd] in HL.
  apply wlp_bind. eapply wlp_mono; [apply silent_store; lia|]. intros ? s2 C2. apply wlp_ret. exact (transitivity C1 C2).
Qed.

Lemma sys_fstat_stores s : buffer_is 8 s -> wlp (sys_fstat pid) s (fun _ s' => calm s s').
Proof.
  intros HB. unfold sys_fstat. apply wlp_bind, wlp_argfd_same. intros [[fd f]|]; [|by apply wlp_ret]. apply wlp_bind, wlp_gets. destruct (argptr _ _ _ 1 20) as [p|] eqn:Ep; [|by apply wlp_ret].
  specialize (HB (p, 20)). cbn [out_buffer] in HB. rewrite Ep in HB. injection (HB eq_refl) as -> E. unfold stat_store. revert s HB Ep.
  enough (HS : silent (let! st := filestat pid f in match st with Some st => stat_store lo st ;;; ret 0 | None => ret (-1) end)) by auto. unfold stat_store.
  silent; apply silent_store; rewrite ?int_bytes_length, ?short_bytes_length; lia.
Qed.

Lemma sys_pipe_stores s : buffer_is 4 s -> wlp (sys_pipe pid) s (fun _ s' => calm s s').
Proof.
  intros HB. unfold sys_pipe. apply wlp_bind, wlp_gets. destruct (argptr _ _ _ 0 8) as [p|] eqn:Ep; [|by apply wlp_ret]. specialize (HB (p, 8)). cbn [out_buffer] in HB. rewrite Ep in HB. injection (HB eq_refl) as -> E.
  match goal with |- wlp ?m _ _ => enough (HS : silent m) by auto end. silent; apply silent_store; rewrite ?int_bytes_length; lia.
Qed.

Lemma calls_calm num m s : file_calls pid killed devread devwrite num = Some m -> (forall f, foff_ok (the_file f s)) -> buffer_is num s -> wlp m s (fun _ s' => calm s s').
Proof.
  intros E HO HB. destruct (decide (num = 4)) as [->|]; [injection E as <-; by apply sys_pipe_stores|]. destruct (decide (num = 5)) as [->|]; [injection E as <-; by apply sys_read_stores|].
  destruct (decide (num = 8)) as [->|]; [injection E as <-; by apply sys_fstat_stores|]. by eapply silent_calls.
Qed.
End Silent.

(** C18: The kernel stores nothing in a process where it was not told to: a
    byte of the memory that a system call on files has changed is one of the
    buffer that the arguments of the call name, and this buffer is inside the
    process.  (Calls but read(), fstat() and pipe() have no buffer and change
    nothing.)  The offsets of files stay unsigned ints, as the bound on what
    readi() returns needs; of a device it is assumed that its read() returns
    no more bytes than asked for. *)
Theorem calls_store_in_buffer num m s r s' : 0 <= usz (self s) <= 2 ^ 31 -> (forall f, foff_ok (the_file f s)) ->
  file_calls pid killed devread devwrite num = Some m -> m s = Ok r s' ->
  (forall a, umem (self s') a <> umem (self s) a -> exists p n, out_buffer num (self s) = Some (p, n) /\ p <= a < p + n /\ 0 <= p /\ p + n <= usz (self s)) /\
  usz (self s') = usz (self s) /\ (forall f, foff_ok (the_file f s')).
Proof.
  intros Hsz HO Hm E. set (b := default (0, 0) (out_buffer num (self s))). pose proof (calls_calm (fst b) (snd b) num m s Hm HO) as W. unfold wlp in W. rewrite E in W.
  destruct W as [C1 C2 C3]; [intros b' Eb; unfold b; rewrite Eb; by destruct b'|]. split_and!; [|done|auto]. intros a Ha. specialize (C1 a Ha). unfold b in C1. destruct (out_buffer num (self s)) as [[p n]|] eqn:Eb; cbn in C1; [|lia].
  exists p, n. split; [done|]. split; [done|]. by apply (out_buffer_inside num (self s)).
Qed.
End Mem.
