(* ===== verification/SysfileDemo.v ===== *)
(** The system calls on files at work: a small disk is booted, and a process
    makes a directory and a file in it, writes, reads and unlinks. *)

From Stdlib Require Import ZArith Lia.
From stdpp Require Import base gmap strings numbers list.
From S2P Require Import Prelude Kstring Bio Log LogTx Fs FsLog FsRefs FsThm Pipe File FileInv Sysfile SysfileThm SysfileMem.

Open Scope Z_scope.
Open Scope kern_scope.

(** The file system over the log and the buffer cache, for process 1. *)
#[local] Instance demo_blocks : Blocks log := log_blocks 1.
#[local] Instance demo_journal : Journal log := {| bl_begin_op := Log.begin_op; bl_end_op := Log.end_op 1 |}.

(** A root directory with the entries "." and "..", in block 59. *)
Definition root_disk : disk :=
  mkDisk (<[1 := put_words (repeat 0 512) 0 [1000; 941; 200; 30; 2; 32; 58]]>
         (<[58 := repeat 255 7 ++ 15 :: repeat 0 504]>
         (<[59 := [1; 0; 46] ++ repeat 0 13 ++ [1; 0; 46; 46] ++ repeat 0 492]>
         {[32 := put_dinode (repeat 0 512) 64 (mk_dinode 1 0 0 1 32 (59 :: repeat 0 12))]}))) 1000 [].

(** The current directory is the root, its inode not yet read. *)
Definition root_entry : inode := mk_inode 1 1 1 initsleeplock false 0 0 0 0 0 (repeat 0 13).
(** Strings: "/d" at 200, "/d/f" at 210, "hi" at 220; a buffer at 300. *)
Definition demo_mem : Z -> Z :=
  store_bytes (store_bytes (store_bytes (fun _ => 0) 200 [47; 100]) 210 [47; 100; 47; 102]) 220 [104; 105].
Definition demo_sys (l : log) : ksys :=
  mk_ksys (mk_fs l (root_entry :: repeat no_inode 49) demo_sb) (repeat no_file 100) ∅ [4096; 8192] (mk_uproc (repeat (-1) 16) 0 4096 demo_mem 100).

(** A process that puts the arguments on its stack and makes a call, time
    and again; the values returned. *)
Definition push (args : list Z) (u : uproc) : uproc := set_umem (store_bytes (umem u) 104 (concat (map int_bytes args))) u.
Fixpoint runs (cs : list (Z * list Z)) (s : ksys) : option (list Z * ksys) :=
  match cs with
  | [] => Some ([], s)
  | (num, args) :: cs' =>
      match file_calls 1 false no_rdev no_dev num with
      | None => None
      | Some m =>
          match m (set_self (push args (self s)) s) with
          | Ok r s' => option_map (fun q => (r :: fst q, snd q)) (runs cs' s')
          | _ => None
          end
      end
  end.

Abbreviation demo_step := (kstep 1 false no_rdev no_dev).

Lemma runs_steps cs s rs s' : runs cs s = Some (rs, s') -> rtc demo_step s s'.
Proof.
  revert s rs. induction cs as [|[num args] cs IH]; intros s rs; cbn [runs]; [by intros [= _ ->]|]. destruct (file_calls _ _ _ _ num) as [m|] eqn:Em; [|done]. destruct (m _) as [r s1| | |] eqn:E; try done.
  destruct (runs cs s1) as [[rs' s2]|] eqn:E'; [|done]. intros [= _ <-]. eapply rtc_l; [by apply (user_runs _ _ _ _ s (push args (self s)))|]. eapply rtc_l; [by eapply makes_call|]. by eapply IH.
Qed.

(** mkdir("/d"), open("/d/f", O_CREATE|O_RDWR), write(0, "hi", 2), dup(0), close(0),
    open("/d/f", O_RDONLY), read(0, buf, 10), pipe(buf), unlink("/d/f"), unlink("/d"),
    close(0), close(1), unlink("/d"). *)
Definition demo_calls : list (Z * list Z) :=
  [(20, [200]); (15, [210; 514]); (16, [0; 220; 2]); (10, [0]); (21, [0]); (15, [210; 0]); (5, [0; 300; 10]); (4, [310]); (18, [210]); (18, [200]);
   (21, [0]); (21, [1]); (18, [200])].
Definition demo_results : list Z := [0; 0; 2; 1; 0; 0; 2; 0; 0; 0; 0; 0; -1].

Lemma booted {A} (k : log -> option A) o r : match o with Ok tt l => k l | _ => None end = Some r -> exists l, o = Ok tt l /\ k l = Some r.
Proof. destruct o as [[] l| | |]; try done. intros E. by exists l. Qed.

(** What the process sees in the end: the values returned, the bytes read
    back, the descriptors of the pipe, its own table. *)
Definition seen (q : list Z * ksys (B := log)) : list Z * list Z * list Z * list Z :=
  (fst q, map (umem (self (snd q))) (seqZ 300 2), map (umem (self (snd q))) (seqZ 310 8), take 4 (ofile (self (snd q)))).

Lemma demo_runs : exists l q, reboot 1 root_disk = Ok tt l /\ runs demo_calls (demo_sys l) = Some q /\ seen q = (demo_results, [104; 105], [2; 0; 0; 0; 3; 0; 0; 0], [-1; -1; 2; 3]).
Proof.
  assert (E : match reboot 1 root_disk with Ok tt l => option_map seen (runs demo_calls (demo_sys l)) | _ => None end = Some (demo_results, [104; 105], [2; 0; 0; 0; 3; 0; 0; 0], [-1; -1; 2; 3])) by (vm_compute; reflexivity).
  apply booted in E as (l & El & E). apply fmap_Some in E as (q & Er & E). exists l, q. split; [exact El|]. split; [exact Er|symmetry; exact E].
Qed.

Lemma no_file_at f : aget no_file (repeat no_file 100) f = no_file.
Proof. unfold aget. destruct (f <? 0); [done|]. apply nth_repeat. Qed.

(** Nothing is open, and the process is the only one. *)
Lemma demo_sys_ok l : fd_inv (pg := [4096; 8192]) [] (fun _ => 0) (fun _ => 0) (demo_sys l).
Proof.
  assert (HE : forall f p w, ~ end_of (ftab (demo_sys l)) f p w) by (intros f p w [_ E _ _]; cbn [ftab demo_sys] in E; by rewrite no_file_at in E).
  constructor; unfold the_file; cbn [kfs ftab pipes fpages self ofile cwd icache demo_sys]; try done.
  - intros fd Hfd. left. unfold aget. destruct (fd <? 0); [done|]. apply (nth_repeat (-1) 16).
  - intros f Hf. rewrite no_file_at. cbn [fref no_file]. assert (E : forall k, total (one f) (repeat (-1) k) = 0); [|rewrite E; done].
    induction k as [|k IH]; [done|]. cbn [repeat]. rewrite total_cons, IH. unfold one. replace (-1 =? f) with false by lia. done.
  - intros f Hf. rewrite no_file_at. done.
  - intros f Hf. rewrite no_file_at. done.
  - intros f Hf. rewrite no_file_at. done.
  - intros q Hq. unfold the_inode. cbn [icache]. change (total (ipw q) (repeat no_file 100)) with 0. unfold one. destruct (Z.eqb_spec q 0) as [->|Hne]; [done|].
    unfold aget. destruct (Z.ltb_spec q 0); [done|]. destruct (Z.to_nat q) as [|k] eqn:Ek; [lia|]. cbn [nth]. rewrite nth_repeat. done.
  - intros f p w He. by apply HE in He.
  - intros f f' p w He. by apply HE in He.
  - split; [apply NoDup_cons_2; [by intros ?%list_elem_of_singleton|apply NoDup_singleton]|]. intros p Hp. split; [|done]. apply elem_of_cons in Hp as [->| ->%list_elem_of_singleton]; done.
  - intros p. rewrite lookup_empty. split; [by left|]. intros [Hp|[? ?]]; done.
Qed.

Lemma calls_keep_references_witness : exists l q, reboot 1 root_disk = Ok tt l /\ runs demo_calls (demo_sys l) = Some q /\ fst q = demo_results /\ fd_inv (pg := [4096; 8192]) [] (fun _ => 0) (fun _ => 0) (snd q).
Proof.
  destruct demo_runs as (l & [rs s'] & El & Er & ES). exists l, (rs, s'). split; [exact El|]. split; [exact Er|]. split; [injection ES as E1 _ _ _; exact E1|].
  eapply (@calls_keep_references log demo_blocks demo_journal 1 false no_rdev no_dev); [intros n f E; discriminate E|intros n f E; discriminate E|intros f; reflexivity || lia|exact (runs_steps _ _ _ _ Er)|exact (demo_sys_ok l)].
Defined.

(** A block of ten bytes at 300 is accepted, one of 16 bytes that wraps
    around the end of the address space is not; the string at 210. *)
Lemma arguments_are_inside_witness :
  argptr 4096 (umem (push [0; 300; 10] (self (demo_sys (mkLog (mkBio [] root_disk) 0 0 0 false 0 0 []))))) 100 1 10 = Some 300 /\
  argptr 4096 (store_bytes (fun _ => 0) 108 (int_bytes (-8))) 100 1 16 = None /\
  argstr 4096 (store_bytes demo_mem 104 (int_bytes 210)) 100 0 = Some [47; 100; 47; 102].
Proof.
  assert (Hsz : 0 <= 4096 <= 2 ^ 31) by lia. split; [|split].
  - apply (arguments_are_inside 4096 _ 100 1 Hsz); [lia|]. exists 300. split; [reflexivity|]. split; [reflexivity|lia].
  - destruct (argptr _ _ _ 1 16) as [p|] eqn:E; [|reflexivity]. exfalso. apply (arguments_are_inside 4096 _ 100 1 Hsz) in E as (v & Ev & Ep & _ & Hp & _); [|lia]. vm_compute in Ev. injection Ev as <-. change (u32 (-8)) with 4294967288 in Ep. lia.
  - apply (arguments_are_inside 4096 _ 100 0 Hsz). exists 210. split; [reflexivity|]. split; [reflexivity|]. split; [reflexivity|]. split; [reflexivity|]. intros HI. repeat (apply elem_of_cons in HI as [HI|HI]; [lia|]). by apply not_elem_of_nil in HI.
Defined.

(** pipe(310) *)
Lemma calls_store_in_buffer_witness : exists l (s : ksys (B := log)) r s', reboot 1 root_disk = Ok tt l /\ s = set_self (push [310] (self (demo_sys l))) (demo_sys l) /\
  sys_pipe 1 s = Ok r s' /\ forall a, umem (self s') a <> umem (self s) a -> 310 <= a < 318.
Proof.
  assert (E : match reboot 1 root_disk with Ok tt l => match sys_pipe 1 (set_self (push [310] (self (demo_sys l))) (demo_sys l)) with Ok r _ => Some r | _ => None end | _ => None end = Some 0) by (vm_compute; reflexivity).
  apply booted in E as (l & El & E). exists l, (set_self (push [310] (self (demo_sys l))) (demo_sys l)). destruct (sys_pipe 1 _) as [r s'| | |] eqn:Ep; try discriminate E. exists r, s'. split; [exact El|]. split; [reflexivity|]. split; [reflexivity|].
  intros a Ha. destruct (@calls_store_in_buffer log demo_blocks demo_journal 1 false no_rdev no_dev) with (num := 4) (m := sys_pipe 1 (H := demo_blocks)) (s := set_self (push [310] (self (demo_sys l))) (demo_sys l)) (r := r) (s' := s') as (HB & _ & _).
  - intros n f En. discriminate En.
  - cbn [self set_self usz push set_umem demo_sys]. lia.
  - intros f. unfold the_file. cbn [ftab set_self demo_sys]. rewrite no_file_at. unfold foff_ok. cbn [foff no_file]. lia.
  - reflexivity.
  - exact Ep.
  - destruct (HB a Ha) as (p & n & Eb & Hp & _ & _). vm_compute in Eb. injection Eb as <- <-. lia.
Defined.

(** open() does not cut the file: "hi" written over "/d/f" leaves "hi/f", as
    happens to the result.txt of find_sum. *)
Lemma reopened_file_keeps_tail : exists l q, reboot 1 root_disk = Ok tt l /\
  runs [(15, [200; 513]); (16, [0; 210; 4]); (21, [0]); (15, [200; 513]); (16, [0; 220; 2]); (21, [0]); (15, [200; 0]); (5, [0; 300; 10])] (demo_sys l) = Some q /\
  last (fst q) = Some 4 /\ map (umem (self (snd q))) (seqZ 300 4) = [104; 105; 47; 102].
Proof.
  assert (E : match reboot 1 root_disk with Ok tt l => option_map (fun q => (last (fst q), map (umem (self (snd q))) (seqZ 300 4)))
    (runs [(15, [200; 513]); (16, [0; 210; 4]); (21, [0]); (15, [200; 513]); (16, [0; 220; 2]); (21, [0]); (15, [200; 0]); (5, [0; 300; 10])] (demo_sys l)) | _ => None end = Some (Some 4, [104; 105; 47; 102])) by (vm_compute; reflexivity).
  apply booted in E as (l & El & E). apply fmap_Some in E as (q & Er & E). exists l, q. split; [exact El|]. split; [exact Er|]. apply pair_equal_spec in E as [E1 E2]. split; [symmetry; exact E1|]. symmetry. exact E2.
Qed.
