(* ===== verification/Mkfs.v ===== *)
(** The program that makes the first disk image (mkfs.c).

    It runs on the host.  The image is a file of the host, here its sectors;
    the host's lseek() and write() on it succeed, and a read() behind its end
    comes back short.  The host is taken to be little-endian, as the x86 is.
    The files to be copied are given by what open() and read() return. *)

From Stdlib Require Import ZArith Lia.
From stdpp Require Import base gmap strings numbers list.
From S2P Require Import Prelude Kstring Bio Log Fs.

Open Scope Z_scope.
Open Scope kern_scope.

(** ** Parameters and globals *)

Definition NINODES : Z := 200.

Definition nbitmap : Z := FSSIZE / (BSIZE * 8) + 1.
Definition ninodeblocks : Z := NINODES / IPB + 1.
Definition nlog : Z := LOGSIZE.
Definition nmeta : Z := 2 + nlog + ninodeblocks + nbitmap.
Definition nblocks : Z := FSSIZE - nmeta.
Definition zeroes : list Z := repeat 0 512.

Record mkst := mk_mkst {
  img : list (list Z);  (* the file fsfd *)
  freeinode : Z;
  freeblock : Z;
}.

(** y has the bytes of x, the low one first. *)
Definition xshort (x : Z) : Z := u8 x + 256 * u8 (Z.shiftr x 8).
Definition xint (x : Z) : Z := u8 x + 256 * u8 (Z.shiftr x 8) + 65536 * u8 (Z.shiftr x 16) + 16777216 * u8 (Z.shiftr x 24).

(** The superblock that main() sets up. *)
Definition mk_sb : superblock :=
  mkSb (xint FSSIZE) (xint nblocks) (xint NINODES) (xint nlog) (xint 2) (xint (2 + nlog)) (xint (2 + nlog + ninodeblocks)).

(** ** Sectors and inodes *)

(** Both seek to sec * BSIZE, which is a uint. *)
Definition sector (sec : Z) : Z := u32 (sec * BSIZE) / BSIZE.

Definition wsect (sec : Z) (buf : list Z) : M mkst unit :=
  modify (fun s =>
    let l := img s in
    let k := sector sec in
    mk_mkst (if k <? Z.of_nat (length l) then aset l k buf else l ++ repeat zeroes (Z.to_nat k - length l) ++ [buf]) (freeinode s) (freeblock s)).

Definition rsect (sec : Z) : M mkst (list Z) :=
  let! l := gets img in
  if sector sec <? Z.of_nat (length l) then ret (aget zeroes l (sector sec)) else panic "read".

Definition winode (inum : Z) (ip : dinode) : M mkst unit :=
  let bn := IBLOCK inum mk_sb in
  let! buf := rsect bn in
  wsect bn (put_dinode buf (inum mod IPB * 64) ip).

Definition rinode (inum : Z) : M mkst dinode :=
  let bn := IBLOCK inum mk_sb in
  let! buf := rsect bn in
  ret (get_dinode buf (inum mod IPB * 64)).

Definition ialloc (type : Z) : M mkst Z :=
  let! inum := gets freeinode in
  modify (fun s => mk_mkst (img s) (u32 (freeinode s + 1)) (freeblock s)) ;;;
  winode inum (mk_dinode (i16 (xshort type)) 0 0 (i16 (xshort 1)) (xint 0) (repeat 0 13)) ;;;
  ret inum.

Definition assert (b : bool) : M mkst unit := if b then ret tt else panic "assert".

Definition set_bit (buf : list Z) (i : Z) : list Z := aset buf (i / 8) (u8 (Z.lor (aget 0 buf (i / 8)) (Z.shiftl 1 (i mod 8)))).
Definition bitmap (used : Z) : list Z := foldl set_bit zeroes (seqZ 0 used).

Definition balloc (used : Z) : M mkst unit :=
  assert (used <? BSIZE * 8) ;;;
  wsect (sb_bmapstart mk_sb) (bitmap used).

(** ** Appending to a file *)

Definition next_block : M mkst Z :=
  let! b := gets freeblock in
  modify (fun s => mk_mkst (img s) (freeinode s) (u32 (freeblock s + 1))) ;;;
  ret (xint b).

Definition set_addr (din : dinode) (k v : Z) : dinode :=
  mk_dinode (dtype din) (dmajor din) (dminor din) (dnlink din) (dsize din) (aset (daddrs din) k v).
Definition set_dsize (din : dinode) (v : Z) : dinode :=
  mk_dinode (dtype din) (dmajor din) (dminor din) (dnlink din) v (daddrs din).

(** if(xint(din.addrs[k]) == 0) din.addrs[k] = xint(freeblock++); *)
Definition fill_addr (din : dinode) (k : Z) : M mkst dinode :=
  if xint (aget 0 (daddrs din) k) =? 0 then
    let! b := next_block in
    ret (set_addr din k b)
  else ret din.

(** The block of the file's block fbn, taken if there is none. *)
Definition file_block (din : dinode) (fbn : Z) : M mkst (dinode * Z) :=
  if fbn <? NDIRECT then
    let! din := fill_addr din fbn in
    ret (din, xint (aget 0 (daddrs din) fbn))
  else
    let! din := fill_addr din NDIRECT in
    let ind := xint (aget 0 (daddrs din) NDIRECT) in
    let! indirect := rsect ind in
    let j := 4 * (fbn - NDIRECT) in
    let! indirect :=
      (if le32 indirect j =? 0 then
         let! b := next_block in
         let indirect := put32 indirect j b in
         wsect ind indirect ;;;
         ret indirect
       else ret indirect) in
    ret (din, xint (le32 indirect j)).

(** The loop: p has the n bytes that are left. *)
Fixpoint iappend_loop (fuel : nat) (din : dinode) (off : Z) (p : list Z) : M mkst (dinode * Z) :=
  match fuel with
  | O => blocked
  | S fuel' =>
      let n := Z.of_nat (length p) in
      if n >? 0 then
        let fbn := off / BSIZE in
        assert (fbn <? MAXFILE) ;;;
        let! (din, x) := file_block din fbn in
        let n1 := Z.min n (u32 ((fbn + 1) * BSIZE - off)) in
        let! buf := rsect x in
        wsect x (splice buf (off - fbn * BSIZE) (take (Z.to_nat n1) p)) ;;;
        iappend_loop fuel' din (u32 (off + n1)) (drop (Z.to_nat n1) p)
      else ret (din, off)
  end.

Definition iappend (inum : Z) (p : list Z) : M mkst unit :=
  let! din := rinode inum in
  let off := xint (dsize din) in
  let! (din, off) := iappend_loop (S (length p)) din off p in
  winode inum (set_dsize din (xint off)).

(** ** main() *)

(** A file of the host: its name, and, if open() succeeds, what the calls of
    read() return until one returns no bytes. *)
Record hfile := mk_hfile {
  hname : list Z;
  hread : option (list (list Z));
}.

(** Skip leading _ in the name. *)
Definition skip_underscore (name : list Z) : list Z :=
  match name with
  | 95 :: r => r
  | _ => name
  end.

Fixpoint append_all (inum : Z) (reads : list (list Z)) : M mkst unit :=
  match reads with
  | [] => ret tt
  | buf :: r => iappend inum buf ;;; append_all inum r
  end.

Definition add_file (rootino : Z) (h : hfile) : M mkst unit :=
  assert (negb (bool_decide (47 ∈ hname h))) ;;;
  match hread h with
  | None => panic "open"
  | Some reads =>
      let! inum := ialloc T_FILE in
      iappend rootino (mk_dirent (xshort inum) (skip_underscore (hname h))) ;;;
      append_all inum reads
  end.

Fixpoint add_files (rootino : Z) (files : list hfile) : M mkst unit :=
  match files with
  | [] => ret tt
  | h :: r => add_file rootino h ;;; add_files rootino r
  end.

Definition fix_root_size (rootino : Z) : M mkst unit :=
  let! din := rinode rootino in
  let off := xint (dsize din) in
  let off := u32 ((off / BSIZE + 1) * BSIZE) in
  winode rootino (set_dsize din (xint off)).

(** [out]: None without arguments, else whether argv[1] can be opened. *)
Definition main (out : option bool) (files : list hfile) : M mkst unit :=
  match out with
  | None => panic "Usage: mkfs fs.img files..."
  | Some false => panic "open"
  | Some true =>
      modify (fun s => mk_mkst [] (freeinode s) nmeta) ;;;
      for_up 0 FSSIZE (fun i => wsect i zeroes) ;;;
      wsect 1 (put_words zeroes 0 [sb_size mk_sb; sb_nblocks mk_sb; sb_ninodes mk_sb; sb_nlog mk_sb; sb_logstart mk_sb; sb_inodestart mk_sb; sb_bmapstart mk_sb]) ;;;
      let! rootino := ialloc T_DIR in
      assert (rootino =? ROOTINO) ;;;
      iappend rootino (mk_dirent (xshort rootino) [46]) ;;;
      iappend rootino (mk_dirent (xshort rootino) [46; 46]) ;;;
      add_files rootino files ;;;
      fix_root_size rootino ;;;
      let! used := gets freeblock in
      balloc (i32 used)
  end.

(** The globals at the start. *)
Definition mkfs_start : mkst := mk_mkst [] 1 0.
