(* ===== verification/MkfsSpec.v ===== *)
(** What mkfs.c does to the image: its blocks, and appending to a file.  The
    terms are those of the kernel's file system (the slots of an inode, the
    bytes of a file, the bits of the free map). *)

From Stdlib Require Import ZArith Lia.
From stdpp Require Import base gmap strings numbers list.
From S2P Require Import Prelude Kstring Bio Log Fs FsBlock FsBitmap FsMap FsFile Mkfs.

Open Scope Z_scope.
Open Scope kern_scope.

Lemma xint_id x : 0 <= x < 4294967296 -> xint x = x.
Proof. intros Hx. unfold xint, u8. rewrite !Z.shiftr_div_pow2 by lia. change (2 ^ 8) with 256. change (2 ^ 16) with 65536. change (2 ^ 24) with 16777216. zdm. Qed.

Lemma xshort_id x : 0 <= x < 65536 -> xshort x = x.
Proof. intros Hx. unfold xshort, u8. rewrite !Z.shiftr_div_pow2 by lia. change (2 ^ 8) with 256. zdm. Qed.

Lemma sector_id b : 0 <= b < 1000 -> sector b = b.
Proof. intros Hb. unfold sector, BSIZE. rewrite u32_small by lia. zdm. Qed.

(** ** The bitmap *)

Lemma length_foldl_set_bit bs : forall l, length (foldl set_bit l bs) = length l.
Proof. induction bs as [|i bs IH]; intros l; [done|]. cbn [foldl]. rewrite IH. apply length_aset. Qed.

Lemma length_bitmap u : length (bitmap u) = 512%nat.
Proof. unfold bitmap. by rewrite length_foldl_set_bit. Qed.

Lemma bitmap_succ u : 0 <= u -> bitmap (u + 1) = set_bit (bitmap u) u.
Proof.
  intros Hu. unfold bitmap. rewrite seqZ_app by lia. rewrite foldl_app. cbn [foldl]. replace (seqZ (0 + u) 1) with [u]; [done|]. rewrite seqZ_cons by lia. by replace (0 + u) with u by lia.
Qed.

Lemma set_bit_bit l i c : length l = 512%nat -> 0 <= i < 4096 -> 0 <= c < 4096 -> Z.testbit (aget 0 (set_bit l i) (c / 8)) (c mod 8) = (i =? c) || Z.testbit (aget 0 l (c / 8)) (c mod 8).
Proof.
  intros HL Hi Hc. unfold set_bit. rewrite aget_aset by (rewrite HL; zdm). destruct (Z.eqb_spec (i / 8) (c / 8)) as [E|E].
  - rewrite set_bit_testbit by zdm. rewrite E. f_equal. destruct (Z.eqb_spec (i mod 8) (c mod 8)), (Z.eqb_spec i c); (done || (exfalso; zdm)).
  - destruct (Z.eqb_spec i c) as [->|]; done.
Qed.

Lemma bitmap_bit u c : 0 <= u <= 4096 -> 0 <= c < 4096 -> Z.testbit (aget 0 (bitmap u) (c / 8)) (c mod 8) = (c <? u).
Proof.
  intros Hu Hc. assert (Hn : exists n, u = Z.of_nat n) by (exists (Z.to_nat u); lia). destruct Hn as [n ->]. induction n as [|n IH].
  - rewrite (proj2 (Z.ltb_ge c (Z.of_nat 0))) by lia. change (bitmap (Z.of_nat 0)) with (repeat 0 512). rewrite aget_zeros. apply Z.bits_0.
  - rewrite Nat2Z.inj_succ in *. unfold Z.succ in *. rewrite bitmap_succ, set_bit_bit by (rewrite ?length_bitmap; lia). rewrite IH by lia. destruct (Z.eqb_spec (Z.of_nat n) c), (Z.ltb_spec c (Z.of_nat n)), (Z.ltb_spec c (Z.of_nat n + 1)); (done || lia).
Qed.

(** ** The blocks of a file *)

(** Whether slot k is in use in a file of the size, and how many slots are. *)
Definition need (k size : Z) : bool := if k <? 12 then k * 512 <? size else if k =? 12 then 6144 <? size else (k - 1) * 512 <? size.
Definition nb (size : Z) : Z := (size + 511) / 512 + (if 6144 <? size then 1 else 0).

(** The slots in use are those the size takes. *)
Definition compact (f : Z -> list Z) (ad : list Z) (size : Z) : Prop := forall k, is_slot k -> negb (slot f ad k =? 0) = need k size.

Lemma need_fidx n size : 0 <= n < 140 -> need (fidx n) size = (n * 512 <? size).
Proof. intros Hn. unfold need, fidx. destruct (Z.ltb_spec n 12); [by replace (n <? 12) with true by lia|]. replace (n + 1 <? 12) with false by lia. replace (n + 1 =? 12) with false by lia. do 2 f_equal. lia. Qed.

Lemma need_step off m j : off mod 512 = 0 -> 0 < m <= 512 -> need j (off + m) = (j =? fidx (off / 512)) || ((off =? 6144) && (j =? 12)) || need j off.
Proof.
  intros H0 Hm. apply eq_true_iff_eq. rewrite !orb_true_iff, andb_true_iff, !Z.eqb_eq. unfold need, fidx. destruct (Z.ltb_spec (off / 512) 12), (Z.ltb_spec j 12); [rewrite !Z.ltb_lt; zdm|destruct (Z.eqb_spec j 12); rewrite !Z.ltb_lt; zdm|rewrite !Z.ltb_lt; zdm|destruct (Z.eqb_spec j 12); rewrite !Z.ltb_lt; zdm].
Qed.

Lemma need_same off m j : off mod 512 <> 0 -> 0 <= m -> off mod 512 + m <= 512 -> need j (off + m) = need j off.
Proof.
  intros H0 Hm Hr. apply eq_true_iff_eq. unfold need. destruct (Z.ltb_spec j 12); [rewrite !Z.ltb_lt; zdm|destruct (Z.eqb_spec j 12); rewrite !Z.ltb_lt; zdm].
Qed.

Lemma nb_step off m : off mod 512 = 0 -> 0 < m <= 512 -> nb (off + m) = nb off + 1 + (if off =? 6144 then 1 else 0).
Proof. intros H0 Hm. unfold nb. destruct (Z.eqb_spec off 6144), (Z.ltb_spec 6144 (off + m)), (Z.ltb_spec 6144 off); zdm. Qed.

Lemma nb_same off m : off mod 512 <> 0 -> 0 <= m -> off mod 512 + m <= 512 -> nb (off + m) = nb off.
Proof. intros H0 Hm Hr. unfold nb. destruct (Z.ltb_spec 6144 (off + m)), (Z.ltb_spec 6144 off); zdm. Qed.

Lemma nb_mono a b : 0 <= a <= b -> nb a <= nb b.
Proof. intros H0. unfold nb. destruct (Z.ltb_spec 6144 a), (Z.ltb_spec 6144 b); zdm. Qed.

(** ** The image *)

Section Image.
Context {B : Type} `{BlockLaws B} (HN : 1000 <= nblk < 2 ^ 31) (HF : lfirst <= 32).

Abbreviation g := mk_sb.
Implicit Types f : Z -> list Z.

Lemma mk_geom : geom_ok g.
Proof.
  change g with (mkSb 1000 941 200 30 2 32 58). constructor; unfold datastart; cbn [sb_size sb_ninodes sb_inodestart sb_bmapstart]; try lia.
  - change ((200 - 1) / 8) with 24. lia.
  - change ((1000 - 1) / 4096) with 0. lia.
Qed.

Lemma mk_datastart : datastart g = 59.
Proof. reflexivity. Qed.

Lemma mk_bblock b : 0 <= b < 1000 -> BBLOCK b g = 58.
Proof. intros Hb. rewrite (bblock_eq g mk_geom) by done. change (sb_bmapstart g) with 58. zdm. Qed.

Lemma mk_iblock n : 0 <= n < 200 -> 32 <= IBLOCK n g < 58.
Proof. intros Hn. destruct (iblock_eq g mk_geom n Hn) as [-> _]. change (sb_inodestart g) with 32. zdm. Qed.

(** [f] is the image, but for the bitmap, which mkfs writes at the end: in [f]
    it is always up to date. *)
Record Rep (st : mkst) f : Prop := {
  r_len : Z.of_nat (length (img st)) = 1000;
  r_512 : forall b, 0 <= b < 1000 -> length (f b) = 512%nat;
  r_img : forall b, 0 <= b < 1000 -> b <> 58 -> aget zeroes (img st) b = f b;
  r_map : f 58 = bitmap (freeblock st);
  r_free : forall b, freeblock st <= b < 1000 -> f b = zeroes;
  r_fb : 59 <= freeblock st <= 1000;
}.

Lemma rep_bit st f c : Rep st f -> 0 <= c < 1000 -> bit g f c = (c <? freeblock st).
Proof.
  intros [R1 R2 R3 R4 R5 R6] Hc. unfold bit. rewrite mk_bblock, R4 by done. rewrite Z.mod_small by lia. apply bitmap_bit; lia.
Qed.

Lemma rep_meta st f : Rep st f -> meta_used g f.
Proof. intros R b Hb. rewrite mk_datastart in Hb. pose proof (r_fb _ _ R). rewrite (rep_bit st) by (done || lia). lia. Qed.

Lemma wp_rsect st f b (Q : list Z -> mkst -> Prop) : Rep st f -> 0 <= b < 1000 -> b <> 58 -> Q (f b) st -> wp (rsect b) st Q.
Proof.
  intros [R1 R2 R3 R4 R5 R6] Hb Hn HQ. unfold rsect. apply wp_bind, wp_gets. rewrite sector_id, R1 by done. replace (b <? 1000) with true by lia. apply wp_ret. by rewrite R3.
Qed.

Lemma wp_wsect st f b d (Q : unit -> mkst -> Prop) : Rep st f -> 0 <= b < freeblock st -> b <> 58 -> length d = 512%nat ->
  (forall st', Rep st' (vput b d f) -> freeinode st' = freeinode st -> freeblock st' = freeblock st -> Q tt st') -> wp (wsect b d) st Q.
Proof.
  intros [R1 R2 R3 R4 R5 R6] Hb Hn Hd HQ. unfold wsect. apply wp_modify. apply HQ; [|done|done]. rewrite sector_id, R1 by lia. replace (b <? 1000) with true by lia. constructor; cbn [img freeblock].
  - by rewrite length_aset.
  - intros x Hx. unfold vput. destruct (x =? b); [done|by apply R2].
  - intros x Hx Hx58. unfold vput. destruct (Z.eqb_spec x b) as [->|Hne]; [apply aget_aset_eq; rewrite R1; lia|]. rewrite aget_aset_ne by lia. by apply R3.
  - unfold vput. by replace (58 =? b) with false by lia.
  - intros x Hx. unfold vput. replace (x =? b) with false by lia. by apply R5.
  - done.
Qed.

Lemma wp_next_block st f (a := freeblock st) (Q : Z -> mkst -> Prop) : Rep st f -> a < 1000 ->
  (forall st', Rep st' (alloc_vb g a f) -> freeinode st' = freeinode st -> freeblock st' = a + 1 -> Q a st') -> wp next_block st Q.
Proof.
  intros [R1 R2 R3 R4 R5 R6] Ha HQ. fold a in R4, R5, R6. unfold next_block. apply wp_bind, wp_gets, wp_bind, wp_modify, wp_ret. fold a. rewrite xint_id, u32_small by lia. apply HQ; [|done|done].
  assert (E : forall x, alloc_vb g a f x = if x =? a then zeroes else if x =? 58 then set_bit (f 58) a else f x).
  { intros x. unfold alloc_vb, bit_byte, vput, set_bit. rewrite mk_bblock, Z.mod_small by lia. done. }
  constructor; cbn [img freeblock]; [done| | | | |lia].
  - intros x Hx. rewrite E. destruct (x =? a); [done|]. destruct (x =? 58); [unfold set_bit; rewrite length_aset; apply R2; lia|by apply R2].
  - intros x Hx Hn. rewrite E. replace (x =? 58) with false by lia. destruct (Z.eqb_spec x a) as [->|]; [rewrite R3 by lia; apply R5; lia|by apply R3].
  - rewrite E. replace (58 =? a) with false by lia. cbn [Z.eqb Pos.eqb]. by rewrite bitmap_succ, R4 by lia.
  - intros x Hx. rewrite E. replace (x =? a) with false by lia. replace (x =? 58) with false by lia. apply R5. lia.
Qed.

Lemma rep_put st f n x : Rep st f -> 0 <= n < 200 -> length (put_dinode (f (IBLOCK n g)) (n mod 8 * 64) x) = 512%nat.
Proof. intros R Hn. rewrite length_put_dinode. apply (r_512 _ _ R). pose proof (mk_iblock n Hn). lia. Qed.

Lemma wp_winode st f n x (Q : unit -> mkst -> Prop) : Rep st f -> 0 <= n < 200 ->
  (forall st', Rep st' (put_inode g n x f) -> freeinode st' = freeinode st -> freeblock st' = freeblock st -> Q tt st') -> wp (winode n x) st Q.
Proof.
  intros R Hn HQ. pose proof (mk_iblock n Hn). pose proof (r_fb _ _ R). unfold winode. apply wp_bind. eapply wp_rsect; [exact R|lia|lia|].
  eapply wp_wsect; [exact R|lia|lia|by eapply rep_put|exact HQ].
Qed.

Lemma wp_rinode st f n (Q : dinode -> mkst -> Prop) : Rep st f -> 0 <= n < 200 -> Q (disk_inode g f n) st -> wp (rinode n) st Q.
Proof. intros R Hn HQ. pose proof (mk_iblock n Hn). unfold rinode. apply wp_bind. eapply wp_rsect; [exact R|lia|lia|]. apply wp_ret. exact HQ. Qed.

(** ** Taking blocks *)

Definition set_addrs (din : dinode) (ad : list Z) : dinode := mk_dinode (dtype din) (dmajor din) (dminor din) (dnlink din) (dsize din) ad.

Lemma rep_fresh st f (a := freeblock st) : Rep st f -> a < 1000 -> datastart g <= a < sb_size g /\ bit g f a = false /\ length (f (BBLOCK a g)) = 512%nat.
Proof.
  intros R Ha. pose proof (r_fb _ _ R) as Hb. fold a in Hb. rewrite mk_datastart. change (sb_size g) with 1000. split; [lia|]. split.
  - rewrite (rep_bit st) by (done || lia). fold a. apply Z.ltb_irrefl.
  - rewrite mk_bblock by lia. apply (r_512 _ _ R). lia.
Qed.

Lemma slot_range f ad k : layout g f ad -> is_slot k -> slot f ad k <> 0 -> 59 <= slot f ad k < 1000.
Proof. intros HL Hk Hn. destruct (lay_data _ _ _ HL k Hk Hn) as [Hr _]. by rewrite mk_datastart in Hr. Qed.

Lemma addr_slot f ad k : 0 <= k < 13 -> aget 0 ad k = slot f ad k.
Proof. intros Hk. unfold slot. by replace (k <? 13) with true by lia. Qed.

Lemma xint_addr f ad k : layout g f ad -> 0 <= k < 13 -> xint (aget 0 ad k) = aget 0 ad k.
Proof.
  intros HL Hk. apply xint_id. rewrite (addr_slot f) by done. destruct (decide (slot f ad k = 0)) as [->|Hn]; [lia|].
  assert (59 <= slot f ad k < 1000) by (apply slot_range; [done|unfold is_slot; lia|done]). lia.
Qed.

(** An address of the inode that is not there is filled in. *)
Lemma wp_fill_addr st f din k (ad := daddrs din) (Q : dinode -> mkst -> Prop) : Rep st f -> layout g f ad -> 0 <= k < 13 ->
  (aget 0 ad k <> 0 -> Q din st) ->
  (aget 0 ad k = 0 -> let a := freeblock st in a < 1000 /\ forall st', Rep st' (alloc_vb g a f) -> freeinode st' = freeinode st -> freeblock st' = a + 1 ->
     grows g f ad k a (alloc_vb g a f) (aset ad k a) -> extends g f ad (alloc_vb g a f) (aset ad k a) -> Q (set_addrs din (aset ad k a)) st') ->
  wp (fill_addr din k) st Q.
Proof.
  intros R HL Hk H1 HZ. unfold fill_addr. fold ad. rewrite (xint_addr f) by done. destruct (Z.eqb_spec (aget 0 ad k) 0) as [E|E]; [|apply wp_ret; by apply H1].
  destruct (HZ E) as [Ha HQ]. destruct (rep_fresh st f R Ha) as (F1 & F2 & F3). apply wp_bind. eapply wp_next_block; [exact R|done|]. intros st' R' I' B'. apply wp_ret.
  pose proof (grows_direct g mk_geom f ad k _ HL Hk E F1 F2 F3) as HG. apply HQ; try done.
  eapply (grows_extends g mk_geom f ad k); [done|done|done|unfold is_slot; lia|by rewrite <- addr_slot|done].
Qed.

(** So is an entry of the indirect block. *)
Lemma wp_fill_entry st f din j (ad := daddrs din) (ind := aget 0 ad 12) (Q : dinode * Z -> mkst -> Prop) : Rep st f -> layout g f ad -> 0 <= j < 128 -> ind <> 0 ->
  (slot f ad (13 + j) <> 0 -> Q (din, slot f ad (13 + j)) st) ->
  (slot f ad (13 + j) = 0 -> let a := freeblock st in a < 1000 /\ forall st' f', Rep st' f' -> freeinode st' = freeinode st -> freeblock st' = a + 1 ->
     grows g f ad (13 + j) a f' ad -> extends g f ad f' ad -> Q (din, a) st') ->
  wp (let! indirect := rsect (xint ind) in
      let! indirect :=
        (if le32 indirect (4 * j) =? 0 then
           let! b := next_block in
           let indirect := put32 indirect (4 * j) b in
           wsect (xint ind) indirect ;;;
           ret indirect
         else ret indirect) in
      ret (din, xint (le32 indirect (4 * j)))) st Q.
Proof.
  intros R HL Hj Hi H1 HZ. assert (H12 : is_slot 12) by (unfold is_slot; lia). assert (Hr : 59 <= ind < 1000) by (apply (slot_range f ad 12); done). assert (Ex : xint ind = ind) by (apply (xint_addr f ad 12); [done|lia]). rewrite Ex.
  assert (Es : slot f ad (13 + j) = le32 (f ind) (4 * j)) by (unfold slot; replace (13 + j <? 13) with false by lia; fold ind; replace (ind =? 0) with false by lia; do 2 f_equal; lia).
  assert (H13 : is_slot (13 + j)) by (unfold is_slot; lia).
  apply wp_bind. eapply wp_rsect; [exact R|lia|lia|]. apply wp_bind. destruct (Z.eqb_spec (le32 (f ind) (4 * j)) 0) as [E|E].
  2: { rewrite <- Es in E. apply wp_ret, wp_ret. rewrite <- Es. pose proof (slot_range _ _ _ HL H13 E). rewrite xint_id by lia. by apply H1. }
  destruct (HZ ltac:(congruence)) as [Ha HQ]. destruct (rep_fresh st f R Ha) as (F1 & F2 & F3). set (a := freeblock st) in *. apply wp_bind. eapply wp_next_block; [exact R|done|]. fold a. intros st1 R1 I1 B1.
  pose proof (r_512 _ _ R ind ltac:(lia)) as L5. pose proof (grows_entry g mk_geom f ad j a HL Hj Hi E F1 F2 F3 L5) as HG. fold ind in HG.
  assert (Hia : ind <> a). { intros Eq. destruct (lay_data _ _ _ HL 12 H12) as [_ Hb]; [done|]. change (slot f ad 12) with ind in Hb. rewrite Eq in Hb. congruence. }
  change (sb_size g) with 1000 in F1. rewrite mk_datastart in F1. rewrite (alloc_other g mk_geom a ind f) in HG by (rewrite ?mk_datastart; change (sb_size g) with 1000; lia).
  pose proof (rep_bit st f ind R ltac:(lia)) as Hbi. destruct (lay_data _ _ _ HL 12 H12) as [_ Hb]; [done|]. change (slot f ad 12) with ind in Hb. rewrite Hb in Hbi. symmetry in Hbi. apply Z.ltb_lt in Hbi. fold a in Hbi.
  apply wp_bind. eapply wp_wsect; [exact R1|lia|lia|by rewrite length_put32|]. intros st2 R2 I2 B2. apply wp_ret, wp_ret. rewrite le32_put32_eq by lia. rewrite u32_small, xint_id by lia.
  eapply (HQ st2); [exact R2|congruence|congruence|exact HG|]. eapply (grows_extends g mk_geom f ad (13 + j)); [done|exact F1|done|done|congruence|done].
Qed.

Lemma grows_used f ad k a f' ad' j : grows g f ad k a f' ad' -> a <> 0 -> is_slot j -> negb (slot f' ad' j =? 0) = (j =? k) || negb (slot f ad j =? 0).
Proof. intros HG Ha Hj. rewrite (gr_slot _ _ _ _ _ _ _ HG) by done. destruct (j =? k); [|done]. cbn [orb]. by replace (a =? 0) with false by lia. Qed.

(** Where the size is a multiple of 512 the next block is not there. *)
Lemma compact_hit f ad off : compact f ad off -> 0 <= off < 71680 -> (slot f ad (fidx (off / 512)) = 0 <-> off mod 512 = 0).
Proof.
  intros HC Ho. assert (Hn : 0 <= off / 512 < 140) by zdm. pose proof (HC _ (proj1 (fidx_slot _ Hn))) as E. rewrite need_fidx in E by done. destruct (Z.eqb_spec (slot f ad (fidx (off / 512))) 0), (Z.ltb_spec (off / 512 * 512) off); cbn in E; try discriminate E; split; intros; (done || zdm).
Qed.

Lemma compact_ind f ad off : compact f ad off -> (aget 0 ad 12 = 0 <-> off <= 6144).
Proof.
  intros HC. pose proof (HC 12 ltac:(unfold is_slot; lia)) as E. change (slot f ad 12) with (aget 0 ad 12) in E. unfold need in E. cbn [Z.ltb Z.compare Pos.compare Pos.compare_cont Z.eqb Pos.eqb] in E.
  destruct (Z.eqb_spec (aget 0 ad 12) 0), (Z.ltb_spec 6144 off); cbn in E; try discriminate E; split; intros; (done || lia).
Qed.

Lemma wp_file_block st f din off m (ad := daddrs din) (fbn := off / 512) (Q : dinode * Z -> mkst -> Prop) : Rep st f -> layout g f ad -> compact f ad off -> 0 <= off < 71680 ->
  0 < m -> off mod 512 + m <= 512 -> freeblock st + nb (off + m) - nb off <= 1000 ->
  (forall st' f' ad' x, Rep st' f' -> freeinode st' = freeinode st -> freeblock st' = freeblock st + nb (off + m) - nb off ->
     extends g f ad f' ad' -> slot f' ad' (fidx fbn) = x -> x <> 0 -> (slot f ad (fidx fbn) <> 0 -> ad' = ad) -> compact f' ad' (off + m) -> Q (set_addrs din ad', x) st') ->
  wp (file_block din fbn) st Q.
Proof.
  intros R HL HC Ho Hm Hr Hfb HQ. assert (Hn : 0 <= fbn < 140) by (unfold fbn; zdm). pose proof (compact_hit f ad off HC Ho) as Hz. fold fbn in Hz. pose proof (r_fb _ _ R) as Hb. unfold file_block. change NDIRECT with 12.
  assert (Hold : off mod 512 <> 0 -> forall x, slot f ad (fidx fbn) = x -> Q (din, x) st).
  { intros Hnz x Ex. replace din with (set_addrs din ad) by (by destruct din). eapply (HQ st f); [done|done|rewrite nb_same by lia; lia|by apply extends_refl|done|rewrite <- Ex; tauto|done|]. intros k Hk. rewrite need_same by lia. by apply HC. }
  destruct (Z.ltb_spec fbn 12) as [Hlt|Hge].
  - assert (Ef : fidx fbn = fbn) by (unfold fidx; by replace (fbn <? 12) with true by lia). rewrite Ef in *. rewrite <- (addr_slot f ad fbn) in Hz, Hold by lia. apply wp_bind. eapply wp_fill_addr; [exact R|exact HL|lia| |]; fold ad.
    + intros E. apply wp_ret. fold ad. rewrite (xint_addr f) by (done || lia). by apply Hold; [tauto|].
    + intros E a. apply Hz in E as H5. rewrite nb_step in Hfb, HQ by lia. replace (off =? 6144) with false in Hfb, HQ by (unfold fbn in Hlt; zdm). split; [unfold a; lia|]. intros st' R' I' B' HG HE. apply wp_ret. cbn [daddrs set_addrs].
      rewrite (xint_addr _ _ _ (ex_lay _ _ _ _ _ HE)) by lia. rewrite aget_aset_eq by (rewrite (lay_len _ _ _ HL); lia). eapply HQ; [exact R'|done|unfold a in B'; lia|exact HE| |unfold a; lia| |].
      * rewrite (gr_slot _ _ _ _ _ _ _ HG) by (unfold is_slot; lia). by rewrite Z.eqb_refl.
      * rewrite <- addr_slot by lia. done.
      * intros k Hk. rewrite (grows_used _ _ _ _ _ _ _ HG) by (done || unfold a; lia). rewrite need_step by lia. fold fbn. rewrite Ef. replace (off =? 6144) with false by (unfold fbn in Hlt; zdm). cbn [andb]. rewrite orb_false_r. f_equal. by apply HC.
  - assert (Ef : fidx fbn = 13 + (fbn - 12)) by (unfold fidx; replace (fbn <? 12) with false by lia; lia). rewrite Ef in *.
    pose proof (compact_ind f ad off HC) as Hind. apply wp_bind. eapply wp_fill_addr; [exact R|exact HL|lia| |]; fold ad.
    + intros E. assert (H6 : 6144 < off) by lia. eapply wp_fill_entry; [exact R|exact HL|lia|done| |]; fold ad; [intros Hs; by apply Hold; [tauto|]|].
      intros Hs a. apply Hz in Hs as H5. rewrite nb_step in Hfb, HQ by lia. replace (off =? 6144) with false in Hfb, HQ by lia. split; [unfold a; lia|]. intros st' f' R' I' B' HG HE. replace din with (set_addrs din ad) by (by destruct din).
      eapply (HQ st' f'); [exact R'|done|unfold a in B'; lia|exact HE| |unfold a; lia|done|].
      * rewrite (gr_slot _ _ _ _ _ _ _ HG) by (unfold is_slot; lia). by rewrite Z.eqb_refl.
      * intros k Hk. rewrite (grows_used _ _ _ _ _ _ _ HG) by (done || unfold a; lia). rewrite need_step by lia. fold fbn. rewrite Ef. replace (off =? 6144) with false by lia. cbn [andb]. rewrite orb_false_r. f_equal. by apply HC.
    + intros E a. assert (H6 : off = 6144) by (unfold fbn in Hge; zdm). assert (H5 : off mod 512 = 0) by (by rewrite H6). rewrite nb_step in Hfb, HQ by lia. replace (off =? 6144) with true in Hfb, HQ by lia. split; [unfold a; lia|].
      intros st1 R1 I1 B1 HG1 HE1. set (ad1 := aset ad 12 a) in *. set (f1 := alloc_vb g a f) in *. pose proof (lay_len _ _ _ HL) as L13.
      assert (E12 : aget 0 ad1 12 = a) by (apply aget_aset_eq; rewrite L13; lia). assert (Hs : slot f1 ad1 (13 + (fbn - 12)) = 0).
      { rewrite (gr_slot _ _ _ _ _ _ _ HG1) by (unfold is_slot; lia). replace (13 + (fbn - 12) =? 12) with false by lia. by apply Hz. }
      eapply (wp_fill_entry st1 f1 (set_addrs din ad1)); [exact R1|apply HE1|lia|cbn [daddrs set_addrs]; rewrite E12; unfold a; lia| |]; cbn [daddrs set_addrs]; [intros ?; done|].
      intros _. set (a2 := freeblock st1). split; [unfold a2, a in *; lia|]. intros st2 f2 R2 I2 B2 HG2 HE2.
      eapply (HQ st2 f2 ad1); [exact R2|congruence|unfold a2, a in *; lia|by eapply extends_trans; [apply mk_geom| | |]| |unfold a2, a in *; lia| |].
      * rewrite (gr_slot _ _ _ _ _ _ _ HG2) by (unfold is_slot; lia). by rewrite Z.eqb_refl.
      * intros Hc. exfalso. by apply Hc, Hz.
      * intros k Hk. rewrite (grows_used _ _ _ _ _ _ _ HG2) by (done || unfold a2, a in *; lia). rewrite (grows_used _ _ _ _ _ _ _ HG1) by (done || unfold a; lia). rewrite need_step by lia. fold fbn. rewrite Ef. replace (off =? 6144) with true by lia.
        cbn [andb]. rewrite <- orb_assoc. do 2 f_equal. by apply HC.
Qed.

(** ** iappend() *)

Lemma wp_iappend_loop fuel : forall din off p st f (ad := daddrs din) (n := Z.of_nat (length p)) (Q : dinode * Z -> mkst -> Prop), (length p < fuel)%nat ->
  Rep st f -> layout g f ad -> compact f ad off -> 0 <= off -> off + n <= 71680 -> freeblock st + nb (off + n) - nb off <= 1000 ->
  (forall st' f' ad', Rep st' f' -> freeinode st' = freeinode st -> freeblock st' = freeblock st + nb (off + n) - nb off ->
     writes g f ad off p f' ad' -> compact f' ad' (off + n) -> Q (set_addrs din ad', off + n) st') ->
  wp (iappend_loop fuel din off p) st Q.
Proof.
  induction fuel as [|fuel IH]; intros din off p st f ad n Q Hf R HL HC Ho Hmax Hfb HQ; [lia|]. cbn [iappend_loop]. fold n. destruct (Z.gtb_spec n 0) as [Hn|Hn].
  2: { assert (n = 0) as En by (unfold n in *; lia). assert (p = []) as Ep by (destruct p; [done|cbn in n; lia]). rewrite En, Z.add_0_r in HQ. replace din with (set_addrs din ad) by (by destruct din). apply wp_ret. eapply (HQ st f); [done|done|lia|rewrite Ep; by apply writes_nil|done]. }
  set (m := Z.min n (512 - off mod 512)). change BSIZE with 512. change MAXFILE with 140. assert (Hm : 0 < m /\ off mod 512 + m <= 512 /\ m <= n) by (unfold m; zdm). assert (Hbn : 0 <= off / 512 < 140) by zdm.
  assert (Em : Z.min n (u32 ((off / 512 + 1) * 512 - off)) = m) by (unfold m; f_equal; rewrite u32_small; zdm). rewrite Em. replace (off / 512 <? 140) with true by lia. apply wp_bind, wp_ret, wp_bind.
  pose proof (nb_mono (off + m) (off + n) ltac:(lia)) as Hmono. eapply (wp_file_block st f din off m); [exact R|done|done|lia|lia|lia|lia|]. fold ad. intros st1 f1 ad1 x R1 I1 B1 HE Ex Hx Hsame HC1.
  pose proof (fidx_slot _ Hbn) as [Hk _]. assert (Hxr : 59 <= x < 1000) by (rewrite <- Ex; apply slot_range; [apply HE|done|congruence]).
  assert (Hxb : x < freeblock st1). { destruct (lay_data _ _ _ (ex_lay _ _ _ _ _ HE) _ Hk) as [_ Hb]; [congruence|]. rewrite Ex, (rep_bit st1) in Hb by (done || lia). by apply Z.ltb_lt. }
  pose proof (r_512 _ _ R1 x ltac:(lia)) as L5. assert (Lt : length (take (Z.to_nat m) p) = Z.to_nat m) by (rewrite length_take; lia).
  apply wp_bind. eapply wp_rsect; [exact R1|lia|lia|]. apply wp_bind. eapply wp_wsect; [exact R1|lia|lia|rewrite splice_length; [done|zdm|rewrite Lt, L5; zdm]|]. replace (off - off / 512 * 512) with (off mod 512) by zdm.
  set (d := take (Z.to_nat m) p) in *. set (f2 := vput x _ f1). intros st2 R2 I2 B2. rewrite u32_small by lia.
  assert (HW : writes g f ad off d f2 ad1).
  { replace off with (off / 512 * 512 + off mod 512) at 1 by zdm. unfold f2. rewrite <- Ex. apply writes_block; [apply mk_geom|done|done|done|congruence|zdm|rewrite Lt; lia|by rewrite Ex|done|]. intros E. rewrite E in Lt. cbn in Lt. lia. }
  assert (HC2 : compact f2 ad1 (off + m)). { intros k Hk'. unfold f2. rewrite (slot_vput g); [by apply HC1|apply HE|done|by exists (off / 512)|done]. }
  eapply (IH (set_addrs din ad1) (off + m) (drop (Z.to_nat m) p) st2 f2); cbn [daddrs set_addrs]; rewrite ?length_drop; [lia|exact R2|apply HW|done|lia|unfold n in *; lia| |]; replace (off + m + Z.of_nat (length p - Z.to_nat m)) with (off + n) by (unfold n in *; lia); [lia|].
  intros st3 f3 ad3 R3 I3 B3 W3 C3. eapply (HQ st3 f3 ad3); [exact R3|congruence|lia| |exact C3]. rewrite <- (take_drop (Z.to_nat m) p). eapply writes_trans; [apply mk_geom|exact HW| |done]. fold d. rewrite Lt, Z2Nat.id by lia. exact W3.
Qed.
End Image.
