(* ===== verification/MkfsInv.v ===== *)
(** The files on the image that mkfs.c writes, and that every step of it keeps
    them: new inodes, appended bytes, whole files. *)

From Stdlib Require Import ZArith Lia.
From stdpp Require Import base gmap strings numbers list.
From S2P Require Import Prelude Kstring Bio Log Fs FsBlock FsBitmap FsMap FsFile FsTrunc FsCache FsDir Mkfs MkfsSpec.

Open Scope Z_scope.
Open Scope kern_scope.

Section Image.
Context {B : Type} `{BlockLaws B} (HN : 1000 <= nblk < 2 ^ 31) (HF : lfirst <= 32).

Abbreviation g := mk_sb.
Abbreviation G := (mk_geom HN HF).
Implicit Types f : Z -> list Z.

(** ** A file that is not written to *)

Section Frame.
Context f f' (ad : list Z) (HL : layout g f ad).
Context (HX : forall k, is_slot k -> slot f ad k <> 0 -> f' (slot f ad k) = f (slot f ad k)).
Context (HB : forall c, 0 <= c < 1000 -> bit g f c = true -> bit g f' c = true).

Lemma frame_slot k : slot f' ad k = slot f ad k.
Proof.
  unfold slot. destruct (k <? 13); [done|]. destruct (Z.eqb_spec (aget 0 ad 12) 0) as [|Hn]; [done|].
  pose proof (HX 12 ltac:(unfold is_slot; lia)) as E. change (slot f ad 12) with (aget 0 ad 12) in E. by rewrite E.
Qed.

Lemma frame_layout : layout g f' ad.
Proof.
  constructor; [apply HL| |].
  - intros k Hk. rewrite frame_slot. intros Hn. destruct (lay_data _ _ _ HL k Hk Hn) as [Hr Hb]. split; [done|]. apply HB; [|done]. pose proof (slot_range f ad k HL Hk Hn). lia.
  - intros j k Hj Hk. rewrite !frame_slot. by apply (lay_inj _ _ _ HL).
Qed.

Lemma frame_fbyte o : 0 <= o < 71680 -> fbyte f' ad o = fbyte f ad o.
Proof.
  intros Ho. apply fbyte_ext; [done|]. unfold fblock. rewrite frame_slot. destruct (Z.eqb_spec (slot f ad (fidx (o / 512))) 0); [done|]. apply HX; [|done]. apply fidx_slot. zdm.
Qed.

Lemma frame_compact size : compact f ad size -> compact f' ad size.
Proof. intros HC k Hk. rewrite frame_slot. by apply HC. Qed.
End Frame.

(** ** The files on the image *)

Definition addrs f (n : Z) : list Z := daddrs (disk_inode g f n).

(** Inode n is of the type, with one link, and has the bytes c (and no byte
    but zero behind them). *)
Record file_at f (n type : Z) (c : list Z) : Prop := {
  fa_inode : disk_inode g f n = mk_dinode type 0 0 1 (Z.of_nat (length c)) (addrs f n);
  fa_type : short_ok type;
  fa_lay : layout g f (addrs f n);
  fa_compact : compact f (addrs f n) (Z.of_nat (length c));
  fa_byte : forall o, 0 <= o < 71680 -> fbyte f (addrs f n) o = aget 0 c o;
  fa_size : Z.of_nat (length c) <= 71680;
}.

(** No block belongs to two inodes. *)
Definition apart f (ad ad' : list Z) : Prop := forall j k, is_slot j -> is_slot k -> slot f ad j <> 0 -> slot f ad j <> slot f ad' k.

Definition total (cs : list (Z * list Z)) : Z := foldr (fun x t => nb (Z.of_nat (length (snd x))) + t) 0 cs.

Definition sb_block : list Z := put_words zeroes 0 [1000; 941; 200; 30; 2; 32; 58].

(** Inode 1 + k has the k-th type and contents of [cs]. *)
Record Inv (st : mkst) f (cs : list (Z * list Z)) : Prop := {
  i_rep : Rep st f;
  i_next : freeinode st = 1 + Z.of_nat (length cs);
  i_inodes : Z.of_nat (length cs) < 200;
  i_files : forall k type c, cs !! k = Some (type, c) -> file_at f (1 + Z.of_nat k) type c;
  i_apart : forall j k, (j < length cs)%nat -> (k < length cs)%nat -> j <> k -> apart f (addrs f (1 + Z.of_nat j)) (addrs f (1 + Z.of_nat k));
  i_blocks : freeblock st = 59 + total cs;
  i_low : forall b, 0 <= b < 32 -> f b = if b =? 1 then sb_block else zeroes;
  i_unused : forall n, Z.of_nat (length cs) < n < 200 -> dtype (disk_inode g f n) = 0;
}.

Lemma total_blocks_app cs cs' : total (cs ++ cs') = total cs + total cs'.
Proof. induction cs as [|x cs IH]; [done|]. unfold total in *. cbn [foldr app]. lia. Qed.

Lemma total_insert cs : forall k type c c', cs !! k = Some (type, c) -> total (<[k := (type, c')]> cs) = total cs - nb (Z.of_nat (length c)) + nb (Z.of_nat (length c')).
Proof.
  induction cs as [|x cs IH]; intros [|k] type c c' E; cbn in E; try discriminate E.
  - injection E as ->. cbn. lia.
  - specialize (IH k type c c' E). change (<[S k := (type, c')]> (x :: cs)) with (x :: <[k := (type, c')]> cs). unfold total in *. cbn [foldr]. lia.
Qed.

Lemma nb_nonneg s : 0 <= s -> 0 <= nb s.
Proof. intros Hs. unfold nb. destruct (6144 <? s); zdm. Qed.

Section Append.
Context st f cs (I : Inv st f cs) (k : nat) (type : Z) (c p : list Z) (Hk : cs !! k = Some (type, c)).
Abbreviation n := (1 + Z.of_nat k).
Abbreviation size := (Z.of_nat (length c)).
Abbreviation size' := (size + Z.of_nat (length p)).
Context (st1 : mkst) (f1 : Z -> list Z) (ad1 : list Z).
Context (R1 : Rep st1 f1) (I1 : freeinode st1 = freeinode st) (B1 : freeblock st1 = freeblock st + nb size' - nb size).
Context (W1 : writes g f (addrs f n) size p f1 ad1) (C1 : compact f1 ad1 size') (Hmax : size' <= 71680).
Let x : dinode := mk_dinode type 0 0 1 size' ad1.
Let f' : Z -> list Z := put_inode g n x f1.

Lemma ap_range j : (j < length cs)%nat -> 0 <= 1 + Z.of_nat j < 200.
Proof. intros Hj. pose proof (i_inodes _ _ _ I). lia. Qed.

Lemma ap_k : (k < length cs)%nat.
Proof. by eapply lookup_lt_Some. Qed.

Lemma ap_x : dinode_ok x.
Proof.
  pose proof (fa_type _ _ _ _ (i_files _ _ _ I _ _ _ Hk)). unfold dinode_ok, x. cbn. unfold word_ok. split_and!; try (done || lia); try (unfold short_ok; lia); [apply W1|]. eapply layout_words; [apply G|apply W1].
Qed.

Lemma ap_disk m : 0 <= m < 200 -> disk_inode g f' m = if m =? n then x else disk_inode g f m.
Proof.
  intros Hr. pose proof (ap_range k ap_k) as Hrk. unfold f'. rewrite (disk_put_inode g G); [|done|done| |apply ap_x].
  - destruct (m =? n); [done|]. unfold disk_inode. pose proof (mk_iblock HN HF _ Hr). rewrite (w_low _ _ _ _ _ _ _ W1); [done|]. change (sb_bmapstart g) with 58. lia.
  - apply (r_512 _ _ R1). pose proof (mk_iblock HN HF _ Hrk). lia.
Qed.

Lemma ap_inode j : (j < length cs)%nat -> disk_inode g f' (1 + Z.of_nat j) = if decide (j = k) then x else disk_inode g f (1 + Z.of_nat j).
Proof.
  intros Hj. rewrite ap_disk by (by apply ap_range). destruct (decide (j = k)) as [->|Hne]; [by rewrite Z.eqb_refl|]. by replace (1 + Z.of_nat j =? 1 + Z.of_nat k) with false by lia.
Qed.

Lemma ap_addrs j : (j < length cs)%nat -> addrs f' (1 + Z.of_nat j) = if decide (j = k) then ad1 else addrs f (1 + Z.of_nat j).
Proof. intros Hj. unfold addrs. rewrite ap_inode by done. by destruct (decide (j = k)). Qed.

Lemma ap_above b : 58 <= b < 1000 -> f' b = f1 b.
Proof. intros Hb. unfold f', put_inode, vput. pose proof (mk_iblock HN HF _ (ap_range k ap_k)). by replace (b =? IBLOCK n g) with false by lia. Qed.

(** The file itself. *)
Lemma ap_file : file_at f' n type (c ++ p).
Proof.
  pose proof (i_files _ _ _ I _ _ _ Hk) as [F1 F2 F3 F4 F5 F6]. assert (Ea : addrs f' n = ad1) by (rewrite (ap_addrs k ap_k); by rewrite decide_True). assert (HL : layout g f1 ad1) by apply W1.
  constructor; rewrite ?Ea, ?length_app, ?Nat2Z.inj_add; try done.
  - rewrite (ap_inode k ap_k). by rewrite decide_True.
  - apply (agree_layout g G f1 f' ap_above). done.
  - intros j Hj. rewrite (agree_slot g G f1 f' ap_above) by done. by apply C1.
  - intros o Ho. rewrite (agree_fbyte g G f1 f' ap_above) by done. rewrite (w_byte _ _ _ _ _ _ _ W1), aget_app, F5 by lia. destruct (Z.ltb_spec o size).
    + by replace (size <=? o) with false by lia.
    + replace (size <=? o) with true by lia. cbn [andb]. destruct (Z.ltb_spec o size'); [done|]. unfold aget. replace (o <? 0) with false by lia. replace (o - size <? 0) with false by lia. by rewrite !nth_overflow by lia.
Qed.

(** Another file. *)
Lemma ap_bits b : 0 <= b < 1000 -> bit g f b = true -> bit g f' b = true.
Proof. intros Hb Hf. rewrite (agree_bit g G f1 f' ap_above) by done. by apply (w_bits _ _ _ _ _ _ _ W1). Qed.

Section Other.
Context (j : nat) (Hj : (j < length cs)%nat) (Hne : j <> k).
Abbreviation ad := (addrs f (1 + Z.of_nat j)).

Lemma ap_file_j : exists type' c', cs !! j = Some (type', c') /\ file_at f (1 + Z.of_nat j) type' c'.
Proof. destruct (lookup_lt_is_Some_2 _ _ Hj) as [[type' c'] E]. exists type', c'. split; [done|]. by apply (i_files _ _ _ I). Qed.

Lemma ap_frame i : is_slot i -> slot f ad i <> 0 -> f' (slot f ad i) = f (slot f ad i).
Proof.
  intros Hi Hn. destruct ap_file_j as (type' & c' & _ & [F1 F2 F3 F4 F5 F6]). pose proof (slot_range f ad i F3 Hi Hn) as Hr. rewrite ap_above by lia. apply (w_frame _ _ _ _ _ _ _ W1).
  - rewrite (mk_datastart). exact Hr.
  - by apply (lay_data _ _ _ F3).
  - intros l Hl E. apply (i_apart _ _ _ I j k Hj ap_k Hne i l Hi Hl Hn). done.
Qed.

Lemma ap_other type' c' : cs !! j = Some (type', c') -> file_at f' (1 + Z.of_nat j) type' c'.
Proof.
  intros E. pose proof (i_files _ _ _ I _ _ _ E) as [F1 F2 F3 F4 F5 F6]. assert (Ea : addrs f' (1 + Z.of_nat j) = ad) by (rewrite ap_addrs by done; by rewrite decide_False).
  constructor; rewrite ?Ea; try done.
  - rewrite ap_inode by done. by rewrite decide_False.
  - apply (frame_layout f); [done|apply ap_frame|apply ap_bits].
  - apply (frame_compact f); [apply ap_frame|done].
  - intros o Ho. rewrite (frame_fbyte f) by (done || apply ap_frame). by apply F5.
Qed.

Lemma ap_slot i : slot f' ad i = slot f ad i.
Proof. apply frame_slot. apply ap_frame. Qed.

Lemma ap_slot_k i : slot f' ad1 i = slot f1 ad1 i.
Proof. apply (agree_slot g G f1 f' ap_above). apply W1. Qed.

Lemma ap_apart : apart f' ad ad1 /\ apart f' ad1 ad.
Proof.
  destruct ap_file_j as (type' & c' & _ & [F1 F2 F3 F4 F5 F6]). assert (HA : forall i l, is_slot i -> is_slot l -> slot f ad i <> 0 -> slot f ad i <> slot f1 ad1 l).
  { intros i l Hi Hl Hn E. destruct (decide (slot f (addrs f n) l = 0)) as [E0|E0].
    - destruct (w_new _ _ _ _ _ _ _ W1 l Hl E0) as [E1|E1]; [congruence|]. rewrite <- E in E1. destruct (lay_data _ _ _ F3 i Hi Hn) as [_ Hb]. congruence.
    - rewrite (w_keep _ _ _ _ _ _ _ W1) in E by done. by apply (i_apart _ _ _ I j k Hj ap_k Hne i l Hi Hl Hn). }
  split; intros i l Hi Hl; rewrite ap_slot, ap_slot_k; [by apply HA|]. intros Hn E. apply (HA l i); [done|done|congruence|done].
Qed.
End Other.

Lemma ap_inv st2 : Rep st2 f' -> freeinode st2 = freeinode st1 -> freeblock st2 = freeblock st1 -> Inv st2 f' (<[k := (type, c ++ p)]> cs).
Proof.
  intros R2 I2 B2. pose proof I as [J1 J2 J3 J4 J5 J6 J7 J8]. constructor; rewrite ?length_insert; [done|congruence|done| | | | |].
  - intros j type' c' E. destruct (decide (j = k)) as [->|Hne].
    + rewrite list_lookup_insert_eq in E by apply ap_k. injection E as <- <-. apply ap_file.
    + rewrite list_lookup_insert_ne in E by done. apply ap_other; [by eapply lookup_lt_Some|done|done].
  - intros i j Hi Hj Hne. rewrite !ap_addrs by done. destruct (decide (i = k)) as [->|Hik], (decide (j = k)) as [->|Hjk]; [done|by apply ap_apart|by apply ap_apart|].
    intros a b Ha Hb. rewrite (ap_slot i), (ap_slot j) by done. by apply J5.
  - rewrite B2, B1, J6. rewrite (total_insert cs k type c (c ++ p)) by done. rewrite length_app, Nat2Z.inj_add. lia.
  - intros b Hb. unfold f', put_inode, vput. pose proof (mk_iblock HN HF _ (ap_range k ap_k)). replace (b =? IBLOCK n g) with false by lia. rewrite (w_low _ _ _ _ _ _ _ W1) by (change (sb_bmapstart g) with 58; lia). by apply J7.
  - intros m Hm. pose proof ap_k. rewrite ap_disk by lia. replace (m =? n) with false by lia. by apply J8.
Qed.
End Append.

Lemma wp_iappend st f cs k type c p (Q : unit -> mkst -> Prop) : Inv st f cs -> cs !! k = Some (type, c) -> Z.of_nat (length (c ++ p)) <= 71680 -> total (<[k := (type, c ++ p)]> cs) <= 941 ->
  (forall st' f', Inv st' f' (<[k := (type, c ++ p)]> cs) -> Q tt st') -> wp (iappend (1 + Z.of_nat k) p) st Q.
Proof.
  intros I Hk Hmax Hfit HQ. pose proof (i_files _ _ _ I _ _ _ Hk) as [F1 F2 F3 F4 F5 F6]. assert (Hr : 0 <= 1 + Z.of_nat k < 200) by (pose proof (i_inodes _ _ _ I); pose proof (lookup_lt_Some _ _ _ Hk); lia). pose proof (i_rep _ _ _ I) as R.
  rewrite (total_insert cs k type c (c ++ p) Hk) in Hfit. rewrite length_app, Nat2Z.inj_add in Hmax, Hfit. pose proof (i_blocks _ _ _ I) as Hb.
  unfold iappend. apply wp_bind. eapply (wp_rinode HN HF); [exact R|done|]. rewrite F1. cbn [dsize]. rewrite xint_id by lia. apply wp_bind.
  eapply (wp_iappend_loop HN HF); [lia|exact R|exact F3|exact F4|lia|done|lia|]. cbn [daddrs set_addrs dtype dmajor dminor dnlink dsize]. intros st1 f1 ad1 R1 I1 B1 W1 C1.
  rewrite xint_id by lia. eapply (wp_winode HN HF); [exact R1|done|]. intros st2 R2 I2 B2. eapply HQ. eapply (ap_inv st f cs I k type c p Hk st1 f1 ad1); done.
Qed.

(** ** New inodes *)

(** Blocks from the bitmap on and the inode are as before. *)
Lemma file_at_ext f f' n type c : (forall b, 58 <= b < 1000 -> f' b = f b) -> disk_inode g f' n = disk_inode g f n -> file_at f n type c -> file_at f' n type c.
Proof.
  intros HE Hi [F1 F2 F3 F4 F5 F6]. assert (Ea : addrs f' n = addrs f n) by (unfold addrs; by rewrite Hi). constructor; rewrite ?Ea; try done.
  - by rewrite Hi.
  - by apply (agree_layout g G f f' HE).
  - intros k Hk. rewrite (agree_slot g G f f' HE) by done. by apply F4.
  - intros o Ho. rewrite (agree_fbyte g G f f' HE) by done. by apply F5.
Qed.

Lemma apart_ext f f' ad ad' : (forall b, 58 <= b < 1000 -> f' b = f b) -> layout g f ad -> layout g f ad' -> apart f ad ad' -> apart f' ad ad'.
Proof. intros HE H1 H2 HA j k Hj Hk. rewrite !(agree_slot g G f f' HE) by done. by apply HA. Qed.

Lemma slot_zeros f k : slot f (repeat 0 13) k = 0.
Proof. unfold slot. rewrite !aget_zeros. by destruct (k <? 13). Qed.

Lemma empty_file f n type : short_ok type -> disk_inode g f n = mk_dinode type 0 0 1 0 (repeat 0 13) -> file_at f n type [].
Proof.
  intros Ht Hi. assert (Ea : addrs f n = repeat 0 13) by (unfold addrs; by rewrite Hi). constructor; rewrite ?Ea; try done.
  - constructor; [done| |]; intros; rewrite slot_zeros in *; done.
  - intros k Hk. rewrite slot_zeros. cbn [negb Z.eqb]. unfold is_slot in Hk. unfold need. cbn [length Z.of_nat]. symmetry. destruct (Z.ltb_spec k 12); [apply Z.ltb_ge; lia|]. destruct (Z.eqb_spec k 12); apply Z.ltb_ge; lia.
  - intros o Ho. unfold fbyte, fblock. rewrite slot_zeros. cbn [Z.eqb]. rewrite aget_zeros. symmetry. apply (aget_zeros 0).
Qed.

Lemma wp_ialloc st f cs type (Q : Z -> mkst -> Prop) : Inv st f cs -> 0 <= type < 32768 -> Z.of_nat (length cs) < 199 ->
  (forall st' f', Inv st' f' (cs ++ [(type, [])]) -> Q (1 + Z.of_nat (length cs)) st') -> wp (Mkfs.ialloc type) st Q.
Proof.
  intros I Ht Hn HQ. pose proof I as [J1 J2 J3 J4 J5 J6 J7 J8]. unfold Mkfs.ialloc. apply wp_bind, wp_gets. rewrite J2. apply wp_bind, wp_modify, wp_bind. set (n := 1 + Z.of_nat (length cs)) in *. assert (Hr : 0 <= n < 200) by (unfold n; lia).
  rewrite J2, u32_small by lia. rewrite !xshort_id, xint_id by lia. change (i16 1) with 1. assert (Ei : i16 type = type) by (unfold i16; zdm). rewrite Ei. set (x := mk_dinode type 0 0 1 0 (repeat 0 13)).
  assert (Hx : dinode_ok x) by (unfold dinode_ok, x; cbn; unfold short_ok, word_ok; split_and!; try (done || lia); repeat constructor; lia).
  assert (R1 : Rep (mk_mkst (img st) (n + 1) (freeblock st)) f) by (destruct J1; by constructor). eapply (wp_winode HN HF); [exact R1|done|]. set (f' := put_inode g n x f). intros st2 R2 I2 B2. apply wp_ret. apply (HQ st2 f').
  pose proof (mk_iblock HN HF n Hr) as Hib. assert (HE : forall b, 58 <= b < 1000 -> f' b = f b) by (intros b Hb; unfold f', put_inode, vput; by replace (b =? IBLOCK n g) with false by lia).
  assert (HD : forall m, 0 <= m < 200 -> disk_inode g f' m = if m =? n then x else disk_inode g f m) by (intros m Hm; apply (disk_put_inode g G); [done|done|apply (r_512 _ _ J1); lia|done]).
  assert (HA : forall j, (j < length cs)%nat -> addrs f' (1 + Z.of_nat j) = addrs f (1 + Z.of_nat j)) by (intros j Hj; unfold addrs; rewrite HD by lia; by replace (1 + Z.of_nat j =? n) with false by (unfold n; lia)).
  assert (HAn : addrs f' n = repeat 0 13) by (unfold addrs; rewrite HD by done; by rewrite Z.eqb_refl).
  assert (HLj : forall j, (j < length cs)%nat -> layout g f (addrs f (1 + Z.of_nat j))) by (intros j Hj; destruct (lookup_lt_is_Some_2 _ _ Hj) as [[ty c] E]; by apply (J4 _ _ _ E)).
  constructor; rewrite ?length_app; cbn [length]; [done|rewrite I2; cbn [freeinode]; unfold n; lia|lia| | | | |].
  - intros k type' c E. apply lookup_app_Some in E as [E|[Hl E]].
    + apply (file_at_ext f); [done| |by apply J4]. apply lookup_lt_Some in E. rewrite HD by lia. by replace (1 + Z.of_nat k =? n) with false by (unfold n; lia).
    + apply list_lookup_singleton_Some in E as [E1 E2]. injection E2 as <- <-. replace k with (length cs) by lia. fold n. apply empty_file; [unfold short_ok; lia|]. rewrite HD by done. by rewrite Z.eqb_refl.
  - assert (Hn' : forall j, (j < length cs + 1)%nat -> ~ (j < length cs)%nat -> addrs f' (1 + Z.of_nat j) = repeat 0 13) by (intros j H1 H2; replace (1 + Z.of_nat j) with n by (unfold n; lia); done).
    intros j k Hj Hk Hne. destruct (decide (j < length cs)%nat) as [H1|H1]; [|rewrite (Hn' j) by done; intros a b Ha Hb Hs; by rewrite slot_zeros in Hs].
    destruct (decide (k < length cs)%nat) as [H2|H2]; [|rewrite (Hn' k) by done; intros a b Ha Hb Hs; by rewrite (slot_zeros _ b)]. rewrite !HA by done. apply (apart_ext f); [done|by apply HLj|by apply HLj|by apply J5].
  - rewrite B2. cbn [freeblock]. rewrite J6, total_blocks_app. change (total [(type, [])]) with 0. lia.
  - intros b Hb. unfold f', put_inode, vput. replace (b =? IBLOCK n g) with false by lia. by apply J7.
  - intros m Hm. rewrite HD by lia. replace (m =? n) with false by (unfold n; lia). apply J8. lia.
Qed.

(** ** Files are added *)

Definition contents (h : hfile) : list Z := concat (default [] (hread h)).

(** The entries of the files from inode n on. *)
Fixpoint entries (n : Z) (files : list hfile) : list Z :=
  match files with
  | [] => []
  | h :: r => mk_dirent n (skip_underscore (hname h)) ++ entries (n + 1) r
  end.

Definition file_contents (files : list hfile) : list (Z * list Z) := map (fun h => (T_FILE, contents h)) files.

Lemma length_entries files : forall n, length (entries n files) = (16 * length files)%nat.
Proof. induction files as [|h r IH]; intros n; [done|]. cbn [entries length]. rewrite length_app, IH, length_dirent. lia. Qed.

Lemma total_blocks_nonneg cs : 0 <= total cs.
Proof. induction cs as [|x cs IH]; [done|]. unfold total in *. cbn [foldr]. pose proof (nb_nonneg (Z.of_nat (length (snd x))) ltac:(lia)). lia. Qed.

Lemma wp_append_all reads : forall st f cs k type c (Q : unit -> mkst -> Prop), Inv st f cs -> cs !! k = Some (type, c) -> Z.of_nat (length (c ++ concat reads)) <= 71680 ->
  total (<[k := (type, c ++ concat reads)]> cs) <= 941 -> (forall st' f', Inv st' f' (<[k := (type, c ++ concat reads)]> cs) -> Q tt st') -> wp (append_all (1 + Z.of_nat k) reads) st Q.
Proof.
  induction reads as [|p r IH]; intros st f cs k type c Q I Hk Hmax Hfit HQ; cbn [concat append_all] in *.
  - apply wp_ret. apply (HQ st f). rewrite app_nil_r. by rewrite list_insert_id.
  - rewrite app_assoc in Hmax, Hfit, HQ. pose proof (lookup_lt_Some _ _ _ Hk) as Hl. rewrite length_app in Hmax. apply wp_bind. eapply wp_iappend; [exact I|exact Hk|lia| |].
    + rewrite (total_insert cs k type c) in * by done. rewrite (length_app (c ++ p)), Nat2Z.inj_add in Hfit. pose proof (nb_mono (Z.of_nat (length (c ++ p))) (Z.of_nat (length (c ++ p)) + Z.of_nat (length (concat r))) ltac:(lia)). lia.
    + intros st1 f1 I1. eapply (IH st1 f1 _ k type (c ++ p)); [exact I1|by apply list_lookup_insert_eq|rewrite length_app; lia|by rewrite list_insert_insert_eq|]. intros st' f' I'. rewrite list_insert_insert_eq in I'. by apply (HQ st' f').
Qed.

Lemma insert_last {A} (a : A) l x y : <[S (length l) := y]> (a :: l ++ [x]) = a :: l ++ [y].
Proof. change (a :: <[length l := y]> (l ++ [x]) = a :: l ++ [y]). f_equal. by rewrite insert_app_r_alt, Nat.sub_diag by lia. Qed.

(** A file that mkfs can copy. *)
Definition good_file (h : hfile) : Prop := (47 ∉ hname h) /\ hread h <> None /\ Z.of_nat (length (contents h)) <= 71680.

Lemma wp_add_file st f dc fs h (Q : unit -> mkst -> Prop) (cs := (T_DIR, dc) :: fs) (n := 2 + Z.of_nat (length fs)) (cs' := (T_DIR, dc ++ mk_dirent n (skip_underscore (hname h))) :: fs ++ [(T_FILE, contents h)]) :
  Inv st f cs -> good_file h -> Z.of_nat (length fs) < 198 -> Z.of_nat (length dc) + 16 <= 71680 -> total cs' <= 941 ->
  (forall st' f', Inv st' f' cs' -> Q tt st') -> wp (add_file ROOTINO h) st Q.
Proof.
  intros I (G1 & G2 & G3) Hn Hd Hfit HQ. unfold add_file. rewrite bool_decide_eq_false_2 by done. apply wp_bind, wp_ret. destruct (hread h) as [reads|] eqn:Eh; [|done]. assert (Ec : contents h = concat reads) by (unfold contents; by rewrite Eh).
  assert (L16 : length (mk_dirent n (skip_underscore (hname h))) = 16%nat) by apply length_dirent.
  apply wp_bind. eapply wp_ialloc; [exact I|unfold T_FILE; lia|unfold cs; cbn [length]; lia|]. intros st1 f1 I1. replace (1 + Z.of_nat (length cs)) with n by (unfold n, cs; cbn [length]; lia). rewrite xshort_id by (unfold n; lia).
  assert (Hfit' : forall c, (length c <= length (contents h))%nat -> total ((T_DIR, dc ++ mk_dirent n (skip_underscore (hname h))) :: fs ++ [(T_FILE, c)]) <= 941).
  { intros c Hc. unfold cs' in Hfit. change (?x :: fs ++ ?y) with ((x :: fs) ++ y) in *. rewrite total_blocks_app in *. pose proof (nb_mono (Z.of_nat (length c)) (Z.of_nat (length (contents h))) ltac:(lia)). change (total [(T_FILE, ?x)]) with (nb (Z.of_nat (length x)) + 0) in *. lia. }
  apply wp_bind. change ROOTINO with (1 + Z.of_nat 0). eapply (wp_iappend _ _ _ 0 T_DIR dc); [exact I1|done|rewrite length_app, L16; lia|apply (Hfit' []); cbn; lia|]. intros st2 f2 I2. cbn [insert list_insert app cs] in I2.
  replace n with (1 + Z.of_nat (S (length fs))) by (unfold n; lia). eapply (wp_append_all reads _ _ _ _ T_FILE []); [exact I2| |by rewrite Ec in G3| |].
  - by apply (list_lookup_middle fs [] (T_FILE, [])).
  - rewrite insert_last. apply Hfit'. by rewrite Ec.
  - intros st3 f3 I3. apply (HQ st3 f3). unfold cs'. rewrite insert_last in I3. by rewrite Ec.
Qed.
End Image.
