(* ===== verification/MkfsThm.v ===== *)
(** The image that mkfs.c makes, and what the kernel finds on it. *)

From Stdlib Require Import ZArith Lia.
From stdpp Require Import base gmap strings numbers list.
From S2P Require Import Prelude Kstring Bio Log Fs FsBlock FsLog FsBitmap FsMap FsFile FsTrunc FsCache FsDir Mkfs MkfsSpec MkfsInv.

Open Scope Z_scope.
Open Scope kern_scope.

Section Made.
Context {B : Type} `{BlockLaws B} (HN : 1000 <= nblk < 2 ^ 31) (HF : lfirst <= 32).

Abbreviation g := mk_sb.
Abbreviation G := (mk_geom HN HF).
Implicit Types f : Z -> list Z.

(** The types and contents of the inodes, from inode 1 on. *)
Definition dots : list Z := mk_dirent 1 [46] ++ mk_dirent 1 [46; 46].
Definition root_dir (files : list hfile) : list Z := dots ++ entries 2 files.
Definition image_files (files : list hfile) : list (Z * list Z) := (T_DIR, root_dir files) :: file_contents files.

Lemma total_prefix dc e r fs x xs : total ((T_DIR, dc ++ e) :: fs ++ [x]) <= total ((T_DIR, dc ++ e ++ r) :: fs ++ x :: xs).
Proof.
  change (fs ++ x :: xs) with (fs ++ [x] ++ xs). rewrite (app_assoc fs). unfold total. cbn [foldr snd]. fold (total (fs ++ [x])) (total ((fs ++ [x]) ++ xs)). rewrite (total_blocks_app (fs ++ [x])). pose proof (total_blocks_nonneg xs).
  pose proof (nb_mono (Z.of_nat (length (dc ++ e))) (Z.of_nat (length (dc ++ e ++ r)))) as Hm. rewrite !length_app in *. lia.
Qed.

Lemma wp_add_files files : forall st f dc fs (Q : unit -> mkst -> Prop) (cs' := (T_DIR, dc ++ entries (2 + Z.of_nat (length fs)) files) :: fs ++ file_contents files),
  Inv st f ((T_DIR, dc) :: fs) -> Forall good_file files -> Z.of_nat (length fs + length files) <= 198 -> Z.of_nat (length dc + 16 * length files) <= 71680 -> total cs' <= 941 ->
  (forall st' f', Inv st' f' cs' -> Q tt st') -> wp (add_files ROOTINO files) st Q.
Proof.
  induction files as [|h r IH]; intros st f dc fs Q cs' I HG Hn Hd Hfit HQ; cbn [add_files].
  - apply wp_ret. apply (HQ st f). unfold cs'. cbn [entries file_contents map]. by rewrite !app_nil_r.
  - apply Forall_cons_1 in HG as [Hh HG]. cbn [length] in *. unfold cs' in *. cbn [entries file_contents map] in *. apply wp_bind. eapply (wp_add_file HN HF); [exact I|done|lia|lia| |].
    + etransitivity; [|exact Hfit]. apply total_prefix.
    + set (e := mk_dirent _ _) in *. intros st1 f1 I1. eapply (IH st1 f1); [exact I1|done|rewrite length_app; cbn [length]; lia|rewrite length_app; unfold e; rewrite length_dirent; lia| |]; rewrite length_app; cbn [length];
        replace (2 + Z.of_nat (length fs + 1)) with (2 + Z.of_nat (length fs) + 1) by lia; rewrite <- !app_assoc; cbn [app]; [exact Hfit|exact HQ].
Qed.

(** ** The empty image *)

Lemma wsect_end st l d k : img st = l -> sector k = Z.of_nat (length l) -> wsect k d st = Ok tt (mk_mkst (l ++ [d]) (freeinode st) (freeblock st)).
Proof. intros E1 E2. unfold wsect, modify. rewrite E1, E2, Z.ltb_irrefl. by rewrite Nat2Z.id, Nat.sub_diag. Qed.

Definition empty_image : mkst := mk_mkst (repeat zeroes 1000) 1 59.

Lemma wp_clear (Q : unit -> mkst -> Prop) : Q tt empty_image -> wp (for_up 0 FSSIZE (fun i => wsect i zeroes)) (mk_mkst [] 1 59) Q.
Proof.
  intros HQ. eapply (wp_for_up (fun i s => s = mk_mkst (repeat zeroes (Z.to_nat i)) 1 59)); [done| |].
  - unfold FSSIZE. intros i s Hi ->. unfold wp. rewrite (wsect_end _ (repeat zeroes (Z.to_nat i))); [|done|rewrite sector_id, repeat_length by lia; lia]. cbn [freeinode freeblock].
    by rewrite Z2Nat.inj_add, repeat_app by lia.
  - intros s ->. exact HQ.
Qed.

Lemma aget_zeroes n b : aget zeroes (repeat zeroes n) b = zeroes.
Proof. unfold aget. destruct (b <? 0); [done|apply nth_repeat]. Qed.

Lemma disk_zeroes f n : f (IBLOCK n g) = zeroes -> dtype (disk_inode g f n) = 0.
Proof. intros E. unfold disk_inode, get_dinode, zeroes in *. cbn [dtype]. rewrite E. unfold le16. by rewrite !aget_zeros. Qed.

Lemma empty_rep : Rep empty_image (vput 58 (bitmap 59) (fun _ => zeroes)).
Proof.
  constructor; cbn [img freeblock empty_image]; [by rewrite repeat_length| | |done| |lia].
  - intros b Hb. unfold vput. destruct (b =? 58); [apply length_bitmap|done].
  - intros b Hb Hn. rewrite aget_zeroes. unfold vput. by replace (b =? 58) with false by lia.
  - intros b Hb. unfold vput. by replace (b =? 58) with false by lia.
Qed.

(** After the superblock has been written. *)
Lemma wp_superblock (Q : unit -> mkst -> Prop) : (forall st f, Inv st f [] -> Q tt st) ->
  wp (wsect 1 (put_words zeroes 0 [sb_size g; sb_nblocks g; sb_ninodes g; sb_nlog g; sb_logstart g; sb_inodestart g; sb_bmapstart g])) empty_image Q.
Proof.
  intros HQ. eapply wp_wsect; [exact empty_rep|cbn; lia|lia|apply length_put_words|]. change (put_words zeroes 0 _) with sb_block. intros st R I B1. eapply (HQ st). constructor; [exact R|rewrite I; done|cbn; lia|done|cbn; lia|done| |].
  - intros b Hb. unfold vput. destruct (b =? 1); [done|]. by replace (b =? 58) with false by lia.
  - intros n Hn. apply disk_zeroes. cbn in Hn. pose proof (mk_iblock HN HF n ltac:(lia)). unfold vput. replace (_ =? 1) with false by lia. by replace (_ =? 58) with false by lia.
Qed.

(** ** The end of main() *)

Definition rounded (size : Z) : Z := (size / 512 + 1) * 512.

(** The sectors of the finished image. *)
Definition image (st : mkst) : Z -> list Z := aget zeroes (img st).

(** The image of the files: a file system with exactly their blocks in use,
    the directory entries in the root, and each file's bytes in its inode. *)
Record made (files : list hfile) (st : mkst) (cs := image_files files) (root := addrs (image st) 1) : Prop := {
  m_len : Z.of_nat (length (img st)) = 1000;
  m_512 : forall b, 0 <= b < 1000 -> length (image st b) = 512%nat;
  m_low : forall b, 0 <= b < 32 -> image st b = if b =? 1 then sb_block else zeroes;
  m_bits : forall b, 0 <= b < 1000 -> bit g (image st) b = (b <? 59 + total cs);
  m_root : disk_inode g (image st) 1 = mk_dinode T_DIR 0 0 1 (rounded (Z.of_nat (length (root_dir files)))) root;
  m_rlay : layout g (image st) root;
  m_rused : compact (image st) root (Z.of_nat (length (root_dir files)));
  m_rbyte : forall o, 0 <= o < 71680 -> fbyte (image st) root o = aget 0 (root_dir files) o;
  m_files : forall k h, files !! k = Some h -> file_at (image st) (2 + Z.of_nat k) T_FILE (contents h);
  m_apart : forall j k, (j < length cs)%nat -> (k < length cs)%nat -> j <> k -> apart (image st) (addrs (image st) (1 + Z.of_nat j)) (addrs (image st) (1 + Z.of_nat k));
  m_unused : forall n, Z.of_nat (length cs) < n < 200 -> dtype (disk_inode g (image st) n) = 0;
}.

Section Finish.
Context (files : list hfile) (st : mkst) f (I : Inv st f (image_files files)) (Hsz : rounded (Z.of_nat (length (root_dir files))) <= 71680).
Let x : dinode := mk_dinode T_DIR 0 0 1 (rounded (Z.of_nat (length (root_dir files)))) (addrs f 1).
Context (st1 st2 : mkst) (R1 : Rep st1 (put_inode g 1 x f)) (E2 : img st2 = aset (img st1) 58 (bitmap (freeblock st1))).

Lemma fin_root : file_at f 1 T_DIR (root_dir files).
Proof. by apply (i_files _ _ _ I 0%nat). Qed.

Lemma fin_x : dinode_ok x.
Proof.
  pose proof fin_root as [F1 F2 F3 F4 F5 F6]. unfold dinode_ok, x. cbn [dtype dmajor dminor dnlink dsize daddrs]. unfold word_ok, short_ok, rounded in *. split_and!; try (done || lia || zdm || apply F3). eapply layout_words; [apply G|apply F3].
Qed.

Lemma fin_image b : 0 <= b < 1000 -> image st2 b = put_inode g 1 x f b.
Proof.
  intros Hb. unfold image. rewrite E2. destruct (decide (b = 58)) as [->|Hne].
  - rewrite aget_aset_eq by (rewrite (r_len _ _ R1); lia). by rewrite (r_map _ _ R1).
  - rewrite aget_aset_ne by lia. by apply (r_img _ _ R1).
Qed.

Lemma fin_above b : 58 <= b < 1000 -> image st2 b = f b.
Proof. intros Hb. rewrite fin_image by lia. unfold put_inode, vput. pose proof (mk_iblock HN HF 1 ltac:(lia)). by replace (b =? IBLOCK 1 g) with false by lia. Qed.

Lemma fin_inode n : 0 <= n < 200 -> disk_inode g (image st2) n = if n =? 1 then x else disk_inode g f n.
Proof.
  intros Hn. pose proof (mk_iblock HN HF n Hn). pose proof (mk_iblock HN HF 1 ltac:(lia)). rewrite <- (disk_put_inode g G 1 n x f); [|change (sb_ninodes g) with 200; lia|done|apply (r_512 _ _ (i_rep _ _ _ I)); lia|apply fin_x].
  unfold disk_inode. by rewrite fin_image by lia.
Qed.

Lemma fin_addrs n : 0 <= n < 200 -> addrs (image st2) n = addrs f n.
Proof. intros Hn. unfold addrs. rewrite fin_inode by done. by destruct (Z.eqb_spec n 1) as [->|]. Qed.

Lemma fin_made : made files st2.
Proof.
  pose proof I as [J1 J2 J3 J4 J5 J6 J7 J8]. pose proof fin_root as [F1 F2 F3 F4 F5 F6]. set (cs := image_files files) in *.
  assert (HA : forall k, (k < length cs)%nat -> layout g f (addrs f (1 + Z.of_nat k))) by (intros k Hk; destruct (lookup_lt_is_Some_2 _ _ Hk) as [[ty c] E]; by apply (J4 _ _ _ E)).
  constructor; fold cs; rewrite ?(fin_addrs 1) by lia.
  - rewrite E2, length_aset. apply R1.
  - intros b Hb. rewrite fin_image by done. by apply R1.
  - intros b Hb. rewrite fin_image by lia. unfold put_inode, vput. pose proof (mk_iblock HN HF 1 ltac:(lia)). replace (b =? IBLOCK 1 g) with false by lia. by apply J7.
  - intros b Hb. rewrite (agree_bit g G f _ fin_above) by done. rewrite (rep_bit HN HF st) by done. by rewrite J6.
  - by rewrite fin_inode by lia.
  - by apply (agree_layout g G f _ fin_above).
  - intros k Hk. rewrite (agree_slot g G f _ fin_above) by done. by apply F4.
  - intros o Ho. rewrite (agree_fbyte g G f _ fin_above) by done. by apply F5.
  - intros k h Hk. apply (file_at_ext HN HF f); [exact fin_above| |].
    + apply lookup_lt_Some in Hk. unfold cs, image_files, file_contents in J3. cbn [length] in J3. rewrite length_map in J3. rewrite fin_inode by lia. by replace (2 + Z.of_nat k =? 1) with false by lia.
    + replace (2 + Z.of_nat k) with (1 + Z.of_nat (S k)) by lia. apply J4. change (((fun h => (T_FILE, contents h)) <$> files) !! k = Some (T_FILE, contents h)). by rewrite list_lookup_fmap, Hk.
  - intros j k Hj Hk Hne. rewrite !fin_addrs by lia. apply (apart_ext HN HF f); [exact fin_above|by apply HA|by apply HA|by apply J5].
  - intros n Hn. rewrite fin_inode by lia. assert ((1 <= length cs)%nat) by (unfold cs, image_files; cbn; lia). replace (n =? 1) with false by lia. by apply J8.
Qed.
End Finish.

Lemma wp_mkfs_finish files st f (Q : unit -> mkst -> Prop) : Inv st f (image_files files) -> rounded (Z.of_nat (length (root_dir files))) <= 71680 ->
  (forall st', made files st' -> Q tt st') ->
  wp (fix_root_size ROOTINO ;;; let! used := gets freeblock in Mkfs.balloc (i32 used)) st Q.
Proof.
  intros I Hsz HQ. pose proof (i_rep _ _ _ I) as R. pose proof (r_fb _ _ R) as Hfb. pose proof (fin_root files st f I) as [F1 F2 F3 F4 F5 F6]. unfold fix_root_size. apply wp_bind, wp_bind. change ROOTINO with 1. eapply (wp_rinode HN HF); [exact R|lia|]. rewrite F1. cbn [dsize].
  set (size := Z.of_nat (length (root_dir files))) in *. change BSIZE with 512. assert (Er : xint (u32 ((xint size / 512 + 1) * 512)) = rounded size) by (rewrite (xint_id size), u32_small, xint_id by (unfold rounded in *; zdm); done). rewrite Er.
  eapply (wp_winode HN HF); [exact R|lia|]. intros st1 R1 I1 B1. apply wp_bind, wp_gets. rewrite i32_small by lia. unfold Mkfs.balloc. replace (freeblock st1 <? BSIZE * 8) with true by (unfold BSIZE; lia). apply wp_bind, wp_ret, wp_modify. apply HQ. change (sb_bmapstart g) with 58.
  eapply (fin_made files st f I Hsz st1); [exact R1|]. cbn [img]. rewrite sector_id, (r_len _ _ R1) by lia. done.
Qed.

Lemma length_root_dir files : length (root_dir files) = (32 + 16 * length files)%nat.
Proof. unfold root_dir, dots. by rewrite !length_app, !length_dirent, length_entries. Qed.

Lemma wp_main files (Q : unit -> mkst -> Prop) : Forall good_file files -> (length files <= 198)%nat -> total (image_files files) <= 941 ->
  (forall st, made files st -> Q tt st) -> wp (main (Some true) files) mkfs_start Q.
Proof.
  intros HG Hn Hfit HQ. pose proof (length_root_dir files) as Lr. unfold main. apply wp_bind, wp_modify. change (mk_mkst [] (freeinode mkfs_start) nmeta) with (mk_mkst [] 1 59). apply wp_bind, wp_clear, wp_bind, wp_superblock. intros st0 f0 I0.
  apply wp_bind. eapply (wp_ialloc HN HF); [exact I0|unfold T_DIR; lia|cbn; lia|]. intros st1 f1 I1. cbn [length Z.of_nat app] in *. change (1 + 0) with ROOTINO. rewrite Z.eqb_refl. apply wp_bind, wp_ret. change (xshort ROOTINO) with 1.
  assert (Hroot : forall c, (length c <= length (root_dir files))%nat -> total [(T_DIR, c)] <= 941 /\ Z.of_nat (length c) <= 71680).
  { intros c Hc. pose proof (nb_mono (Z.of_nat (length c)) (Z.of_nat (length (root_dir files))) ltac:(lia)). unfold image_files, total in *. cbn [foldr snd] in *. pose proof (total_blocks_nonneg (file_contents files)) as Ht. unfold total in Ht. lia. }
  assert (Hd : (length dots <= length (root_dir files))%nat) by (unfold dots; rewrite !length_app, !length_dirent; lia).
  pose proof (Hroot (mk_dirent 1 [46]) ltac:(rewrite length_dirent; lia)) as H1. pose proof (Hroot dots Hd) as H2.
  apply wp_bind. change ROOTINO with (1 + Z.of_nat 0). eapply (wp_iappend HN HF _ _ _ 0 T_DIR []); [exact I1|done|apply H1|apply H1|]. intros st2 f2 I2.
  apply wp_bind. eapply (wp_iappend HN HF _ _ _ 0 T_DIR); [exact I2|done|apply H2|apply H2|]. intros st3 f3 I3.
  apply wp_bind. change (1 + Z.of_nat 0) with ROOTINO. eapply (wp_add_files files st3 f3 dots []); [exact I3|done|cbn [length]; lia|unfold dots; rewrite !length_app, !length_dirent; lia|exact Hfit|].
  intros st4 f4 I4. eapply wp_mkfs_finish; [exact I4|rewrite Lr; unfold rounded; zdm|exact HQ].
Qed.
End Made.

(** C6: Mkfs makes the file system it is given.  If the files can be read, are
    no larger than a file can be, and fit (at most 198 files, and with the
    root directory at most 941 blocks, indirect blocks counted), main()
    succeeds, and on the image: the superblock says where the parts are; the
    log is empty; the free map has exactly the blocks in use; every inode
    behind the last file is free; inode 2 + k is a file with one link and the
    bytes of the k-th file, its blocks allocated as far as its size and no
    further; the root directory has the entries of all of them, with inode 1
    for "." and ".."; and no block belongs to two inodes or twice to one. *)
Theorem mkfs_makes_image files : Forall good_file files -> (length files <= 198)%nat -> total (image_files files) <= 941 ->
  exists st, main (Some true) files mkfs_start = Ok tt st /\ made files st.
Proof.
  intros HG Hn Hfit. apply wp_run_unit. eapply (@wp_main log (log_blocks 1) (log_laws 1 2 30 1 (mkDisk ∅ 1000 []) ltac:(lia))); [cbn; lia|cbn; lia|done|done|done|]. auto.
Qed.

(** Two small files. *)
Lemma mkfs_makes_image_witness : exists st, main (Some true) [mk_hfile [95; 108; 115] (Some [[1; 2; 3]; [4]]); mk_hfile [82] (Some [])] mkfs_start = Ok tt st /\
  file_at (image st) 2 T_FILE [1; 2; 3; 4] /\ file_at (image st) 3 T_FILE [].
Proof.
  destruct (mkfs_makes_image [mk_hfile [95; 108; 115] (Some [[1; 2; 3]; [4]]); mk_hfile [82] (Some [])]) as (st & E & M).
  - repeat constructor; cbn; (done || lia || (apply (bool_decide_eq_true_1 _); reflexivity)).
  - cbn. lia.
  - vm_compute. done.
  - exists st. split; [exact E|]. split; [exact (m_files _ _ M 0%nat _ eq_refl)|exact (m_files _ _ M 1%nat _ eq_refl)].
Defined.
