(* ===== verification/MkfsRead.v ===== *)
(** The kernel on an image of mkfs: it finds the files by their names and
    reads their bytes. *)

From Stdlib Require Import ZArith Lia.
From stdpp Require Import base gmap strings numbers list.
From S2P Require Import Prelude Kstring Bio BioSpec Log LogCopy LogSpec LogTx Fs FsBlock FsLog FsBitmap FsMap FsFile FsTrunc FsCache FsDir FsPath FsThm Mkfs MkfsSpec MkfsInv MkfsThm.

Open Scope Z_scope.
Open Scope kern_scope.

(** ** Names *)

Definition plain_char (c : Z) : Prop := 0 < c < 256 /\ c <> 47.

Lemma strncmp_take n : forall p q, Forall plain_char p -> Forall plain_char q -> strncmp p q n = 0 -> take n p = take n q.
Proof.
  induction n as [|n IH]; intros p q Hp Hq; [done|]. cbn [strncmp]. destruct Hp as [|a p [Ha _] Hp], Hq as [|b q [Hb _] Hq]; cbn [hd tl take].
  - done.
  - cbn [Z.eqb negb andb]. unfold u8. intros E. exfalso. change (0 mod 2 ^ 8) with 0 in E. rewrite Z.mod_small in E by lia. lia.
  - replace (a =? 0) with false by lia. replace (a =? 0) with false by lia. cbn [negb andb]. unfold u8. intros E. exfalso. change (0 mod 2 ^ 8) with 0 in E. rewrite Z.mod_small in E by lia. lia.
  - replace (a =? 0) with false by lia. cbn [negb andb]. destruct (Z.eqb_spec a b) as [->|Hne].
    + intros E. f_equal. by apply IH.
    + unfold u8. rewrite !Z.mod_small by lia. lia.
Qed.

Lemma split_plain p : Forall plain_char p -> split_path p = [p].
Proof. induction 1 as [|c p [_ Hc] Hp IH]; [done|]. cbn [split_path]. rewrite IH. by replace (c =? SLASH) with false by (unfold SLASH; lia). Qed.

Lemma elems_plain p : Forall plain_char p -> p <> [] -> elems (47 :: p) = [p].
Proof. intros Hp Hn. unfold elems. cbn [split_path]. rewrite split_plain by done. cbn [Z.eqb SLASH Pos.eqb]. rewrite !filter_cons. rewrite decide_False by auto. by rewrite decide_True by done. Qed.

(** ** The root directory *)

Definition stored_name (h : hfile) : list Z := skip_underscore (hname h).

Lemma aget_entries files : forall n j h o, files !! j = Some h -> 0 <= o < 16 -> aget 0 (entries n files) (16 * Z.of_nat j + o) = aget 0 (mk_dirent (n + Z.of_nat j) (stored_name h)) o.
Proof.
  induction files as [|h' r IH]; intros n [|j] h o E Ho; cbn in E; try discriminate E; cbn [entries]; rewrite aget_app, length_dirent by lia.
  - injection E as ->. rewrite (proj2 (Z.ltb_lt _ _)) by lia. replace (16 * Z.of_nat 0 + o) with o by lia. by replace (n + Z.of_nat 0) with n by lia.
  - rewrite (proj2 (Z.ltb_ge _ _)) by lia. replace (16 * Z.of_nat (S j) + o - Z.of_nat 16) with (16 * Z.of_nat j + o) by lia. rewrite (IH (n + 1) j h o E Ho). by replace (n + 1 + Z.of_nat j) with (n + Z.of_nat (S j)) by lia.
Qed.

(** Entry k of the directory. *)
Definition root_entry_at (files : list hfile) (k : Z) : option (Z * list Z) :=
  if k =? 0 then Some (1, [46]) else if k =? 1 then Some (1, [46; 46]) else (fun h => (k, stored_name h)) <$> files !! Z.to_nat (k - 2).

Lemma aget_root files k n nm o : 0 <= k -> root_entry_at files k = Some (n, nm) -> 0 <= o < 16 -> aget 0 (root_dir files) (16 * k + o) = aget 0 (mk_dirent n nm) o.
Proof.
  intros Hk E Ho. unfold root_entry_at in E. unfold root_dir, dots. rewrite <- app_assoc, aget_app, length_dirent by lia. destruct (Z.eqb_spec k 0) as [->|H0].
  { injection E as <- <-. by rewrite (proj2 (Z.ltb_lt _ _)) by lia. }
  rewrite (proj2 (Z.ltb_ge _ _)) by lia. rewrite aget_app, length_dirent by lia. destruct (Z.eqb_spec k 1) as [->|H1].
  { injection E as <- <-. rewrite (proj2 (Z.ltb_lt _ _)) by lia. f_equal. lia. }
  rewrite (proj2 (Z.ltb_ge _ _)) by lia. destruct (files !! Z.to_nat (k - 2)) as [h|] eqn:Eh; [|done]. injection E as <- <-.
  replace (16 * k + o - Z.of_nat 16 - Z.of_nat 16) with (16 * Z.of_nat (Z.to_nat (k - 2)) + o) by lia. rewrite (aget_entries files 2 _ h o Eh Ho). by replace (2 + Z.of_nat (Z.to_nat (k - 2))) with k by lia.
Qed.

Section Dir.
Context (files : list hfile) (f : Z -> list Z) (i : inode) (Hn : (length files <= 198)%nat).
Context (Hb : forall o, 0 <= o < 71680 -> fbyte f (iaddrs i) o = aget 0 (root_dir files) o) (Hs : isize i = rounded (Z.of_nat (length (root_dir files)))).

Lemma root_dent k n nm : 0 <= k -> k * 16 + 16 <= 71680 -> root_entry_at files k = Some (n, nm) -> dent f i k = mk_dirent n nm.
Proof.
  intros Hk Hm E. unfold dent. apply bytes_ext; [by rewrite fbytes_length, length_dirent|]. rewrite fbytes_length. intros o Ho. rewrite aget_fbytes by lia. rewrite Hb by lia. rewrite (Z.mul_comm k). eapply aget_root; [done|done|lia].
Qed.

Abbreviation names := ([46] :: [46; 46] :: map (fun h => take 14 (stored_name h)) files).

Lemma root_names j : 0 <= j < 2 + Z.of_nat (length files) -> Forall (fun h => Forall plain_char (stored_name h)) files ->
  exists n nm, root_entry_at files j = Some (n, nm) /\ 0 < n < 65536 /\ Forall plain_char nm /\ names !! Z.to_nat j = Some (take 14 nm).
Proof.
  intros Hj HP. unfold root_entry_at. destruct (Z.eqb_spec j 0) as [->|H0]; [|destruct (Z.eqb_spec j 1) as [->|H1]].
  - exists 1, [46]. split_and!; [done|lia|lia|by apply Forall_singleton|done].
  - exists 1, [46; 46]. split_and!; [done|lia|lia|by repeat constructor|done].
  - destruct (lookup_lt_is_Some_2 files (Z.to_nat (j - 2))) as [h Hh]; [lia|]. exists j, (stored_name h). rewrite Hh. split_and!; [done|lia|lia|exact (Forall_lookup_1 _ _ _ _ HP Hh)|].
    replace (Z.to_nat j) with (S (S (Z.to_nat (j - 2)))) by lia. change (((fun h => take 14 (stored_name h)) <$> files) !! Z.to_nat (j - 2) = Some (take 14 (stored_name h))). by rewrite list_lookup_fmap, Hh.
Qed.

(** The name of the k-th file is found at its entry. *)
Lemma root_find k h : files !! k = Some h -> Forall (fun h => Forall plain_char (stored_name h)) files -> NoDup names ->
  dir_find f i (take 14 (stored_name h)) = Some (2 + Z.of_nat k) /\ de_inum (dent f i (2 + Z.of_nat k)) = 2 + Z.of_nat k.
Proof.
  intros Hk HP HD. pose proof (lookup_lt_Some _ _ _ Hk) as Hlt. pose proof (length_root_dir files) as Lr. assert (Hsz : 2 + Z.of_nat (length files) <= isize i / 16) by (rewrite Hs, Lr; unfold rounded; zdm).
  destruct (root_names (2 + Z.of_nat k) ltac:(lia) HP) as (n & nm & Ek & Hn' & Hc & Enm). assert (n = 2 + Z.of_nat k /\ nm = stored_name h) as [-> ->].
  { unfold root_entry_at in Ek. replace (2 + Z.of_nat k =? 0) with false in Ek by lia. replace (2 + Z.of_nat k =? 1) with false in Ek by lia. replace (Z.to_nat (2 + Z.of_nat k - 2)) with k in Ek by lia. rewrite Hk in Ek. by injection Ek as <- <-. }
  pose proof (root_dent (2 + Z.of_nat k) _ _ ltac:(lia) ltac:(lia) Ek) as Ed. split; [|rewrite Ed; apply dirent_inum; lia]. set (nm := take 14 (stored_name h)) in *. assert (Hnm : Forall plain_char nm) by (by apply Forall_take).
  assert (Hself : namecmp nm (stored_name h) = 0).
  { unfold namecmp. change (Z.to_nat DIRSIZ) with 14%nat. rewrite <- (cstr_id nm) by (eapply Forall_impl; [exact Hnm|]; intros c [? _]; lia). unfold nm. by rewrite strncmp_cstr, strncmp_refl. }
  apply dir_find_some. split; [lia|]. split.
  - unfold dmatch, same_name. rewrite Ed, dirent_inum, dirent_name, Hself by lia. by replace (2 + Z.of_nat k =? 0) with false by lia.
  - intros j Hj. destruct (root_names j ltac:(lia) HP) as (n' & nm' & E' & Hj' & Hc' & Enm'). unfold dmatch, same_name. rewrite (root_dent j n' nm') by (done || lia). rewrite dirent_inum, dirent_name by lia. replace (n' =? 0) with false by lia. cbn [negb andb]. apply Z.eqb_neq. intros E.
    apply strncmp_take in E; [|done|done]. change (Z.to_nat DIRSIZ) with 14%nat in E. unfold nm in E. rewrite take_take in E. change (14 `min` 14)%nat with 14%nat in E. fold nm in E. rewrite <- E in Enm'. pose proof (NoDup_lookup _ _ _ _ HD Enm Enm'). lia.
Qed.
End Dir.

(** ** Loading and releasing inodes *)

Section Ops.
Context {B : Type} `{BlockLaws B} (sb0 : superblock) (G : geom_ok sb0) (pid : Z).
Implicit Types s : fs (B := B).

(** The entry after ilock() has read the inode. *)
Definition loaded (i : inode) (x : dinode) : inode :=
  mk_inode (idev i) (inum i) (iref i) (mkSleep true pid) true (dtype x) (dmajor x) (dminor x) (dnlink x) (dsize x) (daddrs x).

Lemma wp_ilock_load ip ic v s (i := ent ic ip) (x := disk_inode sb0 (vb v) (inum i)) (Q : unit -> fs -> Prop) : At ic sb0 v s -> cache_ok ic -> 0 <= ip < 50 -> 0 < iref i -> locked (ilk i) = false -> valid i = false ->
  idev i = 1 -> 0 <= inum i < sb_ninodes sb0 -> vh v = [] -> room 1 v -> dtype x <> 0 -> (forall s', At (aset ic ip (loaded i x)) sb0 v s' -> Q tt s') -> wp (ilock pid ip) s Q.
Proof.
  intros A C Hip Hr Hlk Hv Hd Hn Hh [R1 R2] Hx HQ. pose proof (ca_len _ C) as Hl. unfold ilock. apply wp_bind. eapply wp_figet; [exact A|]. fold i. replace ((ip <? 0) || (iref i <? 1)) with false by lia.
  unfold lock_inode, acquiresleep. apply wp_bind, wp_bind. eapply wp_figet; [exact A|]. fold i. rewrite Hlk. eapply wp_fiset; [exact A|]. fold i. set (i1 := set_ilk (mkSleep true pid) i). intros s1 A1.
  assert (E1 : ent (aset ic ip i1) ip = i1) by (apply aget_aset_eq; lia). apply wp_bind. eapply wp_figet; [exact A1|]. rewrite E1. change (valid i1) with (valid i). rewrite Hv. cbn [negb when].
  apply wp_bind. eapply wp_fsb; [exact A1|]. apply wp_bind. eapply wp_figet; [exact A1|]. rewrite E1. unfold id. change (idev i1) with (idev i). change (inum i1) with (inum i). rewrite Hd.
  apply wp_bind. eapply wp_fbread; [exact A1|by apply iblock_disk|rewrite Hh; by intros ? ?%not_elem_of_nil|lia|]. intros b s2 A2. apply wp_bind. eapply wp_fdata; [exact A2|reflexivity|]. cbn [vb]. change (get_dinode _ _) with x.
  apply wp_bind. eapply wp_fiset; [exact A2|]. rewrite E1, aset_aset. intros s3 A3. apply wp_bind. eapply wp_fbrelse; [exact A3|reflexivity|]. cbn [vb vl]. replace (mk_view (vb v) (vh v) (vl v)) with v by (by destruct v). intros s4 A4.
  apply wp_bind. eapply wp_fiset; [exact A4|]. rewrite aset_aset, aget_aset_eq by lia. intros s5 A5. replace (dtype x =? 0) with false by lia. apply wp_ret. apply HQ. exact A5.
Qed.

Lemma wp_iunlockput_keep ip ic v s (i := ent ic ip) (Q : unit -> fs -> Prop) : At ic sb0 v s -> cache_ok ic -> 0 <= ip < 50 -> 0 < iref i -> ilk i = mkSleep true pid -> inlink i <> 0 ->
  (forall s', At (aset ic ip (put_entry i)) sb0 v s' -> Q tt s') -> wp (iunlockput pid ip) s Q.
Proof.
  intros A C Hip Hr Hlk Hn HQ. pose proof (ca_len _ C) as Hl. unfold iunlockput, iunlock. apply wp_bind, wp_bind. eapply wp_figet; [exact A|]. fold i. unfold id. rewrite Hlk. unfold holdingsleep. cbn [locked lk_pid]. rewrite Z.eqb_refl. cbn [andb negb orb].
  replace ((ip <? 0) || false || (iref i <? 1)) with false by lia. eapply wp_fiset; [exact A|]. fold i. rewrite Hlk. set (i1 := set_ilk _ i). intros s1 A1. assert (E1 : ent (aset ic ip i1) ip = i1) by (apply aget_aset_eq; lia).
  destruct (refs_count ic ip i1 C Hip Hr eq_refl ltac:(cbn; lia)) as [C1 _]. eapply (wp_iput_keep sb0 pid ip _ i1 v s1 C1 E1 A1 Hip); [done|by right; left|]. rewrite aset_aset. intros s2 A2. apply HQ. exact A2.
Qed.
End Ops.

(** ** Opening and reading a file *)

Section Read.
Context {B : Type} `{BlockLaws B} (HN : 1000 <= nblk < 2 ^ 31) (HF : lfirst <= 32).
Context (pid : Z) (devread : Z -> option (Z -> Z -> M (fs (B := B)) (Z * list Z))).
Abbreviation g := mk_sb.
Abbreviation G := (mk_geom HN HF).
Implicit Types s : fs (B := B).

(** namei(path), ilock() and readi() of n bytes from the start. *)
Definition read_file (cwd : Z) (path : list Z) (n : Z) : M (fs (B := B)) (Z * list Z) :=
  let! ip := namei pid devread cwd path in
  ilock pid ip ;;;
  readi devread ip 0 n.

(** No inode is in the cache. *)
Record cold (ic : list inode) : Prop := {
  cold_ok : cache_ok ic;
  cold_ref : forall p, 0 <= p < 50 -> iref (ent ic p) = 0;
  cold_lock : forall p, 0 <= p < 50 -> ilk (ent ic p) = initsleeplock;
}.

Context (files : list hfile) (st : mkst) (HM : made files st) (Hlen : (length files <= 198)%nat).
Context (v : bview) (HV : forall b, 32 <= b < 1000 -> vb v b = image st b) (Hh : vh v = []) (HR : room 1 v).

Lemma v_above b : 58 <= b < 1000 -> vb v b = image st b.
Proof. intros Hb. apply HV. lia. Qed.

Lemma v_inode n : 0 <= n < 200 -> disk_inode g (vb v) n = disk_inode g (image st) n.
Proof. intros Hn. unfold disk_inode. pose proof (mk_iblock HN HF n Hn). by rewrite HV by lia. Qed.

Lemma v_meta : meta_used g (vb v).
Proof. intros b Hb. rewrite mk_datastart in Hb. rewrite (agree_bit g G _ _ v_above) by (change (sb_size g) with 1000; lia). rewrite (m_bits _ _ HM) by lia. pose proof (total_blocks_nonneg (image_files files)). lia. Qed.

(** The root directory, loaded. *)
Definition root_inode (i : inode) : inode := loaded pid i (disk_inode g (vb v) 1).

Lemma root_fields i : ikey i = (1, 1) -> iaddrs (root_inode i) = addrs (image st) 1 /\ isize (root_inode i) = rounded (Z.of_nat (length (root_dir files))) /\ itype (root_inode i) = T_DIR /\ inlink (root_inode i) = 1 /\ imajor (root_inode i) = 0 /\ iminor (root_inode i) = 0.
Proof. intros _. unfold root_inode. rewrite v_inode, (m_root _ _ HM) by lia. done. Qed.

Lemma root_writable ic ip i : 0 <= ip < Z.of_nat (length ic) -> ent ic ip = root_inode i -> ikey i = (1, 1) -> (Z.of_nat (length files) + 2) mod 32 <> 0 -> writable g ic ip v.
Proof.
  intros Hip Ei Hk Hm. destruct (root_fields i Hk) as (E1 & E2 & E3 & E4 & E5 & E6). injection Hk as Hd Hn. pose proof (length_root_dir files) as Lr. constructor; rewrite ?Ei, ?E3; [apply G|done|done|done|done| | |apply v_meta].
  - constructor; rewrite ?E1, ?E2.
    + apply (agree_layout g G _ _ v_above). apply HM.
    + rewrite Lr. unfold rounded. zdm.
    + intros o Ho. rewrite (agree_slot g G _ _ v_above) by apply HM. intros E. rewrite Lr in Ho. unfold rounded in Ho. assert (Hb : 0 <= o / 512 < 140) by zdm. pose proof (m_rused _ _ HM _ (proj1 (fidx_slot _ Hb))) as Hc. rewrite E, need_fidx, Lr in Hc by done. symmetry in Hc. apply Z.ltb_ge in Hc. apply Hm. set (N := Z.of_nat (32 + 16 * length files)) in *. pose proof (Z.div_mod N 512 ltac:(lia)). pose proof (Z.mod_pos_bound N 512 ltac:(lia)). pose proof (Z.div_mod o 512 ltac:(lia)). pose proof (Z.mod_pos_bound o 512 ltac:(lia)).
      replace (Z.of_nat (length files) + 2) with (N / 512 * 32) by lia. apply Z.mod_mul. lia.
  - unfold fields_ok, short_ok. rewrite E3, E4, E5, E6. change (inum (root_inode i)) with (inum i). rewrite Hn. unfold T_DIR. change (sb_ninodes g) with 200. lia.
Qed.

(** A file, loaded. *)
Lemma file_loaded k h i : files !! k = Some h -> ikey i = (1, 2 + Z.of_nat k) -> let i' := loaded pid i (disk_inode g (vb v) (2 + Z.of_nat k)) in
  file_ok g (vb v) i' /\ itype i' = T_FILE /\ inlink i' = 1 /\ isize i' = Z.of_nat (length (contents h)) /\ forall o m, 0 <= o -> 0 <= m -> o + m <= isize i' -> fbytes (vb v) (iaddrs i') o (Z.to_nat m) = slice (contents h) o m.
Proof.
  intros Hk Hkey i'. pose proof (lookup_lt_Some _ _ _ Hk) as Hl. pose proof (m_files _ _ HM k h Hk) as [F1 F2 F3 F4 F5 F6]. assert (Ei : i' = loaded pid i (mk_dinode T_FILE 0 0 1 (Z.of_nat (length (contents h))) (addrs (image st) (2 + Z.of_nat k)))) by (unfold i'; rewrite v_inode, F1 by lia; done).
  rewrite Ei. cbn [loaded iaddrs isize itype inlink dtype dnlink dsize daddrs]. split_and!; [|done|done|done|].
  - constructor; cbn [iaddrs isize loaded dsize daddrs]; [by apply (agree_layout g G _ _ v_above)|lia|]. intros o Ho. rewrite (agree_slot g G _ _ v_above) by done. intros E. assert (Hb : 0 <= o / 512 < 140) by zdm.
    pose proof (F4 _ (proj1 (fidx_slot _ Hb))) as Hc. rewrite E, need_fidx in Hc by done. symmetry in Hc. apply Z.ltb_ge in Hc. zdm.
  - intros o m Ho Hm Hom. apply bytes_ext; [rewrite fbytes_length, slice_length by lia; lia|]. rewrite fbytes_length. intros j Hj. rewrite aget_fbytes by lia. rewrite (agree_fbyte g G _ _ v_above), F5 by (done || lia). unfold slice, aget. rewrite !(proj2 (Z.ltb_ge _ _)) by lia.
    rewrite !nth_lookup, lookup_take_lt, lookup_drop by lia. do 2 f_equal. lia.
Qed.

Lemma namei_walk cwd path : no_nul path -> meq (namei pid devread cwd path) (let! ip := (if hd 0 path =? SLASH then iget ROOTDEV ROOTINO else idup cwd) in let! (ip, _) := walk pid devread ip (elems path) false [] in ret ip).
Proof.
  intros Hp. unfold namei, namex. rewrite bind_assoc. apply bind_proper; [done|]. intros ip s1. pose proof (namex_loop_walk pid devread false (length path) ip path (repeat 0 14) Hp eq_refl ltac:(lia) s1) as E. change (cstr (repeat 0 14)) with (@nil Z) in E. unfold as_cstr, bind in E |- *.
  rewrite <- E. by destruct (namex_loop _ _ _ _ _ _ _ s1) as [[ip' nm] s2| | |].
Qed.
Lemma cold_refs ic : cold ic -> refs ic = ∅.
Proof.
  intros [C1 C2 C3]. apply map_eq. intros k. rewrite lookup_empty. apply (refs_none _ C1). intros p Hp Hr. rewrite C2 in Hr by done. lia.
Qed.

(** The two entries that opening a file takes. *)
Lemma cold_get ic k p ic' : cold ic -> got_inode ic k p ic' -> exists i, 0 <= p < 50 /\ ic' = aset ic p i /\ ikey i = k /\ iref i = 1 /\ valid i = false /\ ilk i = initsleeplock /\ cache_ok ic' /\ ent ic' p = i /\ refs ic' = {[k := 1]}.
Proof.
  intros HC HG. pose proof (cold_ok _ HC) as C. destruct (got_refs _ _ _ _ C HG) as (C' & _ & R). destruct HG as [Hp HG]. rewrite (cold_refs _ HC), lookup_empty in *. destruct HG as (_ & i & E1 & E2 & E3 & E4 & ->). exists i. pose proof (ca_len _ C).
  split_and!; [lia|lia|done|done|done|done|rewrite E4; by apply HC|done|apply aget_aset_eq; lia|rewrite R; apply insert_empty].
Qed.

Lemma wp_find_root ic s (Q : Z -> fs -> Prop) : At ic g v s -> cold ic ->
  (forall p ic' i, got_inode ic (1, 1) p ic' -> 0 <= p < 50 -> ic' = aset ic p i -> ikey i = (1, 1) -> iref i = 1 -> valid i = false -> ilk i = initsleeplock -> cache_ok ic' -> ent ic' p = i -> refs ic' = {[(1, 1) := 1]} ->
     forall s', At ic' g v s' -> Q p s') -> wp (iget ROOTDEV ROOTINO) s Q.
Proof.
  intros A HC HQ. pose proof (at_ic _ _ _ _ A) as Ei. pose proof (cold_refs _ HC) as HE. apply wp_iget; rewrite ?Ei; [apply HC|rewrite HE; unfold refs_get; rewrite lookup_empty, map_size_empty; by rewrite decide_True|by rewrite HE|].
  intros p ic' HG. destruct (cold_get _ _ _ _ HC HG) as (i & H1 & H2 & H3 & H4 & H5 & H6 & H7 & H8 & H9). eapply (HQ p ic' i); try done. destruct A. by constructor.
Qed.
Context (Hdist : NoDup ([46] :: [46; 46] :: map (fun h => take 14 (stored_name h)) files)).
Context (Hplain : Forall (fun h => Forall plain_char (stored_name h)) files) (H32 : (Z.of_nat (length files) + 2) mod 32 <> 0).

(** From the root, the name of a file leads to its inode. *)
Lemma wp_walk_file k h p ic ic0 i s (Q : Z * list Z -> fs -> Prop) : files !! k = Some h -> At ic g v s -> cold ic0 -> 0 <= p < 50 -> ic = aset ic0 p i -> ikey i = (1, 1) -> iref i = 1 -> valid i = false -> ilk i = initsleeplock ->
  cache_ok ic -> refs ic = {[(1, 1) := 1]} ->
  (forall q i' ic' s' nm, At ic' g v s' -> cache_ok ic' -> 0 <= q < 50 -> ent ic' q = i' -> ikey i' = (1, 2 + Z.of_nat k) -> iref i' = 1 -> valid i' = false -> ilk i' = initsleeplock -> Q (q, nm) s') ->
  wp (walk pid devread p [stored_name h] false []) s Q.
Proof.
  intros Hk A HC Hp Eic Hkey Hr Hv Hlk C R HQ. pose proof (lookup_lt_Some _ _ _ Hk) as Hlt. pose proof (ca_len _ C) as Hl. pose proof (ca_len _ (cold_ok _ HC)) as Hl0. assert (Ei : ent ic p = i) by (rewrite Eic; apply aget_aset_eq; lia).
  destruct (root_fields i Hkey) as (E1 & E2 & E3 & E4 & _). injection Hkey as Hd Hn. cbn [walk]. apply wp_bind. eapply (wp_ilock_load g G pid p ic v s); rewrite ?Ei; [exact A|done|done|lia|by rewrite Hlk|done|done|rewrite Hn; change (sb_ninodes g) with 200; lia|done|done| |].
  { rewrite Hn, v_inode, (m_root _ _ HM) by lia. done. }
  rewrite Hn. fold (root_inode i). set (ic1 := aset ic p (root_inode i)). intros s1 A1. assert (Ei1 : ent ic1 p = root_inode i) by (apply aget_aset_eq; lia).
  destruct (refs_count ic p (root_inode i) C Hp ltac:(rewrite Ei; lia) ltac:(by rewrite Ei) ltac:(cbn; lia)) as [C1 R1]. fold ic1 in C1, R1. rewrite decide_False in R1 by (cbn; lia). change (ikey (root_inode i)) with (idev i, inum i) in R1. change (iref (root_inode i)) with (iref i) in R1. rewrite Hd, Hn, Hr, R, insert_singleton_eq in R1.
  apply wp_bind. eapply wp_figet; [exact A1|]. rewrite Ei1, E3. cbn [negb Z.eqb T_DIR Pos.eqb andb]. apply wp_bind.
  assert (W : writable g ic1 p v) by (eapply (root_writable ic1 p i); [unfold ic1; rewrite length_aset; lia|done|unfold ikey; by rewrite Hd, Hn|done]).
  destruct (root_find files (vb v) (root_inode i) Hlen) with (k := k) (h := h) as [Hfind Hino]; [intros o Ho; rewrite E1, (agree_fbyte g G _ _ v_above) by (exact (m_rlay _ _ HM) || done); by apply (m_rbyte _ _ HM)|done|done|done|done|].
  assert (Hnone : refs ic1 !! (1, 2 + Z.of_nat k) = None) by (rewrite R1; apply lookup_singleton_ne; intros [=]; lia).
  eapply (wp_dirlookup g p ic1 (root_inode i) v Ei1 W C1 E3 ltac:(rewrite E2; unfold rounded; zdm) HR devread); [exact A1|rewrite Hfind; done|]. rewrite Hfind. intros k' [= <-]. rewrite Hino. split; [unfold refs_get; rewrite Hnone, R1, map_size_singleton; by rewrite decide_True|]. split; [by rewrite Hnone|].
  intros q ic2 s2 HG2 A2. destruct (got_refs _ _ _ _ C1 HG2) as (C2 & _ & _). destruct HG2 as [Hq HG2]. rewrite Hnone in HG2. destruct HG2 as (Hfree & i2 & K1 & K2 & K3 & K4 & Eic2).
  assert (Hqp : q <> p) by (intros ->; rewrite Ei1 in Hfree; change (iref (root_inode i)) with (iref i) in Hfree; lia). assert (Lk : ilk i2 = initsleeplock).
  { rewrite K4. unfold ic1. rewrite aget_aset_ne by lia. rewrite Eic, aget_aset_ne by lia. by apply HC. }
  assert (Ep2 : ent ic2 p = root_inode i) by (rewrite Eic2, aget_aset_ne by lia; done). apply wp_bind. eapply (wp_iunlockput_keep g pid p ic2 v s2); rewrite ?Ep2; [exact A2|done|done|change (iref (root_inode i)) with (iref i); lia|done|lia|].
  destruct (refs_count ic2 p (put_entry (root_inode i)) C2 Hp) as [C3 _]; [rewrite Ep2; change (iref (root_inode i)) with (iref i); lia|by rewrite Ep2|unfold put_entry; cbn; lia|].
  intros s3 A3. cbn [walk]. apply wp_ret. eapply (HQ q i2); [exact A3|done|done| |done|done|done|done]. rewrite aget_aset_ne by lia. rewrite Eic2. apply aget_aset_eq. unfold ic1. rewrite length_aset. lia.
Qed.

(** The file is locked at entry q of the cache. *)
Definition opened (h : hfile) (q : Z) (s : fs) : Prop := exists ic, At ic g v s /\ cache_ok ic /\ 0 <= q < 50 /\ let i := ent ic q in
  idev i = 1 /\ iref i = 1 /\ ilk i = mkSleep true pid /\ inlink i = 1 /\ itype i = T_FILE /\ file_ok g (vb v) i /\ isize i = Z.of_nat (length (contents h)) /\
  forall o m, 0 <= o -> 0 <= m -> o + m <= isize i -> fbytes (vb v) (iaddrs i) o (Z.to_nat m) = slice (contents h) o m.

Lemma wp_open_file k h cwd ic s : files !! k = Some h -> stored_name h <> [] -> At ic g v s -> cold ic ->
  wp (namei pid devread cwd (47 :: stored_name h)) s (fun q s' => 0 <= q /\ wp (ilock pid q) s' (fun _ s'' => opened h q s'')).
Proof.
  intros Hk Hne A HC. pose proof (lookup_lt_Some _ _ _ Hk) as Hlt. pose proof (Forall_lookup_1 _ _ _ _ Hplain Hk) as Hp. cbn beta in Hp.
  assert (Hnn : no_nul (47 :: stored_name h)) by (constructor; [done|]; eapply Forall_impl; [exact Hp|]; intros c [? _]; lia). unfold wp at 1. rewrite (namei_walk cwd _ Hnn). change (hd 0 (47 :: stored_name h) =? SLASH) with true. rewrite elems_plain by done.
  set (Q' := fun q s' => 0 <= q /\ wp (ilock pid q) s' (fun _ s'' => opened h q s'')). change (wp (let! ip := iget ROOTDEV ROOTINO in let! (ip, _) := walk pid devread ip [stored_name h] false [] in ret ip) s Q').
  apply wp_bind. eapply wp_find_root; [exact A|done|]. intros p ic1 i _ H1 H2 H3 H4 H5 H6 H7 H8 H9 s1 A1. apply wp_bind. eapply (wp_walk_file k h p ic1 ic i); try done.
  intros q i' ic2 s2 nm A2 C2 Hq Ei Hkey Hr Hv Hlk. apply wp_ret. split; [lia|]. destruct (file_loaded k h i' Hk Hkey) as (F1 & F2 & F3 & F4 & F5). injection Hkey as Hd Hi.
  assert (Ht : dtype (disk_inode g (vb v) (2 + Z.of_nat k)) <> 0) by (change (dtype ?x) with (itype (loaded pid i' x)); by rewrite F2).
  eapply (wp_ilock_load g G pid q ic2 v s2); rewrite ?Ei, ?Hi; [exact A2|done|done|lia|by rewrite Hlk|done|done|change (sb_ninodes g) with 200; lia|done|done|done|]. set (i2 := loaded pid i' _) in *. intros s3 A3.
  assert (Eq : ent (aset ic2 q i2) q = i2) by (apply aget_aset_eq; rewrite (ca_len _ C2); lia). destruct (refs_count ic2 q i2 C2 Hq ltac:(rewrite Ei; lia) ltac:(by rewrite Ei) ltac:(cbn; lia)) as [C3 _].
  exists (aset ic2 q i2). rewrite Eq. cbn zeta. split_and!; (done || lia).
Qed.

Lemma wp_read_opened h q s off n (Q : Z * list Z -> fs -> Prop) : opened h q s -> 0 <= off < 4294967296 -> 0 <= n < 4294967296 ->
  (forall s', opened h q s' -> Q (if (Z.of_nat (length (contents h)) <? off) || (2 ^ 32 <=? off + n) then (-1, []) else let m := Z.min n (Z.of_nat (length (contents h)) - off) in (m, slice (contents h) off m)) s') ->
  wp (readi devread q off n) s Q.
Proof.
  intros HO Ho Hn HQ. pose proof HO as (ic & A & C & Hq & H1 & H2 & H3 & H4 & H5 & H6 & H7 & H8). eapply (wp_readi g G q devread _ v s off n); [exact A|done|done|done|done|by rewrite H5|done|done| |].
  - intros HE. specialize (HQ s HO). rewrite H7 in HE. replace ((_ <? off) || _) with true in HQ by (symmetry; apply orb_true_iff; rewrite Z.ltb_lt, Z.leb_le; lia). exact HQ.
  - intros s' L1 L2 A'. assert (HO' : opened h q s') by (exists ic; cbn zeta; split_and!; (done || lia)). specialize (HQ s' HO'). rewrite H7 in L1, H8 |- *. rewrite H8 by lia. replace ((_ <? off) || _) with false in HQ by (symmetry; apply orb_false_iff; rewrite Z.ltb_ge, Z.leb_gt; lia). exact HQ.
Qed.

Lemma wp_read_file k h cwd n ic s (Q : Z * list Z -> fs -> Prop) : files !! k = Some h -> stored_name h <> [] -> At ic g v s -> cold ic -> 0 <= n < 4294967296 ->
  (forall s', Q (Z.min n (Z.of_nat (length (contents h))), take (Z.to_nat n) (contents h)) s') -> wp (read_file cwd (47 :: stored_name h) n) s Q.
Proof.
  intros Hk Hne A HC Hn HQ. unfold read_file. apply wp_bind. eapply wp_mono; [by eapply wp_open_file|]. cbn beta. intros q s1 [_ H1]. apply wp_bind. eapply wp_mono; [exact H1|]. cbn beta. intros [] s2 HO. eapply wp_read_opened; [exact HO|lia|lia|]. intros s3 _. replace ((_ <? 0) || _) with false by (symmetry; apply orb_false_iff; rewrite Z.ltb_ge, Z.leb_gt; lia).
  cbn zeta. rewrite Z.sub_0_r. unfold slice. change (Z.to_nat 0) with 0%nat. rewrite drop_0. replace (take (Z.to_nat (Z.min n _)) _) with (take (Z.to_nat n) (contents h)); [apply HQ|]. destruct (Z.min_spec n (Z.of_nat (length (contents h)))) as [[_ ->]|[? ->]]; [done|]. by rewrite !take_ge by lia.
Qed.
End Read.

(** ** From the image to the kernel *)

(** The image as the disk. *)
Definition disk_of (st : mkst) : disk := mkDisk (map_seqZ 0 (img st)) 1000 [].

Lemma disk_of_read st b : 0 <= b -> disk_read (disk_of st) b = image st b.
Proof.
  intros Hb. unfold disk_read, disk_of, image, aget. cbn [blocks]. rewrite lookup_map_seqZ_0 by done. rewrite (proj2 (Z.ltb_ge _ _)) by lia. rewrite nth_lookup. done.
Qed.

Lemma disk_of_len files st b : made files st -> length (disk_read (disk_of st) b) = 512%nat.
Proof.
  intros M. destruct (decide (0 <= b < 1000)) as [Hb|Hb]; [rewrite disk_of_read by lia; by apply (m_512 _ _ M)|]. unfold disk_read, disk_of. cbn [blocks]. rewrite lookup_map_seqZ. case_guard; [|done]. cbn. rewrite lookup_ge_None_2; [done|]. pose proof (m_len _ _ M). lia.
Qed.

Lemma disk_of_recovers files st : made files st -> recovers 2 30 (disk_of st) (disk_read (disk_of st)) [].
Proof.
  intros M. assert (E1 : disk_read (disk_of st) 1 = sb_block) by (rewrite disk_of_read by lia; by apply (m_low _ _ M)). assert (E2 : disk_read (disk_of st) 2 = zeroes) by (rewrite disk_of_read by lia; by apply (m_low _ _ M)).
  constructor; [| | |apply not_elem_of_nil|intros t b Ht; by rewrite lookup_nil in Ht|done].
  - constructor; [cbn; lia|rewrite E1; vm_compute; reflexivity|rewrite E1; vm_compute; reflexivity|]. intros b. by eapply disk_of_len.
  - rewrite E2. split_and!; [done|vm_compute; reflexivity|]. intros k b Hk. by rewrite lookup_nil in Hk.
  - constructor; [constructor|by intros b ?%not_elem_of_nil|cbn; lia].
Qed.

Lemma cold_boot : cold (repeat no_inode 50).
Proof.
  assert (E : forall p, ent (repeat no_inode 50) p = no_inode) by (intros p; unfold aget; destruct (p <? 0); [done|]; by apply (nth_repeat no_inode 50)).
  constructor; [constructor|..]; [done|intros p Hp; by rewrite E|intros p q Hp Hq Hr; rewrite E in Hr; cbn in Hr; lia|intros p Hp; by rewrite E|intros p Hp; by rewrite E].
Qed.

(** C5: What mkfs puts on the disk is what the kernel reads. The files are
    made into an image as in the theorem on mkfs, with names (without the
    leading underscore) that have no NUL or slash and are different in their
    first 14 characters, and the number of directory entries not a multiple of
    32; the kernel starts from a disk with that image and recovers its log.
    Then in a first transaction a path of a slash and the non-empty name of a
    file leads namei() to its inode, and readi() of n bytes returns the first
    n bytes of what mkfs read, or all of them. This composes mkfs.c with fs.c,
    log.c and bio.c. *)
Theorem kernel_reads_mkfs_files files k h pid cwd n : Forall good_file files -> (length files <= 198)%nat -> total (image_files files) <= 941 ->
  Forall (fun h => Forall plain_char (stored_name h)) files -> NoDup ([46] :: [46; 46] :: map (fun h => take 14 (stored_name h)) files) -> (Z.of_nat (length files) + 2) mod 32 <> 0 ->
  files !! k = Some h -> stored_name h <> [] -> 0 <= n < 2 ^ 32 ->
  exists st l l1 s', main (Some true) files mkfs_start = Ok tt st /\ decode_sb (image st 1) = mk_sb /\ reboot pid (disk_of st) = Ok tt l /\ begin_op l = Ok tt l1 /\
    read_file (H := log_blocks pid) pid no_rdev cwd (47 :: stored_name h) n (mk_fs l1 (repeat no_inode 50) mk_sb) = Ok (Z.min n (Z.of_nat (length (contents h))), take (Z.to_nat n) (contents h)) s'.
Proof.
  intros HG Hlen Hfit Hplain Hdist H32 Hk Hne Hn. destruct (wp_run_unit (main (Some true) files) mkfs_start (made files)) as (st & Em & M).
  { eapply (@wp_main log (log_blocks 1) (log_laws 1 2 30 1 (mkDisk ∅ 1000 []) ltac:(lia))); [cbn; lia|cbn; lia|done|done|done|auto]. }
  destruct (reboot_recovers pid 2 30 _ _ [] (disk_of_recovers files st M)) as (l & hv & El & _ & _ & _ & _ & D & _). destruct (reboot_shows pid 2 30 _ _ [] (disk_of_recovers files st M)) as (l' & El' & I & O & C & V). rewrite El in El'. injection El' as <-.
  assert (Hsz : disksize (dsk (lbio l)) = 1000) by (by rewrite D). assert (HV : forall b, 32 <= b < 1000 -> view (lbio l) b = image st b).
  { intros b Hb. rewrite (idle_view _ _ _ _ b I), V by (unfold in_log; lia). apply disk_of_read. lia. }
  assert (Hnl : 1 <= 30) by lia. set (L := log_laws pid 2 30 1 (dsk (lbio l)) Hnl).
  destruct (wp_run_unit begin_op l (fun l1 => @rep log (log_blocks pid) L l1 (view0 l))) as (l1 & E1 & R); [apply (begin_rep pid 2 30 (dsk (lbio l)) Hnl l _ I O C eq_refl); intros l1 R1; exact R1|].
  assert (A : @At log (log_blocks pid) L (repeat no_inode 50) mk_sb (view0 l) (mk_fs l1 (repeat no_inode 50) mk_sb)) by (by constructor).
  destruct (wp_run _ _ _ (@wp_read_file log (log_blocks pid) L ltac:(cbn [nblk L log_laws]; lia) ltac:(cbn; lia) pid no_rdev files st M Hlen (view0 l) HV eq_refl ltac:(split; cbn; unfold NBUF; lia) Hdist Hplain H32 k h cwd n (repeat no_inode 50) _
    (fun r _ => r = (Z.min n (Z.of_nat (length (contents h))), take (Z.to_nat n) (contents h))) Hk Hne A cold_boot ltac:(lia) (fun _ => eq_refl))) as (r & s' & E2 & ->).
  exists st, l, l1, s'. split; [exact Em|]. split; [rewrite (m_low _ _ M) by lia; by vm_compute|]. split; [exact El|]. split; [exact E1|exact E2].
Qed.

(** The file "ls" of four bytes, and an empty one. *)
Lemma kernel_reads_mkfs_files_witness : exists st l l1 s', main (Some true) [mk_hfile [95; 108; 115] (Some [[1; 2; 3]; [4]]); mk_hfile [82] (Some [])] mkfs_start = Ok tt st /\
  decode_sb (image st 1) = mk_sb /\ reboot 1 (disk_of st) = Ok tt l /\ begin_op l = Ok tt l1 /\
  read_file (H := log_blocks 1) 1 no_rdev 0 [47; 108; 115] 3 (mk_fs l1 (repeat no_inode 50) mk_sb) = Ok (3, [1; 2; 3]) s'.
Proof.
  apply (kernel_reads_mkfs_files _ 0 (mk_hfile [95; 108; 115] (Some [[1; 2; 3]; [4]])) 1 0 3).
  - repeat constructor; cbn; (done || lia || (apply (bool_decide_eq_true_1 _); reflexivity)).
  - cbn. lia.
  - vm_compute. done.
  - by repeat constructor.
  - apply (bool_decide_eq_true_1 _). reflexivity.
  - vm_compute. done.
  - reflexivity.
  - discriminate.
  - lia.
Defined.

(** ** Images that go wrong *)

(** Copies of an empty file of the host. *)
Definition empty_files (n : nat) : list hfile := repeat (mk_hfile [99] (Some [])) n.

(** With 32 entries the rounded size of the root directory reaches a block
    that is not there.  A read of it, as read() makes it on the open
    directory, outside of a transaction, has bmap() allocate the block and
    panics. *)
Example full_directory_panics : match main (Some true) (empty_files 30) mkfs_start with
  | Ok tt st => match reboot 1 (disk_of st) with
                | Ok tt l => (let! ip := iget ROOTDEV ROOTINO in ilock (H := log_blocks 1) 1 ip ;;; readi (H := log_blocks 1) no_rdev ip 512 16) (mk_fs l (repeat no_inode 50) mk_sb)
                | _ => Undef "not started"
                end
  | _ => Undef "not made"
  end = Panic "log_write outside of trans".
Proof. vm_compute. reflexivity. Qed.

(** Nothing stops main() at the last inode: inode 208 is where the bitmap is
    written. *)
Example too_many_files : match main (Some true) (empty_files 207) mkfs_start with
  | Ok tt st => Some (freeinode st, IBLOCK 208 mk_sb, sb_bmapstart mk_sb, dtype (disk_inode mk_sb (image st) 208))
  | _ => None
  end = Some (209, 58, 58, -1).
Proof. vm_compute. reflexivity. Qed.

(** At the last block it does stop: the block after it cannot be read. *)
Example too_many_blocks : main (Some true) (repeat (mk_hfile [99] (Some (repeat (repeat 1 512) 140))) 7) mkfs_start = Panic "read".
Proof. vm_compute. reflexivity. Qed.
