(* ===== verification/Exec.v ===== *)
(** Loading a program (exec.c, loaduvm() of vm.c, sys_exec() of sysfile.c).

    The state is the memory of the machine, the file system and the fields of
    the process that exec() changes.  What exec() reads into variables on its
    stack is a value here; an argument is the bytes of its string.  The
    messages of cprintf() and switchuvm() are left out. *)

From Stdlib Require Import ZArith Lia.
From stdpp Require Import base gmap strings numbers list.
From S2P Require Import Proc Prelude Kstring Mem Kalloc Vm VmSpec VmMap VmUser Fs File Sysfile.

Open Scope Z_scope.
Open Scope kern_scope.

Definition ELF_MAGIC : Z := 0x464C457F.
Definition ELF_PROG_LOAD : Z := 1.
Definition MAXARG : Z := 32.

(** The fields that exec() looks at. *)
Record elfhdr := mk_elfhdr { e_magic : Z; e_entry : Z; e_phoff : Z; e_phnum : Z }.
Definition get_elfhdr (b : list Z) : elfhdr := mk_elfhdr (le32 b 0) (le32 b 24) (le32 b 28) (le16 b 44).

Record proghdr := mk_proghdr { p_type : Z; p_off : Z; p_vaddr : Z; p_filesz : Z; p_memsz : Z }.
Definition get_proghdr (b : list Z) : proghdr := mk_proghdr (le32 b 0) (le32 b 4) (le32 b 8) (le32 b 16) (le32 b 20).

Definition sizeof_elfhdr : Z := 52.
Definition sizeof_proghdr : Z := 32.

(** Bytes stored from address a on. *)
Definition put_bytes (a : Z) (bs : list Z) : M mem unit := for_up 0 (Z.of_nat (length bs)) (fun i => store8 (a + i) (aget 0 bs i)).

(** copyout() of the bytes bs. *)
Fixpoint copyout_bytes_loop (fuel : nat) (pgdir va : Z) (bs : list Z) : M kmem Z :=
  match fuel with
  | O => blocked
  | S fuel' =>
      let len := Z.of_nat (length bs) in
      if len >? 0 then
        let va0 := PGROUNDDOWN va in
        let! pa0 := uva2ka pgdir va0 in
        if pa0 =? 0 then ret (-1)
        else
          let n := PGSIZE - (va - va0) in
          let n := if n >? len then len else n in
          on_mem (put_bytes (u32 (pa0 + (va - va0))) (take (Z.to_nat n) bs)) ;;;
          copyout_bytes_loop fuel' pgdir (u32 (va0 + PGSIZE)) (drop (Z.to_nat n) bs)
      else ret 0
  end.
Definition copyout_bytes (pgdir va : Z) (bs : list Z) : M kmem Z :=
  copyout_bytes_loop (Z.to_nat (Z.of_nat (length bs) / PGSIZE + 3)) pgdir va bs.

(** The part of the path after the last slash. *)
Fixpoint last_elem (path last : list Z) : list Z :=
  match path with
  | [] => last
  | c :: r => last_elem r (if c =? SLASH then r else last)
  end.

(** An array of words in memory. *)
Definition words (l : list Z) : list Z := l ≫= int_bytes.

Section Exec.
Context {B : Type} `{Blocks B} `{Journal B}.
Variables kend kdata : Z.
Variable pid : Z.
Variable devread : Z -> option (Z -> Z -> M (fs (B := B)) (Z * list Z)).

Record xproc := mk_xproc { x_pgdir : Z; x_sz : Z; x_eip : Z; x_esp : Z; x_name : list Z; x_cwd : Z }.
Record xsys := mk_xsys { xk : kmem; xf : fs (B := B); xp : xproc }.

Definition set_xk v s := mk_xsys v (xf s) (xp s).
Definition set_xf v s := mk_xsys (xk s) v (xp s).
Definition set_xp v s := mk_xsys (xk s) (xf s) v.

Definition on_k {A} (m : M kmem A) : M xsys A := zoom xk set_xk m.
Definition on_f {A} (m : M fs A) : M xsys A := zoom xf set_xf m.

Definition x_begin_op : M xsys unit := on_f (on_blk bl_begin_op).
Definition x_end_op : M xsys unit := on_f (on_blk bl_end_op).

(** readi(ip, dst, off, n) with dst in the kernel's memory *)
Definition readi_to (ip dst off n : Z) : M xsys Z :=
  let! (r, bs) := on_f (readi devread ip off n) in
  on_k (on_mem (put_bytes dst bs)) ;;;
  ret r.

(** The body of loaduvm's loop; Some r: return r. *)
Definition load_page (pgdir addr ip offset sz i : Z) : M xsys (option Z) :=
  let! pte := on_k (walkpgdir pgdir (u32 (addr + i)) false) in
  if pte =? 0 then panic "loaduvm: address should exist"
  else
    let! e := on_k (on_mem (load32 pte)) in
    let pa := PTE_ADDR e in
    let n := if sz - i <? PGSIZE then sz - i else PGSIZE in
    let! r := readi_to ip (P2V pa) (u32 (offset + i)) n in
    if negb (r =? n) then ret (Some (-1)) else ret None.

Definition loaduvm (pgdir addr ip offset sz : Z) : M xsys Z :=
  if negb (addr mod PGSIZE =? 0) then panic "loaduvm: addr must be page aligned"
  else
    let! r := search (Z.to_nat ((sz + PGSIZE - 1) / PGSIZE)) 0 (fun k => load_page pgdir addr ip offset sz (k * PGSIZE)) in
    ret (match r with Some v => v | None => 0 end).

(** One program header; None: goto bad. *)
Definition load_segment (ip pgdir off sz : Z) : M xsys (option Z) :=
  let! (r, b) := on_f (readi devread ip (u32 off) sizeof_proghdr) in
  let ph := get_proghdr b in
  if negb (r =? sizeof_proghdr) then ret None
  else if negb (p_type ph =? ELF_PROG_LOAD) then ret (Some sz)
  else if p_memsz ph <? p_filesz ph then ret None
  else if u32 (p_vaddr ph + p_memsz ph) <? p_vaddr ph then ret None
  else
    let! sz := on_k (allocuvm kend pgdir sz (u32 (p_vaddr ph + p_memsz ph))) in
    if sz =? 0 then ret None
    else if negb (p_vaddr ph mod PGSIZE =? 0) then ret None
    else
      let! r := loaduvm pgdir (p_vaddr ph) ip (p_off ph) (p_filesz ph) in
      if r <? 0 then ret None else ret (Some sz).

(** The loop over the program headers: the size of the process. *)
Fixpoint load_segments (n : nat) (ip pgdir off sz : Z) : M xsys (option Z) :=
  match n with
  | O => ret (Some sz)
  | S n' =>
      let! r := load_segment ip pgdir off sz in
      match r with
      | None => ret None
      | Some sz => load_segments n' ip pgdir (i32 (u32 off + sizeof_proghdr)) sz
      end
  end.

(** The argument strings are pushed: sp, and where they are (ustack[3..]). *)
Fixpoint push_args (pgdir sp argc : Z) (argv : list (list Z)) (ustack : list Z) : M xsys (option (Z * list Z)) :=
  match argv with
  | [] => ret (Some (sp, ustack))
  | a :: r =>
      if argc >=? MAXARG then ret None
      else
        let sp := Z.land (u32 (sp - (Z.of_nat (length a) + 1))) (u32 (Z.lnot 3)) in
        let! e := on_k (copyout_bytes pgdir sp (a ++ [0])) in
        if e <? 0 then ret None else push_args pgdir sp (argc + 1) r (ustack ++ [sp])
  end.

(** The user stack above the program: the new size and sp; None: goto bad. *)
Definition make_stack (pgdir sz : Z) (argv : list (list Z)) : M xsys (option (Z * Z)) :=
  let sz := PGROUNDUP sz in
  let! sz := on_k (allocuvm kend pgdir sz (u32 (sz + 2 * PGSIZE))) in
  if sz =? 0 then ret None
  else
    on_k (clearpteu pgdir (u32 (sz - 2 * PGSIZE))) ;;;
    let! r := push_args pgdir sz 0 argv [] in
    match r with
    | None => ret None
    | Some (sp, ptrs) =>
        let argc := Z.of_nat (length argv) in
        let ustack := [0xffffffff; argc; u32 (sp - (argc + 1) * 4)] ++ ptrs ++ [0] in
        let sp := u32 (sp - (3 + argc + 1) * 4) in
        let! e := on_k (copyout_bytes pgdir sp (words ustack)) in
        if e <? 0 then ret None else ret (Some (sz, sp))
    end.

(** bad: *)
Definition exec_bad (pgdir : Z) (ip : option Z) : M xsys Z :=
  when (negb (pgdir =? 0)) (on_k (freevm kend pgdir)) ;;;
  match ip with
  | Some ip => on_f (iunlockput pid ip) ;;; x_end_op
  | None => ret tt
  end ;;;
  ret (-1).

Definition exec (path : list Z) (argv : list (list Z)) : M xsys Z :=
  x_begin_op ;;;
  let! cwd := gets (fun s => x_cwd (xp s)) in
  let! ip := on_f (namei pid devread cwd path) in
  if ip <? 0 then x_end_op ;;; ret (-1)
  else
    on_f (ilock pid ip) ;;;
    let! (r, b) := on_f (readi devread ip 0 sizeof_elfhdr) in
    let elf := get_elfhdr b in
    if negb (r =? sizeof_elfhdr) then exec_bad 0 (Some ip)
    else if negb (e_magic elf =? ELF_MAGIC) then exec_bad 0 (Some ip)
    else
      let! pgdir := on_k (setupkvm kend kdata) in
      if pgdir =? 0 then exec_bad 0 (Some ip)
      else
        let! r := load_segments (Z.to_nat (e_phnum elf)) ip pgdir (i32 (e_phoff elf)) 0 in
        match r with
        | None => exec_bad pgdir (Some ip)
        | Some sz =>
            on_f (iunlockput pid ip) ;;;
            x_end_op ;;;
            let! r := make_stack pgdir sz argv in
            match r with
            | None => exec_bad pgdir None
            | Some (sz, sp) =>
                let! p := gets xp in
                let oldpgdir := x_pgdir p in
                modify (set_xp (mk_xproc pgdir sz (e_entry elf) sp (name_copy (x_name p) (last_elem path path) 16) (x_cwd p))) ;;;
                on_k (freevm kend oldpgdir) ;;;
                ret 0
            end
        end.

(** ** sys_exec *)

(** The byte at a user address, as the kernel reads it. *)
Definition kread (m : mem) (d va : Z) : Z :=
  let e := mmu_entry m d va in if present e then m (page_of e + va mod 2 ^ 12) else 0.
Definition proc_mem (s : xsys) : Z -> Z := kread (kbytes (xk s)) (x_pgdir (xp s)).

(** The loop over uargv; n entries of argv[] are left. *)
Fixpoint fetch_args (sz : Z) (mem : Z -> Z) (n : nat) (uargv : Z) : option (list (list Z)) :=
  match n with
  | O => None
  | S n' =>
      match fetchint sz mem uargv with
      | None => None
      | Some uarg =>
          if u32 uarg =? 0 then Some []
          else
            match fetchstr sz mem (u32 uarg) with
            | None => None
            | Some a => option_map (cons a) (fetch_args sz mem n' (u32 (uargv + 4)))
            end
      end
  end.

Definition sys_exec : M xsys Z :=
  let! s := gets id in
  let sz := x_sz (xp s) in
  let mem := proc_mem s in
  match argstr sz mem (x_esp (xp s)) 0, argint sz mem (x_esp (xp s)) 1 with
  | Some path, Some uargv =>
      match fetch_args sz mem (Z.to_nat MAXARG) (u32 uargv) with
      | None => ret (-1)
      | Some argv => exec path argv
      end
  | _, _ => ret (-1)
  end.
End Exec.
