(* ===== verification/ExecMem.v ===== *)
(** The address space that exec() makes beside the old one: how setupkvm(),
    allocuvm(), clearpteu() and copyout() build it up. *)

From Stdlib Require Import ZArith Lia.
From stdpp Require Import base gmap strings numbers list.
From S2P Require Import Prelude Kstring Mem Kalloc Vm VmSpec VmMap VmUser VmKernel VmFork VmCopy Fs File Sysfile Exec.

Open Scope Z_scope.
Open Scope kern_scope.

(** ** Bytes in memory *)

Lemma wp_put_bytes a bs m (Q : unit -> mem -> Prop) : 0 <= a -> a + Z.of_nat (length bs) <= 4294967296 -> byte_list bs -> bytes m ->
  (forall m', bytes m' -> (forall x, m' x = if within a (Z.of_nat (length bs)) x then aget 0 bs (x - a) else m x) -> Q tt m') -> wp (put_bytes a bs) m Q.
Proof.
  intros Ha Hl Hbs Hb HQ. unfold put_bytes. apply (wp_for_up (fun i m' => bytes m' /\ forall x, m' x = if within a i x then aget 0 bs (x - a) else m x)).
  - split; [done|]. intros x. by rewrite within_nil.
  - intros i m1 Hi [Hb1 Hm1]. apply wp_modify. split; [by apply bytes_upd|]. intros x. unfold upd. rewrite (u32_small (a + i)) by lia. destruct (Z.eqb_spec x (a + i)) as [->|Hne].
    + rewrite (proj2 (within_true _ _ _)) by lia. rewrite u8_small by (by apply byte_aget). f_equal. lia.
    + rewrite Hm1. unfold within. by replace ((a <=? x) && (x <? a + (i + 1))) with ((a <=? x) && (x <? a + i)) by lia.
  - intros m'. rewrite Z.max_r by lia. intros [Hb' Hm']. by apply HQ.
Qed.

(** User memory with the bytes bs from a on. *)
Definition over (U : Z -> option Z) (a : Z) (bs : list Z) : Z -> option Z :=
  fun va => if within a (Z.of_nat (length bs)) va then Some (aget 0 bs (va - a)) else U va.

Lemma over_nil U a va : over U a [] va = U va.
Proof. unfold over. cbn [length]. by rewrite within_nil. Qed.

Lemma over_app U a b1 b2 va : over (over U a b1) (a + Z.of_nat (length b1)) b2 va = over U a (b1 ++ b2) va.
Proof.
  unfold over. rewrite length_app. destruct (within (a + Z.of_nat (length b1)) (Z.of_nat (length b2)) va) eqn:E2; [apply within_true in E2|apply within_false in E2].
  - rewrite (proj2 (within_true _ _ _)) by lia. f_equal. rewrite aget_app by lia. rewrite (proj2 (Z.ltb_ge _ _)) by lia. f_equal. lia.
  - destruct (within a (Z.of_nat (length b1)) va) eqn:E1; [apply within_true in E1|apply within_false in E1].
    + rewrite (proj2 (within_true _ _ _)) by lia. rewrite aget_app by lia. by rewrite (proj2 (Z.ltb_lt _ _)) by lia.
    + by rewrite (proj2 (within_false _ _ _)) by lia.
Qed.

(** An entry without PTE_U. *)
Definition noU (e : Z) : Z := Z.land e (u32 (Z.lnot PTE_U)).

Lemma noU_facts e : 0 <= e < 4294967296 -> 0 <= noU e < 4294967296 /\ present (noU e) = present e /\ page_of (noU e) = page_of e /\ Z.testbit (noU e) 2 = false.
Proof.
  intros He. assert (Hr : 0 <= noU e < 4294967296).
  { assert (E : noU e = noU e mod 2 ^ 32) by (rewrite <- Z.land_ones by lia; unfold noU; rewrite <- Z.land_assoc; done). rewrite E. change (2 ^ 32) with 4294967296. zdm. }
  split; [done|]. split; [|split].
  - unfold present, has, noU. rewrite <- Z.land_assoc. done.
  - unfold page_of, PTE_ADDR. rewrite (u32_small (noU e)), (u32_small e) by done. unfold noU. rewrite <- Z.land_assoc. change (Z.land (u32 (Z.lnot PTE_U)) (u32 (Z.lnot 0xFFF))) with (u32 (Z.lnot 0xFFF)). done.
  - unfold noU. rewrite Z.land_spec. change (Z.testbit (u32 (Z.lnot PTE_U)) 2) with false. apply andb_false_r.
Qed.

(** One address space when another has been given up. *)
Lemma aspace_regain kend s l d T F' s' l' (F : Z -> Prop) : KERNBASE < kend -> aspace kend s l d T F' -> kmem_inv kend s' l' -> (forall p, p ∈ l' -> (p ∈ l \/ F' p) /\ ~ F p) -> (forall p, F p -> F' p) ->
  (forall q, owned (kbytes s) d T q -> same_page (kbytes s) (kbytes s') q) -> aspace kend s' l' d T F /\ same_entries (kbytes s) (kbytes s') T T.
Proof.
  intros Hk A I Hl HF Hs.
  assert (E : same_entries (kbytes s) (kbytes s') T T).
  { intros v Hv. apply (pte_of_ext kend Hk s l d T F'); [done|done|]. intros HT x Hx. pose proof (table_range _ Hk _ _ _ _ _ v A Hv HT). destruct (page_num_range v Hv) as [Hi _]. apply (Hs (T (v / 1024))); [|lia]. right. left. by exists (v / 1024). }
  assert (Ed : forall i, 0 <= i < 1024 -> ld32 (kbytes s') (d + 4 * i) = ld32 (kbytes s) (d + 4 * i)).
  { intros i Hi. destruct (as_dir _ _ _ _ _ _ A) as (Hd & _). apply (ld32_page _ Hk _ _ d); [done|apply Hs; by left|lia|lia]. }
  assert (Hout : forall p, (p ∉ l) -> ~ F' p -> (p ∉ l') /\ ~ F p) by (intros p H1 H2; split; [intros Hp; destruct (Hl p Hp); tauto|intros Hp; by apply H2, HF]).
  split; [|done]. constructor.
  - done.
  - intros p Hp. by apply Hl.
  - destruct (as_dir _ _ _ _ _ _ A) as (? & ? & ?). split; [done|]. by apply Hout.
  - intros i Hi. rewrite Ed by done. by apply (as_pde _ _ _ _ _ _ A).
  - intros i Hi HT. rewrite Ed by done. destruct (as_tab _ _ _ _ _ _ A i Hi HT) as (H1 & H2 & H3 & H4 & H5). destruct (Hout _ H3 H4). split_and!; done.
  - apply A.
  - intros v Hv. rewrite E by lia. intros HP. destruct (as_user _ _ _ _ _ _ A v Hv HP) as (H1 & H2 & H3 & H4 & H5). destruct (Hout _ H2 H3). split_and!; done.
  - intros v w Hv Hw. rewrite !E by lia. by apply (as_uinj _ _ _ _ _ _ A).
Qed.

Section Build.
Context (kend : Z) (kend_range : KERNBASE < kend).
Context (s0 : kmem) (l0 : list Z) (d0 : Z) (T0 : Z -> Z) (F : Z -> Prop) (A0 : aspace kend s0 l0 d0 T0 F).

Abbreviation begun := (copy_fails kend s0 l0 d0 T0 F).

(** The new address space has [top] pages, and user code sees U. *)
Record built (d top : Z) (U : Z -> option Z) (s : kmem) (l : list Z) (T : Z -> Z) : Prop := {
  bt_begun : begun s l d T;
  bt_top : 0 <= top <= 524288;
  bt_view : forall va, 0 <= va < KERNBASE -> user_byte (kbytes s) d va = U va;
  bt_low : forall w, 0 <= w < top -> present (pte_of (kbytes s) T w) = true;
  bt_high : forall w, top <= w < 524288 -> present (pte_of (kbytes s) T w) = false
}.

Lemma built_ext d top U U' s l T : built d top U s l T -> (forall va, 0 <= va < KERNBASE -> U' va = U va) -> built d top U' s l T.
Proof. intros [B1 Bt B2 B3 B4] E. constructor; try done. intros va Hva. rewrite E by done. by apply B2. Qed.

(** ** setupkvm *)

Lemma wp_new_space kdata (Q : Z -> kmem -> Prop) : KERNLINK < kdata < KERNBASE + PHYSTOP -> kdata mod 4096 = 0 ->
  (forall s' l', given_back kend s0 l0 s' l' -> exhausted l0 0 -> Q 0 s') ->
  (forall s' l' d T, d <> 0 -> built d 0 (fun _ => None) s' l' T -> Q d s') -> wp (setupkvm kend kdata) s0 Q.
Proof.
  intros Hkd Hal Hbad HQ. apply (wp_setupkvm kend kdata kend_range Hkd Hal s0 l0 (others s0 d0 T0 F)); [apply A0| |done|].
  - intros p Hp [HF|Ho]; [by apply (as_free _ _ _ _ _ _ A0) in Hp|]. by destruct (owned_page_ok kend _ _ _ _ _ _ A0 Ho) as (_ & ? & _).
  - intros s l d T [A Hu _ K HL]. destruct (as_dir _ _ _ _ _ _ A) as (Hd & _). pose proof (page_range _ kend_range d Hd). apply (HQ s l d T); [lia|].
    constructor; [by constructor|lia| |lia|intros w Hw; by rewrite Hu].
    unfold KERNBASE. intros va Hva. rewrite (user_byte_pte kend kend_range s l d T (others s0 d0 T0 F)) by (done || lia). rewrite Hu by zdm. done.
Qed.

(** ** allocuvm *)

(** Free pages and pages of the new address space are what was free. *)
Lemma begun_step s l d T s' l' T' : begun s l d T -> aspace kend s' l' d T' (others s0 d0 T0 F) -> accounted s l T d s' l' T' ->
  (forall q, page_ok kend q -> ~ owned (kbytes s) d T q -> q ∉ l -> same_page (kbytes s) (kbytes s') q) -> begun s' l' d T'.
Proof.
  intros [A K HL] A' HG HS. constructor; [done| |].
  - intros q Hq Hql x Hx. assert (Hn : ~ (q ∈ l \/ owned (kbytes s) d T q)) by (by rewrite <- HL). rewrite (HS q) by tauto. by apply (K q).
  - intros p. by rewrite HL, (HG p).
Qed.

Lemma keeps_same s s' l d T q : keeps kend s s' l d T -> page_ok kend q -> ~ owned (kbytes s) d T q -> q ∉ l -> same_page (kbytes s) (kbytes s') q.
Proof. intros K Hq Ho Hl. unfold owned in Ho. apply K; tauto. Qed.

Lemma begun_exhausted s l d T e : begun s l d T -> used_up s l T d e -> (forall w, e <= w < 524288 -> present (pte_of (kbytes s) T w) = false) -> exhausted l0 e.
Proof.
  intros [A K HL] (m & T' & q & H1 & H2) H3. exists d, m, T', q. split; [|intros w Hw; apply H2; [done|by apply H3]]. intros p Hp. by apply H1, HL.
Qed.

Lemma wp_grow d top U s l T oldsz newsz (e := (newsz + 4095) / 4096) (Q : Z -> kmem -> Prop) :
  built d top U s l T -> 0 <= oldsz < KERNBASE -> top = (oldsz + 4095) / 4096 -> 0 <= newsz ->
  (forall s' l' T', begun s' l' d T' -> KERNBASE <= newsz \/ exhausted l0 e -> Q 0 s') ->
  (newsz < oldsz -> Q oldsz s) ->
  (forall s' l' T', oldsz <= newsz < KERNBASE -> built d e (fun va => if (4096 * top <=? va) && (va <? 4096 * e) then Some 0 else U va) s' l' T' -> Q newsz s') ->
  wp (allocuvm kend d oldsz newsz) s Q.
Proof.
  intros [B1 Bt B2 B3 B4] Ho Et Hn Hbad Hold HQ. destruct (Z.ltb_spec newsz KERNBASE) as [Hk|Hk].
  2:{ unfold allocuvm. replace (newsz >=? KERNBASE) with true by lia. apply wp_ret. apply (Hbad s l T); [done|by left]. }
  destruct (Z.ltb_spec newsz oldsz) as [Hs|Hs].
  { unfold allocuvm. replace (newsz >=? KERNBASE) with false by lia. rewrite (proj2 (Z.ltb_lt _ _)) by done. apply wp_ret, Hold. done. }
  pose proof (cf_aspace _ _ _ _ _ _ _ _ _ _ B1) as A. unfold KERNBASE in *. assert (Hte : 0 <= top <= e /\ e <= 524288) by (unfold e; rewrite Et; zdm).
  apply (wp_allocuvm kend kend_range s l d T (others s0 d0 T0 F)); [done|lia|unfold KERNBASE; lia|rewrite <- Et; intros w Hw; apply B4; fold e in Hw; lia| |].
  - intros s' (l' & T' & A' & _ & K & _ & HG) HU. fold e in HU. apply (Hbad s' l' T'); [eapply begun_step; try done; intros q; by apply keeps_same|right]. eapply begun_exhausted; [done|done|]. intros w Hw. apply B4. lia.
  - rewrite <- Et. fold e. intros s' l' T' GW HG. apply (HQ s' l' T'); [lia|]. pose proof (gw_aspace _ _ _ _ _ _ _ _ _ _ _ GW) as A'. constructor.
    + eapply begun_step; [done|done|done|]. intros q. apply keeps_same, GW.
    + lia.
    + unfold KERNBASE. intros va Hva. rewrite (growing_user kend kend_range s l T d _ top (e - top) s' l' T') by (done || lia). rewrite B2 by (unfold KERNBASE; lia).
      replace ((top <=? va / 4096) && (va / 4096 <? top + (e - top))) with ((4096 * top <=? va) && (va <? 4096 * e)); [done|]. apply Bool.eq_iff_eq_true. rewrite !andb_true_iff, !Z.leb_le, !Z.ltb_lt. zdm.
    + intros w Hw. destruct (Z.ltb_spec w top); [rewrite (gw_old _ _ _ _ _ _ _ _ _ _ _ GW) by lia; apply B3; lia|]. destruct (gw_new _ _ _ _ _ _ _ _ _ _ _ GW w ltac:(lia)) as (p & E & Hp & _). destruct (table_pde kend kend_range p Hp) as [Hb _].
      rewrite E, present_bit. by apply andb_true_iff in Hb as [-> _].
    + intros w Hw. rewrite (gw_old _ _ _ _ _ _ _ _ _ _ _ GW) by lia. apply B4. lia.
Qed.

(** ** clearpteu *)

Lemma wp_clear_page d top U s l T w (Q : unit -> kmem -> Prop) : built d top U s l T -> 0 <= w < top ->
  (forall s' T', built d top (fun va => if va / 4096 =? w then None else U va) s' l T' -> Q tt s') -> wp (clearpteu d (4096 * w)) s Q.
Proof.
  intros [B1 Bt B2 B3 B4] Hw HQ. pose proof (cf_aspace _ _ _ _ _ _ _ _ _ _ B1) as A. pose proof (B3 w Hw) as HP. assert (HT : T (w / 1024) <> 0) by (intros E; unfold pte_of in HP; by rewrite E in HP).
  unfold clearpteu. replace (4096 * w) with (4096 * w + 0) by lia. apply wp_bind, (wp_walk_find _ kend_range s l d T (others s0 d0 T0 F)); [done|lia|lia|]. destruct (Z.eqb_spec (T (w / 1024)) 0); [done|].
  pose proof (table_range _ kend_range _ _ _ _ _ w A ltac:(lia) HT) as Hr. destruct (page_num_range w ltac:(lia)) as [Hi _]. destruct (as_tab _ _ _ _ _ _ A _ Hi HT) as (_ & Htp & _). pose proof (page_range _ kend_range _ Htp). replace (pte_addr T w =? 0) with false by lia.
  apply wp_bind, wp_zoom, wp_gets. replace (set_kbytes (kbytes s) s) with s by (by destruct s). assert (Ee : ld32 (kbytes s) (pte_addr T w) = pte_of (kbytes s) T w) by (unfold pte_of; by destruct (Z.eqb_spec (T (w / 1024)) 0)). rewrite Ee. fold (noU (pte_of (kbytes s) T w)).
  set (e := pte_of (kbytes s) T w) in *. assert (He : 0 <= e < 4294967296) by (apply (pte_range kend s l d T (others s0 d0 T0 F)); [done|lia]). destruct (noU_facts e He) as (N1 & N2 & N3 & N4).
  apply wp_zoom, wp_store32; [lia|lia|apply A|]. intros m' Hb Hw' Ho. rewrite u32_small in Hw' by done.
  destruct (aspace_set kend kend_range s l d T _ w (noU e) m' A ltac:(lia) HT Hb Hw' Ho) as (A' & E' & S'); [intros _ _; right; by rewrite N3|]. apply (HQ _ T).
  assert (Hsame : forall v, 0 <= v < 1048576 -> present (pte_of m' T v) = present (pte_of (kbytes s) T v) /\ page_of (pte_of m' T v) = page_of (pte_of (kbytes s) T v)).
  { intros v Hv. rewrite E' by done. destruct (Z.eqb_spec v w) as [->|]; [|done]. by fold e. }
  constructor.
  - eapply begun_step; [exact B1|exact A'| |].
    + intros q. unfold owned. assert (Hu : is_user m' T q <-> is_user (kbytes s) T q); [|cbn [kbytes set_kbytes]; tauto]. split; intros (v & Hv & H1 & H2); exists v; destruct (Hsame v ltac:(lia)) as [X1 X2]; rewrite ?X1, ?X2 in *; done.
    + intros q Hq Hn _. apply S'; [done|]. unfold owned in Hn. tauto.
  - done.
  - unfold KERNBASE. intros va Hva. rewrite (user_byte_pte kend kend_range _ l d T _ va A') by lia. cbn [kbytes set_kbytes]. rewrite E' by zdm. destruct (Z.eqb_spec (va / 4096) w) as [Ev|Ev].
    + unfold ubyte. by rewrite N4, andb_false_r.
    + rewrite <- B2 by (unfold KERNBASE; lia). rewrite (user_byte_pte kend kend_range s l d T _ va A) by lia. unfold ubyte. destruct (Z.testbit _ 0) eqn:HP2; cbn [andb]; [|reflexivity]. destruct (Z.testbit (pte_of (kbytes s) T (va / 4096)) 2); [|reflexivity]. f_equal.
      rewrite <- present_bit in HP2. destruct (as_user _ _ _ _ _ _ A (va / 4096) ltac:(zdm) HP2) as (Hp2 & _ & _ & _ & Ht2). apply (S' _ Hp2 Ht2). zdm.
  - intros v Hv. cbn [kbytes set_kbytes]. destruct (Hsame v ltac:(lia)) as [-> _]. by apply B3.
  - intros v Hv. cbn [kbytes set_kbytes]. destruct (Hsame v ltac:(lia)) as [-> _]. by apply B4.
Qed.

(** ** Bytes are written *)

Lemma built_write d top U s l T w p off bs m' : built d top U s l T -> 0 <= w < 524288 -> user_page (kbytes s) T w p -> 0 <= off -> off + Z.of_nat (length bs) <= 4096 -> bytes m' ->
  (forall x, m' x = if within (p + off) (Z.of_nat (length bs)) x then aget 0 bs (x - (p + off)) else kbytes s x) ->
  built d top (over U (4096 * w + off) bs) (set_kbytes m' s) l T.
Proof.
  intros [B1 Bt B2 B3 B4] Hw HU Ho Hlim Hb Hm. pose proof (cf_aspace _ _ _ _ _ _ _ _ _ _ B1) as A. destruct (write_user kend kend_range s l d T _ w p off (Z.of_nat (length bs)) (fun i => aget 0 bs i) m' A Hw HU) as (A' & E' & V' & O'); [lia..|done|done|].
  assert (Hown : owned (kbytes s) d T p) by (right; right; exists w; destruct HU as [H1 H2]; apply andb_true_iff in H1 as [H1 _]; rewrite present_bit; done). destruct (owned_page_ok kend _ _ _ _ _ _ A Hown) as (Hp & Hpl & _).
  constructor.
  - eapply begun_step; [exact B1|exact A'| |].
    + intros q. by rewrite (owned_entries (kbytes s) (kbytes (set_kbytes m' s)) d T q E').
    + intros q Hq Hn _ x Hx. apply O'. apply (page_disjoint q p); [apply Hq|apply Hp| |done]. by intros ->.
  - done.
  - intros va Hva. rewrite V' by done. unfold over. destruct (within _ _ va); [done|by apply B2].
  - intros v Hv. rewrite E' by lia. by apply B3.
  - intros v Hv. rewrite E' by lia. by apply B4.
Qed.

(** The page of an address that user code can read. *)
Lemma built_page d top U s l T va : built d top U s l T -> 0 <= va < KERNBASE -> U va <> None -> T (va / 4096 / 1024) <> 0 /\ exists p, user_page (kbytes s) T (va / 4096) p /\ page_ok kend p.
Proof. intros [B1 Bt B2 B3 B4] Hva HU. apply (user_page_of kend kend_range s l d T (others s0 d0 T0 F)); [apply B1|done|]. by rewrite B2. Qed.

(** ** copyout *)

Lemma wp_copyout_bytes_loop d l T fuel : forall s va bs top U (Q : Z -> kmem -> Prop), built d top U s l T -> 0 <= va -> va + Z.of_nat (length bs) <= KERNBASE -> byte_list bs ->
  (forall a, va <= a < va + Z.of_nat (length bs) -> U a <> None) -> (va mod 4096 + Z.of_nat (length bs) + 4095) / 4096 < Z.of_nat fuel -> (0 < fuel)%nat ->
  (forall s', built d top (over U va bs) s' l T -> Q 0 s') -> wp (copyout_bytes_loop fuel d va bs) s Q.
Proof.
  unfold KERNBASE. induction fuel as [|fuel IH]; intros s va bs top U Q HB Hva Hlim Hbs HU Hf Hf0 HQ; [lia|]. cbn [copyout_bytes_loop]. set (len := Z.of_nat (length bs)) in *.
  destruct (Z.eq_dec len 0) as [El|Hl0].
  { rewrite El. cbn [Z.gtb Z.compare]. apply wp_ret, HQ. destruct bs; [|unfold len in El; cbn in El; lia]. eapply built_ext; [done|]. intros a _. apply over_nil. }
  replace (len >? 0) with true by lia. set (w := va / 4096). set (off := va mod 4096). assert (Ev : va = 4096 * w + off) by (unfold w, off; zdm). assert (Hoff : 0 <= off < 4096) by (unfold off; zdm). assert (Hw : 0 <= w < 524288) by (unfold w; zdm).
  rewrite PGROUNDDOWN_eq by lia. fold off. replace (va - off) with (4096 * w) by lia. replace (va - 4096 * w) with off by lia.
  destruct (built_page d top U s l T va HB) as (HT & p & HUp & Hp); [unfold KERNBASE; lia|apply HU; lia|]. fold w in HT, HUp. pose proof (page_range _ kend_range p Hp) as Hr. pose proof (cf_aspace _ _ _ _ _ _ _ _ _ _ (bt_begun _ _ _ _ _ _ HB)) as A.
  apply wp_bind, (wp_uva2ka kend kend_range s l d T (others s0 d0 T0 F)); [done|lia|done|]. pose proof HUp as [HU1 Ep]. rewrite HU1, Ep. replace (p =? 0) with false by lia. unfold PGSIZE. set (n := if 4096 - off >? len then len else 4096 - off).
  assert (Hn : 0 < n <= len /\ off + n <= 4096 /\ (n = len \/ off + n = 4096)) by (unfold n; destruct (4096 - off >? len) eqn:E; b2p; lia). rewrite (u32_small (p + off)), (u32_small (4096 * w + 4096)) by lia.
  set (b1 := take (Z.to_nat n) bs). set (b2 := drop (Z.to_nat n) bs). assert (Eb : bs = b1 ++ b2) by (symmetry; apply take_drop). assert (L1 : Z.of_nat (length b1) = n) by (unfold b1; rewrite length_take; unfold len in *; lia). assert (L2 : Z.of_nat (length b2) = len - n) by (unfold b2; rewrite length_drop; unfold len in *; lia).
  assert (Hbb : byte_list b1 /\ byte_list b2) by (apply Forall_app; by rewrite <- Eb). destruct Hbb as [Hb1 Hb2].
  apply wp_bind, wp_zoom, wp_put_bytes; [lia|lia|done|apply A|]. intros m1 Hbm Hm1. pose proof (built_write d top U s l T w p off b1 m1 HB Hw HUp ltac:(lia) ltac:(lia) Hbm Hm1) as HB1. rewrite <- Ev in HB1. set (s1 := set_kbytes m1 s) in *.
  destruct (Z.eq_dec n len) as [En|En].
  - assert (Eb2 : b2 = []) by (destruct b2; [done|cbn in L2; lia]). rewrite Eb2 in *. rewrite app_nil_r in Eb. rewrite <- Eb in HB1. destruct fuel as [|fuel']; [zdm|]. cbn [copyout_bytes_loop length]. change (Z.of_nat 0 >? 0) with false. apply wp_ret, HQ. exact HB1.
  - replace (4096 * w + 4096) with (va + n) by lia. apply (IH s1 (va + n) b2 top (over U va b1)); [done|lia|lia|done| |rewrite L2; zdm|zdm|].
    + intros a Ha. unfold over. destruct (within _ _ a); [done|]. apply HU. lia.
    + intros s2 HB2. apply HQ. eapply built_ext; [exact HB2|]. intros a _. rewrite Eb, <- over_app, L1. done.
Qed.

Lemma wp_copyout_bytes d l T s va bs top U (Q : Z -> kmem -> Prop) : built d top U s l T -> 0 <= va -> va + Z.of_nat (length bs) <= KERNBASE -> byte_list bs ->
  (forall a, va <= a < va + Z.of_nat (length bs) -> U a <> None) -> (forall s', built d top (over U va bs) s' l T -> Q 0 s') -> wp (copyout_bytes d va bs) s Q.
Proof. intros HB Hva Hlim Hbs HU HQ. eapply wp_copyout_bytes_loop; try done; unfold PGSIZE; zdm. Qed.

(** A page that user code may not use stops it. *)
Lemma wp_copyout_guard d l T s va bs top U (Q : Z -> kmem -> Prop) : built d top U s l T -> 0 <= va -> va / 4096 < top -> bs <> [] -> U va = None -> Q (-1) s -> wp (copyout_bytes d va bs) s Q.
Proof.
  intros HB Hva Hw Hbs HU HQ. pose proof (bt_top _ _ _ _ _ _ HB) as Htop. pose proof (bt_begun _ _ _ _ _ _ HB) as B1. pose proof (cf_aspace _ _ _ _ _ _ _ _ _ _ B1) as A. set (w := va / 4096) in *. assert (Hw0 : 0 <= w) by (unfold w; zdm). pose proof (bt_low _ _ _ _ _ _ HB w ltac:(lia)) as HP. assert (HT : T (w / 1024) <> 0) by (intros E; unfold pte_of in HP; by rewrite E in HP).
  unfold copyout_bytes. destruct (Z.to_nat _) as [|fuel] eqn:Ef; [unfold PGSIZE in Ef; zdm|]. cbn [copyout_bytes_loop]. assert (Hlb : 0 < Z.of_nat (length bs)) by (destruct bs; [done|cbn [length]; lia]). replace (Z.of_nat (length bs) >? 0) with true by lia. rewrite PGROUNDDOWN_eq by (unfold w in *; zdm). replace (va - va mod 4096) with (4096 * w) by (unfold w; zdm).
  apply wp_bind, (wp_uva2ka kend kend_range s l d T (others s0 d0 T0 F)); [done|lia|done|]. pose proof (bt_view _ _ _ _ _ _ HB va ltac:(unfold KERNBASE, w in *; zdm)) as HV. rewrite HU, (user_byte_pte kend kend_range s l d T _ va A) in HV by (unfold w in *; zdm). fold w in HV. unfold ubyte in HV.
  destruct (Z.testbit _ 0 && Z.testbit _ 2); [done|]. cbn [Z.eqb]. by apply wp_ret.
Qed.

(** ** freevm *)

(** The new address space is given up. *)
Lemma wp_abandon d s l T (Q : unit -> kmem -> Prop) : begun s l d T -> (forall s' l', given_back kend s0 l0 s' l' -> Q tt s') -> wp (freevm kend d) s Q.
Proof.
  intros [A K HL] HQ. apply (wp_freevm kend kend_range s l d T (others s0 d0 T0 F)); [done|]. intros s' l' I Hl K'. apply (HQ s' l'). constructor; [done|intros p; by rewrite (Hl p), HL|].
  intros q Hq Hql x Hx. rewrite (K' q); [by apply (K q)|done| |done]. intros Ho. apply Hql, HL. by right.
Qed.

(** The old one is. *)
Lemma wp_replace_space d top U s l T (Q : unit -> kmem -> Prop) : built d top U s l T ->
  (forall s' l', aspace kend s' l' d T F -> (forall va, 0 <= va < KERNBASE -> user_byte (kbytes s') d va = U va) ->
     (forall p, p ∈ l' \/ owned (kbytes s') d T p <-> p ∈ l0 \/ owned (kbytes s0) d0 T0 p) -> Q tt s') -> wp (freevm kend d0) s Q.
Proof.
  intros HB HQ. pose proof HB as [[A K HL] Bt B2 B3 B4]. destruct (parent_kept kend kend_range s0 l0 d0 T0 F A0 s l d T) as [Ap Ep]; [apply A|done|done|].
  apply (wp_freevm kend kend_range s l d0 T0 F); [done|]. intros s' l' I Hl K'. assert (Eo : forall p, owned (kbytes s) d0 T0 p <-> owned (kbytes s0) d0 T0 p) by (intros p; by apply owned_entries).
  assert (Hd : forall q, owned (kbytes s) d T q -> page_ok kend q /\ ~ owned (kbytes s) d0 T0 q).
  { intros q Hq. destruct (owned_page_ok kend _ _ _ _ _ _ A Hq) as (H1 & _ & H3). split; [done|]. rewrite Eo. intros Ho. apply H3. by right. }
  assert (HS : forall q, owned (kbytes s) d T q -> same_page (kbytes s) (kbytes s') q) by (intros q Hq; destruct (Hd q Hq); by apply K').
  destruct (aspace_regain kend s l d T (others s0 d0 T0 F) s' l' F kend_range A I) as [A' E'].
  - intros p Hp. apply Hl in Hp as [Hp|Hp]; [split; [by left|by apply (as_free _ _ _ _ _ _ Ap)]|]. rewrite Eo in Hp. destruct (owned_page_ok kend _ _ _ _ _ _ A0 Hp) as (_ & _ & ?). split; [right; by right|done].
  - intros p Hp. by left.
  - exact HS.
  - apply (HQ s' l'); [exact A'| |].
    + unfold KERNBASE. intros va Hva. rewrite <- B2 by (unfold KERNBASE; lia). rewrite (user_byte_pte kend kend_range s' l' d T F), (user_byte_pte kend kend_range s l d T (others s0 d0 T0 F)) by (done || lia). rewrite E' by zdm. unfold ubyte.
      destruct (Z.testbit (pte_of (kbytes s) T (va / 4096)) 0) eqn:HP; cbn [andb]; [|reflexivity]. destruct (Z.testbit (pte_of (kbytes s) T (va / 4096)) 2); [|reflexivity]. f_equal. apply (HS (page_of (pte_of (kbytes s) T (va / 4096)))); [|zdm]. right. right. exists (va / 4096). rewrite present_bit. split; [zdm|done].
    + intros p. rewrite (Hl p), (owned_entries (kbytes s) (kbytes s') d T p E'), Eo, (HL p). tauto.
Qed.
End Build.
