(* ===== verification/ExecSpec.v ===== *)
(** What exec() makes of a program: the file interface it relies on, the
    address space and the stack as functions of the file and the arguments,
    and each part of exec() against them. *)

From Stdlib Require Import ZArith Lia.
From stdpp Require Import base gmap strings numbers list.
From S2P Require Import Proc Prelude Kstring Mem Kalloc Vm VmSpec VmMap VmUser VmKernel VmFork VmCopy Fs FsFile File Sysfile Exec ExecMem.

Open Scope Z_scope.
Open Scope kern_scope.

(** ** A program on paper *)

(** What readi() returns of a file with the contents bs. *)
Definition file_read (bs : list Z) (off n : Z) : Z * list Z :=
  let size := Z.of_nat (length bs) in
  if (size <? off) || (2 ^ 32 <=? off + n) then (-1, []) else (Z.min n (size - off), slice bs off (Z.min n (size - off))).

(** The bytes of a header, if they are all there. *)
Definition header (bs : list Z) (off n : Z) : option (list Z) := if off + n <=? Z.of_nat (length bs) then Some (slice bs off n) else None.

(** The size of the process so far and what user code sees. *)
Definition uimage : Type := Z * (Z -> option Z).
Definition no_image : uimage := (0, fun _ => None).

Definition p_end (g : proghdr) : Z := p_vaddr g + p_memsz g.
Definition up (sz : Z) : Z := 4096 * ((sz + 4095) / 4096).

(** A segment above or over what is there: its bytes from the file, zeros up
    to its end. *)
Definition grown (st : uimage) (e : Z) : Z -> option Z :=
  fun va => if va <? up (fst st) then snd st va else if va <? up e then Some 0 else None.
Definition lay (bs : list Z) (st : uimage) (g : proghdr) : uimage :=
  (Z.max (fst st) (p_end g),
   fun va => if within (p_vaddr g) (p_filesz g) va then Some (aget 0 bs (p_off g + (va - p_vaddr g))) else grown st (p_end g) va).

Definition seg_ok (bs : list Z) (sz : Z) (g : proghdr) : bool :=
  (p_filesz g <=? p_memsz g) && (p_end g <? KERNBASE) && (0 <? Z.max sz (p_end g)) && (p_vaddr g mod 4096 =? 0) &&
  ((p_filesz g =? 0) || (p_off g + p_filesz g <=? Z.of_nat (length bs))).

(** One program header. *)
Definition seg_step (bs : list Z) (off : Z) (st : uimage) : option uimage :=
  match header bs (u32 off) sizeof_proghdr with
  | None => None
  | Some b =>
      let g := get_proghdr b in
      if negb (p_type g =? ELF_PROG_LOAD) then Some st else if seg_ok bs (fst st) g then Some (lay bs st g) else None
  end.

Fixpoint loads (bs : list Z) (n : nat) (off : Z) (st : uimage) : option uimage :=
  match n with
  | O => Some st
  | S n' => match seg_step bs off st with None => None | Some st' => loads bs n' (i32 (u32 off + sizeof_proghdr)) st' end
  end.

(** Where the strings go, below sp and above base + 4096. *)
Definition below (sp : Z) (a : list Z) : Z := let x := sp - (Z.of_nat (length a) + 1) in x - x mod 4.
Fixpoint pushes (base sp argc : Z) (argv : list (list Z)) : option (Z * list Z) :=
  match argv with
  | [] => Some (sp, [])
  | a :: r =>
      if (MAXARG <=? argc) || (below sp a <? base + 4096) then None
      else match pushes base (below sp a) (argc + 1) r with
           | None => None
           | Some (sp', ps) => Some (sp', below sp a :: ps)
           end
  end.

Definition ustack (sp argc : Z) (ps : list Z) : list Z := words ([0xffffffff; argc; sp + 12] ++ ps ++ [0]).

(** The strings and the words in the stack page. *)
Definition args_mem (U : Z -> option Z) (ps : list Z) (argv : list (list Z)) : Z -> option Z :=
  foldl (fun U x => over U (fst x) (snd x ++ [0])) U (zip ps argv).

Record started := mk_started { st_entry : Z; st_sz : Z; st_sp : Z; st_ptrs : list Z; st_mem : Z -> option Z }.

(** The guard page and the stack above the program. *)
Definition with_stack (base : Z) (U : Z -> option Z) : Z -> option Z :=
  fun va => if va / 4096 =? base / 4096 then None else if (base <=? va) && (va <? base + 8192) then Some 0 else U va.

(** The stack pointer and where the arguments are. *)
Definition stack_spec (base : Z) (argv : list (list Z)) : option (Z * list Z) :=
  if KERNBASE <=? base + 8192 then None
  else
    match pushes base (base + 8192) 0 argv with
    | None => None
    | Some (sp0, ps) =>
        let sp := sp0 - 4 * (4 + Z.of_nat (length argv)) in
        if sp <? base + 4096 then None else Some (sp, ps)
    end.
Definition stack_mem (base : Z) (U : Z -> option Z) (argv : list (list Z)) (sp : Z) (ps : list Z) : Z -> option Z :=
  over (args_mem (with_stack base U) ps argv) sp (ustack sp (Z.of_nat (length argv)) ps).

(** What exec() of the file bs makes of a process, if there is memory. *)
Definition load_spec (bs : list Z) (elf : elfhdr) (argv : list (list Z)) : option started :=
  match loads bs (Z.to_nat (e_phnum elf)) (i32 (e_phoff elf)) no_image with
  | None => None
  | Some st =>
      let base := up (fst st) in
      match stack_spec base argv with
      | None => None
      | Some (sp, ps) => Some (mk_started (e_entry elf) (base + 8192) sp ps (stack_mem base (snd st) argv sp ps))
      end
  end.
Definition exec_spec (bs : list Z) (argv : list (list Z)) : option started :=
  match header bs 0 sizeof_elfhdr with
  | None => None
  | Some b => let elf := get_elfhdr b in if negb (e_magic elf =? ELF_MAGIC) then None else load_spec bs elf argv
  end.

Lemma int_bytes_eq v : int_bytes v = [u32 v mod 2 ^ 8; u32 v / 2 ^ 8 mod 2 ^ 8; u32 v / 2 ^ 16 mod 2 ^ 8; u32 v / 2 ^ 24].
Proof. reflexivity. Qed.

Lemma words_bytes l : byte_list (words l) /\ Z.of_nat (length (words l)) = 4 * Z.of_nat (length l).
Proof.
  induction l as [|v l [IH1 IH2]]; [by split; [constructor|]|]. unfold words in *. rewrite bind_cons. split.
  - apply Forall_app. split; [|done]. rewrite int_bytes_eq. pose proof (u32_range v) as Hr. repeat constructor; zdm.
  - rewrite length_app, int_bytes_eq. cbn [length]. lia.
Qed.

Lemma low2_bits a : 0 <= a < 4294967296 -> Z.land a (u32 (Z.lnot 3)) = a - a mod 4.
Proof.
  intros Ha. assert (E : Z.land a (u32 (Z.lnot 3)) = Z.ldiff a (Z.ones 2)).
  { apply Z.bits_inj'. intros n Hn. rewrite Z.land_spec, Z.ldiff_spec. destruct (Z.ltb_spec n 32) as [H32|H32].
    - f_equal. change (u32 (Z.lnot 3)) with (Z.shiftl (Z.ones 30) 2). destruct (Z.ltb_spec n 2); [rewrite Z.shiftl_spec_low, Z.ones_spec_low by lia; done|]. rewrite Z.shiftl_spec, Z.ones_spec_low, Z.ones_spec_high by lia. done.
    - rewrite Z.bits_above_log2; [done|lia|]. apply Z.lt_le_trans with 32; [|done]. destruct (Z.eq_dec a 0) as [->|]; [done|]. apply Z.log2_lt_pow2; lia. }
  rewrite E, Z.ldiff_ones_r, Z.shiftr_div_pow2, Z.shiftl_mul_pow2 by lia. change (2 ^ 2) with 4. zdm.
Qed.

Lemma pushes_bound base argv : forall sp argc sp' ps, pushes base sp argc argv = Some (sp', ps) -> sp' <= sp /\ (argv <> [] -> base + 4096 <= sp') /\ (argv = [] \/ argc + Z.of_nat (length argv) <= 32) /\ length ps = length argv.
Proof.
  induction argv as [|a r IH]; intros sp argc sp' ps; cbn [pushes]; [intros [= -> <-]; split_and!; [lia|done|by left|done]|]. destruct ((MAXARG <=? argc) || _) eqn:E; [done|]. apply orb_false_iff in E as [E1%Z.leb_gt E2%Z.ltb_ge]. unfold MAXARG in E1.
  destruct (pushes base (below sp a) (argc + 1) r) as [[sp1 ps1]|] eqn:E; [|done]. intros [= -> <-]. destruct (IH _ _ _ _ E) as (I1 & I2 & I3 & I4). assert (Hb : below sp a <= sp) by (unfold below; zdm). cbn [length]. split_and!; [lia| | |lia].
  - intros _. destruct r; [cbn in E; injection E as <- _; done|by apply I2].
  - right. destruct I3 as [->|I3]; cbn [length]; lia.
Qed.

Lemma le32_range b o : byte_list b -> 0 <= le32 b o < 2 ^ 32.
Proof. intros Hb. unfold le32. pose proof (byte_aget b o Hb). pose proof (byte_aget b (o + 1) Hb). pose proof (byte_aget b (o + 2) Hb). pose proof (byte_aget b (o + 3) Hb). lia. Qed.

Lemma slice_len0 (bs : list Z) off n : 0 <= off -> 0 <= n -> (n = 0 \/ off + n <= Z.of_nat (length bs)) -> Z.of_nat (length (slice bs off n)) = n.
Proof. intros Ho Hn [->|Hl]; [done|]. rewrite slice_length by lia. lia. Qed.

(** ** The file *)

Section Run.
Context {B : Type} `{Blocks B} `{Journal B}.
Context (kend kdata : Z) (kend_range : KERNBASE < kend).
Context (kdata_range : KERNLINK < kdata < KERNBASE + PHYSTOP) (kdata_aligned : kdata mod 4096 = 0).
Context (pid : Z) (devread : Z -> option (Z -> Z -> M (fs (B := B)) (Z * list Z))).

(** From f0, the path leads to the inode of a file with the contents bs, which
    is locked (R) until it is given up (D). *)
Record program_file (f0 : fs (B := B)) (cwd : Z) (path bs : list Z) (R : Z -> fs (B := B) -> Prop) (D : fs (B := B) -> Prop) : Prop := {
  pf_open : wp (on_blk bl_begin_op) f0 (fun _ f => wp (namei pid devread cwd path) f (fun ip f => 0 <= ip /\ wp (ilock pid ip) f (fun _ f => R ip f)));
  pf_read : forall ip f off n, R ip f -> 0 <= off < 2 ^ 32 -> 0 <= n < 2 ^ 32 -> wp (readi devread ip off n) f (fun r f' => r = file_read bs off n /\ R ip f');
  pf_close : forall ip f, R ip f -> wp (iunlockput pid ip) f (fun _ f => wp (on_blk bl_end_op) f (fun _ f => D f))
}.

Context (k0 : kmem) (l0 : list Z) (d0 : Z) (T0 : Z -> Z) (F : Z -> Prop) (A0 : aspace kend k0 l0 d0 T0 F).
Context (f0 : fs (B := B)) (cwd : Z) (path bs : list Z) (R : Z -> fs (B := B) -> Prop) (D : fs (B := B) -> Prop) (PF : program_file f0 cwd path bs R D).
Context (Hbs : byte_list bs) (Hsize : Z.of_nat (length bs) < 2 ^ 31).

Section Open.
Context (ip : Z).

Abbreviation begun := (copy_fails kend k0 l0 d0 T0 F).
Abbreviation built := (built kend k0 l0 d0 T0 F).

Lemma wp_xread off n (s : xsys) (Q : Z * list Z -> xsys -> Prop) : R ip (xf s) -> 0 <= off < 2 ^ 32 -> 0 <= n < 2 ^ 32 ->
  (forall f', R ip f' -> Q (file_read bs off n) (set_xf f' s)) -> wp (on_f (readi devread ip off n)) s Q.
Proof. intros HR Ho Hn HQ. apply wp_zoom. eapply wp_mono; [by apply (pf_read _ _ _ _ _ _ PF)|]. intros r f' [-> HR']. by apply HQ. Qed.

Lemma file_read_byte off n : 0 <= off -> byte_list (snd (file_read bs off n)).
Proof. intros Ho. unfold file_read. destruct (_ || _); [constructor|]. cbn [snd]. unfold slice. by apply Forall_take, Forall_drop. Qed.

Lemma file_read_length off n : 0 <= off -> 0 <= n -> Z.of_nat (length (snd (file_read bs off n))) <= n.
Proof. intros Ho Hn. unfold file_read. destruct (_ || _); cbn [snd length]; [lia|]. unfold slice. rewrite length_take. lia. Qed.

(** A read that returns all that was asked for. *)
Lemma file_read_all off n : 0 <= off -> 0 < n < 2 ^ 31 -> file_read bs off n = if off + n <=? Z.of_nat (length bs) then (n, slice bs off n) else (fst (file_read bs off n), snd (file_read bs off n)).
Proof.
  intros Ho Hn. destruct (Z.leb_spec (off + n) (Z.of_nat (length bs))); [|by destruct (file_read bs off n)]. unfold file_read. replace (_ || _) with false; [by rewrite Z.min_l by lia|]. symmetry. apply orb_false_iff. rewrite Z.ltb_ge, Z.leb_gt. lia.
Qed.

Lemma file_read_count off n : 0 <= off -> 0 < n < 2 ^ 31 -> (fst (file_read bs off n) =? n) = (off + n <=? Z.of_nat (length bs)).
Proof.
  intros Ho Hn. unfold file_read. apply Bool.eq_iff_eq_true. rewrite Z.eqb_eq, Z.leb_le. destruct ((_ <? _) || _) eqn:E; cbn [fst].
  - apply orb_true_iff in E. rewrite Z.ltb_lt, Z.leb_le in E. lia.
  - apply orb_false_iff in E. rewrite Z.ltb_ge, Z.leb_gt in E. lia.
Qed.

(** ** loaduvm *)

Lemma wp_load_page d top U l T addr offset sz i w (s : xsys) (n := if sz - i <? 4096 then sz - i else 4096) (r := file_read bs (u32 (offset + i)) n) (Q : option Z -> xsys -> Prop) :
  built d top U (xk s) l T -> R ip (xf s) -> u32 (addr + i) = 4096 * w -> 0 <= w < 524288 -> U (4096 * w) <> None -> 0 <= i < sz ->
  (forall s', built d top (over U (4096 * w) (snd r)) (xk s') l T -> R ip (xf s') -> xp s' = xp s -> Q (if fst r =? n then None else Some (-1)) s') ->
  wp (load_page devread d addr ip offset sz i) s Q.
Proof.
  intros HB HR Ea Hw HU Hi HQ. pose proof (cf_aspace _ _ _ _ _ _ _ _ _ _ (bt_begun _ _ _ _ _ _ _ _ _ _ _ _ HB)) as A. destruct (built_page kend kend_range k0 l0 d0 T0 F d top U (xk s) l T (4096 * w) HB) as (HT & p & HUp & Hp); [unfold KERNBASE; lia|done|].
  replace (4096 * w / 4096) with w in HT, HUp by zdm. pose proof (page_range _ kend_range p Hp) as Hr. unfold load_page. rewrite Ea. apply wp_bind, wp_zoom. replace (4096 * w) with (4096 * w + 0) by lia. apply (wp_walk_find kend kend_range (xk s) l d T (others k0 d0 T0 F)); [done|lia|lia|].
  destruct (Z.eqb_spec (T (w / 1024)) 0); [done|]. pose proof (table_range _ kend_range _ _ _ _ _ w A ltac:(lia) HT) as Hr2. destruct (page_num_range w ltac:(lia)) as [Hi' _]. destruct (as_tab _ _ _ _ _ _ A _ Hi' HT) as (_ & Htp & _). pose proof (page_range _ kend_range _ Htp). replace (pte_addr T w =? 0) with false by lia.
  apply wp_bind, wp_zoom, wp_zoom, wp_gets. cbn [xk set_xk]. replace (ld32 (kbytes (xk s)) (pte_addr T w)) with (pte_of (kbytes (xk s)) T w) by (unfold pte_of; by destruct (Z.eqb_spec (T (w / 1024)) 0)).
  set (e := pte_of (kbytes (xk s)) T w) in *. destruct HUp as [HU1 Ep]. fold e in HU1, Ep. unfold PGSIZE. fold n. fold (page_of e). rewrite Ep. unfold readi_to.
  assert (Hn : 0 < n <= 4096) by (unfold n; destruct (Z.ltb_spec (sz - i) 4096); lia). assert (Hu : 0 <= u32 (offset + i) < 4294967296) by (unfold u32; zdm).
  apply wp_bind, wp_bind. apply wp_xread; [done|lia|lia|]. fold r. intros f' HR'. pose proof (file_read_byte (u32 (offset + i)) n ltac:(lia)) as Hb. pose proof (file_read_length (u32 (offset + i)) n ltac:(lia) ltac:(lia)) as Hl. fold r in Hb, Hl. destruct r as [c b] eqn:Er. cbn [fst snd] in *.
  apply wp_bind, wp_zoom, wp_zoom, wp_put_bytes; [lia|lia|done|apply A|]. intros m' Hm Hm'. apply wp_ret. destruct (c =? n) eqn:Ec; cbn [negb]; apply wp_ret; apply HQ; try done.
  all: replace (4096 * w) with (4096 * w + 0) by lia; apply (built_write kend kend_range k0 l0 d0 T0 F d top U (xk s) l T w p 0 b m' HB); [lia|by split|lia|lia|done|]; by rewrite Z.add_0_r.
Qed.

Lemma wp_loaduvm d top U l T addr offset sz (s : xsys) (Q : Z -> xsys -> Prop) : built d top U (xk s) l T -> R ip (xf s) -> 0 <= addr -> addr mod 4096 = 0 -> 0 <= sz -> addr + sz <= 4096 * top ->
  (forall va, addr <= va < addr + sz -> U va <> None) -> 0 <= offset < 2 ^ 32 ->
  (sz = 0 \/ offset + sz <= Z.of_nat (length bs) -> forall s', built d top (over U addr (slice bs offset sz)) (xk s') l T -> R ip (xf s') -> xp s' = xp s -> Q 0 s') ->
  (0 < sz -> Z.of_nat (length bs) < offset + sz -> forall s', begun (xk s') l d T -> R ip (xf s') -> xp s' = xp s -> Q (-1) s') ->
  wp (loaduvm devread d addr ip offset sz) s Q.
Proof.
  intros HB HR Ha Hm Hsz Hlim HU Ho HQ Hbad. pose proof (bt_top _ _ _ _ _ _ _ _ _ _ _ _ HB) as Ht. set (len := Z.of_nat (length bs)) in *. unfold loaduvm, PGSIZE. rewrite Hm. cbn [Z.eqb negb].
  apply wp_bind, (wp_search (fun k s' => let m := Z.min (4096 * k) sz in built d top (over U addr (slice bs offset m)) (xk s') l T /\ R ip (xf s') /\ xp s' = xp s /\ (m = 0 \/ offset + m <= len))).
  - cbn zeta. rewrite Z.min_l by lia. split; [|split; [done|split; [done|by left]]]. eapply built_ext; [done|]. intros va _. apply over_nil.
  - cbn zeta. intros k s' Hk (HB' & HR' & Hp' & Hc). rewrite Z.min_l in * by zdm. set (i := 4096 * k) in *. assert (Hi : 0 <= i < sz) by (unfold i; zdm). replace (k * 4096) with i by (unfold i; lia). pose proof (slice_len0 bs offset i ltac:(lia) ltac:(lia) ltac:(destruct Hc; [by left|by right])) as L1.
    set (w := (addr + i) / 4096). assert (Hw : addr + i = 4096 * w) by (unfold w, i; zdm). set (n := if sz - i <? 4096 then sz - i else 4096). assert (Hn : 0 < n <= 4096 /\ i + n <= sz /\ Z.min (4096 * (k + 1)) sz = i + n) by (unfold n, i; destruct (Z.ltb_spec (sz - 4096 * k) 4096); lia).
    assert (Eo : u32 (offset + i) = offset + i) by (apply u32_small; unfold len in *; lia).
    apply (wp_load_page d top (over U addr (slice bs offset i)) l T addr offset sz i w); [done|done|rewrite u32_small; lia|lia| |done|].
    { unfold over. destruct (within _ _ _); [done|]. apply HU. lia. }
    intros s2 HB2 HR2 Hp2. fold n in HB2 |- *. rewrite Eo in *. rewrite file_read_count by lia. fold len. destruct (Z.leb_spec (offset + i + n) len) as [Hl|Hl].
    + cbn zeta. destruct Hn as (Hn1 & Hn2 & ->). split; [|split; [done|split; [congruence|right; lia]]]. rewrite file_read_all in HB2 by lia. fold len in HB2. rewrite (proj2 (Z.leb_le _ _)) in HB2 by done. cbn [snd] in HB2.
      eapply built_ext; [exact HB2|]. intros va _. rewrite slice_app, <- over_app, L1, Hw by lia. done.
    + apply wp_ret. apply Hbad; [lia|lia|exact (bt_begun _ _ _ _ _ _ _ _ _ _ _ _ HB2)|done|congruence].
  - cbn zeta. intros s' (HB' & HR' & Hp' & Hc). apply wp_ret. rewrite Z.min_r in * by zdm. by apply HQ.
Qed.

(** ** The program headers *)

(** All of the first [top] pages can be used. *)
Definition all_usable (top : Z) (U : Z -> option Z) : Prop := forall va, 0 <= va < KERNBASE -> U va <> None <-> va < 4096 * top.

(** The image so far, in memory. *)
Definition laid (d : Z) (st : uimage) (s : xsys (B := B)) : Prop :=
  0 <= fst st < KERNBASE /\ all_usable ((fst st + 4095) / 4096) (snd st) /\ exists l T, built d ((fst st + 4095) / 4096) (snd st) (xk s) l T.

Definition given_up (d : Z) (s : xsys (B := B)) : Prop := exists l T, begun (xk s) l d T.

Lemma laid_given_up d st s : laid d st s -> given_up d s.
Proof. intros (_ & _ & l & T & HB). exists l, T. apply HB. Qed.

Lemma wp_alloc_seg d st e (s : xsys) (Q : Z -> xsys -> Prop) : laid d st s -> 0 <= e ->
  (forall s', given_up d s' -> xf s' = xf s -> xp s' = xp s -> KERNBASE <= e \/ exhausted l0 ((e + 4095) / 4096) -> Q 0 s') ->
  (forall s' (sz := Z.max (fst st) e) l T, sz < KERNBASE -> built d ((sz + 4095) / 4096) (grown st e) (xk s') l T -> all_usable ((sz + 4095) / 4096) (grown st e) -> xf s' = xf s -> xp s' = xp s -> Q sz s') ->
  wp (on_k (allocuvm kend d (fst st) e)) s Q.
Proof.
  intros (Hsz & HA & l & T & HB) He Hbad HQ. set (t := (fst st + 4095) / 4096) in *. unfold KERNBASE in Hsz. assert (Ht : 0 <= t <= 524288) by (unfold t; zdm).
  assert (HN : forall va, 0 <= va < KERNBASE -> 4096 * t <= va -> snd st va = None) by (intros va Hva Hge; destruct (snd st va) eqn:E; [|done]; assert (va < 4096 * t) by (apply HA; [done|congruence]); lia).
  apply wp_zoom. apply (wp_grow kend kend_range k0 l0 d0 T0 F d t (snd st) (xk s) l T); [done|unfold KERNBASE; lia|done|done| | |].
  - intros k' l' T' HB' Hr. apply Hbad; [by exists l', T'|done|done|done].
  - intros Hlt. specialize (HQ (set_xk (xk s) s) l T). cbn zeta in HQ. rewrite Z.max_l in HQ by lia. fold t in HQ. assert (Eg : forall va, 0 <= va < KERNBASE -> grown st e va = snd st va).
    { intros va Hva. unfold grown, up. fold t. destruct (Z.ltb_spec va (4096 * t)); [done|]. rewrite (proj2 (Z.ltb_ge _ _)) by (unfold t in *; zdm). symmetry. apply HN; [done|lia]. }
    apply HQ; [unfold KERNBASE; lia|by eapply built_ext| |done|done]. intros va Hva. rewrite Eg by done. by apply HA.
  - intros k' l' T' Hr HB'. specialize (HQ (set_xk k' s) l' T'). cbn zeta in HQ. rewrite Z.max_r in HQ by lia. assert (Eg : forall va, 0 <= va < KERNBASE -> grown st e va = if (4096 * t <=? va) && (va <? 4096 * ((e + 4095) / 4096)) then Some 0 else snd st va).
    { intros va Hva. unfold grown, up. fold t. destruct (Z.ltb_spec va (4096 * t)); [by rewrite (proj2 (Z.leb_gt _ _)) by lia|]. rewrite (proj2 (Z.leb_le _ _)) by lia. cbn [andb]. destruct (_ <? _); [done|]. symmetry. by apply HN. }
    apply HQ; [lia|by eapply built_ext| |done|done]. intros va Hva. rewrite Eg by done. unfold KERNBASE in *. assert (Hte : t <= (e + 4095) / 4096) by (unfold t; zdm). destruct (Z.leb_spec (4096 * t) va); cbn [andb].
    + destruct (Z.ltb_spec va (4096 * ((e + 4095) / 4096))); [done|]. rewrite HN by done. split; [done|lia].
    + rewrite (HA va) by (unfold KERNBASE; lia). lia.
Qed.

Lemma header_read off n : 0 <= off -> 0 < n < 2 ^ 31 -> match header bs off n with Some b => file_read bs off n = (n, b) /\ byte_list b | None => (fst (file_read bs off n) =? n) = false end.
Proof.
  intros Ho Hn. unfold header. pose proof (file_read_all off n Ho Hn) as E. pose proof (file_read_count off n Ho Hn) as C. pose proof (file_read_byte off n Ho) as Y. destruct (off + n <=? Z.of_nat (length bs)); [|done]. rewrite E in *. done.
Qed.

Lemma lay_usable st g top : all_usable top (grown st (p_end g)) -> p_vaddr g + p_filesz g <= 4096 * top -> 0 <= p_vaddr g -> all_usable top (snd (lay bs st g)).
Proof.
  intros HA Hl Hv va Hva. cbn [lay snd]. destruct (within _ _ va) eqn:E; [|by apply HA]. apply within_true in E. split; [lia|done].
Qed.

Lemma wp_load_segment d st off (s : xsys) (Q : option Z -> xsys -> Prop) : laid d st s -> R ip (xf s) ->
  (forall s', given_up d s' -> R ip (xf s') -> xp s' = xp s -> seg_step bs off st = None \/ (exists st', seg_step bs off st = Some st' /\ exhausted l0 ((fst st' + 4095) / 4096)) -> Q None s') ->
  (forall s' st', seg_step bs off st = Some st' -> laid d st' s' -> R ip (xf s') -> xp s' = xp s -> Q (Some (fst st')) s') ->
  wp (load_segment kend devread ip d off (fst st)) s Q.
Proof.
  intros HL HR Hbad HQ. pose proof (proj1 HL) as Hst0. unfold load_segment. assert (Hu : 0 <= u32 off < 4294967296) by (unfold u32; zdm). apply wp_bind, wp_xread; [done|lia|unfold sizeof_proghdr; lia|]. intros f' HR'. pose proof (header_read (u32 off) sizeof_proghdr ltac:(lia) ltac:(unfold sizeof_proghdr; lia)) as HH. unfold seg_step in Hbad, HQ.
  assert (HL' : laid d st (set_xf f' s)) by exact HL. destruct (header bs (u32 off) sizeof_proghdr) as [b|].
  2:{ destruct (file_read bs (u32 off) sizeof_proghdr) as [r b']. cbn [fst] in HH. rewrite HH. cbn [negb]. apply wp_ret. apply Hbad; [by eapply laid_given_up|done|done|by left]. }
  destruct HH as [-> Hb]. rewrite Z.eqb_refl. cbn [negb]. set (g := get_proghdr b) in *. destruct (negb (p_type g =? ELF_PROG_LOAD)); [apply wp_ret; by apply (HQ _ st)|].
  assert (Hg : 0 <= p_vaddr g < 2 ^ 32 /\ 0 <= p_memsz g < 2 ^ 32 /\ 0 <= p_filesz g < 2 ^ 32 /\ 0 <= p_off g < 2 ^ 32) by (split_and!; apply le32_range; done). destruct Hg as (G1 & G2 & G3 & G4).
  assert (HF : forall s', given_up d s' -> R ip (xf s') -> xp s' = xp s -> seg_ok bs (fst st) g = false -> Q None s') by (intros s' H1 H2 H3 E; apply Hbad; [done|done|done|left; by rewrite E]). unfold seg_ok in HF.
  destruct (Z.ltb_spec (p_memsz g) (p_filesz g)) as [Hm|Hm]; [apply wp_ret, HF; [by eapply laid_given_up|done|done|by rewrite (proj2 (Z.leb_gt _ _)) by lia]|].
  fold (p_end g). destruct (Z.ltb_spec (p_end g) (2 ^ 32)) as [Hw|Hw].
  2:{ replace (u32 (p_end g) <? p_vaddr g) with true by (symmetry; apply Z.ltb_lt; unfold u32, p_end in *; zdm). apply wp_ret, HF; [by eapply laid_given_up|done|done|]. rewrite (proj2 (Z.ltb_ge (p_end g) _)) by (unfold KERNBASE; lia). by rewrite !andb_false_r. }
  rewrite u32_small by (unfold p_end in *; lia). rewrite (proj2 (Z.ltb_ge (p_end g) _)) by (unfold p_end; lia). apply wp_bind. apply wp_alloc_seg; [done|unfold p_end; lia| |].
  - intros s' HG Ef Ep Hr. cbn [Z.eqb]. apply wp_ret. apply Hbad; [done|by rewrite Ef|by rewrite Ep|]. destruct (seg_ok bs (fst st) g) eqn:Es; [right|by left]. exists (lay bs st g). split; [done|]. destruct Hr as [Hr|Hr].
    + exfalso. unfold seg_ok in Es. rewrite (proj2 (Z.ltb_ge (p_end g) _)) in Es by lia. by rewrite !andb_false_r in Es.
    + eapply exhausted_mono; [exact Hr|]. cbn [lay fst]. apply Z.div_le_mono; lia.
  - intros s' sz l T Hsz HB HA Ef Ep. change (xp (set_xf f' s)) with (xp s) in Ep. assert (HG : given_up d s') by (exists l, T; apply HB). destruct (Z.eqb_spec sz 0) as [E0|E0].
    { apply wp_ret, HF; [done|by rewrite Ef|by rewrite Ep|]. fold sz. rewrite E0. change (0 <? 0) with false. by rewrite andb_false_r. }
    change PGSIZE with 4096. destruct (Z.eqb_spec (p_vaddr g mod 4096) 0) as [Ea|Ea]; cbn [negb].
    2:{ apply wp_ret, HF; [done|by rewrite Ef|by rewrite Ep|]. by rewrite andb_false_r. }
    apply wp_bind. assert (Hend : p_vaddr g + p_filesz g <= 4096 * ((sz + 4095) / 4096)) by (unfold sz, p_end in *; zdm). unfold KERNBASE in Hsz.
    apply (wp_loaduvm d ((sz + 4095) / 4096) (grown st (p_end g)) l T); [done|by rewrite Ef|lia|done|lia|done| |lia| |].
    + intros va Hva. apply HA; [unfold KERNBASE, sz, p_end in *; lia|lia].
    + intros Hc s2 HB2 HR2 Hp2. cbn [Z.ltb Z.compare]. apply wp_ret. apply (HQ s2 (lay bs st g)); [|split; [cbn [lay fst]; fold sz; unfold KERNBASE, sz; lia|split; [cbn [lay fst]; fold sz; by apply lay_usable; try lia|]]|done|congruence].
      * replace (seg_ok bs (fst st) g) with true; [done|]. symmetry. unfold seg_ok. rewrite !andb_true_iff, orb_true_iff, !Z.leb_le, !Z.ltb_lt, !Z.eqb_eq. unfold KERNBASE, sz in *. split_and!; lia.
      * exists l, T. cbn [lay fst]. fold sz. eapply built_ext; [exact HB2|]. intros va Hva. cbn [snd lay]. unfold over. rewrite slice_len0 by (lia || tauto). destruct (within (p_vaddr g) (p_filesz g) va) eqn:Ew; [|done]. apply within_true in Ew. by rewrite aget_take_drop by lia.
    + intros Hp Hc s2 HB2 HR2 Hp2. cbn [Z.ltb Z.compare]. apply wp_ret, HF; [by exists l, T|done|congruence|]. rewrite (proj2 (Z.eqb_neq (p_filesz g) 0)) by lia. rewrite (proj2 (Z.leb_gt (p_off g + p_filesz g) _)) by lia. by rewrite !andb_false_r.
Qed.

Lemma seg_step_mono off st st' : seg_step bs off st = Some st' -> fst st <= fst st'.
Proof. unfold seg_step. destruct (header _ _ _); [|done]. destruct (negb _); [by intros [= ->]|]. destruct (seg_ok _ _ _); [|done]. intros [= <-]. cbn. lia. Qed.

Lemma loads_mono n : forall off st st', loads bs n off st = Some st' -> fst st <= fst st'.
Proof.
  induction n as [|n IH]; intros off st st'; cbn [loads]; [by intros [= ->]|]. destruct (seg_step bs off st) as [st1|] eqn:E; [|done]. intros HL. apply seg_step_mono in E. apply IH in HL. lia.
Qed.

Lemma wp_load_segments d n : forall off st (s : xsys) (Q : option Z -> xsys -> Prop), laid d st s -> R ip (xf s) ->
  (forall s', given_up d s' -> R ip (xf s') -> xp s' = xp s -> loads bs n off st = None \/ (exists st', loads bs n off st = Some st' /\ exhausted l0 ((fst st' + 4095) / 4096)) -> Q None s') ->
  (forall s' st', loads bs n off st = Some st' -> laid d st' s' -> R ip (xf s') -> xp s' = xp s -> Q (Some (fst st')) s') ->
  wp (load_segments kend devread n ip d off (fst st)) s Q.
Proof.
  induction n as [|n IH]; intros off st s Q HL HR Hbad HQ; cbn [load_segments loads] in *; [apply wp_ret; by apply HQ|]. apply wp_bind. apply wp_load_segment; [done|done| |].
  - intros s' HG HR' Hp Hr. apply wp_ret, Hbad; [done|done|done|]. destruct Hr as [->|(st1 & -> & Hx)]; [by left|]. destruct (loads bs n _ st1) as [st'|] eqn:E; [right|by left]. exists st'. split; [done|]. eapply exhausted_mono; [exact Hx|]. apply loads_mono in E. apply Z.div_le_mono; lia.
  - intros s1 st1 E1 HL1 HR1 Hp1. rewrite E1 in Hbad, HQ. apply IH; [done|done| |].
    + intros s' HG HR' Hp Hr. apply Hbad; [done|done|congruence|done].
    + intros s' st' E HL' HR' Hp. apply HQ; [done|done|done|congruence].
Qed.

(** ** The stack *)

(** A stack page above a guard page. *)
Definition has_stack (base : Z) (U : Z -> option Z) : Prop :=
  (forall va, base + 4096 <= va < base + 8192 -> U va <> None) /\ forall va, base <= va < base + 4096 -> U va = None.

Lemma over_stack base U a b : has_stack base U -> base + 4096 <= a -> has_stack base (over U a b).
Proof.
  intros [H1 H2] Ha. split; intros va Hva; unfold over.
  - destruct (within _ _ va); [done|by apply H1].
  - rewrite (proj2 (within_false _ _ _)) by lia. by apply H2.
Qed.

Definition good_arg (a : list Z) : Prop := byte_list a /\ Z.of_nat (length a) < 4096.

Lemma wp_push_args d base l T argv : forall U argc sp ps (s : xsys) (Q : option (Z * list Z) -> xsys -> Prop), built d (base / 4096 + 2) U (xk s) l T -> has_stack base U ->
  base mod 4096 = 0 -> 0 <= base -> base + 8192 <= KERNBASE -> base + 4096 <= sp <= base + 8192 -> Forall good_arg argv ->
  (pushes base sp argc argv = None -> forall s', given_up d s' -> xf s' = xf s -> xp s' = xp s -> Q None s') ->
  (forall sp' ps' s', pushes base sp argc argv = Some (sp', ps') -> built d (base / 4096 + 2) (args_mem U ps' argv) (xk s') l T -> has_stack base (args_mem U ps' argv) -> xf s' = xf s -> xp s' = xp s -> Q (Some (sp', ps ++ ps')) s') ->
  wp (push_args d sp argc argv ps) s Q.
Proof.
  unfold KERNBASE. induction argv as [|a r IH]; intros U argc sp ps s Q HB HS Hm Hb0 Hlim Hsp Hg Hbad HQ; cbn [push_args pushes] in *.
  { apply wp_ret. specialize (HQ sp [] s eq_refl HB HS eq_refl eq_refl). by rewrite app_nil_r in HQ. }
  apply Forall_cons in Hg as [[Ha Hal] Hg]. rewrite Z.geb_leb. destruct (MAXARG <=? argc); cbn [orb] in *; [apply wp_ret, Hbad; [done|exists l, T; apply HB|done|done]|].
  rewrite (u32_small (sp - _)), low2_bits by lia. change (sp - (Z.of_nat (length a) + 1) - _) with (below sp a). assert (Hbel : base <= below sp a /\ below sp a + Z.of_nat (length a) + 1 <= sp) by (unfold below; zdm).
  assert (Hba : byte_list (a ++ [0])) by (apply Forall_app; split; [done|]; constructor; [lia|constructor]). assert (Hla : Z.of_nat (length (a ++ [0])) = Z.of_nat (length a) + 1) by (rewrite length_app; cbn; lia).
  apply wp_bind, wp_zoom. destruct (Z.ltb_spec (below sp a) (base + 4096)) as [Hlt|Hge].
  - apply (wp_copyout_guard kend kend_range k0 l0 d0 T0 F d l T (xk s) _ _ (base / 4096 + 2) U); [done|lia|zdm|by destruct a|apply (proj2 HS); lia|]. cbn [Z.ltb Z.compare]. apply wp_ret, Hbad; [done|exists l, T; apply HB|done|done].
  - apply (wp_copyout_bytes kend kend_range k0 l0 d0 T0 F d l T (xk s) _ _ (base / 4096 + 2) U); [done|lia|unfold KERNBASE; lia|done|intros va Hva; apply (proj1 HS); lia|]. intros k' HB'. cbn [Z.ltb Z.compare].
    apply (IH (over U (below sp a) (a ++ [0]))); [done|by apply over_stack|done|done|done|lia|done| |].
    + intros E. apply Hbad. by rewrite E.
    + intros sp' ps' s' E HB2 HS2 Hf2 Hp2. specialize (HQ sp' (below sp a :: ps') s'). rewrite E in HQ. rewrite <- app_assoc. cbn [app]. by apply HQ.
Qed.

Lemma stack_usable base U : 0 <= base -> base mod 4096 = 0 -> has_stack base (with_stack base U).
Proof.
  intros Hb Hm. split; intros va Hva; unfold with_stack.
  - rewrite (proj2 (Z.eqb_neq _ _)) by zdm. by rewrite (proj2 (Z.leb_le _ _)), (proj2 (Z.ltb_lt _ _)) by lia.
  - by rewrite (proj2 (Z.eqb_eq _ _)) by zdm.
Qed.

Lemma wp_make_stack d st argv (s : xsys) (base := up (fst st)) (Q : option (Z * Z) -> xsys -> Prop) : laid d st s -> Forall good_arg argv ->
  (forall s', given_up d s' -> xf s' = xf s -> xp s' = xp s -> stack_spec base argv = None \/ exhausted l0 (base / 4096 + 2) -> Q None s') ->
  (forall sp ps s' l T, stack_spec base argv = Some (sp, ps) -> built d (base / 4096 + 2) (stack_mem base (snd st) argv sp ps) (xk s') l T -> xf s' = xf s -> xp s' = xp s -> Q (Some (base + 8192, sp)) s') ->
  wp (make_stack kend d (fst st) argv) s Q.
Proof.
  intros HL Hg Hbad HQ. pose proof HL as (Hsz & HA & l & T & HB). unfold KERNBASE in Hsz. unfold make_stack. rewrite PGROUNDUP_eq by lia. replace ((fst st + 4095) / 4096 * 4096) with base by (unfold base, up; lia). set (t := (fst st + 4095) / 4096) in *.
  assert (Hb : base = 4096 * t /\ 0 <= t <= 524288 /\ up base = base /\ up (base + 8192) = base + 8192) by (unfold base, up, t; zdm). destruct Hb as (Eb & Ht & Hu & Hu2). unfold PGSIZE. change (2 * 4096) with 8192. rewrite (u32_small (base + 8192)) by lia. unfold stack_spec in Hbad, HQ.
  destruct (Z.leb_spec KERNBASE (base + 8192)) as [Hk|Hk].
  { apply wp_bind, wp_zoom. unfold allocuvm. replace (base + 8192 >=? KERNBASE) with true by lia. apply wp_ret. cbn [Z.eqb]. apply wp_ret, Hbad; [exists l, T; apply HB|done|done|by left]. }
  unfold KERNBASE in Hk. assert (Et : (base + 4095) / 4096 = t /\ base / 4096 = t) by (rewrite Eb; zdm). destruct Et as [Et Et2]. rewrite Et2 in *. assert (HLb : laid d (base, snd st) s) by (unfold laid; cbn [fst snd]; rewrite Et; split; [unfold KERNBASE; lia|]; split; [done|by exists l, T]).
  apply wp_bind. apply (wp_alloc_seg d (base, snd st)); [done|lia| |].
  - intros s' HG Ef Ep Hr. cbn [Z.eqb]. apply wp_ret, Hbad; [done|done|done|]. right. destruct Hr as [Hr|Hr]; [unfold KERNBASE in Hr; lia|]. by replace ((base + 8192 + 4095) / 4096) with (t + 2) in Hr by (rewrite Eb; zdm).
  - intros s1 sz l1 T1 _ HB1 _ Ef1 Ep1. assert (Esz : sz = base + 8192) by (unfold sz; cbn [fst]; lia). rewrite Esz in *. replace ((base + 8192 + 4095) / 4096) with (t + 2) in HB1 by (rewrite Eb; zdm). replace (base + 8192 =? 0) with false by lia.
    apply wp_bind, wp_zoom. replace (u32 (base + 8192 - 8192)) with (4096 * t) by (rewrite u32_small; lia). apply (wp_clear_page kend kend_range k0 l0 d0 T0 F d (t + 2) (grown (base, snd st) (base + 8192)) (xk s1) l1 T1); [done|lia|]. intros k2 T2 HB2. set (s2 := set_xk k2 s1).
    assert (HB3 : built d (base / 4096 + 2) (with_stack base (snd st)) (xk s2) l1 T2).
    { rewrite Et2. eapply built_ext; [exact HB2|]. intros va Hva. unfold with_stack, grown. cbn [fst snd]. rewrite Hu, Hu2, Et2. destruct (va / 4096 =? t) eqn:Ep; [done|]. destruct (Z.leb_spec base va) as [H1|H1]; cbn [andb].
      - rewrite (proj2 (Z.ltb_ge va base)) by lia. destruct (va <? base + 8192) eqn:E8; [done|]. destruct (snd st va) eqn:E; [|done]. assert (va < 4096 * t) by (apply HA; [done|congruence]). lia.
      - by rewrite (proj2 (Z.ltb_lt va base)) by lia. }
    apply wp_bind. apply (wp_push_args d base l1 T2 argv (with_stack base (snd st)) 0 (base + 8192) []); [done|apply stack_usable; [lia|rewrite Eb; zdm]|rewrite Eb; zdm|lia|unfold KERNBASE; lia|lia|done| |].
    + intros E s' HG Ef Ep. apply wp_ret, Hbad; [done|by rewrite Ef|by rewrite Ep|]. left. by rewrite E.
    + intros sp0 ps s3 E HB4 HS4 Ef3 Ep3. cbn [app]. destruct (pushes_bound _ _ _ _ _ _ E) as (P1 & P2 & P3 & P4). assert (Hargc : 0 <= Z.of_nat (length argv) <= 32) by (destruct P3 as [->|P3]; cbn; lia). assert (Hsp0 : base + 4096 <= sp0) by (destruct argv; [cbn in E; injection E as <- _; lia|by apply P2]).
      rewrite E in Hbad, HQ. set (argc := Z.of_nat (length argv)) in *. replace (u32 (sp0 - (3 + argc + 1) * 4)) with (sp0 - 4 * (4 + argc)) by (rewrite u32_small; lia). set (sp := sp0 - 4 * (4 + argc)) in *. replace (u32 (sp0 - (argc + 1) * 4)) with (sp + 12) by (unfold sp; rewrite u32_small; lia).
      destruct (words_bytes ([0xffffffff; argc; sp + 12] ++ ps ++ [0])) as [W1 W2]. fold (ustack sp argc ps) in W1, W2. change (words (0xffffffff :: argc :: sp + 12 :: ps ++ [0])) with (ustack sp argc ps). rewrite !length_app in W2. cbn [length] in W2. rewrite P4 in W2. rewrite <- Et2 in *.
      apply wp_bind, wp_zoom. destruct (Z.ltb_spec sp (base + 4096)) as [Hlt|Hge].
      * apply (wp_copyout_guard kend kend_range k0 l0 d0 T0 F d l1 T2 (xk s3) _ _ (base / 4096 + 2) (args_mem (with_stack base (snd st)) ps argv)); [done|unfold sp; lia|rewrite Et2; unfold sp in *; zdm|done|apply (proj2 HS4); unfold sp; lia|]. cbn [Z.ltb Z.compare]. apply wp_ret, Hbad; [exists l1, T2; apply HB4|(transitivity (xf s2); [exact Ef3|exact Ef1])|(transitivity (xp s2); [exact Ep3|exact Ep1])|by left].
      * apply (wp_copyout_bytes kend kend_range k0 l0 d0 T0 F d l1 T2 (xk s3) _ _ (base / 4096 + 2) (args_mem (with_stack base (snd st)) ps argv)); [done|unfold sp in *; lia|unfold KERNBASE, sp, argc in *; lia|done|intros va Hva; apply (proj1 HS4); unfold sp, argc in *; lia|]. intros k4 HB5. cbn [Z.ltb Z.compare]. apply wp_ret.
        apply (HQ sp ps _ l1 T2); [done|exact HB5|(transitivity (xf s2); [exact Ef3|exact Ef1])|(transitivity (xp s2); [exact Ep3|exact Ep1])].
Qed.

(** ** exec *)

(** The file is given up. *)
Lemma wp_close (s : xsys) (Q : unit -> xsys -> Prop) : R ip (xf s) -> (forall f', D f' -> Q tt (set_xf f' s)) -> wp (on_f (iunlockput pid ip) ;;; x_end_op) s Q.
Proof.
  intros HR HQ. apply wp_bind, wp_zoom. eapply wp_mono; [by apply (pf_close _ _ _ _ _ _ PF)|]. intros [] f1 H1. apply wp_zoom. eapply wp_mono; [exact H1|]. intros [] f2 H2. by apply HQ.
Qed.

Lemma wp_then_close {A} (m : M xsys A) (s : xsys) (Q : A -> xsys -> Prop) : R ip (xf s) -> (forall f', D f' -> wp m (set_xf f' s) Q) -> wp (on_f (iunlockput pid ip) ;;; (x_end_op ;;; m)) s Q.
Proof.
  intros HR HQ. apply wp_bind. pose proof (wp_close s (fun _ s' => wp m s' Q) HR HQ) as W. unfold wp at 1 in W. unfold bind in W. unfold wp. destruct (on_f (iunlockput pid ip) s) as [[] s1| | |]; try done. unfold bind. destruct (x_end_op s1) as [[] s2| | |]; done.
Qed.

Lemma wp_bad_early (s : xsys) l (Q : Z -> xsys -> Prop) : given_back kend k0 l0 (xk s) l -> R ip (xf s) -> (forall f', D f' -> Q (-1) (set_xf f' s)) -> wp (exec_bad kend pid 0 (Some ip)) s Q.
Proof. intros HG HR HQ. unfold exec_bad. cbn [Z.eqb negb when]. apply wp_bind, wp_ret, wp_bind, wp_close; [done|]. intros f' HD. by apply wp_ret, HQ. Qed.

Lemma wp_bad d i (s : xsys) (Q : Z -> xsys -> Prop) : d <> 0 -> given_up d s -> match i with Some i => i = ip /\ R ip (xf s) | None => D (xf s) end ->
  (forall s' l', given_back kend k0 l0 (xk s') l' -> D (xf s') -> xp s' = xp s -> Q (-1) s') -> wp (exec_bad kend pid d i) s Q.
Proof.
  intros Hd (l & T & HB) Hi HQ. unfold exec_bad. rewrite (proj2 (Z.eqb_neq _ _) Hd). cbn [negb when]. apply wp_bind, wp_zoom. apply (wp_abandon kend kend_range k0 l0 d0 T0 F d (xk s) l T); [done|]. intros k' l' HG. destruct i as [i|].
  - destruct Hi as [-> HR]. apply wp_bind, wp_close; [done|]. intros f' HD. apply wp_ret. by apply (HQ _ l').
  - apply wp_bind, wp_ret, wp_ret. by apply (HQ _ l').
Qed.

Lemma given_back_refl : given_back kend k0 l0 k0 l0.
Proof. constructor; [apply A0|done|]. by intros q _ _ x _. Qed.

(** The process is as the program says. *)
Definition runs (x : started) (p : xproc) (s' : xsys (B := B)) : Prop := exists d l' T',
  aspace kend (xk s') l' d T' F /\ (forall va, 0 <= va < KERNBASE -> user_byte (kbytes (xk s')) d va = st_mem x va) /\
  (forall q, q ∈ l' \/ owned (kbytes (xk s')) d T' q <-> q ∈ l0 \/ owned (kbytes k0) d0 T0 q) /\
  xp s' = mk_xproc d (st_sz x) (st_entry x) (st_sp x) (name_copy (x_name p) (last_elem path path) 16) (x_cwd p).
(** It is as it was, and so are the free pages. *)
Definition unchanged (p : xproc) (s' : xsys (B := B)) : Prop := xp s' = p /\ exists l', given_back kend k0 l0 (xk s') l'.
Definition hopeless (o : option started) : Prop := match o with None => True | Some x => exhausted l0 (st_sz x / 4096) end.

Lemma wp_exec_load elf argv (s : xsys) (Q : Z -> xsys -> Prop) : xk s = k0 -> R ip (xf s) -> x_pgdir (xp s) = d0 -> Forall good_arg argv ->
  (forall s', unchanged (xp s) s' -> D (xf s') -> hopeless (load_spec bs elf argv) -> Q (-1) s') ->
  (forall x s', load_spec bs elf argv = Some x -> runs x (xp s) s' -> D (xf s') -> Q 0 s') ->
  wp (let! pgdir := on_k (setupkvm kend kdata) in
      if pgdir =? 0 then exec_bad kend pid 0 (Some ip)
      else
        let! r := load_segments kend devread (Z.to_nat (e_phnum elf)) ip pgdir (i32 (e_phoff elf)) 0 in
        match r with
        | None => exec_bad kend pid pgdir (Some ip)
        | Some sz =>
            on_f (iunlockput pid ip) ;;;
            x_end_op ;;;
            let! r := make_stack kend pgdir sz argv in
            match r with
            | None => exec_bad kend pid pgdir None
            | Some (sz, sp) =>
                let! p := gets xp in
                let oldpgdir := x_pgdir p in
                modify (set_xp (mk_xproc pgdir sz (e_entry elf) sp (name_copy (x_name p) (last_elem path path) 16) (x_cwd p))) ;;;
                on_k (freevm kend oldpgdir) ;;;
                ret 0
            end
        end) s Q.
Proof.
  intros Ek HR Ed Hg Hbad HQ. unfold load_spec in Hbad, HQ. apply wp_bind, wp_zoom. rewrite Ek. apply (wp_new_space kend kend_range k0 l0 d0 T0 F A0); [done|done| |].
  { intros k' l' HG Hx. cbn [Z.eqb]. apply (wp_bad_early _ l'); [done|done|]. intros f' HD. apply Hbad; [split; [done|by exists l']|done|]. destruct (loads _ _ _ _) as [st|] eqn:EL; [|done]. destruct (stack_spec _ _) as [[sp ps]|]; [|done]. eapply exhausted_mono; [exact Hx|]. cbn [st_sz]. apply loads_mono in EL. cbn in EL. apply Z.div_pos; [unfold up; zdm|lia]. }
  intros k' l d T Hd HB. rewrite (proj2 (Z.eqb_neq _ _) Hd). set (s1 := set_xk k' s). apply wp_bind. change 0 with (fst no_image) at 1.
  apply wp_load_segments; [split; [cbn; unfold KERNBASE; lia|]; split; [intros va Hva; split; [done|]; change ((fst no_image + 4095) / 4096) with 0; intros Hlt; lia|by exists l, T]|done| |].
  - intros s2 HG HR2 Hp2 Hr. apply wp_bad; [done|done|done|]. intros s' l' HB' HD Hp. apply Hbad; [split; [by rewrite Hp, Hp2|by exists l']|done|]. destruct Hr as [->|(st & -> & Hx)]; [done|]. destruct (stack_spec _ _) as [[sp ps]|]; [|done]. eapply exhausted_mono; [exact Hx|]. cbn [st_sz]. unfold up. zdm.
  - intros s2 st EL HL HR2 Hp2. rewrite EL in Hbad, HQ. cbn zeta in Hbad, HQ. apply wp_then_close; [done|]. intros f3 HD3. apply wp_bind. apply wp_make_stack; [exact HL|done| |].
    + intros s4 HG Ef4 Ep4 Hr. apply wp_bad; [done|done|by rewrite Ef4|]. intros s' l' HB' HD Hp. apply Hbad; [split; [by rewrite Hp, Ep4; exact Hp2|by exists l']|done|]. destruct Hr as [->|Hx]; [done|]. destruct (stack_spec _ _) as [[sp ps]|]; [|done]. eapply exhausted_mono; [exact Hx|]. cbn [st_sz]. zdm.
    + intros sp ps s4 l4 T4 ES HB4 Ef4 Ep4. rewrite ES in HQ. assert (Ep : xp s4 = xp s) by (rewrite Ep4; exact Hp2). apply wp_bind, wp_gets. cbn zeta. rewrite Ep, Ed. apply wp_bind, wp_modify, wp_bind, wp_zoom. apply (wp_replace_space kend kend_range k0 l0 d0 T0 F A0 d _ _ (xk s4) l4 T4 _ HB4). intros k5 l5 A5 V5 P5. apply wp_ret. eapply HQ; [reflexivity| |cbn; by rewrite Ef4].
      exists d, l5, T4. split; [done|]. split; [exact V5|]. split; [exact P5|reflexivity].
Qed.

End Open.

Lemma wp_exec argv (s : xsys) (Q : Z -> xsys -> Prop) : xk s = k0 -> xf s = f0 -> x_pgdir (xp s) = d0 -> x_cwd (xp s) = cwd -> Forall good_arg argv ->
  (forall s', unchanged (xp s) s' -> D (xf s') -> hopeless (exec_spec bs argv) -> Q (-1) s') ->
  (forall x s', exec_spec bs argv = Some x -> runs x (xp s) s' -> D (xf s') -> Q 0 s') ->
  wp (exec kend kdata pid devread path argv) s Q.
Proof.
  intros Ek Ef Ed Ec Hg Hbad HQ. unfold exec, x_begin_op. apply wp_bind, wp_zoom. rewrite Ef. eapply wp_mono; [apply (pf_open _ _ _ _ _ _ PF)|]. intros [] f1 W1. apply wp_bind, wp_gets. cbn [xp set_xf]. rewrite Ec. apply wp_bind, wp_zoom. eapply wp_mono; [exact W1|]. cbn beta. intros ip f2 [Hip W2].
  rewrite (proj2 (Z.ltb_ge ip 0)) by lia. apply wp_bind, wp_zoom. eapply wp_mono; [exact W2|]. intros [] f3 HR. set (s1 := set_xf f3 _). apply wp_bind, wp_xread; [done|lia|unfold sizeof_elfhdr; lia|]. intros f4 HR4. assert (E4 : xk (set_xf f4 s1) = k0) by exact Ek. set (s2 := set_xf f4 s1) in *. assert (Ep2 : xp s2 = xp s) by done.
  pose proof (header_read 0 sizeof_elfhdr ltac:(lia) ltac:(unfold sizeof_elfhdr; lia)) as HH. unfold exec_spec in Hbad, HQ. assert (HE : hopeless (exec_spec bs argv) -> wp (exec_bad kend pid 0 (Some ip)) s2 Q).
  { intros Hn. apply (wp_bad_early ip s2 l0); [rewrite E4; apply given_back_refl|done|]. intros f' HD. apply Hbad; [split; [done|]; exists l0; change (xk (set_xf f' s2)) with (xk s2); rewrite E4; apply given_back_refl|done|exact Hn]. } unfold exec_spec in HE.
  destruct (header bs 0 sizeof_elfhdr) as [b|].
  2:{ destruct (file_read bs 0 sizeof_elfhdr) as [r b']. cbn [fst] in HH. rewrite HH. by apply HE. }
  destruct HH as [-> Hb]. rewrite Z.eqb_refl. cbn [negb]. cbn zeta in *. destruct (negb (e_magic (get_elfhdr b) =? ELF_MAGIC)); [by apply HE|]. by apply wp_exec_load.
Qed.
End Run.
