(* ===== verification/ExecThm.v ===== *)
(** The theorems on exec(): it does what [exec_spec] says, or nothing; and what
    the program that is started finds in its memory.  The arguments: what the
    system call finds in the memory of a process, and that it finds what exec()
    has put there. *)

From Stdlib Require Import ZArith Lia.
From stdpp Require Import base gmap strings numbers list.
From S2P Require Import Proc Prelude Kstring Mem Kalloc Vm VmSpec VmMap VmUser VmKernel VmFork VmCopy Fs FsFile File Sysfile SysfileThm Exec ExecMem ExecSpec.

Open Scope Z_scope.
Open Scope kern_scope.

(** ** What the program finds *)

(** User code reads the bytes bs from a on. *)
Definition reads (U : Z -> option Z) (a : Z) (bs : list Z) : Prop := forall i, 0 <= i < Z.of_nat (length bs) -> U (a + i) = Some (aget 0 bs i).

Lemma reads_over U a bs : reads (over U a bs) a bs.
Proof. intros i Hi. unfold over. rewrite (proj2 (within_true _ _ _)) by lia. do 2 f_equal. lia. Qed.

Lemma reads_ext U U' a bs : reads U a bs -> (forall va, a <= va < a + Z.of_nat (length bs) -> U' va = U va) -> reads U' a bs.
Proof. intros HR E i Hi. rewrite E by lia. by apply HR. Qed.

Lemma over_other U a bs va : va < a \/ a + Z.of_nat (length bs) <= va -> over U a bs va = U va.
Proof. intros Hva. unfold over. by rewrite (proj2 (within_false _ _ _)) by lia. Qed.

(** What is read below the kernel. *)
Lemma reads_user U U' a bs : (forall va, 0 <= va < KERNBASE -> U' va = U va) -> reads U a bs -> 0 <= a -> a + Z.of_nat (length bs) <= KERNBASE -> reads U' a bs.
Proof. intros E HR H0 H1. eapply reads_ext; [exact HR|]. intros va Hva. apply E. lia. Qed.

(** Pushing writes below sp, in the stack page. *)
Lemma args_mem_other base argv : forall U sp argc sp' ps va, pushes base sp argc argv = Some (sp', ps) -> sp <= va \/ va < sp' \/ va < base + 4096 -> args_mem U ps argv va = U va.
Proof.
  induction argv as [|a r IH]; intros U sp argc sp' ps va; cbn [pushes]; [intros [= -> <-]; done|]. destruct ((_ <=? _) || _) eqn:E; [done|]. apply orb_false_iff in E as [_ E2%Z.ltb_ge].
  destruct (pushes base (below sp a) (argc + 1) r) as [[sp1 ps1]|] eqn:E1; [|done]. intros [= -> <-] Hva. change (args_mem (over U (below sp a) (a ++ [0])) ps1 r va = U va). destruct (pushes_bound _ _ _ _ _ _ E1) as (P1 & _ & _).
  assert (Hb : below sp a + Z.of_nat (length (a ++ [0])) <= sp) by (rewrite length_app; cbn [length]; unfold below; zdm). rewrite (IH _ _ _ _ _ va E1) by (rewrite length_app in Hb; cbn [length] in Hb; lia). apply over_other. lia.
Qed.

Lemma args_reads base argv : forall U sp argc sp' ps, pushes base sp argc argv = Some (sp', ps) ->
  Forall2 (fun p a => (sp' <= p /\ p + Z.of_nat (length (a ++ [0])) <= sp) /\ reads (args_mem U ps argv) p (a ++ [0])) ps argv.
Proof.
  induction argv as [|a r IH]; intros U sp argc sp' ps; cbn [pushes]; [intros [= -> <-]; constructor|]. destruct ((_ <=? _) || _); [done|]. destruct (pushes base (below sp a) (argc + 1) r) as [[sp1 ps1]|] eqn:E1; [|done]. intros [= -> <-]. destruct (pushes_bound _ _ _ _ _ _ E1) as (P1 & _ & _).
  assert (Hb : below sp a + Z.of_nat (length (a ++ [0])) <= sp) by (rewrite length_app; cbn [length]; unfold below; zdm). change (args_mem U (below sp a :: ps1) (a :: r)) with (args_mem (over U (below sp a) (a ++ [0])) ps1 r). constructor.
  - split; [lia|]. eapply reads_ext; [apply reads_over|]. intros va Hva. eapply args_mem_other; [exact E1|]. left. lia.
  - eapply Forall2_impl; [by eapply IH|]. cbn beta. intros p c [[H1 H2] H3]. split; [|done]. rewrite length_app in Hb. lia.
Qed.

(** The headers of the segments to be loaded, in order. *)
Fixpoint phdrs (bs : list Z) (n : nat) (off : Z) : list proghdr :=
  match n with
  | O => []
  | S n' =>
      match header bs (u32 off) sizeof_proghdr with
      | None => []
      | Some b =>
          let r := phdrs bs n' (i32 (u32 off + sizeof_proghdr)) in
          if p_type (get_proghdr b) =? ELF_PROG_LOAD then get_proghdr b :: r else r
      end
  end.

(** Each begins on a page above the one before it, as the linker lays them
    out. *)
Fixpoint ascending (sz : Z) (gs : list proghdr) : Prop :=
  match gs with
  | [] => True
  | g :: r => up sz <= p_vaddr g /\ ascending (Z.max sz (p_end g)) r
  end.

Definition seg_bytes (bs : list Z) (g : proghdr) : list Z := slice bs (p_off g) (p_filesz g) ++ repeat 0 (Z.to_nat (p_memsz g - p_filesz g)).

Lemma up_le a b : a <= b -> up a <= up b.
Proof. intros Hab. unfold up. pose proof (Z.div_le_mono (a + 4095) (b + 4095) 4096 ltac:(lia) ltac:(lia)). lia. Qed.

Lemma up_ge a : a <= up a.
Proof. unfold up. zdm. Qed.

(** What is below stays. *)
Lemma loads_below bs n : forall off st st' va, loads bs n off st = Some st' -> ascending (fst st) (phdrs bs n off) -> va < up (fst st) -> snd st' va = snd st va.
Proof.
  induction n as [|n IH]; intros off st st' va; cbn [loads phdrs]; [by intros [= ->]|]. unfold seg_step. destruct (header _ _ _) as [b|]; [|done]. cbn zeta. destruct (p_type (get_proghdr b) =? ELF_PROG_LOAD); cbn [negb]; [|apply IH].
  destruct (seg_ok _ _ _); [|done]. cbn [ascending]. intros HL [Hv HA] Hva. rewrite (IH _ _ _ va HL); [|exact HA|cbn [lay fst]; pose proof (up_le (fst st) (Z.max (fst st) (p_end (get_proghdr b)))); lia].
  cbn [lay snd]. rewrite (proj2 (within_false _ _ _)) by lia. unfold grown. by rewrite (proj2 (Z.ltb_lt _ _)) by lia.
Qed.

Lemma loads_reads bs n : byte_list bs -> forall off st st' g, loads bs n off st = Some st' -> ascending (fst st) (phdrs bs n off) -> g ∈ phdrs bs n off -> reads (snd st') (p_vaddr g) (seg_bytes bs g).
Proof.
  intros Hbs. induction n as [|n IH]; intros off st st' g; cbn [loads phdrs]; [by intros _ _ ?%elem_of_nil|]. unfold seg_step. destruct (header _ _ _) as [b|] eqn:Eh; [|done]. cbn zeta. destruct (p_type (get_proghdr b) =? ELF_PROG_LOAD); cbn [negb]; [|apply IH].
  destruct (seg_ok _ _ _) eqn:Es; [|done]. cbn [ascending]. intros HL [Hv HA] [->|Hg]%elem_of_cons; [|by eapply IH]. set (g := get_proghdr b) in *. unfold seg_ok in Es. rewrite !andb_true_iff, orb_true_iff, !Z.leb_le, !Z.eqb_eq in Es. destruct Es as [[[[S1 _] _] _] S5].
  assert (Hb : byte_list b) by (unfold header in Eh; destruct (_ <=? _); [|done]; injection Eh as <-; by apply Forall_take, Forall_drop). pose proof (le32_range b 4 Hb) as R1. pose proof (le32_range b 16 Hb) as R2. change (le32 b 4) with (p_off g) in R1. change (le32 b 16) with (p_filesz g) in R2.
  assert (L1 : Z.of_nat (length (slice bs (p_off g) (p_filesz g))) = p_filesz g) by (apply slice_len0; lia). intros i Hi. unfold seg_bytes in Hi |- *. rewrite length_app, repeat_length in Hi. rewrite (loads_below bs n _ _ _ _ HL HA) by (cbn [lay fst]; pose proof (up_ge (Z.max (fst st) (p_end g))); unfold p_end in *; lia).
  cbn [lay snd]. rewrite aget_app, L1 by lia. destruct (Z.ltb_spec i (p_filesz g)) as [Hlt|Hge].
  - rewrite (proj2 (within_true _ _ _)) by lia. rewrite aget_take_drop by lia. do 2 f_equal. lia.
  - rewrite (proj2 (within_false _ _ _)) by lia. unfold grown. rewrite (proj2 (Z.ltb_ge _ _)) by lia. rewrite (proj2 (Z.ltb_lt _ _)) by (pose proof (up_ge (p_end g)); unfold p_end in *; lia). f_equal. symmetry. apply (aget_zeros (Z.to_nat (p_memsz g - p_filesz g))).
Qed.

Lemma seg_in_bounds bs n : byte_list bs -> forall off st st' g, loads bs n off st = Some st' -> g ∈ phdrs bs n off -> p_end g <= fst st' /\ 0 <= p_filesz g <= p_memsz g /\ 0 <= p_vaddr g.
Proof.
  intros Hbs. induction n as [|n IH]; intros off st st' g; cbn [loads phdrs]; [by intros _ ?%elem_of_nil|]. unfold seg_step. destruct (header _ _ _) as [b|] eqn:Eh; [|done]. cbn zeta. destruct (p_type (get_proghdr b) =? ELF_PROG_LOAD); cbn [negb]; [|apply IH].
  destruct (seg_ok _ _ _) eqn:Es; [|done]. intros HL [->|Hg]%elem_of_cons; [|by eapply IH]. apply loads_mono in HL. cbn [lay fst] in HL. split; [lia|].
  assert (Hb : byte_list b) by (unfold header in Eh; destruct (_ <=? _); [|done]; injection Eh as <-; by apply Forall_take, Forall_drop). pose proof (le32_range b 16 Hb) as R2. change (le32 b 16) with (p_filesz (get_proghdr b)) in R2. pose proof (le32_range b 8 Hb) as R3. change (le32 b 8) with (p_vaddr (get_proghdr b)) in R3. unfold seg_ok in Es. rewrite !andb_true_iff, !Z.leb_le in Es. lia.
Qed.

(** Parts of a process that is started. *)
Lemma load_spec_parts bs elf argv x : load_spec bs elf argv = Some x -> exists st sp ps, loads bs (Z.to_nat (e_phnum elf)) (i32 (e_phoff elf)) no_image = Some st /\ stack_spec (up (fst st)) argv = Some (sp, ps) /\
  x = mk_started (e_entry elf) (up (fst st) + 8192) sp ps (stack_mem (up (fst st)) (snd st) argv sp ps) /\ 0 <= fst st.
Proof.
  unfold load_spec. destruct (loads _ _ _ _) as [st|] eqn:EL; [|done]. cbn zeta. destruct (stack_spec _ _) as [[sp ps]|] eqn:ES; [|done]. intros [= <-]. exists st, sp, ps. split; [done|]. split; [done|]. split; [done|]. by apply loads_mono in EL.
Qed.

Lemma stack_spec_parts base argv sp ps : stack_spec base argv = Some (sp, ps) -> exists sp0, base + 8192 < KERNBASE /\ pushes base (base + 8192) 0 argv = Some (sp0, ps) /\ sp = sp0 - 4 * (4 + Z.of_nat (length argv)) /\ base + 4096 <= sp /\ sp0 <= base + 8192 /\ length ps = length argv.
Proof.
  unfold stack_spec. destruct (Z.leb_spec KERNBASE (base + 8192)); [done|]. destruct (pushes _ _ _ _) as [[sp0 ps0]|] eqn:E; [|done]. cbn zeta. destruct (Z.ltb_spec (sp0 - 4 * (4 + Z.of_nat (length argv))) (base + 4096)); [done|]. intros [= <- <-]. destruct (pushes_bound _ _ _ _ _ _ E) as (P1 & _ & _ & P4). by exists sp0.
Qed.

Lemma ustack_length sp argc ps : Z.of_nat (length (ustack sp argc ps)) = 4 * (4 + Z.of_nat (length ps)).
Proof. unfold ustack. rewrite (proj2 (words_bytes _)), !length_app. cbn [length]. lia. Qed.

(** The stack: the words at sp, and the strings they lead to. *)
Lemma spec_stack bs elf argv x : load_spec bs elf argv = Some x ->
  reads (st_mem x) (st_sp x) (words ([0xffffffff; Z.of_nat (length argv); st_sp x + 12] ++ st_ptrs x ++ [0])) /\
  Forall2 (fun p a => reads (st_mem x) p (a ++ [0]) /\ st_sz x - 4096 <= p /\ p + Z.of_nat (length (a ++ [0])) <= st_sz x) (st_ptrs x) argv /\
  (forall va, st_sz x - 8192 <= va < st_sz x - 4096 -> st_mem x va = None) /\ 8192 <= st_sz x < KERNBASE /\ st_sz x - 4096 <= st_sp x /\ st_sp x + 4 * (4 + Z.of_nat (length (st_ptrs x))) <= st_sz x.
Proof.
  intros HX. destruct (load_spec_parts _ _ _ _ HX) as (st & sp & ps & EL & ES & -> & H0). cbn [st_mem st_sp st_ptrs st_sz]. set (base := up (fst st)) in *. destruct (stack_spec_parts _ _ _ _ ES) as (sp0 & Hk & EP & Esp & Hsp & Hsp0 & Lps). assert (Hb : 0 <= base /\ base mod 4096 = 0) by (unfold base, up; zdm).
  pose proof (ustack_length sp (Z.of_nat (length argv)) ps) as LU. rewrite Lps in LU. split; [apply reads_over|]. split; [|split; [|split; [lia|lia]]].
  - eapply Forall2_impl; [exact (args_reads base argv (with_stack base (snd st)) _ _ _ _ EP)|]. cbn beta. intros p a [Hp HR]. split; [|lia]. eapply reads_ext; [exact HR|]. intros va Hva. apply over_other. lia.
  - intros va Hva. unfold stack_mem. rewrite over_other by lia. rewrite (args_mem_other base argv _ _ _ _ _ va EP) by lia. unfold with_stack. by rewrite (proj2 (Z.eqb_eq _ _)) by zdm.
Qed.

(** The program below it. *)
Lemma spec_segments bs elf argv x g (gs := phdrs bs (Z.to_nat (e_phnum elf)) (i32 (e_phoff elf))) : byte_list bs -> load_spec bs elf argv = Some x -> ascending 0 gs -> g ∈ gs -> reads (st_mem x) (p_vaddr g) (seg_bytes bs g) /\ 0 <= p_vaddr g /\ p_vaddr g + Z.of_nat (length (seg_bytes bs g)) <= st_sz x - 8192.
Proof.
  intros Hbs HX HA Hg. destruct (load_spec_parts _ _ _ _ HX) as (st & sp & ps & EL & ES & -> & H0). cbn [st_mem st_sz]. set (base := up (fst st)) in *. destruct (stack_spec_parts _ _ _ _ ES) as (sp0 & Hk & EP & Esp & Hsp & Hsp0 & Lps). pose proof (up_ge (fst st)) as Hup. fold base in Hup.
  destruct (seg_in_bounds _ _ Hbs _ _ _ _ EL Hg) as (He & Hf & Hv).
  assert (Hlen : p_vaddr g + Z.of_nat (length (seg_bytes bs g)) <= base) by (unfold seg_bytes, slice; rewrite length_app, repeat_length, length_take; unfold p_end in He; lia). split; [|lia]. eapply reads_ext; [by eapply loads_reads|]. intros va Hva.
  unfold stack_mem. rewrite over_other by lia. rewrite (args_mem_other base argv _ _ _ _ _ va EP) by lia. unfold with_stack. rewrite (proj2 (Z.eqb_neq _ _)) by (unfold base, up in *; zdm). by rewrite (proj2 (Z.leb_gt _ _)) by lia.
Qed.

(** ** exec *)

Lemma exec_spec_parts bs argv x : exec_spec bs argv = Some x -> exists elf, elf = get_elfhdr (slice bs 0 52) /\ e_magic elf = ELF_MAGIC /\ load_spec bs elf argv = Some x.
Proof. unfold exec_spec, header. destruct (_ <=? _); [|done]. cbn zeta. destruct (Z.eqb_spec (e_magic (get_elfhdr (slice bs 0 sizeof_elfhdr))) ELF_MAGIC); cbn [negb]; [|done]. intros HX. by exists (get_elfhdr (slice bs 0 52)). Qed.

Lemma exec_spec_size bs argv x : exec_spec bs argv = Some x -> 0 <= st_sz x.
Proof. intros (elf & _ & _ & (st & sp & ps & _ & _ & -> & H0)%load_spec_parts)%exec_spec_parts. cbn [st_sz]. pose proof (up_ge (fst st)). lia. Qed.

(** An address space whose pages are left alone is as it was. *)
Lemma space_kept kend s l d T F s' l' : KERNBASE < kend -> aspace kend s l d T F -> given_back kend s l s' l' -> aspace kend s' l' d T F /\ same_user s s' d.
Proof.
  intros Hk A [I Hl K]. destruct (aspace_frame kend Hk s l d T F s' l') as [A' E']; [done|done|intros p; apply Hl| |].
  - intros q Hq. destruct (owned_page_ok kend _ _ _ _ _ _ A Hq) as (? & ? & _). by apply K.
  - split; [done|]. apply (same_user_intro kend Hk s l d T F s' l' T F); [done|done|intros q ? ? ? ?; by apply K|]. intros w Hw. left. apply E'. lia.
Qed.

Lemma exec_outcome {B} `{Blocks B} `{Journal B} kend kdata pid devread path argv (s : xsys (B := B)) l T F bs R D (k0 := xk s) (d0 := x_pgdir (xp s)) :
  kernel_layout kend kdata -> aspace kend k0 l d0 T F -> program_file pid devread (xf s) (x_cwd (xp s)) path bs R D -> byte_list bs -> Z.of_nat (length bs) < 2 ^ 31 -> Forall good_arg argv ->
  exists r s', exec kend kdata pid devread path argv s = Ok r s' /\ D (xf s') /\ (r = -1 /\ unchanged kend k0 l (xp s) s' /\ hopeless l (exec_spec bs argv) \/
    r = 0 /\ exists x, exec_spec bs argv = Some x /\ runs kend k0 l d0 T F path x (xp s) s').
Proof.
  intros (Hk & Hkd & Hal) A PF Hbs Hsize Hargs. apply (wp_run _ s (fun r s' => D (xf s') /\ (r = -1 /\ unchanged kend k0 l (xp s) s' /\ hopeless l (exec_spec bs argv) \/ r = 0 /\ exists x, exec_spec bs argv = Some x /\ runs kend k0 l d0 T F path x (xp s) s'))).
  apply (wp_exec kend kdata Hk Hkd Hal pid devread k0 l d0 T F A (xf s) (x_cwd (xp s)) path bs R D PF Hbs Hsize argv s); try done; [intros s' H1 H2 H3; split; [done|by left]|intros x s' H1 H2 H3; split; [done|right; split; [done|by exists x]]].
Qed.

Lemma enough_pages kend s l d T F bs argv x : aspace kend s l d T F -> exec_spec bs argv = Some x -> 1027 + st_sz x / 4096 <= Z.of_nat (length l) -> ~ hopeless l (exec_spec bs argv).
Proof. intros A Ex HL Hh. rewrite Ex in Hh. cbn [hopeless] in Hh. pose proof (exec_spec_size _ _ _ Ex). apply exhausted_length in Hh; [lia|exact (ki_nodup _ _ _ (as_kmem _ _ _ _ _ _ A))|zdm]. Qed.

(** C3: exec() refines [exec_spec], the reference that computes from the bytes of
    the file and the arguments what a process has to become (or that it cannot
    become anything: no ELF file, a segment that is out of place or cut off, too
    many arguments, a full stack).  From a process with a well-formed address
    space, if the path leads to a file with the bytes bs and the arguments are
    shorter than a page, exec() always returns, and it gives up the file on
    every path.  If it returns -1 the process, its memory and the free pages
    are as before.  If it returns 0 the process has the entry point, the stack
    pointer and the size of the reference, and its memory is that of the
    reference at every user address; and the pages of the old memory are free
    or belong to the new one, none is lost.  With 1027 free pages more than the
    new memory has, it returns -1 only if the reference says so. *)
Theorem exec_refines_spec {B} `{Blocks B} `{Journal B} kend kdata pid devread path argv (s : xsys (B := B)) l T F bs R D :
  kernel_layout kend kdata -> aspace kend (xk s) l (x_pgdir (xp s)) T F -> program_file pid devread (xf s) (x_cwd (xp s)) path bs R D ->
  byte_list bs -> Z.of_nat (length bs) < 2 ^ 31 -> Forall good_arg argv ->
  exists r s' l' T', exec kend kdata pid devread path argv s = Ok r s' /\ D (xf s') /\ aspace kend (xk s') l' (x_pgdir (xp s')) T' F /\
    (r = -1 /\ xp s' = xp s /\ same_user (xk s) (xk s') (x_pgdir (xp s)) /\ (forall q, q ∈ l' <-> q ∈ l) \/
     r = 0 /\ exists x, exec_spec bs argv = Some x /\
       x_eip (xp s') = st_entry x /\ x_esp (xp s') = st_sp x /\ x_sz (xp s') = st_sz x /\ x_cwd (xp s') = x_cwd (xp s) /\
       (forall va, 0 <= va < KERNBASE -> user_byte (kbytes (xk s')) (x_pgdir (xp s')) va = st_mem x va) /\
       (forall q, q ∈ l' \/ owned (kbytes (xk s')) (x_pgdir (xp s')) T' q <-> q ∈ l \/ owned (kbytes (xk s)) (x_pgdir (xp s)) T q)) /\
    (forall x, exec_spec bs argv = Some x -> 1027 + st_sz x / 4096 <= Z.of_nat (length l) -> r = 0).
Proof.
  intros HK A PF Hbs Hsize Hargs. destruct (exec_outcome kend kdata pid devread path argv s l T F bs R D HK A PF Hbs Hsize Hargs) as (r & s' & E & HD & HC). destruct HK as (Hk & _).
  destruct HC as [(-> & (Ep & l' & HG) & Hh)|(-> & x & Ex & d & l' & T' & A' & U & HO & Ep)].
  - destruct (space_kept _ _ _ _ _ _ _ _ Hk A HG) as [A' U]. exists (-1), s', l', T. split; [done|]. split; [done|]. rewrite Ep. split; [done|]. split; [left; split; [done|]; split; [done|]; split; [done|apply HG]|].
    intros x Ex HL. by destruct (enough_pages _ _ _ _ _ _ _ _ _ A Ex HL).
  - exists 0, s', l', T'. split; [done|]. split; [done|]. rewrite Ep. cbn [x_pgdir x_eip x_esp x_sz x_cwd]. split; [done|]. split; [right; split; [done|]; exists x; by split_and!|done].
Qed.

(** ** The arguments of a system call *)


Lemma le32_4 a b c d : le32 [a; b; c; d] 0 = a + 2 ^ 8 * b + 2 ^ 16 * c + 2 ^ 24 * d.
Proof. reflexivity. Qed.

Section Fetch.
Context (sz : Z) (Hsz : 0 <= sz < 2 ^ 31) (U : Z -> option Z) (mem : Z -> Z) (HU : forall va b, U va = Some b -> mem va = b).

Lemma reads_app a x y : reads U a (x ++ y) <-> reads U a x /\ reads U (a + Z.of_nat (length x)) y.
Proof.
  unfold reads. rewrite length_app. split.
  - intros HR. split; intros i Hi.
    + rewrite HR, aget_app by lia. by rewrite (proj2 (Z.ltb_lt _ _)) by lia.
    + rewrite <- Z.add_assoc, HR, aget_app by lia. rewrite (proj2 (Z.ltb_ge _ _)) by lia. do 2 f_equal. lia.
  - intros [H1 H2] i Hi. rewrite aget_app by lia. destruct (Z.ltb_spec i (Z.of_nat (length x))); [apply H1; lia|]. rewrite <- (H2 (i - Z.of_nat (length x))) by lia. f_equal. lia.
Qed.

Lemma reads_load a bs : reads U a bs -> load_bytes mem a (length bs) = bs.
Proof.
  intros HR. unfold load_bytes. apply list_eq. intros i. rewrite list_lookup_fmap. destruct (decide (i < length bs)%nat) as [Hi|Hi].
  - rewrite lookup_seq_lt by done. cbn [fmap option_fmap option_map Nat.add]. destruct (lookup_lt_is_Some_2 bs i Hi) as [b Hb]. rewrite Hb. f_equal. apply HU. rewrite HR by lia. f_equal. unfold aget. rewrite (proj2 (Z.ltb_ge _ _)), Nat2Z.id by lia. by apply nth_lookup_Some.
  - rewrite lookup_seq_ge, lookup_ge_None_2 by lia. done.
Qed.

Lemma reads_string a str : reads U a (str ++ [0]) -> 0 ∉ str -> string_at mem a str.
Proof.
  intros [H1 H2]%reads_app Hn. split; [by apply reads_load|]. split; [|done]. specialize (H2 0 ltac:(cbn; lia)). rewrite Z.add_0_r in H2. by apply HU in H2.
Qed.

Lemma fetchint_word a v : reads U a (int_bytes v) -> 0 <= a -> a + 4 <= sz -> fetchint sz mem a = Some (i32 v).
Proof.
  intros HR H0 H1. unfold fetchint. rewrite Z.geb_leb, (proj2 (Z.leb_gt _ _)), u32_small by lia. cbn [orb]. rewrite Z.gtb_ltb, (proj2 (Z.ltb_ge _ _)) by lia.
  apply reads_load in HR. change (length (int_bytes v)) with 4%nat in HR. rewrite HR, int_bytes_eq. f_equal. rewrite le32_4, <- (i32_u32 v). f_equal. pose proof (u32_range v). zdm.
Qed.

Lemma fetchstr_string a str : reads U a (str ++ [0]) -> 0 ∉ str -> a + Z.of_nat (length str) < sz -> fetchstr sz mem a = Some str.
Proof.
  intros HR Hn Hl. unfold fetchstr. rewrite Z.geb_leb, (proj2 (Z.leb_gt _ _)) by lia. apply find_nul_spec. split; [lia|by apply reads_string].
Qed.

(** The vector of pointers at a, and the strings. *)
Definition vector_at (a : Z) (argv : list (list Z)) : Prop := exists ps,
  reads U a (words (ps ++ [0])) /\ 0 <= a /\ a + 4 * (Z.of_nat (length argv) + 1) <= sz /\
  Forall2 (fun p s => reads U p (s ++ [0]) /\ 0 < p /\ p + Z.of_nat (length s) < sz) ps argv.

Lemma fetch_args_vector n argv : Forall (fun s => 0 ∉ s) argv -> (length argv < n)%nat -> forall a, vector_at a argv -> fetch_args sz mem n a = Some argv.
Proof.
  intros HN. revert n. induction HN as [|s argv Hs HN IH]; intros n Hn a (ps & HR & H0 & H1 & HF).
  - apply Forall2_nil_inv_r in HF as ->. destruct n as [|n]; [lia|]. cbn [fetch_args]. cbn [app] in HR. unfold words in HR. cbn [mbind list_bind app] in HR. rewrite (fetchint_word a 0) by (done || cbn [length] in H1; lia). done.
  - apply Forall2_cons_inv_r in HF as (p & ps' & (Hp & Hp0 & Hp1) & HF & ->). destruct n as [|n]; [lia|]. cbn [fetch_args]. cbn [app] in HR. unfold words in HR. cbn [mbind list_bind] in HR. apply reads_app in HR as [HR1 HR2]. change (length (int_bytes p)) with 4%nat in HR2. cbn [length] in Hn, H1.
    rewrite (fetchint_word a p) by (done || lia). rewrite u32_i32, u32_small by lia. rewrite (proj2 (Z.eqb_neq _ _)) by lia. rewrite (fetchstr_string p s) by done. rewrite u32_small by lia. rewrite (IH n ltac:(lia) (a + 4)); [done|]. exists ps'. split; [exact HR2|]. split; [lia|]. split; [lia|done].
Qed.
End Fetch.

Lemma kread_user m d va b : user_byte m d va = Some b -> kread m d va = b.
Proof. unfold user_byte, kread. rewrite present_bit. destruct (Z.testbit (mmu_entry m d va) 0); cbn [andb]; [|done]. destruct (Z.testbit (mmu_entry m d va) 2); [by intros [= <-]|done]. Qed.

(** sys_exec() calls exec() with the path and the arguments that the process
    has in its memory.  If the words at the stack pointer are a return
    address, a pointer to a string and a pointer to an array of fewer than 32
    pointers to strings that ends in a null pointer, all of it readable by
    the process and inside its size, then the call is exec() of these
    strings. *)
Theorem sys_exec_execs {B} `{Blocks B} `{Journal B} kend kdata pid devread (s : xsys (B := B)) r p a path argv (U := user_byte (kbytes (xk s)) (x_pgdir (xp s))) (sz := x_sz (xp s)) :
  0 <= sz < 2 ^ 31 -> 0 <= x_esp (xp s) -> x_esp (xp s) + 12 <= sz -> reads U (x_esp (xp s)) (words [r; p; a]) ->
  reads U p (path ++ [0]) -> 0 <= p -> p + Z.of_nat (length path) < sz -> (0 ∉ path) ->
  vector_at sz U a argv -> (length argv < 32)%nat -> Forall (fun s => 0 ∉ s) argv ->
  sys_exec kend kdata pid devread s = exec kend kdata pid devread path argv s.
Proof.
  intros Hsz He0 He1 HW HP Hp0 Hp1 HPn HV HA HAn. assert (HU : forall va b, U va = Some b -> proc_mem s va = b) by (intros va b; apply kread_user).
  change (words [r; p; a]) with (int_bytes r ++ int_bytes p ++ int_bytes a ++ []) in HW. rewrite app_nil_r in HW. apply reads_app in HW as [_ [HW1 HW2]%reads_app]. change (Z.of_nat (length (int_bytes _))) with 4 in HW1, HW2.
  pose proof (fetch_args_vector sz Hsz U (proc_mem s) HU 32 argv HAn HA a HV) as HF. destruct HV as (ps & _ & Ha0 & Ha1 & _).
  unfold sys_exec. unfold bind, gets at 1. cbn [id]. fold sz. unfold argstr, argint. set (e := x_esp (xp s)) in *. replace (e + 4 + 4 * 0) with (e + 4) by lia. replace (e + 4 + 4 * 1) with (e + 4 + 4) by lia. rewrite !u32_small by lia.
  rewrite (fetchint_word sz Hsz U (proc_mem s) HU (e + 4) p), (fetchint_word sz Hsz U (proc_mem s) HU (e + 4 + 4) a) by (done || lia). rewrite !u32_i32, !u32_small by lia. rewrite (fetchstr_string sz U (proc_mem s) HU p path) by done. change (Z.to_nat MAXARG) with 32%nat. by rewrite HF.
Qed.

(** What exec() leaves is such an array. *)
Lemma spec_vector bs argv x U : exec_spec bs argv = Some x -> (forall va, 0 <= va < KERNBASE -> U va = st_mem x va) -> vector_at (st_sz x) U (st_sp x + 12) argv.
Proof.
  intros (elf & _ & _ & HX)%exec_spec_parts HU. destruct (spec_stack _ _ _ _ HX) as (S1 & S2 & S3 & S4 & S5 & S6). pose proof (Forall2_length _ _ _ S2) as Hl. exists (st_ptrs x). split_and!; [|lia|lia|].
  - assert (E : words ([0xffffffff; Z.of_nat (length argv); st_sp x + 12] ++ st_ptrs x ++ [0]) = words [0xffffffff; Z.of_nat (length argv); st_sp x + 12] ++ words (st_ptrs x ++ [0])) by (unfold words; apply bind_app).
    rewrite E in S1. apply reads_app in S1 as [_ S1]. change (Z.of_nat (length (words _))) with 12 in S1 at 1. eapply reads_user; [exact HU|exact S1|lia|]. rewrite (proj2 (words_bytes _)), length_app. cbn [length]. lia.
  - eapply Forall2_impl; [exact S2|]. cbn beta. intros p s (Hr & H1 & H2). rewrite length_app in H2. cbn [length] in H2. split; [eapply reads_user; [exact HU|exact Hr|lia|rewrite length_app; cbn [length]; lia]|]. lia.
Qed.

(** C16: The arguments of exec() come back. In a process that exec() has
    started, from a well-formed address space and a file, with fewer than 32
    arguments, each shorter than a page and without a NUL, the system call
    finds in the argv that the program is given exactly the arguments of
    exec(): a program that passes its argv on to another exec() passes on its
    arguments. *)
Theorem argv_round_trip {B} `{Blocks B} `{Journal B} kend kdata pid devread path argv (s s' : xsys (B := B)) l T F bs R D :
  kernel_layout kend kdata -> aspace kend (xk s) l (x_pgdir (xp s)) T F -> program_file pid devread (xf s) (x_cwd (xp s)) path bs R D ->
  byte_list bs -> Z.of_nat (length bs) < 2 ^ 31 -> Forall good_arg argv -> Forall (fun s => 0 ∉ s) argv -> (length argv < 32)%nat ->
  exec kend kdata pid devread path argv s = Ok 0 s' ->
  fetch_args (x_sz (xp s')) (proc_mem s') (Z.to_nat MAXARG) (x_esp (xp s') + 12) = Some argv.
Proof.
  intros HK A PF Hbs Hsize Hargs HN Hlen Hrun. destruct (exec_outcome kend kdata pid devread path argv s l T F bs R D HK A PF Hbs Hsize Hargs) as (r & s1 & E & _ & HC). rewrite Hrun in E. injection E as <- <-. destruct HC as [[? _]|(_ & x & Ex & d & l' & T' & _ & HU & _ & Ep)]; [done|].
  unfold proc_mem. rewrite Ep. cbn [x_sz x_pgdir x_esp]. destruct (exec_spec_parts _ _ _ Ex) as (elf & _ & _ & HX). destruct (spec_stack _ _ _ _ HX) as (_ & _ & _ & S4 & _). unfold KERNBASE in S4.
  eapply (fetch_args_vector (st_sz x) ltac:(lia) (user_byte (kbytes (xk s')) d)); [intros va b; apply kread_user|done|done|by eapply spec_vector].
Qed.

(** An argument so long that the stack pointer wraps around to an address
    without a page table (longer than the new memory by the 32 MB that the
    kernel maps at the end of the address space) is not refused: uva2ka()
    dereferences the null pointer that walkpgdir() returns, which in the kernel
    reads the caller's page 0 as if it were a page table. *)
Theorem long_argument_undefined {B} `{Blocks B} kend (s : xsys (B := B)) l d T F sp argc a r us (sp' := Z.land (u32 (sp - (Z.of_nat (length a) + 1))) (u32 (Z.lnot 3))) :
  KERNBASE < kend -> aspace kend (xk s) l d T F -> argc < MAXARG -> T (sp' / 4096 / 1024) = 0 -> push_args d sp argc (a :: r) us s = Undef "*pte of a null pointer".
Proof.
  intros Hk A Hargc HT. assert (Hsp : 0 <= sp' < 4294967296).
  { unfold sp'. rewrite low2_bits by apply u32_range. pose proof (u32_range (sp - (Z.of_nat (length a) + 1))). zdm. }
  cbn [push_args]. rewrite Z.geb_leb, (proj2 (Z.leb_gt _ _)) by lia. fold sp'. unfold copyout_bytes. replace (Z.to_nat (Z.of_nat (length (a ++ [0])) / PGSIZE + 3)) with (S (Z.to_nat (Z.of_nat (length (a ++ [0])) / PGSIZE + 2))) by (unfold PGSIZE; zdm). cbn [copyout_bytes_loop].
  rewrite Z.gtb_ltb, (proj2 (Z.ltb_lt _ _)) by (rewrite length_app; cbn [length]; lia). replace (PGROUNDDOWN sp') with (4096 * (sp' / 4096)) by (replace sp' with (4096 * (sp' / 4096) + sp' mod 4096) at 2 by (pose proof (Z.div_mod sp' 4096); lia); rewrite PGROUNDDOWN_page; zdm).
  pose proof (uva2ka_behaviour kend (xk s) l d T F (sp' / 4096) Hk A ltac:(zdm)) as E. rewrite HT in E. cbn [Z.eqb] in E. unfold bind, on_k, zoom. by rewrite E.
Qed.
