(* ===== verification/ExecMkfs.v ===== *)
(** exec() of a program on a disk that mkfs made: mkfs.c, log.c, bio.c, fs.c,
    kalloc.c, vm.c and exec.c together. *)

From Stdlib Require Import ZArith Lia.
From stdpp Require Import base gmap strings numbers list.
From S2P Require Import Proc Prelude Kstring Mem Kalloc Vm VmSpec VmMap VmUser VmKernel VmFork VmCopy VmDemo Bio BioSpec Log LogCopy LogSpec LogTx Fs FsBlock FsLog FsBitmap FsMap FsFile FsTrunc FsCache FsDir FsPath FsThm File Sysfile Mkfs MkfsSpec MkfsInv MkfsThm MkfsRead Exec ExecMem ExecSpec ExecThm.

Open Scope Z_scope.
Open Scope kern_scope.

(** The transactions of the log. *)
#[local] Instance log_journal (pid : Z) : Journal log := {| bl_begin_op := Log.begin_op; bl_end_op := Log.end_op pid |}.

(** The disk holds the image, and no transaction is open. *)
Record ready (pid : Z) (st : mkst) (l : log) : Prop := {
  rd_inv : log_inv pid 2 30 l [];
  rd_idle : outstanding l = 0 /\ committing l = false;
  rd_size : disksize (dsk (lbio l)) = 1000;
  rd_view : forall b, 32 <= b < 1000 -> view (lbio l) b = image st b
}.

Lemma boot_ready pid files st : made files st -> exists l, reboot pid (disk_of st) = Ok tt l /\ ready pid st l.
Proof.
  intros M. destruct (reboot_recovers pid 2 30 _ _ [] (disk_of_recovers files st M)) as (l & hv & El & _ & _ & _ & _ & D & _). destruct (reboot_shows pid 2 30 _ _ [] (disk_of_recovers files st M)) as (l' & El' & I & O & C & V). rewrite El in El'. injection El' as <-.
  exists l. split; [exact El|]. constructor; [exact I|by split|by rewrite D|]. intros b Hb. rewrite (idle_view _ _ _ _ b I), V by (unfold in_log; lia). apply disk_of_read. lia.
Qed.

(** The end of a transaction that wrote nothing. *)
Lemma wp_end_op_read pid s (Q : unit -> log -> Prop) : log_inv pid 2 30 s [] -> outstanding s = 1 -> committing s = false ->
  (forall s', log_inv pid 2 30 s' [] -> outstanding s' = 0 -> committing s' = false -> lbio s' = lbio s -> Q tt s') -> wp (Log.end_op pid) s Q.
Proof.
  intros I Ho Hc HQ. unfold Log.end_op. apply wp_bind, wp_gets. cbn [id]. apply wp_bind, wp_modify. rewrite Ho, Hc. cbn [when Z.sub Z.add Z.opp Z.pos_sub Z.eqb]. apply wp_bind, wp_modify, wp_bind. unfold commit. apply wp_bind, wp_gets. cbn [lh_n set_committing set_outstanding].
  rewrite (hi_n _ _ _ _ (li_head _ _ _ _ _ I)). cbn [length Z.of_nat Z.gtb Z.compare when]. apply wp_ret, wp_modify, HQ; try done. destruct I as [[] [] ? ? ? ?]; constructor; try done; by constructor.
Qed.

Section Program.
Context (pid : Z) (devread : Z -> option (Z -> Z -> M (fs (B := log)) (Z * list Z))).
Context (files : list hfile) (st : mkst) (HM : made files st) (Hlen : (length files <= 198)%nat).
Context (Hdist : NoDup ([46] :: [46; 46] :: map (fun h => take 14 (stored_name h)) files)).
Context (Hplain : Forall (fun h => Forall plain_char (stored_name h)) files) (H32 : (Z.of_nat (length files) + 2) mod 32 <> 0).
Context (l : log) (HR : ready pid st l) (Hnl : 1 <= 30).

Abbreviation L := (log_laws pid 2 30 1 (dsk (lbio l)) Hnl).

(** A file of the image is a program that exec() can open, read and close. *)
Lemma mkfs_program k h cwd : files !! k = Some h -> stored_name h <> [] ->
  @program_file log (log_blocks pid) (log_journal pid) pid devread (mk_fs l (repeat no_inode 50) mk_sb) cwd (47 :: stored_name h) (contents h)
    (@opened log (log_blocks pid) L pid (view0 l) h) (fun f => ready pid st (blk f)).
Proof.
  destruct HR as [I [O C] Hsz HV]. intros Hk Hne. assert (HN : 1000 <= @nblk log (log_blocks pid) L < 2 ^ 31) by (cbn [nblk log_laws]; lia). assert (HF : @lfirst log (log_blocks pid) L <= 32) by (cbn; lia). assert (HRm : @room log (log_blocks pid) L 1 (view0 l)) by (split; cbn; unfold NBUF; lia).
  constructor.
  - apply wp_zoom. apply (begin_rep pid 2 30 (dsk (lbio l)) Hnl l _ I O C eq_refl). intros l1 R1. eapply (@wp_open_file log (log_blocks pid) L HN HF pid devread files st HM Hlen (view0 l) HV eq_refl HRm Hdist Hplain H32 k h cwd (repeat no_inode 50)); [done|done|by constructor|exact cold_boot].
  - intros ip f off n HO Ho Hn. eapply (@wp_read_opened log (log_blocks pid) L HN HF pid devread files Hlen (view0 l) eq_refl HRm h ip f off n); [exact HO|done|done|]. intros s' HO'. split; [done|exact HO'].
  - intros ip f (ic & A & C1 & Hq & H1 & H2 & H3 & H4 & _). eapply (@wp_iunlockput_keep log (log_blocks pid) L mk_sb pid ip ic (view0 l) f); [exact A|done|done|lia|done|lia|]. intros f1 A1. apply wp_zoom. pose proof (at_rep _ _ _ _ A1) as R2.
    pose proof (rep_log_inv pid 2 30 _ Hnl _ _ R2 eq_refl) as I2. destruct (lr_out _ _ _ _ _ _ _ R2) as (O2 & _ & C2). eapply wp_end_op_read; [exact I2|exact O2|exact C2|]. intros l3 I3 O3 C3 E3. cbn [blk set_blk]. constructor; [done|by split|rewrite E3, (lr_disk _ _ _ _ _ _ _ R2); done|]. intros b Hb. rewrite E3, (lr_view _ _ _ _ _ _ _ R2). by apply HV.
Qed.
End Program.

(** C2: A program is run from a disk that mkfs made.  The files are made into an
    image as in the theorem on mkfs; the kernel starts from a disk with that
    image; a process with a well-formed address space calls exec() with a
    slash and the name of a file, and arguments shorter than a page.  If
    [exec_spec] accepts the bytes of the file, its segments are in ascending
    order, and there are enough free pages, exec() returns 0.  Then the process
    is to go on at the entry point of the ELF header with a stack pointer at
    which it reads a return address of -1, argc, argv and the pointers to its
    arguments up to a null pointer, each pointer leading to the string; at the
    address of every segment it reads the bytes of the file, and zeros up to
    the segment's size; the page below the stack is not accessible; and the
    log is idle with the image on the disk.  This composes mkfs.c, log.c,
    bio.c, fs.c, kalloc.c, vm.c and exec.c. *)
Theorem exec_runs_mkfs_program files (k : nat) h pid devread kend kdata argv km fl T F p x
  (bs := contents h) (elf := get_elfhdr (slice bs 0 52)) (gs := phdrs bs (Z.to_nat (e_phnum elf)) (i32 (e_phoff elf))) :
  Forall good_file files -> (length files <= 198)%nat -> total (image_files files) <= 941 -> Forall (fun h => Forall plain_char (stored_name h)) files ->
  NoDup ([46] :: [46; 46] :: map (fun h => take 14 (stored_name h)) files) -> (Z.of_nat (length files) + 2) mod 32 <> 0 ->
  files !! k = Some h -> stored_name h <> [] -> byte_list bs ->
  kernel_layout kend kdata -> aspace kend km fl (x_pgdir p) T F -> Forall good_arg argv ->
  exec_spec bs argv = Some x -> ascending 0 gs -> 1027 + st_sz x / 4096 <= Z.of_nat (length fl) ->
  exists st lg s', main (Some true) files mkfs_start = Ok tt st /\ reboot pid (disk_of st) = Ok tt lg /\
    exec (H := log_blocks pid) (H0 := log_journal pid) kend kdata pid devread (47 :: stored_name h) argv (mk_xsys km (mk_fs lg (repeat no_inode 50) mk_sb) p) = Ok 0 s' /\
    let U := user_byte (kbytes (xk s')) (x_pgdir (xp s')) in let sp := x_esp (xp s') in
    x_eip (xp s') = e_entry elf /\ (forall g, g ∈ gs -> reads U (p_vaddr g) (seg_bytes bs g)) /\
    (exists ps, reads U sp (words ([0xffffffff; Z.of_nat (length argv); sp + 12] ++ ps ++ [0])) /\ Forall2 (fun a s => reads U a (s ++ [0])) ps argv) /\
    (forall va, x_sz (xp s') - 8192 <= va < x_sz (xp s') - 4096 -> U va = None) /\ ready pid st (blk (xf s')).
Proof.
  intros HG Hlen Hfit Hplain Hdist H32 Hk Hne Hbs HL A Hargs HX HA Hmem. destruct (wp_run_unit (main (Some true) files) mkfs_start (made files)) as (st & Em & M).
  { eapply (@wp_main log (log_blocks 1) (log_laws 1 2 30 1 (mkDisk ∅ 1000 []) ltac:(lia))); [cbn; lia|cbn; lia|done|done|done|auto]. }
  destruct (boot_ready pid files st M) as (lg & El & RD). assert (Hnl : 1 <= 30) by lia. pose proof (mkfs_program pid devread files st M Hlen Hdist Hplain H32 lg RD Hnl k h (x_cwd p) Hk Hne) as PF.
  assert (Hsize : Z.of_nat (length bs) < 2 ^ 31) by (pose proof (Forall_lookup_1 _ _ _ _ HG Hk) as (_ & _ & ?); unfold bs; lia).
  destruct (exec_outcome (H0 := log_journal pid) kend kdata pid devread _ argv (mk_xsys km (mk_fs lg (repeat no_inode 50) mk_sb) p) fl T F bs _ _ HL A PF Hbs Hsize Hargs) as (r & s' & E & HD & [(-> & _ & Hh)|(-> & x' & Ex & HR)]); [by destruct (enough_pages _ _ _ _ _ _ _ _ _ A HX Hmem)|].
  rewrite HX in Ex. injection Ex as <-. exists st, lg, s'. split; [exact Em|]. split; [exact El|]. split; [exact E|]. cbn zeta. destruct HR as (d & l' & T' & _ & HU & _ & ->). cbn [x_pgdir x_eip x_esp x_sz].
  destruct (exec_spec_parts _ _ _ HX) as (elf' & -> & _ & HX'). fold elf in HX'. destruct (spec_stack _ _ _ _ HX') as (S1 & S2 & S3 & S4 & S5 & S6). split; [by destruct (load_spec_parts _ _ _ _ HX') as (? & ? & ? & _ & _ & -> & _)|]. split; [|split; [exists (st_ptrs x); split|split; [|exact HD]]].
  - intros g Hg. destruct (spec_segments _ _ _ _ g Hbs HX' HA Hg) as (Hr & H1 & H2). eapply reads_user; [exact HU|exact Hr|lia|lia].
  - eapply reads_user; [exact HU|exact S1|lia|]. rewrite (proj2 (words_bytes _)), !length_app. cbn [length]. lia.
  - eapply Forall2_impl; [exact S2|]. cbn beta. intros a c (Hr & H1 & H2). eapply reads_user; [exact HU|exact Hr|lia|lia].
  - intros va Hva. rewrite HU by lia. by apply S3.
Qed.

(** ** A program *)

(** An ELF file with one segment of four bytes, for eight bytes at address 0. *)
Definition demo_program : list Z :=
  [0x7f; 69; 76; 70] ++ repeat 0 12 ++ [2; 0; 3; 0; 1; 0; 0; 0; 0; 0; 0; 0; 52; 0; 0; 0] ++ repeat 0 8 ++ [52; 0; 32; 0; 1; 0; 0; 0; 0; 0; 0; 0] ++
  [1; 0; 0; 0; 84; 0; 0; 0] ++ repeat 0 8 ++ [4; 0; 0; 0; 8; 0; 0; 0; 5; 0; 0; 0; 0; 16; 0; 0] ++ [0xeb; 0xfe; 0x90; 0xc3].

Definition demo_args : list (list Z) := [[105; 110; 105; 116]; [104; 105]].

(** "_init" on the host, "init" on the disk. *)
Definition demo_file : hfile := mk_hfile [95; 105; 110; 105; 116] (Some [demo_program]).

Lemma demo_spec : exists x, exec_spec demo_program demo_args = Some x /\ st_sz x = 12288.
Proof.
  assert (E : option_map st_sz (exec_spec demo_program demo_args) = Some 12288) by (vm_compute; reflexivity). destruct (exec_spec demo_program demo_args) as [x|]; [|discriminate E]. exists x. split; [reflexivity|]. injection E as E. exact E.
Qed.

Lemma demo_kernel_layout : kernel_layout demo_kend 0x80108000.
Proof. by split_and!. Qed.

(** A machine after boot, with the code of the first process at 0x8010a000. *)
Lemma demo_boot : exists d km fl T, first_memory demo_kend 0x80108000 0x8010a000 44 (mkKmem (fun _ => 0) 0 false) = Ok d km /\ aspace demo_kend km fl d T (fun _ => False) /\ 55000 <= Z.of_nat (length fl).
Proof.
  destruct demo_kernel_layout as (H1 & H2 & H3). destruct (first_memory_made demo_kend 0x80108000 H1 H2 H3 (fun _ => 0) false 0x8010a000 44) as (d & s & l & T & E & A & L & _); [by vm_compute|intros a; lia|lia|lia|by vm_compute|]. exists d, s, l, T. split; [exact E|]. split; [exact A|exact L].
Qed.

Lemma demo_image : exists st, main (Some true) [demo_file] mkfs_start = Ok tt st /\ made [demo_file] st.
Proof.
  apply wp_run_unit. eapply (@wp_main log (log_blocks 1) (log_laws 1 2 30 1 (mkDisk ∅ 1000 []) ltac:(lia))); [cbn; lia|cbn; lia| |cbn; lia|by vm_compute|auto].
  constructor; [|constructor]. split; [apply (bool_decide_eq_true_1 _); reflexivity|]. split; [discriminate|vm_compute; discriminate].
Qed.

Definition demo_proc (d : Z) : xproc := mk_xproc d 4096 0 4096 (repeat 0 16) 0.

Lemma exec_runs_mkfs_program_witness : exists d km st lg s', first_memory demo_kend 0x80108000 0x8010a000 44 (mkKmem (fun _ => 0) 0 false) = Ok d km /\
  main (Some true) [demo_file] mkfs_start = Ok tt st /\ reboot 1 (disk_of st) = Ok tt lg /\
  exec (H := log_blocks 1) (H0 := log_journal 1) demo_kend 0x80108000 1 no_rdev [47; 105; 110; 105; 116] demo_args (mk_xsys km (mk_fs lg (repeat no_inode 50) mk_sb) (demo_proc d)) = Ok 0 s' /\
  reads (user_byte (kbytes (xk s')) (x_pgdir (xp s'))) 0 [0xeb; 0xfe; 0x90; 0xc3; 0; 0; 0; 0].
Proof.
  destruct demo_boot as (d & km & fl & T & E & A & HL). destruct demo_spec as (x & Ex & Hsz).
  destruct (exec_runs_mkfs_program [demo_file] 0 demo_file 1 no_rdev demo_kend 0x80108000 demo_args km fl T (fun _ => False) (demo_proc d) x) as (st & lg & s' & H1 & H2 & H3 & _ & H4 & _).
  - constructor; [|constructor]. split; [apply (bool_decide_eq_true_1 _); reflexivity|]. split; [discriminate|vm_compute; discriminate].
  - cbn. lia.
  - by vm_compute.
  - by repeat constructor.
  - apply (bool_decide_eq_true_1 _). reflexivity.
  - by vm_compute.
  - reflexivity.
  - discriminate.
  - repeat constructor; cbn; lia.
  - exact demo_kernel_layout.
  - exact A.
  - repeat constructor; cbn; lia.
  - exact Ex.
  - vm_compute. split; [discriminate|exact I].
  - rewrite Hsz. change (12288 / 4096) with 3. lia.
  - exists d, km, st, lg, s'. split; [exact E|]. split; [exact H1|]. split; [exact H2|]. split; [exact H3|]. specialize (H4 (get_proghdr (slice demo_program 52 32))). apply H4. vm_compute. left.
Defined.

Lemma demo_bytes : byte_list demo_program.
Proof. repeat constructor; cbn; lia. Qed.

Lemma demo_good : Forall good_arg demo_args.
Proof. repeat constructor; cbn; lia. Qed.

(** The machine and the disk. *)
Lemma demo_machine : exists d km fl T st lg x, first_memory demo_kend 0x80108000 0x8010a000 44 (mkKmem (fun _ => 0) 0 false) = Ok d km /\ aspace demo_kend km fl d T (fun _ => False) /\ 55000 <= Z.of_nat (length fl) /\
  main (Some true) [demo_file] mkfs_start = Ok tt st /\ reboot 1 (disk_of st) = Ok tt lg /\ exec_spec demo_program demo_args = Some x /\ st_sz x = 12288 /\ exists Hnl,
  @program_file log (log_blocks 1) (log_journal 1) 1 no_rdev (mk_fs lg (repeat no_inode 50) mk_sb) 0 [47; 105; 110; 105; 116] demo_program (@opened log (log_blocks 1) (log_laws 1 2 30 1 (dsk (lbio lg)) Hnl) 1 (view0 lg) demo_file) (fun f => ready 1 st (blk f)).
Proof.
  destruct demo_boot as (d & km & fl & T & E & A & HL). destruct demo_spec as (x & Ex & Hsz). destruct demo_image as (st & Em & M). destruct (boot_ready 1 [demo_file] st M) as (lg & El & RD). assert (Hnl : 1 <= 30) by lia.
  exists d, km, fl, T, st, lg, x. split; [exact E|]. split; [exact A|]. split; [exact HL|]. split; [exact Em|]. split; [exact El|]. split; [exact Ex|]. split; [exact Hsz|]. exists Hnl.
  refine (mkfs_program 1 no_rdev [demo_file] st M _ _ _ _ lg RD Hnl 0 demo_file 0 eq_refl _); [cbn; lia|apply (bool_decide_eq_true_1 _); reflexivity|by repeat constructor|by vm_compute|discriminate].
Qed.

Lemma exec_refines_spec_witness : exists d km st lg s', first_memory demo_kend 0x80108000 0x8010a000 44 (mkKmem (fun _ => 0) 0 false) = Ok d km /\
  main (Some true) [demo_file] mkfs_start = Ok tt st /\ reboot 1 (disk_of st) = Ok tt lg /\
  exec (H := log_blocks 1) (H0 := log_journal 1) demo_kend 0x80108000 1 no_rdev [47; 105; 110; 105; 116] demo_args (mk_xsys km (mk_fs lg (repeat no_inode 50) mk_sb) (demo_proc d)) = Ok 0 s' /\
  x_sz (xp s') = 12288.
Proof.
  destruct demo_machine as (d & km & fl & T & st & lg & x & E & A & HL & Em & El & Ex & Hsz & Hnl & PF).
  destruct (exec_refines_spec (H := log_blocks 1) (H0 := log_journal 1) demo_kend 0x80108000 1 no_rdev _ demo_args (mk_xsys km (mk_fs lg (repeat no_inode 50) mk_sb) (demo_proc d)) fl T (fun _ => False) demo_program _ _ demo_kernel_layout A PF demo_bytes eq_refl demo_good) as (r & s' & l' & T' & H1 & _ & _ & H2 & H3).
  assert (Hr : r = 0) by (apply (H3 x Ex); rewrite Hsz; change (12288 / 4096) with 3; lia). subst r. destruct H2 as [[H2 _]|(_ & x' & Ex' & _ & _ & H4 & _)]; [discriminate H2|]. rewrite Ex in Ex'. injection Ex' as <-.
  exists d, km, st, lg, s'. split; [exact E|]. split; [exact Em|]. split; [exact El|]. split; [exact H1|]. rewrite <- Hsz. exact H4.
Defined.

Lemma argv_round_trip_witness : exists d km st lg s', first_memory demo_kend 0x80108000 0x8010a000 44 (mkKmem (fun _ => 0) 0 false) = Ok d km /\
  main (Some true) [demo_file] mkfs_start = Ok tt st /\ reboot 1 (disk_of st) = Ok tt lg /\
  exec (H := log_blocks 1) (H0 := log_journal 1) demo_kend 0x80108000 1 no_rdev [47; 105; 110; 105; 116] demo_args (mk_xsys km (mk_fs lg (repeat no_inode 50) mk_sb) (demo_proc d)) = Ok 0 s' /\
  fetch_args (x_sz (xp s')) (proc_mem s') (Z.to_nat MAXARG) (x_esp (xp s') + 12) = Some demo_args.
Proof.
  destruct demo_machine as (d & km & fl & T & st & lg & x & E & A & HL & Em & El & Ex & Hsz & Hnl & PF).
  destruct (exec_outcome (H := log_blocks 1) (H0 := log_journal 1) demo_kend 0x80108000 1 no_rdev _ demo_args (mk_xsys km (mk_fs lg (repeat no_inode 50) mk_sb) (demo_proc d)) fl T (fun _ => False) demo_program _ _ demo_kernel_layout A PF demo_bytes eq_refl demo_good) as (r & s' & H1 & _ & [(-> & _ & Hh)|(-> & _)]).
  - exfalso. apply (enough_pages _ _ _ _ _ _ _ _ _ A Ex); [rewrite Hsz; change (12288 / 4096) with 3; lia|exact Hh].
  - exists d, km, st, lg, s'. split; [exact E|]. split; [exact Em|]. split; [exact El|]. split; [exact H1|].
    apply (argv_round_trip (H := log_blocks 1) (H0 := log_journal 1) demo_kend 0x80108000 1 no_rdev _ demo_args (mk_xsys km (mk_fs lg (repeat no_inode 50) mk_sb) (demo_proc d)) s' fl T (fun _ => False) demo_program _ _ demo_kernel_layout A PF demo_bytes eq_refl demo_good); [|cbn; lia|exact H1].
    apply (bool_decide_eq_true_1 _). reflexivity.
Defined.

(** ** A process that calls exec *)

(** Its page: argv at 100, the argument at 200, the path at 210, the stack at 300. *)
Definition caller_page : list Z := repeat 0 100 ++ words [200; 0] ++ repeat 0 92 ++ [105; 110; 105; 116; 0] ++ repeat 0 5 ++ [47; 105; 110; 105; 116; 0] ++ repeat 0 84 ++ words [0; 210; 100].
Definition caller : kmem := mkKmem (fun x => if within demo_user 4096 x then aget 0 caller_page (x - demo_user) else kbytes demo_vm x) 0 true.

Definition reads_check (U : Z -> option Z) (a : Z) (bs : list Z) : bool := forallb (fun k => bool_decide (U (a + Z.of_nat k) = Some (aget 0 bs (Z.of_nat k)))) (seq 0 (length bs)).
Lemma reads_check_ok U a bs : reads_check U a bs = true -> reads U a bs.
Proof.
  unfold reads_check. rewrite forallb_forall. intros HF i Hi. specialize (HF (Z.to_nat i)). rewrite Z2Nat.id in HF by lia. apply (bool_decide_eq_true_1 _), HF. rewrite <- list_elem_of_In. apply elem_of_seq. lia.
Qed.

Lemma sys_exec_execs_witness : exists st lg, main (Some true) [demo_file] mkfs_start = Ok tt st /\ reboot 1 (disk_of st) = Ok tt lg /\ let s := mk_xsys caller (mk_fs lg (repeat no_inode 50) mk_sb) (mk_xproc VmDemo.demo_dir 4096 0 300 (repeat 0 16) 0) in
  sys_exec (H := log_blocks 1) (H0 := log_journal 1) demo_kend 0x80108000 1 no_rdev s = exec (H := log_blocks 1) (H0 := log_journal 1) demo_kend 0x80108000 1 no_rdev [47; 105; 110; 105; 116] [[105; 110; 105; 116]] s.
Proof.
  destruct demo_image as (st & Em & M). destruct (boot_ready 1 [demo_file] st M) as (lg & El & _). exists st, lg. split; [exact Em|]. split; [exact El|]. cbn zeta.
  apply (sys_exec_execs (H := log_blocks 1) (H0 := log_journal 1) demo_kend 0x80108000 1 no_rdev (mk_xsys caller (mk_fs lg (repeat no_inode 50) mk_sb) (mk_xproc VmDemo.demo_dir 4096 0 300 (repeat 0 16) 0)) 0 210 100).
  - cbn. lia.
  - cbn. lia.
  - cbn. lia.
  - apply reads_check_ok. vm_compute. reflexivity.
  - apply reads_check_ok. vm_compute. reflexivity.
  - lia.
  - cbn. lia.
  - apply (bool_decide_eq_true_1 _). reflexivity.
  - exists [200]. split; [apply reads_check_ok; vm_compute; reflexivity|]. split; [lia|]. split; [cbn; lia|]. constructor; [|constructor]. split; [apply reads_check_ok; vm_compute; reflexivity|]. cbn. lia.
  - cbn. lia.
  - apply (bool_decide_eq_true_1 _). reflexivity.
Defined.
