(* ===== verification/Boot.v ===== *)
(** Before the kernel runs: the boot loader (bootmain.c), which loads the kernel
    from disk 0; and the search for the machine's processors (mp.c). *)

From Stdlib Require Import ZArith Lia.
From stdpp Require Import base gmap strings numbers list.
From S2P Require Import Prelude Kstring Mem Kalloc Vm Bio Ide IdeSpec Fs Sysfile Exec ExecMem.

Open Scope Z_scope.
Open Scope kern_scope.

(** * The boot loader *)

Definition SECTSIZE : Z := 512.

(** Physical memory, the controller and its disks. *)
Record boot := mk_boot { bmem : mem; bide : ide }.
Definition set_bmem v s := mk_boot v (bide s).
Definition set_bide v s := mk_boot (bmem s) v.
Definition on_bmem {A} (m : M mem A) : M boot A := zoom bmem set_bmem m.
Definition on_ide {A} (m : M ide A) : M boot A := zoom bide set_bide m.

(** A controller that is polled finishes its command. *)
Fixpoint waitdisk (polls : nat) : M boot unit :=
  match polls with
  | O => blocked
  | S polls' =>
      let! r := on_ide inb_status in
      if negb (Z.land r 0xC0 =? 0x40) then
        modify (fun s => set_bide (hw_done false (bide s)) s) ;;;
        waitdisk polls'
      else ret tt
  end.

Definition readsect (dst offset : Z) : M boot unit :=
  waitdisk 2 ;;;
  on_ide (outb 0x1F2 1) ;;;
  on_ide (outb 0x1F3 offset) ;;;
  on_ide (outb 0x1F4 (Z.shiftr offset 8)) ;;;
  on_ide (outb 0x1F5 (Z.shiftr offset 16)) ;;;
  on_ide (outb 0x1F6 (Z.lor (Z.shiftr offset 24) 0xE0)) ;;;
  on_ide (outb 0x1F7 0x20) ;;;
  waitdisk 2 ;;;
  let! d := on_ide (insl (SECTSIZE / 4)) in
  on_bmem (put_bytes dst d).

Fixpoint readseg_loop (fuel : nat) (pa epa offset : Z) : M boot unit :=
  match fuel with
  | O => blocked
  | S fuel' =>
      if pa <? epa then
        readsect pa offset ;;;
        readseg_loop fuel' (u32 (pa + SECTSIZE)) epa (u32 (offset + 1))
      else ret tt
  end.

Definition readseg (pa count offset : Z) : M boot unit :=
  let epa := u32 (pa + count) in
  let pa := u32 (pa - offset mod SECTSIZE) in
  let offset := u32 (offset / SECTSIZE + 1) in
  readseg_loop (Z.to_nat ((epa - pa) / SECTSIZE + 2)) pa epa offset.

(** The loop over the program headers, which are in memory. *)
Fixpoint boot_loop (fuel : nat) (ph eph : Z) : M boot unit :=
  match fuel with
  | O => blocked
  | S fuel' =>
      if ph <? eph then
        let! pa := on_bmem (load32 (ph + 12)) in
        let! filesz := on_bmem (load32 (ph + 16)) in
        let! off := on_bmem (load32 (ph + 4)) in
        readseg pa filesz off ;;;
        let! memsz := on_bmem (load32 (ph + 20)) in
        let! filesz := on_bmem (load32 (ph + 16)) in
        when (memsz >? filesz) (on_bmem (stosb (u32 (pa + filesz)) 0 (memsz - filesz))) ;;;
        boot_loop fuel' (u32 (ph + sizeof_proghdr)) eph
      else ret tt
  end.

(** The entry point that is called; None: it returns. *)
Definition bootmain : M boot (option Z) :=
  let elf := 0x10000 in
  readseg elf 4096 0 ;;;
  let! magic := on_bmem (load32 elf) in
  if negb (magic =? ELF_MAGIC) then ret None
  else
    let! phoff := on_bmem (load32 (elf + 28)) in
    let! lo := on_bmem (load8 (elf + 44)) in
    let! hi := on_bmem (load8 (elf + 45)) in
    let phnum := lo + 2 ^ 8 * hi in
    let ph := u32 (elf + phoff) in
    let eph := u32 (ph + sizeof_proghdr * phnum) in
    boot_loop (Z.to_nat (phnum + 1)) ph eph ;;;
    let! entry := on_bmem (load32 (elf + 24)) in
    ret (Some entry).

(** ** Reading *)

(** The bytes of the kernel's file: it starts at sector 1. *)
Definition image_byte (d : disk) (i : Z) : Z := aget 0 (disk_read d (1 + i / 512)) (i mod 512).

Record disk_ok (d : disk) : Prop := {
  do_size : forall b, length (disk_read d b) = 512%nat;
  do_byte : forall b, byte_list (disk_read d b)
}.

(** Disk 0 is selected and has nothing to do. *)
Definition ctl_ready (c : controller) : Prop := is_busy c = false /\ sel_drive c = false.

Lemma ready_status c : ctl_ready c -> Z.land (status c) 0xC0 = 0x40.
Proof. intros [Hb Hs]. unfold status. rewrite Hs, Hb. cbn [andb]. by destruct (cerr c). Qed.

Lemma wp_waitdisk_ready n s (Q : unit -> boot -> Prop) : ctl_ready (ctl (bide s)) -> Q tt s -> wp (waitdisk (S n)) s Q.
Proof.
  intros HR HQ. cbn [waitdisk]. apply wp_bind, wp_zoom, wp_gets. rewrite (ready_status _ HR). cbn [Z.eqb Pos.eqb negb]. apply wp_ret. by destruct s.
Qed.

Lemma drive_register t : 0 <= t < 16 -> Z.testbit (u8 (Z.lor t 0xE0)) 4 = false /\ Z.land (u8 (Z.lor t 0xE0)) 0x0f = t.
Proof. intros Ht. assert (E : t = 0 \/ t = 1 \/ t = 2 \/ t = 3 \/ t = 4 \/ t = 5 \/ t = 6 \/ t = 7 \/ t = 8 \/ t = 9 \/ t = 10 \/ t = 11 \/ t = 12 \/ t = 13 \/ t = 14 \/ t = 15) by lia. by repeat destruct E as [->|E]; [..|subst]. Qed.

Lemma sector_registers o : u8 o + 2 ^ 8 * u8 (o / 2 ^ 8) + 2 ^ 16 * u8 (o / 2 ^ 16) + 2 ^ 24 * (o / 2 ^ 24) = o.
Proof.
  unfold u8. replace (o / 2 ^ 24) with (o / 2 ^ 16 / 2 ^ 8) by (rewrite Z.div_div by lia; done). replace (o / 2 ^ 16) with (o / 2 ^ 8 / 2 ^ 8) by (rewrite Z.div_div by lia; done).
  pose proof (Z.div_mod o (2 ^ 8) ltac:(lia)). pose proof (Z.div_mod (o / 2 ^ 8) (2 ^ 8) ltac:(lia)). pose proof (Z.div_mod (o / 2 ^ 8 / 2 ^ 8) (2 ^ 8) ltac:(lia)). lia.
Qed.

(** The state with the controller c. *)
Definition with_ctl (c : controller) (s : boot) : boot := mk_boot (bmem s) (set_ctl c (bide s)).

Lemma with_ctl_self s : with_ctl (ctl (bide s)) s = s.
Proof. by destruct s as [m []]. Qed.

Lemma wp_out port v c c' s (Q : unit -> boot -> Prop) : is_busy c = false -> set_reg port (u8 v) c = Some c' -> Q tt (with_ctl c' s) -> wp (on_ide (outb port v)) (with_ctl c s) Q.
Proof. intros Hb Hc HQ. by apply wp_zoom, (wp_outb port v c'). Qed.

Lemma wp_waitdisk_busy c s (Q : unit -> boot -> Prop) : cmd c = Busy false [] -> sel_drive c = false ->
  Q tt (with_ctl (mk_ctl (nsect c) (lba0 c) (lba1 c) (lba2 c) (drive c) (Data (disk_read (disk0 (bide s)) (sel_sector c))) false true (present1 c)) s) -> wp (waitdisk 2) (with_ctl c s) Q.
Proof.
  intros Hc Hs HQ. change (waitdisk 2) with (let! r := on_ide inb_status in if negb (Z.land r 0xC0 =? 0x40) then modify (fun s => set_bide (hw_done false (bide s)) s) ;;; waitdisk 1 else ret tt).
  apply wp_bind, wp_zoom, wp_gets. cbn [bide with_ctl ctl set_ctl]. unfold status, is_busy. rewrite Hs, Hc. cbn [andb]. change (negb (Z.land IDE_BSY 0xC0 =? 0x40)) with true. cbn iota. apply wp_bind, wp_modify.
  assert (E : hw_done false (set_ctl c (bide s)) = set_ctl (mk_ctl (nsect c) (lba0 c) (lba1 c) (lba2 c) (drive c) (Data (disk_read (disk0 (bide s)) (sel_sector c))) false true (present1 c)) (bide s)) by (unfold hw_done; cbn [ctl set_ctl]; rewrite Hc, Hs; done).
  cbn [bide set_bide]. rewrite E. apply wp_waitdisk_ready; [split; [done|exact Hs]|exact HQ].
Qed.

Lemma wp_readsect dst offset s (Q : unit -> boot -> Prop) : ctl_ready (ctl (bide s)) -> disk_ok (disk0 (bide s)) -> bytes (bmem s) -> 0 <= dst -> dst + 512 <= 4294967296 -> 0 <= offset < 2 ^ 28 ->
  (forall s', ctl_ready (ctl (bide s')) -> disk0 (bide s') = disk0 (bide s) -> bytes (bmem s') ->
     (forall x, bmem s' x = if within dst 512 x then aget 0 (disk_read (disk0 (bide s)) offset) (x - dst) else bmem s x) -> Q tt s') -> wp (readsect dst offset) s Q.
Proof.
  intros HR [D1 D2] Hb Hd Hd1 Ho HQ. unfold readsect. apply wp_bind, wp_waitdisk_ready; [done|]. destruct HR as [HR _]. rewrite <- (with_ctl_self s) at 1. set (c := ctl (bide s)) in *.
  apply wp_bind, (wp_out _ _ _ (mk_ctl (u8 1) (lba0 c) (lba1 c) (lba2 c) (drive c) (cmd c) (cerr c) (irq c) (present1 c))); [exact HR|reflexivity|].
  apply wp_bind, (wp_out _ _ _ (mk_ctl (u8 1) (u8 offset) (lba1 c) (lba2 c) (drive c) (cmd c) (cerr c) (irq c) (present1 c))); [exact HR|reflexivity|].
  apply wp_bind, (wp_out _ _ _ (mk_ctl (u8 1) (u8 offset) (u8 (Z.shiftr offset 8)) (lba2 c) (drive c) (cmd c) (cerr c) (irq c) (present1 c))); [exact HR|reflexivity|].
  apply wp_bind, (wp_out _ _ _ (mk_ctl (u8 1) (u8 offset) (u8 (Z.shiftr offset 8)) (u8 (Z.shiftr offset 16)) (drive c) (cmd c) (cerr c) (irq c) (present1 c))); [exact HR|reflexivity|].
  apply wp_bind, (wp_out _ _ _ (mk_ctl (u8 1) (u8 offset) (u8 (Z.shiftr offset 8)) (u8 (Z.shiftr offset 16)) (u8 (Z.lor (Z.shiftr offset 24) 0xE0)) (cmd c) (cerr c) (irq c) (present1 c))); [exact HR|reflexivity|].
  apply wp_bind, (wp_out _ _ _ (mk_ctl (u8 1) (u8 offset) (u8 (Z.shiftr offset 8)) (u8 (Z.shiftr offset 16)) (u8 (Z.lor (Z.shiftr offset 24) 0xE0)) (Busy false []) false (irq c) (present1 c))); [exact HR|reflexivity|].
  rewrite !Z.shiftr_div_pow2 by lia. destruct (drive_register (offset / 2 ^ 24)) as [Hs Ht]; [zdm|]. apply wp_bind, wp_waitdisk_busy; [reflexivity|exact Hs|].
  assert (Es : u8 offset + 2 ^ 8 * u8 (offset / 2 ^ 8) + 2 ^ 16 * u8 (offset / 2 ^ 16) + 2 ^ 24 * Z.land (u8 (Z.lor (offset / 2 ^ 24) 0xE0)) 0x0f = offset) by (rewrite Ht; apply sector_registers).
  unfold sel_sector. cbn [nsect lba0 lba1 lba2 drive present1]. rewrite Es. apply wp_bind, wp_zoom. unfold insl. apply wp_bind, wp_gets. cbn [bide with_ctl ctl set_ctl cmd]. apply wp_bind, wp_modify, wp_ret.
  change (Z.to_nat (4 * (SECTSIZE / 4))) with 512%nat. rewrite take_ge by (rewrite D1; lia). apply wp_zoom. cbn [bmem set_bide with_ctl]. apply wp_put_bytes; [lia|rewrite D1; lia|apply D2|done|]. rewrite D1. intros m' Hb' Hm'. apply HQ; [split; [reflexivity|exact Hs]|reflexivity|exact Hb'|exact Hm'].
Qed.

Section Load.
Context (d : disk) (HD : disk_ok d).
Abbreviation f := (image_byte d).

(** The loader is between two sectors. *)
Definition loading (s : boot) : Prop := ctl_ready (ctl (bide s)) /\ disk0 (bide s) = d /\ bytes (bmem s).

Lemma image_sector o j : o mod 512 = 0 -> 0 <= j < 512 -> aget 0 (disk_read d (o / 512 + 1)) j = f (o + j).
Proof. intros Ho Hj. unfold image_byte. f_equal; [f_equal|]; zdm. Qed.

Lemma image_range i : 0 <= f i < 256.
Proof. apply byte_aget, HD. Qed.

Definition sectors (pa epa : Z) : Z := 512 * Z.max 0 ((epa - pa + 511) / 512).

Lemma wp_readseg_loop epa fuel : forall pa o s (Q : unit -> boot -> Prop), loading s -> 0 <= pa -> epa <= 2 ^ 32 - 512 -> 0 <= o -> o mod 512 = 0 -> (pa < epa -> o + (epa - pa) < 2 ^ 34) -> Z.max 0 ((epa - pa) / 512 + 1) < Z.of_nat fuel ->
  (forall s', loading s' -> (forall x, bmem s' x = if within pa (sectors pa epa) x then f (o + (x - pa)) else bmem s x) -> Q tt s') -> wp (readseg_loop fuel pa epa (o / 512 + 1)) s Q.
Proof.
  induction fuel as [|fuel IH]; intros pa o s Q HL Hpa Hepa Ho Hm Hlim Hfuel HQ; [lia|]. cbn [readseg_loop]. destruct (Z.ltb_spec pa epa) as [Hlt|Hge].
  - destruct HL as (L1 & L2 & L3). apply wp_bind, wp_readsect; [done|by rewrite L2|done|lia|lia|zdm|]. rewrite L2. intros s1 R1 D1 B1 M1. unfold SECTSIZE. rewrite (u32_small (pa + 512)) by lia. replace (u32 (o / 512 + 1 + 1)) with ((o + 512) / 512 + 1) by (rewrite u32_small; zdm).
    assert (Hstep : (epa - (pa + 512)) / 512 = (epa - pa) / 512 - 1) by zdm. assert (Hpos : 0 <= (epa - pa) / 512) by zdm. apply IH; [by split_and!|lia|done|lia|zdm|lia|rewrite Hstep; lia|]. intros s2 L4 M2. apply HQ; [done|]. intros x. rewrite M2, M1. assert (HS : sectors pa epa = 512 + sectors (pa + 512) epa) by (unfold sectors; zdm). assert (H0 : 0 <= sectors (pa + 512) epa) by (unfold sectors; lia). rewrite HS.
    destruct (within (pa + 512) _ x) eqn:E1.
    + apply within_true in E1. rewrite (proj2 (within_true _ _ _)) by lia. f_equal. lia.
    + apply within_false in E1. destruct (within pa 512 x) eqn:E2; [apply within_true in E2|apply within_false in E2].
      * rewrite (proj2 (within_true _ _ _)) by lia. rewrite image_sector by (done || lia). done.
      * by rewrite (proj2 (within_false _ _ _)) by lia.
  - apply wp_ret, HQ; [done|]. intros x. unfold sectors. replace (Z.max 0 _) with 0 by zdm. by rewrite within_nil.
Qed.

Lemma wp_readseg pa count off s (Q : unit -> boot -> Prop) (a := pa - off mod 512) : loading s -> 0 <= a -> 0 <= count -> pa + count <= 2 ^ 32 - 512 -> 0 <= off < 2 ^ 32 ->
  (forall s', loading s' -> (forall x, bmem s' x = if within a (sectors a (pa + count)) x then f (off + (x - pa)) else bmem s x) -> Q tt s') -> wp (readseg pa count off) s Q.
Proof.
  intros HL Ha Hc Hlim Hoff HQ. assert (Hm : 0 <= off mod 512 < 512) by (apply Z.mod_pos_bound; lia). unfold readseg, SECTSIZE. fold a. rewrite (u32_small (pa + count)), (u32_small a), (u32_small (off / 512 + 1)) by zdm. replace (off / 512 + 1) with ((off - off mod 512) / 512 + 1) by zdm.
  apply wp_readseg_loop; [done|done|lia|zdm|zdm|zdm|zdm|]. intros s' L' M'. apply HQ; [done|]. intros x. rewrite M'. destruct (within _ _ x); [|done]. f_equal. lia.
Qed.

(** ** The kernel's segments *)

Definition fword (o : Z) : Z := f o + 2 ^ 8 * f (o + 1) + 2 ^ 16 * f (o + 2) + 2 ^ 24 * f (o + 3).

Lemma fword_range o : 0 <= fword o < 2 ^ 32.
Proof. unfold fword. pose proof (image_range o). pose proof (image_range (o + 1)). pose proof (image_range (o + 2)). pose proof (image_range (o + 3)). lia. Qed.

(** Program headers, from the file. *)
Record kseg := mk_kseg { k_off : Z; k_paddr : Z; k_filesz : Z; k_memsz : Z }.
Definition kseg_at (o : Z) : kseg := mk_kseg (fword (o + 4)) (fword (o + 12)) (fword (o + 16)) (fword (o + 20)).
Fixpoint ksegs (n : nat) (o : Z) : list kseg :=
  match n with
  | O => []
  | S n' => kseg_at o :: ksegs n' (o + 32)
  end.

(** Each segment, from the sector it begins in, is above the end of the one
    before. *)
Fixpoint placed (lo : Z) (gs : list kseg) : Prop :=
  match gs with
  | [] => True
  | g :: r => lo <= k_paddr g - k_off g mod 512 /\ k_filesz g <= k_memsz g /\ k_paddr g + k_memsz g <= 2 ^ 32 - 512 /\ placed (k_paddr g + k_memsz g) r
  end.

Definition in_place (m : mem) (g : kseg) : Prop := forall i, 0 <= i < k_memsz g -> m (k_paddr g + i) = if i <? k_filesz g then f (k_off g + i) else 0.

(** The first page of the file is at 0x10000. *)
Definition headers (m : mem) : Prop := forall i, 0 <= i < 4096 -> m (0x10000 + i) = f i.

Lemma header_word m o : headers m -> 0 <= o -> o + 4 <= 4096 -> ld32 m (0x10000 + o) = fword o.
Proof.
  intros HH H0 H1. unfold ld32, fword. rewrite !u32_small by lia. rewrite <- !Z.add_assoc. by rewrite !HH by lia.
Qed.

(** One segment, and what follows. *)
Lemma wp_load_kseg o lo s (k : M boot unit) (Q : unit -> boot -> Prop) (g := kseg_at o) : loading s -> headers (bmem s) -> 0 <= o -> o + 32 <= 4096 -> 0x11000 <= lo -> placed lo [g] ->
  (forall s', loading s' -> (forall x, x < lo -> bmem s' x = bmem s x) -> in_place (bmem s') g -> wp k s' Q) ->
  wp (readseg (k_paddr g) (k_filesz g) (k_off g) ;;;
      let! memsz := on_bmem (load32 (0x10000 + o + 20)) in
      let! filesz := on_bmem (load32 (0x10000 + o + 16)) in
      when (memsz >? filesz) (on_bmem (stosb (u32 (k_paddr g + filesz)) 0 (memsz - filesz))) ;;; k) s Q.
Proof.
  intros HL HH H0 H1 Hlo (P1 & P2 & P3 & _) HQ. assert (Hm : 0 <= k_off g mod 512 < 512) by (apply Z.mod_pos_bound; lia). pose proof (fword_range (o + 4)) as Ho. change (fword (o + 4)) with (k_off g) in Ho. pose proof (fword_range (o + 16)) as Hf. change (fword (o + 16)) with (k_filesz g) in Hf.
  apply wp_bind, wp_readseg; [done|lia|lia|lia|done|]. intros s1 L1 M1. set (a := k_paddr g - k_off g mod 512) in *.
  assert (HS : k_paddr g + k_filesz g <= a + sectors a (k_paddr g + k_filesz g)) by (unfold sectors; zdm).
  assert (Hlow : forall x, x < lo -> bmem s1 x = bmem s x) by (intros x Hx; by rewrite M1, (proj2 (within_false _ _ _)) by lia).
  assert (Hfile : forall i, 0 <= i < k_filesz g -> bmem s1 (k_paddr g + i) = f (k_off g + i)) by (intros i Hi; rewrite M1, (proj2 (within_true _ _ _)) by lia; f_equal; lia).
  assert (HH1 : headers (bmem s1)) by (intros i Hi; rewrite Hlow by lia; by apply HH). do 2 apply wp_bind, wp_zoom, wp_gets. replace (set_bmem (bmem s1) s1) with s1 by (by destruct s1). replace (set_bmem (bmem s1) s1) with s1 by (by destruct s1).
  rewrite <- !(Z.add_assoc 0x10000 o), !header_word by (done || lia). change (fword (o + 20)) with (k_memsz g). change (fword (o + 16)) with (k_filesz g). apply wp_bind. rewrite Z.gtb_ltb, (u32_small (_ + _)) by lia.
  destruct (Z.ltb_spec (k_filesz g) (k_memsz g)); cbn [when].
  - destruct L1 as (C1 & D1 & B1). apply wp_zoom, wp_stosb; [lia|lia|lia|done|]. intros m' B' M'. apply HQ; [split; [done|by split]| |].
    + intros x Hx. cbn [bmem set_bmem]. rewrite M', (proj2 (within_false _ _ _)) by lia. by apply Hlow.
    + intros i Hi. cbn [bmem set_bmem]. rewrite M'. destruct (Z.ltb_spec i (k_filesz g)); [rewrite (proj2 (within_false _ _ _)) by lia; apply Hfile; lia|]. by rewrite (proj2 (within_true _ _ _)) by lia.
  - apply wp_ret, HQ; [done|done|]. intros i Hi. rewrite (proj2 (Z.ltb_lt _ _)) by lia. apply Hfile. lia.
Qed.

Lemma wp_boot_loop n : forall fuel o lo s (Q : unit -> boot -> Prop), loading s -> headers (bmem s) -> 0 <= o -> o + 32 * Z.of_nat n <= 4096 -> (n < fuel)%nat -> 0x11000 <= lo -> placed lo (ksegs n o) ->
  (forall s', loading s' -> headers (bmem s') -> (forall x, x < lo -> bmem s' x = bmem s x) -> Forall (in_place (bmem s')) (ksegs n o) -> Q tt s') ->
  wp (boot_loop fuel (0x10000 + o) (0x10000 + o + 32 * Z.of_nat n)) s Q.
Proof.
  induction n as [|n IH]; intros fuel o lo s Q HL HH H0 H1 Hfuel Hlo HP HQ; (destruct fuel as [|fuel]; [lia|]); cbn [boot_loop].
  - rewrite (proj2 (Z.ltb_ge _ _)) by lia. apply wp_ret, HQ; [done|done|done|constructor].
  - rewrite (proj2 (Z.ltb_lt _ _)) by lia. do 3 apply wp_bind, wp_zoom, wp_gets. replace (set_bmem (bmem s) s) with s by (by destruct s). replace (set_bmem (bmem s) s) with s by (by destruct s). replace (set_bmem (bmem s) s) with s by (by destruct s). rewrite <- !(Z.add_assoc 0x10000 o), !header_word by (done || lia).
    cbn [ksegs placed] in HP. destruct HP as (P1 & P2 & P3 & P4). set (g := kseg_at o) in *. rewrite (Z.add_assoc 0x10000 o 20), (Z.add_assoc 0x10000 o 16). assert (Hg : 0x11000 <= k_paddr g + k_memsz g) by (pose proof (Z.mod_pos_bound (k_off g) 512 ltac:(lia)); pose proof (fword_range (o + 20)) as R; change (fword (o + 20)) with (k_memsz g) in R; lia).
    apply (wp_load_kseg o lo); [done|done|lia|lia|done|by split_and!|]. fold g. intros s1 L1 M1 G1. unfold sizeof_proghdr. rewrite u32_small by lia. replace (0x10000 + (o + 32 * Z.of_nat (S n))) with (0x10000 + (o + 32) + 32 * Z.of_nat n) by lia.
    apply (IH fuel (o + 32) (k_paddr g + k_memsz g)); [done|intros i Hi; rewrite M1 by lia; by apply HH|lia|lia|lia|done|done|]. intros s2 L2 H2 M2 G2. apply HQ; [done|done| |constructor; [|exact G2]].
    + intros x Hx. pose proof (Z.mod_pos_bound (k_off g) 512 ltac:(lia)). pose proof (fword_range (o + 20)) as R. change (fword (o + 20)) with (k_memsz g) in R. rewrite M2 by lia. by apply M1.
    + change (in_place (bmem s2) g). intros i Hi. rewrite M2 by lia. by apply G1.
Qed.
End Load.


(** ** A kernel *)

(** An ELF header with the program headers hs (offset, address, sizes). *)
Definition elf_file (entry : Z) (hs : list (Z * Z * Z * Z)) (rest : list Z) : list Z :=
  [0x7f; 69; 76; 70] ++ repeat 0 12 ++ [2; 0; 3; 0; 1; 0; 0; 0] ++ int_bytes entry ++ int_bytes 52 ++ repeat 0 8 ++ [52; 0; 32; 0; Z.of_nat (length hs); 0; 0; 0; 0; 0; 0; 0] ++
  (hs ≫= fun '(off, pa, fsz, msz) => words [1; off; 0; pa; fsz; msz; 7; 4096]) ++ rest.

(** The file from sector 1 on. *)
Definition boot_disk (bs : list Z) : disk :=
  mkDisk (map_seqZ 1 (map (fun k => take 512 (drop (512 * k) (bs ++ repeat 0 512))) (seq 0 (length bs / 512 + 1)))) 1000 [].

Definition power_on (d : disk) : boot := mk_boot (fun _ => 0) (mk_ide (mkBio [] (mkDisk ∅ 0 [])) d [] None false (mk_ctl 0 0 0 0 0xE0 Idle false false false) [] []).

Lemma boot_disk_ok bs : byte_list bs -> disk_ok (boot_disk bs).
Proof.
  intros Hbs. set (bb := bs ++ repeat 0 512). assert (HB : byte_list bb) by (apply Forall_app; split; [done|]; apply Forall_forall; intros x Hx; apply list_elem_of_In, repeat_spec in Hx as ->; lia). assert (Hl : length bb = (length bs + 512)%nat) by (unfold bb; by rewrite length_app, repeat_length).
  assert (HR : forall b, disk_read (boot_disk bs) b = zeros BSIZE \/ exists k, (k < length bs / 512 + 1)%nat /\ disk_read (boot_disk bs) b = take 512 (drop (512 * k) bb)).
  { intros b. unfold disk_read, boot_disk. cbn [blocks]. destruct (map_seqZ 1 _ !! b) as [v|] eqn:E; [|by left]. right. apply lookup_map_seqZ_Some in E as [_ E]. rewrite list_lookup_fmap in E. destruct (seq 0 _ !! Z.to_nat (b - 1)) as [k|] eqn:Ek; [|done]. apply lookup_seq in Ek as [-> Hk]. injection E as <-. by exists (Z.to_nat (b - 1)). }
  constructor; intros b; destruct (HR b) as [->|(k & Hk & ->)]; [done| |apply Forall_forall; intros x Hx; apply list_elem_of_In, repeat_spec in Hx as ->; lia|by apply Forall_take, Forall_drop].
  rewrite length_take, length_drop, Hl. pose proof (Nat.div_mod (length bs) 512 ltac:(lia)). pose proof (Nat.mod_upper_bound (length bs) 512 ltac:(lia)). nia.
Qed.

(** One segment, for 0x100000. *)
Definition demo_kernel : list Z := elf_file 0x10000c [(96, 0x100000, 4, 8)] (repeat 0 12 ++ [0xfa; 0xf4; 0xeb; 0xfe]).


(** Increasing order is not enough.  The second segment begins in the middle of
    a sector, and what is before it in that sector is copied over the first
    one, although the segments do not overlap. *)
Definition unlucky_kernel : list Z := elf_file 0x100000 [(512, 0x100000, 4, 4); (768, 0x100010, 4, 4)] (repeat 0 (512 - 116) ++ [1; 2; 3; 4] ++ repeat 0 252 ++ [5; 6; 7; 8]).
Example leading_bytes_overwrite : match bootmain (power_on (boot_disk unlucky_kernel)) with
  | Ok (Some _) s' => map (bmem s') [0x100000; 0x100001; 0x100010; 0x100011]
  | _ => []
  end = [0; 0; 5; 6].
Proof. vm_compute. reflexivity. Qed.

(** * The processors *)

Definition NCPU : Z := 8.
Definition MPPROC : Z := 0.
Definition MPBUS : Z := 1.
Definition MPIOAPIC : Z := 2.
Definition MPIOINTR : Z := 3.
Definition MPLINTR : Z := 4.

(** Memory, the apicid of each of cpus[], and the ports 0x22 and 0x23. *)
Record mpst := mk_mpst { mmem : mem; cpus : list Z; ncpu : Z; ioapicid : Z; lapic : Z; imcr_sel : Z; imcr : Z }.
Definition set_cpus v n s := mk_mpst (mmem s) v n (ioapicid s) (lapic s) (imcr_sel s) (imcr s).
Definition set_ioapicid v s := mk_mpst (mmem s) (cpus s) (ncpu s) v (lapic s) (imcr_sel s) (imcr s).
Definition set_lapic v s := mk_mpst (mmem s) (cpus s) (ncpu s) (ioapicid s) v (imcr_sel s) (imcr s).
Definition set_imcr sel v s := mk_mpst (mmem s) (cpus s) (ncpu s) (ioapicid s) (lapic s) sel v.

(** A byte, a halfword and a word of memory. *)
Definition byte_at (a : Z) : M mpst Z := gets (fun s => mmem s (u32 a)).
Definition half_at (a : Z) : M mpst Z := gets (fun s => mmem s (u32 a) + 2 ^ 8 * mmem s (u32 (a + 1))).
Definition word_at (a : Z) : M mpst Z := gets (fun s => ld32 (mmem s) a).

(** At most 65535 bytes are added up, so that the int does not overflow. *)
Fixpoint sum_loop (n : nat) (addr sum : Z) : M mpst Z :=
  match n with
  | O => ret (u8 sum)
  | S n' => let! b := byte_at addr in sum_loop n' (addr + 1) (sum + b)
  end.
Definition sum (addr len : Z) : M mpst Z := sum_loop (Z.to_nat len) addr 0.

(** memcmp(p, sig, 4) == 0, for the constant sig *)
Fixpoint has_sig (p : Z) (sig : list Z) : M mpst bool :=
  match sig with
  | [] => ret true
  | c :: r => let! b := byte_at p in if negb (b =? c) then ret false else has_sig (p + 1) r
  end.
Definition MP_SIG : list Z := [95; 77; 80; 95].     (* "_MP_" *)
Definition PCMP_SIG : list Z := [80; 67; 77; 80].   (* "PCMP" *)
Definition sizeof_mp : Z := 16.

Definition mpsearch1 (a len : Z) : M mpst Z :=
  let addr := P2V a in
  let! r := search (Z.to_nat ((len + sizeof_mp - 1) / sizeof_mp)) 0 (fun k =>
    let p := addr + k * sizeof_mp in
    let! ok := has_sig p MP_SIG in
    if ok then
      let! c := sum p sizeof_mp in
      ret (if c =? 0 then Some p else None)
    else ret None) in
  ret (default 0 r).

Definition mpsearch : M mpst Z :=
  let bda := P2V 0x400 in
  let! hi := byte_at (bda + 0x0F) in
  let! lo := byte_at (bda + 0x0E) in
  let p := Z.shiftl (Z.lor (Z.shiftl hi 8) lo) 4 in
  let! mp :=
    (if negb (p =? 0) then mpsearch1 p 1024
     else
       let! hi := byte_at (bda + 0x14) in
       let! lo := byte_at (bda + 0x13) in
       mpsearch1 (u32 (Z.lor (Z.shiftl hi 8) lo * 1024 - 1024)) 1024) in
  if negb (mp =? 0) then ret mp else mpsearch1 0xF0000 0x10000.

(** The table and the structure that leads to it; None: 0. *)
Definition mpconfig : M mpst (option (Z * Z)) :=
  let! mp := mpsearch in
  if mp =? 0 then ret None
  else
    let! physaddr := word_at (mp + 4) in
    if physaddr =? 0 then ret None
    else
      let conf := P2V physaddr in
      let! ok := has_sig conf PCMP_SIG in
      if negb ok then ret None
      else
        let! version := byte_at (conf + 6) in
        if negb (version =? 1) && negb (version =? 4) then ret None
        else
          let! length := half_at (conf + 4) in
          let! c := sum conf length in
          if negb (c =? 0) then ret None else ret (Some (conf, mp)).

(** The loop over the table's entries.  After an unknown one it goes on at the
    same place. *)
Fixpoint mp_loop (fuel : nat) (p e : Z) (ismp : bool) : M mpst bool :=
  match fuel with
  | O => blocked
  | S fuel' =>
      if p <? e then
        let! t := byte_at p in
        if t =? MPPROC then
          let! n := gets ncpu in
          when (n <? NCPU)
            (let! id := byte_at (p + 1) in
             let! c := gets cpus in
             require (arr_ok c n) "cpus[ncpu]" ;;;
             modify (set_cpus (aset c n id) (n + 1))) ;;;
          mp_loop fuel' (u32 (p + 20)) e ismp
        else if t =? MPIOAPIC then
          let! id := byte_at (p + 1) in
          modify (set_ioapicid id) ;;;
          mp_loop fuel' (u32 (p + 8)) e ismp
        else if (t =? MPBUS) || (t =? MPIOINTR) || (t =? MPLINTR) then mp_loop fuel' (u32 (p + 8)) e ismp
        else mp_loop fuel' p e false
      else ret ismp
  end.

Definition mpinit (fuel : nat) : M mpst unit :=
  let! r := mpconfig in
  match r with
  | None => panic "Expect to run on an SMP"
  | Some (conf, mp) =>
      let! a := word_at (conf + 36) in
      modify (set_lapic a) ;;;
      let! length := half_at (conf + 4) in
      let! ismp := mp_loop fuel (u32 (conf + 44)) (u32 (conf + length)) true in
      if negb ismp then panic "Didn't find a suitable machine"
      else
        let! i := byte_at (mp + 12) in
        when (negb (i =? 0))
          (modify (fun s => set_imcr 0x70 (imcr s) s) ;;;
           modify (fun s => set_imcr (imcr_sel s) (Z.lor (imcr s) 1) s))
  end.

(** ** What the search finds *)

Section Mp.
Context (m : mem).
Implicit Types s : mpst.

Fixpoint bsum (a : Z) (n : nat) : Z := match n with O => 0 | S n' => m (u32 a) + bsum (a + 1) n' end.
Fixpoint sig_at (p : Z) (sig : list Z) : bool := match sig with [] => true | c :: r => (m (u32 p) =? c) && sig_at (p + 1) r end.

(** A floating pointer structure. *)
Definition valid_mp (p : Z) : bool := sig_at p MP_SIG && (u8 (bsum p 16) =? 0).

Lemma wp_sum_loop n : forall a acc s (Q : Z -> mpst -> Prop), mmem s = m -> Q (u8 (acc + bsum a n)) s -> wp (sum_loop n a acc) s Q.
Proof.
  induction n as [|n IH]; intros a acc s Q Hm HQ; cbn [sum_loop bsum] in *; [apply wp_ret; by rewrite Z.add_0_r in HQ|]. apply wp_bind, wp_gets. rewrite Hm. apply IH; [done|]. by rewrite <- Z.add_assoc.
Qed.

Lemma wp_has_sig sig : forall p s (Q : bool -> mpst -> Prop), mmem s = m -> Q (sig_at p sig) s -> wp (has_sig p sig) s Q.
Proof.
  induction sig as [|c r IH]; intros p s Q Hm HQ; cbn [has_sig sig_at] in *; [by apply wp_ret|]. apply wp_bind, wp_gets. rewrite Hm. destruct (m (u32 p) =? c); cbn [negb andb] in *; [by apply IH|by apply wp_ret].
Qed.

(** r is the lowest structure of the len bytes at a, or 0. *)
Definition finds (a len r : Z) : Prop :=
  (exists k, 0 <= k < (len + 15) / 16 /\ r = P2V a + 16 * k /\ valid_mp r = true /\ forall j, 0 <= j < k -> valid_mp (P2V a + 16 * j) = false) \/
  (r = 0 /\ forall j, 0 <= j < (len + 15) / 16 -> valid_mp (P2V a + 16 * j) = false).

Lemma wp_mpsearch1 a len r s (Q : Z -> mpst -> Prop) : mmem s = m -> 0 <= len -> finds a len r -> Q r s -> wp (mpsearch1 a len) s Q.
Proof.
  intros Hm Hl HF HQ. unfold mpsearch1, sizeof_mp. apply wp_bind. replace (len + 16 - 1) with (len + 15) by lia. set (n := (len + 15) / 16) in *. assert (Hn : 0 <= n) by (unfold n; zdm).
  set (Q' := fun (o : option Z) s' => wp (ret (default 0 o)) s' Q).
  assert (Hbody : forall k, wp (let! ok := has_sig (P2V a + k * 16) MP_SIG in if ok then let! c := sum (P2V a + k * 16) 16 in ret (if c =? 0 then Some (P2V a + k * 16) else None) else ret None) s
    (fun o s' => o = (if valid_mp (P2V a + 16 * k) then Some (P2V a + 16 * k) else None) /\ s' = s)).
  { intros k. rewrite (Z.mul_comm k 16). apply wp_bind, wp_has_sig; [done|]. unfold valid_mp. destruct (sig_at _ _); cbn [andb]; [|by apply wp_ret]. apply wp_bind, wp_sum_loop; [done|]. by apply wp_ret. }
  destruct HF as [(k & Hk & Er & Hv & Hno)|[-> Hno]].
  - apply (wp_search (fun j s' => s' = s /\ j <= k) Q'); [split; [done|lia]| |].
    + intros j s' Hj [-> Hjk]. eapply wp_mono; [apply Hbody|]. cbn beta. intros o s' [-> ->]. destruct (Z.eq_dec j k) as [->|Hne]; [rewrite <- Er, Hv; by apply wp_ret|]. rewrite Hno by lia. split; [done|lia].
    + intros s' [_ ?]. lia.
  - apply (wp_search (fun j s' => s' = s) Q'); [done| |].
    + intros j s' Hj ->. eapply wp_mono; [apply Hbody|]. cbn beta. intros o s' [-> ->]. by rewrite Hno by lia.
    + intros s' ->. by apply wp_ret.
Qed.

(** The extended BIOS data area if there is one, else the last kilobyte of base
    memory; then the BIOS. *)
Definition ebda : Z := Z.shiftl (Z.lor (Z.shiftl (m (P2V 0x40F)) 8) (m (P2V 0x40E))) 4.
Definition first_area : Z := if ebda =? 0 then u32 (Z.lor (Z.shiftl (m (P2V 0x414)) 8) (m (P2V 0x413)) * 1024 - 1024) else ebda.
Definition located (mp : Z) : Prop := mp <> 0 /\ (finds first_area 1024 mp \/ finds first_area 1024 0 /\ finds 0xF0000 0x10000 mp).

Lemma wp_mpsearch mp s (Q : Z -> mpst -> Prop) : mmem s = m -> located mp -> Q mp s -> wp mpsearch s Q.
Proof.
  intros Hm [H0 HL] HQ. unfold mpsearch. do 2 apply wp_bind, wp_gets. rewrite Hm. change (m (u32 (P2V 0x400 + 0x0F))) with (m (P2V 0x40F)). change (m (u32 (P2V 0x400 + 0x0E))) with (m (P2V 0x40E)). fold ebda.
  assert (HS : forall r (Q' : Z -> mpst -> Prop), finds first_area 1024 r -> Q' r s -> wp (if negb (ebda =? 0) then mpsearch1 ebda 1024 else let! hi := byte_at (P2V 0x400 + 0x14) in let! lo := byte_at (P2V 0x400 + 0x13) in mpsearch1 (u32 (Z.lor (Z.shiftl hi 8) lo * 1024 - 1024)) 1024) s Q').
  { intros r Q' HF HQ'. unfold first_area in HF. destruct (ebda =? 0); cbn [negb]; [do 2 apply wp_bind, wp_gets; rewrite Hm|]; by apply (wp_mpsearch1 _ _ r). }
  apply wp_bind. destruct HL as [HF|[HF HB]].
  - apply (HS mp); [done|]. rewrite (proj2 (Z.eqb_neq _ _) H0). by apply wp_ret.
  - apply (HS 0); [done|]. cbn [Z.eqb negb]. by apply (wp_mpsearch1 _ _ mp).
Qed.

(** ** The table *)

Inductive mpent := Cpu (id : Z) | Ioapic (id : Z) | Other (t : Z).
Definition ent_size (x : mpent) : Z := match x with Cpu _ => 20 | _ => 8 end.
Definition ent_at (p : Z) (x : mpent) : Prop :=
  match x with
  | Cpu id => m p = MPPROC /\ m (p + 1) = id
  | Ioapic id => m p = MPIOAPIC /\ m (p + 1) = id
  | Other t => m p = t /\ (t = MPBUS \/ t = MPIOINTR \/ t = MPLINTR)
  end.

(** The entries es, from p to the end e. *)
Fixpoint entries_at (p e : Z) (es : list mpent) : Prop :=
  match es with
  | [] => e <= p
  | x :: r => p < e /\ ent_at p x /\ entries_at (p + ent_size x) e r
  end.

(** A configuration table, with a header of 44 bytes. *)
Record table_at (conf : Z) (es : list mpent) : Prop := {
  tb_sig : sig_at conf PCMP_SIG = true;
  tb_version : m (conf + 6) = 1 \/ m (conf + 6) = 4;
  tb_sum : u8 (bsum conf (Z.to_nat (m (conf + 4) + 2 ^ 8 * m (conf + 5)))) = 0;
  tb_entries : entries_at (conf + 44) (conf + (m (conf + 4) + 2 ^ 8 * m (conf + 5))) es
}.

Definition cpu_ids (es : list mpent) : list Z := omap (fun x => match x with Cpu id => Some id | _ => None end) es.
Definition last_ioapic (io : Z) (es : list mpent) : Z := foldl (fun io x => match x with Ioapic id => id | _ => io end) io es.

(** The processors found so far: the first eight are kept. *)
Record found (ids : list Z) (s : mpst) : Prop := {
  fd_len : length (cpus s) = 8%nat;
  fd_num : ncpu s = Z.of_nat (Nat.min 8 (length ids));
  fd_ids : take (length ids) (cpus s) = take 8 ids
}.

Lemma found_cpu ids id s : found ids s -> Z.of_nat (length ids) < 8 -> found (ids ++ [id]) (set_cpus (aset (cpus s) (ncpu s) id) (ncpu s + 1) s).
Proof.
  intros [F1 F2 F3] Hl. rewrite F2. constructor; cbn [cpus ncpu set_cpus].
  - by rewrite length_aset.
  - rewrite length_app. cbn [length]. lia.
  - rewrite Nat.min_r by lia. rewrite length_app. cbn [length]. rewrite (take_ge (ids ++ [id])) by (rewrite length_app; cbn [length]; lia). rewrite (take_ge ids) in F3 by lia. unfold aset. rewrite (proj2 (Z.ltb_ge _ _)), Nat2Z.id by lia. rewrite Nat.add_1_r, (take_S_r _ _ id) by (apply list_lookup_insert_eq; lia). by rewrite take_insert_ge, F3 by lia.
Qed.

Lemma found_full ids id s : found ids s -> 8 <= Z.of_nat (length ids) -> found (ids ++ [id]) s.
Proof.
  intros [F1 F2 F3] Hl. constructor; [done| |].
  - rewrite length_app. cbn [length]. lia.
  - rewrite (take_ge (cpus s)) in F3 |- * by (rewrite ?length_app; lia). by rewrite take_app_le by lia.
Qed.

Lemma wp_mp_loop es : forall fuel p e ids s (Q : bool -> mpst -> Prop), mmem s = m -> 0 <= p -> e + 20 < 4294967296 -> (length es < fuel)%nat -> entries_at p e es -> found ids s ->
  (forall s', mmem s' = m -> found (ids ++ cpu_ids es) s' -> ioapicid s' = last_ioapic (ioapicid s) es -> lapic s' = lapic s -> imcr s' = imcr s -> Q true s') -> wp (mp_loop fuel p e true) s Q.
Proof.
  induction es as [|x es IH]; intros fuel p e ids s Q Hm Hp He Hfuel HE HF HQ; (destruct fuel as [|fuel]; [cbn [length] in Hfuel; lia|]); cbn [mp_loop entries_at] in *.
  - rewrite (proj2 (Z.ltb_ge _ _)) by lia. apply wp_ret, HQ; try done. by rewrite app_nil_r.
  - destruct HE as (Hlt & HX & HE). cbn [length] in Hfuel. rewrite (proj2 (Z.ltb_lt _ _)) by lia. apply wp_bind, wp_gets. rewrite Hm, (u32_small p) by lia. destruct x as [id|id|t]; cbn [ent_at ent_size] in *; destruct HX as [Ht Hx]; rewrite Ht.
    + cbn [Z.eqb MPPROC]. apply wp_bind, wp_gets, wp_bind. pose proof (fd_num _ _ HF) as Hn. pose proof (fd_len _ _ HF) as Hlen. unfold NCPU.
      assert (HK : forall s', mmem s' = m -> found (ids ++ [id]) s' -> ioapicid s' = ioapicid s -> lapic s' = lapic s -> imcr s' = imcr s -> wp (mp_loop fuel (u32 (p + 20)) e true) s' Q).
      { intros s' K1 K2 K3 K4 K5. rewrite u32_small by lia. apply (IH _ _ _ (ids ++ [id])); [done|lia|done|lia|done|done|]. intros s2 J1 J2 J3 J4 J5. apply HQ; [done|by rewrite <- app_assoc in J2|by rewrite J3, K3|by rewrite J4|by rewrite J5]. }
      destruct (Z.ltb_spec (ncpu s) 8); cbn [when].
      * apply wp_bind, wp_gets. rewrite Hm, u32_small, Hx by lia. apply wp_bind, wp_gets, wp_bind, wp_require; [apply arr_ok_true; lia|]. apply wp_modify, HK; try done. apply found_cpu; [done|lia].
      * apply wp_ret, HK; try done. apply found_full; [done|lia].
    + cbn [Z.eqb MPPROC MPIOAPIC Pos.eqb]. apply wp_bind, wp_gets. rewrite Hm, u32_small, Hx by lia. apply wp_bind, wp_modify. rewrite u32_small by lia. apply (IH _ _ _ ids); [done|lia|done|lia|done|by destruct HF|]. intros s2 J1 J2 J3 J4 J5. by apply HQ.
    + replace (t =? MPPROC) with false by (unfold MPPROC, MPBUS, MPIOINTR, MPLINTR in *; lia). replace (t =? MPIOAPIC) with false by (unfold MPIOAPIC, MPBUS, MPIOINTR, MPLINTR in *; lia). replace ((t =? MPBUS) || (t =? MPIOINTR) || (t =? MPLINTR)) with true by lia. rewrite u32_small by lia. by apply (IH _ _ _ ids); [|lia|..|lia| | |].
Qed.
End Mp.


(** An entry of another type is never passed: the loop does not end. *)
Theorem unknown_entry_hangs fuel : forall p e ismp s, p < e -> 4 < mmem s (u32 p) -> exists s', mp_loop fuel p e ismp s = Blocked s'.
Proof.
  induction fuel as [|fuel IH]; intros p e ismp s Hp Ht; [by exists s|]. cbn [mp_loop]. rewrite (proj2 (Z.ltb_lt _ _)) by lia. unfold bind, byte_at, gets. unfold MPPROC, MPBUS, MPIOAPIC, MPIOINTR, MPLINTR. set (t := mmem s (u32 p)) in *.
  replace (t =? 0) with false by lia. replace (t =? 2) with false by lia. replace ((t =? 1) || (t =? 3) || (t =? 4)) with false by lia. by apply IH.
Qed.

(** A machine with two processors and an I/O APIC: the structure is at the
    beginning of the BIOS, the table at 0xF0100. *)
Definition mp_struct : list Z := MP_SIG ++ int_bytes 0xF0100 ++ [1; 4; 0x90; 0; 0; 0; 0; 0].
Definition mp_table : list Z :=
  PCMP_SIG ++ [92; 0; 4; 0x4F] ++ repeat 0 28 ++ int_bytes 0xFEE00000 ++ repeat 0 4 ++ [0; 0; 20; 3] ++ repeat 0 16 ++ [0; 2; 20; 1] ++ repeat 0 16 ++ [2; 1; 17; 1; 0; 0; 0; 0].
Definition mp_mem : mem := fun x => if within (P2V 0xF0000) 16 x then aget 0 mp_struct (x - P2V 0xF0000) else if within (P2V 0xF0100) 92 x then aget 0 mp_table (x - P2V 0xF0100) else 0.

Lemma mp_located : located mp_mem (P2V 0xF0000).
Proof.
  split; [discriminate|]. right. split.
  - right. split; [done|]. intros j Hj. assert (E : forallb (fun k => negb (valid_mp mp_mem (P2V (first_area mp_mem) + 16 * Z.of_nat k))) (seq 0 64) = true) by (vm_compute; reflexivity).
    rewrite forallb_forall in E. specialize (E (Z.to_nat j)). rewrite Z2Nat.id in E by lia. apply negb_true_iff, E. rewrite <- list_elem_of_In. apply elem_of_seq. change ((1024 + 15) / 16) with 64 in Hj. lia.
  - left. exists 0. split; [by vm_compute|]. split; [reflexivity|]. split; [vm_compute; reflexivity|]. intros j Hj. lia.
Qed.

