(* ===== verification/FindSum.v ===== *)
(** The program find_sum (find_sum.c): the sum of the numbers in its
    arguments, written to result.txt.

    A pointer into an argument is the rest of the string from there on; the
    NUL is the end of the list.  result_buf is the state, besides the system
    calls made so far; what open() and write() return is given.  The
    arithmetic is that of int and long long, and an overflow has no meaning. *)

From Stdlib Require Import ZArith Lia.
From stdpp Require Import base gmap strings numbers list.
From S2P Require Import Prelude Kstring.

Open Scope Z_scope.
Open Scope kern_scope.

(** ** The program *)

Inductive ucall :=
| OPEN (path : string) (mode : Z)
| WRITE (fd : Z) (bytes : list Z)
| CLOSE (fd : Z)
| PRINTF (fd : Z) (text : string).

Record fsum := mk_fsum {
  result_buf : list Z;
  calls : list ucall;
}.

Definition NL : string := String (Ascii.ascii_of_nat 10) EmptyString.

Definition is_digit (c : Z) : bool := (c >=? 48) && (c <=? 57).

(** str[i], with str = result_buf *)
Definition str_get (i : Z) : M fsum Z :=
  let! b := gets result_buf in
  require (arr_ok b i) "result_buf index" ;;;
  ret (aget 0 b i).
Definition str_put (i v : Z) : M fsum unit :=
  let! b := gets result_buf in
  require (arr_ok b i) "result_buf index" ;;;
  modify (fun s => mk_fsum (aset (result_buf s) i (i8 v)) (calls s)).

Fixpoint reverse_loop (fuel : nat) (start end_ : Z) : M fsum unit :=
  if start <? end_ then
    match fuel with
    | O => blocked
    | S f =>
        let! temp := str_get start in
        let! x := str_get end_ in
        str_put start x ;;;
        str_put end_ temp ;;;
        reverse_loop f (start + 1) (end_ - 1)
    end
  else ret tt.
Definition reverse (length : Z) : M fsum unit := reverse_loop (Z.to_nat length) 0 (length - 1).

(** The digits, lowest first; a long long has at most 19. *)
Fixpoint itoa_loop (fuel : nat) (num i : Z) : M fsum Z :=
  if num =? 0 then ret i
  else
    match fuel with
    | O => blocked
    | S f =>
        str_put i (Z.rem num 10 + 48) ;;;
        itoa_loop f (Z.quot num 10) (i + 1)
    end.
Definition itoa (num : Z) : M fsum Z :=
  if num =? 0 then
    str_put 0 48 ;;;
    str_put 1 0 ;;;
    ret 1
  else
    let! i := itoa_loop 19 num 0 in
    reverse i ;;;
    str_put i 0 ;;;
    ret i.

(** while (is_digit(input_str[i])) in main(): the rest and the number. *)
Fixpoint number (s : list Z) (current_num : Z) : M fsum (list Z * Z) :=
  match s with
  | [] => ret ([], current_num)
  | c :: s' =>
      if is_digit c then
        require (current_num * 10 <? 2 ^ 31) "current_num * 10 overflows" ;;;
        require (current_num * 10 + (c - 48) <? 2 ^ 31) "current_num overflows" ;;;
        number s' (current_num * 10 + (c - 48))
      else ret (s, current_num)
  end.

(** while (input_str[i] != 0) in main(): total_sum.  Each round takes at
    least one character. *)
Fixpoint sum_string (fuel : nat) (s : list Z) (total_sum : Z) : M fsum Z :=
  match s with
  | [] => ret total_sum
  | c :: s' =>
      match fuel with
      | O => blocked
      | S f =>
          if is_digit c then
            let! (rest, current_num) := number s 0 in
            require (total_sum + current_num <? 2 ^ 63) "total_sum overflows" ;;;
            sum_string f rest (total_sum + current_num)
          else sum_string f s' total_sum
      end
  end.

(** for (int j = 1; j < argc; j++) in main() *)
Fixpoint sum_args (argv : list (list Z)) (total_sum : Z) : M fsum Z :=
  match argv with
  | [] => ret total_sum
  | input_str :: argv' =>
      let! total_sum := sum_string (length input_str) input_str total_sum in
      sum_args argv' total_sum
  end.

Definition call (c : ucall) : M fsum unit := modify (fun s => mk_fsum (result_buf s) (calls s ++ [c])).

Section Main.
Variable fd : Z.                  (* what open() returns *)
Variable written : list Z -> Z.   (* what write() returns *)

(** argv[1..]; the returns are exit(). *)
Definition main (argv : list (list Z)) : M fsum unit :=
  if Z.of_nat (length argv) + 1 <=? 1 then call (PRINTF 2 ("Usage: find_sum <string1> [string2] ..." +:+ NL))
  else
    let! total_sum := sum_args argv 0 in
    let! len := itoa total_sum in
    str_put len 10 ;;;
    let len := len + 1 in
    call (OPEN "result.txt" (Z.lor 512 1)) ;;;
    if fd <? 0 then call (PRINTF 2 ("find_sum: cannot open result.txt" +:+ NL))
    else
      let! b := gets result_buf in
      let bytes := take (Z.to_nat len) b in
      call (WRITE fd bytes) ;;;
      when (negb (written bytes =? len)) (call (PRINTF 2 ("find_sum: error writing to result.txt" +:+ NL))) ;;;
      call (CLOSE fd).
End Main.

(** ** The numbers in a string *)

(** The string cut at every character that is not a digit: the first piece
    and the others.  Pieces may be empty. *)
Fixpoint pieces (s : list Z) : list Z * list (list Z) :=
  match s with
  | [] => ([], [])
  | c :: s' => let (w, ws) := pieces s' in if is_digit c then (c :: w, ws) else ([], w :: ws)
  end.
Definition numerals (s : list Z) : list (list Z) := let (w, ws) := pieces s in w :: ws.

(** The number that a numeral denotes; 0 for the empty one. *)
Definition add_digit (v c : Z) : Z := v * 10 + (c - 48).
Definition value (ds : list Z) : Z := foldl add_digit 0 ds.
Definition sum_values (ws : list (list Z)) : Z := foldr (fun w a => value w + a) 0 ws.

Lemma is_digit_spec c : is_digit c = true <-> 48 <= c <= 57.
Proof. unfold is_digit. rewrite andb_true_iff, Z.geb_le, Z.leb_le. lia. Qed.

Lemma add_digits_ge ds v : Forall (fun c => is_digit c = true) ds -> 0 <= v -> v <= foldl add_digit v ds.
Proof.
  revert v. induction ds as [|d ds IH]; intros v HF Hv; [cbn; lia|]. apply Forall_cons in HF as [Hd%is_digit_spec HF]. cbn. specialize (IH (add_digit v d) HF). unfold add_digit in *. lia.
Qed.

Lemma pieces_digits s w ws : pieces s = (w, ws) -> Forall (fun c => is_digit c = true) w /\ Forall (Forall (fun c => is_digit c = true)) ws.
Proof.
  revert w ws. induction s as [|c s IH]; intros w ws; cbn; [intros [= <- <-]; by split|]. destruct (pieces s) as [w' ws']. destruct (IH w' ws' eq_refl) as [H1 H2].
  destruct (is_digit c) eqn:E; intros [= <- <-]; split; try done; by constructor.
Qed.

Lemma pieces_drop s w ws : pieces s = (w, ws) -> pieces (drop (length w) s) = ([], ws).
Proof.
  revert w ws. induction s as [|c s IH]; intros w ws; cbn; [intros [= <- <-]; done|]. destruct (pieces s) as [w' ws'] eqn:Ep. destruct (is_digit c) eqn:E; intros [= <- <-]; cbn; [by apply IH|]. by rewrite Ep, E.
Qed.

Lemma sum_values_cons w ws : sum_values (w :: ws) = value w + sum_values ws.
Proof. done. Qed.

Lemma sum_values_nonneg ws : Forall (Forall (fun c => is_digit c = true)) ws -> 0 <= sum_values ws.
Proof. induction 1 as [|w ws Hw _ IH]; [done|]. rewrite sum_values_cons. pose proof (add_digits_ge w 0 Hw ltac:(lia)). unfold value. lia. Qed.

Lemma number_value s cur w ws st : pieces s = (w, ws) -> 0 <= cur -> foldl add_digit cur w < 2 ^ 31 -> number s cur st = Ok (drop (length w) s, foldl add_digit cur w) st.
Proof.
  revert cur w ws. induction s as [|c s IH]; intros cur w ws; cbn [pieces number]; [intros [= <- <-]; done|]. destruct (pieces s) as [w' ws'] eqn:Ep. destruct (pieces_digits _ _ _ Ep) as [Hw' _]. destruct (is_digit c) eqn:E; intros [= <- <-] Hc HV; [|done].
  cbn [foldl length drop] in *. apply is_digit_spec in E. pose proof (add_digits_ge w' (add_digit cur c) Hw' ltac:(unfold add_digit; lia)) as HG. assert (H1 : cur * 10 + (c - 48) < 2 ^ 31) by (change (add_digit cur c < 2 ^ 31); lia).
  unfold require, bind. replace (cur * 10 <? 2 ^ 31) with true by lia. replace (cur * 10 + (c - 48) <? 2 ^ 31) with true by lia. apply (IH _ _ _ eq_refl); [lia|done].
Qed.

Lemma sum_string_value fuel s total st : (length s <= fuel)%nat -> 0 <= total -> Forall (fun w => value w < 2 ^ 31) (numerals s) -> total + sum_values (numerals s) < 2 ^ 63 ->
  sum_string fuel s total st = Ok (total + sum_values (numerals s)) st.
Proof.
  revert s total. induction fuel as [|fuel IH]; intros s total Hl Ht HF HS; (destruct s as [|c s]; [cbn; do 2 f_equal; lia|]); [cbn in Hl; lia|]. cbn [sum_string]. destruct (pieces s) as [w ws] eqn:Ep. destruct (pieces_digits _ _ _ Ep) as [Hw Hws].
  unfold numerals in *. cbn [pieces] in *. rewrite Ep in *. cbn in Hl. destruct (is_digit c) eqn:E.
  - assert (Ep' : pieces (c :: s) = (c :: w, ws)) by (cbn; by rewrite Ep, E). apply Forall_cons in HF as [HV HF]. rewrite sum_values_cons in *. pose proof (sum_values_nonneg ws Hws). pose proof (add_digits_ge (c :: w) 0 ltac:(by constructor) ltac:(lia)) as HG. fold (value (c :: w)) in HG.
    unfold bind at 1. rewrite (number_value _ 0 _ _ st Ep') by (done || lia). fold (value (c :: w)). unfold require, bind, ret. replace (total + value (c :: w) <? 2 ^ 63) with true by lia. cbv beta iota. pose proof (pieces_drop _ _ _ Ep') as Ed. rewrite IH; [|cbn; rewrite length_drop; lia|lia|rewrite Ed; by constructor|rewrite Ed, sum_values_cons; change (value []) with 0; lia].
    rewrite Ed, sum_values_cons. change (value []) with 0. f_equal. lia.
  - apply Forall_cons in HF as [_ HF]. rewrite !sum_values_cons in *. change (value []) with 0 in *. rewrite IH; [|lia|done|by rewrite Ep|rewrite Ep, sum_values_cons; lia]. rewrite Ep, sum_values_cons. f_equal.
Qed.

Definition all_numerals (argv : list (list Z)) : list (list Z) := concat (map numerals argv).

Lemma sum_values_app ws ws' : sum_values (ws ++ ws') = sum_values ws + sum_values ws'.
Proof. induction ws as [|w ws IH]; [done|]. cbn [app]. rewrite !sum_values_cons, IH. lia. Qed.

Lemma numerals_nonneg s : 0 <= sum_values (numerals s).
Proof. apply sum_values_nonneg. unfold numerals. destruct (pieces s) as [w ws] eqn:E. destruct (pieces_digits _ _ _ E). by constructor. Qed.

Lemma all_numerals_nonneg argv : 0 <= sum_values (all_numerals argv).
Proof. induction argv as [|s argv IH]; [done|]. unfold all_numerals in *. cbn. rewrite sum_values_app. pose proof (numerals_nonneg s). lia. Qed.

Lemma sum_args_value argv total st : 0 <= total -> Forall (fun w => value w < 2 ^ 31) (all_numerals argv) -> total + sum_values (all_numerals argv) < 2 ^ 63 ->
  sum_args argv total st = Ok (total + sum_values (all_numerals argv)) st.
Proof.
  revert total. induction argv as [|s argv IH]; intros total Ht HF HS; [cbn; f_equal; lia|]. change (all_numerals (s :: argv)) with (numerals s ++ all_numerals argv) in *. rewrite sum_values_app in *. apply Forall_app in HF as [H1 H2].
  pose proof (numerals_nonneg s). pose proof (all_numerals_nonneg argv). cbn [sum_args]. unfold bind. rewrite sum_string_value by (done || lia). rewrite IH by (done || lia). f_equal. lia.
Qed.

(** ** The decimal numeral *)

Abbreviation upd b s := (mk_fsum b (calls s)).

Lemma wp_str_get i s (Q : Z -> fsum -> Prop) : 0 <= i < Z.of_nat (length (result_buf s)) -> Q (aget 0 (result_buf s) i) s -> wp (str_get i) s Q.
Proof. intros Hi HQ. unfold str_get. apply wp_bind, wp_gets, wp_bind, wp_require; [by apply arr_ok_true|]. by apply wp_ret. Qed.

Lemma wp_str_put i v s (Q : unit -> fsum -> Prop) : 0 <= i < Z.of_nat (length (result_buf s)) -> Q tt (upd (aset (result_buf s) i (i8 v)) s) -> wp (str_put i v) s Q.
Proof. intros Hi HQ. unfold str_put. apply wp_bind, wp_gets, wp_bind, wp_require; [by apply arr_ok_true|]. by apply wp_modify. Qed.

Lemma aget_mid (pre : list Z) x post i : i = Z.of_nat (length pre) -> aget 0 (pre ++ x :: post) i = x.
Proof. intros ->. unfold aget. destruct (Z.ltb_spec (Z.of_nat (length pre)) 0); [lia|]. rewrite Nat2Z.id, app_nth2, Nat.sub_diag by lia. done. Qed.
Lemma aset_mid (pre : list Z) x post i v : i = Z.of_nat (length pre) -> aset (pre ++ x :: post) i v = pre ++ v :: post.
Proof. intros ->. unfold aset. destruct (Z.ltb_spec (Z.of_nat (length pre)) 0); [lia|]. rewrite Nat2Z.id, insert_app_r_alt, Nat.sub_diag by lia. done. Qed.

Definition is_char (x : Z) : Prop := i8 x = x.

Lemma wp_reverse_loop fuel pre mid post e s (Q : unit -> fsum -> Prop) : result_buf s = pre ++ mid ++ post -> Forall is_char mid -> (length mid <= fuel)%nat ->
  e = Z.of_nat (length pre) + Z.of_nat (length mid) - 1 -> Q tt (upd (pre ++ rev mid ++ post) s) -> wp (reverse_loop fuel (Z.of_nat (length pre)) e) s Q.
Proof.
  revert pre mid post e s. induction fuel as [|fuel IH]; intros pre mid post e s Eb Hc Hl -> HQ; cbn [reverse_loop].
  { destruct mid; [|cbn in Hl; lia]. rewrite (proj2 (Z.ltb_ge _ _)) by (cbn [length]; lia). apply wp_ret. destruct s. cbn in *. by subst. }
  destruct mid as [|x mid]; [|destruct mid as [|y mid' _] using rev_ind].
  - rewrite (proj2 (Z.ltb_ge _ _)) by (cbn [length]; lia). apply wp_ret. destruct s. cbn in *. by subst.
  - rewrite (proj2 (Z.ltb_ge _ _)) by (cbn [length]; lia). apply wp_ret. destruct s. cbn in *. by subst.
  - set (e := _ - 1). assert (Ee : e = Z.of_nat (length (pre ++ x :: mid'))) by (unfold e; rewrite length_app; cbn [length]; rewrite length_app; cbn [length]; lia). rewrite length_app in Ee. cbn [length] in Ee.
    rewrite (proj2 (Z.ltb_lt _ e)) by lia. apply Forall_cons in Hc as [Hx Hc]. apply Forall_app in Hc as [Hm Hc]. apply Forall_cons in Hc as [Hy _]. unfold is_char in Hx, Hy.
    assert (Eb' : result_buf s = pre ++ x :: (mid' ++ y :: post)) by (rewrite Eb; cbn; by rewrite <- app_assoc). assert (HL : Z.of_nat (length (result_buf s)) = e + 1 + Z.of_nat (length post)) by (rewrite Eb', length_app; cbn; rewrite length_app; cbn [length]; lia).
    apply wp_bind, wp_str_get; [lia|]. apply wp_bind, wp_str_get; [lia|]. rewrite Eb', (aget_mid pre x (mid' ++ y :: post) (Z.of_nat (length pre))) by done. replace (pre ++ x :: mid' ++ y :: post) with ((pre ++ x :: mid') ++ y :: post) by (by rewrite <- app_assoc).
    rewrite (aget_mid (pre ++ x :: mid') y post e) by (rewrite length_app; cbn [length]; lia). apply wp_bind, wp_str_put; [lia|]. rewrite Hy, Eb', aset_mid by done. apply wp_bind, wp_str_put; [cbn [result_buf]; rewrite length_app; cbn [length]; rewrite length_app; cbn [length]; lia|].
    rewrite Hx. cbn [result_buf calls]. replace (pre ++ y :: mid' ++ y :: post) with ((pre ++ y :: mid') ++ y :: post) by (by rewrite <- app_assoc). rewrite aset_mid by (rewrite length_app; cbn [length]; lia).
    replace (Z.of_nat (length pre) + 1) with (Z.of_nat (length (pre ++ [y]))) by (rewrite length_app; cbn [length]; lia). apply (IH (pre ++ [y]) mid' (x :: post)).
    + cbn [result_buf]. by rewrite <- !app_assoc.
    + done.
    + cbn in Hl. rewrite length_app in Hl. cbn in Hl. lia.
    + rewrite length_app. cbn [length]. lia.
    + cbn [calls result_buf]. cbn [rev] in HQ. rewrite rev_app_distr in HQ. cbn in HQ. rewrite <- !app_assoc in *. exact HQ.
Qed.

(** The numeral of a positive number, without leading zeros. *)
Record decimal (n : Z) (ds : list Z) : Prop := {
  dc_digits : Forall (fun c => is_digit c = true) ds;
  dc_value : value ds = n;
  dc_lead : ds = [48] \/ exists d ds', ds = d :: ds' /\ d <> 48;
}.

Lemma value_snoc ds d : value (ds ++ [d]) = value ds * 10 + (d - 48).
Proof. unfold value. by rewrite foldl_app. Qed.

Lemma wp_itoa_loop fuel num done_ rest i s (Q : Z -> fsum -> Prop) : result_buf s = done_ ++ rest -> i = Z.of_nat (length done_) -> (fuel < length rest)%nat -> 0 < num < 10 ^ Z.of_nat fuel ->
  (forall ds rest', decimal num (rev ds) -> (length ds <= fuel)%nat -> (length rest = length ds + length rest')%nat -> Q (i + Z.of_nat (length ds)) (upd (done_ ++ ds ++ rest') s)) -> wp (itoa_loop fuel num i) s Q.
Proof.
  revert num done_ rest i s. induction fuel as [|fuel IH]; intros num dn rest i s Eb -> Hr Hn HQ; [cbn in Hn; lia|]. cbn [itoa_loop]. replace (num =? 0) with false by lia.
  destruct rest as [|x rest]; [cbn in Hr; lia|]. apply wp_bind, wp_str_put; [rewrite Eb, length_app; cbn; lia|]. rewrite Eb, aset_mid by done. rewrite Z.rem_mod_nonneg, Z.quot_div_nonneg by lia.
  set (d := num mod 10 + 48). assert (Hd : 48 <= d <= 57) by (unfold d; zdm). assert (E8 : i8 d = d) by (unfold i8; rewrite Z.mod_small; lia). rewrite E8.
  assert (HD : is_digit d = true) by (by apply is_digit_spec). destruct (Z.eqb_spec (num / 10) 0) as [E0|E0].
  - assert (num < 10) by zdm. destruct fuel; cbn [itoa_loop]; rewrite E0; cbn [Z.eqb]; (apply wp_ret; apply (HQ [d] rest); [|cbn; lia|cbn; lia]); (constructor; [by constructor|cbn; unfold add_digit, d; zdm|right; exists d, []; split; [done|unfold d; zdm]]).
  - apply (IH (num / 10) (dn ++ [d]) rest).
    + cbn [result_buf]. by rewrite <- app_assoc.
    + rewrite length_app. cbn [length]. lia.
    + cbn in Hr. lia.
    + rewrite Nat2Z.inj_succ, Z.pow_succ_r in Hn by lia. split; [zdm|apply Z.div_lt_upper_bound; lia].
    + intros ds rest' [D1 D2 D3] Hl Hr'. cbn [calls]. rewrite <- app_assoc. replace (_ + 1 + _) with (Z.of_nat (length dn) + Z.of_nat (length (d :: ds))) by (cbn [length]; lia). apply (HQ (d :: ds) rest'); [|cbn; lia|cbn; lia]. constructor.
      * cbn [rev]. apply Forall_app. split; [done|by constructor].
      * cbn [rev]. rewrite value_snoc, D2. unfold d. zdm.
      * destruct D3 as [E|(d0 & ds' & E & Hd0)]; [exfalso; rewrite E in D2; change (value [48]) with 0 in D2; lia|]. right. exists d0, (ds' ++ [d]). split; [cbn [rev]; by rewrite E|done].
Qed.

Lemma wp_itoa num s (Q : Z -> fsum -> Prop) : length (result_buf s) = 50%nat -> 0 <= num < 2 ^ 63 ->
  (forall ds rest, decimal num ds -> (length ds <= 19)%nat -> (length ds + length rest = 50)%nat -> Q (Z.of_nat (length ds)) (upd (ds ++ rest) s)) -> wp (itoa num) s Q.
Proof.
  intros HL Hn HQ. unfold itoa. destruct (Z.eqb_spec num 0) as [->|Hne].
  - apply wp_bind, wp_str_put; [lia|]. apply wp_bind, wp_str_put; [cbn [result_buf]; rewrite length_aset; lia|]. apply wp_ret. cbn [result_buf calls]. destruct s as [b cs]. cbn [result_buf calls] in *. destruct b as [|x b]; [done|].
    apply (HQ [48] (aset b 0 0)); [|cbn; lia|rewrite length_aset; cbn in *; lia]. constructor; [by constructor|done|by left].
  - apply wp_bind. eapply (wp_itoa_loop 19 num [] (result_buf s) 0); [done|done|rewrite HL; lia|change (10 ^ Z.of_nat 19) with 10000000000000000000; lia|]. intros ds rest D Hl Hr. cbn [app].
    assert (Hc : Forall is_char ds). { rewrite <- (rev_involutive ds). apply Forall_rev. eapply Forall_impl; [apply D|]. intros c Hc%is_digit_spec. unfold is_char, i8. rewrite Z.mod_small; lia. }
    apply wp_bind. unfold reverse. apply (wp_reverse_loop _ [] ds rest); [done|done|lia|cbn [length]; lia|]. cbn [app result_buf calls]. destruct rest as [|x rest]; [cbn in Hr; lia|]. assert (El : length (rev ds) = length ds) by apply length_rev.
    apply wp_bind, wp_str_put; [cbn [result_buf]; rewrite length_app, El; cbn [length]; lia|]. cbn [result_buf calls]. rewrite aset_mid by lia. apply wp_ret. replace (0 + Z.of_nat (length ds)) with (Z.of_nat (length (rev ds))) by lia.
    apply (HQ (rev ds) (i8 0 :: rest)); [done|lia|cbn [length] in *; lia].
Qed.

Section Correct.
Context (fd : Z) (written : list Z -> Z).

(** The calls that write the text to result.txt. *)
Definition result_calls (text : list Z) : list ucall :=
  OPEN "result.txt" 513 ::
  if fd <? 0 then [PRINTF 2 ("find_sum: cannot open result.txt" +:+ NL)]
  else WRITE fd text :: (if written text =? Z.of_nat (length text) then [] else [PRINTF 2 ("find_sum: error writing to result.txt" +:+ NL)]) ++ [CLOSE fd].

(** C28: find_sum writes the sum of the numbers in its arguments. If no
    numeral in the arguments is 2^31 or more and their sum is below 2^63, the
    program ends; it opens result.txt, writes to it the decimal numeral of the
    sum of all of them, without leading zeros, and a newline, in one write()
    that fits the buffer, and closes it; with no argument, it prints how it is
    used, and when open() or write() fail, the error, and does nothing else. *)
Theorem find_sum_writes_sum argv b : length b = 50%nat -> Forall (fun w => value w < 2 ^ 31) (all_numerals argv) -> sum_values (all_numerals argv) < 2 ^ 63 ->
  exists b' cs, main fd written argv (mk_fsum b []) = Ok tt (mk_fsum b' cs) /\
    match argv with
    | [] => cs = [PRINTF 2 ("Usage: find_sum <string1> [string2] ..." +:+ NL)]
    | _ => exists ds, decimal (sum_values (all_numerals argv)) ds /\ cs = result_calls (ds ++ [10])
    end.
Proof.
  intros HL HF HS. destruct argv as [|a argv]; [by eexists _, _|]. set (all := a :: argv) in *. pose proof (all_numerals_nonneg all) as H0.
  assert (W : wp (main fd written all) (mk_fsum b []) (fun _ s' => exists ds, decimal (sum_values (all_numerals all)) ds /\ calls s' = result_calls (ds ++ [10]))).
  2: { apply wp_run_unit in W as ([b' cs] & E & ds & D & Ec). exists b', cs. split; [done|]. by exists ds. }
  unfold main. rewrite (proj2 (Z.leb_gt _ _)) by (unfold all; cbn [length]; lia). apply wp_bind. unfold wp. rewrite sum_args_value by (done || lia). rewrite Z.add_0_l. fold (@wp fsum unit).
  apply wp_bind, wp_itoa; [done|lia|]. intros ds rest D Hl Hr. destruct rest as [|x rest]; [cbn in Hr; lia|]. apply wp_bind, wp_str_put; [cbn [result_buf]; rewrite length_app; cbn [length]; lia|]. cbn [result_buf calls]. rewrite aset_mid by done.
  apply wp_bind, wp_modify. unfold result_calls. destruct (fd <? 0); [apply wp_modify; by exists ds|]. apply wp_bind, wp_gets, wp_bind, wp_modify. cbn [result_buf calls app].
  assert (ET : take (Z.to_nat (Z.of_nat (length ds) + 1)) (ds ++ i8 10 :: rest) = ds ++ [10]). { replace (Z.to_nat _) with (length ds + 1)%nat by lia. rewrite take_app_add. done. }
  rewrite ET. assert (El : Z.of_nat (length (ds ++ [10])) = Z.of_nat (length ds) + 1) by (rewrite length_app; cbn [length]; lia). rewrite <- El.
  apply wp_bind. destruct (written (ds ++ [10]) =? _) eqn:Ew; cbn [negb when]; [apply wp_ret|apply wp_modify]; apply wp_modify; exists ds; (split; [done|]); by rewrite Ew.
Qed.
End Correct.

(** find_sum a12b7 30 *)
Lemma find_sum_writes_sum_witness : exists b' cs, main 3 (fun t => Z.of_nat (length t)) [[97; 49; 50; 98; 55]; [51; 48]] (mk_fsum (repeat 1 50) []) = Ok tt (mk_fsum b' cs) /\
  cs = [OPEN "result.txt" 513; WRITE 3 [52; 57; 10]; CLOSE 3] /\ exists ds, decimal 49 ds.
Proof.
  destruct (find_sum_writes_sum 3 (fun t => Z.of_nat (length t)) [[97; 49; 50; 98; 55]; [51; 48]] (repeat 1 50)) as (b' & cs & E & ds & D & _).
  - reflexivity.
  - repeat (constructor; [reflexivity|]). constructor.
  - reflexivity.
  - exists b', cs. split; [exact E|]. split; [|exists ds; exact D]. vm_compute in E. injection E as _ <-. reflexivity.
Defined.

(** A numeral of 2^31 or more overflows current_num. *)
Lemma find_sum_overflows fd written b : main fd written [codes "2147483648"] (mk_fsum b []) = Undef "current_num overflows".
Proof. reflexivity. Qed.
