(* ===== verification/Umalloc.v ===== *)
(** The memory allocator of user programs (umalloc.c).

    The state is the memory of the process, byte by byte, freep, and the size
    of the process, which sbrk() changes.  A header is two words: s.ptr and
    s.size, the size in units of eight bytes; base is a header in the data
    of the program.  An access outside the process has no meaning. *)

From Stdlib Require Import ZArith Lia.
From stdpp Require Import base gmap strings numbers list.
From S2P Require Import Prelude Kstring Mem Kalloc.

Open Scope Z_scope.
Open Scope kern_scope.

Record uheap := mk_uheap {
  hm : mem;
  freep : Z;
  brk : Z;     (* the size of the process *)
  quota : Z;   (* the size up to which there is memory for it *)
}.

Definition set_hm v s := mk_uheap v (freep s) (brk s) (quota s).
Definition set_freep v s := mk_uheap (hm s) v (brk s) (quota s).
Definition set_brk v s := mk_uheap (hm s) (freep s) v (quota s).

Section Umalloc.
Variable base : Z.  (* &base *)

(** A word of the process. *)
Definition in_proc (a : Z) : M uheap unit :=
  let! e := gets brk in
  require ((0 <=? a) && (a + 4 <=? e)) "access outside the process".
Definition word (a : Z) : M uheap Z := in_proc a ;;; zoom hm set_hm (load32 a).
Definition set_word (a v : Z) : M uheap unit := in_proc a ;;; zoom hm set_hm (store32 a v).

(** p->s.ptr and p->s.size *)
Definition ptr (p : Z) : M uheap Z := word p.
Definition size (p : Z) : M uheap Z := word (p + 4).
Definition set_ptr (p v : Z) : M uheap unit := set_word p v.
Definition set_size (p v : Z) : M uheap unit := set_word (p + 4) v.
(** p + n, for a Header *p *)
Definition plus (p n : Z) : Z := u32 (p + 8 * n).

(** sbrk(n): sys_sbrk() and the size that growproc() gives the process, by
    allocuvm() or deallocuvm().  The bytes of new memory are what they are. *)
Definition sbrk (n : Z) : M uheap Z :=
  let! s := gets id in
  let old := brk s in
  let new := u32 (old + n) in
  if n >? 0 then
    if new >=? KERNBASE then ret (-1)
    else if new <? old then ret old
    else if new >? quota s then ret (-1)
    else modify (set_brk new) ;;; ret old
  else if n <? 0 then
    if new >=? old then ret old
    else if new =? 0 then ret (-1)
    else modify (set_brk new) ;;; ret old
  else ret old.

(** The loop of free(): the free block after which bp belongs.  It goes
    around the list once at most, and a free block has at least one unit. *)
Fixpoint free_find (fuel : nat) (bp p : Z) : M uheap Z :=
  match fuel with
  | O => blocked
  | S f =>
      let! nx := ptr p in
      if (bp >? p) && (bp <? nx) then ret p
      else if (p >=? nx) && ((bp >? p) || (bp <? nx)) then ret p
      else free_find f bp nx
  end.

Definition units (s : uheap) : nat := Z.to_nat (brk s / 8).

Definition free (ap : Z) : M uheap unit :=
  let bp := u32 (ap - 8) in
  let! fuel := gets units in
  let! start := gets freep in
  let! p := free_find (fuel + 2) bp start in
  let! nx := ptr p in
  let! bsize := size bp in
  (if plus bp bsize =? nx then
     let! nsize := size nx in
     set_size bp (bsize + nsize) ;;;
     let! nn := ptr nx in
     set_ptr bp nn
   else set_ptr bp nx) ;;;
  let! psize := size p in
  (if plus p psize =? bp then
     let! bsize := size bp in
     set_size p (psize + bsize) ;;;
     let! bptr := ptr bp in
     set_ptr p bptr
   else set_ptr p bp) ;;;
  modify (set_freep p).

Definition morecore (nu : Z) : M uheap Z :=
  let nu := if nu <? 4096 then 4096 else nu in
  let! p := sbrk (i32 (nu * 8)) in
  if p =? -1 then ret 0
  else
    set_size p nu ;;;
    free (plus p 1) ;;;
    gets freep.

(** The block p, behind prevp, is large enough. *)
Definition take_block (nunits prevp p psize : Z) : M uheap Z :=
  let! p :=
    (if psize =? nunits then
       let! nx := ptr p in
       set_ptr prevp nx ;;;
       ret p
     else
       set_size p (psize - nunits) ;;;
       let p := plus p (psize - nunits) in
       set_size p nunits ;;;
       ret p) in
  modify (set_freep prevp) ;;;
  ret (plus p 1).

(** The loop goes around the list once, and once more after morecore(). *)
Fixpoint malloc_loop (fuel : nat) (nunits prevp p : Z) : M uheap Z :=
  match fuel with
  | O => blocked
  | S f =>
      let! psize := size p in
      if psize >=? nunits then take_block nunits prevp p psize
      else
        let! fp := gets freep in
        if p =? fp then
          let! p := morecore nunits in
          if p =? 0 then ret 0
          else
            let! nx := ptr p in
            malloc_loop f nunits p nx
        else
          let! nx := ptr p in
          malloc_loop f nunits p nx
  end.

Definition malloc (nbytes : Z) : M uheap Z :=
  let nunits := u32 (nbytes + 8 - 1) / 8 + 1 in
  let! fuel := gets units in
  let! prevp := gets freep in
  let! prevp :=
    (if prevp =? 0 then
       modify (set_freep base) ;;;
       set_ptr base base ;;;
       set_size base 0 ;;;
       ret base
     else ret prevp) in
  let! p := ptr prevp in
  malloc_loop (2 * fuel + 8) nunits prevp p.
End Umalloc.
