(* ===== verification/UmallocSpec.v ===== *)
(** The allocator of umalloc.c keeps the free memory: what it hands out was
    free, and what is given back is free again. *)

From Stdlib Require Import ZArith Lia.
From stdpp Require Import base gmap strings numbers list.
From S2P Require Import Prelude Kstring Mem Kalloc Umalloc.

Open Scope Z_scope.
Open Scope kern_scope.

(** A block: the address of its header, and its units, the header included. *)
Abbreviation blk := (Z * Z)%type.
Definition bend (b : blk) : Z := fst b + 8 * snd b.
Definition in_block (a : Z) (b : blk) : Prop := fst b <= a < bend b.
Definition apart2 (b b' : blk) : Prop := bend b <= fst b' \/ bend b' <= fst b.

(** Blocks in order, none touching the next, between lo and hi. *)
Fixpoint sorted (lo hi : Z) (l : list blk) : Prop :=
  match l with
  | [] => lo <= hi
  | b :: l' => lo < fst b /\ 0 < snd b /\ sorted (bend b) hi l'
  end.
Fixpoint lend (lo : Z) (l : list blk) : Z :=
  match l with
  | [] => lo
  | b :: l' => lend (bend b) l'
  end.

Lemma lend_app lo l1 l2 : lend lo (l1 ++ l2) = lend (lend lo l1) l2.
Proof. revert lo. induction l1 as [|b l1 IH]; intros lo; [done|]. apply IH. Qed.

Lemma sorted_app lo hi l1 l2 : sorted lo hi (l1 ++ l2) <-> sorted lo (lend lo l1) l1 /\ sorted (lend lo l1) hi l2.
Proof.
  revert lo. induction l1 as [|b l1 IH]; intros lo; cbn [app sorted lend]; [split; [intros H; split; [lia|done]|by intros [_ H]]|]. rewrite IH. tauto.
Qed.

Lemma sorted_le lo hi l : sorted lo hi l -> lo <= hi.
Proof. revert lo. induction l as [|b l IH]; intros lo; cbn; [done|]. intros (H1 & H2 & H3%IH). unfold bend in *. lia. Qed.

Lemma sorted_hi lo hi hi' l : sorted lo hi l -> hi <= hi' -> sorted lo hi' l.
Proof. revert lo. induction l as [|b l IH]; intros lo; cbn; [lia|]. intros (H1 & H2 & H3) Hh. auto. Qed.

Lemma sorted_lo lo lo' hi l : sorted lo hi l -> lo' <= lo -> sorted lo' hi l.
Proof. destruct l as [|b l]; cbn; [lia|]. intros (H1 & H2 & H3) Hh. split_and!; (lia || done). Qed.

Lemma sorted_in lo hi l b : sorted lo hi l -> b ∈ l -> lo < fst b /\ 0 < snd b /\ bend b <= hi.
Proof.
  revert lo. induction l as [|c l IH]; intros lo; cbn; [by intros _ ?%not_elem_of_nil|]. intros (H1 & H2 & H3) [->|Hb]%elem_of_cons; [split_and!; [done|done|by eapply sorted_le]|].
  destruct (IH _ H3 Hb) as (H4 & H5 & H6). unfold bend in *. lia.
Qed.

Lemma lend_le lo hi l : sorted lo hi l -> lend lo l <= hi.
Proof. revert lo. induction l as [|b l IH]; intros lo; cbn; [done|]. intros (_ & _ & H). auto. Qed.

(** One block per unit at most. *)
Lemma sorted_length lo hi l : sorted lo hi l -> 8 * Z.of_nat (length l) <= hi - lo.
Proof. revert lo. induction l as [|b l IH]; intros lo; cbn [sorted length]; [lia|]. intros (H1 & H2 & H3%IH). unfold bend in *. lia. Qed.

(** ** The list in memory *)

Definition head (l : list blk) (e : Z) : Z := match l with [] => e | b :: _ => fst b end.

Fixpoint chain (m : mem) (l : list blk) (e : Z) : Prop :=
  match l with
  | [] => True
  | b :: l' => ld32 m (fst b) = head l' e /\ ld32 m (fst b + 4) = snd b /\ chain m l' e
  end.

Lemma chain_app m l1 l2 e : chain m (l1 ++ l2) e <-> chain m l1 (head l2 e) /\ chain m l2 e.
Proof.
  induction l1 as [|b l1 IH]; cbn [app chain]; [tauto|]. rewrite IH. assert (E : head (l1 ++ l2) e = head l1 (head l2 e)) by (by destruct l1). rewrite E. tauto.
Qed.

(** A header elsewhere. *)
Definition off_header (m m' : mem) (p : Z) : Prop := forall a, p <= a < p + 8 -> m' a = m a.

Lemma header_same m m' p : 0 <= p -> p + 8 <= 4294967296 -> off_header m m' p -> ld32 m' p = ld32 m p /\ ld32 m' (p + 4) = ld32 m (p + 4).
Proof. intros H0 H1 H. split; apply ld32_ext; try lia; intros a Ha; apply H; lia. Qed.

Lemma chain_frame m m' l e : chain m l e -> Forall (fun b => 0 <= fst b /\ fst b + 8 <= 4294967296 /\ off_header m m' (fst b)) l -> chain m' l e.
Proof.
  induction l as [|b l IH]; [done|]. cbn [chain]. intros (H1 & H2 & H3) HF. apply Forall_cons in HF as [(B1 & B2 & B3) HF]. destruct (header_same m m' (fst b) B1 B2 B3) as [-> ->]. auto.
Qed.

(** ** Going around a list of n elements, to the t-th *)

Definition rnext (n j : nat) : nat := if decide (S j = n) then 0%nat else S j.
Definition rdist (n t j : nat) : nat := if decide (j <= t)%nat then (t - j)%nat else (n - j + t)%nat.

Lemma rnext_lt n j : (j < n)%nat -> (rnext n j < n)%nat.
Proof. unfold rnext. intros. case_decide; lia. Qed.
Lemma rdist_zero n t j : (j < n)%nat -> rdist n t j = 0%nat -> j = t.
Proof. unfold rdist. intros. case_decide; lia. Qed.
Lemma rdist_self n t : rdist n t t = 0%nat.
Proof. unfold rdist. case_decide; lia. Qed.
Lemma rdist_lt n t j : (t < n)%nat -> (j < n)%nat -> (rdist n t j < n)%nat.
Proof. unfold rdist. intros. case_decide; lia. Qed.
Lemma rdist_step n t j : (t < n)%nat -> (j < n)%nat -> j <> t -> rdist n t j = S (rdist n t (rnext n j)).
Proof. unfold rdist, rnext. intros. repeat case_decide; lia. Qed.
Lemma rdist_inj n t j x : (t < n)%nat -> (j < n)%nat -> (x < n)%nat -> rdist n t j = rdist n t x -> j = x.
Proof. unfold rdist. intros. repeat case_decide; lia. Qed.
Lemma rdist_far n t : (t < n)%nat -> rdist n t (rnext n t) = (n - 1)%nat.
Proof. unfold rdist, rnext. intros. repeat case_decide; lia. Qed.

Section Heap.
Context (base heap0 : Z) (Hbase : 0 < base) (Hheap0 : base + 8 <= heap0).

(** The free list l, behind base, and the blocks in use. *)
Record heap_inv (l used : list blk) (s : uheap) : Prop := {
  hv_bytes : bytes (hm s);
  hv_brk : heap0 <= brk s <= KERNBASE;
  hv_chain : chain (hm s) ((base, 0) :: l) base;
  hv_sorted : sorted (heap0 - 1) (brk s) l;
  hv_freep : exists j n, ((base, 0) :: l) !! j = Some (freep s, n);
  hv_used : Forall (fun b => heap0 <= fst b /\ 0 < snd b /\ bend b <= brk s /\ ld32 (hm s) (fst b + 4) = snd b) used;
  hv_apart : ForallOrdPairs apart2 used;
  hv_free : forall b b', b ∈ used -> b' ∈ l -> apart2 b b';
}.

(** The memory of the blocks is as it was. *)
Definition same_on (used : list blk) (m m' : mem) : Prop := forall b a, b ∈ used -> in_block a b -> m' a = m a.

Lemma same_on_trans used m1 m2 m3 : same_on used m1 m2 -> same_on used m2 m3 -> same_on used m1 m3.
Proof. intros H1 H2 b a Hb Ha. rewrite (H2 b a Hb Ha). by apply (H1 b). Qed.

Lemma wp_word a s (Q : Z -> uheap -> Prop) : 0 <= a -> a + 4 <= brk s -> Q (ld32 (hm s) a) s -> wp (word a) s Q.
Proof.
  intros H0 H1 HQ. unfold word, in_proc. apply wp_bind, wp_bind, wp_gets, wp_require; [lia|]. apply wp_zoom, wp_gets. by destruct s.
Qed.

Lemma wp_set_word a v s (Q : unit -> uheap -> Prop) : bytes (hm s) -> 0 <= a -> a + 4 <= brk s <= KERNBASE ->
  (forall m', bytes m' -> ld32 m' a = u32 v -> (forall x, x < a \/ a + 4 <= x -> m' x = hm s x) -> Q tt (set_hm m' s)) -> wp (set_word a v) s Q.
Proof.
  intros HB H0 H1 HQ. unfold KERNBASE in *. unfold set_word, in_proc. apply wp_bind, wp_bind, wp_gets, wp_require; [lia|]. apply wp_zoom, wp_store32; [done|lia|done|]. intros m' B' E' O'. apply HQ; [done|done|].
  intros x Hx. apply O'. by apply within_false.
Qed.

Section Ring.
Context (l used : list blk) (s : uheap) (I : heap_inv l used s).
Let L : list blk := (base, 0) :: l.

Lemma ring_bounds b : b ∈ L -> 0 < fst b /\ fst b + 8 <= brk s.
Proof.
  pose proof (hv_brk _ _ _ I). intros [->|Hb]%elem_of_cons; [cbn; lia|]. destruct (sorted_in _ _ _ _ (hv_sorted _ _ _ I) Hb) as (H1 & H2 & H3). unfold bend in H3. lia.
Qed.

Lemma ring_lookup j b : L !! j = Some b -> exists b', L !! rnext (length L) j = Some b' /\ ld32 (hm s) (fst b) = fst b' /\ ld32 (hm s) (fst b + 4) = snd b /\
  (rnext (length L) j = S j \/ b' = (base, 0) /\ S j = length L).
Proof.
  intros E. pose proof (hv_chain _ _ _ I) as C. fold L in C. pose proof (lookup_lt_Some _ _ _ E) as Hj. rewrite <- (take_drop_middle L j b E) in C. apply chain_app in C as [_ (C1 & C2 & _)].
  unfold rnext. case_decide as Hd.
  - exists (base, 0). split; [done|]. rewrite drop_ge in C1 by lia. split_and!; [done|done|by right].
  - destruct (lookup_lt_is_Some_2 L (S j)) as [b' Eb]; [lia|]. exists b'. rewrite (drop_S L b' (S j) Eb) in C1. split_and!; [done|done|done|by left].
Qed.

Lemma ring_order i j b b' : (i < j)%nat -> L !! i = Some b -> L !! j = Some b' -> fst b < fst b' /\ bend b < fst b'.
Proof.
  intros Hij E E'. pose proof (hv_sorted _ _ _ I) as HS. destruct j as [|j]; [lia|]. cbn in E'. destruct i as [|i].
  - injection E as <-. apply list_elem_of_lookup_2 in E'. destruct (sorted_in _ _ _ _ HS E') as (H1 & _). unfold bend. cbn. lia.
  - cbn in E. rewrite <- (take_drop_middle l i b E) in HS. apply sorted_app in HS as [_ (_ & H2 & H3)]. assert (Hb' : b' ∈ drop (S i) l). { apply list_elem_of_lookup. exists (j - S i)%nat. rewrite lookup_drop. by replace (S i + (j - S i))%nat with j by lia. }
    destruct (sorted_in _ _ _ _ H3 Hb') as (H4 & _). unfold bend in *. lia.
Qed.

(** The loop of free() finds the place of bp. *)
Lemma wp_free_find bp t p k fuel j b (Q : Z -> uheap -> Prop) : L !! t = Some (p, k) -> p < bp -> (forall b', L !! S t = Some b' -> bp < fst b') ->
  L !! j = Some b -> (rdist (length L) t j < fuel)%nat -> Q p s -> wp (free_find fuel bp (fst b)) s Q.
Proof.
  intros Et Hp Hn. revert j b. induction fuel as [|fuel IH]; intros j b Ej Hf HQ; [lia|]. cbn [free_find]. pose proof (lookup_lt_Some _ _ _ Et) as Ht. pose proof (lookup_lt_Some _ _ _ Ej) as Hj.
  pose proof (ring_bounds b (list_elem_of_lookup_2 _ _ _ Ej)) as [B1 B2]. apply wp_bind. unfold ptr. apply wp_word; [lia|lia|]. destruct (ring_lookup j b Ej) as (b' & En & Eb & _ & Hwrap). rewrite Eb.
  destruct (decide (j = t)) as [->|Hne].
  - rewrite Et in Ej. injection Ej as <-. cbn [fst]. destruct Hwrap as [Hw|[-> Hw]].
    + rewrite Hw in En. specialize (Hn _ En). replace ((bp >? p) && (bp <? fst b')) with true by lia. by apply wp_ret.
    + cbn [fst]. destruct (_ && _); [by apply wp_ret|]. assert (base <= p). { destruct t as [|t]; [injection Et as <- _; lia|]. destruct (ring_order 0 (S t) (base, 0) (p, k)) as [H _]; [lia|done|done|]. cbn in H. lia. }
      replace ((p >=? base) && ((bp >? p) || (bp <? base))) with true by lia. by apply wp_ret.
  - assert (Hstop : (bp >? fst b) && (bp <? fst b') = false /\ (fst b >=? fst b') && ((bp >? fst b) || (bp <? fst b')) = false).
    { destruct (decide (j < t)%nat) as [Hlt|Hge].
      - assert (Hw : rnext (length L) j = S j) by (unfold rnext; case_decide; lia). rewrite Hw in En. destruct (ring_order j (S j) b b') as [H1 _]; [lia|done|done|]. assert (fst b' <= p). { destruct (decide (S j = t)) as [<-|]; [rewrite Et in En; by injection En as <-|]. destruct (ring_order (S j) t b' (p, k)) as [H2 _]; [lia|done|done|]. cbn in H2. lia. }
        lia.
      - assert (Hbp : bp < fst b). { destruct (lookup_lt_is_Some_2 L (S t)) as [c Ec]; [lia|]. specialize (Hn c Ec). destruct (decide (S t = j)) as [<-|]; [congruence|]. destruct (ring_order (S t) j c b) as [H1 _]; [lia|done|done|]. lia. }
        destruct Hwrap as [Hw|[-> Hw]]; [|cbn [fst]; assert (base < bp); [|lia]; destruct t as [|t]; [injection Et as <- _; lia|]; destruct (ring_order 0 (S t) (base, 0) (p, k)) as [H _]; [lia|done|done|]; cbn in H; lia].
        rewrite Hw in En. destruct (ring_order j (S j) b b') as [H1 _]; [lia|done|done|]. lia. }
    destruct Hstop as [-> ->]. apply (IH (rnext (length L) j) b'); [done| |done]. rewrite (rdist_step _ _ _ Ht Hj Hne) in Hf. lia.
Qed.
End Ring.

(** ** free() *)

(** Where a block belongs among others. *)
Lemma place lo hi l b : sorted lo hi l -> (forall b', b' ∈ l -> apart2 b b') -> lo < fst b -> 0 < snd b -> bend b <= hi ->
  exists l1 l2, l = l1 ++ l2 /\ lend lo l1 <= fst b /\ sorted (bend b - 1) hi l2.
Proof.
  revert lo. induction l as [|c l IH]; intros lo HS HA H1 H2 H3; [exists [], []; cbn; split_and!; [done|lia|unfold bend in *; lia]|]. destruct HS as (S1 & S2 & S3).
  destruct (HA c ltac:(by left)) as [Hc|Hc].
  - exists [], (c :: l). cbn. split_and!; [done|lia|lia|done|done].
  - destruct (decide (fst b = bend c)) as [E|E].
    + assert (HS' : sorted (bend b - 1) hi l). { destruct l as [|d l]; cbn; [unfold bend in *; lia|]. destruct S3 as (T1 & T2 & T3). destruct (HA d) as [Hd|Hd]; [set_solver|split_and!; (lia || done)|unfold bend in *; lia]. }
      exists [c], l. cbn. split_and!; [done|lia|done].
    + destruct (IH (bend c)) as (l1 & l2 & -> & L1 & L2); [done|set_solver|lia|done|done|]. exists (c :: l1), l2. by split_and!.
Qed.

(** The bytes outside two headers. *)
Definition but_headers (p q : Z) (m m' : mem) : Prop := forall a, (a < p \/ p + 8 <= a) -> (a < q \/ q + 8 <= a) -> m' a = m a.

(** Joined with the block behind it, if they touch. *)
Definition joined (b : blk) (l : list blk) : blk * list blk :=
  match l with
  | c :: l' => if bend b =? fst c then ((fst b, snd b + snd c), l') else (b, l)
  | [] => (b, [])
  end.

Lemma wp_join_next bp n l2 s (Q : unit -> uheap -> Prop) : bytes (hm s) -> brk s <= KERNBASE -> 0 < bp -> 0 <= n -> bp + 8 <= brk s -> bend (bp, n) <= brk s -> ld32 (hm s) (bp + 4) = n ->
  match l2 with [] => base < bp | c :: _ => bp + 8 <= fst c end -> chain (hm s) l2 base -> sorted (bend (bp, n) - 1) (brk s) l2 ->
  (forall m', bytes m' -> but_headers bp bp (hm s) m' -> ld32 m' bp = head (snd (joined (bp, n) l2)) base -> ld32 m' (bp + 4) = snd (fst (joined (bp, n) l2)) -> Q tt (set_hm m' s)) ->
  wp (if plus bp n =? head l2 base then
        let! nsize := size (head l2 base) in
        set_size bp (n + nsize) ;;;
        let! nn := ptr (head l2 base) in
        set_ptr bp nn
      else set_ptr bp (head l2 base)) s Q.
Proof.
  intros HB HK H1 H2 H3 H4 Es HC C S HQ. unfold bend in *. cbn [fst snd] in *. assert (HU : plus bp n = bp + 8 * n) by (unfold plus, KERNBASE in *; rewrite u32_small; lia). rewrite HU.
  assert (HN : forall v, 0 <= v < 4294967296 -> (forall m', bytes m' -> but_headers bp bp (hm s) m' -> ld32 m' bp = v -> ld32 m' (bp + 4) = n -> Q tt (set_hm m' s)) -> wp (set_ptr bp v) s Q).
  { intros v Hv HQ'. unfold set_ptr. apply wp_set_word; [done|lia|lia|]. intros m' B' E' O'. apply HQ'; [done|intros a Ha _; apply O'; lia|rewrite E'; by apply u32_small|]. rewrite <- Es. unfold KERNBASE in *. apply ld32_ext; [lia|lia|]. intros x Hx. apply O'. lia. }
  destruct l2 as [|c l2]; cbn [joined head fst snd] in *.
  - replace (bp + 8 * n =? base) with false by lia. apply HN; [unfold KERNBASE in *; lia|]. exact HQ.
  - destruct S as (S1 & S2 & S3). pose proof (sorted_le _ _ _ S3) as S4. unfold bend in *. cbn [fst snd] in *. destruct (Z.eqb_spec (bp + 8 * n) (fst c)) as [E|E]; [|apply HN; [unfold KERNBASE in *; lia|exact HQ]].
    destruct C as (C1 & C2 & C3). apply wp_bind. unfold size at 1. apply wp_word; [lia|lia|]. rewrite C2. apply wp_bind. unfold set_size. apply wp_set_word; [done|lia|lia|]. intros m1 B1 E1 O1.
    apply wp_bind. unfold ptr. apply wp_word; [lia|cbn; lia|]. cbn [hm set_hm]. assert (Ec : ld32 m1 (fst c) = head l2 base). { rewrite <- C1. unfold KERNBASE in *. apply ld32_ext; [lia|lia|]. intros x Hx. apply O1. lia. }
    rewrite Ec. unfold set_ptr. apply wp_set_word; [done|lia|cbn; lia|]. intros m2 B2 E2 O2. cbn [hm set_hm] in *. apply HQ; [done| | |].
    + intros a Ha _. rewrite O2 by lia. apply O1. lia.
    + cbn [fst snd]. rewrite E2, <- Ec. apply u32_small. by apply ld32_range.
    + cbn [fst snd]. unfold KERNBASE in *. rewrite (ld32_ext m1); [|lia|lia|intros x Hx; apply O2; lia]. rewrite E1. apply u32_small. lia.
Qed.

Definition free_at (l : list blk) (a : Z) : Prop := exists b, b ∈ l /\ in_block a b.

Lemma free_at_cons b l a : free_at (b :: l) a <-> in_block a b \/ free_at l a.
Proof. unfold free_at. split; [intros (c & [->|Hc]%elem_of_cons & Ha); eauto|intros [Ha|(c & Hc & Ha)]; [exists b|exists c]; (split; [|done]); [by left|by right]]. Qed.
Lemma free_at_app l1 l2 a : free_at (l1 ++ l2) a <-> free_at l1 a \/ free_at l2 a.
Proof. unfold free_at. split; [intros (c & [Hc|Hc]%elem_of_app & Ha); eauto|intros [(c & Hc & Ha)|(c & Hc & Ha)]; exists c; (split; [|done]); apply elem_of_app; auto]. Qed.

Section Joined.
Context (b : blk) (l : list blk) (lo hi : Z) (Hlo : lo < fst b) (Hn : 0 < snd b) (HS : sorted (bend b - 1) hi l) (Hhi : bend b <= hi).
Abbreviation j := (joined b l).

Lemma joined_sorted : sorted lo hi (fst j :: snd j).
Proof.
  pose proof (sorted_le _ _ _ HS) as Hh. destruct l as [|c l']; cbn [joined] in *; [cbn; split_and!; (lia || done)|]. destruct HS as (S1 & S2 & S3). unfold bend in *. destruct (Z.eqb_spec (fst b + 8 * snd b) (fst c)); cbn; unfold bend; cbn [fst snd].
  - split_and!; [done|lia|]. by replace (fst b + 8 * (snd b + snd c)) with (fst c + 8 * snd c) by lia.
  - split_and!; [done|done|lia|done|done].
Qed.

Lemma joined_free a : free_at (fst j :: snd j) a <-> in_block a b \/ free_at l a.
Proof.
  rewrite free_at_cons. destruct l as [|c l']; cbn [joined]; [done|]. destruct HS as (S1 & S2 & S3). destruct (Z.eqb_spec (bend b) (fst c)); cbn [fst snd]; [|done]. rewrite free_at_cons. unfold in_block, bend in *. cbn [fst snd]. assert (HH : fst b <= a < fst b + 8 * (snd b + snd c) <-> fst b <= a < fst b + 8 * snd b \/ fst c <= a < fst c + 8 * snd c) by lia. rewrite HH. tauto.
Qed.

Lemma joined_apart u : 0 < snd u -> apart2 u b -> (forall c, c ∈ l -> apart2 u c) -> forall c, c ∈ fst j :: snd j -> apart2 u c.
Proof.
  intros Hu Hb Hl c. destruct l as [|d l']; cbn [joined]; [cbn; intros Hc%list_elem_of_singleton; by subst|]. destruct HS as (S1 & S2 & S3). destruct (Z.eqb_spec (bend b) (fst d)); cbn [fst snd].
  - intros [->|Hc]%elem_of_cons; [|apply Hl; by right]. specialize (Hl d ltac:(by left)). unfold apart2, bend in *. cbn [fst snd]. lia.
  - intros [->|Hc]%elem_of_cons; [done|by apply Hl].
Qed.

Lemma joined_fst : fst (fst j) = fst b /\ snd b <= snd (fst j).
Proof. destruct l as [|c l']; cbn [joined]; [cbn; lia|]. destruct HS as (_ & S2 & _). destruct (_ =? _); cbn; lia. Qed.

(** The list in memory after the headers of b have been set. *)
Lemma joined_chain m m' e : (forall c, c ∈ l -> fst b + 8 <= fst c) -> chain m l e -> bytes m -> hi <= KERNBASE -> 0 <= fst b -> but_headers (fst b) (fst b) m m' -> ld32 m' (fst b) = head (snd j) e -> ld32 m' (fst b + 4) = snd (fst j) -> chain m' (fst j :: snd j) e.
Proof.
  intros HD C HB HK H0 HO E1 E2. pose proof joined_fst as [F1 _]. cbn [chain]. rewrite F1. split_and!; [done|done|]. assert (HC : chain m' l e).
  { eapply chain_frame; [exact C|]. apply Forall_forall. intros c Hc. destruct (sorted_in _ _ _ _ HS Hc) as (T1 & T2 & T3). specialize (HD c Hc). unfold bend, KERNBASE in *. split_and!; [lia|lia|]. intros a Ha. apply HO; lia. }
  destruct l as [|c l']; cbn [joined] in *; [done|]. destruct (_ =? _); cbn [snd] in *; [by destruct HC as (_ & _ & ?)|done].
Qed.
End Joined.

Lemma joined_big b c l : 0 <= snd b -> exists b', b' ∈ fst (joined b (c :: l)) :: snd (joined b (c :: l)) /\ snd c <= snd b'.
Proof.
  intros Hb. cbn [joined]. destruct (_ =? _); cbn [fst snd]; [exists (fst b, snd b + snd c); split; [by left|cbn; lia]|exists c; split; [right; by left|done]].
Qed.

Lemma joined_length b l : (length (snd (joined b l)) <= length l)%nat.
Proof. destruct l as [|c l]; cbn [joined]; [done|]. destruct (_ =? _); cbn; lia. Qed.

(** The block bp is freed, between pre ++ [(p, k)] and l2. *)
Section Free.
Context (l used : list blk) (bp n : Z) (s : uheap) (I : heap_inv l ((bp, n) :: used) s).

(** bp, its place, and the free block before it. *)
Record slot (pre : list blk) (p k : Z) (l2 : list blk) : Prop := {
  sl_list : (base, 0) :: l = pre ++ (p, k) :: l2;
  sl_next : sorted (bend (bp, n) - 1) (brk s) l2;
  sl_prev : 0 < p /\ 0 <= k /\ p + 8 <= bp /\ bend (p, k) <= bp;
  sl_case : pre = [] /\ p = base /\ k = 0 \/ exists pre', pre = (base, 0) :: pre' /\ sorted (heap0 - 1) (lend (heap0 - 1) pre') pre' /\ lend (heap0 - 1) pre' < p /\ 0 < k;
}.

Lemma bp_facts : heap0 <= bp /\ 0 < n /\ bend (bp, n) <= brk s /\ ld32 (hm s) (bp + 4) = n.
Proof. pose proof (hv_used _ _ _ I) as HU. by apply Forall_cons in HU as [HU _]. Qed.

Lemma slot_exists : exists pre p k l2, slot pre p k l2.
Proof.
  destruct bp_facts as (B1 & B2 & B3 & _). destruct (place (heap0 - 1) (brk s) l (bp, n)) as (l1 & l2 & EL & P1 & P2); [apply I|intros b' Hb'; eapply (hv_free _ _ _ I); [by left|done]|cbn; lia|done|done|]. cbn [fst] in P1.
  pose proof (hv_sorted _ _ _ I) as HS. rewrite EL in HS. apply sorted_app in HS as [HS _]. destruct l1 as [|[p k] l1' _] using rev_ind.
  - exists [], base, 0, l2. constructor; [by rewrite EL|done|unfold bend; cbn; lia|by left].
  - apply sorted_app in HS as [HS (S1 & S2 & _)]. rewrite lend_app in P1. cbn [lend fst snd] in *. pose proof (sorted_le _ _ _ HS). exists ((base, 0) :: l1'), p, k, l2. constructor.
    + rewrite EL. cbn. by rewrite <- app_assoc.
    + done.
    + unfold bend in *. cbn [fst snd] in *. lia.
    + right. by exists l1'.
Qed.

Context (pre : list blk) (p k : Z) (l2 : list blk) (SL : slot pre p k l2).
Abbreviation j1 := (joined (bp, n) l2).
Abbreviation j2 := (joined (p, k) (fst j1 :: snd j1)).

Lemma slot_chain m : chain m ((base, 0) :: l) base -> chain m pre p /\ ld32 m p = head l2 base /\ ld32 m (p + 4) = k /\ chain m l2 base.
Proof. rewrite (sl_list _ _ _ _ SL). intros C. by apply chain_app in C as [C1 C2]. Qed.

(** The new free list. *)
Lemma freed_list : exists l', (base, 0) :: l' = pre ++ fst j2 :: snd j2 /\ sorted (heap0 - 1) (brk s) l' /\
  (forall a, free_at l' a <-> free_at l a \/ in_block a (bp, n)) /\ (exists b, b ∈ l' /\ n <= snd b) /\ (exists i m, ((base, 0) :: l') !! i = Some (p, m)) /\
  (forall u, 0 < snd u -> apart2 u (bp, n) -> (forall c, c ∈ l -> apart2 u c) -> forall c, c ∈ l' -> apart2 u c).
Proof.
  destruct bp_facts as (B1 & B2 & B3 & _). destruct SL as [EL HN (P1 & P2 & P3 & P4) HC]. pose proof (joined_fst (bp, n) l2 (brk s) HN) as [F1 F2]. cbn [fst snd] in F1, F2.
  destruct HC as [(Epre & Ep & Ek)|(pre' & Epre & S1 & S2 & S3)]; rewrite Epre in EL.
  - rewrite Ep, Ek in *. cbn [app] in EL. injection EL as EL. rewrite EL. assert (E2 : joined (base, 0) (fst j1 :: snd j1) = ((base, 0), fst j1 :: snd j1)). { unfold joined at 1. rewrite F1. unfold bend. cbn [fst snd]. replace (base + 8 * 0 =? bp) with false by lia. done. }
    rewrite E2, Epre. exists (fst j1 :: snd j1). split; [done|]. split; [by apply joined_sorted; [cbn; lia|..]|]. split; [intros a; rewrite (joined_free (bp, n) l2 (brk s)) by done; tauto|].
    split; [exists (fst j1); split; [by left|done]|]. split; [by exists 0%nat, 0|]. intros u U1 U2 U3. by apply (joined_apart (bp, n) l2 (brk s)).
  - cbn [app] in EL. injection EL as EL. rewrite EL. assert (T1 : sorted (bend (p, k) - 1) (brk s) (fst j1 :: snd j1)) by (apply joined_sorted; [cbn [fst]; lia|done..]). assert (T2 : bend (p, k) <= brk s) by (unfold bend in *; cbn [fst snd] in *; lia).
    pose proof (joined_fst (p, k) _ (brk s) T1) as [G1 G2]. cbn [fst snd] in G1, G2. rewrite Epre. exists (pre' ++ fst j2 :: snd j2). split; [done|]. split; [apply sorted_app; split; [done|by apply joined_sorted]|].
    split; [intros a; rewrite !free_at_app, (joined_free (p, k) _ (brk s)), (joined_free (bp, n) l2 (brk s)), free_at_cons by done; tauto|]. split.
    { destruct (joined_big (p, k) (fst j1) (snd j1)) as (b & Hb & Hs); [done|]. exists b. split; [apply elem_of_app; by right|lia]. }
    split; [exists (length ((base, 0) :: pre')), (snd (fst j2)); rewrite app_comm_cons, list_lookup_middle by done; f_equal; rewrite <- G1 at 2; by destruct (fst j2)|].
    intros u U1 U2 U3 c Hc. apply elem_of_app in Hc as [Hc|Hc]; [apply U3, elem_of_app; by left|]. eapply (joined_apart (p, k) _ (brk s) T1); [exact U1|apply U3, elem_of_app; right; by left| |exact Hc].
    by apply (joined_apart (bp, n) l2 (brk s)); [done..|intros d Hd; apply U3, elem_of_app; right; by right].
Qed.

(** The blocks in use are away from the headers that are set. *)
Lemma used_away u : u ∈ used -> heap0 <= fst u /\ 0 < snd u /\ bend u <= brk s /\ ld32 (hm s) (fst u + 4) = snd u /\ apart2 u (bp, n) /\ (bend u <= p \/ p + 8 <= fst u).
Proof.
  intros Hu. destruct bp_facts as (B1 & B2 & B3 & _). pose proof (hv_used _ _ _ I) as HU. apply Forall_cons in HU as [_ HU]. rewrite Forall_forall in HU. destruct (HU u Hu) as (U1 & U2 & U3 & U4).
  pose proof (hv_apart _ _ _ I) as HA. inversion_clear HA as [|? ? HF _]. rewrite Forall_forall in HF. specialize (HF u Hu). split_and!; [done|done|done|done|unfold apart2 in *; lia|].
  destruct SL as [EL _ (P1 & P2 & P3 & P4) [(_ & -> & _)|(pre' & Epre & _ & _ & S3)]]; [lia|]. rewrite Epre in EL. injection EL as EL. assert (Hp : (p, k) ∈ l) by (rewrite EL; apply elem_of_app; right; by left).
  destruct (hv_free _ _ _ I u (p, k)) as [H|H]; [by right|done|by left|right]. unfold bend in H. cbn [fst snd] in H. lia.
Qed.

Lemma freed_inv m3 l' : (base, 0) :: l' = pre ++ fst j2 :: snd j2 -> sorted (heap0 - 1) (brk s) l' -> (exists i m, ((base, 0) :: l') !! i = Some (p, m)) ->
  (forall u, 0 < snd u -> apart2 u (bp, n) -> (forall c, c ∈ l -> apart2 u c) -> forall c, c ∈ l' -> apart2 u c) ->
  bytes m3 -> but_headers p bp (hm s) m3 -> chain m3 (fst j2 :: snd j2) base -> heap_inv l' used (mk_uheap m3 p (brk s) (quota s)) /\ same_on used (hm s) m3.
Proof.
  intros El HS HF HA HB HO HC. destruct bp_facts as (B1 & B2 & B3 & _). assert (HSO : same_on used (hm s) m3).
  { intros u a Hu Ha. destruct (used_away u Hu) as (U1 & U2 & U3 & U4 & U5 & U6). unfold apart2, in_block, bend in *. cbn [fst snd] in *. apply HO; lia. }
  split; [|done]. constructor; cbn [hm freep brk quota]; [done|apply I| |done|done| | |].
  - rewrite El. apply chain_app. split; [|done]. assert (Ep : head (fst j2 :: snd j2) base = p). { cbn [head]. destruct bp_facts as (_ & _ & B3' & _). unfold joined at 1. destruct (_ =? _); done. }
    rewrite Ep. eapply chain_frame; [apply (slot_chain (hm s)), I|]. destruct SL as [_ _ (P1 & P2 & P3 & P4) [(-> & _)|(pre' & -> & S1 & S2 & S3)]]; [constructor|]. pose proof (sorted_le _ _ _ S1). pose proof (hv_brk _ _ _ I). unfold KERNBASE in *.
    assert (HX : forall x, 0 <= x -> x + 8 <= p -> 0 <= x /\ x + 8 <= 4294967296 /\ off_header (hm s) m3 x) by (unfold bend in *; cbn [fst snd] in *; intros x X1 X2; split_and!; [lia|lia|intros a Ha; apply HO; lia]).
    constructor; [apply HX; cbn; lia|]. apply Forall_forall. intros b Hb. destruct (sorted_in _ _ _ _ S1 Hb) as (T1 & T2 & T3). unfold bend in *. apply HX; lia.
  - apply Forall_forall. intros u Hu. destruct (used_away u Hu) as (U1 & U2 & U3 & U4 & U5 & U6). split_and!; [done|done|done|]. rewrite <- U4. pose proof (hv_brk _ _ _ I). unfold KERNBASE, bend in *. apply ld32_ext; [lia|lia|]. intros a Ha. apply (HSO u); [done|]. unfold in_block, bend. lia.
  - pose proof (hv_apart _ _ _ I) as H. by inversion_clear H.
  - intros u c Hu Hc. destruct (used_away u Hu) as (U1 & U2 & U3 & U4 & U5 & U6). apply (HA u U2 U5); [|done]. intros d Hd. apply (hv_free _ _ _ I); [by right|done].
Qed.
End Free.

Lemma ring_fuel l used s : heap_inv l used s -> (S (length l) < units s + 2)%nat.
Proof. intros I. pose proof (sorted_length _ _ _ (hv_sorted _ _ _ I)). pose proof (hv_brk _ _ _ I). unfold units. assert (Z.of_nat (length l) <= brk s / 8) by zdm. lia. Qed.

(** What a call leaves: the process as large as before, blocks untouched. *)
Definition frees (l used : list blk) (b : blk) (s s' : uheap) : Prop :=
  brk s' = brk s /\ quota s' = quota s /\ same_on used (hm s) (hm s') /\
  exists l', heap_inv l' used s' /\ (forall a, free_at l' a <-> free_at l a \/ in_block a b) /\ (length l' <= S (length l))%nat /\ exists c, c ∈ l' /\ snd b <= snd c.

Lemma wp_free l used bp n s (Q : unit -> uheap -> Prop) : heap_inv l ((bp, n) :: used) s -> (forall s', frees l used (bp, n) s s' -> Q tt s') -> wp (free (bp + 8)) s Q.
Proof.
  intros I HQ. destruct (bp_facts _ _ _ _ _ I) as (B1 & B2 & B3 & B4). destruct (slot_exists _ _ _ _ _ I) as (pre & p & k & l2 & SL). destruct (freed_list _ _ _ _ _ I _ _ _ _ SL) as (l' & EL & HS & HF & HB & HP & HA).
  pose proof (hv_brk _ _ _ I) as HK. pose proof (hv_bytes _ _ _ I) as Hby. destruct (slot_chain _ _ _ _ _ _ _ _ SL (hm s) (hv_chain _ _ _ I)) as (C1 & C2 & C3 & C4). pose proof (sl_prev _ _ _ _ _ _ _ _ SL) as (P1 & P2 & P3 & P4). pose proof (sl_next _ _ _ _ _ _ _ _ SL) as SN.
  unfold bend in B3, P4. cbn [fst snd] in B3, P4. unfold free. replace (bp + 8 - 8) with bp by lia. rewrite (u32_small bp) by (unfold KERNBASE in *; lia). apply wp_bind, wp_gets, wp_bind, wp_gets, wp_bind.
  destruct (hv_freep _ _ _ I) as (i & m & Ei). change (freep s) with (fst (freep s, m)). pose proof (sl_list _ _ _ _ _ _ _ _ SL) as Esl. assert (Et : ((base, 0) :: l) !! length pre = Some (p, k)) by (rewrite Esl; by apply list_lookup_middle).
  eapply (wp_free_find l _ s I bp (length pre) p k); [done|lia| |exact Ei| |].
  { intros b' Eb. rewrite Esl in Eb. rewrite lookup_app_r in Eb by lia. replace (S (length pre) - length pre)%nat with 1%nat in Eb by lia. destruct l2 as [|c l2]; [done|]. injection Eb as <-. destruct SN as (S1 & _). unfold bend in S1. cbn [fst snd] in S1. lia. }
  { pose proof (ring_fuel _ _ _ I). pose proof (lookup_lt_Some _ _ _ Et). pose proof (lookup_lt_Some _ _ _ Ei). pose proof (rdist_lt (length ((base, 0) :: l)) (length pre) i ltac:(done) ltac:(done)). cbn [length] in *. lia. }
  apply wp_bind. unfold ptr at 1. apply wp_word; [lia|lia|]. rewrite C2. apply wp_bind. unfold size at 1. apply wp_word; [lia|lia|]. rewrite B4.
  apply wp_bind. eapply wp_join_next; [done|lia|lia|lia|lia|unfold bend; cbn; lia|done| |done|done|].
  { destruct l2 as [|c l2]; [lia|]. destruct SN as (S1 & _). unfold bend in S1. cbn [fst snd] in S1. lia. }
  intros m2 HB2 O2 E2 E2'. assert (C5 : chain m2 (fst (joined (bp, n) l2) :: snd (joined (bp, n) l2)) base) by (eapply (joined_chain (bp, n) l2 (brk s)); first [exact SN|exact C4|exact Hby|exact O2|exact E2|exact E2'|apply HK|cbn; lia|intros c Hc; destruct (sorted_in _ _ _ _ SN Hc) as (T1 & _); unfold bend in T1; cbn [fst snd] in *; lia]).
  pose proof (joined_fst (bp, n) l2 (brk s) SN) as [F1 F2]. cbn [fst snd] in F1, F2. assert (SJ : sorted (bend (p, k) - 1) (brk s) (fst (joined (bp, n) l2) :: snd (joined (bp, n) l2))) by (apply joined_sorted; [unfold bend; cbn [fst snd]; lia|done|done|unfold bend; cbn [fst snd]; lia]).
  assert (SJ' : sorted (p + 7) (brk s) (fst (joined (bp, n) l2) :: snd (joined (bp, n) l2))) by (apply joined_sorted; [cbn [fst snd]; lia|done|done|unfold bend; cbn [fst snd]; lia]).
  assert (Ek : ld32 m2 (p + 4) = k). { rewrite <- C3. unfold KERNBASE in *. apply ld32_ext; [lia|lia|]. intros a Ha. apply O2; lia. }
  apply wp_bind. unfold size at 1. apply wp_word; [lia|cbn; lia|]. cbn [hm set_hm]. rewrite Ek. apply wp_bind.
  pose proof (wp_join_next p k (fst (joined (bp, n) l2) :: snd (joined (bp, n) l2)) (set_hm m2 s)) as WJ. cbn [head] in WJ. rewrite F1 in WJ. apply WJ; clear WJ; cbn [hm brk set_hm]; [done|lia|lia|lia|lia|unfold bend; cbn [fst snd]; lia|done|lia|done|done|].
  intros m3 HB3 O3 E3 E3'. apply wp_modify. cbn [set_freep set_hm hm brk quota].
  destruct (freed_inv l used bp n s I pre p k l2 SL m3 l') as [IV SO]; [done|done|done|done|done| | |].
  - intros a Ha Hb. rewrite O3 by done. by apply O2.
  - eapply (joined_chain (p, k) _ (brk s)); first [exact SJ|exact C5|exact HB2|exact O3|exact E3|exact E3'|apply HK|cbn; lia|intros c Hc; destruct (sorted_in _ _ _ _ SJ' Hc) as (T1 & _); cbn [fst snd] in *; lia].
  - apply HQ. split_and!; [done|done|done|]. exists l'. split_and!; [done|done| |done]. apply (f_equal length) in EL, Esl. rewrite length_app in EL, Esl. cbn [length] in EL, Esl.
    pose proof (joined_length (p, k) (fst (joined (bp, n) l2) :: snd (joined (bp, n) l2))) as J1. pose proof (joined_length (bp, n) l2) as J2. cbn [length] in J1. lia.
Qed.

(** ** malloc() *)

(** The block b, which was free, is in use now. *)
Definition takes (l used : list blk) (b : blk) (s s' : uheap) : Prop :=
  brk s' = brk s /\ quota s' = quota s /\ same_on used (hm s) (hm s') /\
  exists l', heap_inv l' (b :: used) s' /\ (forall a, free_at l a <-> free_at l' a \/ in_block a b) /\ (forall a, in_block a b -> ~ free_at l' a).

Section Take.
Context (l1 l2 used : list blk) (prevp k p n nu : Z) (pre : list blk) (s : uheap) (I : heap_inv (l1 ++ (p, n) :: l2) used s) (Hpre : (base, 0) :: l1 = pre ++ [(prevp, k)]) (Hnu : 0 < nu <= n).

Lemma take_order : lend (heap0 - 1) l1 < p /\ sorted (heap0 - 1) (lend (heap0 - 1) l1) l1 /\ sorted (bend (p, n)) (brk s) l2 /\ heap0 <= p /\ bend (p, n) <= brk s /\ brk s <= KERNBASE.
Proof.
  pose proof (hv_sorted _ _ _ I) as HS. apply sorted_app in HS as [S1 (S2 & S3 & S4)]. pose proof (sorted_le _ _ _ S1). pose proof (sorted_le _ _ _ S4). pose proof (hv_brk _ _ _ I). cbn [fst] in S2. split_and!; (done || lia).
Qed.

(** Headers before p and behind it. *)
Lemma take_before b : b ∈ (base, 0) :: l1 -> 0 < fst b /\ fst b + 8 <= p.
Proof.
  destruct take_order as (T1 & T2 & T3 & T4 & _). intros [->|Hb]%elem_of_cons; [cbn; lia|]. destruct (sorted_in _ _ _ _ T2 Hb) as (H1 & H2 & H3). unfold bend in H3. lia.
Qed.
Lemma take_behind b : b ∈ l2 -> bend (p, n) < fst b /\ bend b <= brk s /\ 0 < snd b.
Proof. destruct take_order as (T1 & T2 & T3 & _). intros Hb. destruct (sorted_in _ _ _ _ T3 Hb) as (H1 & H2 & H3). done. Qed.

Lemma take_chain : chain (hm s) pre prevp /\ ld32 (hm s) prevp = p /\ ld32 (hm s) (prevp + 4) = k /\ ld32 (hm s) p = head l2 base /\ ld32 (hm s) (p + 4) = n /\ chain (hm s) l2 base.
Proof.
  pose proof (hv_chain _ _ _ I) as C. rewrite app_comm_cons, Hpre, <- app_assoc in C. by apply chain_app in C as [C1 (C2 & C3 & C4 & C5 & C6)].
Qed.

Lemma take_pre b : b ∈ pre -> 0 < fst b /\ fst b + 8 <= prevp.
Proof.
  intros Hb. destruct take_order as (T1 & T2 & T3 & T4 & _). destruct l1 as [|[q m] l1' _] using rev_ind.
  - destruct pre as [|c pre']; [by apply not_elem_of_nil in Hb|]. injection Hpre as _ H. by destruct pre'.
  - rewrite app_comm_cons in Hpre. apply app_inj_tail in Hpre as [<- [= -> ->]]. apply sorted_app in T2 as [U1 (U2 & _)]. cbn [fst] in U2. pose proof (sorted_le _ _ _ U1). apply elem_of_cons in Hb as [->|Hb]; [cbn; lia|].
    destruct (sorted_in _ _ _ _ U1 Hb) as (H1 & H2 & H3). unfold bend in H3. lia.
Qed.

Lemma take_prevp : 0 < prevp /\ prevp + 8 <= p /\ forall u, u ∈ used -> bend u <= prevp \/ prevp + 8 <= fst u.
Proof.
  assert (Hp : (prevp, k) ∈ (base, 0) :: l1) by (rewrite Hpre; apply elem_of_app; right; by left). destruct (take_before _ Hp) as [H1 H2]. split_and!; [done|done|]. intros u Hu. pose proof (hv_used _ _ _ I) as HU. rewrite Forall_forall in HU. destruct (HU u Hu) as (U1 & U2 & _).
  apply elem_of_cons in Hp as [[= -> _]|Hp]; [lia|]. destruct take_order as (_ & T2 & _). destruct (sorted_in _ _ _ _ T2 Hp) as (_ & H3 & _). destruct (hv_free _ _ _ I u (prevp, k) Hu) as [H|H]; [apply elem_of_app; by left|by left|right]. unfold bend in H. cbn [fst snd] in *. lia.
Qed.

(** The parts of the invariant that do not speak of the list in memory. *)
Lemma taken_inv q l' m' : p <= q -> bend (q, nu) <= bend (p, n) -> bytes m' -> sorted (heap0 - 1) (brk s) l' -> chain m' ((base, 0) :: l') base -> (exists j x, ((base, 0) :: l') !! j = Some (prevp, x)) ->
  ld32 m' (q + 4) = nu -> (forall a, (forall u, u ∈ used -> ~ in_block a u) \/ m' a = hm s a) ->
  (forall b, b ∈ l' -> apart2 (q, nu) b /\ forall u, u ∈ used -> apart2 u b) -> heap_inv l' ((q, nu) :: used) (mk_uheap m' prevp (brk s) (quota s)) /\ same_on used (hm s) m'.
Proof.
  intros Q1 Q2 HB HS HC HP Eq HO HA. destruct take_order as (_ & _ & _ & T4 & T5 & T6). assert (SO : same_on used (hm s) m'). { intros u a Hu Ha. destruct (HO a) as [H|H]; [by destruct (H u)|done]. }
  split; [|done]. constructor; cbn [hm freep brk quota]; [done|apply I|done|done|done| | |].
  - constructor; [cbn [fst snd] in *; split_and!; (lia || done)|]. pose proof (hv_used _ _ _ I) as HU. rewrite Forall_forall in HU |- *. intros u Hu. destruct (HU u Hu) as (U1 & U2 & U3 & U4). split_and!; [done|done|done|]. rewrite <- U4. unfold KERNBASE, bend in *. apply ld32_ext; [lia|lia|]. intros a Ha. apply (SO u); [done|]. unfold in_block, bend. lia.
  - constructor; [|apply I]. apply Forall_forall. intros u Hu. destruct (hv_free _ _ _ I u (p, n) Hu) as [H|H]; [apply elem_of_app; right; by left|right|left]; unfold bend in *; cbn [fst snd] in *; lia.
  - intros u b Hu Hb. destruct (HA b Hb) as [H1 H2]. apply elem_of_cons in Hu as [->|Hu]; auto.
Qed.

Lemma free_apart q b : p <= q -> bend (q, nu) <= bend (p, n) -> b ∈ l1 ++ l2 -> apart2 (q, nu) b /\ forall u, u ∈ used -> apart2 u b.
Proof.
  intros Q1 Q2 Hb. split; [|intros u Hu; apply (hv_free _ _ _ I); [done|]; apply elem_of_app in Hb as [Hb|Hb]; apply elem_of_app; [by left|right; by right]]. destruct take_order as (T1 & T2 & _). apply elem_of_app in Hb as [Hb|Hb]; [right|left].
  - destruct (sorted_in _ _ _ _ T2 Hb) as (_ & _ & H3). cbn [fst]. lia.
  - destruct (take_behind b Hb) as [H1 _]. lia.
Qed.

Lemma take_frame m' l : (forall b, b ∈ l -> 0 < fst b /\ fst b + 8 <= KERNBASE /\ off_header (hm s) m' (fst b)) -> forall e, chain (hm s) l e -> chain m' l e.
Proof. intros H e C. eapply chain_frame; [exact C|]. apply Forall_forall. intros b Hb. destruct (H b Hb) as (H1 & H2 & H3). unfold KERNBASE in *. split_and!; (lia || done). Qed.

Lemma wp_take_whole m' : bytes m' -> ld32 m' prevp = u32 (head l2 base) -> (forall x, x < prevp \/ prevp + 4 <= x -> m' x = hm s x) -> n = nu -> takes (l1 ++ (p, n) :: l2) used (p, nu) s (mk_uheap m' prevp (brk s) (quota s)).
Proof.
  intros HB E O En. destruct take_order as (T1 & T2 & T3 & T4 & T5 & T6). destruct take_chain as (C1 & C2 & C3 & C4 & C5 & C6). destruct take_prevp as (P1 & P2 & P3). unfold bend in T5. cbn [fst snd] in T5.
  assert (EL : (base, 0) :: l1 ++ l2 = pre ++ (prevp, k) :: l2) by (by rewrite app_comm_cons, Hpre, <- app_assoc). assert (Eq : bend (p, nu) = bend (p, n)) by (unfold bend; cbn [fst snd]; lia).
  destruct (taken_inv p (l1 ++ l2) m') as [IV SO]; [lia|lia|done| | | | | | |].
  - apply sorted_app. split; [done|]. eapply sorted_lo; [exact T3|unfold bend; cbn [fst snd]; lia].
  - rewrite EL. apply chain_app. cbn [head fst chain]. split_and!.
    + eapply take_frame; [|exact C1]. intros b Hb. destruct (take_pre b Hb). split_and!; [lia|lia|]. intros a Ha. apply O. lia.
    + rewrite E. apply u32_small. rewrite <- C4. by apply ld32_range, I.
    + rewrite <- C3. unfold KERNBASE in *. apply ld32_ext; [lia|lia|]. intros a Ha. apply O. lia.
    + eapply take_frame; [|exact C6]. intros b Hb. destruct (take_behind b Hb) as (B1 & B2 & B3). unfold bend in *. cbn [fst snd] in *. split_and!; [lia|lia|]. intros a Ha. apply O. lia.
  - exists (length pre), k. rewrite EL. by apply list_lookup_middle.
  - rewrite <- En, <- C5. unfold KERNBASE in *. apply ld32_ext; [lia|lia|]. intros a Ha. apply O. lia.
  - intros a. destruct (decide (a < prevp \/ prevp + 8 <= a)) as [Ha|Ha]; [right; apply O; lia|left]. intros u Hu Hin. destruct (P3 u Hu); unfold in_block in Hin; lia.
  - intros b Hb. apply free_apart; (lia || done).
  - split_and!; [done|done|done|]. exists (l1 ++ l2). split_and!; [done|intros a; rewrite !free_at_app, free_at_cons, En; tauto|]. intros a Ha (b & Hb & Hab). destruct (free_apart p b) as [HA _]; [lia|lia|done|]. unfold apart2, in_block, bend in *. cbn [fst snd] in *. lia.
Qed.

Lemma wp_take_part m' (q := p + 8 * (n - nu)) : bytes m' -> ld32 m' (p + 4) = n - nu -> ld32 m' (q + 4) = nu -> (forall x, (x < p + 4 \/ p + 8 <= x) -> (x < q + 4 \/ q + 8 <= x) -> m' x = hm s x) -> nu < n ->
  takes (l1 ++ (p, n) :: l2) used (q, nu) s (mk_uheap m' prevp (brk s) (quota s)).
Proof.
  intros HB E E' O Hlt. destruct take_order as (T1 & T2 & T3 & T4 & T5 & T6). destruct take_chain as (C1 & C2 & C3 & C4 & C5 & C6). destruct take_prevp as (P1 & P2 & P3). unfold bend in T5. cbn [fst snd] in T5. assert (Hq : q + 8 * nu = p + 8 * n /\ p + 8 <= q) by (unfold q; lia). clearbody q.
  assert (Q1 : p <= q) by lia. assert (Q2 : bend (q, nu) <= bend (p, n)) by (unfold bend; cbn [fst snd]; lia). assert (HA : forall b, b ∈ l1 ++ (p, n - nu) :: l2 -> apart2 (q, nu) b /\ forall u, u ∈ used -> apart2 u b).
  { intros b Hb. apply elem_of_app in Hb as [Hb|[->|Hb]%elem_of_cons]; [apply free_apart; [done|done|apply elem_of_app; by left]| |apply free_apart; [done|done|apply elem_of_app; by right]]. split; [right; unfold bend; cbn [fst snd]; lia|].
    intros u Hu. destruct (hv_free _ _ _ I u (p, n) Hu) as [H|H]; [apply elem_of_app; right; by left|by left|right]. unfold bend in *. cbn [fst snd] in *. lia. }
  destruct (taken_inv q (l1 ++ (p, n - nu) :: l2) m') as [IV SO]; [done|done|done| | | |done| |done|].
  - apply sorted_app. split; [done|]. cbn [sorted fst snd]. split_and!; [done|lia|]. eapply sorted_lo; [exact T3|unfold bend; cbn [fst snd]; lia].
  - rewrite app_comm_cons. apply chain_app. split.
    + cbn [head fst]. eapply take_frame; [|pose proof (hv_chain _ _ _ I) as C; rewrite app_comm_cons in C; by apply chain_app in C as [C _]]. intros b Hb. destruct (take_before b Hb). split_and!; [lia|lia|]. intros a Ha. apply O; lia.
    + cbn [chain fst snd]. split_and!; [|done|].
      * rewrite <- C4. unfold KERNBASE in *. apply ld32_ext; [lia|lia|]. intros a Ha. apply O; lia.
      * eapply take_frame; [|exact C6]. intros b Hb. destruct (take_behind b Hb) as (B1 & B2 & B3). unfold bend in *. cbn [fst snd] in *. split_and!; [lia|lia|]. intros a Ha. apply O; lia.
  - exists (length pre), k. rewrite app_comm_cons, Hpre, <- app_assoc. by apply list_lookup_middle.
  - intros a. destruct (decide (a < p \/ p + 8 * n <= a)) as [Ha|Ha]; [right; apply O; lia|left]. intros u Hu Hin. destruct (hv_free _ _ _ I u (p, n) Hu) as [H|H]; [apply elem_of_app; right; by left|..]; unfold in_block, bend in *; cbn [fst snd] in *; lia.
  - split_and!; [done|done|done|]. exists (l1 ++ (p, n - nu) :: l2). split_and!; [done| |intros a Ha (b & Hb & Hab); destruct (HA b Hb) as [H _]; unfold apart2, in_block, bend in *; cbn [fst snd] in *; lia].
    intros a. rewrite !free_at_app, !free_at_cons. unfold in_block, bend. cbn [fst snd]. assert (HH : p <= a < p + 8 * n <-> p <= a < p + 8 * (n - nu) \/ q <= a < q + 8 * nu) by lia. rewrite HH. tauto.
Qed.

Lemma wp_take_block (Q : Z -> uheap -> Prop) : (forall q s', takes (l1 ++ (p, n) :: l2) used (q, nu) s s' -> Q (q + 8) s') -> wp (take_block nu prevp p n) s Q.
Proof.
  intros HQ. destruct take_order as (T1 & T2 & T3 & T4 & T5 & T6). destruct take_chain as (C1 & C2 & C3 & C4 & C5 & C6). destruct take_prevp as (P1 & P2 & P3). pose proof (hv_bytes _ _ _ I) as HB. unfold bend, KERNBASE in T5, T6. cbn [fst snd] in T5.
  assert (HU : forall x, 0 <= x < 8 * n -> u32 (p + x) = p + x) by (intros x Hx; apply u32_small; lia). assert (HP : forall j, 0 <= j < n -> plus p j = p + 8 * j) by (intros j Hj; unfold plus; apply HU; lia).
  unfold take_block. apply wp_bind. destruct (Z.eqb_spec n nu) as [En|Hne].
  - apply wp_bind. unfold ptr. apply wp_word; [lia|lia|]. rewrite C4. apply wp_bind. unfold set_ptr. apply wp_set_word; [done|lia|unfold KERNBASE; lia|]. intros m' B' E' O'. apply wp_ret, wp_bind, wp_modify, wp_ret.
    assert (E1 : plus p 1 = p + 8) by (unfold plus; rewrite u32_small; lia). rewrite E1. apply HQ. by apply wp_take_whole.
  - apply wp_bind. unfold set_size at 1. apply wp_set_word; [done|lia|unfold KERNBASE; lia|]. intros m1 B1 E1 O1. rewrite HP by lia. set (q := p + 8 * (n - nu)). assert (Hq : p + 8 <= q /\ q + 8 <= p + 8 * n) by (unfold q; lia). apply wp_bind. unfold set_size. apply wp_set_word; [done|lia|cbn; unfold KERNBASE; lia|].
    intros m2 B2 E2 O2. apply wp_ret, wp_bind, wp_modify, wp_ret. assert (E3 : plus q 1 = q + 8) by (unfold plus; rewrite u32_small; lia). rewrite E3. apply HQ. cbn [hm set_hm] in O2. apply wp_take_part; [done| | | |lia].
    + rewrite (ld32_ext m1); [rewrite E1; apply u32_small; lia|lia|lia|]. intros x Hx. apply O2. lia.
    + change (ld32 m2 (q + 4) = nu). rewrite E2. apply u32_small. lia.
    + intros x X1 X2. change (x < q + 4 \/ q + 8 <= x) in X2. rewrite O2 by lia. apply O1. lia.
Qed.
End Take.

(** The size morecore() asks for. *)
Definition core (nu : Z) : Z := Z.max nu 4096.
Definition refused (nu : Z) (s : uheap) : Prop := KERNBASE <= brk s + 8 * core nu \/ quota s < brk s + 8 * core nu.

(** The process has grown, and the new memory is free. *)
Definition grows (l used : list blk) (nu : Z) (s s' : uheap) : Prop :=
  brk s' = brk s + 8 * core nu /\ same_on used (hm s) (hm s') /\
  exists l', heap_inv l' used s' /\ (forall a, free_at l' a <-> free_at l a \/ brk s <= a < brk s') /\ (length l' <= S (length l))%nat /\ exists c, c ∈ l' /\ nu <= snd c.

Lemma wp_morecore l used nu s (Q : Z -> uheap -> Prop) : heap_inv l used s -> 0 < nu -> 8 * core nu < 2 ^ 31 -> (refused nu s -> Q 0 s) -> (forall s', grows l used nu s s' -> Q (freep s') s') -> wp (morecore nu) s Q.
Proof.
  intros I Hnu Hc HF HG. pose proof (hv_brk _ _ _ I) as HK. unfold KERNBASE in HK. unfold morecore. cbv zeta. assert (Ec : (if nu <? 4096 then 4096 else nu) = core nu) by (unfold core; destruct (Z.ltb_spec nu 4096); lia). rewrite Ec. assert (Hc0 : 4096 <= core nu /\ nu <= core nu) by (unfold core; lia).
  rewrite (i32_small (core nu * 8)) by lia. apply wp_bind. unfold sbrk. apply wp_bind, wp_gets. unfold id. cbv zeta. rewrite (u32_small (brk s + core nu * 8)) by lia. replace (core nu * 8 >? 0) with true by lia.
  destruct (Z.geb_spec (brk s + core nu * 8) KERNBASE) as [H1|H1]; [apply wp_ret; cbn [Z.eqb Pos.eqb]; apply wp_ret, HF; left; lia|]. replace (brk s + core nu * 8 <? brk s) with false by lia.
  destruct (Z.gtb_spec (brk s + core nu * 8) (quota s)) as [H2|H2]; [apply wp_ret; cbn [Z.eqb Pos.eqb]; apply wp_ret, HF; right; lia|]. apply wp_bind, wp_modify, wp_ret. replace (brk s =? -1) with false by lia. set (s1 := set_brk _ s). unfold KERNBASE in H1.
  apply wp_bind. unfold set_size. apply wp_set_word; [apply I|lia|cbn; unfold KERNBASE; lia|]. intros m1 B1 E1 O1. assert (Ep : plus (brk s) 1 = brk s + 8) by (unfold plus; rewrite u32_small; lia). rewrite Ep. rewrite (u32_small (core nu)) in E1 by lia.
  assert (SO : same_on used (hm s) m1). { intros u a Hu Ha. pose proof (hv_used _ _ _ I) as HU. rewrite Forall_forall in HU. destruct (HU u Hu) as (U1 & U2 & U3 & U4). apply O1. unfold in_block in Ha. lia. }
  assert (I1 : heap_inv l ((brk s, core nu) :: used) (set_hm m1 s1)).
  { pose proof (hv_used _ _ _ I) as HU. rewrite Forall_forall in HU. constructor; cbn [hm brk freep set_hm s1 set_brk]; [done|unfold KERNBASE; lia| | |apply I| | |].
    - eapply chain_frame; [apply I|]. apply Forall_forall. intros b Hb. destruct (ring_bounds l used s I b Hb). split_and!; [lia|lia|]. intros a Ha. apply O1. lia.
    - eapply sorted_hi; [apply I|lia].
    - apply Forall_cons. split; [unfold bend; cbn [fst snd]; split_and!; (lia || done)|]. apply Forall_forall. intros u Hu. destruct (HU u Hu) as (U1 & U2 & U3 & U4). split_and!; [done|done|lia|]. rewrite <- U4. unfold bend in U3. apply ld32_ext; [lia|lia|]. intros a Ha. apply O1. lia.
    - constructor; [|apply I]. apply Forall_forall. intros u Hu. destruct (HU u Hu) as (U1 & U2 & U3 & U4). right. done.
    - intros u b [->|Hu]%elem_of_cons Hb; [|by apply (hv_free _ _ _ I)]. right. apply (sorted_in _ _ _ _ (hv_sorted _ _ _ I) Hb). }
  apply wp_bind. eapply wp_free; [exact I1|]. intros s' (F1 & F2 & F3 & l' & F4 & F5 & F6 & c & F7 & F8). apply wp_gets, HG. cbn [brk hm set_hm s1 set_brk fst snd] in *. split_and!; [lia|by eapply same_on_trans|]. exists l'. split_and!; [done| |done|exists c; split; [done|lia]].
  intros a. rewrite F5. unfold in_block, bend. cbn [fst snd]. rewrite F1. assert (HH : brk s <= a < brk s + 8 * core nu <-> brk s <= a < brk s + core nu * 8) by lia. by rewrite HH.
Qed.

Section Loop.
Context (l used : list blk) (s : uheap) (I : heap_inv l used s) (nu : Z) (Hnu : 0 < nu) (f : nat) (fn : Z) (Hf : ((base, 0) :: l) !! f = Some (freep s, fn)).
Abbreviation L := ((base, 0) :: l).

(** A block that is large enough is taken. *)
Lemma wp_found i prevp k p n (Q : Z -> uheap -> Prop) : L !! i = Some (prevp, k) -> L !! rnext (length L) i = Some (p, n) -> nu <= n ->
  (forall q s', takes l used (q, nu) s s' -> Q (q + 8) s') -> wp (take_block nu prevp p n) s Q.
Proof.
  intros Ei Ej Hn HQ. unfold rnext in Ej. case_decide; [cbn in Ej; injection Ej as <- <-; lia|]. change (l !! i = Some (p, n)) in Ej. assert (El : l = take i l ++ (p, n) :: drop (S i) l) by (symmetry; by apply take_drop_middle).
  assert (Epre : (base, 0) :: take i l = take i L ++ [(prevp, k)]) by (change ((base, 0) :: take i l) with (take (S i) L); by apply take_S_r). pose proof I as I'. rewrite El in I'.
  eapply (wp_take_block (take i l) (drop (S i) l) used prevp k p n nu (take i L) s I' Epre ltac:(lia)). rewrite <- El. exact HQ.
Qed.

Lemma freep_index j n : L !! j = Some (freep s, n) -> j = f.
Proof.
  intros Ej. destruct (Nat.lt_total j f) as [H|[H|H]]; [|done|]; [destruct (ring_order l used s I j f _ _ H Ej Hf) as [H' _]|destruct (ring_order l used s I f j _ _ H Hf Ej) as [H' _]]; cbn in H'; lia.
Qed.

(** One round: the block is taken, or the loop goes on, or it has come to
    freep and found nothing. *)
Lemma wp_round fuel i prevp k p n (Q : Z -> uheap -> Prop) (j := rnext (length L) i) : L !! i = Some (prevp, k) -> L !! j = Some (p, n) -> (forall q s', takes l used (q, nu) s s' -> Q (q + 8) s') ->
  (n < nu -> j <> f -> forall p' n', L !! rnext (length L) j = Some (p', n') -> wp (malloc_loop fuel nu p p') s Q) ->
  (n < nu -> j = f -> wp (let! p := morecore nu in if p =? 0 then ret 0 else let! nx := ptr p in malloc_loop fuel nu p nx) s Q) -> wp (malloc_loop (S fuel) nu prevp p) s Q.
Proof.
  intros Ei Ej HQ HN HM. cbn [malloc_loop]. destruct (ring_bounds l used s I (p, n)) as [B1 B2]; [by eapply list_elem_of_lookup_2|]. cbn [fst] in *. destruct (ring_lookup l used s I j (p, n) Ej) as ([p' n'] & En & E1 & E2 & _). cbn [fst snd] in *.
  apply wp_bind. unfold size. apply wp_word; [lia|lia|]. rewrite E2. destruct (Z.geb_spec n nu) as [Hn|Hn]; [by eapply wp_found|]. apply wp_bind, wp_gets. destruct (Z.eqb_spec p (freep s)) as [->|Hne].
  - apply HM; [done|by eapply freep_index].
  - apply wp_bind. unfold ptr. apply wp_word; [lia|lia|]. rewrite E1. eapply HN; [done| |exact En]. intros Hjf. rewrite Hjf, Hf in Ej. injection Ej as E _. congruence.
Qed.

(** A large enough block comes before freep, or is it. *)
Lemma wp_second g gp gn : L !! g = Some (gp, gn) -> nu <= gn -> forall fuel i prevp k p n (Q : Z -> uheap -> Prop) (j := rnext (length L) i), L !! i = Some (prevp, k) -> L !! j = Some (p, n) ->
  (rdist (length L) g j <= rdist (length L) f j)%nat -> (rdist (length L) g j < fuel)%nat -> (forall q s', takes l used (q, nu) s s' -> Q (q + 8) s') -> wp (malloc_loop fuel nu prevp p) s Q.
Proof.
  intros Eg Hg. induction fuel as [|fuel IH]; intros i prevp k p n Q j Ei Ej Hd Hfu HQ; [lia|]. pose proof (lookup_lt_Some _ _ _ Eg) as Lg. pose proof (lookup_lt_Some _ _ _ Ej) as Lj. pose proof (lookup_lt_Some _ _ _ Hf) as Lf.
  assert (Hjg : n < nu -> j <> g) by (intros Hn ->; rewrite Eg in Ej; injection Ej as -> ->; lia). eapply wp_round; [exact Ei|exact Ej|done| |].
  - intros Hn Hjf p' n' En. eapply IH; [exact Ej|exact En| | |done]; fold j; rewrite (rdist_step _ _ _ Lg Lj (Hjg Hn)) in Hfu, Hd; rewrite (rdist_step _ _ _ Lf Lj Hjf) in Hd; lia.
  - intros Hn Hjf. fold j in Hjf. rewrite Hjf, rdist_self in Hd. destruct (Hjg Hn). symmetry. rewrite Hjf. symmetry. apply (rdist_zero (length L)); [done|]. lia.
Qed.

End Loop.

Section Around.
Context (l used : list blk) (s : uheap) (I : heap_inv l used s) (nu : Z) (Hnu : 0 < nu) (f : nat) (fn : Z) (Hf : ((base, 0) :: l) !! f = Some (freep s, fn)).
Abbreviation L := ((base, 0) :: l).

(** Once around, and from freep on a second time. *)
Lemma wp_first fuel2 (Q : Z -> uheap -> Prop) : 8 * core nu < 2 ^ 31 -> (length L + 2 <= fuel2)%nat ->
  (forall q s', takes l used (q, nu) s s' -> Q (q + 8) s') ->
  ((forall b, b ∈ L -> snd b < nu) -> refused nu s -> Q 0 s) ->
  ((forall b, b ∈ L -> snd b < nu) -> forall q s1 s', grows l used nu s s1 -> (forall l1, heap_inv l1 used s1 -> (forall a, free_at l1 a <-> free_at l a \/ brk s <= a < brk s1) -> takes l1 used (q, nu) s1 s' -> Q (q + 8) s')) ->
  forall fuel i prevp k p n (j := rnext (length L) i), L !! i = Some (prevp, k) -> L !! j = Some (p, n) -> (rdist (length L) f j < fuel)%nat ->
  (forall x b, L !! x = Some b -> (rdist (length L) f j < rdist (length L) f x)%nat -> snd b < nu) -> wp (malloc_loop (fuel + fuel2) nu prevp p) s Q.
Proof.
  intros Hc Hf2 HT HR HG. pose proof (lookup_lt_Some _ _ _ Hf) as Lf. induction fuel as [|fuel IH]; intros i prevp k p n j Ei Ej Hfu HS; [lia|]. pose proof (lookup_lt_Some _ _ _ Ej) as Lj. cbn [Nat.add]. eapply (wp_round l used s I nu Hnu f fn Hf); [exact Ei|exact Ej|done| |].
  - intros Hn Hjf p' n' En. eapply IH; [exact Ej|exact En| |]; fold j; rewrite (rdist_step _ _ _ Lf Lj Hjf) in Hfu; [lia|]. intros x b Ex Hx. rewrite (rdist_step _ _ _ Lf Lj Hjf) in HS. destruct (decide (x = j)) as [->|Hxj]; [rewrite Ej in Ex; by injection Ex as <-|]. pose proof (lookup_lt_Some _ _ _ Ex) as Lx.
    apply (HS x b Ex). destruct (decide (rdist (length L) f x = rdist (length L) f j)) as [E|E]; [destruct Hxj; by apply (rdist_inj (length L) f)|]. rewrite (rdist_step _ _ _ Lf Lj Hjf) in E. lia.
  - intros Hn Hjf. fold j in Hjf. assert (HA : forall b, b ∈ L -> snd b < nu). { intros b (x & Ex)%list_elem_of_lookup. destruct (decide (x = j)) as [->|Hxj]; [rewrite Ej in Ex; by injection Ex as <-|]. apply (HS x b Ex). rewrite Hjf, rdist_self. pose proof (lookup_lt_Some _ _ _ Ex) as Lx. destruct (rdist (length L) f x) eqn:E; [|lia]. destruct Hxj. rewrite Hjf. by apply (rdist_zero (length L)). }
    apply wp_bind. eapply wp_morecore; [exact I|done|done|intros HRf; rewrite Z.eqb_refl; apply wp_ret; auto|]. intros s1 G1. pose proof G1 as (G2 & G3 & l1 & I1 & G4 & G5 & c & G6 & G7). destruct (hv_freep _ _ _ I1) as (f1 & m1 & E1). destruct (ring_bounds l1 used s1 I1 _ (list_elem_of_lookup_2 _ _ _ E1)) as [B1 B2]. cbn [fst] in *. replace (freep s1 =? 0) with false by lia.
    destruct (ring_lookup l1 used s1 I1 f1 _ E1) as ([p1 n1] & En & E2 & _). cbn [fst] in E2. apply wp_bind. unfold ptr. apply wp_word; [lia|lia|]. rewrite E2. apply list_elem_of_lookup in G6 as (g & Eg). destruct c as [gp gn]. pose proof (lookup_lt_Some _ _ _ E1) as L1. pose proof (lookup_lt_Some _ _ _ Eg) as L2.
    pose proof (rnext_lt (length ((base, 0) :: l1)) f1 L1) as L3. assert (L4 : (S g < length ((base, 0%Z) :: l1))%nat) by (cbn; lia). pose proof (rdist_lt _ _ _ L4 L3) as D1.
    eapply (wp_second l1 used s1 I1 nu Hnu f1 m1 E1 (S g) gp gn Eg G7 (fuel + fuel2) f1); [exact E1|exact En|rewrite (rdist_far _ _ L1); lia|cbn [length] in *; lia|]. intros q s' T. by eapply (HG HA q s1 s' G1 l1).
Qed.
End Around.

Lemma apart2_sym b b' : apart2 b b' -> apart2 b' b.
Proof. unfold apart2. tauto. Qed.

Lemma pairs_perm (l l' : list blk) : l ≡ₚ l' -> ForallOrdPairs apart2 l -> ForallOrdPairs apart2 l'.
Proof.
  induction 1 as [|b l l' HP IH|b c l|l l' l'' _ IH1 _ IH2]; intros H; [done| | |auto].
  - inversion_clear H as [|? ? HF HO]. constructor; [by rewrite <- HP|auto].
  - inversion_clear H as [|? ? HF HO]. inversion_clear HO as [|? ? HF' HO']. apply Forall_cons in HF as [Hbc HF]. constructor; [constructor; [by apply apart2_sym|done]|by constructor].
Qed.

Lemma heap_inv_perm l used used' s : used ≡ₚ used' -> heap_inv l used s -> heap_inv l used' s.
Proof. intros HP []. constructor; try done; [by rewrite <- HP|by eapply pairs_perm|]. intros b b' Hb. apply hv_free0. by rewrite HP. Qed.

(** The heap of a process: blocks behind base, or, before the first malloc(),
    nothing yet. *)
Definition heap (l used : list blk) (s : uheap) : Prop :=
  heap_inv l used s \/ l = [] /\ used = [] /\ freep s = 0 /\ bytes (hm s) /\ heap0 <= brk s <= KERNBASE.

(** The units of a request, header included. *)
Definition nunits (nbytes : Z) : Z := (nbytes + 7) / 8 + 1.

(** What malloc(nbytes) does: a block of free or new memory becomes a block
    in use; or there is none, nor can the process grow. *)
Definition malloc_gives (l used : list blk) (nbytes r : Z) (s s' : uheap) : Prop :=
  same_on used (hm s) (hm s') /\
  (r = 0 /\ heap l used s' /\ brk s' = brk s /\ (forall b, b ∈ l -> snd b < nunits nbytes) /\ refused (nunits nbytes) s \/
   exists q l', r = q + 8 /\ nbytes <= 8 * (nunits nbytes - 1) /\ heap l' ((q, nunits nbytes) :: used) s' /\
     (forall a, free_at l' a \/ in_block a (q, nunits nbytes) <-> free_at l a \/ brk s <= a < brk s') /\ (forall a, in_block a (q, nunits nbytes) -> ~ free_at l' a) /\
     (brk s' = brk s \/ forall b, b ∈ l -> snd b < nunits nbytes)).

Lemma wp_malloc_ready l used nbytes s : heap_inv l used s -> 0 <= nbytes <= 2 ^ 31 - 16 -> forall i m p n fuel, ((base, 0) :: l) !! i = Some (freep s, m) -> ((base, 0) :: l) !! rnext (length ((base, 0) :: l)) i = Some (p, n) -> (2 * S (length l) + 3 <= fuel)%nat ->
  wp (malloc_loop fuel (nunits nbytes) (freep s) p) s (fun r s' => malloc_gives l used nbytes r s s').
Proof.
  intros I Hb i m p n fuel Ei Ej Hfu. assert (Hnu : 0 < nunits nbytes /\ nbytes <= 8 * (nunits nbytes - 1) <= nbytes + 7) by (unfold nunits; zdm). pose proof (lookup_lt_Some _ _ _ Ei) as Li. pose proof (rnext_lt _ _ Li) as Lr. pose proof (rdist_lt _ _ _ Li Lr) as Ld.
  replace fuel with ((fuel - (S (length l) + 2)) + (S (length l) + 2))%nat by lia. eapply (wp_first l used s I (nunits nbytes) ltac:(lia) i m Ei (S (length l) + 2)%nat); [unfold core; lia|cbn [length]; lia| | | |exact Ei|exact Ej|cbn [length] in *; lia|].
  - intros q s' (T1 & T2 & T3 & l' & T4 & T5 & T6). split; [done|]. right. exists q, l'. split_and!; [done|lia|by left| |done|by left]. intros a. rewrite T5, T1. split; [tauto|intros [?|?]; [tauto|lia]].
  - intros HA HR. split; [done|]. left. split_and!; [done|by left|done| |done]. intros b Hb'. apply HA. by right.
  - intros HA q s1 s' (G1 & G2 & _) l1 I1 HF1 (T1 & T2 & T3 & l' & T4 & T5 & T6). split; [by eapply same_on_trans|]. right. exists q, l'. split_and!; [done|lia|by left| |done|right; intros b Hb'; apply HA; by right]. intros a. rewrite <- T5, HF1, T1. done.
  - intros x b Ex Hx. rewrite (rdist_far _ _ Li) in Hx. pose proof (lookup_lt_Some _ _ _ Ex) as Lx. pose proof (rdist_lt _ _ _ Li Lx). lia.
Qed.

Lemma wp_malloc l used nbytes s : heap l used s -> 0 <= nbytes <= 2 ^ 31 - 16 -> wp (malloc base nbytes) s (fun r s' => malloc_gives l used nbytes r s s').
Proof.
  intros HH Hb. unfold malloc. rewrite (u32_small (nbytes + 8 - 1)) by lia. replace (nbytes + 8 - 1) with (nbytes + 7) by lia. fold (nunits nbytes). apply wp_bind, wp_gets, wp_bind, wp_gets, wp_bind. destruct HH as [I|(-> & -> & E0 & HB & HK)].
  - destruct (hv_freep _ _ _ I) as (i & m & Ei). destruct (ring_bounds l used s I _ (list_elem_of_lookup_2 _ _ _ Ei)) as [B1 B2]. cbn [fst] in *. replace (freep s =? 0) with false by lia. apply wp_ret, wp_bind. unfold ptr. apply wp_word; [lia|lia|].
    destruct (ring_lookup l used s I i _ Ei) as ([p n] & En & E1 & _). cbn [fst] in E1. rewrite E1. eapply wp_malloc_ready; [done|done|exact Ei|exact En|]. pose proof (ring_fuel _ _ _ I). lia.
  - rewrite E0. cbn [Z.eqb]. unfold set_ptr, set_size. apply wp_bind, wp_modify, wp_bind, wp_set_word; [done|lia|cbn; lia|]. intros m1 B1 E1 O1. apply wp_bind, wp_set_word; [done|lia|cbn; lia|]. intros m2 B2 E2 O2. cbn [hm brk set_hm set_freep] in *. unfold KERNBASE in HK. apply wp_ret, wp_bind. unfold ptr. apply wp_word; [lia|cbn; lia|]. cbn [hm set_hm].
    assert (Eb : ld32 m2 base = base). { rewrite (ld32_ext m1); [rewrite E1; apply u32_small; lia|lia|lia|]. intros x Hx. apply O2. lia. } rewrite Eb. set (s2 := set_hm m2 _).
    assert (I2 : heap_inv [] [] s2). { constructor; cbn [hm brk freep s2 set_hm set_freep]; [done|unfold KERNBASE; lia| |cbn; lia|by exists 0%nat, 0|constructor|constructor|by intros ? ? ?%not_elem_of_nil]. cbn [chain head fst snd]. split_and!; [done|by rewrite E2|done]. }
    eapply wp_mono; [eapply (wp_malloc_ready [] [] nbytes s2 I2 Hb 0%nat 0 base 0); [done|done|]|].
    + pose proof (ring_fuel _ _ _ I2) as HF. unfold units in *. cbn [brk s2 set_hm set_freep length] in *. lia.
    + intros r s' [SO HM]. split; [by intros b a ?%not_elem_of_nil|exact HM].
Qed.

(** C12: malloc() and free() manage the memory of a process.  malloc() of up to
    two gigabytes always returns; what it returns is the start of a block of
    at least nbytes bytes that was free, or has just been got from the
    kernel, and is not part of any block in use; or it is 0, if no free block
    is large enough and the kernel has refused to grow the process.  free()
    of a block in use always returns and makes exactly its bytes free again.
    Both leave the contents of all other blocks in use alone, and no byte is
    lost: what is neither in use nor the kernel's to give is free. *)
Theorem umalloc_correct l used s : heap l used s ->
  (forall nbytes, 0 <= nbytes <= 2 ^ 31 - 16 -> exists r s', malloc base nbytes s = Ok r s' /\ malloc_gives l used nbytes r s s') /\
  (forall q n used', used ≡ₚ (q, n) :: used' -> exists s', free (q + 8) s = Ok tt s' /\ frees l used' (q, n) s s').
Proof.
  intros HH. split.
  - intros nbytes Hb. by apply wp_run, wp_malloc.
  - intros q n used' HP. destruct HH as [I|(_ & -> & _)]; [|by apply Permutation_nil_l in HP]. apply wp_run_unit. eapply wp_free; [by eapply heap_inv_perm|]. done.
Qed.
End Heap.

(** ** A process of two pages *)

Definition demo_heap : uheap := mk_uheap (fun _ => 0) 0 8192 1048576.

Lemma demo_heap_ok : heap 1000 4096 [] [] demo_heap.
Proof. right. by split_and!. Qed.

(** malloc(10): the three units at the end of the 4096 that the kernel gives. *)
Lemma umalloc_correct_witness : exists s', malloc 1000 10 demo_heap = Ok 40944 s' /\ malloc_gives 1000 4096 [] [] 10 40944 demo_heap s'.
Proof.
  destruct (umalloc_correct 1000 4096 ltac:(lia) ltac:(lia) [] [] demo_heap demo_heap_ok) as [HM _]. destruct (HM 10 ltac:(lia)) as (r & s' & E & HG).
  assert (Er : match malloc 1000 10 demo_heap with Ok r _ => r | _ => 0 end = 40944) by (vm_compute; reflexivity). rewrite E in Er. subst r. exists s'. split; [exact E|exact HG].
Defined.

(** malloc(UINT_MAX) gives a block that holds no byte: nbytes + 7 wraps. *)
Lemma malloc_wraps_around : exists s' m, malloc 1000 (2 ^ 32 - 1) demo_heap = Ok 40960 s' /\ hm s' = m /\ ld32 m (40960 - 4) = 1.
Proof.
  assert (E : match malloc 1000 (2 ^ 32 - 1) demo_heap with Ok r s' => (r, ld32 (hm s') (40960 - 4)) | _ => (0, 0) end = (40960, 1)) by (vm_compute; reflexivity).
  destruct (malloc 1000 (2 ^ 32 - 1) demo_heap) as [r s'| | |]; try discriminate E. apply pair_equal_spec in E as [-> E]. exists s', (hm s'). split; [reflexivity|]. split; [reflexivity|exact E].
Qed.

(** malloc() of two gigabytes does not return 0: sbrk() is called with a
    negative size, does nothing, and morecore() stores behind the process. *)
Lemma malloc_two_gigabytes_crashes : malloc 1000 (2 ^ 31) demo_heap = Undef "access outside the process".
Proof. vm_compute. reflexivity. Qed.
