(* ===== verification/Uprog.v ===== *)
(** printf() of the user library (printf.c), and the programs wc, cat and echo
    (wc.c, cat.c, echo.c). *)

From Stdlib Require Import ZArith Lia.
From stdpp Require Import base gmap strings numbers list.
From S2P Require Import Prelude Kstring Mem Ulib.

Open Scope Z_scope.
Open Scope kern_scope.

(** * printf *)

Definition add_write (fd : Z) (l : list Z) (u : uproc) : uproc := mk_uproc (umem u) (uin u) (usched u) (uwrites u ++ [(fd, l)]).

(** write() of one character, a local variable *)
Definition putc (fd c : Z) : M uproc unit := modify (add_write fd [u8 c]).

Fixpoint putc_all (fd : Z) (l : list Z) : M uproc unit :=
  match l with
  | [] => ret tt
  | c :: r => putc fd c ;;; putc_all fd r
  end.

Definition udigits : list Z := codes "0123456789ABCDEF".

(** The do-while loop; buf[16] is filled from its start. *)
Fixpoint digit_loop (fuel : nat) (x base : Z) (buf : list Z) : M uproc (list Z) :=
  match fuel with
  | O => blocked
  | S fuel' =>
      require (Z.of_nat (length buf) <? 16) "buf[i++]" ;;;
      let buf := buf ++ [aget 0 udigits (x mod base)] in
      if negb (x / base =? 0) then digit_loop fuel' (x / base) base buf else ret buf
  end.

Definition printint (fd xx base : Z) (sgn : bool) : M uproc unit :=
  let neg := sgn && (xx <? 0) in
  let x := if neg then u32 (- xx) else u32 xx in
  let! buf := digit_loop 17 x base [] in
  let! buf := (if neg then require (Z.of_nat (length buf) <? 16) "buf[i++]" ;;; ret (buf ++ [45]) else ret buf) in
  putc_all fd (rev buf).

(** The loop over the string at s. *)
Fixpoint put_string (fuel : nat) (fd s : Z) : M uproc unit :=
  match fuel with
  | O => blocked
  | S fuel' =>
      let! c := onmem (load8 s) in
      if c =? 0 then ret tt else putc fd c ;;; put_string fuel' fd (s + 1)
  end.

Section Printf.
Variable k : nat.            (* longer than every string *)
Variable args : nat -> Z.    (* the words after fmt on the stack *)

(** percent: state is '%'; ap: the arguments that have been used *)
Fixpoint printf_loop (fd : Z) (fmt : list Z) (percent : bool) (ap : nat) : M uproc unit :=
  match fmt with
  | [] => ret tt
  | c :: r =>
      let c := Z.land c 0xff in
      if negb percent then
        if c =? 37 then printf_loop fd r true ap
        else putc fd c ;;; printf_loop fd r false ap
      else if c =? 100 then printint fd (i32 (args ap)) 10 true ;;; printf_loop fd r false (S ap)
      else if (c =? 120) || (c =? 112) then printint fd (i32 (args ap)) 16 false ;;; printf_loop fd r false (S ap)
      else if c =? 115 then
        (if args ap =? 0 then putc_all fd (codes "(null)") else put_string k fd (args ap)) ;;;
        printf_loop fd r false (S ap)
      else if c =? 99 then putc fd (args ap) ;;; printf_loop fd r false (S ap)
      else if c =? 37 then putc fd c ;;; printf_loop fd r false ap
      else putc fd 37 ;;; putc fd c ;;; printf_loop fd r false ap
  end.

Definition printf (fd : Z) (fmt : list Z) : M uproc unit := printf_loop fd fmt false 0.
End Printf.

(** * wc *)

Definition BUF : Z := 512.

(** strchr() of c in the constant string of white space *)
Definition is_ws (c : Z) : bool := bool_decide (c ∈ [32; 13; 9; 10; 11]).

Record counts := mk_counts { wc_l : Z; wc_w : Z; wc_c : Z; wc_inword : bool }.

(** i++ of an int *)
Definition incr (v : Z) : M uproc Z := require (v <? 2 ^ 31 - 1) "int overflow" ;;; ret (v + 1).

(** The for loop over the n characters at buf + i. *)
Fixpoint wc_chars (n : nat) (p : Z) (a : counts) : M uproc counts :=
  match n with
  | O => ret a
  | S n' =>
      let! c := incr (wc_c a) in
      let! b := onmem (load8 p) in
      let! l := (if b =? 10 then incr (wc_l a) else ret (wc_l a)) in
      let! (w, inword) :=
        (if is_ws b then ret (wc_w a, false)
         else if negb (wc_inword a) then let! w := incr (wc_w a) in ret (w, true)
         else ret (wc_w a, wc_inword a)) in
      wc_chars n' (p + 1) (mk_counts l w c inword)
  end.

Fixpoint wc_loop (fuel : nat) (buf fd : Z) (a : counts) : M uproc (Z * counts) :=
  match fuel with
  | O => blocked
  | S fuel' =>
      let! n := read fd buf BUF in
      if n >? 0 then
        let! a := wc_chars (Z.to_nat n) buf a in
        wc_loop fuel' buf fd a
      else ret (n, a)
  end.

(** false: exit() after a read error *)
Definition wc (k fuel : nat) (buf fd name : Z) : M uproc bool :=
  let! (n, a) := wc_loop fuel buf fd (mk_counts 0 0 0 false) in
  if n <? 0 then
    printf k (fun _ => 0) 1 (codes "wc: read error" ++ [10]) ;;;
    ret false
  else
    printf k (fun i => nth i [u32 (wc_l a); u32 (wc_w a); u32 (wc_c a); name] 0) 1 (codes "%d %d %d %s" ++ [10]) ;;;
    ret true.

(** * cat *)

(** The loop; false: exit() after a write error *)
Fixpoint cat_loop (fuel k : nat) (buf fd : Z) : M uproc (Z * bool) :=
  match fuel with
  | O => blocked
  | S fuel' =>
      let! n := read fd buf BUF in
      if n >? 0 then
        let! r := write 1 buf n in
        if negb (r =? n) then
          printf k (fun _ => 0) 1 (codes "cat: write error" ++ [10]) ;;;
          ret (n, false)
        else cat_loop fuel' k buf fd
      else ret (n, true)
  end.

Definition cat (k fuel : nat) (buf fd : Z) : M uproc bool :=
  let! (n, ok) := cat_loop fuel k buf fd in
  if ok && (n <? 0) then
    printf k (fun _ => 0) 1 (codes "cat: read error" ++ [10]) ;;;
    ret false
  else ret ok.

(** * echo *)

(** The loop of main() over argv from i on; space and newline: the addresses of
    the constant strings. *)
Fixpoint echo_loop (k : nat) (space newline : Z) (argv : list Z) : M uproc unit :=
  match argv with
  | [] => ret tt
  | a :: r =>
      printf k (fun i => nth i [a; if (length r =? 0)%nat then newline else space] 0) 1 (codes "%s%s") ;;;
      echo_loop k space newline r
  end.

(** ** What is printed *)

Definition udigit_val (c : Z) : Z := if c <? 65 then c - 48 else c - 55.

(** txt is the numeral of z: an optional minus sign and digits without leading
    zeros. *)
Definition numeral (base z : Z) (txt : list Z) : Prop := exists ds, txt = (if z <? 0 then 45 :: ds else ds) /\
  Forall (fun c => (48 <= c < 58 \/ 65 <= c < 71) /\ udigit_val c < base) ds /\
  foldl (fun v c => v * base + udigit_val c) 0 ds = Z.abs z /\ (ds = [48] \/ exists d r, ds = d :: r /\ d <> 48).

(** What a directive makes of the words args, and how many it uses. *)
Inductive directive (m : mem) (arg : Z) : Z -> list Z -> nat -> Prop :=
| dir_d txt : numeral 10 (i32 arg) txt -> directive m arg 100 txt 1
| dir_x c txt : c = 120 \/ c = 112 -> numeral 16 (u32 arg) txt -> directive m arg c txt 1
| dir_null : arg = 0 -> directive m arg 115 (codes "(null)") 1
| dir_s s : arg <> 0 -> cstr m arg s -> directive m arg 115 s 1
| dir_c : directive m arg 99 [u8 arg] 1
| dir_percent : directive m arg 37 [37] 0
| dir_other c : (c ∉ [100; 120; 112; 115; 99; 37]) -> directive m arg c [37; c] 0.

Inductive shows (m : mem) (args : nat -> Z) : list Z -> nat -> list Z -> Prop :=
| shows_nil ap : shows m args [] ap []
| shows_cut ap : shows m args [37] ap []
| shows_char c fmt ap out : c <> 37 -> shows m args fmt ap out -> shows m args (c :: fmt) ap (c :: out)
| shows_dir c fmt ap txt n out : directive m (args ap) c txt n -> shows m args fmt (ap + n) out -> shows m args (37 :: c :: fmt) ap (txt ++ out).

(** Every string of the format is there, and shorter than k. *)
Fixpoint strings_ok (m : mem) (k : nat) (args : nat -> Z) (fmt : list Z) (percent : bool) (ap : nat) : Prop :=
  match fmt with
  | [] => True
  | c :: r =>
      if negb percent then strings_ok m k args r (c =? 37) ap
      else if c =? 115 then (args ap = 0 \/ exists s, cstr m (args ap) s /\ (length s < k)%nat /\ Forall (fun c => 0 < c < 256) s) /\ strings_ok m k args r false (S ap)
      else strings_ok m k args r false (if (c =? 100) || (c =? 120) || (c =? 112) || (c =? 99) then S ap else ap)
  end.

Definition outs (fd : Z) (l : list Z) (u : uproc) : uproc := mk_uproc (umem u) (uin u) (usched u) (uwrites u ++ map (fun c => (fd, [c])) l).

Lemma outs_nil fd u : outs fd [] u = u.
Proof. destruct u. unfold outs. cbn. by rewrite app_nil_r. Qed.

Lemma outs_app fd a b u : outs fd b (outs fd a u) = outs fd (a ++ b) u.
Proof. unfold outs. cbn [uwrites umem uin usched]. by rewrite map_app, app_assoc. Qed.

Lemma wp_putc fd c u (Q : unit -> uproc -> Prop) : 0 <= c < 256 -> Q tt (outs fd [c] u) -> wp (putc fd c) u Q.
Proof. intros Hc HQ. apply wp_modify. unfold add_write. by rewrite u8_small. Qed.

Lemma wp_putc_all fd l : forall u (Q : unit -> uproc -> Prop), byte_list l -> Q tt (outs fd l u) -> wp (putc_all fd l) u Q.
Proof.
  induction l as [|c l IH]; intros u Q Hl HQ; cbn [putc_all]; [apply wp_ret; by rewrite outs_nil in HQ|]. apply Forall_cons in Hl as [Hc Hl]. apply wp_bind, wp_putc; [done|]. apply IH; [done|]. by rewrite outs_app.
Qed.

Lemma udigit_ok k : 0 <= k < 16 -> let c := aget 0 udigits k in (48 <= c < 58 \/ 65 <= c < 71) /\ udigit_val c = k /\ (k <> 0 -> c <> 48).
Proof.
  intros H. assert (Hall : Forall (fun k => (48 <= aget 0 udigits k < 58 \/ 65 <= aget 0 udigits k < 71) /\ udigit_val (aget 0 udigits k) = k /\ (k <> 0 -> aget 0 udigits k <> 48)) (seqZ 0 16)) by (apply (bool_decide_eq_true_1 _); vm_compute; reflexivity).
  rewrite Forall_seqZ in Hall. apply Hall. lia.
Qed.

Lemma wp_digit_loop base fuel : 2 <= base <= 16 -> forall n x buf u, (n <= fuel)%nat -> (0 < n)%nat -> Z.of_nat (length buf + n) <= 16 -> 0 <= x < base ^ Z.of_nat n ->
  wp (digit_loop fuel x base buf) u (fun b u' => u' = u /\ exists ds, b = buf ++ rev ds /\ Forall (fun c => (48 <= c < 58 \/ 65 <= c < 71) /\ udigit_val c < base) ds /\
    foldl (fun v c => v * base + udigit_val c) 0 ds = x /\ (length ds <= n)%nat /\ (ds = [48] \/ exists d r, ds = d :: r /\ d <> 48)).
Proof.
  intros Hb. induction fuel as [|fuel IH]; intros n x buf u Hn Hn0 Hl Hx; [lia|]. cbn [digit_loop]. apply wp_bind, wp_require; [lia|]. assert (Hm : 0 <= x mod base < base) by (apply Z.mod_pos_bound; lia). pose proof (Z.div_mod x base ltac:(lia)) as Hdm. destruct (udigit_ok (x mod base)) as (D1 & D2 & D3); [lia|]. set (d := aget 0 udigits (x mod base)) in *.
  destruct (Z.eqb_spec (x / base) 0) as [E|E]; cbn [negb].
  - apply wp_ret. split; [done|]. exists [d]. cbn [rev app foldl length]. split_and!; [done|constructor; [split; [done|lia]|constructor]|lia|lia|]. destruct (Z.eq_dec d 48) as [->|]; [by left|right; by exists d, []].
  - destruct n as [|[|n]]; [lia| |].
    { exfalso. apply E. apply Z.div_small. change (Z.of_nat 1) with 1 in Hx. rewrite Z.pow_1_r in Hx. done. }
    eapply wp_mono; [apply (IH (S n)); [lia|lia|rewrite length_app; cbn [length]; lia|]|].
    { rewrite Nat2Z.inj_succ, Z.pow_succ_r in Hx by lia. split; [apply Z.div_pos; lia|apply Z.div_lt_upper_bound; lia]. }
    cbn beta. intros b u' (-> & ds & -> & F1 & F2 & F3 & F4). split; [done|]. exists (ds ++ [d]). split_and!.
    + rewrite rev_app_distr. cbn [rev app]. by rewrite <- app_assoc.
    + apply Forall_app. split; [done|]. constructor; [split; [done|lia]|constructor].
    + rewrite foldl_app, F2. cbn [foldl]. lia.
    + rewrite length_app. cbn [length]. lia.
    + right. destruct F4 as [->|(e & r & -> & He)]; [cbn in F2; lia|]. exists e, (r ++ [d]). done.
Qed.

Lemma wp_uprintint fd xx base (sgn : bool) u (Q : unit -> uproc -> Prop) : 10 <= base <= 16 -> -2147483648 <= xx < 2147483648 ->
  (forall txt, numeral base (if sgn then xx else u32 xx) txt -> Q tt (outs fd txt u)) -> wp (printint fd xx base sgn) u Q.
Proof.
  intros Hb Hxx HQ. unfold printint. set (neg := sgn && (xx <? 0)). set (x := if neg then u32 (- xx) else u32 xx). set (z := if sgn then xx else u32 xx) in *.
  assert (Hz : neg = (z <? 0) /\ x = Z.abs z).
  { unfold neg, x, z, neg. pose proof (u32_range xx). destruct sgn; cbn [andb]; [|split; [symmetry; apply Z.ltb_ge|]; lia]. destruct (Z.ltb_spec xx 0); (split; [done|]); rewrite u32_small; lia. }
  destruct Hz as [Hneg Hx]. assert (Hr : 0 <= x < base ^ Z.of_nat 10).
  { assert (10 ^ 10 <= base ^ 10) by (apply Z.pow_le_mono_l; lia). change (Z.of_nat 10) with 10. pose proof (u32_range (- xx)). pose proof (u32_range xx). unfold x. destruct neg; lia. }
  apply wp_bind. eapply wp_mono; [apply (wp_digit_loop base 17 ltac:(lia) 10 x [] u); [lia|lia|cbn; lia|done]|]. cbn beta. intros b u' (-> & ds & -> & F1 & F2 & F3 & F4). cbn [app]. set (txt := if neg then 45 :: ds else ds).
  assert (Htxt : numeral base z txt) by (exists ds; split_and!; [unfold txt; by rewrite Hneg|done|by rewrite F2|done]). specialize (HQ txt Htxt). assert (Hd : byte_list ds) by (eapply Forall_impl; [exact F1|]; cbn beta; intros c [? _]; lia).
  apply wp_bind. unfold txt in HQ. destruct neg.
  - apply wp_bind, wp_require; [rewrite length_rev; lia|]. apply wp_ret, wp_putc_all; rewrite rev_app_distr, rev_involutive; cbn [rev app]; [|done]. constructor; [lia|done].
  - apply wp_ret, wp_putc_all; by rewrite rev_involutive.
Qed.

Lemma wp_put_string fuel fd s : forall p u (Q : unit -> uproc -> Prop), cstr (umem u) p s -> (length s < fuel)%nat -> Forall (fun c => 0 < c < 256) s -> Q tt (outs fd s u) -> wp (put_string fuel fd p) u Q.
Proof.
  revert fuel. induction s as [|c s IH]; intros [|fuel] p u Q (Hp & H) Hf Hc HQ; cbn [length] in Hf; try lia; cbn [put_string].
  - apply wp_bind, wp_onmem, (wp_load8 _ _ _ _ Hp H). cbn [Z.eqb]. apply wp_ret. rewrite outs_nil in HQ. by destruct u.
  - destruct H as (E & Hn & H). apply Forall_cons in Hc as [Hc1 Hc]. apply wp_bind, wp_onmem, (wp_load8 _ _ _ _ Hp E). rewrite (proj2 (Z.eqb_neq _ _)) by done. apply wp_bind, wp_putc; [lia|]. replace (with_umem (umem u) u) with u by (by destruct u). apply IH; [done|lia|done|]. by rewrite outs_app.
Qed.

Lemma land_byte c : 0 <= c < 256 -> Z.land c 0xff = c.
Proof. intros Hc. change 0xff with (Z.ones 8). rewrite Z.land_ones by lia. by apply Z.mod_small. Qed.

Lemma wp_printf_loop k args fd fmt : Forall (fun c => 0 < c < 256) fmt -> forall (percent : bool) ap u, strings_ok (umem u) k args fmt percent ap ->
  wp (printf_loop k args fd fmt percent ap) u (fun _ u' => exists out, u' = outs fd out u /\ shows (umem u) args (if percent then 37 :: fmt else fmt) ap out).
Proof.
  induction 1 as [|c fmt Hc Hf IH]; intros percent ap u HS; cbn [printf_loop].
  { apply wp_ret. exists []. rewrite outs_nil. split; [done|]. destruct percent; constructor. }
  assert (HK : forall ap' out0 txt, strings_ok (umem u) k args fmt false ap' -> (forall out, shows (umem u) args fmt ap' out -> shows (umem u) args (if percent then 37 :: c :: fmt else c :: fmt) ap (txt ++ out)) -> out0 = txt ->
    wp (printf_loop k args fd fmt false ap') (outs fd out0 u) (fun _ u' => exists out, u' = outs fd out u /\ shows (umem u) args (if percent then 37 :: c :: fmt else c :: fmt) ap out)).
  { intros ap' out0 txt H1 H2 ->. eapply wp_mono; [apply (IH false ap' (outs fd txt u)); exact H1|]. cbn beta. intros [] u' (out & -> & Hs). exists (txt ++ out). rewrite outs_app. split; [done|]. by apply H2. }
  rewrite land_byte by lia. cbn [strings_ok] in HS. destruct percent; cbn [negb] in *.
  - destruct (Z.eqb_spec c 115) as [->|N115].
    { cbn [Z.eqb Pos.eqb orb]. destruct HS as [Hs HS]. apply wp_bind. destruct (Z.eqb_spec (args ap) 0) as [E0|E0].
      - apply wp_putc_all; [by repeat constructor|]. eapply HK; [exact HS| |reflexivity]. intros out Ho. eapply (shows_dir _ _ 115 fmt ap _ 1); [by constructor|]. by rewrite Nat.add_1_r.
      - destruct Hs as [?|(s & H1 & H2 & H3)]; [done|]. apply (wp_put_string k fd s); [done|done|done|]. eapply HK; [exact HS| |reflexivity]. intros out Ho. eapply (shows_dir _ _ 115 fmt ap _ 1); [by constructor|]. by rewrite Nat.add_1_r. }
    destruct (Z.eqb_spec c 100) as [->|N100]; [|destruct (Z.eqb_spec c 120) as [E120|N120]; [|destruct (Z.eqb_spec c 112) as [E112|N112]; [|destruct (Z.eqb_spec c 99) as [->|N99]; [|destruct (Z.eqb_spec c 37) as [->|N37]]]]]; cbn [orb] in *.
    + apply wp_bind, wp_uprintint; [lia|apply i32_range|]. intros txt Ht. eapply HK; [exact HS| |reflexivity]. intros out Ho. eapply (shows_dir _ _ 100 fmt ap _ 1); [by constructor|]. by rewrite Nat.add_1_r.
    + apply wp_bind, wp_uprintint; [lia|apply i32_range|]. rewrite u32_i32. intros txt Ht. eapply HK; [exact HS| |reflexivity]. intros out Ho. eapply (shows_dir _ _ c fmt ap _ 1); [constructor; [by left|done]|]. by rewrite Nat.add_1_r.
    + apply wp_bind, wp_uprintint; [lia|apply i32_range|]. rewrite u32_i32. intros txt Ht. eapply HK; [exact HS| |reflexivity]. intros out Ho. eapply (shows_dir _ _ c fmt ap _ 1); [constructor; [by right|done]|]. by rewrite Nat.add_1_r.
    + apply wp_bind, wp_modify. eapply (HK _ [u8 (args ap)]); [exact HS| |reflexivity]. intros out Ho. eapply (shows_dir _ _ 99 fmt ap _ 1); [by constructor|]. by rewrite Nat.add_1_r.
    + apply wp_bind, wp_putc; [lia|]. eapply HK; [exact HS| |reflexivity]. intros out Ho. eapply (shows_dir _ _ 37 fmt ap _ 0); [by constructor|]. by rewrite Nat.add_0_r.
    + apply wp_bind, wp_putc; [lia|]. apply wp_bind, wp_putc; [lia|]. rewrite outs_app. eapply HK; [exact HS| |reflexivity]. intros out Ho. eapply (shows_dir _ _ c fmt ap _ 0); [apply dir_other; rewrite !not_elem_of_cons; split_and!; (done || apply not_elem_of_nil)|]. by rewrite Nat.add_0_r.
  - destruct (Z.eqb_spec c 37) as [->|N37]; [by apply IH|]. apply wp_bind, wp_putc; [lia|]. eapply (HK ap [c] [c]); [exact HS| |reflexivity]. intros out Ho. by constructor.
Qed.

(** printf() prints what the format says: characters as they are, %d and
    %x (or %p) as numerals without leading zeros, %s as the string at the
    argument or (null), %c, %% and unknown directives as in the code; one
    write() per character, and nothing else of the process changes. *)
Theorem printf_prints_format k args fd fmt u : Forall (fun c => 0 < c < 256) fmt -> strings_ok (umem u) k args fmt false 0 ->
  exists out, printf k args fd fmt u = Ok tt (outs fd out u) /\ shows (umem u) args fmt 0 out.
Proof.
  intros Hf HS. destruct (wp_run_unit _ _ _ (wp_printf_loop k args fd fmt Hf false 0 u HS)) as (u' & E & out & -> & Hs). by exists out.
Qed.

(** ** Formats taken apart *)

Lemma shows_d m args fmt ap out : shows m args (37 :: 100 :: fmt) ap out -> exists txt out', numeral 10 (i32 (args ap)) txt /\ out = txt ++ out' /\ shows m args fmt (S ap) out'.
Proof.
  inversion 1 as [| |c f p o Hc|c f p txt n o Hd Hs]; subst; [done|]. inversion Hd as [t Ht|c t Hc Ht| | | | |c Hc]; subst; [exists txt, o; by rewrite Nat.add_1_r in Hs|lia|]. exfalso. apply Hc. set_solver.
Qed.

Lemma cstr_inj m s : forall p t, cstr m p s -> cstr m p t -> s = t.
Proof.
  induction s as [|c s IH]; intros p [|d t] (_ & H1) (_ & H2); [done|destruct H2 as (? & ? & _); lia|destruct H1 as (? & ? & _); lia|]. destruct H1 as (<- & _ & H1), H2 as (<- & _ & H2). f_equal. by eapply IH.
Qed.

Lemma shows_s m args fmt ap out s : shows m args (37 :: 115 :: fmt) ap out -> args ap <> 0 -> cstr m (args ap) s -> exists out', out = s ++ out' /\ shows m args fmt (S ap) out'.
Proof.
  intros HS H0 HC. inversion HS as [| |c f p o Hc|c f p txt n o Hd Hs]; subst; [done|]. inversion Hd as [|c t Hc Ht| |t Ht0 Ht| | |c Hc]; subst; [lia|done| |]; [|exfalso; apply Hc; set_solver].
  exists o. rewrite Nat.add_1_r in Hs. split; [|done]. f_equal. by eapply cstr_inj.
Qed.

Lemma shows_lit m args c fmt ap out : c <> 37 -> shows m args (c :: fmt) ap out -> exists out', out = c :: out' /\ shows m args fmt ap out'.
Proof. intros Hc HS. inversion HS; subst; [done| |done]. eauto. Qed.

Lemma shows_end m args ap out : shows m args [] ap out -> out = [].
Proof. by inversion 1. Qed.

(** ** wc *)

Definition lines (s : list Z) : Z := Z.of_nat (length (filter (fun c => c = 10) s)).

(** The run of other characters that s begins with, and the words after it. *)
Fixpoint runs (s : list Z) : list Z * list (list Z) :=
  match s with
  | [] => ([], [])
  | c :: r =>
      let (w, ws) := runs r in
      if is_ws c then ([], if bool_decide (w = []) then ws else w :: ws) else (c :: w, ws)
  end.
(** The words of s: its maximal runs of characters that are not white space. *)
Definition text_words (s : list Z) : list (list Z) := let (w, ws) := runs s in if bool_decide (w = []) then ws else w :: ws.

(** The words that begin in s, after white space or inside of a word. *)
Fixpoint starts (inword : bool) (s : list Z) : Z :=
  match s with
  | [] => 0
  | c :: r => if is_ws c then starts false r else (if inword then 0 else 1) + starts true r
  end.
Fixpoint ends (inword : bool) (s : list Z) : bool :=
  match s with
  | [] => inword
  | c :: r => ends (negb (is_ws c)) r
  end.

Lemma starts_words s : starts false s = Z.of_nat (length (text_words s)) /\ starts true s = Z.of_nat (length (snd (runs s))).
Proof.
  unfold text_words. induction s as [|c s [IH1 IH2]]; [done|]. cbn [starts runs]. destruct (runs s) as [w ws]. cbn [snd] in *. destruct (is_ws c); cbn [snd].
  - by rewrite bool_decide_eq_true_2 by done.
  - rewrite bool_decide_eq_false_2 by done. cbn [length]. lia.
Qed.

Lemma starts_bound s : forall b, 0 <= starts b s <= Z.of_nat (length s).
Proof. induction s as [|c s IH]; intros b; cbn [starts length]; [lia|]. pose proof (IH false). pose proof (IH true). destruct (is_ws c), b; lia. Qed.

Lemma starts_app s t : forall b, starts b (s ++ t) = starts b s + starts (ends b s) t.
Proof. induction s as [|c s IH]; intros b; cbn [app starts ends]; [lia|]. destruct (is_ws c); cbn [negb]; rewrite IH; lia. Qed.

Lemma ends_app s t : forall b, ends b (s ++ t) = ends (ends b s) t.
Proof. induction s as [|c s IH]; intros b; cbn [app ends]; [done|apply IH]. Qed.

Lemma lines_cons c s : lines (c :: s) = (if c =? 10 then 1 else 0) + lines s.
Proof. unfold lines. rewrite filter_cons. destruct (Z.eqb_spec c 10); [rewrite decide_True by done; cbn [length]; lia|by rewrite decide_False]. Qed.

Lemma lines_bound s : 0 <= lines s <= Z.of_nat (length s).
Proof. unfold lines. pose proof (length_filter (fun c => c = 10) s). lia. Qed.

Lemma lines_app s t : lines (s ++ t) = lines s + lines t.
Proof. unfold lines. rewrite filter_app, length_app. lia. Qed.

(** The counts after s. *)
Definition counted (a : counts) (s : list Z) : counts := mk_counts (wc_l a + lines s) (wc_w a + starts (wc_inword a) s) (wc_c a + Z.of_nat (length s)) (ends (wc_inword a) s).

Lemma counted_app a s t : counted (counted a s) t = counted a (s ++ t).
Proof. unfold counted. cbn [wc_l wc_w wc_c wc_inword]. rewrite lines_app, starts_app, ends_app, length_app. f_equal; lia. Qed.

Lemma wp_incr v u (Q : Z -> uproc -> Prop) : v < 2 ^ 31 - 1 -> Q (v + 1) u -> wp (incr v) u Q.
Proof. intros Hv HQ. apply wp_bind, wp_require; [lia|]. by apply wp_ret. Qed.

Lemma wp_wc_chars s : forall p a u (Q : counts -> uproc -> Prop), 0 <= p -> p + Z.of_nat (length s) <= 2 ^ 32 -> (forall i, 0 <= i < Z.of_nat (length s) -> umem u (p + i) = aget 0 s i) ->
  wc_l a <= wc_c a -> wc_w a <= wc_c a -> wc_c a + Z.of_nat (length s) < 2 ^ 31 -> Q (counted a s) u -> wp (wc_chars (length s) p a) u Q.
Proof.
  induction s as [|c s IH]; intros p a u Q Hp Hp1 Hm Hl Hw Hc HQ; cbn [wc_chars length] in *.
  { apply wp_ret. unfold counted, lines in HQ. cbn in HQ. rewrite !Z.add_0_r in HQ. by destruct a. }
  assert (E0 : umem u p = c) by (specialize (Hm 0 ltac:(lia)); by rewrite Z.add_0_r in Hm). apply wp_bind, wp_incr; [lia|]. apply wp_bind, wp_onmem, (wp_load8 _ _ c); [lia|done|]. replace (with_umem (umem u) u) with u by (by destruct u).
  set (l' := wc_l a + (if c =? 10 then 1 else 0)). set (w' := if is_ws c then wc_w a else wc_w a + (if wc_inword a then 0 else 1)).
  assert (HK : wp (wc_chars (length s) (p + 1) (mk_counts l' w' (wc_c a + 1) (negb (is_ws c)))) u Q).
  { apply IH; cbn [wc_l wc_w wc_c]; [lia|lia| |unfold l'; destruct (c =? 10); lia|unfold w'; destruct (is_ws c), (wc_inword a); lia|lia|].
    - intros i Hi. replace (p + 1 + i) with (p + (1 + i)) by lia. rewrite Hm by lia. change (c :: s) with ([c] ++ s). rewrite aget_app by lia. cbn [length]. rewrite (proj2 (Z.ltb_ge _ _)) by lia. f_equal. lia.
    - replace (counted _ s) with (counted a (c :: s)); [done|]. unfold counted. cbn [wc_l wc_w wc_c wc_inword starts ends length]. rewrite lines_cons. unfold l', w'. destruct (is_ws c), (wc_inword a); cbn [negb]; f_equal; lia. }
  apply wp_bind. unfold l', w' in HK. destruct (c =? 10).
  - apply wp_incr; [lia|]. apply wp_bind. destruct (is_ws c); [by apply wp_ret|]. destruct (wc_inword a) eqn:Ei; cbn [negb]; [apply wp_ret; by rewrite Z.add_0_r in HK|]. apply wp_bind, wp_incr; [lia|]. by apply wp_ret.
  - rewrite Z.add_0_r in HK. apply wp_ret, wp_bind. destruct (is_ws c); [by apply wp_ret|]. destruct (wc_inword a) eqn:Ei; cbn [negb]; [apply wp_ret; by rewrite Z.add_0_r in HK|]. apply wp_bind, wp_incr; [lia|]. by apply wp_ret.
Qed.

(** ** Reading in pieces *)

(** Input is left on fd, and no read() of some of it returns nothing. *)
Record input (fd : Z) (inp : list Z) (u : uproc) : Prop := {
  in_left : uin u fd = inp;
  in_byte : byte_list inp;
  in_sched : Forall (fun n => 0 < n)%nat (usched u);
  in_mem : bytes (umem u)
}.

(** Only the buffer has changed. *)
Definition but_buffer (buf : Z) (u u' : uproc) : Prop := forall x, x < buf \/ buf + BUF <= x -> umem u' x = umem u x.

Lemma wp_read_piece fd buf inp u (Q : Z -> uproc -> Prop) : input fd inp u -> 0 <= buf -> buf + BUF <= 2 ^ 32 ->
  (inp = [] -> forall u', input fd [] u' -> uwrites u' = uwrites u -> but_buffer buf u u' -> Q 0 u') ->
  (forall a b u', inp = a ++ b -> a <> [] -> Z.of_nat (length a) <= BUF -> input fd b u' -> uwrites u' = uwrites u -> but_buffer buf u u' ->
     (forall i, 0 <= i < Z.of_nat (length a) -> umem u' (buf + i) = aget 0 a i) -> Q (Z.of_nat (length a)) u') -> wp (read fd buf BUF) u Q.
Proof.
  intros [I1 I2 I3 I4] H0 H1 HE HQ. unfold BUF in *. set (k := Z.max 0 (read_count (usched u) 512 (Z.of_nat (length inp)))).
  assert (Hk : 0 <= k <= 512 /\ k <= Z.of_nat (length inp) /\ (k = 0 -> inp = [])).
  { unfold k, read_count. destruct (usched u) as [|n r]; [|apply Forall_cons in I3 as [I3 _]]; (split; [lia|]; split; [lia|]; intros E; apply length_zero_iff_nil; lia). }
  assert (S3 : Forall (fun n => 0 < n)%nat (tl (usched u))) by (destruct (usched u); [done|by apply Forall_cons in I3 as [_ ?]]).
  apply wp_read; rewrite ?I1; fold k; [lia|lia|done|]. intros u' E1 E2 E3 B M. assert (E1' : uin u' fd = drop (Z.to_nat k) inp) by (rewrite E1, Z.eqb_refl; done).
  assert (HB : but_buffer buf u u') by (intros x Hx; unfold BUF in Hx; rewrite M; by rewrite (proj2 (within_false _ _ _)) by lia).
  destruct (Z.eq_dec k 0) as [Ek|Ek].
  - rewrite Ek in *. assert (Einp : inp = []) by (by apply Hk). apply HE; [done| |done|done]. constructor; [by rewrite E1', Einp|constructor|by rewrite E2|done].
  - assert (La : Z.of_nat (length (take (Z.to_nat k) inp)) = k) by (rewrite length_take; lia). rewrite <- La at 1. apply (HQ (take (Z.to_nat k) inp) (drop (Z.to_nat k) inp)); [by rewrite take_drop|intros E; rewrite E in La; cbn in La; lia|lia| |done|done|].
    + constructor; [done|by apply Forall_drop|by rewrite E2|done].
    + intros i Hi. rewrite M, (proj2 (within_true _ _ _)) by lia. replace (buf + i - buf) with i by lia. rewrite La in Hi. rewrite u8_small by (by apply byte_aget). unfold aget. rewrite (proj2 (Z.ltb_ge _ _)) by lia. rewrite !nth_lookup, lookup_take_lt by lia. done.
Qed.

Lemma but_buffer_trans buf u u1 u2 : but_buffer buf u u1 -> but_buffer buf u1 u2 -> but_buffer buf u u2.
Proof. intros H1 H2 x Hx. rewrite H2 by done. by apply H1. Qed.

Lemma wp_wc_loop buf fd fuel : 0 <= buf -> buf + BUF <= 2 ^ 32 -> forall inp a u, input fd inp u -> (length inp < fuel)%nat -> wc_l a <= wc_c a -> wc_w a <= wc_c a -> wc_c a + Z.of_nat (length inp) < 2 ^ 31 ->
  wp (wc_loop fuel buf fd a) u (fun r u' => r = (0, counted a inp) /\ uwrites u' = uwrites u /\ but_buffer buf u u').
Proof.
  intros H0 H1. induction fuel as [|fuel IH]; intros inp a u HI Hf Hl Hw Hc; [lia|]. cbn [wc_loop]. apply wp_bind. eapply wp_read_piece; [exact HI|done|done| |].
  - intros -> u' _ E HB. cbn [Z.gtb Z.compare]. apply wp_ret. split_and!; [|done|done]. f_equal. unfold counted, lines. cbn. rewrite !Z.add_0_r. by destruct a.
  - intros s b u' -> Hs Hlen HI' E HB HM. assert (Hpos : (0 < length s)%nat) by (destruct s; [done|cbn; lia]). rewrite length_app in Hf, Hc. rewrite Z.gtb_ltb, (proj2 (Z.ltb_lt _ _)), Nat2Z.id by lia. apply wp_bind, wp_wc_chars; [done|lia|done|done|done|lia|].
    pose proof (lines_bound s). pose proof (starts_bound s (wc_inword a)). eapply wp_mono; [apply (IH b (counted a s) u' HI'); cbn [counted wc_l wc_w wc_c]; lia|]. cbn beta. intros r u2 (-> & E2 & HB2). split_and!; [by rewrite counted_app|by rewrite E2|by eapply but_buffer_trans].
Qed.

(** C40: wc() counts. Whatever pieces read() returns an input of less than
    2^31 bytes in, wc() prints, in decimal, the number of its newlines, the
    number of its words (maximal runs of characters that are not white space)
    and the number of its bytes, then the name (a string in memory outside the
    buffer) and a newline. *)
Theorem wc_counts k fuel buf fd name nm inp u : 0 <= buf -> buf + BUF <= 2 ^ 32 -> input fd inp u -> Z.of_nat (length inp) < 2 ^ 31 -> (length inp < fuel)%nat ->
  name <> 0 -> cstr (umem u) name nm -> name + Z.of_nat (length nm) < buf \/ buf + BUF <= name -> (length nm < k)%nat -> Forall (fun c => 0 < c < 256) nm ->
  exists u' tl tw tc, wc k fuel buf fd name u = Ok true u' /\ uwrites u' = uwrites u ++ map (fun c => (1, [c])) (tl ++ [32] ++ tw ++ [32] ++ tc ++ [32] ++ nm ++ [10]) /\
    numeral 10 (lines inp) tl /\ numeral 10 (Z.of_nat (length (text_words inp))) tw /\ numeral 10 (Z.of_nat (length inp)) tc.
Proof.
  intros H0 H1 HI Hlen Hfuel Hn0 Hnm Hap Hk Hch. pose proof (lines_bound inp) as BL. pose proof (starts_bound inp false) as BW. destruct (starts_words inp) as [EW _].
  destruct (wp_run (wc k fuel buf fd name) u (fun r u' => r = true /\ exists tl tw tc, uwrites u' = uwrites u ++ map (fun c => (1, [c])) (tl ++ [32] ++ tw ++ [32] ++ tc ++ [32] ++ nm ++ [10]) /\
    numeral 10 (lines inp) tl /\ numeral 10 (Z.of_nat (length (text_words inp))) tw /\ numeral 10 (Z.of_nat (length inp)) tc)) as (r & u' & E & -> & tl & tw & tc & H); [|by exists u', tl, tw, tc].
  unfold wc. apply wp_bind. eapply wp_mono; [by apply (wp_wc_loop buf fd fuel H0 H1 inp)|]. cbn beta. intros r u1 (-> & E1 & HB). cbn [Z.ltb Z.compare]. unfold counted. cbn [wc_l wc_w wc_c wc_inword]. rewrite !Z.add_0_l. apply wp_bind.
  assert (Hnm1 : cstr (umem u1) name nm) by (eapply cstr_ext; [|exact Hnm]; intros x Hx; apply HB; lia). set (args := fun i => nth i [u32 (lines inp); u32 (starts false inp); u32 (Z.of_nat (length inp)); name] 0).
  eapply wp_mono; [apply (wp_printf_loop k args 1 (codes "%d %d %d %s" ++ [10])); [apply (bool_decide_eq_true_1 _); reflexivity|]|].
  { cbn. split; [|done]. right. exists nm. done. }
  cbn beta. intros [] u2 (out & -> & HS). apply wp_ret. split; [done|]. cbn in HS. apply shows_d in HS as (tl & o1 & N1 & -> & HS). apply shows_lit in HS as (o2 & -> & HS); [|done]. apply shows_d in HS as (tw & o3 & N2 & -> & HS). apply shows_lit in HS as (o4 & -> & HS); [|done].
  apply shows_d in HS as (tc & o5 & N3 & -> & HS). apply shows_lit in HS as (o6 & -> & HS); [|done]. apply (shows_s _ _ _ _ _ nm) in HS as (o7 & -> & HS); [|done|done]. apply shows_lit in HS as (o8 & -> & HS); [|done]. apply shows_end in HS as ->.
  exists tl, tw, tc. cbn [args nth] in N1, N2, N3. rewrite i32_u32_small in N1, N2, N3 by lia. rewrite EW in N2. split_and!; [|done|done|done]. cbn [outs uwrites]. by rewrite E1.
Qed.

(** ** cat and echo *)

Lemma chars_list m p s : (forall i, 0 <= i < Z.of_nat (length s) -> m (p + i) = aget 0 s i) -> chars m p (length s) = s.
Proof.
  intros HM. apply (aget_ext 0); [apply length_chars|]. rewrite length_chars. intros i Hi. rewrite <- HM by lia. unfold aget, chars. rewrite (proj2 (Z.ltb_ge _ _)) by lia. rewrite (nth_indep _ 0 (m (p + Z.of_nat 0))) by (rewrite length_map, length_seq; lia).
  rewrite (map_nth (fun i => m (p + Z.of_nat i))), seq_nth by lia. f_equal. lia.
Qed.

(** cat() copies: whatever pieces the input comes in, what it writes to the
    standard output is the input. *)
Theorem cat_copies k fuel buf fd inp u : 0 <= buf -> buf + BUF <= 2 ^ 32 -> input fd inp u -> (length inp < fuel)%nat ->
  exists u' ps, cat k fuel buf fd u = Ok true u' /\ uwrites u' = uwrites u ++ map (pair 1) ps /\ concat ps = inp.
Proof.
  intros H0 H1 HI Hf. assert (W : wp (cat_loop fuel k buf fd) u (fun r u' => r = (0, true) /\ exists ps, uwrites u' = uwrites u ++ map (pair 1) ps /\ concat ps = inp)).
  { revert inp u HI Hf. induction fuel as [|fuel IH]; intros inp u HI Hf; [lia|]. cbn [cat_loop]. apply wp_bind. eapply wp_read_piece; [exact HI|done|done| |].
    - intros -> u' _ E _. apply wp_ret. split; [done|]. exists []. by rewrite E, app_nil_r.
    - intros s b u' -> Hs Hlen HI' E HB HM. assert (Hpos : (0 < length s)%nat) by (destruct s; [done|cbn; lia]). rewrite length_app in Hf. rewrite Z.gtb_ltb, (proj2 (Z.ltb_lt _ _)) by lia. apply wp_bind. unfold write. apply wp_bind, wp_modify, wp_ret. rewrite Z.eqb_refl, Nat2Z.id. cbn [negb].
      rewrite (chars_list _ _ s) by done. eapply wp_mono; [apply (IH b); [by destruct HI'|lia]|]. cbn beta. intros r u2 (-> & ps & E2 & <-). split; [done|]. exists (s :: ps). rewrite E2. cbn [uwrites]. rewrite E, <- app_assoc. done. }
  destruct (wp_run (cat k fuel buf fd) u (fun r u' => r = true /\ exists ps, uwrites u' = uwrites u ++ map (pair 1) ps /\ concat ps = inp)) as (r & u' & E & -> & ps & H); [|by exists u', ps].
  unfold cat. apply wp_bind. eapply wp_mono; [exact W|]. cbn beta. intros r u' (-> & H). cbn [Z.ltb Z.compare andb]. by apply wp_ret.
Qed.

(** The arguments with spaces between them and a newline at the end. *)
Fixpoint joined (args : list (list Z)) : list Z :=
  match args with
  | [] => []
  | [a] => a ++ [10]
  | a :: r => a ++ 32 :: joined r
  end.

(** echo prints its arguments, with a space between two and a newline after
    the last. *)
Theorem echo_prints_arguments k space newline argv strs u : space <> 0 -> newline <> 0 -> cstr (umem u) space [32] -> cstr (umem u) newline [10] -> (1 < k)%nat ->
  Forall2 (fun a s => a <> 0 /\ cstr (umem u) a s /\ (length s < k)%nat /\ Forall (fun c => 0 < c < 256) s) argv strs ->
  echo_loop k space newline argv u = Ok tt (outs 1 (joined strs) u).
Proof.
  intros Hs0 Hn0 Hs Hn Hk HA. destruct (wp_run_unit (echo_loop k space newline argv) u (fun u' => u' = outs 1 (joined strs) u)) as (u' & E & ->); [|done].
  remember (umem u) as m eqn:Em. revert u Em. induction HA as [|a s argv strs (Ha & Hc & Hl & Hb) HA IH]; intros u Em; cbn [echo_loop]; [apply wp_ret; by rewrite outs_nil|]. apply wp_bind. set (sep := if (length argv =? 0)%nat then newline else space). set (c := if (length argv =? 0)%nat then 10 else 32).
  assert (Hsep : sep <> 0 /\ cstr m sep [c] /\ 0 < c < 256) by (unfold sep, c; by destruct (length argv =? 0)%nat). destruct Hsep as (Hp0 & Hp & Hpc). set (args := fun i => nth i [a; sep] 0).
  eapply wp_mono; [apply (wp_printf_loop k args 1 (codes "%s%s")); [apply (bool_decide_eq_true_1 _); reflexivity|]|].
  { rewrite <- Em. cbn. split; [right; by exists s|]. split; [right; exists [c]; split_and!; [done|cbn; lia|constructor; [done|constructor]]|done]. }
  cbn beta. rewrite <- Em. intros [] u1 (out & -> & HS). cbn in HS. apply (shows_s _ _ _ _ _ s) in HS as (o1 & -> & HS); [|done|done]. apply (shows_s _ _ _ _ _ [c]) in HS as (o2 & -> & HS); [|done|done]. apply shows_end in HS as ->. rewrite app_nil_r.
  eapply wp_mono; [by apply IH|]. cbn beta. intros [] u2 ->. rewrite outs_app. f_equal. inversion HA; subst; cbn [joined length Nat.eqb] in *; subst c; cbn [length Nat.eqb]; [by rewrite app_nil_r|]. by rewrite <- app_assoc.
Qed.

(** "ab c", a newline and "d", in pieces of two bytes and more; the name "f" is
    at 1000. *)
Definition wc_demo : uproc := mk_uproc (fun x => if x =? 1000 then 102 else 0) (fun fd => if fd =? 3 then [97; 98; 32; 99; 10; 100] else []) [2; 1]%nat [].

Lemma wc_counts_witness : exists u' tl tw tc, wc 2 7 2000 3 1000 wc_demo = Ok true u' /\ uwrites u' = map (fun c => (1, [c])) (tl ++ [32] ++ tw ++ [32] ++ tc ++ [32] ++ [102] ++ [10]) /\
  numeral 10 1 tl /\ numeral 10 3 tw /\ numeral 10 6 tc.
Proof.
  apply (wc_counts 2 7 2000 3 1000 [102] [97; 98; 32; 99; 10; 100] wc_demo).
  - lia.
  - unfold BUF. lia.
  - constructor; [reflexivity|repeat constructor; lia|repeat constructor|]. intros x. cbn. destruct (x =? 1000); lia.
  - cbn. lia.
  - cbn. lia.
  - lia.
  - repeat split; cbn; lia.
  - cbn. lia.
  - cbn. lia.
  - repeat constructor; lia.
Defined.

Example wc_demo_output : match wc 2 7 2000 3 1000 wc_demo with Ok _ u' => concat (map snd (uwrites u')) | _ => [] end = codes "1 3 6 f" ++ [10].
Proof. vm_compute. reflexivity. Qed.
